(* ===== verification/_CoqProject ===== *)
-Q . S2P
Prelude.v
PyStr.v
Uuid.v
Digits.v
Base64.v
PyFloat.v
PyObject.v
JsonFacts.v
Json.v
JsonText.v
Domain.v
Sha256.v
Ports.v
Receipt.v
IsoTime.v
Tokens.v
Db.v
Session.v
Exec.v
Evolution.v
OrderLife.v
Tasks.v
Jobs.v
Store.v
Url.v
IpAddress.v
Settings.v
Payments.v
Reference.v
CheckoutUrl.v
Proofs.v
Outbox.v
Ots.v
Calendars.v
Bitcoin.v
Esplora.v
BitcoinRpc.v
Metbull.v
MetbullUpdate.v
MetbullFacts.v
TaskHttp.v
Webhooks.v
Sender.v
Config.v
Http.v
Gateway.v
Zip.v
Bundle.v
Handlers.v
Worker.v
Compose.v
Operator.v
JobLife.v
OutboxLife.v
Growth.v
OrderOps.v
Evidence.v
Api.v
System.v
Serves.v
Adapters.v
Refine.v
Scenario.v
SqlSchema.v
Migrations.v
Metadata.v
Rows.v
SchemaFacts.v
Triggers.v
Service.v
LeaseFacts.v
AttemptLife.v
RateFacts.v
Processes.v
NotifyFacts.v
GatewayFacts.v
PaidFacts.v
WebhookFacts.v
DataMigration.v
Findings.v
