(* ===== verification/Prelude.v ===== *)
(** * The Space Rocks timestamp service, verified

    A library about [src/timestamp-service], the Python service that sells Bitcoin
    timestamps of manifests.  A customer checks out (an order with an immutable snapshot of
    the digest, the price and the consents), the payment provider reports the payment, a
    worker submits the digest to OpenTimestamps calendars, upgrades the proof, verifies it
    against Bitcoin, delivers a bundle and notifies the customer by mail.

    ** The program and its model

    Every process of the service (the API, the payment and mail webhooks, the workers, the
    operator's commands) is stateless; they share the SQL database.  The model is therefore
    one [World.t] (file [Session]): the database ([Db.t], file [Db]), the wall clock, the
    stream of random identifiers and of random bytes, all of them arbitrary.  Python code
    that touches it is a computation [M A = World.t -> result A * World.t] (file [Prelude]):
    an exception is a [Raise], [with session.begin()] is [atomically], which undoes the
    database on an exception.  Code without effects is a function into [result].  Names of
    definitions are the names of the Python functions; a function whose body is long is cut
    where the code has a block (the transaction of [process] is [process_tx]).

    - [Prelude]: exceptions, the two monads, record update, [respects] (whatever a
      computation does, its start and end are related) and its proof search.
    - The parts of Python's standard library the code uses, executable: [PyStr] (text, bytes,
      integers, character classes of regular expressions), [Uuid], [Digits], [Base64],
      [PyFloat] (IEEE doubles), [PyObject] (values of any type, and the reading of JSON, total
      by [JsonFacts]), [Json] (the writing of JSON; [JsonText] reads it back), [Sha256] (with
      HMAC), [IsoTime], [Url], [IpAddress], [Zip].
    - [Domain]: [app/domain/]; [Tokens]: [app/security/tokens.py], [idempotency.py] and
      [app/auth/status_token.py]; [Ports]: the data of [app/ports/] and
      [app/payments/models.py]; [Settings] and [Config]: the fields of
      [app/config/settings.py] and the validators that accept them.
    - [Db]: the tables of [app/db/models.py] with their CHECK, UNIQUE and FOREIGN KEY
      constraints and listeners; [Session]: queries, [add], flush and transactions; [Exec]
      runs transactions symbolically.
    - [Store], [Jobs]: [app/db/repositories.py], [app/db/cleanup.py] and
      [app/jobs/models.py]; [Tasks], [TaskHttp]: [app/tasks/dispatch.py] and [http.py];
      [Proofs], [Outbox]: [app/db/fulfillment_adapters.py] and [notification_adapters.py].
    - [Payments] and [Gateway]: [app/payments/service.py] and [gateway.py]; [Reference] and
      [CheckoutUrl]: what is proved of order references and of checkout URLs.
    - [Ots]: [app/timestamping/detached.py] and [app/proofs/store.py]; [Calendars]:
      [app/timestamping/calendars.py] and the adapters of tests; [Bitcoin] and [Esplora]:
      [app/bitcoin/esplora.py]; [BitcoinRpc]: [app/bitcoin/rpc.py]; [Receipt], [Bundle]:
      [app/proofs/receipt.py] and [bundle.py].
    - [Handlers]: [app/fulfillment/]; [Worker]: [app/worker/runner.py] and
      [composition.py]; [Operator]: [app/worker/operator.py] and [scripts/].
    - [Webhooks], [Sender]: [app/notifications/].
    - [Metbull], [MetbullUpdate]: [app/metbull/] and [scripts/update_metbull_snapshot.py].
    - [Http]: [app/security/http.py] and the formatter of [app/observability/logging.py];
      [Api]: [app/api/]; [Compose]: [app/main.py], [app/task_main.py] and the builders.
    - [SqlSchema], [Migrations], [Metadata], [Rows], [Triggers], [DataMigration]:
      [migrations/versions/], as schemas, as triggers and as moves of rows.

    Processes interact only through transactions.  [System] is the abstract specification:
    [transaction d m] says that [m] is one of the transactions of the service, with the
    conditions its callers guarantee, [sys_step] is one of them (committed or rolled back),
    or anything that leaves the database alone, [service] is any sequence of them and
    [reachable] is what starts from an empty database.  Interleaving, retries, crashes
    between transactions, lost leases and duplicated deliveries are all sequences of these
    steps.  The purge of synthetic orders, which a production process refuses, and the
    migrations, which run while no process does, are not among them.

    ** What is proved

    - Invariants of every reachable database ([Service]): payment precedes fulfillment, a
      state that is shown has its evidence, proofs form a chain, evidence is append-only,
      keys are unique, jobs and messages are sound, and orders, jobs and messages evolve
      along their state machines.  They rest on the life cycles ([Evolution], [OrderLife],
      [JobLife], [OutboxLife]), on what each operation does to them ([OrderOps], [Growth],
      [Evidence]) and on the case analysis over the transactions ([System]).
    - Refinement ([Processes], [NotifyFacts], [GatewayFacts]): what the processes do is a run
      of [System].  [Serves] is the program logic (a postcondition for code between whose
      transactions other processes run) and the laws of the adapters, as classes; [Adapters]
      shows that the SQL adapters satisfy them, also with other processes between the calls;
      [Refine] verifies the handlers, the worker, the services, the routes and the operator
      against the laws.
    - Payments: a provider event is applied once and answered the same way ever after
      ([WebhookFacts]); an order becomes paid only on the provider's own word ([PaidFacts]),
      in the configured mode ([GatewayFacts]); checkout URLs lead to the session's page only
      ([CheckoutUrl]); order references encode the time and the random bytes ([Reference]);
      what a checkout accepts, the database stores and the workers can load ([Api]).
    - Jobs: a claim that was superseded can neither finish nor prolong ([LeaseFacts]); a due
      job is claimed ([AttemptLife]); a dispatched task is run ([TaskHttp]).
    - Proofs: the bounded walk over a timestamp tree decides the recursive property of the
      whole tree, and ends ([Ots]); a positive answer of a verifier rests on a block that
      commits to the proof ([Bitcoin], [BitcoinRpc]); requests go to allowed hosts at public
      addresses only ([Calendars], [Esplora]); what a bundle accepts and refuses ([Bundle]).
    - The edges: signatures of webhooks ([NotifyFacts]), security headers and limits of
      bodies ([Http]), the rate limit ([RateFacts]), tokens ([Tokens]), accepted settings
      start every process, given an engine and the clients, and live payments are gated
      ([Compose]).
    - The catalogue ([MetbullFacts]): it answers what the CSV file says, and an interrupted
      update is refused.
    - The database ([SchemaFacts], [Triggers], [DataMigration]): the migrations build the
      schema of the models (up to the server defaults of three columns), the triggers accept
      the legal updates and every delivery the code makes, and a revision, run once in each
      direction, keeps the evidence of the rows it moves.
    - [Findings] evaluates inputs on which the code does not do what it means to.
    - [Scenario] runs one order from checkout to delivery by evaluation; it supplies the
      concrete databases at which the theorems are applied.

    ** Choices

    A [str] holds code points below 256, except where the code reads arbitrary JSON or CSV,
    whose texts are lists of code points ([ustr] in [PyObject]); identifiers, digests and
    keys, which the code checks character by character, are ASCII.  An aware [datetime] is
    its microseconds since the epoch, and so are durations and timeouts.  Constraints are
    checked when a row is written, not at the flush, within the same transaction; the type of
    a UUID column is a condition of [Order.check], the widths of [varchar] columns
    and the range of integer columns appear in [Rows] only.  Triggers are what they answer to an update: nothing deletes evidence.

    Fuel: [validate_timestamp_tree] has [WALK_FUEL], 257, and the code stops by itself at its
    256th node, so the walk ends before its fuel does (proved in [Ots]); the reader of JSON
    has the length of its text, which is enough ([JsonFacts]) because every step consumes a
    character; Python's limit on the depth of recursion is not modelled.  The endless loops
    of the workers are modelled by any number of their rounds.

    What the code calls and the repository does not hold is a parameter of the definitions:
    the Stripe SDK, the resolver and the exchange of one HTTP request, the parsing,
    serialising and operations of OpenTimestamps (which may raise), the constructors of
    SQLAlchemy's engine and of the clients ([Compose]), SQLite, PostgreSQL's [md5], the task queue,
    [parsedate_to_datetime], the normalisation of email addresses, and how the event loop
    ends the race between a handler and its heartbeat.  The theorems assume of them only what
    they state: that they change the database through the service's own steps, or the
    documented law that is named in the hypothesis.

    ** Not modelled

    The conversion of requests and of the environment by pydantic and the HTTP framework
    itself; how SQLAlchemy sets up an engine, pools connections and waits for locks, and
    [migrations/env.py]; the interleaving of the calls that [asyncio.gather] starts, which
    run one after the other here; connections that are kept open; the command lines of the
    two workers and the loading of a factory by its name; the configuration of loggers.  They
    are input and output around the logic above. *)
From stdpp Require Export base list strings option relations.
From stdpp Require Import pretty.
From Stdlib Require Export ZArith Lia.
From Stdlib Require Export Init.Byte.

(** ** Record update

    [r <| field := v |>] is the Python attribute assignment [r.field = v] read as a
    function.  A record type declares its eta expansion once ([Eta]); the setter of any
    field is then found by instance search. *)

Class Eta (R : Type) := eta : R → R.
Class Setter {R E : Type} (proj : R → E) := set_field : (E → E) → R → R.
Arguments set_field {R E} proj {_} f r /.

Ltac head_of t := lazymatch t with ?f _ => head_of f | _ => t end.

Ltac solve_setter :=
  lazymatch goal with
  | |- @Setter ?R ?E ?p =>
      let i0 := constr:(@eta R _) in
      let i := lazymatch i0 with @eta _ ?x => x end in
      let h := head_of i in
      let b := constr:(fun (f : E → E) (r : R) =>
        ltac:(let e := eval cbv beta delta [h] in (i r) in
              lazymatch e with
              | context C [p r] => let e' := context C [f (p r)] in exact e'
              end)) in
      exact b
  end.
#[export] Hint Extern 1 (Setter _) => solve_setter : typeclass_instances.

Declare Scope record_scope.
Delimit Scope record_scope with record.
#[export] Set Warnings "-postfix-notation-not-level-1,-clear-no-such-hyp".
Notation "r '<|' p ':=' v '|>'" := (set_field p (λ _, v) r)
  (at level 1, left associativity, p at level 1, v at level 200) : record_scope.
Open Scope record_scope.

(** ** Python booleans

    [a == b], [a != b] and [a in l] are Python's comparisons on values whose equality is
    decidable; they are executable. *)

Declare Scope py_scope.
Delimit Scope py_scope with py.
Notation "a == b" := (bool_decide (a = b)) (at level 70, no associativity) : py_scope.
Notation "a != b" := (negb (bool_decide (a = b))) (at level 70, no associativity) : py_scope.
Notation "a 'is_in' l" := (bool_decide (a ∈ l)) (at level 70, no associativity) : py_scope.
Open Scope py_scope.

(** [x is None] and [x is not None]. *)
Definition is_none {A} (o : option A) : bool := match o with None => true | Some _ => false end.
Definition is_some {A} (o : option A) : bool := negb (is_none o).

(** Python's [a or b] on optional values that are falsy only when [None]. *)
Definition or_else {A} (o : option A) (d : A) : A := default d o.

Lemma is_none_true {A} (o : option A) : is_none o = true ↔ o = None.
Proof. destruct o; simpl; split; congruence. Qed.
Lemma is_none_false {A} (o : option A) : is_none o = false ↔ ∃ a, o = Some a.
Proof. destruct o; simpl; split; [eauto|congruence|congruence|intros [? [=]]]. Qed.
Lemma is_some_true {A} (o : option A) : is_some o = true ↔ ∃ a, o = Some a.
Proof. unfold is_some. rewrite negb_true_iff. apply is_none_false. Qed.

(** [len(l)] *)
Definition len {A} (l : list A) : Z := Z.of_nat (List.length l).

(** ** Exceptions

    Every exception class the modelled code raises or catches, with the message (or the
    [safe_code]) that the code attaches.  [Other] stands for an exception of a class the
    code does not name, raised by code outside the repository. *)

Inductive exn :=
| ValueError (msg : string)
| TypeError (msg : string)
| KeyError (msg : string)
| OverflowError (msg : string)
| RuntimeError (msg : string)
| IntegrityError
| CancelledError
| RetryableFulfillmentError (safe_code : string)
| ManualReviewError (safe_code : string)
| ConfirmationPending (msg : string)
| ProofValidationError (msg : string)
| BitcoinVerifierUnavailable (msg : string)
| BitcoinEvidenceInvalid (msg : string)
| SpecificJobRetryable (msg : string)
| TaskDispatchUnavailable (msg : string)
| CalendarUnavailable (msg : string)
| CheckoutUnavailable (msg : string)
| IdempotencyConflict (msg : string)
| CheckoutInProgress (msg : string)
| PaymentProviderError (msg : string)
| PaymentSignatureError (msg : string)
| ResendRetryableError (safe_error_code : string) (response_status : option Z)
| ResendPermanentError (safe_error_code : string) (response_status : option Z)
| ResendWebhookSignatureError (msg : string)
| BitcoinRpcResponseError (code : Z) (message : string)
| OSError (msg : string)
| TimeoutError
| HTTPError (msg : string)
| TransportError (msg : string)
| StripeError (msg : string)
| SignatureVerificationError
| JSONDecodeError
| UnicodeDecodeError
| HTTPException (status_code : Z) (detail : string)
| MetbullUnavailable (msg : string)
| MetbullNotFound (msg : string)
| MetbullNotOfficial (msg : string)
| SnapshotUpdateError (msg : string)
| DatabaseError (msg : string)
| CsvError
| Other (msg : string).
#[global] Instance exn_eq_dec : EqDecision exn.
Proof. solve_decision. Defined.

(** [except ValueError]: the class itself and the subclasses the repository declares. *)
Definition is_ValueError (e : exn) : bool :=
  match e with
  | ValueError _ | ProofValidationError _ | BitcoinEvidenceInvalid _ | BitcoinRpcResponseError _ _
  | PaymentSignatureError _ | ResendWebhookSignatureError _ | JSONDecodeError | UnicodeDecodeError => true
  | _ => false
  end.

(** [except Exception]: everything but the task cancellation. *)
Definition is_Exception (e : exn) : bool :=
  match e with CancelledError => false | _ => true end.

(** ** The outcome of a computation and the state-and-exception monad *)

Inductive result (A : Type) :=
| Ok (a : A)
| Raise (e : exn).
Arguments Ok {A} a.
Arguments Raise {A} e.

Definition is_Ok {A} (r : result A) : Prop := ∃ a, r = Ok a.

Definition result_bind {A B} (r : result A) (f : A → result B) : result B :=
  match r with Ok a => f a | Raise e => Raise e end.

(** The value of an optional result that the program needs, or an exception. *)
Definition need {A} (e : exn) (o : option A) : result A := match o with Some a => Ok a | None => Raise e end.

(** [try: r except <caught>: raise e'] for pure functions. *)
Definition except_as {A} (caught : exn → bool) (e' : exn) (r : result A) : result A :=
  match r with Ok _ => r | Raise e => if caught e then Raise e' else r end.
(** [except (UnicodeDecodeError, json.JSONDecodeError)] *)
Definition is_decode_error (e : exn) : bool :=
  match e with UnicodeDecodeError | JSONDecodeError => true | _ => false end.

(** [if cond: raise e] for pure functions. *)
Definition raise_when (c : bool) (e : exn) : result unit := if c then Raise e else Ok tt.

Notation "'try!' x ':=' r 'in' k" := (result_bind r (λ x, k))
  (at level 10, x pattern, r at level 100, k at level 200) : py_scope.
Notation "'check!' r 'in' k" := (result_bind r (λ _ : unit, k))
  (at level 10, r at level 100, k at level 200) : py_scope.

Lemma result_bind_Ok {A B} (r : result A) (f : A → result B) b :
  result_bind r f = Ok b ↔ ∃ a, r = Ok a ∧ f a = Ok b.
Proof. destruct r; simpl; naive_solver. Qed.
Lemma Ok_inj {A} (a b : A) : Ok a = Ok b → a = b.
Proof. congruence. Qed.
Lemma need_Ok {A} e (o : option A) a : need e o = Ok a ↔ o = Some a.
Proof. destruct o; simpl; naive_solver. Qed.
Lemma except_as_Ok {A} caught e (r : result A) a : except_as caught e r = Ok a ↔ r = Ok a.
Proof. destruct r as [|e']; simpl; [done|]. by destruct (caught e'). Qed.
Lemma raise_when_Ok c e u : raise_when c e = Ok u ↔ c = false.
Proof. destruct c, u; simpl; naive_solver. Qed.

Definition St (W A : Type) : Type := W → result A * W.

Section State.
Context {W : Type}.

Definition ret {A} (a : A) : St W A := λ w, (Ok a, w).
Definition raise {A} (e : exn) : St W A := λ w, (Raise e, w).
Definition bind {A B} (m : St W A) (f : A → St W B) : St W B := λ w,
  match m w with
  | (Ok a, w') => f a w'
  | (Raise e, w') => (Raise e, w')
  end.
Definition lift {A} (r : result A) : St W A := λ w, (r, w).
Definition gets {A} (f : W → A) : St W A := λ w, (Ok (f w), w).
(** [if c: raise e] *)
Definition raise_if (c : bool) (e : exn) : St W unit := if c then raise e else ret tt.
(** [if c: m] without an else branch. *)
Definition when (c : bool) (m : St W unit) : St W unit := if c then m else ret tt.
(** [try: m except E: h]: [h e] is [None] when the handler does not catch [e]. *)
Definition try_except {A} (m : St W A) (h : exn → option (St W A)) : St W A := λ w,
  match m w with
  | (Raise e, w') => match h e with Some k => k w' | None => (Raise e, w') end
  | r => r
  end.
(** The [for] loop: [f] runs on each element in order and the first exception ends it. *)
Fixpoint for_each {X} (f : X → St W unit) (l : list X) : St W unit :=
  match l with
  | [] => ret tt
  | x :: l' => bind (f x) (λ _, for_each f l')
  end.

(** The [for] loop that threads an accumulator. *)
Fixpoint for_fold {X A} (f : A → X → St W A) (a : A) (l : list X) : St W A :=
  match l with
  | [] => ret a
  | x :: l' => bind (f a x) (λ a', for_fold f a' l')
  end.

Lemma bind_inv {A B} (m : St W A) (f : A → St W B) w r w' :
  bind m f w = (r, w') →
  (∃ e, m w = (Raise e, w') ∧ r = Raise e) ∨
  (∃ a w1, m w = (Ok a, w1) ∧ f a w1 = (r, w')).
Proof. unfold bind. destruct (m w) as [[a|e] w1]; intros; simplify_eq; eauto. Qed.
Lemma bind_Ok_inv {A B} (m : St W A) (f : A → St W B) w b w' :
  bind m f w = (Ok b, w') → ∃ a w1, m w = (Ok a, w1) ∧ f a w1 = (Ok b, w').
Proof. intros [(e & ? & [=])|?]%bind_inv. done. Qed.
Lemma bind_Ok {A B} (m : St W A) (f : A → St W B) w a w1 :
  m w = (Ok a, w1) → bind m f w = f a w1.
Proof. unfold bind. by intros ->. Qed.
Lemma ret_Ok {A} (a b : A) w w' : ret a w = (Ok b, w') → a = b ∧ w' = w.
Proof. by intros [= -> ->]. Qed.
Lemma raise_if_Ok c e u w w' : raise_if c e w = (Ok u, w') → c = false ∧ w' = w.
Proof. destruct c; [discriminate|]. by intros [= _ ->]. Qed.
(** An invariant of the loop over the elements done so far. *)
Lemma for_fold_Ok {X A} (P : list X → A → Prop) (f : A → X → St W A) l : ∀ done a w a' w',
  (∀ done x a w a' w', P done a → f a x w = (Ok a', w') → P (done ++ [x]) a') →
  P done a → for_fold f a l w = (Ok a', w') → P (done ++ l) a'.
Proof.
  induction l as [|x l IH]; intros done a w a' w' Hf Ha H; simpl in H.
  { apply ret_Ok in H as [<- _]. by rewrite app_nil_r. }
  apply bind_Ok_inv in H as (a1 & w1 & E & H). rewrite cons_middle, app_assoc. eapply IH; eauto.
Qed.
Lemma bind_Raise {A B} (m : St W A) (f : A → St W B) w e w1 :
  m w = (Raise e, w1) → bind m f w = (Raise e, w1).
Proof. unfold bind. by intros ->. Qed.
Lemma bind_ret_l {A B} (a : A) (f : A → St W B) w : bind (ret a) f w = f a w.
Proof. done. Qed.
Lemma bind_assoc {A B C} (m : St W A) (f : A → St W B) (g : B → St W C) w :
  bind (bind m f) g w = bind m (λ a, bind (f a) g) w.
Proof. unfold bind. by destruct (m w) as [[]]. Qed.

(** *** Relational reasoning

    [respects R m]: whatever [m] does (return or raise), the state it leaves is
    [R]-related to the state it started in.  [R] is a preorder, so the property is
    closed under sequencing; an invariant [I] is the relation [I w → I w']. *)
Section Respects.
Context (R : relation W) `{!PreOrder R}.

Definition respects {A} (m : St W A) : Prop := ∀ w, R w (snd (m w)).

Lemma respects_ret {A} (a : A) : respects (ret a).
Proof. intros w. by simpl. Qed.
Lemma respects_raise {A} e : respects (@raise A e).
Proof. intros w. by simpl. Qed.
Lemma respects_lift {A} (r : result A) : respects (lift r).
Proof. intros w. by simpl. Qed.
Lemma respects_gets {A} (f : W → A) : respects (gets f).
Proof. intros w. by simpl. Qed.
Lemma respects_raise_if c e : respects (raise_if c e).
Proof. destruct c; intros w; by simpl. Qed.
Lemma respects_when c m : respects m → respects (when c m).
Proof. intros ?. destruct c; [done|]. intros w; by simpl. Qed.
Lemma respects_bind {A B} (m : St W A) (f : A → St W B) :
  respects m → (∀ a, respects (f a)) → respects (bind m f).
Proof.
  intros Hm Hf w. unfold bind. specialize (Hm w).
  destruct (m w) as [[a|e] w1]; simpl in *; [|done].
  etrans; [done|]. apply Hf.
Qed.
Lemma respects_try {A} (m : St W A) h :
  respects m → (∀ e k, h e = Some k → respects k) → respects (try_except m h).
Proof.
  intros Hm Hh w. unfold try_except. specialize (Hm w).
  destruct (m w) as [[a|e] w1]; simpl in *; [done|].
  destruct (h e) eqn:E; simpl; [|done]. etrans; [done|]. by eapply Hh.
Qed.
Lemma respects_for_each {X} (f : X → St W unit) l :
  (∀ x, respects (f x)) → respects (for_each f l).
Proof. intros Hf. induction l; [apply respects_ret|]. by apply respects_bind. Qed.
Lemma respects_for_fold {X A} (f : A → X → St W A) a l :
  (∀ a x, respects (f a x)) → respects (for_fold f a l).
Proof.
  intros Hf. revert a. induction l; intros; [apply respects_ret|]. by apply respects_bind.
Qed.
(** What holds of every start and end state of a run. *)
Lemma respects_run {A} (m : St W A) w r w' : respects m → m w = (r, w') → R w w'.
Proof. intros Hm E. specialize (Hm w). by rewrite E in Hm. Qed.
End Respects.
End State.

Arguments ret {W A} a _ /.
Arguments raise {W A} e _ /.
Arguments lift {W A} r _ /.
Arguments gets {W A} f _ /.

Notation "'let!' x ':=' m 'in' k" := (bind m (λ x, k))
  (at level 10, x pattern, m at level 100, k at level 200) : py_scope.
Notation "'do!' m 'in' k" := (bind m (λ _, k))
  (at level 10, m at level 100, k at level 200) : py_scope.

(** [respects] is proved by structural recursion on the program text: the rules of the
    monad, the case analyses of the code, and the lemmas of the operations it calls. *)
Create HintDb respects.
#[export] Hint Resolve respects_ret respects_raise respects_lift respects_gets
  respects_raise_if respects_when respects_bind : respects.

#[export] Hint Extern 1 (PreOrder _) => apply _ : respects.

Ltac respects_step :=
  match goal with
  | |- respects _ (match ?x with _ => _ end) => destruct x
  | |- respects _ (let '_ := ?x in _) => destruct x
  | |- respects _ (bind _ _) => notypeclasses refine (respects_bind _ _ _ _ _); [apply _ | | intros ?]
  | |- respects _ (try_except _ _) =>
      notypeclasses refine (respects_try _ _ _ _ _); [apply _ | | intros ? ? ?]
  | |- respects _ (for_each _ _) => notypeclasses refine (respects_for_each _ _ _ _); [apply _ | intros ?]
  | |- respects _ (for_fold _ _ _) => notypeclasses refine (respects_for_fold _ _ _ _ _); [apply _ | intros ? ?]
  | |- respects _ (when _ _) => notypeclasses refine (respects_when _ _ _ _); [apply _ | ]
  | |- respects _ (ret _) => notypeclasses refine (respects_ret _ _); apply _
  | |- respects _ (raise _) => notypeclasses refine (respects_raise _ _); apply _
  | |- respects _ (lift _) => notypeclasses refine (respects_lift _ _); apply _
  | |- respects _ (gets _) => notypeclasses refine (respects_gets _ _); apply _
  | |- respects _ (raise_if _ _) => notypeclasses refine (respects_raise_if _ _ _); apply _
  end.
Ltac respects_solve := repeat first [ done | respects_step | solve [eauto with respects] ].

(** Inversion of a run that returned: one equation per executed statement. *)
Ltac run_step H :=
  lazymatch type of H with
  | bind _ _ _ = (Ok _, _) =>
      let a := fresh "a" in let w := fresh "w" in let E := fresh "E" in
      apply bind_Ok_inv in H as (a & w & E & H)
  | raise _ _ = (Ok _, _) => discriminate H
  | ret _ _ = (Ok _, _) => apply ret_Ok in H as [? ?]
  | raise_if _ _ _ = (Ok _, _) => let C := fresh "C" in apply raise_if_Ok in H as [C ?]
  | (if ?c then _ else _) _ = (Ok _, _) =>
      let C := fresh "C" in destruct c eqn:C
  end.
