(* ===== verification/PyStr.v ===== *)
(** * The parts of Python's [str], [bytes], [int] and [uuid] that the service uses

    A [str] is a [string] whose characters are the code points below 256; [bytes] is a
    list of bytes; [int] is [Z]; a [uuid.UUID] is its 128-bit integer value. *)
From S2P Require Import Prelude.
From Stdlib Require Export Strings.Ascii Strings.String.
From Stdlib Require Import Numbers.DecimalString Numbers.DecimalZ Numbers.DecimalN Numbers.DecimalFacts.

Open Scope Z_scope.

Abbreviation bytes := (list byte).
Abbreviation uuid := Z.

#[global] Instance byte_eq_decision : EqDecision byte := Byte.byte_eq_dec.

(** [len] of a string and of a byte string. *)
Definition strlen (s : string) : Z := Z.of_nat (String.length s).
Definition blen (b : bytes) : Z := Z.of_nat (List.length b).

Definition Z_of_byte (b : byte) : Z := Z.of_N (Byte.to_N b).
Definition byte_of_Z (z : Z) : byte := default x00 (Byte.of_N (Z.to_N (z mod 256))).
Definition code (c : ascii) : Z := Z.of_N (N_of_ascii c).
Definition chr (z : Z) : ascii := ascii_of_N (Z.to_N z).

(** ** Characters *)

Definition in_range (lo hi : Z) (c : ascii) : bool := (lo <=? code c) && (code c <=? hi).
Definition is_digit (c : ascii) : bool := in_range 48 57 c.
Definition is_upper_az (c : ascii) : bool := in_range 65 90 c.
Definition is_lower_az (c : ascii) : bool := in_range 97 122 c.
Definition is_az (c : ascii) : bool := is_upper_az c || is_lower_az c.
Definition is_alnum_ascii (c : ascii) : bool := is_az c || is_digit c.
Definition is_lower_hex (c : ascii) : bool := is_digit c || in_range 97 102 c.
(** The [isspace] of C, which [bytes.fromhex] skips. *)
Definition is_space (c : ascii) : bool := in_range 9 13 c || (code c =? 32).

(** [str.lower] and [str.isalpha] on the code points below 256. *)
Definition lower_char (c : ascii) : ascii :=
  if is_upper_az c || (in_range 192 222 c && negb (code c =? 215)) then chr (code c + 32) else c.
Definition is_alpha_char (c : ascii) : bool :=
  is_az c || (code c =? 170) || (code c =? 181) || (code c =? 186) ||
  (in_range 192 255 c && negb (code c =? 215) && negb (code c =? 247)).

Fixpoint str_map (f : ascii → ascii) (s : string) : string :=
  match s with EmptyString => EmptyString | String c s' => String (f c) (str_map f s') end.
Fixpoint str_all (p : ascii → bool) (s : string) : bool :=
  match s with EmptyString => true | String c s' => p c && str_all p s' end.
Fixpoint str_exists (p : ascii → bool) (s : string) : bool :=
  match s with EmptyString => false | String c s' => p c || str_exists p s' end.

Definition lower (s : string) : string := str_map lower_char s.
(** [s.isalpha()]: non-empty and every character a letter. *)
Definition isalpha (s : string) : bool := negb (s =? "")%string && str_all is_alpha_char s.

(** [re.fullmatch(r"[p]{lo,hi}", s)]. *)
Definition fullmatch_class (p : ascii → bool) (lo hi : nat) (s : string) : bool :=
  (lo <=? String.length s)%nat && (String.length s <=? hi)%nat && str_all p s.
(** [re.fullmatch(r"[p][q]{0,n}", s)]. *)
Definition fullmatch_head (p q : ascii → bool) (n : nat) (s : string) : bool :=
  match s with EmptyString => false | String c s' => p c && fullmatch_class q 0 n s' end.

(** [s.startswith(p)], [s.removeprefix(p)] *)
Definition startswith (p s : string) : bool := String.prefix p s.
Definition endswith (p s : string) : bool :=
  let n := String.length p in let m := String.length s in
  (n <=? m)%nat && (String.substring (m - n) n s =? p)%string.
Fixpoint str_drop (n : nat) (s : string) : string :=
  match n, s with
  | S n', String _ s' => str_drop n' s'
  | _, _ => s
  end.
Definition str_take (n : nat) (s : string) : string := String.substring 0 n s.
Definition removeprefix (p s : string) : string :=
  if startswith p s then str_drop (String.length p) s else s.

(** [s.replace(pat, rep)]: [skip] characters remain of the occurrence being replaced. *)
Fixpoint replace_go (pat rep : string) (skip : nat) (s : string) : string :=
  match s with
  | EmptyString => EmptyString
  | String c s' =>
      match skip with
      | S k => replace_go pat rep k s'
      | O => if String.prefix pat s
             then (rep ++ replace_go pat rep (pred (String.length pat)) s')%string
             else String c (replace_go pat rep 0 s')
      end
  end.
Definition replace (pat rep s : string) : string := replace_go pat rep 0 s.

(** [s.strip(chars)] *)
Fixpoint lstrip (p : ascii → bool) (s : string) : string :=
  match s with
  | EmptyString => EmptyString
  | String c s' => if p c then lstrip p s' else s
  end.
Fixpoint rstrip (p : ascii → bool) (s : string) : string :=
  match s with
  | EmptyString => EmptyString
  | String c s' =>
      match rstrip p s' with
      | EmptyString => if p c then EmptyString else String c EmptyString
      | t => String c t
      end
  end.
Definition strip (p : ascii → bool) (s : string) : string := rstrip p (lstrip p s).

(** [s.encode("utf-8")] on the code points below 256; ASCII text encodes to itself. *)
Fixpoint encode (s : string) : bytes :=
  match s with
  | EmptyString => []
  | String c s' =>
      (if code c <? 128 then [byte_of_Z (code c)]
       else [byte_of_Z (192 + Z.shiftr (code c) 6); byte_of_Z (128 + Z.land (code c) 63)])
        ++ encode s'
  end.

(** ** Integers *)

(** [str(n)] and the [{n}] of an f-string. *)
Definition str_int (n : Z) : string := NilZero.string_of_int (Z.to_int n).
(** [int(s)] for a text of decimal digits, the only kind it is applied to here; the
    interpreter refuses more than 4300 digits. *)
Definition int_of_digits (s : string) : option Z :=
  if negb (s =? "")%string && (String.length s <=? 4300)%nat then
    match NilEmpty.uint_of_string s with
    | Some u => Some (Z.of_N (N.of_uint u))
    | None => None
    end
  else None.

(** [int.from_bytes(b, "big")] and ["little"] *)
Definition int_from_bytes_big (b : bytes) : Z :=
  foldl (λ acc x, 256 * acc + Z_of_byte x) 0 b.
Definition int_from_bytes_little (b : bytes) : Z :=
  foldr (λ x acc, Z_of_byte x + 256 * acc) 0 b.
(** [n.to_bytes(k, "big")] for [0 <= n < 256^k]. *)
Fixpoint to_bytes_little (k : nat) (n : Z) : bytes :=
  match k with O => [] | S k' => byte_of_Z n :: to_bytes_little k' (n / 256) end.
Definition to_bytes_big (k : nat) (n : Z) : bytes := reverse (to_bytes_little k n).

(** ** Hexadecimal *)

Definition hex_digit (n : Z) : ascii := chr (if n <? 10 then 48 + n else 87 + n).
Definition hex_value (c : ascii) : option Z :=
  if is_digit c then Some (code c - 48)
  else if in_range 97 102 c then Some (code c - 87)
  else if in_range 65 70 c then Some (code c - 55)
  else None.
Definition hex_of_byte (b : byte) : string :=
  String (hex_digit (Z_of_byte b / 16)) (String (hex_digit (Z_of_byte b mod 16)) EmptyString).
(** [b.hex()] *)
Fixpoint bytes_hex (b : bytes) : string :=
  match b with [] => EmptyString | x :: b' => (hex_of_byte x ++ bytes_hex b')%string end.
(** [bytes.fromhex(s)]: pairs of digits, ASCII whitespace skipped between pairs. *)
Fixpoint bytes_fromhex (s : string) : option bytes :=
  match s with
  | EmptyString => Some []
  | String c s' =>
      if is_space c then bytes_fromhex s' else
      match s' with
      | EmptyString => None
      | String d s'' =>
          h ← hex_value c; l ← hex_value d; rest ← bytes_fromhex s'';
          Some (byte_of_Z (16 * h + l) :: rest)
      end
  end.

(** ** [uuid.UUID] *)

(** [u.hex] and [str(u)] *)
Definition uuid_hex (u : uuid) : string := bytes_hex (to_bytes_big 16 u).
Definition str_uuid (u : uuid) : string :=
  let h := uuid_hex u in
  (String.substring 0 8 h ++ "-" ++ String.substring 8 4 h ++ "-" ++ String.substring 12 4 h ++
   "-" ++ String.substring 16 4 h ++ "-" ++ String.substring 20 12 h)%string.

(** [int(s, 16)]: digits with single underscores between them. *)
Fixpoint hex_int_digits (acc : Z) (after_digit : bool) (s : string) : option Z :=
  match s with
  | EmptyString => if after_digit then Some acc else None
  | String c s' =>
      match hex_value c with
      | Some d => hex_int_digits (16 * acc + d) true s'
      | None => if (code c =? 95) && after_digit then hex_int_digits acc false s' else None
      end
  end.
Definition hex_int_unsigned (s : string) : option Z :=
  match s with
  | String "0" (String x s') =>
      if (x =? "x")%char || (x =? "X")%char then
        match s' with
        | String "_" t => hex_int_digits 0 false t
        | _ => hex_int_digits 0 false s'
        end
      else hex_int_digits 0 false s
  | _ => hex_int_digits 0 false s
  end.
Definition is_unicode_space (c : ascii) : bool :=
  is_space c || in_range 28 31 c || (code c =? 133) || (code c =? 160).
Definition parse_hex_int (s : string) : option Z :=
  match strip is_unicode_space s with
  | String "-" s' => Z.opp <$> hex_int_unsigned s'
  | String "+" s' => hex_int_unsigned s'
  | s' => hex_int_unsigned s'
  end.
(** [int(s)] in base ten, of at most 4300 digits; [None] is its [ValueError]. *)
Fixpoint int_digits (acc : Z) (count : nat) (after_digit : bool) (s : string) : option Z :=
  match s with
  | EmptyString => if after_digit && (count <=? 4300)%nat then Some acc else None
  | String c s' =>
      if is_digit c then int_digits (10 * acc + (code c - 48)) (S count) true s'
      else if (code c =? 95) && after_digit then int_digits acc count false s' else None
  end.
Definition parse_int (s : string) : option Z :=
  match strip is_unicode_space s with
  | String "-" s' => Z.opp <$> int_digits 0 0 false s'
  | String "+" s' => int_digits 0 0 false s'
  | s' => int_digits 0 0 false s'
  end.
(** [uuid.UUID(s)]; [None] is its [ValueError]. *)
Definition UUID (s : string) : option uuid :=
  let h := replace "-" "" (strip (λ c, (c =? "{")%char || (c =? "}")%char)
             (replace "uuid:" "" (replace "urn:" "" s))) in
  if (String.length h =? 32)%nat then
    n ← parse_hex_int h; if (0 <=? n) && (n <? 2 ^ 128) then Some n else None
  else None.

(** ** [datetime] and [timedelta]

    An aware [datetime] is its instant in microseconds since the epoch; a naive one is its
    wall-clock reading in the same unit.  A [timedelta] is a number of microseconds. *)

Record datetime := mk_dt { dt_us : Z; dt_aware : bool }.
#[global] Instance datetime_eq_dec : EqDecision datetime.
Proof. solve_decision. Defined.

(** The datetime at an instant, and the helper [_aware] of the adapters, which reads a
    naive value as UTC; its result is kept as the instant. *)
Definition utc (us : Z) : datetime := mk_dt us true.
Definition _aware (d : datetime) : Z := dt_us d.
(** [d.tzinfo is None or d.utcoffset() is None] *)
Definition is_naive (d : datetime) : bool := negb (dt_aware d).
Definition seconds (n : Z) : Z := n * 1000000.
Definition minutes (n : Z) : Z := seconds (60 * n).
Definition hours (n : Z) : Z := minutes (60 * n).
Definition days (n : Z) : Z := hours (24 * n).
(** [int(d.timestamp())]: truncation towards zero. *)
Definition int_timestamp (us : Z) : Z := Z.quot us 1000000.

(** [p in s] *)
Fixpoint str_contains (p s : string) : bool :=
  startswith p s || match s with EmptyString => false | String _ s' => str_contains p s' end.

(** ** Lemmas *)

Lemma Z_of_byte_range b : 0 <= Z_of_byte b < 256.
Proof. unfold Z_of_byte. pose proof (Byte.to_N_bounded b). lia. Qed.

Lemma byte_of_Z_of_byte b : byte_of_Z (Z_of_byte b) = b.
Proof.
  unfold byte_of_Z. rewrite Z.mod_small by apply Z_of_byte_range.
  unfold Z_of_byte. by rewrite N2Z.id, Byte.of_to_N.
Qed.
Lemma Z_of_byte_of_Z z : Z_of_byte (byte_of_Z z) = z mod 256.
Proof.
  unfold byte_of_Z, Z_of_byte.
  pose proof (Z.mod_pos_bound z 256 ltac:(lia)) as Hb.
  destruct (Byte.of_N (Z.to_N (z mod 256))) as [b|] eqn:E; simpl.
  - apply Byte.to_of_N in E. rewrite E. lia.
  - exfalso. apply Byte.of_N_None_iff in E. lia.
Qed.

Lemma string_app_cons c s t : (String c s ++ t)%string = String c (s ++ t)%string.
Proof. done. Qed.
Lemma string_app_nil t : ("" ++ t)%string = t.
Proof. done. Qed.
Create Rewrite HintDb str.
#[global] Hint Rewrite string_app_cons string_app_nil : str.
Lemma string_app_assoc (a b c : string) : ((a ++ b) ++ c = a ++ b ++ c)%string.
Proof. induction a; [done|]. by rewrite !string_app_cons, IHa. Qed.
Lemma string_app_nil_r (a : string) : (a ++ "" = a)%string.
Proof. induction a; [done|]. by rewrite string_app_cons, IHa. Qed.
Lemma str_all_app p s t : str_all p (s ++ t)%string = str_all p s && str_all p t.
Proof. induction s; [done|]. rewrite string_app_cons. simpl. rewrite IHs. by rewrite andb_assoc. Qed.
Lemma length_string_app s t : String.length (s ++ t)%string = (String.length s + String.length t)%nat.
Proof. induction s; [done|]. rewrite string_app_cons. simpl. by rewrite IHs. Qed.

Lemma removeprefix_app p s : removeprefix p (p ++ s) = s.
Proof.
  unfold removeprefix, startswith.
  assert (String.prefix p (p ++ s) = true) as ->
    by (induction p as [|c p IH]; simpl; [by destruct s|]; by destruct (ascii_dec c c)).
  by induction p.
Qed.
Lemma startswith_app p s : startswith p (p ++ s) = true.
Proof. unfold startswith. induction p as [|c p IH]; [by destruct s|]. simpl. destruct (ascii_dec c c); [done|done]. Qed.
Lemma str_take_app s t : str_take (String.length s) (s ++ t)%string = s.
Proof. unfold str_take. induction s as [|c s IH]; [by destruct t|]. simpl. f_equal. exact IH. Qed.

Lemma length_bytes_hex b : String.length (bytes_hex b) = (2 * List.length b)%nat.
Proof. induction b; [done|]. cbn [bytes_hex]. rewrite length_string_app, IHb. simpl. lia. Qed.
Lemma hex_of_byte_lower b : str_all is_lower_hex (hex_of_byte b) = true.
Proof. by destruct b. Qed.
Lemma bytes_hex_lower b : str_all is_lower_hex (bytes_hex b) = true.
Proof. induction b; [done|]. cbn [bytes_hex].
  rewrite str_all_app, hex_of_byte_lower. done. Qed.
(** Reading one printed byte back. *)
Lemma bytes_fromhex_byte b s :
  bytes_fromhex (hex_of_byte b ++ s) = (λ r, b :: r) <$> bytes_fromhex s.
Proof.
  assert (is_space (hex_digit (Z_of_byte b / 16)) = false ∧
    hex_value (hex_digit (Z_of_byte b / 16)) = Some (Z_of_byte b / 16) ∧
    hex_value (hex_digit (Z_of_byte b mod 16)) = Some (Z_of_byte b mod 16)) as (H1 & H2 & H3)
    by (destruct b; done).
  unfold hex_of_byte. autorewrite with str. cbn [bytes_fromhex]. rewrite H1, H2, H3. cbn.
  rewrite <-Z.div_mod by lia. rewrite byte_of_Z_of_byte.
  by destruct (bytes_fromhex s).
Qed.
(** [bytes.fromhex(b.hex()) == b]. *)
Lemma bytes_fromhex_hex b : bytes_fromhex (bytes_hex b) = Some b.
Proof. induction b as [|x b IH]; [done|]. cbn [bytes_hex]. by rewrite bytes_fromhex_byte, IH. Qed.
#[global] Instance bytes_hex_inj : Inj (=) (=) bytes_hex.
Proof. intros a b H. apply (f_equal bytes_fromhex) in H. rewrite !bytes_fromhex_hex in H. congruence. Qed.

Lemma length_to_bytes_little k n : List.length (to_bytes_little k n) = k.
Proof. revert n. induction k; intros; simpl; auto. Qed.
Lemma length_to_bytes_big k n : List.length (to_bytes_big k n) = k.
Proof. unfold to_bytes_big. by rewrite length_reverse, length_to_bytes_little. Qed.
Lemma int_from_to_bytes_little k n :
  0 <= n < 256 ^ Z.of_nat k → int_from_bytes_little (to_bytes_little k n) = n.
Proof.
  revert n. induction k as [|k IH]; intros n Hn; [simpl in *; lia|].
  cbn [to_bytes_little int_from_bytes_little foldr]. rewrite Z_of_byte_of_Z.
  change (foldr _ 0 ?l) with (int_from_bytes_little l).
  rewrite IH; [pose proof (Z.div_mod n 256); lia|].
  rewrite Nat2Z.inj_succ, Z.pow_succ_r in Hn by lia.
  split; [apply Z.div_pos; lia|]. apply Z.div_lt_upper_bound; lia.
Qed.
Lemma int_from_bytes_big_reverse b : int_from_bytes_big (reverse b) = int_from_bytes_little b.
Proof.
  unfold int_from_bytes_big. induction b as [|x b IH]; [done|].
  rewrite reverse_cons, foldl_app, IH. simpl. lia.
Qed.
Lemma int_from_to_bytes_big k n :
  0 <= n < 256 ^ Z.of_nat k → int_from_bytes_big (to_bytes_big k n) = n.
Proof. intros. unfold to_bytes_big. rewrite int_from_bytes_big_reverse. by apply int_from_to_bytes_little. Qed.
Lemma int_from_bytes_little_bound b : 0 <= int_from_bytes_little b < 256 ^ blen b.
Proof.
  unfold blen. induction b as [|x b IH]; [simpl; lia|].
  cbn [int_from_bytes_little foldr List.length].
  change (foldr _ 0 b) with (int_from_bytes_little b).
  rewrite Nat2Z.inj_succ, Z.pow_succ_r by lia. pose proof (Z_of_byte_range x). lia.
Qed.
Lemma to_bytes_int_little b : to_bytes_little (List.length b) (int_from_bytes_little b) = b.
Proof.
  induction b as [|x b IH]; [done|].
  cbn [int_from_bytes_little foldr List.length to_bytes_little].
  change (foldr _ 0 b) with (int_from_bytes_little b).
  pose proof (Z_of_byte_range x) as Hx.
  assert ((Z_of_byte x + 256 * int_from_bytes_little b) / 256 = int_from_bytes_little b) as ->
    by (rewrite Z.mul_comm, Z.div_add by lia; rewrite Z.div_small; lia).
  rewrite IH. f_equal.
  unfold byte_of_Z. rewrite Z.mul_comm, Z.mod_add, Z.mod_small by lia.
  unfold Z_of_byte. by rewrite N2Z.id, Byte.of_to_N.
Qed.

Lemma hex_value_lower c :
  is_lower_hex c = true →
  ∃ v, hex_value c = Some v ∧ 0 <= v < 16 ∧ hex_digit v = c ∧ is_space c = false.
Proof. destruct c as [[] [] [] [] [] [] [] []]; intros [=]; eexists; split_and!; first [reflexivity | by vm_compute]. Qed.

(** Lowercase hexadecimal text of even length is the [hex()] of the bytes it decodes to. *)
Lemma bytes_fromhex_lower n s :
  String.length s = (2 * n)%nat → str_all is_lower_hex s = true →
  ∃ b, bytes_fromhex s = Some b ∧ bytes_hex b = s ∧ List.length b = n.
Proof.
  revert s. induction n as [|n IH]; intros s Hl Hs.
  { destruct s; [|done]. by exists []. }
  destruct s as [|c [|d s]]; [simpl in Hl; lia..|].
  simpl in Hl, Hs. apply andb_prop in Hs as [Hc [Hd Hs]%andb_prop].
  destruct (IH s ltac:(lia) Hs) as (b & Eb & Hb & Hlen).
  destruct (hex_value_lower _ Hc) as (v & Ev & Rv & Dv & Sv).
  destruct (hex_value_lower _ Hd) as (u & Eu & Ru & Du & _).
  cbn [bytes_fromhex]. rewrite Sv, Ev, Eu, Eb. simpl.
  exists (byte_of_Z (16 * v + u) :: b). split; [done|]. split; [|simpl; congruence].
  cbn [bytes_hex]. unfold hex_of_byte. rewrite Z_of_byte_of_Z, Hb, Z.mod_small by lia.
  rewrite (Z.mul_comm 16), Z.div_add_l, (Z.div_small u), Z.add_0_r by lia.
  rewrite Z.add_comm, Z.mod_add, Z.mod_small by lia. by rewrite Dv, Du.
Qed.

(** *** Decimal text *)

Lemma string_of_uint_digits u : str_all is_digit (NilEmpty.string_of_uint u) = true.
Proof. induction u; simpl; auto. Qed.
Lemma str_int_nonneg n :
  0 <= n → str_int n = NilZero.string_of_uint (N.to_uint (Z.to_N n)).
Proof. destruct n as [|p|p]; [done..|lia]. Qed.
Lemma to_uint_not_nil n : N.to_uint n ≠ Decimal.Nil.
Proof. destruct n as [|p]; [done|]. apply DecimalPos.Unsigned.to_uint_nonnil. Qed.
Lemma str_int_uint n :
  0 <= n → str_int n = NilEmpty.string_of_uint (N.to_uint (Z.to_N n)).
Proof.
  intros. rewrite str_int_nonneg by done. pose proof (to_uint_not_nil (Z.to_N n)).
  by destruct (N.to_uint (Z.to_N n)).
Qed.
Lemma str_int_digits n : 0 <= n → str_all is_digit (str_int n) = true.
Proof. intros. rewrite str_int_uint by done. apply string_of_uint_digits. Qed.
Lemma str_int_nonempty n : 0 <= n → str_int n ≠ EmptyString.
Proof.
  intros. rewrite str_int_uint by done. pose proof (to_uint_not_nil (Z.to_N n)).
  by destruct (N.to_uint (Z.to_N n)).
Qed.
(** [int(str(n)) == n] up to the digit limit of the interpreter. *)
Lemma int_of_digits_str_int n :
  0 <= n → (String.length (str_int n) <= 4300)%nat → int_of_digits (str_int n) = Some n.
Proof.
  intros Hn Hl. unfold int_of_digits.
  rewrite (proj2 (Nat.leb_le _ _) Hl).
  destruct (str_int n =? "")%string eqn:E.
  { apply String.eqb_eq in E. by apply str_int_nonempty in E. }
  simpl. rewrite str_int_uint by done. rewrite NilEmpty.usu.
  rewrite DecimalN.Unsigned.of_to. f_equal. lia.
Qed.
#[global] Instance str_int_inj : Inj (=) (=) str_int.
Proof.
  intros n m H. unfold str_int in H.
  apply (f_equal NilZero.int_of_string) in H.
  rewrite !NilZero.isi in H by (intros E; destruct n, m; simpl in E; try done;
    injection E as E; by apply DecimalPos.Unsigned.to_uint_nonnil in E).
  injection H as H. apply (f_equal Z.of_int) in H. by rewrite !DecimalZ.of_to in H.
Qed.

(** A decidable property of the numbers below [k], checked by evaluation. *)
Lemma forall_below (P : Z → bool) (k : nat) :
  forallb P (map Z.of_nat (List.seq 0 k)) = true → ∀ n, 0 <= n < Z.of_nat k → P n = true.
Proof.
  rewrite forallb_forall. intros H n Hn. apply H. apply in_map_iff.
  exists (Z.to_nat n). split; [lia|]. apply in_seq. lia.
Qed.
