(* ===== verification/Uuid.v ===== *)
(** * [UUID(str(u)) == u]

    The canonical text of a UUID is read back as the same number.  The service keeps
    identifiers as UUIDs and passes them between its parts as text. *)
From S2P Require Import Prelude PyStr.

Open Scope Z_scope.

Definition absent (d : ascii) (s : string) : Prop := str_all (λ c, negb (c =? d)%char) s = true.

Lemma str_all_impl (p q : ascii → bool) s :
  (∀ c, p c = true → q c = true) → str_all p s = true → str_all q s = true.
Proof. intros H. induction s; [done|]. simpl. intros [? ?]%andb_prop. rewrite H by done. simpl. auto. Qed.
Lemma replace_absent d pat rep s : absent d s → replace (String d pat) rep s = s.
Proof.
  unfold replace, absent. induction s as [|c s IH]; [done|]. cbn [str_all]. intros [Hc Hs]%andb_prop.
  cbn [replace_go String.prefix]. destruct (ascii_dec d c) as [->|_]; [|by rewrite IH].
  by rewrite Ascii.eqb_refl in Hc.
Qed.
Lemma replace_char_app d s t :
  replace (String d EmptyString) EmptyString (s ++ t)%string =
  (replace (String d EmptyString) EmptyString s ++ replace (String d EmptyString) EmptyString t)%string.
Proof.
  unfold replace. induction s as [|c s IH]; [done|]. rewrite string_app_cons.
  cbn [replace_go String.prefix]. destruct (ascii_dec d c) as [->|_].
  - by destruct s, t.
  - cbn [replace_go String.append]. by rewrite IH.
Qed.
Lemma strip_absent p s : str_all (λ c, negb (p c)) s = true → strip p s = s.
Proof.
  intros H. unfold strip. assert (lstrip p s = s) as ->.
  { destruct s; [done|]. simpl in *. apply andb_prop in H as [H _]. apply negb_true_iff in H. by rewrite H. }
  induction s as [|c s IH]; [done|]. simpl in *. apply andb_prop in H as [Hc Hs].
  apply negb_true_iff in Hc. rewrite IH, Hc by done. by destruct s.
Qed.

(** The pieces of the canonical form. *)
Lemma pieces h : String.length h = 32%nat →
  (String.substring 0 8 h ++ String.substring 8 4 h ++ String.substring 12 4 h ++
   String.substring 16 4 h ++ String.substring 20 12 h)%string = h.
Proof.
  intros H. do 32 (destruct h as [|? h]; [discriminate H|]). destruct h; [reflexivity|discriminate H].
Qed.
Lemma substring_all p n m s : str_all p s = true → str_all p (String.substring n m s) = true.
Proof.
  revert n m. induction s as [|c s IH]; intros n m; [by destruct n, m|]. simpl.
  intros [Hc Hs]%andb_prop. destruct n; [destruct m; [done|]; simpl; rewrite Hc; simpl|]; by apply IH.
Qed.

(** Reading the digits of a byte string. *)
Lemma hex_int_digits_hex acc after b :
  hex_int_digits acc after (bytes_hex b) =
    if (0 <? List.length b)%nat || after
    then Some (foldl (λ acc x, 256 * acc + Z_of_byte x) acc b) else None.
Proof.
  revert acc after. induction b as [|x b IH]; intros acc after; [by destruct after|].
  cbn [bytes_hex List.length foldl]. unfold hex_of_byte. rewrite !string_app_cons, string_app_nil.
  assert (hex_value (hex_digit (Z_of_byte x / 16)) = Some (Z_of_byte x / 16) ∧
    hex_value (hex_digit (Z_of_byte x mod 16)) = Some (Z_of_byte x mod 16)) as [H2 H3]
    by (destruct x; done).
  cbn [hex_int_digits]. rewrite H2. cbn [hex_int_digits]. rewrite H3, IH, orb_true_r. simpl.
  do 2 f_equal. pose proof (Z.div_mod (Z_of_byte x) 16). lia.
Qed.
Lemma hex_int_bytes b : List.length b ≠ 0%nat →
  hex_int_digits 0 false (bytes_hex b) = Some (int_from_bytes_big b).
Proof. intros H. rewrite hex_int_digits_hex. by destruct b. Qed.
Lemma hex_int_unsigned_lower s : absent "x" s → absent "X" s →
  hex_int_unsigned s = hex_int_digits 0 false s.
Proof.
  unfold absent. destruct s as [|c [|d s]]; [done| |].
  - intros _ _. by destruct c as [[] [] [] [] [] [] [] []].
  - cbn [str_all]. rewrite !andb_true_iff, !negb_true_iff. intros (_ & Hx & _) (_ & HX & _).
    unfold hex_int_unsigned. rewrite Hx, HX. by destruct c as [[] [] [] [] [] [] [] []].
Qed.

Lemma lower_absent d s : is_lower_hex d = false → str_all is_lower_hex s = true → absent d s.
Proof.
  intros Hd. apply str_all_impl. intros c Hc. apply negb_true_iff, Ascii.eqb_neq. intros ->. congruence.
Qed.

Lemma parse_hex_int_lower s : str_all is_lower_hex s = true → parse_hex_int s = hex_int_digits 0 false s.
Proof.
  intros H. unfold parse_hex_int. rewrite strip_absent.
  - rewrite <-hex_int_unsigned_lower by (by apply lower_absent).
    destruct s as [|c s]; [done|]. simpl in H. apply andb_prop in H as [H _].
    by destruct c as [[] [] [] [] [] [] [] []].
  - revert H. apply str_all_impl. intros c. by destruct c as [[] [] [] [] [] [] [] []].
Qed.

Lemma uuid_hex_lower u : str_all is_lower_hex (uuid_hex u) = true.
Proof. apply bytes_hex_lower. Qed.
Lemma length_uuid_hex u : String.length (uuid_hex u) = 32%nat.
Proof. unfold uuid_hex. by rewrite length_bytes_hex, length_to_bytes_big. Qed.

Lemma length_str_uuid u : String.length (str_uuid u) = 36%nat.
Proof.
  unfold str_uuid. pose proof (length_uuid_hex u) as H. revert H. generalize (uuid_hex u). intros h H.
  do 32 (destruct h as [|? h]; [discriminate H|]). destruct h; [reflexivity|discriminate H].
Qed.
(** The text of a UUID: lowercase digits and dashes. *)
Definition uuid_char (c : ascii) : bool := is_lower_hex c || (c =? "-")%char.
Lemma str_uuid_chars u : str_all uuid_char (str_uuid u) = true.
Proof.
  unfold str_uuid. rewrite !str_all_app. rewrite !andb_true_iff.
  split_and!; try done;
    apply (str_all_impl is_lower_hex); try (by intros c Hc; unfold uuid_char; rewrite Hc);
    apply substring_all, uuid_hex_lower.
Qed.
Lemma str_uuid_absent d u : uuid_char d = false → absent d (str_uuid u).
Proof.
  intros Hd. eapply str_all_impl, str_uuid_chars. intros c Hc.
  apply negb_true_iff, Ascii.eqb_neq. intros ->. congruence.
Qed.

Lemma hex_value_uuid u : 0 <= u < 2 ^ 128 → hex_int_digits 0 false (uuid_hex u) = Some u.
Proof.
  intros Hu. rewrite <-(int_from_to_bytes_big 16 u) at 2 by exact Hu.
  apply hex_int_bytes. by rewrite length_to_bytes_big.
Qed.
Lemma replace_dashes u : replace "-" EmptyString (str_uuid u) = uuid_hex u.
Proof.
  unfold str_uuid. rewrite !replace_char_app.
  rewrite !(replace_absent "-" _ _ (String.substring _ _ _))
    by (apply lower_absent; [done|apply substring_all, uuid_hex_lower]).
  apply pieces, length_uuid_hex.
Qed.
Lemma UUID_str u : 0 <= u < 2 ^ 128 → UUID (str_uuid u) = Some u.
Proof.
  intros Hu. unfold UUID. rewrite (replace_absent "u" "rn:") by (by apply str_uuid_absent).
  rewrite (replace_absent "u" "uid:") by (by apply str_uuid_absent).
  rewrite strip_absent.
  2: { eapply str_all_impl, str_uuid_chars. intros c. by destruct c as [[] [] [] [] [] [] [] []]. }
  rewrite replace_dashes.
  rewrite length_uuid_hex. simpl (_ =? _)%nat. cbv iota. rewrite parse_hex_int_lower by apply uuid_hex_lower.
  rewrite hex_value_uuid by done. cbn [mbind option_bind].
  by rewrite (proj2 (Z.leb_le _ _) (proj1 Hu)), (proj2 (Z.ltb_lt _ _) (proj2 Hu)).
Qed.
#[export] Hint Rewrite UUID_str using lia : str.
