(* ===== verification/Digits.v ===== *)
(** * Decimal text of an integer

    The text of a positive integer starts with a digit other than zero and has as many digits
    as its size tells; [int] reads it back. *)
From S2P Require Import Prelude PyStr Uuid.
From Stdlib Require Import Numbers.DecimalString Numbers.DecimalPos Numbers.DecimalFacts.

Open Scope string_scope.
Open Scope Z_scope.

Lemma of_uint_acc_bounds u : ∀ acc, let size := 10 ^ Z.of_nat (String.length (NilEmpty.string_of_uint u)) in
  Z.pos acc * size <= Z.pos (Pos.of_uint_acc u acc) < (Z.pos acc + 1) * size.
Proof.
  induction u as [|u IH|u IH|u IH|u IH|u IH|u IH|u IH|u IH|u IH|u IH]; intros acc; cbv zeta;
    cbn [NilEmpty.string_of_uint String.length Pos.of_uint_acc]; [simpl Z.of_nat; lia|..];
    rewrite Nat2Z.inj_succ, Z.pow_succ_r by lia;
    match goal with |- context [Pos.of_uint_acc u ?a] => specialize (IH a) end; cbv zeta in IH;
    pose proof (Z.pow_pos_nonneg 10 (Z.of_nat (String.length (NilEmpty.string_of_uint u)))); nia.
Qed.
Lemma to_uint_head p u : Pos.to_uint p ≠ Decimal.D0 u.
Proof.
  intros E. pose proof (DecimalPos.Unsigned.to_of (Pos.to_uint p)) as H.
  rewrite DecimalPos.Unsigned.of_to in H. simpl in H. rewrite E in H. unfold Decimal.unorm in H. simpl in H.
  pose proof (DecimalPos.Unsigned.to_uint_nonzero p) as Hz. rewrite E in Hz.
  destruct (Decimal.nzhead u) eqn:En; simplify_eq. by apply DecimalFacts.nzhead_nonzero in En.
Qed.
(** A digit other than zero, then digits; the number has as many digits as its size tells. *)
Lemma str_int_pos n : 0 < n → ∃ c s, str_int n = String c s ∧ in_range 49 57 c = true ∧
  str_all is_digit s = true ∧ 10 ^ strlen s <= n < 10 * 10 ^ strlen s.
Proof.
  intros Hn. rewrite str_int_uint by lia. destruct n as [|p|p]; [lia| |lia]. simpl.
  pose proof (DecimalPos.Unsigned.of_to p) as Hp. pose proof (to_uint_head p) as Hh.
  pose proof (DecimalPos.Unsigned.to_uint_nonnil p) as Hnil.
  destruct (Pos.to_uint p) as [|u|u|u|u|u|u|u|u|u|u]; [done|by destruct (Hh u)|..]; clear Hh Hnil;
    cbn [NilEmpty.string_of_uint]; eexists _, _; (split; [reflexivity|]; split; [reflexivity|]);
    (split; [apply string_of_uint_digits|]); injection Hp as <-; unfold strlen;
    match goal with |- context [Pos.of_uint_acc u ?a] => pose proof (of_uint_acc_bounds u a) as Hb end; cbv zeta in Hb;
    pose proof (Z.pow_pos_nonneg 10 (Z.of_nat (String.length (NilEmpty.string_of_uint u)))); lia.
Qed.
Lemma str_int_short n : 0 < n → ∃ c s, str_int n = String c s ∧ in_range 49 57 c = true ∧
  fullmatch_class is_digit 0 8 s = (n <=? 999999999).
Proof.
  intros (c & s & E & Hc & Hs & Hl)%str_int_pos. exists c, s. split_and!; [done|done|].
  unfold fullmatch_class. rewrite Hs. unfold strlen in Hl. set (k := String.length s) in *.
  destruct (Nat.leb_spec k 8) as [H|H].
  - pose proof (Z.pow_le_mono_r 10 (Z.of_nat k) 8 ltac:(lia) ltac:(lia)) as Hp.
    change (10 ^ 8) with 100000000 in Hp. cbn [andb Nat.leb]. lia.
  - pose proof (Z.pow_le_mono_r 10 9 (Z.of_nat k) ltac:(lia) ltac:(lia)) as Hp.
    change (10 ^ 9) with 1000000000 in Hp. cbn [andb Nat.leb]. lia.
Qed.

(** ** [int(str(n)) == n] *)

Lemma int_digits_uint u : ∀ a k, (k + String.length (NilEmpty.string_of_uint u) <= 4300)%nat →
  int_digits (Z.pos a) k true (NilEmpty.string_of_uint u) = Some (Z.pos (Pos.of_uint_acc u a)).
Proof.
  induction u as [|u IH|u IH|u IH|u IH|u IH|u IH|u IH|u IH|u IH|u IH]; intros a k Hk;
    cbn [NilEmpty.string_of_uint Pos.of_uint_acc String.length int_digits] in *;
    [by rewrite (proj2 (Nat.leb_le _ _)) by lia|..];
    match goal with |- context [is_digit ?c] => change (is_digit c) with true; cbv iota end;
    match goal with |- context [code ?c - 48] => let d := eval vm_compute in (code c - 48) in
      change (code c - 48) with d end;
    match goal with |- int_digits (10 * Z.pos a + ?d) _ _ _ = Some (Z.pos (Pos.of_uint_acc u ?b)) =>
      replace (10 * Z.pos a + d) with (Z.pos b) by lia end; apply IH; lia.
Qed.
Lemma digit_no_space c : is_digit c = true → negb (is_unicode_space c) = true.
Proof. destruct c as [[] [] [] [] [] [] [] []]; vm_compute; congruence. Qed.
Lemma parse_int_str_int n : 0 <= n → strlen (str_int n) <= 4300 → parse_int (str_int n) = Some n.
Proof.
  intros Hn Hl. unfold parse_int. rewrite strip_absent by (eapply str_all_impl, str_int_digits; [apply digit_no_space|done]).
  revert Hl. unfold strlen. rewrite str_int_uint by lia. destruct n as [|p|p]; [done| |lia]. simpl Z.to_N. simpl N.to_uint.
  pose proof (DecimalPos.Unsigned.of_to p) as Hp. pose proof (to_uint_head p) as Hh.
  pose proof (DecimalPos.Unsigned.to_uint_nonnil p) as Hnil. intros Hl.
  destruct (Pos.to_uint p) as [|u|u|u|u|u|u|u|u|u|u]; [done|by destruct (Hh u)|..]; clear Hh Hnil;
    cbn [NilEmpty.string_of_uint String.length int_digits] in *; injection Hp as <-;
    match goal with |- context [is_digit ?c] => change (is_digit c) with true; cbv iota end;
    match goal with |- context [code ?c - 48] => let d := eval vm_compute in (code c - 48) in
      change (code c - 48) with d end; rewrite Z.mul_0_r, Z.add_0_l; apply int_digits_uint; lia.
Qed.
Lemma parse_int_small n : 0 <= n < 10 ^ 18 → parse_int (str_int n) = Some n.
Proof.
  intros Hn. apply parse_int_str_int; [lia|]. destruct (decide (n = 0)) as [->|Hz]; [vm_compute; congruence|].
  destruct (str_int_pos n) as (c & s & -> & _ & _ & Hl); [lia|]. unfold strlen in *. cbn [String.length].
  destruct (Z.le_gt_cases 18 (Z.of_nat (String.length s))) as [H|H]; [|lia].
  pose proof (Z.pow_le_mono_r 10 _ _ ltac:(lia) H). lia.
Qed.
