(* ===== verification/Base64.v ===== *)
(** * [base64] with the standard alphabet

    [b64encode], and [b64decode] with [validate=True], the strict mode of the interpreter:
    only data characters, then padding; the trailing bits of the last group are ignored, and
    so is padding after a complete group. *)
From S2P Require Import Prelude PyStr.

Open Scope string_scope.
Open Scope Z_scope.

Definition b64_std_char (n : Z) : ascii :=
  chr (if n <? 26 then 65 + n else if n <? 52 then 71 + n else if n <? 62 then n - 4
       else if n =? 62 then 43 else 47).
Definition b64_std_value (c : ascii) : option Z :=
  if is_upper_az c then Some (code c - 65)
  else if is_lower_az c then Some (code c - 71)
  else if is_digit c then Some (code c + 4)
  else if (c =? "+")%char then Some 62
  else if (c =? "/")%char then Some 63
  else None.

(** The four characters of a group of 24 bits. *)
Definition b64_group (n : Z) (tail : string) : string :=
  String (b64_std_char (n / 262144)) (String (b64_std_char (n / 4096 mod 64))
    (String (b64_std_char (n / 64 mod 64)) (String (b64_std_char (n mod 64)) tail))).
(** [b64encode(b).decode("ascii")] *)
Fixpoint b64encode (b : bytes) : string :=
  match b with
  | [] => EmptyString
  | [x] =>
      let n := 65536 * Z_of_byte x in
      String (b64_std_char (n / 262144)) (String (b64_std_char (n / 4096 mod 64)) "==")
  | [x; y] =>
      let n := 65536 * Z_of_byte x + 256 * Z_of_byte y in
      String (b64_std_char (n / 262144)) (String (b64_std_char (n / 4096 mod 64))
        (String (b64_std_char (n / 64 mod 64)) "="))
  | x :: y :: z :: b' => b64_group (65536 * Z_of_byte x + 256 * Z_of_byte y + Z_of_byte z) (b64encode b')
  end.

Definition is_pad (c : ascii) : bool := (c =? "=")%char.
(** What follows the groups read so far. *)
Fixpoint b64decode_groups (s : string) : option bytes :=
  match s with
  | String a (String b (String c (String d s'))) =>
      if is_pad a then (if str_all is_pad s then Some [] else None)
      else
        p ← b64_std_value a; q ← b64_std_value b;
        if is_pad c then
          if is_pad d && (s' =? "")%string then Some [byte_of_Z (4 * p + q / 16)] else None
        else
          r ← b64_std_value c;
          if is_pad d then
            let n := (4096 * p + 64 * q + r) / 4 in
            if (s' =? "")%string then Some [byte_of_Z (n / 256); byte_of_Z n] else None
          else
            t ← b64_std_value d; rest ← b64decode_groups s';
            let n := 262144 * p + 4096 * q + 64 * r + t in
            Some (byte_of_Z (n / 65536) :: byte_of_Z (n / 256) :: byte_of_Z n :: rest)
  | _ => if str_all is_pad s then Some [] else None
  end.
(** [None] is the [binascii.Error], a [ValueError]. *)
Definition b64decode_strict (s : string) : option bytes :=
  match s with String "=" _ => None | _ => b64decode_groups s end.

Example b64decode_samples :
  map b64decode_strict ["QUJD="; "="; "QQ=="; "QQ="; "QUI="; "QUI=="; "QR=="; "QUJDQ="; "QUJD=Q"; "QUJD QUJD"]
  = [Some (encode "ABC"); None; Some (encode "A"); None; Some (encode "AB"); None; Some (encode "A"); None; None; None].
Proof. vm_compute. reflexivity. Qed.

(** ** Round trip *)

Lemma b64_std_char_value n : 0 <= n < 64 → b64_std_value (b64_std_char n) = Some n ∧ is_pad (b64_std_char n) = false.
Proof.
  intros Hn. pose proof (forall_below
    (λ n, match b64_std_value (b64_std_char n) with Some m => (m =? n) && negb (is_pad (b64_std_char n)) | None => false end)
    64 ltac:(vm_compute; reflexivity) n Hn) as H. cbv beta in H.
  destruct (b64_std_value _); [|done]. apply andb_prop in H as [H ?%negb_true_iff]. split; [f_equal; lia|done].
Qed.
Lemma b64_std_char_ascii n : 0 <= n < 64 → code (b64_std_char n) <? 128 = true.
Proof. exact (forall_below (λ n, code (b64_std_char n) <? 128) 64 ltac:(vm_compute; reflexivity) n). Qed.
Lemma byte_of_Z_unique x n : n mod 256 = Z_of_byte x → byte_of_Z n = x.
Proof. intros H. rewrite <- (byte_of_Z_of_byte x), <- H. unfold byte_of_Z. by rewrite Z.mod_mod. Qed.

(** The induction of the encoder: three bytes at a time. *)
Lemma bytes_ind3 (P : bytes → Prop) :
  P [] → (∀ x, P [x]) → (∀ x y, P [x; y]) → (∀ x y z b, P b → P (x :: y :: z :: b)) → ∀ b, P b.
Proof.
  intros H0 H1 H2 H3. fix go 1. intros [|x [|y [|z b]]]; [apply H0|apply H1|apply H2|apply H3, go].
Qed.
Lemma b64decode_groups_encode b : b64decode_groups (b64encode b) = Some b.
Proof.
  induction b as [|x|x y|x y z b IH] using bytes_ind3; [done|..];
    pose proof (Z_of_byte_range x); try pose proof (Z_of_byte_range y); try pose proof (Z_of_byte_range z);
    cbn [b64encode]; unfold b64_group; cbv zeta;
    match goal with |- context [b64_std_char (?n / 262144)] => set (v := n) in * end;
    (assert (0 <= v < 16777216) as Hv by (subst v; lia));
    (destruct (b64_std_char_value (v / 262144)) as [Ha Pa]; [split; [apply Z.div_pos|apply Z.div_lt_upper_bound]; lia|]);
    (destruct (b64_std_char_value (v / 4096 mod 64)) as [Hb Pb]; [apply Z.mod_pos_bound; lia|]);
    (destruct (b64_std_char_value (v / 64 mod 64)) as [Hc Pc]; [apply Z.mod_pos_bound; lia|]);
    (destruct (b64_std_char_value (v mod 64)) as [Hd Pd]; [apply Z.mod_pos_bound; lia|]);
    cbn [b64decode_groups]; rewrite Pa, ?Pc, ?Pd, Ha, Hb, ?Hc, ?Hd, ?IH; cbn; repeat f_equal;
    apply byte_of_Z_unique; subst v; Z.to_euclidean_division_equations; lia.
Qed.
Lemma b64_roundtrip b : b64decode_strict (b64encode b) = Some b.
Proof.
  rewrite <- (b64decode_groups_encode b). unfold b64decode_strict.
  destruct (b64encode b) as [|c s] eqn:E; [done|].
  assert (is_pad c = false) as Hc; [|unfold is_pad in Hc; by destruct c as [[] [] [] [] [] [] [] []]].
  assert (∀ n t u, String (b64_std_char (n / 262144)) t = String c u → 0 <= n < 16777216 → is_pad c = false) as Hh.
  { intros n t u [= <- _] Hn. apply b64_std_char_value. split; [apply Z.div_pos|apply Z.div_lt_upper_bound]; lia. }
  destruct b as [|x [|y [|z b]]]; [done|..]; cbn [b64encode] in E; eapply Hh; try exact E.
  all: pose proof (Z_of_byte_range x); try pose proof (Z_of_byte_range y); try pose proof (Z_of_byte_range z); lia.
Qed.
