(* ===== verification/PyFloat.v ===== *)
(** * Floating-point numbers

    [int(d.timestamp() * n)] and [timedelta(seconds=x)], computed in IEEE binary64 as the
    interpreter does. *)
From S2P Require Import Prelude PyStr.
From Stdlib Require Import Floats.SpecFloat.

Open Scope string_scope.
Open Scope Z_scope.

(** IEEE binary64: the float nearest to an integer, [timestamp()] (correctly rounded for the
    microsecond counts below 2^53) and [int(x)]. *)
Definition float_of_Z (n : Z) : spec_float := binary_normalize 53 1024 n 0 false.
Definition timestamp (now : Z) : spec_float := SFdiv 53 1024 (float_of_Z now) (float_of_Z 1000000).
Definition int_of_float (x : spec_float) : result Z :=
  match x with
  | S754_zero _ => Ok 0
  | S754_infinity _ => Raise (OverflowError "cannot convert float infinity to integer")
  | S754_nan => Raise (ValueError "cannot convert float NaN to integer")
  | S754_finite s m e =>
      let v := if 0 <=? e then Z.shiftl (Zpos m) e else Z.shiftr (Zpos m) (- e) in
      Ok (if s then - v else v)
  end.
(** [int(d.timestamp() * n)] *)
Definition int_timestamp_times (us n : Z) : result Z :=
  int_of_float (SFmul 53 1024 (timestamp us) (float_of_Z n)).

Example int_timestamp_times_ms : int_timestamp_times 1700000000123456 1000 = Ok 1700000000123.
Proof. vm_compute. reflexivity. Qed.

(** [a * b], [a + b], [a - b], [a < b] and [a <= b] on floats. *)
Definition fmul : spec_float → spec_float → spec_float := SFmul 53 1024.
Definition fadd : spec_float → spec_float → spec_float := SFadd 53 1024.
Definition fsub : spec_float → spec_float → spec_float := SFsub 53 1024.
Definition fltb : spec_float → spec_float → bool := SFltb.
Definition fleb : spec_float → spec_float → bool := SFleb.
(** [0.05 <= x <= 60] *)
Definition idle_interval (x : spec_float) : bool :=
  fleb (S754_finite false 7205759403792794 (-57)) x && fleb x (float_of_Z 60).
(** [float(n)] *)
Definition float_of_int (n : Z) : result spec_float :=
  match float_of_Z n with
  | S754_infinity _ => Raise (OverflowError "int too large to convert to float")
  | x => Ok x
  end.
(** The integer nearest to [m * 2^e], the even one of two. *)
Definition round_half_even (m e : Z) : Z :=
  if 0 <=? e then Z.shiftl m e
  else
    let q := Z.shiftr m (- e) in
    let twice := 2 * (m - Z.shiftl q (- e)) in
    let one := Z.shiftl 1 (- e) in
    if (twice <? one) || ((twice =? one) && Z.even q) then q else q + 1.
Definition round_float (x : spec_float) : Z :=
  match x with
  | S754_finite s m e => let v := round_half_even (Zpos m) e in if s then - v else v
  | _ => 0
  end.
(** [math.modf(x)]: the fractional part. *)
Definition frac (x : spec_float) : spec_float :=
  match x with
  | S754_finite s m e =>
      if 0 <=? e then S754_zero s
      else let r := Zpos m - Z.shiftl (Z.shiftr (Zpos m) (- e)) (- e) in
           binary_normalize 53 1024 (if s then - r else r) e s
  | _ => S754_zero false
  end.
Definition MAX_TIMEDELTA_DAYS : Z := 999999999.
(** [timedelta(seconds=x)] in microseconds: whole seconds exactly, the rest to the nearest one. *)
Definition timedelta_seconds (x : spec_float) : result Z :=
  try! whole := int_of_float x in
  let us := seconds whole + round_float (fmul (float_of_Z 1000000) (frac x)) in
  let days := us / seconds 86400 in
  check! raise_when ((days <? - MAX_TIMEDELTA_DAYS) || (MAX_TIMEDELTA_DAYS <? days))
    (OverflowError "days out of range; must have magnitude <= 999999999") in
  Ok us.
