(* ===== verification/PyObject.v ===== *)
(** * Python objects and [json.loads]

    The objects that [json.loads] returns, on any text and on bytes in any of the encodings it
    detects.  Here a [str] is the list of its code points ([ustr]); [latin] reads it as the
    text of the rest of the model where it can.  A [dict] is an association list in insertion
    order, without duplicate keys. *)
From S2P Require Import Prelude PyStr PyFloat.
From Stdlib Require Import Floats.SpecFloat.

Open Scope string_scope.
Open Scope Z_scope.

Definition ustr : Type := list Z.
Definition wide (s : string) : ustr := map code (list_ascii_of_string s).
Definition latin (u : ustr) : option string :=
  if forallb (λ c, (0 <=? c) && (c <? 256)) u then Some (string_of_list_ascii (map chr u)) else None.

Inductive obj :=
| ONone
| OBool (b : bool)
| OInt (n : Z)
| OFloat (x : spec_float)
| OStr (s : ustr)
| OList (l : list obj)
| ODict (fields : list (ustr * obj)).

(** [d.get(key)] and [d[key] = value] on a dict. *)
Fixpoint dict_get (key : ustr) (fields : list (ustr * obj)) : option obj :=
  match fields with
  | [] => None
  | (k, v) :: rest => if k == key then Some v else dict_get key rest
  end.
Fixpoint dict_set (key : ustr) (value : obj) (fields : list (ustr * obj)) : list (ustr * obj) :=
  match fields with
  | [] => [(key, value)]
  | (k, v) :: rest => if k == key then (k, value) :: rest else (k, v) :: dict_set key value rest
  end.
Definition get_key (key : string) (fields : list (ustr * obj)) : option obj := dict_get (wide key) fields.

(** [isinstance(v, str)], with the text when the model holds it. *)
Definition latin_of (v : option obj) : option string :=
  match v with Some (OStr u) => latin u | _ => None end.

(** ** Text encodings *)

Definition continuation (b : byte) : option Z :=
  let n := Z_of_byte b in if (128 <=? n) && (n <? 192) then Some (n - 128) else None.
(** UTF-8 with [surrogatepass]: shortest forms up to U+10FFFF. *)
Fixpoint utf8_decode (b : bytes) : option ustr :=
  match b with
  | [] => Some []
  | x :: b1 =>
      let n := Z_of_byte x in
      if n <? 128 then rest ← utf8_decode b1; Some (n :: rest)
      else match b1 with
      | [] => None
      | y :: b2 =>
          p ← continuation y;
          if (194 <=? n) && (n <? 224) then
            rest ← utf8_decode b2; Some ((n - 192) * 64 + p :: rest)
          else match b2 with
          | [] => None
          | z :: b3 =>
              q ← continuation z;
              if (224 <=? n) && (n <? 240) then
                let c := (n - 224) * 4096 + p * 64 + q in
                if c <? 2048 then None else rest ← utf8_decode b3; Some (c :: rest)
              else match b3 with
              | [] => None
              | t :: b4 =>
                  r ← continuation t;
                  let c := (n - 240) * 262144 + p * 4096 + q * 64 + r in
                  if (240 <=? n) && (n <? 245) && (65536 <=? c) && (c <? 1114112)
                  then rest ← utf8_decode b4; Some (c :: rest) else None
              end
          end
      end
  end.

Definition is_high (c : Z) : bool := (55296 <=? c) && (c <? 56320).
Definition is_low (c : Z) : bool := (56320 <=? c) && (c <? 57344).
Definition pair_of (high low : Z) : Z := 65536 + (high - 55296) * 1024 + (low - 56320).
(** The code units of two or four bytes. *)
Fixpoint units16 (big : bool) (b : bytes) : option (list Z) :=
  match b with
  | [] => Some []
  | x :: y :: b' =>
      rest ← units16 big b';
      Some ((if big then 256 * Z_of_byte x + Z_of_byte y else 256 * Z_of_byte y + Z_of_byte x) :: rest)
  | _ => None
  end.
(** Pairs are joined, and lone surrogates pass. *)
Fixpoint join_units (l : list Z) : option ustr :=
  match l with
  | [] => Some []
  | c :: l1 =>
      if is_high c then
        match l1 with
        | [] => Some [c]
        | d :: l2 =>
            if is_low d then rest ← join_units l2; Some (pair_of c d :: rest)
            else rest ← join_units l1; Some (c :: rest)
        end
      else rest ← join_units l1; Some (c :: rest)
  end.
Fixpoint units32 (big : bool) (b : bytes) : option ustr :=
  match b with
  | [] => Some []
  | x :: y :: z :: t :: b' =>
      rest ← units32 big b';
      let n := if big then int_from_bytes_big [x; y; z; t] else int_from_bytes_little [x; y; z; t] in
      if n <? 1114112 then Some (n :: rest) else None
  | _ => None
  end.

Definition has_prefix (p b : bytes) : bool := take (List.length p) b == p.
Definition utf16 (big : bool) (b : bytes) : option ustr := u ← units16 big b; join_units u.
(** [s.decode(json.detect_encoding(s), "surrogatepass")] *)
Definition json_decode (b : bytes) : option ustr :=
  if has_prefix [x00; x00; xfe; xff] b then units32 true (drop 4 b)
  else if has_prefix [xff; xfe; x00; x00] b then units32 false (drop 4 b)
  else if has_prefix [xfe; xff] b then utf16 true (drop 2 b)
  else if has_prefix [xff; xfe] b then utf16 false (drop 2 b)
  else if has_prefix [xef; xbb; xbf] b then utf8_decode (drop 3 b)
  else match b with
  | x :: y :: z :: t :: _ =>
      if Z_of_byte x =? 0 then (if Z_of_byte y =? 0 then units32 true b else utf16 true b)
      else if Z_of_byte y =? 0 then
        (if (Z_of_byte z =? 0) && (Z_of_byte t =? 0) then units32 false b else utf16 false b)
      else utf8_decode b
  | [x; y] =>
      if Z_of_byte x =? 0 then utf16 true b else if Z_of_byte y =? 0 then utf16 false b else utf8_decode b
  | _ => utf8_decode b
  end.

(** What the grammar wants at this place. *)
Notation wanted := (need JSONDecodeError).

(** ** Numbers *)

(** The double nearest to [m * 10^e]: the quotient is taken with 64 bits more than it needs
    and a last bit for the remainder, so that the one rounding is that of the exact value. *)
Definition float_of_decimal (negative : bool) (m e : Z) : spec_float :=
  let signed n := if negative then - n else n in
  if m =? 0 then S754_zero negative
  else if 0 <=? e then binary_normalize 53 1024 (signed (m * 10 ^ e)) 0 negative
  else
    let d := 10 ^ (- e) in
    let s := Z.max 0 (Z.log2 d - Z.log2 m + 64) in
    let n := Z.shiftl m s in
    let q := 2 * (n / d) + (if n mod d =? 0 then 0 else 1) in
    binary_normalize 53 1024 (signed q) (- s - 1) negative.

Definition digit_of (c : Z) : option Z := if (48 <=? c) && (c <=? 57) then Some (c - 48) else None.
(** The digits at the head: their value after [acc], how many they are, and the rest. *)
Fixpoint take_digits (acc n : Z) (s : ustr) : Z * Z * ustr :=
  match s with
  | c :: s' => match digit_of c with Some d => take_digits (10 * acc + d) (n + 1) s' | None => (acc, n, s) end
  | [] => (acc, n, s)
  end.

(** The rest after the character [c]. *)
Definition expect (c : Z) (s : ustr) : option ustr :=
  match s with d :: rest => if d =? c then Some rest else None | [] => None end.

(** A fraction: a point and at least one digit. *)
Definition take_fraction (acc : Z) (s : ustr) : option (Z * Z * ustr) :=
  s1 ← expect 46 s;
  let '(m, n, rest) := take_digits acc 0 s1 in if n =? 0 then None else Some (m, n, rest).
(** An optional sign. *)
Definition take_sign (s : ustr) : Z * ustr :=
  match expect 45 s, expect 43 s with
  | Some t, _ => (-1, t)
  | _, Some t => (1, t)
  | _, _ => (1, s)
  end.
(** An exponent: e or E, an optional sign and at least one digit. *)
Definition take_exponent (s : ustr) : option (Z * ustr) :=
  s1 ← match expect 101 s with Some t => Some t | None => expect 69 s end;
  let '(sign, s2) := take_sign s1 in
  let '(e, n, rest) := take_digits 0 0 s2 in
  if n =? 0 then None else Some (sign * e, rest).
(** The integer part: a zero, or digits without a leading zero. *)
Definition take_integer (s : ustr) : option (Z * Z * ustr) :=
  match expect 48 s with
  | Some rest => Some (0, 1, rest)
  | None => let '(m, n, rest) := take_digits 0 0 s in if n =? 0 then None else Some (m, n, rest)
  end.
(** [_match_number]: [int] refuses more than 4300 digits. *)
Definition take_number (s : ustr) : result (obj * ustr) :=
  let '(negative, s1) := match expect 45 s with Some t => (true, t) | None => (false, s) end in
  try! (m, n, s2) := wanted (take_integer s1) in
  match take_fraction m s2 with
  | None =>
      match take_exponent s2 with
      | None =>
          check! raise_when (4300 <? n) (ValueError "Exceeds the limit (4300 digits) for integer string conversion") in
          Ok (OInt (if (negative : bool) then - m else m), s2)
      | Some (e, s3) => Ok (OFloat (float_of_decimal negative m e), s3)
      end
  | Some (m', k, s3) =>
      match take_exponent s3 with
      | None => Ok (OFloat (float_of_decimal negative m' (- k)), s3)
      | Some (e, s4) => Ok (OFloat (float_of_decimal negative m' (e - k)), s4)
      end
  end.

(** ** Strings *)

Definition hex_digit_of (c : Z) : option Z :=
  if (48 <=? c) && (c <=? 57) then Some (c - 48)
  else if (97 <=? c) && (c <=? 102) then Some (c - 87)
  else if (65 <=? c) && (c <=? 70) then Some (c - 55)
  else None.
(** The four digits after a backslash and a u. *)
Definition take_hex4 (s : ustr) : option (Z * ustr) :=
  match s with
  | a :: b :: c :: d :: rest =>
      a ← hex_digit_of a; b ← hex_digit_of b; c ← hex_digit_of c; d ← hex_digit_of d;
      Some (4096 * a + 256 * b + 16 * c + d, rest)
  | _ => None
  end.
Definition simple_escape (c : Z) : option Z :=
  if (c =? 34) || (c =? 92) || (c =? 47) then Some c
  else if c =? 98 then Some 8 else if c =? 102 then Some 12 else if c =? 110 then Some 10
  else if c =? 114 then Some 13 else if c =? 116 then Some 9 else None.
(** The second half of an escaped surrogate pair. *)
Definition low_half (c : Z) (s : ustr) : option (Z * ustr) :=
  s1 ← expect 92 s; s2 ← expect 117 s1; '(low, rest) ← take_hex4 s2;
  if is_high c && is_low low then Some (pair_of c low, rest) else None.
(** What follows a backslash. *)
Definition take_escape (s : ustr) : option (Z * ustr) :=
  match expect 117 s with
  | Some rest =>
      '(c, rest') ← take_hex4 rest;
      match low_half c rest' with Some p => Some p | None => Some (c, rest') end
  | None => match s with c :: rest => x ← simple_escape c; Some (x, rest) | [] => None end
  end.
(** One character of a string literal. *)
Definition take_char (s : ustr) : option (Z * ustr) :=
  match s with
  | c :: rest => if c =? 92 then take_escape rest else if c <? 32 then None else Some (c, rest)
  | [] => None
  end.
(** The text up to the closing quote. *)
Fixpoint take_string (fuel : nat) (s : ustr) : option (ustr * ustr) :=
  match fuel with
  | O => None
  | S fuel' =>
      match expect 34 s with
      | Some rest => Some ([], rest)
      | None =>
          '(c, rest) ← take_char s;
          '(u, rest') ← take_string fuel' rest;
          Some (c :: u, rest')
      end
  end.
Definition string_literal (s : ustr) : option (ustr * ustr) := take_string (List.length s) s.

(** ** Values *)

Definition is_ws (c : Z) : bool := (c =? 32) || (c =? 9) || (c =? 10) || (c =? 13).
Fixpoint skip_ws (s : ustr) : ustr :=
  match s with c :: s' => if is_ws c then skip_ws s' else s | [] => [] end.
Definition literals : list (string * obj) :=
  [("null", ONone); ("true", OBool true); ("false", OBool false); ("NaN", OFloat S754_nan);
   ("Infinity", OFloat (S754_infinity false)); ("-Infinity", OFloat (S754_infinity true))].
Fixpoint drop_prefix (p s : ustr) : option ustr :=
  match p with
  | [] => Some s
  | c :: p' => rest ← expect c s; drop_prefix p' rest
  end.
Fixpoint take_literal (l : list (string * obj)) (s : ustr) : option (obj * ustr) :=
  match l with
  | [] => None
  | (w, v) :: l' => match drop_prefix (wide w) s with Some rest => Some (v, rest) | None => take_literal l' s end
  end.
Definition take_atom (s : ustr) : result (obj * ustr) :=
  match take_literal literals s with Some p => Ok p | None => take_number s end.

(** The items of an array and the members of an object, up to the closing bracket. *)
Section Containers.
Context (value : ustr → result (obj * ustr)).
Fixpoint take_items (k : nat) (s : ustr) : result (list obj * ustr) :=
  match k with
  | O => Raise JSONDecodeError
  | S k' =>
      try! (v, rest) := value s in
      let rest := skip_ws rest in
      match expect 44 rest with
      | Some rest' => try! (l, rest'') := take_items k' (skip_ws rest') in Ok (v :: l, rest'')
      | None => try! rest' := wanted (expect 93 rest) in Ok ([v], rest')
      end
  end.
(** A key, a colon and a value. *)
Definition take_member (s : ustr) : result (ustr * obj * ustr) :=
  try! s1 := wanted (expect 34 s) in
  try! (key, rest) := wanted (string_literal s1) in
  try! rest' := wanted (expect 58 (skip_ws rest)) in
  try! (v, rest'') := value (skip_ws rest') in
  Ok (key, v, skip_ws rest'').
Fixpoint take_members (k : nat) (fields : list (ustr * obj)) (s : ustr) : result (list (ustr * obj) * ustr) :=
  match k with
  | O => Raise JSONDecodeError
  | S k' =>
      try! (key, v, rest) := take_member s in
      let fields := dict_set key v fields in
      match expect 44 rest with
      | Some rest' => take_members k' fields (skip_ws rest')
      | None => try! rest' := wanted (expect 125 rest) in Ok (fields, rest')
      end
  end.
Definition take_array (s : ustr) : result (obj * ustr) :=
  let s := skip_ws s in
  match expect 93 s with
  | Some rest => Ok (OList [], rest)
  | None => try! (l, rest) := take_items (List.length s) s in Ok (OList l, rest)
  end.
Definition take_object (s : ustr) : result (obj * ustr) :=
  let s := skip_ws s in
  match expect 125 s with
  | Some rest => Ok (ODict [], rest)
  | None => try! (f, rest) := take_members (List.length s) [] s in Ok (ODict f, rest)
  end.
End Containers.
(** [scan_once], after white space.  The fuel bounds the depth of the value: the length of
    the text is enough. *)
Fixpoint take_value (fuel : nat) (s : ustr) : result (obj * ustr) :=
  match fuel with
  | O => Raise JSONDecodeError
  | S fuel' =>
      match expect 34 s, expect 91 s, expect 123 s with
      | Some rest, _, _ => try! (u, rest') := wanted (string_literal rest) in Ok (OStr u, rest')
      | _, Some rest, _ => take_array (take_value fuel') rest
      | _, _, Some rest => take_object (take_value fuel') rest
      | _, _, _ => take_atom s
      end
  end.

(** [json.loads(text)] and [json.loads(data)].  The [RecursionError] of a text nested deeper
    than the interpreter's stack is not modelled. *)
Definition loads_text (s : ustr) : result obj :=
  let s := skip_ws s in
  try! (v, rest) := take_value (List.length s) s in
  match skip_ws rest with [] => Ok v | _ => Raise JSONDecodeError end.
Definition loads (b : bytes) : result obj :=
  try! s := need UnicodeDecodeError (json_decode b) in
  loads_text s.

Definition q1 : string := String (chr 34) EmptyString.
Example loads_object :
  loads (encode ("{" ++ q1 ++ "a" ++ q1 ++ ": [1, -2.5e1, null], " ++ q1 ++ "b" ++ q1 ++ ":true }"))
  = Ok (ODict [(wide "a", OList [OInt 1; OFloat (float_of_Z (-25)); ONone]); (wide "b", OBool true)]).
Proof. vm_compute. reflexivity. Qed.
