(* ===== verification/JsonFacts.v ===== *)
(** * The JSON parser is total

    Every piece of the parser leaves a shorter text, so the fuel that [loads] gives is enough:
    more fuel never changes a result. *)
From S2P Require Import Prelude PyStr PyFloat PyObject.

Open Scope Z_scope.

Notation shrinks s rest := (List.length rest < List.length s)%nat.
Notation keeps s rest := (List.length rest ≤ List.length s)%nat.
Definition shrinking {A} (p : ustr → option (A * ustr)) : Prop :=
  ∀ s a rest, p s = Some (a, rest) → shrinks s rest.

Definition consuming {A} (p : ustr → result (A * ustr)) : Prop :=
  ∀ s a rest, p s = Ok (a, rest) → shrinks s rest.

Lemma expect_Some c s rest : expect c s = Some rest ↔ s = c :: rest.
Proof.
  unfold expect. destruct s as [|d s]; [done|]. destruct (Z.eqb_spec d c) as [->|]; naive_solver.
Qed.
Lemma expect_shrinks c s rest : expect c s = Some rest → shrinks s rest.
Proof. intros ->%expect_Some. simpl. lia. Qed.
Lemma skip_ws_keeps s : keeps s (skip_ws s).
Proof. induction s as [|c s IH]; simpl; [lia|]. destruct (is_ws c); simpl; lia. Qed.

(** Opens the options and results of a parser, one step at a time. *)
Ltac parse_step H :=
  lazymatch type of H with
  | mbind _ ?x = Some _ =>
      let E := fresh "E" in destruct x as [?|] eqn:E; [cbn [mbind option_bind] in H|discriminate H]
  | result_bind (need _ ?x) _ = Ok _ =>
      let E := fresh "E" in destruct x as [?|] eqn:E; [cbn [need result_bind] in H|discriminate H]
  | result_bind ?x _ = Ok _ =>
      let E := fresh "E" in destruct x as [?|?] eqn:E; [cbn [result_bind] in H|discriminate H]
  | match ?x with _ => _ end = _ => let E := fresh "E" in destruct x eqn:E; try discriminate H
  | Some _ = Some _ => injection H as H; subst
  | Ok _ = Ok _ => injection H as H; subst
  end.
Ltac parse H := repeat parse_step H.

Lemma take_digits_keeps s : ∀ acc n m k rest,
  take_digits acc n s = (m, k, rest) → keeps s rest ∧ n <= k ∧ (n < k → shrinks s rest).
Proof.
  induction s as [|c s IH]; simpl; intros acc n m k rest; [intros [= <- <- <-]; simpl; lia|].
  destruct (digit_of c); [intros H%IH; simpl; lia|intros [= <- <- <-]; simpl; lia].
Qed.
Ltac use_IH IH := match goal with H : _ = Some (_, _) |- _ => apply IH in H | H : _ = Ok (_, _) |- _ => apply IH in H end.
(** The lengths that the equations of a parse give. *)
Ltac length_fact H := fail.
Ltac lengths := repeat match goal with
  | H : expect _ _ = Some _ |- _ => apply expect_shrinks in H
  | H : take_digits _ _ _ = _ |- _ => apply take_digits_keeps in H
  | H : (_ =? _) = false |- _ => apply Z.eqb_neq in H
  | H : _ = Some (_, _) |- _ => length_fact H
  | H : _ = Ok (_, _) |- _ => length_fact H
  | |- context [skip_ws ?s] => lazymatch goal with
      | _ : keeps s (skip_ws s) |- _ => fail
      | _ => pose proof (skip_ws_keeps s) end
  | _ : context [skip_ws ?s] |- _ => lazymatch goal with
      | _ : keeps s (skip_ws s) |- _ => fail
      | _ => pose proof (skip_ws_keeps s) end
  end; simpl List.length in *; try lia.
Ltac shrink f := intros s a rest H; unfold f in H; parse H; lengths.

Lemma take_integer_shrinks : shrinking take_integer.
Proof. shrink take_integer. Qed.
Lemma take_fraction_shrinks m : shrinking (take_fraction m).
Proof. shrink take_fraction. Qed.
Lemma take_sign_keeps s z rest : take_sign s = (z, rest) → keeps s rest.
Proof.
  unfold take_sign. destruct (expect 45 s) eqn:E1; [intros [= <- <-]; lengths|].
  destruct (expect 43 s) eqn:E2; intros [= <- <-]; lengths.
Qed.
Lemma take_exponent_shrinks : shrinking take_exponent.
Proof.
  intros s a rest H. unfold take_exponent in H. parse_step H. parse H.
  all: match goal with H : take_sign _ = _ |- _ => apply take_sign_keeps in H end.
  all: match goal with H : match ?x with _ => _ end = Some _ |- _ => destruct x eqn:?; simplify_eq end; lengths.
Qed.
Ltac length_fact H ::= first
  [ apply take_integer_shrinks in H | apply take_fraction_shrinks in H | apply take_exponent_shrinks in H ].
Lemma take_number_shrinks : consuming take_number.
Proof.
  intros s a rest H. unfold take_number in H. destruct (expect 45 s) eqn:E; parse H; lengths.
Qed.
Lemma take_hex4_shrinks : shrinking take_hex4.
Proof. intros s a rest H. unfold take_hex4 in H. parse H. simpl. lia. Qed.
Ltac length_fact H ::= apply take_hex4_shrinks in H.
Lemma low_half_shrinks c : shrinking (low_half c).
Proof. shrink low_half. Qed.
Ltac length_fact H ::= first [ apply take_hex4_shrinks in H | apply low_half_shrinks in H ].
Lemma take_escape_shrinks : shrinking take_escape.
Proof. shrink take_escape. Qed.
Ltac length_fact H ::= apply take_escape_shrinks in H.
Lemma take_char_shrinks : shrinking take_char.
Proof. shrink take_char. Qed.
Ltac length_fact H ::= apply take_char_shrinks in H.
Lemma take_string_shrinks fuel : shrinking (take_string fuel).
Proof.
  induction fuel as [|fuel IH]; intros s a rest H; [done|]. simpl in H. parse H; [lengths|].
  use_IH IH. lengths.
Qed.
Lemma drop_prefix_keeps p s rest : drop_prefix p s = Some rest → (List.length p + List.length rest = List.length s)%nat.
Proof.
  revert s. induction p as [|c p IH]; simpl; intros s H; [injection H as ->; lia|]. parse H.
  apply expect_Some in E as ->. apply IH in H. simpl. lia.
Qed.
Lemma take_literal_shrinks l : (∀ w v, (w, v) ∈ l → wide w ≠ []) → shrinking (take_literal l).
Proof.
  intros Hl. induction l as [|[w v] l IH]; intros s a rest H; [done|]. simpl in H. parse H.
  - apply drop_prefix_keeps in E. destruct (wide w) eqn:Ew; [|simpl in *; lia].
    exfalso. apply (Hl w a); [left|done].
  - eapply IH; [|exact H]. intros w' v' ?. apply (Hl w' v'). by right.
Qed.
Lemma take_atom_shrinks : consuming take_atom.
Proof.
  intros s a rest H. unfold take_atom in H. parse H; [|by eapply take_number_shrinks].
  eapply take_literal_shrinks, E. intros w v Hw Hn.
  repeat (apply elem_of_cons in Hw as [Hw|Hw]; [by injection Hw as -> ->|]). by apply not_elem_of_nil in Hw.
Qed.

(** ** Containers *)

Section Containers.
Context (value : ustr → result (obj * ustr)) (Hv : consuming value).
Ltac length_fact H ::= first [ apply Hv in H | apply take_string_shrinks in H ].
Lemma take_items_shrinks k : consuming (take_items value k).
Proof.
  induction k as [|k IH]; intros s a rest H; [done|]. simpl in H. parse H; [use_IH IH|]; lengths.
Qed.
Lemma take_member_shrinks : consuming (take_member value).
Proof. intros s a rest H. unfold take_member, string_literal in H. parse H. lengths. Qed.
Ltac length_fact H ::= apply take_member_shrinks in H.
Lemma take_members_shrinks k fields : consuming (take_members value k fields).
Proof.
  revert fields. induction k as [|k IH]; intros fields s a rest H; [done|]. simpl in H. parse H; [use_IH IH|]; lengths.
Qed.
Ltac length_fact H ::= first [ apply take_items_shrinks in H | apply take_members_shrinks in H ].
Lemma take_array_shrinks s a rest : take_array value s = Ok (a, rest) → shrinks s rest.
Proof. intros H. unfold take_array in H. parse H; lengths. Qed.
Lemma take_object_shrinks s a rest : take_object value s = Ok (a, rest) → shrinks s rest.
Proof. intros H. unfold take_object in H. parse H; lengths. Qed.
End Containers.

Lemma take_value_shrinks fuel : consuming (take_value fuel).
Proof.
  induction fuel as [|fuel IH]; intros s a rest H; [done|]. simpl in H. unfold string_literal in H.
  destruct (expect 34 s) eqn:E1; [parse H; apply take_string_shrinks in E; lengths|].
  destruct (expect 91 s) eqn:E2; [apply take_array_shrinks in H; [lengths|done]|].
  destruct (expect 123 s) eqn:E3; [apply take_object_shrinks in H; [lengths|done]|].
  by eapply take_atom_shrinks.
Qed.

(** ** Two parsers of values that agree on short texts *)

Definition agree {A} (n : nat) (p q : ustr → A) : Prop := ∀ s, (List.length s ≤ n)%nat → p s = q s.

Section Agree.
Context (p q : ustr → result (obj * ustr)) (n : nat) (Hs : consuming q) (Ha : agree n p q).
Lemma agree_items k s : (List.length s ≤ n)%nat → take_items p k s = take_items q k s.
Proof.
  revert s. induction k as [|k IH]; intros s Hl; [done|]. simpl. rewrite (Ha s Hl).
  destruct (q s) as [[v rest]|] eqn:E; [simpl|done]. apply Hs in E.
  destruct (expect 44 (skip_ws rest)) as [rest'|] eqn:E1; [|done]. rewrite IH; [done|]. lengths.
Qed.
Lemma agree_member s : (List.length s ≤ n)%nat → take_member p s = take_member q s.
Proof.
  intros Hl. unfold take_member, string_literal. destruct (expect 34 s) as [s1|] eqn:E; [simpl|done].
  destruct (take_string _ s1) as [[key rest]|] eqn:E1; [simpl|done]. apply take_string_shrinks in E1.
  destruct (expect 58 _) as [rest'|] eqn:E2; [simpl|done]. rewrite Ha; [done|]. lengths.
Qed.
Lemma agree_members k fields s : (List.length s ≤ n)%nat → take_members p k fields s = take_members q k fields s.
Proof.
  revert fields s. induction k as [|k IH]; intros fields s Hl; [done|]. simpl. rewrite (agree_member s Hl).
  destruct (take_member q s) as [[[key v] rest]|] eqn:E; [simpl|done].
  apply (take_member_shrinks q Hs) in E.
  destruct (expect 44 rest) as [rest'|] eqn:E1; [|done]. apply IH. lengths.
Qed.
Lemma agree_array s : (List.length s ≤ n)%nat → take_array p s = take_array q s.
Proof.
  intros Hl. unfold take_array. destruct (expect 93 _); [done|]. rewrite agree_items; [done|]. lengths.
Qed.
Lemma agree_object s : (List.length s ≤ n)%nat → take_object p s = take_object q s.
Proof.
  intros Hl. unfold take_object. destruct (expect 125 _); [done|]. rewrite agree_members; [done|]. lengths.
Qed.
End Agree.

(** The fuel of [take_value]. *)
Lemma take_value_fuel n : ∀ m, (n ≤ m)%nat → agree n (take_value m) (take_value n).
Proof.
  induction n as [|n IH]; intros m Hm s Hl.
  { destruct s; [|simpl in Hl; lia]. by destruct m. }
  destruct m as [|m]; [lia|]. simpl.
  assert (agree n (take_value m) (take_value n)) as Ha by (apply IH; lia).
  destruct (expect 34 s) eqn:E1; [done|].
  destruct (expect 91 s) eqn:E2.
  { apply (agree_array _ _ n); [apply take_value_shrinks|done|]. lengths. }
  destruct (expect 123 s) eqn:E3; [|done].
  apply (agree_object _ _ n); [apply take_value_shrinks|done|]. lengths.
Qed.

(** The fuel of the loops in it: each round takes a character. *)
Lemma take_string_fuel n : ∀ m, (n ≤ m)%nat → agree n (take_string m) (take_string n).
Proof.
  induction n as [|n IH]; intros m Hm s Hl.
  { destruct s; [|simpl in Hl; lia]. by destruct m. }
  destruct m as [|m]; [lia|]. simpl. destruct (expect 34 s); [done|].
  destruct (take_char s) as [[c rest]|] eqn:E; [simpl|done]. apply take_char_shrinks in E.
  rewrite (IH m); [done|lia|lia].
Qed.
Lemma take_items_fuel value (Hv : consuming value) (Hn : value [] = Raise JSONDecodeError) n :
  ∀ m, (n ≤ m)%nat → agree n (take_items value m) (take_items value n).
Proof.
  induction n as [|n IH]; intros m Hm s Hl.
  { destruct s; [|simpl in Hl; lia]. destruct m; [done|]. simpl. by rewrite Hn. }
  destruct m as [|m]; [lia|]. simpl. destruct (value s) as [[v rest]|] eqn:E; [simpl|done]. apply Hv in E.
  destruct (expect 44 (skip_ws rest)) eqn:E1; [|done]. rewrite (IH m); [done|lia|]. lengths.
Qed.
Lemma take_members_fuel value (Hv : consuming value) n :
  ∀ m fields, (n ≤ m)%nat → agree n (take_members value m fields) (take_members value n fields).
Proof.
  induction n as [|n IH]; intros m fields Hm s Hl.
  { destruct s; [|simpl in Hl; lia]. by destruct m. }
  destruct m as [|m]; [lia|]. simpl. destruct (take_member value s) as [[[key v] rest]|] eqn:E; [simpl|done].
  apply (take_member_shrinks value Hv) in E. destruct (expect 44 rest) eqn:E1; [|done].
  apply (IH m); [lia|]. lengths.
Qed.

(** With any fuel from the length of the text on, [loads_text] parses the same value. *)
Lemma loads_text_fuel s fuel : (List.length (skip_ws s) ≤ fuel)%nat →
  loads_text s = (try! (v, rest) := take_value fuel (skip_ws s) in
                  match skip_ws rest with [] => Ok v | _ => Raise JSONDecodeError end).
Proof. intros H. unfold loads_text. by rewrite (take_value_fuel _ _ H) by done. Qed.
