(* ===== verification/Json.v ===== *)
(** * [json.dumps] with sorted keys

    JSON values as the service builds them (no floating point number is ever serialised)
    and the three renderings in use: the compact separators with or without ASCII
    escaping, and the default separators.  A [dict] is an association list in insertion
    order. *)
From S2P Require Import Prelude PyStr.

Open Scope string_scope.
Open Scope Z_scope.

Inductive json :=
| JNull
| JBool (b : bool)
| JInt (n : Z)
| JStr (s : string)
| JList (l : list json)
| JObj (fields : list (string * json)).

(** The order of [str] values: lexicographic by code point. *)
Fixpoint str_leb (s t : string) : bool :=
  match s, t with
  | EmptyString, _ => true
  | String _ _, EmptyString => false
  | String c s', String d t' =>
      if code c <? code d then true else if code d <? code c then false else str_leb s' t'
  end.

Fixpoint insert_field {A} (kv : string * A) (l : list (string * A)) : list (string * A) :=
  match l with
  | [] => [kv]
  | kv' :: l' => if str_leb kv.1 kv'.1 then kv :: l else kv' :: insert_field kv l'
  end.
Definition sort_fields {A} (l : list (string * A)) : list (string * A) :=
  foldr insert_field [] l.

Definition char_str (z : Z) : string := String (chr z) EmptyString.
Definition hex4 (n : Z) : string := "00" ++ hex_of_byte (byte_of_Z n).

(** One character inside a JSON string literal. *)
Definition escape_char (ensure_ascii : bool) (c : ascii) : string :=
  let n := code c in
  if n =? 34 then char_str 92 ++ char_str 34
  else if n =? 92 then char_str 92 ++ char_str 92
  else if n =? 10 then char_str 92 ++ "n"
  else if n =? 13 then char_str 92 ++ "r"
  else if n =? 9 then char_str 92 ++ "t"
  else if n =? 12 then char_str 92 ++ "f"
  else if n =? 8 then char_str 92 ++ "b"
  else if (n <? 32) || (ensure_ascii && (126 <? n)) then char_str 92 ++ "u" ++ hex4 n
  else String c EmptyString.
Fixpoint escape (ensure_ascii : bool) (s : string) : string :=
  match s with
  | EmptyString => EmptyString
  | String c s' => escape_char ensure_ascii c ++ escape ensure_ascii s'
  end.
Definition quote (ensure_ascii : bool) (s : string) : string :=
  char_str 34 ++ escape ensure_ascii s ++ char_str 34.

Fixpoint join (sep : string) (l : list string) : string :=
  match l with
  | [] => EmptyString
  | [s] => s
  | s :: l' => s ++ sep ++ join sep l'
  end.

Section Dumps.
Context (item_sep key_sep : string) (ensure_ascii : bool).

(** [json.dumps(v, sort_keys=True, separators=(item_sep, key_sep), ...)]: the fields are
    rendered first and sorted by key after, which is the same text. *)
Fixpoint dumps (v : json) : string :=
  match v with
  | JNull => "null"
  | JBool true => "true"
  | JBool false => "false"
  | JInt n => str_int n
  | JStr s => quote ensure_ascii s
  | JList l => "[" ++ join item_sep (map dumps l) ++ "]"
  | JObj fs =>
      "{" ++
      join item_sep (map (λ kv, quote ensure_ascii kv.1 ++ key_sep ++ kv.2)
                      (sort_fields (map (λ kv, (kv.1, dumps kv.2)) fs))) ++
      "}"
  end.
End Dumps.

(** [separators=(",", ":")] and the default separators. *)
Definition dumps_compact (ensure_ascii : bool) : json → string := dumps "," ":" ensure_ascii.
Definition dumps_default : json → string := dumps ", " ": " true.

(** [d.get(key)] on a dict. *)
Fixpoint obj_get (key : string) (fs : list (string * json)) : option json :=
  match fs with
  | [] => None
  | (k, v) :: fs' => if (k =? key)%string then Some v else obj_get key fs'
  end.

Example dumps_sorted :
  dumps_compact false (JObj [("b", JInt (-3)); ("a", JList [JBool true; JNull])])
  = "{" ++ quote true "a" ++ ":[true,null]," ++ quote true "b" ++ ":-3}".
Proof. vm_compute. reflexivity. Qed.
