(* ===== verification/JsonText.v ===== *)
(** * Reading printed JSON

    Plain texts and integers that [json.dumps] printed are read back by the parser. *)
From S2P Require Import Prelude PyStr PyObject JsonFacts Json Uuid Digits.
From Stdlib Require Import Numbers.DecimalString Numbers.DecimalPos.

Open Scope string_scope.
Open Scope Z_scope.

Lemma wide_app s t : wide (s ++ t)%string = (wide s ++ wide t)%list.
Proof. unfold wide. induction s as [|c s IH]; [done|]. simpl. f_equal. exact IH. Qed.
Lemma wide_cons c s : wide (String c s) = code c :: wide s.
Proof. done. Qed.
Lemma length_wide s : List.length (wide s) = String.length s.
Proof. unfold wide. rewrite length_map. induction s; simpl; congruence. Qed.
Lemma wide_inj s t : wide s = wide t → s = t.
Proof.
  revert t. induction s as [|c s IH]; intros [|d t] H; try done. injection H as Hc H.
  f_equal; [|by apply IH]. unfold code in Hc. rewrite <- (ascii_N_embedding c), <- (ascii_N_embedding d). f_equal. lia.
Qed.
Lemma latin_of_wide s : latin_of (Some (OStr (wide s))) = Some s.
Proof.
  simpl. unfold latin, wide.
  assert (forallb (λ c, (0 <=? c) && (c <? 256)) (map code (list_ascii_of_string s)) = true) as ->.
  { apply forallb_forall. intros ? (c & <- & _)%in_map_iff. unfold code. pose proof (N_ascii_bounded c). lia. }
  rewrite map_map. f_equal. rewrite <- (string_of_list_ascii_of_string s) at 2. f_equal.
  rewrite <- (map_id (list_ascii_of_string s)) at 2. apply map_ext. intros c.
  unfold chr, code. rewrite N2Z.id. apply ascii_N_embedding.
Qed.

(** ** UTF-8 *)

Lemma utf8_decode_char c : ∃ x, encode (String c "") = [x] ∧ Z_of_byte x = code c ∧ code c < 128 ∨
  ∃ y p, encode (String c "") = [x; y] ∧ (194 <=? Z_of_byte x) && (Z_of_byte x <? 224) = true ∧
    continuation y = Some p ∧ (Z_of_byte x - 192) * 64 + p = code c.
Proof.
  destruct c as [[] [] [] [] [] [] [] []]; eexists;
    first [left; split_and!; reflexivity | right; eexists _, _; split_and!; reflexivity].
Qed.
Lemma utf8_decode_encode s : utf8_decode (encode s) = Some (wide s).
Proof.
  induction s as [|c s IH]; [done|].
  assert (encode (String c s) = (encode (String c "") ++ encode s)%list) as ->
    by (cbn [encode]; by rewrite app_nil_r).
  rewrite wide_cons. destruct (utf8_decode_char c) as (x & [(-> & Hx & Hc)|(y & p & -> & Hr & Hy & Hp)]).
  - cbn [app utf8_decode]. rewrite Hx, (proj2 (Z.ltb_lt _ _) Hc), IH. done.
  - cbn [app utf8_decode]. assert (Z_of_byte x <? 128 = false) as -> by lia. rewrite Hy, Hr, IH. simpl. by rewrite Hp.
Qed.

(** ** Strings *)

(** A character that is printed as it is. *)
Definition plain (c : ascii) : bool :=
  (32 <=? code c) && (code c <=? 126) && negb (code c =? 34) && negb (code c =? 92).
Lemma escape_plain s : str_all plain s = true → escape true s = s.
Proof.
  induction s as [|c s IH]; [done|]. cbn [str_all escape]. intros [Hc Hs]%andb_prop. rewrite IH by done.
  assert (escape_char true c = String c "") as ->; [|done].
  revert Hc. by destruct c as [[] [] [] [] [] [] [] []].
Qed.

(** ** Integers *)

Definition digit_ends (rest : ustr) : Prop := match rest with c :: _ => digit_of c = None | [] => True end.
Lemma take_digits_uint u rest : digit_ends rest → ∀ a k,
  take_digits (Z.pos a) k (wide (NilEmpty.string_of_uint u) ++ rest)%list =
    (Z.pos (Pos.of_uint_acc u a), k + strlen (NilEmpty.string_of_uint u), rest).
Proof.
  intros Hr. unfold strlen.
  induction u as [|u IH|u IH|u IH|u IH|u IH|u IH|u IH|u IH|u IH|u IH]; intros a k;
    cbn [NilEmpty.string_of_uint Pos.of_uint_acc String.length];
    [destruct rest as [|c rest]; simpl in *; [|rewrite Hr]; f_equal; f_equal; lia|..];
    rewrite wide_cons; cbn [app take_digits];
    match goal with |- context [digit_of ?c] => let d := eval vm_compute in (digit_of c) in
      change (digit_of c) with d; cbv iota beta end;
    match goal with |- take_digits (10 * Z.pos a + ?d) _ _ = (Z.pos (Pos.of_uint_acc u ?b), _, _) =>
      replace (10 * Z.pos a + d) with (Z.pos b) by lia end;
    rewrite IH; f_equal; f_equal; lia.
Qed.
Lemma take_integer_str_int n rest : 0 < n → digit_ends rest →
  take_integer (wide (str_int n) ++ rest)%list = Some (n, strlen (str_int n), rest).
Proof.
  intros Hn Hr. rewrite str_int_uint by lia. destruct n as [|p|p]; [lia| |lia]. simpl.
  pose proof (DecimalPos.Unsigned.of_to p) as Hp. pose proof (to_uint_head p) as Hh.
  pose proof (DecimalPos.Unsigned.to_uint_nonnil p) as Hnil.
  destruct (Pos.to_uint p) as [|u|u|u|u|u|u|u|u|u|u]; [done|by destruct (Hh u)|..]; clear Hh Hnil;
    cbn [NilEmpty.string_of_uint]; rewrite wide_cons; unfold take_integer; injection Hp as <-;
    match goal with |- context [expect 48 ?s] => replace (expect 48 s) with (@None ustr) by done end;
    cbn [app take_digits];
    match goal with |- context [digit_of ?c] => let d := eval vm_compute in (digit_of c) in
      change (digit_of c) with d; cbv iota beta end; rewrite Z.mul_0_r, Z.add_0_l;
    rewrite take_digits_uint by done; unfold strlen; cbn [String.length];
    rewrite Nat2Z.inj_succ, <- Z.add_1_l;
    match goal with |- context [?x =? 0] => rewrite (proj2 (Z.eqb_neq x 0)) by (clear; lia) end; f_equal.
Qed.
(** What may follow an integer: no digit, point or exponent. *)
Definition number_ends (rest : ustr) : Prop :=
  digit_ends rest ∧ expect 46 rest = None ∧ expect 101 rest = None ∧ expect 69 rest = None.
Lemma take_number_str_int n rest : 0 < n → strlen (str_int n) <= 4300 → number_ends rest →
  take_number (wide (str_int n) ++ rest)%list = Ok (OInt n, rest).
Proof.
  intros Hn Hl (Hd & Hp & He & HE). unfold take_number.
  destruct (str_int_pos n Hn) as (c & s & E & Hc & _).
  assert (expect 45 (wide (str_int n) ++ rest)%list = None) as ->.
  { rewrite E, wide_cons. simpl. unfold in_range in Hc. by assert (code c =? 45 = false) as -> by lia. }
  rewrite take_integer_str_int by done. cbn [need result_bind].
  unfold take_fraction, take_exponent. rewrite Hp, He, HE. simpl.
  by assert (4300 <? strlen (str_int n) = false) as -> by lia.
Qed.

(** ** Heads *)

Lemma wide_str_int n rest : 0 < n →
  ∃ c t, (wide (str_int n) ++ rest)%list = c :: t ∧ 49 <= c <= 57.
Proof.
  intros (c & s & -> & Hc & _)%str_int_pos. exists (code c), (wide s ++ rest)%list.
  unfold in_range in Hc. split; [done|lia].
Qed.
Lemma expect_cons c t : expect c (c :: t) = Some t.
Proof. simpl. by rewrite Z.eqb_refl. Qed.
Lemma expect_other d c t : c ≠ d → expect d (c :: t) = None.
Proof. intros. simpl. by rewrite (proj2 (Z.eqb_neq c d)). Qed.
Lemma skip_ws_other c t : 32 < c → skip_ws (c :: t) = c :: t.
Proof. intros. simpl. unfold is_ws. by assert ((c =? 32) || (c =? 9) || (c =? 10) || (c =? 13) = false) as -> by lia. Qed.

(** ** [json.loads] reads what [json.dumps] printed

    The compact rendering with ASCII escapes of any value the service builds is read back as
    the same value, its fields in the order of their keys. *)
From S2P Require Import Prelude PyStr PyObject JsonFacts Json Uuid Digits.

Open Scope string_scope.
Open Scope Z_scope.

(** ** Values *)

(** Induction with the values inside lists and objects. *)
Section Induction.
Context (P : json → Prop) (Hnull : P JNull) (Hbool : ∀ b, P (JBool b)) (Hint : ∀ n, P (JInt n)) (Hstr : ∀ s, P (JStr s))
  (Hlist : ∀ l, Forall P l → P (JList l)) (Hobj : ∀ fs, Forall (λ kv, P kv.2) fs → P (JObj fs)).
Fixpoint json_rect_all (v : json) : P v :=
  match v with
  | JNull => Hnull
  | JBool b => Hbool b
  | JInt n => Hint n
  | JStr s => Hstr s
  | JList l => Hlist l ((fix go l := match l return Forall P l with
                                    | [] => Forall_nil_2 P
                                    | x :: l' => Forall_cons_2 P x l' (json_rect_all x) (go l')
                                    end) l)
  | JObj fs => Hobj fs ((fix go fs := match fs return Forall (λ kv, P kv.2) fs with
                                     | [] => Forall_nil_2 _
                                     | kv :: fs' => Forall_cons_2 (λ kv, P kv.2) kv fs' (json_rect_all kv.2) (go fs')
                                     end) fs)
  end.
End Induction.

(** The object that the text of a value is read as, and what the reader can hold: integers of at
    most 4300 digits and distinct keys. *)
Fixpoint obj_of (v : json) : obj :=
  match v with
  | JNull => ONone
  | JBool b => OBool b
  | JInt n => OInt n
  | JStr s => OStr (wide s)
  | JList l => OList (map obj_of l)
  | JObj fs => ODict (map (λ kv, (wide kv.1, kv.2)) (sort_fields (map (λ kv, (kv.1, obj_of kv.2)) fs)))
  end.
Fixpoint json_ok (v : json) : bool :=
  match v with
  | JInt n => strlen (str_int n) <=? 4300
  | JList l => forallb json_ok l
  | JObj fs => bool_decide (NoDup fs.*1) && forallb (λ kv, json_ok kv.2) fs
  | _ => true
  end.

(** ** Sorting *)

Lemma insert_field_perm {A} (kv : string * A) l : insert_field kv l ≡ₚ kv :: l.
Proof.
  induction l as [|kv' l IH]; simpl; [done|]. destruct (str_leb kv.1 kv'.1); [done|]. rewrite IH. apply Permutation_swap.
Qed.
Lemma sort_fields_perm {A} (l : list (string * A)) : sort_fields l ≡ₚ l.
Proof. induction l as [|kv l IH]; simpl; [done|]. rewrite insert_field_perm. by constructor. Qed.
Lemma sort_fields_map {A B} (f : A → B) (l : list (string * A)) :
  sort_fields (map (λ kv, (kv.1, f kv.2)) l) = map (λ kv, (kv.1, f kv.2)) (sort_fields l).
Proof.
  induction l as [|kv l IH]; [done|]. cbn [map sort_fields foldr]. fold (sort_fields l) in *.
  change (foldr insert_field [] (map (λ kv, (kv.1, f kv.2)) l)) with (sort_fields (map (λ kv, (kv.1, f kv.2)) l)).
  rewrite IH. clear IH. induction (sort_fields l) as [|kv' l' IH']; [done|]. cbn [map insert_field fst snd].
  destruct (str_leb _ _); [done|]. cbn [map]. by rewrite IH'.
Qed.

(** ** Strings *)

Lemma low_half_low c s : is_high c = false → low_half c s = None.
Proof.
  intros Hc. unfold low_half. destruct (expect 92 s) as [s1|]; [|done]. simpl.
  destruct (expect 117 s1) as [s2|]; [|done]. simpl. destruct (take_hex4 s2) as [[low rest]|]; [|done]. simpl. by rewrite Hc.
Qed.
Lemma take_char_escape c rest :
  expect 34 (wide (escape_char true c) ++ rest)%list = None ∧
  take_char (wide (escape_char true c) ++ rest)%list = Some (code c, rest).
Proof.
  destruct c as [[] [] [] [] [] [] [] []]; split; try reflexivity; cbn [take_char];
    match goal with |- context [wide ?t] => let w := eval vm_compute in (wide t) in change (wide t) with w end;
    cbn; rewrite low_half_low by done; reflexivity.
Qed.
Lemma length_escape s : (String.length s ≤ String.length (escape true s))%nat.
Proof.
  induction s as [|c s IH]; [done|]. cbn [escape]. rewrite length_string_app. simpl.
  assert (1 ≤ String.length (escape_char true c))%nat; [|lia].
  destruct c as [[] [] [] [] [] [] [] []]; vm_compute; lia.
Qed.
Lemma take_string_escape s rest : ∀ fuel, (String.length s < fuel)%nat →
  take_string fuel (wide (escape true s) ++ 34 :: rest)%list = Some (wide s, rest).
Proof.
  induction s as [|c s IH]; intros fuel Hf; (destruct fuel as [|fuel]; [simpl in Hf; lia|]); [done|].
  cbn [escape]. rewrite wide_app, <- app_assoc. destruct (take_char_escape c (wide (escape true s) ++ 34 :: rest)%list) as [He Ht].
  cbn [take_string]. rewrite He, Ht. cbn [mbind option_bind]. rewrite IH; [done|simpl in Hf; lia].
Qed.
Lemma wide_quote s rest : (wide (quote true s) ++ rest)%list = (34 :: wide (escape true s) ++ 34 :: rest)%list.
Proof. unfold quote. rewrite !wide_app, <- !app_assoc. done. Qed.
Lemma string_literal_escape s rest :
  string_literal (wide (escape true s) ++ 34 :: rest)%list = Some (wide s, rest).
Proof.
  apply take_string_escape. rewrite length_app, length_wide. pose proof (length_escape s). simpl. lia.
Qed.

(** ** Integers of any sign *)

(** What may follow a value: nothing, a separator, a closing bracket or a newline. *)
Definition value_ends (rest : ustr) : Prop :=
  match rest with [] => True | c :: _ => c = 44 ∨ c = 93 ∨ c = 125 ∨ c = 10 end.
Lemma value_number_ends rest : value_ends rest → number_ends rest.
Proof. destruct rest as [|c rest]; [done|]. intros [->|[->|[->| ->]]]; done. Qed.
Lemma take_number_int n rest : strlen (str_int n) <= 4300 → value_ends rest →
  take_number (wide (str_int n) ++ rest)%list = Ok (OInt n, rest).
Proof.
  intros Hl Hr. destruct (Z.lt_trichotomy n 0) as [Hn|[->|Hn]].
  - assert (str_int n = String "-" (str_int (- n))) as E by (by destruct n).
    rewrite E in *. rewrite wide_cons. pose proof (take_number_str_int (- n) rest) as H.
    unfold take_number in *. cbn [app expect] in *. change (code "-" =? 45) with true. cbv iota.
    assert (expect 45 (wide (str_int (- n)) ++ rest)%list = None) as E'.
    { destruct (wide_str_int (- n) rest) as (c & t & -> & Hc); [lia|]. apply expect_other. lia. }
    rewrite E' in H. rewrite take_integer_str_int by (lia || by apply value_number_ends). 
    rewrite take_integer_str_int in H by (lia || by apply value_number_ends). cbn [need result_bind] in *.
    unfold strlen in *. cbn [String.length] in Hl.
    assert (4300 <? Z.of_nat (String.length (str_int (- n))) = false) as E4 by lia. rewrite E4 in *.
    apply value_number_ends in Hr as (Hd & Hp & He & HE). unfold take_fraction, take_exponent. rewrite Hp, He, HE. simpl.
    by rewrite Z.opp_involutive.
  - destruct rest as [|c rest]; [done|]. by destruct Hr as [->|[->|[->| ->]]].
  - apply take_number_str_int; [done|done|by apply value_number_ends].
Qed.

(** ** Heads of values *)

Definition head_of_value (c : Z) : Prop := 32 < c ∧ c ≠ 44 ∧ c ≠ 58 ∧ c ≠ 93 ∧ c ≠ 125.
Lemma str_int_head n rest : ∃ c t, (wide (str_int n) ++ rest)%list = c :: t ∧
  (48 <= c <= 57 ∨ c = 45 ∧ ∃ d t', t = d :: t' ∧ 48 <= d <= 57).
Proof.
  destruct (Z.lt_trichotomy n 0) as [Hn|[->|Hn]].
  - assert (str_int n = String "-" (str_int (- n))) as -> by (by destruct n).
    destruct (wide_str_int (- n) rest) as (d & t & E & Hd); [lia|]. rewrite wide_cons. cbn [app]. rewrite E.
    eexists _, _. split; [reflexivity|]. right. split; [done|]. exists d, t. split; [done|lia].
  - eexists _, _. split; [reflexivity|]. left. vm_compute. split; congruence.
  - destruct (wide_str_int n rest Hn) as (c & t & E & Hc). exists c, t. split; [done|lia].
Qed.
Lemma dumps_head v rest : ∃ c t, (wide (dumps_compact true v) ++ rest)%list = c :: t ∧ head_of_value c.
Proof.
  destruct v as [|[]|n|s|l|fs]; try (eexists _, _; split; [reflexivity|]; vm_compute; split_and!; congruence).
  destruct (str_int_head n rest) as (c & t & E & Hc). exists c, t. split; [done|]. unfold head_of_value.
  destruct Hc as [Hc|[-> _]]; lia.
Qed.
Lemma skip_ws_dumps v rest :
  skip_ws (wide (dumps_compact true v) ++ rest)%list = (wide (dumps_compact true v) ++ rest)%list.
Proof. destruct (dumps_head v rest) as (c & t & -> & Hc & _). by apply skip_ws_other. Qed.
Lemma skip_ws_ends rest : value_ends rest → head rest ≠ Some 10 → skip_ws rest = rest.
Proof. destruct rest as [|c rest]; [done|]. intros [->|[->|[->| ->]]]; simpl; congruence. Qed.
Lemma length_dumps v : (1 ≤ String.length (dumps_compact true v))%nat.
Proof.
  destruct (dumps_head v []) as (c & t & E & _). rewrite app_nil_r in E. apply (f_equal List.length) in E.
  rewrite length_wide in E. rewrite E. simpl. lia.
Qed.

(** ** The parser on printed values *)

Definition reads (v : json) : Prop := ∀ fuel rest, (String.length (dumps_compact true v) ≤ fuel)%nat → value_ends rest →
  take_value fuel (wide (dumps_compact true v) ++ rest)%list = Ok (obj_of v, rest).

(** A value that a list or an object starts with none of its brackets. *)
Lemma take_items_dumps fuel rest : ∀ l k v, Forall reads (v :: l) → (List.length (v :: l) ≤ k)%nat →
  (String.length (join "," (map (dumps_compact true) (v :: l))) ≤ fuel)%nat →
  take_items (take_value fuel) k (wide (join "," (map (dumps_compact true) (v :: l))) ++ 93 :: rest)%list =
    Ok (map obj_of (v :: l), rest).
Proof.
  induction l as [|v' l IH]; intros k v Hl Hk Hf; (destruct k as [|k]; [simpl in Hk; lia|]); inversion_clear Hl as [|? ? Hv Hl'].
  - cbn [map join take_items] in *. rewrite Hv; [done|done|by right; left].
  - assert (join "," (map (dumps_compact true) (v :: v' :: l)) =
      dumps_compact true v ++ "," ++ join "," (map (dumps_compact true) (v' :: l))) as E by done.
    rewrite E in *. rewrite !length_string_app in Hf. cbn [String.length] in Hf.
    rewrite !wide_app, <- !app_assoc. cbn [take_items]. change (wide ",") with [44]. cbn [app].
    rewrite Hv; [|lia|by left]. cbn [result_bind]. rewrite (skip_ws_other 44), expect_cons by lia. cbv iota.
    assert (∃ t, (wide (join "," (map (dumps_compact true) (v' :: l))) ++ 93 :: rest)%list =
                 (wide (dumps_compact true v') ++ t)%list) as (t & Et).
    { cbn [map join]. destruct (map _ l); [by eexists|]. rewrite wide_app, <- app_assoc. by eexists. }
    rewrite Et, skip_ws_dumps, <- Et. rewrite IH; [done|done|simpl in *; lia|lia].
Qed.

Definition member_text (kv : string * json) : string := quote true kv.1 ++ ":" ++ dumps_compact true kv.2.
Definition obj_fields (fs : list (string * json)) : list (ustr * obj) := map (λ kv, (wide kv.1, obj_of kv.2)) fs.
Lemma dict_set_new key v acc : key ∉ acc.*1 → dict_set key v acc = (acc ++ [(key, v)])%list.
Proof.
  induction acc as [|[k x] acc IH]; [done|]. cbn [fmap list_fmap dict_set fst]. rewrite not_elem_of_cons. intros [Hk Ha].
  rewrite bool_decide_eq_false_2 by congruence. by rewrite IH.
Qed.
Lemma take_member_dumps fuel kv rest : reads kv.2 → (String.length (member_text kv) ≤ fuel)%nat →
  value_ends rest → head rest ≠ Some 10 →
  take_member (take_value fuel) (wide (member_text kv) ++ rest)%list = Ok (wide kv.1, obj_of kv.2, rest).
Proof.
  intros Hv Hf Hr Hn. unfold member_text in *. rewrite !length_string_app in Hf. rewrite !wide_app, <- !app_assoc.
  rewrite wide_quote. unfold take_member. rewrite expect_cons. cbn [need result_bind].
  rewrite string_literal_escape. cbn [need result_bind]. change (wide ":") with [58]. cbn [app].
  rewrite skip_ws_other, expect_cons by lia. cbn [need result_bind]. rewrite skip_ws_dumps, Hv by (lia || done).
  cbn [result_bind]. by rewrite skip_ws_ends.
Qed.
Lemma member_text_head kv rest : ∃ t, (wide (member_text kv) ++ rest)%list = 34 :: t.
Proof. unfold member_text. rewrite wide_app, <- app_assoc, wide_quote. by eexists. Qed.
Lemma take_members_dumps fuel rest : ∀ fs k acc kv, Forall (λ kv, reads kv.2) (kv :: fs) → (List.length (kv :: fs) ≤ k)%nat →
  (String.length (join "," (map member_text (kv :: fs))) ≤ fuel)%nat →
  NoDup (acc.*1 ++ (obj_fields (kv :: fs)).*1) →
  take_members (take_value fuel) k acc (wide (join "," (map member_text (kv :: fs))) ++ 125 :: rest)%list =
    Ok ((acc ++ obj_fields (kv :: fs))%list, rest).
Proof.
  induction fs as [|kv' fs IH]; intros k acc kv Hl Hk Hf Hnd; (destruct k as [|k]; [simpl in Hk; lia|]);
    inversion_clear Hl as [|? ? Hv Hl'];
    (assert (wide kv.1 ∉ acc.*1) as Hacc by
      (apply NoDup_app in Hnd as (_ & Hd & _); intros Hin; apply (Hd _ Hin); simpl; left)).
  - cbn [map join take_members] in *. rewrite take_member_dumps; [|done|done|by right; right; left|done].
    cbn [result_bind]. rewrite dict_set_new by done. simpl. done.
  - assert (join "," (map member_text (kv :: kv' :: fs)) =
      member_text kv ++ "," ++ join "," (map member_text (kv' :: fs))) as E by done.
    rewrite E in *. rewrite !length_string_app in Hf. cbn [String.length] in Hf.
    rewrite !wide_app, <- !app_assoc. cbn [take_members]. change (wide ",") with [44]. cbn [app].
    rewrite take_member_dumps; [|done|lia|by left|done]. cbn [result_bind]. rewrite expect_cons, dict_set_new by done.
    assert (∃ t, (wide (join "," (map member_text (kv' :: fs))) ++ 125 :: rest)%list = 34 :: t) as (t & Et).
    { cbn [map join]. destruct (map _ fs); [apply member_text_head|]. rewrite wide_app, <- app_assoc. apply member_text_head. }
    rewrite Et, (skip_ws_other 34), <- Et by lia. rewrite IH; [|done|simpl in *; lia|lia|].
    + unfold obj_fields. cbn [map]. by rewrite <- app_assoc.
    + rewrite fmap_app, <- app_assoc. exact Hnd.
Qed.

(** ** The round trip *)

Lemma dumps_fields fs : dumps_compact true (JObj fs) = "{" ++ join "," (map member_text (sort_fields fs)) ++ "}".
Proof.
  unfold dumps_compact at 1. cbn [dumps]. rewrite sort_fields_map, map_map. done.
Qed.
Lemma obj_of_fields fs : obj_of (JObj fs) = ODict (obj_fields (sort_fields fs)).
Proof. cbn [obj_of]. by rewrite sort_fields_map, map_map. Qed.
Lemma reads_int n : strlen (str_int n) <= 4300 → reads (JInt n).
Proof.
  intros Hl fuel rest Hf Hr. pose proof (length_dumps (JInt n)). destruct fuel as [|fuel]; [lia|].
  change (dumps_compact true (JInt n)) with (str_int n) in *. change (obj_of (JInt n)) with (OInt n).
  rewrite <- (take_number_int n rest Hl Hr). destruct (str_int_head n rest) as (c & t & E & Hc).
  rewrite E. cbn [take_value]. rewrite !expect_other by (destruct Hc as [Hc|[-> _]]; lia). unfold take_atom.
  assert (take_literal literals (c :: t) = None) as ->; [|done].
  unfold literals. cbn [take_literal].
  assert (∀ w d u, wide w = d :: u → d ≠ c → drop_prefix (wide w) (c :: t) = None) as Hw.
  { intros w d u -> Hd. simpl. by rewrite (proj2 (Z.eqb_neq c d)) by congruence. }
  rewrite (Hw "null" 110 _ eq_refl), (Hw "true" 116 _ eq_refl), (Hw "false" 102 _ eq_refl), (Hw "NaN" 78 _ eq_refl),
    (Hw "Infinity" 73 _ eq_refl) 
    by (destruct Hc as [Hc|[-> _]]; lia).
  assert (drop_prefix (wide "-Infinity") (c :: t) = None) as ->; [|done].
  destruct Hc as [Hc|(-> & d & t' & -> & Hd)]; [apply (Hw "-Infinity" 45 _ eq_refl); lia|].
  change (wide "-Infinity") with (45 :: 73 :: wide "nfinity"). cbn [drop_prefix]. rewrite expect_cons. cbn [mbind option_bind].
  by rewrite expect_other by lia.
Qed.

Lemma length_join l : Forall (λ s, (1 ≤ String.length s)%nat) l → (List.length l ≤ String.length (join "," l))%nat.
Proof.
  induction 1 as [|s l Hs _ IH]; [done|]. destruct l as [|s' l]; [simpl; lia|].
  change (join "," (s :: s' :: l)) with (s ++ "," ++ join "," (s' :: l)). rewrite !length_string_app.
  cbn [List.length String.length] in *. lia.
Qed.
(** Every value the service prints is read back. *)
Lemma reads_ok v : json_ok v = true → reads v.
Proof.
  induction v as [|b|n|s|l IH|fs IH] using json_rect_all; intros Hok.
  - intros [|fuel] rest Hf Hr; [vm_compute in Hf; lia|]. reflexivity.
  - intros [|fuel] rest Hf Hr; [destruct b; vm_compute in Hf; lia|]. by destruct b.
  - apply reads_int. simpl in Hok. lia.
  - intros fuel rest Hf Hr. pose proof (length_dumps (JStr s)). destruct fuel as [|fuel]; [lia|].
    change (dumps_compact true (JStr s)) with (quote true s). rewrite wide_quote. cbn [take_value].
    by rewrite expect_cons, string_literal_escape.
  - intros fuel rest Hf Hr. change (dumps_compact true (JList l)) with ("[" ++ join "," (map (dumps_compact true) l) ++ "]") in *.
    rewrite !length_string_app in Hf. cbn [String.length] in Hf. destruct fuel as [|fuel]; [lia|].
    rewrite !wide_app, <- !app_assoc. change (wide "[") with [91]. change (wide "]") with [93]. cbn [app take_value].
    rewrite expect_other, expect_cons by lia. unfold take_array. destruct l as [|v l]; [done|].
    assert (∃ t, (wide (join "," (map (dumps_compact true) (v :: l))) ++ 93 :: rest)%list =
                 (wide (dumps_compact true v) ++ t)%list) as (t & Et).
    { cbn [map join]. destruct (map _ l); [by eexists|]. rewrite wide_app, <- app_assoc. by eexists. }
    rewrite Et, skip_ws_dumps. destruct (dumps_head v t) as (c & t' & Eh & Hc). rewrite Eh, expect_other, <- Eh, <- Et by apply Hc.
    rewrite take_items_dumps; [done| | |lia].
    + simpl in Hok. apply andb_prop in Hok as [Hv Hl]. apply Forall_cons in IH as [IHv IHl]. constructor; [by apply IHv|].
      apply Forall_forall. intros x Hx. rewrite Forall_forall in IHl. apply IHl; [done|].
      rewrite forallb_forall in Hl. apply Hl. by apply list_elem_of_In.
    + rewrite length_app, length_wide. etrans; [|apply Nat.le_add_r]. rewrite <- (length_map (dumps_compact true)).
      apply length_join, Forall_forall. intros x (y & -> & _)%list_elem_of_fmap. apply length_dumps.
  - intros fuel rest Hf Hr. rewrite dumps_fields, obj_of_fields in *.
    rewrite !length_string_app in Hf. cbn [String.length] in Hf. destruct fuel as [|fuel]; [lia|].
    rewrite !wide_app, <- !app_assoc. change (wide "{") with [123]. change (wide "}") with [125]. cbn [app take_value].
    rewrite !(expect_other _ 123), expect_cons by lia. unfold take_object.
    cbn [json_ok] in Hok. apply andb_prop in Hok as [Hnd%bool_decide_eq_true Hok].
    assert (Forall (λ kv, reads kv.2) (sort_fields fs)) as Hall.
    { rewrite sort_fields_perm. apply Forall_forall. intros kv Hkv. rewrite Forall_forall in IH. apply IH; [done|].
      rewrite forallb_forall in Hok. apply Hok. by apply list_elem_of_In. }
    assert (NoDup (obj_fields (sort_fields fs)).*1) as Hkeys.
    { assert ((obj_fields (sort_fields fs)).*1 = wide <$> (sort_fields fs).*1) as ->.
      { unfold obj_fields. rewrite <- !list_fmap_compose. by apply list_fmap_ext. }
      apply NoDup_fmap_2; [intros ??; apply wide_inj|]. by rewrite sort_fields_perm. }
    destruct (sort_fields fs) as [|kv fs'] eqn:E; [done|].
    assert (∃ t, (wide (join "," (map member_text (kv :: fs'))) ++ 125 :: rest)%list = 34 :: t) as (t & Et).
    { cbn [map join]. destruct (map _ fs'); [apply member_text_head|]. rewrite wide_app, <- app_assoc. apply member_text_head. }
    rewrite Et, skip_ws_other, expect_other, <- Et by lia.
    rewrite (take_members_dumps fuel rest fs' _ [] kv); [done|done| |lia|done].
    rewrite length_app, length_wide. etrans; [|apply Nat.le_add_r]. rewrite <- (length_map member_text).
    apply length_join, Forall_forall. intros x (y & -> & _)%list_elem_of_fmap.
    unfold member_text, quote. rewrite !length_string_app. simpl. lia.
Qed.

(** ** Bytes *)

(** The characters of a rendering: printable ASCII. *)
Definition printed (c : ascii) : bool := (32 <=? code c) && (code c <=? 126).
Lemma escape_printed s : str_all printed (escape true s) = true.
Proof.
  induction s as [|c s IH]; [done|]. cbn [escape]. rewrite str_all_app, IH, andb_true_r.
  destruct c as [[] [] [] [] [] [] [] []]; reflexivity.
Qed.
Lemma quote_printed s : str_all printed (quote true s) = true.
Proof. unfold quote. by rewrite !str_all_app, escape_printed. Qed.
Lemma str_int_printed n : str_all printed (str_int n) = true.
Proof.
  assert (∀ m, 0 <= m → str_all printed (str_int m) = true) as H.
  { intros m Hm. eapply str_all_impl, (str_int_digits m Hm). intros c. by destruct c as [[] [] [] [] [] [] [] []]. }
  destruct (Z.le_gt_cases 0 n); [by apply H|]. assert (str_int n = String "-" (str_int (- n))) as -> by (by destruct n).
  apply H. lia.
Qed.
Lemma join_printed l : Forall (λ s, str_all printed s = true) l → str_all printed (join "," l) = true.
Proof.
  induction 1 as [|s l Hs _ IH]; [done|]. destruct l as [|s' l]; [done|].
  change (join "," (s :: s' :: l)) with (s ++ "," ++ join "," (s' :: l)). by rewrite !str_all_app, Hs, IH.
Qed.
Lemma dumps_printed v : str_all printed (dumps_compact true v) = true.
Proof.
  induction v as [|b|n|s|l IH|fs IH] using json_rect_all.
  - done.
  - by destruct b.
  - apply str_int_printed.
  - apply quote_printed.
  - change (dumps_compact true (JList l)) with ("[" ++ join "," (map (dumps_compact true) l) ++ "]").
    rewrite !str_all_app, join_printed; [done|]. by apply Forall_fmap.
  - rewrite dumps_fields, !str_all_app, join_printed; [done|]. apply Forall_fmap. rewrite sort_fields_perm.
    eapply Forall_impl; [exact IH|]. intros kv Hkv. cbn beta in *. unfold compose, member_text.
    by rewrite !str_all_app, quote_printed, Hkv.
Qed.

Definition seven_bits (c : ascii) : bool := (1 <=? code c) && (code c <? 128).
Lemma encode_seven c s : seven_bits c = true → encode (String c s) = byte_of_Z (code c) :: encode s ∧
  Z_of_byte (byte_of_Z (code c)) = code c.
Proof.
  unfold seven_bits. intros [H1 H2]%andb_prop. cbn [encode]. rewrite H2. split; [done|].
  rewrite Z_of_byte_of_Z, Z.mod_small; lia.
Qed.
Lemma json_decode_ascii s : str_all seven_bits s = true → json_decode (encode s) = Some (wide s).
Proof.
  intros Hs. rewrite <- utf8_decode_encode.
  destruct s as [|c s]; [done|]. cbn [str_all] in Hs. apply andb_prop in Hs as [Hc Hs].
  destruct (encode_seven c s Hc) as [-> Ec]. unfold seven_bits in Hc.
  assert (∀ x p b, Z_of_byte x = 0 ∨ 128 <= Z_of_byte x → has_prefix (x :: p) (byte_of_Z (code c) :: b) = false) as Hp.
  { intros x p b Hx. unfold has_prefix. apply bool_decide_eq_false. cbn [List.length take]. intros [= E _]. rewrite E in Ec. lia. }
  unfold json_decode. rewrite !Hp by (vm_compute; (by left) || (by right)).
  destruct s as [|d s]; [done|]. cbn [str_all] in Hs. apply andb_prop in Hs as [Hd Hs].
  destruct (encode_seven d s Hd) as [-> Ed]. unfold seven_bits in Hd.
  assert (code c =? 0 = false) as Hc0 by lia. assert (code d =? 0 = false) as Hd0 by lia.
  destruct (encode s) as [|x [|y b]]; rewrite ?Ec, ?Ed, ?Hc0, ?Hd0; done.
Qed.

(** [json.loads(json.dumps(v, sort_keys=True, separators=(",", ":")))], also with the newline
    that receipts end with. *)
Theorem loads_dumps v tail : json_ok v = true → tail = "" ∨ tail = char_str 10 →
  loads (encode (dumps_compact true v ++ tail)) = Ok (obj_of v).
Proof.
  intros Hok Ht. unfold loads.
  rewrite json_decode_ascii. 2: { rewrite str_all_app. destruct Ht as [-> | ->]; rewrite andb_true_r;
    (eapply str_all_impl, dumps_printed); intros c; unfold printed, seven_bits; lia. }
  cbn [need result_bind]. rewrite wide_app. unfold loads_text. rewrite skip_ws_dumps.
  rewrite (reads_ok v Hok).
  - cbn [result_bind]. by destruct Ht as [-> | ->].
  - rewrite length_app, length_wide. lia.
  - destruct Ht as [-> | ->]; [done|]. by right; right; right.
Qed.
