(* ===== verification/Domain.v ===== *)
(** * Domain values and the order state machine

    [app/domain/digest.py], [app/domain/identifiers.py] and [app/domain/order.py]: the
    values that validate themselves when they are built, and the two state machines of an
    order (payment and fulfillment). *)
From S2P Require Import Prelude PyStr.

Open Scope string_scope.
Open Scope Z_scope.

(** ** [app/domain/digest.py] *)
Module ManifestDigest.
Record t := mk { value : bytes }.
#[global] Instance t_eq_dec : EqDecision t.
Proof. solve_decision. Defined.

Definition _LOWER_SHA256 (s : string) : bool := fullmatch_class is_lower_hex 64 64 s.

(** [__post_init__] *)
Definition new (v : bytes) : result t :=
  if blen v != 32 then Raise (ValueError "manifest digest must contain exactly 32 bytes")
  else Ok (mk v).
Definition from_hex (s : string) : result t :=
  if negb (_LOWER_SHA256 s)
  then Raise (ValueError "manifest digest must be 64 lowercase hexadecimal characters")
  else match bytes_fromhex s with
       | Some b => new b
       | None => Raise (ValueError "non-hexadecimal number found in fromhex() arg")
       end.
Definition from_bytes (v : bytes) : result t := new v.
Definition hex (d : t) : string := bytes_hex (value d).
Definition ots_target (d : t) : bytes := value d.

(** The invariant every constructed digest has. *)
Definition ok (d : t) : Prop := blen (value d) = 32.
End ManifestDigest.

(** ** [app/domain/identifiers.py] *)
Definition crockford_char (c : ascii) : bool :=
  is_digit c || in_range 65 72 c || in_range 74 75 c || in_range 77 78 c || in_range 80 84 c ||
  in_range 86 90 c.
Definition certificate_char (c : ascii) : bool :=
  is_alnum_ascii c || (c =? ".")%char || (c =? "_")%char || (c =? ":")%char || (c =? "/")%char ||
  (c =? "-")%char.
Definition opaque_char (c : ascii) : bool :=
  is_alnum_ascii c || (c =? "_")%char || (c =? "-")%char.

Definition _CERTIFICATE (s : string) : bool := fullmatch_head is_alnum_ascii certificate_char 127 s.
Definition _ORDER_REFERENCE (s : string) : bool :=
  startswith "ts_" s && fullmatch_class crockford_char 26 26 (removeprefix "ts_" s).
Definition _OPAQUE_ID (s : string) : bool := fullmatch_head is_alnum_ascii opaque_char 127 s.

(** [CertificateReference(value)], [OrderReference(value)], [ProviderReference(value)]: the
    frozen wrappers are represented by the validated string. *)
Definition CertificateReference (value : string) : result string :=
  if negb (_CERTIFICATE value) then Raise (ValueError "invalid certificate reference") else Ok value.
Definition OrderReference (value : string) : result string :=
  if negb (_ORDER_REFERENCE value) then Raise (ValueError "invalid order reference") else Ok value.
Definition ProviderReference (value : string) : result string :=
  if negb (_OPAQUE_ID value) then Raise (ValueError "invalid provider reference") else Ok value.

(** ** [app/domain/order.py] *)
Module PaymentState.
Inductive t :=
| CHECKOUT_OPEN | PROCESSING | PAID | FAILED | EXPIRED | REFUNDED | DISPUTED.
#[global] Instance t_eq_dec : EqDecision t.
Proof. solve_decision. Defined.
Definition value (s : t) : string :=
  match s with
  | CHECKOUT_OPEN => "checkout_open" | PROCESSING => "processing" | PAID => "paid"
  | FAILED => "failed" | EXPIRED => "expired" | REFUNDED => "refunded" | DISPUTED => "disputed"
  end.
End PaymentState.
Import PaymentState(CHECKOUT_OPEN, PROCESSING, PAID, FAILED, EXPIRED, REFUNDED, DISPUTED).

Module FulfillmentState.
Inductive t :=
| AWAITING_PAYMENT | QUEUED | STAMPING | CALENDAR_PENDING | BITCOIN_VERIFIED | DELIVERED
| MANUAL_REVIEW.
#[global] Instance t_eq_dec : EqDecision t.
Proof. solve_decision. Defined.
Definition value (s : t) : string :=
  match s with
  | AWAITING_PAYMENT => "awaiting_payment" | QUEUED => "queued" | STAMPING => "stamping"
  | CALENDAR_PENDING => "calendar_pending" | BITCOIN_VERIFIED => "bitcoin_verified"
  | DELIVERED => "delivered" | MANUAL_REVIEW => "manual_review"
  end.
End FulfillmentState.
Import FulfillmentState(AWAITING_PAYMENT, QUEUED, STAMPING, CALENDAR_PENDING, BITCOIN_VERIFIED,
  DELIVERED, MANUAL_REVIEW).

Definition _PAYMENT_TRANSITIONS (s : PaymentState.t) : list PaymentState.t :=
  match s with
  | CHECKOUT_OPEN => [PROCESSING; PAID; FAILED; EXPIRED; REFUNDED; DISPUTED]
  | PROCESSING => [PAID; FAILED; EXPIRED; REFUNDED; DISPUTED]
  | PAID => [REFUNDED; DISPUTED]
  | DISPUTED => [REFUNDED]
  | FAILED => []
  | EXPIRED => []
  | REFUNDED => []
  end.

Definition _FULFILLMENT_TRANSITIONS (s : FulfillmentState.t) : list FulfillmentState.t :=
  match s with
  | AWAITING_PAYMENT => [QUEUED; MANUAL_REVIEW]
  | QUEUED => [STAMPING; MANUAL_REVIEW]
  | STAMPING => [CALENDAR_PENDING; MANUAL_REVIEW]
  | CALENDAR_PENDING => [BITCOIN_VERIFIED; MANUAL_REVIEW]
  | BITCOIN_VERIFIED => [DELIVERED; MANUAL_REVIEW]
  | DELIVERED => [MANUAL_REVIEW]
  | MANUAL_REVIEW => []
  end.

Module OrderSnapshot.
Record t := mk {
  order_reference : string;
  certificate_reference : string;
  manifest_digest : ManifestDigest.t;
  email : string;
  amount_minor : Z;
  currency : string;
  product_version : string;
  payment_mode : string;
  consent_terms_version : string;
  consent_privacy_version : string;
  consent_accepted_at : Z }.
#[global] Instance t_eq_dec : EqDecision t.
Proof. solve_decision. Defined.

(** [__post_init__] *)
Definition post_init (s : t) : result t :=
  check! raise_when (negb ((1 <=? strlen (email s)) && (strlen (email s) <=? 254)))
    (ValueError "email must contain 1 through 254 characters") in
  check! raise_when (amount_minor s <? 0) (ValueError "amount cannot be negative") in
  check! raise_when ((strlen (currency s) != 3) || (lower (currency s) != currency s) ||
                     negb (isalpha (currency s)))
    (ValueError "currency must be a lowercase ISO-style code") in
  Ok s.
End OrderSnapshot.

Module OrderState.
(** The snapshot is the frozen part.  [OrderStore.transition_payment] builds a state whose
    snapshot is [None] ([cast(OrderSnapshot, None)]), hence the option. *)
Record t := mk {
  snapshot : option OrderSnapshot.t;
  payment : PaymentState.t;
  fulfillment : FulfillmentState.t }.
#[global] Instance eta_t : Eta t := λ s, mk (snapshot s) (payment s) (fulfillment s).
#[global] Instance t_eq_dec : EqDecision t.
Proof. solve_decision. Defined.

(** The defaults of the dataclass. *)
Definition initial (snap : OrderSnapshot.t) : t := mk (Some snap) CHECKOUT_OPEN AWAITING_PAYMENT.

Definition transition_payment (self : t) (target : PaymentState.t) : result t :=
  if target == payment self then Ok self
  else if negb (target is_in _PAYMENT_TRANSITIONS (payment self))
  then Raise (ValueError ("illegal payment transition: " ++ PaymentState.value (payment self) ++
                          " -> " ++ PaymentState.value target))
  else Ok (self <| payment := target |>).

Definition transition_fulfillment (self : t) (target : FulfillmentState.t) : result t :=
  if target == fulfillment self then Ok self
  else if negb (target is_in _FULFILLMENT_TRANSITIONS (fulfillment self))
  then Raise (ValueError ("illegal fulfillment transition: " ++
                          FulfillmentState.value (fulfillment self) ++
                          " -> " ++ FulfillmentState.value target))
  else
    let starts_fulfillment := (fulfillment self == AWAITING_PAYMENT) && (target == QUEUED) in
    if (payment self != PAID) && starts_fulfillment
    then Raise (ValueError "fulfillment cannot be queued before payment")
    else Ok (self <| fulfillment := target |>).
End OrderState.

(** ** Properties of the digest *)

Section Digest.
Implicit Types d : ManifestDigest.t.

Lemma new_ok v d : ManifestDigest.new v = Ok d ↔ ManifestDigest.value d = v ∧ ManifestDigest.ok d.
Proof.
  unfold ManifestDigest.new, ManifestDigest.ok. case_bool_decide as E; simpl.
  - destruct d; simpl. naive_solver.
  - split; [done|]. intros [<- ?]. done.
Qed.

Lemma ots_target_is_value d : ManifestDigest.ots_target d = ManifestDigest.value d.
Proof. done. Qed.

(** [ManifestDigest.from_hex] accepts exactly the 64-character lowercase hexadecimal
    texts, and the digest it returns holds the 32 bytes whose [hex] is the very text given:
    the OTS target is the decoded digest and never a hash of the text or of the bytes. *)
Theorem from_hex_spec s d :
  ManifestDigest.from_hex s = Ok d ↔
    blen (ManifestDigest.ots_target d) = 32 ∧ ManifestDigest.hex d = s.
Proof.
  unfold ManifestDigest.from_hex, ManifestDigest._LOWER_SHA256, fullmatch_class, ManifestDigest.hex.
  rewrite ots_target_is_value. split.
  - destruct (_ && _) eqn:E; [|done]. simpl.
    apply andb_prop in E as [[H1%Nat.leb_le H2%Nat.leb_le]%andb_prop Hs].
    destruct (bytes_fromhex_lower 32 s) as (b & -> & Hb & Hl); [lia|done|].
    intros [<- ?]%new_ok. done.
  - intros [Hl Hs]. assert (String.length s = 64%nat) as Hlen.
    { rewrite <-Hs, length_bytes_hex. unfold blen in Hl. lia. }
    rewrite Hlen, <-Hs, bytes_hex_lower, bytes_fromhex_hex. simpl. by apply new_ok.
Qed.
End Digest.

(** ** Properties of the order state machines *)

(** One step that the transition tables allow. *)
Definition payment_step (s s' : PaymentState.t) : Prop := s' ∈ _PAYMENT_TRANSITIONS s.
Definition fulfillment_step (s s' : FulfillmentState.t) : Prop := s' ∈ _FULFILLMENT_TRANSITIONS s.
#[global] Instance payment_step_dec s s' : Decision (payment_step s s').
Proof. unfold payment_step. apply _. Defined.
#[global] Instance fulfillment_step_dec s s' : Decision (fulfillment_step s s').
Proof. unfold fulfillment_step. apply _. Defined.

Lemma transition_payment_Ok s target s' :
  OrderState.transition_payment s target = Ok s' ↔
    s' = s <| OrderState.payment := target |> ∧
    (target = OrderState.payment s ∨ payment_step (OrderState.payment s) target).
Proof.
  unfold OrderState.transition_payment, payment_step. destruct s as [sn p f]; simpl.
  repeat case_bool_decide; simpl; naive_solver.
Qed.

Lemma transition_fulfillment_Ok s target s' :
  OrderState.transition_fulfillment s target = Ok s' ↔
    s' = s <| OrderState.fulfillment := target |> ∧
    (target = OrderState.fulfillment s ∨
     fulfillment_step (OrderState.fulfillment s) target ∧
     (OrderState.fulfillment s = AWAITING_PAYMENT → target = QUEUED → OrderState.payment s = PAID)).
Proof.
  unfold OrderState.transition_fulfillment, fulfillment_step. destruct s as [sn p f]; simpl.
  destruct (decide (target = f)) as [->|Hne]; [rewrite bool_decide_true by done; naive_solver|].
  rewrite bool_decide_false by done.
  destruct (decide (target ∈ _FULFILLMENT_TRANSITIONS f));
    [rewrite bool_decide_true by done|rewrite bool_decide_false by done]; simpl; [|naive_solver].
  repeat case_bool_decide; simpl; naive_solver.
Qed.

(** Both machines only move forward: every allowed step raises the rank, so no state is
    ever entered twice and a run has at most six steps. *)
Definition payment_rank (s : PaymentState.t) : nat :=
  match s with
  | CHECKOUT_OPEN => 0 | PROCESSING => 1 | PAID => 2 | DISPUTED => 3
  | FAILED => 4 | EXPIRED => 4 | REFUNDED => 4
  end.
Definition fulfillment_rank (s : FulfillmentState.t) : nat :=
  match s with
  | AWAITING_PAYMENT => 0 | QUEUED => 1 | STAMPING => 2 | CALENDAR_PENDING => 3
  | BITCOIN_VERIFIED => 4 | DELIVERED => 5 | MANUAL_REVIEW => 6
  end.

Lemma payment_step_rank s s' : payment_step s s' → (payment_rank s < payment_rank s')%nat.
Proof. unfold payment_step. destruct s, s'; simpl; try lia; intros; set_solver. Qed.
Lemma fulfillment_step_rank s s' : fulfillment_step s s' → (fulfillment_rank s < fulfillment_rank s')%nat.
Proof. unfold fulfillment_step. destruct s, s'; simpl; try lia; intros; set_solver. Qed.

Lemma payment_rtc_rank s s' : rtc payment_step s s' → s = s' ∨ (payment_rank s < payment_rank s')%nat.
Proof.
  induction 1 as [|x y z Hs _ [->|IH]]; [by left|right..]; apply payment_step_rank in Hs; lia.
Qed.
Lemma fulfillment_rtc_rank s s' :
  rtc fulfillment_step s s' → s = s' ∨ (fulfillment_rank s < fulfillment_rank s')%nat.
Proof.
  induction 1 as [|x y z Hs _ [->|IH]]; [by left|right..]; apply fulfillment_step_rank in Hs; lia.
Qed.

(** States of a payment in which money was received at some point. *)
Definition was_paid (s : PaymentState.t) : bool :=
  match s with PAID | REFUNDED | DISPUTED => true | _ => false end.

Lemma was_paid_step s s' : payment_step s s' → was_paid s = true → was_paid s' = true.
Proof. unfold payment_step. destruct s, s'; simpl; try done; intros; set_solver. Qed.
Lemma was_paid_rtc s s' : rtc payment_step s s' → was_paid s = true → was_paid s' = true.
Proof. induction 1; [done|]. intros. apply IHrtc. by eapply was_paid_step. Qed.

(** The only ways into [PAID]. *)
Lemma payment_step_paid s : payment_step s PAID → s = CHECKOUT_OPEN ∨ s = PROCESSING.
Proof. unfold payment_step. destruct s; simpl; try naive_solver; intros; set_solver. Qed.
