(* ===== verification/Sha256.v ===== *)
(** * [hashlib.sha256] and [hmac]

    The digests the service stores and compares, executable: FIPS 180-4 SHA-256 over
    32-bit words written as [Z] with the wrap-around explicit, and RFC 2104 HMAC. *)
From S2P Require Import Prelude PyStr.

Open Scope Z_scope.

Definition w32 (x : Z) : Z := x mod 2 ^ 32.
Definition rotr (n x : Z) : Z := Z.lor (Z.shiftr x n) (w32 (Z.shiftl x (32 - n))).
Definition Ch (x y z : Z) : Z := Z.lxor (Z.land x y) (Z.land (2 ^ 32 - 1 - x) z).
Definition Maj (x y z : Z) : Z := Z.lxor (Z.lxor (Z.land x y) (Z.land x z)) (Z.land y z).
Definition Sigma0 (x : Z) : Z := Z.lxor (Z.lxor (rotr 2 x) (rotr 13 x)) (rotr 22 x).
Definition Sigma1 (x : Z) : Z := Z.lxor (Z.lxor (rotr 6 x) (rotr 11 x)) (rotr 25 x).
Definition sigma0 (x : Z) : Z := Z.lxor (Z.lxor (rotr 7 x) (rotr 18 x)) (Z.shiftr x 3).
Definition sigma1 (x : Z) : Z := Z.lxor (Z.lxor (rotr 17 x) (rotr 19 x)) (Z.shiftr x 10).

(** The constants of the standard are the first 32 bits of the fractional parts of the cube
    roots, and of the square roots, of the first primes. *)
Definition prime (n : Z) : bool :=
  forallb (λ d, negb (n mod (2 + Z.of_nat d) =? 0)) (seq 0 (Z.to_nat (n - 2))).
Definition primes : list Z :=
  List.filter prime (map (λ i, 2 + Z.of_nat i) (seq 0 310)).
(** The integer cube root below [2 ^ n], one binary digit at a time. *)
Fixpoint cube_root (n : nat) (root x : Z) : Z :=
  match n with
  | O => root
  | S n' => let r := root + 2 ^ Z.of_nat n' in cube_root n' (if r * r * r <=? x then r else root) x
  end.
Definition K256 : list Z := Eval vm_compute in
  map (λ p, w32 (cube_root 36 0 (p * 2 ^ 96))) primes.

Record hash_state := mk_state { ha : Z; hb : Z; hc : Z; hd : Z; he : Z; hf : Z; hg : Z; hh : Z }.

Definition H256 : hash_state := Eval vm_compute in
  let h (i : nat) := w32 (Z.sqrt (nth i primes 0 * 2 ^ 64)) in
  mk_state (h 0%nat) (h 1%nat) (h 2%nat) (h 3%nat) (h 4%nat) (h 5%nat) (h 6%nat) (h 7%nat).

(** The message schedule, kept newest word first while it is extended. *)
Fixpoint schedule (n : nat) (rev_w : list Z) : list Z :=
  match n with
  | O => reverse rev_w
  | S n' =>
      let w i := nth i rev_w 0 in
      schedule n' (w32 (sigma1 (w 1%nat) + w 6%nat + sigma0 (w 14%nat) + w 15%nat) :: rev_w)
  end.

Definition round (s : hash_state) (kw : Z * Z) : hash_state :=
  let '(mk_state a b c d e f g h) := s in
  let t1 := h + Sigma1 e + Ch e f g + kw.1 + kw.2 in
  let t2 := Sigma0 a + Maj a b c in
  mk_state (w32 (t1 + t2)) a b c (w32 (d + t1)) e f g.

Fixpoint words (b : bytes) : list Z :=
  match b with
  | b0 :: b1 :: b2 :: b3 :: b' => int_from_bytes_big [b0; b1; b2; b3] :: words b'
  | _ => []
  end.

Definition compress (s : hash_state) (block : bytes) : hash_state :=
  let w := schedule 48 (reverse (words block)) in
  let '(mk_state a b c d e f g h) := foldl round s (zip K256 w) in
  let '(mk_state a0 b0 c0 d0 e0 f0 g0 h0) := s in
  mk_state (w32 (a0 + a)) (w32 (b0 + b)) (w32 (c0 + c)) (w32 (d0 + d))
           (w32 (e0 + e)) (w32 (f0 + f)) (w32 (g0 + g)) (w32 (h0 + h)).

Definition pad (m : bytes) : bytes :=
  let zeros := Z.to_nat ((55 - blen m) mod 64) in
  m ++ [x80] ++ replicate zeros x00 ++ to_bytes_big 8 (8 * blen m).

Fixpoint blocks (n : nat) (s : hash_state) (m : bytes) : hash_state :=
  match n with
  | O => s
  | S n' => blocks n' (compress s (take 64 m)) (drop 64 m)
  end.

Definition state_bytes (s : hash_state) : bytes :=
  let '(mk_state a b c d e f g h) := s in
  to_bytes_big 4 a ++ to_bytes_big 4 b ++ to_bytes_big 4 c ++ to_bytes_big 4 d ++
  to_bytes_big 4 e ++ to_bytes_big 4 f ++ to_bytes_big 4 g ++ to_bytes_big 4 h.

(** [hashlib.sha256(m).digest()] *)
Definition sha256 (m : bytes) : bytes :=
  let p := pad m in state_bytes (blocks (List.length p / 64) H256 p).

(** [hmac.new(key, m, hashlib.sha256).digest()] *)
Definition hmac_sha256 (key m : bytes) : bytes :=
  let k := if 64 <? blen key then sha256 key else key in
  let k64 := k ++ replicate (64 - List.length k) x00 in
  let x v := map (λ b, byte_of_Z (Z.lxor (Z_of_byte b) v)) k64 in
  sha256 (x 0x5c ++ sha256 (x 0x36 ++ m)).

(** The FIPS 180-4 test vector, one block and two blocks; the RFC 4231 case 2. *)
Example sha256_abc :
  bytes_hex (sha256 (encode "abc")) = "ba7816bf8f01cfea414140de5dae2223b00361a396177a9cb410ff61f20015ad"%string.
Proof. vm_compute. reflexivity. Qed.
Example sha256_two_blocks :
  bytes_hex (sha256 (encode "abcdbcdecdefdefgefghfghighijhijkijkljklmklmnlmnomnopnopq"))
  = "248d6a61d20638b8e5c026930c3e6039a33ce45964ff2167f6ecedd419db06c1"%string.
Proof. vm_compute. reflexivity. Qed.
Example hmac_rfc4231 :
  bytes_hex (hmac_sha256 (encode "Jefe") (encode "what do ya want for nothing?"))
  = "5bdcc146bf60754e6a042426089575c75a003f089d2739839dec58b964ec3843"%string.
Proof. vm_compute. reflexivity. Qed.

Lemma length_state_bytes s : List.length (state_bytes s) = 32%nat.
Proof. destruct s. unfold state_bytes. rewrite !length_app, !length_to_bytes_big. done. Qed.
Lemma length_sha256 m : List.length (sha256 m) = 32%nat.
Proof. apply length_state_bytes. Qed.
Lemma length_hmac_sha256 k m : List.length (hmac_sha256 k m) = 32%nat.
Proof. apply length_sha256. Qed.
Lemma blen_sha256 m : blen (sha256 m) = 32.
Proof. unfold blen. by rewrite length_sha256. Qed.
#[global] Opaque sha256 hmac_sha256.
