(* ===== verification/Ports.v ===== *)
(** * The values exchanged between components

    [app/ports/bitcoin.py], [app/ports/proof.py], [app/ports/timestamping.py],
    [app/ports/notifications.py], [app/payments/models.py] and [app/proofs/store.py]'s
    constructor: dataclasses with their [__post_init__] checks. *)
From S2P Require Import Prelude PyStr Sha256 Domain.

Open Scope string_scope.
Open Scope Z_scope.

(** ** [app/ports/bitcoin.py] *)
Module BitcoinVerification.
Record t := mk {
  verified : bool;
  method : string;
  verified_at : option datetime;
  block_height : option Z;
  block_hash : option string;
  block_time : option datetime;
  confirmation_policy : option string;
  confirmations : option Z }.
#[global] Instance eta_t : Eta t := λ v, mk (verified v) (method v) (verified_at v)
  (block_height v) (block_hash v) (block_time v) (confirmation_policy v) (confirmations v).
#[global] Instance t_eq_dec : EqDecision t.
Proof. solve_decision. Defined.

Definition any_metadata_none (v : t) : bool :=
  is_none (verified_at v) || is_none (block_height v) || is_none (block_hash v) ||
  is_none (block_time v) || is_none (confirmation_policy v).
Definition any_metadata_some (v : t) : bool :=
  is_some (verified_at v) || is_some (block_height v) || is_some (block_hash v) ||
  is_some (block_time v) || is_some (confirmation_policy v).

(** [__post_init__] *)
Definition post_init (v : t) : result t :=
  check! raise_when (verified v && any_metadata_none v)
    (ValueError "verified Bitcoin result requires complete metadata") in
  check! raise_when (negb (verified v) && any_metadata_some v)
    (ValueError "unverified Bitcoin result cannot carry confirmation metadata") in
  check! raise_when (verified v &&
      match confirmations v with None => true | Some c => c <? 1 end)
    (ValueError "verified Bitcoin result requires at least one confirmation") in
  check! raise_when (negb (verified v) &&
      match confirmations v with None => false | Some c => c <? 0 end)
    (ValueError "Bitcoin confirmation count is invalid") in
  Ok v.

(** [BitcoinVerification(verified=False, method=m, confirmations=c)] *)
Definition unverified (m : string) (c : option Z) : t := mk false m None None None None None c.

(** The object invariant: [__post_init__] passed. *)
Definition ok (v : t) : Prop := post_init v = Ok v.
End BitcoinVerification.

(** ** [app/ports/timestamping.py] *)
Module PendingProof.
Record t := mk { proof_bytes : bytes; calendar_submitted_at : datetime }.
End PendingProof.

(** ** [app/ports/proof.py] *)
Definition MAX_PROOF_BYTES : Z := 262144.

Inductive ProofState := PROOF_CALENDAR_PENDING | PROOF_BITCOIN_VERIFIED.
#[global] Instance ProofState_eq_dec : EqDecision ProofState.
Proof. solve_decision. Defined.
Definition ProofState_value (s : ProofState) : string :=
  match s with PROOF_CALENDAR_PENDING => "calendar_pending" | PROOF_BITCOIN_VERIFIED => "bitcoin_verified" end.

(** The checks on a block hash shared by the validators: 64 characters, no upper case, and
    accepted by [bytes.fromhex]. *)
Definition block_hash_shape (h : option string) : bool :=
  match h with
  | None => false
  | Some s => (strlen s == 64) && (lower s == s)
  end.
Definition block_hash_decodes (h : option string) : bool :=
  match h with None => false | Some s => is_some (bytes_fromhex s) end.

Definition option_naive (d : option datetime) : bool :=
  match d with None => true | Some d => is_naive d end.

Definition method_or_policy_invalid (v : BitcoinVerification.t) : bool :=
  negb ((1 <=? strlen (BitcoinVerification.method v)) && (strlen (BitcoinVerification.method v) <=? 128)) ||
  match BitcoinVerification.confirmation_policy v with
  | None => true
  | Some p => (p =? "")%string || (128 <? strlen p)
  end.

Definition _validate_verification (v : BitcoinVerification.t) : result unit :=
  check! raise_when (option_naive (BitcoinVerification.verified_at v) ||
                     option_naive (BitcoinVerification.block_time v))
    (ValueError "verification_timestamps_must_be_timezone_aware") in
  check! raise_when (match BitcoinVerification.block_height v with None => true | Some h => h <? 0 end)
    (ValueError "verification_block_height_invalid") in
  check! raise_when (negb (block_hash_shape (BitcoinVerification.block_hash v)))
    (ValueError "verification_block_hash_invalid") in
  check! raise_when (negb (block_hash_decodes (BitcoinVerification.block_hash v)))
    (ValueError "verification_block_hash_invalid") in
  raise_when (method_or_policy_invalid v) (ValueError "verification_method_or_policy_invalid").

Module StoredProof.
Record t := mk {
  order_reference : string;
  version : Z;
  target_digest : ManifestDigest.t;
  proof_bytes : bytes;
  proof_sha256 : bytes;
  proof_state : ProofState;
  calendar_submitted_at : datetime;
  verification : option BitcoinVerification.t }.
#[global] Instance t_eq_dec : EqDecision t.
Proof. solve_decision. Defined.

Definition proof_byte_length (p : t) : Z := blen (proof_bytes p).

(** [__post_init__] *)
Definition post_init (p : t) : result t :=
  check! raise_when (version p <? 1) (ValueError "proof_version_must_be_positive") in
  check! raise_when (negb ((1 <=? blen (proof_bytes p)) && (blen (proof_bytes p) <=? MAX_PROOF_BYTES)))
    (ValueError "proof_size_invalid") in
  check! raise_when (sha256 (proof_bytes p) != proof_sha256 p) (ValueError "proof_checksum_mismatch") in
  check! raise_when (is_naive (calendar_submitted_at p))
    (ValueError "calendar_submission_time_must_be_timezone_aware") in
  match proof_state p with
  | PROOF_CALENDAR_PENDING =>
      if is_some (verification p)
      then Raise (ValueError "pending_proof_cannot_carry_verification") else Ok p
  | PROOF_BITCOIN_VERIFIED =>
      match verification p with
      | Some v =>
          if BitcoinVerification.verified v
          then check! _validate_verification v in Ok p
          else Raise (ValueError "verified_proof_requires_complete_verification")
      | None => Raise (ValueError "verified_proof_requires_complete_verification")
      end
  end.

Definition ok (p : t) : Prop := post_init p = Ok p.

Lemma post_init_id p q : post_init p = Ok q → q = p ∧ ok p.
Proof.
  intros H. assert (q = p) as ->; [|done]. unfold post_init in H.
  repeat (apply result_bind_Ok in H as (? & _ & H)).
  destruct (proof_state p), (verification p) as [v|]; simpl in H; try congruence.
  destruct (BitcoinVerification.verified v); [|done]. by apply result_bind_Ok in H as (? & _ & [=]).
Qed.
Lemma ok_facts p :
  ok p → 1 <= version p ∧ 1 <= blen (proof_bytes p) <= MAX_PROOF_BYTES ∧
         proof_sha256 p = sha256 (proof_bytes p) ∧ is_naive (calendar_submitted_at p) = false ∧
         (proof_state p = PROOF_CALENDAR_PENDING → verification p = None) ∧
         (proof_state p = PROOF_BITCOIN_VERIFIED →
            ∃ v, verification p = Some v ∧ BitcoinVerification.verified v = true).
Proof.
  unfold ok, post_init. intros H.
  apply result_bind_Ok in H as (? & H1%raise_when_Ok & H).
  apply result_bind_Ok in H as (? & H2%raise_when_Ok%negb_false_iff & H).
  apply result_bind_Ok in H as (? & H3%raise_when_Ok%negb_false_iff%bool_decide_eq_true & H).
  apply result_bind_Ok in H as (? & H4%raise_when_Ok & H).
  split_and!; [lia|lia|lia|done|done| |]; intros E; rewrite E in H;
    destruct (verification p) as [v|]; simpl in H; try done.
  destruct (BitcoinVerification.verified v) eqn:?; [|done]. eauto.
Qed.
End StoredProof.

(** [ProofBundleContext(certificate_reference, service_version)] *)
Module ProofBundleContext.
Record t := mk { certificate_reference : string; service_version : string }.
Definition post_init (c : t) : result t :=
  if negb ((1 <=? strlen (service_version c)) && (strlen (service_version c) <=? 64))
  then Raise (ValueError "bundle_service_version_invalid") else Ok c.
End ProofBundleContext.

(** ** [app/ports/notifications.py] *)
Inductive NotificationKind := INITIAL_CONFIRMATION | FINAL_CONFIRMATION.
#[global] Instance NotificationKind_eq_dec : EqDecision NotificationKind.
Proof. solve_decision. Defined.
Definition NotificationKind_value (k : NotificationKind) : string :=
  match k with
  | INITIAL_CONFIRMATION => "bitcoin-confirmed-initial"
  | FINAL_CONFIRMATION => "bitcoin-confirmed-final"
  end.
(** [NotificationKind(value)] *)
Definition NotificationKind_of (s : string) : option NotificationKind :=
  if (s =? "bitcoin-confirmed-initial")%string then Some INITIAL_CONFIRMATION
  else if (s =? "bitcoin-confirmed-final")%string then Some FINAL_CONFIRMATION
  else None.
Definition _MINIMUM_CONFIRMATIONS (k : NotificationKind) : Z :=
  match k with INITIAL_CONFIRMATION => 1 | FINAL_CONFIRMATION => 6 end.

Lemma NotificationKind_of_value k : NotificationKind_of (NotificationKind_value k) = Some k.
Proof. by destruct k. Qed.
Lemma NotificationKind_of_Some s k : NotificationKind_of s = Some k ↔ s = NotificationKind_value k.
Proof.
  unfold NotificationKind_of. split.
  - destruct (String.eqb_spec s "bitcoin-confirmed-initial") as [->|?]; [by intros [= <-]|].
    destruct (String.eqb_spec s "bitcoin-confirmed-final") as [->|?]; [by intros [= <-]|done].
  - intros ->. apply NotificationKind_of_value.
Qed.

Module OutboxMessage.
Record t := mk {
  message_key : string;
  order_reference : string;
  template : string;
  recipient : string;
  variables : list (string * string);
  proof_version : option Z;
  confirmation_count : option Z }.
End OutboxMessage.

Module ClaimedNotification.
Record t := mk {
  id : string;
  message_key : string;
  order_reference : string;
  kind : NotificationKind;
  recipient : string;
  proof_version : Z;
  confirmation_count : Z;
  attempt : Z;
  lease_owner : string;
  lease_token : string;
  lease_until : option Z;
  idempotency_key : string }.
End ClaimedNotification.

Module ProviderAcceptance.
Record t := mk { message_id : string; response_status : Z }.
End ProviderAcceptance.

Module VerifiedResendEvent.
Record t := mk {
  svix_event_id : string;
  event_type : string;
  provider_message_id : string;
  event_created_at : datetime }.
End VerifiedResendEvent.

Module WebhookProcessResult.
Record t := mk { duplicate : bool; notification_delivered : bool; order_transitioned : bool }.
#[global] Instance t_eq_dec : EqDecision t.
Proof. solve_decision. Defined.
End WebhookProcessResult.

Module ConfirmationObservation.
Record t := mk {
  id : string;
  order_id : string;
  proof_version : Z;
  confirmations : Z;
  block_height : Z;
  block_hash : string;
  method : string;
  confirmation_policy : string;
  observed_at : Z;
  event_key : string }.
End ConfirmationObservation.

(** The message key of a milestone: one per kind, proof version and order. *)
Definition notification_key (kind : NotificationKind) (proof_version : Z) (order_reference : string) : string :=
  NotificationKind_value kind ++ "-v" ++ str_int proof_version ++ "-" ++ order_reference.

Definition notification_message (kind : NotificationKind) (order_reference recipient : string)
    (proof_version confirmation_count : Z) : result OutboxMessage.t :=
  if negb ((1 <=? proof_version) && (proof_version <=? 2147483647)) ||
     negb ((_MINIMUM_CONFIRMATIONS kind <=? confirmation_count) && (confirmation_count <=? 2147483647))
  then Raise (ValueError "notification_milestone_invalid")
  else Ok (OutboxMessage.mk
             (notification_key kind proof_version order_reference)
             order_reference
             (NotificationKind_value kind)
             recipient
             [("order_reference", order_reference)]
             (Some proof_version)
             (Some confirmation_count)).

Lemma notification_message_Ok kind oref rcpt v c m :
  notification_message kind oref rcpt v c = Ok m →
  m = OutboxMessage.mk (notification_key kind v oref) oref (NotificationKind_value kind) rcpt
        [("order_reference", oref)] (Some v) (Some c) ∧
  1 <= v <= 2147483647 ∧ _MINIMUM_CONFIRMATIONS kind <= c <= 2147483647.
Proof. unfold notification_message. destruct (_ || _) eqn:E; [done|]. intros [= <-]. split; [done|]. lia. Qed.

(** ** [app/payments/models.py] *)
Module HostedCheckoutRequest.
Record t := mk {
  internal_order_id : string; order_reference : string; customer_email : string;
  price_id : string; amount_minor : Z; currency : string; success_url : string;
  cancel_url : string }.
End HostedCheckoutRequest.
Module HostedCheckoutResult.
Record t := mk { session_id : string; checkout_url : string }.
End HostedCheckoutResult.
Module ProviderPrice.
Record t := mk { price_id : string; amount_minor : Z; currency : string }.
#[global] Instance t_eq_dec : EqDecision t.
Proof. solve_decision. Defined.
End ProviderPrice.
Module ProviderEvent.
Record t := mk {
  event_id : string; event_type : string; livemode : bool;
  internal_order_id : option string; session_id : option string;
  payment_intent_id : option string; refund_status : option string;
  refunded_amount : option Z }.
#[global] Instance eta_t : Eta t := λ e, mk (event_id e) (event_type e) (livemode e)
  (internal_order_id e) (session_id e) (payment_intent_id e) (refund_status e) (refunded_amount e).
End ProviderEvent.
Module CanonicalCheckout.
Record t := mk {
  session_id : string; payment_intent_id : option string; livemode : bool; mode : string;
  status : string; payment_status : string; metadata : list (string * string);
  price_id : string; amount_total : Z; currency : string; quantity : Z;
  refund_status : option string; refunded_amount_total : Z }.
End CanonicalCheckout.
