(* ===== verification/Receipt.v ===== *)
(** * Receipts

    [app/proofs/receipt.py]: the canonical JSON receipt of a stored proof.  An aware
    [datetime] carries UTC, as every timestamp of the service does. *)
From S2P Require Import Prelude PyStr Json Domain Ports.

Open Scope string_scope.
Open Scope Z_scope.

(** Year, month and day of a day count from 1970-01-01 (the proleptic Gregorian calendar). *)
Definition civil_of_days (days : Z) : Z * Z * Z :=
  let z := days + 719468 in
  let era := z / 146097 in
  let doe := z - era * 146097 in
  let yoe := (doe - doe / 1460 + doe / 36524 - doe / 146096) / 365 in
  let doy := doe - (365 * yoe + yoe / 4 - yoe / 100) in
  let mp := (5 * doy + 2) / 153 in
  let d := doy - (153 * mp + 2) / 5 + 1 in
  let m := if mp <? 10 then mp + 3 else mp - 9 in
  (yoe + era * 400 + (if m <=? 2 then 1 else 0), m, d).

(** Decimal with leading zeros. *)
Definition pad (width : nat) (n : Z) : string :=
  let s := str_int n in
  String.concat EmptyString (repeat "0" (width - String.length s)) ++ s.

(** [value.isoformat(timespec="seconds")] of an aware value *)
Definition isoformat_seconds (us : Z) : string :=
  let s := us / 1000000 in
  let '(y, m, d) := civil_of_days (s / 86400) in
  let t := s mod 86400 in
  pad 4 y ++ "-" ++ pad 2 m ++ "-" ++ pad 2 d ++ "T" ++
  pad 2 (t / 3600) ++ ":" ++ pad 2 (t / 60 mod 60) ++ ":" ++ pad 2 (t mod 60) ++ "+00:00".

(** [value.isoformat()] of an aware value *)
Definition isoformat (us : Z) : string :=
  let fraction := us mod 1000000 in
  let base := isoformat_seconds us in
  if fraction =? 0 then base
  else str_take 19 base ++ "." ++ pad 6 fraction ++ "+00:00".

Definition _rfc3339 (value : datetime) : result string :=
  check! raise_when (is_naive value) (ValueError "receipt_timestamps_must_be_timezone_aware") in
  Ok (replace "+00:00" "Z" (isoformat_seconds (dt_us value))).

Example rfc3339_sample : _rfc3339 (utc 1709210096789000) = Ok "2024-02-29T12:34:56Z".
Proof. vm_compute. reflexivity. Qed.

Example isoformat_sample : isoformat 1709210096000789 = "2024-02-29T12:34:56.000789+00:00".
Proof. vm_compute. reflexivity. Qed.

Module ReceiptInput.
Record t := mk { proof : StoredProof.t; certificate_reference : string; service_version : string }.
End ReceiptInput.

(** The ["bitcoin"], ["verification_method"] and ["verified_at"] entries. *)
Definition confirmation_fields (v : BitcoinVerification.t) : result (list (string * json)) :=
  let incomplete := ValueError "verified_receipt_metadata_incomplete" in
  check! raise_when (negb (BitcoinVerification.verified v)) incomplete in
  match BitcoinVerification.block_height v, BitcoinVerification.block_hash v,
        BitcoinVerification.block_time v, BitcoinVerification.confirmation_policy v,
        BitcoinVerification.verified_at v with
  | Some height, Some hash, Some block_time, Some policy, Some verified_at =>
      try! block_time := _rfc3339 block_time in
      try! verified_at := _rfc3339 verified_at in
      Ok [("bitcoin", JObj (sort_fields [
             ("block_height", JInt height); ("block_hash", JStr hash);
             ("block_time", JStr block_time); ("confirmation_policy", JStr policy)]));
          ("verification_method", JStr (BitcoinVerification.method v));
          ("verified_at", JStr verified_at)]
  | _, _, _, _, _ => Raise incomplete
  end.

Definition receipt_fields (value : ReceiptInput.t) : result (list (string * json)) :=
  let proof := ReceiptInput.proof value in
  check! raise_when (negb ((1 <=? strlen (ReceiptInput.service_version value)) &&
                           (strlen (ReceiptInput.service_version value) <=? 64)))
    (ValueError "invalid_service_version") in
  try! submitted := _rfc3339 (StoredProof.calendar_submitted_at proof) in
  let base := [
    ("schema_version", JStr "1.0.0");
    ("order_reference", JStr (StoredProof.order_reference proof));
    ("certificate_reference", JStr (ReceiptInput.certificate_reference value));
    ("manifest_sha256", JStr (ManifestDigest.hex (StoredProof.target_digest proof)));
    ("proof_sha256", JStr (bytes_hex (StoredProof.proof_sha256 proof)));
    ("proof_bytes", JInt (blen (StoredProof.proof_bytes proof)));
    ("proof_state", JStr (ProofState_value (StoredProof.proof_state proof)));
    ("calendar_submitted_at", JStr submitted);
    ("service_version", JStr (ReceiptInput.service_version value))] in
  match StoredProof.verification proof with
  | None => Ok base
  | Some v => try! fields := confirmation_fields v in Ok (base ++ fields)%list
  end.

Definition build_receipt (value : ReceiptInput.t) : result bytes :=
  try! fields := receipt_fields value in
  Ok (encode (dumps_compact true (JObj (sort_fields fields)) ++ String (chr 10) EmptyString)).
