(* ===== verification/IsoTime.v ===== *)
(** * [datetime.fromisoformat]

    The reader of ISO 8601 texts of the interpreter, on the code points of a text: calendar
    and week dates, any separator, and the times and offsets that follow.  It follows the C
    code, with the end of the text as a NUL character. *)
From S2P Require Import Prelude PyStr PyObject.

Open Scope Z_scope.

(** ** The calendar *)

Definition is_leap (y : Z) : bool := (y mod 4 =? 0) && (negb (y mod 100 =? 0) || (y mod 400 =? 0)).
Definition days_in_month (y m : Z) : Z :=
  if m =? 2 then (if is_leap y then 29 else 28) else if (m =? 4) || (m =? 6) || (m =? 9) || (m =? 11) then 30 else 31.
(** The days from 1970-01-01 to a date. *)
Definition days_of_civil (y m d : Z) : Z :=
  let y' := if m <=? 2 then y - 1 else y in
  let era := y' / 400 in
  let yoe := y' - era * 400 in
  let doy := (153 * (if 2 <? m then m - 3 else m + 9) + 2) / 5 + d - 1 in
  era * 146097 + (yoe * 365 + yoe / 4 - yoe / 100 + doy) - 719468.
Definition valid_date (y m d : Z) : bool :=
  (1 <=? y) && (y <=? 9999) && (1 <=? m) && (m <=? 12) && (1 <=? d) && (d <=? days_in_month y m).
(** Monday is 0. *)
Definition weekday (days : Z) : Z := (days + 3) mod 7.
(** The days of an ISO week date. *)
Definition days_of_week_date (y week day : Z) : option Z :=
  let first := weekday (days_of_civil y 1 1) in
  let weeks := if (first =? 3) || ((first =? 2) && is_leap y) then 53 else 52 in
  if (1 <=? y) && (y <=? 9999) && (1 <=? week) && (week <=? weeks) && (1 <=? day) && (day <=? 7)
  then
    let monday := days_of_civil y 1 1 - first + (if 3 <? first then 7 else 0) in
    Some (monday + (week - 1) * 7 + day - 1)
  else None.
Definition first_day : Z := days_of_civil 1 1 1.
Definition last_day : Z := days_of_civil 9999 12 31.

(** ** Dates *)

Fixpoint parse_digits (n : nat) (acc : Z) (s : ustr) : option (Z * ustr) :=
  match n with
  | O => Some (acc, s)
  | S n' => match s with
            | c :: s' => d ← digit_of c; parse_digits n' (10 * acc + d) s'
            | [] => None
            end
  end.
Fixpoint span_digits (s : ustr) : nat :=
  match s with c :: s' => if is_some (digit_of c) then S (span_digits s') else O | [] => O end.
(** The character at an index; the text ends with NUL. *)
Definition at_ (s : ustr) (i : nat) : Z := default 0 (s !! i).
Definition separator_index (s : ustr) : option nat :=
  let n := List.length s in
  if (n =? 7)%nat then Some 7%nat
  else if at_ s 4 =? 45 then
    if at_ s 5 =? 87 then
      if (8 <? n)%nat && (at_ s 8 =? 45) then
        if (n =? 9)%nat then None
        else if (10 <? n)%nat && is_some (digit_of (at_ s 10)) then Some 8%nat else Some 10%nat
      else Some 8%nat
    else Some 10%nat
  else if at_ s 4 =? 87 then
    let i := (7 + span_digits (drop 7 s))%nat in
    if (i <? 9)%nat then Some i else if Nat.even i then Some 7%nat else Some 8%nat
  else Some 8%nat.
(** The days of a date; [None] when it is malformed or does not exist. *)
Definition parse_date (s : ustr) : option Z :=
  '(y, s1) ← parse_digits 4 0 s;
  let '(dashes, s2) := match expect 45 s1 with Some t => (true, t) | None => (false, s1) end in
  let dash t := if (dashes : bool) then expect 45 t else Some t in
  match expect 87 s2 with
  | Some s3 =>
      '(week, s4) ← parse_digits 2 0 s3;
      match s4 with
      | [] => days_of_week_date y week 1
      | _ => s5 ← dash s4; '(day, _) ← parse_digits 1 0 s5; days_of_week_date y week day
      end
  | None =>
      '(m, s3) ← parse_digits 2 0 s2; s4 ← dash s3; '(d, s5) ← parse_digits 2 0 s4;
      match s5 with [] => if valid_date y m d then Some (days_of_civil y m d) else None | _ => None end
  end.

(** ** Times *)

(** Up to [stop] characters of a fraction of a second; whether the text goes on after it. *)
Definition parse_fraction (s : ustr) (stop : nat) : option (Z * bool) :=
  let n := Nat.min 6 stop in
  '(v, rest) ← parse_digits n 0 s;
  Some (v * 10 ^ Z.of_nat (6 - n), negb (at_ (drop (span_digits rest) rest) 0 =? 0)).
(** [parse_hh_mm_ss_ff] on the [stop] first characters: the hours, minutes and seconds read
    before are in [read], the microseconds and the leftover flag come last. *)
Fixpoint parse_clock (count : nat) (separated : bool) (read : list Z) (s : ustr) (stop : nat)
    : option (list Z * Z * bool) :=
  match count with
  | O => '(us, more) ← parse_fraction s stop; Some (read, us, more)
  | S count' =>
      '(v, s1) ← parse_digits 2 0 s;
      let read := (read ++ [v])%list in
      let c := at_ s1 0 in
      let separated := match read with [_] => c =? 58 | _ => separated end in
      if (stop <=? 3)%nat then Some (read, 0, negb (c =? 0))
      else if separated && (c =? 58) then parse_clock count' separated read (drop 1 s1) (stop - 3)
      else if (c =? 46) || (c =? 44) then
        '(us, more) ← parse_fraction (drop 1 s1) (stop - 3); Some (read, us, more)
      else if separated then None
      else parse_clock count' separated read s1 (stop - 2)
  end.
Definition is_zone (c : Z) : bool := (c =? 43) || (c =? 45) || (c =? 90).
(** The index of the first sign or Z. *)
Fixpoint zone_index (s : ustr) : nat :=
  match s with c :: s' => if is_zone c then O else S (zone_index s') | [] => O end.
Definition part (i : nat) (l : list Z) : Z := default 0 (l !! i).
(** Microseconds of the day, and the offset from UTC when there is one. *)
Definition parse_time (s : ustr) : option (Z * option Z) :=
  let z := zone_index s in
  '(clock, us, more) ← parse_clock 3 true [] s z;
  let h := part 0 clock in let m := part 1 clock in let sec := part 2 clock in
  let time := seconds (3600 * h + 60 * m + sec) + us in
  let valid := (h <? 24) && (m <? 60) && (sec <? 60) in
  let zone := at_ s z in
  if negb (is_zone zone) then if more || negb valid then None else Some (time, None)
  else if zone =? 90 then
    if (List.length s =? S z)%nat && valid then Some (time, Some 0) else None
  else
    '(offset, ous, omore) ← parse_clock 3 true [] (drop (S z) s) (List.length s - S z);
    let whole := 3600 * part 0 offset + 60 * part 1 offset + part 2 offset in
    let size := if whole =? 0 then 0 else seconds whole + ous in
    if omore || negb valid || (days 1 <=? size) then None
    else Some (time, Some (if zone =? 45 then - size else size)).

(** [datetime.fromisoformat(s)]: [None] is its [ValueError].  An aware result is given as the
    wall clock and the offset. *)
Definition fromisoformat (s : ustr) : option (Z * option Z) :=
  if (List.length s <? 7)%nat then None
  else
    i ← separator_index s;
    d ← parse_date (take i s);
    if negb ((first_day <=? d) && (d <=? last_day)) then None
    else
      match drop i s with
      | [] => Some (days d, None)
      | _ :: t => '(time, zone) ← parse_time t; Some (days d + time, zone)
      end.

(** [value.astimezone(UTC)] of an aware value: the instant, which may be out of range. *)
Definition astimezone_utc (wall offset : Z) : result datetime :=
  let us := wall - offset in
  check! raise_when (negb ((days first_day <=? us) && (us <? days (last_day + 1))))
    (OverflowError "date value out of range") in
  Ok (utc us).

Example fromisoformat_sample :
  fromisoformat (wide "2024-02-29T12:34:56.5+01:00") = Some (1709210096500000, Some 3600000000).
Proof. vm_compute. reflexivity. Qed.

(** ** Timestamps of receipts are read back

    [datetime.fromisoformat] on the text of [isoformat(timespec="seconds")] gives the second
    that the timestamp lies in. *)
From S2P Require Import Prelude PyStr Uuid PyObject JsonFacts JsonText Receipt.

Open Scope string_scope.
Open Scope Z_scope.

(** ** Dates *)

(** A check of all numbers below a bound, by evaluation. *)
Fixpoint below_from (n : nat) (v : Z) (p : Z → bool) : bool :=
  match n with O => true | S n' => if p v then below_from n' (v + 1) p else false end.
Definition below (n : Z) (p : Z → bool) : bool := below_from (Z.to_nat n) 0 p.
Lemma below_spec n p v : below n p = true → 0 <= v < n → p v = true.
Proof.
  unfold below. intros H Hv. assert (0 <= v < 0 + Z.of_nat (Z.to_nat n)) as Hr by lia. clear Hv. revert H Hr.
  generalize 0 as start. induction (Z.to_nat n) as [|k IH]; intros start H Hr; [lia|]. cbn [below_from] in H.
  destruct (p start) eqn:E; [|done]. destruct (decide (v = start)) as [->|]; [done|]. apply (IH (start + 1)); [done|lia].
Qed.

(** The day of an era of 400 years is a year of it (from March) and a day of that year. *)
Definition era_year (doe : Z) : Z := (doe - doe / 1460 + doe / 36524 - doe / 146096) / 365.
Definition year_day (doe : Z) : Z := doe - (365 * era_year doe + era_year doe / 4 - era_year doe / 100).
Lemma era_year_spec doe : 0 <= doe < 146097 →
  0 <= era_year doe < 400 ∧ 0 <= year_day doe <= 365 ∧
  (year_day doe = 365 → is_leap (era_year doe + 1) = true) ∧
  (306 <= doe → 1 <= era_year doe ∨ 306 <= year_day doe) ∧
  (doe <= 146036 → era_year doe <= 398 ∨ year_day doe < 306).
Proof.
  intros H. unfold year_day.
  assert (0 <= doe / 36524 <= 4) as Hb by (Z.div_mod_to_equations; lia).
  assert (0 <= doe / 146096 <= 1) as Hc by (Z.div_mod_to_equations; lia).
  assert (0 <= era_year doe < 400) as Hy by (unfold era_year; Z.div_mod_to_equations; lia).
  assert (doe / 36524 = 0 ∨ doe / 36524 = 1 ∨ doe / 36524 = 2 ∨ doe / 36524 = 3 ∨ doe / 36524 = 4) as E by lia.
  split; [done|]. unfold is_leap, era_year in *.
  split; [|split; [|split]]; destruct E as [E|[E|[E|[E|E]]]]; Z.div_mod_to_equations; lia.
Qed.

(** The month and the day of a day of the year, from March. *)
Definition of_year_day (doy : Z) : Z * Z :=
  let mp := (5 * doy + 2) / 153 in ((if mp <? 10 then mp + 3 else mp - 9), doy - (153 * mp + 2) / 5 + 1).
Definition carry (m : Z) : Z := if m <=? 2 then 1 else 0.
Definition year_day_ok (doy : Z) : bool :=
  let '(m, d) := of_year_day doy in
  (1 <=? m) && (m <=? 12) && (1 <=? d) && ((d <=? days_in_month 1 m) || ((doy =? 365) && (m =? 2) && (d =? 29))) &&
  ((153 * (if 2 <? m then m - 3 else m + 9) + 2) / 5 + d - 1 =? doy) && (carry m =? if 306 <=? doy then 1 else 0).
Lemma year_days : below 366 year_day_ok = true.
Proof. vm_compute. reflexivity. Qed.
Lemma civil_of_days_era n : civil_of_days n =
  let doe := (n + 719468) mod 146097 in
  let '(m, d) := of_year_day (year_day doe) in (era_year doe + (n + 719468) / 146097 * 400 + carry m, m, d).
Proof.
  unfold civil_of_days, of_year_day, year_day, era_year. cbv zeta.
  replace (n + 719468 - (n + 719468) / 146097 * 146097) with ((n + 719468) mod 146097)
    by (rewrite Z.mod_eq by lia; lia). done.
Qed.
Lemma is_leap_era y era : is_leap (y + era * 400) = is_leap y.
Proof.
  unfold is_leap.
  assert ((y + era * 400) mod 4 = y mod 4) as ->
    by (replace (era * 400) with (era * 100 * 4) by lia; apply Z_mod_plus_full).
  assert ((y + era * 400) mod 100 = y mod 100) as ->
    by (replace (era * 400) with (era * 4 * 100) by lia; apply Z_mod_plus_full).
  by rewrite Z_mod_plus_full.
Qed.

Lemma civil_roundtrip n : first_day <= n <= last_day →
  let '(y, m, d) := civil_of_days n in valid_date y m d = true ∧ days_of_civil y m d = n.
Proof.
  intros Hn. rewrite civil_of_days_era. cbv zeta. pose proof (Z.mod_pos_bound (n + 719468) 146097) as Hm.
  pose proof (Z.div_mod (n + 719468) 146097) as Hd. revert Hm Hd.
  generalize ((n + 719468) mod 146097) ((n + 719468) / 146097). intros doe era Hm Hd.
  destruct (era_year_spec doe) as (Hy & Hdoy & Hleap & Hlo & Hhi); [lia|].
  pose proof (below_spec _ _ (year_day doe) year_days ltac:(lia)) as H.
  assert (doe = year_day doe + (365 * era_year doe + era_year doe / 4 - era_year doe / 100)) as Edoe
    by (unfold year_day; lia).
  revert Hy Hdoy Hleap Hlo Hhi H Edoe. generalize (era_year doe) (year_day doe). intros yoe doy Hy Hdoy Hleap Hlo Hhi H Edoe.
  unfold year_day_ok in H. destruct (of_year_day doy) as [m d].
  rewrite !andb_true_iff in H. destruct H as (((((Hm1 & Hm2) & Hd1) & H) & Hdd%Z.eqb_eq) & Hc%Z.eqb_eq).
  change first_day with (-719162) in Hn. change last_day with 2932896 in Hn.
  assert (is_leap (yoe + era * 400 + carry m) = is_leap (yoe + carry m)) as Hl.
  { replace (yoe + era * 400 + carry m) with (yoe + carry m + era * 400) by lia. apply is_leap_era. }
  unfold valid_date. split.
  - assert (d <= days_in_month (yoe + era * 400 + carry m) m) as Hdm; [|destruct (306 <=? doy) eqn:E; lia].
    unfold days_in_month in *. rewrite Hl. destruct (m =? 2) eqn:E2; [|lia].
    change (is_leap 1) with false in H. cbv iota in H.
    destruct (decide (doy = 365)) as [->|]; [|assert (doy =? 365 = false) as E by lia; rewrite E in H; clear Hleap Hl; destruct (is_leap _); lia].
    change (306 <=? 365) with true in Hc. rewrite Hc, Hleap by done. lia.
  - unfold days_of_civil.
    assert ((if m <=? 2 then yoe + era * 400 + carry m - 1 else yoe + era * 400 + carry m) = yoe + era * 400) as ->
      by (unfold carry; destruct (m <=? 2); lia).
    rewrite Z.div_add, (Z.div_small yoe) by lia. replace (yoe + era * 400 - (0 + era) * 400) with yoe by lia. lia.
Qed.

(** ** Digits *)

Definition two (v : Z) : ustr := [48 + v / 10; 48 + v mod 10].
Definition four (v : Z) : ustr := (two (v / 100) ++ two (v mod 100))%list.
Definition ustr_eqb (a b : ustr) : bool := bool_decide (a = b).
Lemma pad_two v : 0 <= v < 100 → wide (pad 2 v) = two v.
Proof.
  assert (below 100 (λ v, ustr_eqb (wide (pad 2 v)) (two v)) = true) as H by (vm_compute; reflexivity).
  intros Hv. exact (bool_decide_eq_true_1 _ (below_spec _ _ v H Hv)).
Qed.
Lemma pad_four v : 0 <= v < 10000 → wide (pad 4 v) = four v.
Proof.
  assert (below 10000 (λ v, ustr_eqb (wide (pad 4 v)) (four v)) = true) as H by (vm_compute; reflexivity).
  intros Hv. exact (bool_decide_eq_true_1 _ (below_spec _ _ v H Hv)).
Qed.
Lemma digit_of_digit k : 0 <= k < 10 → digit_of (48 + k) = Some k.
Proof.
  intros. unfold digit_of. rewrite !(proj2 (Z.leb_le _ _)) by lia. cbn [andb]. f_equal. lia.
Qed.
Lemma parse_two v acc k rest : 0 <= v < 100 →
  parse_digits (S (S k)) acc (two v ++ rest)%list = parse_digits k (100 * acc + v) rest.
Proof.
  intros. unfold two. cbn [app parse_digits]. rewrite !digit_of_digit by (Z.div_mod_to_equations; lia).
  cbn [mbind option_bind]. f_equal. Z.div_mod_to_equations; lia.
Qed.
Lemma parse_2 v rest : 0 <= v < 100 → parse_digits 2 0 (two v ++ rest)%list = Some (v, rest).
Proof. intros. rewrite parse_two by done. cbn [parse_digits]. done. Qed.
Lemma parse_four v rest : 0 <= v < 10000 → parse_digits 4 0 (four v ++ rest)%list = Some (v, rest).
Proof.
  intros. unfold four. rewrite <- app_assoc, !parse_two by (Z.div_mod_to_equations; lia). cbn [parse_digits]. f_equal. f_equal.
  Z.div_mod_to_equations; lia.
Qed.
(** A digit is neither a sign nor a letter. *)
Lemma two_zone v : 0 <= v < 100 → is_zone (48 + v / 10) = false ∧ is_zone (48 + v mod 10) = false.
Proof. intros. unfold is_zone. Z.div_mod_to_equations; lia. Qed.

(** ** Texts *)

(** The text of an instant: the date, the time of the day, and the offset. *)
Definition date_text (y m d : Z) : ustr := (four y ++ 45 :: two m ++ 45 :: two d)%list.
Definition time_text (h mi s : Z) : ustr := (two h ++ 58 :: two mi ++ 58 :: two s)%list.
Lemma parse_date_text y m d : 0 <= y < 10000 → 0 <= m < 100 → 0 <= d < 100 →
  parse_date (date_text y m d) = if valid_date y m d then Some (days_of_civil y m d) else None.
Proof.
  intros Hy Hm Hd. unfold parse_date, date_text. rewrite parse_four by done. cbn [mbind option_bind].
  rewrite expect_cons.
  assert (expect 87 (two m ++ 45 :: two d)%list = None) as ->.
  { unfold two. simpl. rewrite (proj2 (Z.eqb_neq _ 87)); [done|]. Z.div_mod_to_equations; lia. }
  rewrite parse_2 by done. cbn [mbind option_bind]. rewrite expect_cons. cbn [mbind option_bind].
  by rewrite <- (app_nil_r (two d)), parse_2 by done.
Qed.
Lemma parse_time_text h mi s : 0 <= h < 24 → 0 <= mi < 60 → 0 <= s < 60 →
  parse_time (time_text h mi s ++ wide "+00:00")%list = Some (seconds (3600 * h + 60 * mi + s), Some 0).
Proof.
  intros Hh Hm Hs. unfold parse_time.
  destruct (two_zone h) as [Z1 Z2]; [lia|]. destruct (two_zone mi) as [Z3 Z4]; [lia|]. destruct (two_zone s) as [Z5 Z6]; [lia|].
  assert (zone_index (time_text h mi s ++ wide "+00:00")%list = 8%nat) as ->.
  { unfold time_text, two. cbn [app zone_index]. rewrite Z1, Z2, Z3, Z4, Z5, Z6. reflexivity. }
  assert (parse_clock 3 true [] (time_text h mi s ++ wide "+00:00")%list 8 = Some ([h; mi; s], 0, true)) as ->.
  { unfold time_text. rewrite <- !app_assoc. cbn [parse_clock]. rewrite parse_2 by lia. cbn [mbind option_bind].
    cbn [app Nat.leb Nat.sub at_ lookup list_lookup default id]. change (58 =? 58) with true. cbn [andb drop].
    change (drop 0 ?x) with x. rewrite <- !app_assoc, parse_2 by lia. cbn [mbind option_bind app at_ lookup list_lookup default id].
    change (58 =? 58) with true. cbv iota. cbn [drop]. rewrite drop_0, parse_2 by lia. reflexivity. }
  cbn [mbind option_bind].
  assert (at_ (time_text h mi s ++ wide "+00:00")%list 8 = 43) as -> by reflexivity.
  assert (drop 9 (time_text h mi s ++ wide "+00:00")%list = wide "00:00") as -> by reflexivity.
  assert (List.length (time_text h mi s ++ wide "+00:00")%list = 14%nat) as -> by reflexivity.
  assert (parse_clock 3 true [] (wide "00:00") (14 - 9) = Some ([0; 0], 0, false)) as -> by reflexivity.
  change (is_zone 43) with true. change (43 =? 90) with false. cbn [negb mbind option_bind part lookup list_lookup default id].
  rewrite !(proj2 (Z.ltb_lt _ _)) by lia. rewrite (Z.add_0_r (seconds (3600 * h + _ + _))). reflexivity.
Qed.

Lemma fromisoformat_text y m d h mi s : 0 <= y < 10000 → 0 <= m < 100 → 0 <= d < 100 → valid_date y m d = true →
  first_day <= days_of_civil y m d <= last_day → 0 <= h < 24 → 0 <= mi < 60 → 0 <= s < 60 →
  fromisoformat (date_text y m d ++ 84 :: time_text h mi s ++ wide "+00:00")%list =
    Some (days (days_of_civil y m d) + seconds (3600 * h + 60 * mi + s), Some 0).
Proof.
  intros Hy Hm Hd Hv Hr Hh Hmi Hs. unfold fromisoformat.
  assert (List.length (date_text y m d ++ 84 :: time_text h mi s ++ wide "+00:00")%list = 25%nat) as E by reflexivity.
  rewrite E. cbn [Nat.ltb Nat.leb].
  assert (separator_index (date_text y m d ++ 84 :: time_text h mi s ++ wide "+00:00")%list = Some 10%nat) as ->.
  { unfold separator_index. rewrite E. cbn [Nat.eqb].
    assert (at_ (date_text y m d ++ 84 :: time_text h mi s ++ wide "+00:00")%list 4 = 45) as -> by reflexivity.
    assert (at_ (date_text y m d ++ 84 :: time_text h mi s ++ wide "+00:00")%list 5 =? 87 = false) as ->; [|done].
    apply Z.eqb_neq. change (48 + m / 10 ≠ 87). Z.div_mod_to_equations; lia. }
  cbn [mbind option_bind].
  assert (take 10 (date_text y m d ++ 84 :: time_text h mi s ++ wide "+00:00")%list = date_text y m d) as -> by reflexivity.
  rewrite parse_date_text, Hv by done. cbn [mbind option_bind].
  rewrite !(proj2 (Z.leb_le _ _)) by lia. cbn [andb negb].
  assert (drop 10 (date_text y m d ++ 84 :: time_text h mi s ++ wide "+00:00")%list =
    (84 :: time_text h mi s ++ wide "+00:00")%list) as -> by reflexivity.
  by rewrite parse_time_text by done.
Qed.

(** ** The text of a receipt *)

(** The instants that an aware [datetime] in UTC can hold. *)
Definition representable (us : Z) : bool := (days first_day <=? us) && (us <? days (last_day + 1)).
Lemma wide_isoformat us : representable us = true →
  let '(y, m, d) := civil_of_days (us / 1000000 / 86400) in
  let t := (us / 1000000) mod 86400 in
  wide (isoformat_seconds us) = (date_text y m d ++ 84 :: time_text (t / 3600) (t / 60 mod 60) (t mod 60) ++ wide "+00:00")%list ∧
  0 <= y < 10000 ∧ 0 <= m < 100 ∧ 0 <= d < 100 ∧ valid_date y m d = true ∧ days_of_civil y m d = us / 1000000 / 86400 ∧
  first_day <= us / 1000000 / 86400 <= last_day.
Proof.
  unfold representable, days, hours, minutes, seconds. intros H.
  assert (first_day <= us / 1000000 / 86400 <= last_day) as Hd by (Z.div_mod_to_equations; lia).
  pose proof (civil_roundtrip _ Hd) as Hc. unfold isoformat_seconds. cbv zeta.
  destruct (civil_of_days (us / 1000000 / 86400)) as [[y m] d]. destruct Hc as [Hv He]. pose proof Hv as Hv'.
  unfold valid_date, days_in_month in Hv'.
  assert (d <= 31) by (destruct (m =? 2), (is_leap y), ((m =? 4) || (m =? 6) || (m =? 9) || (m =? 11)); lia).
  split_and!; [|lia..|done|done|lia|lia].
  pose proof (Z.mod_pos_bound (us / 1000000) 86400). unfold date_text, time_text.
  rewrite !wide_app. change (wide "-") with [45]. change (wide "T") with [84]. change (wide ":") with [58].
  rewrite pad_four, !pad_two by (Z.div_mod_to_equations; lia). rewrite <- !app_assoc. cbn [app]. rewrite <- !app_assoc. done.
Qed.

(** A sign appears only in the offset, and a [Z] or an at sign nowhere. *)
Definition unsigned (c : ascii) : bool := negb (code c =? 43) && negb (code c =? 90) && negb (code c =? 64).
Lemma replace_offset p : str_all unsigned p = true → replace "+00:00" "Z" (p ++ "+00:00") = (p ++ "Z")%string.
Proof.
  unfold replace. induction p as [|x p IH]; [done|]. cbn [str_all]. intros [Hx Hp]%andb_prop.
  rewrite !string_app_cons. cbn [replace_go].
  assert (String.prefix "+00:00" (String x (p ++ "+00:00")) = false) as ->; [|by rewrite IH].
  cbn [String.prefix]. destruct (ascii_dec "+" x) as [<-|]; [done|done].
Qed.
Lemma widen_offset p : str_all unsigned p = true →
  flat_map (λ c, if c =? 90 then wide "+00:00" else [c]) (wide (p ++ "Z")) = wide (p ++ "+00:00").
Proof.
  rewrite !wide_app. intros H. rewrite flat_map_app. f_equal.
  induction p as [|x p IH]; [done|]. cbn [str_all] in H. apply andb_prop in H as [Hx Hp].
  rewrite (wide_cons x p). cbn [flat_map]. rewrite IH by done. unfold unsigned in Hx. by assert (code x =? 90 = false) as -> by lia.
Qed.
Lemma isoformat_unsigned us : ∃ p, isoformat_seconds us = (p ++ "+00:00")%string ∧
  (representable us = true → str_all unsigned p = true).
Proof.
  pose proof (wide_isoformat us) as H. unfold isoformat_seconds in *. cbv zeta in *.
  destruct (civil_of_days _) as [[y m] d]. set (t := (us / 1000000) mod 86400) in *.
  exists (pad 4 y ++ "-" ++ pad 2 m ++ "-" ++ pad 2 d ++ "T" ++ pad 2 (t / 3600) ++ ":" ++ pad 2 (t / 60 mod 60) ++ ":" ++ pad 2 (t mod 60)).
  split; [rewrite !string_app_assoc; reflexivity|].
  intros (_ & ? & ? & ? & _)%H. pose proof (Z.mod_pos_bound (us / 1000000) 86400).
  assert (∀ w n, 0 <= n → str_all unsigned (pad w n) = true) as Hpad.
  { intros w n Hn. unfold pad. rewrite str_all_app. apply andb_true_intro. split.
    - induction (w - _)%nat as [|k IH]; [done|]. destruct k; [done|].
      change (repeat "0" (S (S k))) with ("0" :: repeat "0" (S k)).
      change (str_all unsigned ("0" ++ "" ++ String.concat "" (repeat "0" (S k))) = true). done.
    - eapply str_all_impl, str_int_digits; [|done]. intros c. by destruct c as [[] [] [] [] [] [] [] []]. }
  rewrite !str_all_app, !Hpad by (Z.div_mod_to_equations; lia). done.
Qed.

(** The timestamp of a receipt is the second that it lies in. *)
Lemma read_rfc3339 us text : representable us = true → _rfc3339 (utc us) = Ok text →
  fromisoformat (flat_map (λ c, if c =? 90 then wide "+00:00" else [c]) (wide text)) = Some (us - us mod 1000000, Some 0).
Proof.
  intros H E. injection E as <-. destruct (isoformat_unsigned us) as (p & Ep & Hp). specialize (Hp H). simpl dt_us.
  rewrite Ep, replace_offset, widen_offset, <- Ep by done. pose proof (wide_isoformat us H) as W.
  destruct (civil_of_days _) as [[y m] d]. cbv zeta in W. destruct W as (-> & Hy & Hm & Hd & Hv & He & Hr).
  pose proof (Z.mod_pos_bound (us / 1000000) 86400).
  rewrite fromisoformat_text by (rewrite ?He; (done || Z.div_mod_to_equations; lia)). rewrite He. do 2 f_equal.
  unfold days, hours, minutes, seconds. Z.div_mod_to_equations; lia.
Qed.
