(* ===== verification/Tokens.v ===== *)
(** * Bearer tokens and idempotency keys

    [app/security/tokens.py], [app/auth/status_token.py] and
    [app/security/idempotency.py]. *)
From S2P Require Import Prelude PyStr Sha256 Json.

Open Scope string_scope.
Open Scope Z_scope.

(** ** [base64] with the URL-safe alphabet *)

Definition b64_char (n : Z) : ascii :=
  chr (if n <? 26 then 65 + n else if n <? 52 then 71 + n else if n <? 62 then n - 4
       else if n =? 62 then 45 else 95).
Definition b64_value (c : ascii) : option Z :=
  if is_upper_az c then Some (code c - 65)
  else if is_lower_az c then Some (code c - 71)
  else if is_digit c then Some (code c + 4)
  else if (c =? "-")%char then Some 62
  else if (c =? "_")%char then Some 63
  else None.

(** [urlsafe_b64encode(b).rstrip(b"=").decode("ascii")]: the padding characters that the
    encoder would append to the last group are exactly the ones stripped. *)
Fixpoint urlsafe_b64_unpadded (b : bytes) : string :=
  match b with
  | [] => EmptyString
  | [x] =>
      let n := Z_of_byte x in
      String (b64_char (n / 4)) (String (b64_char (n mod 4 * 16)) EmptyString)
  | [x; y] =>
      let n := 256 * Z_of_byte x + Z_of_byte y in
      String (b64_char (n / 1024)) (String (b64_char (n / 16 mod 64))
        (String (b64_char (n mod 16 * 4)) EmptyString))
  | x :: y :: z :: b' =>
      let n := 65536 * Z_of_byte x + 256 * Z_of_byte y + Z_of_byte z in
      String (b64_char (n / 262144)) (String (b64_char (n / 4096 mod 64))
        (String (b64_char (n / 64 mod 64)) (String (b64_char (n mod 64))
          (urlsafe_b64_unpadded b'))))
  end.

(** [b64decode(key + "=" * (-len(key) % 4), altchars=b"-_", validate=True)]; [None] is the
    [binascii.Error] (a [ValueError]).  The trailing bits of the last group are ignored. *)
Fixpoint urlsafe_b64decode (s : string) : option bytes :=
  match s with
  | EmptyString => Some []
  | String _ EmptyString => None
  | String a (String b EmptyString) =>
      p ← b64_value a; q ← b64_value b;
      Some [byte_of_Z (4 * p + q / 16)]
  | String a (String b (String c EmptyString)) =>
      p ← b64_value a; q ← b64_value b; r ← b64_value c;
      let n := (4096 * p + 64 * q + r) / 4 in
      Some [byte_of_Z (n / 256); byte_of_Z n]
  | String a (String b (String c (String d s'))) =>
      p ← b64_value a; q ← b64_value b; r ← b64_value c; t ← b64_value d;
      rest ← urlsafe_b64decode s';
      let n := 262144 * p + 4096 * q + 64 * r + t in
      Some (byte_of_Z (n / 65536) :: byte_of_Z (n / 256) :: byte_of_Z n :: rest)
  end.

(** ** [app/security/tokens.py] *)

Definition b64url_char (c : ascii) : bool :=
  is_alnum_ascii c || (c =? "_")%char || (c =? "-")%char.

(** Split at the first dot: the text before it and the text after it. *)
Fixpoint split_dot (s : string) : option (string * string) :=
  match s with
  | EmptyString => None
  | String c s' =>
      if (c =? ".")%char then Some (EmptyString, s')
      else p ← split_dot s'; Some (String c p.1, p.2)
  end.

(** [_TOKEN.fullmatch(token)]: the two groups, a positive decimal version without leading zero
    after the letter v, and after a dot 43 characters of base64url. *)
Definition _TOKEN (token : string) : option (string * string) :=
  match token with
  | String c rest =>
      if (c =? "v")%char then
        p ← split_dot rest;
        match p.1 with
        | String d ds =>
            if in_range 49 57 d && str_all is_digit ds && fullmatch_class b64url_char 43 43 p.2
            then Some p else None
        | EmptyString => None
        end
      else None
  | EmptyString => None
  end.

Definition _TOKEN_CONTEXT : bytes := encode "spacerocks-status-token" ++ [x00].

Module HashedToken.
Record t := mk { version : Z; digest : bytes }.
#[global] Instance t_eq_dec : EqDecision t.
Proof. solve_decision. Defined.
(** [HashedToken(version, digest)] with its [__post_init__]. *)
Definition new (v : Z) (d : bytes) : result t :=
  if (v <? 1) || (blen d != 32) then Raise (ValueError "invalid versioned token hash")
  else Ok (mk v d).
End HashedToken.

(** [generate_bearer_token(version)] where [rand] is [secrets.token_bytes(32)]. *)
Definition generate_bearer_token (version : Z) (rand : bytes) : result string :=
  if version <? 1 then Raise (ValueError "token version must be positive")
  else Ok ("v" ++ str_int version ++ "." ++ urlsafe_b64_unpadded rand).

(** The hasher is its validated [dict] of peppers. *)
Module TokenHasher.
Definition t : Type := list (Z * bytes).

Definition new (peppers : list (Z * bytes)) : result t :=
  if bool_decide (peppers = []) || existsb (λ vp, (vp.1 <? 1) || (blen vp.2 <? 32)) peppers
  then Raise (ValueError "each token pepper must be versioned and contain at least 32 bytes")
  else Ok peppers.

Fixpoint get (peppers : t) (version : Z) : option bytes :=
  match peppers with
  | [] => None
  | (v, p) :: rest => if v =? version then Some p else get rest version
  end.

Definition hash (self : t) (token : string) : result HashedToken.t :=
  match _TOKEN token with
  | None => Raise (ValueError "invalid bearer token format")
  | Some (digits, _) =>
      match int_of_digits digits with
      | None => Raise (ValueError "Exceeds the limit (4300 digits) for integer string conversion")
      | Some version =>
          match get self version with
          | None => Raise (ValueError "unknown token pepper version")
          | Some pepper =>
              HashedToken.new version (hmac_sha256 pepper (_TOKEN_CONTEXT ++ encode token))
          end
      end
  end.

(** [version.to_bytes(8, "big")] *)
Definition version_bytes (v : Z) : result bytes :=
  if (0 <=? v) && (v <? 2 ^ 64) then Ok (to_bytes_big 8 v)
  else Raise (OverflowError "int too big to convert").

Definition verify (self : t) (token : string) (expected : HashedToken.t) : result bool :=
  try! candidate :=
    match hash self token with
    | Raise (ValueError _) => HashedToken.new (HashedToken.version expected) (replicate 32 x00)
    | r => r
    end in
  try! candidate_version := version_bytes (HashedToken.version candidate) in
  try! expected_version := version_bytes (HashedToken.version expected) in
  let version_matches := candidate_version == expected_version in
  let digest_matches := HashedToken.digest candidate == HashedToken.digest expected in
  Ok (version_matches && digest_matches).
End TokenHasher.

(** ** [app/auth/status_token.py] *)
Module StoredToken.
Record t := mk {
  token_hash : HashedToken.t;
  revoked_at : option Z;
  expires_at : option Z }.
End StoredToken.

Definition authenticate_status_token (raw_token : string) (stored : StoredToken.t)
    (hasher : TokenHasher.t) (now : option Z) : result bool :=
  try! valid := TokenHasher.verify hasher raw_token (StoredToken.token_hash stored) in
  let unexpired :=
    match StoredToken.expires_at stored with
    | None => true
    | Some e => match now with Some n => n <? e | None => false end
    end in
  Ok (valid && is_none (StoredToken.revoked_at stored) && unexpired).

(** ** [app/security/idempotency.py] *)
Module IdempotencyBinding.
Record t := mk { key_sha256 : bytes; request_sha256 : bytes; canonical_body : bytes }.
#[global] Instance t_eq_dec : EqDecision t.
Proof. solve_decision. Defined.
End IdempotencyBinding.

Definition _KEY (key : string) : bool := fullmatch_class b64url_char 22 86 key.

Definition _decode_key (key : string) : result bytes :=
  if negb (_KEY key)
  then Raise (ValueError "idempotency key must be unpadded base64url containing 128 through 512 bits")
  else match urlsafe_b64decode key with
       | None => Raise (ValueError "idempotency key must be valid base64url")
       | Some decoded =>
           let canonical := urlsafe_b64_unpadded decoded in
           if (canonical != key) || negb ((16 <=? blen decoded) && (blen decoded <=? 64))
           then Raise (ValueError "idempotency key must contain 128 through 512 bits")
           else Ok decoded
       end.

Definition canonical_json (body : json) : bytes := encode (dumps_compact false body).

(** [method.isascii()] and [method.upper() != method], on the code points below 256. *)
Definition isascii (s : string) : bool := str_all (λ c, code c <? 128) s.
Definition is_canonical_method (m : string) : bool :=
  isascii m && str_all (λ c, negb (is_lower_az c)) m.

Definition bind_idempotency_request (key method path : string) (body : json)
    : result IdempotencyBinding.t :=
  try! key_bytes := _decode_key key in
  if negb (is_canonical_method method) || negb (startswith "/" path)
  then Raise (ValueError "method and path must be canonical")
  else
    let canonical_body := canonical_json body in
    let request := (encode method ++ [x00] ++ encode path ++ [x00] ++ canonical_body)%list in
    Ok (IdempotencyBinding.mk
          (sha256 (encode "spacerocks-idempotency-key" ++ [x00] ++ key_bytes)%list)
          (sha256 request)
          canonical_body).

(** ** Properties of the base64 codec *)

Lemma b64_char_value n : 0 <= n < 64 → b64_value (b64_char n) = Some n.
Proof.
  intros Hn.
  assert ((if b64_value (b64_char n) is Some m then m =? n else false) = true) as H
    by (by apply (forall_below (λ n, if b64_value (b64_char n) is Some m then m =? n else false) 64)).
  destruct (b64_value (b64_char n)); [|done]. f_equal. lia.
Qed.
Lemma b64_char_class n : 0 <= n < 64 → b64url_char (b64_char n) = true.
Proof. by apply (forall_below (λ n, b64url_char (b64_char n)) 64). Qed.

Ltac byte_ranges :=
  repeat match goal with
  | b : byte |- _ =>
      lazymatch goal with
      | _ : 0 <= Z_of_byte b < 256 |- _ => fail
      | _ => pose proof (Z_of_byte_range b)
      end
  end.
Ltac div_lia := Z.div_mod_to_equations; lia.

Lemma byte_of_Z_eq n b : n mod 256 = Z_of_byte b → byte_of_Z n = b.
Proof.
  intros H. rewrite <-(byte_of_Z_of_byte b), <-H. unfold byte_of_Z. by rewrite Z.mod_mod by lia.
Qed.

(** Induction by groups of three bytes. *)
Lemma triple_ind (P : bytes → Prop) :
  P [] → (∀ x, P [x]) → (∀ x y, P [x; y]) → (∀ x y z b, P b → P (x :: y :: z :: b)) → ∀ b, P b.
Proof.
  intros H0 H1 H2 H3. fix IH 1. intros [|x [|y [|z b]]]; [exact H0|apply H1|apply H2|].
  apply H3, IH.
Qed.

Lemma urlsafe_b64_roundtrip b : urlsafe_b64decode (urlsafe_b64_unpadded b) = Some b.
Proof.
  induction b as [|x|x y|x y z b IH] using triple_ind; [done| | |];
    cbn [urlsafe_b64_unpadded urlsafe_b64decode]; byte_ranges;
    rewrite !b64_char_value by div_lia; [..|rewrite IH]; simpl;
    repeat f_equal; try done; apply byte_of_Z_eq; div_lia.
Qed.
Lemma urlsafe_b64_class b : str_all b64url_char (urlsafe_b64_unpadded b) = true.
Proof.
  induction b as [|x|x y|x y z b IH] using triple_ind; [done| | |];
    cbn [urlsafe_b64_unpadded str_all]; byte_ranges;
    rewrite !b64_char_class by div_lia; done.
Qed.
Lemma urlsafe_b64_length b :
  Z.of_nat (String.length (urlsafe_b64_unpadded b)) = (4 * blen b + 2) / 3.
Proof.
  unfold blen. induction b as [|x|x y|x y z b IH] using triple_ind; [done..|].
  cbn [urlsafe_b64_unpadded String.length List.length]. rewrite !Nat2Z.inj_succ, IH. div_lia.
Qed.
#[global] Instance urlsafe_b64_inj : Inj (=) (=) urlsafe_b64_unpadded.
Proof. intros a b H. apply (f_equal urlsafe_b64decode) in H. rewrite !urlsafe_b64_roundtrip in H. congruence. Qed.

(** An idempotency key is accepted exactly when it is the canonical unpadded base64url
    text of 16 through 64 bytes, and the decoded key is those bytes: two different texts
    never decode to the same key (non-zero trailing bits are refused). *)
Theorem decode_key_spec key d :
  _decode_key key = Ok d ↔ key = urlsafe_b64_unpadded d ∧ 16 <= blen d <= 64.
Proof.
  unfold _decode_key. split.
  - destruct (_KEY key); [simpl|done]. destruct (urlsafe_b64decode key) as [d'|]; [|done].
    destruct (_ || _) eqn:E; [done|]. intros [= ->].
    apply orb_false_iff in E as [E1%negb_false_iff%bool_decide_eq_true E2%negb_false_iff].
    split; [done|]. lia.
  - intros [-> Hlen]. pose proof (urlsafe_b64_length d) as Hl.
    assert (_KEY (urlsafe_b64_unpadded d) = true) as ->.
    { unfold _KEY, fullmatch_class. rewrite urlsafe_b64_class, andb_true_r.
      apply andb_true_intro. split; apply Nat.leb_le; div_lia. }
    simpl. rewrite urlsafe_b64_roundtrip. rewrite bool_decide_true by done. simpl.
    replace (_ && _) with true by lia. done.
Qed.

(** ** Properties of the bearer tokens *)

Lemma split_dot_app s t : str_all is_digit s = true → split_dot (s ++ "." ++ t) = Some (s, t).
Proof.
  induction s as [|c s IH]; [done|]. rewrite string_app_cons. cbn [str_all split_dot].
  intros [Hc Hs]%andb_prop. rewrite (IH Hs).
  destruct (c =? ".")%char eqn:E; [|done]. apply Ascii.eqb_eq in E as ->. done.
Qed.

(** The decimal text of a positive number starts with a non-zero digit. *)
Lemma str_int_pos_head n :
  1 <= n → ∃ d ds, str_int n = String d ds ∧ in_range 49 57 d = true ∧ str_all is_digit ds = true.
Proof.
  intros Hn. pose proof (str_int_digits n ltac:(lia)) as Hd.
  rewrite str_int_uint in * by lia.
  assert (N.to_uint (Z.to_N n) ≠ Decimal.Nil) by apply to_uint_not_nil.
  assert (match N.to_uint (Z.to_N n) with Decimal.D0 _ => False | _ => True end) as H0.
  { pose proof (DecimalN.Unsigned.to_of (N.to_uint (Z.to_N n))) as Ht.
    rewrite DecimalN.Unsigned.of_to in Ht.
    destruct (N.to_uint (Z.to_N n)) as [|u|u|u|u|u|u|u|u|u|u] eqn:E; try done.
    cbn [Decimal.unorm] in Ht. simpl in Ht. unfold Decimal.unorm in Ht. simpl in Ht.
    destruct (Decimal.nzhead u) eqn:En; try discriminate.
    - injection Ht as ->. apply (f_equal N.of_uint) in E. rewrite DecimalN.Unsigned.of_to in E.
      simpl in E. lia.
    - exfalso. by eapply DecimalFacts.nzhead_nonzero in En. }
  destruct (N.to_uint (Z.to_N n)); try done; simpl in *; eauto.
Qed.

Lemma TOKEN_generated v rand :
  1 <= v → blen rand = 32 →
  _TOKEN ("v" ++ str_int v ++ "." ++ urlsafe_b64_unpadded rand)
    = Some (str_int v, urlsafe_b64_unpadded rand).
Proof.
  intros Hv Hr. cbn [_TOKEN]. change ("v" ++ ?s)%string with (String "v" s). cbn [_TOKEN].
  simpl (("v" =? "v")%char). cbn iota.
  rewrite split_dot_app by (apply str_int_digits; lia). cbn [mbind option_bind fst snd].
  destruct (str_int_pos_head v Hv) as (d & ds & -> & Hd & Hds). rewrite Hd, Hds.
  pose proof (urlsafe_b64_length rand) as Hl. rewrite Hr in Hl. change ((4 * 32 + 2) / 3) with 43 in Hl.
  unfold fullmatch_class. rewrite urlsafe_b64_class.
  assert (String.length (urlsafe_b64_unpadded rand) = 43%nat) as -> by lia. done.
Qed.

(** What a token hashes to: the hasher knows the pepper of the version in the text. *)
Definition token_digest (pepper : bytes) (token : string) : bytes :=
  hmac_sha256 pepper (_TOKEN_CONTEXT ++ encode token)%list.

Lemma HashedToken_new_ok v d h :
  HashedToken.new v d = Ok h ↔ h = HashedToken.mk v d ∧ 1 <= v ∧ blen d = 32.
Proof.
  unfold HashedToken.new. destruct (_ || _) eqn:E.
  - split; [done|]. intros (_ & ? & ?). rewrite bool_decide_true in E by done. simpl in E. lia.
  - apply orb_false_iff in E as [E1 E2%negb_false_iff%bool_decide_eq_true].
    split; [intros [= <-]; repeat split; [lia|done]|]. by intros (-> & _).
Qed.

Lemma blen_hmac k m : blen (hmac_sha256 k m) = 32.
Proof. unfold blen. by rewrite length_hmac_sha256. Qed.

Lemma hash_Ok hasher token h :
  TokenHasher.hash hasher token = Ok h →
  ∃ pepper, TokenHasher.get hasher (HashedToken.version h) = Some pepper ∧
            HashedToken.digest h = token_digest pepper token ∧ 1 <= HashedToken.version h.
Proof.
  unfold TokenHasher.hash. destruct (_TOKEN token) as [[digits ?]|]; [|done].
  destruct (int_of_digits digits) as [v|]; [|done].
  destruct (TokenHasher.get hasher v) as [p|] eqn:E; [|done].
  intros (-> & ? & ?)%HashedToken_new_ok. eauto.
Qed.

(** A freshly generated bearer token is accepted by a hasher that has the pepper of its
    version: it hashes to that version and to the HMAC of the context and the token text, and
    verifying it against the stored hash succeeds. *)
Theorem generated_token_verifies hasher version pepper rand token :
  TokenHasher.get hasher version = Some pepper →
  blen rand = 32 → version < 2 ^ 64 → (String.length (str_int version) <= 4300)%nat →
  generate_bearer_token version rand = Ok token →
  TokenHasher.hash hasher token = Ok (HashedToken.mk version (token_digest pepper token)) ∧
  TokenHasher.verify hasher token (HashedToken.mk version (token_digest pepper token)) = Ok true.
Proof.
  intros Hp Hr Hv Hl Hg. unfold generate_bearer_token in Hg.
  destruct (version <? 1) eqn:E; [done|]. injection Hg as <-.
  set (token := ("v" ++ _)%string).
  assert (TokenHasher.hash hasher token = Ok (HashedToken.mk version (token_digest pepper token))) as Hh.
  { unfold TokenHasher.hash, token. rewrite TOKEN_generated by (lia || done).
    rewrite int_of_digits_str_int by (lia || done). rewrite Hp.
    apply HashedToken_new_ok. split_and!; [done|lia|apply blen_hmac]. }
  split; [done|]. unfold TokenHasher.verify. rewrite Hh. simpl.
  unfold TokenHasher.version_bytes. replace (_ && _) with true by lia. simpl.
  by rewrite !bool_decide_true.
Qed.

Lemma version_bytes_inj v w b :
  TokenHasher.version_bytes v = Ok b → TokenHasher.version_bytes w = Ok b → v = w.
Proof.
  unfold TokenHasher.version_bytes.
  destruct (_ && _) eqn:E1; [|done]. destruct ((0 <=? w) && _) eqn:E2; [|done].
  intros H1 H2. assert (to_bytes_big 8 v = to_bytes_big 8 w) as H by congruence.
  apply (f_equal int_from_bytes_big) in H.
  rewrite !int_from_to_bytes_big in H by lia. done.
Qed.

(** C38: authentication is sound.  A token is accepted only when it hashes to the stored
    hash, the stored token is not revoked and it has not expired at [now]; a stored digest
    of 32 zero bytes is the single exception the code leaves (a malformed token is compared
    as if it hashed to that value). *)
Theorem authenticate_sound raw stored hasher now :
  authenticate_status_token raw stored hasher now = Ok true →
  HashedToken.digest (StoredToken.token_hash stored) ≠ replicate 32 x00 →
  TokenHasher.hash hasher raw = Ok (StoredToken.token_hash stored) ∧
  StoredToken.revoked_at stored = None ∧
  (∀ e, StoredToken.expires_at stored = Some e → ∃ n, now = Some n ∧ n < e).
Proof.
  unfold authenticate_status_token. intros H Hz.
  apply result_bind_Ok in H as (valid & Hv & H). injection H as H.
  apply andb_prop in H as [[-> Hrev%is_none_true]%andb_prop Hexp].
  split_and!; [|done|].
  2: { intros e He. rewrite He in Hexp. destruct now as [n|]; [|done]. exists n. simpl in Hexp. split; [done|lia]. }
  unfold TokenHasher.verify in Hv. apply result_bind_Ok in Hv as (c & Hc & Hv).
  apply result_bind_Ok in Hv as (cv & Hcv & Hv). apply result_bind_Ok in Hv as (ev & Hev & Hv).
  injection Hv as Hv. apply andb_prop in Hv as [->%bool_decide_eq_true Hd%bool_decide_eq_true].
  pose proof (version_bytes_inj _ _ _ Hcv Hev) as Hvv.
  assert (TokenHasher.hash hasher raw = Ok c) as ->.
  { destruct (TokenHasher.hash hasher raw) as [h|[]]; try done.
    apply HashedToken_new_ok in Hc as (-> & _). by simpl in Hd. }
  destruct c, (StoredToken.token_hash stored); simpl in *; congruence.
Qed.

(** Witnesses. *)
Definition sample_peppers : list (Z * bytes) := [(1, replicate 32 x2a)].

Lemma generated_token_verifies_witness :
  ∃ token, generate_bearer_token 1 (replicate 32 x07) = Ok token ∧
    TokenHasher.verify sample_peppers token
      (HashedToken.mk 1 (token_digest (replicate 32 x2a) token)) = Ok true.
Proof.
  eexists. split; [reflexivity|].
  apply (generated_token_verifies sample_peppers 1 (replicate 32 x2a) (replicate 32 x07));
    first [reflexivity | vm_compute; lia].
Defined.

Lemma authenticate_sound_witness :
  ∃ token stored,
    TokenHasher.hash sample_peppers token = Ok (StoredToken.token_hash stored) ∧
    StoredToken.revoked_at stored = None ∧
    (∀ e, StoredToken.expires_at stored = Some e → ∃ n, Some 5 = Some n ∧ n < e).
Proof.
  pose (token := match generate_bearer_token 1 (replicate 32 x07) with Ok t => t | _ => "" end).
  pose (h := HashedToken.mk 1 (token_digest (replicate 32 x2a) token)).
  exists token, (StoredToken.mk h None (Some 6)).
  apply (authenticate_sound token (StoredToken.mk h None (Some 6)) sample_peppers (Some 5)).
  - vm_compute. reflexivity.
  - vm_compute. discriminate.
Defined.
