(* ===== verification/Db.v ===== *)
(** * The database

    [app/db/models.py]: one record per table with its CHECK constraints ([check]) and its
    unique constraints ([clash r s]: rows [r] and [s] cannot coexist), the foreign keys, the
    two ORM listeners that forbid mutation, and the session operations the stores use.

    A table is the list of its rows in insertion order.  Timestamps are stored as instants
    (microseconds since the epoch); the columns that hold a member of a Python enumeration
    are typed by it; the widths of the [String] columns are not modelled.  The columns
    [verification_metadata] and [evidence] hold the values that the JSON document encodes. *)
From S2P Require Import Prelude PyStr Sha256 Domain Ports.

Open Scope string_scope.
Open Scope Z_scope.
Import PaymentState FulfillmentState.

(** ** Enumerations stored as text *)

(** [app/jobs/models.py] *)
Inductive JobState :=
| JOB_AVAILABLE | JOB_LEASED | JOB_RETRY | JOB_COMPLETE | JOB_MANUAL_REVIEW | JOB_DEAD_LETTER.
#[global] Instance JobState_eq_dec : EqDecision JobState.
Proof. solve_decision. Defined.
Inductive JobOutcome := OUT_COMPLETE | OUT_RETRY | OUT_MANUAL_REVIEW | OUT_DEAD_LETTER.
#[global] Instance JobOutcome_eq_dec : EqDecision JobOutcome.
Proof. solve_decision. Defined.
Definition JobOutcome_value (o : JobOutcome) : string :=
  match o with
  | OUT_COMPLETE => "complete" | OUT_RETRY => "retry" | OUT_MANUAL_REVIEW => "manual_review"
  | OUT_DEAD_LETTER => "dead_letter"
  end.
(** [stored.state = final_outcome.value] *)
Definition state_of_outcome (o : JobOutcome) : JobState :=
  match o with
  | OUT_COMPLETE => JOB_COMPLETE | OUT_RETRY => JOB_RETRY | OUT_MANUAL_REVIEW => JOB_MANUAL_REVIEW
  | OUT_DEAD_LETTER => JOB_DEAD_LETTER
  end.

Inductive CheckoutState := RESERVED | CHECKOUT_PROCESSING | CHECKOUT_COMPLETED.
#[global] Instance CheckoutState_eq_dec : EqDecision CheckoutState.
Proof. solve_decision. Defined.
Inductive DispatchState := PENDING | DISPATCHED.
#[global] Instance DispatchState_eq_dec : EqDecision DispatchState.
Proof. solve_decision. Defined.
Inductive OutboxState :=
| OB_AVAILABLE | OB_RETRY | OB_LEASED | OB_ACCEPTED | OB_DELIVERED | OB_FAILED | OB_DEAD_LETTER.
#[global] Instance OutboxState_eq_dec : EqDecision OutboxState.
Proof. solve_decision. Defined.

(** The JSON document of [_verification_payload]. *)
Module VerificationPayload.
Record t := mk {
  block_height : Z; block_hash : string; block_time : datetime; confirmation_policy : string;
  confirmations : Z; verification_method : string; verified_at : datetime }.
#[global] Instance t_eq_dec : EqDecision t.
Proof. solve_decision. Defined.
End VerificationPayload.

Inductive evidence_value := EvStr (s : string) | EvInt (n : option Z) | EvTime (us : Z).
#[global] Instance evidence_value_eq_dec : EqDecision evidence_value.
Proof. solve_decision. Defined.

(** Two values of a nullable unique column conflict when both are present and equal. *)
Definition opt_clash (a b : option string) : bool :=
  match a, b with Some x, Some y => x == y | _, _ => false end.

Lemma opt_clash_sym a b : opt_clash a b = opt_clash b a.
Proof. destruct a, b; simpl; try done. by apply bool_decide_ext. Qed.

(** ** The rows *)

(** [class Order] *)
Module Order.
Record row := mk {
  id : uuid; order_reference : string; certificate_reference : string;
  manifest_digest : bytes; email : string; amount_minor : Z; currency : string;
  product_version : string; payment_mode : string; payment_state : PaymentState.t;
  fulfillment_state : FulfillmentState.t; consent_terms_version : string;
  consent_privacy_version : string; consent_accepted_at : Z;
  checkout_session_id : option string; payment_intent_id : option string;
  fulfillment_key : string; calendar_submitted_at : option Z; created_at : Z;
  updated_at : Z }.
#[global] Instance eta_row : Eta row := λ r,
  mk (id r) (order_reference r) (certificate_reference r) (manifest_digest r) (email r)
     (amount_minor r) (currency r) (product_version r) (payment_mode r) (payment_state r)
     (fulfillment_state r) (consent_terms_version r) (consent_privacy_version r)
     (consent_accepted_at r) (checkout_session_id r) (payment_intent_id r) (fulfillment_key r)
     (calendar_submitted_at r) (created_at r) (updated_at r).
(** The first condition is the type of the column ([Uuid]). *)
Definition check (r : row) : bool :=
  ((0 <=? id r) && (id r <? 2 ^ 128)) &&
  (blen (manifest_digest r) == 32) && (0 <=? amount_minor r) &&
  ((strlen (currency r) == 3) && (lower (currency r) == currency r)) &&
  ((1 <=? strlen (email r)) && (strlen (email r) <=? 254)) &&
  (negb (fulfillment_state r is_in [QUEUED; STAMPING; CALENDAR_PENDING; BITCOIN_VERIFIED; DELIVERED]) ||
   (payment_state r is_in [PAID; REFUNDED; DISPUTED])).
Definition clash (r s : row) : bool :=
  (id r == id s) ||
  (order_reference r == order_reference s) ||
  opt_clash (checkout_session_id r) (checkout_session_id s) ||
  opt_clash (payment_intent_id r) (payment_intent_id s) ||
  (fulfillment_key r == fulfillment_key s).
End Order.

(** [class OrderToken] *)
Module OrderToken.
Record row := mk {
  id : uuid; order_id : uuid; version : Z; pepper_version : Z; token_hash : bytes;
  revoked_at : option Z; expires_at : Z; created_at : Z }.
#[global] Instance eta_row : Eta row := λ r,
  mk (id r) (order_id r) (version r) (pepper_version r) (token_hash r) (revoked_at r)
     (expires_at r) (created_at r).
Definition check (r : row) : bool :=
  (blen (token_hash r) == 32) && (0 <? version r) && (0 <? pepper_version r).
Definition clash (r s : row) : bool :=
  (id r == id s) ||
  ((order_id r == order_id s) && (version r == version s)) ||
  (token_hash r == token_hash s).
End OrderToken.

(** [class IdempotencyRequest] *)
Module IdempotencyRequest.
Record row := mk {
  id : uuid; endpoint : string; key_hash : bytes; request_hash : bytes; order_id : uuid;
  provider_idempotency_key : string; provider_price_id : string; success_url : string;
  cancel_url : string; checkout_state : CheckoutState; checkout_lease_id : option string;
  checkout_lease_expires_at : option Z; response_status : option Z;
  response_body : (option (list (string * string))); completed_at : option Z;
  created_at : Z }.
#[global] Instance eta_row : Eta row := λ r,
  mk (id r) (endpoint r) (key_hash r) (request_hash r) (order_id r)
     (provider_idempotency_key r) (provider_price_id r) (success_url r) (cancel_url r)
     (checkout_state r) (checkout_lease_id r) (checkout_lease_expires_at r)
     (response_status r) (response_body r) (completed_at r) (created_at r).
Definition check (r : row) : bool :=
  (blen (key_hash r) == 32) && (blen (request_hash r) == 32) &&
  match checkout_state r with
  | RESERVED =>
      is_none (checkout_lease_id r) && is_none (checkout_lease_expires_at r) &&
      is_none (response_status r) && is_none (response_body r) && is_none (completed_at r)
  | CHECKOUT_PROCESSING =>
      is_some (checkout_lease_id r) && is_some (checkout_lease_expires_at r) &&
      is_none (response_status r) && is_none (response_body r) && is_none (completed_at r)
  | CHECKOUT_COMPLETED =>
      is_some (checkout_lease_id r) && is_some (checkout_lease_expires_at r) &&
      is_some (response_status r) && is_some (response_body r) && is_some (completed_at r)
  end.
Definition clash (r s : row) : bool :=
  (id r == id s) ||
  ((endpoint r == endpoint s) && (key_hash r == key_hash s)) ||
  (order_id r == order_id s) ||
  (provider_idempotency_key r == provider_idempotency_key s).
End IdempotencyRequest.

(** [class RateCounter] *)
Module RateCounter.
Record row := mk {
  id : uuid; endpoint : string; key_hash : bytes; window_started_at : Z; request_count : Z }.
#[global] Instance eta_row : Eta row := λ r,
  mk (id r) (endpoint r) (key_hash r) (window_started_at r) (request_count r).
Definition check (r : row) : bool :=
  (blen (key_hash r) == 32) && (0 <? request_count r).
Definition clash (r s : row) : bool :=
  (id r == id s) ||
  ((endpoint r == endpoint s) && (key_hash r == key_hash s) && (window_started_at r == window_started_at s)).
End RateCounter.

(** [class StripeEvent] *)
Module StripeEvent.
Record row := mk {
  id : uuid; stripe_event_id : string; event_type : string; livemode : bool;
  payload_sha256 : bytes; processed_at : option Z; safe_error_code : option string;
  created_at : Z }.
#[global] Instance eta_row : Eta row := λ r,
  mk (id r) (stripe_event_id r) (event_type r) (livemode r) (payload_sha256 r)
     (processed_at r) (safe_error_code r) (created_at r).
Definition check (r : row) : bool :=
  blen (payload_sha256 r) == 32.
Definition clash (r s : row) : bool :=
  (id r == id s) ||
  (stripe_event_id r == stripe_event_id s).
End StripeEvent.

(** [class DurableJob] *)
Module DurableJob.
Record row := mk {
  id : uuid; job_key : string; order_id : uuid; kind : string; state : JobState;
  generation : Z; attempt_count : Z; max_attempts : Z; available_at : Z;
  lease_owner : option string; lease_until : option Z; safe_error_code : option string;
  created_at : Z; updated_at : Z }.
#[global] Instance eta_row : Eta row := λ r,
  mk (id r) (job_key r) (order_id r) (kind r) (state r) (generation r) (attempt_count r)
     (max_attempts r) (available_at r) (lease_owner r) (lease_until r) (safe_error_code r)
     (created_at r) (updated_at r).
(** The three constraints, and the type of the key. *)
Definition check (r : row) : bool :=
  ((0 <=? id r) && (id r <? 2 ^ 128)) &&
  ((0 <=? attempt_count r) && (0 <? max_attempts r)) && (0 <? generation r) &&
  (is_none (lease_until r) || is_some (lease_owner r)).
Definition clash (r s : row) : bool :=
  (id r == id s) ||
  (job_key r == job_key s).
End DurableJob.

(** [class TaskDispatch] *)
Module TaskDispatch.
Record row := mk {
  id : uuid; job_id : uuid; generation : Z; task_name : string; schedule_at : Z;
  state : DispatchState; attempt_count : Z; dispatched_at : option Z;
  safe_error_code : option string; created_at : Z; updated_at : Z }.
#[global] Instance eta_row : Eta row := λ r,
  mk (id r) (job_id r) (generation r) (task_name r) (schedule_at r) (state r)
     (attempt_count r) (dispatched_at r) (safe_error_code r) (created_at r) (updated_at r).
Definition check (r : row) : bool :=
  (0 <? generation r) && (0 <=? attempt_count r) &&
  match state r with
  | PENDING => is_none (dispatched_at r)
  | DISPATCHED => is_some (dispatched_at r)
  end.
Definition clash (r s : row) : bool :=
  (id r == id s) ||
  ((job_id r == job_id s) && (generation r == generation s)) ||
  (task_name r == task_name s).
End TaskDispatch.

(** [class JobAttempt] *)
Module JobAttempt.
Record row := mk {
  id : uuid; job_id : uuid; attempt_number : Z; worker_id : string; started_at : Z;
  finished_at : option Z; outcome : option string; safe_error_code : option string;
  created_at : Z }.
#[global] Instance eta_row : Eta row := λ r,
  mk (id r) (job_id r) (attempt_number r) (worker_id r) (started_at r) (finished_at r)
     (outcome r) (safe_error_code r) (created_at r).
Definition check (r : row) : bool :=
  true.
Definition clash (r s : row) : bool :=
  (id r == id s) ||
  ((job_id r == job_id s) && (attempt_number r == attempt_number s)).
End JobAttempt.

(** [class ProofVersion] *)
Module ProofVersion.
Record row := mk {
  id : uuid; order_id : uuid; version : Z; target_digest : bytes; proof_bytes : bytes;
  proof_sha256 : bytes; proof_byte_length : Z; proof_state : ProofState;
  calendar_submitted_at : Z; verification_metadata : option VerificationPayload.t;
  created_at : Z }.
#[global] Instance eta_row : Eta row := λ r,
  mk (id r) (order_id r) (version r) (target_digest r) (proof_bytes r) (proof_sha256 r)
     (proof_byte_length r) (proof_state r) (calendar_submitted_at r) (verification_metadata r)
     (created_at r).
Definition check (r : row) : bool :=
  (0 <? version r) && (blen (target_digest r) == 32) && (blen (proof_sha256 r) == 32) &&
  ((1 <=? proof_byte_length r) && (proof_byte_length r <=? 262144) &&
   (proof_byte_length r == blen (proof_bytes r))) &&
  match proof_state r with
  | PROOF_CALENDAR_PENDING => is_none (verification_metadata r)
  | PROOF_BITCOIN_VERIFIED => is_some (verification_metadata r)
  end.
Definition clash (r s : row) : bool :=
  (id r == id s) ||
  ((order_id r == order_id s) && (version r == version s)).
End ProofVersion.

(** [class ProofVerification] *)
Module ProofVerification.
Record row := mk {
  id : uuid; order_id : uuid; proof_version : Z; method : string; verified_at : Z;
  block_height : Z; block_hash : string; block_time : Z; confirmation_policy : string;
  created_at : Z }.
#[global] Instance eta_row : Eta row := λ r,
  mk (id r) (order_id r) (proof_version r) (method r) (verified_at r) (block_height r)
     (block_hash r) (block_time r) (confirmation_policy r) (created_at r).
Definition check (r : row) : bool :=
  (0 <? proof_version r) && (0 <=? block_height r) &&
  ((strlen (block_hash r) == 64) && (block_hash r == lower (block_hash r))).
Definition clash (r s : row) : bool :=
  (id r == id s) ||
  ((order_id r == order_id s) && (proof_version r == proof_version s)).
End ProofVerification.

(** [class ProofBundle] *)
Module ProofBundle.
Record row := mk {
  id : uuid; order_id : uuid; proof_version : Z; bundle_bytes : bytes; bundle_sha256 : bytes;
  bundle_byte_length : Z; created_at : Z }.
#[global] Instance eta_row : Eta row := λ r,
  mk (id r) (order_id r) (proof_version r) (bundle_bytes r) (bundle_sha256 r)
     (bundle_byte_length r) (created_at r).
Definition check (r : row) : bool :=
  (0 <? proof_version r) && (blen (bundle_sha256 r) == 32) &&
  ((0 <? bundle_byte_length r) && (bundle_byte_length r == blen (bundle_bytes r)) &&
   (bundle_byte_length r <=? 12582912)).
Definition clash (r s : row) : bool :=
  (id r == id s) ||
  ((order_id r == order_id s) && (proof_version r == proof_version s)).
End ProofBundle.

(** [class BitcoinConfirmationObservation] *)
Module Observation.
Record row := mk {
  id : uuid; order_id : uuid; proof_version : Z; observed_confirmations : Z; block_height : Z;
  block_hash : string; method : string; confirmation_policy : string; observed_at : Z;
  event_key : string; created_at : Z }.
#[global] Instance eta_row : Eta row := λ r,
  mk (id r) (order_id r) (proof_version r) (observed_confirmations r) (block_height r)
     (block_hash r) (method r) (confirmation_policy r) (observed_at r) (event_key r)
     (created_at r).
Definition check (r : row) : bool :=
  (0 <? proof_version r) && (0 <? observed_confirmations r) && (0 <=? block_height r) &&
  ((strlen (block_hash r) == 64) && (block_hash r == lower (block_hash r))).
Definition clash (r s : row) : bool :=
  (id r == id s) ||
  ((order_id r == order_id s) && (event_key r == event_key s)).
End Observation.

(** [class StateEvent] *)
Module StateEvent.
Record row := mk {
  id : uuid; order_id : uuid; sequence : Z; event_key : string; source : string;
  previous_payment_state : PaymentState.t; payment_state : PaymentState.t;
  previous_fulfillment_state : FulfillmentState.t; fulfillment_state : FulfillmentState.t;
  evidence : (list (string * evidence_value)); created_at : Z }.
#[global] Instance eta_row : Eta row := λ r,
  mk (id r) (order_id r) (sequence r) (event_key r) (source r) (previous_payment_state r)
     (payment_state r) (previous_fulfillment_state r) (fulfillment_state r) (evidence r)
     (created_at r).
Definition check (r : row) : bool :=
  true.
Definition clash (r s : row) : bool :=
  (id r == id s) ||
  ((order_id r == order_id s) && (sequence r == sequence s)) ||
  ((order_id r == order_id s) && (event_key r == event_key s)).
End StateEvent.

(** [class OutboxMessage], imported as [OutboxRecord] by the adapters *)
Module OutboxRecord.
Record row := mk {
  id : uuid; message_key : string; order_id : uuid; kind : string; recipient : string;
  payload : (list (string * string)); state : OutboxState; attempt_count : Z;
  max_attempts : Z; available_at : Z; lease_owner : option string; lease_until : option Z;
  lease_token : option string; proof_version : option Z; confirmation_count : option Z;
  confirmation_observation_id : option uuid; provider_message_id : option string;
  accepted_at : option Z; delivered_at : option Z; idempotency_expires_at : option Z;
  safe_error_code : option string; created_at : Z; updated_at : Z }.
#[global] Instance eta_row : Eta row := λ r,
  mk (id r) (message_key r) (order_id r) (kind r) (recipient r) (payload r) (state r)
     (attempt_count r) (max_attempts r) (available_at r) (lease_owner r) (lease_until r)
     (lease_token r) (proof_version r) (confirmation_count r) (confirmation_observation_id r)
     (provider_message_id r) (accepted_at r) (delivered_at r) (idempotency_expires_at r)
     (safe_error_code r) (created_at r) (updated_at r).
(** The first condition is the type of the column (not null). *)
Definition check (r : row) : bool :=
  is_some (idempotency_expires_at r) &&
  ((0 <=? attempt_count r) && (0 <? max_attempts r)) &&
  (is_none (lease_until r) || is_some (lease_owner r)) &&
  match proof_version r with None => true | Some v => 0 <? v end &&
  match confirmation_count r with None => true | Some c => 0 <? c end.
Definition clash (r s : row) : bool :=
  (id r == id s) ||
  (message_key r == message_key s) ||
  opt_clash (provider_message_id r) (provider_message_id s).
End OutboxRecord.

(** [class NotificationAttempt] *)
Module NotificationAttempt.
Record row := mk {
  id : uuid; outbox_id : uuid; attempt_number : Z; worker_id : string; lease_token : string;
  started_at : Z; finished_at : option Z; outcome : option string;
  response_status : option Z; provider_message_id : option string;
  safe_error_code : option string; created_at : Z }.
#[global] Instance eta_row : Eta row := λ r,
  mk (id r) (outbox_id r) (attempt_number r) (worker_id r) (lease_token r) (started_at r)
     (finished_at r) (outcome r) (response_status r) (provider_message_id r)
     (safe_error_code r) (created_at r).
Definition check (r : row) : bool :=
  (0 <? attempt_number r) &&
  match response_status r with None => true | Some s => (100 <=? s) && (s <=? 599) end.
Definition clash (r s : row) : bool :=
  (id r == id s) ||
  ((outbox_id r == outbox_id s) && (attempt_number r == attempt_number s)).
End NotificationAttempt.

(** [class ResendWebhookEvent] *)
Module ResendWebhookEvent.
Record row := mk {
  id : uuid; svix_event_id : string; event_type : string; provider_message_id : string;
  payload_sha256 : bytes; event_created_at : Z; processed_at : Z; created_at : Z }.
#[global] Instance eta_row : Eta row := λ r,
  mk (id r) (svix_event_id r) (event_type r) (provider_message_id r) (payload_sha256 r)
     (event_created_at r) (processed_at r) (created_at r).
Definition check (r : row) : bool :=
  blen (payload_sha256 r) == 32.
Definition clash (r s : row) : bool :=
  (id r == id s) ||
  (svix_event_id r == svix_event_id s).
End ResendWebhookEvent.

(** ** The database state *)
Module Db.
Record t := mk {
  orders : list Order.row;
  order_tokens : list OrderToken.row;
  idempotency_requests : list IdempotencyRequest.row;
  rate_counters : list RateCounter.row;
  stripe_events : list StripeEvent.row;
  durable_jobs : list DurableJob.row;
  task_dispatches : list TaskDispatch.row;
  job_attempts : list JobAttempt.row;
  proof_versions : list ProofVersion.row;
  proof_verifications : list ProofVerification.row;
  proof_bundles : list ProofBundle.row;
  observations : list Observation.row;
  state_events : list StateEvent.row;
  outbox : list OutboxRecord.row;
  notification_attempts : list NotificationAttempt.row;
  resend_webhook_events : list ResendWebhookEvent.row }.
#[global] Instance eta_t : Eta t := λ d,
  mk (orders d) (order_tokens d) (idempotency_requests d) (rate_counters d)
     (stripe_events d) (durable_jobs d) (task_dispatches d) (job_attempts d)
     (proof_versions d) (proof_verifications d) (proof_bundles d) (observations d)
     (state_events d) (outbox d) (notification_attempts d) (resend_webhook_events d).
Definition empty : t := mk [] [] [] [] [] [] [] [] [] [] [] [] [] [] [] [].
End Db.

(** ** Tables

    What the session needs to know of a table: its primary key, its CHECK and unique
    constraints, where it lives in the database, its foreign keys and its ORM listener. *)

Definition exists_id {R} (key : R → uuid) (u : uuid) (l : list R) : bool :=
  existsb (λ r, key r == u) l.
Definition exists_version (order_id : uuid) (version : Z) (d : Db.t) : bool :=
  existsb (λ p, (ProofVersion.order_id p == order_id) && (ProofVersion.version p == version))
    (Db.proof_versions d).

(** [_IMMUTABLE_ORDER_FIELDS] and [reject_order_snapshot_mutation] *)
Definition immutable_changed (old new : Order.row) : bool :=
  (Order.order_reference old != Order.order_reference new) ||
  (Order.certificate_reference old != Order.certificate_reference new) ||
  (Order.manifest_digest old != Order.manifest_digest new) ||
  (Order.email old != Order.email new) ||
  (Order.amount_minor old != Order.amount_minor new) ||
  (Order.currency old != Order.currency new) ||
  (Order.product_version old != Order.product_version new) ||
  (Order.payment_mode old != Order.payment_mode new) ||
  (Order.consent_terms_version old != Order.consent_terms_version new) ||
  (Order.consent_privacy_version old != Order.consent_privacy_version new) ||
  (Order.consent_accepted_at old != Order.consent_accepted_at new) ||
  (Order.fulfillment_key old != Order.fulfillment_key new).

Class Table (R : Type) := {
  row_id : R → uuid;
  row_check : R → bool;
  row_clash : R → R → bool;
  tbl : Db.t → list R;
  set_tbl : list R → Db.t → Db.t;
  row_fk : Db.t → R → bool;
  before_update : R → R → option exn }.

#[global] Instance Order_table : Table Order.row := {
  row_id := Order.id; row_check := Order.check; row_clash := Order.clash;
  tbl := Db.orders; set_tbl t d := d <| Db.orders := t |>;
  row_fk d r := true;
  before_update := λ old new,
    if immutable_changed old new
    then Some (ValueError "immutable order snapshot fields cannot be changed") else None }.
#[global] Instance OrderToken_table : Table OrderToken.row := {
  row_id := OrderToken.id; row_check := OrderToken.check; row_clash := OrderToken.clash;
  tbl := Db.order_tokens; set_tbl t d := d <| Db.order_tokens := t |>;
  row_fk d r := exists_id Order.id (OrderToken.order_id r) (Db.orders d);
  before_update := λ _ _, None }.
#[global] Instance IdempotencyRequest_table : Table IdempotencyRequest.row := {
  row_id := IdempotencyRequest.id; row_check := IdempotencyRequest.check; row_clash := IdempotencyRequest.clash;
  tbl := Db.idempotency_requests; set_tbl t d := d <| Db.idempotency_requests := t |>;
  row_fk d r := exists_id Order.id (IdempotencyRequest.order_id r) (Db.orders d);
  before_update := λ _ _, None }.
#[global] Instance RateCounter_table : Table RateCounter.row := {
  row_id := RateCounter.id; row_check := RateCounter.check; row_clash := RateCounter.clash;
  tbl := Db.rate_counters; set_tbl t d := d <| Db.rate_counters := t |>;
  row_fk d r := true;
  before_update := λ _ _, None }.
#[global] Instance StripeEvent_table : Table StripeEvent.row := {
  row_id := StripeEvent.id; row_check := StripeEvent.check; row_clash := StripeEvent.clash;
  tbl := Db.stripe_events; set_tbl t d := d <| Db.stripe_events := t |>;
  row_fk d r := true;
  before_update := λ _ _, None }.
#[global] Instance DurableJob_table : Table DurableJob.row := {
  row_id := DurableJob.id; row_check := DurableJob.check; row_clash := DurableJob.clash;
  tbl := Db.durable_jobs; set_tbl t d := d <| Db.durable_jobs := t |>;
  row_fk d r := exists_id Order.id (DurableJob.order_id r) (Db.orders d);
  before_update := λ _ _, None }.
#[global] Instance TaskDispatch_table : Table TaskDispatch.row := {
  row_id := TaskDispatch.id; row_check := TaskDispatch.check; row_clash := TaskDispatch.clash;
  tbl := Db.task_dispatches; set_tbl t d := d <| Db.task_dispatches := t |>;
  row_fk d r := exists_id DurableJob.id (TaskDispatch.job_id r) (Db.durable_jobs d);
  before_update := λ _ _, None }.
#[global] Instance JobAttempt_table : Table JobAttempt.row := {
  row_id := JobAttempt.id; row_check := JobAttempt.check; row_clash := JobAttempt.clash;
  tbl := Db.job_attempts; set_tbl t d := d <| Db.job_attempts := t |>;
  row_fk d r := exists_id DurableJob.id (JobAttempt.job_id r) (Db.durable_jobs d);
  before_update := λ _ _, None }.
#[global] Instance ProofVersion_table : Table ProofVersion.row := {
  row_id := ProofVersion.id; row_check := ProofVersion.check; row_clash := ProofVersion.clash;
  tbl := Db.proof_versions; set_tbl t d := d <| Db.proof_versions := t |>;
  row_fk d r := exists_id Order.id (ProofVersion.order_id r) (Db.orders d);
  before_update := λ _ _, Some (ValueError "proof evidence is append-only") }.
#[global] Instance ProofVerification_table : Table ProofVerification.row := {
  row_id := ProofVerification.id; row_check := ProofVerification.check; row_clash := ProofVerification.clash;
  tbl := Db.proof_verifications; set_tbl t d := d <| Db.proof_verifications := t |>;
  row_fk d r := exists_version (ProofVerification.order_id r) (ProofVerification.proof_version r) d;
  before_update := λ _ _, Some (ValueError "proof evidence is append-only") }.
#[global] Instance ProofBundle_table : Table ProofBundle.row := {
  row_id := ProofBundle.id; row_check := ProofBundle.check; row_clash := ProofBundle.clash;
  tbl := Db.proof_bundles; set_tbl t d := d <| Db.proof_bundles := t |>;
  row_fk d r := exists_version (ProofBundle.order_id r) (ProofBundle.proof_version r) d;
  before_update := λ _ _, Some (ValueError "proof evidence is append-only") }.
#[global] Instance Observation_table : Table Observation.row := {
  row_id := Observation.id; row_check := Observation.check; row_clash := Observation.clash;
  tbl := Db.observations; set_tbl t d := d <| Db.observations := t |>;
  row_fk d r := exists_version (Observation.order_id r) (Observation.proof_version r) d;
  before_update := λ _ _, Some (ValueError "proof evidence is append-only") }.
#[global] Instance StateEvent_table : Table StateEvent.row := {
  row_id := StateEvent.id; row_check := StateEvent.check; row_clash := StateEvent.clash;
  tbl := Db.state_events; set_tbl t d := d <| Db.state_events := t |>;
  row_fk d r := exists_id Order.id (StateEvent.order_id r) (Db.orders d);
  before_update := λ _ _, None }.
#[global] Instance OutboxRecord_table : Table OutboxRecord.row := {
  row_id := OutboxRecord.id; row_check := OutboxRecord.check; row_clash := OutboxRecord.clash;
  tbl := Db.outbox; set_tbl t d := d <| Db.outbox := t |>;
  row_fk d r := exists_id Order.id (OutboxRecord.order_id r) (Db.orders d) &&
    match OutboxRecord.confirmation_observation_id r with
    | None => true | Some o => exists_id Observation.id o (Db.observations d)
    end;
  before_update := λ _ _, None }.
#[global] Instance NotificationAttempt_table : Table NotificationAttempt.row := {
  row_id := NotificationAttempt.id; row_check := NotificationAttempt.check; row_clash := NotificationAttempt.clash;
  tbl := Db.notification_attempts; set_tbl t d := d <| Db.notification_attempts := t |>;
  row_fk d r := exists_id OutboxRecord.id (NotificationAttempt.outbox_id r) (Db.outbox d);
  before_update := λ _ _, None }.
#[global] Instance ResendWebhookEvent_table : Table ResendWebhookEvent.row := {
  row_id := ResendWebhookEvent.id; row_check := ResendWebhookEvent.check; row_clash := ResendWebhookEvent.clash;
  tbl := Db.resend_webhook_events; set_tbl t d := d <| Db.resend_webhook_events := t |>;
  row_fk d r := true;
  before_update := λ _ _, Some (ValueError "proof evidence is append-only") }.

(** ** Well-formed databases: every CHECK and every unique constraint holds *)

Definition tbl_wf {R} `{Table R} (l : list R) : Prop :=
  (∀ r, r ∈ l → row_check r = true) ∧
  (∀ i j r s, l !! i = Some r → l !! j = Some s → i ≠ j → row_clash r s = false).

Record db_wf (d : Db.t) : Prop := {
  wf_orders : tbl_wf (Db.orders d);
  wf_tokens : tbl_wf (Db.order_tokens d);
  wf_idempotency : tbl_wf (Db.idempotency_requests d);
  wf_rate : tbl_wf (Db.rate_counters d);
  wf_stripe : tbl_wf (Db.stripe_events d);
  wf_jobs : tbl_wf (Db.durable_jobs d);
  wf_dispatches : tbl_wf (Db.task_dispatches d);
  wf_attempts : tbl_wf (Db.job_attempts d);
  wf_proofs : tbl_wf (Db.proof_versions d);
  wf_verifications : tbl_wf (Db.proof_verifications d);
  wf_bundles : tbl_wf (Db.proof_bundles d);
  wf_observations : tbl_wf (Db.observations d);
  wf_events : tbl_wf (Db.state_events d);
  wf_outbox : tbl_wf (Db.outbox d);
  wf_notification_attempts : tbl_wf (Db.notification_attempts d);
  wf_resend : tbl_wf (Db.resend_webhook_events d) }.

Class TableLaws (R : Type) `{Table R} := {
  row_clash_sym : ∀ r s, row_clash r s = row_clash s r;
  row_clash_id : ∀ r s, row_id r = row_id s → row_clash r s = true;
  tbl_set : ∀ d t, tbl (set_tbl t d) = t;
  db_wf_tbl : ∀ d, db_wf d → tbl_wf (tbl d);
  db_wf_set : ∀ d t, db_wf d → tbl_wf t → db_wf (set_tbl t d) }.

Lemma eqb_sym `{EqDecision A} (x y : A) : (x == y) = (y == x).
Proof. by apply bool_decide_ext. Qed.

Ltac table_laws :=
  split;
  [ intros r s; cbv beta delta [row_clash]; simpl;
    lazymatch goal with |- ?a = _ => let h := head_of a in unfold h end;
    repeat match goal with
    | |- context [bool_decide (?f r = ?f s)] => rewrite (eqb_sym (f r) (f s))
    | |- context [opt_clash (?f r) (?f s)] => rewrite (opt_clash_sym (f r) (f s))
    end; reflexivity
  | intros r s E; simpl in E |- *;
    lazymatch goal with |- ?a = _ => let h := head_of a in unfold h end;
    rewrite bool_decide_true by exact E; reflexivity
  | reflexivity
  | intros d [? ? ? ? ? ? ? ? ? ? ? ? ? ? ? ?]; assumption
  | intros d t [? ? ? ? ? ? ? ? ? ? ? ? ? ? ? ?] ?; split; assumption ].

#[global] Instance Order_laws : TableLaws Order.row.
Proof. table_laws. Qed.
#[global] Instance OrderToken_laws : TableLaws OrderToken.row.
Proof. table_laws. Qed.
#[global] Instance IdempotencyRequest_laws : TableLaws IdempotencyRequest.row.
Proof. table_laws. Qed.
#[global] Instance RateCounter_laws : TableLaws RateCounter.row.
Proof. table_laws. Qed.
#[global] Instance StripeEvent_laws : TableLaws StripeEvent.row.
Proof. table_laws. Qed.
#[global] Instance DurableJob_laws : TableLaws DurableJob.row.
Proof. table_laws. Qed.
#[global] Instance TaskDispatch_laws : TableLaws TaskDispatch.row.
Proof. table_laws. Qed.
#[global] Instance JobAttempt_laws : TableLaws JobAttempt.row.
Proof. table_laws. Qed.
#[global] Instance ProofVersion_laws : TableLaws ProofVersion.row.
Proof. table_laws. Qed.
#[global] Instance ProofVerification_laws : TableLaws ProofVerification.row.
Proof. table_laws. Qed.
#[global] Instance ProofBundle_laws : TableLaws ProofBundle.row.
Proof. table_laws. Qed.
#[global] Instance Observation_laws : TableLaws Observation.row.
Proof. table_laws. Qed.
#[global] Instance StateEvent_laws : TableLaws StateEvent.row.
Proof. table_laws. Qed.
#[global] Instance OutboxRecord_laws : TableLaws OutboxRecord.row.
Proof. table_laws. Qed.
#[global] Instance NotificationAttempt_laws : TableLaws NotificationAttempt.row.
Proof. table_laws. Qed.
#[global] Instance ResendWebhookEvent_laws : TableLaws ResendWebhookEvent.row.
Proof. table_laws. Qed.
