(* ===== verification/Session.v ===== *)
(** * Sessions and transactions

    The environment a request handler or worker runs in: the database, the wall clock
    ([datetime.now(UTC)]: successive readings, with no assumption that they increase), the
    stream of [uuid.uuid4()] values and the stream of [secrets.token_bytes] values (with no
    assumption that they are distinct: a collision meets the unique constraints).

    The session operations are the SQLAlchemy calls the stores make.  [add] and [save]
    report a constraint violation when the row is written; SQLAlchemy reports it at the next
    flush, in the same transaction, which [atomically] ([with session.begin()]) rolls back
    in both cases. *)
From S2P Require Import Prelude PyStr Domain Ports Db.
From stdpp Require Import sorting.

Open Scope string_scope.
Open Scope Z_scope.

Module World.
Record t := mk {
  db : Db.t;
  clock : nat → Z; ticks : nat;
  uuids : nat → Z; draws : nat;
  secrets : nat → nat → Z; drawn : nat }.
#[global] Instance eta_t : Eta t := λ w,
  mk (db w) (clock w) (ticks w) (uuids w) (draws w) (secrets w) (drawn w).
End World.

Abbreviation M := (St World.t).

(** [datetime.now(UTC)], also written [utc_now()] *)
Definition now_utc : M Z := λ w,
  (Ok (World.clock w (World.ticks w)), w <| World.ticks := S (World.ticks w) |>).
Definition UUID_BOUND : Z := 2 ^ 128.
(** [uuid.uuid4()] *)
Definition uuid4 : M uuid := λ w,
  (Ok (World.uuids w (World.draws w) mod UUID_BOUND), w <| World.draws := S (World.draws w) |>).
(** [secrets.token_bytes(n)] *)
Definition token_bytes (n : nat) : M bytes := λ w,
  (Ok (map (λ i, byte_of_Z (World.secrets w (World.drawn w) i)) (seq 0 n)),
   w <| World.drawn := S (World.drawn w) |>).

(** ** Queries *)

(** The first row that beats all earlier ones: [ORDER BY ... LIMIT 1]. *)
Definition best {R} (better : R → R → bool) (l : list R) : option R :=
  fold_left (λ acc r,
    match acc with None => Some r | Some b => if better r b then Some r else acc end) l None.

(** [func.max(column)] over the selected rows. *)
Definition max_of {R} (f : R → Z) (l : list R) : option Z :=
  fold_left (λ acc r, match acc with None => Some (f r) | Some m => Some (Z.max m (f r)) end) l None.

(** [ORDER BY k1, k2, ...], a stable sort on the list of keys. *)
Fixpoint key_le (a b : list Z) : bool :=
  match a, b with
  | [], _ => true
  | _ :: _, [] => false
  | x :: a', y :: b' => (x <? y) || ((x =? y) && key_le a' b')
  end.
Fixpoint insert_by {R} (key : R → list Z) (r : R) (l : list R) : list R :=
  match l with
  | [] => [r]
  | s :: l' => if key_le (key r) (key s) then r :: l else s :: insert_by key r l'
  end.
Definition order_by {R} (key : R → list Z) (l : list R) : list R := foldr (insert_by key) [] l.

Definition find_row {R} (P : R → bool) (l : list R) : option R := List.find P l.

Section Ops.
Context {R : Type} `{Table R}.

Definition rows : M (list R) := λ w, (Ok (tbl (World.db w)), w).
(** [session.scalar(select(R).where(P))] *)
Definition scalar (P : R → bool) : M (option R) := λ w,
  (Ok (find_row P (tbl (World.db w))), w).
(** [session.get(R, id)] *)
Definition get (u : uuid) : M (option R) := scalar (λ r, row_id r == u).
(** [session.scalars(select(R).where(P)).all()] *)
Definition scalars (P : R → bool) : M (list R) := λ w,
  (Ok (List.filter P (tbl (World.db w))), w).
(** [... .where(P).order_by(...).limit(1)] *)
Definition scalar_best (better : R → R → bool) (P : R → bool) : M (option R) := λ w,
  (Ok (best better (List.filter P (tbl (World.db w)))), w).
(** [... .where(P).order_by(key).limit(n)] *)
Definition scalars_ordered (key : R → list Z) (n : nat) (P : R → bool) : M (list R) := λ w,
  (Ok (take n (order_by key (List.filter P (tbl (World.db w))))), w).
(** [session.scalar(select(func.max(f)).where(P))] *)
Definition scalar_max (f : R → Z) (P : R → bool) : M (option Z) := λ w,
  (Ok (max_of f (List.filter P (tbl (World.db w)))), w).

Definition set_rows (t : list R) (w : World.t) : World.t :=
  w <| World.db := set_tbl t (World.db w) |>.

(** The constraints that the database checks when [r] is written next to [others]. *)
Definition admissible (d : Db.t) (others : list R) (r : R) : bool :=
  row_check r && row_fk d r && forallb (λ s, negb (row_clash r s)) others.

(** [session.add(r); session.flush()] *)
Definition add (r : R) : M unit := λ w,
  if admissible (World.db w) (tbl (World.db w)) r
  then (Ok tt, set_rows (tbl (World.db w) ++ [r])%list w)
  else (Raise IntegrityError, w).

Definition others (u : uuid) (l : list R) : list R := List.filter (λ s, row_id s != u) l.
Definition replace_row (r : R) (l : list R) : list R :=
  map (λ s, if row_id s == row_id r then r else s) l.

(** The UPDATE that the unit of work issues for a changed object. *)
Definition save (r : R) : M unit := λ w,
  match find_row (λ s, row_id s == row_id r) (tbl (World.db w)) with
  | None => (Raise (Other "StaleDataError"), w)
  | Some old =>
      match before_update old r with
      | Some e => (Raise e, w)
      | None =>
          if admissible (World.db w) (others (row_id r) (tbl (World.db w))) r
          then (Ok tt, set_rows (replace_row r (tbl (World.db w))) w)
          else (Raise IntegrityError, w)
      end
  end.

(** [session.execute(delete(R).where(P))], returning the row count.  It is used only on
    tables that no foreign key references. *)
Definition delete_where (P : R → bool) : M Z := λ w,
  (Ok (Z.of_nat (length (List.filter P (tbl (World.db w))))),
   set_rows (List.filter (λ r, negb (P r)) (tbl (World.db w))) w).
End Ops.

(** [with session.begin(): m]: committed when [m] returns, rolled back when it raises. *)
Definition atomically {A} (m : M A) : M A := λ w,
  match m w with
  | (Ok a, w') => (Ok a, w')
  | (Raise e, w') => (Raise e, w' <| World.db := World.db w |>)
  end.

(** The first [n] rounds of a loop that does not end. *)
Fixpoint rounds {A} (n : nat) (m : M A) : M unit :=
  match n with
  | O => ret tt
  | S n => do! m in rounds n m
  end.

(** ** Lemmas: lists of rows *)

(** The order of the keys is total and transitive. *)
Lemma key_le_total a : ∀ b, key_le a b = false → key_le b a = true.
Proof.
  induction a as [|x a IH]; intros [|y b]; simpl; [done..|].
  intros [H1 H2]%orb_false_iff. apply Z.ltb_ge in H1. apply orb_true_iff.
  destruct (Z.eqb_spec x y) as [->|]; [right; rewrite Z.eqb_refl; by apply IH|left; lia].
Qed.
Lemma key_le_trans a : ∀ b c, key_le a b = true → key_le b c = true → key_le a c = true.
Proof.
  induction a as [|x a IH]; intros [|y b] [|z c]; simpl; try done.
  rewrite !orb_true_iff, !andb_true_iff, !Z.ltb_lt, !Z.eqb_eq. intros [H|[-> H]] [H'|[-> H']]; [left; lia..|].
  right. split; [done|]. by apply (IH b).
Qed.

Lemma find_row_Some {R} (P : R → bool) l r : find_row P l = Some r → r ∈ l ∧ P r = true.
Proof. intros [? ?]%find_some. by rewrite list_elem_of_In. Qed.
Lemma find_row_None {R} (P : R → bool) l r : find_row P l = None → r ∈ l → P r = false.
Proof. intros Hn Hr%list_elem_of_In. by eapply find_none. Qed.
Lemma find_row_unique {R} (P : R → bool) l r :
  r ∈ l → P r = true → (∀ s, s ∈ l → P s = true → s = r) → find_row P l = Some r.
Proof.
  intros Hr HP Hu. destruct (find_row P l) as [s|] eqn:E.
  - apply find_row_Some in E as [? ?]. f_equal. by apply Hu.
  - by rewrite (find_row_None P l r E Hr) in HP.
Qed.
Lemma find_row_app {R} (P : R → bool) l k :
  find_row P (l ++ k) = match find_row P l with Some r => Some r | None => find_row P k end.
Proof. unfold find_row. induction l as [|x l IH]; simpl; [done|]. by destruct (P x). Qed.
Lemma elem_of_filter_rows {R} (P : R → bool) l r : r ∈ List.filter P l ↔ r ∈ l ∧ P r = true.
Proof. rewrite !list_elem_of_In. apply filter_In. Qed.

Lemma best_elem {R} (b : R → R → bool) l r : best b l = Some r → r ∈ l.
Proof.
  unfold best. assert (∀ acc, fold_left (λ acc x, match acc with None => Some x
    | Some y => if b x y then Some x else acc end) l acc = Some r → acc = Some r ∨ r ∈ l) as H.
  { induction l as [|x l IH]; simpl; [eauto|]. intros acc [Ha|Ha]%IH; [|right; by right].
    destruct acc as [y|]; [destruct (b x y)|]; simplify_eq;
      first [by left|right; apply list_elem_of_here]. }
  intros [E|?]%H; [discriminate E|done].
Qed.
Lemma best_None {R} (b : R → R → bool) l : best b l = None → l = [].
Proof.
  unfold best. destruct l as [|x l]; [done|]; simpl.
  assert (∀ acc, is_Some acc → is_Some (fold_left (λ acc x, match acc with None => Some x
    | Some y => if b x y then Some x else acc end) l acc)) as H.
  { induction l as [|y l IH]; simpl; [done|]. intros acc [z ->]. apply IH. destruct (b y z); eauto. }
  intros E. destruct (H (Some x)) as [? ?]; [eauto|]. congruence.
Qed.
(** The selected row has the greatest key, when no row with a lesser key beats another. *)
Lemma best_max_by {R} (better : R → R → bool) (f : R → Z) l r
    (Hb : ∀ a b, if better a b then f b <= f a else f a <= f b) :
  best better l = Some r → ∀ s, s ∈ l → f s <= f r.
Proof.
  unfold best. assert (∀ acc, fold_left (λ acc x, match acc with None => Some x
    | Some y => if better x y then Some x else acc end) l acc = Some r →
    (∀ y, acc = Some y → f y <= f r) ∧ ∀ s, s ∈ l → f s <= f r) as H; [|by intros [_ ?]%H].
  induction l as [|x l IH]; simpl.
  { intros acc ->. split; [by intros ? [= ->]|]. intros s Hs. inversion Hs. }
  intros acc [Ha Hl]%IH. split.
  - intros y ->. specialize (Hb x y). destruct (better x y) eqn:E; specialize (Ha _ eq_refl); lia.
  - intros s [->|?]%elem_of_cons; [|auto]. destruct acc as [y|]; [|auto].
    specialize (Hb x y). destruct (better x y) eqn:E; specialize (Ha _ eq_refl); lia.
Qed.
Lemma best_max {R} (f : R → Z) l r :
  best (λ a b, f b <? f a) l = Some r → ∀ s, s ∈ l → f s <= f r.
Proof. apply best_max_by. intros a b. destruct (f b <? f a) eqn:E; lia. Qed.
Lemma max_of_ge {R} (f : R → Z) l m r : max_of f l = Some m → r ∈ l → f r <= m.
Proof.
  unfold max_of. assert (∀ acc, fold_left (λ acc x, match acc with None => Some (f x)
    | Some y => Some (Z.max y (f x)) end) l acc = Some m →
    (∀ y, acc = Some y → y <= m) ∧ ∀ s, s ∈ l → f s <= m) as H; [|intros ?%H; naive_solver].
  induction l as [|x l IH]; simpl.
  { intros acc ->. split; [by intros ? [= ->]|]. intros s Hs. inversion Hs. }
  intros acc [Ha Hl]%IH. split.
  - intros y ->. specialize (Ha _ eq_refl). lia.
  - intros s [->|?]%elem_of_cons; [|auto]. destruct acc as [y|]; specialize (Ha _ eq_refl); lia.
Qed.
Lemma max_of_None {R} (f : R → Z) l : max_of f l = None → l = [].
Proof.
  unfold max_of. destruct l as [|x l]; [done|]; simpl.
  assert (∀ acc, is_Some acc → is_Some (fold_left (λ acc x, match acc with None => Some (f x)
    | Some y => Some (Z.max y (f x)) end) l acc)) as H.
  { induction l as [|y l IH]; simpl; [done|]. intros acc [z ->]. apply IH. eauto. }
  intros E. destruct (H (Some (f x))) as [? ?]; [eauto|]. congruence.
Qed.

Lemma insert_by_perm {R} (k : R → list Z) r l : insert_by k r l ≡ₚ r :: l.
Proof. induction l as [|s l IH]; simpl; [done|]. destruct (key_le _ _); [done|]. rewrite IH. constructor. Qed.
Lemma order_by_perm {R} (k : R → list Z) l : order_by k l ≡ₚ l.
Proof. induction l as [|r l IH]; simpl; [done|]. by rewrite insert_by_perm, IH. Qed.
Lemma elem_of_order_by {R} (k : R → list Z) l r : r ∈ order_by k l ↔ r ∈ l.
Proof. by rewrite order_by_perm. Qed.

Lemma elem_of_ordered {R} (P : R → bool) k n l r :
  r ∈ take n (order_by k (List.filter P l)) → r ∈ l ∧ P r = true.
Proof.
  intros Hr%(subseteq_take n). by apply elem_of_order_by, elem_of_filter_rows in Hr.
Qed.
Lemma head_elem {R} (l : list R) r : head l = Some r → r ∈ l.
Proof. destruct l; [done|]. intros [= ->]. apply list_elem_of_here. Qed.

Lemma sublist_filter_rows {R} (P : R → bool) (l : list R) : List.filter P l `sublist_of` l.
Proof. induction l as [|r l IH]; simpl; [constructor|]. destruct (P r); by constructor. Qed.
Lemma NoDup_filtered {R A} (f : R → A) (P : R → bool) n l :
  NoDup (map f l) → NoDup (map f (take n (List.filter P l))).
Proof.
  intros H. eapply sublist_NoDup; [exact H|]. apply (fmap_sublist f).
  etrans; [apply sublist_take|apply sublist_filter_rows].
Qed.

Lemma filter_at_most_one {A} (P : A → bool) l :
  NoDup l → (∀ x y, x ∈ l → y ∈ l → P x = true → P y = true → x = y) →
  List.filter P l = [] ∨ ∃ x, List.filter P l = [x].
Proof.
  induction l as [|x l IH]; intros Hn Hu; [by left|]. simpl.
  apply NoDup_cons in Hn as [Hx Hn].
  destruct IH as [E|[y E]]; [done|intros; apply Hu; try done; by right| |].
  - destruct (P x); rewrite E; eauto.
  - destruct (P x) eqn:EP; [|rewrite E; eauto].
    assert (y ∈ l ∧ P y = true) as [? ?] by (apply elem_of_filter_rows; rewrite E; apply list_elem_of_here).
    destruct Hx. rewrite (Hu x y); [done|apply list_elem_of_here|by right|done|done].
Qed.

Section TableLemmas.
Context {R : Type} `{TableLaws R}.
Implicit Types l : list R.

Lemma tbl_wf_id l r s : tbl_wf l → r ∈ l → s ∈ l → row_id r = row_id s → r = s.
Proof.
  intros [_ Hc] [i Hi]%list_elem_of_lookup [j Hj]%list_elem_of_lookup E.
  destruct (decide (i = j)) as [->|Hne]; [by simplify_eq|].
  specialize (Hc i j r s Hi Hj Hne). by rewrite row_clash_id in Hc.
Qed.
Lemma tbl_wf_clash l r s : tbl_wf l → r ∈ l → s ∈ l → row_clash r s = true → r = s.
Proof.
  intros [_ Hc] [i Hi]%list_elem_of_lookup [j Hj]%list_elem_of_lookup E.
  destruct (decide (i = j)) as [->|Hne]; [by simplify_eq|].
  by rewrite (Hc i j r s Hi Hj Hne) in E.
Qed.
Lemma tbl_wf_NoDup l : tbl_wf l → NoDup (map row_id l).
Proof.
  intros [_ Hc]. apply NoDup_alt. intros i j u Hi Hj.
  rewrite list_lookup_fmap in Hi, Hj.
  destruct (l !! i) as [r|] eqn:Ei, (l !! j) as [s|] eqn:Ej; simplify_eq/=.
  destruct (decide (i = j)) as [|Hne]; [done|].
  pose proof (Hc i j r s Ei Ej Hne) as Hf. by rewrite row_clash_id in Hf.
Qed.
Lemma tbl_wf_check l r : tbl_wf l → r ∈ l → row_check r = true.
Proof. intros [Hc _]. apply Hc. Qed.
Lemma tbl_wf_nil : tbl_wf (@nil R).
Proof. split; [intros r Hr; inversion Hr|intros i j r s Hi; by rewrite lookup_nil in Hi]. Qed.

Lemma admissible_inv d l r :
  admissible d l r = true ↔
    row_check r = true ∧ row_fk d r = true ∧ ∀ s, s ∈ l → row_clash r s = false.
Proof.
  unfold admissible. rewrite !andb_true_iff, forallb_forall.
  split; [intros [[? ?] Hs]|intros (? & ? & Hs)]; split_and!; try done; intros s Hin.
  - apply negb_true_iff, Hs. by apply list_elem_of_In.
  - apply negb_true_iff, Hs. by apply list_elem_of_In.
Qed.

Lemma tbl_wf_app d l r : tbl_wf l → admissible d l r = true → tbl_wf (l ++ [r]).
Proof.
  intros [Hk Hc] (Hr & _ & Hs)%admissible_inv. split.
  - intros s [?|Hx]%elem_of_app; [auto|]. apply list_elem_of_singleton in Hx as ->. done.
  - intros i j a b Hi Hj Hne.
    apply lookup_app_Some in Hi as [Hi|[Hi1 Hi]]; apply lookup_app_Some in Hj as [Hj|[Hj1 Hj]].
    + eauto.
    + apply list_lookup_singleton_Some in Hj as [? <-]. rewrite row_clash_sym. apply Hs.
      by eapply list_elem_of_lookup_2.
    + apply list_lookup_singleton_Some in Hi as [? <-]. apply Hs. by eapply list_elem_of_lookup_2.
    + apply list_lookup_singleton_Some in Hi as [? <-], Hj as [? <-]. lia.
Qed.

Lemma elem_of_others u l s : s ∈ others u l ↔ s ∈ l ∧ row_id s ≠ u.
Proof.
  unfold others. rewrite elem_of_filter_rows, negb_true_iff, bool_decide_eq_false. done.
Qed.
Lemma elem_of_replace r l s :
  s ∈ replace_row r l ↔
    (s ∈ l ∧ row_id s ≠ row_id r) ∨ (s = r ∧ ∃ o, o ∈ l ∧ row_id o = row_id r).
Proof.
  unfold replace_row. rewrite list_elem_of_fmap. split.
  - intros (o & -> & Ho). case_bool_decide; eauto.
  - intros [[? ?]|[-> (o & ? & E)]].
    + exists s. by rewrite bool_decide_false.
    + exists o. by rewrite bool_decide_true.
Qed.
Lemma tbl_wf_replace d l r :
  tbl_wf l → admissible d (others (row_id r) l) r = true → tbl_wf (replace_row r l).
Proof.
  intros Hwf (Hr & _ & Hs)%admissible_inv. pose proof Hwf as [Hk Hc]. split.
  - intros s [[? _]|[-> _]]%elem_of_replace; auto.
  - intros i j a b Hi Hj Hne. unfold replace_row in Hi, Hj.
    rewrite list_lookup_fmap in Hi, Hj.
    destruct (l !! i) as [x|] eqn:Ei, (l !! j) as [y|] eqn:Ej; simplify_eq/=.
    assert (x ∈ l) by by eapply list_elem_of_lookup_2.
    assert (y ∈ l) by by eapply list_elem_of_lookup_2.
    assert (row_id x ≠ row_id y) as Hxy.
    { intros E. pose proof (Hc i j x y Ei Ej Hne) as Hf. by rewrite row_clash_id in Hf. }
    case_bool_decide; case_bool_decide.
    + congruence.
    + apply Hs, elem_of_others. split; congruence.
    + rewrite row_clash_sym. apply Hs, elem_of_others. split; congruence.
    + by apply (Hc i j).
Qed.
Lemma tbl_wf_filter l P : tbl_wf l → tbl_wf (List.filter P l).
Proof.
  intros [Hk Hc]. split; [intros r [? _]%elem_of_filter_rows; auto|]. clear Hk.
  induction l as [|x l IH]; simpl; [by intros i j r s Hi; rewrite lookup_nil in Hi|].
  assert (∀ i j r s, List.filter P l !! i = Some r → List.filter P l !! j = Some s → i ≠ j →
    row_clash r s = false) as IH'.
  { apply IH. intros i j r s Hi Hj Hne. apply (Hc (S i) (S j)); simpl; auto. }
  destruct (P x); [|done].
  assert (∀ j s, List.filter P l !! j = Some s → row_clash x s = false) as Hx.
  { intros j s Hj. apply list_elem_of_lookup_2, elem_of_filter_rows in Hj as [[k Hk]%list_elem_of_lookup _].
    by apply (Hc 0%nat (S k)). }
  intros [|i] [|j] r s Hi Hj Hne; simpl in Hi, Hj.
  - done.
  - injection Hi as <-. by apply (Hx j).
  - injection Hj as <-. rewrite row_clash_sym. by apply (Hx i).
  - apply (IH' i j); [done..|congruence].
Qed.

(** *** What the operations did when they returned *)

Lemma scalar_Ok P w (o : option R) w' :
  scalar P w = (Ok o, w') ↔ find_row P (tbl (World.db w)) = o ∧ w' = w.
Proof. unfold scalar. naive_solver. Qed.
Lemma scalars_Ok P w (o : list R) w' :
  scalars P w = (Ok o, w') ↔ List.filter P (tbl (World.db w)) = o ∧ w' = w.
Proof. unfold scalars. naive_solver. Qed.
Lemma scalar_best_Ok b P w (o : option R) w' :
  scalar_best b P w = (Ok o, w') ↔ best b (List.filter P (tbl (World.db w))) = o ∧ w' = w.
Proof. unfold scalar_best. naive_solver. Qed.
Lemma scalars_ordered_Ok k n P w (o : list R) w' :
  scalars_ordered k n P w = (Ok o, w') ↔
    take n (order_by k (List.filter P (tbl (World.db w)))) = o ∧ w' = w.
Proof. unfold scalars_ordered. naive_solver. Qed.
Lemma scalar_max_Ok (f : R → Z) P w o w' :
  scalar_max f P w = (Ok o, w') ↔ max_of f (List.filter P (tbl (World.db w))) = o ∧ w' = w.
Proof. unfold scalar_max. naive_solver. Qed.
Lemma add_Ok (r : R) w u w' :
  add r w = (Ok u, w') ↔
    admissible (World.db w) (tbl (World.db w)) r = true ∧
    w' = set_rows (tbl (World.db w) ++ [r]) w.
Proof. unfold add. destruct (admissible _ _ _), u; naive_solver. Qed.
Lemma save_Ok (r : R) w u w' :
  save r w = (Ok u, w') ↔
    (∃ old, find_row (λ s, row_id s == row_id r) (tbl (World.db w)) = Some old ∧
            before_update old r = None) ∧
    admissible (World.db w) (others (row_id r) (tbl (World.db w))) r = true ∧
    w' = set_rows (replace_row r (tbl (World.db w))) w.
Proof.
  unfold save. destruct (find_row _ _) as [old|]; [|naive_solver].
  destruct (before_update old r) eqn:?; [naive_solver|].
  destruct (admissible _ _ _), u; naive_solver.
Qed.
(** The row a session object was loaded from is the one [save] overwrites. *)
Lemma save_Ok_from (o r : R) w u w' :
  db_wf (World.db w) → o ∈ tbl (World.db w) → row_id r = row_id o →
  save r w = (Ok u, w') →
    before_update o r = None ∧
    admissible (World.db w) (others (row_id r) (tbl (World.db w))) r = true ∧
    w' = set_rows (replace_row r (tbl (World.db w))) w.
Proof.
  intros Hwf Ho Hid [(old & Hf & Hb) [? ?]]%save_Ok.
  apply find_row_Some in Hf as [Hin Hold%bool_decide_eq_true].
  assert (old = o) as ->; [|done]. apply (tbl_wf_id (tbl (World.db w))); [|done..|congruence].
  by apply db_wf_tbl.
Qed.
End TableLemmas.

Lemma now_utc_Ok w t w' :
  now_utc w = (Ok t, w') ↔ t = World.clock w (World.ticks w) ∧ w' = w <| World.ticks := S (World.ticks w) |>.
Proof. unfold now_utc. naive_solver. Qed.
Lemma uuid4_Ok w t w' :
  uuid4 w = (Ok t, w') ↔
    t = World.uuids w (World.draws w) mod UUID_BOUND ∧ w' = w <| World.draws := S (World.draws w) |>.
Proof. unfold uuid4. naive_solver. Qed.
Lemma lift_Ok {A} (r : result A) (w : World.t) a w' : lift r w = (Ok a, w') ↔ r = Ok a ∧ w' = w.
Proof. simpl. naive_solver. Qed.

(** ** Relations between databases *)

Section OnDb.
Context (Rel : relation Db.t) `{!PreOrder Rel}.

Definition on_db : relation World.t := λ w w', Rel (World.db w) (World.db w').

#[export] Instance on_db_preorder : PreOrder on_db.
Proof. split; [intros w; unfold on_db; reflexivity|intros x y z ??; unfold on_db in *; by etrans]. Qed.

Lemma respects_now : respects on_db now_utc.
Proof. intros w. unfold on_db. simpl. reflexivity. Qed.
Lemma respects_uuid4 : respects on_db uuid4.
Proof. intros w. unfold on_db. simpl. reflexivity. Qed.
Lemma respects_token_bytes n : respects on_db (token_bytes n).
Proof. intros w. unfold on_db. simpl. reflexivity. Qed.

Context {R : Type} `{Table R}.
Lemma respects_rows : respects on_db (rows (R:=R)).
Proof. intros w. unfold on_db. simpl. reflexivity. Qed.
Lemma respects_scalar (P : R → bool) : respects on_db (scalar P).
Proof. intros w. unfold on_db. simpl. reflexivity. Qed.
Lemma respects_get u : respects on_db (get (R:=R) u).
Proof. intros w. unfold on_db. simpl. reflexivity. Qed.
Lemma respects_scalars (P : R → bool) : respects on_db (scalars P).
Proof. intros w. unfold on_db. simpl. reflexivity. Qed.
Lemma respects_scalar_best b (P : R → bool) : respects on_db (scalar_best b P).
Proof. intros w. unfold on_db. simpl. reflexivity. Qed.
Lemma respects_scalars_ordered k n (P : R → bool) : respects on_db (scalars_ordered k n P).
Proof. intros w. unfold on_db. simpl. reflexivity. Qed.
Lemma respects_scalar_max f (P : R → bool) : respects on_db (scalar_max f P).
Proof. intros w. unfold on_db. simpl. reflexivity. Qed.
(** What a transaction must establish: only the runs that commit count. *)
Lemma respects_atomically {A} (m : M A) :
  (∀ w a w', m w = (Ok a, w') → Rel (World.db w) (World.db w')) →
  respects on_db (atomically m).
Proof.
  intros Hm w. unfold on_db, atomically. destruct (m w) as [[a|e] w'] eqn:E; simpl; [by eapply Hm|].
  reflexivity.
Qed.
Lemma respects_atomically' {A} (m : M A) : respects on_db m → respects on_db (atomically m).
Proof. intros Hm. apply respects_atomically. intros w a w' E. specialize (Hm w). by rewrite E in Hm. Qed.
Lemma respects_add (r : R) :
  (∀ d, admissible d (tbl d) r = true → Rel d (set_tbl (tbl d ++ [r])%list d)) →
  respects on_db (add r).
Proof.
  intros Hr w. unfold on_db, add. destruct (admissible _ _ _) eqn:E; simpl; [by apply Hr|reflexivity].
Qed.
Lemma respects_save (r : R) :
  (∀ d old, old ∈ tbl d → row_id old = row_id r → before_update old r = None →
     admissible d (others (row_id r) (tbl d)) r = true → Rel d (set_tbl (replace_row r (tbl d)) d)) →
  respects on_db (save r).
Proof.
  intros Hr w. unfold on_db, save. destruct (find_row _ _) as [old|] eqn:F; [|simpl; reflexivity].
  apply find_row_Some in F as [Hin Hid%bool_decide_eq_true].
  destruct (before_update old r) eqn:?; [simpl; reflexivity|].
  destruct (admissible _ _ _) eqn:E; simpl; [by eapply Hr|reflexivity].
Qed.
End OnDb.
#[export] Hint Resolve respects_now respects_uuid4 respects_token_bytes respects_rows
  respects_scalar respects_get respects_scalars respects_scalar_best respects_scalars_ordered
  respects_scalar_max : respects.
#[export] Hint Resolve respects_atomically' | 10 : respects.

(** Through whole transactions, leaving the writes that the hints do not know. *)
Ltac respects_tx :=
  repeat first
    [ respects_step | progress cbv zeta
    | lazymatch goal with |- respects _ (atomically _) => idtac end;
      apply respects_atomically'; [apply _|]
    | lazymatch goal with
      | |- respects _ (scalar _) => notypeclasses refine (respects_scalar _ _); apply _
      | |- respects _ (scalars _) => notypeclasses refine (respects_scalars _ _); apply _
      | |- respects _ (get _) => notypeclasses refine (respects_get _ _); apply _
      | |- respects _ (scalar_best _ _) => notypeclasses refine (respects_scalar_best _ _ _); apply _
      | |- respects _ (scalar_max _ _) => notypeclasses refine (respects_scalar_max _ _ _); apply _
      | |- respects _ now_utc => notypeclasses refine (respects_now _); apply _
      | |- respects _ uuid4 => notypeclasses refine (respects_uuid4 _); apply _
      end
    | solve [eauto with respects] ].

(** ** Constraints are never violated *)

Definition wf_step : relation Db.t := λ d d', db_wf d → db_wf d'.
#[global] Instance wf_step_preorder : PreOrder wf_step.
Proof. split; [by intros d ?|intros x y z ???; auto]. Qed.

Section WfOps.
Context {R : Type} `{TableLaws R}.
Lemma respects_wf_add (r : R) : respects (on_db wf_step) (add r).
Proof.
  apply respects_add; [apply _|]. intros d Hadm Hwf. apply db_wf_set; [done|].
  eapply tbl_wf_app; [by apply db_wf_tbl|done].
Qed.
Lemma respects_wf_save (r : R) : respects (on_db wf_step) (save r).
Proof.
  apply respects_save; [apply _|]. intros d old _ _ _ Hadm Hwf. apply db_wf_set; [done|].
  eapply tbl_wf_replace; [by apply db_wf_tbl|done].
Qed.
Lemma respects_wf_delete (P : R → bool) : respects (on_db wf_step) (delete_where P).
Proof. intros w Hwf. simpl. apply db_wf_set; [done|]. by apply tbl_wf_filter, db_wf_tbl. Qed.
End WfOps.
#[export] Hint Extern 1 (respects (on_db wf_step) (add _)) => apply respects_wf_add : respects.
#[export] Hint Extern 1 (respects (on_db wf_step) (save _)) => apply respects_wf_save : respects.
#[export] Hint Extern 1 (respects (on_db wf_step) (delete_where _)) => apply respects_wf_delete : respects.
