(* ===== verification/Exec.v ===== *)
(** * Symbolic execution of transactions

    [commits m Q w]: when [m], started in [w], returns, [Q] holds of its result and of the
    final environment.  Transactions that raise are rolled back, so this is what a proof
    about a transaction must follow.  [exec] runs the monad and the session operations. *)
From S2P Require Import Prelude PyStr Domain Ports Db Session.

Open Scope Z_scope.

Definition commits {A} (m : M A) (Q : A → World.t → Prop) (w : World.t) : Prop :=
  ∀ a w', m w = (Ok a, w') → Q a w'.

Section Commits.
Lemma commits_mono {A} (m : M A) (Q Q' : A → World.t → Prop) w :
  commits m Q w → (∀ a w', Q a w' → Q' a w') → commits m Q' w.
Proof. unfold commits. eauto. Qed.
Lemma commits_bind {A B} (m : M A) (f : A → M B) Q w :
  commits m (λ a w', commits (f a) Q w') w → commits (bind m f) Q w.
Proof. intros H b w' (a & w1 & E & F)%bind_Ok_inv. by eapply H. Qed.
Lemma commits_ret {A} (a : A) (Q : A → World.t → Prop) w : Q a w → commits (ret a) Q w.
Proof. by intros H ? ? [= <- <-]. Qed.
Lemma commits_raise {A} e (Q : A → World.t → Prop) w : commits (raise e) Q w.
Proof. by intros ? ?. Qed.
Lemma commits_lift {A} (r : result A) (Q : A → World.t → Prop) w :
  (∀ a, r = Ok a → Q a w) → commits (lift r) Q w.
Proof. intros H a w' [= E <-]. by apply H. Qed.
Lemma commits_raise_if c e (Q : unit → World.t → Prop) w : (c = false → Q tt w) → commits (raise_if c e) Q w.
Proof. intros H. destruct c; intros a w'; [done|]. intros [= <- <-]. auto. Qed.
Lemma commits_when c m (Q : unit → World.t → Prop) w :
  (c = true → commits m Q w) → (c = false → Q tt w) → commits (when c m) Q w.
Proof. intros H1 H2. destruct c; [by apply H1|]. intros a w' [= <- <-]. auto. Qed.
Lemma commits_now (Q : Z → World.t → Prop) w :
  (∀ t w', World.db w' = World.db w → Q t w') → commits now_utc Q w.
Proof. intros H a w' [= <- <-]. by apply H. Qed.
Lemma commits_uuid4 (Q : Z → World.t → Prop) w :
  (∀ u w', 0 <= u < UUID_BOUND → World.db w' = World.db w → Q u w') → commits uuid4 Q w.
Proof. intros H a w' [= <- <-]. apply H; [|done]. apply Z.mod_pos_bound. unfold UUID_BOUND. lia. Qed.
Lemma commits_token_bytes n (Q : bytes → World.t → Prop) w :
  (∀ b w', List.length b = n → World.db w' = World.db w → Q b w') → commits (token_bytes n) Q w.
Proof. intros H a w' [= <- <-]. apply H; [|done]. by rewrite length_map, length_seq. Qed.
Lemma commits_try {A} (m : M A) h (Q : A → World.t → Prop) w :
  commits m Q w → (∀ e k w', m w = (Raise e, w') → h e = Some k → commits k Q w') →
  commits (try_except m h) Q w.
Proof.
  intros H1 H2 a w'. unfold try_except. destruct (m w) as [[x|e] w1] eqn:E.
  - intros [= <- <-]. by apply H1.
  - destruct (h e) eqn:Eh; [|done]. by eapply H2.
Qed.
Lemma commits_atomically {A} (m : M A) (Q : A → World.t → Prop) w :
  commits m Q w → commits (atomically m) Q w.
Proof.
  intros H a w'. unfold atomically. destruct (m w) as [[x|e] w1] eqn:E; [|done].
  intros [= <- <-]. by apply H.
Qed.

Section Table.
Context {R : Type} `{Table R}.
Lemma commits_rows (Q : list R → World.t → Prop) w : Q (tbl (World.db w)) w → commits rows Q w.
Proof. by intros HQ a w' [= <- <-]. Qed.
Lemma commits_scalar (P : R → bool) (Q : option R → World.t → Prop) w :
  (∀ o, find_row P (tbl (World.db w)) = o → Q o w) → commits (scalar P) Q w.
Proof. intros HQ a w' [= <- <-]. by apply HQ. Qed.
Lemma commits_get u (Q : option R → World.t → Prop) w :
  (∀ o, find_row (λ r, row_id r == u) (tbl (World.db w)) = o → Q o w) → commits (get u) Q w.
Proof. apply commits_scalar. Qed.
Lemma commits_scalars (P : R → bool) (Q : list R → World.t → Prop) w :
  (∀ o, List.filter P (tbl (World.db w)) = o → Q o w) → commits (scalars P) Q w.
Proof. intros HQ a w' [= <- <-]. by apply HQ. Qed.
Lemma commits_best b (P : R → bool) (Q : option R → World.t → Prop) w :
  (∀ o, best b (List.filter P (tbl (World.db w))) = o → Q o w) → commits (scalar_best b P) Q w.
Proof. intros HQ a w' [= <- <-]. by apply HQ. Qed.
Lemma commits_ordered k n (P : R → bool) (Q : list R → World.t → Prop) w :
  (∀ o, take n (order_by k (List.filter P (tbl (World.db w)))) = o → Q o w) →
  commits (scalars_ordered k n P) Q w.
Proof. intros HQ a w' [= <- <-]. by apply HQ. Qed.
Lemma commits_max (f : R → Z) (P : R → bool) (Q : option Z → World.t → Prop) w :
  (∀ o, max_of f (List.filter P (tbl (World.db w))) = o → Q o w) → commits (scalar_max f P) Q w.
Proof. intros HQ a w' [= <- <-]. by apply HQ. Qed.
Lemma commits_add (r : R) (Q : unit → World.t → Prop) w :
  (admissible (World.db w) (tbl (World.db w)) r = true →
   ∀ w', World.db w' = set_tbl (tbl (World.db w) ++ [r])%list (World.db w) → Q tt w') →
  commits (add r) Q w.
Proof.
  intros HQ a w'. unfold add. destruct (admissible _ _ _) eqn:E; [|done].
  intros [= <- <-]. by apply HQ.
Qed.
Lemma commits_save (r : R) (Q : unit → World.t → Prop) w :
  (∀ old, find_row (λ s, row_id s == row_id r) (tbl (World.db w)) = Some old →
    before_update old r = None →
    admissible (World.db w) (others (row_id r) (tbl (World.db w))) r = true →
    ∀ w', World.db w' = set_tbl (replace_row r (tbl (World.db w))) (World.db w) → Q tt w') →
  commits (save r) Q w.
Proof.
  intros HQ a w'. unfold save. destruct (find_row _ _) as [old|] eqn:F; [|done].
  destruct (before_update old r) eqn:B; [done|]. destruct (admissible _ _ _) eqn:E; [|done].
  intros [= <- <-]. by eapply HQ.
Qed.
End Table.

(** The operations a proof does not look into. *)
Lemma commits_respects {A} (Rel : relation World.t) (m : M A) (Q : A → World.t → Prop) w :
  respects Rel m → (∀ a w', Rel w w' → Q a w') → commits m Q w.
Proof. intros Hm HQ a w' E. apply HQ. specialize (Hm w). by rewrite E in Hm. Qed.
Lemma respects_atomically_commits {A} (Rel : relation Db.t) `{!PreOrder Rel} (m : M A) :
  (∀ w, commits m (λ _ w', Rel (World.db w) (World.db w')) w) → respects (on_db Rel) (atomically m).
Proof. intros H. apply respects_atomically; [done|]. intros w a w' E. by eapply H. Qed.
End Commits.

(** One step; stops at a [match] on data and at calls it does not know. *)
Ltac exec_step :=
  lazymatch goal with
  | |- commits (bind _ _) _ _ => apply commits_bind
  | |- commits (ret _) _ _ => apply commits_ret
  | |- commits (raise _) _ _ => apply commits_raise
  | |- commits (lift _) _ _ => let E := fresh "E" in apply commits_lift; intros ? E
  | |- commits (raise_if _ _) _ _ => let C := fresh "C" in apply commits_raise_if; intros C
  | |- commits now_utc _ _ => let D := fresh "D" in apply commits_now; intros ? ? D
  | |- commits uuid4 _ _ => let D := fresh "D" in apply commits_uuid4; intros ? ? ? D
  | |- commits (token_bytes _) _ _ => let D := fresh "D" in apply commits_token_bytes; intros ? ? ? D
  | |- commits rows _ _ => apply commits_rows
  | |- commits (scalar _) _ _ => let F := fresh "F" in apply commits_scalar; intros ? F
  | |- commits (get _) _ _ => let F := fresh "F" in apply commits_get; intros ? F
  | |- commits (scalars _) _ _ => let F := fresh "F" in apply commits_scalars; intros ? F
  | |- commits (scalar_best _ _) _ _ => let F := fresh "F" in apply commits_best; intros ? F
  | |- commits (scalars_ordered _ _ _) _ _ => let F := fresh "F" in apply commits_ordered; intros ? F
  | |- commits (scalar_max _ _) _ _ => let F := fresh "F" in apply commits_max; intros ? F
  | |- commits (add _) _ _ => let A := fresh "A" in let D := fresh "D" in
      apply commits_add; intros A ? D
  | |- commits (save _) _ _ => let F := fresh "F" in let B := fresh "B" in let A := fresh "A" in
      let D := fresh "D" in apply commits_save; intros ? F B A ? D
  | |- commits (atomically _) _ _ => apply commits_atomically
  end; cbv beta.
Ltac exec := repeat (exec_step; cbv beta).
(** One case of a [match] on data. *)
Ltac exec_case :=
  lazymatch goal with
  | |- commits (match ?x with _ => _ end) _ _ => let B := fresh "B" in destruct x eqn:B
  | |- commits (let '_ := ?x in _) _ _ => let B := fresh "B" in destruct x eqn:B
  end.
(** Follows the branches of [match] and [if] as well, closing the ones that raise. *)
Ltac exec_all :=
  repeat first
    [ exec_step
    | progress cbv zeta
    | exec_case
    | lazymatch goal with |- commits (when _ _) _ _ => apply commits_when; intros ? end ]; cbv beta.

(** A run in which everything but the committed case is trivial. *)
Lemma atomically_Ok {A} (m : M A) w a w' : atomically m w = (Ok a, w') ↔ m w = (Ok a, w').
Proof. unfold atomically. destruct (m w) as [[]]; naive_solver. Qed.
Lemma atomically_Raise {A} (m : M A) w e w' :
  atomically m w = (Raise e, w') → World.db w' = World.db w.
Proof. unfold atomically. destruct (m w) as [[]]; naive_solver. Qed.

(** The rest of a transaction, when it is known to respect the relation. *)
Lemma commits_trans {A} (Rel : relation Db.t) `{!PreOrder Rel} (m : M A) w0 w :
  Rel (World.db w0) (World.db w) → respects (on_db Rel) m →
  commits m (λ _ w', Rel (World.db w0) (World.db w')) w.
Proof. intros H0 Hm. eapply commits_respects; [done|]. intros a w' H1. cbv beta. by etrans. Qed.
Ltac by_rest := eapply commits_trans; [apply _| |respects_solve].

(** A call whose effect a lemma describes. *)
Tactic Notation "call" uconstr(L) := eapply commits_mono; [eapply L | intros; cbv beta in *].
Tactic Notation "call" uconstr(L) "as" simple_intropattern(a) simple_intropattern(H) :=
  eapply commits_mono; [eapply L | intros a ? H; cbv beta iota zeta].

(** A call that is only known to respect a relation: the relation becomes a hypothesis. *)
Tactic Notation "skip_by" uconstr(Rel) :=
  eapply (commits_respects (on_db Rel)); [respects_solve | intros ? ? ?; cbv beta in *].

(** ** From one environment

    [moves Rel m w]: the run of [m] from [w] relates the two databases, whether it returns
    or raises.  This is [respects] for the runs that need something of their start. *)
Definition moves (Rel : relation Db.t) {A} (m : M A) (w : World.t) : Prop := on_db Rel w (m w).2.

Section Moves.
Context (Rel : relation Db.t) `{!PreOrder Rel}.
Lemma moves_respects {A} (m : M A) w : respects (on_db Rel) m → moves Rel m w.
Proof. intros H. apply H. Qed.
Lemma moves_bind {A B} (m : M A) (f : A → M B) w :
  moves Rel m w → commits m (λ a w', moves Rel (f a) w') w → moves Rel (bind m f) w.
Proof.
  unfold moves, commits. intros H1 H2. unfold bind. destruct (m w) as [[a|e] w1] eqn:E; [|done].
  specialize (H2 _ _ eq_refl). simpl in H1. by etrans.
Qed.
Lemma moves_atomically {A} (m : M A) w :
  commits m (λ _ w', Rel (World.db w) (World.db w')) w → moves Rel (atomically m) w.
Proof.
  intros H. unfold moves, on_db, atomically. specialize (H) as H'. unfold commits in H'.
  destruct (m w) as [[a|e] w1] eqn:E; simpl; [by eapply H'|reflexivity].
Qed.
Lemma moves_try {A} (m : M A) h w :
  moves Rel m w →
  (∀ e k w', m w = (Raise e, w') → h e = Some k → moves Rel k w') → moves Rel (try_except m h) w.
Proof.
  unfold moves, try_except. intros H1 H2. destruct (m w) as [[a|e] w1] eqn:E; [done|].
  destruct (h e) as [k|] eqn:Eh; [|done]. specialize (H2 _ _ _ eq_refl Eh). simpl in H1. by etrans.
Qed.
Lemma moves_ret {A} (a : A) w : moves Rel (ret a) w.
Proof. unfold moves. simpl. reflexivity. Qed.
Lemma moves_raise {A} e w : moves Rel (raise (A:=A) e) w.
Proof. unfold moves. simpl. reflexivity. Qed.
End Moves.
(** A statement that does not touch the database; its result is known afterwards. *)
Ltac moves_step :=
  lazymatch goal with
  | |- moves _ (bind _ _) _ => apply moves_bind; [apply _|apply moves_respects; respects_solve|exec_step]
  | |- moves _ (match ?x with _ => _ end) _ => let B := fresh "B" in destruct x eqn:B
  | |- moves _ (ret _) _ => apply moves_ret, _
  | |- moves _ (raise _) _ => apply moves_raise, _
  | |- moves _ (atomically _) _ => apply moves_atomically; [apply _|]
  end; cbv beta.
