(* ===== verification/Evolution.v ===== *)
(** * How the rows of a table evolve

    A table whose rows go through a life cycle is described by the rows it may be given
    ([init]) and by the steps a row may take ([step]).  [table_step] says of two databases
    that the rows of the first one are still there, each some steps further, that every row
    is reachable from an initial one, and that the rows born in between satisfy [N].  Tables that only grow are described by
    [appends].  Operations on other tables respect both. *)
From S2P Require Import Prelude PyStr Domain Ports Db Session Exec.

Open Scope Z_scope.

(** Writing to the table of [R] leaves the table of [T] alone. *)
Class Keeps (T R : Type) `{Table T, Table R} :=
  keeps : ∀ d (t : list R), tbl (R:=T) (set_tbl t d) = tbl (R:=T) d.
#[export] Hint Extern 1 (Keeps _ _) => (intros ? ?; reflexivity) : typeclass_instances.

(** A relation that only looks at the table of [T]. *)
Class OnlyTable (Rel : relation Db.t) (T : Type) `{Table T} :=
  only_table : ∀ d d', tbl (R:=T) d = tbl (R:=T) d' → Rel d d'.

Section Other.
Context (Rel : relation Db.t) `{!PreOrder Rel} {T : Type} `{Table T} `{!OnlyTable Rel T}.
Context {R : Type} `{Table R} `{!Keeps T R}.

Lemma respects_add_other (r : R) : respects (on_db Rel) (add r).
Proof. apply respects_add; [done|]. intros d _. apply only_table. by rewrite keeps. Qed.
Lemma respects_save_other (r : R) : respects (on_db Rel) (save r).
Proof. apply respects_save; [done|]. intros d old _ _ _ _. apply only_table. by rewrite keeps. Qed.
Lemma respects_delete_other (P : R → bool) : respects (on_db Rel) (delete_where P).
Proof. intros w. unfold on_db. simpl. apply only_table. by rewrite keeps. Qed.
End Other.
(** [T] is the only table that the relation of the goal looks at. *)
Ltac respects_other T :=
  first [ apply (respects_add_other _ (T:=T)) | apply (respects_save_other _ (T:=T))
        | apply (respects_delete_other _ (T:=T)) ].

(** ** Tables that only grow *)

Definition appends (T : Type) `{Table T} : relation Db.t := λ d d',
  tbl (R:=T) d `prefix_of` tbl (R:=T) d'.

Section Appends.
Context {T : Type} `{Table T}.
#[export] Instance appends_preorder : PreOrder (appends T).
Proof. split; [by intros d; unfold appends|intros x y z; unfold appends; apply transitivity]. Qed.
#[export] Instance appends_only : OnlyTable (appends T) T.
Proof. intros d d' E. unfold appends. by rewrite E. Qed.
Context `{!TableLaws T}.
Lemma respects_appends_add (r : T) : respects (on_db (appends T)) (add r).
Proof.
  apply respects_add; [apply _|]. intros d _. unfold appends. rewrite tbl_set. by apply prefix_app_r.
Qed.
(** The listener of the evidence tables refuses every update. *)
Lemma respects_appends_save (r : T) :
  (∀ old new : T, ∃ e, before_update old new = Some e) → respects (on_db (appends T)) (save r).
Proof.
  intros Hb. apply respects_save; [apply _|]. intros d old _ _ Hn _.
  destruct (Hb old r) as [? E]. by rewrite E in Hn.
Qed.
End Appends.
#[export] Hint Extern 1 (respects (on_db (appends _)) (add _)) => apply respects_appends_add : respects.
#[export] Hint Extern 2 (respects (on_db (@appends ?T _)) _) => respects_other T : respects.

(** ** Tables that are not touched *)

Definition same (T : Type) `{Table T} : relation Db.t := λ d d', tbl (R:=T) d' = tbl (R:=T) d.
#[global] Instance same_preorder `{Table T} : PreOrder (same T).
Proof. split; [by intros d|intros x y z; unfold same; congruence]. Qed.
#[global] Instance same_only `{Table T} : OnlyTable (same T) T.
Proof. intros d d' E. by unfold same. Qed.
#[export] Hint Extern 2 (respects (on_db (@same ?T _)) _) => respects_other T : respects.

(** ** Tables whose rows go through a life cycle *)

Class Lifecycle (T : Type) := { init : T → Prop; step : T → T → Prop }.

Section Lifecycle.
Context {T : Type} `{TableLaws T} `{!Lifecycle T}.
Implicit Types r : T.

(** Some steps later. *)
Definition later : relation T := rtc step.
Definition reach (r : T) : Prop := ∃ r0, init r0 ∧ later r0 r.

Definition table_good (d : Db.t) : Prop :=
  tbl_wf (tbl (R:=T) d) ∧ ∀ r, r ∈ tbl d → reach r.
Definition rows_later (d d' : Db.t) : Prop :=
  ∀ r, r ∈ tbl d → ∃ r', r' ∈ tbl d' ∧ row_id r' = row_id r ∧ later r r'.
(** Every row comes from an earlier one or was born with [N]. *)
Definition rows_from (N : T → Prop) (d d' : Db.t) : Prop :=
  ∀ r', r' ∈ tbl d' →
    (∃ r, r ∈ tbl d ∧ row_id r = row_id r' ∧ later r r') ∨ (∃ r0, N r0 ∧ init r0 ∧ later r0 r').
Definition table_step (N : T → Prop) : relation Db.t := λ d d',
  table_good d → table_good d' ∧ rows_later d d' ∧ rows_from N d d'.

Context (N : T → Prop).

#[export] Instance table_step_preorder : PreOrder (table_step N).
Proof.
  split.
  - intros d Hd. split_and!; [done| |]; intros r Hr; [|left]; exists r; by split_and!.
  - intros x y z Hxy Hyz Hx. destruct (Hxy Hx) as (Hy & H1 & B1), (Hyz Hy) as (Hz & H2 & B2).
    split_and!; [done| |].
    + intros r (r' & Hr' & Hid & Hl)%H1. apply H2 in Hr' as (r'' & ? & Hid' & Hl'). exists r''.
      split_and!; [done|congruence|]. by etrans.
    + intros r [(r' & Hr' & Hid & Hl)|?]%B2; [|by right].
      apply B1 in Hr' as [(r'' & ? & Hid' & Hl')|(r0 & ? & ? & ?)].
      * left. exists r''. split_and!; [done|congruence|by etrans].
      * right. exists r0. split_and!; [done..|by etrans].
Qed.
Lemma table_step_same d d' : tbl (R:=T) d' = tbl (R:=T) d → table_step N d d'.
Proof.
  intros E Hg. unfold table_good, rows_later, rows_from. rewrite E. split_and!; [apply Hg..| |];
    intros r Hin; [|left]; exists r; by split_and!.
Qed.
#[export] Instance table_step_only : OnlyTable (table_step N) T.
Proof. intros d d' E. by apply table_step_same. Qed.

Lemma table_step_add d d' (r : T) :
  d' = set_tbl (tbl d ++ [r])%list d → admissible d (tbl d) r = true → init r → N r → table_step N d d'.
Proof.
  intros -> Ha Hi HN [Hwf Hr]. unfold table_good, rows_later, rows_from. rewrite tbl_set. split_and!.
  - by eapply tbl_wf_app.
  - intros s [?|Hs]%elem_of_app; [auto|]. apply list_elem_of_singleton in Hs as ->.
    exists r. split; [done|]. apply rtc_refl.
  - intros s Hs. exists s. split_and!; [|done|apply rtc_refl]. apply elem_of_app. by left.
  - intros s [?|Hs]%elem_of_app; [left; exists s; by split_and!|].
    apply list_elem_of_singleton in Hs as ->. right. exists r. by split_and!.
Qed.
(** The object was read as [o], which is still there when it is written back as [r]. *)
Lemma table_step_save d d' (o r : T) :
  d' = set_tbl (replace_row r (tbl d)) d → admissible d (others (row_id r) (tbl d)) r = true →
  o ∈ tbl d → row_id o = row_id r → (reach o → later o r) → table_step N d d'.
Proof.
  intros -> Ha Ho Hid Hl [Hwf Hr]. specialize (Hl (Hr o Ho)).
  unfold table_good, rows_later, rows_from. rewrite tbl_set. split_and!.
  - by eapply tbl_wf_replace.
  - intros s [[? _]|[-> _]]%elem_of_replace; [auto|].
    destruct (Hr o Ho) as (r0 & ? & ?). exists r0. split; [done|]. by etrans.
  - intros s Hs. destruct (decide (row_id s = row_id r)) as [E|E].
    + assert (s = o) as -> by (apply (tbl_wf_id (tbl d)); [done..|congruence]).
      exists r. split_and!; [|done|done]. apply elem_of_replace. eauto.
    + exists s. split_and!; [|done|apply rtc_refl]. apply elem_of_replace. eauto.
  - intros s [[? _]|[-> _]]%elem_of_replace; left.
    + exists s. by split_and!.
    + eauto.
Qed.
End Lifecycle.
#[export] Hint Extern 2 (respects (on_db (@table_step ?T _ _ _)) _) => respects_other T : respects.
Arguments table_good T {_ _} _.
Arguments rows_later T {_ _} _ _.
Arguments rows_from {T _ _} N _ _.
Arguments table_step {T _ _} N _ _.

(** An invariant of the rows that initial rows have and steps preserve. *)
Lemma reach_ind {T} `{!Lifecycle T} (P : T → Prop) :
  (∀ r, init r → P r) → (∀ r r', P r → step r r' → P r') → ∀ r, reach r → P r.
Proof. intros Hi Hs r (r0 & H0%Hi & Hl). induction Hl; eauto. Qed.
Lemma later_ind {T} `{!Lifecycle T} (P : T → T → Prop) `{!PreOrder P} :
  (∀ r r', step r r' → P r r') → ∀ r r', later r r' → P r r'.
Proof. intros Hs r r'. induction 1 as [|x y z Hxy _ IH]; [reflexivity|]. etrans; [by apply Hs|done]. Qed.
