(* ===== verification/OrderLife.v ===== *)
(** * The life of an order

    What any operation of the service may do to an order: the snapshot never changes, the
    provider references and the calendar time are set at most once, and the pair of payment
    and fulfillment states moves along [state_step]. *)
From S2P Require Import Prelude PyStr Domain Ports Db Session Exec Evolution.

Open Scope Z_scope.
Import PaymentState FulfillmentState.

Definition set_once {A} (a b : option A) : Prop := a = None ∨ b = a.

Inductive state_step : PaymentState.t * FulfillmentState.t → PaymentState.t * FulfillmentState.t → Prop :=
(** nothing changes *)
| ss_same p f : state_step (p, f) (p, f)
(** a provider event that is not a payment *)
| ss_payment p p' f : payment_step p p' → p' ≠ PAID → state_step (p, f) (p', f)
(** a payment queues the order *)
| ss_paid p : payment_step p PAID → state_step (p, AWAITING_PAYMENT) (PAID, QUEUED)
(** the workers move an order that was queued *)
| ss_fulfillment p f f' : fulfillment_step f f' → f ≠ AWAITING_PAYMENT → state_step (p, f) (p, f').

Definition states (o : Order.row) : PaymentState.t * FulfillmentState.t :=
  (Order.payment_state o, Order.fulfillment_state o).

Record order_step (o o' : Order.row) : Prop := {
  os_id : Order.id o' = Order.id o;
  os_created : Order.created_at o' = Order.created_at o;
  os_fixed : immutable_changed o o' = false;
  os_session : set_once (Order.checkout_session_id o) (Order.checkout_session_id o');
  os_intent : set_once (Order.payment_intent_id o) (Order.payment_intent_id o');
  os_calendar : set_once (Order.calendar_submitted_at o) (Order.calendar_submitted_at o');
  os_states : state_step (states o) (states o') }.

#[global] Instance Order_life : Lifecycle Order.row := {
  init o := Order.payment_state o = CHECKOUT_OPEN ∧ Order.fulfillment_state o = AWAITING_PAYMENT ∧
            Order.checkout_session_id o = None ∧ Order.payment_intent_id o = None ∧
            Order.calendar_submitted_at o = None;
  step := order_step }.

(** ** Facts about the steps *)

Lemma set_once_refl {A} (a : option A) : set_once a a.
Proof. by right. Qed.
#[export] Hint Resolve set_once_refl : core.
#[global] Instance set_once_preorder {A} : PreOrder (@set_once A).
Proof. split; [intros x; by right|]. intros x y z [->| ->] [?| ->]; subst; unfold set_once; eauto. Qed.

Lemma immutable_changed_refl o : immutable_changed o o = false.
Proof. unfold immutable_changed. by rewrite !bool_decide_true by done. Qed.
Lemma immutable_changed_false o o' :
  immutable_changed o o' = false ↔
    Order.order_reference o = Order.order_reference o' ∧
    Order.certificate_reference o = Order.certificate_reference o' ∧
    Order.manifest_digest o = Order.manifest_digest o' ∧ Order.email o = Order.email o' ∧
    Order.amount_minor o = Order.amount_minor o' ∧ Order.currency o = Order.currency o' ∧
    Order.product_version o = Order.product_version o' ∧
    Order.payment_mode o = Order.payment_mode o' ∧
    Order.consent_terms_version o = Order.consent_terms_version o' ∧
    Order.consent_privacy_version o = Order.consent_privacy_version o' ∧
    Order.consent_accepted_at o = Order.consent_accepted_at o' ∧
    Order.fulfillment_key o = Order.fulfillment_key o'.
Proof.
  unfold immutable_changed. rewrite !orb_false_iff, !negb_false_iff, !bool_decide_eq_true. tauto.
Qed.

(** The fields that no step touches. *)
Record order_fixed (o o' : Order.row) : Prop := {
  of_id : Order.id o' = Order.id o;
  of_created : Order.created_at o' = Order.created_at o;
  of_snapshot : immutable_changed o o' = false;
  of_session : set_once (Order.checkout_session_id o) (Order.checkout_session_id o');
  of_intent : set_once (Order.payment_intent_id o) (Order.payment_intent_id o');
  of_calendar : set_once (Order.calendar_submitted_at o) (Order.calendar_submitted_at o') }.
#[global] Instance order_fixed_preorder : PreOrder order_fixed.
Proof.
  split; [intros o; split; try done; apply immutable_changed_refl|].
  intros x y z [? ? I1 ? ? ?] [? ? I2 ? ? ?]. split; try congruence; try (by etrans).
  apply immutable_changed_false in I1, I2. apply immutable_changed_false.
  destruct_and!. split_and!; congruence.
Qed.
Lemma later_fixed (o o' : Order.row) : later o o' → order_fixed o o'.
Proof. apply later_ind; [apply _|]. intros r r' []. by split. Qed.

Definition states_rtc : relation Order.row := λ o o', rtc state_step (states o) (states o').
#[global] Instance states_rtc_preorder : PreOrder states_rtc.
Proof. split; [by intros x; unfold states_rtc|intros x y z; unfold states_rtc; apply transitivity]. Qed.
Lemma states_later (o o' : Order.row) : later o o' → rtc state_step (states o) (states o').
Proof. apply (later_ind states_rtc). intros r r' []. by apply rtc_once. Qed.

(** The steps of the pair are steps of the two machines. *)
Lemma states_rtc_payment s s' : rtc state_step s s' → rtc payment_step s.1 s'.1.
Proof.
  induction 1 as [|x y z H _ IH]; [done|]. etrans; [|done].
  destruct H; simpl; try done; by apply rtc_once.
Qed.
Lemma states_rtc_fulfillment s s' : rtc state_step s s' → rtc fulfillment_step s.2 s'.2.
Proof.
  induction 1 as [|x y z H _ IH]; [done|]. etrans; [|done].
  destruct H; simpl; try done; apply rtc_once; [|done]. unfold fulfillment_step. simpl. set_solver.
Qed.

(** An order that was not paid for, or that is not yet, has not been touched by a worker. *)
Definition started (o : Order.row) : Prop := Order.fulfillment_state o ≠ AWAITING_PAYMENT.

Lemma started_later (o o' : Order.row) : later o o' → started o → started o'.
Proof.
  intros Hl%states_later%states_rtc_fulfillment Hs. unfold started, states in *. simpl in *.
  apply fulfillment_rtc_rank in Hl as [<-|Hr]; [done|]. intros E. rewrite E in Hr. simpl in Hr. lia.
Qed.

(** Fulfillment starts when, and only when, the payment arrives. *)
Definition states_ok (s : PaymentState.t * FulfillmentState.t) : Prop :=
  (s.2 ≠ AWAITING_PAYMENT → was_paid s.1 = true) ∧ (s.1 = PAID → s.2 ≠ AWAITING_PAYMENT).
Lemma states_ok_step s s' : state_step s s' → states_ok s → states_ok s'.
Proof.
  unfold states_ok. intros [p f|p p' f Hp Hn|p Hp|p f f' Hf Hn] [H1 H2]; simpl in *.
  - done.
  - split; [|done]. intros Hf. eapply was_paid_step; eauto.
  - done.
  - split; [auto|]. intros _ ->. apply fulfillment_step_rank in Hf. simpl in Hf. lia.
Qed.
Lemma reach_states (o : Order.row) : reach o → states_ok (states o).
Proof.
  apply (reach_ind (λ o, states_ok (states o))).
  - intros r (E1 & E2 & _). unfold states_ok, states. simpl. rewrite E1, E2. done.
  - intros r r' ? []. by eapply states_ok_step.
Qed.
