(* ===== verification/Tasks.v ===== *)
(** * Task dispatch

    [app/tasks/dispatch.py]: deterministic task names and payloads, the [task_dispatches]
    rows that a job's generations leave, and the coordinator that hands pending rows to the
    task queue.  The queue is a [TaskCreator], a parameter of the model. *)
From S2P Require Import Prelude PyStr Json Domain Ports Db Session.

Open Scope string_scope.
Open Scope Z_scope.

Definition MIN_STALE_DISPATCH_GRACE : Z := hours 2.
Definition MAX_STALE_DISPATCH_GRACE : Z := days 30.

(** [_TASK_NAME.fullmatch]: the prefix, 32 lower-case hexadecimal digits, "-g", a digit other
    than zero and at most eight more digits. *)
Definition _TASK_NAME (name : string) : bool :=
  startswith "timestamp-" name &&
  let rest := removeprefix "timestamp-" name in
  let hex := str_take 32 rest in
  let tail := removeprefix hex rest in
  fullmatch_class is_lower_hex 32 32 hex && startswith "-g" tail &&
  match removeprefix "-g" tail with
  | EmptyString => false
  | String c digits => in_range 49 57 c && fullmatch_class is_digit 0 8 digits
  end.

Definition deterministic_task_name (job_id : uuid) (generation : Z) : result string :=
  check! raise_when (generation <? 1) (ValueError "task_generation_invalid") in
  let name := "timestamp-" ++ uuid_hex job_id ++ "-g" ++ str_int generation in
  check! raise_when (negb (_TASK_NAME name)) (ValueError "task_name_invalid") in
  Ok name.

Definition task_payload (job_id : uuid) (generation : Z) : result bytes :=
  let payload := encode (dumps_compact true
    (JObj (sort_fields [("generation", JInt generation); ("job_id", JStr (str_uuid job_id))]))) in
  let text := dumps_compact true
    (JObj (sort_fields [("generation", JInt generation); ("job_id", JStr (str_uuid job_id))])) in
  check! raise_when ((128 <? blen payload) || str_contains "@" text || str_contains "token" (lower text))
    (ValueError "task_payload_invalid") in
  Ok payload.

Definition add_task_dispatch (job : DurableJob.row) (schedule_at : datetime) (now : Z) : M TaskDispatch.row :=
  do! raise_if (is_naive schedule_at) (ValueError "task_schedule_must_be_aware") in
  let! task_name := lift (deterministic_task_name (DurableJob.id job) (DurableJob.generation job)) in
  let! id := uuid4 in
  let dispatch := {|
    TaskDispatch.id := id;
    TaskDispatch.job_id := DurableJob.id job;
    TaskDispatch.generation := DurableJob.generation job;
    TaskDispatch.task_name := task_name;
    TaskDispatch.schedule_at := dt_us schedule_at;
    TaskDispatch.state := PENDING;
    TaskDispatch.attempt_count := 0;
    TaskDispatch.dispatched_at := None;
    TaskDispatch.safe_error_code := None;
    TaskDispatch.created_at := now;
    TaskDispatch.updated_at := now |} in
  do! add dispatch in
  ret dispatch.

(** A stale job as [recover_stale_dispatched] leaves it: released, with a new generation. *)
Definition recovered_job (recovered_at : Z) (job : DurableJob.row) : DurableJob.row :=
  (if is_some (DurableJob.lease_owner job)
   then job <| DurableJob.state := JOB_AVAILABLE |>
            <| DurableJob.lease_owner := None |>
            <| DurableJob.lease_until := None |>
   else job)
  <| DurableJob.generation := DurableJob.generation job + 1 |>
  <| DurableJob.updated_at := recovered_at |>.

(** [TaskCreator.create(task_name, payload, schedule_at)] *)
Definition TaskCreator : Type := string → bytes → Z → M unit.

(** [CloudTasksCreator.create]: the client is third-party code; an [AlreadyExists] answer
    means that the deterministic name has been used, which is success. *)
Definition ALREADY_EXISTS : exn := Other "AlreadyExists".
Definition CloudTasksCreator_create (create_task : TaskCreator) : TaskCreator :=
  λ task_name payload schedule_at,
    try_except (create_task task_name payload schedule_at)
      (λ e, if e == ALREADY_EXISTS then Some (ret tt) else None).

Module ReconcileResult.
Record t := mk { selected : Z; dispatched : Z }.
End ReconcileResult.

Module TaskDispatchCoordinator.
Section Coordinator.
Context (creator : TaskCreator).

Definition this_dispatch (job_id : uuid) (generation : Z) (t : TaskDispatch.row) : bool :=
  (TaskDispatch.job_id t == job_id) && (TaskDispatch.generation t == generation).

(** [pending_query(limit, order_id)], executed *)
Definition pending_query (limit : Z) (order_id : option uuid) : M (list TaskDispatch.row) :=
  let! jobs := rows (R:=DurableJob.row) in
  scalars_ordered (λ t, [TaskDispatch.schedule_at t; TaskDispatch.created_at t]) (Z.to_nat limit)
    (λ t, (TaskDispatch.state t == PENDING) &&
          existsb (λ j, (DurableJob.id j == TaskDispatch.job_id t) &&
                        match order_id with None => true | Some o => DurableJob.order_id j == o end) jobs).

(** The transaction that records a failed creation. *)
Definition mark_failed (job_id : uuid) (generation : Z) : M unit :=
  atomically (
    let! current := scalar (this_dispatch job_id generation) in
    match current with
    | Some current =>
        when (TaskDispatch.state current == PENDING) (
          let! now := now_utc in
          save (current <| TaskDispatch.attempt_count := TaskDispatch.attempt_count current + 1 |>
                        <| TaskDispatch.safe_error_code := Some "cloud_tasks_create_failed" |>
                        <| TaskDispatch.updated_at := now |>))
    | None => ret tt
    end).

(** The transaction that records a successful creation. *)
Definition mark_dispatched (job_id : uuid) (generation : Z) : M bool :=
  atomically (
    let! current := scalar (this_dispatch job_id generation) in
    match current with
    | Some current =>
        if TaskDispatch.state current == DISPATCHED then ret false
        else
          let! now := now_utc in
          do! save (current <| TaskDispatch.state := DISPATCHED |>
                            <| TaskDispatch.attempt_count := TaskDispatch.attempt_count current + 1 |>
                            <| TaskDispatch.dispatched_at := Some now |>
                            <| TaskDispatch.safe_error_code := None |>
                            <| TaskDispatch.updated_at := now |>) in
          ret true
    | None => ret false
    end).

Definition dispatch (job_id : uuid) (generation : Z) : M bool :=
  let! record := scalar (this_dispatch job_id generation) in
  match record with
  | None => ret false
  | Some record =>
      if TaskDispatch.state record == DISPATCHED then ret false
      else
        do! try_except
              (let! payload := lift (task_payload job_id generation) in
               creator (TaskDispatch.task_name record) payload (TaskDispatch.schedule_at record))
              (λ e, if is_Exception e
                    then Some (do! mark_failed job_id generation in
                               raise (TaskDispatchUnavailable "cloud_tasks_create_failed"))
                    else None) in
        mark_dispatched job_id generation
  end.

Definition dispatch_all (selected : list (uuid * Z)) : M Z :=
  for_fold (λ n '(job_id, generation),
    let! b := dispatch job_id generation in
    ret (n + Z.b2z b)) 0 selected.

Definition reconcile (limit : Z) (order_id : option uuid) : M ReconcileResult.t :=
  do! raise_if (negb ((1 <=? limit) && (limit <=? 1000))) (ValueError "task_reconcile_limit_invalid") in
  let! pending := pending_query limit order_id in
  let selected := map (λ t, (TaskDispatch.job_id t, TaskDispatch.generation t)) pending in
  let! dispatched := dispatch_all selected in
  ret (ReconcileResult.mk (len selected) dispatched).

(** The row of the join that [recover_stale_dispatched] selects. *)
Definition stale (stale_before recovered_at : Z) (j : DurableJob.row) (t : TaskDispatch.row) : bool :=
  (TaskDispatch.job_id t == DurableJob.id j) && (TaskDispatch.generation t == DurableJob.generation j) &&
  (TaskDispatch.state t == DISPATCHED) &&
  (TaskDispatch.schedule_at t <=? stale_before) &&
  match TaskDispatch.dispatched_at t with None => false | Some at_ => at_ <=? stale_before end &&
  (DurableJob.state j is_in [JOB_AVAILABLE; JOB_RETRY; JOB_LEASED]) &&
  (DurableJob.available_at j <=? stale_before) &&
  (DurableJob.attempt_count j <? DurableJob.max_attempts j) &&
  match DurableJob.lease_until j with None => true | Some u => u <? recovered_at end.

Definition stale_query (stale_before recovered_at limit : Z)
    : M (list (DurableJob.row * TaskDispatch.row)) :=
  let! jobs := rows (R:=DurableJob.row) in
  let! dispatches := rows (R:=TaskDispatch.row) in
  let joined := List.filter (λ '(j, t), stale stale_before recovered_at j t)
                  (flat_map (λ j, map (pair j) dispatches) jobs) in
  ret (take (Z.to_nat limit)
        (order_by (λ '(j, t), [DurableJob.available_at j; default 0 (TaskDispatch.dispatched_at t)]) joined)).

(** The attempt that an expired lease left open. *)
Definition expired_attempt (job : DurableJob.row) (a : JobAttempt.row) : bool :=
  (JobAttempt.job_id a == DurableJob.id job) &&
  (JobAttempt.attempt_number a == DurableJob.attempt_count job) &&
  is_none (JobAttempt.finished_at a).
Definition close_expired (recovered_at : Z) (job : DurableJob.row) : M unit :=
  when (is_some (DurableJob.lease_owner job)) (
    let! expired_attempt := scalar (expired_attempt job) in
    match expired_attempt with
    | Some a => save (a <| JobAttempt.finished_at := Some recovered_at |>
                        <| JobAttempt.outcome := Some "retry" |>
                        <| JobAttempt.safe_error_code := Some "lease_expired_recovered" |>)
    | None => ret tt
    end).

(** The body of the loop of [recover_stale_dispatched]. *)
Definition recover_one (recovered_at : Z) (job : DurableJob.row) (old_dispatch : TaskDispatch.row)
    : M (uuid * Z) :=
  do! save (old_dispatch <| TaskDispatch.safe_error_code := Some "superseded_stale_dispatch" |>
                         <| TaskDispatch.updated_at := recovered_at |>) in
  do! close_expired recovered_at job in
  let job := recovered_job recovered_at job in
  do! save job in
  do! add_task_dispatch job (utc recovered_at) recovered_at in
  ret (DurableJob.id job, DurableJob.generation job).

(** The loop. *)
Definition recover_pairs (recovered_at : Z) (pairs : list (DurableJob.row * TaskDispatch.row))
    : M (list (uuid * Z)) :=
  for_fold (λ acc '(job, old_dispatch),
    let! r := recover_one recovered_at job old_dispatch in
    ret (acc ++ [r])%list) [] pairs.

(** The transaction of [recover_stale_dispatched]. *)
Definition recover_tx (stale_before recovered_at limit : Z) : M (list (uuid * Z)) :=
  atomically (
    let! pairs := stale_query stale_before recovered_at limit in
    recover_pairs recovered_at pairs).

Definition recover_stale_dispatched (stale_grace limit : Z) (now : option datetime) : M ReconcileResult.t :=
  do! raise_if (negb ((1 <=? limit) && (limit <=? 1000))) (ValueError "task_reconcile_limit_invalid") in
  do! raise_if (negb ((MIN_STALE_DISPATCH_GRACE <=? stale_grace) && (stale_grace <=? MAX_STALE_DISPATCH_GRACE)))
    (ValueError "task_stale_grace_invalid") in
  let! recovered_at := match now with Some n => ret n | None => let! n := now_utc in ret (utc n) end in
  do! raise_if (is_naive recovered_at) (ValueError "task_recovery_now_must_be_aware") in
  let recovered_at := dt_us recovered_at in
  let stale_before := recovered_at - stale_grace in
  let! recovered := recover_tx stale_before recovered_at limit in
  let! dispatched := dispatch_all recovered in
  ret (ReconcileResult.mk (len recovered) dispatched).
End Coordinator.
End TaskDispatchCoordinator.

(** ** Names of tasks

    Every job and generation of the service has a task name, no two have the same, and the
    name of a generation is at most 53 characters of the alphabet of the task queue. *)
From S2P Require Import Prelude PyStr Digits Uuid Domain Ports Db Session.

Open Scope string_scope.
Open Scope Z_scope.

(** ** Names *)

Definition task_name (job_id : uuid) (generation : Z) : string :=
  "timestamp-" ++ uuid_hex job_id ++ "-g" ++ str_int generation.

Lemma str_take_uuid u t : str_take 32 (uuid_hex u ++ t)%string = uuid_hex u.
Proof. rewrite <- (length_uuid_hex u). apply str_take_app. Qed.

(** every generation from 1 to 999999999 of a job has its task name; the others are refused. *)
Theorem deterministic_task_name_spec job_id generation :
  deterministic_task_name job_id generation =
    if generation <? 1 then Raise (ValueError "task_generation_invalid")
    else if generation <=? 999999999 then Ok (task_name job_id generation)
    else Raise (ValueError "task_name_invalid").
Proof.
  unfold deterministic_task_name. destruct (Z.ltb_spec generation 1) as [|Hg]; [done|]. cbn [raise_when result_bind].
  fold (task_name job_id generation).
  assert (_TASK_NAME (task_name job_id generation) = (generation <=? 999999999)) as ->;
    [|destruct (generation <=? 999999999); reflexivity].
  unfold _TASK_NAME, task_name. rewrite startswith_app, removeprefix_app.
  rewrite str_take_uuid, removeprefix_app.
  destruct (str_int_short generation) as (c & s & E & Hc & Hs); [lia|].
  rewrite startswith_app, removeprefix_app, E, Hc, Hs.
  unfold fullmatch_class. by rewrite uuid_hex_lower, length_uuid_hex.
Qed.

Lemma app_inj_length s s' t t' : String.length s = String.length s' → (s ++ t = s' ++ t')%string → s = s' ∧ t = t'.
Proof.
  revert s'. induction s as [|c s IH]; intros [|c' s'] Hl H; try done.
  injection Hl as Hl. rewrite !string_app_cons in H. injection H as -> H. by destruct (IH s' Hl H) as [-> ->].
Qed.
(** A task name identifies the job and the generation it was made for, so the queue, which
    accepts a name once, accepts every generation of every job once. *)
Theorem task_name_identifies job_id job_id' generation generation' name
    (made : deterministic_task_name job_id generation = Ok name)
    (made' : deterministic_task_name job_id' generation' = Ok name)
    (range : 0 <= job_id < 2 ^ 128) (range' : 0 <= job_id' < 2 ^ 128) :
  job_id = job_id' ∧ generation = generation'.
Proof.
  rewrite deterministic_task_name_spec in made, made'.
  destruct (generation <? 1), (generation' <? 1); try done.
  destruct (generation <=? 999999999), (generation' <=? 999999999); try done.
  apply Ok_inj in made, made'. rewrite <- made' in made. unfold task_name in made.
  apply app_inj_length in made as [_ made]; [|done].
  apply app_inj_length in made as [Hu made]; [|by rewrite !length_uuid_hex].
  apply app_inj_length in made as [_ made]; [|done].
  split; [|by apply (inj str_int)].
  apply (f_equal (hex_int_digits 0 false)) in Hu. rewrite !hex_value_uuid in Hu by done. congruence.
Qed.
Lemma task_name_identifies_witness :
  deterministic_task_name 7 2 = Ok (task_name 7 2) ∧ 7 = 7 ∧ 2 = 2.
Proof.
  assert (deterministic_task_name 7 2 = Ok (task_name 7 2)) as made by (vm_compute; reflexivity).
  split; [exact made|]. apply (task_name_identifies 7 7 2 2 _ made made); lia.
Defined.
