(* ===== verification/Jobs.v ===== *)
(** * Durable jobs

    [app/jobs/models.py] and [SqlJobClaimStore] of
    [app/db/repositories.py]: enqueueing once per job key, leases numbered by attempts, the
    fencing of heartbeats and completions, and a new task generation for every retry. *)
From S2P Require Import Prelude PyStr Domain Ports Db Session Tasks.

Open Scope string_scope.
Open Scope Z_scope.

Module JobSpec.
Record t := mk { job_key : string; kind : string; order_id : string; max_attempts : Z }.
#[global] Instance t_eq_dec : EqDecision t.
Proof. solve_decision. Defined.
(** [__post_init__] *)
Definition post_init (s : t) : result t :=
  if (job_key s =? "")%string || (160 <? strlen (job_key s)) || (max_attempts s <? 1)
  then Raise (ValueError "invalid durable job specification") else Ok s.
End JobSpec.

Module ClaimedJob.
Record t := mk {
  id : string; spec : JobSpec.t; attempt : Z; lease_owner : string; lease_until : Z }.
#[global] Instance eta_t : Eta t := λ c, mk (id c) (spec c) (attempt c) (lease_owner c) (lease_until c).
End ClaimedJob.

(** [uuid.UUID(s)] with the exception text of the standard library left out. *)
Definition uuid_UUID (s : string) : result uuid :=
  match UUID s with Some u => Ok u | None => Raise (ValueError "badly formed hexadecimal UUID string") end.

Definition dispatch_if (task_dispatch : option TaskCreator) (target : option (uuid * Z)) : M unit :=
  match target, task_dispatch with
  | Some (job_id, generation), Some creator =>
      do! TaskDispatchCoordinator.dispatch creator job_id generation in ret tt
  | _, _ => ret tt
  end.

Module SqlJobClaimStore.
Section Store.
Context (task_dispatch : option TaskCreator).

Definition claimable (now : Z) (j : DurableJob.row) : bool :=
  (DurableJob.state j is_in [JOB_AVAILABLE; JOB_RETRY; JOB_LEASED]) &&
  (DurableJob.available_at j <=? now) &&
  match DurableJob.lease_until j with None => true | Some u => u <? now end &&
  (DurableJob.attempt_count j <? DurableJob.max_attempts j).

(** [claim_query(now)], executed *)
Definition claim_query (now : Z) : M (option DurableJob.row) :=
  let! l := scalars_ordered (λ j, [DurableJob.available_at j; DurableJob.created_at j]) 1 (claimable now) in
  ret (head l).

Definition new_job (id : uuid) (job_key : string) (order_id : uuid) (kind : string)
    (max_attempts available_at now : Z) : DurableJob.row := {|
  DurableJob.id := id;
  DurableJob.job_key := job_key;
  DurableJob.order_id := order_id;
  DurableJob.kind := kind;
  DurableJob.state := JOB_AVAILABLE;
  DurableJob.generation := 1;
  DurableJob.attempt_count := 0;
  DurableJob.max_attempts := max_attempts;
  DurableJob.available_at := available_at;
  DurableJob.lease_owner := None;
  DurableJob.lease_until := None;
  DurableJob.safe_error_code := None;
  DurableJob.created_at := now;
  DurableJob.updated_at := now |}.

(** The transaction of [enqueue_once]. *)
Definition enqueue_tx (spec : JobSpec.t) (available_at : datetime) (now : Z) : M uuid :=
  atomically (
    let! order_id := lift (uuid_UUID (JobSpec.order_id spec)) in
    let! id := uuid4 in
    let job := new_job id (JobSpec.job_key spec) order_id (JobSpec.kind spec)
                 (JobSpec.max_attempts spec) (dt_us available_at) now in
    do! add job in
    do! add_task_dispatch job available_at now in
    ret id).

Definition enqueue_once (spec : JobSpec.t) (available_at : datetime) : M bool :=
  let! now := now_utc in
  let! (created, target) :=
    try_except
      (let! id := enqueue_tx spec available_at now in
       ret (true, Some (id, 1)))
      (λ e, if e == IntegrityError then Some (
         let! existing := scalar (λ j, DurableJob.job_key j == JobSpec.job_key spec) in
         ret (false, match existing with
                     | Some j => Some (DurableJob.id j, DurableJob.generation j)
                     | None => None
                     end)) else None) in
  do! dispatch_if task_dispatch target in
  ret created.

Definition _lease (job : DurableJob.row) (worker_id : string) (now lease_for : Z) : M ClaimedJob.t :=
  let job := job <| DurableJob.attempt_count := DurableJob.attempt_count job + 1 |>
                 <| DurableJob.state := JOB_LEASED |>
                 <| DurableJob.lease_owner := Some worker_id |>
                 <| DurableJob.lease_until := Some (now + lease_for) |>
                 <| DurableJob.updated_at := now |> in
  do! save job in
  let! id := uuid4 in
  do! add {|
    JobAttempt.id := id;
    JobAttempt.job_id := DurableJob.id job;
    JobAttempt.attempt_number := DurableJob.attempt_count job;
    JobAttempt.worker_id := worker_id;
    JobAttempt.started_at := now;
    JobAttempt.finished_at := None;
    JobAttempt.outcome := None;
    JobAttempt.safe_error_code := None;
    JobAttempt.created_at := now |} in
  let! spec := lift (JobSpec.post_init {|
    JobSpec.job_key := DurableJob.job_key job;
    JobSpec.kind := DurableJob.kind job;
    JobSpec.order_id := str_uuid (DurableJob.order_id job);
    JobSpec.max_attempts := DurableJob.max_attempts job |}) in
  ret {|
    ClaimedJob.id := str_uuid (DurableJob.id job);
    ClaimedJob.spec := spec;
    ClaimedJob.attempt := DurableJob.attempt_count job;
    ClaimedJob.lease_owner := worker_id;
    ClaimedJob.lease_until := now + lease_for |}.

Definition claim (worker_id : string) (now lease_for : Z) : M (option ClaimedJob.t) :=
  atomically (
    let! job := claim_query now in
    match job with
    | None => ret None
    | Some job => let! c := _lease job worker_id now lease_for in ret (Some c)
    end).

Definition claim_specific (job_id : string) (generation : Z) (worker_id : string) (now lease_for : Z)
    : M (option ClaimedJob.t) :=
  do! raise_if (generation <? 1) (ValueError "task_generation_invalid") in
  match UUID job_id with
  | None => raise (ValueError "job_id_must_be_uuid")
  | Some identifier =>
      atomically (
        let! job := scalar (λ j, DurableJob.id j == identifier) in
        match job with
        | None => raise (SpecificJobRetryable "specific_job_not_committed")
        | Some job =>
            let! dispatch := scalar (TaskDispatchCoordinator.this_dispatch identifier generation) in
            do! raise_if (is_none dispatch) (SpecificJobRetryable "specific_dispatch_not_committed") in
            if DurableJob.generation job != generation then ret None
            else if negb (DurableJob.state job is_in [JOB_AVAILABLE; JOB_RETRY; JOB_LEASED]) then ret None
            else
              do! raise_if (now <? DurableJob.available_at job)
                (SpecificJobRetryable "specific_job_not_due") in
              do! raise_if match DurableJob.lease_until job with None => false | Some u => now <=? u end
                (SpecificJobRetryable "specific_job_lease_active") in
              if DurableJob.max_attempts job <=? DurableJob.attempt_count job then ret None
              else let! c := _lease job worker_id now lease_for in ret (Some c)
        end)
  end.

Definition heartbeat (job_id worker_id : string) (attempt lease_until : Z) : M bool :=
  atomically (
    let! identifier := lift (uuid_UUID job_id) in
    let! job := scalar (λ j, DurableJob.id j == identifier) in
    match job with
    | None => ret false
    | Some job =>
        if (DurableJob.lease_owner job != Some worker_id) ||
           (DurableJob.attempt_count job != attempt) ||
           (DurableJob.state job != JOB_LEASED)
        then ret false
        else
          let! now := now_utc in
          do! save (job <| DurableJob.lease_until := Some lease_until |>
                        <| DurableJob.updated_at := now |>) in
          ret true
    end).

Definition this_attempt (j : DurableJob.row) (a : JobAttempt.row) : bool :=
  (JobAttempt.job_id a == DurableJob.id j) && (JobAttempt.attempt_number a == DurableJob.attempt_count j).

(** The last attempt of a job cannot be retried. *)
Definition final_outcome (outcome : JobOutcome) (stored : DurableJob.row) : JobOutcome :=
  if (outcome == OUT_RETRY) && (DurableJob.max_attempts stored <=? DurableJob.attempt_count stored)
  then OUT_DEAD_LETTER else outcome.

(** The writes of [finish] once the lease has been checked. *)
Definition close_attempt (stored : DurableJob.row) (attempt : JobAttempt.row) (final : JobOutcome)
    (now : Z) (retry_at : option datetime) (safe_error_code : option string) : M (option (uuid * Z)) :=
  do! save (attempt <| JobAttempt.finished_at := Some now |>
                    <| JobAttempt.outcome := Some (JobOutcome_value final) |>
                    <| JobAttempt.safe_error_code := safe_error_code |>) in
  let stored := stored
    <| DurableJob.state := state_of_outcome final |>
    <| DurableJob.available_at := match retry_at with
                                  | Some r => dt_us r | None => DurableJob.available_at stored end |>
    <| DurableJob.lease_owner := None |>
    <| DurableJob.lease_until := None |>
    <| DurableJob.safe_error_code := safe_error_code |>
    <| DurableJob.updated_at := now |>
    <| DurableJob.generation := DurableJob.generation stored + (if final == OUT_RETRY then 1 else 0) |> in
  do! save stored in
  match (if final == OUT_RETRY then retry_at else None) with
  | Some retry_at =>
      do! add_task_dispatch stored retry_at now in
      ret (Some (DurableJob.id stored, DurableJob.generation stored))
  | None => ret None
  end.

(** The transaction of [finish]; the result is [retry_dispatch]. *)
Definition finish_tx (job : ClaimedJob.t) (outcome : JobOutcome) (now : Z)
    (retry_at : option datetime) (safe_error_code : option string) : M (option (uuid * Z)) :=
  atomically (
    let! identifier := lift (uuid_UUID (ClaimedJob.id job)) in
    let! stored := scalar (λ j, DurableJob.id j == identifier) in
    match stored with
    | None => raise (ValueError "job lease is no longer owned by this attempt")
    | Some stored =>
        do! raise_if ((DurableJob.lease_owner stored != Some (ClaimedJob.lease_owner job)) ||
                      (DurableJob.attempt_count stored != ClaimedJob.attempt job))
          (ValueError "job lease is no longer owned by this attempt") in
        let! attempt := scalar (this_attempt stored) in
        match attempt with
        | None => raise (ValueError "job attempt history is missing")
        | Some attempt =>
            do! raise_if ((final_outcome outcome stored == OUT_RETRY) && is_none retry_at)
              (ValueError "retry outcome requires retry_at") in
            close_attempt stored attempt (final_outcome outcome stored) now retry_at safe_error_code
        end
    end).

Definition finish (job : ClaimedJob.t) (outcome : JobOutcome) (now : Z)
    (retry_at : option datetime) (safe_error_code : option string) : M unit :=
  let! retry_dispatch := finish_tx job outcome now retry_at safe_error_code in
  dispatch_if task_dispatch retry_dispatch.
End Store.
End SqlJobClaimStore.

Definition enqueue_fulfillment_once (order : Order.row) (now : Z) : M unit :=
  let! id := uuid4 in
  let job := SqlJobClaimStore.new_job id (Order.fulfillment_key order) (Order.id order)
               "stamp_manifest_digest" 10 now now in
  do! add job in
  do! add_task_dispatch job (utc now) now in
  ret tt.

(** ** [class BackoffPolicy] *)
From S2P Require Import PyFloat.
From Stdlib Require Import Floats.SpecFloat.

Module BackoffPolicy.
Record t := mk { base_seconds : spec_float; maximum_seconds : spec_float; jitter_ratio : spec_float }.
(** [30.0], [21600.0] and the float nearest to [0.2] *)
Definition default : t :=
  mk (float_of_Z 30) (float_of_Z 21600) (S754_finite false 7205759403792794 (-55)).

Definition unit_interval (x : spec_float) : bool := fleb (float_of_Z 0) x && fleb x (float_of_Z 1).
(** [min(self.maximum_seconds, self.base_seconds * (2 ** (attempt - 1)))] *)
Definition exponential (self : t) (attempt : Z) : result spec_float :=
  try! power := float_of_int (2 ^ (attempt - 1)) in
  let x := fmul (base_seconds self) power in
  Ok (if fltb x (maximum_seconds self) then x else maximum_seconds self).
(** [max(0.0, x)] *)
Definition at_least_zero (x : spec_float) : spec_float := if fltb (float_of_Z 0) x then x else float_of_Z 0.
Definition delay (self : t) (attempt : Z) (jitter_unit : spec_float) : result Z :=
  check! raise_when ((attempt <? 1) || negb (unit_interval jitter_unit) || negb (unit_interval (jitter_ratio self)))
    (ValueError "invalid retry calculation inputs") in
  try! exponential := exponential self attempt in
  let factor := fadd (fsub (float_of_Z 1) (jitter_ratio self))
                     (fmul (fmul (float_of_Z 2) (jitter_ratio self)) jitter_unit) in
  timedelta_seconds (at_least_zero (fmul exponential factor)).

(** The delays of the default policy double from half a minute until they reach six hours, less a fifth
    without jitter and plus a fifth with all of it, as long as [2 ** (attempt - 1)] is a float; the attempt
    after that one raises. *)
Lemma default_delays attempt : 1 ≤ attempt ≤ 1024 →
  delay default attempt (float_of_Z 0) = Ok (seconds (Z.min 17280 (24 * 2 ^ (attempt - 1)))) ∧
  delay default attempt (float_of_Z 1) = Ok (seconds (Z.min 25920 (36 * 2 ^ (attempt - 1)))).
Proof.
  assert (map (λ n, (delay default (Z.of_nat n) (float_of_Z 0), delay default (Z.of_nat n) (float_of_Z 1))) (seq 1 1024) =
          map (λ n, (Ok (seconds (Z.min 17280 (24 * 2 ^ (Z.of_nat n - 1)))),
                     Ok (seconds (Z.min 25920 (36 * 2 ^ (Z.of_nat n - 1)))))) (seq 1 1024)) as H
    by (vm_compute; reflexivity).
  intros Ha. pose proof (proj1 map_ext_in_iff H (Z.to_nat attempt)) as E. cbv beta in E. rewrite Z2Nat.id in E by lia.
  apply pair_equal_spec, E, in_seq. lia.
Qed.
Example late_delay : delay default 1025 (float_of_Z 0) = Raise (OverflowError "int too large to convert to float").
Proof. vm_compute. reflexivity. Qed.
End BackoffPolicy.
