(* ===== verification/Store.v ===== *)
(** * The order store

    [OrderStore], [RateLimitStore], [record_stripe_event] and [enqueue_outbox_once] of
    [app/db/repositories.py], and [app/db/cleanup.py]. *)
From S2P Require Import Prelude PyStr Sha256 Domain Ports Db Session Tokens.

Open Scope string_scope.
Open Scope Z_scope.

Module AuthenticatedOrder.
Record t := mk { order : Order.row; token : OrderToken.row }.
End AuthenticatedOrder.

Module OrderStore.
(** The constructor's arguments. *)
Record t := mk { token_hasher : TokenHasher.t; active_pepper_version : Z; token_ttl : Z }.

Definition revoke (now : Z) (t : OrderToken.row) : M unit :=
  save (t <| OrderToken.revoked_at := Some now |>).

Definition issue_token (self : t) (order : Order.row) (now : Z) (revoke_existing : bool) : M string :=
  let! active := scalars (λ t, (OrderToken.order_id t == Order.id order) &&
                               is_none (OrderToken.revoked_at t)) in
  do! when revoke_existing (for_each (revoke now) active) in
  let! sequence := scalar_max OrderToken.version (λ t, OrderToken.order_id t == Order.id order) in
  let! rand := token_bytes 32 in
  let! raw := lift (generate_bearer_token (active_pepper_version self) rand) in
  let! hashed := lift (TokenHasher.hash (token_hasher self) raw) in
  let! id := uuid4 in
  do! add {|
    OrderToken.id := id;
    OrderToken.order_id := Order.id order;
    OrderToken.version := or_else sequence 0 + 1;
    OrderToken.pepper_version := HashedToken.version hashed;
    OrderToken.token_hash := HashedToken.digest hashed;
    OrderToken.revoked_at := None;
    OrderToken.expires_at := now + token_ttl self;
    OrderToken.created_at := now |} in
  ret raw.

Definition authenticate (self : t) (raw_token : string) (now : Z) : M (option AuthenticatedOrder.t) :=
  match TokenHasher.hash (token_hasher self) raw_token with
  | Raise e => if is_ValueError e then ret None else raise e
  | Ok hashed =>
      let! token := scalar (λ t, (OrderToken.pepper_version t == HashedToken.version hashed) &&
                                 (OrderToken.token_hash t == HashedToken.digest hashed)) in
      match token with
      | None => ret None
      | Some token =>
          let! stored_hash := lift (HashedToken.new (OrderToken.pepper_version token) (OrderToken.token_hash token)) in
          let stored := StoredToken.mk stored_hash (OrderToken.revoked_at token)
                          (Some (OrderToken.expires_at token)) in
          let! valid := lift (authenticate_status_token raw_token stored (token_hasher self) (Some now)) in
          if negb valid then ret None
          else
            let! order := get (R:=Order.row) (OrderToken.order_id token) in
            ret match order with Some o => Some (AuthenticatedOrder.mk o token) | None => None end
      end
  end.

Definition latest_proof (order_id : uuid) : M (option ProofVersion.row) :=
  scalar_best (λ a b, ProofVersion.version b <? ProofVersion.version a)
    (λ p, ProofVersion.order_id p == order_id).

(** [find_idempotency] through [idempotency_query] *)
Definition find_idempotency (endpoint : string) (key_hash : bytes) : M (option IdempotencyRequest.row) :=
  scalar (λ r, (IdempotencyRequest.endpoint r == endpoint) && (IdempotencyRequest.key_hash r == key_hash)).

(** Python's truth value of an optional string. *)
Definition truthy (s : option string) : option string :=
  match s with Some x => if (x =? "")%string then None else Some x | None => None end.

Definition find_order_for_event (internal_order_id payment_intent_id : option string)
    : M (option Order.row) :=
  match truthy internal_order_id with
  | Some text =>
      match UUID text with
      | None => ret None
      | Some u => scalar (λ o, Order.id o == u)
      end
  | None =>
      match truthy payment_intent_id with
      | Some intent => scalar (λ o, Order.payment_intent_id o == Some intent)
      | None => ret None
      end
  end.

(** [session.scalar(select(func.max(StateEvent.sequence)).where(...)) or 0] *)
Definition event_sequence (order_id : uuid) : M Z :=
  let! sequence := scalar_max StateEvent.sequence (λ e, StateEvent.order_id e == order_id) in
  ret (or_else sequence 0).

Definition record_state_event (order : Order.row) (event_key source : string)
    (previous_payment : PaymentState.t) (previous_fulfillment : FulfillmentState.t) (now : Z) : M unit :=
  let! sequence := event_sequence (Order.id order) in
  let! id := uuid4 in
  add {|
    StateEvent.id := id;
    StateEvent.order_id := Order.id order;
    StateEvent.sequence := sequence + 1;
    StateEvent.event_key := event_key;
    StateEvent.source := source;
    StateEvent.previous_payment_state := previous_payment;
    StateEvent.payment_state := Order.payment_state order;
    StateEvent.previous_fulfillment_state := previous_fulfillment;
    StateEvent.fulfillment_state := Order.fulfillment_state order;
    StateEvent.evidence := [];
    StateEvent.created_at := now |}.

Definition record_download_event (order_id : uuid) (proof_version : Z) (artifact_sha256 : bytes)
    (artifact_kind : string) (now : Z) : M unit :=
  do! raise_if ((blen artifact_sha256 != 32) ||
                negb (artifact_kind is_in ["persisted_verified"; "generated_pending"]))
    (ValueError "download_audit_invalid") in
  let! order := scalar (λ o, Order.id o == order_id) in
  match order with
  | None => raise (ValueError "download_order_not_found")
  | Some order =>
      let! sequence := event_sequence (Order.id order) in
      let! key := uuid4 in
      let! id := uuid4 in
      add {|
        StateEvent.id := id;
        StateEvent.order_id := Order.id order;
        StateEvent.sequence := sequence + 1;
        StateEvent.event_key := "download:" ++ str_uuid key;
        StateEvent.source := "customer_download";
        StateEvent.previous_payment_state := Order.payment_state order;
        StateEvent.payment_state := Order.payment_state order;
        StateEvent.previous_fulfillment_state := Order.fulfillment_state order;
        StateEvent.fulfillment_state := Order.fulfillment_state order;
        StateEvent.evidence := [
          ("proof_version", EvInt (Some proof_version));
          ("artifact_sha256", EvStr (bytes_hex artifact_sha256));
          ("artifact_kind", EvStr artifact_kind)];
        StateEvent.created_at := now |}
  end.

(** The order as the call leaves it, and whether it changed. *)
Definition transition_payment (order : Order.row) (target : PaymentState.t) : Order.row * bool :=
  let state := OrderState.mk None (Order.payment_state order) (Order.fulfillment_state order) in
  match OrderState.transition_payment state target with
  | Raise _ => (order, false)
  | Ok changed =>
      if changed == state then (order, false)
      else (order <| Order.payment_state := OrderState.payment changed |>, true)
  end.
End OrderStore.

(** [select ... or existing values], used by [RateLimitStore.hit] *)
Module RateLimitStore.
Definition bucket (endpoint : string) (key_hash : bytes) (window : Z) (c : RateCounter.row) : bool :=
  (RateCounter.endpoint c == endpoint) && (RateCounter.key_hash c == key_hash) &&
  (RateCounter.window_started_at c == window).

(** The three dialects do the same: insert a counter of one, or add one to the counter of
    the same endpoint, client and window. *)
Definition hit (pepper : bytes) (endpoint client_address : string) (now limit : Z) : M bool :=
  let key_hash := hmac_sha256 pepper
    (encode "spacerocks-rate-limit" ++ [x00] ++ encode client_address)%list in
  let window := now - now mod minutes 1 in
  atomically (
    let! id := uuid4 in
    let! counter := scalar (bucket endpoint key_hash window) in
    match counter with
    | None =>
        do! add (RateCounter.mk id endpoint key_hash window 1) in
        ret (1 <=? limit)
    | Some c =>
        let count := RateCounter.request_count c + 1 in
        do! save (c <| RateCounter.request_count := count |>) in
        ret (count <=? limit)
    end).
End RateLimitStore.

Definition record_stripe_event (event_id event_type : string) (payload_sha256 : bytes) (now : Z)
    (livemode : bool) : M StripeEvent.row :=
  let! id := uuid4 in
  let event := {|
    StripeEvent.id := id;
    StripeEvent.stripe_event_id := event_id;
    StripeEvent.event_type := event_type;
    StripeEvent.livemode := livemode;
    StripeEvent.payload_sha256 := payload_sha256;
    StripeEvent.processed_at := None;
    StripeEvent.safe_error_code := None;
    StripeEvent.created_at := now |} in
  do! add event in
  ret event.

(** A new row of the outbox; the columns the callers leave out take the defaults of the
    mapping ([max_attempts] 12, [idempotency_expires_at] a day after the insertion). *)
Definition outbox_row (id : uuid) (message_key : string) (order_id : uuid) (kind recipient : string)
    (payload : list (string * string)) (available_at created_at : Z)
    (idempotency_expires_at updated_at : Z) : OutboxRecord.row := {|
  OutboxRecord.id := id;
  OutboxRecord.message_key := message_key;
  OutboxRecord.order_id := order_id;
  OutboxRecord.kind := kind;
  OutboxRecord.recipient := recipient;
  OutboxRecord.payload := payload;
  OutboxRecord.state := OB_AVAILABLE;
  OutboxRecord.attempt_count := 0;
  OutboxRecord.max_attempts := 12;
  OutboxRecord.available_at := available_at;
  OutboxRecord.lease_owner := None;
  OutboxRecord.lease_until := None;
  OutboxRecord.lease_token := None;
  OutboxRecord.proof_version := None;
  OutboxRecord.confirmation_count := None;
  OutboxRecord.confirmation_observation_id := None;
  OutboxRecord.provider_message_id := None;
  OutboxRecord.accepted_at := None;
  OutboxRecord.delivered_at := None;
  OutboxRecord.idempotency_expires_at := Some idempotency_expires_at;
  OutboxRecord.safe_error_code := None;
  OutboxRecord.created_at := created_at;
  OutboxRecord.updated_at := updated_at |}.

Definition enqueue_outbox_once (order : Order.row) (kind : string) (now : Z) : M unit :=
  let! id := uuid4 in
  let! expiry_base := now_utc in
  let! updated := now_utc in
  add (outbox_row id (kind ++ ":" ++ str_uuid (Order.id order)) (Order.id order) kind (Order.email order)
         [("order_reference", Order.order_reference order)] now now
         (expiry_base + hours 24) updated).

(** ** [app/db/cleanup.py] *)
Module CleanupResult.
Record t := mk { expired_tokens : Z; idempotency_records : Z; rate_counters : Z }.
End CleanupResult.

Definition cleanup_ephemeral_records (expired_token_before idempotency_before rate_counter_before : Z)
    : M CleanupResult.t :=
  atomically (
    let! token_result := delete_where (λ t, OrderToken.expires_at t <? expired_token_before) in
    let! idempotency_result := delete_where (λ r, IdempotencyRequest.created_at r <? idempotency_before) in
    let! rate_result := delete_where (λ c, RateCounter.window_started_at c <? rate_counter_before) in
    ret (CleanupResult.mk token_result idempotency_result rate_result)).
