(* ===== verification/Url.v ===== *)
(** * [urllib.parse.urlsplit]

    The splitter of the standard library as the service uses it, on code points below 256.
    Its checks of bracketed hosts and of compatibility characters in the network location
    (the [ipaddress] and [unicodedata] modules) are the argument [check_netloc]. *)
From S2P Require Import Prelude PyStr.

Open Scope string_scope.
Open Scope Z_scope.

(** [s.partition(c)] as the text before, whether [c] occurs, and the text after. *)
Fixpoint partition (p : ascii → bool) (s : string) : string * option ascii * string :=
  match s with
  | EmptyString => (EmptyString, None, EmptyString)
  | String c s' =>
      if p c then (EmptyString, Some c, s')
      else let '(a, f, b) := partition p s' in (String c a, f, b)
  end.
Definition is_char (c : ascii) (d : ascii) : bool := (d =? c)%char.
Definition str_has (p : ascii → bool) (s : string) : bool :=
  match partition p s with (_, Some _, _) => true | _ => false end.
(** [s.rpartition(c)[2]] and whether [c] occurs. *)
Fixpoint after_last (p : ascii → bool) (s : string) : bool * string :=
  match s with
  | EmptyString => (false, EmptyString)
  | String c s' =>
      let '(f, t) := after_last p s' in
      if f then (true, t) else if p c then (true, s') else (false, s)
  end.

Definition c0_or_space (c : ascii) : bool := code c <=? 32.
Fixpoint str_filter (p : ascii → bool) (s : string) : string :=
  match s with
  | EmptyString => EmptyString
  | String c s' => if p c then String c (str_filter p s') else str_filter p s'
  end.
Definition scheme_char (c : ascii) : bool :=
  is_alnum_ascii c || (code c =? 43) || (code c =? 45) || (code c =? 46).

Module SplitResult.
Record t := mk { scheme : string; netloc : string; path : string; query : string; fragment : string }.

(** [username] and [password] are both [None] when there is no user information. *)
Definition has_userinfo (u : t) : bool := str_has (is_char "@") (netloc u).
Definition hostinfo (u : t) : string := snd (after_last (is_char "@") (netloc u)).
Definition host_port (u : t) : string * option string :=
  let h := hostinfo u in
  match partition (is_char "[") h with
  | (_, Some _, bracketed) =>
      let '(host, _, rest) := partition (is_char "]") bracketed in
      match partition (is_char ":") rest with
      | (_, Some _, port) => (host, Some port)
      | _ => (host, None)
      end
  | _ =>
      match partition (is_char ":") h with
      | (host, Some _, port) => (host, Some port)
      | (host, None, _) => (host, None)
      end
  end.
(** [hostname]: lower-cased, [None] when empty. *)
Definition hostname (u : t) : option string :=
  let h := lower (fst (host_port u)) in if (h =? "")%string then None else Some h.
(** [port]; the property raises [ValueError] on a port that is not a number up to 65535. *)
Definition port (u : t) : result (option Z) :=
  match snd (host_port u) with
  | None => Ok None
  | Some text =>
      if (text =? "")%string then Ok None
      else if str_all is_digit text then
        match int_of_digits text with
        | Some n => if n <=? 65535 then Ok (Some n) else Raise (ValueError "Port out of range 0-65535")
        | None => Raise (ValueError "Port could not be cast to integer value")
        end
      else Raise (ValueError "Port could not be cast to integer value")
  end.
End SplitResult.

Section Split.
Context (check_netloc : string → bool).

Definition split_scheme (url : string) : string * string :=
  match partition (is_char ":") url with
  | (String c rest as s, Some _, tail) =>
      if is_az c && str_all scheme_char s then (lower s, tail) else (EmptyString, url)
  | _ => (EmptyString, url)
  end.
Definition is_netloc_end (c : ascii) : bool := is_char "/" c || is_char "?" c || is_char "#" c.
Definition split_netloc (url : string) : string * string :=
  let '(netloc, f, tail) := partition is_netloc_end url in
  (netloc, match f with Some c => String c tail | None => EmptyString end).

Definition urlsplit (url : string) : result SplitResult.t :=
  let url := lstrip c0_or_space url in
  let url := str_filter (λ c, negb ((code c =? 9) || (code c =? 13) || (code c =? 10))) url in
  let '(scheme, url) := split_scheme url in
  let '(netloc, url) :=
    if startswith "//" url then split_netloc (removeprefix "//" url) else (EmptyString, url) in
  check! raise_when (xorb (str_has (is_char "[") netloc) (str_has (is_char "]") netloc))
    (ValueError "Invalid IPv6 URL") in
  check! raise_when (negb (check_netloc netloc)) (ValueError "netloc contains invalid characters") in
  let '(url, f, fragment) := partition (is_char "#") url in
  let '(path, q, query) := partition (is_char "?") url in
  Ok (SplitResult.mk scheme netloc path query fragment).
End Split.

(** ** Lemmas *)

Lemma partition_spec p s a f b :
  partition p s = (a, f, b) →
  str_all (λ c, negb (p c)) a = true ∧
  match f with
  | Some c => p c = true ∧ s = (a ++ String c b)%string
  | None => a = s ∧ b = EmptyString
  end.
Proof.
  revert a f b. induction s as [|c s IH]; simpl; intros a f b.
  - intros [= <- <- <-]. done.
  - destruct (p c) eqn:E; [intros [= <- <- <-]; done|].
    destruct (partition p s) as [[a' f'] b'] eqn:Ep. intros [= <- <- <-].
    destruct (IH _ _ _ eq_refl) as [Ha Hf]. simpl. rewrite E, Ha. split; [done|].
    destruct f'; [destruct Hf as [? ->]; done|destruct Hf as [-> ->]; done].
Qed.

Lemma str_filter_id p s : str_all p s = true → str_filter p s = s.
Proof. induction s as [|c s IH]; simpl; [done|]. intros [-> ?]%andb_prop. by rewrite IH. Qed.

Lemma startswith_iff p s : startswith p s = true ↔ ∃ t, s = (p ++ t)%string.
Proof.
  unfold startswith. revert s. induction p as [|c p IH]; intros s; simpl.
  - split; [intros _; by exists s|destruct s; done].
  - destruct s as [|d s]; simpl; [split; [done|intros [? E]; discriminate E]|].
    destruct (ascii_dec c d) as [->|Hne].
    + rewrite IH. split; intros [t Ht]; exists t; [by rewrite Ht|]. by injection Ht.
    + split; [done|]. intros [t E]. by injection E.
Qed.
