(* ===== verification/IpAddress.v ===== *)
(** * [ipaddress]

    Addresses of the standard library (Python 3.12) as the service uses them: reading a text,
    the compressed form, and the predicates on the special-purpose networks.  An address is the
    number it stands for; an IPv6 address may carry a scope. *)
From S2P Require Import Prelude PyStr Json.

Open Scope string_scope.
Open Scope Z_scope.

Inductive address := V4 (ip : Z) | V6 (ip : Z) (scope_id : option string).
#[global] Instance address_eq_dec : EqDecision address.
Proof. solve_decision. Defined.
Definition address_ok (a : address) : Prop :=
  match a with V4 ip => 0 <= ip < 2 ^ 32 | V6 ip scope => 0 <= ip < 2 ^ 128 ∧ scope ≠ Some "" end.

(** [s.split(c)] *)
Fixpoint split_on (c : ascii) (s : string) : list string :=
  match s with
  | EmptyString => [""]
  | String d s' =>
      if (d =? c)%char then "" :: split_on c s'
      else match split_on c s' with [] => [String d ""] | part :: rest => String d part :: rest end
  end.
Definition has_char (c : ascii) (s : string) : bool := str_exists (λ d, (d =? c)%char) s.

(** ** IPv4 *)

(** [_parse_octet] *)
Definition _parse_octet (octet_str : string) : option Z :=
  if (octet_str =? "")%string || negb (str_all is_digit octet_str) || (3 <? strlen octet_str) ||
     (negb (octet_str =? "0")%string && startswith "0" octet_str)
  then None
  else match int_of_digits octet_str with
       | Some octet_int => if 255 <? octet_int then None else Some octet_int
       | None => None
       end.
Definition ipv4_from_string (ip_str : string) : option Z :=
  match split_on "." ip_str with
  | [a; b; c; d] =>
      a ← _parse_octet a; b ← _parse_octet b; c ← _parse_octet c; d ← _parse_octet d;
      Some (a * 2 ^ 24 + b * 2 ^ 16 + c * 2 ^ 8 + d)
  | _ => None
  end.
Definition octets (ip : Z) : list Z := [ip / 2 ^ 24; ip / 2 ^ 16 mod 256; ip / 2 ^ 8 mod 256; ip mod 256].
Definition ipv4_string (ip : Z) : string := join "." (map str_int (octets ip)).

(** ** IPv6 *)

Definition is_hex_digit (c : ascii) : bool := is_digit c || in_range 65 70 c || in_range 97 102 c.
(** [_parse_hextet]: [int(hextet_str, 16)] raises on the empty text. *)
Definition hex_digits_value (s : string) : option Z :=
  (fix go (acc : Z) (s : string) : option Z :=
     match s with
     | EmptyString => Some acc
     | String c s' => v ← hex_value (lower_char c); go (16 * acc + v) s'
     end) 0 s.
Definition _parse_hextet (hextet_str : string) : option Z :=
  if negb (str_all is_hex_digit hextet_str) || (4 <? strlen hextet_str) || (hextet_str =? "")%string then None
  else hex_digits_value hextet_str.
(** ['%x' % n] for a hextet *)
Definition hextet (n : Z) : string :=
  let d i := String (hex_digit (Z.land (Z.shiftr n (4 * i)) 15)) "" in
  if n <? 16 then d 0
  else if n <? 256 then d 1 ++ d 0
  else if n <? 4096 then d 2 ++ d 1 ++ d 0
  else d 3 ++ d 2 ++ d 1 ++ d 0.
Definition hextets (ip : Z) : list Z :=
  map (λ i, Z.land (Z.shiftr ip (16 * i)) 65535) [7; 6; 5; 4; 3; 2; 1; 0].

Definition accumulate (ip_int : Z) (part : string) : option Z :=
  h ← _parse_hextet part; Some (Z.lor (Z.shiftl ip_int 16) h).
Fixpoint accumulate_all (ip_int : Z) (parts : list string) : option Z :=
  match parts with [] => Some ip_int | p :: rest => ip_int ← accumulate ip_int p; accumulate_all ip_int rest end.

(** The parts, with an IPv4 suffix turned into two hextets. *)
Definition with_ipv4_suffix (parts : list string) : option (list string) :=
  match last parts with
  | Some suffix =>
      if has_char "." suffix then
        ipv4_int ← (if has_char "/" suffix then None else ipv4_from_string suffix);
        Some (removelast parts ++ [hextet (Z.land (Z.shiftr ipv4_int 16) 65535); hextet (Z.land ipv4_int 65535)])%list
      else Some parts
  | None => Some parts
  end.
(** The positions of the empty parts, the two ends disregarded. *)
Definition skip_indices (parts : list string) : list nat :=
  List.filter (λ i, (nth i parts "" =? "")%string) (seq 1 (List.length parts - 2)).

Definition _HEXTET_COUNT : nat := 8.
(** How many parts come before and after the [::], and how many it stands for. *)
Definition layout (parts : list string) : option (nat * nat * nat) :=
  let first_empty := (nth 0 parts "" =? "")%string in
  let last_empty := (nth (List.length parts - 1) parts "" =? "")%string in
  match skip_indices parts with
  | [skip_index] =>
      let parts_hi := if first_empty then (skip_index - 1)%nat else skip_index in
      let rest := (List.length parts - skip_index - 1)%nat in
      let parts_lo := if last_empty then (rest - 1)%nat else rest in
      if (first_empty && negb (parts_hi =? 0)%nat) || (last_empty && negb (parts_lo =? 0)%nat) ||
         (_HEXTET_COUNT <=? parts_hi + parts_lo)%nat
      then None
      else Some (parts_hi, parts_lo, (_HEXTET_COUNT - (parts_hi + parts_lo))%nat)
  | [] =>
      if negb (List.length parts =? _HEXTET_COUNT)%nat || first_empty || last_empty then None
      else Some (List.length parts, 0%nat, 0%nat)
  | _ => None
  end.
(** [_BaseV6._ip_int_from_string] *)
Definition ipv6_from_string (ip_str : string) : option Z :=
  if (ip_str =? "")%string then None
  else
    let parts := split_on ":" ip_str in
    if (List.length parts <? 3)%nat then None
    else
      parts ← with_ipv4_suffix parts;
      if (_HEXTET_COUNT + 1 <? List.length parts)%nat then None
      else
        '(parts_hi, parts_lo, parts_skipped) ← layout parts;
        ip_int ← accumulate_all 0 (take parts_hi parts);
        accumulate_all (Z.shiftl ip_int (16 * Z.of_nat parts_skipped)) (drop (List.length parts - parts_lo) parts).

(** [_compress_hextets]: the first of the longest runs of zeros, as its start and its length. *)
Record run_state := mk_run { best_start : nat; best_len : nat; start : nat; len : nat }.
Definition run_step (s : run_state) (index : nat) (zero : bool) : run_state :=
  if zero then
    let len' := S (len s) in
    let start' := if (len s =? 0)%nat then index else start s in
    if (best_len s <? len')%nat then mk_run start' len' start' len' else mk_run (best_start s) (best_len s) start' len'
  else mk_run (best_start s) (best_len s) 0 0.
Fixpoint runs (s : run_state) (index : nat) (zeros : list bool) : run_state :=
  match zeros with [] => s | z :: rest => runs (run_step s index z) (S index) rest end.
Definition _compress_hextets (hextets : list string) : list string :=
  let s := runs (mk_run 0 0 0 0) 0 (map (λ h, (h =? "0")%string) hextets) in
  if (1 <? best_len s)%nat then
    let best_end := (best_start s + best_len s)%nat in
    let hextets' := if (best_end =? List.length hextets)%nat then (hextets ++ [""])%list else hextets in
    let spliced := (take (best_start s) hextets' ++ "" :: drop best_end hextets')%list in
    if (best_start s =? 0)%nat then "" :: spliced else spliced
  else hextets.
Definition ipv6_string (ip : Z) : string := join ":" (_compress_hextets (map hextet (hextets ip))).

(** ** [ip_address] *)

(** [_split_scope_id] *)
Definition _split_scope_id (ip_str : string) : option (string * option string) :=
  match split_on "%" ip_str with
  | [addr] => Some (addr, None)
  | [addr; scope_id] => if (scope_id =? "")%string then None else Some (addr, Some scope_id)
  | _ => None
  end.
Definition ip_address (s : string) : option address :=
  if has_char "/" s then None
  else match ipv4_from_string s with
       | Some ip => Some (V4 ip)
       | None => '(addr, scope_id) ← _split_scope_id s; ip ← ipv6_from_string addr; Some (V6 ip scope_id)
       end.
Definition compressed (a : address) : string :=
  match a with
  | V4 ip => ipv4_string ip
  | V6 ip None => ipv6_string ip
  | V6 ip (Some scope_id) => ipv6_string ip ++ "%" ++ scope_id
  end.

(** ** The special-purpose networks *)

(** A network is its address and the length of its prefix. *)
Definition netmask (bits prefixlen : Z) : Z := 2 ^ bits - 2 ^ (bits - prefixlen).
Definition in_network (bits ip : Z) (network : Z * Z) : bool := Z.land ip (netmask bits network.2) =? network.1.
Definition in_networks (bits ip : Z) (networks : list (Z * Z)) : bool := existsb (in_network bits ip) networks.

Module IPv4.
Definition net (a b c d prefixlen : Z) : Z * Z := (a * 2 ^ 24 + b * 2 ^ 16 + c * 2 ^ 8 + d, prefixlen).
Definition linklocal : Z * Z := net 169 254 0 0 16.
Definition loopback : Z * Z := net 127 0 0 0 8.
Definition multicast : Z * Z := net 224 0 0 0 4.
Definition public : Z * Z := net 100 64 0 0 10.
Definition private : list (Z * Z) := [
  net 0 0 0 0 8; net 10 0 0 0 8; net 127 0 0 0 8; net 169 254 0 0 16; net 172 16 0 0 12; net 192 0 0 0 24;
  net 192 0 0 170 31; net 192 0 2 0 24; net 192 168 0 0 16; net 198 18 0 0 15; net 198 51 100 0 24;
  net 203 0 113 0 24; net 240 0 0 0 4; net 255 255 255 255 32].
Definition private_exceptions : list (Z * Z) := [net 192 0 0 9 32; net 192 0 0 10 32].
Definition reserved : Z * Z := net 240 0 0 0 4.
Definition is_private (ip : Z) : bool := in_networks 32 ip private && negb (in_networks 32 ip private_exceptions).
Definition is_global (ip : Z) : bool := negb (in_network 32 ip public) && negb (is_private ip).
End IPv4.

Module IPv6.
(** The network of the two or four leading hextets. *)
Definition net (a b c prefixlen : Z) : Z * Z := (a * 2 ^ 112 + b * 2 ^ 96 + c * 2 ^ 80, prefixlen).
Definition linklocal : Z * Z := net 0xfe80 0 0 10.
Definition multicast : Z * Z := net 0xff00 0 0 8.
Definition sitelocal : Z * Z := net 0xfec0 0 0 10.
Definition private : list (Z * Z) := [
  (1, 128); (0, 128); (0xffff * 2 ^ 32, 96); net 0x64 0xff9b 1 48; net 0x100 0 0 64; net 0x2001 0 0 23;
  net 0x2001 0xdb8 0 32; net 0x2002 0 0 16; net 0x3fff 0 0 20; net 0xfc00 0 0 7; net 0xfe80 0 0 10].
Definition private_exceptions : list (Z * Z) := [
  (0x2001 * 2 ^ 112 + 2 ^ 96 + 1, 128); (0x2001 * 2 ^ 112 + 2 ^ 96 + 2, 128); net 0x2001 3 0 32;
  net 0x2001 4 0x112 48; net 0x2001 0x20 0 28; net 0x2001 0x30 0 28].
Definition reserved : list (Z * Z) := [
  net 0 0 0 8; net 0x100 0 0 8; net 0x200 0 0 7; net 0x400 0 0 6; net 0x800 0 0 5; net 0x1000 0 0 4;
  net 0x4000 0 0 3; net 0x6000 0 0 3; net 0x8000 0 0 3; net 0xa000 0 0 3; net 0xc000 0 0 3; net 0xe000 0 0 4;
  net 0xf000 0 0 5; net 0xf800 0 0 6; net 0xfe00 0 0 9].
Definition ipv4_mapped (ip : Z) : option Z :=
  if Z.shiftr ip 32 =? 0xffff then Some (Z.land ip 0xffffffff) else None.
Definition is_private (ip : Z) : bool :=
  match ipv4_mapped ip with
  | Some ipv4 => IPv4.is_private ipv4
  | None => in_networks 128 ip private && negb (in_networks 128 ip private_exceptions)
  end.
End IPv6.

Definition is_private (a : address) : bool :=
  match a with V4 ip => IPv4.is_private ip | V6 ip _ => IPv6.is_private ip end.
Definition is_global (a : address) : bool :=
  match a with V4 ip => IPv4.is_global ip | V6 ip _ => negb (IPv6.is_private ip) end.
Definition is_multicast (a : address) : bool :=
  match a with V4 ip => in_network 32 ip IPv4.multicast | V6 ip _ => in_network 128 ip IPv6.multicast end.
Definition is_loopback (a : address) : bool :=
  match a with V4 ip => in_network 32 ip IPv4.loopback | V6 ip _ => ip =? 1 end.
Definition is_link_local (a : address) : bool :=
  match a with V4 ip => in_network 32 ip IPv4.linklocal | V6 ip _ => in_network 128 ip IPv6.linklocal end.
Definition is_reserved (a : address) : bool :=
  match a with V4 ip => in_network 32 ip IPv4.reserved | V6 ip _ => in_networks 128 ip IPv6.reserved end.
Definition is_unspecified (a : address) : bool := match a with V4 ip => ip =? 0 | V6 ip _ => ip =? 0 end.
Definition is_site_local (a : address) : bool :=
  match a with V4 _ => false | V6 ip _ => in_network 128 ip IPv6.sitelocal end.

(** ** Facts about [ipaddress]

    The compressed form of an address is read back as the same address, what is read is in range, and
    the special-purpose networks are intervals of numbers. *)
From Stdlib Require Import DecimalString.
From S2P Require Import Prelude PyStr Json.

Open Scope string_scope.
Open Scope Z_scope.

(** ** Splitting *)

Lemma split_on_nil c s : split_on c s ≠ [].
Proof. destruct s as [|d s]; simpl; [done|]. destruct (d =? c)%char; [done|]. by destruct (split_on c s). Qed.
Lemma split_on_app c a s : has_char c a = false → split_on c (a ++ String c s) = a :: split_on c s.
Proof.
  unfold has_char. induction a as [|d a IH]; simpl.
  - intros _. by rewrite Ascii.eqb_refl.
  - intros [-> Ha]%orb_false_iff. by rewrite IH.
Qed.
Lemma split_on_none c a : has_char c a = false → split_on c a = [a].
Proof. unfold has_char. induction a as [|d a IH]; simpl; [done|]. intros [-> Ha]%orb_false_iff. by rewrite IH. Qed.
Lemma split_on_join c parts : parts ≠ [] → Forall (λ p, has_char c p = false) parts →
  split_on c (join (String c "") parts) = parts.
Proof.
  intros Hn H. induction H as [|p parts Hp H IH]; [done|]. destruct parts as [|q parts]; simpl.
  - by apply split_on_none.
  - change (match parts with [] => q | _ :: _ => q ++ String c "" ++ join (String c "") parts end)
      with (join (String c "") (q :: parts)).
    rewrite string_app_cons, string_app_nil, split_on_app by done. f_equal. by apply IH.
Qed.
Lemma split_on_parts c s : Forall (λ p, has_char c p = false) (split_on c s).
Proof.
  unfold has_char. induction s as [|d s IH]; simpl; [by repeat constructor|].
  destruct (d =? c)%char eqn:E; [by constructor|].
  destruct IH as [|p l Hp Hl]; [by repeat constructor; simpl; rewrite E|]. constructor; [simpl; by rewrite E|done].
Qed.
Lemma join_split_on c s : join (String c "") (split_on c s) = s.
Proof.
  induction s as [|x s IH]; [done|]. simpl. pose proof (split_on_nil c s) as Hn. destruct (x =? c)%char eqn:Ex.
  - apply Ascii.eqb_eq in Ex as ->. destruct (split_on c s) as [|p l]; [done|].
    change (join (String c "") ("" :: p :: l)) with (String c (join (String c "") (p :: l))). by rewrite IH.
  - destruct (split_on c s) as [|p [|q l]] eqn:Es; [done| |]; rewrite <- IH; done.
Qed.
Lemma has_char_app c a b : has_char c (a ++ b) = has_char c a || has_char c b.
Proof. unfold has_char. induction a as [|d a IH]; simpl; [done|]. by rewrite IH, orb_assoc. Qed.
Lemma split_on_avoid c d s : has_char d s = false → Forall (λ p, has_char d p = false) (split_on c s).
Proof.
  unfold has_char. induction s as [|e s IH]; simpl; [by repeat constructor|]. intros [E Hs]%orb_false_iff.
  destruct (e =? c)%char; [constructor; by auto|].
  destruct (IH Hs) as [|p l Hp Hl]; [by repeat constructor; simpl; rewrite E|]. constructor; [simpl; by rewrite E|done].
Qed.
Lemma has_char_join c sep parts : has_char c sep = false → Forall (λ p, has_char c p = false) parts →
  has_char c (join sep parts) = false.
Proof.
  intros Hs H. induction H as [|p parts Hp H IH]; [done|]. destruct parts as [|q parts]; [done|].
  change (join sep (p :: q :: parts)) with (p ++ sep ++ join sep (q :: parts)). by rewrite !has_char_app, Hp, Hs, IH.
Qed.

(** ** IPv4 *)

Lemma octet_spec n : 0 <= n < 256 →
  _parse_octet (str_int n) = Some n ∧ Forall (λ c, has_char c (str_int n) = false) ["."; "/"; ":"; "%"]%char.
Proof.
  intros Hn.
  assert (H : bool_decide (_parse_octet (str_int n) = Some n ∧
    Forall (λ c, has_char c (str_int n) = false) ["."; "/"; ":"; "%"]%char) = true).
  { revert n Hn. apply (forall_below (λ n, bool_decide (_parse_octet (str_int n) = Some n ∧
    Forall (λ c, has_char c (str_int n) = false) ["."; "/"; ":"; "%"]%char)) 256). by vm_compute. }
  by apply bool_decide_eq_true in H.
Qed.
Lemma octets_range ip : 0 <= ip < 2 ^ 32 → Forall (λ n, 0 <= n < 256) (octets ip).
Proof. intros. unfold octets. repeat constructor; Z.div_mod_to_equations; lia. Qed.
Lemma has_char_ipv4 c ip : 0 <= ip < 2 ^ 32 → c ∈ ["/"; ":"; "%"]%char → has_char c (ipv4_string ip) = false.
Proof.
  intros Hip Hc. apply has_char_join; [by repeat (apply elem_of_cons in Hc as [->|Hc]; [done|]); apply elem_of_nil in Hc|].
  apply Forall_map. eapply Forall_impl; [by apply octets_range|]. intros n [_ Hn]%octet_spec. simpl.
  rewrite Forall_forall in Hn. apply Hn. set_solver.
Qed.
Lemma ipv4_roundtrip ip : 0 <= ip < 2 ^ 32 → ipv4_from_string (ipv4_string ip) = Some ip.
Proof.
  intros Hip. pose proof (octets_range ip Hip) as Ho. unfold ipv4_from_string, ipv4_string. rewrite split_on_join; [|done|].
  - unfold octets in *. cbn [map]. repeat rewrite Forall_cons in Ho. destruct Ho as (H1 & H2 & H3 & H4 & _).
    rewrite (proj1 (octet_spec _ H1)), (proj1 (octet_spec _ H2)), (proj1 (octet_spec _ H3)), (proj1 (octet_spec _ H4)).
    cbn [mbind option_bind]. f_equal. clear H1 H2 H3 H4. Z.div_mod_to_equations. lia.
  - apply Forall_map. eapply Forall_impl; [exact Ho|]. intros n [_ Hn]%octet_spec. simpl. by inversion Hn.
Qed.
Lemma parse_octet_range s n : _parse_octet s = Some n → 0 <= n <= 255 ∧ str_all is_digit s = true.
Proof.
  unfold _parse_octet. destruct (_ || _ || _ || _) eqn:E; [done|].
  rewrite !orb_false_iff, negb_false_iff in E. destruct E as (((_ & Hd) & _) & _).
  unfold int_of_digits. destruct (_ && _); [|done]. destruct (NilEmpty.uint_of_string s); [|done].
  destruct (255 <? _) eqn:E; [done|]. intros [= <-]. split; [lia|done].
Qed.
Lemma ipv4_from_range s ip : ipv4_from_string s = Some ip → 0 <= ip < 2 ^ 32 ∧ has_char ":" s = false.
Proof.
  unfold ipv4_from_string. intros H.
  destruct (split_on "." s) as [|a [|b [|c [|d []]]]] eqn:E; simplify_eq.
  apply bind_Some in H as (a' & [Ha Ha']%parse_octet_range & H). apply bind_Some in H as (b' & [Hb Hb']%parse_octet_range & H).
  apply bind_Some in H as (c' & [Hc Hc']%parse_octet_range & H). apply bind_Some in H as (d' & [Hd Hd']%parse_octet_range & [= <-]).
  split; [lia|]. rewrite <- (join_split_on "." s), E.
  assert (Hdigit : ∀ t, str_all is_digit t = true → has_char ":" t = false).
  { unfold has_char. induction t as [|x t IHt]; [done|]. simpl. intros [Hx Ht]%andb_prop. rewrite IHt, orb_false_r by done.
    destruct (Ascii.eqb_spec x ":"); [by subst|done]. }
  apply has_char_join; [done|]. repeat constructor; by apply Hdigit.
Qed.

(** ** Hextets *)

Definition hex_text (digits : list Z) : string := foldr (λ d s, String (hex_digit d) s) "" digits.
Definition hex_digits_number (a : Z) (digits : list Z) : Z := foldl (λ a d, 16 * a + d) a digits.
Lemma hex_digit_spec d : 0 <= d < 16 →
  (is_hex_digit (hex_digit d) && bool_decide (hex_value (lower_char (hex_digit d)) = Some d) &&
   forallb (λ c, negb (hex_digit d =? c)%char) ["."; "/"; ":"; "%"]%char) = true.
Proof.
  revert d. apply (forall_below (λ d, is_hex_digit (hex_digit d) && bool_decide (hex_value (lower_char (hex_digit d)) = Some d) &&
    forallb (λ c, negb (hex_digit d =? c)%char) ["."; "/"; ":"; "%"]%char) 16). by vm_compute.
Qed.
(** A hextet is written with its one to four digits. *)
Lemma hextet_digits n : 0 <= n < 65536 → ∃ digits, hextet n = hex_text digits ∧ digits ≠ [] ∧
  (List.length digits ≤ 4)%nat ∧ Forall (λ d, 0 <= d < 16) digits ∧ hex_digits_number 0 digits = n.
Proof.
  intros Hn. set (d i := Z.land (Z.shiftr n (4 * i)) 15).
  assert (Hd : ∀ i, 0 <= i → 0 <= d i < 16 ∧ n / 16 ^ i = 16 * (n / 16 ^ (i + 1)) + d i).
  { intros i Hi. unfold d. change 15 with (Z.ones 4). rewrite Z.land_ones, Z.shiftr_div_pow2 by lia.
    rewrite (Z.pow_mul_r 2 4) by lia. change (2 ^ 4) with 16. rewrite Z.pow_add_r, <- Z.div_div by (lia || apply Z.pow_pos_nonneg; lia).
    Z.div_mod_to_equations. lia. }
  destruct (Hd 0) as [D0 E0], (Hd 1) as [D1 E1], (Hd 2) as [D2 E2], (Hd 3) as [D3 E3]; try lia.
  change (16 ^ 0) with 1 in *. change (16 ^ 1) with 16 in *. change (16 ^ 2) with 256 in *. change (16 ^ 3) with 4096 in *.
  change (16 ^ (0 + 1)) with 16 in *. change (16 ^ (1 + 1)) with 256 in *. change (16 ^ (2 + 1)) with 4096 in *.
  change (16 ^ (3 + 1)) with 65536 in *.
  assert (n / 65536 = 0) by (Z.div_mod_to_equations; lia). rewrite Z.div_1_r in E0.
  unfold hextet. fold (d 0) (d 1) (d 2) (d 3).
  destruct (n <? 16) eqn:L1; [|destruct (n <? 256) eqn:L2; [|destruct (n <? 4096) eqn:L3]].
  - exists [d 0]. split_and!; [done|done|simpl; lia|by rewrite !Forall_cons, Forall_nil|].
    unfold hex_digits_number. cbn [foldl]. assert (n / 16 = 0) by (Z.div_mod_to_equations; lia). lia.
  - exists [d 1; d 0]. split_and!; [done|done|simpl; lia|by rewrite !Forall_cons, Forall_nil|].
    unfold hex_digits_number. cbn [foldl]. assert (n / 256 = 0) by (Z.div_mod_to_equations; lia). lia.
  - exists [d 2; d 1; d 0]. split_and!; [done|done|simpl; lia|by rewrite !Forall_cons, Forall_nil|].
    unfold hex_digits_number. cbn [foldl]. assert (n / 4096 = 0) by (Z.div_mod_to_equations; lia). lia.
  - exists [d 3; d 2; d 1; d 0]. split_and!; [done|done|simpl; lia|by rewrite !Forall_cons, Forall_nil|].
    unfold hex_digits_number. cbn [foldl]. lia.
Qed.
Lemma hextet_char c n : 0 <= n < 65536 → c ∈ ["."; "/"; ":"; "%"]%char → has_char c (hextet n) = false.
Proof.
  intros (digits & -> & _ & _ & Hd & _)%hextet_digits Hc. unfold has_char.
  induction Hd as [|d digits Hd _ IH]; [done|]. simpl. rewrite IH, orb_false_r. apply hex_digit_spec in Hd.
  rewrite !andb_true_iff, forallb_forall in Hd. by apply negb_true_iff, (proj2 Hd), list_elem_of_In.
Qed.
Lemma hextet_nonempty n : 0 <= n < 65536 → (hextet n =? "")%string = false.
Proof. intros (digits & -> & H & _)%hextet_digits. by destruct digits. Qed.
Lemma parse_hextet_hextet n : 0 <= n < 65536 → _parse_hextet (hextet n) = Some n.
Proof.
  intros Hn. unfold _parse_hextet. rewrite hextet_nonempty, orb_false_r by done.
  apply hextet_digits in Hn as (digits & -> & _ & Hl & Hd & <-).
  assert (str_all is_hex_digit (hex_text digits) = true ∧ strlen (hex_text digits) = Z.of_nat (List.length digits)) as [-> ->].
  { clear Hl. unfold strlen. induction Hd as [|d digits Hd _ [IH IH']]; [done|]. cbn [hex_text foldr str_all String.length List.length]. fold (hex_text digits).
    apply hex_digit_spec in Hd. rewrite !andb_true_iff in Hd. destruct Hd as [[Hd _] _]. rewrite Hd. split; [exact IH|lia]. }
  assert ((4 <? Z.of_nat (List.length digits)) = false) as -> by lia. cbn [negb orb]. unfold hex_digits_value. generalize 0. clear Hl.
  induction Hd as [|d digits Hd _ IH]; [done|]. intros a. apply hex_digit_spec in Hd. rewrite !andb_true_iff in Hd.
  destruct Hd as [[_ Hd%bool_decide_eq_true] _]. cbn [hex_text foldr]. fold (hex_text digits). rewrite Hd. cbn [mbind option_bind]. apply IH.
Qed.
Lemma hextet_zero n : 0 <= n < 65536 → (hextet n =? "0")%string = (n =? 0).
Proof.
  intros Hn. apply Bool.eq_iff_eq_true. rewrite String.eqb_eq, Z.eqb_eq. split; [|by intros ->].
  intros E. apply parse_hextet_hextet in Hn. rewrite E in Hn. by injection Hn.
Qed.
Lemma hextets_range ip : Forall (λ n, 0 <= n < 65536) (hextets ip).
Proof.
  apply Forall_map, Forall_forall. intros i _. change 65535 with (Z.ones 16). rewrite Z.land_ones by done.
  by apply Z.mod_pos_bound.
Qed.
(** The number that hextets stand for. *)
Definition hextets_value (l : list Z) : Z := foldl (λ a h, Z.lor (Z.shiftl a 16) h) 0 l.
Lemma lor_hextet a h : 0 <= h < 65536 → Z.lor (Z.shiftl a 16) h = a * 65536 + h.
Proof.
  intros Hh. assert (Z.land (Z.shiftl a 16) h = 0) as E.
  { apply Z.bits_inj'. intros i Hi. rewrite Z.land_spec, Z.bits_0. destruct (Z.lt_ge_cases i 16).
    - by rewrite Z.shiftl_spec_low.
    - rewrite <- (Z.mod_small h (2 ^ 16)), Z.mod_pow2_bits_high, andb_false_r by lia. done. }
  rewrite <- Z.lxor_lor, <- Z.add_nocarry_lxor by done. by rewrite Z.shiftl_mul_pow2.
Qed.
Lemma hextets_value_hextets ip : 0 <= ip < 2 ^ 128 → hextets_value (hextets ip) = ip.
Proof.
  intros Hip. pose proof (hextets_range ip) as H. unfold hextets_value, hextets in *. cbn [map foldl] in *.
  repeat rewrite Forall_cons in H. destruct H as (? & ? & ? & ? & ? & ? & ? & ? & _).
  rewrite !lor_hextet by done. clear - Hip.
  change 65535 with (Z.ones 16). rewrite !Z.land_ones, !Z.shiftr_div_pow2 by done.
  change (16 * 0) with 0. change (16 * 1) with 16. change (16 * 2) with 32. change (16 * 3) with 48.
  change (16 * 4) with 64. change (16 * 5) with 80. change (16 * 6) with 96. change (16 * 7) with 112.
  assert (Hd : ∀ k, 0 <= k → ip / 2 ^ (k + 16) * 65536 + (ip / 2 ^ k) mod 2 ^ 16 = ip / 2 ^ k).
  { intros k Hk. rewrite Z.pow_add_r, <- Z.div_div by (lia || apply Z.pow_pos_nonneg; lia).
    change 65536 with (2 ^ 16). pose proof (Z.div_mod (ip / 2 ^ k) (2 ^ 16)). lia. }
  pose proof (Hd 0) as H0. pose proof (Hd 16) as H1. pose proof (Hd 32) as H2. pose proof (Hd 48) as H3.
  pose proof (Hd 64) as H4. pose proof (Hd 80) as H5. pose proof (Hd 96) as H6. clear Hd.
  assert ((ip / 2 ^ 112) mod 2 ^ 16 = ip / 2 ^ 112) as H7 by (apply Z.mod_small; Z.div_mod_to_equations; lia).
  change (0 + 16) with 16 in *. change (16 + 16) with 32 in *. change (32 + 16) with 48 in *. change (48 + 16) with 64 in *.
  change (64 + 16) with 80 in *. change (80 + 16) with 96 in *. change (96 + 16) with 112 in *.
  rewrite H7, Z.mul_0_l, Z.add_0_l, H6, H5, H4, H3, H2, H1, H0 by done. apply Z.div_1_r.
Qed.

(** ** Compression

    Which hextets are left out depends only on which are zero: the positions that [_compress_hextets]
    keeps, [None] for an empty text. *)

Definition compress_positions (zeros : list bool) : list (option nat) :=
  let positions := map Some (seq 0 (List.length zeros)) in
  let s := runs (mk_run 0 0 0 0) 0 zeros in
  if (1 <? best_len s)%nat then
    let best_end := (best_start s + best_len s)%nat in
    let positions' := if (best_end =? List.length zeros)%nat then (positions ++ [None])%list else positions in
    let spliced := (take (best_start s) positions' ++ None :: drop best_end positions')%list in
    if (best_start s =? 0)%nat then None :: spliced else spliced
  else positions.
Definition text_at (texts : list string) (p : option nat) : string :=
  match p with Some i => nth i texts "" | None => "" end.
Lemma map_text_at texts : map (text_at texts) (map Some (seq 0 (List.length texts))) = texts.
Proof.
  induction texts as [|t texts IH]; [done|]. cbn [List.length seq map text_at nth]. f_equal.
  rewrite <- seq_shift, !map_map. rewrite map_map in IH. exact IH.
Qed.
Lemma compress_texts texts :
  _compress_hextets texts = map (text_at texts) (compress_positions (map (λ h, (h =? "0")%string) texts)).
Proof.
  unfold _compress_hextets, compress_positions. rewrite length_map. set (s := runs _ _ _).
  destruct (1 <? best_len s)%nat; [|by rewrite map_text_at].
  destruct (_ =? List.length texts)%nat, (best_start s =? 0)%nat; cbn [map];
    rewrite ?map_app, ?map_cons; cbn [text_at]; rewrite <- ?firstn_map, <- ?skipn_map, ?map_app, map_text_at; done.
Qed.

(** The layout depends only on which parts are empty. *)
Definition layout_of (empties : list bool) : option (nat * nat * nat) :=
  let empty i := nth i empties true in
  let count := List.length empties in
  match List.filter empty (seq 1 (count - 2)) with
  | [skip_index] =>
      let parts_hi := if empty 0%nat then (skip_index - 1)%nat else skip_index in
      let rest := (count - skip_index - 1)%nat in
      let parts_lo := if empty (count - 1)%nat then (rest - 1)%nat else rest in
      if (empty 0%nat && negb (parts_hi =? 0)%nat) || (empty (count - 1)%nat && negb (parts_lo =? 0)%nat) ||
         (_HEXTET_COUNT <=? parts_hi + parts_lo)%nat
      then None
      else Some (parts_hi, parts_lo, (_HEXTET_COUNT - (parts_hi + parts_lo))%nat)
  | [] =>
      if negb (count =? _HEXTET_COUNT)%nat || empty 0%nat || empty (count - 1)%nat then None
      else Some (count, 0%nat, 0%nat)
  | _ => None
  end.
Lemma layout_empties parts : layout parts = layout_of (map (λ p, (p =? "")%string) parts).
Proof.
  unfold layout, layout_of, skip_indices. rewrite length_map.
  assert (E : ∀ i, (nth i parts "" =? "")%string = nth i (map (λ p, (p =? "")%string) parts) true).
  { intros i. by rewrite <- (map_nth (λ p, (p =? "")%string) parts "" i). }
  rewrite <- !E. rewrite (filter_ext _ _ E). done.
Qed.

(** Every pattern of zeros: the layout of the compressed form, with the hextets left out put back,
    has every position in its place, and what was left out is zero. *)
Definition restored (zeros : list bool) (positions : list (option nat)) : bool :=
  (List.length positions =? 8)%nat &&
  forallb (λ j, match nth j positions None with Some i => (i =? j)%nat | None => nth j zeros false end) (seq 0 8).
Definition restores (zeros : list bool) : bool :=
  let ps := compress_positions zeros in
  match layout_of (map is_none ps) with
  | Some (hi, lo, skipped) =>
      let before := take hi ps in
      let after := drop (List.length ps - lo) ps in
      (3 <=? List.length ps)%nat && (List.length ps <=? 9)%nat && forallb is_some before && forallb is_some after &&
      forallb (λ p, match p with Some i => (i <? 8)%nat | None => true end) ps &&
      restored zeros (before ++ replicate skipped None ++ after)
  | None => false
  end.
Fixpoint patterns (n : nat) : list (list bool) :=
  match n with O => [[]] | S n => (map (cons true) (patterns n) ++ map (cons false) (patterns n))%list end.
Lemma in_patterns (l : list bool) : l ∈ patterns (List.length l).
Proof.
  induction l as [|b l IH]; simpl; [set_solver|]. rewrite elem_of_app, !list_elem_of_fmap. destruct b; eauto.
Qed.
Lemma all_restored zeros : List.length zeros = 8%nat → restores zeros = true.
Proof.
  intros E. pose proof (in_patterns zeros) as H. rewrite E in H. apply list_elem_of_In in H.
  clear E. revert zeros H. apply (proj1 (forallb_forall _ _)). by vm_compute.
Qed.

Definition value_at (values : list Z) (p : option nat) : Z := match p with Some i => nth i values 0 | None => 0 end.
Definition shift_in (a h : Z) : Z := Z.lor (Z.shiftl a 16) h.
Lemma accumulate_texts values ps : Forall (λ n, 0 <= n < 65536) values →
  forallb is_some ps = true → Forall (λ p, ∀ i, p = Some i → (i < List.length values)%nat) ps →
  ∀ a, accumulate_all a (map (text_at (map hextet values)) ps) = Some (foldl shift_in a (map (value_at values) ps)).
Proof.
  intros Hv Hs Hp. induction Hp as [|p ps Hp _ IH]; intros a; [done|]. simpl in Hs.
  destruct p as [i|]; [|done]. specialize (Hp i eq_refl). cbn [map accumulate_all foldl text_at value_at].
  assert (nth i (map hextet values) "" = hextet (nth i values 0)) as ->.
  { rewrite nth_indep with (d' := hextet 0) by (by rewrite length_map). apply map_nth. }
  unfold accumulate. rewrite parse_hextet_hextet; [cbn [mbind option_bind]; by apply IH|].
  rewrite Forall_forall in Hv. apply Hv, list_elem_of_In, nth_In, Hp.
Qed.
Lemma shift_in_skipped values n a :
  foldl shift_in a (map (value_at values) (replicate n None)) = Z.shiftl a (16 * Z.of_nat n).
Proof.
  revert a. induction n as [|n IH]; intros a; [done|]. cbn [replicate map foldl value_at]. rewrite IH.
  unfold shift_in. rewrite Z.lor_0_r, Z.shiftl_shiftl by lia. f_equal. lia.
Qed.
Lemma restored_values values ps : List.length values = 8%nat →
  restored (map (λ v, v =? 0) values) ps = true → map (value_at values) ps = values.
Proof.
  intros Hl [Hp Hr]%andb_prop. apply Nat.eqb_eq in Hp. rewrite forallb_forall in Hr.
  apply nth_ext with 0 0; [by rewrite length_map, Hp, Hl|]. rewrite length_map, Hp. intros j Hj.
  change 0 with (value_at values None) at 1. rewrite map_nth.
  specialize (Hr j ltac:(apply in_seq; lia)). destruct (nth j ps None) as [i|]; simpl.
  - by apply Nat.eqb_eq in Hr as ->.
  - rewrite nth_indep with (d' := 1 =? 0) in Hr by (rewrite length_map; lia).
    change (1 =? 0) with ((λ v, v =? 0) 1) in Hr. rewrite map_nth in Hr. rewrite nth_indep with (d' := 1) by lia.
    by apply Z.eqb_eq in Hr.
Qed.

Lemma text_at_char c values p : Forall (λ n, 0 <= n < 65536) values → c ∈ ["."; "/"; ":"; "%"]%char →
  has_char c (text_at (map hextet values) p) = false.
Proof.
  intros Hv Hc. destruct p as [i|]; [|done]. simpl.
  destruct (Nat.lt_ge_cases i (List.length values)).
  - rewrite nth_indep with (d' := hextet 0) by (by rewrite length_map). rewrite map_nth.
    apply hextet_char; [|done]. rewrite Forall_forall in Hv. by apply Hv, list_elem_of_In, nth_In.
  - by rewrite nth_overflow by (by rewrite length_map).
Qed.
Lemma text_at_empty values p : Forall (λ n, 0 <= n < 65536) values →
  (∀ i, p = Some i → (i < List.length values)%nat) → (text_at (map hextet values) p =? "")%string = is_none p.
Proof.
  intros Hv Hp. destruct p as [i|]; [|done]. specialize (Hp i eq_refl). simpl.
  rewrite nth_indep with (d' := hextet 0) by (by rewrite length_map). rewrite map_nth.
  apply hextet_nonempty. rewrite Forall_forall in Hv. by apply Hv, list_elem_of_In, nth_In.
Qed.
(** The zeros of a list of hextets, from their texts. *)
Lemma zeros_of values : Forall (λ n, 0 <= n < 65536) values →
  map (λ h, (h =? "0")%string) (map hextet values) = map (λ v, v =? 0) values.
Proof. intros H. rewrite map_map. apply map_ext_Forall. eapply Forall_impl; [exact H|]. apply hextet_zero. Qed.

Lemma ipv6_parts_roundtrip values : Forall (λ n, 0 <= n < 65536) values → List.length values = 8%nat →
  ipv6_from_string (join ":" (_compress_hextets (map hextet values))) = Some (hextets_value values).
Proof.
  intros Hv Hl. set (ps := compress_positions (map (λ v, v =? 0) values)).
  pose proof (all_restored (map (λ v, v =? 0) values) ltac:(by rewrite length_map)) as H. unfold restores in H. fold ps in H.
  destruct (layout_of (map is_none ps)) as [[[hi lo] skipped]|] eqn:E; [|done].
  rewrite !andb_true_iff, !Nat.leb_le in H. destruct H as (((((H3 & H9) & Hb) & Ha) & Hp) & Hr).
  assert (Hp' : Forall (λ p, ∀ i, p = Some i → (i < List.length values)%nat) ps).
  { apply Forall_forall. rewrite forallb_forall in Hp. intros p Hin%list_elem_of_In i ->. specialize (Hp _ Hin). apply Nat.ltb_lt in Hp. lia. }
  rewrite compress_texts, zeros_of by done. fold ps. set (parts := map (text_at (map hextet values)) ps).
  assert (Hparts : split_on ":" (join ":" parts) = parts).
  { apply split_on_join; [by destruct ps; [simpl in H3; lia|]|]. apply Forall_map, Forall_forall. intros p _.
    apply text_at_char; [done|set_solver]. }
  assert (List.length parts = List.length ps) as Hlen by apply length_map.
  unfold ipv6_from_string. destruct (join ":" parts =? "")%string eqn:En.
  { apply String.eqb_eq in En. rewrite En in Hparts. rewrite <- Hparts in Hlen. simpl in Hlen. lia. }
  rewrite Hparts, (proj2 (Nat.ltb_ge _ _)) by lia.
  assert (with_ipv4_suffix parts = Some parts) as ->.
  { unfold with_ipv4_suffix. destruct (last parts) as [t|] eqn:Et; [|done].
    apply last_Some_elem_of, list_elem_of_fmap in Et as (p & -> & _). rewrite text_at_char; [done|done|set_solver]. }
  cbn [mbind option_bind]. rewrite (proj2 (Nat.ltb_ge _ _)) by (unfold _HEXTET_COUNT; lia).
  assert (layout parts = Some (hi, lo, skipped)) as ->.
  { rewrite layout_empties, <- E. f_equal. unfold parts. rewrite map_map. apply map_ext_Forall.
    eapply Forall_impl; [exact Hp'|]. intros p. by apply text_at_empty. }
  cbn [mbind option_bind]. rewrite Hlen. unfold parts. rewrite firstn_map, skipn_map.
  rewrite accumulate_texts; [|done|done|by apply Forall_take]. cbn [mbind option_bind].
  rewrite accumulate_texts; [|done|done|by apply Forall_drop]. f_equal.
  rewrite <- (shift_in_skipped values), <- !foldl_app, <- !map_app.
  unfold hextets_value. fold shift_in. by rewrite restored_values.
Qed.
Lemma ipv6_roundtrip ip : 0 <= ip < 2 ^ 128 → ipv6_from_string (ipv6_string ip) = Some ip.
Proof.
  intros Hip. unfold ipv6_string. rewrite ipv6_parts_roundtrip; [|apply hextets_range|done]. by rewrite hextets_value_hextets.
Qed.

(** ** Addresses *)

Lemma has_char_ipv6 c ip : 0 <= ip < 2 ^ 128 → c ∈ ["."; "/"; "%"]%char → has_char c (ipv6_string ip) = false.
Proof.
  intros Hip Hc. unfold ipv6_string. rewrite compress_texts. pose proof (hextets_range ip).
  apply has_char_join; [by repeat (apply elem_of_cons in Hc as [->|Hc]; [done|]); apply elem_of_nil in Hc|].
  apply Forall_map, Forall_forall. intros p _. apply text_at_char; [done|set_solver].
Qed.
Lemma ipv6_string_colon ip : 0 <= ip < 2 ^ 128 → has_char ":" (ipv6_string ip) = true.
Proof.
  intros Hip. destruct (has_char ":" (ipv6_string ip)) eqn:E; [done|]. pose proof (ipv6_roundtrip ip Hip) as H.
  unfold ipv6_from_string in H. rewrite split_on_none in H by done. by destruct (_ =? "")%string.
Qed.

(** The scope of an address has no character that ends it. *)
Definition well_formed (a : address) : Prop :=
  match a with
  | V4 ip => 0 <= ip < 2 ^ 32
  | V6 ip scope => 0 <= ip < 2 ^ 128 ∧
      ∀ s, scope = Some s → s ≠ "" ∧ has_char "%" s = false ∧ has_char "/" s = false
  end.
Lemma not_ipv4 s : has_char ":" s = true → ipv4_from_string s = None.
Proof. intros H. destruct (ipv4_from_string s) as [ip|] eqn:E; [|done]. apply ipv4_from_range in E as [_ E]. congruence. Qed.
Lemma ip_address_compressed a : well_formed a → ip_address (compressed a) = Some a.
Proof.
  destruct a as [ip|ip scope]; simpl.
  - intros Hip. unfold ip_address. rewrite has_char_ipv4 by (done || set_solver). by rewrite ipv4_roundtrip.
  - intros [Hip Hs]. unfold ip_address. destruct scope as [s|].
    + destruct (Hs s eq_refl) as (Hne & Hp & Hsl). change "%" with (String "%"%char "") at 1 2 3.
      rewrite !has_char_app, has_char_ipv6, Hsl by (done || set_solver). cbn [orb].
      rewrite not_ipv4 by (rewrite has_char_app, ipv6_string_colon; done).
      unfold _split_scope_id. rewrite string_app_cons, string_app_nil, split_on_app by (apply has_char_ipv6; [done|set_solver]).
      rewrite split_on_none by done. rewrite (proj2 (String.eqb_neq _ _) Hne). cbn [mbind option_bind]. by rewrite ipv6_roundtrip.
    + rewrite has_char_ipv6 by (done || set_solver). rewrite not_ipv4 by by apply ipv6_string_colon.
      unfold _split_scope_id. rewrite split_on_none by (apply has_char_ipv6; [done|set_solver]). cbn [mbind option_bind].
      by rewrite ipv6_roundtrip.
Qed.

(** *** What is read is well formed *)

Lemma hex_value_range c v : hex_value c = Some v → 0 <= v < 16.
Proof.
  unfold hex_value, is_digit, in_range. destruct ((48 <=? code c) && (code c <=? 57)) eqn:E1; [intros [= <-]; lia|].
  destruct ((97 <=? code c) && (code c <=? 102)) eqn:E2; [intros [= <-]; lia|].
  destruct ((65 <=? code c) && (code c <=? 70)) eqn:E3; [intros [= <-]; lia|done].
Qed.
Lemma parse_hextet_range s n : _parse_hextet s = Some n → 0 <= n < 65536.
Proof.
  unfold _parse_hextet. destruct (_ || _ || _) eqn:E; [done|]. rewrite !orb_false_iff in E. destruct E as [[_ E] _].
  unfold hex_digits_value. change 65536 with (16 ^ 4).
  assert (H : ∀ s a n, 0 <= a → (fix go (acc : Z) (s : string) : option Z :=
     match s with EmptyString => Some acc | String c s' => v ← hex_value (lower_char c); go (16 * acc + v) s' end) a s = Some n →
     0 <= n < (a + 1) * 16 ^ strlen s).
  { clear. unfold strlen. induction s as [|c s IH]; intros a n Ha H; [injection H as <-; simpl; lia|].
    apply bind_Some in H as (v & Hv%hex_value_range & H). apply IH in H; [|lia]. cbn [String.length].
    rewrite Nat2Z.inj_succ, Z.pow_succ_r by lia. assert (0 < 16 ^ Z.of_nat (String.length s)) by (apply Z.pow_pos_nonneg; lia). nia. }
  intros Hn%H; [|lia]. split; [lia|]. assert (16 ^ strlen s <= 16 ^ 4) by (apply Z.pow_le_mono_r; lia). lia.
Qed.
Lemma accumulate_range parts : ∀ a n, 0 <= a → accumulate_all a parts = Some n →
  0 <= n < (a + 1) * 65536 ^ Z.of_nat (List.length parts).
Proof.
  induction parts as [|p parts IH]; intros a n Ha H; [injection H as <-; simpl; lia|].
  apply bind_Some in H as (a' & H' & H). apply bind_Some in H' as (h & Hh%parse_hextet_range & [= <-]).
  rewrite lor_hextet in H by done. apply IH in H; [|lia]. cbn [List.length]. rewrite Nat2Z.inj_succ, Z.pow_succ_r by lia.
  assert (0 < 65536 ^ Z.of_nat (List.length parts)) by (apply Z.pow_pos_nonneg; lia). nia.
Qed.
Lemma layout_sum parts hi lo skipped : layout parts = Some (hi, lo, skipped) →
  (hi + lo + skipped = 8 ∧ (lo = 0 ∨ lo ≤ List.length parts))%nat.
Proof.
  unfold layout, _HEXTET_COUNT. destruct (skip_indices parts) as [|i []]; [| |done].
  - destruct (_ || _ || _) eqn:E; [done|]. rewrite !orb_false_iff in E. destruct E as [[E%negb_false_iff%Nat.eqb_eq _] _].
    intros [= <- <- <-]. lia.
  - destruct (_ || _ || _) eqn:E; [done|]. rewrite !orb_false_iff, Nat.leb_gt in E. destruct E as [_ E]. intros [= <- <- <-].
    destruct (nth 0 parts "" =? "")%string, (nth (List.length parts - 1) parts "" =? "")%string; split; lia.
Qed.
Lemma pow_hextets_le n m : (n ≤ m)%nat → 0 < 65536 ^ Z.of_nat n <= 65536 ^ Z.of_nat m.
Proof. intros. split; [apply Z.pow_pos_nonneg; lia|apply Z.pow_le_mono_r; lia]. Qed.
Lemma ipv6_from_range s ip : ipv6_from_string s = Some ip → 0 <= ip < 2 ^ 128.
Proof.
  unfold ipv6_from_string. destruct (s =? "")%string; [done|]. destruct (_ <? 3)%nat; [done|].
  intros H. apply bind_Some in H as (parts & _ & H). destruct (_ <? _)%nat; [done|].
  apply bind_Some in H as ([[hi lo] skipped] & [Hs Hlo]%layout_sum & H). apply bind_Some in H as (a & Ha & H).
  apply accumulate_range in Ha; [|done]. rewrite Z.shiftl_mul_pow2 in H by lia.
  assert (2 ^ (16 * Z.of_nat skipped) = 65536 ^ Z.of_nat skipped) as E by (rewrite Z.pow_mul_r by lia; done). rewrite E in H.
  assert (0 < 65536 ^ Z.of_nat skipped) by (apply Z.pow_pos_nonneg; lia).
  apply accumulate_range in H; [|nia]. rewrite length_take in Ha. rewrite length_drop in H.
  pose proof (pow_hextets_le (hi `min` List.length parts) hi ltac:(lia)).
  pose proof (pow_hextets_le (List.length parts - (List.length parts - lo)) lo ltac:(lia)).
  split; [lia|]. change (2 ^ 128) with (65536 ^ 8). replace 8 with (Z.of_nat hi + (Z.of_nat skipped + Z.of_nat lo)) by lia.
  rewrite !Z.pow_add_r by lia.
  set (x := 65536 ^ Z.of_nat hi) in *. set (y := 65536 ^ Z.of_nat skipped) in *. set (z := 65536 ^ Z.of_nat lo) in *.
  assert (a * y + 1 <= x * y) by nia. nia.
Qed.
Lemma ip_address_well_formed s a : ip_address s = Some a → well_formed a.
Proof.
  unfold ip_address. destruct (has_char "/" s) eqn:Es; [done|]. destruct (ipv4_from_string s) as [ip|] eqn:E4.
  { intros [= <-]. by apply ipv4_from_range in E4 as [? _]. }
  intros H. apply bind_Some in H as ([addr scope] & Hs & H). apply bind_Some in H as (ip & Hip%ipv6_from_range & [= <-]).
  split; [done|]. intros t ->. unfold _split_scope_id in Hs.
  pose proof (split_on_parts "%" s) as Hp. pose proof (split_on_avoid "%" "/" s Es) as Ha.
  destruct (split_on "%" s) as [|a1 [|t1 []]]; simplify_eq. destruct (t1 =? "")%string eqn:E; [done|]. simplify_eq.
  rewrite !Forall_cons in Hp, Ha. apply String.eqb_neq in E. naive_solver.
Qed.

(** ** Networks are intervals *)

Definition aligned (bits : Z) (n : Z * Z) : bool :=
  (0 <=? n.2) && (n.2 <=? bits) && (n.1 mod 2 ^ (bits - n.2) =? 0).
Definition inside (bits ip : Z) (n : Z * Z) : Prop := n.1 <= ip < n.1 + 2 ^ (bits - n.2).
Definition outside (bits ip : Z) (n : Z * Z) : Prop := ip < n.1 ∨ n.1 + 2 ^ (bits - n.2) <= ip.
Lemma land_netmask bits len ip : 0 <= len <= bits → 0 <= ip < 2 ^ bits →
  Z.land ip (netmask bits len) = ip / 2 ^ (bits - len) * 2 ^ (bits - len).
Proof.
  intros Hl Hip. set (k := bits - len). rewrite <- Z.shiftr_div_pow2, <- Z.shiftl_mul_pow2 by lia.
  assert (netmask bits len = Z.shiftl (Z.ones (bits - k)) k) as ->.
  { unfold netmask. fold k. rewrite Z.ones_equiv, Z.shiftl_mul_pow2 by lia.
    replace bits with ((bits - k) + k) at 1 by lia. rewrite Z.pow_add_r by lia. lia. }
  apply Z.bits_inj'. intros i Hi. rewrite Z.land_spec. destruct (Z.lt_ge_cases i k).
  { by rewrite !Z.shiftl_spec_low, andb_false_r. }
  rewrite !Z.shiftl_spec, Z.shiftr_spec by lia. replace (i - k + k) with i by lia. destruct (Z.lt_ge_cases i bits).
  - rewrite Z.ones_spec_low, andb_true_r by lia. done.
  - rewrite Z.ones_spec_high, andb_false_r by lia. symmetry.
    rewrite <- (Z.mod_small ip (2 ^ bits)) by done. by apply Z.mod_pow2_bits_high; lia.
Qed.
Lemma in_network_spec bits ip n : aligned bits n = true → 0 <= ip < 2 ^ bits →
  in_network bits ip n = true ↔ inside bits ip n.
Proof.
  destruct n as [base len]. unfold aligned, in_network, inside. cbn [fst snd]. intros Ha Hip.
  rewrite land_netmask by lia. rewrite Z.eqb_eq. rewrite !andb_true_iff, Z.eqb_eq in Ha. destruct Ha as [[H1 H2] Hb].
  assert (0 < 2 ^ (bits - len)) by (apply Z.pow_pos_nonneg; lia). set (s := 2 ^ (bits - len)) in *. clearbody s.
  pose proof (Z.div_mod ip s ltac:(lia)). pose proof (Z.mod_pos_bound ip s ltac:(lia)).
  pose proof (Z.div_mod base s ltac:(lia)) as Hbase. rewrite Hb in Hbase.
  set (q := ip / s) in *. set (r := ip mod s) in *. set (c := base / s) in *. clearbody q r c. subst ip base.
  split; [intros; nia|]. intros. assert (q = c) by nia. subst. nia.
Qed.
Lemma in_network_false bits ip n : aligned bits n = true → 0 <= ip < 2 ^ bits →
  in_network bits ip n = false ↔ outside bits ip n.
Proof.
  intros Ha Hip. rewrite <- not_true_iff_false, in_network_spec by done. unfold inside, outside. lia.
Qed.
Lemma in_networks_false bits ip l : forallb (aligned bits) l = true → 0 <= ip < 2 ^ bits →
  in_networks bits ip l = false ↔ Forall (outside bits ip) l.
Proof.
  intros Ha Hip. unfold in_networks. induction l as [|n l IH]; [simpl; by rewrite Forall_nil|].
  simpl in *. apply andb_prop in Ha as [Hn Ha]. by rewrite orb_false_iff, Forall_cons, in_network_false, IH.
Qed.
Lemma in_networks_true bits ip l : forallb (aligned bits) l = true → 0 <= ip < 2 ^ bits →
  in_networks bits ip l = true ↔ Exists (inside bits ip) l.
Proof.
  intros Ha Hip. unfold in_networks. induction l as [|n l IH]; [simpl; by rewrite Exists_nil|].
  simpl in *. apply andb_prop in Ha as [Hn Ha]. by rewrite orb_true_iff, Exists_cons, in_network_spec, IH.
Qed.
