(* ===== verification/Settings.v ===== *)
(** * The settings

    [app/config/settings.py]: the enumerations of the runtime modes and the fields of
    [Settings] with their defaults.  Secrets are their texts, timeouts are in microseconds.  What makes
    settings acceptable is in [Config]. *)
From S2P Require Import Prelude PyStr.

Open Scope string_scope.
Open Scope Z_scope.

Inductive AppEnvironment := LOCAL | TEST | STAGING | PRODUCTION.
#[global] Instance AppEnvironment_eq_dec : EqDecision AppEnvironment.
Proof. solve_decision. Defined.

Inductive PaymentMode := PAY_DISABLED | PAY_FIXTURE | STRIPE_TEST | STRIPE_LIVE.
#[global] Instance PaymentMode_eq_dec : EqDecision PaymentMode.
Proof. solve_decision. Defined.
Definition PaymentMode_value (m : PaymentMode) : string :=
  match m with
  | PAY_DISABLED => "disabled" | PAY_FIXTURE => "fixture" | STRIPE_TEST => "stripe_test"
  | STRIPE_LIVE => "stripe_live"
  end.

Inductive CalendarMode := CAL_DISABLED | CAL_FIXTURE | CAL_PUBLIC.
#[global] Instance CalendarMode_eq_dec : EqDecision CalendarMode.
Proof. solve_decision. Defined.

Inductive BitcoinMode := BTC_DISABLED | BTC_FIXTURE | BITCOIN_CORE | ESPLORA.
#[global] Instance BitcoinMode_eq_dec : EqDecision BitcoinMode.
Proof. solve_decision. Defined.

Inductive TaskDispatchMode := TASKS_DISABLED | CLOUD_TASKS.
#[global] Instance TaskDispatchMode_eq_dec : EqDecision TaskDispatchMode.
Proof. solve_decision. Defined.

Inductive ResendSenderMode := SENDER_DISABLED | RESEND_SENDER.
#[global] Instance ResendSenderMode_eq_dec : EqDecision ResendSenderMode.
Proof. solve_decision. Defined.

Inductive ResendWebhookMode := WEBHOOK_DISABLED | RESEND_WEBHOOK.
#[global] Instance ResendWebhookMode_eq_dec : EqDecision ResendWebhookMode.
Proof. solve_decision. Defined.

Module Settings.
Record t := mk {
  app_env : AppEnvironment;
  payment_mode : PaymentMode;
  checkout_enabled : bool;
  bitcoin_verifier : BitcoinMode;
  calendar_mode : CalendarMode;
  resend_sender_mode : ResendSenderMode;
  resend_webhook_mode : ResendWebhookMode;
  task_dispatch_mode : TaskDispatchMode;
  metbull_lookup_enabled : bool;
  allowed_origins : list string;
  database_url : option string;
  token_peppers : list (Z * string);
  active_token_pepper_version : option Z;
  stripe_test_enabled : bool;
  stripe_live_enabled : bool;
  stripe_secret_key : option string;
  stripe_webhook_secret : option string;
  stripe_price_id : option string;
  checkout_amount_minor : Z;
  checkout_currency : string;
  product_version : string;
  expected_terms_version : string;
  expected_privacy_version : string;
  checkout_success_url : option string;
  checkout_cancel_url : option string;
  token_ttl_seconds : Z;
  checkout_credential_grace_seconds : Z;
  stripe_signature_tolerance_seconds : Z;
  stripe_api_timeout_seconds : Z;
  stripe_automatic_tax_enabled : bool;
  calendar_allowlist : list string;
  calendar_timeout_seconds : Z;
  bitcoin_rpc_url : option string;
  bitcoin_rpc_username : option string;
  bitcoin_rpc_password : option string;
  bitcoin_rpc_timeout_seconds : Z;
  esplora_provider_urls : list string;
  esplora_timeout_seconds : Z;
  esplora_minimum_confirmations : Z;
  cloud_tasks_project : option string;
  cloud_tasks_location : option string;
  cloud_tasks_queue : option string;
  cloud_tasks_worker_url : option string;
  cloud_tasks_service_account_email : option string;
  cloud_tasks_audience : option string;
  resend_api_key : option string;
  resend_sender : option string;
  resend_api_timeout_seconds : Z;
  resend_webhook_secret : option string;
  resend_webhook_tolerance_seconds : Z;
  trusted_proxy_ips : list string;
  checkout_rate_limit : Z;
  checkout_price_rate_limit : Z;
  webhook_rate_limit : Z;
  resend_webhook_rate_limit : Z;
  status_rate_limit : Z;
  proof_rate_limit : Z;
  rotation_rate_limit : Z;
  metbull_rate_limit : Z }.
#[global] Instance eta_t : Eta t := λ s, mk
  (app_env s) (payment_mode s) (checkout_enabled s) (bitcoin_verifier s) (calendar_mode s) (resend_sender_mode
  s) (resend_webhook_mode s) (task_dispatch_mode s) (metbull_lookup_enabled s) (allowed_origins s)
  (database_url s) (token_peppers s) (active_token_pepper_version s) (stripe_test_enabled s)
  (stripe_live_enabled s) (stripe_secret_key s) (stripe_webhook_secret s) (stripe_price_id s)
  (checkout_amount_minor s) (checkout_currency s) (product_version s) (expected_terms_version s)
  (expected_privacy_version s) (checkout_success_url s) (checkout_cancel_url s) (token_ttl_seconds s)
  (checkout_credential_grace_seconds s) (stripe_signature_tolerance_seconds s) (stripe_api_timeout_seconds s)
  (stripe_automatic_tax_enabled s) (calendar_allowlist s) (calendar_timeout_seconds s) (bitcoin_rpc_url s)
  (bitcoin_rpc_username s) (bitcoin_rpc_password s) (bitcoin_rpc_timeout_seconds s) (esplora_provider_urls s)
  (esplora_timeout_seconds s) (esplora_minimum_confirmations s) (cloud_tasks_project s) (cloud_tasks_location
  s) (cloud_tasks_queue s) (cloud_tasks_worker_url s) (cloud_tasks_service_account_email s)
  (cloud_tasks_audience s) (resend_api_key s) (resend_sender s) (resend_api_timeout_seconds s)
  (resend_webhook_secret s) (resend_webhook_tolerance_seconds s) (trusted_proxy_ips s) (checkout_rate_limit s)
  (checkout_price_rate_limit s) (webhook_rate_limit s) (resend_webhook_rate_limit s) (status_rate_limit s)
  (proof_rate_limit s) (rotation_rate_limit s) (metbull_rate_limit s).
(** [Settings()] without any setting in the environment. *)
Definition defaults : t := {|
  app_env := LOCAL;
  payment_mode := PAY_DISABLED;
  checkout_enabled := false;
  bitcoin_verifier := BTC_DISABLED;
  calendar_mode := CAL_DISABLED;
  resend_sender_mode := SENDER_DISABLED;
  resend_webhook_mode := WEBHOOK_DISABLED;
  task_dispatch_mode := TASKS_DISABLED;
  metbull_lookup_enabled := false;
  allowed_origins := [];
  database_url := None;
  token_peppers := [];
  active_token_pepper_version := None;
  stripe_test_enabled := false;
  stripe_live_enabled := false;
  stripe_secret_key := None;
  stripe_webhook_secret := None;
  stripe_price_id := None;
  checkout_amount_minor := 500;
  checkout_currency := "usd";
  product_version := "phase0";
  expected_terms_version := "phase0-v1";
  expected_privacy_version := "phase0-v1";
  checkout_success_url := None;
  checkout_cancel_url := None;
  token_ttl_seconds := 2592000;
  checkout_credential_grace_seconds := 60;
  stripe_signature_tolerance_seconds := 300;
  stripe_api_timeout_seconds := seconds 10;
  stripe_automatic_tax_enabled := false;
  calendar_allowlist := [];
  calendar_timeout_seconds := seconds 5;
  bitcoin_rpc_url := None;
  bitcoin_rpc_username := None;
  bitcoin_rpc_password := None;
  bitcoin_rpc_timeout_seconds := seconds 5;
  esplora_provider_urls := [];
  esplora_timeout_seconds := seconds 5;
  esplora_minimum_confirmations := 1;
  cloud_tasks_project := None;
  cloud_tasks_location := None;
  cloud_tasks_queue := None;
  cloud_tasks_worker_url := None;
  cloud_tasks_service_account_email := None;
  cloud_tasks_audience := None;
  resend_api_key := None;
  resend_sender := None;
  resend_api_timeout_seconds := seconds 10;
  resend_webhook_secret := None;
  resend_webhook_tolerance_seconds := 300;
  trusted_proxy_ips := [];
  checkout_rate_limit := 10;
  checkout_price_rate_limit := 60;
  webhook_rate_limit := 120;
  resend_webhook_rate_limit := 120;
  status_rate_limit := 60;
  proof_rate_limit := 20;
  rotation_rate_limit := 5;
  metbull_rate_limit := 30 |}.
End Settings.
