(* ===== verification/Payments.v ===== *)
(** * Payments

    [app/payments/service.py]: the checkout service (one order and one provider session per
    idempotency key, guarded by a lease) and the webhook service (each provider event is
    applied at most once, against the provider's canonical checkout).  The payment provider
    is a parameter. *)
From S2P Require Import Prelude PyStr Sha256 Domain Ports Db Session Tokens Url PyFloat Settings Tasks Jobs Store.

Open Scope string_scope.
Open Scope Z_scope.
Import PaymentState FulfillmentState.

(** ** Order references *)

Definition _CROCKFORD : string := "0123456789ABCDEFGHJKMNPQRSTVWXYZ".
Definition crockford (n : Z) : ascii := default zero (String.get (Z.to_nat n) _CROCKFORD).

(** [range(125, -1, -5)] *)
Definition shifts : list Z := map (λ i, 125 - 5 * Z.of_nat i) (seq 0 26).
Definition crockford_encode (value : Z) : string :=
  string_of_list_ascii (map (λ shift, crockford (Z.land (Z.shiftr value shift) 31)) shifts).

Definition _new_order_reference (now : Z) (random_bytes : bytes) : result string :=
  check! raise_when (blen random_bytes <? 10)
    (ValueError "order reference requires at least 80 random bits") in
  try! ms := int_timestamp_times now 1000 in
  let timestamp_ms := Z.land ms (Z.shiftl 1 48 - 1) in
  let value := Z.lor (Z.shiftl timestamp_ms 80) (int_from_bytes_big (take 10 random_bytes)) in
  Ok ("ts_" ++ crockford_encode value).

(** ** Checkout URLs *)

(** [_STRIPE_SESSION_ID_PATTERN.fullmatch]: the group, "test" or "live". *)
Definition _STRIPE_SESSION_ID_PATTERN (s : string) : option string :=
  if startswith "cs_test_" s && fullmatch_class is_alnum_ascii 1 500 (removeprefix "cs_test_" s) then Some "test"
  else if startswith "cs_live_" s && fullmatch_class is_alnum_ascii 1 500 (removeprefix "cs_live_" s) then Some "live"
  else None.

Definition is_hex (c : ascii) : bool := is_digit c || in_range 65 70 c || in_range 97 102 c.
Definition fragment_char (c : ascii) : bool :=
  is_alnum_ascii c || (code c =? 46) || (code c =? 95) || (code c =? 126) || (code c =? 45).
(** One or more fragment characters or percent escapes; [started] after the first. *)
Fixpoint fragment_body (started : bool) (s : string) : bool :=
  match s with
  | EmptyString => started
  | String c s' =>
      if fragment_char c then fragment_body true s'
      else match s' with
           | String h1 (String h2 s'') =>
               is_char "%" c && is_hex h1 && is_hex h2 && fragment_body true s''
           | _ => false
           end
  end.
Definition _STRIPE_FRAGMENT_PATTERN (s : string) : bool :=
  startswith "fid" s &&
  let rest := removeprefix "fid" s in
  (16 <=? strlen rest) && (strlen rest <=? 1536) && str_all (λ c, negb (code c =? 10)) rest &&
  fragment_body false rest.

(** [_UNSAFE_URL_PATTERN.search] *)
Definition unsafe_url_char (c : ascii) : bool := (code c =? 92) || (code c <=? 32) || (code c =? 127).

Section CheckoutUrl.
Context (check_netloc : string → bool).
Definition _validate_checkout_url (value session_id : string) (payment_mode : PaymentMode) : result unit :=
  let unsafe := PaymentProviderError "provider returned an unsafe checkout URL" in
  let session_match := _STRIPE_SESSION_ID_PATTERN session_id in
  try! expected_session_mode :=
    match payment_mode with
    | STRIPE_LIVE => Ok "live"
    | PAY_FIXTURE | STRIPE_TEST => Ok "test"
    | PAY_DISABLED => Raise unsafe
    end in
  try! parsed := match urlsplit check_netloc value with Ok p => Ok p | Raise _ => Raise unsafe end in
  let fragment_valid := negb (str_has (is_char "#") value) ||
                        _STRIPE_FRAGMENT_PATTERN (SplitResult.fragment parsed) in
  raise_when
    ((2048 <? strlen value) ||
     (strip is_unicode_space value != value) ||
     str_has unsafe_url_char value ||
     negb (startswith "https://checkout.stripe.com/" value) ||
     (session_match != Some expected_session_mode) ||
     (SplitResult.scheme parsed != "https") ||
     (SplitResult.netloc parsed != "checkout.stripe.com") ||
     SplitResult.has_userinfo parsed ||
     (SplitResult.path parsed != ("/c/pay/" ++ session_id)) ||
     (SplitResult.query parsed != EmptyString) ||
     negb fragment_valid)
    unsafe.
End CheckoutUrl.

(** ** The payment provider *)
Record PaymentProvider := {
  provider_mode : PaymentMode;
  create_checkout : HostedCheckoutRequest.t → string → M HostedCheckoutResult.t;
  retrieve_price : string → M ProviderPrice.t;
  verify_event : bytes → string → Z → M ProviderEvent.t;
  resolve_internal_order_id : ProviderEvent.t → M (option string);
  retrieve_checkout : string → M CanonicalCheckout.t }.

Module CheckoutInput.
Record t := mk {
  certificate_reference : string; manifest_digest : bytes; email : string;
  terms_version : string; privacy_version : string; accepted_at : Z }.
End CheckoutInput.
Module CheckoutOutput.
Record t := mk {
  order_reference : string; status_token : string; checkout_url : string;
  payment_state : string; fulfillment_state : string }.
End CheckoutOutput.
Module CheckoutPlan.
Record t := mk {
  reservation_id : uuid; order_id : uuid; order_reference : string; customer_email : string;
  price_id : string; amount_minor : Z; currency : string; success_url : string;
  cancel_url : string; provider_idempotency_key : string; lease_id : string }.
End CheckoutPlan.
Module WebhookResult.
Record t := mk { duplicate : bool; accepted : bool }.
#[global] Instance t_eq_dec : EqDecision t.
Proof. solve_decision. Defined.
End WebhookResult.

(** [body[key]] of the stored response. *)
Fixpoint body_get (body : list (string * string)) (key : string) : result string :=
  match body with
  | [] => Raise (KeyError key)
  | (k, v) :: rest => if (k =? key)%string then Ok v else body_get rest key
  end.

Definition or_str (s : option string) (d : string) : string := or_else (OrderStore.truthy s) d.

(** [text or "None"], the rendering of [str(reservation.checkout_lease_id)]. *)
Definition str_optional (s : option string) : string := or_else s "None".

Module CheckoutService.
Section Service.
Context (check_netloc : string → bool).
Context (settings : Settings.t) (store : OrderStore.t) (provider : PaymentProvider).

Definition endpoint : string := "POST:/v1/checkout".

Definition get_checkout_price : M ProviderPrice.t :=
  do! raise_if (negb (Settings.checkout_enabled settings) || (Settings.payment_mode settings == PAY_DISABLED))
    (CheckoutUnavailable "checkout is disabled") in
  do! raise_if (provider_mode provider != Settings.payment_mode settings)
    (CheckoutUnavailable "payment provider mode does not match checkout mode") in
  let price_id := or_str (Settings.stripe_price_id settings) "fixture_price" in
  let! price := retrieve_price provider price_id in
  do! raise_if ((ProviderPrice.price_id price != price_id) ||
                (ProviderPrice.amount_minor price != Settings.checkout_amount_minor settings) ||
                (ProviderPrice.currency price != Settings.checkout_currency settings))
    (CheckoutUnavailable "provider Price does not match checkout configuration") in
  ret price.

Definition _lease_expiry (now : Z) : Z :=
  now + seconds (Settings.checkout_credential_grace_seconds settings).

Definition _plan (reservation : IdempotencyRequest.row) : M CheckoutPlan.t :=
  let! order := get (R:=Order.row) (IdempotencyRequest.order_id reservation) in
  match order with
  | None => raise (IdempotencyConflict "reserved order is unavailable")
  | Some order =>
      ret {|
        CheckoutPlan.reservation_id := IdempotencyRequest.id reservation;
        CheckoutPlan.order_id := Order.id order;
        CheckoutPlan.order_reference := Order.order_reference order;
        CheckoutPlan.customer_email := Order.email order;
        CheckoutPlan.price_id := IdempotencyRequest.provider_price_id reservation;
        CheckoutPlan.amount_minor := Order.amount_minor order;
        CheckoutPlan.currency := Order.currency order;
        CheckoutPlan.success_url := IdempotencyRequest.success_url reservation;
        CheckoutPlan.cancel_url := IdempotencyRequest.cancel_url reservation;
        CheckoutPlan.provider_idempotency_key := IdempotencyRequest.provider_idempotency_key reservation;
        CheckoutPlan.lease_id := str_optional (IdempotencyRequest.checkout_lease_id reservation) |}
  end.

Definition _replay (existing : IdempotencyRequest.row) (binding : IdempotencyBinding.t) (now : Z)
    : M CheckoutOutput.t :=
  do! raise_if (IdempotencyRequest.request_hash existing != IdempotencyBinding.request_sha256 binding)
    (IdempotencyConflict "idempotency key is bound to another request") in
  let incomplete := IdempotencyConflict "idempotent request is still incomplete" in
  do! raise_if ((IdempotencyRequest.checkout_state existing != CHECKOUT_COMPLETED) ||
                is_none (IdempotencyRequest.completed_at existing)) incomplete in
  match IdempotencyRequest.response_body existing with
  | None => raise incomplete
  | Some body =>
      let! order_reference := lift (body_get body "order_reference") in
      let! order := scalar (λ o, Order.order_reference o == order_reference) in
      let unavailable := IdempotencyConflict "idempotent order is unavailable" in
      match order with
      | None => raise unavailable
      | Some order =>
          match Order.checkout_session_id order with
          | None => raise unavailable
          | Some session_id =>
              let! checkout_url := lift (body_get body "checkout_url") in
              do! lift match _validate_checkout_url check_netloc checkout_url session_id
                             (Settings.payment_mode settings) with
                       | Raise (PaymentProviderError _) =>
                           Raise (IdempotencyConflict "idempotent checkout URL is invalid")
                       | r => r
                       end in
              let! raw_token := OrderStore.issue_token store order now true in
              let! payment_state := lift (body_get body "payment_state") in
              let! fulfillment_state := lift (body_get body "fulfillment_state") in
              ret {|
                CheckoutOutput.order_reference := Order.order_reference order;
                CheckoutOutput.status_token := raw_token;
                CheckoutOutput.checkout_url := checkout_url;
                CheckoutOutput.payment_state := payment_state;
                CheckoutOutput.fulfillment_state := fulfillment_state |}
          end
      end
  end.

(** A plan to call the provider with, or the output of a completed request. *)
Definition reserved : Type := (CheckoutPlan.t + CheckoutOutput.t)%type.

Definition _resume (reservation : IdempotencyRequest.row) (binding : IdempotencyBinding.t) (now : Z)
    : M reserved :=
  let! order := get (R:=Order.row) (IdempotencyRequest.order_id reservation) in
  match order with
  | None => raise (IdempotencyConflict "reserved order is unavailable")
  | Some order =>
      do! raise_if (Order.payment_mode order != PaymentMode_value (Settings.payment_mode settings))
        (IdempotencyConflict "reserved order payment mode does not match checkout mode") in
      do! raise_if match IdempotencyRequest.checkout_lease_expires_at reservation with
                   | None => false | Some e => now <? e
                   end
        (CheckoutInProgress "checkout credential is in its grace period") in
      let! lease_id := uuid4 in
      let reservation := reservation
        <| IdempotencyRequest.checkout_lease_id := Some (str_uuid lease_id) |>
        <| IdempotencyRequest.checkout_lease_expires_at := Some (_lease_expiry now) |> in
      if IdempotencyRequest.checkout_state reservation == CHECKOUT_COMPLETED then
        do! save reservation in
        let! out := _replay reservation binding now in
        ret (inr out)
      else
        let reservation := reservation <| IdempotencyRequest.checkout_state := CHECKOUT_PROCESSING |> in
        do! save reservation in
        let! plan := _plan reservation in
        ret (inl plan)
  end.

Definition new_order (order_id : uuid) (order_reference : string) (request : CheckoutInput.t) (now : Z)
    : Order.row := {|
  Order.id := order_id;
  Order.order_reference := order_reference;
  Order.certificate_reference := CheckoutInput.certificate_reference request;
  Order.manifest_digest := CheckoutInput.manifest_digest request;
  Order.email := CheckoutInput.email request;
  Order.amount_minor := Settings.checkout_amount_minor settings;
  Order.currency := Settings.checkout_currency settings;
  Order.product_version := Settings.product_version settings;
  Order.payment_mode := PaymentMode_value (Settings.payment_mode settings);
  Order.payment_state := CHECKOUT_OPEN;
  Order.fulfillment_state := AWAITING_PAYMENT;
  Order.consent_terms_version := CheckoutInput.terms_version request;
  Order.consent_privacy_version := CheckoutInput.privacy_version request;
  Order.consent_accepted_at := CheckoutInput.accepted_at request;
  Order.checkout_session_id := None;
  Order.payment_intent_id := None;
  Order.fulfillment_key := "stamp:" ++ str_uuid order_id;
  Order.calendar_submitted_at := None;
  Order.created_at := now;
  Order.updated_at := now |}.

Definition new_reservation (id order_id lease_id : uuid) (binding : IdempotencyBinding.t) (now : Z)
    : IdempotencyRequest.row := {|
  IdempotencyRequest.id := id;
  IdempotencyRequest.endpoint := endpoint;
  IdempotencyRequest.key_hash := IdempotencyBinding.key_sha256 binding;
  IdempotencyRequest.request_hash := IdempotencyBinding.request_sha256 binding;
  IdempotencyRequest.order_id := order_id;
  IdempotencyRequest.provider_idempotency_key := bytes_hex (IdempotencyBinding.key_sha256 binding);
  IdempotencyRequest.provider_price_id := or_str (Settings.stripe_price_id settings) "fixture_price";
  IdempotencyRequest.success_url :=
    or_str (Settings.checkout_success_url settings) "https://example.test/timestamp/status";
  IdempotencyRequest.cancel_url :=
    or_str (Settings.checkout_cancel_url settings) "https://example.test/timestamp/cancelled";
  IdempotencyRequest.checkout_state := CHECKOUT_PROCESSING;
  IdempotencyRequest.checkout_lease_id := Some (str_uuid lease_id);
  IdempotencyRequest.checkout_lease_expires_at := Some (_lease_expiry now);
  IdempotencyRequest.response_status := None;
  IdempotencyRequest.response_body := None;
  IdempotencyRequest.completed_at := None;
  IdempotencyRequest.created_at := now |}.

(** The branch of [_reserve] for a key that has a reservation. *)
Definition resume_existing (existing : IdempotencyRequest.row) (binding : IdempotencyBinding.t) (now : Z)
    : M reserved :=
  do! raise_if (IdempotencyRequest.request_hash existing != IdempotencyBinding.request_sha256 binding)
    (IdempotencyConflict "idempotency key is bound to another request") in
  _resume existing binding now.

Definition reserve_tx (request : CheckoutInput.t) (binding : IdempotencyBinding.t) (now : Z)
    (random_bytes : bytes) : M reserved :=
  atomically (
    let! existing := OrderStore.find_idempotency endpoint (IdempotencyBinding.key_sha256 binding) in
    match existing with
    | Some existing => resume_existing existing binding now
    | None =>
        let! order_id := uuid4 in
        let! order_reference := lift (_new_order_reference now random_bytes) in
        let! lease_id := uuid4 in
        let order := new_order order_id order_reference request now in
        do! add order in
        let! reservation_id := uuid4 in
        let reservation := new_reservation reservation_id order_id lease_id binding now in
        do! add reservation in
        do! OrderStore.record_state_event order ("checkout:" ++ str_uuid (Order.id order)) "checkout"
              (Order.payment_state order) (Order.fulfillment_state order) now in
        let! plan := _plan reservation in
        ret (inl plan)
    end).

(** The transaction that follows a lost race for the key. *)
Definition resume_tx (binding : IdempotencyBinding.t) (now : Z) (e : exn) : M reserved :=
  atomically (
    let! existing := OrderStore.find_idempotency endpoint (IdempotencyBinding.key_sha256 binding) in
    match existing with
    | None => raise e
    | Some existing => resume_existing existing binding now
    end).
Definition _reserve (request : CheckoutInput.t) (binding : IdempotencyBinding.t) (now : Z)
    (random_bytes : bytes) : M reserved :=
  try_except (reserve_tx request binding now random_bytes)
    (λ e, if e == IntegrityError then Some (resume_tx binding now e) else None).

Definition _call_provider (plan : CheckoutPlan.t) : M HostedCheckoutResult.t :=
  let! price := get_checkout_price in
  do! raise_if ((ProviderPrice.price_id price != CheckoutPlan.price_id plan) ||
                (ProviderPrice.amount_minor price != CheckoutPlan.amount_minor plan) ||
                (ProviderPrice.currency price != CheckoutPlan.currency plan))
    (CheckoutUnavailable "provider Price does not match reserved checkout") in
  create_checkout provider {|
    HostedCheckoutRequest.internal_order_id := str_uuid (CheckoutPlan.order_id plan);
    HostedCheckoutRequest.order_reference := CheckoutPlan.order_reference plan;
    HostedCheckoutRequest.customer_email := CheckoutPlan.customer_email plan;
    HostedCheckoutRequest.price_id := CheckoutPlan.price_id plan;
    HostedCheckoutRequest.amount_minor := CheckoutPlan.amount_minor plan;
    HostedCheckoutRequest.currency := CheckoutPlan.currency plan;
    HostedCheckoutRequest.success_url := CheckoutPlan.success_url plan;
    HostedCheckoutRequest.cancel_url := CheckoutPlan.cancel_url plan |}
    (CheckoutPlan.provider_idempotency_key plan).

Definition _finalize (plan : CheckoutPlan.t) (binding : IdempotencyBinding.t)
    (result : HostedCheckoutResult.t) (now : Z) : M CheckoutOutput.t :=
  atomically (
    let! reservation := scalar (λ r, IdempotencyRequest.id r == CheckoutPlan.reservation_id plan) in
    match reservation with
    | None => raise (IdempotencyConflict "idempotent reservation is unavailable")
    | Some reservation =>
        do! raise_if (IdempotencyRequest.request_hash reservation != IdempotencyBinding.request_sha256 binding)
          (IdempotencyConflict "idempotent reservation is unavailable") in
        do! raise_if (IdempotencyRequest.checkout_state reservation == CHECKOUT_COMPLETED)
          (CheckoutInProgress "checkout credential is in its grace period") in
        do! raise_if ((IdempotencyRequest.checkout_state reservation != CHECKOUT_PROCESSING) ||
                      (IdempotencyRequest.checkout_lease_id reservation != Some (CheckoutPlan.lease_id plan)) ||
                      match IdempotencyRequest.checkout_lease_expires_at reservation with
                      | None => true | Some e => e <=? now
                      end)
          (CheckoutInProgress "checkout processing lease is unavailable") in
        let! order := scalar (λ o, Order.id o == IdempotencyRequest.order_id reservation) in
        match order with
        | None => raise (IdempotencyConflict "idempotent order is unavailable")
        | Some order =>
            do! raise_if (Order.payment_mode order != PaymentMode_value (Settings.payment_mode settings))
              (IdempotencyConflict "reserved order payment mode does not match checkout mode") in
            do! raise_if (negb (Order.checkout_session_id order is_in
                                 [None; Some (HostedCheckoutResult.session_id result)]))
              (IdempotencyConflict "provider session conflicts with reserved order") in
            let order := order
              <| Order.checkout_session_id := Some (HostedCheckoutResult.session_id result) |>
              <| Order.updated_at := now |> in
            do! save order in
            let! raw_token := OrderStore.issue_token store order now false in
            let payment_state := PaymentState.value (Order.payment_state order) in
            let fulfillment_state := FulfillmentState.value (Order.fulfillment_state order) in
            let safe_response := [
              ("order_reference", Order.order_reference order);
              ("checkout_url", HostedCheckoutResult.checkout_url result);
              ("payment_state", payment_state);
              ("fulfillment_state", fulfillment_state)] in
            do! save (reservation
              <| IdempotencyRequest.checkout_state := CHECKOUT_COMPLETED |>
              <| IdempotencyRequest.response_status := Some 201 |>
              <| IdempotencyRequest.response_body := Some safe_response |>
              <| IdempotencyRequest.completed_at := Some now |>
              <| IdempotencyRequest.checkout_lease_expires_at := Some (_lease_expiry now) |>) in
            ret {|
              CheckoutOutput.order_reference := Order.order_reference order;
              CheckoutOutput.status_token := raw_token;
              CheckoutOutput.checkout_url := HostedCheckoutResult.checkout_url result;
              CheckoutOutput.payment_state := payment_state;
              CheckoutOutput.fulfillment_state := fulfillment_state |}
        end
    end).

Definition create (request : CheckoutInput.t) (binding : IdempotencyBinding.t) (now : Z)
    (random_bytes : bytes) : M CheckoutOutput.t :=
  do! raise_if (negb (Settings.checkout_enabled settings)) (CheckoutUnavailable "checkout is disabled") in
  do! raise_if (Settings.payment_mode settings == PAY_DISABLED) (CheckoutUnavailable "checkout is disabled") in
  do! raise_if ((CheckoutInput.terms_version request != Settings.expected_terms_version settings) ||
                (CheckoutInput.privacy_version request != Settings.expected_privacy_version settings))
    (ValueError "checkout policy version mismatch") in
  do! raise_if (provider_mode provider != Settings.payment_mode settings)
    (CheckoutUnavailable "payment provider mode does not match checkout mode") in
  let! r := _reserve request binding now random_bytes in
  match r with
  | inr out => ret out
  | inl plan =>
      let! result := _call_provider plan in
      do! lift (_validate_checkout_url check_netloc (HostedCheckoutResult.checkout_url result)
                  (HostedCheckoutResult.session_id result) (Settings.payment_mode settings)) in
      let! finished := now_utc in
      _finalize plan binding result finished
  end.
End Service.
End CheckoutService.

Module WebhookService.
Section Service.
Context (settings : Settings.t) (store : OrderStore.t) (provider : PaymentProvider).

Definition expected_livemode : bool := Settings.payment_mode settings == STRIPE_LIVE.
Definition refund_events : list string := ["charge.refunded"; "refund.created"; "refund.updated"].
Definition dispute_events : list string := ["charge.dispute.created"; "charge.dispute.updated"].
Definition complete_events : list string :=
  ["checkout.session.completed"; "checkout.session.async_payment_succeeded";
   "checkout.session.async_payment_failed"].

Definition _duplicate_result (recorded : StripeEvent.row) (event : ProviderEvent.t) (payload_hash : bytes)
    : WebhookResult.t :=
  let exact := (StripeEvent.payload_sha256 recorded == payload_hash) &&
               (StripeEvent.event_type recorded == ProviderEvent.event_type event) &&
               (StripeEvent.livemode recorded == ProviderEvent.livemode event) &&
               is_some (StripeEvent.processed_at recorded) in
  WebhookResult.mk exact (exact && is_none (StripeEvent.safe_error_code recorded)).

Definition _authoritative_full_refund (event : ProviderEvent.t) (canonical : CanonicalCheckout.t) : bool :=
  (ProviderEvent.refund_status event == Some "succeeded") &&
  match ProviderEvent.refunded_amount event with None => false | Some a => 0 <? a end &&
  (CanonicalCheckout.refund_status canonical == Some "succeeded") &&
  (CanonicalCheckout.refunded_amount_total canonical == CanonicalCheckout.amount_total canonical) &&
  (0 <? CanonicalCheckout.amount_total canonical).

Definition base_valid (order : Order.row) (event : ProviderEvent.t) (canonical : CanonicalCheckout.t) : bool :=
  let expected_price := or_str (Settings.stripe_price_id settings) "fixture_price" in
  (ProviderEvent.livemode event == expected_livemode) &&
  (CanonicalCheckout.livemode canonical == expected_livemode) &&
  (CanonicalCheckout.mode canonical == "payment") &&
  (CanonicalCheckout.metadata canonical == [("order_id", str_uuid (Order.id order))]) &&
  (Some (CanonicalCheckout.session_id canonical) == Order.checkout_session_id order) &&
  (ProviderEvent.session_id event is_in [None; Some (CanonicalCheckout.session_id canonical)]) &&
  (ProviderEvent.payment_intent_id event is_in [None; CanonicalCheckout.payment_intent_id canonical]) &&
  (Order.payment_intent_id order is_in [None; CanonicalCheckout.payment_intent_id canonical]) &&
  (CanonicalCheckout.price_id canonical == expected_price) &&
  (CanonicalCheckout.amount_total canonical == Order.amount_minor order) &&
  (CanonicalCheckout.currency canonical == Order.currency order) &&
  (CanonicalCheckout.quantity canonical == 1) &&
  (Order.payment_mode order == PaymentMode_value (Settings.payment_mode settings)) &&
  (Settings.payment_mode settings is_in [PAY_FIXTURE; STRIPE_TEST; STRIPE_LIVE]).

Definition _valid_binding (order : Order.row) (event : ProviderEvent.t) (canonical : CanonicalCheckout.t) : bool :=
  let event_type := ProviderEvent.event_type event in
  if negb (base_valid order event canonical) then false
  else if (event_type is_in complete_events) && (CanonicalCheckout.status canonical != "complete") then false
  else if (event_type == "checkout.session.expired") && (CanonicalCheckout.status canonical != "expired") then false
  else if (event_type is_in refund_events) && negb (_authoritative_full_refund event canonical) then true
  else
    let pi_required :=
      (event_type is_in ("checkout.session.async_payment_succeeded" :: refund_events ++ dispute_events)%list) ||
      ((event_type == "checkout.session.completed") && (CanonicalCheckout.payment_status canonical == "paid")) in
    negb pi_required ||
    (is_some (ProviderEvent.payment_intent_id event) &&
     is_some (CanonicalCheckout.payment_intent_id canonical) &&
     (ProviderEvent.payment_intent_id event == CanonicalCheckout.payment_intent_id canonical)).

(** The payment state that the event asks for, if any. *)
Definition event_target (event : ProviderEvent.t) (canonical : CanonicalCheckout.t) : option PaymentState.t :=
  let event_type := ProviderEvent.event_type event in
  let payment_status := CanonicalCheckout.payment_status canonical in
  if event_type == "checkout.session.completed" then
    if payment_status == "paid" then Some PAID
    else if payment_status == "unpaid" then Some PROCESSING
    else None
  else if event_type == "checkout.session.async_payment_succeeded" then
    if payment_status != "paid" then None else Some PAID
  else if event_type == "checkout.session.async_payment_failed" then
    if payment_status == "paid" then None else Some FAILED
  else if event_type == "checkout.session.expired" then Some EXPIRED
  else if event_type is_in refund_events then
    if negb (_authoritative_full_refund event canonical) then None else Some REFUNDED
  else if event_type is_in dispute_events then Some DISPUTED
  else None.

Definition _apply_event (order : Order.row) (event : ProviderEvent.t) (canonical : CanonicalCheckout.t)
    : Order.row * bool :=
  match event_target event canonical with
  | None => (order, false)
  | Some target => OrderStore.transition_payment order target
  end.

(** The order as the transaction leaves it, and whether the payment state changed. *)
Definition applied_order (order : Order.row) (event : ProviderEvent.t) (canonical : CanonicalCheckout.t) (now : Z)
    : Order.row * bool :=
  let '(order, changed) := _apply_event order event canonical in
  let order := order <| Order.updated_at := now |> in
  let order :=
    match OrderStore.truthy (CanonicalCheckout.payment_intent_id canonical), Order.payment_intent_id order with
    | Some intent, None => order <| Order.payment_intent_id := Some intent |>
    | _, _ => order
    end in
  let order :=
    if changed && (Order.payment_state order == PAID)
    then order <| Order.fulfillment_state := QUEUED |> else order in
  (order, changed).

Definition reject (recorded : StripeEvent.row) (code : string) (now : Z) : M WebhookResult.t :=
  do! save (recorded <| StripeEvent.safe_error_code := Some code |>
                     <| StripeEvent.processed_at := Some now |>) in
  ret (WebhookResult.mk false false).

Definition enqueue_paid (order : Order.row) (now : Z) : M unit :=
  let! existing_job := scalar (λ j, DurableJob.job_key j == Order.fulfillment_key order) in
  when (is_none existing_job) (
    do! enqueue_fulfillment_once order now in
    enqueue_outbox_once order "payment_confirmed" now).

(** The transaction of [process]. *)
Definition process_tx (event : ProviderEvent.t) (payload_hash : bytes)
    (canonical : option CanonicalCheckout.t) (now : Z) : M WebhookResult.t :=
  atomically (
    let! duplicate := scalar (λ e, StripeEvent.stripe_event_id e == ProviderEvent.event_id event) in
    match duplicate with
    | Some duplicate => ret (_duplicate_result duplicate event payload_hash)
    | None =>
        let! recorded := record_stripe_event (ProviderEvent.event_id event) (ProviderEvent.event_type event)
                           payload_hash now (ProviderEvent.livemode event) in
        let! order := OrderStore.find_order_for_event (ProviderEvent.internal_order_id event)
                        (ProviderEvent.payment_intent_id event) in
        match order, canonical with
        | Some order, Some canonical =>
            if is_none (Order.checkout_session_id order) then reject recorded "order_binding_invalid" now
            else if negb (_valid_binding order event canonical)
            then reject recorded "payment_binding_invalid" now
            else
              let '(order', changed) := applied_order order event canonical now in
              do! save order' in
              do! when changed (
                do! when (Order.payment_state order' == PAID) (enqueue_paid order' now) in
                OrderStore.record_state_event order' ("stripe:" ++ ProviderEvent.event_id event)
                  "stripe_webhook" (Order.payment_state order) (Order.fulfillment_state order) now) in
              do! save (recorded <| StripeEvent.processed_at := Some now |>) in
              ret (WebhookResult.mk false true)
        | _, _ => reject recorded "order_binding_invalid" now
        end
    end).

(** [except IntegrityError]: a concurrent delivery of the same event won the race. *)
Definition process_race (event : ProviderEvent.t) (payload_hash : bytes) (e : exn)
    : option (M WebhookResult.t) :=
  if e == IntegrityError then Some (
    let! duplicate := scalar (λ r, StripeEvent.stripe_event_id r == ProviderEvent.event_id event) in
    match duplicate with
    | Some duplicate => ret (_duplicate_result duplicate event payload_hash)
    | None => raise e
    end) else None.

(** The part of [process] that follows the duplicate check. *)
Definition process_fresh (event : ProviderEvent.t) (payload_hash : bytes) (now : Z) : M WebhookResult.t :=
  let! event :=
    if is_none (ProviderEvent.internal_order_id event) then
      let! internal_order_id := resolve_internal_order_id provider event in
      ret (event <| ProviderEvent.internal_order_id := internal_order_id |>)
    else ret event in
  let! lookup_order := OrderStore.find_order_for_event (ProviderEvent.internal_order_id event)
                         (ProviderEvent.payment_intent_id event) in
  let checkout_session_id := match lookup_order with
                             | Some o => Order.checkout_session_id o | None => None end in
  let! canonical :=
    match checkout_session_id with
    | Some session_id => let! c := retrieve_checkout provider session_id in ret (Some c)
    | None => ret None
    end in
  try_except (process_tx event payload_hash canonical now) (process_race event payload_hash).

Definition process (raw_body : bytes) (signature : string) (now : Z) : M WebhookResult.t :=
  do! raise_if (provider_mode provider != Settings.payment_mode settings)
    (PaymentProviderError "payment provider mode does not match webhook mode") in
  let! event := verify_event provider raw_body signature
                  (Settings.stripe_signature_tolerance_seconds settings) in
  do! raise_if (ProviderEvent.livemode event != expected_livemode)
    (PaymentSignatureError "webhook event mode does not match the configured payment mode") in
  let payload_hash := sha256 raw_body in
  let! duplicate := scalar (λ e, StripeEvent.stripe_event_id e == ProviderEvent.event_id event) in
  match duplicate with
  | Some duplicate => ret (_duplicate_result duplicate event payload_hash)
  | None => process_fresh event payload_hash now
  end.
End Service.
End WebhookService.
