(* ===== verification/Reference.v ===== *)
(** * Order references

    The reading of an order reference: [_new_order_reference] writes 48 bits of time and 80
    random bits in base 32, and nothing of them is lost. *)
From S2P Require Import Prelude PyStr PyFloat Domain Payments.

Open Scope string_scope.
Open Scope Z_scope.

(** ** Reading base 32 *)

Fixpoint index_of (c : ascii) (s : string) : Z :=
  match s with EmptyString => 0 | String d s' => if (c =? d)%char then 0 else 1 + index_of c s' end.
Definition crockford_value (c : ascii) : Z := index_of c _CROCKFORD.
Definition read32 (acc : Z) (l : list ascii) : Z := foldl (λ acc c, 32 * acc + crockford_value c) acc l.
Definition crockford_decode (s : string) : Z := read32 0 (list_ascii_of_string s).

Lemma crockford_digit d :
  0 <= d < 32 → crockford_value (crockford d) = d ∧ crockford_char (crockford d) = true.
Proof.
  intros Hd.
  assert ((crockford_value (crockford d) =? d) && crockford_char (crockford d) = true) as H
    by (revert d Hd; apply (forall_below (λ d, (crockford_value (crockford d) =? d) &&
                                               crockford_char (crockford d)) 32); reflexivity).
  apply andb_prop in H as [H ?]. by apply Z.eqb_eq in H.
Qed.

Lemma digit_bits v s : 0 <= s → Z.land (Z.shiftr v s) 31 = (v / 2 ^ s) mod 32.
Proof. intros. change 31 with (Z.ones 5). rewrite Z.land_ones, Z.shiftr_div_pow2 by lia. done. Qed.

(** The digits of [v] at the places below [k], the highest first. *)
Fixpoint digits (k : nat) (v : Z) : list ascii :=
  match k with
  | O => []
  | S k' => crockford ((v / 2 ^ (5 * Z.of_nat k')) mod 32) :: digits k' v
  end.

Lemma length_digits k v : List.length (digits k v) = k.
Proof. induction k; simpl; congruence. Qed.

Lemma encode_digits v : crockford_encode v = string_of_list_ascii (digits 26 v).
Proof.
  unfold crockford_encode. f_equal.
  transitivity (map (λ s, crockford ((v / 2 ^ s) mod 32)) shifts); [|done].
  apply map_ext_in. intros s Hs. rewrite digit_bits; [done|].
  apply in_map_iff in Hs as (i & <- & Hi%in_seq). lia.
Qed.

Lemma read32_digits k v acc :
  0 <= v → read32 acc (digits k v) = acc * 2 ^ (5 * Z.of_nat k) + v mod 2 ^ (5 * Z.of_nat k).
Proof.
  intros Hv. revert acc. induction k as [|k IH]; intros acc; simpl digits.
  { simpl. rewrite Z.mod_1_r. lia. }
  change (read32 acc (?c :: ?l)) with (read32 (32 * acc + crockford_value c) l).
  rewrite IH. set (p := 5 * Z.of_nat k).
  pose proof (Z.mod_pos_bound (v / 2 ^ p) 32).
  destruct (crockford_digit ((v / 2 ^ p) mod 32)) as [-> _]; [lia|].
  assert (0 < 2 ^ p) by (apply Z.pow_pos_nonneg; lia).
  replace (5 * Z.of_nat (S k)) with (p + 5) by lia. rewrite Z.pow_add_r by lia.
  change (2 ^ 5) with 32. rewrite Z.rem_mul_r by lia. lia.
Qed.

(** A number of at most 130 bits is read back from its 26 digits. *)
Lemma decode_encode v : 0 <= v < 2 ^ 130 → crockford_decode (crockford_encode v) = v.
Proof.
  intros. unfold crockford_decode.
  rewrite encode_digits, list_ascii_of_string_of_list_ascii, read32_digits by lia.
  rewrite Z.mod_small; [lia|]. exact H.
Qed.

Lemma digits_pattern k v : str_all crockford_char (string_of_list_ascii (digits k v)) = true.
Proof.
  induction k as [|k IH]; [done|]. simpl.
  pose proof (Z.mod_pos_bound (v / 2 ^ (5 * Z.of_nat k)) 32).
  destruct (crockford_digit ((v / 2 ^ (5 * Z.of_nat k)) mod 32)) as [_ ->]; [lia|done].
Qed.
Lemma length_string_of_list l : String.length (string_of_list_ascii l) = List.length l.
Proof. induction l; simpl; congruence. Qed.
Lemma encode_pattern v : _ORDER_REFERENCE ("ts_" ++ crockford_encode v) = true.
Proof.
  unfold _ORDER_REFERENCE. rewrite removeprefix_app, encode_digits.
  unfold fullmatch_class. rewrite length_string_of_list, length_digits, digits_pattern. done.
Qed.

(** ** The bits of a reference *)

Lemma big_of_ten b : 10 <= blen b → 0 <= int_from_bytes_big (take 10 b) < 2 ^ 80.
Proof.
  intros Hb. rewrite <- (reverse_involutive (take 10 b)), int_from_bytes_big_reverse.
  pose proof (int_from_bytes_little_bound (reverse (take 10 b))) as H.
  replace (blen _) with 10 in H; [exact H|].
  unfold blen in *. rewrite length_reverse, length_take. lia.
Qed.

Lemma to_bytes_int_big b : to_bytes_big (List.length b) (int_from_bytes_big b) = b.
Proof.
  rewrite <- (reverse_involutive b) at 2. rewrite int_from_bytes_big_reverse.
  unfold to_bytes_big. rewrite <- (length_reverse b), to_bytes_int_little. apply reverse_involutive.
Qed.

Lemma lor_shift a b k : 0 <= k → 0 <= b < 2 ^ k → Z.lor (Z.shiftl a k) b = a * 2 ^ k + b.
Proof.
  intros Hk Hb. rewrite <- Z.shiftl_mul_pow2 by lia. rewrite <- Z.add_lor_land.
  enough (Z.land (Z.shiftl a k) b = 0) as -> by lia.
  apply Z.bits_inj'. intros n Hn. rewrite Z.land_spec, Z.bits_0.
  destruct (Z.ltb_spec n k).
  - rewrite Z.shiftl_spec_low by lia. done.
  - apply andb_false_intro2. destruct (decide (b = 0)) as [->|]; [apply Z.bits_0|].
    apply Z.bits_above_log2; [lia|]. apply Z.log2_lt_pow2; [lia|].
    apply Z.lt_le_trans with (2 ^ k); [lia|]. apply Z.pow_le_mono_r; lia.
Qed.

(** An order reference has the format that the service accepts, and it is a faithful
    encoding: read in base 32, its upper bits are the low 48 bits of the time in
    milliseconds and its lower 80 bits are the ten random bytes, so that references that
    agree have the same time and the same random bytes. *)
Theorem order_reference_roundtrip (now : Z) (random_bytes : bytes) (reference : string)
    (made : _new_order_reference now random_bytes = Ok reference) :
  OrderReference reference = Ok reference ∧
  ∃ ms, int_timestamp_times now 1000 = Ok ms ∧
    let value := crockford_decode (removeprefix "ts_" reference) in
    value / 2 ^ 80 = ms mod 2 ^ 48 ∧
    to_bytes_big 10 (value mod 2 ^ 80) = take 10 random_bytes.
Proof.
  unfold _new_order_reference in made.
  apply result_bind_Ok in made as (u & Hlen%raise_when_Ok & made).
  apply result_bind_Ok in made as (ms & Hms & made). injection made as <-.
  apply Z.ltb_ge in Hlen. pose proof (big_of_ten _ Hlen) as Hr.
  split; [unfold OrderReference; by rewrite encode_pattern|].
  exists ms. split; [done|]. rewrite removeprefix_app.
  change (Z.shiftl 1 48 - 1) with (Z.ones 48). rewrite Z.land_ones by lia.
  rewrite lor_shift by lia.
  pose proof (Z.mod_pos_bound ms (2 ^ 48)).
  rewrite decode_encode by lia. split.
  - rewrite Z.div_add_l by lia. rewrite Z.div_small by lia. lia.
  - rewrite Z.add_comm, Z.mod_add, Z.mod_small by lia.
    rewrite <- (to_bytes_int_big (take 10 random_bytes)) at 2. f_equal.
    rewrite length_take. unfold blen in Hlen. lia.
Qed.

Lemma order_reference_roundtrip_witness :
  let random_bytes := encode "0123456789abcdef" in
  ∃ reference, _new_order_reference 1700000000123456 random_bytes = Ok reference ∧
    OrderReference reference = Ok reference.
Proof.
  intros random_bytes.
  destruct (_new_order_reference 1700000000123456 random_bytes) as [reference|e] eqn:made;
    [|exfalso; revert made; vm_compute; discriminate].
  exists reference. split; [done|].
  exact (proj1 (order_reference_roundtrip _ _ _ made)).
Defined.
