(* ===== verification/CheckoutUrl.v ===== *)
(** * Checkout URLs

    What [_validate_checkout_url] lets through: only the page of the given session on
    Stripe's host. *)
From S2P Require Import Prelude PyStr Ports Url Settings Payments.

Open Scope string_scope.
Open Scope Z_scope.

Lemma str_has_false p s : str_has p s = false → str_all (λ c, negb (p c)) s = true.
Proof.
  unfold str_has. destruct (partition p s) as [[a f] b] eqn:E. destruct f; [done|].
  apply partition_spec in E as [Ha [-> _]]. done.
Qed.
Lemma str_has_none p s a b : partition p s = (a, None, b) → str_has p s = false.
Proof. unfold str_has. by intros ->. Qed.
Lemma str_all_imp (p q : ascii → bool) s :
  (∀ c, p c = true → q c = true) → str_all p s = true → str_all q s = true.
Proof. intros H. induction s; simpl; [done|]. intros [? ?]%andb_prop. rewrite H by done. auto. Qed.

Lemma is_char_eq c d : is_char c d = true → d = c.
Proof. unfold is_char. by intros ?%Ascii.eqb_eq. Qed.

Lemma str_has_app p a b : str_has p (a ++ b) = str_has p a || str_has p b.
Proof.
  unfold str_has. induction a as [|c a IH]; [done|]. simpl. destruct (p c); [done|].
  revert IH. destruct (partition p a) as [[? []] ?], (partition p (a ++ b)) as [[? []] ?],
    (partition p b) as [[? []] ?]; done.
Qed.

Definition origin : string := "https://checkout.stripe.com".

Section Urls.
Context (check_netloc : string → bool).

(** The splitter on a URL of the origin without control characters or blanks. *)
Lemma urlsplit_origin t p :
  str_has unsafe_url_char (origin ++ "/" ++ t) = false →
  urlsplit check_netloc (origin ++ "/" ++ t) = Ok p →
  SplitResult.netloc p = "checkout.stripe.com" ∧
  ∃ query_mark fragment_mark : option ascii,
    "/" ++ t = SplitResult.path p ++
      match query_mark with Some c => String c (SplitResult.query p) | None => "" end ++
      match fragment_mark with Some c => String c (SplitResult.fragment p) | None => "" end ∧
    (query_mark = None ∨ query_mark = Some "?"%char) ∧
    (fragment_mark = None ∨ fragment_mark = Some "#"%char).
Proof.
  intros Hsafe Hsplit. unfold urlsplit in Hsplit.
  assert (lstrip c0_or_space (origin ++ "/" ++ t) = origin ++ "/" ++ t) as El by done.
  rewrite El, str_filter_id in Hsplit.
  2:{ apply (str_all_imp (λ c, negb (unsafe_url_char c))); [|by apply str_has_false].
      intros c. unfold unsafe_url_char. lia. }
  change (split_scheme (origin ++ "/" ++ t)) with ("https", "//checkout.stripe.com/" ++ t) in Hsplit.
  cbv iota beta zeta in Hsplit.
  change (startswith "//" ("//checkout.stripe.com/" ++ t)) with true in Hsplit.
  change (removeprefix "//" ("//checkout.stripe.com/" ++ t)) with ("checkout.stripe.com/" ++ t) in Hsplit.
  change (split_netloc ("checkout.stripe.com/" ++ t)) with ("checkout.stripe.com", "/" ++ t) in Hsplit.
  cbv iota beta in Hsplit.
  apply result_bind_Ok in Hsplit as (? & _ & Hsplit).
  apply result_bind_Ok in Hsplit as (? & _ & Hsplit).
  destruct (partition (is_char "#") ("/" ++ t)) as [[u f] fragment] eqn:Ef.
  destruct (partition (is_char "?") u) as [[path q] query] eqn:Eq. injection Hsplit as <-. simpl.
  split; [done|]. exists q, f.
  apply partition_spec in Ef as [_ Ef]. apply partition_spec in Eq as [_ Eq].
  destruct q as [c|]; [destruct Eq as [->%is_char_eq ->]|destruct Eq as [-> ->]];
    (destruct f as [d|]; [destruct Ef as [->%is_char_eq Ef]|destruct Ef as [Ef%eq_sym ->]]);
    (split; [|by auto]); rewrite Ef; autorewrite with str; rewrite ?string_app_assoc, ?string_app_nil_r;
    done.
Qed.
End Urls.

(** The mode in the identifier of a session. *)
Definition session_mode (payment_mode : PaymentMode) : option string :=
  match payment_mode with
  | STRIPE_LIVE => Some "live"
  | PAY_FIXTURE | STRIPE_TEST => Some "test"
  | PAY_DISABLED => None
  end.

(** C37: A checkout URL that passes validation leads to the page of the given session on
    [checkout.stripe.com] and nowhere else: it is the origin, the path [/c/pay/] and the
    session identifier (of the configured mode), then at most an empty query and a bounded
    [fid] fragment; no user information, port, other path or query survives. *)
Theorem checkout_url_is_safe (check_netloc : string → bool) (value session_id : string)
    (payment_mode : PaymentMode)
    (valid : _validate_checkout_url check_netloc value session_id payment_mode = Ok tt) :
  (∃ mode, session_mode payment_mode = Some mode ∧
    _STRIPE_SESSION_ID_PATTERN session_id = Some mode) ∧
  strlen value <= 2048 ∧
  ∃ query_mark fragment,
    value = "https://checkout.stripe.com/c/pay/" ++ session_id ++ query_mark ++ fragment ∧
    (query_mark = "" ∨ query_mark = "?") ∧
    (fragment = "" ∨ ∃ f, fragment = "#" ++ f ∧ _STRIPE_FRAGMENT_PATTERN f = true).
Proof.
  unfold _validate_checkout_url in valid.
  apply result_bind_Ok in valid as (mode & Hmode & valid).
  apply result_bind_Ok in valid as (p & Hp & valid).
  destruct (urlsplit check_netloc value) as [p'|] eqn:Hsplit; [injection Hp as ->|done].
  apply raise_when_Ok in valid. rewrite !orb_false_iff, !negb_false_iff, !bool_decide_eq_true in valid.
  destruct valid as
    ((((((((((Hlen & _) & Hsafe) & Horigin) & Hsession) & _) & _) & _) & Hpath) & Hquery) & Hfragment).
  split.
  { exists mode. split; [|done]. by destruct payment_mode; inversion Hmode. }
  split; [lia|].
  apply startswith_iff in Horigin as [t ->].
  change ("https://checkout.stripe.com/" ++ t) with (origin ++ "/" ++ t) in *.
  destruct (urlsplit_origin _ _ _ Hsafe Hsplit) as (_ & q & f & Ht & Hq & Hf).
  exists (match q with Some _ => "?" | None => "" end),
    (match f with Some _ => "#" ++ SplitResult.fragment p | None => "" end).
  rewrite Ht, Hpath, Hquery. split; [|split].
  - destruct Hq as [->| ->], Hf as [->| ->]; unfold origin; autorewrite with str;
      rewrite ?string_app_nil_r, ?string_app_assoc; done.
  - destruct q; auto.
  - destruct Hf as [->| ->]; [by left|right]. eexists. split; [done|].
    apply orb_prop in Hfragment as [H|H]; [|done]. exfalso. revert H.
    rewrite Ht, !str_has_app. simpl. by rewrite !orb_true_r.
Qed.

Lemma checkout_url_is_safe_witness :
  let value := "https://checkout.stripe.com/c/pay/cs_test_a1#fidkdWxOYHwnPyd1blpxYHZx" in
  _validate_checkout_url (λ _, true) value "cs_test_a1" STRIPE_TEST = Ok tt ∧
  ∃ mode, session_mode STRIPE_TEST = Some mode ∧ _STRIPE_SESSION_ID_PATTERN "cs_test_a1" = Some mode.
Proof.
  intros value.
  assert (_validate_checkout_url (λ _, true) value "cs_test_a1" STRIPE_TEST = Ok tt) as valid
    by (vm_compute; reflexivity).
  split; [exact valid|]. exact (proj1 (checkout_url_is_safe _ _ _ _ valid)).
Defined.
