(* ===== verification/Proofs.v ===== *)
(** * The fulfillment adapters

    [app/db/fulfillment_adapters.py]: the append-only store of proof versions, the
    fulfillment transitions keyed by events, the verification records and the stored
    bundles. *)
From S2P Require Import Prelude PyStr Sha256 Json Domain Ports Db Session.

Open Scope string_scope.
Open Scope Z_scope.
Import PaymentState FulfillmentState.

(** ** Helpers *)

(** [_uuid(value)] *)
Definition _uuid (value : string) : result uuid :=
  match UUID value with Some u => Ok u | None => Raise (ValueError "invalid_order_id") end.
Definition _require_aware (value : datetime) (error_code : string) : result unit :=
  raise_when (is_naive value) (ValueError error_code).

(** [value.lower()] and [p in s] on bytes *)
Definition byte_lower (b : byte) : byte :=
  if (65 <=? Z_of_byte b) && (Z_of_byte b <=? 90) then byte_of_Z (Z_of_byte b + 32) else b.
Fixpoint bytes_prefix (p s : bytes) : bool :=
  match p, s with
  | [], _ => true
  | x :: p', y :: s' => Byte.eqb x y && bytes_prefix p' s'
  | _, [] => false
  end.
Fixpoint bytes_contains (p s : bytes) : bool :=
  bytes_prefix p s || match s with [] => false | _ :: s' => bytes_contains p s' end.

(** The queries on an order's proofs. *)
Definition latest_version (order_id : uuid) : M (option ProofVersion.row) :=
  scalar_best (λ a b, ProofVersion.version b <? ProofVersion.version a)
    (λ p, ProofVersion.order_id p == order_id).
Definition this_version (order_id : uuid) (version : Z) (p : ProofVersion.row) : bool :=
  (ProofVersion.order_id p == order_id) && (ProofVersion.version p == version).
Definition this_verification (order_id : uuid) (version : Z) (v : ProofVerification.row) : bool :=
  (ProofVerification.order_id v == order_id) && (ProofVerification.proof_version v == version).
Definition this_bundle (order_id : uuid) (version : Z) (b : ProofBundle.row) : bool :=
  (ProofBundle.order_id b == order_id) && (ProofBundle.proof_version b == version).

(** [ORDER BY observed_at DESC, created_at DESC, id DESC LIMIT 1] *)
Definition observation_key (o : Observation.row) : list Z :=
  [Observation.observed_at o; Observation.created_at o; Observation.id o].
Definition observation_newer (a b : Observation.row) : bool :=
  negb (key_le (observation_key a) (observation_key b)).
Definition latest_observation (order_id : uuid) (version : Z) : M (option Observation.row) :=
  scalar_best observation_newer
    (λ o, (Observation.order_id o == order_id) && (Observation.proof_version o == version)).

(** [_merge_calendar_time(order, supplied)], as the order it leaves. *)
Definition _merge_calendar_time (order : Order.row) (supplied : option datetime) : result Order.row :=
  match supplied with
  | None => Ok order
  | Some s =>
      match Order.calendar_submitted_at order with
      | None => Ok (order <| Order.calendar_submitted_at := Some (_aware s) |>)
      | Some c => if c != _aware s then Raise (ValueError "calendar_submission_time_conflict") else Ok order
      end
  end.

Module FulfillmentOrder.
Record t := mk { id : string; state : OrderState.t; calendar_submitted_at : option datetime }.
#[global] Instance eta_t : Eta t := λ o, mk (id o) (state o) (calendar_submitted_at o).
End FulfillmentOrder.

Definition _order_state (value : Order.row) : result OrderState.t :=
  try! order_reference := OrderReference (Order.order_reference value) in
  try! certificate_reference := CertificateReference (Order.certificate_reference value) in
  try! manifest_digest := ManifestDigest.from_bytes (Order.manifest_digest value) in
  try! snapshot := OrderSnapshot.post_init {|
    OrderSnapshot.order_reference := order_reference;
    OrderSnapshot.certificate_reference := certificate_reference;
    OrderSnapshot.manifest_digest := manifest_digest;
    OrderSnapshot.email := Order.email value;
    OrderSnapshot.amount_minor := Order.amount_minor value;
    OrderSnapshot.currency := Order.currency value;
    OrderSnapshot.product_version := Order.product_version value;
    OrderSnapshot.payment_mode := Order.payment_mode value;
    OrderSnapshot.consent_terms_version := Order.consent_terms_version value;
    OrderSnapshot.consent_privacy_version := Order.consent_privacy_version value;
    OrderSnapshot.consent_accepted_at := Order.consent_accepted_at value |} in
  Ok (OrderState.mk (Some snapshot) (Order.payment_state value) (Order.fulfillment_state value)).

Definition _fulfillment_order (value : Order.row) : result FulfillmentOrder.t :=
  try! state := _order_state value in
  Ok (FulfillmentOrder.mk (str_uuid (Order.id value)) state
        match Order.calendar_submitted_at value with Some c => Some (utc c) | None => None end).

Definition _validate_verified (value : BitcoinVerification.t) : result unit :=
  check! raise_when (negb (BitcoinVerification.verified value)) (ValueError "verification_result_must_be_verified") in
  match BitcoinVerification.verified_at value, BitcoinVerification.block_time value with
  | Some verified_at, Some block_time =>
      check! _require_aware verified_at "verification_time_invalid" in
      check! _require_aware block_time "verification_block_time_invalid" in
      check! raise_when (match BitcoinVerification.block_height value with None => true | Some h => h <? 0 end)
        (ValueError "verification_height_invalid") in
      check! raise_when (negb (block_hash_shape (BitcoinVerification.block_hash value)))
        (ValueError "verification_block_hash_invalid") in
      check! raise_when (negb (block_hash_decodes (BitcoinVerification.block_hash value)))
        (ValueError "verification_block_hash_invalid") in
      check! raise_when (method_or_policy_invalid value) (ValueError "verification_method_or_policy_invalid") in
      raise_when (match BitcoinVerification.confirmations value with None => true | Some c => c <? 1 end)
        (ValueError "verification_confirmation_count_invalid")
  | _, _ => Raise (ValueError "verification_metadata_incomplete")
  end.

(** The fields of a result that [_validate_verified] accepts. *)
Definition verified_fields (value : BitcoinVerification.t)
    : result (datetime * Z * string * datetime * string * Z) :=
  check! _validate_verified value in
  match BitcoinVerification.verified_at value, BitcoinVerification.block_height value,
        BitcoinVerification.block_hash value, BitcoinVerification.block_time value,
        BitcoinVerification.confirmation_policy value, BitcoinVerification.confirmations value with
  | Some verified_at, Some height, Some hash, Some block_time, Some policy, Some confirmations =>
      Ok (verified_at, height, hash, block_time, policy, confirmations)
  | _, _, _, _, _, _ => Raise (Other "AssertionError")
  end.

Definition _verification_payload (value : BitcoinVerification.t) : result VerificationPayload.t :=
  try! (verified_at, height, hash, block_time, policy, confirmations) := verified_fields value in
  Ok (VerificationPayload.mk height hash block_time policy confirmations
        (BitcoinVerification.method value) verified_at).

Definition _verification_from_payload (p : VerificationPayload.t) : result BitcoinVerification.t :=
  match BitcoinVerification.post_init {|
    BitcoinVerification.verified := true;
    BitcoinVerification.method := VerificationPayload.verification_method p;
    BitcoinVerification.verified_at := Some (VerificationPayload.verified_at p);
    BitcoinVerification.block_height := Some (VerificationPayload.block_height p);
    BitcoinVerification.block_hash := Some (VerificationPayload.block_hash p);
    BitcoinVerification.block_time := Some (VerificationPayload.block_time p);
    BitcoinVerification.confirmation_policy := Some (VerificationPayload.confirmation_policy p);
    BitcoinVerification.confirmations := Some (VerificationPayload.confirmations p) |} with
  | Ok v => Ok v
  | Raise _ => Raise (ValueError "stored_verification_metadata_invalid")
  end.

Definition _verification (value : ProofVerification.row) (confirmations : Z) : result BitcoinVerification.t :=
  BitcoinVerification.post_init {|
    BitcoinVerification.verified := true;
    BitcoinVerification.method := ProofVerification.method value;
    BitcoinVerification.verified_at := Some (utc (ProofVerification.verified_at value));
    BitcoinVerification.block_height := Some (ProofVerification.block_height value);
    BitcoinVerification.block_hash := Some (ProofVerification.block_hash value);
    BitcoinVerification.block_time := Some (utc (ProofVerification.block_time value));
    BitcoinVerification.confirmation_policy := Some (ProofVerification.confirmation_policy value);
    BitcoinVerification.confirmations := Some confirmations |}.

Definition _stored_proof (value : ProofVersion.row) (order_reference : string)
    (separate_verification : option ProofVerification.row) (confirmation_count : option Z)
    (project_verification : bool) : result StoredProof.t :=
  try! verification :=
    match separate_verification, confirmation_count with
    | Some v, Some c =>
        if project_verification then try! r := _verification v c in Ok (Some r) else Ok None
    | _, _ => Ok None
    end in
  try! verification :=
    match ProofVersion.verification_metadata value with
    | Some p =>
        if project_verification && is_none verification
        then try! r := _verification_from_payload p in Ok (Some r) else Ok verification
    | None => Ok verification
    end in
  let state := if is_some verification then PROOF_BITCOIN_VERIFIED else PROOF_CALENDAR_PENDING in
  check! raise_when (ProofVersion.proof_byte_length value != blen (ProofVersion.proof_bytes value))
    (ValueError "stored_proof_length_invalid") in
  try! reference := OrderReference order_reference in
  try! target := ManifestDigest.from_bytes (ProofVersion.target_digest value) in
  StoredProof.post_init {|
    StoredProof.order_reference := reference;
    StoredProof.version := ProofVersion.version value;
    StoredProof.target_digest := target;
    StoredProof.proof_bytes := ProofVersion.proof_bytes value;
    StoredProof.proof_sha256 := ProofVersion.proof_sha256 value;
    StoredProof.proof_state := state;
    StoredProof.calendar_submitted_at := utc (ProofVersion.calendar_submitted_at value);
    StoredProof.verification := verification |}.

Definition _insert_verification (order_id : uuid) (proof_version : Z) (value : BitcoinVerification.t) : M unit :=
  let! (verified_at, height, hash, block_time, policy, _) := lift (verified_fields value) in
  let! now := now_utc in
  let! id := uuid4 in
  add {|
    ProofVerification.id := id;
    ProofVerification.order_id := order_id;
    ProofVerification.proof_version := proof_version;
    ProofVerification.method := BitcoinVerification.method value;
    ProofVerification.verified_at := dt_us verified_at;
    ProofVerification.block_height := height;
    ProofVerification.block_hash := hash;
    ProofVerification.block_time := dt_us block_time;
    ProofVerification.confirmation_policy := policy;
    ProofVerification.created_at := now |}.

Definition same_instant (stored : Z) (d : option datetime) : bool :=
  match d with Some d => stored == _aware d | None => false end.

Definition _stored_verification_matches (stored : ProofVerification.row) (value : BitcoinVerification.t) : bool :=
  (ProofVerification.method stored == BitcoinVerification.method value) &&
  (Some (ProofVerification.block_height stored) == BitcoinVerification.block_height value) &&
  (Some (ProofVerification.block_hash stored) == BitcoinVerification.block_hash value) &&
  same_instant (ProofVerification.block_time stored) (BitcoinVerification.block_time value) &&
  (Some (ProofVerification.confirmation_policy stored) == BitcoinVerification.confirmation_policy value).

Definition _observation_matches_verification (o : Observation.row) (v : ProofVerification.row) : bool :=
  (Observation.block_height o == ProofVerification.block_height v) &&
  (Observation.block_hash o == ProofVerification.block_hash v) &&
  (Observation.method o == ProofVerification.method v) &&
  (Observation.confirmation_policy o == ProofVerification.confirmation_policy v).

(** ** The stores *)

Module ProofMetadata.
Record t := mk {
  id : uuid; version : Z; target_digest : bytes; proof_sha256 : bytes; declared_length : Z;
  actual_length : Z; proof_state : ProofState; calendar_submitted_at : Z }.
#[global] Instance t_eq_dec : EqDecision t.
Proof. solve_decision. Defined.
(** The columns that [latest_metadata_query] selects. *)
Definition of_row (p : ProofVersion.row) : t :=
  mk (ProofVersion.id p) (ProofVersion.version p) (ProofVersion.target_digest p)
     (ProofVersion.proof_sha256 p) (ProofVersion.proof_byte_length p)
     (blen (ProofVersion.proof_bytes p)) (ProofVersion.proof_state p)
     (ProofVersion.calendar_submitted_at p).
End ProofMetadata.

Module SqlProofStore.
Definition matches_metadata (proof : ProofVersion.row) (metadata : ProofMetadata.t) : bool :=
  (ProofVersion.id proof == ProofMetadata.id metadata) &&
  (ProofVersion.version proof == ProofMetadata.version metadata) &&
  (ProofVersion.target_digest proof == ProofMetadata.target_digest metadata) &&
  (ProofVersion.proof_sha256 proof == ProofMetadata.proof_sha256 metadata) &&
  (ProofVersion.proof_byte_length proof == ProofMetadata.declared_length metadata) &&
  (blen (ProofVersion.proof_bytes proof) == ProofMetadata.actual_length metadata) &&
  (ProofVersion.proof_state proof == ProofMetadata.proof_state metadata) &&
  (ProofVersion.calendar_submitted_at proof == ProofMetadata.calendar_submitted_at metadata).

Definition _validate_metadata (metadata : ProofMetadata.t) : result unit :=
  raise_when
    (negb ((1 <=? ProofMetadata.declared_length metadata) &&
           (ProofMetadata.declared_length metadata <=? MAX_PROOF_BYTES)) ||
     (ProofMetadata.actual_length metadata != ProofMetadata.declared_length metadata) ||
     (blen (ProofMetadata.proof_sha256 metadata) != 32) ||
     (blen (ProofMetadata.target_digest metadata) != 32))
    (ValueError "stored_proof_metadata_invalid").

Definition latest_metadata (order_id : uuid) : M (option ProofMetadata.t) :=
  let! value := latest_version order_id in
  match value with
  | None => ret None
  | Some p =>
      let metadata := ProofMetadata.of_row p in
      do! lift (_validate_metadata metadata) in
      ret (Some metadata)
  end.

(** The row that [append] inserts. *)
Definition new_version (id : uuid) (order : Order.row) (proof : StoredProof.t)
    (metadata : option VerificationPayload.t) (now : Z) : ProofVersion.row := {|
  ProofVersion.id := id;
  ProofVersion.order_id := Order.id order;
  ProofVersion.version := StoredProof.version proof;
  ProofVersion.target_digest := ManifestDigest.value (StoredProof.target_digest proof);
  ProofVersion.proof_bytes := StoredProof.proof_bytes proof;
  ProofVersion.proof_sha256 := StoredProof.proof_sha256 proof;
  ProofVersion.proof_byte_length := StoredProof.proof_byte_length proof;
  ProofVersion.proof_state := StoredProof.proof_state proof;
  ProofVersion.calendar_submitted_at := dt_us (StoredProof.calendar_submitted_at proof);
  ProofVersion.verification_metadata := metadata;
  ProofVersion.created_at := now |}.

(** The checks of [append] against the latest version; [true] when the very same proof is
    stored already. *)
Definition append_check (order : Order.row) (latest : option ProofVersion.row) (proof : StoredProof.t)
    : result bool :=
  match latest with
  | None =>
      check! raise_when (StoredProof.version proof != 1) (ValueError "first_proof_version_must_be_one") in
      Ok false
  | Some latest =>
      if StoredProof.version proof == ProofVersion.version latest then
        try! stored := _stored_proof latest (Order.order_reference order) None None true in
        if stored == proof then Ok true else Raise (ValueError "proof_version_conflict")
      else
        check! raise_when (StoredProof.version proof != ProofVersion.version latest + 1)
          (ValueError "proof_version_must_append") in
        check! raise_when (ProofVersion.target_digest latest != ManifestDigest.value (StoredProof.target_digest proof))
          (ValueError "proof_target_is_immutable") in
        Ok false
  end.

(** [_verification_payload(proof.verification) if proof.verification else None] *)
Definition proof_metadata (proof : StoredProof.t) : result (option VerificationPayload.t) :=
  match StoredProof.verification proof with
  | Some v => try! p := _verification_payload v in Ok (Some p)
  | None => Ok None
  end.

Definition append (proof : StoredProof.t) : M unit :=
  do! raise_if (negb ((1 <=? StoredProof.proof_byte_length proof) &&
                      (StoredProof.proof_byte_length proof <=? MAX_PROOF_BYTES)))
    (ValueError "proof_size_invalid") in
  atomically (
    let! order := scalar (λ o, Order.order_reference o == StoredProof.order_reference proof) in
    match order with
    | None => raise (ValueError "proof_order_not_found")
    | Some order =>
        do! raise_if (Order.manifest_digest order != ManifestDigest.value (StoredProof.target_digest proof))
          (ValueError "proof_target_does_not_match_order") in
        let! order := lift (_merge_calendar_time order (Some (StoredProof.calendar_submitted_at proof))) in
        do! save order in
        let! latest := latest_version (Order.id order) in
        let! stored_already := lift (append_check order latest proof) in
        if (stored_already : bool) then ret tt
        else
          let! metadata := lift (proof_metadata proof) in
          let! now := now_utc in
          let! id := uuid4 in
          do! add (new_version id order proof metadata now) in
          match StoredProof.verification proof with
          | Some v => _insert_verification (Order.id order) (StoredProof.version proof) v
          | None => ret tt
          end
    end).

Definition latest_for_order (order : Order.row) : M (option StoredProof.t) :=
  let! metadata := latest_version (Order.id order) in
  match metadata with
  | None => ret None
  | Some row =>
      let selected := ProofMetadata.of_row row in
      do! lift (_validate_metadata selected) in
      let! proof := get (R:=ProofVersion.row) (ProofMetadata.id selected) in
      match proof with
      | None => raise (ValueError "stored_proof_disappeared")
      | Some proof =>
          do! raise_if (negb (matches_metadata proof selected)) (ValueError "stored_proof_changed") in
          let! verification := scalar (this_verification (Order.id order) (ProofVersion.version proof)) in
          let! observation :=
            if is_some verification then latest_observation (Order.id order) (ProofVersion.version proof)
            else ret None in
          let project_verification := Order.fulfillment_state order is_in [BITCOIN_VERIFIED; DELIVERED] in
          let! stored := lift (_stored_proof proof (Order.order_reference order) verification
            match observation with Some o => Some (Observation.observed_confirmations o) | None => None end
            project_verification) in
          ret (Some stored)
      end
  end.

Definition latest (order_reference : string) : M (option StoredProof.t) :=
  atomically (
    let! order := scalar (λ o, Order.order_reference o == order_reference) in
    match order with
    | None => ret None
    | Some order => latest_for_order order
    end).
End SqlProofStore.

Module SqlFulfillmentRepository.
Definition get_for_fulfillment (order_id : string) : M (option FulfillmentOrder.t) :=
  let! u := lift (_uuid order_id) in
  let! order := get (R:=Order.row) u in
  match order with
  | None => ret None
  | Some order => let! f := lift (_fulfillment_order order) in ret (Some f)
  end.

(** The order that a new event leaves, before the update time is set. *)
Definition advanced (order : Order.row) (target : FulfillmentState.t)
    (calendar_submitted_at : option datetime) : result Order.row :=
  try! current := _order_state order in
  try! transitioned := OrderState.transition_fulfillment current target in
  try! order := _merge_calendar_time order calendar_submitted_at in
  check! raise_when ((target == CALENDAR_PENDING) && is_none (Order.calendar_submitted_at order))
    (ValueError "calendar_submission_time_required") in
  Ok (order <| Order.fulfillment_state := OrderState.fulfillment transitioned |>).

Definition transition_fulfillment_once (order_id : string) (target : FulfillmentState.t)
    (event_key : string) (calendar_submitted_at : option datetime) : M FulfillmentOrder.t :=
  do! raise_if ((event_key == EmptyString) || (160 <? strlen event_key))
    (ValueError "fulfillment_event_key_invalid") in
  do! lift match calendar_submitted_at with
           | Some c => _require_aware c "calendar_submission_time_invalid"
           | None => Ok tt
           end in
  atomically (
    let! u := lift (_uuid order_id) in
    let! order := scalar (λ o, Order.id o == u) in
    match order with
    | None => raise (ValueError "fulfillment_order_not_found")
    | Some order =>
        let! existing := scalar (λ e, (StateEvent.order_id e == Order.id order) &&
                                      (StateEvent.event_key e == event_key)) in
        match existing with
        | Some existing =>
            do! raise_if (StateEvent.fulfillment_state existing != target)
              (ValueError "fulfillment_event_key_conflict") in
            let! order := lift (_merge_calendar_time order calendar_submitted_at) in
            do! save order in
            lift (_fulfillment_order order)
        | None =>
            let! order' := lift (advanced order target calendar_submitted_at) in
            let! now := now_utc in
            let order' := order' <| Order.updated_at := now |> in
            do! save order' in
            let! sequence := scalar_max StateEvent.sequence
                               (λ e, StateEvent.order_id e == Order.id order') in
            let! id := uuid4 in
            do! add {|
              StateEvent.id := id;
              StateEvent.order_id := Order.id order';
              StateEvent.sequence := or_else sequence 0 + 1;
              StateEvent.event_key := event_key;
              StateEvent.source := "fulfillment_worker";
              StateEvent.previous_payment_state := Order.payment_state order;
              StateEvent.payment_state := Order.payment_state order';
              StateEvent.previous_fulfillment_state := Order.fulfillment_state order;
              StateEvent.fulfillment_state := Order.fulfillment_state order';
              StateEvent.evidence := match Order.calendar_submitted_at order' with
                                     | Some c => [("calendar_submitted_at", EvTime c)]
                                     | None => []
                                     end;
              StateEvent.created_at := Order.updated_at order' |} in
            lift (_fulfillment_order order')
        end
    end).
End SqlFulfillmentRepository.

Module SqlVerificationRepository.
Definition put_verified_once (order_id : string) (proof_version : Z) (value : BitcoinVerification.t) : M unit :=
  do! lift (_validate_verified value) in
  atomically (
    let! order_uuid := lift (_uuid order_id) in
    let! order := scalar (λ o, Order.id o == order_uuid) in
    match order with
    | None => raise (ValueError "verification_order_not_found")
    | Some order =>
        let! proof := scalar (this_version order_uuid proof_version) in
        match proof with
        | None => raise (ValueError "verification_proof_not_found")
        | Some proof =>
            do! raise_if (ProofVersion.target_digest proof != Order.manifest_digest order)
              (ValueError "verification_proof_target_conflict") in
            let! existing := scalar (this_verification order_uuid proof_version) in
            match existing with
            | Some existing =>
                raise_if (negb (_stored_verification_matches existing value)) (ValueError "verification_conflict")
            | None => _insert_verification order_uuid proof_version value
            end
        end
    end).

Definition get_verified (order_id : string) (proof_version : Z) : M (option BitcoinVerification.t) :=
  let! order_uuid := lift (_uuid order_id) in
  let! value := scalar (this_verification order_uuid proof_version) in
  match value with
  | None => ret None
  | Some value =>
      let! observation := latest_observation order_uuid proof_version in
      match observation with
      | None => raise (ValueError "verification_confirmation_observation_missing")
      | Some observation =>
          do! raise_if (negb (_observation_matches_verification observation value))
            (ValueError "verification_confirmation_observation_mismatch") in
          let! v := lift (_verification value (Observation.observed_confirmations observation)) in
          ret (Some v)
      end
  end.
End SqlVerificationRepository.

Module SqlBundleRepository.
Definition sensitive (order : Order.row) (bundle : bytes) : bool :=
  let lowered_bundle := map byte_lower bundle in
  bytes_contains (encode (lower (Order.email order))) lowered_bundle ||
  bytes_contains (encode "status_token") lowered_bundle ||
  bytes_contains (encode "authorization: bearer") lowered_bundle.

Definition put_once (order_id : string) (proof_version : Z) (bundle : bytes) : M unit :=
  do! raise_if (negb ((1 <=? blen bundle) && (blen bundle <=? 12 * 1024 * 1024)))
    (ValueError "bundle_size_invalid") in
  let checksum := sha256 bundle in
  atomically (
    let! order_uuid := lift (_uuid order_id) in
    let! order := scalar (λ o, Order.id o == order_uuid) in
    match order with
    | None => raise (ValueError "bundle_order_not_found")
    | Some order =>
        do! raise_if (sensitive order bundle) (ValueError "bundle_contains_sensitive_data") in
        let! proof := scalar (this_version order_uuid proof_version) in
        match proof with
        | None => raise (ValueError "bundle_proof_not_found")
        | Some proof =>
            do! raise_if (ProofVersion.target_digest proof != Order.manifest_digest order)
              (ValueError "bundle_proof_target_conflict") in
            let! existing := scalar (this_bundle order_uuid proof_version) in
            match existing with
            | Some existing =>
                raise_if ((ProofBundle.bundle_byte_length existing != blen bundle) ||
                          (ProofBundle.bundle_sha256 existing != checksum) ||
                          (ProofBundle.bundle_bytes existing != bundle))
                  (ValueError "bundle_conflict")
            | None =>
                let! now := now_utc in
                let! id := uuid4 in
                add (ProofBundle.mk id order_uuid proof_version bundle checksum (blen bundle) now)
            end
        end
    end).

(** [get] *)
Definition get_bundle (order_id : string) (proof_version : Z) : M (option bytes) :=
  let! order_uuid := lift (_uuid order_id) in
  let! record := scalar (this_bundle order_uuid proof_version) in
  match record with
  | None => ret None
  | Some record =>
      do! raise_if ((ProofBundle.bundle_byte_length record != blen (ProofBundle.bundle_bytes record)) ||
                    (sha256 (ProofBundle.bundle_bytes record) != ProofBundle.bundle_sha256 record))
        (ValueError "stored_bundle_invalid") in
      ret (Some (ProofBundle.bundle_bytes record))
  end.
End SqlBundleRepository.
