(* ===== verification/Outbox.v ===== *)
(** * The notification adapters

    [app/db/notification_adapters.py]: the recorded confirmation observations, the
    notification outbox with its leases, and the effect of the mail provider's delivery
    events.  Every writer of an outbox payload lists its keys in the same order, so payloads
    are compared as association lists. *)
From S2P Require Import Prelude PyStr Sha256 Json Domain Ports Db Session Proofs.

Open Scope string_scope.
Open Scope Z_scope.
Import PaymentState FulfillmentState.

Definition lower_digit_underscore (c : ascii) : bool := is_lower_az c || is_digit c || (c =? "_")%char.
Definition _SAFE_ERROR_CODE (s : string) : bool := fullmatch_class lower_digit_underscore 1 64 s.
Definition _SAFE_PROVIDER_ID (s : string) : bool := fullmatch_class opaque_char 1 128 s.
Definition _SAFE_EVENT_KEY (s : string) : bool :=
  fullmatch_class (λ c, opaque_char c || (c =? ":")%char) 1 160 s.
Definition _SUPPORTED_KINDS : list string :=
  map NotificationKind_value [INITIAL_CONFIRMATION; FINAL_CONFIRMATION].

Definition message_payload (kind : NotificationKind) (order_reference : string) : list (string * string) :=
  [("template", NotificationKind_value kind); ("order_reference", order_reference)].

(** ** Matching evidence *)

Definition _verification_matches_result (stored : ProofVerification.row) (v : BitcoinVerification.t) : bool :=
  _stored_verification_matches stored v.

Definition _observation_matches_result (o : Observation.row) (proof_version : Z) (v : BitcoinVerification.t) : bool :=
  (Observation.proof_version o == proof_version) &&
  (Some (Observation.observed_confirmations o) == BitcoinVerification.confirmations v) &&
  (Some (Observation.block_height o) == BitcoinVerification.block_height v) &&
  (Some (Observation.block_hash o) == BitcoinVerification.block_hash v) &&
  (Observation.method o == BitcoinVerification.method v) &&
  (Some (Observation.confirmation_policy o) == BitcoinVerification.confirmation_policy v) &&
  same_instant (Observation.observed_at o) (BitcoinVerification.verified_at v).

Definition _project_observation (o : Observation.row) : ConfirmationObservation.t := {|
  ConfirmationObservation.id := str_uuid (Observation.id o);
  ConfirmationObservation.order_id := str_uuid (Observation.order_id o);
  ConfirmationObservation.proof_version := Observation.proof_version o;
  ConfirmationObservation.confirmations := Observation.observed_confirmations o;
  ConfirmationObservation.block_height := Observation.block_height o;
  ConfirmationObservation.block_hash := Observation.block_hash o;
  ConfirmationObservation.method := Observation.method o;
  ConfirmationObservation.confirmation_policy := Observation.confirmation_policy o;
  ConfirmationObservation.observed_at := Observation.observed_at o;
  ConfirmationObservation.event_key := Observation.event_key o |}.

(** [_validate_observation_input] and the assertions that follow it in [record_once]: the
    confirmations, height, hash, verification time and policy of the result. *)
Definition _validate_observation_input (proof_version : Z) (event_key : string) (v : BitcoinVerification.t)
    : result (Z * Z * string * datetime * string) :=
  check! raise_when ((proof_version <? 1) || negb (_SAFE_EVENT_KEY event_key))
    (ValueError "confirmation_observation_identity_invalid") in
  let invalid := ValueError "confirmation_observation_verification_invalid" in
  check! raise_when (negb (BitcoinVerification.verified v) || is_none (BitcoinVerification.block_time v)) invalid in
  match BitcoinVerification.confirmations v, BitcoinVerification.verified_at v,
        BitcoinVerification.block_height v, BitcoinVerification.block_hash v,
        BitcoinVerification.confirmation_policy v with
  | Some confirmations, Some verified_at, Some height, Some hash, Some policy =>
      check! raise_when (confirmations <? 1) invalid in
      Ok (confirmations, height, hash, verified_at, policy)
  | _, _, _, _, _ => Raise invalid
  end.

Module SqlBitcoinConfirmationObservations.
Definition record_once (order_id : string) (proof_version : Z) (event_key : string)
    (v : BitcoinVerification.t) : M ConfirmationObservation.t :=
  let! (confirmations, height, hash, verified_at, policy) :=
    lift (_validate_observation_input proof_version event_key v) in
  let! order_uuid := lift (_uuid order_id) in
  atomically (
    let! order := scalar (λ o, Order.id o == order_uuid) in
    match order with
    | None => raise (ValueError "confirmation_observation_order_not_found")
    | Some order =>
        let! proof := latest_version (Order.id order) in
        do! raise_if match proof with
                     | None => true
                     | Some p => (ProofVersion.version p != proof_version) ||
                                 (ProofVersion.target_digest p != Order.manifest_digest order)
                     end (ValueError "confirmation_observation_proof_not_current") in
        let! stored := scalar (this_verification (Order.id order) proof_version) in
        do! raise_if match stored with None => true | Some s => negb (_verification_matches_result s v) end
          (ValueError "confirmation_observation_verification_mismatch") in
        let! existing := scalar (λ o, (Observation.order_id o == Order.id order) &&
                                      (Observation.event_key o == event_key)) in
        match existing with
        | Some existing =>
            do! raise_if (negb (_observation_matches_result existing proof_version v))
              (ValueError "confirmation_observation_event_conflict") in
            ret (_project_observation existing)
        | None =>
            let! now := now_utc in
            let! id := uuid4 in
            let observation := {|
              Observation.id := id;
              Observation.order_id := Order.id order;
              Observation.proof_version := proof_version;
              Observation.observed_confirmations := confirmations;
              Observation.block_height := height;
              Observation.block_hash := hash;
              Observation.method := BitcoinVerification.method v;
              Observation.confirmation_policy := policy;
              Observation.observed_at := _aware verified_at;
              Observation.event_key := event_key;
              Observation.created_at := now |} in
            do! add observation in
            ret (_project_observation observation)
        end
    end).

Definition latest (order_id : string) (proof_version : Z) : M (option ConfirmationObservation.t) :=
  let! u := lift (_uuid order_id) in
  let! observation := latest_observation u proof_version in
  ret match observation with Some o => Some (_project_observation o) | None => None end.
End SqlBitcoinConfirmationObservations.

(** ** Enqueueing *)

Definition _validate_message (message : OutboxMessage.t) : result (NotificationKind * Z * Z) :=
  match NotificationKind_of (OutboxMessage.template message) with
  | None => Raise (ValueError "notification_kind_invalid")
  | Some kind =>
      match OutboxMessage.proof_version message, OutboxMessage.confirmation_count message with
      | Some proof_version, Some confirmation_count =>
          try! expected := notification_message kind (OutboxMessage.order_reference message)
                             (OutboxMessage.recipient message) proof_version confirmation_count in
          check! raise_when (OutboxMessage.message_key message != OutboxMessage.message_key expected)
            (ValueError "notification_message_key_invalid") in
          check! raise_when (OutboxMessage.variables message !=
                             [("order_reference", OutboxMessage.order_reference message)])
            (ValueError "outbox_variables_not_allowlisted") in
          Ok (kind, proof_version, confirmation_count)
      | _, _ => Raise (ValueError "notification_milestone_missing")
      end
  end.

Definition forbidden_words : list string := ["bearer"; "token"; "digest"; "certificate"; "proof_bytes"; "@"].
Definition serialized_payload (payload : list (string * string)) : string :=
  dumps_default (JObj (sort_fields (map (λ '(k, v), (k, JStr v)) payload))).

(** [_authoritative_observation_for_enqueue] *)
Definition _authoritative_observation_for_enqueue (order : Order.row) (proof_version confirmation_count : Z)
    : M Observation.row :=
  let! proof := latest_version (Order.id order) in
  let! verification := scalar (this_verification (Order.id order) proof_version) in
  let! observation := latest_observation (Order.id order) proof_version in
  let missing := ValueError "notification_confirmation_observation_missing" in
  match proof, verification, observation with
  | Some proof, Some verification, Some observation =>
      do! raise_if ((ProofVersion.version proof != proof_version) ||
                    (ProofVersion.target_digest proof != Order.manifest_digest order) ||
                    (Observation.observed_confirmations observation != confirmation_count) ||
                    negb (_observation_matches_verification observation verification)) missing in
      ret observation
  | _, _, _ => raise missing
  end.

Definition _same_message (existing : OutboxRecord.row) (order : Order.row) (message : OutboxMessage.t)
    (payload : list (string * string)) (proof_version : Z) (current : Observation.row) : M bool :=
  let! bound := match OutboxRecord.confirmation_observation_id existing with
                | Some o => get (R:=Observation.row) o
                | None => ret None
                end in
  let threshold := if OutboxMessage.template message == NotificationKind_value INITIAL_CONFIRMATION then 1 else 6 in
  ret ((OutboxRecord.order_id existing == Order.id order) &&
       (OutboxRecord.kind existing == OutboxMessage.template message) &&
       (OutboxRecord.recipient existing == OutboxMessage.recipient message) &&
       (OutboxRecord.payload existing == payload) &&
       (OutboxRecord.proof_version existing == Some proof_version) &&
       match OutboxRecord.confirmation_count existing with Some c => threshold <=? c | None => false end &&
       match bound with
       | None => false
       | Some bound =>
           (Observation.order_id bound == Order.id order) &&
           (Observation.proof_version bound == proof_version) &&
           (Some (Observation.observed_confirmations bound) == OutboxRecord.confirmation_count existing) &&
           (Observation.block_height bound == Observation.block_height current) &&
           (Observation.block_hash bound == Observation.block_hash current) &&
           (Observation.method bound == Observation.method current) &&
           (Observation.confirmation_policy bound == Observation.confirmation_policy current)
       end).

(** ** Leases *)

Definition unfinished_attempt (record : OutboxRecord.row) (a : NotificationAttempt.row) : bool :=
  (NotificationAttempt.outbox_id a == OutboxRecord.id record) && is_none (NotificationAttempt.finished_at a).

Definition _finish_attempt (attempt : NotificationAttempt.row) (now : Z) (outcome : string)
    (response_status : option Z) (provider_message_id safe_error_code : option string) : NotificationAttempt.row :=
  attempt <| NotificationAttempt.finished_at := Some now |>
          <| NotificationAttempt.outcome := Some outcome |>
          <| NotificationAttempt.response_status := response_status |>
          <| NotificationAttempt.provider_message_id := provider_message_id |>
          <| NotificationAttempt.safe_error_code := safe_error_code |>.

(** The lease columns cleared, with the new state and error code. *)
Definition released (record : OutboxRecord.row) (state : OutboxState) (safe_error_code : option string)
    (now : Z) : OutboxRecord.row :=
  record <| OutboxRecord.state := state |>
         <| OutboxRecord.lease_owner := None |>
         <| OutboxRecord.lease_until := None |>
         <| OutboxRecord.lease_token := None |>
         <| OutboxRecord.safe_error_code := safe_error_code |>
         <| OutboxRecord.updated_at := now |>.

Definition _claimed (record : OutboxRecord.row) (attempt : Z) (worker_id lease_token : string) (lease_until : Z)
    : result ClaimedNotification.t :=
  match OutboxRecord.proof_version record, OutboxRecord.confirmation_count record with
  | Some proof_version, Some confirmation_count =>
      match List.find (λ kv : string * string, (kv.1 =? "order_reference")%string) (OutboxRecord.payload record) with
      | None => Raise (ValueError "stored_notification_payload_invalid")
      | Some (_, text) =>
          match NotificationKind_of (OutboxRecord.kind record) with
          | None => Raise (ValueError "not a valid NotificationKind")
          | Some kind =>
              try! order_reference := OrderReference text in
              check! raise_when (negb (str_all (λ c, code c <? 128) (OutboxRecord.message_key record)))
                (ValueError "'ascii' codec can't encode character") in
              Ok {|
                ClaimedNotification.id := str_uuid (OutboxRecord.id record);
                ClaimedNotification.message_key := OutboxRecord.message_key record;
                ClaimedNotification.order_reference := order_reference;
                ClaimedNotification.kind := kind;
                ClaimedNotification.recipient := OutboxRecord.recipient record;
                ClaimedNotification.proof_version := proof_version;
                ClaimedNotification.confirmation_count := confirmation_count;
                ClaimedNotification.attempt := attempt;
                ClaimedNotification.lease_owner := worker_id;
                ClaimedNotification.lease_token := lease_token;
                ClaimedNotification.lease_until := Some lease_until;
                ClaimedNotification.idempotency_key :=
                  "resend-" ++ bytes_hex (sha256 (encode (OutboxRecord.message_key record))) |}
          end
      end
  | _, _ => Raise (ValueError "stored_notification_milestone_missing")
  end.

(** [_active_lease]: the leased row and its open attempt, or an error when the claim is stale. *)
Definition stale_lease (record : OutboxRecord.row) (message : ClaimedNotification.t) (now : Z) : bool :=
  (OutboxRecord.state record != OB_LEASED) ||
  (OutboxRecord.lease_owner record != Some (ClaimedNotification.lease_owner message)) ||
  (OutboxRecord.lease_token record != Some (ClaimedNotification.lease_token message)) ||
  (OutboxRecord.attempt_count record != ClaimedNotification.attempt message) ||
  match OutboxRecord.lease_until record with None => true | Some u => u <? now end ||
  is_some (OutboxRecord.provider_message_id record).
Definition lease_attempt (record : OutboxRecord.row) (message : ClaimedNotification.t)
    (a : NotificationAttempt.row) : bool :=
  (NotificationAttempt.outbox_id a == OutboxRecord.id record) &&
  (NotificationAttempt.attempt_number a == ClaimedNotification.attempt message) &&
  (NotificationAttempt.lease_token a == ClaimedNotification.lease_token message) &&
  is_none (NotificationAttempt.finished_at a).
Definition _active_lease (message : ClaimedNotification.t) (now : Z)
    : M (OutboxRecord.row * NotificationAttempt.row) :=
  match UUID (ClaimedNotification.id message) with
  | None => raise (ValueError "notification_claim_invalid")
  | Some record_id =>
      let! record := scalar (λ r, OutboxRecord.id r == record_id) in
      match record with
      | None => raise (ValueError "notification_lease_stale")
      | Some record =>
          do! raise_if (stale_lease record message now) (ValueError "notification_lease_stale") in
          let! attempt := scalar (lease_attempt record message) in
          match attempt with
          | None => raise (ValueError "notification_attempt_missing")
          | Some attempt => ret (record, attempt)
          end
      end
  end.

Definition _validate_worker_and_time (worker_id : string) (now : datetime) (lease_for : Z) : result unit :=
  check! raise_when (negb ((1 <=? strlen worker_id) && (strlen worker_id <=? 128)) || is_naive now)
    (ValueError "notification_claim_invalid") in
  raise_when (negb ((seconds 1 <=? lease_for) && (lease_for <=? hours 1)))
    (ValueError "notification_lease_duration_invalid").

Definition _validate_safe_error (value : string) : result unit :=
  raise_when (negb (_SAFE_ERROR_CODE value)) (ValueError "notification_safe_error_code_invalid").
Definition _validate_response_status (s : option Z) : result unit :=
  raise_when match s with None => false | Some s => negb ((100 <=? s) && (s <=? 599)) end
    (ValueError "notification_response_status_invalid").

(** ** Delivery *)

Definition _notification_observation_matches (order : Order.row) (record : OutboxRecord.row)
    (proof_version confirmation_count : Z) (observation_id : uuid)
    (verification : ProofVerification.row) (threshold : Z) : M bool :=
  let! bound := get (R:=Observation.row) observation_id in
  let! current := latest_observation (Order.id order) proof_version in
  ret match bound, current with
      | Some bound, Some current =>
          (Observation.order_id bound == Order.id order) &&
          (Observation.proof_version bound == proof_version) &&
          (Observation.observed_confirmations bound == confirmation_count) &&
          (threshold <=? Observation.observed_confirmations bound) &&
          (threshold <=? Observation.observed_confirmations current) &&
          _observation_matches_verification bound verification &&
          _observation_matches_verification current verification
      | _, _ => false
      end.

Definition _metadata_time_matches (value : datetime) (expected : Z) : bool :=
  negb (is_naive value) && (_aware value == expected).
Definition _verification_metadata_matches (p : VerificationPayload.t) (v : ProofVerification.row) : bool :=
  (VerificationPayload.verification_method p == ProofVerification.method v) &&
  _metadata_time_matches (VerificationPayload.verified_at p) (ProofVerification.verified_at v) &&
  (VerificationPayload.block_height p == ProofVerification.block_height v) &&
  (VerificationPayload.block_hash p == ProofVerification.block_hash v) &&
  _metadata_time_matches (VerificationPayload.block_time p) (ProofVerification.block_time v) &&
  (VerificationPayload.confirmation_policy p == ProofVerification.confirmation_policy v).

(** The checks on the outbox row itself; the threshold, version, count and observation. *)
Definition delivery_record (order : Order.row) (record : OutboxRecord.row) : option (Z * Z * Z * uuid) :=
  match OutboxRecord.proof_version record, OutboxRecord.confirmation_count record,
        OutboxRecord.confirmation_observation_id record, NotificationKind_of (OutboxRecord.kind record) with
  | Some proof_version, Some confirmation_count, Some observation_id, Some kind =>
      let threshold := _MINIMUM_CONFIRMATIONS kind in
      if negb (OutboxRecord.state record is_in [OB_ACCEPTED; OB_FAILED]) ||
         is_none (OutboxRecord.provider_message_id record) ||
         (confirmation_count <? threshold) ||
         (OutboxRecord.message_key record != notification_key kind proof_version (Order.order_reference order)) ||
         (OutboxRecord.recipient record != Order.email order) ||
         (OutboxRecord.payload record != message_payload kind (Order.order_reference order))
      then None
      else Some (threshold, proof_version, confirmation_count, observation_id)
  | _, _, _, _ => None
  end.

(** The checks on the latest proof of the order. *)
Definition delivery_proof (order : Order.row) (proof_version : Z) (proof : ProofVersion.row) : bool :=
  (ProofVersion.version proof == proof_version) &&
  (ProofVersion.target_digest proof == Order.manifest_digest order) &&
  (ProofVersion.proof_byte_length proof == blen (ProofVersion.proof_bytes proof)) &&
  (sha256 (ProofVersion.proof_bytes proof) == ProofVersion.proof_sha256 proof).

Definition _delivery_evidence_matches (order : Order.row) (record : OutboxRecord.row) : M bool :=
  match delivery_record order record with
  | None => ret false
  | Some (threshold, proof_version, confirmation_count, observation_id) =>
      let! proof := latest_version (Order.id order) in
      match proof with
      | None => ret false
      | Some proof =>
          if negb (delivery_proof order proof_version proof) then ret false
          else
            let! verification := scalar (this_verification (Order.id order) (ProofVersion.version proof)) in
            let! bundle := scalar (this_bundle (Order.id order) (ProofVersion.version proof)) in
            match verification, bundle with
            | Some verification, Some bundle =>
                let! observed := _notification_observation_matches order record proof_version
                                   confirmation_count observation_id verification threshold in
                ret (observed &&
                     match ProofVersion.verification_metadata proof with
                     | Some p => _verification_metadata_matches p verification
                     | None => true
                     end &&
                     (ProofBundle.bundle_byte_length bundle == blen (ProofBundle.bundle_bytes bundle)) &&
                     (sha256 (ProofBundle.bundle_bytes bundle) == ProofBundle.bundle_sha256 bundle))
            | _, _ => ret false
            end
      end
  end.

Definition nothing : WebhookProcessResult.t := WebhookProcessResult.mk false false false.

Definition _apply_delivered_event (record : OutboxRecord.row) (event : ResendWebhookEvent.row) (now : Z)
    : M WebhookProcessResult.t :=
  if (OutboxRecord.state record == OB_DELIVERED) || is_none (OutboxRecord.accepted_at record) ||
     (OutboxRecord.provider_message_id record != Some (ResendWebhookEvent.provider_message_id event)) ||
     (ResendWebhookEvent.event_type event != "email.delivered")
  then ret nothing
  else
    let! order := scalar (λ o, Order.id o == OutboxRecord.order_id record) in
    match order with
    | None => ret nothing
    | Some order =>
        let! evidence := _delivery_evidence_matches order record in
        if negb evidence then ret nothing
        else
          match NotificationKind_of (OutboxRecord.kind record) with
          | None => ret nothing
          | Some kind =>
              if negb (Order.fulfillment_state order is_in [BITCOIN_VERIFIED; DELIVERED]) then ret nothing
              else
                do! save (record <| OutboxRecord.state := OB_DELIVERED |>
                                 <| OutboxRecord.delivered_at := Some (ResendWebhookEvent.event_created_at event) |>
                                 <| OutboxRecord.safe_error_code := None |>
                                 <| OutboxRecord.updated_at := now |>) in
                if (kind == FINAL_CONFIRMATION) || (Order.fulfillment_state order == DELIVERED)
                then ret (WebhookProcessResult.mk false true false)
                else
                  let order' := order <| Order.fulfillment_state := DELIVERED |>
                                      <| Order.updated_at := now |> in
                  do! save order' in
                  let! sequence := scalar_max StateEvent.sequence
                                     (λ e, StateEvent.order_id e == Order.id order) in
                  let! id := uuid4 in
                  do! add {|
                    StateEvent.id := id;
                    StateEvent.order_id := Order.id order';
                    StateEvent.sequence := or_else sequence 0 + 1;
                    StateEvent.event_key := "resend-delivered:" ++ ResendWebhookEvent.svix_event_id event;
                    StateEvent.source := "resend_webhook";
                    StateEvent.previous_payment_state := Order.payment_state order';
                    StateEvent.payment_state := Order.payment_state order';
                    StateEvent.previous_fulfillment_state := Order.fulfillment_state order;
                    StateEvent.fulfillment_state := Order.fulfillment_state order';
                    StateEvent.evidence := [
                      ("notification_kind", EvStr (NotificationKind_value kind));
                      ("proof_version", EvInt (OutboxRecord.proof_version record));
                      ("confirmation_count", EvInt (OutboxRecord.confirmation_count record))];
                    StateEvent.created_at := now |} in
                  ret (WebhookProcessResult.mk false true true)
          end
    end.

Module SqlNotificationOutbox.
(** The constructor's options. *)
Record t := mk { idempotency_horizon : Z; max_attempts : Z }.
Definition new (horizon attempts : Z) : result t :=
  check! raise_when (negb ((minutes 1 <=? horizon) && (horizon <=? hours 24)))
    (ValueError "notification_idempotency_horizon_invalid") in
  check! raise_when (negb ((1 <=? attempts) && (attempts <=? 100)))
    (ValueError "notification_max_attempts_invalid") in
  Ok (mk horizon attempts).

Definition new_record (self : t) (id : uuid) (order : Order.row) (message : OutboxMessage.t)
    (kind : NotificationKind) (payload : list (string * string)) (proof_version confirmation_count : Z)
    (observation_id : uuid) (now : Z) : OutboxRecord.row := {|
  OutboxRecord.id := id;
  OutboxRecord.message_key := OutboxMessage.message_key message;
  OutboxRecord.order_id := Order.id order;
  OutboxRecord.kind := NotificationKind_value kind;
  OutboxRecord.recipient := OutboxMessage.recipient message;
  OutboxRecord.payload := payload;
  OutboxRecord.state := OB_AVAILABLE;
  OutboxRecord.attempt_count := 0;
  OutboxRecord.max_attempts := max_attempts self;
  OutboxRecord.available_at := now;
  OutboxRecord.lease_owner := None;
  OutboxRecord.lease_until := None;
  OutboxRecord.lease_token := None;
  OutboxRecord.proof_version := Some proof_version;
  OutboxRecord.confirmation_count := Some confirmation_count;
  OutboxRecord.confirmation_observation_id := Some observation_id;
  OutboxRecord.provider_message_id := None;
  OutboxRecord.accepted_at := None;
  OutboxRecord.delivered_at := None;
  OutboxRecord.idempotency_expires_at := Some (now + idempotency_horizon self);
  OutboxRecord.safe_error_code := None;
  OutboxRecord.created_at := now;
  OutboxRecord.updated_at := now |}.

Definition enqueue (self : t) (message : OutboxMessage.t) : M unit :=
  let! (kind, proof_version, confirmation_count) := lift (_validate_message message) in
  let payload := message_payload kind (OutboxMessage.order_reference message) in
  let serialized := lower (serialized_payload payload) in
  do! raise_if (existsb (λ w, str_contains w serialized) forbidden_words)
    (ValueError "outbox_payload_contains_sensitive_data") in
  atomically (
    let! order := scalar (λ o, Order.order_reference o == OutboxMessage.order_reference message) in
    match order with
    | None => raise (ValueError "outbox_order_not_found")
    | Some order =>
        do! raise_if (OutboxMessage.recipient message != Order.email order)
          (ValueError "outbox_recipient_does_not_match_order") in
        let! observation := _authoritative_observation_for_enqueue order proof_version confirmation_count in
        let! existing := scalar (λ r, OutboxRecord.message_key r == OutboxMessage.message_key message) in
        match existing with
        | Some existing =>
            let! same := _same_message existing order message payload proof_version observation in
            raise_if (negb same) (ValueError "outbox_message_key_conflict")
        | None =>
            let! now := now_utc in
            let! id := uuid4 in
            add (new_record self id order message kind payload proof_version confirmation_count
                   (Observation.id observation) now)
        end
    end).

Definition exhausted (now : Z) (r : OutboxRecord.row) : bool :=
  match OutboxRecord.idempotency_expires_at r with None => true | Some e => e <=? now end ||
  (OutboxRecord.max_attempts r <=? OutboxRecord.attempt_count r).
Definition lease_expired (now : Z) (r : OutboxRecord.row) : bool :=
  (OutboxRecord.state r == OB_LEASED) &&
  match OutboxRecord.lease_until r with None => false | Some u => u <? now end.
Definition terminal_candidate (now : Z) (r : OutboxRecord.row) : bool :=
  ((OutboxRecord.state r is_in [OB_AVAILABLE; OB_RETRY]) && exhausted now r) ||
  (lease_expired now r && exhausted now r).

Definition horizon_code : option string := Some "idempotency_horizon_exhausted".

Definition expire_record (now : Z) (record : OutboxRecord.row) : M unit :=
  do! (if OutboxRecord.state record == OB_LEASED then
         let! attempt := scalar (unfinished_attempt record) in
         match attempt with
         | Some a => save (_finish_attempt a now "dead_letter" None None horizon_code)
         | None => ret tt
         end
       else ret tt) in
  save (released record OB_DEAD_LETTER horizon_code now).

Definition _expire_unclaimable (now : Z) : M unit :=
  let! expired := scalars (λ r, (OutboxRecord.kind r is_in _SUPPORTED_KINDS) && terminal_candidate now r &&
                                is_none (OutboxRecord.provider_message_id r)) in
  for_each (expire_record now) (take 100 expired).

Definition claimable (now : Z) (r : OutboxRecord.row) : bool :=
  ((OutboxRecord.state r is_in [OB_AVAILABLE; OB_RETRY]) || lease_expired now r) &&
  (OutboxRecord.available_at r <=? now) && is_none (OutboxRecord.provider_message_id r) &&
  (OutboxRecord.kind r is_in _SUPPORTED_KINDS) &&
  is_some (OutboxRecord.confirmation_observation_id r) &&
  match OutboxRecord.idempotency_expires_at r with None => false | Some e => now <? e end &&
  (OutboxRecord.attempt_count r <? OutboxRecord.max_attempts r).

(** The guarded UPDATE of [claim], and its row count being one. *)
Definition take_lease (record : OutboxRecord.row) (worker_id lease_token : string) (lease_until now : Z) : M bool :=
  let! current := scalar (λ r,
    (OutboxRecord.id r == OutboxRecord.id record) &&
    (OutboxRecord.state r == OutboxRecord.state record) &&
    (OutboxRecord.lease_token r == OutboxRecord.lease_token record) &&
    is_none (OutboxRecord.provider_message_id r)) in
  match current with
  | None => ret false
  | Some current =>
      do! save (current <| OutboxRecord.state := OB_LEASED |>
                        <| OutboxRecord.attempt_count := OutboxRecord.attempt_count record + 1 |>
                        <| OutboxRecord.lease_owner := Some worker_id |>
                        <| OutboxRecord.lease_until := Some lease_until |>
                        <| OutboxRecord.lease_token := Some lease_token |>
                        <| OutboxRecord.safe_error_code := None |>
                        <| OutboxRecord.updated_at := now |>) in
      ret true
  end.

Definition lease_record (record : OutboxRecord.row) (worker_id : string) (now lease_for : Z)
    : M (option ClaimedNotification.t) :=
  let! previous_attempt := scalar (unfinished_attempt record) in
  let! token := uuid4 in
  let lease_token := str_uuid token in
  let lease_until := now + lease_for in
  let! claimed := take_lease record worker_id lease_token lease_until now in
  if negb claimed then ret None
  else
    do! match previous_attempt with
        | Some a => save (a <| NotificationAttempt.finished_at := Some now |>
                            <| NotificationAttempt.outcome := Some "lease_expired" |>
                            <| NotificationAttempt.safe_error_code := Some "lease_expired" |>)
        | None => ret tt
        end in
    let attempt := OutboxRecord.attempt_count record + 1 in
    let! id := uuid4 in
    do! add {|
      NotificationAttempt.id := id;
      NotificationAttempt.outbox_id := OutboxRecord.id record;
      NotificationAttempt.attempt_number := attempt;
      NotificationAttempt.worker_id := worker_id;
      NotificationAttempt.lease_token := lease_token;
      NotificationAttempt.started_at := now;
      NotificationAttempt.finished_at := None;
      NotificationAttempt.outcome := None;
      NotificationAttempt.response_status := None;
      NotificationAttempt.provider_message_id := None;
      NotificationAttempt.safe_error_code := None;
      NotificationAttempt.created_at := now |} in
    let! c := lift (_claimed record attempt worker_id lease_token lease_until) in
    ret (Some c).

Definition claim (worker_id : string) (now : datetime) (lease_for : Z) : M (option ClaimedNotification.t) :=
  do! lift (_validate_worker_and_time worker_id now lease_for) in
  let now := _aware now in
  atomically (
    do! _expire_unclaimable now in
    let! records := scalars_ordered
      (λ r, [OutboxRecord.available_at r; OutboxRecord.created_at r; OutboxRecord.id r]) 1 (claimable now) in
    match records with
    | [] => ret None
    | record :: _ => lease_record record worker_id now lease_for
    end).

Definition record_accepted (message : ClaimedNotification.t) (acceptance : ProviderAcceptance.t) (now : Z) : M unit :=
  do! raise_if ((ProviderAcceptance.response_status acceptance != 200) ||
                negb (_SAFE_PROVIDER_ID (ProviderAcceptance.message_id acceptance)))
    (ValueError "notification_provider_acceptance_invalid") in
  atomically (
    let! (record, attempt) := _active_lease message now in
    let record := (released record OB_ACCEPTED None now)
      <| OutboxRecord.provider_message_id := Some (ProviderAcceptance.message_id acceptance) |>
      <| OutboxRecord.accepted_at := Some now |> in
    do! save record in
    do! save (_finish_attempt attempt now "accepted" (Some (ProviderAcceptance.response_status acceptance))
                (Some (ProviderAcceptance.message_id acceptance)) None) in
    let! delivered_event := scalars_ordered
      (λ e, [ResendWebhookEvent.event_created_at e; ResendWebhookEvent.created_at e]) 1
      (λ e, (ResendWebhookEvent.provider_message_id e == ProviderAcceptance.message_id acceptance) &&
            (ResendWebhookEvent.event_type e == "email.delivered")) in
    match delivered_event with
    | [] => ret tt
    | event :: _ => do! _apply_delivered_event record event now in ret tt
    end).

Definition record_retry (message : ClaimedNotification.t) (now retry_at : Z) (safe_error_code : string)
    (response_status : option Z) : M unit :=
  do! lift (_validate_safe_error safe_error_code) in
  do! lift (_validate_response_status response_status) in
  do! raise_if (retry_at <=? now) (ValueError "notification_retry_time_invalid") in
  atomically (
    let! (record, attempt) := _active_lease message now in
    let exhausted :=
      match OutboxRecord.idempotency_expires_at record with None => true | Some e => e <=? retry_at end ||
      (OutboxRecord.max_attempts record <=? OutboxRecord.attempt_count record) in
    do! save ((released record (if exhausted then OB_DEAD_LETTER else OB_RETRY) (Some safe_error_code) now)
                <| OutboxRecord.available_at := retry_at |>) in
    save (_finish_attempt attempt now (if exhausted then "dead_letter" else "retry") response_status None
            (Some safe_error_code))).

Definition record_terminal_failure (message : ClaimedNotification.t) (now : Z) (safe_error_code : string)
    (response_status : option Z) : M unit :=
  do! lift (_validate_safe_error safe_error_code) in
  do! lift (_validate_response_status response_status) in
  atomically (
    let! (record, attempt) := _active_lease message now in
    do! save (released record OB_FAILED (Some safe_error_code) now) in
    save (_finish_attempt attempt now "failed" response_status None (Some safe_error_code))).
End SqlNotificationOutbox.

Module SqlResendWebhookStore.
Definition this_event (svix_event_id : string) (e : ResendWebhookEvent.row) : bool :=
  ResendWebhookEvent.svix_event_id e == svix_event_id.

(** [_insert_webhook_event]: nothing is inserted when the event identifier is taken. *)
Definition _insert_webhook_event (event : VerifiedResendEvent.t) (payload_sha256 : bytes) (now : Z) : M bool :=
  let! id := uuid4 in
  let! taken := scalar (this_event (VerifiedResendEvent.svix_event_id event)) in
  if is_some taken then ret false
  else
    do! add {|
      ResendWebhookEvent.id := id;
      ResendWebhookEvent.svix_event_id := VerifiedResendEvent.svix_event_id event;
      ResendWebhookEvent.event_type := VerifiedResendEvent.event_type event;
      ResendWebhookEvent.provider_message_id := VerifiedResendEvent.provider_message_id event;
      ResendWebhookEvent.payload_sha256 := payload_sha256;
      ResendWebhookEvent.event_created_at := _aware (VerifiedResendEvent.event_created_at event);
      ResendWebhookEvent.processed_at := now;
      ResendWebhookEvent.created_at := now |} in
    ret true.

Definition _validate_replay (existing : ResendWebhookEvent.row) (event : VerifiedResendEvent.t)
    (payload_sha256 : bytes) : result unit :=
  raise_when
    ((ResendWebhookEvent.event_type existing != VerifiedResendEvent.event_type event) ||
     (ResendWebhookEvent.provider_message_id existing != VerifiedResendEvent.provider_message_id event) ||
     (ResendWebhookEvent.payload_sha256 existing != payload_sha256) ||
     (ResendWebhookEvent.event_created_at existing != _aware (VerifiedResendEvent.event_created_at event)))
    (ValueError "resend_webhook_replay_conflict").

Definition by_provider_message (message_id : string) (r : OutboxRecord.row) : bool :=
  OutboxRecord.provider_message_id r == Some message_id.

Definition _reconcile_replayed_event (event : ResendWebhookEvent.row) (now : Z) : M WebhookProcessResult.t :=
  let duplicate := WebhookProcessResult.mk true false false in
  if ResendWebhookEvent.event_type event != "email.delivered" then ret duplicate
  else
    let! record := scalar (by_provider_message (ResendWebhookEvent.provider_message_id event)) in
    match record with
    | None => ret duplicate
    | Some record =>
        if is_none (OutboxRecord.accepted_at record) then ret duplicate
        else
          let! r := _apply_delivered_event record event now in
          ret (WebhookProcessResult.mk true (WebhookProcessResult.notification_delivered r)
                 (WebhookProcessResult.order_transitioned r))
    end.

Definition replay (existing : ResendWebhookEvent.row) (event : VerifiedResendEvent.t)
    (payload_sha256 : bytes) (now : Z) : M WebhookProcessResult.t :=
  do! lift (_validate_replay existing event payload_sha256) in
  _reconcile_replayed_event existing now.

Definition failure_events : list string := ["email.bounced"; "email.failed"; "email.complained"].

(** What an event that was seen for the first time does to its outbox row. *)
Definition apply_new_event (record : option OutboxRecord.row) (event : VerifiedResendEvent.t) (now : Z)
    : M WebhookProcessResult.t :=
  match record with
  | None => ret nothing
  | Some record =>
      let event_type := VerifiedResendEvent.event_type event in
      if is_none (OutboxRecord.accepted_at record) ||
         (OutboxRecord.provider_message_id record != Some (VerifiedResendEvent.provider_message_id event))
      then ret nothing
      else if event_type is_in failure_events then
        do! when (OutboxRecord.state record != OB_DELIVERED)
              (save (record <| OutboxRecord.state := OB_FAILED |>
                            <| OutboxRecord.safe_error_code := Some (replace "email." "email_" event_type) |>
                            <| OutboxRecord.updated_at := now |>)) in
        ret nothing
      else if event_type != "email.delivered" then ret nothing
      else
        let! stored_event := scalar (this_event (VerifiedResendEvent.svix_event_id event)) in
        match stored_event with
        | None => raise (RuntimeError "resend_webhook_event_missing")
        | Some stored_event =>
            let! r := _apply_delivered_event record stored_event now in
            ret (WebhookProcessResult.mk false (WebhookProcessResult.notification_delivered r)
                   (WebhookProcessResult.order_transitioned r))
        end
  end.

Definition process (event : VerifiedResendEvent.t) (payload_sha256 : bytes) (now : Z)
    : M WebhookProcessResult.t :=
  do! raise_if (blen payload_sha256 != 32) (ValueError "resend_webhook_payload_hash_invalid") in
  atomically (
    let! existing := scalar (this_event (VerifiedResendEvent.svix_event_id event)) in
    match existing with
    | Some existing => replay existing event payload_sha256 now
    | None =>
        let! record := scalar (by_provider_message (VerifiedResendEvent.provider_message_id event)) in
        let! existing := scalar (this_event (VerifiedResendEvent.svix_event_id event)) in
        match existing with
        | Some existing => replay existing event payload_sha256 now
        | None =>
            let! inserted := _insert_webhook_event event payload_sha256 now in
            if negb inserted then
              let! existing := scalar (this_event (VerifiedResendEvent.svix_event_id event)) in
              match existing with
              | None => raise (RuntimeError "resend_webhook_dedupe_failed")
              | Some existing => replay existing event payload_sha256 now
              end
            else apply_new_event record event now
        end
    end).
End SqlResendWebhookStore.

(** ** [class SqlOutbox] of [app/db/fulfillment_adapters.py]

    The outbox before the one above; nothing composes it any more. *)
Module SqlOutbox.
Definition _SAFE_TEMPLATE (s : string) : bool :=
  fullmatch_class (λ c, lower_digit_underscore c || (c =? "-")%char) 1 64 s.
Definition payload_of (message : OutboxMessage.t) : list (string * string) :=
  [("template", OutboxMessage.template message); ("order_reference", OutboxMessage.order_reference message)].
Definition sensitive (serialized : string) : bool :=
  str_contains "bearer" (lower serialized) || str_contains "token" (lower serialized) || str_contains "@" serialized.
(** The columns that the call leaves out have the defaults of the model. *)
Definition new_record (id : uuid) (order : Order.row) (message : OutboxMessage.t) (now expiry updated : Z)
    : OutboxRecord.row := {|
  OutboxRecord.id := id;
  OutboxRecord.message_key := OutboxMessage.message_key message;
  OutboxRecord.order_id := Order.id order;
  OutboxRecord.kind := OutboxMessage.template message;
  OutboxRecord.recipient := OutboxMessage.recipient message;
  OutboxRecord.payload := payload_of message;
  OutboxRecord.state := OB_AVAILABLE;
  OutboxRecord.attempt_count := 0;
  OutboxRecord.max_attempts := 12;
  OutboxRecord.available_at := now;
  OutboxRecord.lease_owner := None;
  OutboxRecord.lease_until := None;
  OutboxRecord.lease_token := None;
  OutboxRecord.proof_version := None;
  OutboxRecord.confirmation_count := None;
  OutboxRecord.confirmation_observation_id := None;
  OutboxRecord.provider_message_id := None;
  OutboxRecord.accepted_at := None;
  OutboxRecord.delivered_at := None;
  OutboxRecord.idempotency_expires_at := Some (expiry + hours 24);
  OutboxRecord.safe_error_code := None;
  OutboxRecord.created_at := now;
  OutboxRecord.updated_at := updated |}.

Definition validate_message (message : OutboxMessage.t) : result (list (string * string)) :=
  check! raise_when (negb ((1 <=? strlen (OutboxMessage.message_key message)) &&
                           (strlen (OutboxMessage.message_key message) <=? 160)) ||
                     negb (_SAFE_TEMPLATE (OutboxMessage.template message)))
    (ValueError "outbox_message_identity_invalid") in
  check! raise_when (OutboxMessage.variables message !=
                     [("order_reference", OutboxMessage.order_reference message)])
    (ValueError "outbox_variables_not_allowlisted") in
  let payload := payload_of message in
  check! raise_when (sensitive (serialized_payload payload)) (ValueError "outbox_payload_contains_sensitive_data") in
  Ok payload.
Definition enqueue_tx (message : OutboxMessage.t) (payload : list (string * string)) : M unit :=
  atomically (
    let! order := scalar (λ o, Order.order_reference o == OutboxMessage.order_reference message) in
    match order with
    | None => raise (ValueError "outbox_order_not_found")
    | Some order =>
        do! raise_if (OutboxMessage.recipient message != Order.email order)
          (ValueError "outbox_recipient_does_not_match_order") in
        let! existing := scalar (λ r, OutboxRecord.message_key r == OutboxMessage.message_key message) in
        match existing with
        | Some existing =>
            raise_if ((OutboxRecord.order_id existing != Order.id order) ||
                      (OutboxRecord.recipient existing != OutboxMessage.recipient message) ||
                      (OutboxRecord.payload existing != payload)) (ValueError "outbox_message_key_conflict")
        | None =>
            let! now := now_utc in
            let! id := uuid4 in
            let! expiry := now_utc in
            let! updated := now_utc in
            add (new_record id order message now expiry updated)
        end
    end).
Definition enqueue (message : OutboxMessage.t) : M unit :=
  let! payload := lift (validate_message message) in
  enqueue_tx message payload.

(** Enqueueing adds at most one message, addressed to the customer of an order; enqueueing the same
    message again adds nothing.  No worker of [SqlNotificationOutbox] ever claims such a message: it
    has no confirmation to report. *)
Theorem enqueue_spec message w w' : enqueue message w = (Ok tt, w') →
  ∃ order, order ∈ Db.orders (World.db w) ∧ OutboxMessage.recipient message = Order.email order ∧
  ((World.db w' = World.db w ∧ ∃ r, r ∈ Db.outbox (World.db w) ∧
      OutboxRecord.message_key r = OutboxMessage.message_key message ∧ OutboxRecord.order_id r = Order.id order ∧
      OutboxRecord.recipient r = Order.email order ∧ OutboxRecord.payload r = payload_of message) ∨
   ∃ r, World.db w' = (World.db w) <| Db.outbox := (Db.outbox (World.db w) ++ [r])%list |> ∧
      OutboxRecord.message_key r = OutboxMessage.message_key message ∧ OutboxRecord.order_id r = Order.id order ∧
      OutboxRecord.recipient r = Order.email order ∧ OutboxRecord.payload r = payload_of message ∧
      OutboxRecord.state r = OB_AVAILABLE ∧ ∀ now, SqlNotificationOutbox.claimable now r = false).
Proof.
  intros H. unfold enqueue in H. run_step H. apply lift_Ok in E as [E ->]. unfold validate_message in E.
  apply result_bind_Ok in E as (? & _ & E). apply result_bind_Ok in E as (? & _ & E).
  apply result_bind_Ok in E as (? & _ & E). injection E as <-.
  unfold enqueue_tx, atomically in H. destruct (bind _ _ w) as [[[]|] w1] eqn:H1; [|done]. injection H as ->.
  apply bind_Ok_inv in H1 as (order & w1 & [Eo ->]%scalar_Ok & H).
  destruct order as [order|]; [|done]. apply find_row_Some in Eo as [Eo _].
  apply bind_Ok_inv in H as (? & w1 & [Er ->]%raise_if_Ok & H). apply negb_false_iff, bool_decide_eq_true in Er.
  exists order. split; [exact Eo|]. split; [exact Er|].
  apply bind_Ok_inv in H as (existing & w1 & [Ee ->]%scalar_Ok & H). destruct existing as [existing|].
  - left. apply raise_if_Ok in H as [C ->]. apply find_row_Some in Ee as [Ee Ek%bool_decide_eq_true].
    apply orb_false_iff in C as [[C1 C2]%orb_false_iff C3].
    apply negb_false_iff, bool_decide_eq_true in C1, C2, C3.
    split; [done|]. exists existing. split_and!; [done..|congruence|done].
  - right. apply bind_Ok_inv in H as (now & w1 & [-> ->]%now_utc_Ok & H).
    apply bind_Ok_inv in H as (id & w1 & [-> ->]%uuid4_Ok & H).
    apply bind_Ok_inv in H as (expiry & w1 & [-> ->]%now_utc_Ok & H).
    apply bind_Ok_inv in H as (updated & w1 & [-> ->]%now_utc_Ok & H). apply add_Ok in H as [_ ->].
    eexists. split; [reflexivity|]. split_and!; [done..|]. intros now.
    unfold SqlNotificationOutbox.claimable. cbn. by rewrite !andb_false_r.
Qed.
End SqlOutbox.
