(* ===== verification/Ots.v ===== *)
(** * Detached proofs

    [app/timestamping/detached.py] and [app/proofs/store.py]: the bounded walk over a timestamp
    tree, the checks of a proof against its digest, and the append-only store of tests and of
    local wiring ([InMemoryProofStore]).

    The OpenTimestamps library is not part of the repository.  Its objects are the data the
    code inspects: a timestamp has a message, attestations, and operations that lead to
    child timestamps.  Applying an operation ([operation(msg)], which raises when a message or
    a result is too long or empty), parsing and serialising a detached file (which raises on a
    node without attestations and operations) are the parameters [apply_op], [deserialize] and
    [serialize]. *)
From S2P Require Import Prelude PyStr Sha256 Domain Ports.

Open Scope string_scope.
Open Scope Z_scope.

Definition MAX_TIMESTAMP_NODES : Z := 256.
Definition MAX_OPERATIONS : Z := 255.
Definition MAX_ATTESTATIONS : Z := 256.
Definition MAX_PENDING_ATTESTATIONS : Z := 16.
Definition MAX_OPERATION_ARGUMENT_BYTES : Z := 64.

Inductive Op :=
| OpAppend (argument : bytes)
| OpPrepend (argument : bytes)
| OpSHA256
| OtherOp (tag : string).
#[global] Instance Op_eq_dec : EqDecision Op.
Proof. solve_decision. Defined.

Inductive Attestation :=
| PendingAttestation (uri : string)
| BitcoinBlockHeaderAttestation (height : Z)
| OtherAttestation (tag : string).
#[global] Instance Attestation_eq_dec : EqDecision Attestation.
Proof. solve_decision. Defined.

Inductive Timestamp := mk_timestamp {
  msg : bytes;
  attestations : list Attestation;
  ops : list (Op * Timestamp) }.

Module DetachedTimestampFile.
Record t := mk { file_hash_op : Op; timestamp : Timestamp }.
Definition file_digest (d : t) : bytes := msg (timestamp d).
End DetachedTimestampFile.

(** Node, operation, attestation and pending-attestation counts. *)
Record Counts := mk_counts {
  node_count : Z; operation_count : Z; attestation_count : Z; pending_attestation_count : Z }.
#[global] Instance eta_counts : Eta Counts := λ c,
  mk_counts (node_count c) (operation_count c) (attestation_count c) (pending_attestation_count c).
#[global] Instance Counts_eq_dec : EqDecision Counts.
Proof. solve_decision. Defined.

Module ParsedProof.
Record t := mk { detached : DetachedTimestampFile.t; counts : Counts }.
End ParsedProof.

Section Ots.
Context (apply_op : Op → bytes → result bytes).
Context (deserialize : bytes → option DetachedTimestampFile.t).
Context (serialize : DetachedTimestampFile.t → result bytes).

Definition new_detached_exact_digest (digest : ManifestDigest.t) : DetachedTimestampFile.t :=
  DetachedTimestampFile.mk OpSHA256 (mk_timestamp (ManifestDigest.ots_target digest) [] []).

(** The body of the loop over the attestations of a node. *)
Definition count_attestation (c : Counts) (a : Attestation) : result Counts :=
  let c := c <| attestation_count := attestation_count c + 1 |> in
  check! raise_when (MAX_ATTESTATIONS <? attestation_count c)
    (ProofValidationError "proof_attestation_limit_exceeded") in
  match a with
  | PendingAttestation _ =>
      let c := c <| pending_attestation_count := pending_attestation_count c + 1 |> in
      check! raise_when (MAX_PENDING_ATTESTATIONS <? pending_attestation_count c)
        (ProofValidationError "proof_pending_attestation_limit_exceeded") in
      Ok c
  | BitcoinBlockHeaderAttestation _ => Ok c
  | OtherAttestation _ => Raise (ProofValidationError "proof_attestation_type_unsupported")
  end.

(** The body of the loop over the operations of a node. *)
Definition count_operation (message : bytes) (c : Counts) (oc : Op * Timestamp) : result Counts :=
  let '(operation, child) := oc in
  let c := c <| operation_count := operation_count c + 1 |> in
  check! raise_when (MAX_OPERATIONS <? operation_count c)
    (ProofValidationError "proof_operation_limit_exceeded") in
  check! match operation with
         | OpAppend argument | OpPrepend argument =>
             raise_when (negb ((1 <=? blen argument) && (blen argument <=? MAX_OPERATION_ARGUMENT_BYTES)))
               (ProofValidationError "proof_operation_argument_invalid")
         | OpSHA256 => Ok tt
         | OtherOp _ => Raise (ProofValidationError "proof_operation_unsupported")
         end in
  try! computed := apply_op operation message in
  check! raise_when (msg child != computed) (ProofValidationError "proof_operation_result_mismatch") in
  Ok c.

Fixpoint fold_result {A B} (f : A → B → result A) (a : A) (l : list B) : result A :=
  match l with
  | [] => Ok a
  | b :: l' => match f a b with Ok a' => fold_result f a' l' | Raise e => Raise e end
  end.

(** One iteration of the [while pending] loop on the popped node; the children of the node
    are pushed in order, so the last one is popped first. *)
Definition visit (c : Counts) (node : Timestamp) : result Counts :=
  let c := c <| node_count := node_count c + 1 |> in
  check! raise_when (MAX_TIMESTAMP_NODES <? node_count c)
    (ProofValidationError "proof_node_limit_exceeded") in
  try! c := fold_result count_attestation c (attestations node) in
  fold_result (count_operation (msg node)) c (ops node).

(** [None] when the fuel is exhausted. The head of [pending] is the top of the stack. *)
Fixpoint walk (fuel : nat) (c : Counts) (pending : list Timestamp) : option (result Counts) :=
  match pending with
  | [] => Some (Ok c)
  | node :: rest =>
      match fuel with
      | O => None
      | S fuel' =>
          match visit c node with
          | Raise e => Some (Raise e)
          | Ok c' => walk fuel' c' (rev (map snd (ops node)) ++ rest)
          end
      end
  end.

(** The loop raises at the latest on its 257th iteration. *)
Definition WALK_FUEL : nat := 257.
Definition out_of_fuel : result Counts := Raise (RuntimeError "unreachable").
Definition validate_timestamp_tree (root : Timestamp) : result Counts :=
  default out_of_fuel (walk WALK_FUEL (mk_counts 0 0 0 0) [root]).

Definition serialize_detached (d : DetachedTimestampFile.t) : result bytes :=
  try! _ := validate_timestamp_tree (DetachedTimestampFile.timestamp d) in
  try! proof_bytes := serialize d in
  check! raise_when (bool_decide (proof_bytes = []) || (MAX_PROOF_BYTES <? blen proof_bytes))
    (ProofValidationError "proof_size_invalid") in
  Ok proof_bytes.

Definition deserialize_exact_proof (digest : ManifestDigest.t) (proof_bytes : bytes)
    (expected_sha256 : option bytes) : result ParsedProof.t :=
  check! raise_when (bool_decide (proof_bytes = []) || (MAX_PROOF_BYTES <? blen proof_bytes))
    (ProofValidationError "proof_size_invalid") in
  check! raise_when match expected_sha256 with
                    | Some e => (blen e != 32) || (sha256 proof_bytes != e)
                    | None => false
                    end (ProofValidationError "proof_checksum_mismatch") in
  match deserialize proof_bytes with
  | None => Raise (ProofValidationError "proof_deserialization_failed")
  | Some detached =>
      check! raise_when (DetachedTimestampFile.file_hash_op detached != OpSHA256)
        (ProofValidationError "proof_hash_operation_mismatch") in
      check! raise_when (DetachedTimestampFile.file_digest detached != ManifestDigest.ots_target digest)
        (ProofValidationError "proof_target_mismatch") in
      try! counts := validate_timestamp_tree (DetachedTimestampFile.timestamp detached) in
      Ok (ParsedProof.mk detached counts)
  end.

Definition validate_exact_proof (digest : ManifestDigest.t) (proof_bytes : bytes)
    (expected_sha256 : option bytes) : result unit :=
  try! _ := deserialize_exact_proof digest proof_bytes expected_sha256 in Ok tt.

(** ** [app/proofs/store.py] *)
Definition make_stored_proof (order_reference : string) (version : Z) (target_digest : ManifestDigest.t)
    (proof_bytes : bytes) (proof_state : ProofState) (calendar_submitted_at : datetime)
    (verification : option BitcoinVerification.t) : result StoredProof.t :=
  check! raise_when (version <? 1) (ValueError "proof_version_must_be_positive") in
  check! validate_exact_proof target_digest proof_bytes None in
  StoredProof.post_init {|
    StoredProof.order_reference := order_reference;
    StoredProof.version := version;
    StoredProof.target_digest := target_digest;
    StoredProof.proof_bytes := proof_bytes;
    StoredProof.proof_sha256 := sha256 proof_bytes;
    StoredProof.proof_state := proof_state;
    StoredProof.calendar_submitted_at := calendar_submitted_at;
    StoredProof.verification := verification |}.

End Ots.

(** ** The validation of a timestamp tree, as a recursive definition

    The code walks the tree with a stack and counts as it goes.  The theorems say that the
    walk ends on every tree and accepts exactly the trees that a plain structural recursion
    accepts and whose totals are within the limits. *)
From S2P Require Import Prelude PyStr Domain.

Open Scope Z_scope.

(** ** The reference definition *)

Definition plus (a b : Counts) : Counts :=
  mk_counts (node_count a + node_count b) (operation_count a + operation_count b)
    (attestation_count a + attestation_count b) (pending_attestation_count a + pending_attestation_count b).
Definition none : Counts := mk_counts 0 0 0 0.
Definition total (l : list Counts) : Counts := foldr plus none l.
Definition within (c : Counts) : Prop :=
  node_count c <= MAX_TIMESTAMP_NODES ∧ operation_count c <= MAX_OPERATIONS ∧
  attestation_count c <= MAX_ATTESTATIONS ∧ pending_attestation_count c <= MAX_PENDING_ATTESTATIONS.

Definition is_pending (a : Attestation) : bool := match a with PendingAttestation _ => true | _ => false end.
Definition supported_attestation (a : Attestation) : bool :=
  match a with PendingAttestation _ | BitcoinBlockHeaderAttestation _ => true | OtherAttestation _ => false end.
Definition attestation_counts (a : Attestation) : Counts := mk_counts 0 0 1 (Z.b2z (is_pending a)).
Definition operation_counts : Counts := mk_counts 0 1 0 0.

Section Reference.
Context (apply_op : Op → bytes → result bytes).

Definition operation_ok (message : bytes) (oc : Op * Timestamp) : bool :=
  match oc.1 with
  | OpAppend argument | OpPrepend argument =>
      (1 <=? blen argument) && (blen argument <=? MAX_OPERATION_ARGUMENT_BYTES)
  | OpSHA256 => true
  | OtherOp _ => false
  end && match apply_op oc.1 message with Ok computed => msg oc.2 == computed | Raise _ => false end.

(** Every attestation and every operation of the tree is supported, its arguments are
    within bounds, no operation raises, and every node holds the message its operation computes. *)
Fixpoint tree_ok (t : Timestamp) : bool :=
  match t with
  | mk_timestamp message atts branches =>
      forallb supported_attestation atts &&
      forallb (λ oc, operation_ok message oc && tree_ok (snd oc)) branches
  end.
Fixpoint tree_counts (t : Timestamp) : Counts :=
  match t with
  | mk_timestamp message atts branches =>
      plus (mk_counts 1 0 0 0)
        (plus (total (map attestation_counts atts))
          (total (map (λ oc, plus operation_counts (tree_counts (snd oc))) branches)))
  end.
End Reference.

(** ** The counters *)

Lemma counts_eq a b :
  node_count a = node_count b → operation_count a = operation_count b →
  attestation_count a = attestation_count b → pending_attestation_count a = pending_attestation_count b → a = b.
Proof. destruct a, b; simpl; congruence. Qed.
Ltac counts := apply counts_eq; simpl; lia.
Lemma plus_assoc a b c : plus a (plus b c) = plus (plus a b) c.
Proof. counts. Qed.
Lemma plus_comm a b : plus a b = plus b a.
Proof. counts. Qed.
Lemma plus_none a : plus a none = a.
Proof. counts. Qed.
Lemma total_app l k : total (l ++ k) = plus (total l) (total k).
Proof. induction l as [|c l IH]; simpl; [counts|]. rewrite IH. counts. Qed.
#[global] Instance total_proper : Proper ((≡ₚ) ==> (=)) total.
Proof. induction 1; simpl; [done|congruence|counts|congruence]. Qed.

Definition nonneg (c : Counts) : Prop :=
  0 <= node_count c ∧ 0 <= operation_count c ∧ 0 <= attestation_count c ∧ 0 <= pending_attestation_count c.
Lemma total_nonneg l : Forall nonneg l → nonneg (total l).
Proof. induction 1 as [|c l [] _ IH]; [done|]. destruct IH. unfold nonneg in *. simpl in *. lia. Qed.
Lemma attestation_nonneg a : nonneg (attestation_counts a).
Proof. destruct a; unfold nonneg; simpl; lia. Qed.
Lemma attestations_nonneg l : nonneg (total (map attestation_counts l)).
Proof. apply total_nonneg, Forall_map, Forall_true. intros []; unfold nonneg; simpl; lia. Qed.
Lemma within_plus a b : nonneg b → within (plus a b) → within a.
Proof. unfold within, nonneg. simpl. lia. Qed.
Lemma operation_nonneg : nonneg operation_counts.
Proof. unfold nonneg. simpl. lia. Qed.
Lemma operations_nonneg (l : list (Op * Timestamp)) : nonneg (total (map (λ _, operation_counts) l)).
Proof. apply total_nonneg, Forall_map, Forall_true. intros _. unfold nonneg. simpl. lia. Qed.

(** A loop that checks each element and adds to the counters within the limits. *)
Section Loop.
Context {B : Type} (f : Counts → B → result Counts) (ok : B → bool) (delta : B → Counts).
Context (Hdelta : ∀ b, nonneg (delta b)).
Context (Hf : ∀ c b c', within c →
  f c b = Ok c' ↔ ok b = true ∧ c' = plus c (delta b) ∧ within c').
Lemma fold_counts l c c' : within c →
  fold_result f c l = Ok c' ↔ forallb ok l = true ∧ c' = plus c (total (map delta l)) ∧ within c'.
Proof.
  revert c. induction l as [|b l IH]; intros c Hc; simpl.
  - rewrite plus_none. naive_solver.
  - rewrite andb_true_iff, plus_assoc. assert (nonneg (total (map delta l))) as Hn
      by (apply total_nonneg, Forall_map, Forall_true; auto).
    destruct (f c b) as [c1|e] eqn:E.
    + apply Hf in E as (Hb & -> & Hw); [|done]. rewrite IH by done. naive_solver.
    + split; [done|]. intros ((Hb & _) & -> & Hw). apply within_plus in Hw; [|done].
      assert (f c b = Ok (plus c (delta b))) by (by apply Hf). congruence.
Qed.
End Loop.

Lemma raise_if_limit (b : bool) e (c c1 : Counts) :
  (check! raise_when b e in Ok c1) = Ok c ↔ b = false ∧ c = c1.
Proof. destruct b; simpl; naive_solver. Qed.
Lemma count_attestation_spec c a c' : within c →
  count_attestation c a = Ok c' ↔
    supported_attestation a = true ∧ c' = plus c (attestation_counts a) ∧ within c'.
Proof.
  intros (H1 & H2 & H3 & H4). unfold count_attestation. cbv zeta. simpl.
  destruct (MAX_ATTESTATIONS <? _) eqn:E; simpl.
  { split; [done|]. intros (_ & -> & _ & _ & Hw & _). simpl in Hw. lia. }
  destruct a; simpl.
  - rewrite raise_if_limit. split.
    + intros [Hl ->]. split_and!; [done|counts|]. unfold within. simpl. lia.
    + intros (_ & -> & _ & _ & _ & Hw). simpl in Hw. split; [lia|counts].
  - split; [intros [= <-]; split_and!; [done|counts|]; unfold within; simpl; lia|].
    intros (_ & -> & _). f_equal. counts.
  - naive_solver.
Qed.
Section Visits.
Context (apply_op : Op → bytes → result bytes).
Lemma count_operation_spec message c oc c' : within c →
  count_operation apply_op message c oc = Ok c' ↔
    operation_ok apply_op message oc = true ∧ c' = plus c operation_counts ∧ within c'.
Proof.
  intros (H1 & H2 & H3 & H4). destruct oc as [o child]. unfold count_operation, operation_ok. cbv zeta. simpl.
  destruct (MAX_OPERATIONS <? _) eqn:E; simpl.
  { split; [done|]. intros (_ & -> & _ & Hw & _). simpl in Hw. lia. }
  assert (∀ (b : bool) e, (check! raise_when (negb b) e in Ok (c <| operation_count := operation_count c + 1 |>)) = Ok c'
    ↔ b = true ∧ c' = plus c operation_counts ∧ within c') as Hb.
  { intros b e. rewrite raise_if_limit, negb_false_iff.
    assert (c <| operation_count := operation_count c + 1 |> = plus c operation_counts) as -> by counts.
    split; [|naive_solver]. intros [-> ->]. split_and!; [done..|]. unfold within. simpl. lia. }
  assert (match apply_op o message with
          | Ok computed => match o with OtherOp _ => True | _ =>
              (check! raise_when (msg child != computed) (ProofValidationError "proof_operation_result_mismatch") in
               Ok (c <| operation_count := operation_count c + 1 |>)) = Ok c' ↔
              (msg child == computed) = true ∧ c' = plus c operation_counts ∧ within c' end
          | Raise _ => True end) as Hc by (destruct (apply_op o message); [|done]; destruct o; try done; apply Hb).
  destruct o; simpl; [..|naive_solver];
    [destruct (_ && _) in |- *; simpl; [|naive_solver]..|];
    (destruct (apply_op _ message) as [computed|]; simpl; [exact Hc|naive_solver]).
Qed.
Lemma visit_spec c node c' : within c →
  visit apply_op c node = Ok c' ↔
    forallb supported_attestation (attestations node) = true ∧
    forallb (operation_ok apply_op (msg node)) (ops node) = true ∧
    c' = plus c (plus (mk_counts 1 0 0 0) (plus (total (map attestation_counts (attestations node)))
                   (total (map (λ _, operation_counts) (ops node))))) ∧ within c'.
Proof.
  intros Hc. unfold visit. cbv zeta.
  replace (c <| node_count := node_count c + 1 |>) with (plus c (mk_counts 1 0 0 0)) by counts. simpl.
  pose proof (attestations_nonneg (attestations node)) as Ha.
  pose proof (operations_nonneg (ops node)) as Ho.
  destruct (MAX_TIMESTAMP_NODES <? _) eqn:E; simpl.
  { split; [done|]. intros (_ & _ & -> & Hw & _). destruct Ha, Ho. simpl in *. lia. }
  assert (within (plus c (mk_counts 1 0 0 0))) as Hw1 by (unfold within in *; simpl in *; lia).
  rewrite result_bind_Ok. split.
  - intros (c1 & E1 & E2).
    apply (fold_counts _ _ _ attestation_nonneg count_attestation_spec) in E1 as (? & -> & Hw2); [|done].
    apply (fold_counts _ _ _ (λ _, operation_nonneg) (count_operation_spec _)) in E2 as (? & -> & Hw3); [|done].
    split_and!; [done..|counts|done].
  - intros (H1 & H2 & -> & Hw). rewrite !plus_assoc in Hw. eexists.
    split; apply (fold_counts _ _ _ attestation_nonneg count_attestation_spec) ||
      apply (fold_counts _ _ _ (λ _, operation_nonneg) (count_operation_spec _)).
    + done.
    + split_and!; [done..|]. by eapply within_plus.
    + by eapply within_plus.
    + split_and!; [done|counts|by rewrite !plus_assoc].
Qed.

(** ** The walk *)

Definition forest_counts (l : list Timestamp) : Counts := total (map tree_counts l).
#[global] Instance forest_counts_proper : Proper ((≡ₚ) ==> (=)) forest_counts.
Proof. intros l k H. unfold forest_counts. by rewrite H. Qed.

Fixpoint Timestamp_nested_ind (P : Timestamp → Prop)
    (H : ∀ m a o, Forall (λ oc, P (snd oc)) o → P (mk_timestamp m a o)) (t : Timestamp) : P t :=
  match t with
  | mk_timestamp m a o => H m a o
      ((fix go (l : list (Op * Timestamp)) : Forall (λ oc, P (snd oc)) l :=
          match l with
          | [] => Forall_nil_2 _
          | oc :: l' => Forall_cons_2 _ _ _ (Timestamp_nested_ind P H (snd oc)) (go l')
          end) o)
  end.

Lemma total_plus {B} (f g : B → Counts) l :
  total (map (λ b, plus (f b) (g b)) l) = plus (total (map f l)) (total (map g l)).
Proof. induction l as [|b l IH]; simpl; [counts|]. rewrite IH. counts. Qed.
Lemma tree_counts_eq t :
  tree_counts t = plus (plus (mk_counts 1 0 0 0) (plus (total (map attestation_counts (attestations t)))
                    (total (map (λ _, operation_counts) (ops t))))) (forest_counts (map snd (ops t))).
Proof.
  destruct t as [m a o]. unfold forest_counts. rewrite map_map. simpl. rewrite total_plus. counts.
Qed.
Lemma tree_ok_eq t :
  tree_ok apply_op t = forallb supported_attestation (attestations t) &&
    forallb (operation_ok apply_op (msg t)) (ops t) && forallb (tree_ok apply_op) (map snd (ops t)).
Proof.
  destruct t as [m a o]. simpl. rewrite <-andb_assoc. f_equal.
  induction o as [|oc o IH]; [done|]. simpl. rewrite IH.
  rewrite !andb_assoc. f_equal. rewrite <-!andb_assoc. f_equal. apply andb_comm.
Qed.
Lemma tree_nonneg t : nonneg (tree_counts t).
Proof.
  induction t as [m a o IH] using Timestamp_nested_ind.
  assert (nonneg (forest_counts (map snd o))) as Hf.
  { unfold forest_counts. rewrite map_map. by apply total_nonneg, Forall_map. }
  rewrite tree_counts_eq. pose proof (attestations_nonneg a) as Ha. pose proof (operations_nonneg o) as Ho.
  unfold nonneg in *. simpl in *. lia.
Qed.
Lemma forest_nonneg l : nonneg (forest_counts l).
Proof. apply total_nonneg, Forall_map, Forall_true, tree_nonneg. Qed.
Lemma no_nodes {B} (f : B → Counts) l : (∀ b, node_count (f b) = 0) → node_count (total (map f l)) = 0.
Proof. intros H. induction l as [|b l IH]; [done|]. simpl. rewrite H, IH. done. Qed.

Definition room (fuel : nat) (c : Counts) : Prop := MAX_TIMESTAMP_NODES + 1 - node_count c <= Z.of_nat fuel.
Lemma visit_room fuel c node c' : within c → room (S fuel) c → visit apply_op c node = Ok c' →
  within c' ∧ room fuel c'.
Proof.
  intros Hc Hr (_ & _ & -> & Hw)%visit_spec; [|done]. split; [done|]. unfold room in *. simpl.
  rewrite !no_nodes by done. lia.
Qed.
Lemma walk_spec fuel c pending c' : within c → room fuel c →
  walk apply_op fuel c pending = Some (Ok c') ↔
    forallb (tree_ok apply_op) pending = true ∧ c' = plus c (forest_counts pending) ∧ within c'.
Proof.
  revert c pending. induction fuel as [|fuel IH]; intros c pending Hc Hr.
  { destruct pending; simpl; [|unfold room, within in *; lia].
    unfold forest_counts. simpl. rewrite plus_none. naive_solver. }
  destruct pending as [|node rest]; simpl.
  { unfold forest_counts. simpl. rewrite plus_none. naive_solver. }
  change (forest_counts (node :: rest)) with (plus (tree_counts node) (forest_counts rest)).
  rewrite tree_ok_eq, tree_counts_eq, !andb_true_iff.
  destruct (visit apply_op c node) as [c1|e] eqn:E.
  - destruct (visit_room _ _ _ _ Hc Hr E) as [Hw1 Hr1]. apply visit_spec in E as (H1 & H2 & -> & _); [|done].
    rewrite (IH _ _ Hw1 Hr1), forallb_app, andb_true_iff.
    assert (forest_counts (rev (map snd (ops node)) ++ rest) =
      plus (forest_counts (map snd (ops node))) (forest_counts rest)) as ->.
    { unfold forest_counts. rewrite map_app, total_app. f_equal. by rewrite <-Permutation_rev. }
    assert (forallb (tree_ok apply_op) (rev (map snd (ops node))) = forallb (tree_ok apply_op) (map snd (ops node))) as ->.
    { apply eq_true_iff_eq. rewrite !forallb_forall. by setoid_rewrite <-in_rev. }
    rewrite <-!plus_assoc. naive_solver.
  - split; [done|]. intros ((((H1 & H2) & _) & _) & -> & Hw).
    assert (visit apply_op c node = Ok (plus c (plus (mk_counts 1 0 0 0)
      (plus (total (map attestation_counts (attestations node))) (total (map (λ _, operation_counts) (ops node))))))); [|congruence].
    apply visit_spec; [done|]. split_and!; [done..|]. revert Hw. rewrite <-!plus_assoc, !(plus_assoc c).
    pose proof (forest_nonneg (map snd (ops node))). pose proof (forest_nonneg rest).
    unfold within, nonneg in *. simpl in *. lia.
Qed.
Lemma walk_total fuel c pending : within c → room fuel c → walk apply_op fuel c pending ≠ None.
Proof.
  revert c pending. induction fuel as [|fuel IH]; intros c pending Hc Hr.
  { destruct pending; [done|]. unfold room, within in *. lia. }
  destruct pending as [|node rest]; [done|]. simpl. destruct (visit apply_op c node) as [c1|e] eqn:E; [|done].
  destruct (visit_room _ _ _ _ Hc Hr E). by apply IH.
Qed.
Lemma walk_more fuel k c pending r :
  walk apply_op fuel c pending = Some r → walk apply_op (fuel + k) c pending = Some r.
Proof.
  revert c pending. induction fuel as [|fuel IH]; intros c pending; [by destruct pending, k|].
  destruct pending as [|node rest]; [done|]. simpl. destruct (visit _ _ _); [|done]. apply IH.
Qed.
(** The nodes of a tree. *)
Inductive node_of : Timestamp → Timestamp → Prop :=
| node_root t : node_of t t
| node_child t u op child : node_of t u → (op, child) ∈ ops u → node_of t child.

(** The exceptions of the loop bodies: those the code raises, and those of the operations on the
    messages of the nodes. *)
Definition operation_raises (node : Timestamp) (e : exn) : Prop :=
  ∃ op child, (op, child) ∈ ops node ∧ apply_op op (msg node) = Raise e.
Definition rejects {A} (P : exn → Prop) (r : result A) : Prop :=
  match r with Ok _ => True | Raise e => (∃ code, e = ProofValidationError code) ∨ P e end.
Lemma rejects_when {A} P (b : bool) code (k : result A) :
  rejects P k → rejects P (check! raise_when b (ProofValidationError code) in k).
Proof. destruct b; [|done]. left. by eexists. Qed.
Lemma fold_rejects {A B} P (f : A → B → result A) a l :
  (∀ a b, b ∈ l → rejects P (f a b)) → rejects P (fold_result f a l).
Proof.
  revert a. induction l as [|b l IH]; intros a H; simpl; [done|].
  pose proof (H a b (list_elem_of_here _ _)) as Hb. destruct (f a b); [|done].
  apply IH. intros. apply H. by apply list_elem_of_further.
Qed.
Lemma visit_rejects c node : rejects (operation_raises node) (visit apply_op c node).
Proof.
  unfold visit. cbv zeta. apply rejects_when.
  assert (∀ P c a, rejects P (count_attestation c a)) as Ha.
  { intros P c1 a. unfold count_attestation. cbv zeta. apply rejects_when.
    destruct a; simpl; [by apply rejects_when|done|left; by eexists]. }
  pose proof (fold_rejects (operation_raises node) count_attestation (c <| node_count := node_count c + 1 |>)
    (attestations node) (λ a b _, Ha _ a b)) as H1.
  destruct (fold_result count_attestation _ _); [|exact H1]. cbn [result_bind]. apply fold_rejects.
  intros c1 [o t] Hin. unfold count_operation. cbv zeta. apply rejects_when.
  assert (rejects (operation_raises node)
    (try! computed := apply_op o (msg node) in
     check! raise_when (msg t != computed) (ProofValidationError "proof_operation_result_mismatch") in
     Ok (c1 <| operation_count := operation_count c1 + 1 |>))) as Hr.
  { destruct (apply_op o (msg node)) as [computed|e] eqn:E; [by apply rejects_when|]. right. by exists o, t. }
  destruct o; [by apply rejects_when..|exact Hr|left; by eexists].
Qed.
Lemma walk_rejects root fuel c pending r : (∀ n, n ∈ pending → node_of root n) →
  walk apply_op fuel c pending = Some r → rejects (λ e, ∃ n, node_of root n ∧ operation_raises n e) r.
Proof.
  revert c pending. induction fuel as [|fuel IH]; intros c pending Hn; destruct pending as [|node rest]; simpl;
    try (by intros [= <-]); try done.
  pose proof (visit_rejects c node) as Hv. destruct (visit _ _ _) as [c1|e].
  - apply IH. intros n [Hin|Hin]%elem_of_app; [|by apply Hn, list_elem_of_further].
    rewrite list_elem_of_In, <-in_rev, in_map_iff in Hin. destruct Hin as ([op child] & <- & Hin%list_elem_of_In).
    eapply node_child; [|exact Hin]. apply Hn, list_elem_of_here.
  - intros [= <-]. destruct Hv as [Hv|Hv]; [by left|right]. exists node. split; [|done]. apply Hn, list_elem_of_here.
Qed.
Lemma within_none : within none ∧ room WALK_FUEL none.
Proof. by split. Qed.

(** C10: the validation of a timestamp tree, an iterative walk with a stack, accepts exactly
    the trees that the structural recursion [tree_ok] accepts (every operation and
    attestation supported, arguments of 1 to 64 bytes, every node's message computed by its
    operation) and whose totals are within the limits on nodes, operations, attestations and
    pending attestations; and it returns those totals. *)
Theorem validate_tree_spec root c :
  validate_timestamp_tree apply_op root = Ok c ↔
    tree_ok apply_op root = true ∧ c = tree_counts root ∧ within c.
Proof.
  destruct within_none as [Hw Hr]. unfold validate_timestamp_tree.
  destruct (walk apply_op WALK_FUEL (mk_counts 0 0 0 0) [root]) as [r|] eqn:E;
    [|by apply walk_total in E]. simpl.
  assert (plus none (forest_counts [root]) = tree_counts root) as Ef by counts.
  pose proof (walk_spec WALK_FUEL none [root] c Hw Hr) as Hs. unfold none in Hs at 1.
  rewrite E, Ef in Hs. simpl in Hs. rewrite andb_true_r in Hs. rewrite <-Hs. naive_solver.
Qed.

(** C11: the walk ends on every tree: more fuel than the model's changes nothing, and the
    result is the counters, a [ProofValidationError], or the exception that an operation of the
    tree raised on the message of its node (the OpenTimestamps library refuses messages and
    results that are too long, or empty); when no operation of the tree raises, it is the counters
    or a [ProofValidationError]. *)
Theorem validate_tree_terminates root fuel :
  walk apply_op (WALK_FUEL + fuel) (mk_counts 0 0 0 0) [root] = Some (validate_timestamp_tree apply_op root) ∧
  match validate_timestamp_tree apply_op root with
  | Ok _ => True
  | Raise e => (∃ code, e = ProofValidationError code) ∨
      ∃ node op child, node_of root node ∧ (op, child) ∈ ops node ∧ apply_op op (msg node) = Raise e
  end.
Proof.
  destruct within_none as [Hw Hr]. unfold validate_timestamp_tree.
  destruct (walk apply_op WALK_FUEL (mk_counts 0 0 0 0) [root]) as [r|] eqn:E;
    [|by apply walk_total in E]. cbn [default]. split; [by apply walk_more|].
  apply (walk_rejects root) in E; [|intros n ->%list_elem_of_singleton; apply node_root].
  destruct r as [|e]; [done|]. destruct E as [E|(n & Hn & op & child & Ho)]; [by left|right]. by exists n, op, child.
Qed.
End Visits.

(** ** [class InMemoryProofStore]

    The append-only store of the tests and of local wiring; each operation runs under its lock. *)
From stdpp Require Import gmap strings.
Open Scope string_scope.
Open Scope Z_scope.

Module InMemoryProofStore.
(** [self._proofs] *)
Abbreviation t := (gmap string (list StoredProof.t)).
Definition existing (self : t) (order_reference : string) : list StoredProof.t := default [] (self !! order_reference).

Section Store.
Context (apply_op : Op → bytes → result bytes) (deserialize : bytes → option DetachedTimestampFile.t).

(** The checks on the stored proofs of the order; [false] when the proof is stored already. *)
Definition append_check (proofs : list StoredProof.t) (proof : StoredProof.t) : result bool :=
  match last proofs with
  | Some latest =>
      check! raise_when (StoredProof.target_digest proof != StoredProof.target_digest latest)
        (ValueError "proof_target_is_immutable") in
      if StoredProof.version proof != StoredProof.version latest + 1 then
        if (StoredProof.version proof == StoredProof.version latest) && (proof == latest) then Ok false
        else Raise (ValueError "proof_version_must_append")
      else Ok true
  | None =>
      check! raise_when (StoredProof.version proof != 1) (ValueError "first_proof_version_must_be_one") in
      Ok true
  end.
Definition append (self : t) (proof : StoredProof.t) : result t :=
  check! validate_exact_proof apply_op deserialize (StoredProof.target_digest proof) (StoredProof.proof_bytes proof)
    (Some (StoredProof.proof_sha256 proof)) in
  check! raise_when (StoredProof.version proof <? 1) (ValueError "proof_version_must_be_positive") in
  let proofs := existing self (StoredProof.order_reference proof) in
  try! new := append_check proofs proof in
  Ok (if (new : bool) then <[StoredProof.order_reference proof := (proofs ++ [proof])%list]> self else self).
Definition latest (self : t) (order_reference : string) : option StoredProof.t := last (existing self order_reference).
Definition versions (self : t) (order_reference : string) : list StoredProof.t := existing self order_reference.

(** *** What it keeps *)

(** The proofs of an order: numbered from one on, all valid and all for one digest. *)
Record chain (order_reference : string) (l : list StoredProof.t) : Prop := {
  mem_version i p : l !! i = Some p → StoredProof.version p = Z.of_nat i + 1 ∧
    StoredProof.order_reference p = order_reference;
  mem_target p q : p ∈ l → q ∈ l → StoredProof.target_digest p = StoredProof.target_digest q;
  mem_valid p : p ∈ l → validate_exact_proof apply_op deserialize (StoredProof.target_digest p)
    (StoredProof.proof_bytes p) (Some (StoredProof.proof_sha256 p)) = Ok tt }.
Definition chained (self : t) : Prop := ∀ order_reference, chain order_reference (existing self order_reference).

Lemma chained_empty : chained ∅.
Proof.
  intros r. unfold existing. rewrite lookup_empty. simpl. split; [intros i p H; destruct i; discriminate H| |].
  - by intros p q ?%not_elem_of_nil.
  - by intros p ?%not_elem_of_nil.
Qed.
Lemma appended_version r l p : chain r l → append_check l p = Ok true →
  StoredProof.version p = Z.of_nat (List.length l) + 1 ∧ ∀ q, q ∈ l → StoredProof.target_digest q = StoredProof.target_digest p.
Proof.
  intros C. unfold append_check. destruct (last l) as [q|] eqn:El.
  - destruct (StoredProof.target_digest p != StoredProof.target_digest q) eqn:Et; [done|]. cbn [raise_when result_bind].
    apply negb_false_iff, bool_decide_eq_true in Et.
    destruct (StoredProof.version p != StoredProof.version q + 1) eqn:Ev; [by destruct (_ && _)|]. intros _.
    apply negb_false_iff, bool_decide_eq_true in Ev. rewrite last_lookup in El.
    pose proof (list_elem_of_lookup_2 _ _ _ El) as Hq. destruct (mem_version _ _ C _ _ El) as [Hv _].
    pose proof (lookup_lt_Some _ _ _ El). split; [lia|]. intros x Hx. rewrite Et. by apply (mem_target _ _ C).
  - apply last_None in El as ->. destruct (StoredProof.version p != 1) eqn:Ev; [done|].
    apply negb_false_iff, bool_decide_eq_true in Ev. intros _. split; [done|]. by intros ? ?%not_elem_of_nil.
Qed.
(** Appending keeps the chains, and takes nothing away: the proofs of each order are a prefix of what
    they are afterwards, and the appended proof is the last of its order. *)
Theorem append_spec self p self' : chained self → append self p = Ok self' →
  chained self' ∧ latest self' (StoredProof.order_reference p) = Some p ∧
  ∀ r, ∃ more, versions self' r = (versions self r ++ more)%list ∧ (r ≠ StoredProof.order_reference p → more = []).
Proof.
  intros C. unfold append.
  destruct (validate_exact_proof _ _ _ _ _) as [[]|] eqn:Hvalid; [|done]. cbn [result_bind].
  destruct (_ <? 1) eqn:Hpos; [done|]. cbn [raise_when result_bind].
  set (r := StoredProof.order_reference p). pose proof (C r) as Cr.
  destruct (append_check (existing self r) p) as [[]|] eqn:Hcheck; [| |done]; intros [= <-].
  - apply (appended_version _ _ _ Cr) in Hcheck as [Hv Ht].
    assert (∀ r', existing (<[r := (existing self r ++ [p])%list]> self) r' =
      if decide (r' = r) then (existing self r ++ [p])%list else existing self r') as Hex.
    { intros r'. unfold existing. destruct (decide (r' = r)) as [->|]; [by rewrite lookup_insert_eq|by rewrite lookup_insert_ne]. }
    split; [|split].
    + intros r'. rewrite Hex. destruct (decide (r' = r)) as [->|]; [|apply C]. split.
      * intros i q [Hi|[Hi Hq]]%lookup_app_Some; [by apply (mem_version _ _ Cr)|].
        apply list_lookup_singleton_Some in Hq as [Hi' <-]. split; [lia|done].
      * intros x y. rewrite !elem_of_app, !list_elem_of_singleton. intros [Hx| ->] [Hy| ->];
          [by apply (mem_target _ _ Cr)|by apply Ht|symmetry; by apply Ht|done].
      * intros q [Hq|Hq]%elem_of_app; [by apply (mem_valid _ _ Cr)|]. apply list_elem_of_singleton in Hq as ->. done.
    + unfold latest. rewrite Hex, decide_True by done. apply last_snoc.
    + intros r'. unfold versions. rewrite Hex. destruct (decide (r' = r)) as [->|]; [by exists [p]|].
      exists []. by rewrite app_nil_r.
  - split; [done|]. unfold append_check in Hcheck. split; [|intros r'; exists []; by rewrite app_nil_r].
    unfold latest. destruct (last (existing self r)) as [q|]; [|by destruct (StoredProof.version p != 1)].
    destruct (_ != StoredProof.target_digest q); [done|]. cbn [raise_when result_bind] in Hcheck.
    destruct (_ != StoredProof.version q + 1); [|done].
    destruct (_ && _) eqn:E; [|done]. apply andb_true_iff in E as [_ <-%bool_decide_eq_true]. done.
Qed.
(** A proof is accepted twice: the second time, nothing changes. *)
Theorem append_idempotent self p self' : chained self → append self p = Ok self' → append self' p = Ok self'.
Proof.
  intros C H. destruct (append_spec _ _ _ C H) as (_ & Hl & _). unfold append in *.
  destruct (validate_exact_proof _ _ _ _ _) as [[]|]; [|done]. cbn [result_bind] in *.
  destruct (_ <? 1); [done|]. cbn [raise_when result_bind] in *.
  assert (append_check (existing self' (StoredProof.order_reference p)) p = Ok false) as ->; [|done].
  unfold latest in Hl. unfold append_check. rewrite Hl, (bool_decide_true (StoredProof.target_digest p = _)) by done.
  cbn [negb raise_when result_bind]. rewrite (bool_decide_false (StoredProof.version p = _)) by lia.
  by rewrite !(bool_decide_true (_ = _)) by done.
Qed.
End Store.
End InMemoryProofStore.
