(* ===== verification/Calendars.v ===== *)
(** * The calendar client

    [app/timestamping/calendars.py]: the allowlist of calendars, the transport that resolves a
    host once, refuses the whole answer unless every address is public and then connects to one
    of the addresses, and the timestamper that asks the calendars and merges what they answer.

    The resolver and the exchange of one HTTP request are parameters, as are the functions of the
    OpenTimestamps library.  [asyncio.timeout] interrupts whatever is awaited: the parameters may
    raise [DEADLINE] for it.  The calls that [asyncio.gather] runs concurrently are run one after
    the other; the semaphore, which bounds how many run at once, changes nothing then.

    The adapters that stand in for the network follow at the end: [app/timestamping/fixture.py],
    [app/bitcoin/fixture.py] and [app/bitcoin/disabled.py]. *)
From S2P Require Import Prelude PyStr Url IpAddress Domain Ports Session Ots.

Open Scope string_scope.
Open Scope Z_scope.

Definition CALENDAR_RESPONSE_LIMIT : Z := 10000.
Definition MAX_CALENDAR_URLS : Z := 8.
Definition MAX_UPGRADE_REQUESTS : Z := 8.
(** The cancellation that an expired [asyncio.timeout] throws into the code it guards. *)
Definition DEADLINE : exn := Other "asyncio.timeout".

(** [urlunsplit(("https", netloc, path, "", ""))] for a network location that is not empty. *)
Definition urlunsplit_https (netloc path : string) : string :=
  "https://" ++ netloc ++ (if (path =? "")%string || startswith "/" path then path else "/" ++ path).

(** ** The allowlist *)

Definition is_alnum_or_hyphen (c : ascii) : bool := is_alnum_ascii c || (code c =? 45).
Fixpoint last_char (s : string) : option ascii :=
  match s with
  | EmptyString => None
  | String c EmptyString => Some c
  | String _ s' => last_char s'
  end.
Definition label_valid (label : string) : bool :=
  (1 <=? strlen label) && (strlen label <=? 63) &&
  match label with String c _ => is_alnum_ascii c | EmptyString => false end &&
  match last_char label with Some c => is_alnum_ascii c | None => false end &&
  str_all is_alnum_or_hyphen label.
Definition hostname_valid (hostname : string) : bool :=
  let labels := split_on "." hostname in
  (strlen hostname <=? 253) && (2 <=? List.length labels)%nat && forallb label_valid labels.

(** The timeout is in microseconds. *)
Module CalendarConfiguration.
Record t := mk { allowlist : list string; enabled : bool; timeout_seconds : Z }.
End CalendarConfiguration.
Import CalendarConfiguration(allowlist, enabled, timeout_seconds).

(** One HTTP request: the address that is connected to is in the URL, the name that the server
    must prove is [sni_hostname]. *)
Module Request.
Record t := mk {
  method : string; url : string; headers : list (string * string); content : bytes; sni_hostname : string }.
End Request.
(** What the server answers: the chunks of the body that arrive, and the exception that ends them if
    the body is cut short. *)
Module Response.
Record t := mk {
  status_code : Z; content_encoding : option string; chunks : list bytes; broken : option exn }.
End Response.

Section Client.
Context (check_netloc : string → bool).

Definition not_https : exn := ValueError "calendar_allowlist_requires_operator_https_urls".
Definition _validated_calendar_url (raw_url : string) : result (string * string) :=
  check! raise_when ((raw_url =? "")%string || (raw_url != strip is_unicode_space raw_url) ||
                     negb (str_all (λ c, code c <? 128) raw_url) || str_contains "\" raw_url ||
                     str_exists (λ c, (code c <? 32) || (code c =? 127)) raw_url) not_https in
  try! parsed := except_as (λ _, true) not_https (urlsplit check_netloc raw_url) in
  try! port := except_as (λ _, true) not_https (SplitResult.port parsed) in
  let hostname := lower (default "" (SplitResult.hostname parsed)) in
  let literal_ip := is_some (ip_address hostname) in
  let path_invalid := (SplitResult.path parsed != "") && negb (startswith "/" (SplitResult.path parsed)) in
  check! raise_when ((SplitResult.scheme parsed != "https") || negb (hostname_valid hostname) || literal_ip ||
                     SplitResult.has_userinfo parsed ||
                     (SplitResult.query parsed != "") || (SplitResult.fragment parsed != "") ||
                     negb (port is_in [None; Some 443]) || path_invalid) not_https in
  let path := rstrip (is_char "/") (SplitResult.path parsed) ++ "/" in
  Ok (urlunsplit_https hostname path, hostname).

Definition timeout_in_bounds (timeout : Z) : bool := (100000 <=? timeout) && (timeout <=? seconds 30).

(** The loop over the allowlist, with the URLs and the set of the hosts seen so far. *)
Fixpoint validate_allowlist (urls : list string) (normalized hosts : list string) : result (list string * list string) :=
  match urls with
  | [] => Ok (normalized, hosts)
  | raw_url :: rest =>
      try! (base_url, hostname) := _validated_calendar_url raw_url in
      check! raise_when (base_url is_in normalized) (ValueError "duplicate_calendar_url") in
      validate_allowlist rest (normalized ++ [base_url])%list
        (if hostname is_in hosts then hosts else hosts ++ [hostname])%list
  end.
Definition validated_urls (self : CalendarConfiguration.t) : result (list string) :=
  check! raise_when (negb (enabled self)) (ValueError "real_calendars_disabled") in
  check! raise_when (negb (timeout_in_bounds (timeout_seconds self))) (ValueError "calendar_timeout_out_of_bounds") in
  try! (normalized, hosts) := validate_allowlist (allowlist self) [] [] in
  check! raise_when ((List.length normalized <? 2)%nat || (List.length hosts <? 2)%nat)
    (ValueError "at_least_two_independent_calendar_hosts_required") in
  check! raise_when (MAX_CALENDAR_URLS <? Z.of_nat (List.length normalized)) (ValueError "calendar_allowlist_too_large") in
  Ok normalized.

(** ** The transport *)

Definition _is_globally_routable_unicast (address : address) : bool :=
  is_global address && negb (is_multicast address) && negb (is_private address) && negb (is_loopback address) &&
  negb (is_link_local address) && negb (is_reserved address) && negb (is_unspecified address) &&
  negb (is_site_local address).
(** The loop over the addresses, with the normalized ones so far. *)
Fixpoint vet_addresses (addresses normalized : list string) : result (list string) :=
  match addresses with
  | [] => Ok normalized
  | raw_address :: rest =>
      try! address := need (CalendarUnavailable "calendar_dns_address_invalid") (ip_address raw_address) in
      check! raise_when (negb (_is_globally_routable_unicast address))
        (CalendarUnavailable "calendar_dns_address_not_public") in
      let value := compressed address in
      vet_addresses rest (if value is_in normalized then normalized else normalized ++ [value])%list
  end.
Definition _vetted_public_addresses (addresses : list string) : result (list string) :=
  check! raise_when (bool_decide (addresses = [])) (CalendarUnavailable "calendar_dns_empty") in
  vet_addresses addresses [].

(** The loop over the chunks of the body, with the bytes read so far. *)
Fixpoint read_body (chunks : list bytes) (broken : option exn) (body : bytes) : result bytes :=
  match chunks with
  | [] => match broken with Some e => Raise e | None => Ok body end
  | chunk :: rest =>
      check! raise_when (CALENDAR_RESPONSE_LIMIT - blen body <? blen chunk)
        (CalendarUnavailable "calendar_response_invalid") in
      read_body rest broken (body ++ chunk)%list
  end.
(** What is made of an answer; [None] for the calendar that does not know the commitment yet. *)
Definition read_response (allow_not_found : bool) (response : Response.t) : result (option bytes) :=
  if allow_not_found && (Response.status_code response =? 404) then Ok None else
  check! raise_when (Response.status_code response != 200) (CalendarUnavailable "calendar_http_response_invalid") in
  check! raise_when match Response.content_encoding response with
                    | Some e => lower (strip is_unicode_space e) != "identity"
                    | None => false
                    end (CalendarUnavailable "calendar_response_encoding_invalid") in
  try! body := read_body (Response.chunks response) (Response.broken response) [] in
  Ok (Some body).

(** [except (httpx.HTTPError, OSError, TimeoutError)] *)
Definition is_http_error (e : exn) : bool :=
  match e with HTTPError _ | TransportError _ | OSError _ | TimeoutError => true | _ => false end.
(** [except (OSError, TimeoutError)] *)
Definition is_os_error (e : exn) : bool := match e with OSError _ | TimeoutError => true | _ => false end.
(** [except TimeoutError] around [asyncio.timeout]. *)
Definition is_timeout (e : exn) : bool := bool_decide (e = DEADLINE) || bool_decide (e = TimeoutError).
Definition catch {A} (caught : exn → bool) (e' : exn) (m : M A) : M A :=
  try_except m (λ e, if caught e then Some (raise e') else None).

(** The request for a path under the base URL, to the first of the vetted addresses. *)
Definition pinned_request (method normalized hostname suffix : string) (content : bytes) (vetted : list string) :
    result Request.t :=
  let first := default "" (head vetted) in
  try! pinned := need (ValueError "does not appear to be an IPv4 or IPv6 address") (ip_address first) in
  let authority := match pinned with V6 _ _ => "[" ++ compressed pinned ++ "]" | V4 _ => compressed pinned end in
  try! parsed := urlsplit check_netloc normalized in
  let path := SplitResult.path parsed ++ suffix in
  Ok {|
    Request.method := method;
    Request.url := urlunsplit_https authority path;
    Request.headers := [
      ("Host", hostname); ("Accept", "application/vnd.opentimestamps.v1"); ("Accept-Encoding", "identity");
      ("Content-Type", "application/x-www-form-urlencoded")];
    Request.content := content;
    Request.sni_hostname := hostname |}.

Section Transport.
Context (resolver : string → Z → M (list string)) (send : Request.t → M Response.t).

Definition _request (method base_url suffix : string) (content : bytes) (allow_not_found : bool) : M (option bytes) :=
  let! (normalized, hostname) := lift (_validated_calendar_url base_url) in
  let! addresses := catch is_os_error (CalendarUnavailable "calendar_dns_unavailable") (resolver hostname 443) in
  let! vetted := lift (_vetted_public_addresses addresses) in
  let! request := lift (pinned_request method normalized hostname suffix content vetted) in
  let! body := catch is_http_error (CalendarUnavailable "calendar_request_unavailable")
    (let! response := send request in lift (read_response allow_not_found response)) in
  match body with
  | Some [] => raise (CalendarUnavailable "calendar_response_invalid")
  | _ => ret body
  end.
Definition submit (base_url : string) (digest : bytes) : M bytes :=
  do! raise_if (blen digest != 32) (CalendarUnavailable "calendar_digest_invalid") in
  let! response := catch is_timeout (CalendarUnavailable "calendar_request_unavailable")
    (_request "POST" base_url "digest" digest false) in
  lift (need (CalendarUnavailable "calendar_response_invalid") response).
Definition upgrade (base_url : string) (commitment : bytes) : M (option bytes) :=
  do! raise_if (blen commitment != 32) (CalendarUnavailable "calendar_commitment_invalid") in
  catch is_timeout (CalendarUnavailable "calendar_request_unavailable")
    (_request "GET" base_url ("timestamp/" ++ bytes_hex commitment) [] true).
End Transport.
End Client.

(** [class CalendarTransport] *)
Record CalendarTransport := {
  calendar_submit : string → bytes → M bytes;
  calendar_upgrade : string → bytes → M (option bytes) }.
(** [class HardenedCalendarTransport]; the timeout is in microseconds. *)
Definition HardenedCalendarTransport (check_netloc : string → bool) (timeout : Z)
    (resolver : string → Z → M (list string)) (send : Request.t → M Response.t) : result CalendarTransport :=
  check! raise_when (negb (timeout_in_bounds timeout)) (ValueError "calendar_timeout_out_of_bounds") in
  Ok {| calendar_submit := submit check_netloc resolver send; calendar_upgrade := upgrade check_netloc resolver send |}.

(** ** The timestamper *)

(** The nodes below a node, in the order in which [_walk] yields them, each with the operations that
    lead to it: the children are pushed in order, so the last one is popped first. *)
Fixpoint _walk (path : list Op) (root : Timestamp) : list (list Op * Timestamp) :=
  (path, root) ::
  (fix children (l : list (Op * Timestamp)) : list (list Op * Timestamp) :=
     match l with [] => [] | (op, child) :: l' => children l' ++ _walk (path ++ [op])%list child end)%list (ops root).
(** [asyncio.gather(..., return_exceptions=True)] *)
Fixpoint gather {A} (calls : list (M A)) : M (list (result A)) :=
  match calls with
  | [] => ret []
  | call :: rest => λ w, let '(r, w') := call w in (let! rs := gather rest in ret (r :: rs)) w'
  end.

Section Timestamper.
Context (apply_op : Op → bytes → result bytes).
Context (deserialize : bytes → option DetachedTimestampFile.t).
Context (serialize : DetachedTimestampFile.t → result bytes).
(** [Timestamp.deserialize] on the whole of a response, for a message. *)
Context (deserialize_timestamp : bytes → bytes → result Timestamp).
(** [timestamp.merge(other)]: what becomes of the timestamp, and the exception if there is one. *)
Context (merge : Timestamp → Timestamp → Timestamp * result unit).
Context (transport : CalendarTransport) (_urls : list string).

Definition _timestamp_from_bytes (message response : bytes) : result Timestamp :=
  let invalid := CalendarUnavailable "calendar_response_invalid" in
  check! raise_when (bool_decide (response = []) || (CALENDAR_RESPONSE_LIMIT <? blen response)) invalid in
  except_as is_Exception invalid
    (try! timestamp := deserialize_timestamp message response in
     try! _ := validate_timestamp_tree apply_op timestamp in
     Ok timestamp).

(** The loop over the answers, with the timestamp so far and the number of answers merged. *)
Fixpoint merge_responses (target : bytes) (timestamp : Timestamp) (merged : Z) (responses : list (result bytes)) :
    result (Timestamp * Z) :=
  match responses with
  | [] => Ok (timestamp, merged)
  | Raise _ :: rest => merge_responses target timestamp merged rest
  | Ok response :: rest =>
      let '(timestamp', outcome) :=
        match _timestamp_from_bytes target response with
        | Ok remote => merge timestamp remote
        | Raise e => (timestamp, Raise e)
        end in
      match outcome with
      | Ok _ => merge_responses target timestamp' (merged + 1) rest
      | Raise (CalendarUnavailable _) => merge_responses target timestamp' merged rest
      | Raise e => if is_ValueError e then merge_responses target timestamp' merged rest else Raise e
      end
  end.
Definition stamp_exact_digest (digest : ManifestDigest.t) : M PendingProof.t :=
  let target := ManifestDigest.ots_target digest in
  let! responses := gather (map (λ url, calendar_submit transport url target) _urls) in
  let detached := new_detached_exact_digest digest in
  let! (timestamp, merged) := lift (merge_responses target (DetachedTimestampFile.timestamp detached) 0 responses) in
  do! raise_if (merged =? 0) (CalendarUnavailable "all_calendars_unavailable") in
  let! proof_bytes := lift (serialize_detached apply_op serialize
    (DetachedTimestampFile.mk (DetachedTimestampFile.file_hash_op detached) timestamp)) in
  let! _ := lift (deserialize_exact_proof apply_op deserialize digest proof_bytes None) in
  let! now := now_utc in
  ret (PendingProof.mk proof_bytes (utc now)).

(** *** Upgrading *)

(** [attestation.uri.rstrip("/") + "/"] *)
Definition calendar_url (uri : string) : string := rstrip (is_char "/") uri ++ "/".
(** [d[key] = value] on a dict, as the list of its items. *)
Fixpoint dict_set {K V} `{EqDecision K} (key : K) (value : V) (d : list (K * V)) : list (K * V) :=
  match d with
  | [] => [(key, value)]
  | (k, v) :: d' => if decide (k = key) then (k, value) :: d' else (k, v) :: dict_set key value d'
  end.
(** The keys of the pending attestations of a node that the allowlist names. *)
Definition allowed_pending (node : Timestamp) : list (bytes * string) :=
  omap (λ a, match a with
             | PendingAttestation uri =>
                 if calendar_url uri is_in _urls then Some (msg node, calendar_url uri) else None
             | _ => None
             end) (attestations node).
Definition pending_by_key (root : Timestamp) : list (bytes * string * list Op) :=
  foldl (λ d kp, dict_set kp.1 kp.2 d) []
    (flat_map (λ pn, map (λ key, (key, pn.1)) (allowed_pending pn.2)) (_walk [] root)).

Definition node_missing : exn := RuntimeError "unreachable".
(** [node.merge(remote)] on the node that the operations lead to from the root. *)
Fixpoint merge_at (path : list Op) (remote root : Timestamp) : Timestamp * result unit :=
  match path with
  | [] => merge root remote
  | op :: path' =>
      let '(ops', outcome) :=
        (fix descend (l : list (Op * Timestamp)) : list (Op * Timestamp) * result unit :=
           match l with
           | [] => ([], Raise node_missing)
           | (o, child) :: l' =>
               if decide (o = op) then let '(child', r) := merge_at path' remote child in ((o, child') :: l', r)
               else let '(l'', r) := descend l' in ((o, child) :: l'', r)
           end) (ops root) in
      (mk_timestamp (msg root) (attestations root) ops', outcome)
  end.
(** The loop over the answers to the upgrades. *)
Fixpoint merge_upgrades (root : Timestamp) (changed : bool)
    (answers : list (bytes * string * list Op * result (option bytes))) : result (Timestamp * bool) :=
  match answers with
  | [] => Ok (root, changed)
  | ((message, _, path), Ok (Some response)) :: rest =>
      try! remote := _timestamp_from_bytes message response in
      let '(root', outcome) := merge_at path remote root in
      check! outcome in
      merge_upgrades root' true rest
  | _ :: rest => merge_upgrades root changed rest
  end.
Definition upgrade_exact_digest (digest : ManifestDigest.t) (proof_bytes : bytes) : M bytes :=
  let! parsed := lift (deserialize_exact_proof apply_op deserialize digest proof_bytes None) in
  let detached := ParsedProof.detached parsed in
  let pending := pending_by_key (DetachedTimestampFile.timestamp detached) in
  do! raise_if (MAX_UPGRADE_REQUESTS <? Prelude.len pending) (CalendarUnavailable "calendar_upgrade_fanout_exceeded") in
  if bool_decide (pending = []) then ret proof_bytes else
  let! responses := gather (map (λ '((message, url), _), calendar_upgrade transport url message) pending) in
  let! (timestamp, changed) := lift (merge_upgrades (DetachedTimestampFile.timestamp detached) false (zip pending responses)) in
  let! upgraded := lift
    (if changed : bool
     then serialize_detached apply_op serialize (DetachedTimestampFile.mk (DetachedTimestampFile.file_hash_op detached) timestamp)
     else Ok proof_bytes) in
  let! _ := lift (deserialize_exact_proof apply_op deserialize digest upgraded None) in
  ret upgraded.
End Timestamper.

(** [class MultiCalendarTimestamper]: the URLs it asks and the transport. *)
Definition MultiCalendarTimestamper (check_netloc : string → bool) (config : CalendarConfiguration.t)
    (transport : option CalendarTransport) (resolver : string → Z → M (list string))
    (send : Request.t → M Response.t) : result (list string * CalendarTransport) :=
  try! urls := validated_urls check_netloc config in
  try! transport :=
    match transport with
    | Some transport => Ok transport
    | None => HardenedCalendarTransport check_netloc (timeout_seconds config) resolver send
    end in
  Ok (urls, transport).

(** ** The URLs of the calendars

    What [_validated_calendar_url] accepts and that what it returns is a fixed point. *)
From S2P Require Import Prelude PyStr Url CheckoutUrl IpAddress.

Open Scope string_scope.
Open Scope Z_scope.

(** ** Splitting a plain URL *)

Lemma str_all_and p q s : str_all (λ c, p c && q c) s = str_all p s && str_all q s.
Proof. induction s as [|c s IH]; [done|]. simpl. rewrite IH. by destruct (p c), (q c), (str_all p s). Qed.
Lemma partition_none p s : str_all (λ c, negb (p c)) s = true → partition p s = (s, None, "").
Proof. induction s as [|c s IH]; simpl; [done|]. intros [Hc Hs]%andb_prop. destruct (p c); [done|]. by rewrite IH. Qed.
Lemma partition_at p a c b : str_all (λ c, negb (p c)) a = true → p c = true →
  partition p (a ++ String c b) = (a, Some c, b).
Proof.
  intros Ha Hc. induction a as [|d a IH]; simpl in *; [by rewrite Hc|].
  apply andb_prop in Ha as [Hd Ha]. destruct (p d); [done|]. by rewrite IH.
Qed.
Lemma after_last_none p s : str_all (λ c, negb (p c)) s = true → after_last p s = (false, s).
Proof.
  induction s as [|c s IH]; simpl; [done|]. intros [Hc Hs]%andb_prop. rewrite IH by done. by destruct (p c).
Qed.
Lemma str_all_partition q p s a f b : str_all q s = true → partition p s = (a, f, b) →
  str_all q a = true ∧ str_all q b = true.
Proof.
  intros Hs H%partition_spec. destruct f as [c|]; [destruct H as (_ & _ & ->)|destruct H as (_ & -> & ->)]; [|done].
  rewrite str_all_app in Hs. simpl in Hs. by destruct (str_all q a), (q c).
Qed.
Lemma str_all_rstrip q p s : str_all q s = true → str_all q (rstrip p s) = true.
Proof.
  induction s as [|c s IH]; [done|]. simpl. intros [Hc Hs]%andb_prop. specialize (IH Hs).
  destruct (rstrip p s); [destruct (p c); simpl; by rewrite ?Hc|]. cbn [str_all] in *. by rewrite Hc.
Qed.
Lemma str_all_lstrip q p s : str_all q s = true → str_all q (lstrip p s) = true.
Proof. induction s as [|c s IH]; [done|]. simpl. intros [Hc Hs]%andb_prop. destruct (p c); [by apply IH|]. simpl. by rewrite Hc. Qed.
Lemma str_all_filter q p s : str_all q s = true → str_all q (str_filter p s) = true.
Proof. induction s as [|c s IH]; [done|]. simpl. intros [Hc Hs]%andb_prop. destruct (p c); [simpl; rewrite Hc|]; by apply IH. Qed.
Lemma str_all_drop q n s : str_all q s = true → str_all q (str_drop n s) = true.
Proof. revert s. induction n as [|n IH]; intros [|c s]; simpl; try done. intros [_ Hs]%andb_prop. by apply IH. Qed.
Lemma str_all_removeprefix q p s : str_all q s = true → str_all q (removeprefix p s) = true.
Proof. intros. unfold removeprefix. destruct (startswith p s); [by apply str_all_drop|done]. Qed.
Lemma rstrip_last p s c : p c = true → rstrip p (s ++ String c "") = rstrip p s.
Proof. intros Hc. induction s as [|d s IH]; simpl; [by rewrite Hc|]. by rewrite IH. Qed.
Lemma rstrip_idem p s : rstrip p (rstrip p s) = rstrip p s.
Proof.
  induction s as [|c s IH]; [done|]. simpl. destruct (rstrip p s) as [|d t] eqn:E.
  - destruct (p c) eqn:Ec; simpl; [done|]. by rewrite Ec.
  - change (rstrip p (String c (String d t))) with
      (match rstrip p (String d t) with "" => if p c then "" else String c "" | t' => String c t' end). by rewrite IH.
Qed.
Lemma rstrip_keeps p s c : p c = false → rstrip p (s ++ String c "") = s ++ String c "".
Proof.
  intros Hc. induction s as [|d s IH]; simpl; [by rewrite Hc|]. rewrite IH. by destruct s.
Qed.
Lemma lower_idem s : lower (lower s) = lower s.
Proof.
  assert (H : ∀ c, lower_char (lower_char c) = lower_char c).
  { intros c. destruct c as [[] [] [] [] [] [] [] []]; by vm_compute. }
  unfold lower. induction s as [|c s IH]; [done|]. simpl. by rewrite H, IH.
Qed.

(** The characters of the host names and of the paths of calendar URLs. *)
Definition host_char (c : ascii) : bool := is_alnum_or_hyphen c || (c =? ".")%char.
Definition plain_char (c : ascii) : bool := (32 <=? code c) && (code c <? 127) && negb (c =? "\")%char.
Definition path_char (c : ascii) : bool := plain_char c && negb (is_char "#" c) && negb (is_char "?" c).
Definition is_blank (c : ascii) : bool := (code c =? 9) || (code c =? 13) || (code c =? 10).
Lemma host_char_spec c : host_char c = true →
  (plain_char c && negb (is_char "@" c) && negb (is_char ":" c) && negb (is_char "[" c) && negb (is_char "]" c) &&
   negb (is_netloc_end c) && negb (is_blank c)) = true.
Proof. destruct c as [[] [] [] [] [] [] [] []]; vm_compute; congruence. Qed.
Lemma host_char_all q host : (∀ c, host_char c = true → q c = true) → str_all host_char host = true → str_all q host = true.
Proof. apply str_all_imp. Qed.
Lemma path_char_spec c : path_char c = true →
  (plain_char c && negb (is_char "#" c) && negb (is_char "?" c) && negb (is_blank c)) = true.
Proof. destruct c as [[] [] [] [] [] [] [] []]; vm_compute; congruence. Qed.
Ltac host_chars := eapply host_char_all; [|eassumption]; intros ? H%host_char_spec; rewrite !andb_true_iff in H; tauto.
Ltac path_chars := eapply (str_all_imp path_char); [|eassumption]; intros ? H%path_char_spec; rewrite !andb_true_iff in H; tauto.

Lemma str_all_join q sep l : str_all q sep = true → Forall (λ s, str_all q s = true) l → str_all q (Json.join sep l) = true.
Proof.
  intros Hs H. induction H as [|s l Hq H IH]; [done|]. destruct l as [|s' l]; [done|].
  change (Json.join sep (s :: s' :: l)) with (s ++ sep ++ Json.join sep (s' :: l)). by rewrite !str_all_app, Hq, Hs, IH.
Qed.
Lemma hostname_chars host : hostname_valid host = true → str_all host_char host = true ∧ host ≠ "".
Proof.
  unfold hostname_valid. rewrite !andb_true_iff, forallb_forall. intros [_ H].
  assert (Forall (λ l, label_valid l = true) (split_on "." host)) as Hl
    by (apply Forall_forall; intros l Hl; by apply H, list_elem_of_In).
  split.
  - rewrite <- (join_split_on "." host). apply str_all_join; [done|]. eapply Forall_impl; [exact Hl|].
    unfold label_valid. intros l. rewrite !andb_true_iff. intros [_ Hc]. eapply str_all_imp; [|exact Hc].
    intros c Hc'. unfold host_char. by rewrite Hc'.
  - intros ->. by inversion Hl.
Qed.
Lemma str_exists_all q s : str_exists q s = negb (str_all (λ c, negb (q c)) s).
Proof. induction s as [|c s IH]; [done|]. simpl. rewrite IH. by destruct (q c). Qed.
Lemma str_contains_char c s : str_contains (String c "") s = str_exists (λ d, (d =? c)%char) s.
Proof.
  induction s as [|d s IH]; [done|].
  change (str_contains (String c "") (String d s)) with (startswith (String c "") (String d s) || str_contains (String c "") s).
  rewrite IH. simpl. f_equal. unfold startswith. simpl. destruct (ascii_dec c d) as [->|Hn].
  - rewrite Ascii.eqb_refl. by destruct s.
  - symmetry. by apply Ascii.eqb_neq.
Qed.

Definition base_url (host path : string) : string := "https://" ++ host ++ path.

Section Urls.
Context (check_netloc : string → bool).

Lemma urlsplit_base host t : str_all host_char host = true → str_all path_char (String "/" t) = true →
  check_netloc host = true →
  urlsplit check_netloc (base_url host (String "/" t)) = Ok (SplitResult.mk "https" host (String "/" t) "" "").
Proof.
  intros Hh Hp Hc. unfold urlsplit, base_url. set (path := String "/" t) in *.
  assert (lstrip c0_or_space ("https://" ++ host ++ path) = "https://" ++ host ++ path) as -> by done.
  rewrite str_filter_id.
  2:{ rewrite !str_all_app. change (str_all _ "https://") with true. cbn [andb]. apply andb_true_intro. split.
      - host_chars.
      - path_chars. }
  change (split_scheme ("https://" ++ host ++ path)) with ("https", "//" ++ host ++ path).
  cbv iota beta. rewrite startswith_app, removeprefix_app. unfold split_netloc. unfold path at 1.
  rewrite partition_at by (host_chars || done). cbv iota beta.
  assert (str_has (is_char "[") host = false ∧ str_has (is_char "]") host = false) as [-> ->].
  { unfold str_has. split; rewrite partition_none by host_chars; done. }
  rewrite Hc. cbn [xorb negb raise_when result_bind].
  rewrite partition_none by path_chars. cbv iota beta. rewrite partition_none by path_chars. done.
Qed.

(** A URL that the splitter parsed has the characters of the text. *)
Lemma urlsplit_path q raw parsed : str_all q raw = true → urlsplit check_netloc raw = Ok parsed →
  str_all q (SplitResult.path parsed) = true ∧
  str_all (λ c, negb (is_char "#" c)) (SplitResult.path parsed) = true ∧
  str_all (λ c, negb (is_char "?" c)) (SplitResult.path parsed) = true.
Proof.
  intros Hq. unfold urlsplit. set (url := str_filter _ _).
  assert (str_all q url = true) as Hu by (by apply str_all_filter, str_all_lstrip).
  destruct (split_scheme url) as [scheme url1] eqn:E1.
  assert (str_all q url1 = true) as H1.
  { unfold split_scheme in E1. destruct (partition (is_char ":") url) as [[s f] tail] eqn:E.
    destruct (str_all_partition _ _ _ _ _ _ Hu E) as [_ Ht]. destruct s, f; try destruct (_ && _); by injection E1 as <- <-. }
  destruct (if startswith "//" url1 then _ else _) as [netloc url2] eqn:E2.
  assert (str_all q url2 = true) as H2.
  { destruct (startswith "//" url1); [|by injection E2 as <- <-]. unfold split_netloc in E2.
    destruct (partition is_netloc_end _) as [[n f] tail] eqn:E. injection E2 as <- <-.
    pose proof (str_all_removeprefix q "//" url1 H1) as Hr. apply partition_spec in E as [_ E].
    destruct f as [c|]; [|done]. destruct E as [_ E]. rewrite E, str_all_app in Hr. by apply andb_prop in Hr as [_ Hr]. }
  intros H. apply result_bind_Ok in H as (? & _ & H). apply result_bind_Ok in H as (? & _ & H).
  destruct (partition (is_char "#") url2) as [[url3 f] fragment] eqn:E3.
  destruct (partition (is_char "?") url3) as [[path f'] query] eqn:E4. injection H as <-. simpl.
  destruct (str_all_partition _ _ _ _ _ _ H2 E3) as [H3 _]. destruct (str_all_partition _ _ _ _ _ _ H3 E4) as [H4 _].
  split; [done|]. split; [|by apply partition_spec in E4 as [? _]].
  apply partition_spec in E3 as [E3 _]. by destruct (str_all_partition _ _ _ _ _ _ E3 E4) as [? _].
Qed.

(** What the validation returns: the host in lower case, without a port, and a path that ends with one
    slash more than anything before it. *)
Record calendar_base (base hostname : string) : Prop := {
  host_valid : hostname_valid hostname = true;
  host_name : ip_address hostname = None;
  host_lower : lower hostname = hostname;
  base_shape : ∃ p, base = base_url hostname (rstrip (is_char "/") p ++ "/") ∧ str_all path_char p = true ∧
    (p = "" ∨ ∃ t, p = String "/" t) }.
Lemma validated_url_base raw base hostname :
  _validated_calendar_url check_netloc raw = Ok (base, hostname) → calendar_base base hostname.
Proof.
  unfold _validated_calendar_url. intros H. apply result_bind_Ok in H as ([] & Hraw%raise_when_Ok & H).
  apply result_bind_Ok in H as (parsed & Hp%except_as_Ok & H). apply result_bind_Ok in H as (port & _ & H).
  apply result_bind_Ok in H as ([] & Hv%raise_when_Ok & H). injection H as <- <-.
  rewrite !orb_false_iff in Hraw. destruct Hraw as ((((_ & _) & Ha) & Hb) & Hc).
  rewrite !orb_false_iff, !negb_false_iff in Hv. destruct Hv as (((((((_ & Hh) & Hip) & _) & _) & _) & _) & Hpath).
  assert (Hplain : str_all plain_char raw = true).
  { rewrite negb_false_iff in Ha. change "\" with (String "\"%char "") in Hb.
    rewrite str_contains_char, str_exists_all, negb_false_iff in Hb. rewrite str_exists_all, negb_false_iff in Hc.
    pose proof (conj Ha (conj Hb Hc)) as Hall. rewrite <- !andb_true_iff, <- !str_all_and in Hall.
    eapply str_all_imp; [|exact Hall]. intros c. cbv beta. unfold plain_char. destruct (c =? "\")%char; lia. }
  destruct (urlsplit_path _ _ _ Hplain Hp) as (Hp1 & Hp2 & Hp3). split.
  - done.
  - unfold is_some in Hip. rewrite negb_false_iff, is_none_true in Hip. exact Hip.
  - apply lower_idem.
  - exists (SplitResult.path parsed).
    assert (Hs : SplitResult.path parsed = "" ∨ ∃ t, SplitResult.path parsed = String "/" t).
    { rewrite andb_false_iff, !negb_false_iff in Hpath. destruct Hpath as [E%bool_decide_eq_true|E%startswith_iff]; [by left|right].
      destruct E as [t ->]. by exists t. }
    split_and!; [|unfold path_char; by rewrite !str_all_and, Hp1, Hp2, Hp3|done].
    unfold urlunsplit_https, base_url. f_equal. f_equal. destruct Hs as [-> |[t ->]]; [done|].
    cbn [rstrip]. by destruct (rstrip (is_char "/") t) as [|d []].
Qed.

(** The library checks the network locations with characters outside ASCII or brackets only. *)
Context (check_netloc_plain : ∀ host, str_all host_char host = true → check_netloc host = true).

Lemma calendar_base_split base hostname : calendar_base base hostname → ∃ t,
  base = base_url hostname (String "/" t) ∧ str_all path_char (String "/" t) = true ∧
  rstrip (is_char "/") (String "/" t) ++ "/" = String "/" t ∧
  urlsplit check_netloc base = Ok (SplitResult.mk "https" hostname (String "/" t) "" "").
Proof.
  intros [Hh _ _ (p & -> & Hp & Hs)]. apply hostname_chars in Hh as [Hh _].
  assert (∃ t, rstrip (is_char "/") p ++ "/" = String "/" t) as [t Ht].
  { destruct Hs as [-> |[u ->]]; [by exists ""|]. cbn [rstrip]. destruct (rstrip (is_char "/") u) as [|d u']; simpl; eauto. }
  assert (str_all path_char (String "/" t) = true) as Hc by (by rewrite <- Ht, str_all_app, str_all_rstrip).
  exists t. rewrite Ht. split_and!; [done|done| |by apply urlsplit_base; auto].
  by rewrite <- Ht, rstrip_last, rstrip_idem.
Qed.
Lemma calendar_base_valid base hostname : calendar_base base hostname →
  _validated_calendar_url check_netloc base = Ok (base, hostname).
Proof.
  intros Hb. destruct (calendar_base_split _ _ Hb) as (t & Ht & Hc & Hr & Hsplit). destruct Hb as [Hv Hip Hl (p & Hp & _)].
  destruct (hostname_chars _ Hv) as [Hh Hne].
  assert (Hplain : str_all plain_char base = true).
  { rewrite Ht. unfold base_url. rewrite !str_all_app. change (str_all plain_char "https://") with true. cbn [andb].
    apply andb_true_intro. split; [host_chars|path_chars]. }
  assert (strip is_unicode_space base = base) as Hstrip.
  { unfold strip. assert (lstrip is_unicode_space base = base) as -> by (by rewrite Ht).
    rewrite Hp. unfold base_url. rewrite <- !string_app_assoc. by apply rstrip_keeps. }
  assert ((base =? "")%string = false) as Hempty by (by rewrite Ht).
  unfold _validated_calendar_url. rewrite Hempty, Hstrip, bool_decide_eq_true_2 by done. cbn [negb orb].
  assert (str_all (λ c, code c <? 128) base = true) as -> by (eapply str_all_imp; [|exact Hplain]; intros c; unfold plain_char; lia).
  change "\" with (String "\"%char ""). rewrite str_contains_char, !str_exists_all.
  assert (str_all (λ c, negb (c =? "\")%char) base = true) as ->
    by (eapply str_all_imp; [|exact Hplain]; intros c; unfold plain_char; destruct (c =? "\")%char; lia).
  assert (str_all (λ c, negb ((code c <? 32) || (code c =? 127))) base = true) as ->
    by (eapply str_all_imp; [|exact Hplain]; intros c; unfold plain_char; lia).
  cbn [negb orb raise_when result_bind]. rewrite Hsplit. cbn [except_as result_bind].
  assert (SplitResult.host_port (SplitResult.mk "https" hostname (String "/" t) "" "") = (hostname, None)) as Hhp.
  { unfold SplitResult.host_port, SplitResult.hostinfo. cbn [SplitResult.netloc]. rewrite after_last_none by host_chars. cbn [snd].
    rewrite !partition_none by host_chars. done. }
  unfold SplitResult.port, SplitResult.hostname. rewrite Hhp. cbn [fst snd except_as result_bind]. rewrite Hl.
  rewrite (proj2 (String.eqb_neq _ _) Hne). cbn [default]. unfold default. cbn [id]. rewrite Hl, Hv, Hip.
  unfold SplitResult.has_userinfo, str_has. cbn [SplitResult.netloc]. rewrite partition_none by host_chars. cbv iota beta.
  cbn [SplitResult.scheme SplitResult.query SplitResult.fragment SplitResult.path].
  assert (startswith "/" (String "/" t) = true) as E by apply (startswith_app "/" t). rewrite E, andb_false_r, Hr.
  unfold urlunsplit_https. rewrite E, orb_true_r, Ht. done.
Qed.
End Urls.

(** ** The calendar client reaches public hosts of the allowlist only

    Which addresses the vetting of [Calendars] lets pass, what its requests look like, and what the
    timestamper makes of the answers. *)
From S2P Require Import Prelude PyStr Url IpAddress Domain Ports Session Ots.

Open Scope string_scope.
Open Scope Z_scope.

(** ** Public addresses *)

Definition quad (a b c d : Z) : Z := a * 2 ^ 24 + b * 2 ^ 16 + c * 2 ^ 8 + d.
(** The special-purpose blocks of IPv4 (RFC 6890 and its successors), as first and last address. *)
Definition special4 : list (Z * Z) := [
  (quad 0 0 0 0, quad 0 255 255 255); (quad 10 0 0 0, quad 10 255 255 255);
  (quad 100 64 0 0, quad 100 127 255 255); (quad 127 0 0 0, quad 127 255 255 255);
  (quad 169 254 0 0, quad 169 254 255 255); (quad 172 16 0 0, quad 172 31 255 255);
  (quad 192 0 0 0, quad 192 0 0 8); (quad 192 0 0 11, quad 192 0 0 255);
  (quad 192 0 2 0, quad 192 0 2 255); (quad 192 168 0 0, quad 192 168 255 255);
  (quad 198 18 0 0, quad 198 19 255 255); (quad 198 51 100 0, quad 198 51 100 255);
  (quad 203 0 113 0, quad 203 0 113 255); (quad 224 0 0 0, quad 239 255 255 255);
  (quad 240 0 0 0, quad 255 255 255 255)].
(** The address whose first three hextets are given. *)
Definition hex3 (a b c : Z) : Z := a * 2 ^ 112 + b * 2 ^ 96 + c * 2 ^ 80.
(** The blocks of the global unicast space 2000::/3 that are not for hosts of the public internet. *)
Definition special6 : list (Z * Z) := [
  (hex3 0x2001 0 0, hex3 0x2001 1 0); (hex3 0x2001 1 0 + 3, hex3 0x2001 3 0 - 1);
  (hex3 0x2001 4 0, hex3 0x2001 4 0x112 - 1); (hex3 0x2001 4 0x113, hex3 0x2001 0x20 0 - 1);
  (hex3 0x2001 0x40 0, hex3 0x2001 0x200 0 - 1);
  (hex3 0x2001 0xdb8 0, hex3 0x2001 0xdb9 0 - 1); (hex3 0x2002 0 0, hex3 0x2003 0 0 - 1);
  (hex3 0x3fff 0 0, hex3 0x3fff 0x1000 0 - 1)].
Definition avoids (ip : Z) (block : Z * Z) : Prop := ip < block.1 ∨ block.2 < ip.
Definition public_unicast (a : address) : Prop :=
  match a with
  | V4 ip => Forall (avoids ip) special4
  | V6 ip _ => hex3 0x2000 0 0 <= ip < hex3 0x4000 0 0 ∧ Forall (avoids ip) special6
  end.

(** Splits a list of intervals that a number avoids (or does not) into separate facts. *)
Ltac each H := repeat (let X := fresh "A" in apply Forall_cons in H as [X H]); apply Forall_nil in H; clear H.
Ltac open_blocks :=
  unfold IPv4.public, IPv4.multicast, IPv4.loopback, IPv4.linklocal, IPv4.reserved, IPv6.multicast, IPv6.linklocal,
    IPv6.sitelocal in *; unfold special4, special6, IPv4.private, IPv6.private, IPv6.reserved, avoids, outside, inside, quad, hex3, IPv4.net, IPv6.net in *; cbn [fst snd] in *.

(** Each block on its own: a single block of the context says that the number avoids it. *)
Ltac block_by_block :=
  open_blocks; repeat apply Forall_cons_2; try apply Forall_nil_2; cbn [fst snd];
  match goal with A : _ ∨ _ |- _ => solve [clear - A; lia] | A : _ <= _ < _ |- _ => solve [clear - A; lia] end.

Lemma private4_false ip : 0 <= ip < 2 ^ 32 →
  IPv4.is_private ip = false ↔
  Forall (outside 32 ip) IPv4.private ∨ ip = quad 192 0 0 9 ∨ ip = quad 192 0 0 10.
Proof.
  intros Hip. unfold IPv4.is_private. rewrite andb_false_iff, negb_false_iff, in_networks_false, in_networks_true by done.
  unfold IPv4.private_exceptions. rewrite !Exists_cons, Exists_nil. unfold inside, quad, IPv4.net. cbn [fst snd].
  change (2 ^ (32 - 32)) with 1. apply or_iff_compat_l. lia.
Qed.
Lemma routable4 ip : 0 <= ip < 2 ^ 32 → _is_globally_routable_unicast (V4 ip) = true ↔ public_unicast (V4 ip).
Proof.
  intros Hip. unfold _is_globally_routable_unicast. simpl. unfold IPv4.is_global.
  rewrite !andb_true_iff, !negb_true_iff, private4_false, !in_network_false by done. rewrite Z.eqb_neq.
  split.
  - intros ((((((((H1 & H2) & H3) & _) & H4) & H5) & H6) & H7) & _). simpl.
    destruct H2 as [H2|H2]; [|clear - H2; block_by_block]. unfold IPv4.private in H2. each H2. block_by_block.
  - simpl. intros H. unfold special4 in H. each H.
    assert (Forall (outside 32 ip) IPv4.private ∨ ip = quad 192 0 0 9 ∨ ip = quad 192 0 0 10) as Hp.
    { destruct (decide (ip = quad 192 0 0 9 ∨ ip = quad 192 0 0 10)) as [?|Hn]; [by right|left].
      assert (outside 32 ip (IPv4.net 192 0 0 0 24)) by (clear - Hn A5 A6; open_blocks; lia). block_by_block. }
    split_and!; try done; block_by_block.
Qed.

Definition exception6 (ip : Z) : Prop :=
  ip = hex3 0x2001 1 0 + 1 ∨ ip = hex3 0x2001 1 0 + 2 ∨ hex3 0x2001 3 0 <= ip < hex3 0x2001 4 0 ∨
  hex3 0x2001 4 0x112 <= ip < hex3 0x2001 4 0x113 ∨ hex3 0x2001 0x20 0 <= ip < hex3 0x2001 0x40 0.
Lemma private6_false ip : 0 <= ip < 2 ^ 128 → IPv6.ipv4_mapped ip = None →
  IPv6.is_private ip = false ↔ Forall (outside 128 ip) IPv6.private ∨ exception6 ip.
Proof.
  intros Hip Hm. unfold IPv6.is_private. rewrite Hm, andb_false_iff, negb_false_iff, in_networks_false, in_networks_true by done.
  unfold IPv6.private_exceptions. rewrite !Exists_cons, Exists_nil. unfold exception6. open_blocks.
  apply or_iff_compat_l. lia.
Qed.
Lemma mapped_low ip : 0 <= ip → IPv6.ipv4_mapped ip ≠ None → ip < 2 ^ 48.
Proof.
  unfold IPv6.ipv4_mapped. intros Hip. destruct (_ =? _) eqn:E; [intros _|done].
  rewrite Z.shiftr_div_pow2 in E by done. apply Z.eqb_eq in E. Z.div_mod_to_equations. lia.
Qed.
(** The next network starts where the last one ended. *)
Ltac above H Hge := destruct H as [H|H]; [exfalso; clear - H Hge; lia|clear Hge; rename H into Hge].
(** What the reserved networks and the other blocks leave: 2000::/3. *)
Lemma unicast6 ip : 0 <= ip < 2 ^ 128 → Forall (outside 128 ip) IPv6.reserved → outside 128 ip IPv6.linklocal →
  outside 128 ip IPv6.sitelocal → outside 128 ip IPv6.multicast → outside 128 ip (IPv6.net 0xfc00 0 0 7) →
  hex3 0x2000 0 0 <= ip < hex3 0x4000 0 0.
Proof.
  intros Hip H Hl Hs Hm Hp. unfold IPv6.reserved in H. each H. open_blocks. split.
  - pose proof (proj1 Hip) as Hge. above A Hge. above A0 Hge. above A1 Hge. above A2 Hge. above A3 Hge. above A4 Hge.
    clear - Hge. lia.
  - apply Z.lt_nge. intros Hge. above A5 Hge. above A6 Hge. above A7 Hge. above A8 Hge. above A9 Hge. above A10 Hge.
    above A11 Hge. above A12 Hge. above Hp Hge. above A13 Hge. above Hl Hge. above Hs Hge. above Hm Hge.
    clear - Hge Hip. lia.
Qed.
Lemma routable6 ip scope : 0 <= ip < 2 ^ 128 →
  _is_globally_routable_unicast (V6 ip scope) = true ↔ public_unicast (V6 ip scope).
Proof.
  intros Hip. unfold _is_globally_routable_unicast.
  cbn [is_global is_multicast is_private is_loopback is_link_local is_reserved is_unspecified is_site_local public_unicast].
  rewrite !andb_true_iff, !negb_true_iff, !in_network_false, !in_networks_false by done.
  destruct (decide (IPv6.ipv4_mapped ip = None)) as [Hm|Hm].
  2:{ apply mapped_low in Hm; [|lia]. split.
      - intros (((_ & H) & _) & _). unfold IPv6.reserved in H. each H. clear - A Hip Hm. open_blocks. lia.
      - intros [H _]. clear - H Hm. open_blocks. lia. }
  rewrite private6_false by done. split.
  - intros (((((((H1 & H2) & _) & _) & H3) & H4) & _) & H5).
    destruct H1 as [H1|H1].
    + unfold IPv6.private in H1. each H1. split; [by apply unicast6|]. clear - A A0 A1 A2 A3 A4 A5 A6 A7 A8 A9. block_by_block.
    + clear - H1. unfold exception6 in H1. split; [open_blocks; lia|]. block_by_block.
  - intros [Hu H]. unfold special6 in H. each H.
    assert (Forall (outside 128 ip) IPv6.private ∨ exception6 ip) as Hp.
    { destruct (decide (exception6 ip)) as [?|Hn]; [by right|left].
      assert (outside 128 ip (IPv6.net 0x2001 0 0 23)) by (clear - Hn A A0 A1 A2 A3; unfold exception6 in Hn; open_blocks; lia).
      block_by_block. }
    split_and!; try done; block_by_block.
Qed.
Lemma routable_public a : well_formed a → _is_globally_routable_unicast a = true ↔ public_unicast a.
Proof. destruct a as [ip|ip scope]; [apply routable4|]. intros [? _]. by apply routable6. Qed.

(** ** Vetting *)

(** The text of a public address. *)
Definition public_text (s : string) : Prop := ∃ a, ip_address s = Some a ∧ public_unicast a.
Lemma vet_addresses_Ok addresses : ∀ normalized vetted, vet_addresses addresses normalized = Ok vetted →
  Forall public_text addresses ∧
  ∀ v, v ∈ vetted ↔ v ∈ normalized ∨ ∃ s a, s ∈ addresses ∧ ip_address s = Some a ∧ v = compressed a.
Proof.
  induction addresses as [|s addresses IH]; intros normalized vetted H; cbn [vet_addresses] in H.
  { injection H as <-. split; [done|]. intros v. set_solver. }
  apply result_bind_Ok in H as (a & Ha%need_Ok & H). apply result_bind_Ok in H as ([] & Hg%raise_when_Ok & H).
  rewrite negb_false_iff in Hg. apply IH in H as [H1 H2].
  assert (public_text s) as Hs by (exists a; split; [done|]; apply routable_public; [by eapply ip_address_well_formed|done]).
  split; [by constructor|]. intros v. rewrite H2. setoid_rewrite elem_of_cons.
  assert (v ∈ (if bool_decide (compressed a ∈ normalized) then normalized else (normalized ++ [compressed a])%list) ↔
          v ∈ normalized ∨ v = compressed a) as ->.
  { case_bool_decide; [|set_solver]. split; [by left|]. by intros [?| ->]. }
  split; [naive_solver|]. intros [?|(s' & a' & [->|?] & Ha' & ->)]; [by left; left| |by right; exists s', a'].
  left. right. congruence.
Qed.
Lemma vet_addresses_total addresses : Forall public_text addresses → ∀ normalized, ∃ vetted,
  vet_addresses addresses normalized = Ok vetted.
Proof.
  induction 1 as [|s addresses (a & Ha & Hp) _ IH]; intros normalized; [by eexists|]. cbn [vet_addresses].
  rewrite Ha. cbn [need result_bind]. apply routable_public in Hp; [|by eapply ip_address_well_formed].
  rewrite Hp. cbn [negb raise_when result_bind]. apply IH.
Qed.
Lemma vetted_first addresses vetted : _vetted_public_addresses addresses = Ok vetted →
  ∃ a, ip_address (default "" (head vetted)) = Some a ∧ public_unicast a ∧ well_formed a.
Proof.
  unfold _vetted_public_addresses. intros H. apply result_bind_Ok in H as ([] & Hn%raise_when_Ok & H).
  apply bool_decide_eq_false in Hn. apply vet_addresses_Ok in H as [Hp Hv].
  destruct vetted as [|v vetted].
  { destruct addresses as [|s addresses]; [done|]. apply Forall_cons in Hp as [(a & Ha & _) _].
    assert (compressed a ∈ @nil string) as Hin by (apply Hv; right; exists s, a; set_solver). by apply elem_of_nil in Hin. }
  destruct (proj1 (Hv v) ltac:(set_solver)) as [Hin|(s & a & Hs & Ha & ->)]; [by apply elem_of_nil in Hin|].
  exists a. pose proof (ip_address_well_formed _ _ Ha) as Hw. rewrite Forall_forall in Hp. destruct (Hp s Hs) as (a' & Ha' & ?).
  split_and!; [by apply ip_address_compressed|congruence|done].
Qed.

(** C9: The answer of the resolver is accepted exactly when it is not empty and every address in it
    is a global unicast address of the public internet: for IPv4 one outside the special-purpose blocks,
    for IPv6 one of 2000::/3 outside the blocks for documentation, benchmarking, tunnels and protocols. One
    other address, or one text that is no address, and the whole answer is refused; what is accepted
    is the compressed form of the addresses. *)
Theorem vetting_accepts_public_answers (addresses : list string) :
  (is_Ok (_vetted_public_addresses addresses) ↔ addresses ≠ [] ∧ Forall public_text addresses) ∧
  ∀ vetted, _vetted_public_addresses addresses = Ok vetted →
    ∀ v, v ∈ vetted ↔ ∃ s a, s ∈ addresses ∧ ip_address s = Some a ∧ v = compressed a.
Proof.
  unfold _vetted_public_addresses. split; [split|].
  - intros [vetted H]. apply result_bind_Ok in H as ([] & Hn%raise_when_Ok & H). apply bool_decide_eq_false in Hn.
    by apply vet_addresses_Ok in H as [? _].
  - intros [Hn H]. rewrite bool_decide_eq_false_2 by done. by apply vet_addresses_total.
  - intros vetted H v. apply result_bind_Ok in H as ([] & _ & H). apply vet_addresses_Ok in H as [_ H]. rewrite H.
    split; [intros [Hv|?]; [by apply elem_of_nil in Hv|done]|by right].
Qed.

(** ** The allowlist *)

Section Allowlist.
Context (check_netloc : string → bool).

Lemma validate_allowlist_Ok urls : ∀ normalized hosts normalized' hosts',
  validate_allowlist check_netloc urls normalized hosts = Ok (normalized', hosts') →
  NoDup normalized → NoDup hosts →
  (∀ base, base ∈ normalized → ∃ host, host ∈ hosts ∧ calendar_base base host) →
  (∀ host, host ∈ hosts → ∃ base, base ∈ normalized ∧ calendar_base base host) →
  NoDup normalized' ∧ NoDup hosts' ∧
  (∀ base, base ∈ normalized' → ∃ host, host ∈ hosts' ∧ calendar_base base host) ∧
  (∀ host, host ∈ hosts' → ∃ base, base ∈ normalized' ∧ calendar_base base host).
Proof.
  induction urls as [|raw urls IH]; intros normalized hosts normalized' hosts' H Hn Hh Hb Hb'; cbn [validate_allowlist] in H.
  { by injection H as <- <-. }
  apply result_bind_Ok in H as ([base host] & Hv%validated_url_base & H).
  apply result_bind_Ok in H as ([] & Hd%raise_when_Ok & H). apply bool_decide_eq_false in Hd.
  apply IH in H; [done|..].
  - apply NoDup_app. split_and!; [done|set_solver|apply NoDup_singleton].
  - case_bool_decide; [done|]. apply NoDup_app. split_and!; [done|set_solver|apply NoDup_singleton].
  - intros b. rewrite elem_of_app, list_elem_of_singleton. intros [H'| ->].
    + destruct (Hb b H') as (h & ? & ?). exists h. case_bool_decide; set_solver.
    + exists host. case_bool_decide; set_solver.
  - intros h Hin. assert (h ∈ hosts ∨ h = host) as [H'| ->] by (case_bool_decide; set_solver).
    + destruct (Hb' h H') as (b & ? & ?). exists b. set_solver.
    + exists base. set_solver.
Qed.
(** The URLs of a configuration that is accepted. *)
Lemma validated_urls_Ok config urls : validated_urls check_netloc config = Ok urls →
  NoDup urls ∧ (2 ≤ List.length urls ≤ 8)%nat ∧ (∀ base, base ∈ urls → ∃ host, calendar_base base host) ∧
  ∃ hosts, NoDup hosts ∧ (2 ≤ List.length hosts)%nat ∧
    ∀ host, host ∈ hosts → ∃ base, base ∈ urls ∧ calendar_base base host.
Proof.
  unfold validated_urls. intros H. apply result_bind_Ok in H as ([] & _ & H). apply result_bind_Ok in H as ([] & _ & H).
  apply result_bind_Ok in H as ([normalized hosts] & Hv & H). apply result_bind_Ok in H as ([] & Hl%raise_when_Ok & H).
  apply result_bind_Ok in H as ([] & Hm%raise_when_Ok & H). injection H as <-.
  rewrite orb_false_iff, !Nat.ltb_ge in Hl. unfold MAX_CALENDAR_URLS in Hm.
  apply validate_allowlist_Ok in Hv as (H1 & H2 & H3 & H4); [|by constructor|by constructor|set_solver|set_solver].
  split_and!; [done|lia|lia|naive_solver|]. exists hosts. split_and!; [done|lia|done].
Qed.
End Allowlist.

(** ** Requests *)

(** How the address that is connected to is written in the URL. *)
Definition authority (a : address) : string :=
  match a with V6 _ _ => "[" ++ compressed a ++ "]" | V4 _ => compressed a end.
(** A request to a calendar: it goes to a public address, over TLS, to the server that proves the name of
    the calendar, and asks for nothing but a submission or an upgrade under the URL of the calendar. *)
Definition calendar_request (base hostname : string) (r : Request.t) : Prop :=
  ∃ a path suffix,
    public_unicast a ∧ well_formed a ∧
    base = base_url hostname path ∧ Request.url r = base_url (authority a) (path ++ suffix) ∧
    Request.sni_hostname r = hostname ∧ ("Host", hostname) ∈ Request.headers r ∧
    ((Request.method r = "POST" ∧ suffix = "digest" ∧ blen (Request.content r) = 32) ∨
     ∃ commitment, Request.method r = "GET" ∧ suffix = "timestamp/" ++ bytes_hex commitment ∧
       blen commitment = 32 ∧ Request.content r = []).
(** A request to one of the calendars of an allowlist. *)
Definition allowed_request (urls : list string) (r : Request.t) : Prop :=
  ∃ base hostname, base ∈ urls ∧ calendar_base base hostname ∧ calendar_request base hostname r.

(** Programs that behave alike. *)
Lemma bind_ext {A B} (m m' : M A) (f f' : A → M B) w : m w = m' w → (∀ a w', f a w' = f' a w') →
  bind m f w = bind m' f' w.
Proof. unfold bind. intros -> Hf. by destruct (m' w) as [[]]. Qed.
Lemma catch_ext {A} caught e (m m' : M A) w : m w = m' w → catch caught e m w = catch caught e m' w.
Proof. unfold catch, try_except. by intros ->. Qed.
Lemma gather_ext {A B} (f g : B → M A) l : (∀ x w, x ∈ l → f x w = g x w) → ∀ w, gather (map f l) w = gather (map g l) w.
Proof.
  induction l as [|x l IH]; intros H w; [done|]. cbn [map gather]. rewrite H by set_solver.
  destruct (g x w) as [r w']. apply bind_ext; [|done]. apply IH. set_solver.
Qed.

Section Requests.
Context (check_netloc : string → bool).
Context (check_netloc_plain : ∀ host, str_all host_char host = true → check_netloc host = true).
Context (resolver : string → Z → M (list string)).

Lemma pinned_request_spec base hostname method suffix content addresses vetted r :
  calendar_base base hostname → _vetted_public_addresses addresses = Ok vetted →
  pinned_request check_netloc method base hostname suffix content vetted = Ok r →
  ∃ a path, public_unicast a ∧ well_formed a ∧ base = base_url hostname path ∧
    Request.url r = base_url (authority a) (path ++ suffix) ∧ Request.sni_hostname r = hostname ∧
    ("Host", hostname) ∈ Request.headers r ∧ Request.method r = method ∧ Request.content r = content.
Proof.
  intros Hb (a & Ha & Hp & Hw)%vetted_first H. unfold pinned_request in H. rewrite Ha in H. cbn [need result_bind] in H.
  destruct (calendar_base_split _ check_netloc_plain _ _ Hb) as (t & Ht & _ & _ & Hs). rewrite Hs in H.
  injection H as <-. exists a, (String "/" t). split_and!; try done; [|set_solver].
  cbn [Request.url SplitResult.path]. unfold urlunsplit_https.
  assert (startswith "/" (String "/" t ++ suffix) = true) as -> by apply (startswith_app "/" (t ++ suffix)).
  rewrite orb_true_r. by destruct a.
Qed.

Section Agree.
Context (urls : list string) (urls_valid : ∀ base, base ∈ urls → ∃ host, calendar_base base host).
Context (send send' : Request.t → M Response.t).
Context (agree : ∀ r w, allowed_request urls r → send r w = send' r w).

Lemma request_agrees base suffix method content allow_not_found w : base ∈ urls →
  (method = "POST" ∧ suffix = "digest" ∧ blen content = 32) ∨
  (∃ commitment, method = "GET" ∧ suffix = "timestamp/" ++ bytes_hex commitment ∧ blen commitment = 32 ∧ content = []) →
  _request check_netloc resolver send method base suffix content allow_not_found w =
  _request check_netloc resolver send' method base suffix content allow_not_found w.
Proof.
  intros Hin Hs. destruct (urls_valid base Hin) as [host Hb]. unfold _request.
  rewrite (calendar_base_valid _ check_netloc_plain _ _ Hb). rewrite !(bind_Ok _ _ w (base, host) w) by done.
  apply bind_ext; [done|]. intros addresses w1. destruct (_vetted_public_addresses addresses) as [vetted|e] eqn:Ev; [|done].
  rewrite !(bind_Ok _ _ w1 vetted w1) by done.
  destruct (pinned_request _ _ _ _ _ _ _) as [r|e] eqn:Er; [|done]. rewrite !(bind_Ok _ _ w1 r w1) by done.
  apply bind_ext; [|done]. apply catch_ext, bind_ext; [|done]. apply agree.
  destruct (pinned_request_spec _ _ _ _ _ _ _ _ Hb Ev Er) as (a & path & ? & ? & ? & ? & ? & ? & <- & <-).
  exists base, host. split; [done|]. split; [done|]. exists a, path, suffix. split_and!; done.
Qed.
Lemma submit_agrees base digest w : base ∈ urls →
  submit check_netloc resolver send base digest w = submit check_netloc resolver send' base digest w.
Proof.
  intros Hin. unfold submit. case_bool_decide as Hl; [|done]. cbn [negb raise_if]. rewrite !bind_ret_l.
  apply bind_ext; [|done]. apply catch_ext, request_agrees; [done|by left].
Qed.
Lemma upgrade_agrees base commitment w : base ∈ urls →
  upgrade check_netloc resolver send base commitment w = upgrade check_netloc resolver send' base commitment w.
Proof.
  intros Hin. unfold upgrade. case_bool_decide as Hl; [|done]. cbn [negb raise_if]. rewrite !bind_ret_l.
  apply catch_ext, request_agrees; [done|right; by exists commitment].
Qed.
End Agree.
End Requests.

(** The upgrades go to the URLs of the allowlist. *)
Lemma dict_set_elem {K V} `{EqDecision K} (k : K) (v : V) d e : e ∈ dict_set k v d → e = (k, v) ∨ e ∈ d.
Proof.
  induction d as [|[k' v'] d IH]; simpl; [set_solver|]. case_decide; [set_solver|]. rewrite !elem_of_cons. naive_solver.
Qed.
Lemma pending_allowed urls root e : e ∈ pending_by_key urls root → e.1.2 ∈ urls.
Proof.
  unfold pending_by_key.
  assert (H : ∀ items d, Forall (λ kp, kp.1.2 ∈ urls) items → (∀ e, e ∈ d → e.1.2 ∈ urls) →
    e ∈ foldl (λ d kp, dict_set (V := list Op) kp.1 kp.2 d) d items → e.1.2 ∈ urls).
  { induction items as [|[k p] items IH]; intros d Hi Hd He; [by apply Hd|]. apply Forall_cons in Hi as [Hk Hi].
    eapply IH; [done| |exact He]. intros e' [-> |?]%dict_set_elem; [done|by apply Hd]. }
  apply H; [|set_solver]. apply Forall_forall. intros [k p] Hkp%list_elem_of_In.
  apply in_flat_map in Hkp as ([path node] & _ & Hkp). apply in_map_iff in Hkp as (k' & [= -> _] & Hk).
  apply list_elem_of_In in Hk. unfold allowed_pending in Hk. apply list_elem_of_omap in Hk as ([] & _ & Ha); try done.
  case_bool_decide; [|done]. by injection Ha as <-.
Qed.

(** C8: However the resolver answers, the calendar client connects to public addresses only, speaks to the
    hosts of the allowlist only, and only ever posts a digest or gets a timestamp there: the timestamper
    behaves in the same way with any two networks that agree on such requests.  The allowlist has two to
    eight distinct URLs, of two hosts at least; a URL names its host by a name, not an address, in lower
    case and without a port, a user, a query or a fragment. *)
Theorem calendar_requests_are_safe (check_netloc : string → bool) (apply_op : Op → bytes → result bytes)
    (deserialize : bytes → option DetachedTimestampFile.t) (serialize : DetachedTimestampFile.t → result bytes)
    (deserialize_timestamp : bytes → bytes → result Timestamp) (merge : Timestamp → Timestamp → Timestamp * result unit)
    (config : CalendarConfiguration.t) (resolver : string → Z → M (list string)) (send send' : Request.t → M Response.t)
    (urls : list string) (transport : CalendarTransport)
    (check_netloc_plain : ∀ host, str_all host_char host = true → check_netloc host = true)
    (started : MultiCalendarTimestamper check_netloc config None resolver send = Ok (urls, transport))
    (agree : ∀ r w, allowed_request urls r → send r w = send' r w) :
  (NoDup urls ∧ (2 ≤ List.length urls ≤ 8)%nat ∧ (∀ base, base ∈ urls → ∃ host, calendar_base base host) ∧
   ∃ hosts, NoDup hosts ∧ (2 ≤ List.length hosts)%nat ∧
     ∀ host, host ∈ hosts → ∃ base, base ∈ urls ∧ calendar_base base host) ∧
  ∃ transport', MultiCalendarTimestamper check_netloc config None resolver send' = Ok (urls, transport') ∧
    (∀ digest w,
      stamp_exact_digest apply_op deserialize serialize deserialize_timestamp merge transport urls digest w =
      stamp_exact_digest apply_op deserialize serialize deserialize_timestamp merge transport' urls digest w) ∧
    (∀ digest proof w,
      upgrade_exact_digest apply_op deserialize serialize deserialize_timestamp merge transport urls digest proof w =
      upgrade_exact_digest apply_op deserialize serialize deserialize_timestamp merge transport' urls digest proof w).
Proof.
  unfold MultiCalendarTimestamper, HardenedCalendarTransport in *.
  apply result_bind_Ok in started as (urls' & Hu & started). apply result_bind_Ok in started as (t & Ht & [= -> ->]).
  apply result_bind_Ok in Ht as ([] & Hb & [= <-]). pose proof (validated_urls_Ok _ _ _ Hu) as Hurls. split; [done|].
  destruct Hurls as (_ & _ & Hvalid & _). rewrite Hu. cbn [result_bind]. rewrite Hb. cbn [result_bind].
  eexists. split; [done|]. split.
  - intros digest w. apply bind_ext; [|done]. apply gather_ext. intros url w' Hin. by eapply submit_agrees.
  - intros digest proof w. apply bind_ext; [done|]. intros parsed w1. apply bind_ext; [done|]. intros [] w2.
    case_bool_decide; [done|]. apply bind_ext; [|done]. apply gather_ext. intros [[m url] path] w' Hin%pending_allowed.
    by eapply upgrade_agrees.
Qed.

Lemma calendar_requests_are_safe_witness :
  let config := CalendarConfiguration.mk
    ["https://alice.btc.calendar.opentimestamps.org"; "https://Bob.btc.calendar.opentimestamps.org:443/x//"] true (seconds 5) in
  let urls := ["https://alice.btc.calendar.opentimestamps.org/"; "https://bob.btc.calendar.opentimestamps.org/x/"] in
  let resolver := λ _ _, ret ["93.184.216.34"; "2606:2800:220:1:248:1893:25c8:1946"] in
  let down : Request.t → M Response.t := λ _, raise (TransportError "connection refused") in
  let other : Request.t → M Response.t := λ r, if startswith "https://" (Request.url r) then down r else ret (Response.mk 200 None [[x00]] None) in
  (2 ≤ List.length urls ≤ 8)%nat ∧
  ∃ transport', MultiCalendarTimestamper (λ _, true) config None resolver other = Ok (urls, transport').
Proof.
  intros config urls resolver down other.
  assert (agree : ∀ r w, allowed_request urls r → down r w = other r w).
  { intros r w (base & host & _ & _ & a & path & suffix & _ & _ & _ & Hurl & _). unfold other. rewrite Hurl.
    unfold base_url. by rewrite startswith_app. }
  assert (valid : validated_urls (λ _, true) config = Ok urls) by (vm_compute; reflexivity).
  assert (started : MultiCalendarTimestamper (λ _, true) config None resolver down =
    Ok (urls, {| calendar_submit := submit (λ _, true) resolver down; calendar_upgrade := upgrade (λ _, true) resolver down |})).
  { unfold MultiCalendarTimestamper. rewrite valid. reflexivity. }
  destruct (calendar_requests_are_safe (λ _, true) (λ _ m, Ok m) (λ _, None) (λ _, Ok []) (λ _ _, Raise IntegrityError)
    (λ t _, (t, Ok tt)) config resolver down other urls _ (λ _ _, eq_refl) started agree) as ((_ & Hl & _) & transport' & Ht & _).
  split; [exact Hl|]. exists transport'. exact Ht.
Defined.

(** ** The adapters that stand in for the network

    [app/timestamping/fixture.py], [app/bitcoin/fixture.py] and [app/bitcoin/disabled.py].  The
    environment and the loaded modules are read when a fixture is made. *)

Definition require_test_process (app_env : option string) (pytest_loaded : bool) : result unit :=
  raise_when (negb (String.eqb (lower (default "" app_env)) "test") || negb pytest_loaded)
    (RuntimeError "fixture_adapter_forbidden_outside_test").

Module DisabledTimestamper.
Definition stamp_exact_digest (digest : ManifestDigest.t) : M PendingProof.t := raise (RuntimeError "timestamping_disabled").
Definition upgrade_exact_digest (digest : ManifestDigest.t) (proof_bytes : bytes) : M bytes :=
  raise (RuntimeError "timestamping_disabled").
End DisabledTimestamper.

Module DisabledVerifier.
Section Disabled.
Context (apply_op : Op → bytes → result bytes) (deserialize : bytes → option DetachedTimestampFile.t).
Definition verify_exact_digest (digest : ManifestDigest.t) (proof_bytes : bytes) : M BitcoinVerification.t :=
  do! lift (validate_exact_proof apply_op deserialize digest proof_bytes None) in
  ret (BitcoinVerification.unverified "disabled" None).
End Disabled.
End DisabledVerifier.

(** [set.add] on the attestations of a node. *)
Definition add_attestation (a : Attestation) (l : list Attestation) : list Attestation :=
  if decide (a ∈ l) then l else (l ++ [a])%list.
Definition attest (attested : list Attestation) (t : Timestamp) : Timestamp :=
  mk_timestamp (msg t) (foldl (λ l a, add_attestation a l) (attestations t) attested) (ops t).
Definition attest_file (attested : list Attestation) (d : DetachedTimestampFile.t) : DetachedTimestampFile.t :=
  DetachedTimestampFile.mk (DetachedTimestampFile.file_hash_op d) (attest attested (DetachedTimestampFile.timestamp d)).

Module FixtureTimestamper.
Record t := mk { _now : datetime; _confirm_on_upgrade : bool; stamp_calls : Z; upgrade_calls : Z }.
#[global] Instance eta_t : Eta t := λ s, mk (_now s) (_confirm_on_upgrade s) (stamp_calls s) (upgrade_calls s).
(** [datetime(2026, 7, 30, 12, 5, tzinfo=UTC)] *)
Definition noon : datetime := utc (seconds 1785413100).
(** [__init__] *)
Definition new (app_env : option string) (pytest_loaded : bool) (now : option datetime) (confirm_on_upgrade : bool)
    : result t :=
  check! require_test_process app_env pytest_loaded in
  Ok (mk (default noon now) confirm_on_upgrade 0 0).
Definition pending : list Attestation :=
  [PendingAttestation "https://fixture-a.invalid/"; PendingAttestation "https://fixture-b.invalid/"].
Definition CONFIRMED_HEIGHT : Z := 900000.

Section Fixture.
Context (apply_op : Op → bytes → result bytes) (deserialize : bytes → option DetachedTimestampFile.t).
Context (serialize : DetachedTimestampFile.t → result bytes).

Definition stamp_exact_digest (self : t) (digest : ManifestDigest.t) : result PendingProof.t * t :=
  (try! proof_bytes := serialize_detached apply_op serialize (attest_file pending (new_detached_exact_digest digest)) in
   Ok (PendingProof.mk proof_bytes (_now self)), self <| stamp_calls := stamp_calls self + 1 |>).
Definition upgraded (self : t) (digest : ManifestDigest.t) (proof_bytes : bytes) : result bytes :=
  try! parsed := deserialize_exact_proof apply_op deserialize digest proof_bytes None in
  let detached := ParsedProof.detached parsed in
  let detached := if _confirm_on_upgrade self
                  then attest_file [BitcoinBlockHeaderAttestation CONFIRMED_HEIGHT] detached else detached in
  try! upgraded := serialize_detached apply_op serialize detached in
  try! _ := deserialize_exact_proof apply_op deserialize digest upgraded None in
  Ok upgraded.
Definition upgrade_exact_digest (self : t) (digest : ManifestDigest.t) (proof_bytes : bytes) : result bytes * t :=
  (upgraded self digest proof_bytes, self <| upgrade_calls := upgrade_calls self + 1 |>).
End Fixture.
End FixtureTimestamper.

Module FixtureBitcoinVerifier.
(** [__init__] *)
Definition new (app_env : option string) (pytest_loaded : bool) (block_hash : option string) : result string :=
  check! require_test_process app_env pytest_loaded in
  Ok (default (string_of_list_ascii (repeat "c"%char 64)) block_hash).

Section Fixture.
Context (apply_op : Op → bytes → result bytes) (deserialize : bytes → option DetachedTimestampFile.t).
Context (all_attestations : Timestamp → list (bytes * Attestation)).
Definition heights (t : Timestamp) : list Z :=
  omap (λ '(_, a), match a with BitcoinBlockHeaderAttestation height => Some height | _ => None end) (all_attestations t).
Definition verify_exact_digest (_block_hash : string) (digest : ManifestDigest.t) (proof_bytes : bytes)
    : result BitcoinVerification.t :=
  try! parsed := deserialize_exact_proof apply_op deserialize digest proof_bytes None in
  match heights (DetachedTimestampFile.timestamp (ParsedProof.detached parsed)) with
  | [] => BitcoinVerification.post_init (BitcoinVerification.unverified "fixture-no-bitcoin-attestation" None)
  | h :: rest =>
      BitcoinVerification.post_init {|
        BitcoinVerification.verified := true;
        BitcoinVerification.method := "fixture-exact-digest";
        BitcoinVerification.verified_at := Some (utc (seconds 1785424200));
        BitcoinVerification.block_height := Some (foldl Z.min h rest);
        BitcoinVerification.block_hash := Some _block_hash;
        BitcoinVerification.block_time := Some (utc (seconds 1785423600));
        BitcoinVerification.confirmation_policy := Some "phase0-fixture-exact-target";
        BitcoinVerification.confirmations := Some 6 |}
  end.
End Fixture.
End FixtureBitcoinVerifier.

(** The default of a production process can never confirm a proof, whatever the proof is. *)
Lemma disabled_never_verifies apply_op deserialize digest proof w v w' :
  DisabledVerifier.verify_exact_digest apply_op deserialize digest proof w = (Ok v, w') →
  BitcoinVerification.verified v = false ∧ w' = w ∧ validate_exact_proof apply_op deserialize digest proof None = Ok tt.
Proof.
  unfold DisabledVerifier.verify_exact_digest, lift. cbn.
  destruct (validate_exact_proof _ _ _ _ _) as [[]|]; [|done]. by intros [= <- <-].
Qed.
(** The proof of the fixture is two attestations that wait, for the digest itself; confirmed, it has
    the attestation of a block besides, once, and the structure of both is accepted. *)
Lemma fixture_file_accepted apply_op digest confirmed :
  let file := attest_file FixtureTimestamper.pending (new_detached_exact_digest digest) in
  let file := if (confirmed : bool)
              then attest_file [BitcoinBlockHeaderAttestation FixtureTimestamper.CONFIRMED_HEIGHT] file else file in
  validate_timestamp_tree apply_op (DetachedTimestampFile.timestamp file) =
    Ok (mk_counts 1 0 (if confirmed then 3 else 2) 2) ∧
  DetachedTimestampFile.file_digest file = ManifestDigest.ots_target digest ∧
  DetachedTimestampFile.file_hash_op file = OpSHA256.
Proof. by destruct confirmed. Qed.
Lemma serialized_detached apply_op serialize d bs : serialize_detached apply_op serialize d = Ok bs → serialize d = Ok bs.
Proof.
  unfold serialize_detached. destruct (validate_timestamp_tree _ _); [|done]. cbn [result_bind].
  destruct (serialize d); [|done]. cbn [result_bind]. destruct (_ || _); [done|]. by intros [= <-].
Qed.
Lemma deserialized_exact_proof apply_op deserialize digest bs d parsed :
  deserialize bs = Some d →
  deserialize_exact_proof apply_op deserialize digest bs None = Ok parsed → ParsedProof.detached parsed = d.
Proof.
  intros read_back. unfold deserialize_exact_proof. destruct (_ || _); [done|]. cbn [raise_when result_bind].
  rewrite read_back. destruct (_ != OpSHA256); [done|]. destruct (_ != ManifestDigest.ots_target digest); [done|].
  cbn [raise_when result_bind]. destruct (validate_timestamp_tree _ _); [|done]. by intros [= <-].
Qed.
(** The heights a node without operations attests are those of its own attestations. *)
Lemma heights_own all_attestations m atts :
  all_attestations (mk_timestamp m atts []) = map (λ a, (m, a)) atts →
  FixtureBitcoinVerifier.heights all_attestations (mk_timestamp m atts []) =
    omap (λ a, match a with BitcoinBlockHeaderAttestation height => Some height | _ => None end) atts.
Proof.
  unfold FixtureBitcoinVerifier.heights. intros ->. induction atts as [|a atts IH]; [done|].
  cbn. rewrite IH. by destruct a.
Qed.
(** With a parser that reads what the serialiser wrote, the fixture's verifier confirms the proofs of a
    timestamper that confirms, at its height, and none of the others. *)
Theorem fixtures_agree apply_op deserialize serialize all_attestations block_hash digest self pending
    (read_back : ∀ d bs, serialize d = Ok bs → deserialize bs = Some d)
    (own : ∀ m atts, all_attestations (mk_timestamp m atts []) = map (λ a, (m, a)) atts)
    (stamped : (FixtureTimestamper.stamp_exact_digest apply_op serialize self digest).1 = Ok pending) proof
    (improved : (FixtureTimestamper.upgrade_exact_digest apply_op deserialize serialize self digest
                  (PendingProof.proof_bytes pending)).1 = Ok proof) :
  FixtureBitcoinVerifier.verify_exact_digest apply_op deserialize all_attestations block_hash digest proof =
    Ok (if FixtureTimestamper._confirm_on_upgrade self
        then BitcoinVerification.mk true "fixture-exact-digest" (Some (utc (seconds 1785424200)))
               (Some FixtureTimestamper.CONFIRMED_HEIGHT) (Some block_hash) (Some (utc (seconds 1785423600)))
               (Some "phase0-fixture-exact-target") (Some 6)
        else BitcoinVerification.unverified "fixture-no-bitcoin-attestation" None).
Proof.
  set (file := attest_file FixtureTimestamper.pending (new_detached_exact_digest digest)).
  assert (serialize file = Ok (PendingProof.proof_bytes pending)) as Ep.
  { revert stamped. cbn. destruct (serialize_detached _ _ _) eqn:E; [|done]. intros [= <-].
    exact (serialized_detached _ _ _ _ E). }
  cbn [fst FixtureTimestamper.upgrade_exact_digest] in improved. unfold FixtureTimestamper.upgraded in improved.
  destruct (deserialize_exact_proof _ _ _ (PendingProof.proof_bytes pending) _) as [parsed|] eqn:E1; [|done].
  cbn [result_bind] in improved.
  rewrite (deserialized_exact_proof _ _ _ _ _ _ (read_back _ _ Ep) E1) in improved. clear E1 Ep parsed.
  set (final := if FixtureTimestamper._confirm_on_upgrade self then _ else _) in improved.
  destruct (serialize_detached _ _ final) as [bytes'|] eqn:E2; [|done]. cbn [result_bind] in improved.
  destruct (deserialize_exact_proof _ _ _ bytes' _) as [parsed|] eqn:E3; [|done]. cbn [result_bind] in improved.
  injection improved as <-. unfold FixtureBitcoinVerifier.verify_exact_digest. rewrite E3. cbn [result_bind].
  rewrite (deserialized_exact_proof _ _ _ _ _ _ (read_back _ _ (serialized_detached _ _ _ _ E2)) E3).
  unfold final. destruct (FixtureTimestamper._confirm_on_upgrade self).
  - assert (FixtureBitcoinVerifier.heights all_attestations (DetachedTimestampFile.timestamp
      (attest_file [BitcoinBlockHeaderAttestation FixtureTimestamper.CONFIRMED_HEIGHT] file)) =
      [FixtureTimestamper.CONFIRMED_HEIGHT]) as -> by apply heights_own, own.
    reflexivity.
  - assert (FixtureBitcoinVerifier.heights all_attestations (DetachedTimestampFile.timestamp file) = []) as ->
      by apply heights_own, own.
    reflexivity.
Qed.
