(* ===== verification/Bitcoin.v ===== *)
(** * The Esplora verifier

    [app/bitcoin/esplora.py]: a timestamp is verified against Bitcoin when two independent
    providers agree on a block of the main chain whose header carries the work it claims and
    commits to the proof.  The HTTP transport is a parameter; so are the OpenTimestamps calls.
    [asyncio.gather] is the run of its coroutines one after the other. *)
From S2P Require Import Prelude PyStr PyObject Sha256 Domain Ports Session Ots.

Open Scope string_scope.
Open Scope Z_scope.

Definition ESPLORA_RESPONSE_LIMIT : Z := 4096.
Definition MAX_BITCOIN_CANDIDATES : Z := 16.
Definition MAX_PROVIDER_TIP_SKEW : Z := 2.
Definition _MAX_BLOCK_HEIGHT : Z := 2147483647.
Definition _MAINNET_POW_LIMIT : Z := Z.shiftl 0xFFFF (8 * (0x1D - 3)).
Definition _MAINNET_GENESIS_HASH : string :=
  "000000000019d6689c085ae165831e934ff763ae46a2a6c172b3f1b60a8ce26f".
Definition _LOWER_BLOCK_HASH (s : string) : bool := fullmatch_class is_lower_hex 64 64 s.
Definition _UNSIGNED_DECIMAL (s : string) : bool :=
  (s =? "0")%string || fullmatch_head (in_range 49 57) is_digit (String.length s) s.

(** ** Block headers *)

Definition _compact_target (compact : Z) : result Z :=
  let exponent := Z.shiftr compact 24 in
  let mantissa := Z.land compact 0x7FFFFF in
  let negative := Z.land compact 0x800000 in
  let overflow := negb (mantissa =? 0) &&
    ((34 <? exponent) || ((0xFF <? mantissa) && (33 <? exponent)) ||
     ((0xFFFF <? mantissa) && (32 <? exponent))) in
  check! raise_when (negb (negative =? 0) || (mantissa =? 0) || overflow)
    (BitcoinEvidenceInvalid "esplora_block_header_target_invalid") in
  let target := if exponent <=? 3 then Z.shiftr mantissa (8 * (3 - exponent))
                else Z.shiftl mantissa (8 * (exponent - 3)) in
  check! raise_when ((target <=? 0) || (_MAINNET_POW_LIMIT <? target))
    (BitcoinEvidenceInvalid "esplora_block_header_target_invalid") in
  Ok target.

(** [b[i:j]] for [0 <= i <= j]. *)
Definition slice (i j : nat) (b : bytes) : bytes := take (j - i) (drop i b).
Definition sha256d (b : bytes) : bytes := sha256 (sha256 b).

(** The block time is 32 bits of seconds, which [datetime] always holds. *)
Definition _verify_header (header : bytes) : result (string * bytes * datetime) :=
  check! raise_when (blen header != 80) (BitcoinEvidenceInvalid "esplora_block_header_malformed") in
  let digest := sha256d header in
  let block_hash := bytes_hex (reverse digest) in
  let compact := int_from_bytes_little (slice 72 76 header) in
  try! target := _compact_target compact in
  check! raise_when (target <? int_from_bytes_little digest)
    (BitcoinEvidenceInvalid "esplora_block_header_pow_invalid") in
  let block_time := utc (seconds (int_from_bytes_little (slice 68 72 header))) in
  Ok (block_hash, slice 36 68 header, block_time).

(** ** Responses *)

(** [raw.decode("ascii").strip()]; the [UnicodeDecodeError] is a [ValueError]. *)
Definition _ascii_text (raw : bytes) : result string :=
  if forallb (λ b, Z_of_byte b <? 128) raw
  then Ok (strip is_unicode_space (string_of_list_ascii (map (λ b, chr (Z_of_byte b)) raw)))
  else Raise UnicodeDecodeError.

Definition _parse_height (raw : bytes) : result Z :=
  try! value := _ascii_text raw in
  check! raise_when (negb (_UNSIGNED_DECIMAL value)) (ValueError "") in
  match int_of_digits value with
  | None => Raise (ValueError "")
  | Some height =>
      check! raise_when (_MAX_BLOCK_HEIGHT <? height) (ValueError "") in
      Ok height
  end.

Definition _parse_status (raw : bytes) : result (Z * bool) :=
  try! text := _ascii_text raw in
  try! decoded := loads_text (wide text) in
  match decoded with
  | ODict value =>
      match get_key "height" value, get_key "in_best_chain" value with
      | Some (OInt height), Some (OBool in_best_chain) =>
          check! raise_when (negb ((0 <=? height) && (height <=? _MAX_BLOCK_HEIGHT))) (ValueError "") in
          Ok (height, in_best_chain)
      | _, _ => Raise (ValueError "")
      end
  | _ => Raise (ValueError "")
  end.

Module _ProviderSnapshot.
Record t := mk {
  block_hash : string; header : bytes; status_height : Z; in_best_chain : bool; tip_height : Z }.
End _ProviderSnapshot.
Module _QuorumSnapshot.
Record t := mk {
  block_hash : string; header : bytes; status_height : Z; in_best_chain : bool; tip_height : Z;
  provider_tip_heights : Z * Z }.
#[global] Instance t_eq_dec : EqDecision t.
Proof. solve_decision. Defined.
End _QuorumSnapshot.

(** One coroutine of a [gather] with [return_exceptions]. *)
Definition gathered {A} (m : M A) : M (result A) := λ w,
  match m w with (r, w') => (Ok r, w') end.
(** A result that is an exception: the cancellation is passed on, anything else is reported. *)
Definition required {A} (r : result A) : result A :=
  match r with
  | Ok a => Ok a
  | Raise CancelledError => Raise CancelledError
  | Raise _ => Raise (BitcoinVerifierUnavailable "esplora_quorum_unavailable")
  end.
(** [_require_strings] and [_require_snapshots] *)
Definition _require_both {A} (one other : result A) : result (A * A) :=
  try! l := required one in try! r := required other in Ok (l, r).

(** [get(base_url, path, max_bytes)] of the transport. *)
Definition EsploraTransport : Type := string → string → Z → M bytes.

Module EsploraBitcoinVerifier.
Section Verifier.
Context (urls : string * string) (minimum_confirmations : Z) (transport : EsploraTransport) (clock : M datetime).

Definition _get (base_url path : string) : M bytes :=
  let! body := try_except (transport base_url path ESPLORA_RESPONSE_LIMIT)
    (λ e, match e with
          | BitcoinVerifierUnavailable _ => None
          | _ => if is_Exception e
                 then Some (raise (BitcoinVerifierUnavailable "esplora_provider_unavailable")) else None
          end) in
  do! raise_if ((blen body =? 0) || (ESPLORA_RESPONSE_LIMIT <? blen body))
    (BitcoinVerifierUnavailable "esplora_response_size_invalid") in
  ret body.

Definition malformed : exn := BitcoinVerifierUnavailable "esplora_provider_response_malformed".
(** [except (UnicodeDecodeError, ValueError)] *)
Definition or_malformed {A} : result A → result A := except_as is_ValueError malformed.

Definition _block_hash (base_url : string) (height : Z) : M string :=
  let! raw := _get base_url ("block-height/" ++ str_int height) in
  let! block_hash := lift (or_malformed (_ascii_text raw)) in
  do! raise_if (negb (_LOWER_BLOCK_HASH block_hash)) malformed in
  ret block_hash.

(** The three parsed answers of a provider. *)
Definition parse_snapshot (block_hash : string) (header_raw status_raw tip_raw : bytes)
    : result _ProviderSnapshot.t :=
  try! header_hex := _ascii_text header_raw in
  check! raise_when ((strlen header_hex != 160) || (lower header_hex != header_hex)) (ValueError "") in
  match bytes_fromhex header_hex with
  | None => Raise (ValueError "")
  | Some header =>
      try! (status_height, in_best_chain) := _parse_status status_raw in
      try! tip_height := _parse_height tip_raw in
      Ok (_ProviderSnapshot.mk block_hash header status_height in_best_chain tip_height)
  end.
Definition _provider_snapshot (base_url block_hash : string) : M _ProviderSnapshot.t :=
  let! header := gathered (_get base_url ("block/" ++ block_hash ++ "/header")) in
  let! status := gathered (_get base_url ("block/" ++ block_hash ++ "/status")) in
  let! tip := gathered (_get base_url "blocks/tip/height") in
  let! header_raw := lift header in
  let! status_raw := lift status in
  let! tip_raw := lift tip in
  lift (or_malformed (parse_snapshot block_hash header_raw status_raw tip_raw)).

(** [gather] over the two providers. *)
Definition both {A} (f : string → M A) : M (A * A) :=
  let! one := gathered (f urls.1) in
  let! other := gathered (f urls.2) in
  lift (_require_both one other).

Definition _quorum_snapshot (height : Z) : M _QuorumSnapshot.t :=
  let! (left_hash, right_hash) := both (λ url, _block_hash url height) in
  do! raise_if (left_hash != right_hash) (BitcoinEvidenceInvalid "esplora_provider_block_hash_conflict") in
  let! anchors := (if height =? 0 then ret (left_hash, right_hash) else both (λ url, _block_hash url 0)) in
  do! raise_if (anchors.1 != anchors.2) (BitcoinEvidenceInvalid "esplora_provider_network_conflict") in
  do! raise_if (anchors.1 != _MAINNET_GENESIS_HASH) (BitcoinEvidenceInvalid "esplora_wrong_network") in
  let! (one, other) := both (λ url, _provider_snapshot url left_hash) in
  do! raise_if ((_ProviderSnapshot.block_hash one != _ProviderSnapshot.block_hash other) ||
                (_ProviderSnapshot.header one != _ProviderSnapshot.header other) ||
                (_ProviderSnapshot.status_height one != _ProviderSnapshot.status_height other) ||
                (_ProviderSnapshot.in_best_chain one != _ProviderSnapshot.in_best_chain other))
    (BitcoinEvidenceInvalid "esplora_provider_evidence_conflict") in
  do! raise_if (MAX_PROVIDER_TIP_SKEW <?
                Z.abs (_ProviderSnapshot.tip_height one - _ProviderSnapshot.tip_height other))
    (BitcoinVerifierUnavailable "esplora_provider_tip_skew") in
  ret (_QuorumSnapshot.mk (_ProviderSnapshot.block_hash one) (_ProviderSnapshot.header one)
         (_ProviderSnapshot.status_height one) (_ProviderSnapshot.in_best_chain one)
         (Z.min (_ProviderSnapshot.tip_height one) (_ProviderSnapshot.tip_height other))
         (_ProviderSnapshot.tip_height one, _ProviderSnapshot.tip_height other)).

Definition _require_stable_snapshot (height : Z) (expected : _QuorumSnapshot.t) : M unit :=
  let! observed := try_except (_quorum_snapshot height)
    (λ e, match e with
          | BitcoinEvidenceInvalid _ => Some (raise (BitcoinVerifierUnavailable "esplora_chain_race"))
          | _ => None
          end) in
  raise_if (observed != expected) (BitcoinVerifierUnavailable "esplora_chain_race").

(** The values of a stable, deep enough block. *)
Definition verified_result (height confirmations : Z) (snapshot : _QuorumSnapshot.t) (block_time : datetime)
    : M BitcoinVerification.t :=
  do! _require_stable_snapshot height snapshot in
  let! verified_at := clock in
  do! raise_if (is_naive verified_at) (BitcoinEvidenceInvalid "bitcoin_verifier_clock_invalid") in
  lift (BitcoinVerification.post_init {|
    BitcoinVerification.verified := true;
    BitcoinVerification.method := "esplora-2-of-2-exact-digest";
    BitcoinVerification.verified_at := Some verified_at;
    BitcoinVerification.block_height := Some height;
    BitcoinVerification.block_hash := Some (_QuorumSnapshot.block_hash snapshot);
    BitcoinVerification.block_time := Some block_time;
    BitcoinVerification.confirmation_policy :=
      Some ("esplora-2-of-2-mainnet-canonical-min-" ++ str_int minimum_confirmations);
    BitcoinVerification.confirmations := Some confirmations |}).

(** After the loop: the blocks that need more confirmations. *)
Definition pending_result (pending : list (Z * Z * _QuorumSnapshot.t)) : M BitcoinVerification.t :=
  match pending with
  | [] => raise (BitcoinEvidenceInvalid "bitcoin_attestation_merkle_mismatch")
  | (_, confirmations, _) :: rest =>
      do! for_each (λ '(height, _, snapshot), _require_stable_snapshot height snapshot) pending in
      lift (BitcoinVerification.post_init (BitcoinVerification.unverified
        "esplora-2-of-2-confirmation-pending"
        (Some (foldl (λ m '(_, c, _), Z.max m c) confirmations rest))))
  end.

(** The loop over the heights; [candidates] are the commitments with their heights. *)
Fixpoint verify_heights (candidates : list (Z * bytes)) (pending : list (Z * Z * _QuorumSnapshot.t))
    (heights : list Z) : M BitcoinVerification.t :=
  match heights with
  | [] => pending_result pending
  | height :: heights' =>
      let! snapshot := _quorum_snapshot height in
      do! raise_if ((_QuorumSnapshot.status_height snapshot != height) ||
                    negb (_QuorumSnapshot.in_best_chain snapshot) ||
                    (_QuorumSnapshot.tip_height snapshot <? height))
        (BitcoinEvidenceInvalid "esplora_noncanonical_block") in
      let! (block_hash, merkle_root, block_time) := lift (_verify_header (_QuorumSnapshot.header snapshot)) in
      do! raise_if (block_hash != _QuorumSnapshot.block_hash snapshot)
        (BitcoinEvidenceInvalid "esplora_block_header_hash_mismatch") in
      if negb ((height, merkle_root) is_in candidates) then verify_heights candidates pending heights'
      else
        let confirmations := _QuorumSnapshot.tip_height snapshot - height + 1 in
        if confirmations <? minimum_confirmations
        then verify_heights candidates (pending ++ [(height, confirmations, snapshot)])%list heights'
        else verified_result height confirmations snapshot block_time
  end.

Section Verify.
Context (apply_op : Op → bytes → result bytes) (deserialize : bytes → option DetachedTimestampFile.t).
Context (all_attestations : Timestamp → list (bytes * Attestation)).

(** The set of the Bitcoin attestations, with their commitments. *)
Definition bitcoin_candidates (t : Timestamp) : list (Z * bytes) :=
  remove_dups (omap (λ '(message, a), match a with
                      | BitcoinBlockHeaderAttestation height => Some (height, message) | _ => None
                      end) (all_attestations t)).
(** [sorted(commitments_by_height)] *)
Definition sorted_heights (candidates : list (Z * bytes)) : list Z :=
  order_by (λ h, [h]) (remove_dups (map fst candidates)).

Definition verify_exact_digest (digest : ManifestDigest.t) (proof_bytes : bytes) : M BitcoinVerification.t :=
  let! parsed := lift (deserialize_exact_proof apply_op deserialize digest proof_bytes None) in
  let candidates := bitcoin_candidates (DetachedTimestampFile.timestamp (ParsedProof.detached parsed)) in
  if len candidates =? 0 then
    lift (BitcoinVerification.post_init
      (BitcoinVerification.unverified "esplora-2-of-2-no-attestation" None))
  else
    do! raise_if ((MAX_BITCOIN_CANDIDATES <? len candidates) ||
                  existsb (λ '(height, commitment),
                    (height <? 0) || (_MAX_BLOCK_HEIGHT <? height) || (blen commitment != 32)) candidates)
      (BitcoinEvidenceInvalid "bitcoin_attestation_malformed") in
    verify_heights candidates [] (sorted_heights candidates).
End Verify.
End Verifier.
End EsploraBitcoinVerifier.

(** ** What a verified timestamp rests on

    A positive answer of the Esplora verifier is backed by a block header that carries the
    proof of work it claims and commits to the timestamp, and on which both providers agree. *)
From S2P Require Import Prelude PyStr PyObject Sha256 Domain Ports Db Session Ots.

Open Scope string_scope.
Open Scope Z_scope.
Import EsploraBitcoinVerifier.

(** ** Targets *)

Lemma pow_limit : _MAINNET_POW_LIMIT = 0xFFFF * 2 ^ 208.
Proof. vm_compute. reflexivity. Qed.

(** the compact form of a target is read as Bitcoin defines it: the low 23 bits times a
    power of 256 given by the high byte; what is negative, zero, or above the limit of the
    main network is refused, so that a target is always positive and at most the limit. *)
Theorem compact_target_spec compact target (read : _compact_target compact = Ok target) :
  0 < target <= 0xFFFF * 2 ^ 208 ∧
  let exponent := compact / 2 ^ 24 in
  let mantissa := compact mod 2 ^ 23 in
  Z.testbit compact 23 = false ∧
  target = if exponent <=? 3 then mantissa / 256 ^ (3 - exponent) else mantissa * 256 ^ (exponent - 3).
Proof.
  unfold _compact_target in read. cbv zeta in read |- *.
  apply result_bind_Ok in read as (u & C%raise_when_Ok & read).
  apply result_bind_Ok in read as (u' & C'%raise_when_Ok & read).
  apply Ok_inj in read. rewrite !read, pow_limit in C'.
  apply orb_false_iff in C as [[Hn Hm]%orb_false_iff _]. apply orb_false_iff in C' as [C1 C2].
  split; [generalize dependent (0xFFFF * 2 ^ 208); lia|]. clear C1 C2. split.
  - apply negb_false_iff, Z.eqb_eq in Hn. change 0x800000 with (2 ^ 23) in Hn.
    destruct (Z.testbit compact 23) eqn:E; [|done]. exfalso.
    assert (Z.testbit (Z.land compact (2 ^ 23)) 23 = true) as H
      by (rewrite Z.land_spec, E, Z.pow2_bits_true; [done|lia]).
    by rewrite Hn in H.
  - rewrite <- read. change 0x7FFFFF with (Z.ones 23). rewrite Z.land_ones, (Z.shiftr_div_pow2 compact) by lia.
    clear. destruct (compact / 2 ^ 24 <=? 3) eqn:E.
    + rewrite Z.shiftr_div_pow2, Z.pow_mul_r by lia. done.
    + rewrite Z.shiftl_mul_pow2, Z.pow_mul_r by lia. done.
Qed.
Lemma compact_target_spec_witness :
  _compact_target 0x1d00ffff = Ok (0xFFFF * 2 ^ 208) ∧ 0 < 0xFFFF * 2 ^ 208 <= 0xFFFF * 2 ^ 208.
Proof.
  assert (_compact_target 0x1d00ffff = Ok (0xFFFF * 2 ^ 208)) as read by (vm_compute; reflexivity).
  split; [exact read|]. exact (proj1 (compact_target_spec _ _ read)).
Defined.

(** ** Headers *)

(** An 80 byte header whose hash, read as a number, does not exceed the target it states. *)
Record header_evidence (header : bytes) (block_hash : string) (merkle_root : bytes) (block_time : datetime) : Prop := {
  he_length : blen header = 80;
  he_hash : block_hash = bytes_hex (reverse (sha256d header));
  he_root : merkle_root = slice 36 68 header;
  he_time : block_time = utc (seconds (int_from_bytes_little (slice 68 72 header)));
  he_work : ∃ target, _compact_target (int_from_bytes_little (slice 72 76 header)) = Ok target ∧
              int_from_bytes_little (sha256d header) <= target }.
Lemma verify_header_Ok header block_hash merkle_root block_time :
  _verify_header header = Ok (block_hash, merkle_root, block_time) →
  header_evidence header block_hash merkle_root block_time.
Proof.
  unfold _verify_header. intros H.
  apply result_bind_Ok in H as (u & C%raise_when_Ok & H).
  apply result_bind_Ok in H as (target & Ht & H).
  apply result_bind_Ok in H as (u' & C'%raise_when_Ok & [= <- <- <-]).
  apply negb_false_iff, bool_decide_eq_true in C. split; try done. exists target. split; [done|lia].
Qed.

Section Evidence.
Context (urls : string * string) (minimum_confirmations : Z) (transport : EsploraTransport) (clock : M datetime).

(** What one provider said about the block of a snapshot, over one or more requests. *)
Record vouches (height : Z) (s : _QuorumSnapshot.t) (url : string) : Prop := {
  v_hash : ∃ w w', _block_hash transport url height w = (Ok (_QuorumSnapshot.block_hash s), w');
  v_network : ∃ w w', _block_hash transport url 0 w = (Ok _MAINNET_GENESIS_HASH, w');
  v_block : ∃ w p w', _provider_snapshot transport url (_QuorumSnapshot.block_hash s) w = (Ok p, w') ∧
    _ProviderSnapshot.header p = _QuorumSnapshot.header s ∧
    _ProviderSnapshot.status_height p = _QuorumSnapshot.status_height s ∧
    _ProviderSnapshot.in_best_chain p = _QuorumSnapshot.in_best_chain s ∧
    _QuorumSnapshot.tip_height s <= _ProviderSnapshot.tip_height p }.
Definition agreed (height : Z) (s : _QuorumSnapshot.t) : Prop :=
  vouches height s urls.1 ∧ vouches height s urls.2.

Lemma required_Ok {A} (r : result A) a : required r = Ok a → r = Ok a.
Proof. by destruct r as [|[]]. Qed.
Lemma both_Ok {A} (f : string → M A) w one other w' :
  both urls f w = (Ok (one, other), w') →
  (∃ w1 w1', f urls.1 w1 = (Ok one, w1')) ∧ (∃ w2 w2', f urls.2 w2 = (Ok other, w2')).
Proof.
  unfold both, gathered, _require_both, bind, lift.
  destruct (f urls.1 w) as [r1 w1] eqn:E1, (f urls.2 w1) as [r2 w2] eqn:E2. cbn.
  intros [= H _]. apply result_bind_Ok in H as (a & ->%required_Ok & H).
  apply result_bind_Ok in H as (b & ->%required_Ok & [= -> ->]). eauto 6.
Qed.
Lemma provider_snapshot_hash url h p w w' :
  _provider_snapshot transport url h w = (Ok p, w') → _ProviderSnapshot.block_hash p = h.
Proof.
  unfold _provider_snapshot, lift. intros H. do 6 apply bind_Ok_inv in H as (? & ? & _ & H). cbv beta in H.
  destruct (parse_snapshot _ _ _ _) as [q|e] eqn:Eq; [|by destruct e]. injection H as -> _.
  unfold parse_snapshot in Eq. do 2 apply result_bind_Ok in Eq as (? & _ & Eq).
  destruct (bytes_fromhex _); [|done].
  apply result_bind_Ok in Eq as ([? ?] & _ & Eq). by apply result_bind_Ok in Eq as (? & _ & [= <-]).
Qed.
Lemma quorum_agreed height s w w' : _quorum_snapshot urls transport height w = (Ok s, w') → agreed height s.
Proof.
  unfold _quorum_snapshot. intros ([h1 h2] & w1 & Eh & H)%bind_Ok_inv.
  apply both_Ok in Eh as [H1 H2].
  apply bind_Ok_inv in H as (u1 & w2 & [->%negb_false_iff%bool_decide_eq_true ->]%raise_if_Ok & H).
  apply bind_Ok_inv in H as ([a1 a2] & w3 & Ea & H).
  apply bind_Ok_inv in H as (u2 & w4 & [Ea1%negb_false_iff%bool_decide_eq_true ->]%raise_if_Ok & H).
  apply bind_Ok_inv in H as (u3 & w5 & [Ea2%negb_false_iff%bool_decide_eq_true ->]%raise_if_Ok & H).
  simpl in Ea1, Ea2. subst a1 a2.
  assert ((∃ v v', _block_hash transport urls.1 0 v = (Ok _MAINNET_GENESIS_HASH, v')) ∧
          (∃ v v', _block_hash transport urls.2 0 v = (Ok _MAINNET_GENESIS_HASH, v'))) as [N1 N2].
  { destruct (height =? 0) eqn:E; [|by apply both_Ok in Ea]. apply Z.eqb_eq in E as ->.
    apply ret_Ok in Ea as [[= ->] _]. by split. }
  apply bind_Ok_inv in H as ([p1 p2] & w6 & [B1 B2]%both_Ok & H).
  apply bind_Ok_inv in H as (u4 & w7 & [C ->]%raise_if_Ok & H).
  apply bind_Ok_inv in H as (u5 & w8 & [_ ->]%raise_if_Ok & [<- _]%ret_Ok).
  do 3 apply orb_false_iff in C as [C ?%negb_false_iff%bool_decide_eq_true].
  apply negb_false_iff, bool_decide_eq_true in C.
  destruct B1 as (v1 & v1' & B1), B2 as (v2 & v2' & B2).
  pose proof (provider_snapshot_hash _ _ _ _ _ B1) as Eb.
  split; split; simpl; rewrite ?Eb; eauto; [exists v1, p1, v1'|exists v2, p2, v2']; split_and!; eauto; lia.
Qed.

(** What a verified result says, about the commitments of a proof. *)
Definition bitcoin_evidence (candidates : list (Z * bytes)) (v : BitcoinVerification.t) : Prop :=
  ∃ height s merkle_root block_time confirmations,
    (height, merkle_root) ∈ candidates ∧
    header_evidence (_QuorumSnapshot.header s) (_QuorumSnapshot.block_hash s) merkle_root block_time ∧
    agreed height s ∧
    _QuorumSnapshot.status_height s = height ∧ _QuorumSnapshot.in_best_chain s = true ∧
    confirmations = _QuorumSnapshot.tip_height s - height + 1 ∧
    Z.max 1 minimum_confirmations <= confirmations ∧
    BitcoinVerification.block_height v = Some height ∧
    BitcoinVerification.block_hash v = Some (_QuorumSnapshot.block_hash s) ∧
    BitcoinVerification.block_time v = Some block_time ∧
    BitcoinVerification.confirmations v = Some confirmations.

Lemma checked_unchanged v v' : BitcoinVerification.post_init v = Ok v' → v' = v.
Proof.
  unfold BitcoinVerification.post_init. intros H.
  repeat (apply result_bind_Ok in H as (? & _ & H)). by injection H.
Qed.
Lemma post_init_confirmed v v' :
  BitcoinVerification.post_init v = Ok v' → BitcoinVerification.verified v = true →
  ∃ c, BitcoinVerification.confirmations v = Some c ∧ 1 <= c.
Proof.
  unfold BitcoinVerification.post_init. intros H Hv.
  do 2 (apply result_bind_Ok in H as (? & _ & H)).
  apply result_bind_Ok in H as (? & C%raise_when_Ok & _). rewrite Hv in C. simpl in C.
  destruct (BitcoinVerification.confirmations v) as [c|]; [|done]. exists c. split; [done|lia].
Qed.

Lemma stable_agreed height s w w' :
  _require_stable_snapshot urls transport height s w = (Ok tt, w') → agreed height s.
Proof.
  unfold _require_stable_snapshot.
  intros (o & w1 & E & [->%negb_false_iff%bool_decide_eq_true ->]%raise_if_Ok)%bind_Ok_inv.
  unfold try_except in E. destruct (_quorum_snapshot urls transport height w) as [[s'|e] w2] eqn:Eq.
  - injection E as -> ->. by eapply quorum_agreed.
  - by destruct e.
Qed.
Lemma verified_result_evidence height confirmations s block_time w v w' :
  verified_result urls minimum_confirmations transport clock height confirmations s block_time w = (Ok v, w') →
  agreed height s ∧ 1 <= confirmations ∧
  BitcoinVerification.block_height v = Some height ∧
  BitcoinVerification.block_hash v = Some (_QuorumSnapshot.block_hash s) ∧
  BitcoinVerification.block_time v = Some block_time ∧
  BitcoinVerification.confirmations v = Some confirmations.
Proof.
  unfold verified_result. intros ([] & w1 & E & H)%bind_Ok_inv.
  apply bind_Ok_inv in H as (verified_at & w2 & _ & H).
  apply bind_Ok_inv in H as (u & w3 & _ & H). apply lift_Ok in H as [H _].
  pose proof (post_init_confirmed _ _ H eq_refl) as (c & [= <-] & Hc).
  apply checked_unchanged in H as ->. split; [by eapply stable_agreed|]. by split_and!.
Qed.
Lemma pending_unverified pending w v w' :
  pending_result urls transport pending w = (Ok v, w') → BitcoinVerification.verified v = false.
Proof.
  unfold pending_result. destruct pending as [|[[h c] s] rest]; [done|].
  intros (u & w1 & _ & H)%bind_Ok_inv. apply lift_Ok in H as [->%checked_unchanged _]. done.
Qed.
Lemma verify_heights_evidence candidates heights : ∀ pending w v w',
  verify_heights urls minimum_confirmations transport clock candidates pending heights w = (Ok v, w') →
  BitcoinVerification.verified v = true → bitcoin_evidence candidates v.
Proof.
  induction heights as [|height heights IH]; intros pending w v w' H Hv; simpl in H.
  { apply pending_unverified in H. congruence. }
  apply bind_Ok_inv in H as (s & w1 & Es & H).
  apply bind_Ok_inv in H as (u & w2 & [C ->]%raise_if_Ok & H).
  apply bind_Ok_inv in H as ([[block_hash merkle_root] block_time] & w3 & [Eh ->]%lift_Ok & H).
  apply bind_Ok_inv in H as (u' & w4 & [->%negb_false_iff%bool_decide_eq_true ->]%raise_if_Ok & H).
  apply verify_header_Ok in Eh.
  destruct ((height, merkle_root) is_in candidates) eqn:Em; simpl in H; [|by eapply IH].
  apply bool_decide_eq_true in Em. destruct (_ <? minimum_confirmations) eqn:Ec; [by eapply IH|].
  apply verified_result_evidence in H as (Ha & H1 & Hh & Hb & Ht & Hc).
  apply orb_false_iff in C as [[C1 C2]%orb_false_iff _].
  apply negb_false_iff, bool_decide_eq_true in C1. apply negb_false_iff in C2.
  exists height, s, merkle_root, block_time, (_QuorumSnapshot.tip_height s - height + 1).
  split_and!; try done. lia.
Qed.

(** C30: A positive answer of the Esplora verifier rests on Bitcoin: the proof is one the service
    accepts for the digest and commits to the Merkle root in the header of a block; that 80 byte
    header hashes to the block hash and carries the work it claims; both providers named the
    block at that height of the main chain, on the main network, with this very header; and the
    block is as deep as the configuration asks for.  The result states that block. *)
Theorem esplora_verified_sound apply_op deserialize all_attestations digest proof_bytes v w w'
    (verified : verify_exact_digest urls minimum_confirmations transport clock apply_op deserialize
                  all_attestations digest proof_bytes w = (Ok v, w'))
    (positive : BitcoinVerification.verified v = true) :
  ∃ parsed, deserialize_exact_proof apply_op deserialize digest proof_bytes None = Ok parsed ∧
    bitcoin_evidence
      (bitcoin_candidates all_attestations (DetachedTimestampFile.timestamp (ParsedProof.detached parsed))) v.
Proof.
  unfold verify_exact_digest in verified.
  apply bind_Ok_inv in verified as (parsed & w1 & [Hp ->]%lift_Ok & H). cbv zeta in H.
  exists parsed. split; [done|]. destruct (len _ =? 0).
  { apply lift_Ok in H as [->%checked_unchanged _]. done. }
  apply bind_Ok_inv in H as (u & w2 & [_ ->]%raise_if_Ok & H). by eapply verify_heights_evidence.
Qed.
End Evidence.

(** The first block of the main network, six blocks deep. *)
Module Genesis.
Definition merkle_root : string := "3ba3edfd7a7b12b27ac72c3e67768f61" ++ "7fc81bc3888a51323a9fb8aa4b1e5e4a".
Fixpoint zeros (n : nat) : string := match n with O => "" | S n => "00" ++ zeros n end.
Definition header : string := "01000000" ++ zeros 32 ++ merkle_root ++ "29ab5f49" ++ "ffff001d" ++ "1dac2b7c".
Definition quoted (s : string) : string := String "034" (s ++ String "034" "").
Definition transport : EsploraTransport := λ _ path _, ret (encode
  (if path =? "block-height/0" then _MAINNET_GENESIS_HASH
   else if path =? "blocks/tip/height" then "5"
   else if path =? "block/" ++ _MAINNET_GENESIS_HASH ++ "/header" then header
   else "{" ++ quoted "in_best_chain" ++ ": true, " ++ quoted "height" ++ ": 0}")%string).
Definition target : bytes := default [] (bytes_fromhex merkle_root).
Definition detached : DetachedTimestampFile.t :=
  DetachedTimestampFile.mk OpSHA256 (mk_timestamp target [BitcoinBlockHeaderAttestation 0] []).
Definition world : World.t := World.mk Db.empty (λ _, 0) 0 (λ _, 0) 0 (λ _ _, 0) 0.
Definition verify : M BitcoinVerification.t :=
  verify_exact_digest ("https://a", "https://b") 6 transport (ret (utc (seconds 1700000000)))
    (λ _ b, Ok b) (λ _, Some detached) (λ t, map (λ a, (msg t, a)) (attestations t))
    (ManifestDigest.mk target) target.
End Genesis.

Lemma esplora_verified_sound_witness :
  ∃ v, fst (Genesis.verify Genesis.world) = Ok v ∧ BitcoinVerification.verified v = true ∧
    bitcoin_evidence ("https://a", "https://b") 6 Genesis.transport [(0, Genesis.target)] v.
Proof.
  destruct (Genesis.verify Genesis.world) as [[v|e] w'] eqn:run; [|exfalso; vm_compute in run; discriminate run].
  exists v. split; [reflexivity|].
  assert (BitcoinVerification.verified v = true) as positive.
  { generalize run. vm_compute. intros [= <- _]. reflexivity. }
  split; [exact positive|].
  destruct (esplora_verified_sound _ _ _ _ _ _ _ _ _ _ _ _ run positive) as (parsed & Hp & evidence).
  enough (bitcoin_candidates (λ t, map (λ a, (msg t, a)) (attestations t))
            (DetachedTimestampFile.timestamp (ParsedProof.detached parsed)) = [(0, Genesis.target)]) as E
    by (rewrite <- E; exact evidence).
  revert Hp. vm_compute. intros [= <-]. reflexivity.
Defined.
