(* ===== verification/Esplora.v ===== *)
(** * The Esplora providers

    [app/bitcoin/esplora.py], lines 44 to 250: the configuration of the two providers and the transport,
    which keeps the addresses it resolved for a host and sends every later request for the host to the
    first of them.

    The resolver and the exchange of one HTTP request are parameters; so are [socket.inet_aton] and the
    IDNA codec on names outside ASCII.  The resolution of a host is a task that is shared by the
    requests that wait for it; here it is done when the first of them asks.  The connections that are
    kept open for a host are not modelled. *)
From S2P Require Import Prelude PyStr Url IpAddress Ports Session Calendars Bitcoin.

Open Scope string_scope.
Open Scope Z_scope.

Definition _MAX_RESOLVED_ADDRESSES : Z := 16.
Definition is_lower_alnum (c : ascii) : bool := is_lower_az c || is_digit c.
Definition _DNS_LABEL (s : string) : bool :=
  (1 <=? strlen s) && (strlen s <=? 63) &&
  match s with String c _ => is_lower_alnum c | EmptyString => false end &&
  match last_char s with Some c => is_lower_alnum c | None => false end &&
  str_all (λ c, is_lower_alnum c || (code c =? 45)) s.

Inductive identity_kind := DNS | IP.
#[global] Instance identity_kind_eq_dec : EqDecision identity_kind.
Proof. solve_decision. Defined.
(** [class EsploraConfiguration]; the timeout is in microseconds. *)
Module EsploraConfiguration.
Record t := mk { provider_urls : list string; timeout_seconds : Z; minimum_confirmations : Z }.
End EsploraConfiguration.
(** One HTTP request: the address that is connected to is in the URL, the name that the server
    must prove is [sni_hostname]. *)
Module EsploraRequest.
Record t := mk { url : string; headers : list (string * string); sni_hostname : string }.
End EsploraRequest.
Module EsploraResponse.
Record t := mk {
  status_code : Z; content_encoding : option string; content_length : option string;
  chunks : list bytes; broken : option exn }.
End EsploraResponse.

Section Identity.
Context (check_netloc inet_aton : string → bool) (idna_other : string → option string).

(** [host.encode("idna").decode("ascii")], [None] for a [UnicodeError]: a name in ASCII encodes to
    itself if its labels have one to sixty-three characters; the last one may be empty. *)
Definition encode_idna (host : string) : option string :=
  if negb (str_all (λ c, code c <? 128) host) then idna_other host
  else
    let labels := split_on "." host in
    if forallb (λ l, (0 <? strlen l) && (strlen l <? 64)) (removelast labels) &&
       match last labels with Some l => strlen l <? 64 | None => true end
    then Some host else None.

(** The names and the addresses of the providers; the same checks as for the calendars. *)
Definition _canonical_provider_identity (hostname : string) : result (identity_kind * string) :=
  let invalid := ValueError "esplora_provider_hostname_invalid" in
  let host := lower (rstrip (is_char ".") hostname) in
  match ip_address host with
  | Some address =>
      check! raise_when (negb (_is_globally_routable_unicast address)) (ValueError "esplora_provider_address_not_public") in
      Ok (IP, compressed address)
  | None =>
      check! raise_when (inet_aton host) invalid in
      try! canonical := need invalid (encode_idna host) in
      let labels := split_on "." canonical in
      check! raise_when ((253 <? strlen canonical) || (List.length labels <? 2)%nat ||
                         existsb (λ l, negb (_DNS_LABEL l)) labels || (canonical == "localhost")) invalid in
      Ok (DNS, canonical)
  end.

(** The loop over the providers, with the URLs and the set of the identities so far. *)
Fixpoint validate_providers (urls normalized : list string) (identities : list (identity_kind * string)) :
    result (list string * list (identity_kind * string)) :=
  match urls with
  | [] => Ok (normalized, identities)
  | raw_url :: rest =>
      let url_invalid := ValueError "esplora_provider_url_invalid" in
      check! raise_when ((raw_url =? "")%string || (raw_url != strip is_unicode_space raw_url) ||
                         negb (str_all (λ c, code c <? 128) raw_url) || str_contains "\" raw_url ||
                         str_exists (λ c, (code c <? 32) || (code c =? 127)) raw_url) url_invalid in
      try! parsed := except_as (λ _, true) url_invalid (urlsplit check_netloc raw_url) in
      try! port := except_as (λ _, true) url_invalid (SplitResult.port parsed) in
      check! raise_when ((SplitResult.scheme parsed != "https") || is_none (SplitResult.hostname parsed) ||
                         SplitResult.has_userinfo parsed ||
                         (SplitResult.query parsed != "") || (SplitResult.fragment parsed != "") ||
                         negb (port is_in [None; Some 443]) ||
                         (is_none port && endswith ":" (SplitResult.netloc parsed)))
        (ValueError "esplora_providers_require_https_base_urls") in
      let base_url := rstrip (is_char "/") raw_url ++ "/" in
      check! raise_when (base_url is_in normalized) (ValueError "duplicate_esplora_provider") in
      try! identity := _canonical_provider_identity (default "" (SplitResult.hostname parsed)) in
      validate_providers rest (normalized ++ [base_url])%list
        (if identity is_in identities then identities else identities ++ [identity])%list
  end.
Definition validated_urls (self : EsploraConfiguration.t) : result (string * string) :=
  check! raise_when (Prelude.len (EsploraConfiguration.provider_urls self) != 2)
    (ValueError "exactly_two_esplora_providers_required") in
  check! raise_when (negb (timeout_in_bounds (EsploraConfiguration.timeout_seconds self)))
    (ValueError "esplora_timeout_out_of_bounds") in
  check! raise_when (negb ((1 <=? EsploraConfiguration.minimum_confirmations self) &&
                           (EsploraConfiguration.minimum_confirmations self <=? 100)))
    (ValueError "bitcoin_confirmation_threshold_invalid") in
  try! (normalized, identities) := validate_providers (EsploraConfiguration.provider_urls self) [] [] in
  check! raise_when (Prelude.len identities != 2) (ValueError "independent_esplora_hosts_required") in
  match normalized with
  | [one; other] => Ok (one, other)
  | _ => Raise (RuntimeError "unreachable")
  end.
End Identity.

(** ** The transport *)

(** The loop over the resolved addresses, with the normalized ones so far. *)
Fixpoint vet_resolved (resolved addresses : list string) : result (list string) :=
  match resolved with
  | [] => Ok addresses
  | raw_address :: rest =>
      check! raise_when (has_char "%" raw_address) (ValueError "") in
      try! address := need (ValueError "") (ip_address raw_address) in
      check! raise_when (negb (_is_globally_routable_unicast address)) (ValueError "") in
      let value := compressed address in
      vet_resolved rest (if value is_in addresses then addresses else addresses ++ [value])%list
  end.
(** The loop over the chunks of the body, with the bytes read so far. *)
Fixpoint read_chunks (max_bytes : Z) (chunks : list bytes) (broken : option exn) (body : bytes) : result bytes :=
  match chunks with
  | [] => match broken with Some e => Raise e | None => Ok body end
  | chunk :: rest =>
      check! raise_when (max_bytes - blen body <? blen chunk) (BitcoinVerifierUnavailable "esplora_response_too_large") in
      read_chunks max_bytes rest broken (body ++ chunk)%list
  end.
Definition read_answer (max_bytes : Z) (response : EsploraResponse.t) : result bytes :=
  check! raise_when (EsploraResponse.status_code response != 200)
    (BitcoinVerifierUnavailable "esplora_provider_unavailable") in
  check! raise_when match EsploraResponse.content_encoding response with
                    | Some e => lower (strip is_unicode_space e) != "identity"
                    | None => false
                    end (BitcoinVerifierUnavailable "esplora_response_encoding_invalid") in
  check! match EsploraResponse.content_length response with
         | None => Ok tt
         | Some content_length =>
             try! declared_length := need (BitcoinVerifierUnavailable "esplora_response_length_invalid") (parse_int content_length) in
             raise_when ((declared_length <? 1) || (max_bytes <? declared_length))
               (BitcoinVerifierUnavailable "esplora_response_size_invalid")
         end in
  try! body := read_chunks max_bytes (EsploraResponse.chunks response) (EsploraResponse.broken response) [] in
  check! raise_when (bool_decide (body = [])) (BitcoinVerifierUnavailable "esplora_response_empty") in
  Ok body.

(** The resolutions that a transport has made ([_resolution_tasks]), the ones that failed too. *)
Definition Resolutions : Type := list (string * result (list string)).
Fixpoint resolution_of (hostname : string) (tasks : Resolutions) : option (result (list string)) :=
  match tasks with
  | [] => None
  | (h, r) :: tasks' => if (h =? hostname)%string then Some r else resolution_of hostname tasks'
  end.
(** Programs of the transport: the state of the service and the resolutions. *)
Definition T (A : Type) : Type := St (World.t * Resolutions) A.
Definition in_world {A} (m : M A) : T A := λ s, let '(r, w) := m s.1 in (r, (w, s.2)).

Module HttpxEsploraTransport.
Section Transport.
Context (check_netloc inet_aton : string → bool) (idna_other : string → option string).
Context (resolver : string → Z → M (list string)) (send : EsploraRequest.t → M EsploraResponse.t).

Definition _resolve_public_addresses (hostname : string) : M (list string) :=
  try_except
    (let! resolved := resolver hostname 443 in
     do! raise_if (negb ((1 <=? Prelude.len resolved) && (Prelude.len resolved <=? _MAX_RESOLVED_ADDRESSES))) (ValueError "") in
     let! addresses := lift (vet_resolved resolved []) in
     do! raise_if (bool_decide (addresses = [])) (ValueError "") in
     ret addresses)
    (λ e, if is_Exception e then Some (raise (BitcoinVerifierUnavailable "esplora_provider_address_not_public")) else None).
Definition _pinned_addresses (hostname : string) : T (list string) := λ s,
  match resolution_of hostname s.2 with
  | Some r => (r, s)
  | None => let '(r, w) := _resolve_public_addresses hostname s.1 in (r, (w, (hostname, r) :: s.2))
  end.
(** The address that the requests for an identity go to. *)
Definition address_for (kind : identity_kind) (hostname : string) : T string :=
  match kind with
  | IP => ret hostname
  | DNS => let! addresses := _pinned_addresses hostname in lift (need (RuntimeError "unreachable") (head addresses))
  end.
Definition get (base_url path : string) (max_bytes : Z) : T bytes :=
  try_except
    (let! parsed := lift (urlsplit check_netloc base_url) in
     let! host := lift (need (BitcoinVerifierUnavailable "esplora_provider_url_invalid") (SplitResult.hostname parsed)) in
     let! (kind, hostname) := lift (_canonical_provider_identity inet_aton idna_other host) in
     let! address := address_for kind hostname in
     let! pinned := lift (need (ValueError "does not appear to be an IPv4 or IPv6 address") (ip_address address)) in
     let authority := match pinned with V6 _ _ => "[" ++ address ++ "]" | V4 _ => address end in
     let! response := in_world (send {|
       EsploraRequest.url := "https://" ++ authority ++ SplitResult.path parsed ++ path;
       EsploraRequest.headers := [("host", SplitResult.netloc parsed); ("accept-encoding", "identity")];
       EsploraRequest.sni_hostname := hostname |}) in
     lift (read_answer max_bytes response))
    (λ e, if is_http_error e then Some (raise (BitcoinVerifierUnavailable "esplora_provider_unavailable")) else None).
End Transport.
End HttpxEsploraTransport.

(** ** The Esplora transport reaches pinned public addresses only *)
From S2P Require Import Prelude PyStr Url IpAddress Ports Session Calendars Bitcoin.
Import HttpxEsploraTransport.

Open Scope string_scope.
Open Scope Z_scope.

(** ** What is resolved is public *)

Lemma vet_resolved_public resolved : ∀ addresses vetted, vet_resolved resolved addresses = Ok vetted →
  Forall (λ s, ∃ a, well_formed a ∧ public_unicast a ∧ s = compressed a) addresses →
  Forall (λ s, ∃ a, well_formed a ∧ public_unicast a ∧ s = compressed a) vetted.
Proof.
  induction resolved as [|s resolved IH]; intros addresses vetted H Ha; cbn [vet_resolved] in H; [by injection H as <-|].
  apply result_bind_Ok in H as ([] & _ & H). apply result_bind_Ok in H as (a & Hs%need_Ok & H).
  apply result_bind_Ok in H as ([] & Hg%raise_when_Ok & H). rewrite negb_false_iff in Hg. eapply IH; [exact H|].
  pose proof (ip_address_well_formed _ _ Hs). case_bool_decide; [done|]. apply Forall_app. split; [done|].
  apply Forall_singleton. exists a. split_and!; [done|by apply routable_public|done].
Qed.

(** The resolutions of a transport: the addresses of one that succeeded are public. *)
Definition public_resolution (r : result (list string)) : Prop :=
  ∀ addresses, r = Ok addresses → addresses ≠ [] ∧
    Forall (λ s, ∃ a, well_formed a ∧ public_unicast a ∧ s = compressed a) addresses.
Definition public_tasks (tasks : Resolutions) : Prop :=
  ∀ host r, resolution_of host tasks = Some r → public_resolution r.

Lemma try_except_Ok {W A} (m : St W A) h w a w' : try_except m h w = (Ok a, w') →
  m w = (Ok a, w') ∨ ∃ e w1 k, m w = (Raise e, w1) ∧ h e = Some k ∧ k w1 = (Ok a, w').
Proof. unfold try_except. destruct (m w) as [[]]; [naive_solver|]. destruct (h e) eqn:E; naive_solver. Qed.
Lemma resolve_public resolver host w r w' : _resolve_public_addresses resolver host w = (r, w') → public_resolution r.
Proof.
  intros H addresses ->. apply try_except_Ok in H as [H|(e & w1 & k & _ & Hk & H)].
  2:{ destruct (is_Exception e); [injection Hk as <-|done]. by injection H. }
  apply bind_Ok_inv in H as (resolved & w1 & _ & H). apply bind_Ok_inv in H as ([] & w2 & _ & H).
  apply bind_Ok_inv in H as (vetted & w3 & Hv & H). apply bind_Ok_inv in H as ([] & w4 & Hn%raise_if_Ok & H).
  injection H as <- _. destruct Hn as [Hn _]. apply bool_decide_eq_false in Hn. injection Hv as Hv _.
  split; [done|]. by eapply vet_resolved_public.
Qed.

(** ** Requests *)

(** A request of the transport for an URL and a path below it: over TLS, to a public address; the server
    must prove the identity of the host in the URL. *)
Definition provider_request (inet_aton : string → bool) (idna_other : string → option string) (check_netloc : string → bool)
    (base_url path : string) (r : EsploraRequest.t) : Prop :=
  ∃ parsed host kind a,
    urlsplit check_netloc base_url = Ok parsed ∧ SplitResult.hostname parsed = Some host ∧
    _canonical_provider_identity inet_aton idna_other host = Ok (kind, EsploraRequest.sni_hostname r) ∧
    public_unicast a ∧ (kind = IP → EsploraRequest.sni_hostname r = compressed a) ∧
    EsploraRequest.url r = "https://" ++ authority a ++ SplitResult.path parsed ++ path.

Section Runs.
Context (check_netloc inet_aton : string → bool) (idna_other : string → option string).

(** The transport on a sequence of calls. *)
Fixpoint get_all (resolver : string → Z → M (list string)) (send : EsploraRequest.t → M EsploraResponse.t)
    (calls : list (string * string * Z)) : T (list (result bytes)) :=
  match calls with
  | [] => ret []
  | (base_url, path, max_bytes) :: rest => λ s,
      let '(r, s') := get check_netloc inet_aton idna_other resolver send base_url path max_bytes s in
      (let! rs := get_all resolver send rest in ret (r :: rs)) s'
  end.

(** The address that [address_for] chooses. *)
Lemma address_for_public resolver kind host hostname s address s' : public_tasks s.2 →
  _canonical_provider_identity inet_aton idna_other host = Ok (kind, hostname) →
  address_for resolver kind hostname s = (Ok address, s') →
  ∃ a, well_formed a ∧ public_unicast a ∧ address = compressed a ∧ (kind = IP → hostname = compressed a).
Proof.
  intros Hp Hi H. destruct kind; simpl in H.
  - apply bind_Ok_inv in H as (addresses & s1 & H & Hh).
    assert (public_resolution (Ok addresses)) as Ha.
    { unfold _pinned_addresses in H. destruct (resolution_of hostname s.2) as [r|] eqn:E.
      - injection H as -> <-. by eapply Hp.
      - destruct (_resolve_public_addresses resolver hostname s.1) as [r w] eqn:Er. injection H as -> <-.
        by eapply resolve_public. }
    destruct (Ha addresses eq_refl) as [Hn Hf]. destruct addresses as [|first rest]; [done|].
    injection Hh as <- _. apply Forall_cons in Hf as [(a & ? & ? & ->) _]. by exists a.
  - injection H as <- <-. unfold _canonical_provider_identity in Hi.
    destruct (ip_address _) as [a|] eqn:Ea.
    + apply result_bind_Ok in Hi as ([] & Hg%raise_when_Ok & Hi). injection Hi as <-.
      rewrite negb_false_iff in Hg. pose proof (ip_address_well_formed _ _ Ea). exists a. split_and!; try done. by apply routable_public.
    + apply result_bind_Ok in Hi as ([] & _ & Hi). apply result_bind_Ok in Hi as (c & _ & Hi).
      by apply result_bind_Ok in Hi as ([] & _ & Hi).
Qed.
Lemma in_world_tasks {A} (m : M A) s : (in_world m s).2.2 = s.2.
Proof. unfold in_world. by destruct (m s.1). Qed.

(** The resolutions that are made stay, and stay public. *)
Definition keeps : relation (World.t * Resolutions) := λ s s',
  (public_tasks s.2 → public_tasks s'.2) ∧ ∀ host r, resolution_of host s.2 = Some r → resolution_of host s'.2 = Some r.
#[local] Instance keeps_preorder : PreOrder keeps.
Proof.
  split; [by intros s|]. intros s1 s2 s3 [Hp1 Hr1] [Hp2 Hr2]. split; auto.
Qed.
Lemma pinned_keeps resolver hostname : respects keeps (_pinned_addresses resolver hostname).
Proof.
  intros s. unfold _pinned_addresses. destruct (resolution_of hostname s.2) as [r|] eqn:E; [done|].
  destruct (_resolve_public_addresses resolver hostname s.1) as [r w] eqn:Er. split; simpl.
  - intros Hs host r'. simpl. destruct (hostname =? host)%string; [|apply Hs]. intros [= <-]. by eapply resolve_public.
  - intros host r' H. simpl. destruct (String.eqb_spec hostname host) as [->|]; [congruence|done].
Qed.
Lemma address_for_keeps resolver kind hostname : respects keeps (address_for resolver kind hostname).
Proof. destruct kind; simpl; [|apply respects_ret, _]. apply respects_bind; [apply _|apply pinned_keeps|]. intros. apply respects_lift, _. Qed.
Lemma in_world_keeps {A} (m : M A) : respects keeps (in_world m).
Proof. intros s. unfold in_world. by destruct (m s.1). Qed.
Lemma get_keeps resolver send base_url path max_bytes :
  respects keeps (get check_netloc inet_aton idna_other resolver send base_url path max_bytes).
Proof.
  unfold get. apply respects_try; [apply _| |].
  - repeat (apply respects_bind; [apply _|first [apply respects_lift, _|apply address_for_keeps|apply in_world_keeps]|intros]).
    destruct a1. repeat (apply respects_bind; [apply _|first [apply respects_lift, _|apply address_for_keeps|apply in_world_keeps]|intros]).
    apply respects_lift, _.
  - intros e k. destruct (is_http_error e); [intros [= <-]; apply respects_raise, _|done].
Qed.

Section Agree.
Context (resolver : string → Z → M (list string)) (send send' : EsploraRequest.t → M EsploraResponse.t).

Lemma get_agrees base_url path max_bytes s : public_tasks s.2 →
  (∀ r w, provider_request inet_aton idna_other check_netloc base_url path r → send r w = send' r w) →
  get check_netloc inet_aton idna_other resolver send base_url path max_bytes s =
  get check_netloc inet_aton idna_other resolver send' base_url path max_bytes s.
Proof.
  intros Hs Hag. unfold get, try_except.
  match goal with |- match ?a with _ => _ end = match ?b with _ => _ end => assert (a = b) as ->; [|done] end.
  destruct (urlsplit check_netloc base_url) as [parsed|] eqn:Hp; [|done]. rewrite !(bind_Ok _ _ s parsed s) by done.
  destruct (SplitResult.hostname parsed) as [host|] eqn:Hh; [|done]. rewrite !(bind_Ok _ _ s host s) by done.
  destruct (_canonical_provider_identity inet_aton idna_other host) as [[kind name]|] eqn:Hi; [|done].
  rewrite !(bind_Ok _ _ s (kind, name) s) by done.
  destruct (address_for resolver kind name s) as [[address|e] s1] eqn:Ha.
  2:{ by rewrite !(bind_Raise _ _ s e s1). }
  rewrite !(bind_Ok _ _ s address s1) by done.
  destruct (address_for_public _ _ _ _ _ _ _ Hs Hi Ha) as (a & Hw & Hpub & -> & Hip).
  rewrite ip_address_compressed by done. rewrite !(bind_Ok _ _ s1 a s1) by done.
  unfold bind, in_world. rewrite Hag; [done|]. exists parsed, host, kind, a. by destruct a.
Qed.
Lemma get_all_agrees calls : ∀ s, public_tasks s.2 →
  (∀ base_url path max_bytes r w, (base_url, path, max_bytes) ∈ calls →
    provider_request inet_aton idna_other check_netloc base_url path r → send r w = send' r w) →
  get_all resolver send calls s = get_all resolver send' calls s.
Proof.
  induction calls as [|[[base_url path] max_bytes] calls IH]; intros s Hs Hag; [done|]. cbn [get_all].
  rewrite (get_agrees base_url path max_bytes s Hs) by (intros; eapply Hag; [left|done]).
  pose proof (get_keeps resolver send' base_url path max_bytes s) as [Hs' _].
  destruct (get _ _ _ _ send' _ _ _ s) as [r s']. unfold bind. rewrite IH; [done|by apply Hs'|].
  intros. eapply Hag; [by right|done].
Qed.
End Agree.

Lemma get_all_keeps resolver send calls : respects keeps (get_all resolver send calls).
Proof.
  induction calls as [|[[base_url path] max_bytes] calls IH]; [apply respects_ret, _|]. intros s. cbn [get_all].
  pose proof (get_keeps resolver send base_url path max_bytes s) as H1.
  destruct (get _ _ _ _ send _ _ _ s) as [r s']. etrans; [exact H1|]. apply respects_bind; [apply _|exact IH|].
  intros. apply respects_ret, _.
Qed.

(** The start of a call for a host with a DNS name. *)
Section Named.
Context (base_url host name : string) (parsed : SplitResult.t).
Context (is_parsed : urlsplit check_netloc base_url = Ok parsed) (has_host : SplitResult.hostname parsed = Some host).
Context (is_named : _canonical_provider_identity inet_aton idna_other host = Ok (DNS, name)).

Lemma get_resolved resolver resolver' send path max_bytes s r : resolution_of name s.2 = Some r →
  get check_netloc inet_aton idna_other resolver send base_url path max_bytes s =
  get check_netloc inet_aton idna_other resolver' send base_url path max_bytes s.
Proof.
  intros Hr. unfold get, try_except.
  match goal with |- match ?a with _ => _ end = match ?b with _ => _ end => assert (a = b) as ->; [|done] end.
  rewrite is_parsed. rewrite !(bind_Ok _ _ s parsed s) by done. rewrite has_host, !(bind_Ok _ _ s host s) by done.
  rewrite is_named, !(bind_Ok _ _ s (DNS, name) s) by done. unfold bind, address_for, bind, _pinned_addresses. by rewrite Hr.
Qed.
Lemma get_failed resolver send path max_bytes s e : resolution_of name s.2 = Some (Raise e) → is_http_error e = false →
  get check_netloc inet_aton idna_other resolver send base_url path max_bytes s = (Raise e, s).
Proof.
  intros Hr He. unfold get, try_except. rewrite is_parsed, !(bind_Ok _ _ s parsed s) by done.
  rewrite has_host, !(bind_Ok _ _ s host s) by done. rewrite is_named, !(bind_Ok _ _ s (DNS, name) s) by done.
  unfold address_for. rewrite !(bind_Raise _ _ s e s); [by rewrite He|]. apply bind_Raise. unfold _pinned_addresses. by rewrite Hr.
Qed.
Lemma get_resolves resolver send path max_bytes s : ∃ r,
  resolution_of name (get check_netloc inet_aton idna_other resolver send base_url path max_bytes s).2.2 = Some r ∧
  (resolution_of name s.2 = None → r = (_resolve_public_addresses resolver name s.1).1).
Proof.
  destruct (resolution_of name s.2) as [r|] eqn:E.
  { exists r. split; [|done]. by apply (get_keeps resolver send base_url path max_bytes s). }
  unfold get, try_except. rewrite is_parsed, !(bind_Ok _ _ s parsed s) by done.
  rewrite has_host, !(bind_Ok _ _ s host s) by done. rewrite is_named, !(bind_Ok _ _ s (DNS, name) s) by done.
  destruct (address_for resolver DNS name s) as [ra s1] eqn:Ea.
  assert (resolution_of name s1.2 = Some (_resolve_public_addresses resolver name s.1).1) as H1.
  { unfold address_for, bind, _pinned_addresses in Ea. rewrite E in Ea. destruct (_resolve_public_addresses resolver name s.1) as [r w].
    destruct r as [l|]; simpl in Ea; [destruct (head l)|]; simplify_eq; simpl; by rewrite String.eqb_refl. }
  eexists. split; [|done].
  destruct ra as [address|e].
  - rewrite !(bind_Ok _ _ s address s1) by done.
    match goal with |- context [match ?m s1 with _ => _ end] => assert (respects keeps m) as Hm end.
    { repeat (apply respects_bind; [apply _|first [apply respects_lift, _|apply in_world_keeps]|intros]). apply respects_lift, _. }
    specialize (Hm s1) as [_ Hm]. specialize (Hm _ _ H1). destruct (bind _ _ s1) as [[]]; [done|]. by destruct (is_http_error _).
  - rewrite !(bind_Raise _ _ s e s1) by done. by destruct (is_http_error e).
Qed.
End Named.
End Runs.

(** However the resolver answers, and however often it changes its answers, the Esplora transport
    connects to public addresses only, over TLS and with the server proving the identity of the host in
    the provider's URL: on any sequence of calls it behaves in the same way with any two networks that
    agree on such requests.  A host that is an address is connected to as it is. *)
Theorem esplora_requests_are_safe (check_netloc inet_aton : string → bool) (idna_other : string → option string)
    (resolver : string → Z → M (list string)) (send send' : EsploraRequest.t → M EsploraResponse.t)
    (calls : list (string * string * Z)) (w : World.t)
    (agree : ∀ base_url path max_bytes r w, (base_url, path, max_bytes) ∈ calls →
      provider_request inet_aton idna_other check_netloc base_url path r → send r w = send' r w) :
  get_all check_netloc inet_aton idna_other resolver send calls (w, []) =
  get_all check_netloc inet_aton idna_other resolver send' calls (w, []).
Proof. apply get_all_agrees; [|done]. by intros host r H. Qed.

Lemma esplora_requests_are_safe_witness :
  let resolver := λ _ _, ret ["127.0.0.1"] in
  let down : EsploraRequest.t → M EsploraResponse.t := λ _, raise (TransportError "connection refused") in
  let other : EsploraRequest.t → M EsploraResponse.t := λ r,
    if startswith "https://" (EsploraRequest.url r) then down r else ret (EsploraResponse.mk 200 None None [[x00]] None) in
  get_all (λ _, true) (λ _, false) (λ _, None) resolver down [("https://example.org/", "blocks/tip/height", 4096)] (Genesis.world, []) =
  get_all (λ _, true) (λ _, false) (λ _, None) resolver other [("https://example.org/", "blocks/tip/height", 4096)] (Genesis.world, []).
Proof.
  intros resolver down other. apply (esplora_requests_are_safe (λ _, true) (λ _, false) (λ _, None) resolver down other).
  intros base_url path max_bytes r w' _ (parsed & host & kind & a & _ & _ & _ & _ & _ & Hurl). unfold other.
  rewrite Hurl. by rewrite startswith_app.
Defined.

(** The first resolution of a host is the last one: after a call for it, whatever calls follow and whatever
    the resolver would answer by then, no call for the host asks the resolver again, so the name cannot
    be bound to another address; and if that one resolution was refused or failed, every later call for
    the host fails in the same way for as long as the transport lives. *)
Theorem first_resolution_is_final (check_netloc inet_aton : string → bool) (idna_other : string → option string)
    (resolver : string → Z → M (list string)) (send : EsploraRequest.t → M EsploraResponse.t)
    (base_url path host name : string) (max_bytes : Z) (parsed : SplitResult.t) (s : World.t * Resolutions)
    (is_parsed : urlsplit check_netloc base_url = Ok parsed) (has_host : SplitResult.hostname parsed = Some host)
    (is_named : _canonical_provider_identity inet_aton idna_other host = Ok (DNS, name))
    (is_new : resolution_of name s.2 = None) :
  let resolve := _resolve_public_addresses resolver name s.1 in
  let s1 := (get check_netloc inet_aton idna_other resolver send base_url path max_bytes s).2 in
  ∀ resolver1 send1 calls,
    let s2 := (get_all check_netloc inet_aton idna_other resolver1 send1 calls s1).2 in
    (∀ resolver2 resolver3 send2 path2 max2,
      get check_netloc inet_aton idna_other resolver2 send2 base_url path2 max2 s2 =
      get check_netloc inet_aton idna_other resolver3 send2 base_url path2 max2 s2) ∧
    ∀ w, resolve = (Raise (BitcoinVerifierUnavailable "esplora_provider_address_not_public"), w) →
      ∀ resolver2 send2 path2 max2,
        get check_netloc inet_aton idna_other resolver2 send2 base_url path2 max2 s2 =
          (Raise (BitcoinVerifierUnavailable "esplora_provider_address_not_public"), s2).
Proof.
  intros resolve s1 resolver1 send1 calls s2.
  destruct (get_resolves _ _ idna_other base_url host name parsed is_parsed has_host is_named resolver send path max_bytes s)
    as (r & Hr & Hnew). specialize (Hnew is_new).
  pose proof (get_all_keeps check_netloc inet_aton idna_other resolver1 send1 calls s1) as [_ Hk]. specialize (Hk _ _ Hr). fold s2 in Hk.
  split.
  - intros. by eapply get_resolved.
  - intros w Hw ? ? ? ?. eapply get_failed; [done..| |done]. rewrite Hk, Hnew. fold resolve. by rewrite Hw.
Qed.

Lemma first_resolution_is_final_witness :
  let failing : string → Z → M (list string) := λ _ _, raise (OSError "temporary failure in name resolution") in
  let working : string → Z → M (list string) := λ _ _, ret ["93.184.216.34"] in
  let send : EsploraRequest.t → M EsploraResponse.t := λ _, ret (EsploraResponse.mk 200 None None [[x31]] None) in
  let call resolver := get (λ _, true) (λ _, false) (λ _, None) resolver send "https://example.org/" "blocks/tip/height" 4096 in
  let s1 := (call failing (Genesis.world, [])).2 in
  (call working (Genesis.world, [])).1 = Ok [x31] ∧
  call working s1 = (Raise (BitcoinVerifierUnavailable "esplora_provider_address_not_public"), s1).
Proof.
  intros failing working send call s1. split; [reflexivity|].
  pose proof (first_resolution_is_final (λ _, true) (λ _, false) (λ _, None) failing send
    "https://example.org/" "blocks/tip/height" "example.org" "example.org" 4096
    (SplitResult.mk "https" "example.org" "/" "" "") (Genesis.world, []) eq_refl eq_refl eq_refl eq_refl working send []) as [_ H].
  exact (H Genesis.world eq_refl working send "blocks/tip/height" 4096).
Defined.
