(* ===== verification/BitcoinRpc.v ===== *)
(** * The Bitcoin Core verifier

    [app/bitcoin/rpc.py]: a timestamp is verified against a Bitcoin Core node.  The verifier
    is written against the protocol [BitcoinRpcTransport]; [BitcoinCoreRpcTransport.call]
    implements it over HTTP, where the exchange of one POST request is a parameter. *)
From S2P Require Import Prelude PyStr PyFloat PyObject Sha256 Domain Ports Session Url Ots.
From Stdlib Require Import Floats.SpecFloat.

Open Scope string_scope.
Open Scope Z_scope.

Definition MAX_RPC_RESPONSE_BYTES : Z := 1000000.
Definition MAX_BITCOIN_ATTESTATIONS : Z := 16.
Definition MINIMUM_SYNC_PROGRESS : spec_float := float_of_decimal false 999 (-3).

(** [call(method, params)] *)
Definition BitcoinRpcTransport : Type := string → list obj → M obj.

(** [d.get(key)] *)
Definition field (key : string) (d : list (ustr * obj)) : obj := default ONone (get_key key d).
(** [value == n] for an integer [n]: booleans and floats are numbers. *)
Definition equals_int (value : obj) (n : Z) : bool :=
  match value with
  | OInt m => m =? n
  | OBool b => (if b then 1 else 0) =? n
  | OFloat x => SFeqb x (float_of_Z n) && (Z.abs n <=? 2 ^ 53)
  | _ => false
  end.

(** ** The transport *)

Module BitcoinCoreRpcTransport.
(** [__init__]; the timeout is in microseconds. *)
Definition init_check (check_netloc : string → bool) (rpc_url username password : string) (timeout : Z) : result unit :=
  check! raise_when ((rpc_url =? "")%string || (rpc_url != strip is_unicode_space rpc_url) ||
                     negb (str_all (λ c, code c <? 128) rpc_url) || str_contains "\" rpc_url ||
                     str_exists (λ c, (code c <? 32) || (code c =? 127)) rpc_url)
    (ValueError "bitcoin_rpc_url_invalid") in
  let invalid := ValueError "bitcoin_rpc_url_invalid" in
  try! parsed := except_as (λ _, true) invalid (urlsplit check_netloc rpc_url) in
  try! port := except_as (λ _, true) invalid (SplitResult.port parsed) in
  let path := SplitResult.path parsed in
  raise_when (negb (SplitResult.scheme parsed is_in ["http"; "https"]) ||
              match SplitResult.hostname parsed with None => true | Some h => (h =? "")%string end ||
              SplitResult.has_userinfo parsed ||
              (SplitResult.query parsed != "") || (SplitResult.fragment parsed != "") ||
              ((path != "") && negb (startswith "/" path)) ||
              (is_none port && endswith ":" (SplitResult.netloc parsed)) ||
              (username =? "")%string || (password =? "")%string ||
              negb ((100000 <=? timeout) && (timeout <=? seconds 30)))
    (ValueError "bitcoin_rpc_configuration_invalid").

Section Call.
(** One POST of the request: the status and the chunks of the body. *)
Context (post : Z → string → list obj → M (Z * list bytes)) (request_id : Z).

(** The decoded answer to the request with this identifier. *)
Definition answer (status_code : Z) (decoded : obj) : result obj :=
  match decoded with
  | ODict fields =>
      check! raise_when (negb (equals_int (field "id" fields) request_id))
        (BitcoinEvidenceInvalid "bitcoin_rpc_response_malformed") in
      match field "error" fields with
      | ONone =>
          check! raise_when (status_code != 200) (BitcoinVerifierUnavailable "bitcoin_rpc_http_unavailable") in
          need (BitcoinEvidenceInvalid "bitcoin_rpc_response_malformed") (get_key "result" fields)
      | ODict error =>
          match field "code" error, field "message" error with
          | OInt code, OStr message =>
              check! raise_when (code is_in [-28; -342]) (BitcoinVerifierUnavailable "bitcoin_rpc_not_ready") in
              Raise (BitcoinRpcResponseError code (default "" (latin message)))
          | _, _ => Raise (BitcoinEvidenceInvalid "bitcoin_rpc_response_malformed")
          end
      | _ => Raise (BitcoinEvidenceInvalid "bitcoin_rpc_response_malformed")
      end
  | _ => Raise (BitcoinEvidenceInvalid "bitcoin_rpc_response_malformed")
  end.

Definition call : BitcoinRpcTransport := λ method params,
  do! raise_if ((method =? "")%string || negb (str_all (λ c, code c <? 128) method) || (64 <? strlen method))
    (ValueError "bitcoin_rpc_method_invalid") in
  let! (status_code, body) := try_except
    (let! (status_code, chunks) := post request_id method params in
     let body := List.concat chunks in
     do! raise_if (MAX_RPC_RESPONSE_BYTES <? blen body)
       (BitcoinEvidenceInvalid "bitcoin_rpc_response_too_large") in
     ret (status_code, body))
    (λ e, match e with
          | HTTPError _ | TransportError _ | OSError _ | TimeoutError =>
              Some (raise (BitcoinVerifierUnavailable "bitcoin_rpc_unavailable"))
          | _ => None
          end) in
  let! decoded := lift (except_as is_decode_error
    (if 500 <=? status_code then BitcoinVerifierUnavailable "bitcoin_rpc_http_unavailable"
     else BitcoinEvidenceInvalid "bitcoin_rpc_response_malformed") (loads body)) in
  lift (answer status_code decoded).
End Call.
End BitcoinCoreRpcTransport.

(** ** Fields of an answer *)

Definition _integer (value : obj) (safe_code : string) (minimum : Z) (maximum : option Z) : result Z :=
  match value with
  | OInt n =>
      check! raise_when ((n <? minimum) || match maximum with Some m => m <? n | None => false end)
        (BitcoinEvidenceInvalid safe_code) in
      Ok n
  | _ => Raise (BitcoinEvidenceInvalid safe_code)
  end.
(** A text with a character above U+00FF is no hexadecimal number either. *)
Definition _hash_hex (value : obj) (safe_code : string) : result string :=
  match latin_of (Some value) with
  | Some text =>
      check! raise_when ((strlen text != 64) || (lower text != text)) (BitcoinEvidenceInvalid safe_code) in
      check! raise_when (is_none (bytes_fromhex text)) (BitcoinEvidenceInvalid safe_code) in
      Ok text
  | None => Raise (BitcoinEvidenceInvalid safe_code)
  end.
(** [bytes.fromhex(text)[::-1]] of a text that [_hash_hex] returned. *)
Definition reversed_bytes (text : string) : bytes := reverse (default [] (bytes_fromhex text)).
Definition U32_MAX : Z := 0xFFFFFFFF.
Definition bits_hex (value : obj) : result Z :=
  match latin_of (Some value) with
  | Some text =>
      check! raise_when ((strlen text != 8) || (lower text != text) || negb (str_all is_lower_hex text))
        (BitcoinEvidenceInvalid "bitcoin_block_header_malformed") in
      need (ValueError "") (hex_int_unsigned text)
  | None => Raise (BitcoinEvidenceInvalid "bitcoin_block_header_malformed")
  end.

(** The 80 bytes of the header that an answer describes, and its Merkle root. *)
Definition _serialize_header (header : list (ustr * obj)) (height : Z) : result (bytes * bytes) :=
  let malformed := "bitcoin_block_header_malformed" in
  try! version := _integer (field "version" header) malformed (- 2 ^ 31) (Some (2 ^ 31 - 1)) in
  let previous := field "previousblockhash" header in
  try! previous_bytes :=
    match height, previous with
    | 0, ONone => Ok (repeat x00 32)
    | _, _ => try! text := _hash_hex previous malformed in Ok (reversed_bytes text)
    end in
  try! root := _hash_hex (field "merkleroot" header) malformed in
  let merkle_root := reversed_bytes root in
  try! timestamp := _integer (field "time" header) malformed 0 (Some U32_MAX) in
  try! bits := bits_hex (field "bits" header) in
  try! nonce := _integer (field "nonce" header) malformed 0 (Some U32_MAX) in
  Ok ((to_bytes_little 4 version ++ previous_bytes ++ merkle_root ++
       to_bytes_little 4 timestamp ++ to_bytes_little 4 bits ++ to_bytes_little 4 nonce)%list, merkle_root).

Module _ChainSnapshot.
Record t := mk { blocks : Z; best_block_hash : string }.
#[global] Instance t_eq_dec : EqDecision t.
Proof. solve_decision. Defined.
End _ChainSnapshot.
Module _BlockEvidence.
Record t := mk { height : Z; block_hash : string; block_time : datetime; confirmations : Z }.
End _BlockEvidence.

(** [progress < MINIMUM_SYNC_PROGRESS]; [None] when it is no number. *)
Definition progress_below (progress : obj) : option bool :=
  match progress with
  | OInt n => Some (n <? 1)
  | OFloat x => Some (SFltb x MINIMUM_SYNC_PROGRESS)
  | _ => None
  end.

(** The answer to [getblockchaininfo]. *)
Definition chain_snapshot (result_ : obj) : result _ChainSnapshot.t :=
  let malformed := "bitcoin_chain_info_malformed" in
  match result_ with
  | ODict info =>
      check! raise_when (latin_of (Some (field "chain" info)) != Some "main")
        (BitcoinEvidenceInvalid "bitcoin_wrong_network") in
      try! blocks := _integer (field "blocks" info) malformed 0 None in
      try! headers := _integer (field "headers" info) malformed 0 None in
      try! best_block_hash := _hash_hex (field "bestblockhash" info) malformed in
      try! below := need (BitcoinEvidenceInvalid malformed) (progress_below (field "verificationprogress" info)) in
      let downloading := match field "initialblockdownload" info with OBool b => b | _ => true end in
      check! raise_when (downloading || (headers != blocks) || below)
        (BitcoinVerifierUnavailable "bitcoin_node_unsynchronized") in
      Ok (_ChainSnapshot.mk blocks best_block_hash)
  | _ => Raise (BitcoinEvidenceInvalid malformed)
  end.

Module BitcoinCoreRpcVerifier.
Definition init_check (minimum_confirmations : Z) : result unit :=
  raise_when (negb ((1 <=? minimum_confirmations) && (minimum_confirmations <=? 100)))
    (ValueError "bitcoin_confirmation_threshold_invalid").

Section Verifier.
Context (rpc : BitcoinRpcTransport) (minimum_confirmations : Z) (clock : M datetime).

Definition _call (method : string) (params : list obj) : M obj :=
  try_except (rpc method params)
    (λ e, match e with
          | OSError _ | TimeoutError => Some (raise (BitcoinVerifierUnavailable "bitcoin_rpc_unavailable"))
          | _ => None
          end).
Definition _chain_call (method : string) (params : list obj) : M obj :=
  try_except (_call method params)
    (λ e, match e with
          | BitcoinRpcResponseError code _ =>
              if code is_in [-5; -8] then Some (raise (BitcoinVerifierUnavailable "bitcoin_chain_race")) else None
          | _ => None
          end).
Definition _chain_snapshot : M _ChainSnapshot.t :=
  let! result_ := _call "getblockchaininfo" [] in lift (chain_snapshot result_).

(** The hash of the block at a height. *)
Definition canonical_hash (height : Z) : M string :=
  let! value := _chain_call "getblockhash" [OInt height] in
  lift (_hash_hex value "bitcoin_block_hash_malformed").

(** The checks of the answer to [getblockheader]: the block is the one asked for, as deep as
    the snapshot says, and its bytes hash to its name and commit to the message. *)
Definition check_header (message : bytes) (height : Z) (snapshot : _ChainSnapshot.t) (canonical : string)
    (header : list (ustr * obj)) : result Z :=
  let malformed := "bitcoin_block_header_malformed" in
  try! stated := _integer (field "height" header) malformed 0 None in
  check! raise_when (stated != height) (BitcoinEvidenceInvalid "bitcoin_block_height_mismatch") in
  try! hash := _hash_hex (field "hash" header) malformed in
  check! raise_when (hash != canonical) (BitcoinEvidenceInvalid "bitcoin_block_hash_mismatch") in
  try! confirmations := _integer (field "confirmations" header) malformed (-1) None in
  check! raise_when (confirmations <? 0) (BitcoinVerifierUnavailable "bitcoin_chain_race") in
  let expected_confirmations := _ChainSnapshot.blocks snapshot - height + 1 in
  check! raise_when (confirmations != expected_confirmations)
    (BitcoinVerifierUnavailable "bitcoin_confirmation_snapshot_mismatch") in
  try! (raw_header, merkle_root) := _serialize_header header height in
  check! raise_when (bytes_hex (reverse (sha256 (sha256 raw_header))) != canonical)
    (BitcoinEvidenceInvalid "bitcoin_block_header_hash_mismatch") in
  check! raise_when (message != merkle_root) (BitcoinEvidenceInvalid "bitcoin_attestation_merkle_mismatch") in
  Ok expected_confirmations.

Definition _attestation_evidence (message : bytes) (height : Z) (snapshot : _ChainSnapshot.t) : M _BlockEvidence.t :=
  do! raise_if ((blen message != 32) || (height <? 0)) (BitcoinEvidenceInvalid "bitcoin_attestation_malformed") in
  let! canonical := canonical_hash height in
  let! answer := _chain_call "getblockheader" [OStr (wide canonical); OBool true] in
  match answer with
  | ODict header =>
      let! expected_confirmations := lift (check_header message height snapshot canonical header) in
      let! recheck := canonical_hash height in
      do! raise_if (recheck != canonical) (BitcoinVerifierUnavailable "bitcoin_chain_race") in
      let! timestamp := lift (_integer (field "time" header) "bitcoin_block_header_malformed" 0 (Some U32_MAX)) in
      ret (_BlockEvidence.mk height canonical (utc (seconds timestamp)) expected_confirmations)
  | _ => raise (BitcoinEvidenceInvalid "bitcoin_block_header_malformed")
  end.

(** The loop over the attestations: the evidence and the pending confirmations so far. *)
Definition gather_evidence (snapshot : _ChainSnapshot.t) (acc : list _BlockEvidence.t * list Z)
    (a : bytes * Z) : M (list _BlockEvidence.t * list Z) :=
  let '((evidence, pending), (message, height)) := (acc, a) in
  if _ChainSnapshot.blocks snapshot <? height then ret (evidence, pending ++ [0])%list
  else
    let! block := _attestation_evidence message height snapshot in
    if _BlockEvidence.confirmations block <? minimum_confirmations
    then ret (evidence, pending ++ [_BlockEvidence.confirmations block])%list
    else ret (evidence ++ [block], pending)%list.

(** [key=lambda item: (item.confirmations, -item.height, item.block_hash)] *)
Definition strength (b : _BlockEvidence.t) : list Z :=
  _BlockEvidence.confirmations b :: - _BlockEvidence.height b :: wide (_BlockEvidence.block_hash b).
Definition stronger (a b : _BlockEvidence.t) : bool := negb (key_le (strength a) (strength b)).

Definition verified_result (strongest : _BlockEvidence.t) : M BitcoinVerification.t :=
  let! verified_at := clock in
  do! raise_if (is_naive verified_at) (BitcoinEvidenceInvalid "bitcoin_verifier_clock_invalid") in
  lift (BitcoinVerification.post_init {|
    BitcoinVerification.verified := true;
    BitcoinVerification.method := "bitcoin-core-rpc-exact-digest";
    BitcoinVerification.verified_at := Some verified_at;
    BitcoinVerification.block_height := Some (_BlockEvidence.height strongest);
    BitcoinVerification.block_hash := Some (_BlockEvidence.block_hash strongest);
    BitcoinVerification.block_time := Some (_BlockEvidence.block_time strongest);
    BitcoinVerification.confirmation_policy :=
      Some ("bitcoin-core-mainnet-canonical-min-" ++ str_int minimum_confirmations);
    BitcoinVerification.confirmations := Some (_BlockEvidence.confirmations strongest) |}).

Section Verify.
Context (apply_op : Op → bytes → result bytes) (deserialize : bytes → option DetachedTimestampFile.t).
Context (all_attestations : Timestamp → list (bytes * Attestation)).

(** The set of the Bitcoin attestations, sorted by height and message. *)
Definition bitcoin_attestations (t : Timestamp) : list (bytes * Z) :=
  order_by (λ '(message, height), height :: map Z_of_byte message)
    (remove_dups (omap (λ '(message, a), match a with
                        | BitcoinBlockHeaderAttestation height => Some (message, height) | _ => None
                        end) (all_attestations t))).

Definition verify_exact_digest (digest : ManifestDigest.t) (proof_bytes : bytes) : M BitcoinVerification.t :=
  let! parsed := lift (deserialize_exact_proof apply_op deserialize digest proof_bytes None) in
  let found := bitcoin_attestations (DetachedTimestampFile.timestamp (ParsedProof.detached parsed)) in
  if len found =? 0 then
    lift (BitcoinVerification.post_init (BitcoinVerification.unverified "bitcoin-core-no-attestation" None))
  else
    do! raise_if (MAX_BITCOIN_ATTESTATIONS <? len found)
      (BitcoinEvidenceInvalid "bitcoin_attestation_limit_exceeded") in
    let! snapshot := _chain_snapshot in
    let! (evidence, pending) := for_fold (gather_evidence snapshot) ([], []) found in
    let! final_snapshot := _chain_snapshot in
    do! raise_if (final_snapshot != snapshot) (BitcoinVerifierUnavailable "bitcoin_chain_tip_changed") in
    match best stronger evidence with
    | None =>
        lift (BitcoinVerification.post_init (BitcoinVerification.unverified
          "bitcoin-core-confirmation-pending" (Some (foldl Z.max 0 pending))))
    | Some strongest => verified_result strongest
    end.
End Verify.
End Verifier.
End BitcoinCoreRpcVerifier.

(** ** What a node's word rests on

    A positive answer of the Bitcoin Core verifier is backed by a header that the node returned
    for the block at the stated height, whose bytes hash to the block hash and carry the
    commitment of the proof; no other commitment of the proof is in an earlier block. *)
From S2P Require Import Prelude PyStr PyObject Sha256 Domain Ports Db Session Ots Bitcoin.

Open Scope string_scope.
Open Scope Z_scope.
Import BitcoinCoreRpcVerifier.

Section Evidence.
Context (rpc : BitcoinRpcTransport) (minimum_confirmations : Z) (clock : M datetime).

(** The node answered a request this way at some moment. *)
Definition answered (method : string) (params : list obj) (value : obj) : Prop :=
  ∃ w w', rpc method params w = (Ok value, w').

(** The node says, of the main chain, that it holds this block. *)
Record block_evidence (snapshot : _ChainSnapshot.t) (message : bytes) (b : _BlockEvidence.t) : Prop := {
  be_range : 0 <= _BlockEvidence.height b;
  be_name : answered "getblockhash" [OInt (_BlockEvidence.height b)] (OStr (wide (_BlockEvidence.block_hash b)));
  be_depth : _BlockEvidence.confirmations b = _ChainSnapshot.blocks snapshot - _BlockEvidence.height b + 1;
  be_header : ∃ header raw timestamp,
    answered "getblockheader" [OStr (wide (_BlockEvidence.block_hash b)); OBool true] (ODict header) ∧
    _serialize_header header (_BlockEvidence.height b) = Ok (raw, message) ∧
    _BlockEvidence.block_hash b = bytes_hex (reverse (sha256d raw)) ∧
    field "time" header = OInt timestamp ∧ _BlockEvidence.block_time b = utc (seconds timestamp) }.

Lemma try_except_uncaught {A} (m : M A) h w a w' :
  try_except m h w = (Ok a, w') → (∀ e k, h e = Some k → ∃ e', k = raise e') → m w = (Ok a, w').
Proof.
  unfold try_except. destruct (m w) as [[x|e] w1]; [done|]. destruct (h e) as [k|] eqn:E; [|done].
  intros H Hh. destruct (Hh e k E) as [e' ->]. done.
Qed.
Lemma chain_call_answered method params w value w' :
  _chain_call rpc method params w = (Ok value, w') → answered method params value.
Proof.
  intros H. apply try_except_uncaught in H; [apply try_except_uncaught in H|].
  - by exists w, w'.
  - intros [] k Hk; simplify_eq; eauto.
  - intros [] k Hk; simplify_eq. destruct (_ is_in _); simplify_eq; eauto.
Qed.
Lemma latin_wide u text : latin u = Some text → u = wide text.
Proof.
  unfold latin, wide. destruct (forallb _ u) eqn:E; [|done]. intros [= <-].
  rewrite list_ascii_of_string_of_list_ascii, map_map.
  induction u as [|c u IH]; [done|]. simpl in E. apply andb_true_iff in E as [Ec E]. simpl.
  rewrite <- IH by done. f_equal. unfold code, chr. rewrite N_ascii_embedding; lia.
Qed.
Lemma hash_hex_wide value e text : _hash_hex value e = Ok text → value = OStr (wide text).
Proof.
  unfold _hash_hex. destruct (latin_of (Some value)) as [t|] eqn:E; [|done].
  intros (? & _ & (? & _ & [= <-])%result_bind_Ok)%result_bind_Ok.
  destruct value; simpl in E; try done. by apply latin_wide in E as ->.
Qed.
Lemma canonical_hash_answered height w text w' :
  canonical_hash rpc height w = (Ok text, w') → answered "getblockhash" [OInt height] (OStr (wide text)).
Proof.
  intros (value & w1 & E%chain_call_answered & [H _]%lift_Ok)%bind_Ok_inv. by apply hash_hex_wide in H as <-.
Qed.
Lemma chain_snapshot_answered w s w' :
  _chain_snapshot rpc w = (Ok s, w') →
  ∃ info, rpc "getblockchaininfo" [] w = (Ok info, w') ∧ chain_snapshot info = Ok s.
Proof.
  intros (info & w1 & E & [H ->]%lift_Ok)%bind_Ok_inv. exists info. split; [|done].
  apply try_except_uncaught in E; [done|]. intros [] k Hk; simplify_eq; eauto.
Qed.

Lemma check_header_Ok message height s canonical header c :
  check_header message height s canonical header = Ok c →
  c = _ChainSnapshot.blocks s - height + 1 ∧
  ∃ raw, _serialize_header header height = Ok (raw, message) ∧ canonical = bytes_hex (reverse (sha256d raw)).
Proof.
  unfold check_header. intros H.
  do 6 apply result_bind_Ok in H as (? & _ & H). cbv zeta in H. apply result_bind_Ok in H as (? & _ & H).
  apply result_bind_Ok in H as ([raw root] & Hr & H).
  apply result_bind_Ok in H as (? & Hc%raise_when_Ok & H).
  apply result_bind_Ok in H as (? & Hm%raise_when_Ok & H). apply Ok_inj in H as <-.
  apply negb_false_iff, bool_decide_eq_true in Hc, Hm. subst. eauto.
Qed.
Lemma attestation_evidence_Ok message height s w b w' :
  _attestation_evidence rpc message height s w = (Ok b, w') →
  _BlockEvidence.height b = height ∧ block_evidence s message b.
Proof.
  unfold _attestation_evidence. intros (u & w1 & [C ->]%raise_if_Ok & H)%bind_Ok_inv.
  apply bind_Ok_inv in H as (canonical & w2 & Hc%canonical_hash_answered & H).
  apply bind_Ok_inv in H as (answer & w3 & Ha%chain_call_answered & H).
  destruct answer as [| | | | | |header]; try done.
  apply bind_Ok_inv in H as (c & w4 & [[-> (raw & Hr & Hh)]%check_header_Ok ->]%lift_Ok & H).
  apply bind_Ok_inv in H as (recheck & w5 & _ & H). apply bind_Ok_inv in H as (? & w6 & _ & H).
  apply bind_Ok_inv in H as (timestamp & w7 & [Ht _]%lift_Ok & [<- _]%ret_Ok).
  split; [done|]. apply orb_false_iff in C as [_ C].
  split; simpl; [lia|done|done|]. exists header, raw, timestamp. split_and!; try done.
  unfold _integer in Ht. destruct (field "time" header); try done.
  by apply result_bind_Ok in Ht as (? & _ & [= ->]).
Qed.

(** The accumulator of the loop: every attestation done gave evidence or waits for depth. *)
Definition gathered (snapshot : _ChainSnapshot.t) (done : list (bytes * Z))
    (acc : list _BlockEvidence.t * list Z) : Prop :=
  (∀ b, b ∈ acc.1 → minimum_confirmations <= _BlockEvidence.confirmations b ∧
    ∃ message, (message, _BlockEvidence.height b) ∈ done ∧ block_evidence snapshot message b) ∧
  (∀ message height, (message, height) ∈ done →
    (∃ b, b ∈ acc.1 ∧ _BlockEvidence.height b = height) ∨
    _ChainSnapshot.blocks snapshot - height + 1 < Z.max 1 minimum_confirmations).
Lemma gathered_pending s done acc message height n :
  gathered s done acc → _ChainSnapshot.blocks s - height + 1 < Z.max 1 minimum_confirmations →
  gathered s (done ++ [(message, height)]) (acc.1, acc.2 ++ [n])%list.
Proof.
  intros [He Hd] Hp. split; simpl.
  - intros b (Hb & m & Hm & ?)%He. split; [done|]. exists m. split; [|done]. apply elem_of_app. by left.
  - intros m h [?|[[= -> ->]|[]%not_elem_of_nil]%elem_of_cons]%elem_of_app; [by eapply Hd|by right].
Qed.
Lemma gathered_evidence s done acc message b :
  gathered s done acc → minimum_confirmations <= _BlockEvidence.confirmations b → block_evidence s message b →
  gathered s (done ++ [(message, _BlockEvidence.height b)]) (acc.1 ++ [b], acc.2)%list.
Proof.
  intros [He Hd] Hc Hb. split; simpl.
  - intros b' [(Hb' & m & Hm & ?)%He|[->|[]%not_elem_of_nil]%elem_of_cons]%elem_of_app; (split; [done|]).
    + exists m. split; [|done]. apply elem_of_app. by left.
    + exists message. split; [|done]. apply elem_of_app. right. left.
  - intros m h [Hm|[[= -> ->]|[]%not_elem_of_nil]%elem_of_cons]%elem_of_app.
    + destruct (Hd m h Hm) as [(b' & ? & ?)|?]; [|by right]. left. exists b'. split; [|done].
      apply elem_of_app. by left.
    + left. exists b. split; [|done]. apply elem_of_app. right. left.
Qed.
Lemma gather_evidence_step s done acc a w acc' w' :
  gathered s done acc → gather_evidence rpc minimum_confirmations s acc a w = (Ok acc', w') →
  gathered s (done ++ [a]) acc'.
Proof.
  destruct acc as [evidence pending], a as [message height]. unfold gather_evidence. intros Hg H.
  destruct (_ <? height) eqn:E.
  { apply ret_Ok in H as [<- _]. apply (gathered_pending _ _ (evidence, pending)); [done|lia]. }
  apply bind_Ok_inv in H as (b & w1 & [<- Hb]%attestation_evidence_Ok & H).
  destruct (_ <? minimum_confirmations) eqn:Ec; apply ret_Ok in H as [<- _].
  - apply (gathered_pending _ _ (evidence, pending)); [done|]. rewrite <- (be_depth _ _ _ Hb). lia.
  - apply (gathered_evidence _ _ (evidence, pending)); [done|lia|done].
Qed.
Lemma stronger_confirmations a b :
  if stronger a b then _BlockEvidence.confirmations b <= _BlockEvidence.confirmations a
  else _BlockEvidence.confirmations a <= _BlockEvidence.confirmations b.
Proof.
  unfold stronger, strength. cbn [key_le].
  destruct (Z.ltb_spec (_BlockEvidence.confirmations a) (_BlockEvidence.confirmations b)); simpl; [lia|].
  destruct (Z.eqb_spec (_BlockEvidence.confirmations a) (_BlockEvidence.confirmations b)); simpl; [|lia].
  destruct (negb _); lia.
Qed.

(** C31: A positive answer of the Bitcoin Core verifier rests on a block of the node's main chain:
    the proof is one the service accepts for the digest and has an attestation of that block,
    the node gave its header, whose bytes hash to the stated block hash and carry the attested
    commitment as Merkle root; the block is as deep as the configuration asks for, at a tip that
    did not move during the check: the node described the same tip before the evidence was
    gathered and after it; and no attestation of the proof names an earlier block. *)
Theorem rpc_verified_sound apply_op deserialize all_attestations digest proof_bytes v w w'
    (verified : verify_exact_digest rpc minimum_confirmations clock apply_op deserialize
                  all_attestations digest proof_bytes w = (Ok v, w'))
    (positive : BitcoinVerification.verified v = true) :
  ∃ parsed snapshot message b info evidence pending w1 w2 final w3,
    deserialize_exact_proof apply_op deserialize digest proof_bytes None = Ok parsed ∧
    let found := bitcoin_attestations all_attestations (DetachedTimestampFile.timestamp (ParsedProof.detached parsed)) in
    (message, _BlockEvidence.height b) ∈ found ∧
    (∀ message' height', (message', height') ∈ found → _BlockEvidence.height b <= height') ∧
    rpc "getblockchaininfo" [] w = (Ok info, w1) ∧ chain_snapshot info = Ok snapshot ∧
    for_fold (gather_evidence rpc minimum_confirmations snapshot) ([], []) found w1 = (Ok (evidence, pending), w2) ∧
    b ∈ evidence ∧
    rpc "getblockchaininfo" [] w2 = (Ok final, w3) ∧ chain_snapshot final = Ok snapshot ∧
    block_evidence snapshot message b ∧ Z.max 1 minimum_confirmations <= _BlockEvidence.confirmations b ∧
    BitcoinVerification.block_height v = Some (_BlockEvidence.height b) ∧
    BitcoinVerification.block_hash v = Some (_BlockEvidence.block_hash b) ∧
    BitcoinVerification.block_time v = Some (_BlockEvidence.block_time b) ∧
    BitcoinVerification.confirmations v = Some (_BlockEvidence.confirmations b).
Proof.
  unfold verify_exact_digest in verified.
  apply bind_Ok_inv in verified as (parsed & w1 & [Hp ->]%lift_Ok & H). cbv zeta in H.
  destruct (len _ =? 0). { apply lift_Ok in H as [->%checked_unchanged _]. done. }
  apply bind_Ok_inv in H as (? & w2 & [_ ->]%raise_if_Ok & H).
  apply bind_Ok_inv in H as (snapshot & w3 & (info & Hi & Hs)%chain_snapshot_answered & H).
  apply bind_Ok_inv in H as ([evidence pending] & w4 & Hf & H). pose proof Hf as Hrun.
  apply bind_Ok_inv in H as (snapshot' & w5 & (final & Hi' & Hs')%chain_snapshot_answered & H).
  apply bind_Ok_inv in H as (? & w6 & [Hsame _]%raise_if_Ok & H).
  apply negb_false_iff, bool_decide_eq_true in Hsame as ->.
  destruct (best _ evidence) as [b|] eqn:Eb; [|by apply lift_Ok in H as [->%checked_unchanged _]].
  apply (for_fold_Ok (gathered snapshot)) with (done := []) in Hf as [He Hd];
    [|intros; by eapply gather_evidence_step|by split; intros * []%not_elem_of_nil].
  destruct (He b) as (Hc & message & Hm & Hb); [by eapply best_elem|].
  apply bind_Ok_inv in H as (at_ & w7 & _ & H). apply bind_Ok_inv in H as (? & w8 & _ & H).
  apply lift_Ok in H as [H _].
  pose proof (post_init_confirmed _ _ H eq_refl) as (c & [= <-] & H1). apply checked_unchanged in H as ->.
  exists parsed, snapshot, message, b, info, evidence, pending, w3, w4, final, w5. split; [done|]. cbv zeta.
  split_and!; try done; [|by eapply best_elem|lia].
  intros m h Hmh. pose proof (be_depth _ _ _ Hb). destruct (Hd m h Hmh) as [(b' & Hb' & <-)|?]; [|lia].
  destruct (He b' Hb') as (_ & m' & _ & Hb2). pose proof (be_depth _ _ _ Hb2).
  pose proof (best_max_by _ _ _ _ stronger_confirmations Eb b' Hb'). lia.
Qed.
End Evidence.

(** The node that holds the first block of the main network, six blocks deep. *)
Module GenesisNode.
Definition info : obj := ODict
  [(wide "chain", OStr (wide "main")); (wide "blocks", OInt 5); (wide "headers", OInt 5);
   (wide "bestblockhash", OStr (wide _MAINNET_GENESIS_HASH));
   (wide "verificationprogress", OInt 1); (wide "initialblockdownload", OBool false)].
Definition header : obj := ODict
  [(wide "height", OInt 0); (wide "hash", OStr (wide _MAINNET_GENESIS_HASH)); (wide "confirmations", OInt 6);
   (wide "version", OInt 1); (wide "merkleroot", OStr (wide (bytes_hex (reverse Genesis.target))));
   (wide "time", OInt 1231006505); (wide "bits", OStr (wide "1d00ffff")); (wide "nonce", OInt 2083236893)].
Definition rpc : BitcoinRpcTransport := λ method _,
  ret (if (method =? "getblockhash")%string then OStr (wide _MAINNET_GENESIS_HASH)
       else if (method =? "getblockheader")%string then header else info).
Definition verify : M BitcoinVerification.t :=
  verify_exact_digest rpc 6 (ret (utc (seconds 1700000000))) (λ _ b, Ok b) (λ _, Some Genesis.detached)
    (λ t, map (λ a, (msg t, a)) (attestations t)) (ManifestDigest.mk Genesis.target) Genesis.target.
End GenesisNode.

Lemma rpc_verified_sound_witness :
  ∃ v, fst (GenesisNode.verify Genesis.world) = Ok v ∧ BitcoinVerification.verified v = true ∧
    ∃ snapshot b, block_evidence GenesisNode.rpc snapshot Genesis.target b ∧
      BitcoinVerification.block_height v = Some (_BlockEvidence.height b).
Proof.
  destruct (GenesisNode.verify Genesis.world) as [[v|e] w'] eqn:run; [|exfalso; vm_compute in run; discriminate run].
  exists v. split; [reflexivity|].
  assert (BitcoinVerification.verified v = true) as positive.
  { generalize run. vm_compute. intros [= <- _]. reflexivity. }
  split; [exact positive|].
  destruct (rpc_verified_sound _ _ _ _ _ _ _ _ _ _ _ run positive)
    as (parsed & snapshot & message & b & _ & _ & _ & _ & _ & _ & _ & Hp & Hm & _ & _ & _ & _ & _ & _ & _ & Hb & _ & Hh & _).
  exists snapshot, b. split; [|exact Hh]. enough (message = Genesis.target) as -> by exact Hb.
  revert Hp Hm. clear. intros Hp.
  assert (DetachedTimestampFile.timestamp (ParsedProof.detached parsed) =
          DetachedTimestampFile.timestamp Genesis.detached) as ->
    by (revert Hp; vm_compute; intros [= <-]; reflexivity).
  replace (bitcoin_attestations _ _) with [(Genesis.target, 0)] by (vm_compute; reflexivity).
  intros [[=]|[]%not_elem_of_nil]%elem_of_cons. done.
Defined.
