(* ===== verification/Metbull.v ===== *)
(** * The catalogue of meteorites

    [app/metbull/client.py], [app/metbull/snapshot.py], and the route and the response of the lookup in
    [app/api]: two files that are checked when the service starts, and one row that is read and checked
    for every lookup.

    SQLite is a parameter: [sqlite_open] reads the contents of a file as a database or fails with a
    [DatabaseError].  A database is what the queries of the code see of it.  Texts are lists of code
    points. *)
From S2P Require Import Prelude PyStr PyFloat PyObject IsoTime Sha256 BitcoinRpc.
From Stdlib Require Import Floats.SpecFloat.

Open Scope string_scope.
Open Scope Z_scope.

(** ** Patterns and numbers *)

Definition is_digit_code (c : Z) : bool := (48 <=? c) && (c <=? 57).
(** [^[1-9][0-9]{0,8}$] *)
Definition _CANONICAL_CODE (s : ustr) : bool :=
  match s with c :: s' => (49 <=? c) && (c <=? 57) && (len s' <=? 8) && forallb is_digit_code s' | [] => false end.
(** [^[0-9a-f]{64}$] *)
Definition _SHA256 (s : ustr) : bool := (len s =? 64) && forallb (λ c, is_digit_code c || ((97 <=? c) && (c <=? 102))) s.
(** An optional minus sign, an integer without leading zeros, and an optional point with digits behind it; with
    the number that such a text writes: an integer, and how many
    of its digits are behind the point. *)
Definition _DECIMAL (s : ustr) : option (Z * Z) :=
  let '(sign, s1) := match expect 45 s with Some t => (-1, t) | None => (1, s) end in
  '(m, _, s2) ← take_integer s1;
  match s2 with
  | [] => Some (sign * m, 0)
  | _ => '(m', k, s3) ← take_fraction m s2; match s3 with [] => Some (sign * m', k) | _ => None end
  end.
(** [minimum <= Decimal(value) <= maximum] *)
Definition decimal_between (minimum maximum : Z) (d : Z * Z) : bool :=
  (minimum * 10 ^ d.2 <=? d.1) && (d.1 <=? maximum * 10 ^ d.2).
(** [^[0-9]{4}-[0-9]{2}-[0-9]{2}T[0-9]{2}:[0-9]{2}:[0-9]{2}Z$], with the numbers of it. *)
Definition _UTC_TIMESTAMP (s : ustr) : option (Z * Z * Z * (Z * Z * Z)) :=
  '(y, s) ← parse_digits 4 0 s; s ← expect 45 s; '(m, s) ← parse_digits 2 0 s; s ← expect 45 s;
  '(d, s) ← parse_digits 2 0 s; s ← expect 84 s; '(h, s) ← parse_digits 2 0 s; s ← expect 58 s;
  '(mi, s) ← parse_digits 2 0 s; s ← expect 58 s; '(sec, s) ← parse_digits 2 0 s; s ← expect 90 s;
  match s with [] => Some (y, m, d, (h, mi, sec)) | _ => None end.
(** [datetime.strptime(value, "%Y-%m-%dT%H:%M:%SZ")] on a text of this form: whether there is such a time. *)
Definition timestamp_exists (t : Z * Z * Z * (Z * Z * Z)) : bool :=
  let '(y, m, d, (h, mi, sec)) := t in valid_date y m d && (h <? 24) && (mi <? 60) && (sec <? 60).

(** ** [client.py] *)

Definition METBULL_OFFICIAL_URL (code : Z) : string := "https://www.lpi.usra.edu/meteor/metbull.cfm?code=" ++ str_int code.
Module MetbullRecord.
Record t := mk {
  code : Z; official_url : string; canonical_name : ustr; record_status : ustr; official_name : bool;
  recommended_classification : ustr; fall_or_find : ustr; year_found : option Z; country : option ustr;
  latitude : option ustr; longitude : option ustr }.
End MetbullRecord.
Definition validated_code (code : obj) : result Z :=
  match code with
  | OInt n => if _CANONICAL_CODE (wide (str_int n)) then Ok n else Raise (ValueError "metbull_code_invalid")
  | _ => Raise (ValueError "metbull_code_invalid")
  end.

(** ** Databases *)

Module Sqlite.
Inductive value := NULL | INTEGER (n : Z) | REAL (x : spec_float) | TEXT (s : ustr) | BLOB (b : bytes).
(** A row of [records]; the code is the primary key. *)
Record row := mk_row {
  code : Z; canonical_name : value; record_status : value; recommended_classification : value;
  fall_or_find : value; year_found : value; country : value; latitude : value; longitude : value }.
(** A column of [PRAGMA table_info]: name, type, whether it is NOT NULL, and its place in the primary key. *)
Definition column : Type := string * string * Z * Z.
(** [objects] are the names and types in [sqlite_schema], in the order of the names; the rows of
    [snapshot_metadata] are [None] when it lacks one of the columns [key] and [value]. *)
Record database := mk {
  application_id : Z; user_version : Z; objects : list (string * string); columns : list column;
  integrity_check : list string; snapshot_metadata : option (list (value * value)); records : list row }.
(** Comparison with the values of Python: a REAL may equal an int. *)
Definition is_text (v : value) (s : string) : bool := match v with TEXT t => t == wide s | _ => false end.
Definition is_null (v : value) : bool := match v with NULL => true | _ => false end.
Definition is_int (v : value) (n : Z) : bool :=
  match v with INTEGER m => m =? n | REAL x => equals_int (OFloat x) n | _ => false end.
(** [SELECT ... FROM records WHERE code = ?] *)
Definition find_code (n : Z) (l : list row) : option row := List.find (λ r, code r =? n) l.
End Sqlite.
Definition SOURCE_URL : string :=
  "https://www.lpi.usra.edu/meteor/metbull.cfm?sea=%25&sfor=names&stype=contains&csv=1".
Definition _APPLICATION_ID : Z := 1296192844.
Definition _SCHEMA_VERSION : Z := 2.
Definition _MINIMUM_ROWS : Z := 80000.
Definition _METADATA_KEYS : list string := [
  "schema_version"; "source"; "retrieved_at_utc"; "source_sha256"; "database_sha256"; "row_count";
  "official_database_updated_utc"].
Definition _SOURCE_KEYS : list string := ["name"; "publisher"; "url"].
Definition _INTERNAL_METADATA_KEYS : list string := ["schema_version"; "source_url"; "source_sha256"; "row_count"].
Definition expected_objects : list (string * string) := [
  ("records", "table"); ("records_country_idx", "index"); ("snapshot_metadata", "table")].
Definition expected_columns : list Sqlite.column := [
  ("code", "INTEGER", 0, 1); ("canonical_name", "TEXT", 1, 0); ("record_status", "TEXT", 1, 0);
  ("recommended_classification", "TEXT", 1, 0); ("fall_or_find", "TEXT", 1, 0); ("year_found", "INTEGER", 0, 0);
  ("country", "TEXT", 0, 0); ("latitude", "TEXT", 0, 0); ("longitude", "TEXT", 0, 0)].
(** The row 87447 as the checks expect it. *)
Definition is_sentinel (r : Sqlite.row) : bool :=
  Sqlite.is_text (Sqlite.canonical_name r) "Northwest Africa 18652" && Sqlite.is_text (Sqlite.record_status r) "Relict" &&
  Sqlite.is_text (Sqlite.recommended_classification r) "Relict iron" && Sqlite.is_text (Sqlite.fall_or_find r) "Find" &&
  Sqlite.is_int (Sqlite.year_found r) 2018 && Sqlite.is_text (Sqlite.country r) "Western Sahara" &&
  Sqlite.is_null (Sqlite.latitude r) && Sqlite.is_null (Sqlite.longitude r).

(** ** The fields of a row *)

Definition record_invalid : exn := MetbullUnavailable "metbull_snapshot_record_invalid".
Definition _bounded_text (value : Sqlite.value) (maximum : Z) : result ustr :=
  match value with
  | Sqlite.TEXT s =>
      check! raise_when (negb ((1 <=? len s) && (len s <=? maximum)) || existsb (λ c, c <? 32) s) record_invalid in Ok s
  | _ => Raise record_invalid
  end.
Definition _validated_year (value : Sqlite.value) : result (option Z) :=
  match value with
  | Sqlite.NULL => Ok None
  | Sqlite.INTEGER n => check! raise_when (negb ((1 <=? n) && (n <=? 9999))) record_invalid in Ok (Some n)
  | _ => Raise record_invalid
  end.
Definition _validated_country (value : Sqlite.value) : result (option ustr) :=
  match value with Sqlite.NULL => Ok None | _ => try! s := _bounded_text value 64 in Ok (Some s) end.
Definition _coordinate (value : ustr) (minimum maximum : Z) : result ustr :=
  check! raise_when (32 <? len value) record_invalid in
  try! parsed := need record_invalid (_DECIMAL value) in
  check! raise_when (negb (decimal_between minimum maximum parsed)) record_invalid in
  Ok value.
Definition _validated_coordinates (latitude longitude : Sqlite.value) : result (option ustr * option ustr) :=
  match latitude, longitude with
  | Sqlite.NULL, Sqlite.NULL => Ok (None, None)
  | Sqlite.TEXT latitude, Sqlite.TEXT longitude =>
      try! lat := _coordinate latitude (-90) 90 in
      try! long := _coordinate longitude (-180) 180 in
      Ok (Some lat, Some long)
  | _, _ => Raise record_invalid
  end.
(** What [lookup] makes of a row. *)
Definition record_of_row (canonical_code : Z) (row : Sqlite.row) : result MetbullRecord.t :=
  match Sqlite.record_status row with
  | Sqlite.TEXT status =>
      check! raise_when (negb (status is_in [wide "Official"; wide "Relict"])) (MetbullNotOfficial "metbull_name_not_official") in
      try! canonical_name := _bounded_text (Sqlite.canonical_name row) 128 in
      try! recommended_classification := _bounded_text (Sqlite.recommended_classification row) 128 in
      try! fall_or_find := match Sqlite.fall_or_find row with
                           | Sqlite.TEXT s => if s is_in [wide "Fall"; wide "Find"] then Ok s else Raise record_invalid
                           | _ => Raise record_invalid
                           end in
      try! year_found := _validated_year (Sqlite.year_found row) in
      try! (latitude, longitude) := _validated_coordinates (Sqlite.latitude row) (Sqlite.longitude row) in
      try! country := _validated_country (Sqlite.country row) in
      Ok {| MetbullRecord.code := canonical_code;
            MetbullRecord.official_url := METBULL_OFFICIAL_URL canonical_code;
            MetbullRecord.canonical_name := canonical_name;
            MetbullRecord.record_status := status;
            MetbullRecord.official_name := true;
            MetbullRecord.recommended_classification := recommended_classification;
            MetbullRecord.fall_or_find := fall_or_find;
            MetbullRecord.year_found := year_found;
            MetbullRecord.country := country;
            MetbullRecord.latitude := latitude;
            MetbullRecord.longitude := longitude |}
  | _ => Raise record_invalid
  end.

(** ** The two files *)

(** The contents of the database and of its description; [None] when there is no such file. *)
Module Files.
Record t := mk { database : option bytes; metadata : option bytes }.
End Files.
(** [data.decode("utf-8")], which has no surrogates. *)
Definition utf8_strict (b : bytes) : option ustr :=
  s ← utf8_decode b; if existsb (λ c, is_high c || is_low c) s then None else Some s.
(** The reading of a text file turns every line end into a newline. *)
Fixpoint universal_newlines (s : ustr) : ustr :=
  match s with
  | 13 :: ((10 :: _) as s') => universal_newlines s'
  | c :: s' => (if c =? 13 then 10 else c) :: universal_newlines s'
  | [] => []
  end.
(** [set(d) != keys] *)
Definition has_keys (keys : list string) (d : list (ustr * obj)) : bool :=
  forallb (λ kv, existsb (λ k, kv.1 == wide k) keys) d && forallb (λ k, is_some (get_key k d)) keys.
Definition is_str (v : option obj) (s : string) : bool := match v with Some (OStr u) => u == wide s | _ => false end.
Definition metadata_invalid : exn := MetbullUnavailable "metbull_snapshot_metadata_invalid".
Definition schema_invalid : exn := MetbullUnavailable "metbull_snapshot_schema_invalid".
Definition _validate_utc_timestamp (value : option obj) (nullable : bool) : result unit :=
  match value with
  | Some ONone => raise_when (negb nullable) metadata_invalid
  | Some (OStr s) =>
      try! t := need metadata_invalid (_UTC_TIMESTAMP s) in
      raise_when (negb (timestamp_exists t)) (ValueError "time data does not match format")
  | _ => Raise metadata_invalid
  end.

(** The description of the snapshot that [_load_metadata] returns: the objects that are used again. *)
Module Metadata.
Record t := mk { schema_version : obj; source_sha256 : ustr; row_count : Z }.
End Metadata.
(** [str(n)] of an object that equals the schema version: the integer or the float. *)
Definition str_version (v : obj) : string := match v with OFloat _ => "2.0" | _ => "2" end.
(** The dict of the rows of [snapshot_metadata]. *)
Fixpoint sql_dict_set (key value : Sqlite.value) (d : list (Sqlite.value * Sqlite.value)) :
    list (Sqlite.value * Sqlite.value) :=
  match d with
  | [] => [(key, value)]
  | (k, v) :: d' =>
      match k, key with
      | Sqlite.TEXT s, Sqlite.TEXT t => if s == t then (k, value) :: d' else (k, v) :: sql_dict_set key value d'
      | _, _ => (k, v) :: sql_dict_set key value d'
      end
  end.
Definition internal_dict (rows : list (Sqlite.value * Sqlite.value)) : list (Sqlite.value * Sqlite.value) :=
  fold_left (λ d kv, sql_dict_set kv.1 kv.2 d) rows [].
Definition internal_get (key : string) (d : list (Sqlite.value * Sqlite.value)) : option Sqlite.value :=
  snd <$> List.find (λ kv, Sqlite.is_text kv.1 key) d.
Definition internal_keys (d : list (Sqlite.value * Sqlite.value)) : bool :=
  forallb (λ kv, existsb (Sqlite.is_text kv.1) _INTERNAL_METADATA_KEYS) d &&
  forallb (λ k, is_some (internal_get k d)) _INTERNAL_METADATA_KEYS.
Definition internal_is (key : string) (value : ustr) (d : list (Sqlite.value * Sqlite.value)) : bool :=
  match internal_get key d with Some (Sqlite.TEXT s) => s == value | _ => false end.

(** The checks of [_load_metadata] on the parsed description. *)
Definition check_metadata (database_bytes : bytes) (raw : obj) : result Metadata.t :=
  match raw with
  | ODict metadata =>
      check! raise_when (negb (has_keys _METADATA_KEYS metadata)) metadata_invalid in
      check! match get_key "source" metadata with
             | Some (ODict source) =>
                 check! raise_when (negb (has_keys _SOURCE_KEYS source)) metadata_invalid in
                 raise_when (negb (is_str (get_key "name" source) "Meteoritical Bulletin Database" &&
                                   is_str (get_key "publisher" source) "Lunar and Planetary Institute" &&
                                   is_str (get_key "url" source) SOURCE_URL)) metadata_invalid
             | _ => Raise metadata_invalid
             end in
      let schema_version := default ONone (get_key "schema_version" metadata) in
      check! raise_when (negb (equals_int schema_version _SCHEMA_VERSION)) metadata_invalid in
      try! row_count := match get_key "row_count" metadata with
                        | Some (OInt n) => if n <? _MINIMUM_ROWS then Raise metadata_invalid else Ok n
                        | _ => Raise metadata_invalid
                        end in
      let sha256_of key := match get_key key metadata with
                           | Some (OStr s) => if _SHA256 s then Ok s else Raise metadata_invalid
                           | _ => Raise metadata_invalid
                           end in
      try! source_sha256 := sha256_of "source_sha256" in
      try! database_sha256 := sha256_of "database_sha256" in
      check! _validate_utc_timestamp (get_key "retrieved_at_utc" metadata) false in
      check! _validate_utc_timestamp (get_key "official_database_updated_utc" metadata) true in
      check! raise_when (wide (bytes_hex (sha256 database_bytes)) != database_sha256)
        (MetbullUnavailable "metbull_snapshot_hash_mismatch") in
      Ok (Metadata.mk schema_version source_sha256 row_count)
  | _ => Raise metadata_invalid
  end.
Definition _load_metadata (files : Files.t) : result (Metadata.t * bytes) :=
  match Files.metadata files, Files.database files with
  | Some text, Some database_bytes =>
      check! raise_when (64 * 1024 <? blen text) metadata_invalid in
      try! s := need UnicodeDecodeError (utf8_strict text) in
      try! raw := loads_text (universal_newlines s) in
      try! metadata := check_metadata database_bytes raw in
      Ok (metadata, database_bytes)
  | _, _ => Raise (MetbullUnavailable "metbull_snapshot_missing")
  end.
Definition _validate_database (metadata : Metadata.t) (db : Sqlite.database) : result unit :=
  check! raise_when (Sqlite.application_id db != _APPLICATION_ID) schema_invalid in
  check! raise_when (Sqlite.user_version db != _SCHEMA_VERSION) schema_invalid in
  check! raise_when (Sqlite.objects db != expected_objects) schema_invalid in
  check! raise_when (Sqlite.columns db != expected_columns) schema_invalid in
  check! raise_when (Sqlite.integrity_check db != ["ok"]) (MetbullUnavailable "metbull_snapshot_integrity_invalid") in
  try! internal_rows := need (DatabaseError "no such column") (Sqlite.snapshot_metadata db) in
  let internal := internal_dict internal_rows in
  check! raise_when (negb (internal_keys internal)) metadata_invalid in
  check! raise_when (negb (internal_is "schema_version" (wide (str_version (Metadata.schema_version metadata))) internal &&
                           internal_is "source_url" (wide SOURCE_URL) internal &&
                           internal_is "source_sha256" (Metadata.source_sha256 metadata) internal &&
                           internal_is "row_count" (wide (str_int (Metadata.row_count metadata))) internal))
    metadata_invalid in
  check! raise_when (len (Sqlite.records db) != Metadata.row_count metadata)
    (MetbullUnavailable "metbull_snapshot_row_count_invalid") in
  raise_when match Sqlite.find_code 87447 (Sqlite.records db) with Some r => negb (is_sentinel r) | None => true end
    (MetbullUnavailable "metbull_snapshot_sentinel_invalid").

(** [except (OSError, ValueError, json.JSONDecodeError, sqlite3.DatabaseError)] *)
Definition is_snapshot_error (e : exn) : bool :=
  match e with OSError _ | DatabaseError _ => true | _ => is_ValueError e end.

Module MeteoriticalBulletinSnapshot.
Section Snapshot.
Context (sqlite_open : bytes → result Sqlite.database).
(** [MeteoriticalBulletinSnapshot()] *)
Definition new (files : Files.t) : result unit :=
  except_as is_snapshot_error (MetbullUnavailable "metbull_snapshot_invalid")
    (try! (metadata, database_bytes) := _load_metadata files in
     try! db := sqlite_open database_bytes in
     _validate_database metadata db).
(** [lookup]: the files as they are when it is called. *)
Definition lookup (files : Files.t) (code : obj) : result MetbullRecord.t :=
  try! canonical_code := validated_code code in
  try! row := except_as (λ e, match e with DatabaseError _ => true | _ => false end)
                (MetbullUnavailable "metbull_snapshot_unavailable")
                (try! database_bytes := need (DatabaseError "unable to open database file") (Files.database files) in
                 try! db := sqlite_open database_bytes in
                 Ok (Sqlite.find_code canonical_code (Sqlite.records db))) in
  try! row := need (MetbullNotFound "metbull_record_not_found") row in
  record_of_row canonical_code row.
End Snapshot.
End MeteoriticalBulletinSnapshot.

(** ** The route *)

(** [MetbullRecordResponse.model_validate]: the constraints of the fields, and the validator of the URL. *)
Definition bounded (n : Z) (s : ustr) : bool := (1 <=? len s) && (len s <=? n).
Definition optional {A} (p : A → bool) (o : option A) : bool := match o with Some a => p a | None => true end.
Definition coordinate_pattern (s : ustr) : bool := is_some (_DECIMAL s) && (len s <=? 32).
Definition official_url_prefix : string := "https://www.lpi.usra.edu/meteor/metbull.cfm?code=".
Definition official_url_pattern (s : string) : bool :=
  startswith official_url_prefix s && _CANONICAL_CODE (wide (removeprefix official_url_prefix s)).
Definition MetbullRecordResponse (r : MetbullRecord.t) : bool :=
  (1 <=? MetbullRecord.code r) && (MetbullRecord.code r <=? 999999999) &&
  official_url_pattern (MetbullRecord.official_url r) &&
  bounded 128 (MetbullRecord.canonical_name r) && bounded 64 (MetbullRecord.record_status r) &&
  MetbullRecord.official_name r && bounded 128 (MetbullRecord.recommended_classification r) &&
  (MetbullRecord.fall_or_find r is_in [wide "Fall"; wide "Find"]) &&
  optional (λ y, (1 <=? y) && (y <=? 9999)) (MetbullRecord.year_found r) &&
  optional (bounded 128) (MetbullRecord.country r) &&
  optional coordinate_pattern (MetbullRecord.latitude r) && optional coordinate_pattern (MetbullRecord.longitude r) &&
  (MetbullRecord.official_url r == METBULL_OFFICIAL_URL (MetbullRecord.code r)).
(** [int(code)] of a text that the pattern lets pass. *)
Definition int_of_code (code : ustr) : Z := (take_digits 0 0 code).1.1.
(** [metbull_record] with the parameters of the query; [lookup] is there when a snapshot is open. *)
Definition metbull_record (enabled : bool) (lookup : option (obj → result MetbullRecord.t))
    (query_params : list (ustr * ustr)) (code : ustr) : result MetbullRecord.t :=
  check! raise_when (negb (_CANONICAL_CODE code)) (HTTPException 422 "invalid request") in
  check! raise_when (query_params != [(wide "code", code)]) (HTTPException 422 "invalid request") in
  let unavailable := HTTPException 503 "meteorite lookup unavailable" in
  match enabled, lookup with
  | true, Some lookup =>
      match lookup (OInt (int_of_code code)) with
      | Ok record => if MetbullRecordResponse record then Ok record else Raise unavailable
      | Raise (MetbullNotFound _) => Raise (HTTPException 404 "meteorite record not found")
      | Raise (MetbullNotOfficial _) => Raise (HTTPException 409 "meteorite name is not official")
      | Raise (MetbullUnavailable _) => Raise unavailable
      | Raise e => Raise (if is_ValueError e then unavailable else e)
      end
  | _, _ => Raise unavailable
  end.
