(* ===== verification/MetbullUpdate.v ===== *)
(** * The update of the catalogue

    [scripts/update_metbull_snapshot.py]: the CSV file of the Meteoritical Bulletin is downloaded, checked row
    by row and written as the database and the description that [Metbull] reads.

    [csv.reader] of the standard library is modelled after its state machine, with the strict dialect.
    SQLite is a parameter, as in [Metbull]: [sqlite_file] gives the contents of the file of a
    database.  The HTTP exchange and [parsedate_to_datetime] are parameters.  The files are replaced
    one after the other, so what a reader can see meanwhile is a list of states. *)
From S2P Require Import Prelude PyStr PyObject Digits JsonFacts Json JsonText Sha256 Receipt IsoTime Metbull.

Open Scope string_scope.
Open Scope Z_scope.

Definition EXPECTED_HEADER : list string := [
  "Code"; "Name"; "Abbrev"; "Status"; "Fall"; "Year"; "Place"; "Type"; "Mass"; "MetBull"; "Antarctic"; "Lat"; "Long";
  "Comment"].
Definition MAX_DOWNLOAD_BYTES : Z := 32 * 1024 * 1024.
Definition MINIMUM_ROW_COUNT : Z := 80000.
Definition APPLICATION_ID : Z := 1296192844.
Definition SCHEMA_VERSION : Z := 2.
Definition ALLOWED_STATUSES : list string := [
  "Official"; "Relict"; "Provisional"; "Pseudo"; "Crater"; "Doubtful"; "Discredited"; "Undocumented"; "Artifact"].
Definition FALL_MARKERS : list string := [""; "Y"; "Yc"; "Yp"; "Np"; "Nd"].
Definition FALL_VALUES : list string := ["Y"; "Yc"; "Yp"].
(** [^[0-9]{1,4}$] *)
Definition STRICT_YEAR (s : ustr) : bool := (1 <=? len s) && (len s <=? 4) && forallb is_digit_code s.
Definition COUNTRY_NAMES : list string := [
  "Afghanistan"; "Algeria"; "Angola"; "Argentina"; "Armenia"; "Australia"; "Austria"; "Azerbaijan";
  "Bangladesh"; "Belarus"; "Belgium"; "Bolivia"; "Bosnia and Herzegovina"; "Botswana"; "Brazil"; "Bulgaria";
  "Burkina Faso"; "Cambodia"; "Cameroon"; "Canada"; "Central African Republic"; "Chad"; "Chile"; "China";
  "Colombia"; "Costa Rica"; "Croatia"; "Cuba"; "Czech Republic"; "Denmark"; "Ecuador"; "Egypt"; "Estonia";
  "Ethiopia"; "Finland"; "France"; "Germany"; "Ghana"; "Greece"; "Greenland"; "Guatemala"; "Honduras";
  "Hungary"; "India"; "Indonesia"; "Iran"; "Iraq"; "Ireland"; "Isle of Man"; "Israel"; "Italy"; "Jamaica";
  "Japan"; "Jordan"; "Kazakhstan"; "Kenya"; "Laos"; "Latvia"; "Lebanon"; "Lesotho"; "Libya"; "Lithuania";
  "Madagascar"; "Malawi"; "Mali"; "Mauritania"; "Mauritius"; "Mexico"; "Mongolia"; "Morocco"; "Namibia";
  "Netherlands"; "New Zealand"; "Nicaragua"; "Niger"; "Nigeria"; "North Korea"; "Norway"; "Oman"; "Pakistan";
  "Papua New Guinea"; "Paraguay"; "Peru"; "Philippines"; "Poland"; "Portugal"; "Qatar"; "Romania"; "Russia";
  "Rwanda"; "Saudi Arabia"; "Slovakia"; "Slovenia"; "Somalia"; "South Africa"; "South Korea"; "South Sudan";
  "Spain"; "Sri Lanka"; "Sudan"; "Sweden"; "Switzerland"; "Syria"; "Tajikistan"; "Tanzania"; "Thailand";
  "Tunisia"; "Turkey"; "Turkmenistan"; "Uganda"; "Ukraine"; "United Arab Emirates"; "United Kingdom";
  "United States"; "Uruguay"; "Uzbekistan"; "Venezuela"; "Vietnam"; "Western Sahara"; "Yemen"; "Zambia";
  "Zimbabwe"].
Definition COUNTRY_ALIASES : list (string * string) := [
  ("Burma", "Myanmar"); ("Congo - Dem. Rep.", "Democratic Republic of the Congo");
  ("Ivory Coast", "Cote d'Ivoire"); ("Swaziland", "Eswatini"); ("USA", "United States")].
(** [s in names] *)
Definition among (names : list string) (s : ustr) : bool := existsb (λ n, s == wide n) names.

(** ** [csv.reader] *)

Module Csv.
Inductive state := START_RECORD | START_FIELD | IN_FIELD | IN_QUOTED_FIELD | QUOTE_IN_QUOTED_FIELD | EAT_CRNL.
Record parser := mk { state_of : state; field : ustr; fields : list ustr }.
Definition start : parser := mk START_RECORD [] [].
Definition save_field (p : parser) (next : state) : parser := mk next [] (fields p ++ [field p])%list.
Definition field_limit : Z := 131072.
Definition add_char (p : parser) (c : Z) (next : state) : result parser :=
  check! raise_when (field_limit <=? len (field p)) CsvError in Ok (mk next (field p ++ [c])%list (fields p)).
Definition is_line_end (c : Z) : bool := (c =? 10) || (c =? 13).
(** [parse_process_char] in the state at the start of a field. *)
Definition start_field (p : parser) (c : option Z) : result parser :=
  match c with
  | None => Ok (save_field p START_RECORD)
  | Some c =>
      if is_line_end c then Ok (save_field p EAT_CRNL)
      else if c =? 34 then Ok (mk IN_QUOTED_FIELD (field p) (fields p))
      else if c =? 44 then Ok (save_field p START_FIELD)
      else add_char p c IN_FIELD
  end.
(** [parse_process_char]; [None] is the end of a line. *)
Definition process (p : parser) (c : option Z) : result parser :=
  match state_of p, c with
  | START_RECORD, None => Ok p
  | START_RECORD, Some d => if is_line_end d then Ok (mk EAT_CRNL (field p) (fields p)) else start_field p c
  | START_FIELD, _ => start_field p c
  | IN_FIELD, None => Ok (save_field p START_RECORD)
  | IN_FIELD, Some d =>
      if is_line_end d then Ok (save_field p EAT_CRNL)
      else if d =? 44 then Ok (save_field p START_FIELD)
      else add_char p d IN_FIELD
  | IN_QUOTED_FIELD, None => Ok p
  | IN_QUOTED_FIELD, Some d =>
      if d =? 34 then Ok (mk QUOTE_IN_QUOTED_FIELD (field p) (fields p)) else add_char p d IN_QUOTED_FIELD
  | QUOTE_IN_QUOTED_FIELD, None => Ok (save_field p START_RECORD)
  | QUOTE_IN_QUOTED_FIELD, Some d =>
      if d =? 34 then add_char p d IN_QUOTED_FIELD
      else if d =? 44 then Ok (save_field p START_FIELD)
      else if is_line_end d then Ok (save_field p EAT_CRNL)
      else Raise CsvError
  | EAT_CRNL, None => Ok (mk START_RECORD (field p) (fields p))
  | EAT_CRNL, Some d => if is_line_end d then Ok p else Raise CsvError
  end.
Fixpoint process_line (p : parser) (line : ustr) : result parser :=
  match line with
  | [] => process p None
  | c :: line' => try! p := process p (Some c) in process_line p line'
  end.
(** The lines of [io.StringIO(text, newline="")], with their ends. *)
Fixpoint lines_go (line : ustr) (s : ustr) : list ustr :=
  match s with
  | [] => match line with [] => [] | _ => [line] end
  | c :: s' =>
      if c =? 10 then (line ++ [10])%list :: lines_go [] s'
      else if c =? 13 then
        match s' with
        | d :: s'' => if d =? 10 then (line ++ [13; 10])%list :: lines_go [] s'' else (line ++ [13])%list :: lines_go [] s'
        | [] => [line ++ [13]]%list
        end
      else lines_go (line ++ [c])%list s'
  end.
Definition lines (s : ustr) : list ustr := lines_go [] s.
Definition is_start (s : state) : bool := match s with START_RECORD => true | _ => false end.
Definition is_quoted (s : state) : bool := match s with IN_QUOTED_FIELD => true | _ => false end.
(** The records that the reader yields, up to the error that ends it; each with [line_num]. *)
Fixpoint records (p : parser) (line_num : Z) (lines : list ustr) : list (Z * result (list ustr)) :=
  match lines with
  | [] => if negb (bool_decide (field p = [])) || is_quoted (state_of p) then [(line_num, Raise CsvError)] else []
  | line :: rest =>
      match process_line p line with
      | Raise e => [(line_num + 1, Raise e)]
      | Ok p' =>
          if is_start (state_of p') then (line_num + 1, Ok (fields p')) :: records start (line_num + 1) rest
          else records p' (line_num + 1) rest
      end
  end.
Definition reader (text : ustr) : list (Z * result (list ustr)) := records start 0 (lines text).
End Csv.

(** ** Rows *)

Definition row_error (row_number : Z) (what : string) : exn :=
  SnapshotUpdateError ("CSV row " ++ str_int row_number ++ what).
(** A record as the code keeps it. *)
Module Entry.
Record t := mk {
  code : Z; name : ustr; status : ustr; classification : ustr; fall_or_find : string; year_found : option Z;
  country : option ustr; latitude : option ustr; longitude : option ustr }.
End Entry.
Definition _bounded_text (value : ustr) (maximum row_number : Z) (field : string) : result unit :=
  raise_when (negb ((1 <=? len value) && (len value <=? maximum)) || existsb (λ c, c <? 32) value)
    (row_error row_number (" has an invalid " ++ field)).
(** [int(value)] of digits. *)
Definition int_of_ascii (value : ustr) : Z := (take_digits 0 0 value).1.1.
Definition _year_or_none (value : ustr) : option Z :=
  if negb (STRICT_YEAR value) then None else
  let year := int_of_ascii value in
  if (1 <=? year) && (year <=? 9999) then Some year else None.
(** [place.rpartition(", ")]: what is behind the last comma and space, if there is one. *)
Fixpoint after_last_comma (s : ustr) : option ustr :=
  match s with
  | [] => None
  | c :: s' =>
      match after_last_comma s' with
      | Some suffix => Some suffix
      | None => if c =? 44 then expect 32 s' else None
      end
  end.
Definition _country_or_none (place : ustr) : option ustr :=
  let candidate := default place (after_last_comma place) in
  if among COUNTRY_NAMES candidate then Some candidate
  else (λ a, wide a.2) <$> List.find (λ a, candidate == wide a.1) COUNTRY_ALIASES.
Definition _coordinate (value : ustr) (minimum maximum row_number : Z) : result (option ustr) :=
  let invalid := row_error row_number " has invalid coordinates" in
  check! raise_when (32 <? len value) invalid in
  try! parsed := need invalid (_DECIMAL value) in
  Ok (if decimal_between minimum maximum parsed then Some value else None).
Definition _coordinates_or_none (latitude longitude : ustr) (row_number : Z) : result (option ustr * option ustr) :=
  match latitude, longitude with
  | [], [] => Ok (None, None)
  | [], _ | _, [] => Raise (row_error row_number " has incomplete coordinates")
  | _, _ =>
      try! parsed_latitude := _coordinate latitude (-90) 90 row_number in
      try! parsed_longitude := _coordinate longitude (-180) 180 row_number in
      match parsed_latitude, parsed_longitude with
      | Some lat, Some long => Ok (Some lat, Some long)
      | _, _ => Ok (None, None)
      end
  end.
(** A column of a row of the fourteen. *)
Definition cell (row : list ustr) (i : nat) : ustr := default [] (row !! i).
Definition _validated_row (row : list ustr) (row_number : Z) : result Entry.t :=
  let raw_code := cell row 0 in
  let name := cell row 1 in
  let status := cell row 3 in
  let fall := cell row 4 in
  let classification := cell row 7 in
  check! raise_when (negb (_CANONICAL_CODE raw_code)) (row_error row_number " has a noncanonical code") in
  let code := int_of_ascii raw_code in
  check! _bounded_text name 128 row_number "Name" in
  check! _bounded_text classification 128 row_number "Type" in
  check! raise_when (negb (among ALLOWED_STATUSES status)) (row_error row_number " has an unknown Status") in
  check! raise_when (negb (among FALL_MARKERS fall)) (row_error row_number " has an unknown Fall marker") in
  let year_found := _year_or_none (cell row 5) in
  try! (latitude, longitude) := _coordinates_or_none (cell row 11) (cell row 12) row_number in
  Ok (Entry.mk code name status classification (if among FALL_VALUES fall then "Fall" else "Find") year_found
        (_country_or_none (cell row 6)) latitude longitude).

(** The loop over the records of the file: the entries so far, in order, and the sentinel. *)
Fixpoint read_rows (stream : list (Z * result (list ustr))) (row_number : Z) (records : list Entry.t)
    (sentinel : option Entry.t) : result (list Entry.t * option Entry.t) :=
  match stream with
  | [] => Ok (records, sentinel)
  | (line_num, Raise _) :: _ => Raise (SnapshotUpdateError ("CSV parsing failed at row " ++ str_int line_num))
  | (_, Ok row) :: rest =>
      check! raise_when (len row != len EXPECTED_HEADER) (row_error row_number " does not contain 14 columns") in
      try! record := _validated_row row row_number in
      let code := Entry.code record in
      check! raise_when (code is_in map Entry.code records)
        (row_error row_number (" repeats canonical code " ++ str_int code)) in
      read_rows rest (row_number + 1) (records ++ [record])%list (if code =? 87447 then Some record else sentinel)
  end.
Definition expected_sentinel : Entry.t :=
  Entry.mk 87447 (wide "Northwest Africa 18652") (wide "Relict") (wide "Relict iron") "Find" (Some 2018)
    (Some (wide "Western Sahara")) None None.
#[global] Instance Entry_eq_dec : EqDecision Entry.t.
Proof. solve_decision. Defined.
(** [records.sort(key=...)] *)
Fixpoint insert_entry (e : Entry.t) (l : list Entry.t) : list Entry.t :=
  match l with
  | [] => [e]
  | e' :: l' => if Entry.code e <=? Entry.code e' then e :: l else e' :: insert_entry e l'
  end.
Definition sort_entries : list Entry.t → list Entry.t := foldr insert_entry [].
(** [csv_bytes.decode("utf-8-sig")] *)
Definition utf8_sig (b : bytes) : option ustr :=
  utf8_strict (if has_prefix [xef; xbb; xbf] b then drop 3 b else b).
Definition _validated_rows (csv_bytes : bytes) (minimum_row_count : Z) : result (list Entry.t) :=
  check! raise_when (negb ((1 <=? blen csv_bytes) && (blen csv_bytes <=? MAX_DOWNLOAD_BYTES)))
    (SnapshotUpdateError "CSV size is outside bounds") in
  try! text := need (SnapshotUpdateError "CSV is not valid UTF-8") (utf8_sig csv_bytes) in
  check! raise_when (existsb (λ c, c =? 0) text) (SnapshotUpdateError "CSV contains a NUL byte") in
  match Csv.reader text with
  | (_, Ok header) :: stream =>
      check! raise_when (header != map wide EXPECTED_HEADER)
        (SnapshotUpdateError "CSV header does not match the official 14-column schema") in
      try! (records, sentinel) := read_rows stream 2 [] None in
      check! raise_when (len records <? minimum_row_count)
        (SnapshotUpdateError ("CSV contains fewer than " ++ str_int minimum_row_count ++ " records")) in
      check! raise_when (sentinel != Some expected_sentinel) (SnapshotUpdateError "CSV sentinel 87447 is missing or invalid") in
      Ok (sort_entries records)
  | _ => Raise (SnapshotUpdateError "CSV header is missing")
  end.

(** ** The database *)

Definition sql_text (o : option ustr) : Sqlite.value := match o with Some s => Sqlite.TEXT s | None => Sqlite.NULL end.
Definition bind_entry (e : Entry.t) : Sqlite.row := {|
  Sqlite.code := Entry.code e;
  Sqlite.canonical_name := Sqlite.TEXT (Entry.name e);
  Sqlite.record_status := Sqlite.TEXT (Entry.status e);
  Sqlite.recommended_classification := Sqlite.TEXT (Entry.classification e);
  Sqlite.fall_or_find := Sqlite.TEXT (wide (Entry.fall_or_find e));
  Sqlite.year_found := match Entry.year_found e with Some y => Sqlite.INTEGER y | None => Sqlite.NULL end;
  Sqlite.country := sql_text (Entry.country e);
  Sqlite.latitude := sql_text (Entry.latitude e);
  Sqlite.longitude := sql_text (Entry.longitude e) |}.
(** The CHECK constraints of [records]; a condition on a NULL passes. *)
Definition length_between (n : Z) (v : Sqlite.value) : bool :=
  match v with Sqlite.TEXT s => (1 <=? len s) && (len s <=? n) | _ => true end.
Definition row_checks (r : Sqlite.row) : bool :=
  (1 <=? Sqlite.code r) && (Sqlite.code r <=? 999999999) &&
  length_between 128 (Sqlite.canonical_name r) &&
  existsb (Sqlite.is_text (Sqlite.record_status r)) ALLOWED_STATUSES &&
  length_between 128 (Sqlite.recommended_classification r) &&
  existsb (Sqlite.is_text (Sqlite.fall_or_find r)) ["Fall"; "Find"] &&
  match Sqlite.year_found r with Sqlite.INTEGER y => (1 <=? y) && (y <=? 9999) | _ => true end &&
  length_between 64 (Sqlite.country r) &&
  Bool.eqb (Sqlite.is_null (Sqlite.latitude r)) (Sqlite.is_null (Sqlite.longitude r)).
(** The INSERT statements, one row after the other. *)
Fixpoint insert_rows (rows inserted : list Sqlite.row) : result (list Sqlite.row) :=
  match rows with
  | [] => Ok inserted
  | r :: rest =>
      check! raise_when (negb (row_checks r) || (Sqlite.code r is_in map Sqlite.code inserted)) IntegrityError in
      insert_rows rest (inserted ++ [r])%list
  end.
(** [_write_database]: the tables and the index it creates, and the two pragmas. *)
Definition _write_database (rows : list Entry.t) (metadata : list (string * ustr)) : result Sqlite.database :=
  try! records := insert_rows (map bind_entry rows) [] in
  Ok {| Sqlite.application_id := APPLICATION_ID;
        Sqlite.user_version := SCHEMA_VERSION;
        Sqlite.objects := [("records", "table"); ("records_country_idx", "index"); ("snapshot_metadata", "table")];
        Sqlite.columns := [
          ("code", "INTEGER", 0, 1); ("canonical_name", "TEXT", 1, 0); ("record_status", "TEXT", 1, 0);
          ("recommended_classification", "TEXT", 1, 0); ("fall_or_find", "TEXT", 1, 0); ("year_found", "INTEGER", 0, 0);
          ("country", "TEXT", 0, 0); ("latitude", "TEXT", 0, 0); ("longitude", "TEXT", 0, 0)];
        Sqlite.integrity_check := ["ok"];
        Sqlite.snapshot_metadata := Some (map (λ kv, (Sqlite.TEXT (wide kv.1), Sqlite.TEXT kv.2)) (sort_fields metadata));
        Sqlite.records := records |}.
Definition _validate_built_database (db : Sqlite.database) (row_count : Z) : result unit :=
  check! raise_when (Sqlite.integrity_check db != ["ok"])
    (SnapshotUpdateError "generated snapshot failed SQLite integrity validation") in
  check! raise_when (len (Sqlite.records db) != row_count) (SnapshotUpdateError "generated snapshot row count is invalid") in
  raise_when match Sqlite.find_code 87447 (Sqlite.records db) with Some r => negb (is_sentinel r) | None => true end
    (SnapshotUpdateError "generated snapshot sentinel is invalid").

(** ** The description *)

(** [value.astimezone(UTC).replace(microsecond=0).strftime("%Y-%m-%dT%H:%M:%SZ")]; the year is not padded. *)
Definition strftime (us : Z) : string :=
  let s := us / 1000000 in
  let '(y, m, d) := civil_of_days (s / 86400) in
  let t := s mod 86400 in
  str_int y ++ "-" ++ pad 2 m ++ "-" ++ pad 2 d ++ "T" ++
  pad 2 (t / 3600) ++ ":" ++ pad 2 (t / 60 mod 60) ++ ":" ++ pad 2 (t mod 60) ++ "Z".
Definition _utc_timestamp (value : datetime) : result string :=
  check! raise_when (is_naive value) (SnapshotUpdateError "retrieval timestamp must be timezone-aware") in
  Ok (strftime (dt_us value)).
Definition _validate_optional_utc_timestamp (value : option string) : result unit :=
  match value with
  | None => Ok tt
  | Some value =>
      let invalid := SnapshotUpdateError "official database update timestamp is invalid" in
      try! t := need invalid (_UTC_TIMESTAMP (wide value)) in
      raise_when (negb (timestamp_exists t)) invalid
  end.
(** [json.dump(metadata, output, indent=2, sort_keys=True)] *)
Definition newline : string := String (chr 10) EmptyString.
Definition indentation (level : nat) : string := String.concat EmptyString (repeat "  " level).
Definition bracketed (opening closing : string) (level : nat) (items : list string) : string :=
  match items with
  | [] => opening ++ closing
  | _ => opening ++ newline ++ indentation (S level) ++ join ("," ++ newline ++ indentation (S level)) items ++
         newline ++ indentation level ++ closing
  end.
Fixpoint dumps_indent (level : nat) (v : json) : string :=
  match v with
  | JList l => bracketed "[" "]" level (map (dumps_indent (S level)) l)
  | JObj fs =>
      bracketed "{" "}" level (map (λ kv, quote true kv.1 ++ ": " ++ kv.2)
        (sort_fields (map (λ kv, (kv.1, dumps_indent (S level) kv.2)) fs)))
  | _ => dumps_compact true v
  end.
(** What [_write_metadata_temp] writes. *)
Definition metadata_text (metadata : list (string * json)) : string := dumps_indent 0 (JObj metadata) ++ newline.

(** ** The snapshot *)

Module Snapshot.
Record t := mk { database : bytes; metadata : bytes; description : list (string * json) }.
End Snapshot.
(** The answer to the request of the CSV file. *)
Module HttpResponse.
Record t := mk {
  status : Z; geturl : string; content_type : string; content_encoding : option string;
  content_length : option string; last_modified : option string; body : bytes }.
End HttpResponse.
Section Update.
Context (sqlite_file : Sqlite.database → bytes).

(** [build_snapshot]; [destination_ok] says that the two files go to one directory that exists. *)
Definition build_snapshot (csv_bytes : bytes) (destination_ok : bool) (retrieved_at : datetime)
    (official_database_updated_utc : option string) (minimum_row_count : Z) : result Snapshot.t :=
  check! raise_when (negb destination_ok) (SnapshotUpdateError "snapshot destination directory is missing or inconsistent") in
  try! rows := _validated_rows csv_bytes minimum_row_count in
  try! retrieved_at_utc := _utc_timestamp retrieved_at in
  check! _validate_optional_utc_timestamp official_database_updated_utc in
  let source_sha256 := bytes_hex (sha256 csv_bytes) in
  let internal_metadata := [
    ("schema_version", wide (str_int SCHEMA_VERSION)); ("source_url", wide SOURCE_URL);
    ("source_sha256", wide source_sha256); ("row_count", wide (str_int (len rows)))] in
  try! db := _write_database rows internal_metadata in
  check! _validate_built_database db (len rows) in
  let database_bytes := sqlite_file db in
  let metadata := [
    ("schema_version", JInt SCHEMA_VERSION);
    ("source", JObj [("name", JStr "Meteoritical Bulletin Database"); ("publisher", JStr "Lunar and Planetary Institute");
                     ("url", JStr SOURCE_URL)]);
    ("retrieved_at_utc", JStr retrieved_at_utc);
    ("source_sha256", JStr source_sha256);
    ("database_sha256", JStr (bytes_hex (sha256 database_bytes)));
    ("row_count", JInt (len rows));
    ("official_database_updated_utc", match official_database_updated_utc with Some s => JStr s | None => JNull end)] in
  Ok (Snapshot.mk database_bytes (encode (metadata_text metadata)) metadata).
(** The files while the snapshot is put into their place: before, between the two replacements, and after. *)
Definition replacements (files : Files.t) (built : Snapshot.t) : list Files.t := [
  files;
  Files.mk (Some (Snapshot.database built)) (Files.metadata files);
  Files.mk (Some (Snapshot.database built)) (Some (Snapshot.metadata built))].

(** ** The download *)

Definition _http_date (parsedate_to_datetime : string → result datetime) (value : option string) : result (option string) :=
  match value with
  | None => Ok None
  | Some value =>
      try! parsed := except_as (λ e, match e with TypeError _ => true | _ => is_ValueError e end)
                       (SnapshotUpdateError "invalid Last-Modified header") (parsedate_to_datetime value) in
      try! s := _utc_timestamp (utc (dt_us parsed)) in Ok (Some s)
  end.
(** [download_official_csv] on the answer to its request, which may be an error of the exchange. *)
Definition download_official_csv (parsedate_to_datetime : string → result datetime) (answer : result HttpResponse.t) :
    result (bytes * option string) :=
  except_as (λ e, match e with OSError _ => true | _ => false end) (SnapshotUpdateError "official CSV download failed")
    (try! response := answer in
     check! raise_when ((HttpResponse.status response != 200) || (HttpResponse.geturl response != SOURCE_URL))
       (SnapshotUpdateError "official CSV returned an unexpected response") in
     check! raise_when (lower (HttpResponse.content_type response) != "text/csv")
       (SnapshotUpdateError "official CSV returned an unexpected content type") in
     check! raise_when match HttpResponse.content_encoding response with
                       | Some e => lower (strip is_unicode_space e) != "identity"
                       | None => false
                       end (SnapshotUpdateError "encoded responses are forbidden") in
     try! declared := match HttpResponse.content_length response with
                      | None => Ok None
                      | Some text =>
                          try! n := need (SnapshotUpdateError "invalid Content-Length") (parse_int text) in
                          check! raise_when (negb ((1 <=? n) && (n <=? MAX_DOWNLOAD_BYTES)))
                            (SnapshotUpdateError "official CSV exceeds the download limit") in
                          Ok (Some n)
                      end in
     let body := take (Z.to_nat (MAX_DOWNLOAD_BYTES + 1)) (HttpResponse.body response) in
     check! raise_when (bool_decide (body = []) || (MAX_DOWNLOAD_BYTES <? blen body))
       (SnapshotUpdateError "official CSV is empty or exceeds the download limit") in
     check! raise_when match declared with Some n => blen body != n | None => false end
       (SnapshotUpdateError "official CSV length does not match Content-Length") in
     try! updated := _http_date parsedate_to_datetime (HttpResponse.last_modified response) in
     Ok (body, updated)).
(** [main] *)
Definition main (parsedate_to_datetime : string → result datetime) (answer : result HttpResponse.t) (now : datetime) :
    result Snapshot.t :=
  try! (csv_bytes, official_updated) := download_official_csv parsedate_to_datetime answer in
  build_snapshot csv_bytes true now official_updated MINIMUM_ROW_COUNT.
End Update.
