(* ===== verification/MetbullFacts.v ===== *)
(** * What the catalogue promises

    A record that is served has the form that the response requires, whatever the files hold; what an update
    writes is accepted by the reader, and every lookup answers what the CSV file says; a reader that
    comes between the replacements of the two files refuses them. *)
From S2P Require Import Prelude PyStr Uuid Digits PyObject JsonFacts Json JsonText Sha256 Receipt IsoTime BitcoinRpc Metbull MetbullUpdate.
From Stdlib Require Import Numbers.DecimalString.

Open Scope string_scope.
Open Scope Z_scope.

(** ** Codes *)

Lemma forallb_digits s : forallb is_digit_code (wide s) = str_all is_digit s.
Proof. induction s as [|c s IH]; [done|]. rewrite wide_cons. cbn [forallb str_all]. by rewrite IH. Qed.
Lemma len_wide s : len (wide s) = strlen s.
Proof. unfold len, strlen. by rewrite length_wide. Qed.
Lemma canonical_code n : _CANONICAL_CODE (wide (str_int n)) = (1 <=? n) && (n <=? 999999999).
Proof.
  destruct (Z.lt_trichotomy n 0) as [Hn|[->|Hn]]; [|done|].
  - destruct n as [|p|p]; [lia|lia|].
    change (str_int (Z.neg p)) with (String "-" (NilZero.string_of_uint (Pos.to_uint p))).
    done.
  - destruct (str_int_short n Hn) as (c & s & -> & Hc & Hs). rewrite wide_cons. unfold _CANONICAL_CODE.
    rewrite forallb_digits, len_wide. unfold in_range in Hc. apply andb_prop in Hc as [-> ->]. cbn [andb].
    assert (1 <=? n = true) as -> by lia. rewrite <- Hs. unfold fullmatch_class, strlen.
    assert ((Z.of_nat (String.length s) <=? 8) = (String.length s <=? 8)%nat) as ->; [|done].
    destruct (Nat.leb_spec (String.length s) 8); lia.
Qed.
Lemma take_digits_range s : ∀ acc k, forallb is_digit_code s = true → 0 <= acc →
  let v := (take_digits acc k s).1.1 in
  acc * 10 ^ len s <= v < (acc + 1) * 10 ^ len s.
Proof.
  unfold len. induction s as [|c s IH]; intros acc k H Ha; cbv zeta; [simpl; lia|].
  cbn [forallb] in H. apply andb_prop in H as [Hc Hs].
  assert (Hd : digit_of c = Some (c - 48)) by (unfold digit_of, is_digit_code in *; by rewrite Hc).
  cbn [take_digits]. rewrite Hd. unfold is_digit_code in Hc. specialize (IH (10 * acc + (c - 48)) (k + 1) Hs ltac:(lia)).
  cbv zeta in IH. cbn [List.length]. rewrite Nat2Z.inj_succ, Z.pow_succ_r by lia. nia.
Qed.
Lemma int_of_ascii_range s : _CANONICAL_CODE s = true → 1 <= int_of_ascii s <= 999999999.
Proof.
  destruct s as [|c s]; [done|]. unfold _CANONICAL_CODE. rewrite !andb_true_iff. intros [[[H1 H2] Hl] Hs].
  unfold int_of_ascii. cbn [take_digits].
  assert (digit_of c = Some (c - 48)) as -> by (unfold digit_of; by assert ((48 <=? c) && (c <=? 57) = true) as -> by lia).
  pose proof (take_digits_range s (10 * 0 + (c - 48)) (0 + 1) Hs ltac:(lia)) as H. cbv zeta in H.
  assert (1 <= 10 ^ len s <= 10 ^ 8).
  { split; [pose proof (Z.pow_pos_nonneg 10 (len s)); unfold len in *; lia|]. apply Z.pow_le_mono_r; unfold len in *; lia. }
  change (10 ^ 8) with 100000000 in *. nia.
Qed.

(** ** What is served *)

Lemma bounded_text_Ok v n s : Metbull._bounded_text v n = Ok s → v = Sqlite.TEXT s ∧ bounded n s = true.
Proof.
  destruct v; try done. cbn [Metbull._bounded_text]. rewrite result_bind_Ok. intros (u & H%raise_when_Ok & [= ->]).
  split; [done|]. unfold bounded. destruct ((1 <=? len s) && (len s <=? n)); [done|done].
Qed.
Lemma coordinate_Ok v lo hi s : Metbull._coordinate v lo hi = Ok s → s = v ∧ coordinate_pattern v = true.
Proof.
  unfold Metbull._coordinate, coordinate_pattern. rewrite result_bind_Ok. intros (u & H%raise_when_Ok & E).
  rewrite result_bind_Ok in E. destruct E as (d & Hd%need_Ok & E). rewrite result_bind_Ok in E.
  destruct E as (u' & _ & [= <-]). rewrite Hd. split; [done|]. simpl. lia.
Qed.
Lemma bounded_weaken n m s : n <= m → bounded n s = true → bounded m s = true.
Proof. unfold bounded. lia. Qed.

Lemma official_url_ok n : 1 <= n <= 999999999 → official_url_pattern (METBULL_OFFICIAL_URL n) = true.
Proof.
  intros Hn. unfold official_url_pattern, METBULL_OFFICIAL_URL. change "https://www.lpi.usra.edu/meteor/metbull.cfm?code=" with official_url_prefix.
  rewrite startswith_app, removeprefix_app, canonical_code. lia.
Qed.
Lemma record_of_row_valid n r record : 1 <= n <= 999999999 → record_of_row n r = Ok record → MetbullRecordResponse record = true.
Proof.
  intros Hn. unfold record_of_row. destruct (Sqlite.record_status r) as [| | |status|]; try done.
  intros H. apply result_bind_Ok in H as (u & Hs%raise_when_Ok & H). apply negb_false_iff in Hs.
  apply result_bind_Ok in H as (name & Hname & H). apply bounded_text_Ok in Hname as [_ Hname].
  apply result_bind_Ok in H as (class & Hclass & H). apply bounded_text_Ok in Hclass as [_ Hclass].
  apply result_bind_Ok in H as (fall & Hfall & H).
  assert (fall is_in [wide "Fall"; wide "Find"] = true) as Hf.
  { destruct (Sqlite.fall_or_find r) as [| | |s|]; try done. destruct (s is_in _) eqn:E; [by injection Hfall as <-|done]. }
  apply result_bind_Ok in H as (year & Hyear & H).
  assert (optional (λ y, (1 <=? y) && (y <=? 9999)) year = true) as Hy.
  { unfold _validated_year in Hyear. destruct (Sqlite.year_found r); try done; [by injection Hyear as <-|].
    apply result_bind_Ok in Hyear as (u' & Hb%raise_when_Ok & [= <-]). simpl. by apply negb_false_iff in Hb. }
  apply result_bind_Ok in H as ([lat long] & Hcoord & H).
  assert (optional coordinate_pattern lat && optional coordinate_pattern long = true) as Hc.
  { unfold _validated_coordinates in Hcoord. destruct (Sqlite.latitude r), (Sqlite.longitude r); try done; [by injection Hcoord as <- <-|].
    apply result_bind_Ok in Hcoord as (x & [-> Hx]%coordinate_Ok & Hcoord).
    apply result_bind_Ok in Hcoord as (y & [-> Hy']%coordinate_Ok & [= <- <-]). simpl. by rewrite Hx, Hy'. }
  apply result_bind_Ok in H as (country & Hcountry & H). injection H as <-.
  assert (optional (bounded 128) country = true) as Hco.
  { unfold _validated_country in Hcountry. destruct (Sqlite.country r) as [| | |s|]; try done; [by injection Hcountry as <-|].
    apply result_bind_Ok in Hcountry as (x & [_ Hx]%bounded_text_Ok & [= <-]). by eapply bounded_weaken, Hx. }
  apply andb_prop in Hc as [Hlat Hlong].
  unfold MetbullRecordResponse.
  cbn [MetbullRecord.code MetbullRecord.official_url MetbullRecord.canonical_name MetbullRecord.record_status
    MetbullRecord.official_name MetbullRecord.recommended_classification MetbullRecord.fall_or_find MetbullRecord.year_found
    MetbullRecord.country MetbullRecord.latitude MetbullRecord.longitude].
  rewrite official_url_ok by done. rewrite Hname, Hclass, Hf, Hy, Hco, Hlat, Hlong.
  assert (bounded 64 status = true) as ->.
  { apply bool_decide_eq_true, list_elem_of_In in Hs as [<-|[<-|[]]]; reflexivity. }
  rewrite (proj2 (Z.leb_le 1 n)), (proj2 (Z.leb_le n 999999999)) by lia. by apply bool_decide_eq_true.
Qed.

Lemma record_of_row_code n r record : record_of_row n r = Ok record → MetbullRecord.code record = n.
Proof.
  unfold record_of_row. destruct (Sqlite.record_status r); try done. intros H.
  repeat (apply result_bind_Ok in H as (? & _ & H); try match type of H with context [let '(_, _) := ?p in _] => destruct p end).
  by injection H as <-.
Qed.
(** The exceptions of the catalogue's own. *)
Definition is_metbull (e : exn) : bool :=
  match e with MetbullUnavailable _ | MetbullNotFound _ | MetbullNotOfficial _ => true | _ => false end.
Definition raises_metbull {A} (r : result A) : Prop := ∀ e, r = Raise e → is_metbull e = true.
Lemma raises_bind {A B} (r : result A) (f : A → result B) :
  raises_metbull r → (∀ a, raises_metbull (f a)) → raises_metbull (result_bind r f).
Proof. intros Hr Hf e. destruct r as [a|e']; simpl; [apply Hf|]. intros [= <-]. by apply Hr. Qed.
Lemma raises_when c e : is_metbull e = true → raises_metbull (raise_when c e).
Proof. intros He e'. destruct c; [|done]. by intros [= <-]. Qed.
Lemma raises_need {A} e (o : option A) : is_metbull e = true → raises_metbull (need e o).
Proof. intros He e'. destruct o; [done|]. by intros [= <-]. Qed.
Ltac raises_step := lazymatch goal with
  | |- raises_metbull (result_bind _ _) => apply raises_bind; [|intros ?]
  | |- raises_metbull (raise_when _ _) => apply raises_when; reflexivity
  | |- raises_metbull (need _ _) => apply raises_need; reflexivity
  | |- raises_metbull (Ok _) => intros ? [=]
  | |- raises_metbull (Raise _) => intros ? [= <-]; reflexivity
  | |- raises_metbull (match ?x with _ => _ end) => destruct x
  | |- raises_metbull (?f _ _ _) => unfold f
  | |- raises_metbull (?f _ _) => unfold f
  | |- raises_metbull (?f _) => unfold f
  end.
Lemma record_of_row_raises n r : raises_metbull (record_of_row n r).
Proof. repeat raises_step. Qed.
(** SQLite fails with its own exceptions only. *)
Definition database_errors (sqlite_open : bytes → result Sqlite.database) : Prop :=
  ∀ data e, sqlite_open data = Raise e → ∃ msg, e = DatabaseError msg.
Lemma lookup_errors sqlite_open files n e : database_errors sqlite_open →
  MeteoriticalBulletinSnapshot.lookup sqlite_open files (OInt n) = Raise e → 1 <= n <= 999999999 → is_metbull e = true.
Proof.
  intros Hs E Hn. unfold MeteoriticalBulletinSnapshot.lookup, validated_code in E. rewrite canonical_code in E.
  rewrite (proj2 (Z.leb_le 1 _)), (proj2 (Z.leb_le _ 999999999)) in E by lia. cbn [andb result_bind] in E.
  destruct (Files.database files) as [data|]; cbn [need result_bind except_as] in E; [|by injection E as <-].
  destruct (sqlite_open data) as [db|e'] eqn:Eo; cbn [result_bind except_as] in E.
  - revert E. apply raises_bind; [by apply raises_need|]. intros. apply record_of_row_raises.
  - destruct (Hs _ _ Eo) as [msg ->]. by injection E as <-.
Qed.

(** C18: Whatever the two files hold, a record that the catalogue gives out has the form that the response of the
    route requires: the name, the class, the year and the coordinates are within their bounds, the
    address is the one of the code. So no record is lost at the last check, and a request with a well-formed code is
    answered by a record, or by one of the statuses 404, 409 and 503. *)
Theorem served_records_are_valid sqlite_open files code :
  database_errors sqlite_open → _CANONICAL_CODE code = true →
  match metbull_record true (Some (MeteoriticalBulletinSnapshot.lookup sqlite_open files)) [(wide "code", code)] code with
  | Ok record => MeteoriticalBulletinSnapshot.lookup sqlite_open files (OInt (int_of_code code)) = Ok record ∧
      MetbullRecordResponse record = true ∧ MetbullRecord.code record = int_of_code code
  | Raise (HTTPException status _) => status ∈ [404; 409; 503]
  | Raise _ => False
  end.
Proof.
  intros Hs Hc. pose proof (int_of_ascii_range code Hc) as Hn. change (int_of_ascii code) with (int_of_code code) in Hn.
  unfold metbull_record. rewrite Hc. cbn [negb raise_when result_bind].
  rewrite bool_decide_eq_true_2 by done. cbn [negb raise_when result_bind].
  destruct (MeteoriticalBulletinSnapshot.lookup sqlite_open files (OInt (int_of_code code))) as [record|e] eqn:E.
  - pose proof E as E'. unfold MeteoriticalBulletinSnapshot.lookup, validated_code in E'. rewrite canonical_code in E'.
    rewrite (proj2 (Z.leb_le 1 _)), (proj2 (Z.leb_le _ 999999999)) in E' by lia. cbn [andb result_bind] in E'.
    apply result_bind_Ok in E' as (row & _ & E'). apply result_bind_Ok in E' as (r & _ & E').
    pose proof (record_of_row_code _ _ _ E') as Hcode. apply record_of_row_valid in E' as Hv; [|lia].
    rewrite Hv. by split_and!.
  - pose proof (lookup_errors _ _ _ _ Hs E Hn) as He. destruct e; try discriminate He; simpl; set_solver.
Qed.
(** A database with the one row that every snapshot has. *)
Definition one_row : Sqlite.database := {|
  Sqlite.application_id := APPLICATION_ID; Sqlite.user_version := SCHEMA_VERSION; Sqlite.objects := [];
  Sqlite.columns := []; Sqlite.integrity_check := ["ok"]; Sqlite.snapshot_metadata := None;
  Sqlite.records := [bind_entry expected_sentinel] |}.
Lemma served_records_are_valid_witness : ∃ record,
  metbull_record true (Some (MeteoriticalBulletinSnapshot.lookup (λ _, Ok one_row) (Files.mk (Some []) None)))
    [(wide "code", wide "87447")] (wide "87447") = Ok record ∧
  MetbullRecordResponse record = true ∧ MetbullRecord.code record = 87447.
Proof.
  pose proof (served_records_are_valid (λ _, Ok one_row) (Files.mk (Some []) None) (wide "87447")
    ltac:(intros ? ? [=]) eq_refl) as H.
  destruct (metbull_record true _ _ _) as [record|e] eqn:E; [|vm_compute in E; discriminate E].
  exists record. destruct H as (_ & Hv & Hc). split_and!; [done|exact Hv|exact Hc].
Defined.

(** ** What an update writes *)

(** The answer of the catalogue that an entry stands for. *)
Definition published (e : Entry.t) : result MetbullRecord.t :=
  if Entry.status e is_in [wide "Official"; wide "Relict"] then
    Ok (MetbullRecord.mk (Entry.code e) (METBULL_OFFICIAL_URL (Entry.code e)) (Entry.name e) (Entry.status e) true
          (Entry.classification e) (wide (Entry.fall_or_find e)) (Entry.year_found e) (Entry.country e)
          (Entry.latitude e) (Entry.longitude e))
  else Raise (MetbullNotOfficial "metbull_name_not_official").

(** The texts of the fixed lists are within the bounds of the reader. *)
Definition text_ok (n : Z) (s : ustr) : bool := (1 <=? len s) && (len s <=? n) && negb (existsb (λ c, c <? 32) s).
Lemma countries_ok : forallb (λ s, text_ok 64 (wide s)) (COUNTRY_NAMES ++ map snd COUNTRY_ALIASES) = true.
Proof. vm_compute. reflexivity. Qed.
Lemma country_ok place country : _country_or_none place = Some country → text_ok 64 country = true.
Proof.
  pose proof countries_ok as H. rewrite forallb_app, andb_true_iff, !forallb_forall in H. destruct H as [Hn Ha].
  unfold _country_or_none. set (candidate := default place (after_last_comma place)). clearbody candidate.
  destruct (among COUNTRY_NAMES candidate) eqn:E.
  - intros [= <-]. unfold among in E. apply existsb_exists in E as (n & Hin & ->%bool_decide_eq_true). by apply Hn.
  - destruct (List.find _ COUNTRY_ALIASES) as [a|] eqn:F; [|done]. intros [= <-]. apply find_some in F as [F _].
    apply Ha, in_map_iff. by exists a.
Qed.
Lemma bounded_text_ok n s : text_ok n s = true → Metbull._bounded_text (Sqlite.TEXT s) n = Ok s.
Proof.
  unfold text_ok. rewrite !andb_true_iff, negb_true_iff. intros [[H1 H2] H3]. cbn [Metbull._bounded_text]. by rewrite H1, H2, H3.
Qed.
Lemma checked_text v n k f u : MetbullUpdate._bounded_text v n k f = Ok u → text_ok n v = true.
Proof.
  unfold MetbullUpdate._bounded_text, text_ok. rewrite raise_when_Ok, orb_false_iff, negb_false_iff. by intros [-> ->].
Qed.
Lemma coordinates_ok lat long k a b : _coordinates_or_none lat long k = Ok (a, b) →
  _validated_coordinates (sql_text a) (sql_text b) = Ok (a, b) ∧ Bool.eqb (Sqlite.is_null (sql_text a)) (Sqlite.is_null (sql_text b)) = true.
Proof.
  assert (∀ v lo hi o, MetbullUpdate._coordinate v lo hi k = Ok (Some o) → Metbull._coordinate o lo hi = Ok o) as Hc.
  { intros v lo hi o H. unfold MetbullUpdate._coordinate in H. apply result_bind_Ok in H as (u & Hl%raise_when_Ok & H).
    apply result_bind_Ok in H as (d & Hd%need_Ok & H). injection H as H. destruct (decimal_between lo hi d) eqn:E; [|done].
    injection H as <-. unfold Metbull._coordinate. by rewrite Hl, Hd; simpl; rewrite E. }
  unfold _coordinates_or_none. destruct lat as [|x lat], long as [|y long]; try done; [by intros [= <- <-]|].
  intros H. apply result_bind_Ok in H as (p & Hp & H). apply result_bind_Ok in H as (q & Hq & H).
  destruct p as [p|], q as [q|]; injection H as <- <-; try done.
  apply Hc in Hp, Hq. cbn [sql_text _validated_coordinates]. by rewrite Hp, Hq.
Qed.
Lemma among_spec names s : among names s = true → existsb (Sqlite.is_text (Sqlite.TEXT s)) names = true.
Proof. done. Qed.
Lemma year_ok s y : _year_or_none s = Some y → 1 <= y <= 9999.
Proof.
  unfold _year_or_none. destruct (STRICT_YEAR s); [|done]. cbn [negb].
  destruct (_ && _) eqn:E; [|done]. intros [= <-]. apply andb_prop in E as [E1 E2]. lia.
Qed.
(** A row of the file that passes the checks of the update passes those of the database and of the reader. *)
Lemma validated_row_ok row k e : _validated_row row k = Ok e →
  Entry.code e = int_of_ascii (cell row 0) ∧ 1 <= Entry.code e <= 999999999 ∧
  row_checks (bind_entry e) = true ∧ record_of_row (Entry.code e) (bind_entry e) = published e.
Proof.
  unfold _validated_row. intros H.
  apply result_bind_Ok in H as (u & Hcode%raise_when_Ok & H). apply negb_false_iff, int_of_ascii_range in Hcode.
  apply result_bind_Ok in H as (u1 & Hname%checked_text & H). apply result_bind_Ok in H as (u2 & Hclass%checked_text & H).
  apply result_bind_Ok in H as (u3 & Hst%raise_when_Ok & H). apply negb_false_iff in Hst.
  apply result_bind_Ok in H as (u4 & _ & H). apply result_bind_Ok in H as ([lat long] & Hco & H). apply Ok_inj in H as <-.
  apply coordinates_ok in Hco as [Hco Hnull]. cbn [Entry.code]. split; [done|]. split; [done|].
  assert (∀ c, _country_or_none (cell row 6) = Some c → text_ok 64 c = true) as Hctry by apply country_ok.
  assert (∀ y, _year_or_none (cell row 5) = Some y → 1 <= y <= 9999) as Hyear by apply year_ok.
  revert Hctry Hyear. generalize (_country_or_none (cell row 6)) (_year_or_none (cell row 5)). intros country year Hctry Hyear.
  set (fall := if among FALL_VALUES (cell row 4) then "Fall" else "Find").
  assert (fall = "Fall" ∨ fall = "Find") as Hfall by (unfold fall; destruct (among FALL_VALUES (cell row 4)); [by left|by right]). clearbody fall.
  assert (wide fall is_in [wide "Fall"; wide "Find"] = true) as Hf by (destruct Hfall as [-> | ->]; vm_compute; reflexivity).
  pose proof (bounded_text_ok _ _ Hname) as Rname. pose proof (bounded_text_ok _ _ Hclass) as Rclass.
  assert (_validated_year (match year with Some y => Sqlite.INTEGER y | None => Sqlite.NULL end) = Ok year) as Ryear.
  { destruct year as [y|]; [|done]. specialize (Hyear y eq_refl). unfold _validated_year.
    by rewrite (proj2 (Z.leb_le 1 y)), (proj2 (Z.leb_le y 9999)) by lia. }
  assert (_validated_country (sql_text country) = Ok country) as Rcountry.
  { destruct country as [c|]; [|done]. cbn [sql_text _validated_country]. by rewrite (bounded_text_ok 64 c) by auto. }
  split.
  - unfold row_checks, bind_entry.
    cbn [Entry.code Entry.name Entry.status Entry.classification Entry.fall_or_find Entry.year_found Entry.country
      Entry.latitude Entry.longitude Sqlite.code Sqlite.canonical_name Sqlite.record_status Sqlite.recommended_classification
      Sqlite.fall_or_find Sqlite.year_found Sqlite.country Sqlite.latitude Sqlite.longitude length_between].
    rewrite (among_spec _ _ Hst), Hnull. unfold text_ok in Hname, Hclass.
    apply andb_prop in Hname as [-> _]. apply andb_prop in Hclass as [-> _].
    rewrite (proj2 (Z.leb_le 1 _)), (proj2 (Z.leb_le _ 999999999)) by lia.
    assert (existsb (Sqlite.is_text (Sqlite.TEXT (wide fall))) ["Fall"; "Find"] = true) as -> by (destruct Hfall as [-> | ->]; vm_compute; reflexivity).
    assert (length_between 64 (sql_text country) = true) as ->.
    { destruct country as [c|]; [|done]. specialize (Hctry c eq_refl). unfold text_ok in Hctry. cbn [sql_text length_between].
      by apply andb_prop in Hctry as [-> _]. }
    destruct year as [y|]; [|done]. specialize (Hyear y eq_refl).
    by rewrite (proj2 (Z.leb_le 1 y)), (proj2 (Z.leb_le y 9999)) by lia.
  - unfold record_of_row, published, bind_entry.
    cbn [Entry.code Entry.name Entry.status Entry.classification Entry.fall_or_find Entry.year_found Entry.country
      Entry.latitude Entry.longitude Sqlite.code Sqlite.canonical_name Sqlite.record_status Sqlite.recommended_classification
      Sqlite.fall_or_find Sqlite.year_found Sqlite.country Sqlite.latitude Sqlite.longitude].
    destruct (cell row 3 is_in _); [|done]. cbn [negb raise_when result_bind].
    rewrite Rname, Rclass. cbn [result_bind]. rewrite Hf. cbn [result_bind]. rewrite Ryear. cbn [result_bind].
    rewrite Hco. cbn [result_bind]. by rewrite Rcountry.
Qed.

(** The records that the reader of the file yields. *)
Definition data_rows (stream : list (Z * result (list ustr))) : list (list ustr) :=
  omap (λ x, match x.2 with Ok row => Some row | Raise _ => None end) stream.
Definition valid_as (row : list ustr) (e : Entry.t) : Prop := ∃ k, _validated_row row k = Ok e.
Lemma read_rows_Ok stream : ∀ k recs s recs' s', read_rows stream k recs s = Ok (recs', s') → NoDup (map Entry.code recs) →
  ∃ es, recs' = (recs ++ es)%list ∧ Forall2 valid_as (data_rows stream) es ∧ NoDup (map Entry.code recs') ∧
    ∀ e, s' = Some e → s = Some e ∨ e ∈ es.
Proof.
  induction stream as [|[n [row|e]] stream IH]; intros k recs s recs' s' H Hnd; [|simpl in H|done].
  - injection H as <- <-. exists []. rewrite app_nil_r. split_and!; [done|constructor|done|by left].
  - apply result_bind_Ok in H as (u & _ & H). apply result_bind_Ok in H as (e & He & H).
    apply result_bind_Ok in H as (u' & Hnew%raise_when_Ok & H). apply bool_decide_eq_false in Hnew.
    apply IH in H as (es & -> & Hes & Hnd' & Hs).
    2: { rewrite map_app. apply NoDup_app. split_and!; [done| |apply NoDup_singleton]. intros x Hx Hx'.
         apply list_elem_of_In in Hx'. destruct Hx' as [<-|[]]. done. }
    exists (e :: es). rewrite <- app_assoc in *. split_and!; [done| |done|].
    + cbn [data_rows omap list_omap snd]. constructor; [by exists k|done].
    + intros e' [H|H]%Hs; [|right; by right]. destruct (Entry.code e =? 87447); [|by left]. injection H as <-. right. left.
Qed.
Lemma insert_entry_perm e l : insert_entry e l ≡ₚ e :: l.
Proof.
  induction l as [|e' l IH]; [done|]. cbn [insert_entry]. destruct (_ <=? _); [done|]. rewrite IH. apply Permutation_swap.
Qed.
Lemma sort_entries_perm l : sort_entries l ≡ₚ l.
Proof. induction l as [|e l IH]; [done|]. cbn. by rewrite insert_entry_perm, IH. Qed.
Lemma insert_rows_all rows : ∀ inserted, forallb row_checks rows = true → NoDup (map Sqlite.code (inserted ++ rows)) →
  insert_rows rows inserted = Ok (inserted ++ rows)%list.
Proof.
  induction rows as [|r rows IH]; intros inserted H Hnd; [by rewrite app_nil_r|]. cbn [forallb] in H.
  apply andb_prop in H as [Hr H]. cbn [insert_rows]. rewrite Hr.
  rewrite map_app in Hnd. rewrite bool_decide_eq_false_2.
  2: { intros Hin. apply NoDup_app in Hnd as (_ & Hd & _). apply (Hd _ Hin). left. }
  cbn [negb orb raise_when result_bind]. rewrite IH; [by rewrite <- app_assoc|done|]. by rewrite <- app_assoc, map_app.
Qed.
Lemma map_code_bind l : map Sqlite.code (map bind_entry l) = map Entry.code l.
Proof. by rewrite map_map. Qed.

(** Looking up a code in rows without duplicates. *)
Definition find_entry (n : Z) (l : list Entry.t) : option Entry.t := List.find (λ e, Entry.code e =? n) l.
Lemma find_code_bind n l : Sqlite.find_code n (map bind_entry l) = bind_entry <$> find_entry n l.
Proof.
  unfold Sqlite.find_code, find_entry. induction l as [|e l IH]; [done|]. cbn [map List.find].
  change (Sqlite.code (bind_entry e)) with (Entry.code e). by destruct (_ =? _).
Qed.
Lemma find_entry_Some n l e : NoDup (map Entry.code l) → e ∈ l → Entry.code e = n → find_entry n l = Some e.
Proof.
  unfold find_entry. induction l as [|e' l IH]; intros Hnd He Hn; [by apply not_elem_of_nil in He|].
  cbn [map] in Hnd. apply NoDup_cons in Hnd as [Hnot Hnd]. cbn [List.find]. apply elem_of_cons in He as [->|He].
  - by rewrite (proj2 (Z.eqb_eq _ _) Hn).
  - destruct (Z.eqb_spec (Entry.code e') n) as [E|]; [|by apply IH]. exfalso. apply Hnot. rewrite E, <- Hn.
    by apply list_elem_of_fmap_2.
Qed.
Lemma find_entry_perm n l l' : l ≡ₚ l' → NoDup (map Entry.code l) → find_entry n l = find_entry n l'.
Proof.
  intros Hp Hnd. destruct (find_entry n l') as [e|] eqn:E.
  - apply find_some in E as [He Hc%Z.eqb_eq]. apply find_entry_Some; [done| |done]. rewrite Hp. by apply list_elem_of_In.
  - destruct (find_entry n l) as [e|] eqn:F; [|done]. apply find_some in F as [He Hc]. exfalso.
    pose proof (find_none _ _ E e) as Hn. cbn beta in *. rewrite Hc in Hn. apply list_elem_of_In in He. rewrite Hp in He.
    apply list_elem_of_In, Hn in He. done.
Qed.
Definition row_of_code (n : Z) (rows : list (list ustr)) : option (list ustr) :=
  List.find (λ row, int_of_ascii (cell row 0) =? n) rows.
Lemma row_of_code_entry n rows es : Forall2 valid_as rows es →
  match row_of_code n rows with
  | Some row => ∃ e, valid_as row e ∧ find_entry n es = Some e
  | None => find_entry n es = None
  end.
Proof.
  unfold row_of_code, find_entry. induction 1 as [|row e rows es [k He] _ IH]; [done|]. cbn [List.find].
  destruct (validated_row_ok _ _ _ He) as [-> _]. destruct (_ =? n); [|done]. exists e. split; [by exists k|done].
Qed.

(** ** The description is read back *)

Definition reads_indent (level : nat) (v : json) : Prop := ∀ fuel rest,
  (String.length (dumps_indent level v) ≤ fuel)%nat → value_ends rest →
  take_value fuel (wide (dumps_indent level v) ++ rest)%list = Ok (obj_of v, rest).
Lemma reads_atom level v : reads v → dumps_indent level v = dumps_compact true v → reads_indent level v.
Proof. intros H E fuel rest. rewrite E. apply H. Qed.

Lemma indentation_S n : indentation (S n) = ("  " ++ indentation n)%string.
Proof. by destruct n. Qed.
Definition layout (n : nat) : string := newline ++ indentation n.
Lemma skip_layout n c t : 32 < c → skip_ws (wide (layout n) ++ c :: t)%list = c :: t.
Proof.
  intros Hc. change (skip_ws (wide (indentation n) ++ c :: t)%list = c :: t).
  induction n as [|n IH]; [by apply skip_ws_other|]. rewrite indentation_S, wide_app, <- app_assoc. exact IH.
Qed.
Definition line (level : nat) (kv : string * json) : string := quote true kv.1 ++ ": " ++ dumps_indent level kv.2.
Lemma line_head level kv rest : ∃ t, (wide (line level kv) ++ rest)%list = 34 :: t.
Proof. unfold line. rewrite wide_app, <- app_assoc, wide_quote. by eexists. Qed.
Lemma skip_indent level v rest : skip_ws (wide (dumps_indent level v) ++ rest)%list = (wide (dumps_indent level v) ++ rest)%list.
Proof.
  assert (∀ o c items, code o > 32 → skip_ws (wide (bracketed (String o "") c level items) ++ rest)%list =
    (wide (bracketed (String o "") c level items) ++ rest)%list) as H.
  { intros o c items Ho. unfold bracketed.
    destruct items; rewrite wide_app; change (wide (String o "")) with [code o]; apply skip_ws_other; lia. }
  destruct v; try apply (skip_ws_dumps (_ : json)); apply H; vm_compute; done.
Qed.
Lemma take_line fuel level kv rest : reads_indent level kv.2 → (String.length (line level kv) ≤ fuel)%nat →
  value_ends rest → take_member (take_value fuel) (wide (line level kv) ++ rest)%list = Ok (wide kv.1, obj_of kv.2, skip_ws rest).
Proof.
  intros Hv Hf Hr. unfold line in *. rewrite !length_string_app in Hf. rewrite !wide_app, <- !app_assoc.
  rewrite wide_quote. unfold take_member. rewrite expect_cons. cbn [need result_bind].
  rewrite string_literal_escape. cbn [need result_bind]. change (wide ": ") with [58; 32]. cbn [app].
  rewrite skip_ws_other, expect_cons by lia. cbn [need result_bind].
  change (skip_ws (32 :: ?s)) with (skip_ws s). rewrite skip_indent, Hv by (lia || done). done.
Qed.
Definition lines_text (level : nat) (fs : list (string * json)) : string := join ("," ++ layout level) (map (line level) fs).
Lemma take_lines fuel level outer rest : ∀ fs k acc kv, Forall (λ kv, reads_indent level kv.2) (kv :: fs) →
  (List.length (kv :: fs) ≤ k)%nat → (String.length (lines_text level (kv :: fs)) ≤ fuel)%nat →
  NoDup (acc.*1 ++ (obj_fields (kv :: fs)).*1) →
  take_members (take_value fuel) k acc (wide (lines_text level (kv :: fs)) ++ wide (layout outer) ++ 125 :: rest)%list =
    Ok ((acc ++ obj_fields (kv :: fs))%list, rest).
Proof.
  induction fs as [|kv' fs IH]; intros k acc kv Hl Hk Hf Hnd; (destruct k as [|k]; [simpl in Hk; lia|]);
    inversion_clear Hl as [|? ? Hv Hl'];
    (assert (wide kv.1 ∉ acc.*1) as Hacc by
      (apply NoDup_app in Hnd as (_ & Hd & _); intros Hin; apply (Hd _ Hin); simpl; left)).
  - unfold lines_text in *. cbn [map join take_members] in *.
    rewrite take_line by (done || (by right; right; right)). cbn [result_bind].
    rewrite dict_set_new, skip_layout, expect_other, expect_cons by (done || lia). done.
  - assert (lines_text level (kv :: kv' :: fs) = line level kv ++ "," ++ layout level ++ lines_text level (kv' :: fs)) as E.
    { unfold lines_text. cbn [map join]. by rewrite !string_app_assoc. }
    rewrite E in *. rewrite !length_string_app in Hf. cbn [String.length] in Hf.
    rewrite !wide_app, <- !app_assoc. cbn [take_members]. change (wide ",") with [44]. cbn [app].
    rewrite take_line by (done || lia || (by left)). cbn [result_bind].
    rewrite (skip_ws_other 44), expect_cons, dict_set_new by (done || lia).
    assert (∃ t, (wide (lines_text level (kv' :: fs)) ++ wide (layout outer) ++ 125 :: rest)%list = 34 :: t) as (t & Et).
    { unfold lines_text. cbn [map join]. destruct (map _ fs); [apply line_head|]. rewrite wide_app, <- app_assoc. apply line_head. }
    rewrite Et, skip_layout, <- Et by lia. rewrite IH; [|done|simpl in *; lia|lia|].
    + unfold obj_fields. cbn [map]. by rewrite <- app_assoc.
    + rewrite fmap_app, <- app_assoc. exact Hnd.
Qed.
Lemma dumps_indent_fields level fs :
  dumps_indent level (JObj fs) = bracketed "{" "}" level (map (line (S level)) (sort_fields fs)).
Proof. cbn [dumps_indent]. by rewrite sort_fields_map, map_map. Qed.
Lemma line_length level kv : (1 ≤ String.length (line level kv))%nat.
Proof. unfold line, quote. rewrite !length_string_app. simpl. lia. Qed.
Lemma length_lines level fs : (List.length fs ≤ String.length (lines_text level fs))%nat.
Proof.
  unfold lines_text. induction fs as [|kv fs IH]; [simpl; lia|]. pose proof (line_length level kv). destruct fs as [|kv' fs]; [simpl; lia|].
  cbn [map join] in *. rewrite !length_string_app. cbn [List.length] in *. lia.
Qed.
Lemma reads_lines level kv fs : Forall (λ kv, reads_indent (S level) kv.2) (kv :: fs) → NoDup (kv :: fs).*1 →
  reads_indent level (JObj (kv :: fs)).
Proof.
  intros Hall Hnd fuel rest Hf Hr. rewrite dumps_indent_fields, obj_of_fields in *.
  assert (Forall (λ kv, reads_indent (S level) kv.2) (sort_fields (kv :: fs))) as Hs by (by rewrite sort_fields_perm).
  assert (NoDup (obj_fields (sort_fields (kv :: fs))).*1) as Hkeys.
  { assert ((obj_fields (sort_fields (kv :: fs))).*1 = wide <$> (sort_fields (kv :: fs)).*1) as ->.
    { unfold obj_fields. rewrite <- !list_fmap_compose. by apply list_fmap_ext. }
    apply NoDup_fmap_2; [intros ??; apply wide_inj|]. by rewrite sort_fields_perm. }
  assert (sort_fields (kv :: fs) ≠ []) as Hne.
  { intros E. pose proof (sort_fields_perm (kv :: fs)) as Hp. rewrite E in Hp. by apply Permutation_nil_cons in Hp. }
  revert Hs Hkeys Hne Hf. generalize (sort_fields (kv :: fs)). clear Hall Hnd kv fs. intros [|kv fs] Hs Hkeys Hne Hf; [done|].
  unfold bracketed in *. cbn [map] in *.
  change (join ("," ++ newline ++ indentation (S level)) (line (S level) kv :: map (line (S level)) fs))
    with (lines_text (S level) (kv :: fs)) in *.
  rewrite !length_string_app in Hf. cbn [String.length] in Hf. destruct fuel as [|fuel]; [lia|].
  rewrite !wide_app, <- !app_assoc. change (wide "{") with [123]. change (wide "}") with [125]. cbn [app take_value].
  rewrite !(expect_other _ 123), expect_cons by lia. unfold take_object.
  assert (∀ t, (wide newline ++ wide (indentation (S level)) ++ t)%list = (wide (layout (S level)) ++ t)%list) as El
    by (intros; unfold layout; by rewrite wide_app, <- app_assoc).
  rewrite El. assert (∃ t, (wide (lines_text (S level) (kv :: fs)) ++ wide newline ++ wide (indentation level) ++ 125 :: rest)%list = 34 :: t) as (t & Et).
  { unfold lines_text. cbn [map join]. destruct (map _ fs); [apply line_head|]. rewrite wide_app, <- app_assoc. apply line_head. }
  rewrite Et, skip_layout, expect_other, <- Et by lia.
  assert ((wide newline ++ wide (indentation level) ++ 125 :: rest)%list = (wide (layout level) ++ 125 :: rest)%list) as ->
    by (unfold layout; by rewrite wide_app, <- app_assoc).
  rewrite (take_lines fuel (S level) level rest fs _ [] kv); [done|done| | |done].
  - rewrite length_app, length_wide. pose proof (length_lines (S level) (kv :: fs)). lia.
  - lia.
Qed.
Lemma reads_text level s : reads_indent level (JStr s).
Proof. apply reads_atom; [by apply reads_ok|done]. Qed.
Lemma reads_null level : reads_indent level JNull.
Proof. apply reads_atom; [by apply reads_ok|done]. Qed.
Lemma reads_number level n : strlen (str_int n) <= 4300 → reads_indent level (JInt n).
Proof. intros. apply reads_atom; [by apply reads_int|done]. Qed.

(** The characters of the description: printable ones and newlines. *)
Definition written (c : ascii) : bool := printed c || (code c =? 10).
Lemma printed_written s : str_all printed s = true → str_all written s = true.
Proof. apply str_all_impl. intros c H. unfold written. by rewrite H. Qed.
Lemma layout_written n : str_all written (layout n) = true.
Proof. induction n as [|n IH]; [done|]. unfold layout in *. by rewrite indentation_S. Qed.
Lemma join_written sep l : str_all written sep = true → Forall (λ s, str_all written s = true) l → str_all written (join sep l) = true.
Proof.
  intros Hsep. induction 1 as [|s l Hs _ IH]; [done|]. destruct l as [|s' l]; [done|].
  change (join sep (s :: s' :: l)) with (s ++ sep ++ join sep (s' :: l)). by rewrite !str_all_app, Hs, Hsep, IH.
Qed.
Lemma bracketed_written o c level items : str_all written o = true → str_all written c = true →
  Forall (λ s, str_all written s = true) items → str_all written (bracketed o c level items) = true.
Proof.
  intros Ho Hc Hi. unfold bracketed. destruct items as [|s items]; [by rewrite str_all_app, Ho, Hc|].
  pose proof (layout_written (S level)) as H1. pose proof (layout_written level) as H2. unfold layout in *.
  rewrite str_all_app in H1, H2. apply andb_prop in H1 as [H1 H1']. apply andb_prop in H2 as [_ H2'].
  rewrite !str_all_app, Ho, Hc, H1, H1', H2', join_written; [done| |done]. by rewrite !str_all_app, H1, H1'.
Qed.
Lemma dumps_indent_written v : ∀ level, str_all written (dumps_indent level v) = true.
Proof.
  induction v as [|b|n|s|l IH|fs IH] using json_rect_all; intros level; try apply printed_written, dumps_printed.
  - cbn [dumps_indent]. apply bracketed_written; [done|done|]. apply Forall_fmap. eapply Forall_impl; [exact IH|]. intros v H. apply H.
  - rewrite dumps_indent_fields. apply bracketed_written; [done|done|]. apply Forall_fmap. rewrite sort_fields_perm.
    eapply Forall_impl; [exact IH|]. intros kv H. cbn. unfold line.
    by rewrite !str_all_app, H, printed_written by apply quote_printed.
Qed.
Lemma metadata_written m : str_all written (metadata_text m) = true.
Proof. unfold metadata_text. by rewrite str_all_app, dumps_indent_written. Qed.

Lemma written_code c : written c = true → code c = 10 ∨ 32 <= code c <= 126.
Proof. unfold written, printed. lia. Qed.
Lemma encode_written s : str_all written s = true → blen (encode s) = strlen s ∧ utf8_strict (encode s) = Some (wide s) ∧
  universal_newlines (wide s) = wide s.
Proof.
  unfold utf8_strict. rewrite utf8_decode_encode. cbn [mbind option_bind]. induction s as [|c s IH]; [done|].
  cbn [str_all]. intros [Hc%written_code Hs]%andb_prop. destruct (IH Hs) as (Hl & Hu & Hn). split_and!.
  - destruct (encode_seven c s) as [-> _]; [unfold seven_bits; lia|]. unfold blen, strlen in *. simpl List.length. simpl String.length. lia.
  - rewrite wide_cons in *. cbn [existsb]. assert (is_high (code c) || is_low (code c) = false) as -> by (unfold is_high, is_low; lia).
    cbn [orb]. by destruct (existsb _ (wide s)).
  - rewrite wide_cons. cbn [universal_newlines]. rewrite Hn.
    destruct (wide s) as [|d t]; (destruct (code c) as [|p|p] eqn:E; [lia| |lia]);
      (assert (Z.pos p =? 13 = false) as -> by lia); repeat (destruct p as [p|p|]; try done; try lia).
Qed.
Lemma metadata_loads m : reads_indent 0 (JObj m) → loads_text (universal_newlines (wide (metadata_text m))) = Ok (obj_of (JObj m)).
Proof.
  intros H. destruct (encode_written _ (metadata_written m)) as (_ & _ & ->). unfold loads_text, metadata_text.
  rewrite wide_app, skip_indent, H; [done| |].
  - rewrite length_app, length_wide. lia.
  - by right; right; right.
Qed.

(** ** Timestamps *)

Definition first_four_digit_year : Z := days (days_of_civil 1000 1 1).
Definition stamp_text (y m d h mi s : Z) : ustr :=
  (four y ++ 45 :: two m ++ 45 :: two d ++ 84 :: two h ++ 58 :: two mi ++ 58 :: two s ++ [90])%list.
Lemma str_int_four y : 1000 <= y < 10000 → wide (str_int y) = four y.
Proof.
  assert (below 10000 (λ v, (v <? 1000) || ustr_eqb (wide (str_int v)) (four v)) = true) as H by (vm_compute; reflexivity).
  intros Hy. pose proof (below_spec _ _ y H ltac:(lia)) as H'. cbn beta in H'. assert (y <? 1000 = false) as E by lia. rewrite E in H'.
  exact (bool_decide_eq_true_1 _ H').
Qed.
Lemma stamp_parsed y m d h mi s : 0 <= y < 10000 → 0 <= m < 100 → 0 <= d < 100 → 0 <= h < 100 → 0 <= mi < 100 → 0 <= s < 100 →
  _UTC_TIMESTAMP (stamp_text y m d h mi s) = Some (y, m, d, (h, mi, s)).
Proof.
  intros. unfold _UTC_TIMESTAMP, stamp_text.
  repeat (first [rewrite parse_four by lia | rewrite parse_2 by lia | rewrite expect_cons]; cbn [mbind option_bind]). done.
Qed.
Lemma year_four n : -354285 <= n <= last_day → let '(y, m, d) := civil_of_days n in 1000 <= y < 10000 ∧ valid_date y m d = true.
Proof.
  intros Hn. change last_day with 2932896 in Hn. pose proof (civil_roundtrip n) as H. change first_day with (-719162) in H. change last_day with 2932896 in H.
  specialize (H ltac:(lia)). destruct (civil_of_days n) as [[y m] d]. destruct H as [Hv He]. split; [|done].
  unfold valid_date in Hv. rewrite !andb_true_iff in Hv. destruct (Z_le_gt_dec 1000 y) as [|Hy]; [lia|]. exfalso.
  assert (d <= 31) as Hd by (unfold days_in_month in Hv; destruct (m =? 2), (is_leap y), ((m =? 4) || (m =? 6) || (m =? 9) || (m =? 11)); lia).
  assert (1 <= m <= 12) as Hm by lia. clear Hv. assert (y <= 999) as Hy' by lia. unfold days_of_civil in He.
  destruct (m <=? 2) eqn:E1, (2 <? m) eqn:E2; try lia; Z.div_mod_to_equations; lia.
Qed.
Lemma stamp_ok us : first_four_digit_year <= us < days (last_day + 1) →
  ∃ t, _UTC_TIMESTAMP (wide (strftime us)) = Some t ∧ timestamp_exists t = true ∧ strlen (strftime us) = 20.
Proof.
  unfold first_four_digit_year, days, hours, minutes, seconds. change (days_of_civil 1000 1 1) with (-354285). intros Hus.
  assert (-354285 <= us / 1000000 / 86400 <= last_day) as Hd by (Z.div_mod_to_equations; lia).
  pose proof (year_four _ Hd) as H. unfold strftime. cbv zeta. destruct (civil_of_days _) as [[y m] d]. destruct H as [Hy Hv].
  pose proof Hv as Hv'. unfold valid_date, days_in_month in Hv'.
  assert (d <= 31) by (destruct (m =? 2), (is_leap y), ((m =? 4) || (m =? 6) || (m =? 9) || (m =? 11)); lia).
  pose proof (Z.mod_pos_bound (us / 1000000) 86400 ltac:(lia)) as Ht. set (t := (us / 1000000) mod 86400) in *. clearbody t.
  assert (wide (str_int y ++ "-" ++ pad 2 m ++ "-" ++ pad 2 d ++ "T" ++ pad 2 (t / 3600) ++ ":" ++ pad 2 (t / 60 mod 60) ++
    ":" ++ pad 2 (t mod 60) ++ "Z") = stamp_text y m d (t / 3600) (t / 60 mod 60) (t mod 60)) as E.
  { rewrite !wide_app, str_int_four, !pad_two by (Z.div_mod_to_equations; lia). done. }
  rewrite E. eexists. split; [apply stamp_parsed; Z.div_mod_to_equations; lia|]. split.
  - unfold timestamp_exists. rewrite Hv. rewrite !(proj2 (Z.ltb_lt _ _)) by (Z.div_mod_to_equations; lia). done.
  - unfold strlen. rewrite <- length_wide, E. done.
Qed.

(** ** The reader accepts what was written *)

Lemma sha_text b : _SHA256 (wide (bytes_hex (sha256 b))) = true.
Proof.
  unfold _SHA256. rewrite len_wide. unfold strlen. rewrite length_bytes_hex, length_sha256. change (Z.of_nat (2 * 32) =? 64) with true.
  cbn [andb]. generalize (bytes_hex_lower (sha256 b)). generalize (bytes_hex (sha256 b)). intros s.
  induction s as [|c s IH]; [done|]. cbn [str_all]. intros [Hc Hs]%andb_prop. rewrite wide_cons. cbn [forallb]. by rewrite IH, andb_true_r.
Qed.
(** The description, as the parser gives it back. *)
Definition described (database_sha256 source_sha256 retrieved_at : ustr) (official : obj) (n : Z) : obj := ODict [
  (wide "database_sha256", OStr database_sha256); (wide "official_database_updated_utc", official);
  (wide "retrieved_at_utc", OStr retrieved_at); (wide "row_count", OInt n); (wide "schema_version", OInt SCHEMA_VERSION);
  (wide "source", ODict [
    (wide "name", OStr (wide "Meteoritical Bulletin Database")); (wide "publisher", OStr (wide "Lunar and Planetary Institute"));
    (wide "url", OStr (wide SOURCE_URL))]);
  (wide "source_sha256", OStr source_sha256)].
Lemma check_described data source_sha256 at_ official n t :
  _SHA256 source_sha256 = true → _UTC_TIMESTAMP at_ = Some t → timestamp_exists t = true →
  _validate_utc_timestamp (Some official) true = Ok tt → _MINIMUM_ROWS <= n →
  check_metadata data (described (wide (bytes_hex (sha256 data))) source_sha256 at_ official n) =
    Ok (Metadata.mk (OInt SCHEMA_VERSION) source_sha256 n).
Proof.
  intros Hsha Hat Ht Hoff Hn. pose proof (sha_text data) as Hdata. revert Hdata. unfold check_metadata, described.
  generalize (wide (bytes_hex (sha256 data))). intros data_sha256 Hdata.
  match goal with |- context [has_keys _METADATA_KEYS ?d] => set (fields := d) end.
  assert (has_keys _METADATA_KEYS fields = true) as -> by reflexivity.
  assert (get_key "database_sha256" fields = Some (OStr data_sha256)) as -> by reflexivity.
  assert (get_key "official_database_updated_utc" fields = Some official) as -> by reflexivity.
  assert (get_key "retrieved_at_utc" fields = Some (OStr at_)) as -> by reflexivity.
  assert (get_key "row_count" fields = Some (OInt n)) as -> by reflexivity.
  assert (get_key "schema_version" fields = Some (OInt SCHEMA_VERSION)) as -> by reflexivity.
  assert (get_key "source_sha256" fields = Some (OStr source_sha256)) as -> by reflexivity.
  match goal with |- context [get_key "source" fields] => 
    assert (get_key "source" fields = Some (ODict [
      (wide "name", OStr (wide "Meteoritical Bulletin Database")); (wide "publisher", OStr (wide "Lunar and Planetary Institute"));
      (wide "url", OStr (wide SOURCE_URL))])) as -> by reflexivity end.
  match goal with |- context [has_keys _SOURCE_KEYS ?d] => assert (has_keys _SOURCE_KEYS d = true) as -> by reflexivity end.
  match goal with |- context [negb (is_str ?a ?b && is_str ?c ?d && is_str ?e ?f)] =>
    assert (is_str a b && is_str c d && is_str e f = true) as -> by reflexivity end.
  clear fields. cbn [negb raise_when result_bind default id].
  assert (equals_int (OInt SCHEMA_VERSION) _SCHEMA_VERSION = true) as -> by reflexivity. cbn [negb raise_when result_bind].
  assert (n <? _MINIMUM_ROWS = false) as -> by lia. cbn [result_bind].
  assert (_validate_utc_timestamp (Some (OStr at_)) false = Ok tt) as ->.
  { cbn [_validate_utc_timestamp]. rewrite Hat. cbn [need result_bind]. by rewrite Ht. }
  rewrite Hsha, Hdata, Hoff. cbn [result_bind].
  by rewrite bool_decide_eq_true_2.
Qed.
(** The database of an update. *)
Definition internal_metadata (source_sha256 : ustr) (n : Z) : list (string * ustr) := [
  ("schema_version", wide (str_int SCHEMA_VERSION)); ("source_url", wide SOURCE_URL);
  ("source_sha256", source_sha256); ("row_count", wide (str_int n))].
Lemma internal_ok source_sha256 n :
  let d := internal_dict (map (λ kv, (Sqlite.TEXT (wide kv.1), Sqlite.TEXT kv.2)) (sort_fields (internal_metadata source_sha256 n))) in
  internal_keys d = true ∧ internal_get "schema_version" d = Some (Sqlite.TEXT (wide "2")) ∧
  internal_get "source_url" d = Some (Sqlite.TEXT (wide SOURCE_URL)) ∧
  internal_get "source_sha256" d = Some (Sqlite.TEXT source_sha256) ∧
  internal_get "row_count" d = Some (Sqlite.TEXT (wide (str_int n))).
Proof. unfold internal_metadata. generalize (wide (str_int n)) as count. intros count. cbv zeta. split_and!; reflexivity. Qed.

Lemma find_sentinel es : NoDup (map Entry.code es) → expected_sentinel ∈ es →
  Sqlite.find_code 87447 (map bind_entry es) = Some (bind_entry expected_sentinel).
Proof. intros Hnd He. by rewrite find_code_bind, (find_entry_Some 87447 es expected_sentinel). Qed.
Lemma sentinel_is_sentinel : is_sentinel (bind_entry expected_sentinel) = true.
Proof. vm_compute. reflexivity. Qed.
Lemma _write_database_Ok es source_sha256 : (∀ e, e ∈ es → row_checks (bind_entry e) = true) → NoDup (map Entry.code es) →
  expected_sentinel ∈ es → ∃ db, _write_database es (internal_metadata source_sha256 (len es)) = Ok db ∧
    Sqlite.records db = map bind_entry es ∧ _validate_built_database db (len es) = Ok tt ∧
    (∀ v, v = OInt SCHEMA_VERSION → _validate_database (Metadata.mk v source_sha256 (len es)) db = Ok tt).
Proof.
  intros Hc Hnd Hs. unfold _write_database. rewrite insert_rows_all.
  2: { apply forallb_forall. intros r (e & <- & He)%in_map_iff. by apply Hc, list_elem_of_In. }
  2: { cbn [app]. by rewrite map_code_bind. }
  eexists. split; [reflexivity|]. cbn [Sqlite.records app]. split; [done|].
  assert (len (map bind_entry es) = len es) as Hl by (unfold len; by rewrite length_map).
  split.
  - unfold _validate_built_database. cbn [Sqlite.integrity_check Sqlite.records]. rewrite find_sentinel by done.
    rewrite sentinel_is_sentinel, Hl. rewrite !bool_decide_eq_true_2 by done. done.
  - intros v ->. unfold _validate_database.
    cbn [Sqlite.application_id Sqlite.user_version Sqlite.objects Sqlite.columns Sqlite.integrity_check Sqlite.snapshot_metadata
      Sqlite.records Metadata.schema_version Metadata.source_sha256 Metadata.row_count need result_bind].
    destruct (internal_ok source_sha256 (len es)) as (Hk & H1 & H2 & H3 & H4).
    rewrite Hk. unfold internal_is. rewrite H1, H2, H3, H4, find_sentinel by done. rewrite sentinel_is_sentinel, Hl.
    rewrite !bool_decide_eq_true_2 by (done || reflexivity). done.
Qed.

(** ** The size of the description *)

Lemma parse_digits_length k : ∀ acc s v rest, parse_digits k acc s = Some (v, rest) → List.length s = (k + List.length rest)%nat.
Proof.
  induction k as [|k IH]; intros acc s v rest H; [by injection H as _ ->|]. destruct s as [|c s]; [done|]. cbn [parse_digits] in H.
  destruct (digit_of c); [|done]. apply IH in H. simpl. lia.
Qed.
Lemma stamp_length s t : _UTC_TIMESTAMP s = Some t → List.length s = 20%nat.
Proof.
  unfold _UTC_TIMESTAMP. intros H.
  repeat match type of H with
  | mbind _ ?x = Some _ => let E := fresh "E" in destruct x as [?|] eqn:E; [cbn [mbind option_bind] in H|discriminate H]
  | match ?x with _ => _ end = Some _ => is_var x; destruct x
  end; try done.
  repeat match goal with
  | E : expect _ _ = Some _ |- _ => apply expect_Some in E; subst
  | E : parse_digits _ _ _ = Some _ |- _ => apply parse_digits_length in E
  end. simpl in *. lia.
Qed.
Lemma escape_length s : (String.length (escape true s) ≤ 6 * String.length s)%nat.
Proof.
  induction s as [|c s IH]; [simpl; lia|]. cbn [escape]. rewrite length_string_app. cbn [String.length].
  assert (String.length (escape_char true c) ≤ 6)%nat; [|lia]. destruct c as [[] [] [] [] [] [] [] []]; vm_compute; lia.
Qed.
Lemma quote_length s : (String.length (quote true s) ≤ 2 + 6 * String.length s)%nat.
Proof. unfold quote. rewrite !length_string_app. pose proof (escape_length s). simpl. lia. Qed.
Lemma str_int_length n : 0 < n <= 999999999 → (String.length (str_int n) ≤ 9)%nat.
Proof.
  intros Hn. destruct (str_int_short n) as (c & s & -> & _ & H); [lia|]. rewrite (proj2 (Z.leb_le _ _)) in H by lia.
  unfold fullmatch_class in H. rewrite !andb_true_iff in H. destruct H as [[_ H%Nat.leb_le] _]. simpl. lia.
Qed.

(** The description of an update, in the order of the code. *)
Definition description (database_sha256 source_sha256 retrieved_at : string) (official : option string) (n : Z) : list (string * json) := [
  ("schema_version", JInt SCHEMA_VERSION);
  ("source", JObj [("name", JStr "Meteoritical Bulletin Database"); ("publisher", JStr "Lunar and Planetary Institute");
                   ("url", JStr SOURCE_URL)]);
  ("retrieved_at_utc", JStr retrieved_at); ("source_sha256", JStr source_sha256); ("database_sha256", JStr database_sha256);
  ("row_count", JInt n);
  ("official_database_updated_utc", match official with Some s => JStr s | None => JNull end)].
Definition source_fields : list (string * json) := [
  ("name", JStr "Meteoritical Bulletin Database"); ("publisher", JStr "Lunar and Planetary Institute"); ("url", JStr SOURCE_URL)].
Definition official_json (official : option string) : json := match official with Some s => JStr s | None => JNull end.
Lemma sort_description d s at_ official n : sort_fields (description d s at_ official n) = [
  ("database_sha256", JStr d); ("official_database_updated_utc", official_json official); ("retrieved_at_utc", JStr at_);
  ("row_count", JInt n); ("schema_version", JInt SCHEMA_VERSION); ("source", JObj source_fields); ("source_sha256", JStr s)].
Proof. reflexivity. Qed.
Lemma description_size d s at_ official n : (String.length d ≤ 64)%nat → (String.length s ≤ 64)%nat → (String.length at_ ≤ 64)%nat →
  (∀ o, official = Some o → (String.length o ≤ 64)%nat) → 0 < n <= 999999999 →
  strlen (metadata_text (description d s at_ official n)) <= 64 * 1024.
Proof.
  intros Hd Hs Hat Ho Hn. unfold strlen, metadata_text. rewrite length_string_app, dumps_indent_fields, sort_description.
  assert (String.length (dumps_indent 1 (official_json official)) ≤ 400)%nat as Hoff.
  { destruct official as [o|]; [|simpl; lia]. specialize (Ho o eq_refl). pose proof (quote_length o).
    change (dumps_indent 1 (official_json (Some o))) with (quote true o). lia. }
  pose proof (quote_length d) as Qd. pose proof (quote_length s) as Qs. pose proof (quote_length at_) as Qa. pose proof (str_int_length n Hn) as Qn.
  unfold bracketed. cbn [map join]. unfold line. cbn [fst snd].
  change (dumps_indent 1 (JStr d)) with (quote true d). change (dumps_indent 1 (JStr s)) with (quote true s).
  change (dumps_indent 1 (JStr at_)) with (quote true at_). change (dumps_indent 1 (JInt n)) with (str_int n).
  rewrite !length_string_app.
  repeat match goal with |- context [String.length ?x] =>
    lazymatch x with quote true d => fail | quote true s => fail | quote true at_ => fail | str_int n => fail
    | dumps_indent 1 (official_json official) => fail | _ => idtac end;
    let k := eval vm_compute in (String.length x) in change (String.length x) with k end.
  lia.
Qed.

(** ** The round trip *)

(** The rows of a CSV file after its header. *)
Definition csv_rows (csv_bytes : bytes) : list (list ustr) :=
  match utf8_sig csv_bytes with Some text => data_rows (drop 1 (Csv.reader text)) | None => [] end.
Lemma validated_rows_Ok csv_bytes minimum es : _validated_rows csv_bytes minimum = Ok es →
  ∃ recs, es = sort_entries recs ∧ Forall2 valid_as (csv_rows csv_bytes) recs ∧ NoDup (map Entry.code recs) ∧
    expected_sentinel ∈ recs ∧ minimum <= len recs.
Proof.
  unfold _validated_rows, csv_rows. intros H. apply result_bind_Ok in H as (u & _ & H).
  apply result_bind_Ok in H as (text & Ht%need_Ok & H). rewrite Ht. apply result_bind_Ok in H as (u1 & _ & H).
  destruct (Csv.reader text) as [|[n [header|e]] stream]; [done| |done].
  apply result_bind_Ok in H as (u2 & _ & H). apply result_bind_Ok in H as ([recs sentinel] & Hr & H).
  apply result_bind_Ok in H as (u3 & Hmin%raise_when_Ok & H). apply result_bind_Ok in H as (u4 & Hs%raise_when_Ok & H).
  apply Ok_inj in H as <-. apply negb_false_iff, bool_decide_eq_true in Hs as ->.
  apply read_rows_Ok in Hr as (es & Er & Hes & Hnd & Hs); [|apply NoDup_nil; done]. cbn [app] in Er. subst es.
  exists recs. split_and!; [done|done|done| |lia]. destruct (Hs _ eq_refl) as [|]; done.
Qed.
Lemma entries_bounded recs rows : Forall2 valid_as rows recs → NoDup (map Entry.code recs) → len recs <= 999999999.
Proof.
  intros Hv Hnd. assert (map Entry.code recs ⊆+ seqZ 1 999999999) as Hsub.
  { apply NoDup_submseteq; [done|]. intros c (e & -> & He)%list_elem_of_fmap. apply elem_of_seqZ.
    eapply Forall2_Forall_r in Hv; [|apply Forall_true; intros row e' [k H]; destruct (validated_row_ok _ _ _ H) as (_ & Hr & _); exact Hr].
    rewrite Forall_forall in Hv. specialize (Hv e He). lia. }
  apply submseteq_length in Hsub. rewrite length_map, length_seqZ in Hsub. unfold len. lia.
Qed.

Lemma obj_of_description d s at_ official n :
  obj_of (JObj (description d s at_ official n)) = described (wide d) (wide s) (wide at_) (obj_of (official_json official)) n.
Proof. rewrite obj_of_fields, sort_description. reflexivity. Qed.
Lemma NoDup_keys (l : list string) : bool_decide (NoDup l) = true → NoDup l.
Proof. apply bool_decide_eq_true_1. Qed.
Lemma reads_description d s at_ official n : 0 < n <= 999999999 → reads_indent 0 (JObj (description d s at_ official n)).
Proof.
  intros Hn. apply reads_lines; [|apply NoDup_keys; vm_compute; reflexivity].
  pose proof (str_int_length n Hn).
  repeat (apply Forall_cons; split); try apply Forall_nil; try apply reads_text.
  - apply reads_number. vm_compute. congruence.
  - apply reads_lines; [|apply NoDup_keys; vm_compute; reflexivity].
    repeat (apply Forall_cons; split); try apply Forall_nil; try apply reads_text; done.
  - apply reads_number. unfold strlen. lia.
  - cbn [snd]. destruct official; [apply reads_text|apply reads_null].
  - done.
Qed.
Lemma official_read official : _validate_optional_utc_timestamp official = Ok tt →
  _validate_utc_timestamp (Some (obj_of (official_json official))) true = Ok tt ∧
  ∀ o, official = Some o → (String.length o ≤ 64)%nat.
Proof.
  destruct official as [o|]; [|done]. cbn [_validate_optional_utc_timestamp official_json]. intros H.
  apply result_bind_Ok in H as (t & Ht%need_Ok & H). apply raise_when_Ok in H.
  split; [|intros ? [= <-]; apply stamp_length in Ht; rewrite length_wide in Ht; lia].
  change (obj_of (JStr o)) with (OStr (wide o)). cbn [_validate_utc_timestamp]. rewrite Ht. cbn [need result_bind]. by rewrite H.
Qed.
(** The service accepts the files of an update. *)
Lemma built_opens sqlite_open data db csv_sha256 at_ t official n :
  sqlite_open data = Ok db → _validate_database (Metadata.mk (OInt SCHEMA_VERSION) (wide csv_sha256) n) db = Ok tt →
  _SHA256 (wide csv_sha256) = true → _UTC_TIMESTAMP (wide at_) = Some t → timestamp_exists t = true →
  _validate_optional_utc_timestamp official = Ok tt → _MINIMUM_ROWS <= n <= 999999999 →
  MeteoriticalBulletinSnapshot.new sqlite_open (Files.mk (Some data)
    (Some (encode (metadata_text (description (bytes_hex (sha256 data)) csv_sha256 at_ official n))))) = Ok tt.
Proof.
  intros Hdb Hval Hsha Ht Hexists [Hoff Hlen]%official_read Hn.
  assert (0 < n <= 999999999) as Hn' by (unfold _MINIMUM_ROWS in Hn; lia).
  destruct (encode_written _ (metadata_written (description (bytes_hex (sha256 data)) csv_sha256 at_ official n))) as (Hb & Hu & _).
  unfold MeteoriticalBulletinSnapshot.new, _load_metadata. cbn [Files.metadata Files.database]. rewrite Hb.
  rewrite (proj2 (Z.ltb_ge (64 * 1024) _)).
  2: { apply description_size; [| | |done|done].
       - rewrite length_bytes_hex, length_sha256. lia.
       - unfold _SHA256 in Hsha. rewrite len_wide in Hsha. unfold strlen in Hsha. lia.
       - apply stamp_length in Ht. rewrite length_wide in Ht. lia. }
  cbn [raise_when result_bind]. rewrite Hu. cbn [need result_bind]. rewrite metadata_loads by (by apply reads_description).
  cbn [result_bind]. rewrite obj_of_description, (check_described _ _ _ _ _ t) by (done || lia). cbn [result_bind].
  rewrite Hdb. cbn [result_bind]. by rewrite Hval.
Qed.

(** The update, the service that opens its files, and the answers to all codes. *)
Lemma update_opens sqlite_open sqlite_file csv_bytes retrieved_at official minimum entries :
  (∀ db, sqlite_open (sqlite_file db) = Ok db) →
  _validated_rows csv_bytes minimum = Ok entries → MINIMUM_ROW_COUNT <= minimum →
  is_naive retrieved_at = false → first_four_digit_year <= dt_us retrieved_at < days (last_day + 1) →
  _validate_optional_utc_timestamp official = Ok tt →
  ∃ built, build_snapshot sqlite_file csv_bytes true retrieved_at official minimum = Ok built ∧
    let files := Files.mk (Some (Snapshot.database built)) (Some (Snapshot.metadata built)) in
    MeteoriticalBulletinSnapshot.new sqlite_open files = Ok tt ∧
    ∀ n, 1 <= n <= 999999999 →
      match row_of_code n (csv_rows csv_bytes) with
      | Some row => ∃ e, valid_as row e ∧ MeteoriticalBulletinSnapshot.lookup sqlite_open files (OInt n) = published e
      | None => MeteoriticalBulletinSnapshot.lookup sqlite_open files (OInt n) = Raise (MetbullNotFound "metbull_record_not_found")
      end.
Proof.
  intros Hsql Hrows Hmin Hnaive Htime Hoff. pose proof Hrows as H. apply validated_rows_Ok in H as (recs & -> & Hv & Hnd & Hsent & Hlen).
  pose proof (entries_bounded _ _ Hv Hnd) as Hbound. pose proof (sort_entries_perm recs) as Hp.
  assert (len (sort_entries recs) = len recs) as El by (unfold len; by rewrite Hp).
  assert (NoDup (map Entry.code (sort_entries recs))) as Hnd' by (by rewrite Hp).
  assert (∀ e, e ∈ sort_entries recs → row_checks (bind_entry e) = true ∧ 1 <= Entry.code e <= 999999999 ∧
    record_of_row (Entry.code e) (bind_entry e) = published e) as Hall.
  { intros e He. rewrite Hp in He.
    eapply Forall2_Forall_r in Hv; [|apply Forall_true; intros row e' [k H]; destruct (validated_row_ok _ _ _ H) as (_ & H1 & H2 & H3); exact (conj H2 (conj H1 H3))].
    rewrite Forall_forall in Hv. by apply Hv. }
  set (es := sort_entries recs) in *.
  set (source := bytes_hex (sha256 csv_bytes)).
  destruct (_write_database_Ok es (wide source)) as (db & Hdb & Hrec & Hbuilt & Hval); [by intros e [? _]%Hall|done|by rewrite Hp|].
  destruct (stamp_ok (dt_us retrieved_at) Htime) as (t & Ht & Hexists & Hstamp).
  set (data := sqlite_file db). set (at_ := strftime (dt_us retrieved_at)) in *.
  exists (Snapshot.mk data (encode (metadata_text (description (bytes_hex (sha256 data)) source at_ official (len es))))
            (description (bytes_hex (sha256 data)) source at_ official (len es))).
  split; [|cbv zeta; cbn [Snapshot.database Snapshot.metadata]; split].
  - unfold build_snapshot, _utc_timestamp. rewrite Hrows, Hnaive. cbn [negb raise_when result_bind]. rewrite Hoff. cbn [result_bind].
    fold es source. change [("schema_version", wide (str_int SCHEMA_VERSION)); ("source_url", wide SOURCE_URL);
      ("source_sha256", wide source); ("row_count", wide (str_int (len es)))] with (internal_metadata (wide source) (len es)).
    rewrite Hdb. cbn [result_bind]. rewrite Hbuilt. cbn [result_bind]. reflexivity.
  - apply (built_opens _ _ db _ _ t); [by apply Hsql|by apply Hval|apply sha_text|done|done|done|].
    unfold MINIMUM_ROW_COUNT, _MINIMUM_ROWS in *. lia.
  - intros n Hn. unfold MeteoriticalBulletinSnapshot.lookup, validated_code. rewrite canonical_code.
    rewrite (proj2 (Z.leb_le 1 n)), (proj2 (Z.leb_le n 999999999)) by lia. cbn [andb result_bind Files.database need].
    unfold data. rewrite Hsql. cbn [result_bind except_as]. rewrite Hrec, find_code_bind.
    pose proof (row_of_code_entry n _ _ Hv) as Hfind. rewrite (find_entry_perm n es recs) by done.
    destruct (row_of_code n (csv_rows csv_bytes)) as [row|]; [|by rewrite Hfind].
    destruct Hfind as (e & He & Hfind). exists e. split; [done|]. rewrite Hfind. cbn [fmap option_fmap option_map need result_bind].
    apply find_some in Hfind as [Hin <-%Z.eqb_eq]. apply Hall. rewrite Hp. by apply list_elem_of_In.
Qed.

(** C16: The catalogue answers what the CSV file says. If the rows of a file are accepted, with at least the
    80000 rows that the reader asks for, the update succeeds, the service accepts the two files it writes,
    and every code is answered by the row of the file that has it: with its record if the name is official or a
    relict, with "not official" otherwise, and with "not found" if no row has it. SQLite is assumed to read
    back the databases it wrote. *)
Theorem catalogue_answers_the_csv sqlite_open sqlite_file csv_bytes retrieved_at official minimum entries :
  (∀ db, sqlite_open (sqlite_file db) = Ok db) →
  _validated_rows csv_bytes minimum = Ok entries → MINIMUM_ROW_COUNT <= minimum →
  is_naive retrieved_at = false → first_four_digit_year <= dt_us retrieved_at < days (last_day + 1) →
  _validate_optional_utc_timestamp official = Ok tt →
  ∃ built, build_snapshot sqlite_file csv_bytes true retrieved_at official minimum = Ok built ∧
    let files := Files.mk (Some (Snapshot.database built)) (Some (Snapshot.metadata built)) in
    MeteoriticalBulletinSnapshot.new sqlite_open files = Ok tt ∧
    ∀ n, 1 <= n <= 999999999 →
      match row_of_code n (csv_rows csv_bytes) with
      | Some row => ∃ e, valid_as row e ∧ MeteoriticalBulletinSnapshot.lookup sqlite_open files (OInt n) = published e
      | None => MeteoriticalBulletinSnapshot.lookup sqlite_open files (OInt n) = Raise (MetbullNotFound "metbull_record_not_found")
      end.
Proof. apply update_opens. Qed.

(** ** Plain CSV files

    The reader gives back the rows of a file whose fields need no quotes. *)

Definition plain_code (c : Z) : bool := (32 <=? c) && (c <=? 126) && negb (c =? 34) && negb (c =? 44).
Definition plain_field (s : string) : bool := forallb plain_code (wide s) && (strlen s <? Csv.field_limit).
Definition csv_line (fields : list string) : string := join "," fields ++ newline.
Definition csv_text (rows : list (list string)) : string := foldr (λ row text, csv_line row ++ text) EmptyString rows.
Definition plain_row (row : list string) : bool :=
  forallb plain_field row && match row with s :: _ => s != "" | [] => false end.

Lemma plain_char c : plain_code c = true → Csv.is_line_end c = false ∧ (c =? 34) = false ∧ (c =? 44) = false ∧ (c =? 10) = false ∧ (c =? 13) = false.
Proof. unfold plain_code, Csv.is_line_end. lia. Qed.
Lemma lines_plain u t : ∀ acc, forallb (λ c, negb (Csv.is_line_end c)) u = true →
  Csv.lines_go acc (u ++ 10 :: t)%list = (acc ++ u ++ [10])%list :: Csv.lines_go [] t.
Proof.
  induction u as [|c u IH]; intros acc H; [done|]. cbn [forallb] in H. apply andb_prop in H as [Hc Hu].
  unfold Csv.is_line_end in Hc. cbn [app Csv.lines_go]. assert (c =? 10 = false) as -> by lia. assert (c =? 13 = false) as -> by lia.
  rewrite IH by done. by rewrite <- app_assoc.
Qed.
Lemma in_field u : ∀ f fs rest, forallb plain_code u = true → len f + len u < Csv.field_limit →
  Csv.process_line (Csv.mk Csv.IN_FIELD f fs) (u ++ rest)%list = Csv.process_line (Csv.mk Csv.IN_FIELD (f ++ u)%list fs) rest.
Proof.
  induction u as [|c u IH]; intros f fs rest H Hl; [by rewrite app_nil_r|]. cbn [forallb] in H. apply andb_prop in H as [Hc Hu].
  destruct (plain_char c Hc) as (H1 & _ & H3 & _). unfold len in *. cbn [List.length] in Hl.
  cbn [app Csv.process_line]. unfold Csv.process. cbn [Csv.state_of]. rewrite H1, H3. unfold Csv.add_char. cbn [Csv.field Csv.fields].
  assert (Csv.field_limit <=? len f = false) as -> by (unfold len; lia). cbn [raise_when result_bind].
  rewrite IH; [by rewrite <- app_assoc|done|]. rewrite length_app. simpl. lia.
Qed.
(** A field at its start, up to the comma or the end of the line. *)
Lemma whole_field s fs c : plain_field s = true → c = 44 ∨ c = 10 → ∀ rest,
  Csv.process_line (Csv.mk Csv.START_FIELD [] fs) (wide s ++ c :: rest)%list =
  Csv.process_line (Csv.mk (if c =? 44 then Csv.START_FIELD else Csv.EAT_CRNL) [] (fs ++ [wide s])%list) rest.
Proof.
  unfold plain_field. rewrite andb_true_iff, <- len_wide. intros [Hs Hl] Hc rest. destruct (wide s) as [|d u].
  - destruct Hc as [-> | ->]; done.
  - cbn [forallb] in Hs. apply andb_prop in Hs as [Hd Hu]. destruct (plain_char d Hd) as (H1 & H2 & H3 & _).
    cbn [app Csv.process_line]. unfold Csv.process at 1. cbn [Csv.state_of]. unfold Csv.start_field. rewrite H1, H2, H3.
    unfold Csv.add_char. cbn [Csv.field Csv.fields]. change (Csv.field_limit <=? len []) with false. cbn [raise_when result_bind].
    rewrite in_field; [|done|apply Z.ltb_lt in Hl; unfold len in *; cbn [List.length app] in *; lia]. destruct Hc as [-> | ->]; done.
Qed.
Lemma fields_line xs : ∀ x fs, forallb plain_field (x :: xs) = true →
  Csv.process_line (Csv.mk Csv.START_FIELD [] fs) (wide (join "," (x :: xs)) ++ [10])%list =
    Ok (Csv.mk Csv.START_RECORD [] (fs ++ map wide (x :: xs))%list).
Proof.
  induction xs as [|y xs IH]; intros x fs H; cbn [forallb] in H; apply andb_prop in H as [Hx H].
  - cbn [join]. rewrite whole_field by (done || by right). done.
  - change (join "," (x :: y :: xs)) with (x ++ "," ++ join "," (y :: xs))%string. rewrite !wide_app, <- !app_assoc.
    change (wide ",") with [44]. cbn [app]. rewrite whole_field by (done || by left). change (44 =? 44) with true. cbv iota.
    rewrite IH by done. rewrite <- app_assoc. done.
Qed.
Lemma plain_no_end xs : forallb plain_field xs = true → forallb (λ c, negb (Csv.is_line_end c)) (wide (join "," xs)) = true.
Proof.
  assert (∀ s, plain_field s = true → forallb (λ c, negb (Csv.is_line_end c)) (wide s) = true) as Hf.
  { intros s [H _]%andb_prop. revert H. rewrite !forallb_forall. intros H c Hc. by destruct (plain_char c (H c Hc)) as (-> & _). }
  induction xs as [|x xs IH]; [done|]. cbn [forallb]. intros [Hx H]%andb_prop. destruct xs as [|y xs]; [by apply Hf|].
  change (join "," (x :: y :: xs)) with (x ++ "," ++ join "," (y :: xs))%string. by rewrite !wide_app, !forallb_app, Hf, IH.
Qed.
Fixpoint numbered (k : Z) (rows : list (list string)) : list (Z * result (list ustr)) :=
  match rows with [] => [] | row :: rows' => (k + 1, Ok (map wide row)) :: numbered (k + 1) rows' end.
Lemma reader_csv_text rows : forallb plain_row rows = true → Csv.reader (wide (csv_text rows)) = numbered 0 rows.
Proof.
  unfold Csv.reader, Csv.lines. generalize 0 as k. induction rows as [|row rows IH]; intros k; [done|]. cbn [forallb].
  intros [[Hrow Hne]%andb_prop H]%andb_prop. cbn [csv_text foldr]. fold (csv_text rows). unfold csv_line.
  rewrite string_app_assoc, !wide_app. change (wide newline) with [10]. cbn [app]. rewrite lines_plain by (by apply plain_no_end).
  cbn [app Csv.records numbered]. destruct row as [|x xs]; [done|].
  assert (Csv.process_line Csv.start (wide (join "," (x :: xs)) ++ [10])%list =
    Csv.process_line (Csv.mk Csv.START_FIELD [] []) (wide (join "," (x :: xs)) ++ [10])%list) as ->.
  { destruct x as [|c x]; [done|]. assert (∃ t, join "," (String c x :: xs) = String c t) as [t ->].
    { destruct xs; [by eexists|]. cbn [join]. rewrite string_app_cons. by eexists. }
    cbn [forallb] in Hrow. apply andb_prop in Hrow as [Hx _]. unfold plain_field in Hx. rewrite wide_cons in Hx. cbn [forallb] in Hx.
    rewrite !andb_true_iff in Hx. destruct (plain_char _ (proj1 (proj1 Hx))) as (H1 & _).
    rewrite wide_cons. cbn [app Csv.process_line]. unfold Csv.process, Csv.start. cbn [Csv.state_of]. by rewrite H1. }
  rewrite fields_line by done. cbn [Csv.state_of Csv.is_start Csv.fields app]. by rewrite IH.
Qed.
Lemma plain_written s : plain_field s = true → str_all written s = true.
Proof.
  unfold plain_field. intros [H _]%andb_prop. induction s as [|c s IH]; [done|]. rewrite wide_cons in H. cbn [forallb] in H.
  apply andb_prop in H as [Hc H]. cbn [str_all]. rewrite IH by done. unfold plain_code in Hc. unfold written, printed. lia.
Qed.
Lemma csv_text_written rows : forallb plain_row rows = true → str_all written (csv_text rows) = true.
Proof.
  induction rows as [|row rows IH]; [done|]. cbn [forallb csv_text foldr]. fold (csv_text rows).
  intros [[Hr _]%andb_prop H]%andb_prop. unfold csv_line. rewrite !str_all_app, IH, join_written; [done|done| |done].
  apply Forall_forall. intros s Hs. rewrite forallb_forall in Hr. apply plain_written, Hr. by apply list_elem_of_In.
Qed.
(** The text of a file of plain rows is decoded, and has no byte order mark and no NUL. *)
Lemma decode_csv_text row rows : plain_row row = true → forallb plain_row rows = true →
  blen (encode (csv_text (row :: rows))) = strlen (csv_text (row :: rows)) ∧
  utf8_sig (encode (csv_text (row :: rows))) = Some (wide (csv_text (row :: rows))) ∧
  existsb (λ c, c =? 0) (wide (csv_text (row :: rows))) = false.
Proof.
  intros Hr H. assert (forallb plain_row (row :: rows) = true) as Hall by (cbn [forallb]; by rewrite Hr).
  pose proof (csv_text_written _ Hall) as Hw. destruct (encode_written _ Hw) as (Hl & Hu & _). split; [done|]. split.
  - rewrite <- Hu. unfold utf8_sig. destruct (csv_text (row :: rows)) as [|c t] eqn:E; [done|].
    cbn [str_all] in Hw. apply andb_prop in Hw as [Hc%written_code _].
    destruct (encode_seven c t) as [-> Hcode]; [unfold seven_bits; lia|].
    assert (has_prefix [xef; xbb; xbf] (byte_of_Z (code c) :: encode t) = false) as ->; [|done].
    apply bool_decide_eq_false. cbn [List.length take]. intros [= E1 _]. rewrite E1 in Hcode. change (Z_of_byte xef) with 239 in Hcode. lia.
  - revert Hw. generalize (csv_text (row :: rows)). intros s. induction s as [|c s IH]; [done|]. cbn [str_all].
    intros [Hc%written_code Hs]%andb_prop. rewrite wide_cons. cbn [existsb]. rewrite IH by done. lia.
Qed.

(** ** A file that is accepted *)

Definition sample_row (n : Z) : list string := [str_int n; "N"; ""; "Official"; ""; ""; ""; "T"; ""; ""; ""; ""; ""; ""].
Definition sample_entry (n : Z) : Entry.t := Entry.mk n (wide "N") (wide "Official") (wide "T") "Find" None None None None.
Definition sentinel_row : list string := [
  "87447"; "Northwest Africa 18652"; ""; "Relict"; ""; "2018"; "Western Sahara"; "Relict iron"; ""; ""; ""; ""; ""; ""].
Fixpoint rows_from (n : Z) (count : nat) : list (list string) :=
  match count with O => [sentinel_row] | S count' => sample_row n :: rows_from (n + 1) count' end.
Fixpoint entries_from (n : Z) (count : nat) : list Entry.t :=
  match count with O => [expected_sentinel] | S count' => sample_entry n :: entries_from (n + 1) count' end.

Lemma int_of_str_int n : 0 < n → int_of_ascii (wide (str_int n)) = n.
Proof.
  intros Hn. pose proof (take_integer_str_int n [] Hn I) as H. rewrite app_nil_r in H. unfold take_integer in H.
  destruct (str_int_pos n Hn) as (c & s & E & Hc & _). unfold int_of_ascii.
  assert (expect 48 (wide (str_int n)) = None) as En.
  { rewrite E, wide_cons. unfold in_range in Hc. apply expect_other. lia. }
  rewrite En in H. destruct (take_digits 0 0 (wide (str_int n))) as [[m k] rest]. destruct (k =? 0); [done|]. by injection H as ->.
Qed.
Lemma sample_row_valid n k : 1 <= n <= 999999999 → _validated_row (map wide (sample_row n)) k = Ok (sample_entry n).
Proof.
  intros Hn. unfold _validated_row.
  assert (cell (map wide (sample_row n)) 0 = wide (str_int n)) as -> by reflexivity.
  rewrite canonical_code, int_of_str_int, (proj2 (Z.leb_le 1 n)), (proj2 (Z.leb_le n 999999999)) by lia.
  reflexivity.
Qed.
Lemma sentinel_row_valid k : _validated_row (map wide sentinel_row) k = Ok expected_sentinel.
Proof. reflexivity. Qed.
Lemma sample_row_plain n : 1 <= n <= 999999999 → plain_row (sample_row n) = true.
Proof.
  intros Hn. unfold plain_row, sample_row. cbn [forallb].
  assert (plain_field (str_int n) = true) as ->.
  { unfold plain_field. pose proof (str_int_length n). unfold strlen, Csv.field_limit. apply andb_true_intro. split; [|lia].
    apply forallb_forall. intros c (x & <- & Hx)%in_map_iff. pose proof (str_int_digits n ltac:(lia)) as Hd.
    revert Hx Hd. generalize (str_int n). intros s. induction s as [|d s IH]; [done|]. cbn [str_all]. intros [<-|Hx] [Hd Hs]%andb_prop; [|by apply IH].
    unfold is_digit, in_range in Hd. unfold plain_code. lia. }
  destruct (str_int_pos n) as (c & s & -> & _); [lia|]. reflexivity.
Qed.
Lemma rows_from_plain count : ∀ n, 1 <= n → n + Z.of_nat count <= 87447 → forallb plain_row (rows_from n count) = true.
Proof.
  induction count as [|count IH]; intros n Hn Hc; [reflexivity|]. cbn [rows_from forallb].
  rewrite sample_row_plain, IH by lia. done.
Qed.
Lemma read_sample count : ∀ n k j recs, 1 <= n → n + Z.of_nat count <= 87447 → Forall (λ e, Entry.code e < n) recs →
  read_rows (numbered k (rows_from n count)) j recs None = Ok ((recs ++ entries_from n count)%list, Some expected_sentinel).
Proof.
  assert (∀ n recs, Forall (λ e, Entry.code e < n) recs → n is_in map Entry.code recs = false) as Hfresh.
  { intros n recs H. apply bool_decide_eq_false. intros (e & E & He)%list_elem_of_fmap. rewrite Forall_forall in H.
    specialize (H e He). simpl in *. lia. }
  induction count as [|count IH]; intros n k j recs Hn Hc Hrecs; cbn [rows_from numbered read_rows entries_from].
  - change (len (map wide sentinel_row) != len EXPECTED_HEADER) with false. cbn [raise_when result_bind]. rewrite sentinel_row_valid.
    cbn [result_bind]. change (Entry.code expected_sentinel) with 87447. rewrite Hfresh; [reflexivity|].
    eapply Forall_impl; [exact Hrecs|]. simpl. lia.
  - assert (len (map wide (sample_row n)) != len EXPECTED_HEADER = false) as -> by reflexivity. cbn [raise_when result_bind].
    rewrite sample_row_valid by lia. cbn [result_bind]. change (Entry.code (sample_entry n)) with n. rewrite Hfresh by done.
    cbn [raise_when result_bind]. assert (n =? 87447 = false) as -> by lia. rewrite IH; [by rewrite <- app_assoc|lia|lia|].
    apply Forall_app. split; [|by repeat constructor; simpl; lia]. eapply Forall_impl; [exact Hrecs|]. simpl. lia.
Qed.
Lemma length_entries count : ∀ n, List.length (entries_from n count) = S count.
Proof. induction count as [|count IH]; intros n; [done|]. cbn [entries_from List.length]. by rewrite IH. Qed.
Lemma csv_text_length count : ∀ n, 1 <= n → n + Z.of_nat count <= 87447 →
  strlen (csv_text (rows_from n count)) <= 200 + 60 * Z.of_nat count.
Proof.
  unfold strlen. induction count as [|count IH]; intros n Hn Hc; [vm_compute; congruence|]. cbn [rows_from csv_text foldr].
  fold (csv_text (rows_from (n + 1) count)). rewrite length_string_app. specialize (IH (n + 1) ltac:(lia) ltac:(lia)).
  unfold csv_line, sample_row. cbn [join]. rewrite !length_string_app. pose proof (str_int_length n ltac:(lia)). simpl String.length. lia.
Qed.
Definition sample_csv : bytes := encode (csv_text (EXPECTED_HEADER :: rows_from 1 (Z.to_nat 87446))).
Lemma sample_csv_valid : _validated_rows sample_csv MINIMUM_ROW_COUNT = Ok (sort_entries (entries_from 1 (Z.to_nat 87446))) ∧
  csv_rows sample_csv = data_rows (numbered 1 (rows_from 1 (Z.to_nat 87446))).
Proof.
  unfold sample_csv, _validated_rows, csv_rows. pose proof (Z2Nat.id 87446 ltac:(lia)) as Hid. revert Hid.
  generalize (Z.to_nat 87446). intros count Hid.
  assert (forallb plain_row (rows_from 1 count) = true) as Hp by (apply rows_from_plain; lia).
  destruct (decode_csv_text EXPECTED_HEADER (rows_from 1 count) eq_refl Hp) as (Hl & Hu & Hz). rewrite Hl, Hu.
  assert (1 <= strlen (csv_text (EXPECTED_HEADER :: rows_from 1 count)) <= MAX_DOWNLOAD_BYTES) as Hb.
  { pose proof (csv_text_length count 1 ltac:(lia) ltac:(lia)) as Hs. unfold strlen in *. cbn [csv_text foldr]. fold (csv_text (rows_from 1 count)).
    rewrite length_string_app. assert (String.length (csv_line EXPECTED_HEADER) = 85%nat) as -> by (vm_compute; reflexivity). unfold MAX_DOWNLOAD_BYTES. lia. }
  rewrite (proj2 (Z.leb_le 1 _)), (proj2 (Z.leb_le _ MAX_DOWNLOAD_BYTES)) by lia. cbn [andb negb raise_when need result_bind].
  rewrite Hz. cbn [raise_when result_bind]. rewrite reader_csv_text by (cbn [forallb]; by rewrite Hp). cbn [numbered]. split; [|done].
  rewrite bool_decide_eq_true_2 by reflexivity. cbn [negb raise_when result_bind].
  rewrite read_sample by (lia || constructor). cbn [result_bind app].
  assert (len (entries_from 1 count) = 87447) as -> by (unfold len; rewrite length_entries; lia).
  change (87447 <? MINIMUM_ROW_COUNT) with false. cbn [raise_when result_bind].
  by rewrite bool_decide_eq_true_2.
Qed.

From stdpp Require countable strings.
Notation Countable := countable.Countable.
Notation inj_countable := countable.inj_countable.
Notation inj_countable' := countable.inj_countable'.

(** A format of database files that reads back what it wrote. *)
#[local] Instance byte_countable : Countable byte.
Proof. apply (inj_countable Byte.to_N Byte.of_N). apply Byte.of_to_N. Defined.
#[local] Instance float_eq_dec : EqDecision SpecFloat.spec_float.
Proof. solve_decision. Defined.
#[local] Instance float_countable : Countable SpecFloat.spec_float.
Proof.
  apply (inj_countable'
    (λ x, match x with
          | SpecFloat.S754_zero s => (1%Z, s, 1%positive, 0) | SpecFloat.S754_infinity s => (2, s, 1%positive, 0)
          | SpecFloat.S754_nan => (3, false, 1%positive, 0) | SpecFloat.S754_finite s m e => (4, s, m, e) end)
    (λ '(k, s, m, e), if k =? 1 then SpecFloat.S754_zero s else if k =? 2 then SpecFloat.S754_infinity s
                      else if k =? 3 then SpecFloat.S754_nan else SpecFloat.S754_finite s m e)).
  by intros [].
Defined.
#[local] Instance value_eq_dec : EqDecision Sqlite.value.
Proof. solve_decision. Defined.
#[local] Instance value_countable : Countable Sqlite.value.
Proof.
  apply (inj_countable'
    (λ v, match v with
          | Sqlite.NULL => inl (inl tt) | Sqlite.INTEGER n => inl (inr n) | Sqlite.REAL x => inr (inl (inl x))
          | Sqlite.TEXT s => inr (inl (inr s)) | Sqlite.BLOB b => inr (inr b) end)
    (λ x : (() + Z) + ((SpecFloat.spec_float + ustr) + bytes), match x with
          | inl (inl _) => Sqlite.NULL | inl (inr n) => Sqlite.INTEGER n | inr (inl (inl x)) => Sqlite.REAL x
          | inr (inl (inr s)) => Sqlite.TEXT s | inr (inr b) => Sqlite.BLOB b end)).
  by intros [].
Defined.
#[local] Instance row_eq_dec : EqDecision Sqlite.row.
Proof. solve_decision. Defined.
#[local] Instance row_countable : Countable Sqlite.row.
Proof.
  apply (inj_countable' (λ '(Sqlite.mk_row a b c d e f g h i), (a, b, c, d, e, f, g, h, i))
    (λ '(a, b, c, d, e, f, g, h, i), Sqlite.mk_row a b c d e f g h i)).
  by intros [].
Defined.
#[local] Instance database_eq_dec : EqDecision Sqlite.database.
Proof. solve_decision. Defined.
#[local] Instance database_countable : Countable Sqlite.database.
Proof.
  apply (inj_countable' (λ '(Sqlite.mk a b c d e f g), (a, b, c, d, e, f, g)) (λ '(a, b, c, d, e, f, g), Sqlite.mk a b c d e f g)).
  by intros [].
Defined.
Fixpoint bits (p : positive) : bytes :=
  match p with xH => [] | xO p' => x00 :: bits p' | xI p' => x01 :: bits p' end.
Fixpoint of_bits (b : bytes) : positive :=
  match b with [] => xH | x :: b' => if Byte.eqb x x00 then xO (of_bits b') else xI (of_bits b') end.
Definition sample_file (db : Sqlite.database) : bytes := bits (countable.encode db).
Definition sample_open (data : bytes) : result Sqlite.database :=
  need (DatabaseError "file is not a database") (countable.decode (of_bits data)).
Lemma sample_open_file db : sample_open (sample_file db) = Ok db.
Proof.
  unfold sample_open, sample_file. assert (∀ p, of_bits (bits p) = p) as -> by (induction p; simpl; congruence).
  by rewrite countable.decode_encode.
Qed.

Lemma row_of_sample count : ∀ n m k, 1 <= n → n + Z.of_nat count <= 87447 → n <= m < n + Z.of_nat count →
  row_of_code m (data_rows (numbered k (rows_from n count))) = Some (map wide (sample_row m)).
Proof.
  induction count as [|count IH]; intros n m k Hn Hc Hm; [lia|].
  cbn [rows_from numbered data_rows omap list_omap snd]. unfold row_of_code. cbn [List.find].
  assert (cell (map wide (sample_row n)) 0 = wide (str_int n)) as -> by reflexivity. rewrite int_of_str_int by lia.
  destruct (Z.eqb_spec n m) as [->|Hne]; [done|]. apply IH; lia.
Qed.
Lemma catalogue_answers_the_csv_witness : ∃ built,
  build_snapshot sample_file sample_csv true (utc 0) None MINIMUM_ROW_COUNT = Ok built ∧
  MeteoriticalBulletinSnapshot.lookup sample_open
    (Files.mk (Some (Snapshot.database built)) (Some (Snapshot.metadata built))) (OInt 17) = published (sample_entry 17).
Proof.
  destruct sample_csv_valid as [Hv Hr].
  destruct (catalogue_answers_the_csv sample_open sample_file sample_csv (utc 0) None MINIMUM_ROW_COUNT _
    sample_open_file Hv ltac:(done) eq_refl ltac:(vm_compute; split; congruence) eq_refl) as (built & Hb & _ & Hl).
  exists built. split; [exact Hb|]. specialize (Hl 17 ltac:(lia)). rewrite Hr, row_of_sample in Hl by lia.
  destruct Hl as (e & [k He] & ->). rewrite sample_row_valid in He by lia. by injection He as <-.
Defined.

(** ** Interrupted updates *)

Lemma bytes_hex_inj a b : bytes_hex a = bytes_hex b → a = b.
Proof. intros H. apply (f_equal bytes_fromhex) in H. rewrite !bytes_fromhex_hex in H. by injection H. Qed.
Lemma check_other_database old new raw metadata : check_metadata old raw = Ok metadata → sha256 new ≠ sha256 old →
  check_metadata new raw = Raise (MetbullUnavailable "metbull_snapshot_hash_mismatch").
Proof.
  intros H Hne. unfold check_metadata in *. destruct raw as [| | | | | |fields]; try done.
  repeat lazymatch type of H with
  | result_bind ?r _ = Ok _ => let a := fresh "a" in let E := fresh "E" in
      apply result_bind_Ok in H as (a & E & H); rewrite E; cbn [result_bind]
  end.
  apply result_bind_Ok in H as (u & Eh & _). apply raise_when_Ok, negb_false_iff, bool_decide_eq_true in Eh as <-.
  rewrite bool_decide_eq_false_2; [done|]. intros Hw%wide_inj%bytes_hex_inj. done.
Qed.

(** There are files that the service accepts. *)
Lemma catalogue_opens_sample : ∃ data text, MeteoriticalBulletinSnapshot.new sample_open (Files.mk (Some data) (Some text)) = Ok tt.
Proof.
  destruct sample_csv_valid as [Hv _].
  destruct (update_opens sample_open sample_file sample_csv (utc 0) None MINIMUM_ROW_COUNT _
    sample_open_file Hv ltac:(done) eq_refl ltac:(vm_compute; split; congruence) eq_refl) as (built & _ & Hopen & _).
  by eexists _, _.
Qed.
(** C17: An update that is interrupted leaves nothing that is half new. While the two files are replaced, a
    service that starts sees the old files, the new ones, or a database that does not belong to the
    description; the last is refused with [metbull_snapshot_hash_mismatch] (unless the two databases have
    one SHA-256 digest). *)
Theorem interrupted_update_is_refused sqlite_open files built old :
  MeteoriticalBulletinSnapshot.new sqlite_open files = Ok tt → Files.database files = Some old →
  sha256 (Snapshot.database built) ≠ sha256 old →
  ∀ state, state ∈ replacements files built →
    state = files ∨ state = Files.mk (Some (Snapshot.database built)) (Some (Snapshot.metadata built)) ∨
    MeteoriticalBulletinSnapshot.new sqlite_open state = Raise (MetbullUnavailable "metbull_snapshot_hash_mismatch").
Proof.
  intros Hnew Hold Hne state Hstate. unfold replacements in Hstate.
  apply elem_of_cons in Hstate as [->|Hstate]; [by left|]. apply elem_of_cons in Hstate as [->|Hstate];
    [right; right|apply list_elem_of_singleton in Hstate as ->; right; by left].
  unfold MeteoriticalBulletinSnapshot.new in *. apply except_as_Ok, result_bind_Ok in Hnew as ([metadata data] & Hload & _).
  unfold _load_metadata in *. rewrite Hold in Hload. cbn [Files.metadata Files.database].
  destruct (Files.metadata files) as [text|]; [|done].
  apply result_bind_Ok in Hload as (u & -> & Hload). apply result_bind_Ok in Hload as (s & -> & Hload).
  cbn [result_bind].   apply result_bind_Ok in Hload as (raw & -> & Hload). cbn [result_bind]. apply result_bind_Ok in Hload as (m & Hm & _). cbn [result_bind].
  by rewrite (check_other_database _ _ _ _ Hm Hne).
Qed.
Lemma interrupted_update_is_refused_witness : ∃ files built,
  MeteoriticalBulletinSnapshot.new sample_open files = Ok tt ∧ Snapshot.metadata built = [] ∧
  ∀ state, state ∈ replacements files built →
    state = files ∨ state = Files.mk (Some (Snapshot.database built)) (Some (Snapshot.metadata built)) ∨
    MeteoriticalBulletinSnapshot.new sample_open state = Raise (MetbullUnavailable "metbull_snapshot_hash_mismatch").
Proof.
  destruct (catalogue_opens_sample) as (old & metadata & Hnew).
  assert (∃ data, sha256 data ≠ sha256 old) as (data & Hne).
  { destruct (decide (sha256 [] = sha256 old)) as [E|E]; [exists [x00]; rewrite <- E; vm_compute; congruence|by exists []]. }
  exists (Files.mk (Some old) (Some metadata)), (Snapshot.mk data [] []). split; [exact Hnew|]. split; [done|].
  by apply (interrupted_update_is_refused sample_open (Files.mk (Some old) (Some metadata)) (Snapshot.mk data [] []) old).
Defined.
