(* ===== verification/TaskHttp.v ===== *)
(** * The task endpoint

    [app/tasks/http.py]: the route that the task queue calls with a dispatched task.  The
    worker and the dispatch coordinator are parameters, as they are in the code; so is
    pydantic's reading of a UUID field, of which the model states only what the code
    declares: strict positive generations and no extra fields. *)
From S2P Require Import Prelude PyStr PyObject Url Session Tasks.

Open Scope string_scope.
Open Scope Z_scope.

Definition _MAX_TASK_BODY : Z := 128.

Module Request.
Record t := mk {
  content_type : option string; content_length : option string;
  taskname : option string; queuename : option string; body : bytes }.
End Request.

(** [run_specific(job_id, generation)] *)
Definition SpecificWorker : Type := string → Z → M bool.

Module TaskPayload.
Record t := mk { job_id : uuid; generation : Z }.

Section Validate.
Context (uuid_field : obj → option uuid).

Definition known_field (key : ustr) : bool := (key == wide "job_id") || (key == wide "generation").
(** [model_validate(decoded)]; [None] is the [ValidationError]. *)
Definition model_validate (decoded : obj) : option t :=
  match decoded with
  | ODict fields =>
      if negb (forallb (λ kv, known_field kv.1) fields) then None
      else
        value ← get_key "job_id" fields;
        job_id ← uuid_field value;
        match get_key "generation" fields with
        | Some (OInt generation) =>
            if (1 <=? generation) && (generation <=? 999999999) then Some (mk job_id generation) else None
        | _ => None
        end
  | _ => None
  end.
End Validate.
End TaskPayload.

(** [value.partition(sep)[0]] and [value.rsplit(sep, 1)[-1]] *)
Definition before_first (c : ascii) (s : string) : string := let '(before, _, _) := partition (is_char c) s in before.
Definition last_segment (c : ascii) (s : string) : string := snd (after_last (is_char c) s).

Definition invalid : exn := HTTPException 400 "invalid task request".

Section Endpoint.
Context (uuid_field : obj → option uuid).
Context (worker : SpecificWorker) (creator : TaskCreator) (expected_queue : string).

(** The checks of the route: the job and the generation that the request asks for. *)
Definition accept (request : Request.t) : result TaskPayload.t :=
  let content_type := lower (strip is_unicode_space (before_first ";" (default "" (Request.content_type request)))) in
  try! declared_length := need invalid (parse_int (default "" (Request.content_length request))) in
  check! raise_when ((content_type != "application/json") ||
                     negb ((1 <=? declared_length) && (declared_length <=? _MAX_TASK_BODY)) ||
                     (default "" (Request.queuename request) != expected_queue)) invalid in
  let body := Request.body request in
  check! raise_when ((blen body != declared_length) || (_MAX_TASK_BODY <? blen body)) invalid in
  try! decoded := except_as is_decode_error invalid (loads body) in
  try! payload := need invalid (TaskPayload.model_validate uuid_field decoded) in
  try! expected_name := deterministic_task_name (TaskPayload.job_id payload) (TaskPayload.generation payload) in
  check! raise_when (last_segment "/" (default "" (Request.taskname request)) != expected_name) invalid in
  Ok payload.

(** [run_task]; the value is the status of the response. *)
Definition run_task (request : Request.t) : M Z :=
  let! payload := lift (accept request) in
  do! try_except
    (do! worker (str_uuid (TaskPayload.job_id payload)) (TaskPayload.generation payload) in
     do! TaskDispatchCoordinator.reconcile creator 100 None in
     ret tt)
    (λ e, match e with
          | SpecificJobRetryable _ => Some (raise (HTTPException 503 "task retry required"))
          | TaskDispatchUnavailable _ => Some (raise (HTTPException 503 "task dispatch unavailable"))
          | _ => None
          end) in
  ret 204.
(** [GET /health/live]: the [status] of the response *)
Definition health_live : string := "ok".
End Endpoint.

(** ** The endpoint accepts what the dispatcher sends

    A payload is at most 128 bytes and is read back as the job and the generation it was made
    for; the endpoint runs exactly that job. *)
From S2P Require Import Prelude PyStr PyObject Uuid Digits JsonFacts Json JsonText Url Domain Ports Db Session Tasks.

Open Scope string_scope.
Open Scope Z_scope.

(** ** Texts *)

Lemma length_encode_ascii s : str_all (λ c, code c <? 128) s = true → List.length (encode s) = String.length s.
Proof.
  induction s as [|c s IH]; [done|]. simpl. intros [-> Hs]%andb_prop. simpl. f_equal. by apply IH.
Qed.
Lemma lower_id s : str_all (λ c, (lower_char c =? c)%char) s = true → lower s = s.
Proof.
  unfold lower. induction s as [|c s IH]; [done|]. cbn [str_all str_map].
  intros [->%Ascii.eqb_eq Hs]%andb_prop. f_equal. by apply IH.
Qed.
Lemma contains_absent d p t :
  str_exists (λ c, (c =? d)%char) p = true → str_all (λ c, negb (c =? d)%char) t = true → str_contains p t = false.
Proof.
  intros Hp. assert (∀ t, str_all (λ c, negb (c =? d)%char) t = true → String.prefix p t = false) as Hx.
  { induction p as [|c p IH]; intros [|e u] Ht; try done. simpl in *.
    apply andb_prop in Ht as [He Ht]. destruct (ascii_dec c e) as [->|]; [|done].
    apply orb_prop in Hp as [Hp|Hp]; [by rewrite Hp in He|]. by apply IH. }
  induction t as [|e t IH]; intros Ht; cbn [str_contains]; unfold startswith; rewrite (Hx _ Ht); [done|].
  simpl in Ht. apply andb_prop in Ht as [_ Ht]. by apply IH.
Qed.
Lemma length_substring n m s : (n + m <= String.length s)%nat → String.length (String.substring n m s) = m.
Proof.
  revert n m. induction s as [|c s IH]; intros n m H; simpl in *; [destruct n, m; simpl; lia|].
  destruct n; [destruct m; [done|]; simpl; f_equal; apply IH; lia|apply IH; lia].
Qed.

Section Payload.
Context (job_id : uuid) (generation : Z) (valid : 1 <= generation <= 999999999).

Definition payload_text : string :=
  "{" ++ char_str 34 ++ "generation" ++ char_str 34 ++ ":" ++ str_int generation ++ "," ++
  char_str 34 ++ "job_id" ++ char_str 34 ++ ":" ++ char_str 34 ++ str_uuid job_id ++ char_str 34 ++ "}".
Definition payload_object : obj :=
  ODict [(wide "generation", OInt generation); (wide "job_id", OStr (wide (str_uuid job_id)))].

Lemma str_uuid_plain : str_all plain (str_uuid job_id) = true.
Proof.
  eapply str_all_impl, str_uuid_chars. intros c. by destruct c as [[] [] [] [] [] [] [] []].
Qed.
Lemma generation_length : 1 <= strlen (str_int generation) <= 9.
Proof.
  destruct (str_int_short generation) as (c & s & -> & _ & Hs); [lia|].
  rewrite (proj2 (Z.leb_le generation _)) in Hs by lia.
  apply andb_prop in Hs as [[_ Hs%Nat.leb_le]%andb_prop _]. unfold strlen. cbn [String.length]. lia.
Qed.

Lemma sort_two {A} k k' (a b : A) : str_leb k k' = true → sort_fields [(k, a); (k', b)] = [(k, a); (k', b)].
Proof. intros H. unfold sort_fields. simpl. by rewrite H. Qed.
Lemma dumps_payload :
  dumps_compact true (JObj (sort_fields [("generation", JInt generation); ("job_id", JStr (str_uuid job_id))]))
  = payload_text.
Proof.
  unfold dumps_compact, payload_text. rewrite sort_two by reflexivity.
  cbn [dumps map fst snd]. rewrite sort_two by reflexivity. cbn [map join fst snd].
  unfold quote. rewrite (escape_plain (str_uuid _)) by apply str_uuid_plain.
  rewrite !string_app_assoc. reflexivity.
Qed.

Lemma loads_payload : loads (encode payload_text) = Ok payload_object.
Proof.
  pose proof generation_length. rewrite <- dumps_payload, <- (string_app_nil_r (dumps_compact _ _)).
  rewrite sort_two, loads_dumps; [|simpl; lia|by left|done].
  cbn [obj_of map fst snd]. by rewrite sort_two.
Qed.

(** The text of a payload: lower-case letters, digits and punctuation. *)
Definition payload_char (c : ascii) : bool :=
  (code c <? 128) && (lower_char c =? c)%char && negb (c =? "k")%char && negb (c =? "@")%char.
Lemma payload_chars : str_all payload_char payload_text = true.
Proof.
  assert (str_all payload_char (str_uuid job_id) = true) as Hu.
  { eapply str_all_impl, str_uuid_chars. intros c. by destruct c as [[] [] [] [] [] [] [] []]. }
  assert (str_all payload_char (str_int generation) = true) as Hg.
  { eapply str_all_impl, (str_int_digits generation ltac:(lia)). intros c. by destruct c as [[] [] [] [] [] [] [] []]. }
  unfold payload_text. rewrite !str_all_app, Hu, Hg. reflexivity.
Qed.
Ltac payload_class H :=
  refine (str_all_impl _ _ _ _ H); unfold payload_char;
  intros ? [[[? ?]%andb_prop ?]%andb_prop ?]%andb_prop; assumption.
Lemma task_payload_ok : task_payload job_id generation = Ok (encode payload_text) ∧ blen (encode payload_text) <= 128.
Proof.
  pose proof generation_length as Hg. pose proof payload_chars as Hc.
  assert (blen (encode payload_text) <= 128) as Hl.
  { unfold blen. rewrite length_encode_ascii by (payload_class Hc).
    unfold payload_text. rewrite !length_string_app, length_str_uuid. unfold strlen in Hg. simpl String.length. lia. }
  split; [|done]. unfold task_payload. rewrite dumps_payload. cbv zeta.
  rewrite (proj2 (Z.ltb_ge 128 _)) by lia.
  rewrite lower_id by (payload_class Hc).
  by rewrite (contains_absent "@"), (contains_absent "k")
    by first [reflexivity | payload_class Hc].
Qed.
End Payload.

(** ** The endpoint *)

Lemma last_segment_name job_id generation taskname : 1 <= generation →
  taskname = task_name job_id generation ∨ (∃ p, taskname = (p ++ "/" ++ task_name job_id generation)%string) →
  last_segment "/" taskname = task_name job_id generation.
Proof.
  intros Hg. assert (after_last (is_char "/") (task_name job_id generation) = (false, task_name job_id generation)) as Hn.
  { assert (str_all (λ c, negb (c =? "/")%char) (task_name job_id generation) = true) as H.
    { unfold task_name. rewrite !str_all_app.
      assert (str_all (λ c, negb (c =? "/")%char) (uuid_hex job_id) = true) as ->
        by (eapply str_all_impl, uuid_hex_lower; intros c; by destruct c as [[] [] [] [] [] [] [] []]).
      assert (str_all (λ c, negb (c =? "/")%char) (str_int generation) = true) as ->
        by (eapply str_all_impl, str_int_digits; [intros c; by destruct c as [[] [] [] [] [] [] [] []]|lia]).
      done. }
    induction (task_name job_id generation) as [|c s IH]; [done|]. simpl in *. apply andb_prop in H as [Hc H].
    rewrite (IH H). unfold is_char. by apply negb_true_iff in Hc as ->. }
  unfold last_segment. revert Hn. generalize (task_name job_id generation). intros name Hn [->|[p ->]]; [by rewrite Hn|].
  assert (after_last (is_char "/") (p ++ "/" ++ name)%string = (true, name)) as ->; [|done].
  induction p as [|c p IH]; [rewrite string_app_nil, string_app_cons, string_app_nil; cbn [after_last]; by rewrite Hn|]. rewrite string_app_cons. cbn [after_last]. by rewrite IH.
Qed.

Section Endpoint.
Context (uuid_field : obj → option uuid) (worker : SpecificWorker) (creator : TaskCreator) (expected_queue : string).
(** What pydantic documents: the canonical text of a UUID is read as that UUID. *)
Context (reads_canonical : ∀ u, 0 <= u < 2 ^ 128 → uuid_field (OStr (wide (str_uuid u))) = Some u).

Lemma model_validate_fields n v :
  TaskPayload.model_validate uuid_field (ODict [(wide "generation", OInt n); (wide "job_id", v)]) =
    (u ← uuid_field v; if (1 <=? n) && (n <=? 999999999) then Some (TaskPayload.mk u n) else None).
Proof. reflexivity. Qed.

(** The request that the queue makes of a task. *)
Definition queue_request (taskname : string) (payload : bytes) : Request.t :=
  Request.mk (Some "application/json") (Some (str_int (blen payload))) (Some taskname) (Some expected_queue) payload.

(** C32: What the dispatcher hands to the queue is what the worker is asked to run: for every job
    and generation there is a payload, of at most 128 bytes, and a name; a request that the
    expected queue makes of them, with the name alone or as the last part of a path, passes all
    checks of the endpoint and is read back as that job and generation; and when the worker and
    the reconciliation return, the answer is 204. *)
Theorem dispatched_task_is_run job_id generation taskname
    (range : 0 <= job_id < 2 ^ 128) (valid : 1 <= generation <= 999999999) :
  ∃ payload name,
    task_payload job_id generation = Ok payload ∧ deterministic_task_name job_id generation = Ok name ∧
    blen payload <= _MAX_TASK_BODY ∧
    (taskname = name ∨ (∃ path, taskname = (path ++ "/" ++ name)%string) →
     accept uuid_field expected_queue (queue_request taskname payload) = Ok (TaskPayload.mk job_id generation) ∧
     ∀ w b w1 r w2, worker (str_uuid job_id) generation w = (Ok b, w1) →
       TaskDispatchCoordinator.reconcile creator 100 None w1 = (Ok r, w2) →
       run_task uuid_field worker creator expected_queue (queue_request taskname payload) w = (Ok 204, w2)).
Proof.
  pose proof (task_payload_ok job_id generation valid) as [Hp Hl].
  exists (encode (payload_text job_id generation)), (task_name job_id generation).
  assert (deterministic_task_name job_id generation = Ok (task_name job_id generation)) as Hn.
  { rewrite deterministic_task_name_spec. rewrite (proj2 (Z.ltb_ge generation 1)), (proj2 (Z.leb_le generation _)) by lia. done. }
  split; [done|]. split; [done|]. split; [exact Hl|]. intros Ht.
  apply last_segment_name in Ht; [|lia].
  assert (1 <= blen (encode (payload_text job_id generation))) as H1
    by (unfold payload_text; rewrite string_app_cons; unfold blen; simpl; lia).
  assert (accept uuid_field expected_queue (queue_request taskname (encode (payload_text job_id generation)))
          = Ok (TaskPayload.mk job_id generation)) as Ha.
  { unfold accept, queue_request. cbn [Request.content_type Request.content_length Request.taskname Request.queuename Request.body from_option id].
    rewrite parse_int_small by lia. cbn [need result_bind].
    replace (lower (strip is_unicode_space (before_first ";" "application/json"))) with "application/json"
      by (vm_compute; reflexivity).
    rewrite !bool_decide_eq_true_2 by done. cbn [negb orb].
    assert ((1 <=? blen (encode (payload_text job_id generation))) = true) as -> by lia.
    assert ((blen (encode (payload_text job_id generation)) <=? _MAX_TASK_BODY) = true) as -> by (unfold _MAX_TASK_BODY; lia).
    assert ((_MAX_TASK_BODY <? blen (encode (payload_text job_id generation))) = false) as -> by (unfold _MAX_TASK_BODY; lia).
    cbn [andb negb raise_when result_bind]. rewrite loads_payload by done. cbn [except_as result_bind].
    assert (TaskPayload.model_validate uuid_field (payload_object job_id generation)
            = Some (TaskPayload.mk job_id generation)) as ->.
    { unfold payload_object. rewrite model_validate_fields, reads_canonical by done. simpl.
      rewrite (proj2 (Z.leb_le 1 _)), (proj2 (Z.leb_le generation _)) by lia. done. }
    cbn [need result_bind TaskPayload.job_id TaskPayload.generation]. rewrite Hn. cbn [result_bind].
    rewrite Ht, bool_decide_eq_true_2 by done. done. }
  split; [exact Ha|]. intros w b w1 r w2 Hw Hr. unfold run_task, lift, bind, try_except. rewrite Ha.
  cbn [TaskPayload.job_id TaskPayload.generation]. rewrite Hw, Hr. done.
Qed.
End Endpoint.

(** The fields as the model reads UUIDs. *)
Definition uuid_text (value : obj) : option uuid :=
  match latin_of (Some value) with Some s => UUID s | None => None end.
Lemma uuid_text_canonical u : 0 <= u < 2 ^ 128 → uuid_text (OStr (wide (str_uuid u))) = Some u.
Proof. intros. unfold uuid_text. rewrite latin_of_wide. by apply UUID_str. Qed.
Lemma dispatched_task_is_run_witness :
  let request name payload := queue_request "work" name payload in
  ∃ payload name, task_payload 7 2 = Ok payload ∧ deterministic_task_name 7 2 = Ok name ∧
    accept uuid_text "work" (request name payload) = Ok (TaskPayload.mk 7 2) ∧
    accept uuid_text "work" (request ("projects/p/" ++ name)%string payload) = Ok (TaskPayload.mk 7 2).
Proof.
  intros request.
  destruct (dispatched_task_is_run uuid_text (λ _ _, ret true) (λ _ _ _, ret tt) "work" uuid_text_canonical 7 2
              (task_name 7 2) ltac:(lia) ltac:(lia)) as (payload & name & Hp & Hn & _ & H).
  destruct (dispatched_task_is_run uuid_text (λ _ _, ret true) (λ _ _ _, ret tt) "work" uuid_text_canonical 7 2
              ("projects/p" ++ "/" ++ task_name 7 2)%string ltac:(lia) ltac:(lia)) as (payload' & name' & Hp' & Hn' & _ & H').
  assert (name = task_name 7 2) as ->.
  { enough (Ok name = Ok (task_name 7 2)) as E by (injection E; auto). rewrite <- Hn. vm_compute. reflexivity. }
  rewrite Hn in Hn'. injection Hn' as <-. rewrite Hp in Hp'. injection Hp' as <-.
  exists payload, (task_name 7 2). split; [exact Hp|]. split; [exact Hn|]. split.
  - apply H. left. reflexivity.
  - apply H'. right. exists "projects/p"%string. reflexivity.
Defined.
