(* ===== verification/Webhooks.v ===== *)
(** * Signed delivery webhooks

    [app/notifications/webhooks.py] and [app/notifications/routes.py]: a request of the email
    provider is checked against the signing secret before its event reaches the store.  The
    store is the protocol [ResendWebhookStore], a parameter as in the code; composition gives
    it [Outbox.SqlResendWebhookStore].  Header texts are Latin-1, as the server decodes them. *)
From S2P Require Import Prelude PyStr PyObject IsoTime Base64 Sha256 Domain Ports Session Url.

Open Scope string_scope.
Open Scope Z_scope.

Definition event_id_char (c : ascii) : bool := is_alnum_ascii c || (c =? "_")%char || (c =? "=")%char || (c =? "-")%char.
Definition _SAFE_EVENT_ID (s : string) : bool := fullmatch_class event_id_char 1 128 s.
Definition event_type_char (c : ascii) : bool := is_lower_az c || (c =? "_")%char.
Definition _SAFE_EVENT_TYPE (s : string) : bool :=
  startswith "email." s && fullmatch_class event_type_char 1 64 (removeprefix "email." s).
Definition provider_id_char (c : ascii) : bool := is_alnum_ascii c || (c =? "_")%char || (c =? "-")%char.
Definition _SAFE_PROVIDER_ID (s : string) : bool := fullmatch_class provider_id_char 1 128 s.
Definition _MAX_WEBHOOK_BYTES : Z := 256 * 1024.
Definition isascii (s : string) : bool := str_all (λ c, code c <? 128) s.

Definition ResendWebhookStore : Type := VerifiedResendEvent.t → bytes → datetime → M WebhookProcessResult.t.

(** [header.split()]: the words between white space. *)
Fixpoint split_words (word : string) (s : string) : list string :=
  let flush := if (word =? "")%string then [] else [word] in
  match s with
  | EmptyString => flush
  | String c s' =>
      if is_unicode_space c then (flush ++ split_words "" s')%list
      else split_words (word ++ String c "") s'
  end.
Definition _v1_signatures (header : string) : list string :=
  omap (λ item,
    match partition (is_char ",") item with
    | (version, Some _, signature) =>
        if (version =? "v1")%string && negb (signature =? "")%string then Some signature else None
    | _ => None
    end) (split_words "" header).

(** [value[key]]; [None] is the [KeyError] or the [TypeError]. *)
Definition subscript (key : string) (value : obj) : option obj :=
  match value with ODict fields => get_key key fields | _ => None end.
Definition replace_zulu (s : ustr) : ustr := flat_map (λ c, if c =? 90 then wide "+00:00" else [c]) s.

Definition _parse_event (raw_body : bytes) (svix_id : string) : result VerifiedResendEvent.t :=
  let invalid := ResendWebhookSignatureError "invalid_resend_webhook_payload" in
  try! payload := except_as is_decode_error invalid (loads raw_body) in
  try! event_type := need invalid (subscript "type" payload) in
  try! created_at := need invalid (subscript "created_at" payload) in
  try! data := need invalid (subscript "data" payload) in
  try! provider_message_id := need invalid (subscript "email_id" data) in
  match latin_of (Some event_type), latin_of (Some provider_message_id), created_at with
  | Some event_type, Some provider_message_id, OStr created_at =>
      check! raise_when (negb (_SAFE_EVENT_TYPE event_type) || negb (_SAFE_PROVIDER_ID provider_message_id)) invalid in
      try! (wall, zone) := need invalid (fromisoformat (replace_zulu created_at)) in
      try! offset := need invalid zone in
      try! event_created_at := astimezone_utc wall offset in
      Ok (VerifiedResendEvent.mk svix_id event_type provider_message_id event_created_at)
  | _, _, _ => Raise invalid
  end.

(** [any(hmac.compare_digest(expected, value) for value in supplied)]: texts that are not
    ASCII cannot be compared. *)
Fixpoint any_equal (expected : string) (supplied : list string) : result bool :=
  match supplied with
  | [] => Ok false
  | value :: supplied' =>
      check! raise_when (negb (isascii value))
        (TypeError "comparing strings with non-ASCII characters is not supported") in
      if (expected =? value)%string then Ok true else any_equal expected supplied'
  end.

Module ResendWebhookService.
Record t := mk { _secret : bytes; _tolerance_seconds : Z }.

(** [__init__] *)
Definition new (signing_secret : string) (tolerance_seconds : Z) : result t :=
  let secret_invalid := ValueError "resend_webhook_secret_invalid" in
  check! raise_when (negb (startswith "whsec_" signing_secret)) secret_invalid in
  try! secret := need secret_invalid (b64decode_strict (removeprefix "whsec_" signing_secret)) in
  check! raise_when ((blen secret <? 16) || negb ((1 <=? tolerance_seconds) && (tolerance_seconds <=? 900)))
    (ValueError "resend_webhook_configuration_invalid") in
  Ok (mk secret tolerance_seconds).

Definition invalid_webhook : exn := ResendWebhookSignatureError "invalid_resend_webhook".
(** The text that the provider signs, and its signature. *)
Definition signed_content (svix_id svix_timestamp : string) (raw_body : bytes) : bytes :=
  (encode (svix_id ++ "." ++ svix_timestamp ++ ".") ++ raw_body)%list.
Definition signature (self : t) (svix_id svix_timestamp : string) (raw_body : bytes) : string :=
  b64encode (hmac_sha256 (_secret self) (signed_content svix_id svix_timestamp raw_body)).

(** All that [process] checks before it calls the store. *)
Definition verify (self : t) (raw_body : bytes) (svix_id svix_timestamp svix_signature : string) (now : datetime)
    : result VerifiedResendEvent.t :=
  check! raise_when (bool_decide (raw_body = []) || (_MAX_WEBHOOK_BYTES <? blen raw_body) || negb (_SAFE_EVENT_ID svix_id))
    invalid_webhook in
  check! raise_when (is_naive now) (ValueError "resend_webhook_time_invalid") in
  try! signed_at := need invalid_webhook (parse_int svix_timestamp) in
  check! raise_when (_tolerance_seconds self <? Z.abs (int_timestamp (dt_us now) - signed_at)) invalid_webhook in
  check! raise_when (negb (isascii svix_timestamp)) (ValueError "UnicodeEncodeError") in
  let expected := signature self svix_id svix_timestamp raw_body in
  try! matches := any_equal expected (_v1_signatures svix_signature) in
  check! raise_when (negb matches) invalid_webhook in
  _parse_event raw_body svix_id.
Definition process (self : t) (store : ResendWebhookStore) (raw_body : bytes)
    (svix_id svix_timestamp svix_signature : string) (now : datetime) : M WebhookProcessResult.t :=
  let! event := lift (verify self raw_body svix_id svix_timestamp svix_signature now) in
  store event (sha256 raw_body) now.
End ResendWebhookService.

(** The route: the value is the [duplicate] field of the response. *)
Definition resend_webhook
    (service : option (bytes → string → string → string → datetime → M WebhookProcessResult.t))
    (svix_id svix_timestamp svix_signature : option string) (raw_body : bytes) : M bool :=
  match service, svix_id, svix_timestamp, svix_signature with
  | Some process, Some svix_id, Some svix_timestamp, Some svix_signature =>
      let! now := now_utc in
      let! result_ := try_except (process raw_body svix_id svix_timestamp svix_signature (utc now))
        (λ e, if is_ValueError e then Some (raise (HTTPException 400 "invalid webhook")) else None) in
      ret (WebhookProcessResult.duplicate result_)
  | _, _, _, _ => raise (HTTPException 400 "invalid webhook")
  end.
