(* ===== verification/Sender.v ===== *)
(** * Sending notifications

    [app/notifications/dispatch.py], [resend.py], [templates.py] and [worker.py]: one message
    is claimed from the outbox, rendered, posted to the email provider, and its outcome is
    recorded.  The HTTP exchange with the provider is a parameter; the outbox and the sender
    are the protocols [NotificationOutbox] and [EmailSender]. *)
From S2P Require Import Prelude PyStr PyObject Domain Ports Session Settings Outbox TaskHttp.

Open Scope string_scope.
Open Scope Z_scope.

(** ** [templates.py] *)

Module RenderedEmail.
Record t := mk { subject : string; text : string }.
End RenderedEmail.

Definition newline : string := String (chr 10) EmptyString.
Definition render_notification (kind : NotificationKind) (order_reference : string) : RenderedEmail.t :=
  match kind with
  | INITIAL_CONFIRMATION => RenderedEmail.mk
      "Your timestamp has its first Bitcoin confirmation"
      ("Your timestamp proof has reached its first Bitcoin confirmation." ++ newline ++ newline ++
       "Order reference: " ++ order_reference ++ newline ++ newline ++
       "Keep your proof bundle in a safe place.")
  | FINAL_CONFIRMATION => RenderedEmail.mk
      "Your timestamp has six Bitcoin confirmations"
      ("Your timestamp proof has reached six Bitcoin confirmations." ++ newline ++ newline ++
       "Order reference: " ++ order_reference ++ newline ++ newline ++
       "This is the final confirmation notice.")
  end.

(** ** [resend.py] *)

Definition _RESEND_ENDPOINT : string := "https://api.resend.com/emails".

Module Response.
Record t := mk { status_code : Z; content_type : option string; content : bytes }.
End Response.
Module EmailRequest.
Record t := mk {
  authorization : string; idempotency_key : string;
  from : string; to : list string; subject : string; text : string }.
End EmailRequest.

Module ResendEmailSender.
Record t := mk { _api_key : string; _sender : string }.

Definition has_newline (s : string) : bool := str_exists (λ c, (code c =? 13) || (code c =? 10)) s.
(** [__init__]; the timeout is in microseconds. *)
Definition new (api_key sender : string) (timeout : Z) : result t :=
  check! raise_when (negb (startswith "re_" api_key) || (512 <? strlen api_key) || has_newline api_key)
    (ValueError "resend_api_key_invalid") in
  check! raise_when (negb ((3 <=? strlen sender) && (strlen sender <=? 254)) || negb (str_contains "@" sender) ||
                     has_newline sender) (ValueError "resend_sender_invalid") in
  check! raise_when (negb ((100000 <=? timeout) && (timeout <=? seconds 30))) (ValueError "resend_timeout_invalid") in
  Ok (mk api_key sender).

Section Send.
Context (post : string → EmailRequest.t → M Response.t) (self : t).

Definition request (message : ClaimedNotification.t) : EmailRequest.t :=
  let rendered := render_notification (ClaimedNotification.kind message) (ClaimedNotification.order_reference message) in
  EmailRequest.mk ("Bearer " ++ _api_key self) (ClaimedNotification.idempotency_key message) (_sender self)
    [ClaimedNotification.recipient message] (RenderedEmail.subject rendered) (RenderedEmail.text rendered).

(** What the answer of the provider says about the message. *)
Definition acceptance (response : Response.t) : result ProviderAcceptance.t :=
  let status := Response.status_code response in
  let ambiguous := ResendRetryableError "resend_acceptance_ambiguous" (Some status) in
  check! raise_when (status != 200)
    (if (status is_in [408; 425; 429]) || (500 <=? status)
     then ResendRetryableError "resend_response_rejected" (Some status)
     else ResendPermanentError "resend_response_rejected" (Some status)) in
  let content_type := lower (strip is_unicode_space (before_first ";" (default "" (Response.content_type response)))) in
  check! raise_when ((content_type != "application/json") || (64 * 1024 <? blen (Response.content response))) ambiguous in
  try! payload := except_as is_ValueError ambiguous (loads (Response.content response)) in
  match latin_of (match payload with ODict fields => get_key "id" fields | _ => None end) with
  | Some message_id =>
      check! raise_when (negb (_SAFE_PROVIDER_ID message_id)) ambiguous in
      Ok (ProviderAcceptance.mk message_id status)
  | None => Raise ambiguous
  end.
Definition send (message : ClaimedNotification.t) : M ProviderAcceptance.t :=
  let! response := try_except (post _RESEND_ENDPOINT (request message))
    (λ e, match e with
          | TransportError _ => Some (raise (ResendRetryableError "resend_request_ambiguous" None))
          | _ => None
          end) in
  lift (acceptance response).
End Send.
End ResendEmailSender.

(** ** [dispatch.py] *)

Definition EmailSender : Type := ClaimedNotification.t → M ProviderAcceptance.t.
Record NotificationOutbox := {
  claim : string → datetime → Z → M (option ClaimedNotification.t);
  record_accepted : ClaimedNotification.t → ProviderAcceptance.t → Z → M unit;
  record_retry : ClaimedNotification.t → Z → Z → string → option Z → M unit;
  record_terminal_failure : ClaimedNotification.t → Z → string → option Z → M unit }.
Definition sql_notification_outbox : NotificationOutbox := {|
  claim := SqlNotificationOutbox.claim;
  record_accepted := SqlNotificationOutbox.record_accepted;
  record_retry := SqlNotificationOutbox.record_retry;
  record_terminal_failure := SqlNotificationOutbox.record_terminal_failure |}.

Section Dispatch.
Context (outbox : NotificationOutbox) (sender : EmailSender) (lease_for : Z).

Definition retry_delay (attempt : Z) : Z := seconds (Z.min 21600 (30 * 2 ^ (attempt - 1))).
(** The outcome of [sender.send(message)], and its record; other exceptions pass. *)
Definition record_outcome (message : ClaimedNotification.t) (now : Z) (outcome : result ProviderAcceptance.t) : M unit :=
  match outcome with
  | Ok acceptance => record_accepted outbox message acceptance now
  | Raise (ResendRetryableError safe_error_code response_status) =>
      record_retry outbox message now (now + retry_delay (ClaimedNotification.attempt message))
        safe_error_code response_status
  | Raise (ResendPermanentError safe_error_code response_status) =>
      record_terminal_failure outbox message now safe_error_code response_status
  | Raise e => raise e
  end.
Definition dispatch_once (worker_id : string) (now : datetime) : M bool :=
  let! message := claim outbox worker_id now lease_for in
  match message with
  | None => ret false
  | Some message => λ w,
      let '(outcome, w1) := sender message w in
      (do! record_outcome message (_aware now) outcome in ret true) w1
  end.
End Dispatch.

(** ** [worker.py] *)

Definition worker_char (c : ascii) : bool := is_alnum_ascii c || (c =? "_")%char || (c =? "-")%char.
Definition _OPAQUE_WORKER_ID (s : string) : bool := fullmatch_head is_alnum_ascii worker_char 127 s.

Module NotificationWorker.
Definition post_init (worker_id : string) : result unit :=
  raise_when (negb (_OPAQUE_WORKER_ID worker_id)) (ValueError "notification_worker_id_must_be_opaque").
Section Run.
Context (worker_id : string) (outbox : NotificationOutbox) (sender : EmailSender) (lease_for : Z).
Definition run_once : M bool :=
  let! now := now_utc in dispatch_once outbox sender lease_for worker_id (utc now).
(** [run_forever], its first rounds *)
Definition run_forever (idle_seconds : Floats.SpecFloat.spec_float) (n : nat) : M unit :=
  do! raise_if (negb (PyFloat.idle_interval idle_seconds)) (ValueError "notification_worker_idle_interval_invalid") in
  rounds n run_once.
End Run.
End NotificationWorker.
