(* ===== verification/Config.v ===== *)
(** * Which settings are accepted

    The validators of [app/config/settings.py], in the order in which they run: the fields one by one,
    then [validate_runtime_gates] on the whole, here cut at its blank lines and at the modes it
    distinguishes.  How the values are read from the environment is pydantic's; a setting is a
    secret when it is one in the code, and a secret is false when its text is empty. *)
From S2P Require Import Prelude PyStr Url Base64 IpAddress Settings Calendars BitcoinRpc Esplora Sender.
Import Settings.

Open Scope string_scope.
Open Scope Z_scope.

Definition truthy (o : option string) : bool := match o with Some s => s != "" | None => false end.
(** [secret.get_secret_value() if secret else ""] and [text or ""] *)
Definition or_empty (o : option string) : string := default "" o.
Fixpoint check_each {A} (check : A → result unit) (l : list A) : result unit :=
  match l with [] => Ok tt | a :: l' => check! check a in check_each check l' end.
Definition between (lo hi n : Z) : bool := (lo <=? n) && (n <=? hi).

(** [parsed.username or parsed.password] *)
Definition has_credentials (u : SplitResult.t) : bool :=
  SplitResult.has_userinfo u &&
  let info := str_take (String.length (SplitResult.netloc u) - String.length (SplitResult.hostinfo u) - 1) (SplitResult.netloc u) in
  negb (info is_in [""; ":"]).

Section Validators.
Context (check_netloc inet_aton : string → bool) (idna_other : string → option string).

(** ** Single fields *)

Definition validate_origin (origin : string) : result unit :=
  check! raise_when ((origin == "*") || str_contains "*" origin) (ValueError "wildcard origins are forbidden") in
  try! parsed := urlsplit check_netloc origin in
  check! raise_when (negb (SplitResult.scheme parsed is_in ["http"; "https"]) ||
                     negb (truthy (SplitResult.hostname parsed)) || has_credentials parsed)
    (ValueError "origins must be absolute HTTP(S) origins without credentials") in
  raise_when (negb (SplitResult.path parsed is_in [""; "/"]) || (SplitResult.query parsed != "") ||
              (SplitResult.fragment parsed != "")) (ValueError "origins cannot include paths, queries, or fragments").
Definition validate_origins : list string → result unit := check_each validate_origin.
Definition validate_proxy_ips : list string → result unit :=
  check_each (λ address, check! raise_when (is_none (ip_address address))
    (ValueError "does not appear to be an IPv4 or IPv6 address") in Ok tt).
Definition validate_product_version (version : string) : result unit :=
  raise_when (negb (between 1 64 (strlen version))) (ValueError "product version must contain 1 through 64 characters").
Definition policy_char (c : ascii) : bool := is_alnum_ascii c || (c =? ".")%char || (c =? "_")%char || (c =? "-")%char.
Definition validate_policy_version (version : string) : result unit :=
  raise_when (negb (fullmatch_class policy_char 1 32 version))
    (ValueError "expected policy versions must contain 1 through 32 safe characters").
Definition validate_fields (self : t) : result unit :=
  check! validate_origins (allowed_origins self) in
  check! validate_product_version (product_version self) in
  check! validate_policy_version (expected_terms_version self) in
  check! validate_policy_version (expected_privacy_version self) in
  validate_proxy_ips (trusted_proxy_ips self).

(** ** The gates *)

Definition remote_environment (self : t) : bool := app_env self is_in [STAGING; PRODUCTION].
Definition fixture_enabled (self : t) : bool :=
  (payment_mode self == PAY_FIXTURE) || (bitcoin_verifier self == BTC_FIXTURE) || (calendar_mode self == CAL_FIXTURE).
Definition phase0_version (version : string) : bool := startswith "phase0" (lower version).
Definition environment_gates (self : t) : result unit :=
  check! raise_when (fixture_enabled self && (app_env self != TEST))
    (ValueError "fixture modes are allowed only when APP_ENV=test") in
  check! (if remote_environment self then
            check! check_each (λ origin, raise_when (negb (startswith "https://" origin))
              (ValueError "staging and production origins must use HTTPS")) (allowed_origins self) in
            raise_when (is_none (database_url self)) (ValueError "database_url is required outside local/test environments")
          else Ok tt) in
  check! match database_url self with
         | Some url =>
             raise_when (remote_environment self &&
                         negb (startswith "postgresql://" url || startswith "postgresql+psycopg://" url))
               (ValueError "staging and production require PostgreSQL")
         | None => Ok tt
         end in
  raise_when ((app_env self == PRODUCTION) &&
              existsb phase0_version [product_version self; expected_terms_version self; expected_privacy_version self])
    (ValueError "production product and policy versions cannot use phase0 values").

Definition pepper_known (self : t) (version : Z) : bool := existsb (λ vp, vp.1 =? version) (token_peppers self).
Definition active_pepper_known (self : t) : bool :=
  match active_token_pepper_version self with Some version => pepper_known self version | None => false end.
Definition checkout_gates (self : t) : result unit :=
  check! raise_when (checkout_enabled self && (payment_mode self == PAY_DISABLED))
    (ValueError "checkout cannot be enabled while payments are disabled") in
  check! check_each (λ vp : Z * string, raise_when ((vp.1 <? 1) || (blen (encode vp.2) <? 32))
    (ValueError "token peppers require a positive version and at least 32 bytes")) (token_peppers self) in
  check! (if payment_mode self != PAY_DISABLED then
            check! raise_when (is_none (database_url self)) (ValueError "database_url is required when payments are enabled") in
            check! raise_when (negb (active_pepper_known self))
              (ValueError "an active strong token pepper is required when payments are enabled") in
            check! raise_when (negb (between 1 100000000 (checkout_amount_minor self)))
              (ValueError "checkout amount must be between 1 and 100000000") in
            check! raise_when (checkout_currency self != "usd") (ValueError "checkout currency must be usd") in
            raise_when (negb (between 300 (90 * 24 * 60 * 60) (token_ttl_seconds self)))
              (ValueError "token TTL must be between five minutes and 90 days")
          else Ok tt) in
  check! raise_when (is_some (active_token_pepper_version self) && negb (active_pepper_known self))
    (ValueError "active token pepper version is not configured") in
  raise_when (stripe_automatic_tax_enabled self) (ValueError "Stripe automatic tax is hard-disabled").

(** The origin of a return URL is one of the allowed ones. *)
Definition return_url_gate (self : t) (checkout_url : string) : result unit :=
  check! raise_when (negb (startswith "https://" checkout_url)) (ValueError "Stripe return URLs must use HTTPS") in
  try! parsed := urlsplit check_netloc checkout_url in
  let checkout_origin := SplitResult.scheme parsed ++ "://" ++ SplitResult.netloc parsed in
  raise_when (negb (checkout_origin is_in allowed_origins self)) (ValueError "Stripe return URL origins must be explicitly allowed").
Definition stripe_gates (self : t) : result unit :=
  if payment_mode self is_in [STRIPE_TEST; STRIPE_LIVE] then
    let live := payment_mode self == STRIPE_LIVE in
    check! raise_when (live && ((app_env self != PRODUCTION) || negb (stripe_live_enabled self)))
      (ValueError "stripe_live requires an explicit live gate in production") in
    check! raise_when (negb live && (negb (app_env self is_in [TEST; STAGING]) || negb (stripe_test_enabled self)))
      (ValueError "stripe_test requires an explicit test gate in test or staging") in
    let key := or_empty (stripe_secret_key self) in
    let webhook := or_empty (stripe_webhook_secret self) in
    let key_mode := if live then "live" else "test" in
    let valid_stripe_config :=
      (startswith ("sk_" ++ key_mode ++ "_") key || startswith ("rk_" ++ key_mode ++ "_") key) &&
      startswith "whsec_" webhook && startswith "price_" (or_empty (stripe_price_id self)) in
    check! raise_when (negb valid_stripe_config)
      (ValueError "Stripe mode requires a matching key, webhook secret, and server-controlled price") in
    check! raise_when (negb (truthy (checkout_success_url self)) || negb (truthy (checkout_cancel_url self)))
      (ValueError "Stripe mode requires server-controlled success and cancel URLs") in
    check! check_each (return_url_gate self) [or_empty (checkout_success_url self); or_empty (checkout_cancel_url self)] in
    check! raise_when (live && stripe_test_enabled self) (ValueError "Stripe test and live gates cannot both be enabled") in
    check! raise_when (negb live && stripe_live_enabled self) (ValueError "Stripe test and live gates cannot both be enabled") in
    raise_when (remote_environment self && (task_dispatch_mode self != CLOUD_TASKS))
      (ValueError "remote paid modes require Cloud Tasks dispatch")
  else
    raise_when (truthy (stripe_secret_key self) || truthy (stripe_webhook_secret self) || truthy (stripe_price_id self) ||
                stripe_test_enabled self || stripe_live_enabled self)
      (ValueError "Stripe configuration is forbidden unless a Stripe payment mode is enabled").

Definition calendar_configuration (self : t) : CalendarConfiguration.t :=
  CalendarConfiguration.mk (calendar_allowlist self) true (calendar_timeout_seconds self).
Definition calendar_gates (self : t) : result unit :=
  if calendar_mode self == CAL_PUBLIC then
    check! raise_when (negb (remote_environment self)) (ValueError "public calendars require staging or production") in
    try! _ := Calendars.validated_urls check_netloc (calendar_configuration self) in Ok tt
  else
    raise_when (bool_decide (calendar_allowlist self ≠ []))
      (ValueError "calendar allowlist is forbidden unless public calendars are enabled").

Definition esplora_configuration (self : t) (minimum_confirmations : Z) : EsploraConfiguration.t :=
  EsploraConfiguration.mk (esplora_provider_urls self) (esplora_timeout_seconds self) minimum_confirmations.
Definition bitcoin_gates (self : t) : result unit :=
  check! match bitcoin_verifier self with
         | BITCOIN_CORE =>
             check! raise_when (negb (remote_environment self)) (ValueError "Bitcoin Core requires staging or production") in
             let username := or_empty (bitcoin_rpc_username self) in
             let password := or_empty (bitcoin_rpc_password self) in
             check! raise_when (is_none (bitcoin_rpc_url self) || (username == "") || (password == ""))
               (ValueError "Bitcoin Core requires explicit RPC URL and credentials") in
             BitcoinCoreRpcTransport.init_check check_netloc (or_empty (bitcoin_rpc_url self)) username password
               (bitcoin_rpc_timeout_seconds self)
         | ESPLORA =>
             check! raise_when (negb (remote_environment self)) (ValueError "Esplora requires staging or production") in
             try! _ := Esplora.validated_urls check_netloc inet_aton idna_other
                         (esplora_configuration self (esplora_minimum_confirmations self)) in
             raise_when (esplora_minimum_confirmations self != 1)
               (ValueError "initial Esplora verification requires exactly one confirmation")
         | BTC_DISABLED | BTC_FIXTURE =>
             raise_when (truthy (bitcoin_rpc_url self) || truthy (bitcoin_rpc_username self) || truthy (bitcoin_rpc_password self))
               (ValueError "Bitcoin RPC configuration is forbidden unless Bitcoin Core is enabled")
         end in
  raise_when ((bitcoin_verifier self != ESPLORA) && bool_decide (esplora_provider_urls self ≠ []))
    (ValueError "Esplora providers are forbidden unless Esplora is enabled").

Definition task_values (self : t) : list (option string) := [
  cloud_tasks_project self; cloud_tasks_location self; cloud_tasks_queue self; cloud_tasks_worker_url self;
  cloud_tasks_service_account_email self; cloud_tasks_audience self].
Definition safe_resource (s : string) : bool :=
  fullmatch_head is_lower_az (λ c, is_lower_az c || is_digit c || (c =? "-")%char) 62 s.
Definition account_char (c : ascii) : bool :=
  is_alnum_ascii c || (c =? ".")%char || (c =? "_")%char || (c =? "%")%char || (c =? "+")%char || (c =? "-")%char.
Definition account_domain : string := ".iam.gserviceaccount.com".
(** The characters before the first at sign, and a name and the fixed domain after it. *)
Definition service_account_pattern (s : string) : bool :=
  match partition (is_char "@") s with
  | (local, Some _, host) =>
      (local != "") && str_all account_char local && endswith account_domain host &&
      (strlen account_domain <? strlen host) && str_all (λ c, is_alnum_ascii c || (c =? ".")%char || (c =? "-")%char) host
  | _ => false
  end.
Definition task_gates (self : t) : result unit :=
  if task_dispatch_mode self == CLOUD_TASKS then
    check! raise_when (is_none (database_url self) || existsb is_none (task_values self))
      (ValueError "Cloud Tasks dispatch requires database and complete queue configuration") in
    check! raise_when (existsb (λ v, negb (safe_resource (or_empty v)))
                         [cloud_tasks_project self; cloud_tasks_location self; cloud_tasks_queue self])
      (ValueError "Cloud Tasks resource identifiers are invalid") in
    check! raise_when (negb (service_account_pattern (or_empty (cloud_tasks_service_account_email self))))
      (ValueError "Cloud Tasks service account email is invalid") in
    try! worker := urlsplit check_netloc (or_empty (cloud_tasks_worker_url self)) in
    try! audience := urlsplit check_netloc (or_empty (cloud_tasks_audience self)) in
    raise_when ((SplitResult.scheme worker != "https") || negb (truthy (SplitResult.hostname worker)) ||
                SplitResult.has_userinfo worker || (SplitResult.query worker != "") || (SplitResult.fragment worker != "") ||
                (SplitResult.path worker != "/internal/tasks/run") ||
                (SplitResult.scheme audience != "https") || negb (truthy (SplitResult.hostname audience)) ||
                SplitResult.has_userinfo audience || negb (SplitResult.path audience is_in [""; "/"]) ||
                (SplitResult.query audience != "") || (SplitResult.fragment audience != ""))
      (ValueError "Cloud Tasks worker URL or audience is invalid")
  else
    raise_when (existsb truthy (task_values self))
      (ValueError "Cloud Tasks configuration is forbidden unless dispatch is enabled").

Definition sender_gates (self : t) : result unit :=
  if resend_sender_mode self == RESEND_SENDER then
    let api_key := or_empty (resend_api_key self) in
    check! raise_when (is_none (database_url self) || (api_key == "") || is_none (resend_sender self))
      (ValueError "Resend sender mode requires database, API key, and sender") in
    try! _ := ResendEmailSender.new api_key (or_empty (resend_sender self)) (resend_api_timeout_seconds self) in Ok tt
  else
    raise_when (truthy (resend_api_key self) || truthy (resend_sender self))
      (ValueError "Resend sender configuration is forbidden unless sender mode is enabled").
Definition webhook_gates (self : t) : result unit :=
  if resend_webhook_mode self == RESEND_WEBHOOK then
    let webhook_secret := or_empty (resend_webhook_secret self) in
    check! raise_when (is_none (database_url self) || (webhook_secret == ""))
      (ValueError "Resend webhook mode requires database and webhook secret") in
    try! decoded := need (ValueError "Resend webhook secret is invalid") (b64decode_strict (removeprefix "whsec_" webhook_secret)) in
    raise_when (negb (startswith "whsec_" webhook_secret) || (blen decoded <? 16)) (ValueError "Resend webhook secret is invalid")
  else
    raise_when (is_some (resend_webhook_secret self))
      (ValueError "Resend webhook secret is forbidden unless webhook mode is enabled").

(** The limit on requests for the price is not among the limits that are checked. *)
Definition limits (self : t) : list Z := [
  checkout_rate_limit self; webhook_rate_limit self; resend_webhook_rate_limit self; status_rate_limit self;
  proof_rate_limit self; rotation_rate_limit self; metbull_rate_limit self].
Definition limit_gates (self : t) : result unit :=
  check! raise_when (existsb (λ limit, limit <? 1) (limits self)) (ValueError "rate limits must be positive") in
  check! raise_when (negb (between 60 600 (stripe_signature_tolerance_seconds self)))
    (ValueError "Stripe signature tolerance must be between 60 and 600 seconds") in
  check! raise_when (negb (between 5 300 (checkout_credential_grace_seconds self)))
    (ValueError "checkout credential grace must be between 5 and 300 seconds") in
  check! raise_when (negb (between (seconds 1) (seconds 30) (stripe_api_timeout_seconds self)))
    (ValueError "Stripe API timeout must be between 1 and 30 seconds") in
  check! raise_when (negb (timeout_in_bounds (calendar_timeout_seconds self)))
    (ValueError "calendar timeout must be between 0.1 and 30 seconds") in
  check! raise_when (negb (timeout_in_bounds (bitcoin_rpc_timeout_seconds self)))
    (ValueError "Bitcoin RPC timeout must be between 0.1 and 30 seconds") in
  check! raise_when (negb (timeout_in_bounds (esplora_timeout_seconds self)))
    (ValueError "Esplora timeout must be between 0.1 and 30 seconds") in
  check! raise_when (negb (timeout_in_bounds (resend_api_timeout_seconds self)))
    (ValueError "Resend API timeout must be between 0.1 and 30 seconds") in
  raise_when (negb (between 1 900 (resend_webhook_tolerance_seconds self)))
    (ValueError "Resend webhook tolerance must be between 1 and 900 seconds").

Definition validate_runtime_gates (self : t) : result unit :=
  check! environment_gates self in
  check! checkout_gates self in
  check! stripe_gates self in
  check! calendar_gates self in
  check! bitcoin_gates self in
  check! task_gates self in
  check! sender_gates self in
  check! webhook_gates self in
  limit_gates self.
(** [Settings(...)] with these values. *)
Definition validate (self : t) : result unit :=
  check! validate_fields self in validate_runtime_gates self.
End Validators.
