(* ===== verification/Http.v ===== *)
(** * The HTTP middleware

    [app/security/http.py] and the formatter of [app/observability/logging.py].  An ASGI
    application is the tree of what it does next: it ends (or raises), it waits for a message, or
    it sends one; what it waits for and how the sending goes are the server's answers.  A middleware is a function on such trees.  The two middlewares with a
    [dispatch] method stand before the next handler of a request. *)
From S2P Require Import Prelude PyStr Json IpAddress Session Store Settings Receipt TaskHttp.

Open Scope string_scope.
Open Scope Z_scope.

Definition Header : Type := string * string.
Inductive Message :=
| HttpRequest (body : bytes) (more_body : bool)
| HttpDisconnect
| ResponseStart (status : Z) (headers : list Header)
| ResponseBody (body : bytes) (more_body : bool).
Inductive ASGIApp :=
| Return (outcome : result unit)
| Receive (k : result Message → ASGIApp)
| Send (message : Message) (k : result unit → ASGIApp).
(** [scope["type"]], the method, the path and the headers, whose names are in lower case. *)
Module Scope.
Record t := mk { type : string; method : string; path : string; headers : list Header }.
End Scope.

Definition SECURITY_HEADERS : list Header := [
  ("cache-control", "no-store");
  ("content-security-policy", "default-src 'none'; frame-ancestors 'none'");
  ("permissions-policy", "camera=(), microphone=(), geolocation=()");
  ("referrer-policy", "no-referrer");
  ("strict-transport-security", "max-age=31536000; includeSubDomains");
  ("cross-origin-resource-policy", "same-origin");
  ("x-content-type-options", "nosniff");
  ("x-frame-options", "DENY")].
Definition _BODY_LIMITS : list (string * string * Z) := [
  ("POST", "/v1/checkout", 4 * 1024);
  ("POST", "/v1/webhooks/stripe", 256 * 1024);
  ("POST", "/v1/webhooks/resend", 256 * 1024)].
Definition BodyLimitExceeded : exn := Other "BodyLimitExceeded".
(** [d.get((method, path))] *)
Definition route_get {A} (method path : string) (d : list (string * string * A)) : option A :=
  snd <$> List.find (λ e, (e.1.1 =? method)%string && (e.1.2 =? path)%string) d.
(** [headers.get(name)] *)
Definition header (name : string) (headers : list Header) : option string :=
  snd <$> List.find (λ h, (h.1 =? name)%string) headers.

(** ** [HttpSecurityMiddleware] *)

(** The messages of [_send_error]: a JSON response with the security headers. *)
Definition error_response (status : Z) (detail : string) : Message * Message :=
  let body := encode ("{" ++ quote false "detail" ++ ":" ++ quote false detail ++ "}") in
  (ResponseStart status (("content-length", str_int (blen body)) :: ("content-type", "application/json") :: SECURITY_HEADERS),
   ResponseBody body false).
(** [_send_error(send, status, detail)] as the last thing that is done. *)
Definition _send_error (send : Message → Message) (status : Z) (detail : string) : ASGIApp :=
  let '(start, body) := error_response status detail in
  Send (send start) (λ r, match r with Raise e => Return (Raise e) | Ok _ => Send (send body) Return end).

(** [secure_send]: what is made of a message that is sent. *)
Definition secure_headers (path : string) (headers : list Header) : list Header :=
  let existing := map (λ h, lower h.1) headers in
  let response_headers := (headers ++ List.filter (λ h, negb (h.1 is_in existing)) SECURITY_HEADERS)%list in
  if path == "/v1/meteorites/metbull"
  then map (λ h, if (lower h.1 =? "cross-origin-resource-policy")%string then (h.1, "cross-origin") else h) response_headers
  else response_headers.
Definition secure_message (path : string) (m : Message) : Message :=
  match m with ResponseStart status headers => ResponseStart status (secure_headers path headers) | _ => m end.
Definition starts (m : Message) : bool := match m with ResponseStart _ _ => true | _ => false end.

(** The application under [limited_receive] and [secure_send], with the bytes received and whether
    the response has started. *)
Fixpoint secured (limit : option Z) (path : string) (received : Z) (response_started : bool) (app : ASGIApp) : ASGIApp :=
  match app with
  | Return (Raise e) =>
      if e == BodyLimitExceeded then
        if response_started then Return (Ok tt)
        else _send_error (secure_message path) 413 "request body too large"
      else Return (Raise e)
  | Return (Ok u) => Return (Ok u)
  | Receive k => Receive (λ r,
      match limit, r with
      | Some limit', Ok (HttpRequest body _) =>
          let received' := received + blen body in
          secured limit path received' response_started
            (k (if limit' <? received' then Raise BodyLimitExceeded else r))
      | _, _ => secured limit path received response_started (k r)
      end)
  | Send m k => Send (secure_message path m) (λ r, secured limit path received (response_started || starts m) (k r))
  end.
Definition HttpSecurityMiddleware (scope : Scope.t) (app : ASGIApp) : ASGIApp :=
  if Scope.type scope != "http" then app else
  let path := Scope.path scope in
  let limit := route_get (Scope.method scope) path _BODY_LIMITS in
  match limit with
  | None => secured limit path 0 false app
  | Some limit' =>
      let media_type := lower (strip is_unicode_space (before_first ";" (default "" (header "content-type" (Scope.headers scope))))) in
      if media_type != "application/json" then _send_error id 415 "unsupported media type" else
      match parse_int (default "0" (header "content-length" (Scope.headers scope))) with
      | None => _send_error id 400 "invalid request"
      | Some content_length =>
          if limit' <? content_length then _send_error id 413 "request body too large"
          else secured limit path 0 false app
      end
  end.

(** ** [RateLimitMiddleware] *)

(** What the middlewares read of a request: the address of the other end of the connection. *)
Module HttpRequestInfo.
Record t := mk { method : string; path : string; client : option string; x_forwarded_for : option string }.
End HttpRequestInfo.

Definition _client_address (request : HttpRequestInfo.t) (trusted_proxies : list string) : string :=
  let direct := default "unknown" (HttpRequestInfo.client request) in
  if negb (direct is_in trusted_proxies) then direct else
  let forwarded := strip is_unicode_space (before_first "," (default "" (HttpRequestInfo.x_forwarded_for request))) in
  match ip_address forwarded with Some address => compressed address | None => direct end.
Definition rate_limits (settings : Settings.t) : list (string * string * (string * Z)) := [
  ("POST", "/v1/checkout", ("checkout", Settings.checkout_rate_limit settings));
  ("GET", "/v1/checkout/price", ("checkout_price", Settings.checkout_price_rate_limit settings));
  ("POST", "/v1/webhooks/stripe", ("webhook", Settings.webhook_rate_limit settings));
  ("POST", "/v1/webhooks/resend", ("resend_webhook", Settings.resend_webhook_rate_limit settings));
  ("GET", "/v1/orders/status", ("status", Settings.status_rate_limit settings));
  ("GET", "/v1/orders/proof", ("proof", Settings.proof_rate_limit settings));
  ("POST", "/v1/orders/rotate-token", ("rotation", Settings.rotation_rate_limit settings));
  ("GET", "/v1/meteorites/metbull", ("metbull", Settings.metbull_rate_limit settings))].

Module RateLimitMiddleware.
Section Dispatch.
Context {Response : Type} (too_many : Response).
(** [dispatch]; [too_many] is the response with the status 429. *)
Definition dispatch (pepper : bytes) (settings : Settings.t) (request : HttpRequestInfo.t) (call_next : M Response) : M Response :=
  match route_get (HttpRequestInfo.method request) (HttpRequestInfo.path request) (rate_limits settings) with
  | Some (endpoint, limit) =>
      let address := _client_address request (Settings.trusted_proxy_ips settings) in
      let! now := now_utc in
      let! allowed := RateLimitStore.hit pepper endpoint address now limit in
      if allowed : bool then call_next else ret too_many
  | None => call_next
  end.
End Dispatch.
End RateLimitMiddleware.

(** ** [SafeRequestLogMiddleware] *)

Definition logged_paths : list string := [
  "/v1/checkout"; "/v1/checkout/price"; "/v1/webhooks/stripe"; "/v1/webhooks/resend"; "/v1/orders/status";
  "/v1/orders/proof"; "/v1/orders/rotate-token"; "/v1/meteorites/metbull"; "/health/live"; "/health/ready"; "/docs";
  "/openapi.json"].
Definition _safe_path (path : string) : string := if path is_in logged_paths then path else "unmatched".
(** A line of the log; the duration is left out. *)
Module LogEntry.
Record t := mk { error : bool; event : string; method : string; path : string; status : Z; request_id : string }.
End LogEntry.
Module SafeRequestLogMiddleware.
(** [dispatch]: the response or the exception of the handler, and the line that is logged; a cancellation
    passes without one. *)
Definition dispatch {Response} (status_code : Response → Z) (request : HttpRequestInfo.t) (call_next : M Response) :
    M (result Response * option LogEntry.t) :=
  let! id := token_bytes 8 in
  λ w,
    let '(r, w') := call_next w in
    let entry error event status :=
      LogEntry.mk error event (HttpRequestInfo.method request) (_safe_path (HttpRequestInfo.path request)) status (bytes_hex id) in
    (Ok (r, match r with
            | Ok response => Some (entry false "request_complete" (status_code response))
            | Raise e => if is_Exception e then Some (entry true "request_failed" 500) else None
            end), w').
End SafeRequestLogMiddleware.

(** ** [SafeJsonFormatter] of [app/observability/logging.py] *)
Module SafeJsonFormatter.
Definition _ALLOWED_FIELDS : list string := ["event"; "method"; "path"; "status"; "duration_ms"; "request_id"].
Definition fields (supplied : list (string * json)) (now : Z) (levelname : string) : list (string * json) :=
  (omap (λ key, match obj_get key supplied with Some v => Some (key, v) | None => None end) _ALLOWED_FIELDS ++
   [("timestamp", JStr (isoformat now)); ("level", JStr (lower levelname))])%list.
(** [format(record)]; [supplied] is [record.safe_fields], without the attribute the empty dict. *)
Definition format (supplied : list (string * json)) (levelname : string) : M string :=
  let! now := now_utc in
  ret (dumps_compact true (JObj (sort_fields (fields supplied now levelname)))).

(** A line has no field but the allowed ones, the time and the level, and nothing that is supplied under
    another name has any influence on it. *)
Lemma fields_allowed supplied now levelname key value : (key, value) ∈ fields supplied now levelname →
  key ∈ ("timestamp" :: "level" :: _ALLOWED_FIELDS)%list.
Proof.
  unfold fields. rewrite elem_of_app. intros [(k & Hk & E)%list_elem_of_omap|H].
  - destruct (obj_get k supplied); [|done]. injection E as -> _. by do 2 apply elem_of_cons, or_intror.
  - repeat (apply elem_of_cons in H as [H|H]; [injection H as -> _; set_solver|]). by apply elem_of_nil in H.
Qed.
Theorem other_fields_unseen supplied supplied' levelname w :
  (∀ key, key ∈ _ALLOWED_FIELDS → obj_get key supplied = obj_get key supplied') →
  format supplied levelname w = format supplied' levelname w.
Proof.
  intros H. unfold format, bind, fields. cbn [now_utc].
  assert (∀ l : list string, (∀ key, key ∈ l → key ∈ _ALLOWED_FIELDS) →
    omap (λ key, match obj_get key supplied with Some v => Some (key, v) | None => None end) l =
    omap (λ key, match obj_get key supplied' with Some v => Some (key, v) | None => None end) l) as Heq.
  { intros l. induction l as [|k l IH]; intros Hl; [done|]. cbn.
    rewrite (H k) by (apply Hl, list_elem_of_here). rewrite IH; [done|]. intros. by apply Hl, list_elem_of_further. }
  by rewrite Heq.
Qed.
End SafeJsonFormatter.

(** ** What the HTTP middleware guarantees, whatever the application does *)
From S2P Require Import Prelude PyStr Json Settings TaskHttp.

Open Scope string_scope.
Open Scope Z_scope.

(** Every message that an application can send. *)
Fixpoint sends (P : Message → Prop) (app : ASGIApp) : Prop :=
  match app with
  | Return _ => True
  | Receive k => ∀ r, sends P (k r)
  | Send m k => P m ∧ ∀ r, sends P (k r)
  end.
(** Applications that do the same. *)
Inductive app_eq : ASGIApp → ASGIApp → Prop :=
| return_eq o : app_eq (Return o) (Return o)
| receive_eq k k' : (∀ r, app_eq (k r) (k' r)) → app_eq (Receive k) (Receive k')
| send_eq m k k' : (∀ r, app_eq (k r) (k' r)) → app_eq (Send m k) (Send m k').
Lemma app_eq_refl app : app_eq app app.
Proof. induction app; by constructor. Qed.

(** ** Headers *)

(** The value that the middleware gives to a security header. *)
Definition secure_value (path name value : string) : string :=
  if (path == "/v1/meteorites/metbull") && (name == "cross-origin-resource-policy") then "cross-origin" else value.
Definition values_of (name : string) (headers : list Header) : list string :=
  map snd (List.filter (λ h, (lower h.1 =? name)%string) headers).
(** A response has every security header, and an embeddable resource says so. *)
Definition secured_response (path : string) (m : Message) : Prop :=
  match m with
  | ResponseStart _ headers => ∀ name value, (name, value) ∈ SECURITY_HEADERS →
      values_of name headers ≠ [] ∧
      (secure_value path name value ≠ value → ∀ v, v ∈ values_of name headers → v = secure_value path name value)
  | _ => True
  end.
(** A response has each security header once, with the value of the middleware. *)
Definition exactly_secured (path : string) (m : Message) : Prop :=
  match m with
  | ResponseStart _ headers => ∀ name value, (name, value) ∈ SECURITY_HEADERS →
      values_of name headers = [secure_value path name value]
  | _ => True
  end.
(** A message that leaves the security headers to the middleware. *)
Definition leaves_headers (m : Message) : Prop :=
  match m with
  | ResponseStart _ headers => ∀ name value, (name, value) ∈ SECURITY_HEADERS → values_of name headers = []
  | _ => True
  end.

Lemma values_of_app name a b : values_of name (a ++ b) = (values_of name a ++ values_of name b)%list.
Proof. unfold values_of. by rewrite List.filter_app, map_app. Qed.
Lemma values_of_existing name headers : name ∈ map (λ h : Header, lower h.1) headers ↔ values_of name headers ≠ [].
Proof.
  unfold values_of. induction headers as [|h headers IH]; simpl; [set_solver|].
  rewrite elem_of_cons. destruct (String.eqb_spec (lower h.1) name) as [->|Hn]; simpl; [naive_solver|].
  rewrite <- IH. naive_solver.
Qed.
(** The security headers by name. *)
Lemma values_of_absent name (l : list Header) : Forall (λ h, lower h.1 = h.1) l → name ∉ map fst l → values_of name l = [].
Proof.
  intros Hl. unfold values_of. induction Hl as [|h l Hh _ IH]; [done|]. cbn [map List.filter]. rewrite not_elem_of_cons. intros [Hn Hm].
  rewrite Hh. destruct (String.eqb_spec h.1 name); [done|by apply IH].
Qed.
Lemma values_of_added name value (existing : list string) (l : list Header) :
  Forall (λ h, lower h.1 = h.1) l → NoDup (map fst l) → (name, value) ∈ l →
  values_of name (List.filter (λ h, negb (h.1 is_in existing)) l) = if name is_in existing then [] else [value].
Proof.
  intros Hl. induction Hl as [|h l Hh Hl IH]; [by intros _ ?%elem_of_nil|]. cbn [map]. intros [Hnot Hdup]%NoDup_cons Hin.
  apply elem_of_cons in Hin as [<-|Hin]; cbn [List.filter fst] in *.
  - assert (∀ f : Header → bool, values_of name (List.filter f l) = []) as Hrest.
    { intros f. apply values_of_absent.
      - apply Forall_forall. intros x [Hx _]%list_elem_of_In%filter_In. rewrite Forall_forall in Hl. by apply Hl, list_elem_of_In.
      - intros (x & -> & [Hx _]%list_elem_of_In%filter_In)%list_elem_of_fmap. apply Hnot, list_elem_of_fmap. exists x. by rewrite list_elem_of_In. }
    case_bool_decide; cbn [negb]; [apply Hrest|]. unfold values_of in *. cbn [List.filter fst]. rewrite Hh, String.eqb_refl. cbn [map snd].
    by rewrite Hrest.
  - assert (h.1 ≠ name) as Hne by (intros <-; apply Hnot, list_elem_of_fmap; by exists (h.1, value)).
    destruct (h.1 is_in existing); cbn [negb]; [by apply IH|]. unfold values_of in *. cbn [List.filter]. rewrite Hh.
    destruct (String.eqb_spec h.1 name); [done|by apply IH].
Qed.
Lemma security_names : Forall (λ h : Header, lower h.1 = h.1) SECURITY_HEADERS ∧ NoDup (map fst SECURITY_HEADERS).
Proof.
  split; [repeat constructor|]. apply (bool_decide_unpack _). by vm_compute.
Qed.
Lemma security_value name value (existing : list string) : (name, value) ∈ SECURITY_HEADERS →
  values_of name (List.filter (λ h, negb (h.1 is_in existing)) SECURITY_HEADERS) = if name is_in existing then [] else [value].
Proof. apply values_of_added; apply security_names. Qed.
Lemma values_of_map path name headers :
  values_of name (if path == "/v1/meteorites/metbull"
                  then map (λ h, if (lower h.1 =? "cross-origin-resource-policy")%string then (h.1, "cross-origin") else h) headers
                  else headers) =
  if (path == "/v1/meteorites/metbull") && (name == "cross-origin-resource-policy")
  then map (λ _, "cross-origin") (values_of name headers) else values_of name headers.
Proof.
  case_bool_decide as Hp; [|done]. cbn [andb].
  unfold values_of. induction headers as [|h headers IH]; simpl; [by case_bool_decide|].
  destruct (String.eqb_spec (lower h.1) "cross-origin-resource-policy") as [E|E]; cbn [fst].
  - rewrite E. destruct (String.eqb_spec "cross-origin-resource-policy" name) as [<-|Hn]; cbn [map snd].
    + rewrite bool_decide_eq_true_2 in * by done. simpl. by rewrite IH.
    + rewrite IH. by rewrite bool_decide_eq_false_2 by done.
  - destruct (String.eqb_spec (lower h.1) name) as [<-|Hn]; cbn [map snd]; [|done].
    rewrite bool_decide_eq_false_2 in * by done. by rewrite IH.
Qed.
Lemma secure_headers_values path name value headers : (name, value) ∈ SECURITY_HEADERS →
  values_of name (secure_headers path headers) =
    (if (path == "/v1/meteorites/metbull") && (name == "cross-origin-resource-policy") then map (λ _, "cross-origin") else id)
      (match values_of name headers with [] => [value] | vs => vs end).
Proof.
  intros Hin. unfold secure_headers. rewrite values_of_map, values_of_app, (security_value _ _ _ Hin).
  match goal with |- context [(values_of name headers ++ ?added)%list] =>
    assert ((values_of name headers ++ added)%list = match values_of name headers with [] => [value] | vs => vs end) as -> end;
    [|by destruct (_ && _)].
  case_bool_decide as H; rewrite values_of_existing in H.
  - destruct (values_of name headers); [done|by rewrite app_nil_r].
  - destruct (values_of name headers); [done|]. by destruct H.
Qed.
Lemma secure_message_secured path m : secured_response path (secure_message path m).
Proof.
  destruct m as [| |status headers|]; try done. intros name value Hin. rewrite (secure_headers_values _ _ value) by done.
  unfold secure_value. destruct (_ && _); unfold id; split.
  - by destruct (values_of name headers).
  - intros _ v (? & -> & _)%list_elem_of_fmap. done.
  - by destruct (values_of name headers).
  - done.
Qed.
Lemma secure_message_exact path m : leaves_headers m → exactly_secured path (secure_message path m).
Proof.
  destruct m as [| |status headers|]; try done. intros Hl name value Hin. rewrite (secure_headers_values _ _ value) by done.
  rewrite (Hl _ _ Hin). unfold secure_value. by destruct (_ && _).
Qed.

(** ** Responses *)

Lemma security_once name value : (name, value) ∈ SECURITY_HEADERS → values_of name SECURITY_HEADERS = [value].
Proof.
  intros Hin. pose proof (security_value name value [] Hin) as H. rewrite bool_decide_eq_false_2 in H by apply not_elem_of_nil.
  exact H.
Qed.
(** The headers of an error response. *)
Lemma error_values status detail name value : (name, value) ∈ SECURITY_HEADERS → ∃ headers,
  (error_response status detail).1 = ResponseStart status headers ∧ values_of name headers = [value].
Proof.
  intros Hin. eexists. split; [reflexivity|].
  assert (name ≠ "content-length" ∧ name ≠ "content-type") as [Hn1 Hn2].
  { assert (Forall (λ h : Header, h.1 ≠ "content-length" ∧ h.1 ≠ "content-type") SECURITY_HEADERS) as H by (repeat constructor; done).
    rewrite Forall_forall in H. apply (H (name, value) Hin). }
  unfold values_of. cbn [List.filter fst].
  change (lower "content-length") with "content-length". change (lower "content-type") with "content-type".
  destruct (String.eqb_spec "content-length" name); [done|]. destruct (String.eqb_spec "content-type" name); [done|].
  by apply security_once.
Qed.
Definition secured_fully (path : string) (m : Message) : Prop := secured_response path m ∧ exactly_secured path m.
Lemma exactly_secured_response path m : exactly_secured path m → secured_response path m.
Proof.
  destruct m; try done. intros H name value Hin. rewrite (H _ _ Hin). split; [done|]. intros _ v. by rewrite list_elem_of_singleton.
Qed.
Lemma error_exact path status detail : exactly_secured path (secure_message path (error_response status detail).1).
Proof.
  simpl. intros name value Hin. rewrite (secure_headers_values _ _ value) by done.
  destruct (error_values status detail name value Hin) as (headers & [= <-] & ->). unfold secure_value. by destruct (_ && _).
Qed.
Lemma raw_error_exact path status detail : path ≠ "/v1/meteorites/metbull" → exactly_secured path (error_response status detail).1.
Proof.
  intros Hp. simpl. intros name value Hin. destruct (error_values status detail name value Hin) as (headers & [= <-] & ->).
  unfold secure_value. by rewrite bool_decide_eq_false_2.
Qed.
Lemma send_error_exact path status detail : sends (exactly_secured path) (_send_error (secure_message path) status detail).
Proof. split; [apply error_exact|]. intros [u|e]; [|done]. by split. Qed.
Lemma send_raw_error_exact path status detail : path ≠ "/v1/meteorites/metbull" →
  sends (exactly_secured path) (_send_error id status detail).
Proof. intros Hp. split; [by apply raw_error_exact|]. intros [u|e]; [|done]. by split. Qed.

Lemma secured_sends (P Q : Message → Prop) limit path app : (∀ m, P m → Q (secure_message path m)) →
  sends Q (_send_error (secure_message path) 413 "request body too large") →
  ∀ received started, sends P app → sends Q (secured limit path received started app).
Proof.
  intros HPQ He. induction app as [o|k IH|m k IH]; intros received started Ha.
  - destruct o as [u|e]; [done|]. cbn [secured]. case_bool_decide; [|done]. by destruct started.
  - cbn [secured sends] in *. intros r. destruct limit as [limit|]; [|by apply IH].
    destruct r as [[body more| | |]|e]; by apply IH.
  - cbn [secured sends] in *. split; [apply HPQ, Ha|]. intros r. by apply IH, Ha.
Qed.
Lemma sends_all app : sends (λ _, True) app.
Proof. induction app; simpl; auto. Qed.
Lemma sends_impl (P Q : Message → Prop) app : (∀ m, P m → Q m) → sends P app → sends Q app.
Proof. intros H. induction app; simpl; [done|auto|]. intros [? ?]. auto. Qed.
Lemma route_metbull method : route_get method "/v1/meteorites/metbull" _BODY_LIMITS = None.
Proof. unfold route_get, _BODY_LIMITS. cbn [List.find fst snd]. by rewrite !andb_false_r. Qed.

(** What the middleware does with a request: an error response of its own, or the secured application. *)
Lemma middleware_cases scope app : Scope.type scope = "http" →
  (Scope.path scope ≠ "/v1/meteorites/metbull" ∧
   ∃ status detail, HttpSecurityMiddleware scope app = _send_error id status detail) ∨
  HttpSecurityMiddleware scope app =
    secured (route_get (Scope.method scope) (Scope.path scope) _BODY_LIMITS) (Scope.path scope) 0 false app.
Proof.
  intros Ht. unfold HttpSecurityMiddleware. rewrite Ht. cbv zeta. rewrite bool_decide_eq_true_2 by done. cbn [negb].
  destruct (route_get (Scope.method scope) (Scope.path scope) _BODY_LIMITS) as [limit|] eqn:Er; [|by right].
  assert (Scope.path scope ≠ "/v1/meteorites/metbull") by (intros E; rewrite E, route_metbull in Er; done).
  destruct (negb _); [left; eauto|]. destruct (parse_int _); [|left; eauto]. destruct (_ <? _); [left; eauto|by right].
Qed.

(** C12: Whatever the application does, and whatever the server hands it, every response to an HTTP request that
    starts under the security middleware, the error responses of the middleware too, carries each of
    the eight security headers, and the catalogue endpoint allows embedding from other origins.  If the
    application leaves these headers alone, each of them is there exactly once, with the value of the
    middleware; no other endpoint than the catalogue can be embedded then. *)
Theorem responses_are_secured (scope : Scope.t) (app : ASGIApp) (http : Scope.type scope = "http") :
  sends (secured_response (Scope.path scope)) (HttpSecurityMiddleware scope app) ∧
  (sends leaves_headers app → sends (exactly_secured (Scope.path scope)) (HttpSecurityMiddleware scope app)).
Proof.
  destruct (middleware_cases scope app http) as [(Hp & status & detail & ->)| ->].
  - split; [|intros _; by apply send_raw_error_exact]. eapply sends_impl; [apply exactly_secured_response|by apply send_raw_error_exact].
  - split.
    + eapply secured_sends; [intros m _; apply secure_message_secured| |apply sends_all].
      eapply sends_impl; [apply exactly_secured_response|apply send_error_exact].
    + apply secured_sends; [apply secure_message_exact|apply send_error_exact].
Qed.
Lemma responses_are_secured_witness :
  let app := Send (ResponseStart 200 [("content-type", "text/plain")]) (λ _, Return (Ok tt)) in
  sends (exactly_secured "/health/live") (HttpSecurityMiddleware (Scope.mk "http" "GET" "/health/live" []) app).
Proof.
  intros app. apply (responses_are_secured (Scope.mk "http" "GET" "/health/live" []) app eq_refl).
  split; [|done]. intros name value Hin. apply values_of_absent; [repeat constructor|].
  assert (Forall (λ h : Header, h.1 ∉ map fst [("content-type", "text/plain")]) SECURITY_HEADERS) as H
    by (apply (bool_decide_unpack _); vm_compute; exact I).
  rewrite Forall_forall in H. exact (H (name, value) Hin).
Defined.

(** ** Bodies *)

(** The application, but for going wrong in any way whatsoever as soon as it is handed more than a number of
    bytes in all. *)
Fixpoint cut (budget : Z) (poison app : ASGIApp) : ASGIApp :=
  match app with
  | Return o => Return o
  | Receive k => Receive (λ r,
      match r with
      | Ok (HttpRequest body _) => if budget <? blen body then poison else cut (budget - blen body) poison (k r)
      | _ => cut budget poison (k r)
      end)
  | Send m k => Send m (λ r, cut budget poison (k r))
  end.
Lemma secured_cut limit path poison app : ∀ budget received started, limit - received <= budget →
  app_eq (secured (Some limit) path received started (cut budget poison app)) (secured (Some limit) path received started app).
Proof.
  induction app as [o|k IH|m k IH]; intros budget received started Hb; [apply app_eq_refl| |].
  - cbn [cut secured]. apply receive_eq. intros r. destruct r as [[body more| | |]|e]; try (by apply IH).
    assert (0 <= blen body) by (unfold blen; lia).
    destruct (limit <? received + blen body) eqn:El.
    + apply IH. lia.
    + destruct (budget <? blen body) eqn:Eb; [lia|]. apply IH. lia.
  - cbn [cut secured]. apply send_eq. intros r. by apply IH.
Qed.

(** C13: The application behind the security middleware is never handed more bytes of a request body than the
    limit of the route, however the body is cut into messages and whatever length it claims to have: an
    application that would go wrong in any way beyond the limit behaves as one that would not.  And a
    request of such a route that is not JSON, whose length is not a number, or that claims to be longer
    than the limit is answered without the application. *)
Theorem body_limit_holds (scope : Scope.t) (limit : Z) (app poison : ASGIApp) (http : Scope.type scope = "http")
    (limited : route_get (Scope.method scope) (Scope.path scope) _BODY_LIMITS = Some limit) :
  app_eq (HttpSecurityMiddleware scope (cut limit poison app)) (HttpSecurityMiddleware scope app) ∧
  let media_type := lower (strip is_unicode_space (before_first ";" (default "" (header "content-type" (Scope.headers scope))))) in
  let length := parse_int (default "0" (header "content-length" (Scope.headers scope))) in
  (media_type ≠ "application/json" ∨ length = None ∨ (∃ n, length = Some n ∧ limit < n) →
   HttpSecurityMiddleware scope app = HttpSecurityMiddleware scope poison).
Proof.
  unfold HttpSecurityMiddleware. rewrite http, limited. cbv zeta. rewrite bool_decide_eq_true_2 by done. cbn [negb]. split.
  - destruct (negb _); [apply app_eq_refl|]. destruct (parse_int _); [|apply app_eq_refl].
    destruct (_ <? _); [apply app_eq_refl|]. apply secured_cut. lia.
  - intros H. case_bool_decide as E; [cbn [negb]|done]. destruct (parse_int _) as [n|] eqn:En; [|done].
    destruct H as [H|[H|(n' & [= <-] & Hn)]]; [done|done|]. by rewrite (proj2 (Z.ltb_lt _ _) Hn).
Qed.
Lemma body_limit_holds_witness :
  let app := Receive (λ _, Return (Ok tt)) in
  let poison := Return (Raise (Other "out of memory")) in
  let headers := [("content-type", "application/json; charset=utf-8"); ("content-length", "1")] in
  app_eq (HttpSecurityMiddleware (Scope.mk "http" "POST" "/v1/checkout" headers) (cut 4096 poison app))
         (HttpSecurityMiddleware (Scope.mk "http" "POST" "/v1/checkout" headers) app).
Proof.
  intros app poison headers.
  apply (body_limit_holds (Scope.mk "http" "POST" "/v1/checkout" headers) 4096 app poison eq_refl eq_refl).
Defined.
