(* ===== verification/Gateway.v ===== *)
(** * The payment gateway

    [app/payments/gateway.py]: the adapter to the Stripe SDK and the signatures of the fixture
    provider.  The SDK is third-party code: its calls are parameters that return the mapping
    the code inspects.  [str(value)] of a float, a list or a mapping, and of a text with a code
    point beyond 255, is a parameter too ([repr]): it matters only in identifiers, which the
    provider never sends so. *)
From S2P Require Import Prelude PyStr PyFloat PyObject Sha256 Domain Ports Session Url Settings Payments Webhooks.

Open Scope string_scope.
Open Scope Z_scope.

Definition STRIPE_API_VERSION : string := "2026-07-29.dahlia".
Definition STRIPE_INTEGRATION_IDENTIFIER : string := "spacerocks_timestamp_checkout_qjvkmzrx".

(** ** Python objects *)

Definition field (key : string) (value : list (ustr * obj)) : obj := default ONone (get_key key value).
(** [value.get(key) if isinstance(value, Mapping) else None] *)
Definition field_of (key : string) (value : obj) : obj :=
  match value with ODict fields => field key fields | _ => ONone end.
(** The truth value of an object. *)
Definition truth (value : obj) : bool :=
  match value with
  | ONone => false
  | OBool b => b
  | OInt n => n != 0
  | OFloat x => negb (SpecFloat.SFeqb x (SpecFloat.S754_zero false))
  | OStr s => match s with [] => false | _ => true end
  | OList l => match l with [] => false | _ => true end
  | ODict fields => match fields with [] => false | _ => true end
  end.
(** [int(value)]; the decimal digits beyond Latin-1 are not read. *)
Definition int_of (value : obj) : result Z :=
  match value with
  | OInt n => Ok n
  | OBool b => Ok (if b then 1 else 0)
  | OFloat x => int_of_float x
  | OStr s => need (ValueError "invalid literal for int()") (s ← latin s; parse_int s)
  | _ => Raise (TypeError "int() argument must be a string, a bytes-like object or a real number")
  end.
(** [int(value) if type(value) is int else None] *)
Definition exact_int (value : obj) : option Z := match value with OInt n => Some n | _ => None end.

(** ** Reading the provider's objects *)

Section Texts.
Context (repr : obj → string).

(** [str(value)] *)
Definition text_of (value : obj) : string :=
  match value with
  | ONone => "None"
  | OBool b => if b then "True" else "False"
  | OInt n => str_int n
  | OStr s => default (repr value) (latin s)
  | _ => repr value
  end.

Definition optional_text (value : obj) : option string := if truth value then Some (text_of value) else None.
Definition _reference_id (value : obj) : option string :=
  match value with
  | OStr _ => Some (text_of value)
  | ODict _ => optional_text (field_of "id" value)
  | _ => None
  end.
Definition _required_string (value : list (ustr * obj)) (key : string) : result string :=
  match field key value with
  | OStr (_ :: _) => Ok (text_of (field key value))
  | _ => Raise (PaymentProviderError "Stripe response is incomplete")
  end.
Definition _stripe_mapping (value : obj) : result (list (ustr * obj)) :=
  match value with
  | ODict fields => Ok fields
  | _ => Raise (PaymentProviderError "Stripe response has an invalid shape")
  end.

(** The refund of an event: its status and its amount. *)
Definition event_refund (event_type : string) (object_data : obj) : option string * option Z :=
  if startswith "refund." event_type then
    (match field_of "status" object_data with ONone => None | status => Some (text_of status) end,
     exact_int (field_of "amount" object_data))
  else if (event_type =? "charge.refunded")%string then
    (match field_of "refunded" object_data with OBool true => Some "succeeded" | _ => None end,
     exact_int (field_of "amount_refunded" object_data))
  else (None, None).
Definition _provider_event (event : list (ustr * obj)) : result ProviderEvent.t :=
  let invalid := PaymentSignatureError "invalid webhook event shape" in
  try! id := need invalid (get_key "id" event) in
  try! type_ := need invalid (get_key "type" event) in
  try! livemode := need invalid (get_key "livemode" event) in
  try! data := need invalid (get_key "data" event) in
  try! object_data := need invalid (subscript "object" data) in
  match livemode, object_data with
  | OBool livemode, ODict _ =>
      let event_type := text_of type_ in
      let (refund_status, refunded_amount) := event_refund event_type object_data in
      Ok {|
        ProviderEvent.event_id := text_of id;
        ProviderEvent.event_type := event_type;
        ProviderEvent.livemode := livemode;
        ProviderEvent.internal_order_id :=
          optional_text (field_of "order_id" (field_of "metadata" object_data));
        ProviderEvent.session_id :=
          if startswith "checkout.session." event_type then Some (text_of (field_of "id" object_data)) else None;
        ProviderEvent.payment_intent_id := _reference_id (field_of "payment_intent" object_data);
        ProviderEvent.refund_status := refund_status;
        ProviderEvent.refunded_amount := refunded_amount |}
  | _, _ => Raise invalid
  end.

(** [for refund in refund_data or []]: the elements of an iterable; those of a text or of a
    mapping are texts. *)
Definition elements (value : obj) : result (list obj) :=
  match value with
  | OList l => Ok l
  | OStr s => Ok (map (λ c, OStr [c]) s)
  | ODict fields => Ok (map (λ kv, OStr kv.1) fields)
  | _ => if truth value then Raise (TypeError "object is not iterable") else Ok []
  end.
(** The amount refunded of the charge, and the status of its refunds. *)
Definition charge_refund (charge : obj) : result (Z * option string) :=
  match charge with
  | ODict fields =>
      let total := default 0 (exact_int (field "amount_refunded" fields)) in
      if 0 <? total then
        try! refunds := elements (field_of "data" (field "refunds" fields)) in
        let statuses := omap (λ refund, match refund with
                                        | ODict r => Some (text_of (field "status" r)) | _ => None end) refunds in
        let succeeded := negb (len statuses =? 0) && forallb (λ s, (s =? "succeeded")%string) statuses in
        Ok (total, Some (if succeeded then "succeeded" else "pending"))
      else Ok (total, None)
  | _ => Ok (0, None)
  end.
(** [except (KeyError, TypeError, ValueError)] *)
Definition is_shape_error (e : exn) : bool :=
  match e with KeyError _ | TypeError _ => true | _ => is_ValueError e end.
Definition incomplete : exn := PaymentProviderError "canonical checkout is incomplete".
(** [session[key]] *)
Definition item_of (key : string) (session : list (ustr * obj)) : result obj := need (KeyError key) (get_key key session).

Definition canonical_fields (session : list (ustr * obj)) (item : list (ustr * obj)) (livemode : bool)
    (metadata : list (ustr * obj)) (price_id : string) : result CanonicalCheckout.t :=
  try! (refunded_amount_total, refund_status) :=
    charge_refund (field_of "latest_charge" (field "payment_intent" session)) in
  try! id := item_of "id" session in
  try! mode := item_of "mode" session in
  try! status := item_of "status" session in
  try! payment_status := item_of "payment_status" session in
  try! amount := item_of "amount_total" session in
  try! amount_total := int_of amount in
  try! currency := item_of "currency" session in
  try! count := item_of "quantity" item in
  try! quantity := int_of count in
  Ok {|
    CanonicalCheckout.session_id := text_of id;
    CanonicalCheckout.payment_intent_id := _reference_id (field "payment_intent" session);
    CanonicalCheckout.livemode := livemode;
    CanonicalCheckout.mode := text_of mode;
    CanonicalCheckout.status := text_of status;
    CanonicalCheckout.payment_status := text_of payment_status;
    CanonicalCheckout.metadata := map (λ '(key, value), (text_of (OStr key), text_of value)) metadata;
    CanonicalCheckout.price_id := price_id;
    CanonicalCheckout.amount_total := amount_total;
    CanonicalCheckout.currency := text_of currency;
    CanonicalCheckout.quantity := quantity;
    CanonicalCheckout.refund_status := refund_status;
    CanonicalCheckout.refunded_amount_total := refunded_amount_total |}.
Definition _canonical_checkout (session : list (ustr * obj)) : result CanonicalCheckout.t :=
  match field_of "data" (field "line_items" session) with
  | OList [ODict item] =>
      match field "metadata" session, _reference_id (field "price" item), field "livemode" session with
      | ODict metadata, Some price_id, OBool livemode =>
          except_as is_shape_error incomplete (canonical_fields session item livemode metadata price_id)
      | _, _, _ => Raise incomplete
      end
  | _ => Raise (PaymentProviderError "canonical checkout must contain exactly one line item")
  end.

End Texts.

(** ** [StripePaymentProvider] *)

(** The calls of the SDK; the arguments of a checkout are those of [create_params]. *)
Record StripeClient := {
  sessions_create : list (string * string) → string → M obj;
  prices_retrieve : string → M obj;
  sessions_retrieve : string → M obj;
  payment_intents_retrieve : string → M obj;
  construct_event : bytes → string → string → Z → M obj }.

Module StripePaymentProvider.
Record t := mk { payment_mode : PaymentMode; livemode : bool; webhook_secret : string }.

(** [__init__] *)
Definition new (secret_key webhook_secret : string) (payment_mode : PaymentMode) : result t :=
  check! raise_when (negb (payment_mode is_in [STRIPE_TEST; STRIPE_LIVE]))
    (ValueError "Stripe provider requires an explicit Stripe payment mode") in
  let key_mode := if payment_mode == STRIPE_LIVE then "live" else "test" in
  check! raise_when (negb (startswith ("sk_" ++ key_mode ++ "_") secret_key ||
                           startswith ("rk_" ++ key_mode ++ "_") secret_key))
    (ValueError "Stripe credential does not match the configured payment mode") in
  check! raise_when (negb (startswith "whsec_" webhook_secret))
    (ValueError "Stripe provider requires a webhook signing secret") in
  Ok (mk payment_mode (payment_mode == STRIPE_LIVE) webhook_secret).

Section Provider.
Context (repr : obj → string) (client : StripeClient) (self : t).

Definition _run (operation : M obj) : M obj :=
  try_except operation (λ e, match e with
    | TimeoutError => Some (raise (PaymentProviderError "Stripe request timed out")) | _ => None end).
(** [try: await self._run(operation) except (TimeoutError, stripe.StripeError)] *)
Definition run_or (failure : string) (operation : M obj) : M (list (ustr * obj)) :=
  let! value := try_except (_run operation) (λ e, match e with
    | TimeoutError | StripeError _ | SignatureVerificationError => Some (raise (PaymentProviderError failure))
    | _ => None end) in
  lift (_stripe_mapping value).
Definition _require_object_mode (value : list (ustr * obj)) (operation : string) : result unit :=
  raise_when match field "livemode" value with OBool b => negb (bool_decide (b = livemode self)) | _ => true end
    (PaymentProviderError ("Stripe " ++ operation ++ " returned an object from the wrong mode")).

Definition create_params (request : HostedCheckoutRequest.t) : list (string * string) := [
  ("mode", "payment"); ("automatic_tax.enabled", "false");
  ("integration_identifier", STRIPE_INTEGRATION_IDENTIFIER);
  ("customer_email", HostedCheckoutRequest.customer_email request);
  ("line_items[0].price", HostedCheckoutRequest.price_id request); ("line_items[0].quantity", "1");
  ("success_url", HostedCheckoutRequest.success_url request);
  ("cancel_url", HostedCheckoutRequest.cancel_url request);
  ("metadata.order_id", HostedCheckoutRequest.internal_order_id request);
  ("payment_intent_data.metadata.order_id", HostedCheckoutRequest.internal_order_id request)].
Definition create_checkout (request : HostedCheckoutRequest.t) (idempotency_key : string) : M HostedCheckoutResult.t :=
  let! session_data := run_or "Stripe checkout creation failed"
    (sessions_create client (create_params request) idempotency_key) in
  do! lift (_require_object_mode session_data "checkout creation") in
  let! session_id := lift (_required_string repr session_data "id") in
  let! checkout_url := lift (_required_string repr session_data "url") in
  ret (HostedCheckoutResult.mk session_id checkout_url).

Definition price_of (price_id : string) (price_data : list (ustr * obj)) : result ProviderPrice.t :=
  let unavailable := PaymentProviderError "Stripe Price is unavailable or invalid" in
  try! id := _required_string repr price_data "id" in
  check! raise_when (id != price_id) unavailable in
  match field "active" price_data, field "unit_amount" price_data with
  | OBool true, OInt amount =>
      check! raise_when ((latin_of (Some (field "type" price_data)) != Some "one_time") ||
                         (amount <=? 0) || (100000000 <? amount) ||
                         (latin_of (Some (field "currency" price_data)) != Some "usd")) unavailable in
      Ok (ProviderPrice.mk price_id amount "usd")
  | _, _ => Raise unavailable
  end.
Definition retrieve_price (price_id : string) : M ProviderPrice.t :=
  let! price_data := run_or "Stripe Price retrieval failed" (prices_retrieve client price_id) in
  do! lift (_require_object_mode price_data "Price retrieval") in
  lift (price_of price_id price_data).

Definition verify_event (raw_body : bytes) (signature : string) (tolerance_seconds : Z) : M ProviderEvent.t :=
  let! event := try_except (construct_event client raw_body signature (webhook_secret self) tolerance_seconds)
    (λ e, match e with
          | SignatureVerificationError => Some (raise (PaymentSignatureError "invalid webhook signature"))
          | _ => if is_ValueError e then Some (raise (PaymentSignatureError "invalid webhook signature")) else None
          end) in
  let! event_data := lift (except_as (λ _, true) (PaymentSignatureError "invalid webhook event shape")
                             (_stripe_mapping event)) in
  let! provider_event := lift (_provider_event repr event_data) in
  do! raise_if (ProviderEvent.livemode provider_event != livemode self)
    (PaymentSignatureError "webhook event mode does not match the configured payment mode") in
  ret provider_event.

Definition retrieve_checkout (session_id : string) : M CanonicalCheckout.t :=
  let! session_data := run_or "Stripe checkout retrieval failed" (sessions_retrieve client session_id) in
  do! lift (_require_object_mode session_data "checkout retrieval") in
  lift (_canonical_checkout repr session_data).

Definition resolve_internal_order_id (event : ProviderEvent.t) : M (option string) :=
  do! raise_if (ProviderEvent.livemode event != livemode self)
    (PaymentProviderError "Stripe event mode does not match the configured payment mode") in
  match ProviderEvent.internal_order_id event, ProviderEvent.payment_intent_id event with
  | Some id, _ => ret (Some id)
  | None, None => ret None
  | None, Some payment_intent_id =>
      let! payment_intent_data := run_or "Stripe PaymentIntent retrieval failed"
        (payment_intents_retrieve client payment_intent_id) in
      do! lift (_require_object_mode payment_intent_data "PaymentIntent retrieval") in
      ret (optional_text repr (field_of "order_id" (field "metadata" payment_intent_data)))
  end.

Definition provider : PaymentProvider := {|
  provider_mode := payment_mode self;
  Payments.create_checkout := create_checkout;
  Payments.retrieve_price := retrieve_price;
  Payments.verify_event := verify_event;
  Payments.resolve_internal_order_id := resolve_internal_order_id;
  Payments.retrieve_checkout := retrieve_checkout |}.
End Provider.
End StripePaymentProvider.

(** ** [FixturePaymentProvider] *)

Module FixturePaymentProvider.
(** The two dictionaries, in insertion order. *)
Definition table (A : Type) : Type := list (string * A).
Definition lookup {A} (key : string) (d : table A) : option A :=
  snd <$> List.find (λ kv, (kv.1 =? key)%string) d.
Fixpoint put {A} (key : string) (value : A) (d : table A) : table A :=
  match d with
  | [] => [(key, value)]
  | (k, v) :: d' => if (k =? key)%string then (k, value) :: d' else (k, v) :: put key value d'
  end.
Record t := mk { signing_secret : bytes; checkouts : table CanonicalCheckout.t; prices : table ProviderPrice.t }.
#[global] Instance eta_t : Eta t := λ p, mk (signing_secret p) (checkouts p) (prices p).
Definition payment_mode : PaymentMode := PAY_FIXTURE.

(** [__init__]; [under_pytest] is ["pytest" in sys.modules]. *)
Definition new (under_pytest : bool) (app_env : AppEnvironment) (signing_secret : bytes) : result t :=
  check! raise_when ((app_env != TEST) || negb under_pytest) (RuntimeError "fixture_payment_forbidden_outside_test") in
  check! raise_when (blen signing_secret <? 32)
    (ValueError "fixture signing secret must contain at least 32 bytes") in
  Ok (mk signing_secret [] []).

Definition retrieve_price (self : t) (price_id : string) : result ProviderPrice.t :=
  need (PaymentProviderError "fixture price is unavailable") (lookup price_id (prices self)).
Definition set_price (self : t) (price_id : string) (amount_minor : Z) (currency : string) : t :=
  self<|prices := put price_id (ProviderPrice.mk price_id amount_minor currency) (prices self)|>.
Definition retrieve_checkout (self : t) (session_id : string) : result CanonicalCheckout.t :=
  need (PaymentProviderError "fixture checkout is missing") (lookup session_id (checkouts self)).
Definition set_checkout (self : t) (checkout : CanonicalCheckout.t) : t :=
  self<|checkouts := put (CanonicalCheckout.session_id checkout) checkout (checkouts self)|>.
Definition create_checkout (self : t) (request : HostedCheckoutRequest.t) (idempotency_key : string)
    : result (HostedCheckoutResult.t * t) :=
  check! raise_when (negb (isascii idempotency_key)) (ValueError "UnicodeEncodeError") in
  let session_id := "cs_test_" ++ str_take 24 (bytes_hex (sha256 (encode idempotency_key))) in
  let checkout := {|
    CanonicalCheckout.session_id := session_id;
    CanonicalCheckout.payment_intent_id := None;
    CanonicalCheckout.livemode := false;
    CanonicalCheckout.mode := "payment";
    CanonicalCheckout.status := "open";
    CanonicalCheckout.payment_status := "unpaid";
    CanonicalCheckout.metadata := [("order_id", HostedCheckoutRequest.internal_order_id request)];
    CanonicalCheckout.price_id := HostedCheckoutRequest.price_id request;
    CanonicalCheckout.amount_total := HostedCheckoutRequest.amount_minor request;
    CanonicalCheckout.currency := HostedCheckoutRequest.currency request;
    CanonicalCheckout.quantity := 1;
    CanonicalCheckout.refund_status := None;
    CanonicalCheckout.refunded_amount_total := 0 |} in
  Ok (HostedCheckoutResult.mk session_id ("https://checkout.stripe.com/c/pay/" ++ session_id),
      set_checkout self checkout).
Definition resolve_internal_order_id (self : t) (event : ProviderEvent.t) : option string :=
  match ProviderEvent.internal_order_id event, ProviderEvent.payment_intent_id event with
  | Some id, _ => Some id
  | None, None => None
  | None, Some payment_intent_id =>
      '(_, checkout) ← List.find (λ kv, bool_decide
        (CanonicalCheckout.payment_intent_id kv.2 = Some payment_intent_id)) (checkouts self);
      lookup "order_id" (CanonicalCheckout.metadata checkout)
  end.

(** [dict(part.split("=", 1) for part in signature.split(","))] *)
Fixpoint split_commas (s : string) (fuel : nat) : list string :=
  match fuel, partition (is_char ",") s with
  | S fuel', (part, Some _, rest) => part :: split_commas rest fuel'
  | _, _ => [s]
  end.
Definition signature_fields (signature : string) : option (table string) :=
  mapM (λ part, match partition (is_char "=") part with
                | (key, Some _, value) => Some (key, value) | _ => None end)
    (split_commas signature (String.length signature)).
(** [fields[key]]: the last value given wins. *)
Definition last_value (key : string) (fields : table string) : option string := lookup key (rev fields).

Definition digest_of (self : t) (timestamp : Z) (raw_body : bytes) : string :=
  bytes_hex (hmac_sha256 (signing_secret self) (encode (str_int timestamp ++ ".") ++ raw_body)).
(** [sign], with the timestamp given, or the reading of [time.time()] in whole seconds. *)
Definition sign (self : t) (raw_body : bytes) (signed_at : Z) : string :=
  "t=" ++ str_int signed_at ++ ",v1=" ++ digest_of self signed_at raw_body.
(** [verify_event], at the reading [now] of [time.time()] in whole seconds. *)
Definition verify_event (repr : obj → string) (self : t) (raw_body : bytes) (signature : string)
    (tolerance_seconds now : Z) : result ProviderEvent.t :=
  let invalid := PaymentSignatureError "invalid webhook signature" in
  try! fields := need invalid (signature_fields signature) in
  try! t := need invalid (last_value "t" fields) in
  try! timestamp := need invalid (parse_int t) in
  try! supplied := need invalid (last_value "v1" fields) in
  check! raise_when (tolerance_seconds <? Z.abs (now - timestamp)) invalid in
  try! matches := any_equal (digest_of self timestamp raw_body) [supplied] in
  check! raise_when (negb matches) invalid in
  try! payload := except_as is_decode_error (PaymentSignatureError "invalid webhook payload") (loads raw_body) in
  match payload with
  | ODict fields =>
      try! event := _provider_event repr fields in
      check! raise_when (ProviderEvent.livemode event)
        (PaymentSignatureError "webhook event mode does not match the configured payment mode") in
      Ok event
  | _ => Raise (PaymentSignatureError "invalid webhook payload")
  end.
End FixturePaymentProvider.
