(* ===== verification/Zip.v ===== *)
(** * ZIP archives of stored files

    The writer of [zipfile.ZipFile(output, "w", allowZip64=False)] for entries that are stored
    without compression in a seekable file, the CRC-32 of [zlib], and a reader. *)
From S2P Require Import Prelude PyStr.

Open Scope Z_scope.

(** ** CRC-32 *)

Definition crc_bit (c : Z) : Z := Z.lxor (Z.shiftr c 1) (if Z.testbit c 0 then 0xEDB88320 else 0).
Definition crc_byte (c : Z) (b : byte) : Z := Nat.iter 8 crc_bit (Z.lxor c (Z_of_byte b)).
Definition crc32 (b : bytes) : Z := Z.lxor (foldl crc_byte 0xFFFFFFFF b) 0xFFFFFFFF.

Example crc32_check : crc32 (encode "123456789") = 0xCBF43926.
Proof. vm_compute. reflexivity. Qed.

(** ** The writer *)

Definition ZIP_STORED : Z := 0.
Definition DEFAULT_VERSION : Z := 20.
Definition ZIP64_LIMIT : Z := 2 ^ 31 - 1.
Definition ZIP_FILECOUNT_LIMIT : Z := 2 ^ 16 - 1.

(** The attributes of a [ZipInfo] with an ASCII name that its user sets. *)
Module ZipInfo.
Record t := mk {
  filename : string; date_time : Z * Z * Z * Z * Z * Z; compress_type : Z; create_system : Z; external_attr : Z }.
End ZipInfo.
(** An entry of the archive: what [ZipFile] computes about a file it wrote. *)
Module ZipEntry.
Record t := mk { info : ZipInfo.t; crc : Z; file_size : Z; header_offset : Z }.
End ZipEntry.

(** [struct.pack] of a little-endian field. *)
Definition u16 (n : Z) : bytes := to_bytes_little 2 n.
Definition u32 (n : Z) : bytes := to_bytes_little 4 n.

Definition dosdate (i : ZipInfo.t) : Z :=
  let '(year, month, day, _, _, _) := ZipInfo.date_time i in
  Z.lor (Z.lor (Z.shiftl (year - 1980) 9) (Z.shiftl month 5)) day.
Definition dostime (i : ZipInfo.t) : Z :=
  let '(_, _, _, hour, minute, second) := ZipInfo.date_time i in
  Z.lor (Z.lor (Z.shiftl hour 11) (Z.shiftl minute 5)) (second / 2).
(** The fields that a file header and a directory entry share. *)
Definition entry_fields (e : ZipEntry.t) : bytes :=
  let i := ZipEntry.info e in
  (u16 0 ++ u16 (ZipInfo.compress_type i) ++ u16 (dostime i) ++ u16 (dosdate i) ++ u32 (ZipEntry.crc e) ++
   u32 (ZipEntry.file_size e) ++ u32 (ZipEntry.file_size e) ++ u16 (strlen (ZipInfo.filename i)) ++ u16 0)%list.
Definition local_magic : Z := 0x04034b50.
Definition central_magic : Z := 0x02014b50.
Definition end_magic : Z := 0x06054b50.
(** [ZipInfo.FileHeader] *)
Definition file_header (e : ZipEntry.t) : bytes :=
  (u32 local_magic ++ u16 DEFAULT_VERSION ++ entry_fields e ++ encode (ZipInfo.filename (ZipEntry.info e)))%list.
(** One entry of the central directory. *)
Definition central_header (e : ZipEntry.t) : bytes :=
  let i := ZipEntry.info e in
  (u32 central_magic ++ [byte_of_Z DEFAULT_VERSION; byte_of_Z (ZipInfo.create_system i)] ++ u16 DEFAULT_VERSION ++
   entry_fields e ++ u16 0 ++ u16 0 ++ u16 0 ++ u32 (ZipInfo.external_attr i) ++ u32 (ZipEntry.header_offset e) ++
   encode (ZipInfo.filename i))%list.
Definition end_record (count size offset : Z) : bytes :=
  (u32 end_magic ++ u16 0 ++ u16 0 ++ u16 count ++ u16 count ++ u32 size ++ u32 offset ++ u16 0)%list.

Definition LargeZipFile : exn := Other "LargeZipFile".

(** The archive being written: its bytes so far and its [filelist]. *)
Module ZipFile.
Record t := mk { output : bytes; filelist : list ZipEntry.t }.
Definition new : t := mk [] [].
(** [archive.writestr(info, content)]: the header is rewritten in place when the size and the
    checksum of the content are known. *)
Definition writestr (z : t) (info : ZipInfo.t) (content : bytes) : result t :=
  let offset := blen (output z) in
  check! raise_when ((ZIP_FILECOUNT_LIMIT <=? len (filelist z)) || (ZIP64_LIMIT <? blen content) ||
                     (ZIP64_LIMIT <? offset)) LargeZipFile in
  let entry := ZipEntry.mk info (crc32 content) (blen content) offset in
  Ok (mk (output z ++ file_header entry ++ content) (filelist z ++ [entry])).
(** [archive.close()] *)
Definition close (z : t) : result bytes :=
  let directory := List.concat (map central_header (filelist z)) in
  let offset := blen (output z) in
  check! raise_when ((ZIP_FILECOUNT_LIMIT <? len (filelist z)) || (ZIP64_LIMIT <? offset) ||
                     (ZIP64_LIMIT <? blen directory)) LargeZipFile in
  Ok (output z ++ directory ++ end_record (len (filelist z)) (blen directory) offset).
End ZipFile.

Fixpoint write_all (z : ZipFile.t) (files : list (ZipInfo.t * bytes)) : result ZipFile.t :=
  match files with
  | [] => Ok z
  | (info, content) :: rest => try! z := ZipFile.writestr z info content in write_all z rest
  end.
Definition write_zip (files : list (ZipInfo.t * bytes)) : result bytes :=
  try! z := write_all ZipFile.new files in ZipFile.close z.

(** ** A reader

    It finds the end record in the last 22 bytes, walks the central directory, and takes each
    file from the offset given there, whose header must agree and whose checksum must be right. *)

Definition take_bytes (n : Z) (b : bytes) : option (bytes * bytes) :=
  if (0 <=? n) && (n <=? blen b) then Some (take (Z.to_nat n) b, drop (Z.to_nat n) b) else None.
Definition take_le (n : Z) (b : bytes) : option (Z * bytes) :=
  '(field, rest) ← take_bytes n b; Some (int_from_bytes_little field, rest).
Definition take_magic (magic : Z) (b : bytes) : option bytes :=
  '(m, rest) ← take_le 4 b; if m =? magic then Some rest else None.
(** The method, the checksum, the size and the length of the name; no flags and no extra field. *)
Definition read_fields (b : bytes) : option (Z * Z * Z * bytes) :=
  '(flags, b) ← take_le 2 b; '(method, b) ← take_le 2 b; '(_, b) ← take_le 4 b;
  '(crc, b) ← take_le 4 b; '(packed, b) ← take_le 4 b; '(size, b) ← take_le 4 b;
  '(name_length, b) ← take_le 2 b; '(extra, b) ← take_le 2 b;
  if (flags =? 0) && (method =? ZIP_STORED) && (packed =? size) && (extra =? 0)
  then Some (crc, size, name_length, b) else None.
Definition read_central (b : bytes) : option (bytes * Z * Z * Z * bytes) :=
  b ← take_magic central_magic b; '(_, b) ← take_le 4 b; '(crc, size, n, b) ← read_fields b;
  '(comment, b) ← take_le 2 b; '(_, b) ← take_le 4 b; '(_, b) ← take_le 4 b; '(offset, b) ← take_le 4 b;
  '(name, b) ← take_bytes n b;
  if comment =? 0 then Some (name, crc, size, offset, b) else None.
Definition read_file (archive name : bytes) (crc size offset : Z) : option bytes :=
  '(_, b) ← take_bytes offset archive; b ← take_magic local_magic b; '(_, b) ← take_le 2 b;
  '(crc', size', n, b) ← read_fields b; '(name', b) ← take_bytes n b; '(content, _) ← take_bytes size b;
  if (crc' =? crc) && (size' =? size) && (name' == name) && (crc32 content =? crc) then Some content else None.
Fixpoint read_entries (count : nat) (archive b : bytes) : option (list (bytes * bytes)) :=
  match count with
  | O => match b with [] => Some [] | _ => None end
  | S count' =>
      '(name, crc, size, offset, rest) ← read_central b;
      content ← read_file archive name crc size offset;
      files ← read_entries count' archive rest;
      Some ((name, content) :: files)
  end.
Definition read_zip (archive : bytes) : option (list (bytes * bytes)) :=
  '(body, tail) ← take_bytes (blen archive - 22) archive;
  b ← take_magic end_magic tail; '(_, b) ← take_le 4 b; '(_, b) ← take_le 2 b; '(count, b) ← take_le 2 b;
  '(size, b) ← take_le 4 b; '(offset, b) ← take_le 4 b;
  '(_, directory) ← take_bytes offset body;
  if blen directory =? size then read_entries (Z.to_nat count) archive directory else None.

(** ** What is written is read back

    The reader of [Zip] returns exactly the files that the writer was given. *)
From S2P Require Import Prelude PyStr.

Open Scope Z_scope.

Lemma blen_app (a b : bytes) : blen (a ++ b)%list = blen a + blen b.
Proof. unfold blen. rewrite length_app. lia. Qed.
Lemma blen_to_bytes k n : blen (to_bytes_little k n) = Z.of_nat k.
Proof. unfold blen. by rewrite length_to_bytes_little. Qed.
Lemma encode_ascii s : str_all (λ c, code c <? 128) s = true → blen (encode s) = strlen s.
Proof.
  unfold blen, strlen. induction s as [|c s IH]; [done|]. cbn [str_all encode String.length]. intros [-> Hs]%andb_prop.
  simpl. specialize (IH Hs). lia.
Qed.

(** ** Fields *)

Lemma take_bytes_app a b n : blen a = n → take_bytes n (a ++ b)%list = Some (a, b).
Proof.
  intros <-. unfold take_bytes. rewrite blen_app. unfold blen.
  rewrite !(proj2 (Z.leb_le _ _)) by lia. simpl.
  by rewrite Nat2Z.id, take_app_length, drop_app_length.
Qed.
Lemma take_le_field k n rest : 0 <= n < 256 ^ Z.of_nat k →
  take_le (Z.of_nat k) (to_bytes_little k n ++ rest)%list = Some (n, rest).
Proof.
  intros Hn. unfold take_le. rewrite take_bytes_app by apply blen_to_bytes. simpl.
  by rewrite int_from_to_bytes_little by done.
Qed.
Lemma take_u16 n rest : 0 <= n < 65536 → take_le 2 (u16 n ++ rest)%list = Some (n, rest).
Proof. intros. by apply (take_le_field 2). Qed.
Lemma take_u32 n rest : 0 <= n < 2 ^ 32 → take_le 4 (u32 n ++ rest)%list = Some (n, rest).
Proof. intros. by apply (take_le_field 4). Qed.
(** A field whose value does not matter. *)
Lemma skip_field k a rest : blen a = k → take_le k (a ++ rest)%list = Some (int_from_bytes_little a, rest).
Proof. intros. unfold take_le. by rewrite take_bytes_app. Qed.
Lemma take_magic_u32 m rest : 0 <= m < 2 ^ 32 → take_magic m (u32 m ++ rest)%list = Some rest.
Proof. intros. unfold take_magic. rewrite take_u32 by done. simpl. by rewrite Z.eqb_refl. Qed.

(** ** The checksum fits its field *)

Lemma lxor_bound a b : 0 <= a < 2 ^ 32 → 0 <= b < 2 ^ 32 → 0 <= Z.lxor a b < 2 ^ 32.
Proof.
  intros [Ha Ha'] [Hb Hb']. split; [by apply Z.lxor_nonneg|].
  assert (Z.lxor a b = Z.lxor a b mod 2 ^ 32) as ->; [|by apply Z.mod_pos_bound].
  apply Z.bits_inj'. intros i Hi. destruct (Z.lt_ge_cases i 32).
  { by rewrite Z.mod_pow2_bits_low. }
  rewrite Z.mod_pow2_bits_high, Z.lxor_spec by lia.
  assert (∀ x, 0 <= x → x < 2 ^ 32 → Z.testbit x i = false) as Hx.
  { intros x H0 H1. rewrite <- (Z.mod_small x (2 ^ 32)) by done. apply Z.mod_pow2_bits_high. lia. }
  by rewrite !Hx.
Qed.
Lemma crc_bit_bound c : 0 <= c < 2 ^ 32 → 0 <= crc_bit c < 2 ^ 32.
Proof.
  intros. unfold crc_bit. apply lxor_bound; [rewrite Z.shiftr_div_pow2 by done; change (2 ^ 1) with 2; Z.div_mod_to_equations; lia|by destruct (Z.testbit _ _)].
Qed.
Lemma crc32_bound b : 0 <= crc32 b < 2 ^ 32.
Proof.
  apply lxor_bound; [|done].
  assert (∀ c, 0 <= c < 2 ^ 32 → 0 <= foldl crc_byte c b < 2 ^ 32) as H; [|by apply H].
  induction b as [|x b IH]; intros c Hc; [done|]. simpl. apply IH. unfold crc_byte.
  pose proof (Z_of_byte_range x). cbn [Nat.iter nat_rect].
  do 8 apply crc_bit_bound. apply lxor_bound; lia.
Qed.

(** ** Entries *)

(** A name that the fields can hold. *)
Definition info_ok (i : ZipInfo.t) : Prop :=
  ZipInfo.compress_type i = ZIP_STORED ∧ blen (encode (ZipInfo.filename i)) = strlen (ZipInfo.filename i) ∧
  strlen (ZipInfo.filename i) < 65536.
Definition entry_ok (e : ZipEntry.t) : Prop :=
  info_ok (ZipEntry.info e) ∧ 0 <= ZipEntry.crc e < 2 ^ 32 ∧ 0 <= ZipEntry.file_size e < 2 ^ 32 ∧
  0 <= ZipEntry.header_offset e < 2 ^ 32.
Definition entry_name (e : ZipEntry.t) : bytes := encode (ZipInfo.filename (ZipEntry.info e)).

(** Reads the next field of a record. *)
Ltac next_field :=
  first [rewrite take_u16 by lia | rewrite take_u32 by lia | rewrite take_magic_u32 by done];
  cbn [mbind option_bind].
Ltac skip := first [rewrite skip_field by done]; cbn [mbind option_bind].

Lemma read_entry_fields e rest : entry_ok e →
  read_fields (entry_fields e ++ rest)%list =
    Some (ZipEntry.crc e, ZipEntry.file_size e, blen (entry_name e), rest).
Proof.
  intros ((Hm & Hl & Hn) & Hc & Hs & _). unfold read_fields, entry_fields. rewrite <- !app_assoc, Hm.
  assert (0 <= strlen (ZipInfo.filename (ZipEntry.info e))) by (unfold strlen; lia). unfold ZIP_STORED.
  do 2 next_field. rewrite (app_assoc (u16 (dostime _))). skip. do 5 next_field.
  rewrite !Z.eqb_refl. unfold entry_name. by rewrite Hl.
Qed.
Lemma read_central_header e rest : entry_ok e →
  read_central (central_header e ++ rest)%list =
    Some (entry_name e, ZipEntry.crc e, ZipEntry.file_size e, ZipEntry.header_offset e, rest).
Proof.
  intros H. pose proof H as (_ & _ & _ & Ho). unfold read_central, central_header. rewrite <- !app_assoc.
  next_field. rewrite (app_assoc [_; _]). skip. rewrite read_entry_fields by done. cbn [mbind option_bind].
  next_field. rewrite (app_assoc (u16 0) (u16 0)). do 2 skip. next_field. by rewrite take_bytes_app.
Qed.

(** ** Files *)

(** The archive holds the entry and the content of a file where the entry says. *)
Definition holds (archive : bytes) (e : ZipEntry.t) (f : ZipInfo.t * bytes) : Prop :=
  entry_ok e ∧ ZipEntry.info e = f.1 ∧ ZipEntry.crc e = crc32 f.2 ∧ ZipEntry.file_size e = blen f.2 ∧
  ∃ before after, archive = (before ++ file_header e ++ f.2 ++ after)%list ∧ blen before = ZipEntry.header_offset e.
Lemma holds_app archive more e f : holds archive e f → holds (archive ++ more) e f.
Proof.
  intros (? & ? & ? & ? & before & after & -> & ?). split_and!; try done.
  exists before, (after ++ more)%list. by rewrite <- !app_assoc.
Qed.
Lemma read_file_holds archive e f : holds archive e f →
  read_file archive (entry_name e) (ZipEntry.crc e) (ZipEntry.file_size e) (ZipEntry.header_offset e) = Some f.2.
Proof.
  intros (He & Hi & Hc & Hs & before & after & -> & Ho). unfold read_file, file_header.
  rewrite take_bytes_app by done. cbn [mbind option_bind]. rewrite <- !app_assoc. next_field. skip.
  rewrite read_entry_fields by done. cbn [mbind option_bind]. do 2 (rewrite take_bytes_app by done; cbn [mbind option_bind]).
  by rewrite !Z.eqb_refl, bool_decide_eq_true_2, Hc, Z.eqb_refl.
Qed.

Lemma read_entries_all archive entries files : Forall2 (holds archive) entries files →
  read_entries (List.length entries) archive (List.concat (map central_header entries)) =
    Some (map (λ f, (encode (ZipInfo.filename f.1), f.2)) files).
Proof.
  induction 1 as [|e f entries files He _ IH]; [done|]. cbn [List.length map List.concat read_entries].
  rewrite read_central_header by apply He. cbn [mbind option_bind]. rewrite read_file_holds with (f := f) by done. cbn [mbind option_bind]. rewrite IH. simpl. destruct He as (_ & Hi & _). unfold entry_name. by rewrite Hi.
Qed.

(** ** The writer *)

Definition written (z : ZipFile.t) (files : list (ZipInfo.t * bytes)) : Prop :=
  Forall2 (holds (ZipFile.output z)) (ZipFile.filelist z) files.
Lemma writestr_written z files i content z' : info_ok i → written z files →
  ZipFile.writestr z i content = Ok z' → written z' (files ++ [(i, content)]).
Proof.
  intros Hi Hz. unfold ZipFile.writestr. intros H. apply result_bind_Ok in H as ([] & H & [= <-]).
  apply raise_when_Ok in H. unfold ZIP64_LIMIT in H. unfold written. simpl. apply Forall2_app.
  - eapply Forall2_impl; [exact Hz|]. intros. by apply holds_app.
  - constructor; [|done]. split_and!; try done.
    + unfold entry_ok. simpl. pose proof (crc32_bound content). unfold blen in *. split_and!; try apply Hi; lia.
    + exists (ZipFile.output z), []. simpl. by rewrite app_nil_r.
Qed.
Lemma write_all_written files : ∀ z done z', Forall (λ f, info_ok f.1) files → written z done →
  write_all z files = Ok z' → written z' (done ++ files).
Proof.
  induction files as [|[i content] files IH]; intros z before z' Hf Hz H; simpl in H.
  { injection H as <-. by rewrite app_nil_r. }
  apply Forall_cons in Hf as [Hi Hf]. apply result_bind_Ok in H as (z1 & H1 & H).
  rewrite cons_middle, app_assoc. eapply IH; [done| |exact H]. by eapply writestr_written.
Qed.
Lemma close_reads z files b : written z files → ZipFile.close z = Ok b →
  read_zip b = Some (map (λ f, (encode (ZipInfo.filename f.1), f.2)) files).
Proof.
  unfold ZipFile.close. intros Hz H. apply result_bind_Ok in H as ([] & H & [= <-]). apply raise_when_Ok in H.
  unfold ZIP64_LIMIT, ZIP_FILECOUNT_LIMIT, len in H.
  set (directory := List.concat _) in *. set (output := ZipFile.output z) in *.
  set (entries := ZipFile.filelist z) in *. fold (len entries) in H.
  assert (0 <= blen output ∧ 0 <= blen directory ∧ 0 <= len entries) by (unfold blen, len; lia).
  unfold read_zip. rewrite app_assoc. rewrite blen_app.
  replace (blen (output ++ directory) + _ - 22) with (blen (output ++ directory)) by (change (blen (end_record _ _ _)) with 22; lia).
  rewrite take_bytes_app by done. cbn [mbind option_bind]. unfold end_record. next_field.
  rewrite (app_assoc (u16 0)). do 2 skip. do 3 next_field.
  rewrite take_bytes_app by done. cbn [mbind option_bind]. rewrite Z.eqb_refl. unfold len. rewrite Nat2Z.id.
  apply read_entries_all. rewrite <- app_assoc. eapply Forall2_impl; [exact Hz|]. intros. by apply holds_app.
Qed.

(** Reading an archive back. *)
Lemma read_write_zip files b : Forall (λ f, info_ok f.1) files → write_zip files = Ok b →
  read_zip b = Some (map (λ f, (encode (ZipInfo.filename f.1), f.2)) files).
Proof.
  intros Hf H. apply result_bind_Ok in H as (z & Hz & H). eapply close_reads, H.
  eapply (write_all_written files ZipFile.new []); [done|constructor|done].
Qed.

(** ** Small archives are written *)

Definition name_size (i : ZipInfo.t) : Z := blen (encode (ZipInfo.filename i)).
Definition sum (l : list Z) : Z := foldr Z.add 0 l.
Lemma sum_nonneg {A} (f : A → Z) l : (∀ x, 0 <= f x) → 0 <= sum (map f l).
Proof. intros H. induction l as [|x l IH]; [done|]. simpl. specialize (H x). lia. Qed.
Lemma sum_app a b : sum (a ++ b) = sum a + sum b.
Proof. induction a as [|x a IH]; simpl; lia. Qed.
Definition file_size (f : ZipInfo.t * bytes) : Z := 30 + name_size f.1 + blen f.2.
Definition directory_size (i : ZipInfo.t) : Z := 46 + name_size i.
Lemma blen_header e : blen (file_header e) = 30 + name_size (ZipEntry.info e).
Proof. unfold file_header, entry_fields. rewrite !blen_app. unfold u16, u32. rewrite !blen_to_bytes. unfold name_size. lia. Qed.
Lemma blen_central e : blen (central_header e) = directory_size (ZipEntry.info e).
Proof.
  unfold central_header, entry_fields. rewrite !blen_app. unfold u16, u32. rewrite !blen_to_bytes.
  unfold directory_size, name_size. change (blen [_; _]) with 2. lia.
Qed.
Lemma blen_directory entries :
  blen (List.concat (map central_header entries)) = sum (map (λ e, directory_size (ZipEntry.info e)) entries).
Proof. induction entries as [|e l IH]; [done|]. cbn [map List.concat sum foldr]. rewrite blen_app, blen_central, IH. done. Qed.

Lemma write_all_small files : ∀ z, blen (ZipFile.output z) + sum (map file_size files) <= ZIP64_LIMIT →
  len (ZipFile.filelist z) + len files <= ZIP_FILECOUNT_LIMIT →
  ∃ z', write_all z files = Ok z' ∧ blen (ZipFile.output z') = blen (ZipFile.output z) + sum (map file_size files) ∧
    map ZipEntry.info (ZipFile.filelist z') = (map ZipEntry.info (ZipFile.filelist z) ++ map fst files)%list.
Proof.
  induction files as [|[i content] files IH]; intros z Hz Hn.
  { exists z. split_and!; [done|simpl; lia|by rewrite app_nil_r]. }
  cbn [map sum foldr] in Hz. fold (sum (map file_size files)) in Hz. unfold file_size in Hz at 1. cbn [fst snd] in Hz.
  pose proof (sum_nonneg file_size files) as Hs.
  assert (∀ f, 0 <= file_size f) as Hf by (intros f; unfold file_size, name_size, blen; lia). specialize (Hs Hf).
  assert (0 <= blen (ZipFile.output z) ∧ 0 <= name_size i ∧ 0 <= blen content) as (H1 & H2 & H3)
    by (unfold name_size, blen; lia).
  unfold len in Hn. cbn [List.length] in Hn. cbn [write_all]. unfold ZipFile.writestr.
  assert ((ZIP_FILECOUNT_LIMIT <=? len (ZipFile.filelist z)) = false) as -> by (apply Z.leb_gt; unfold len; lia).
  rewrite !(proj2 (Z.ltb_ge _ _)) by lia. cbn [orb raise_when result_bind].
  match goal with |- context [write_all ?z1 files] => destruct (IH z1) as (z' & -> & Hb & Hl) end.
  - cbn [ZipFile.output]. rewrite !blen_app, blen_header. cbn [ZipEntry.info]. lia.
  - cbn [ZipFile.filelist]. unfold len. rewrite length_app. cbn [List.length]. lia.
  - exists z'. split; [done|]. split.
    + rewrite Hb. cbn [ZipFile.output map sum foldr]. fold (sum (map file_size files)). rewrite !blen_app, blen_header.
      unfold file_size at 2. cbn [ZipEntry.info fst snd]. lia.
    + rewrite Hl. cbn [ZipFile.filelist]. rewrite map_app, <- app_assoc. done.
Qed.
(** The size of an archive that is small enough for the format without extensions. *)
Lemma write_zip_small files : sum (map file_size files) + sum (map (λ f, directory_size f.1) files) <= ZIP64_LIMIT →
  len files <= ZIP_FILECOUNT_LIMIT →
  ∃ b, write_zip files = Ok b ∧ blen b = sum (map file_size files) + sum (map (λ f, directory_size f.1) files) + 22.
Proof.
  intros Hs Hn.
  assert (∀ i, 0 <= directory_size i) as Hd by (intros i; unfold directory_size, name_size, blen; lia).
  pose proof (sum_nonneg (λ f : ZipInfo.t * bytes, directory_size f.1) files (λ f, Hd f.1)).
  assert (∀ f, 0 <= file_size f) as Hf by (intros f; unfold file_size, name_size, blen; lia).
  pose proof (sum_nonneg file_size files Hf).
  destruct (write_all_small files ZipFile.new) as (z & Hz & Hb & Hl); [change (blen (ZipFile.output ZipFile.new)) with 0; lia|
    change (len (ZipFile.filelist ZipFile.new)) with 0; lia|].
  unfold write_zip. rewrite Hz. cbn [result_bind]. unfold ZipFile.close. rewrite blen_directory, Hb.
  change (blen (ZipFile.output ZipFile.new)) with 0. cbn [ZipFile.filelist ZipFile.new map app] in Hl.
  assert (map (λ e, directory_size (ZipEntry.info e)) (ZipFile.filelist z) = map (λ f, directory_size f.1) files) as ->.
  { rewrite <- (map_map ZipEntry.info directory_size), Hl, map_map. done. }
  assert (len (ZipFile.filelist z) = len files) as ->.
  { unfold len. rewrite <- (length_map ZipEntry.info), Hl, length_map. done. }
  rewrite !(proj2 (Z.ltb_ge _ _)) by lia. cbn [orb raise_when result_bind]. eexists. split; [done|].
  rewrite !blen_app, Hb, blen_directory. change (blen (end_record _ _ _)) with 22.
  change (blen (ZipFile.output ZipFile.new)) with 0.
  assert (map (λ e, directory_size (ZipEntry.info e)) (ZipFile.filelist z) = map (λ f, directory_size f.1) files) as ->; [|lia].
  rewrite <- (map_map ZipEntry.info directory_size), Hl, map_map. done.
Qed.
