(* ===== verification/Bundle.v ===== *)
(** * The proof bundle

    [app/proofs/bundle.py]: the file name of a bundle, the validation of the receipt against the
    stored proof, and the archive.  A receipt is what [json.loads] returns. *)
From S2P Require Import Prelude PyStr PyObject Sha256 IsoTime Json Domain Ports Ots Zip.

Open Scope string_scope.
Open Scope Z_scope.

(** ** The file name *)

Definition name_char (c : ascii) : bool := is_alnum_ascii c || (c =? ".")%char || (c =? "_")%char || (c =? "-")%char.
(** [re.sub(r"[^...]+", "_", s)]: a run of other characters becomes one underscore. *)
Fixpoint sub_runs (p : ascii → bool) (in_run : bool) (s : string) : string :=
  match s with
  | EmptyString => EmptyString
  | String c s' =>
      if p c then String c (sub_runs p false s')
      else if in_run then sub_runs p true s' else String "_" (sub_runs p true s')
  end.
Definition is_edge (c : ascii) : bool := (c =? ".")%char || (c =? "_")%char || (c =? "-")%char.
Definition safe_bundle_filename (certificate_reference : string) : string :=
  let safe := strip is_edge (sub_runs name_char false certificate_reference) in
  let safe := str_take 96 safe in
  let safe := if (safe =? "")%string then "certificate" else safe in
  safe ++ "-bitcoin-timestamp.zip".

(** ** The receipt *)

Definition _RECEIPT_KEYS : list string :=
  ["schema_version"; "order_reference"; "certificate_reference"; "manifest_sha256"; "proof_sha256";
   "proof_bytes"; "proof_state"; "calendar_submitted_at"; "service_version"; "bitcoin";
   "verification_method"; "verified_at"].
Definition required_keys : list string :=
  ["schema_version"; "order_reference"; "certificate_reference"; "manifest_sha256"; "proof_sha256";
   "proof_bytes"; "proof_state"; "calendar_submitted_at"; "service_version"].
Definition confirmation_keys : list string := ["bitcoin"; "verification_method"; "verified_at"].
Definition bitcoin_keys : list string := ["block_height"; "block_hash"; "block_time"; "confirmation_policy"].
Definition _SHA256_HEX (s : string) : bool := fullmatch_class is_lower_hex 64 64 s.

(** The keys of a [dict], and comparisons of sets of keys. *)
Definition keys_of (fields : list (ustr * obj)) : list ustr := map fst fields.
Definition issubset (a b : list ustr) : bool := forallb (λ k, k is_in b) a.
Definition has_key (fields : list (ustr * obj)) (key : string) : bool := wide key is_in keys_of fields.

(** [datetime.fromisoformat(value.replace("Z", "+00:00")).astimezone(UTC)] *)
Definition _date_time (value : option obj) : result (option datetime) :=
  match value with
  | Some (OStr s) =>
      match fromisoformat (flat_map (λ c, if c =? 90 then wide "+00:00" else [c]) s) with
      | Some (wall, Some offset) => try! d := astimezone_utc wall offset in Ok (Some d)
      | _ => Ok None
      end
  | _ => Ok None
  end.

(** [value == text] and [value == number] for a text and a number of the service. *)
Definition is_text (value : option obj) (text : string) : bool :=
  match value with Some (OStr u) => u == wide text | _ => false end.
(** [type(value) is int] *)
Definition exact_int (value : option obj) : option Z := match value with Some (OInt n) => Some n | _ => None end.
(** [isinstance(value, str) and p(value)] for a pattern that matches ASCII text only. *)
Definition matches (p : string → bool) (value : option obj) : bool :=
  match latin_of value with Some s => p s | None => false end.
(** [isinstance(value, str) and 1 <= len(value) <= n] *)
Definition text_within (n : Z) (value : option obj) : bool :=
  match value with Some (OStr u) => (1 <=? len u) && (len u <=? n) | _ => false end.

(** ["@" in json.dumps(value, sort_keys=True).lower()]: texts are printed with ASCII escapes, so
    the character stands for itself, and nothing but a text prints one. *)
Fixpoint mentions_at (value : obj) : bool :=
  match value with
  | OStr u => existsb (Z.eqb 64) u
  | OList l => existsb mentions_at l
  | ODict fields => existsb (λ kv, existsb (Z.eqb 64) kv.1 || mentions_at kv.2) fields
  | _ => false
  end.

(** The block ["bitcoin"] of a verified receipt, on its own and against the verification. *)
Definition check_bitcoin (typed : list (ustr * obj)) (proof : StoredProof.t) : result unit :=
  let invalid := ValueError "bitcoin_receipt_metadata_invalid" in
  let mismatch := ValueError "receipt_verification_metadata_mismatch" in
  check! raise_when (negb (forallb (has_key typed) confirmation_keys))
    (ValueError "verified_receipt_metadata_missing") in
  try! bitcoin := match get_key "bitcoin" typed with
                  | Some (ODict fields) =>
                      if issubset (keys_of fields) (map wide bitcoin_keys) && forallb (has_key fields) bitcoin_keys
                      then Ok fields else Raise invalid
                  | _ => Raise invalid
                  end in
  let block_hash := get_key "block_hash" bitcoin in
  let policy := get_key "confirmation_policy" bitcoin in
  let method := get_key "verification_method" typed in
  try! height := need invalid (exact_int (get_key "block_height" bitcoin)) in
  check! raise_when ((height <? 0) || negb (matches _SHA256_HEX block_hash)) invalid in
  try! block_time := _date_time (get_key "block_time" bitcoin) in
  check! raise_when (is_none block_time || negb (text_within 128 policy) || negb (text_within 128 method)) invalid in
  try! verified_at := _date_time (get_key "verified_at" typed) in
  check! raise_when (is_none verified_at) invalid in
  try! v := need mismatch (StoredProof.verification proof) in
  match BitcoinVerification.block_time v, BitcoinVerification.verified_at v with
  | Some verification_block_time, Some verification_verified_at =>
      raise_when ((Some height != BitcoinVerification.block_height v) ||
                  negb (default false (is_text block_hash <$> BitcoinVerification.block_hash v)) ||
                  negb (default false (is_text policy <$> BitcoinVerification.confirmation_policy v)) ||
                  negb (is_text method (BitcoinVerification.method v)) ||
                  (dt_us <$> block_time != Some (dt_us verification_block_time)) ||
                  (dt_us <$> verified_at != Some (dt_us verification_verified_at))) mismatch
  | _, _ => Raise mismatch
  end.

Definition _validate_receipt (receipt : obj) (proof : StoredProof.t) (context : ProofBundleContext.t)
    : result (list (ustr * obj)) :=
  let values_invalid := ValueError "receipt_schema_values_invalid" in
  try! typed := match receipt with ODict fields => Ok fields | _ => Raise (ValueError "receipt_schema_fields_invalid") end in
  check! raise_when (negb (issubset (keys_of typed) (map wide _RECEIPT_KEYS)))
    (ValueError "receipt_schema_fields_invalid") in
  check! raise_when (negb (forallb (has_key typed) required_keys)) (ValueError "receipt_schema_fields_missing") in
  let order_reference := get_key "order_reference" typed in
  let certificate_reference := get_key "certificate_reference" typed in
  let service_version := get_key "service_version" typed in
  let submitted := get_key "calendar_submitted_at" typed in
  check! raise_when (negb (is_text (get_key "schema_version" typed) "1.0.0") ||
                     negb (matches _ORDER_REFERENCE order_reference) ||
                     negb (matches _CERTIFICATE certificate_reference) ||
                     negb (text_within 64 service_version)) values_invalid in
  try! receipt_calendar_time := _date_time submitted in
  check! raise_when (is_none receipt_calendar_time) values_invalid in
  check! raise_when (negb (is_text certificate_reference (ProofBundleContext.certificate_reference context)))
    (ValueError "receipt_certificate_reference_mismatch") in
  check! raise_when (negb (is_text service_version (ProofBundleContext.service_version context)))
    (ValueError "receipt_service_version_mismatch") in
  let manifest_sha256 := get_key "manifest_sha256" typed in
  let proof_sha256 := get_key "proof_sha256" typed in
  check! raise_when (negb (is_text order_reference (StoredProof.order_reference proof)) ||
                     negb (is_text manifest_sha256 (ManifestDigest.hex (StoredProof.target_digest proof))) ||
                     negb (is_text proof_sha256 (bytes_hex (StoredProof.proof_sha256 proof))) ||
                     (exact_int (get_key "proof_bytes" typed) != Some (blen (StoredProof.proof_bytes proof))))
    (ValueError "receipt_proof_binding_mismatch") in
  check! raise_when (negb (matches _SHA256_HEX manifest_sha256) || negb (matches _SHA256_HEX proof_sha256))
    (ValueError "receipt_digest_invalid") in
  let state := get_key "proof_state" typed in
  check! raise_when (negb (is_text state (ProofState_value (StoredProof.proof_state proof))))
    (ValueError "receipt_proof_state_mismatch") in
  check! raise_when (dt_us <$> receipt_calendar_time != Some (dt_us (StoredProof.calendar_submitted_at proof)))
    (ValueError "receipt_calendar_time_mismatch") in
  let pending := is_text state "calendar_pending" in
  check! raise_when (pending && existsb (has_key typed) confirmation_keys)
    (ValueError "pending_receipt_cannot_claim_confirmation") in
  check! raise_when (pending && is_some (StoredProof.verification proof))
    (ValueError "pending_proof_cannot_carry_verification") in
  check! (if is_text state "bitcoin_verified" then check_bitcoin typed proof
          else raise_when (negb pending) (ValueError "receipt_proof_state_invalid")) in
  check! raise_when (mentions_at (ODict typed)) (ValueError "receipt_private_data_forbidden") in
  Ok typed.

(** ** The archive *)

Definition _FIXED_ZIP_TIME : Z * Z * Z * Z * Z * Z := (2020, 1, 1, 0, 0, 0).
(** The mode is the octal 100644. *)
Definition _zip_info (name : string) : ZipInfo.t :=
  ZipInfo.mk name _FIXED_ZIP_TIME ZIP_STORED 3 (Z.shiftl 33188 16).
Definition newline : string := char_str 10.
Definition _checksum_line (name : string) (content : bytes) : string :=
  bytes_hex (sha256 content) ++ "  " ++ name ++ newline.

Definition readme (pending : bool) : string :=
  "Spacerocks supplemental OpenTimestamps proof" ++ newline ++ newline ++
  "This package is separate from the original signed COA. It proves only that the exact" ++ newline ++
  "manifest SHA-256 digest was timestamped; it does not prove identity, ownership, or authenticity." ++ newline ++
  (if pending then "Status: PENDING. Calendar submission is not Bitcoin confirmation."
   else "Status: BITCOIN VERIFIED under the policy recorded in timestamp-receipt.json.") ++ newline.
Definition instructions : string :=
  "Keep the original manifest.json and manifest.json.ots together." ++ newline ++
  "Verify sha256sums.txt, then use an independent OpenTimestamps client to verify the proof." ++ newline ++
  "A pending calendar attestation must not be treated as Bitcoin confirmation." ++ newline.
(** The files in the order of the archive, and the checksums in the order of the names. *)
Definition bundle_files (pending : bool) (proof_bytes receipt_json : bytes) : list (string * bytes) :=
  let files := [("README-FIRST.txt", encode (readme pending)); ("manifest.json.ots", proof_bytes);
                ("timestamp-receipt.json", receipt_json);
                ("verification-instructions.txt", encode instructions)] in
  let sums := encode (join "" (map (λ f, _checksum_line f.1 f.2) (sort_fields files))) in
  (files ++ [("sha256sums.txt", sums)])%list.
Definition MAX_BUNDLE_BYTES : Z := 12 * 1024 * 1024.

Module DeterministicProofBundler.
Section Build.
Context (apply_op : Op → bytes → result bytes) (deserialize : bytes → option DetachedTimestampFile.t).
Definition build (proof : StoredProof.t) (receipt_json : bytes) (context : ProofBundleContext.t) : result bytes :=
  try! _ := deserialize_exact_proof apply_op deserialize (StoredProof.target_digest proof)
              (StoredProof.proof_bytes proof) (Some (StoredProof.proof_sha256 proof)) in
  check! raise_when (bool_decide (receipt_json = []) || (64 * 1024 <? blen receipt_json))
    (ValueError "receipt_json_size_invalid") in
  try! receipt := except_as is_decode_error (ValueError "receipt_json_invalid") (loads receipt_json) in
  try! receipt := _validate_receipt receipt proof context in
  let pending := is_text (get_key "proof_state" receipt) "calendar_pending" in
  let files := bundle_files pending (StoredProof.proof_bytes proof) receipt_json in
  try! bundle := write_zip (map (λ f, (_zip_info f.1, f.2)) files) in
  check! raise_when (MAX_BUNDLE_BYTES <? blen bundle) (ValueError "proof_bundle_too_large") in
  Ok bundle.
End Build.
End DeterministicProofBundler.

(** ** Bundles of built receipts

    A receipt that [build_receipt] builds is read back by the bundler field by field.  It is
    accepted when its times are whole seconds and refused otherwise, and the archive holds
    the proof, the receipt and their checksums. *)
From S2P Require Import Prelude PyStr Uuid Digits PyObject JsonFacts Json JsonText IsoTime Sha256 Url Domain Ports Ots Receipt Zip.

Open Scope string_scope.
Open Scope Z_scope.

(** ** The fields of a receipt *)

Section Fields.
Context (schema oref cert manifest proof_sha size state submitted version : obj).
(** The bitcoin block, the method and the time of a verified receipt. *)
Context (confirmation : option (obj * obj * obj)).
Definition fields : list (ustr * obj) :=
  let base := [
    (wide "calendar_submitted_at", submitted); (wide "certificate_reference", cert); (wide "manifest_sha256", manifest);
    (wide "order_reference", oref); (wide "proof_bytes", size); (wide "proof_sha256", proof_sha);
    (wide "proof_state", state); (wide "schema_version", schema); (wide "service_version", version)] in
  match confirmation with
  | None => base
  | Some (bitcoin, method, verified_at) =>
      ((wide "bitcoin", bitcoin) :: base ++ [(wide "verification_method", method); (wide "verified_at", verified_at)])%list
  end.
Ltac by_computation := unfold fields; destruct confirmation as [[[? ?] ?]|]; vm_compute; reflexivity.
Lemma fields_known : issubset (keys_of fields) (map wide _RECEIPT_KEYS) = true.
Proof. by_computation. Qed.
Lemma fields_required : forallb (has_key fields) required_keys = true.
Proof. by_computation. Qed.
Lemma fields_confirmation : forallb (has_key fields) confirmation_keys = is_some confirmation.
Proof. by_computation. Qed.
Lemma fields_unconfirmed : existsb (has_key fields) confirmation_keys = is_some confirmation.
Proof. by_computation. Qed.
Lemma get_fields :
  get_key "schema_version" fields = Some schema ∧ get_key "order_reference" fields = Some oref ∧
  get_key "certificate_reference" fields = Some cert ∧ get_key "manifest_sha256" fields = Some manifest ∧
  get_key "proof_sha256" fields = Some proof_sha ∧ get_key "proof_bytes" fields = Some size ∧
  get_key "proof_state" fields = Some state ∧ get_key "calendar_submitted_at" fields = Some submitted ∧
  get_key "service_version" fields = Some version ∧ get_key "bitcoin" fields = (λ c, c.1.1) <$> confirmation ∧
  get_key "verification_method" fields = (λ c, c.1.2) <$> confirmation ∧
  get_key "verified_at" fields = snd <$> confirmation.
Proof. split_and!; by_computation. Qed.
Lemma mentions_fields : mentions_at (ODict fields) =
  existsb mentions_at [schema; oref; cert; manifest; proof_sha; size; state; submitted; version] ||
  match confirmation with Some (b, m, v) => existsb mentions_at [b; m; v] | None => false end.
Proof.
  unfold fields. destruct confirmation as [[[b m] v]|]; cbn [mentions_at existsb app snd fst];
    repeat match goal with |- context [existsb (Z.eqb 64) (wide ?t)] => change (existsb (Z.eqb 64) (wide t)) with false end; cbn [orb].
  - rewrite !orb_false_r.
    destruct (mentions_at b), (mentions_at m), (mentions_at v), (mentions_at schema), (mentions_at oref), (mentions_at cert),
      (mentions_at manifest), (mentions_at proof_sha), (mentions_at size), (mentions_at state), (mentions_at submitted),
      (mentions_at version); reflexivity.
  - rewrite !orb_false_r.
    destruct (mentions_at schema), (mentions_at oref), (mentions_at cert),
      (mentions_at manifest), (mentions_at proof_sha), (mentions_at size), (mentions_at state), (mentions_at submitted),
      (mentions_at version); reflexivity.
Qed.
End Fields.

(** ** The receipt is read back *)

Definition text (s : string) : obj := OStr (wide s).
Definition rfc (us : Z) : string := replace "+00:00" "Z" (isoformat_seconds us).
Definition bitcoin_block (height hash time policy : obj) : obj :=
  ODict [(wide "block_hash", hash); (wide "block_height", height); (wide "block_time", time);
         (wide "confirmation_policy", policy)].

Lemma base_object a b c d e f g h i :
  obj_of (JObj (sort_fields [
    ("schema_version", a); ("order_reference", b); ("certificate_reference", c); ("manifest_sha256", d);
    ("proof_sha256", e); ("proof_bytes", f); ("proof_state", g); ("calendar_submitted_at", h); ("service_version", i)])) =
  ODict (fields (obj_of a) (obj_of b) (obj_of c) (obj_of d) (obj_of e) (obj_of f) (obj_of g) (obj_of h) (obj_of i) None).
Proof. reflexivity. Qed.
Lemma full_object a b c d e f g h i j k l :
  obj_of (JObj (sort_fields [
    ("schema_version", a); ("order_reference", b); ("certificate_reference", c); ("manifest_sha256", d);
    ("proof_sha256", e); ("proof_bytes", f); ("proof_state", g); ("calendar_submitted_at", h); ("service_version", i);
    ("bitcoin", j); ("verification_method", k); ("verified_at", l)])) =
  ODict (fields (obj_of a) (obj_of b) (obj_of c) (obj_of d) (obj_of e) (obj_of f) (obj_of g) (obj_of h) (obj_of i)
           (Some (obj_of j, obj_of k, obj_of l))).
Proof. reflexivity. Qed.
Lemma base_ok a b c d e f g h i :
  json_ok (JObj (sort_fields [
    ("schema_version", a); ("order_reference", b); ("certificate_reference", c); ("manifest_sha256", d);
    ("proof_sha256", e); ("proof_bytes", f); ("proof_state", g); ("calendar_submitted_at", h); ("service_version", i)])) =
  forallb json_ok [h; c; d; b; f; e; g; a; i].
Proof. reflexivity. Qed.
Lemma full_ok a b c d e f g h i j k l :
  json_ok (JObj (sort_fields [
    ("schema_version", a); ("order_reference", b); ("certificate_reference", c); ("manifest_sha256", d);
    ("proof_sha256", e); ("proof_bytes", f); ("proof_state", g); ("calendar_submitted_at", h); ("service_version", i);
    ("bitcoin", j); ("verification_method", k); ("verified_at", l)])) =
  forallb json_ok [j; h; c; d; b; f; e; g; a; i; k; l].
Proof. reflexivity. Qed.
Lemma bitcoin_ok a b c d :
  json_ok (JObj (sort_fields [("block_height", a); ("block_hash", b); ("block_time", c); ("confirmation_policy", d)])) =
  forallb json_ok [b; a; c; d].
Proof. reflexivity. Qed.
Lemma bitcoin_object a b c d :
  obj_of (JObj (sort_fields [("block_height", a); ("block_hash", b); ("block_time", c); ("confirmation_policy", d)])) =
  bitcoin_block (obj_of a) (obj_of b) (obj_of c) (obj_of d).
Proof. reflexivity. Qed.

(** The confirmation of a complete verification. *)
Definition confirmation_of (v : BitcoinVerification.t) : option (obj * obj * obj) :=
  match BitcoinVerification.block_height v, BitcoinVerification.block_hash v, BitcoinVerification.block_time v,
        BitcoinVerification.confirmation_policy v, BitcoinVerification.verified_at v with
  | Some height, Some hash, Some time, Some policy, Some verified_at =>
      Some (bitcoin_block (OInt height) (text hash) (text (rfc (dt_us time))) (text policy),
            text (BitcoinVerification.method v), text (rfc (dt_us verified_at)))
  | _, _, _, _, _ => None
  end.
Definition receipt_of (value : ReceiptInput.t) : list (ustr * obj) :=
  let proof := ReceiptInput.proof value in
  fields (text "1.0.0") (text (StoredProof.order_reference proof)) (text (ReceiptInput.certificate_reference value))
    (text (ManifestDigest.hex (StoredProof.target_digest proof))) (text (bytes_hex (StoredProof.proof_sha256 proof)))
    (OInt (blen (StoredProof.proof_bytes proof))) (text (ProofState_value (StoredProof.proof_state proof)))
    (text (rfc (dt_us (StoredProof.calendar_submitted_at proof)))) (text (ReceiptInput.service_version value))
    (StoredProof.verification proof ≫= confirmation_of).

(** Numbers that the interpreter prints and reads. *)
Definition printable (n : Z) : Prop := 0 <= n < 10 ^ 18.
Lemma printable_digits n : printable n → strlen (str_int n) <=? 4300 = true.
Proof.
  intros Hn. apply Z.leb_le. destruct (decide (n = 0)) as [->|Hz]; [vm_compute; congruence|].
  destruct (str_int_pos n) as (c & s & -> & _ & _ & Hl); [unfold printable in Hn; lia|]. unfold strlen in *. cbn [String.length].
  destruct (Z.le_gt_cases 18 (Z.of_nat (String.length s))) as [H|H]; [|lia].
  pose proof (Z.pow_le_mono_r 10 _ _ ltac:(lia) H). unfold printable in Hn. lia.
Qed.

Lemma rfc3339_rfc d text : _rfc3339 d = Ok text → text = rfc (dt_us d).
Proof. unfold _rfc3339. intros H. apply result_bind_Ok in H as (_ & _ & H). by injection H as <-. Qed.

Section Read.
Context (value : ReceiptInput.t) (r : bytes) (built : build_receipt value = Ok r).
Let proof := ReceiptInput.proof value.
Context (size : printable (blen (StoredProof.proof_bytes proof))).
Context (heights : ∀ v n, StoredProof.verification proof = Some v → BitcoinVerification.block_height v = Some n → printable n).

(** The bundler reads the receipt as it was built. *)
Lemma loads_receipt : loads r = Ok (ODict (receipt_of value)) ∧
  (StoredProof.verification proof = None ∨
   is_some (StoredProof.verification proof ≫= confirmation_of) = true).
Proof.
  unfold build_receipt in built. apply result_bind_Ok in built as (fs & Hfs & E). apply Ok_inj in E as <-.
  unfold receipt_fields in Hfs. fold proof in Hfs. apply result_bind_Ok in Hfs as (_ & _ & Hfs).
  apply result_bind_Ok in Hfs as (submitted & ->%rfc3339_rfc & Hfs).
  destruct (StoredProof.verification proof) as [v|] eqn:Ev.
  - apply result_bind_Ok in Hfs as (more & Hmore & <-%Ok_inj). unfold confirmation_fields in Hmore.
    apply result_bind_Ok in Hmore as (_ & _ & Hmore).
    destruct (BitcoinVerification.block_height v) as [height|] eqn:Eh; [|done].
    destruct (BitcoinVerification.block_hash v) as [hash|] eqn:E1; [|done].
    destruct (BitcoinVerification.block_time v) as [time|] eqn:E2; [|done].
    destruct (BitcoinVerification.confirmation_policy v) as [policy|] eqn:E3; [|done].
    destruct (BitcoinVerification.verified_at v) as [verified_at|] eqn:E4; [|done].
    apply result_bind_Ok in Hmore as (? & ->%rfc3339_rfc & Hmore).
    apply result_bind_Ok in Hmore as (? & ->%rfc3339_rfc & <-%Ok_inj).
    split; [|right; unfold confirmation_of; simpl; by rewrite Eh, E1, E2, E3, E4].
    change (String (chr 10) "") with (char_str 10). cbn [app]. rewrite loads_dumps; [|rewrite full_ok|by right].
    + rewrite full_object, bitcoin_object. unfold receipt_of. fold proof. rewrite Ev. cbn [mbind option_bind].
      unfold confirmation_of. by rewrite Eh, E1, E2, E3, E4.
    + cbn [forallb]. rewrite bitcoin_ok. cbn [forallb json_ok].
      by rewrite (printable_digits height), printable_digits by (done || by eapply heights).
  - apply Ok_inj in Hfs as <-. split; [|by left].
    change (String (chr 10) "") with (char_str 10). rewrite loads_dumps; [|rewrite base_ok|by right].
    + rewrite base_object. unfold receipt_of. fold proof. by rewrite Ev.
    + cbn [forallb json_ok]. by rewrite printable_digits.
Qed.
End Read.

(** ** Its validation *)

Definition no_at (s : string) : bool := str_all (λ c, negb (code c =? 64)) s.
Lemma mentions_text s : no_at s = true → mentions_at (text s) = false.
Proof.
  unfold no_at. cbn [mentions_at text]. induction s as [|c s IH]; [done|]. cbn [str_all]. intros [Hc Hs]%andb_prop.
  rewrite wide_cons. cbn [existsb]. rewrite IH by done. rewrite Z.eqb_sym. by apply negb_true_iff in Hc as ->.
Qed.
Lemma no_at_class p s : str_all p s = true → p "@"%char = false → no_at s = true.
Proof.
  intros H Hp. eapply str_all_impl, H. intros c Hc. apply negb_true_iff, Z.eqb_neq. intros E.
  assert (c = "@"%char) as ->; [|congruence]. unfold code in E. rewrite <- (ascii_N_embedding c). by assert (N_of_ascii c = 64%N) as -> by lia.
Qed.
Lemma rfc_text us : representable us = true → ∃ p, rfc us = (p ++ "Z")%string ∧ str_all unsigned p = true.
Proof.
  intros H. destruct (isoformat_unsigned us) as (p & E & Hp). exists p. unfold rfc.
  rewrite E, replace_offset by auto. auto.
Qed.
Lemma rfc_no_at us : representable us = true → no_at (rfc us) = true.
Proof.
  intros (p & -> & Hp)%rfc_text. unfold no_at. rewrite str_all_app. apply andb_true_intro. split; [|done].
  by apply (no_at_class unsigned).
Qed.
Lemma date_time_rfc us : representable us = true → _date_time (Some (text (rfc us))) = Ok (Some (utc (us - us mod 1000000))).
Proof.
  intros H. cbn [_date_time text]. rewrite (read_rfc3339 us (rfc us) H eq_refl). unfold astimezone_utc.
  unfold representable in H. unfold days, hours, minutes, seconds in *.
  assert ((60 * (60 * (24 * first_day)) * 1000000 <=? us - us mod 1000000 - 0) &&
          (us - us mod 1000000 - 0 <? 60 * (60 * (24 * (last_day + 1))) * 1000000) = true) as -> by (Z.div_mod_to_equations; lia).
  cbn. by rewrite Z.sub_0_r.
Qed.
Lemma is_text_eq s t : is_text (Some (text s)) t = (s =? t)%string.
Proof.
  cbn [is_text text]. destruct (String.eqb_spec s t) as [->|Hn]; [by apply bool_decide_eq_true|].
  apply bool_decide_eq_false. intros E. by apply Hn, wide_inj.
Qed.
Lemma matches_text p s : matches p (Some (text s)) = p s.
Proof. unfold matches, text. by rewrite latin_of_wide. Qed.
Lemma text_within_text n s : text_within n (Some (text s)) = (1 <=? strlen s) && (strlen s <=? n).
Proof. cbn [text_within text]. unfold len, strlen. by rewrite length_wide. Qed.

Definition whole (us : Z) : bool := us mod 1000000 =? 0.
Lemma floor_whole us : bool_decide (Some (us - us mod 1000000) = Some us) = whole us.
Proof.
  unfold whole. destruct (Z.eqb_spec (us mod 1000000) 0) as [E|E].
  - apply bool_decide_eq_true. rewrite E. f_equal. lia.
  - apply bool_decide_eq_false. intros [= H]. lia.
Qed.
(** The times of a verification are whole seconds. *)
Definition whole_verification (v : BitcoinVerification.t) : bool :=
  match BitcoinVerification.block_time v, BitcoinVerification.verified_at v with
  | Some b, Some a => whole (dt_us b) && whole (dt_us a)
  | _, _ => false
  end.

(** What a receipt needs to be valid, besides the precision of its times: canonical references and
    hashes, times that Python can represent, and no at sign. *)
Record ready (value : ReceiptInput.t) : Prop := {
  ready_proof : StoredProof.ok (ReceiptInput.proof value);
  ready_digest : ManifestDigest.ok (StoredProof.target_digest (ReceiptInput.proof value));
  ready_order : _ORDER_REFERENCE (StoredProof.order_reference (ReceiptInput.proof value)) = true;
  ready_certificate : _CERTIFICATE (ReceiptInput.certificate_reference value) = true;
  ready_version : no_at (ReceiptInput.service_version value) = true;
  ready_submitted : representable (dt_us (StoredProof.calendar_submitted_at (ReceiptInput.proof value))) = true;
  ready_verification : ∀ v, StoredProof.verification (ReceiptInput.proof value) = Some v →
    (∀ n, BitcoinVerification.block_height v = Some n → printable n) ∧
    (∀ h, BitcoinVerification.block_hash v = Some h → _SHA256_HEX h = true) ∧
    (∀ t, BitcoinVerification.block_time v = Some t → representable (dt_us t) = true) ∧
    (∀ t, BitcoinVerification.verified_at v = Some t → representable (dt_us t) = true) ∧
    (∀ p, BitcoinVerification.confirmation_policy v = Some p → no_at p = true) ∧
    no_at (BitcoinVerification.method v) = true }.

Lemma ok_verification p v : StoredProof.ok p → StoredProof.verification p = Some v →
  StoredProof.proof_state p = PROOF_BITCOIN_VERIFIED ∧ _validate_verification v = Ok tt.
Proof.
  unfold StoredProof.ok, StoredProof.post_init. intros H Ev. do 4 (apply result_bind_Ok in H as (_ & _ & H)).
  rewrite Ev in H. destruct (StoredProof.proof_state p); [done|]. split; [done|].
  destruct (BitcoinVerification.verified v); [|done]. apply result_bind_Ok in H as ([] & H & _). done.
Qed.
Lemma bitcoin_block_keys h k t p : let b := [(wide "block_hash", k); (wide "block_height", h); (wide "block_time", t);
    (wide "confirmation_policy", p)] in
  issubset (keys_of b) (map wide bitcoin_keys) && forallb (has_key b) bitcoin_keys = true ∧
  get_key "block_height" b = Some h ∧ get_key "block_hash" b = Some k ∧ get_key "block_time" b = Some t ∧
  get_key "confirmation_policy" b = Some p.
Proof. split_and!; vm_compute; reflexivity. Qed.

Lemma sha256_hex_ok b : blen b = 32 → _SHA256_HEX (bytes_hex b) = true.
Proof.
  unfold blen, _SHA256_HEX, fullmatch_class. intros H. rewrite length_bytes_hex, bytes_hex_lower, andb_true_r.
  assert (List.length b = 32%nat) as -> by lia. done.
Qed.
Lemma proof_sha256_ok p : StoredProof.ok p → StoredProof.proof_sha256 p = sha256 (StoredProof.proof_bytes p).
Proof. by intros (_ & _ & H & _)%StoredProof.ok_facts. Qed.

Section Validate.
Context (value : ReceiptInput.t) (fine : ready value).
Let proof := ReceiptInput.proof value.
Let context := ProofBundleContext.mk (ReceiptInput.certificate_reference value) (ReceiptInput.service_version value).

Lemma receipt_keys :
  issubset (keys_of (receipt_of value)) (map wide _RECEIPT_KEYS) = true ∧
  forallb (has_key (receipt_of value)) required_keys = true ∧
  forallb (has_key (receipt_of value)) confirmation_keys = is_some (StoredProof.verification proof ≫= confirmation_of) ∧
  existsb (has_key (receipt_of value)) confirmation_keys = is_some (StoredProof.verification proof ≫= confirmation_of).
Proof.
  unfold receipt_of. split_and!; [apply fields_known|apply fields_required|apply fields_confirmation|apply fields_unconfirmed].
Qed.
Lemma receipt_get : let get key := get_key key (receipt_of value) in
  let confirmation := StoredProof.verification proof ≫= confirmation_of in
  get "schema_version" = Some (text "1.0.0") ∧ get "order_reference" = Some (text (StoredProof.order_reference proof)) ∧
  get "certificate_reference" = Some (text (ReceiptInput.certificate_reference value)) ∧
  get "manifest_sha256" = Some (text (ManifestDigest.hex (StoredProof.target_digest proof))) ∧
  get "proof_sha256" = Some (text (bytes_hex (StoredProof.proof_sha256 proof))) ∧
  get "proof_bytes" = Some (OInt (blen (StoredProof.proof_bytes proof))) ∧
  get "proof_state" = Some (text (ProofState_value (StoredProof.proof_state proof))) ∧
  get "calendar_submitted_at" = Some (text (rfc (dt_us (StoredProof.calendar_submitted_at proof)))) ∧
  get "service_version" = Some (text (ReceiptInput.service_version value)) ∧
  get "bitcoin" = (λ c, c.1.1) <$> confirmation ∧ get "verification_method" = (λ c, c.1.2) <$> confirmation ∧
  get "verified_at" = snd <$> confirmation.
Proof. apply get_fields. Qed.

(** None of its texts contains an at sign. *)
Lemma mentions_receipt : mentions_at (ODict (receipt_of value)) = false.
Proof.
  pose proof (ready_proof value fine) as Hok. unfold receipt_of. rewrite mentions_fields. apply orb_false_intro.
  - cbn [existsb]. rewrite !mentions_text; try done.
    + apply (ready_version value fine).
    + apply rfc_no_at, (ready_submitted value fine).
    + by destruct (StoredProof.proof_state _).
    + eapply no_at_class; [apply bytes_hex_lower|done].
    + eapply no_at_class; [apply bytes_hex_lower|done].
    + pose proof (ready_certificate value fine) as Hc. unfold _CERTIFICATE, fullmatch_head in Hc.
      destruct (ReceiptInput.certificate_reference value) as [|c s]; [done|]. apply andb_prop in Hc as [Hc [_ Hs]%andb_prop].
      apply (no_at_class certificate_char); [|done]. cbn [str_all]. rewrite Hs, andb_true_r.
      unfold certificate_char. by rewrite Hc.
    + pose proof (ready_order value fine) as Ho. unfold _ORDER_REFERENCE in Ho. apply andb_prop in Ho as [Hs [_ Ho]%andb_prop].
      apply startswith_iff in Hs as [s E]. rewrite E, removeprefix_app in *.
      unfold no_at. rewrite str_all_app. apply andb_true_intro. split; [done|]. by apply (no_at_class crockford_char).
  - fold proof. destruct (StoredProof.verification proof) as [v|] eqn:Ev; [|done]. cbn [mbind option_bind].
    destruct (ready_verification value fine v Ev) as (_ & Hhash & Hbt & Hva & Hp & Hm). unfold confirmation_of.
    destruct (BitcoinVerification.block_height v) as [height|] eqn:Eh; [|done].
    destruct (BitcoinVerification.block_hash v) as [hash|] eqn:E1; [|done].
    destruct (BitcoinVerification.block_time v) as [time|] eqn:E2; [|done].
    destruct (BitcoinVerification.confirmation_policy v) as [policy|] eqn:E3; [|done].
    destruct (BitcoinVerification.verified_at v) as [verified_at|] eqn:E4; [|done].
    cbn [existsb]. rewrite (mentions_text (BitcoinVerification.method v)), (mentions_text (rfc (dt_us verified_at))) by auto using rfc_no_at.
    unfold bitcoin_block. cbn [mentions_at existsb fst snd].
    repeat match goal with |- context [existsb (Z.eqb 64) (wide ?t)] => change (existsb (Z.eqb 64) (wide t)) with false end.
    pose proof (mentions_text hash) as M1. pose proof (mentions_text (rfc (dt_us time))) as M2.
    pose proof (mentions_text policy) as M3. cbn [mentions_at text] in *.
    rewrite M1, M2, M3; [done|by auto|by auto using rfc_no_at|].
    specialize (Hhash _ eq_refl). apply andb_prop in Hhash as [_ Hhash]. by apply (no_at_class is_lower_hex).
Qed.

Lemma check_bitcoin_whole v c : StoredProof.verification proof = Some v → confirmation_of v = Some c →
  check_bitcoin (receipt_of value) proof =
    raise_when (negb (whole_verification v)) (ValueError "receipt_verification_metadata_mismatch").
Proof.
  intros Ev Ec. destruct (ok_verification proof v (ready_proof value fine) Ev) as [_ Hv].
  destruct (ready_verification value fine v Ev) as (_ & Hhash & Hbt & Hva & _ & _).
  unfold check_bitcoin. rewrite (proj1 (proj2 (proj2 receipt_keys))), Ev. cbn [mbind option_bind]. rewrite Ec.
  destruct receipt_get as (_ & _ & _ & _ & _ & _ & _ & _ & _ & -> & -> & ->). rewrite Ev. cbn [mbind option_bind]. rewrite Ec.
  unfold confirmation_of in Ec.
  destruct (BitcoinVerification.block_height v) as [height|] eqn:Eh; [|done].
  destruct (BitcoinVerification.block_hash v) as [hash|] eqn:E1; [|done].
  destruct (BitcoinVerification.block_time v) as [time|] eqn:E2; [|done].
  destruct (BitcoinVerification.confirmation_policy v) as [policy|] eqn:E3; [|done].
  destruct (BitcoinVerification.verified_at v) as [verified_at|] eqn:E4; [|done]. injection Ec as <-.
  specialize (Hhash _ eq_refl). specialize (Hbt _ eq_refl). specialize (Hva _ eq_refl).
  cbn [is_some is_none negb raise_when result_bind fmap option_fmap option_map fst snd].
  destruct (bitcoin_block_keys (OInt height) (text hash) (text (rfc (dt_us time))) (text policy)) as (Hk & Hh1 & Hh2 & Hh3 & Hh4).
  unfold bitcoin_block. cbv iota. rewrite Hk. cbn [result_bind]. rewrite Hh1, Hh2, Hh3, Hh4. cbn [need exact_int result_bind].
  unfold _validate_verification in Hv. rewrite ?Eh, ?E1, ?E2, ?E4 in Hv.
  apply result_bind_Ok in Hv as (_ & _ & Hv). apply result_bind_Ok in Hv as (_ & Hh%raise_when_Ok & Hv).
  do 2 apply result_bind_Ok in Hv as (_ & _ & Hv). apply raise_when_Ok in Hv.
  unfold method_or_policy_invalid in Hv. rewrite ?E3 in Hv. apply orb_false_elim in Hv as [Hmethod Hpolicy].
  rewrite Hh, matches_text, Hhash. cbn [orb negb raise_when result_bind].
  rewrite date_time_rfc by done. cbn [result_bind is_none]. rewrite !text_within_text.
  assert ((1 <=? strlen policy) && (strlen policy <=? 128) = true) as ->.
  { apply orb_false_elim in Hpolicy as [Hne Hlen]. apply String.eqb_neq in Hne. unfold strlen in *.
    destruct policy; [done|]. cbn [String.length] in *. apply Z.ltb_ge in Hlen. apply andb_true_intro. split; apply Z.leb_le; lia. }
  apply negb_false_iff in Hmethod. rewrite Hmethod. cbn [negb orb raise_when result_bind].
  rewrite date_time_rfc by done. cbn [result_bind is_none raise_when]. rewrite ?Ev. cbn [need result_bind].
  rewrite E2, E4, Eh, E1, E3. unfold whole_verification. rewrite E2, E4. cbn [fmap option_fmap option_map default].
  rewrite !is_text_eq, !String.eqb_refl, bool_decide_eq_true_2 by done. cbn [negb orb dt_us utc].
  rewrite !floor_whole, negb_andb. done.
Qed.

(** A built receipt is accepted when its times are whole seconds, and else refused. *)
Definition verdict (fs : list (ustr * obj)) : result (list (ustr * obj)) :=
  check! raise_when (negb (whole (dt_us (StoredProof.calendar_submitted_at proof))))
    (ValueError "receipt_calendar_time_mismatch") in
  check! match StoredProof.verification proof with
         | Some v => raise_when (negb (whole_verification v)) (ValueError "receipt_verification_metadata_mismatch")
         | None => Ok tt
         end in
  Ok fs.
Lemma validate_built : StoredProof.verification proof = None ∨ is_some (StoredProof.verification proof ≫= confirmation_of) = true →
  (1 <=? strlen (ReceiptInput.service_version value)) && (strlen (ReceiptInput.service_version value) <=? 64) = true →
  _validate_receipt (ODict (receipt_of value)) proof context = verdict (receipt_of value).
Proof.
  intros Hc Hversion. pose proof (ready_proof value fine) as Hok.
  assert (is_some (StoredProof.verification proof ≫= confirmation_of) = is_some (StoredProof.verification proof)) as Hsome.
  { destruct Hc as [->|Hc]; [done|]. rewrite Hc. by destruct (StoredProof.verification proof). }
  unfold _validate_receipt. cbn [result_bind].
  assert (mentions_at (ODict (receipt_of value)) = false) as Hat. { apply mentions_receipt. }
  pose proof (check_bitcoin_whole) as Hbitcoin.
  destruct receipt_keys as (-> & -> & _ & ->).
  destruct receipt_get as (-> & -> & -> & -> & -> & -> & -> & -> & -> & _).
  cbn [negb raise_when result_bind]. rewrite !matches_text, !is_text_eq, text_within_text, Hversion.
  pose proof (ready_order value fine) as Ho. fold proof in Ho. rewrite Ho, (ready_certificate value fine). change (("1.0.0" =? "1.0.0")%string) with true.
  cbn [negb orb raise_when result_bind]. rewrite date_time_rfc by apply (ready_submitted value fine). cbn [result_bind is_none raise_when].
  cbn [negb orb raise_when result_bind context ProofBundleContext.certificate_reference ProofBundleContext.service_version].
  rewrite !String.eqb_refl. cbn [negb orb raise_when result_bind exact_int]. rewrite bool_decide_eq_true_2 by done.
  cbn [negb orb raise_when result_bind].
  unfold ManifestDigest.hex. rewrite (sha256_hex_ok (ManifestDigest.value _)) by apply (ready_digest value fine).
  rewrite sha256_hex_ok by (rewrite (proof_sha256_ok proof Hok); apply blen_sha256).
  cbn [negb orb raise_when result_bind fmap option_fmap option_map dt_us utc]. rewrite floor_whole.
  unfold verdict. destruct (whole _); [|done]. cbn [negb raise_when result_bind]. rewrite Hsome, Hat. clear Hat.
  apply StoredProof.ok_facts in Hok as (_ & _ & _ & _ & Hp & Hv). fold proof in Hp, Hv.
  destruct (StoredProof.proof_state proof).
  - by rewrite Hp.
  - destruct Hv as (v & Ev & _); [done|]. rewrite Ev in *. cbn [mbind option_bind is_some is_none negb] in Hsome.
    destruct (confirmation_of v) as [c|] eqn:Ec; [|done]. rewrite (Hbitcoin v c) by done. cbn [String.eqb].
    by destruct (whole_verification v).
Qed.
End Validate.

(** ** The bundle *)

Definition bundle_names : list string :=
  ["README-FIRST.txt"; "manifest.json.ots"; "timestamp-receipt.json"; "verification-instructions.txt"; "sha256sums.txt"].
Lemma bundle_files_names pending p r : (bundle_files pending p r).*1 = bundle_names.
Proof. done. Qed.
Definition seven (s : string) : bool := str_all (λ c, code c <? 128) s.
Lemma checksum_line_seven name content : seven name = true → seven (_checksum_line name content) = true.
Proof.
  intros Hn. unfold _checksum_line, seven. rewrite !str_all_app, andb_true_intro; [done|]. split.
  - eapply str_all_impl, bytes_hex_lower. intros c. unfold is_lower_hex, is_digit, in_range. lia.
  - change (str_all _ "  ") with true. fold (seven name). by rewrite Hn.
Qed.
Lemma strlen_checksum_line name content : strlen (_checksum_line name content) = 67 + strlen name.
Proof.
  unfold strlen, _checksum_line. rewrite !length_string_app, length_bytes_hex, length_sha256. cbn [String.length newline char_str]. lia.
Qed.
Lemma strlen_app s t : strlen (s ++ t) = strlen s + strlen t.
Proof. unfold strlen. rewrite length_string_app. lia. Qed.
Lemma bundle_files_size pending p r :
  sum (map (λ f, blen f.2) (bundle_files pending p r)) <= 1024 + blen p + blen r.
Proof.
  unfold bundle_files.
  match goal with |- context [sort_fields ?l] => assert (sort_fields l = l) as -> by reflexivity end.
  cbn [map app sum foldr fst snd join].
  assert (blen (encode (readme pending)) <= 320) as Hreadme by (destruct pending; vm_compute; congruence).
  assert (blen (encode instructions) <= 240) as Hinstructions by (vm_compute; congruence).
  match goal with |- context [blen (encode (?a ++ "" ++ ?b ++ "" ++ ?c ++ "" ++ ?d))] =>
    assert (blen (encode (a ++ "" ++ b ++ "" ++ c ++ "" ++ d)) = 352) as ->; [|lia] end.
  rewrite encode_ascii.
  - rewrite !strlen_app, !strlen_checksum_line. reflexivity.
  - rewrite !str_all_app. fold seven. rewrite !checksum_line_seven by reflexivity. done.
Qed.

Section Build.
Context (apply_op : Op → bytes → result bytes) (deserialize : bytes → option DetachedTimestampFile.t).
Context (value : ReceiptInput.t) (fine : ready value) (r : bytes) (built : build_receipt value = Ok r).
Let proof := ReceiptInput.proof value.
Let context := ProofBundleContext.mk (ReceiptInput.certificate_reference value) (ReceiptInput.service_version value).
Context (small : blen r <= 65536).
Context (parsed : ParsedProof.t) (detached : deserialize_exact_proof apply_op deserialize (StoredProof.target_digest proof)
  (StoredProof.proof_bytes proof) (Some (StoredProof.proof_sha256 proof)) = Ok parsed).

(** The bundle of a built receipt, up to the archive. *)
Lemma build_built : DeterministicProofBundler.build apply_op deserialize proof r context =
  try! receipt := verdict value (receipt_of value) in
  let pending := is_text (get_key "proof_state" receipt) "calendar_pending" in
  try! bundle := write_zip (map (λ f, (_zip_info f.1, f.2)) (bundle_files pending (StoredProof.proof_bytes proof) r)) in
  check! raise_when (MAX_BUNDLE_BYTES <? blen bundle) (ValueError "proof_bundle_too_large") in
  Ok bundle.
Proof.
  unfold DeterministicProofBundler.build. rewrite detached. cbn [result_bind].
  assert (r ≠ []) as Hr.
  { unfold build_receipt in built. apply result_bind_Ok in built as (fs & _ & <-%Ok_inj).
    destruct (dumps_head (JObj (sort_fields fs)) []) as (c & t & E & _). intros Hnil.
    apply (f_equal List.length) in E. rewrite app_nil_r, length_wide in E.
    destruct (dumps_compact true (JObj (sort_fields fs))) as [|c' s]; [done|].
    rewrite string_app_cons in Hnil. cbn [encode] in Hnil. by destruct (code c' <? 128). }
  rewrite bool_decide_eq_false_2 by done. rewrite (proj2 (Z.ltb_ge _ _)) by lia. cbn [orb raise_when result_bind].
  destruct (loads_receipt value r built) as [-> Hc].
  { pose proof (StoredProof.ok_facts _ (ready_proof value fine)) as (_ & Hl & _). unfold MAX_PROOF_BYTES in Hl. unfold printable. lia. }
  { intros v n Ev En. by eapply (ready_verification value fine v Ev). }
  cbn [except_as result_bind]. unfold proof, context. rewrite (validate_built value fine Hc); [reflexivity|].
  unfold build_receipt, receipt_fields in built. apply result_bind_Ok in built as (fs & Hfs & _).
  apply result_bind_Ok in Hfs as (_ & Hv%raise_when_Ok & _). by apply negb_false_iff in Hv.
Qed.

(** The archive of five files that are small enough. *)
Lemma write_bundle pending : ∃ bundle,
  write_zip (map (λ f, (_zip_info f.1, f.2)) (bundle_files pending (StoredProof.proof_bytes proof) r)) = Ok bundle ∧
  blen bundle <= MAX_BUNDLE_BYTES ∧
  read_zip bundle = Some (map (λ f, (encode f.1, f.2)) (bundle_files pending (StoredProof.proof_bytes proof) r)).
Proof.
  pose proof (StoredProof.ok_facts _ (ready_proof value fine)) as (_ & Hl & _). unfold MAX_PROOF_BYTES in Hl. fold proof in Hl.
  pose proof (bundle_files_size pending (StoredProof.proof_bytes proof) r) as Hsize.
  set (files := bundle_files pending (StoredProof.proof_bytes proof) r) in *.
  assert (sum (map file_size (map (λ f, (_zip_info f.1, f.2)) files)) +
          sum (map (λ f, directory_size f.1) (map (λ f, (_zip_info f.1, f.2)) files)) =
          sum (map (λ f, blen f.2) files) + 576) as Etotal.
  { clear Hsize. assert (files.*1 = bundle_names) as En by apply bundle_files_names.
    destruct files as [|f1 [|f2 [|f3 [|f4 [|f5 [|f6 files]]]]]]; try done.
    injection En as E1 E2 E3 E4 E5. cbn [map sum foldr]. unfold file_size, directory_size, name_size.
    cbn [fst snd _zip_info ZipInfo.filename]. rewrite E1, E2, E3, E4, E5.
    repeat match goal with |- context [blen (encode ?s)] => let n := eval vm_compute in (blen (encode s)) in
      change (blen (encode s)) with n end. lia. }
  destruct (write_zip_small (map (λ f, (_zip_info f.1, f.2)) files)) as (bundle & Hw & Hb).
  - rewrite Etotal. unfold ZIP64_LIMIT. lia.
  - unfold len. rewrite length_map. done.
  - exists bundle. split; [done|]. split; [rewrite Hb, Etotal; unfold MAX_BUNDLE_BYTES; lia|].
    rewrite (read_write_zip (map (λ f, (_zip_info f.1, f.2)) files)); [by rewrite map_map| |done].
    apply Forall_fmap. unfold files, bundle_files. repeat (apply Forall_cons; split; [by vm_compute|]). done.
Qed.
End Build.

(** Every time that the receipt of a proof shows is a whole second. *)
Definition whole_times (proof : StoredProof.t) : bool :=
  whole (dt_us (StoredProof.calendar_submitted_at proof)) &&
  match StoredProof.verification proof with Some v => whole_verification v | None => true end.
Definition context_of (value : ReceiptInput.t) : ProofBundleContext.t :=
  ProofBundleContext.mk (ReceiptInput.certificate_reference value) (ReceiptInput.service_version value).

(** C39: the receipt that the delivery handler builds for a stored proof passes the bundler's
    validation if the times of the proof are whole seconds and the bundler's other demands are met
    by what is stored: canonical references, a block height below 10^18 and a block hash of 64 hexadecimal digits, no at sign
    in the service version, the policy or the method, times that Python can represent, a proof that
    is read as the detached proof of the digest, and at most 65536 bytes of receipt.  Then the
    proof is bundled, and reading the archive back gives the five files, with the proof, the
    receipt and their checksums.  (The store also accepts a block hash with blanks among its
    digits; such a proof is not bundled: Findings.blank_hash_is_not_bundled.) *)
Theorem whole_second_proof_is_bundled apply_op deserialize value r parsed :
  let proof := ReceiptInput.proof value in
  ready value → build_receipt value = Ok r → blen r <= 65536 →
  deserialize_exact_proof apply_op deserialize (StoredProof.target_digest proof) (StoredProof.proof_bytes proof)
    (Some (StoredProof.proof_sha256 proof)) = Ok parsed →
  whole_times proof = true →
  ∃ bundle, DeterministicProofBundler.build apply_op deserialize proof r (context_of value) = Ok bundle ∧
    read_zip bundle = Some (map (λ f, (encode f.1, f.2))
      (bundle_files (bool_decide (StoredProof.proof_state proof = PROOF_CALENDAR_PENDING)) (StoredProof.proof_bytes proof) r)).
Proof.
  cbv zeta. intros fine built small detached Hw. unfold context_of. erewrite build_built by eassumption.
  set (proof := ReceiptInput.proof value) in *.
  unfold whole_times in Hw. apply andb_prop in Hw as [Hs Hv]. unfold verdict. fold proof. rewrite Hs. cbn [negb raise_when result_bind].
  assert (match StoredProof.verification proof with
          | Some v => raise_when (negb (whole_verification v)) (ValueError "receipt_verification_metadata_mismatch")
          | None => Ok tt end = Ok tt) as ->.
  { destruct (StoredProof.verification proof); [by rewrite Hv|done]. }
  cbn [result_bind]. destruct (receipt_get value) as (_ & _ & _ & _ & _ & _ & -> & _). fold proof. rewrite is_text_eq.
  assert ((ProofState_value (StoredProof.proof_state proof) =? "calendar_pending")%string =
          bool_decide (StoredProof.proof_state proof = PROOF_CALENDAR_PENDING)) as -> by (by destruct (StoredProof.proof_state proof)).
  destruct (write_bundle value fine r small (bool_decide (StoredProof.proof_state proof = PROOF_CALENDAR_PENDING)))
    as (bundle & Hw & Hb & Hr).
  exists bundle. cbv zeta. fold proof in Hw, Hr. rewrite Hw. cbn [result_bind].
  by rewrite (proj2 (Z.ltb_ge _ _)) by lia.
Qed.

(** C40: a stored proof that meets the same demands but has a fraction of a second in one of its times
    is refused with the receipt that the delivery handler builds: build_receipt shows whole seconds,
    and the bundler compares them with the stored times.  (The download route builds its own
    receipt, which shows microseconds; with that one a pending proof is bundled:
    Findings.download_shows_microseconds.) *)
Theorem subsecond_proof_is_refused apply_op deserialize value r parsed :
  let proof := ReceiptInput.proof value in
  ready value → build_receipt value = Ok r → blen r <= 65536 →
  deserialize_exact_proof apply_op deserialize (StoredProof.target_digest proof) (StoredProof.proof_bytes proof)
    (Some (StoredProof.proof_sha256 proof)) = Ok parsed →
  whole_times proof = false →
  DeterministicProofBundler.build apply_op deserialize proof r (context_of value) =
    Raise (ValueError (if whole (dt_us (StoredProof.calendar_submitted_at proof))
                       then "receipt_verification_metadata_mismatch" else "receipt_calendar_time_mismatch")).
Proof.
  cbv zeta. intros fine built small detached Hw. unfold context_of. erewrite build_built by eassumption.
  set (proof := ReceiptInput.proof value) in *.
  unfold whole_times in Hw. unfold verdict. fold proof. destruct (whole _); [|done].
  destruct (StoredProof.verification proof); [|done]. cbn [andb] in Hw. by rewrite Hw.
Qed.

(** *** Instances *)

Definition sample_digest : ManifestDigest.t := ManifestDigest.mk (repeat x41 32).
Definition sample_deserialize (_ : bytes) : option DetachedTimestampFile.t :=
  Some (DetachedTimestampFile.mk OpSHA256 (mk_timestamp (repeat x41 32) [] [])).
Definition sample_verification : BitcoinVerification.t := {|
  BitcoinVerification.verified := true; BitcoinVerification.method := "bitcoin-core-rpc";
  BitcoinVerification.verified_at := Some (utc 1709210096000000); BitcoinVerification.block_height := Some 832500;
  BitcoinVerification.block_hash := Some (bytes_hex (repeat x41 32)); BitcoinVerification.block_time := Some (utc 1709200000000000);
  BitcoinVerification.confirmation_policy := Some "one confirmation"; BitcoinVerification.confirmations := Some 1 |}.
Definition sample_input (submitted : Z) (verification : option BitcoinVerification.t) : ReceiptInput.t :=
  ReceiptInput.mk {|
    StoredProof.order_reference := "ts_01HQVZ5Q3M8X9Y7W6V5T4S3R2P"; StoredProof.version := 1;
    StoredProof.target_digest := sample_digest; StoredProof.proof_bytes := [x01]; StoredProof.proof_sha256 := sha256 [x01];
    StoredProof.proof_state := match verification with Some _ => PROOF_BITCOIN_VERIFIED | None => PROOF_CALENDAR_PENDING end;
    StoredProof.calendar_submitted_at := utc submitted; StoredProof.verification := verification |} "COA-2024/17" "1.0.0".
Definition sample_receipt (value : ReceiptInput.t) : bytes := match build_receipt value with Ok r => r | Raise _ => [] end.
Lemma sample_ready submitted verification : representable submitted = true →
  verification = None ∨ verification = Some sample_verification → ready (sample_input submitted verification).
Proof.
  intros Hs Hv. split; try done.
  - destruct Hv as [-> | ->]; by vm_compute.
  - intros v Ev. destruct Hv as [-> | ->]; [done|]. injection Ev as <-.
    split_and!; intros; simplify_eq/=; unfold printable; (lia || by vm_compute).
Qed.

Lemma whole_second_proof_is_bundled_witness :
  let value := sample_input 1709210000000000 (Some sample_verification) in
  ∃ bundle, DeterministicProofBundler.build (λ _ m, Ok m) sample_deserialize (ReceiptInput.proof value) (sample_receipt value)
    (context_of value) = Ok bundle ∧
  read_zip bundle = Some (map (λ f, (encode f.1, f.2)) (bundle_files false [x01] (sample_receipt value))).
Proof.
  apply (whole_second_proof_is_bundled (λ _ m, Ok m) sample_deserialize
    (sample_input 1709210000000000 (Some sample_verification)) (sample_receipt (sample_input 1709210000000000 (Some sample_verification)))
    (ParsedProof.mk (DetachedTimestampFile.mk OpSHA256 (mk_timestamp (repeat x41 32) [] [])) (mk_counts 1 0 0 0))).
  - apply sample_ready; [reflexivity|by right].
  - vm_compute. reflexivity.
  - vm_compute. congruence.
  - vm_compute. reflexivity.
  - vm_compute. reflexivity.
Defined.
Lemma subsecond_proof_is_refused_witness :
  let value := sample_input 1709210000000001 None in
  DeterministicProofBundler.build (λ _ m, Ok m) sample_deserialize (ReceiptInput.proof value) (sample_receipt value)
    (context_of value) = Raise (ValueError "receipt_calendar_time_mismatch").
Proof.
  apply (subsecond_proof_is_refused (λ _ m, Ok m) sample_deserialize
    (sample_input 1709210000000001 None) (sample_receipt (sample_input 1709210000000001 None))
    (ParsedProof.mk (DetachedTimestampFile.mk OpSHA256 (mk_timestamp (repeat x41 32) [] [])) (mk_counts 1 0 0 0))).
  - apply sample_ready; [reflexivity|by left].
  - vm_compute. reflexivity.
  - vm_compute. congruence.
  - vm_compute. reflexivity.
  - vm_compute. reflexivity.
Defined.
