(* ===== verification/Handlers.v ===== *)
(** * The fulfillment handlers

    [app/fulfillment/handlers.py] and [app/fulfillment/terminal.py].  The handlers are
    written against the protocols of [app/fulfillment/ports.py] and [app/ports/]; each
    protocol is a record of operations here, and the SQL adapters are its instances. *)
From S2P Require Import Prelude PyStr PyFloat Domain Ports Db Session Proofs Outbox Ots Receipt.

Open Scope string_scope.
Open Scope Z_scope.
Import PaymentState FulfillmentState.

(** ** The protocols *)

Record FulfillmentRepository := {
  get_for_fulfillment : string → M (option FulfillmentOrder.t);
  transition_fulfillment_once :
    string → FulfillmentState.t → string → option datetime → M FulfillmentOrder.t }.
Record ProofStore := {
  proofs_append : StoredProof.t → M unit;
  proofs_latest : string → M (option StoredProof.t) }.
Record Timestamper := {
  stamp_exact_digest : ManifestDigest.t → M PendingProof.t;
  upgrade_exact_digest : ManifestDigest.t → bytes → M bytes }.
Record BitcoinVerifier := {
  verify_exact_digest : ManifestDigest.t → bytes → M BitcoinVerification.t }.
Record VerificationRepository := {
  put_verified_once : string → Z → BitcoinVerification.t → M unit;
  get_verified : string → Z → M (option BitcoinVerification.t) }.
Record ConfirmationObservationRepository := {
  record_once : string → Z → string → BitcoinVerification.t → M ConfirmationObservation.t;
  observations_latest : string → Z → M (option ConfirmationObservation.t) }.
Record BundleRepository := { put_once : string → Z → bytes → M unit }.
Record ProofBundler := { build : StoredProof.t → bytes → ProofBundleContext.t → M bytes }.
Record OutboxPort := { enqueue : OutboxMessage.t → M unit }.

(** ** The SQL adapters as instances ([create_sql_fulfillment_adapters]) *)

Definition sql_orders : FulfillmentRepository := {|
  get_for_fulfillment := SqlFulfillmentRepository.get_for_fulfillment;
  transition_fulfillment_once := SqlFulfillmentRepository.transition_fulfillment_once |}.
Definition sql_proofs : ProofStore := {|
  proofs_append := SqlProofStore.append; proofs_latest := SqlProofStore.latest |}.
Definition sql_verifications : VerificationRepository := {|
  put_verified_once := SqlVerificationRepository.put_verified_once;
  get_verified := SqlVerificationRepository.get_verified |}.
Definition sql_observations : ConfirmationObservationRepository := {|
  record_once := SqlBitcoinConfirmationObservations.record_once;
  observations_latest := SqlBitcoinConfirmationObservations.latest |}.
Definition sql_bundles : BundleRepository := {| put_once := SqlBundleRepository.put_once |}.
(** [SqlNotificationOutbox(session_factory)] with the default horizon and attempts. *)
Definition sql_outbox : OutboxPort := {|
  enqueue := SqlNotificationOutbox.enqueue (SqlNotificationOutbox.mk (hours 24) 12) |}.

(** ** The handlers *)

(** [except ProofValidationError as exc: raise ManualReviewError(code)] *)
Definition proof_error_to_review (code : string) (e : exn) : exn :=
  match e with ProofValidationError _ => ManualReviewError code | e => e end.
Definition map_error {A} (f : exn → exn) (r : result A) : result A :=
  match r with Ok a => Ok a | Raise e => Raise (f e) end.
(** [except ProofValidationError: ManualReviewError(a); except Exception: Retryable(b)] *)
Definition calendar_errors {A} (review retry : string) (m : M A) : M A :=
  try_except m (λ e,
    match e with
    | ProofValidationError _ => Some (raise (ManualReviewError review))
    | e => if is_Exception e then Some (raise (RetryableFulfillmentError retry)) else None
    end).

Section Handlers.
Context (apply_op : Op → bytes → result bytes) (deserialize : bytes → option DetachedTimestampFile.t).
#[local] Notation validate := (validate_exact_proof apply_op deserialize).
#[local] Notation make_stored_proof := (Ots.make_stored_proof apply_op deserialize).
Context (orders : FulfillmentRepository) (proofs : ProofStore).

Definition _load (order_id : string) : M FulfillmentOrder.t :=
  let! order := get_for_fulfillment orders order_id in
  match order with
  | None => raise (ManualReviewError "order_not_found")
  | Some order => ret order
  end.

(** [order.state.snapshot]: present on every order that the repository returns. *)
Definition snapshot_of (order : FulfillmentOrder.t) : M OrderSnapshot.t :=
  match OrderState.snapshot (FulfillmentOrder.state order) with
  | Some s => ret s
  | None => raise (Other "AttributeError")
  end.
Definition payment_of (order : FulfillmentOrder.t) : PaymentState.t :=
  OrderState.payment (FulfillmentOrder.state order).
Definition fulfillment_of (order : FulfillmentOrder.t) : FulfillmentState.t :=
  OrderState.fulfillment (FulfillmentOrder.state order).

Definition _verify_bitcoin (verifier : BitcoinVerifier) (digest : ManifestDigest.t) (proof_bytes : bytes)
    : M BitcoinVerification.t :=
  try_except (verify_exact_digest verifier digest proof_bytes) (λ e,
    match e with
    | BitcoinVerifierUnavailable _ => Some (raise (RetryableFulfillmentError "bitcoin_verifier_unavailable"))
    | BitcoinEvidenceInvalid _ | ProofValidationError _ => Some (raise (ManualReviewError "bitcoin_evidence_invalid"))
    | _ => None
    end).

(** [a >= b] on datetimes; comparing a naive with an aware value raises. *)
Definition datetime_ge (a b : datetime) : result bool :=
  if dt_aware a == dt_aware b then Ok (dt_us b <=? dt_us a)
  else Raise (TypeError "can't compare offset-naive and offset-aware datetimes").

Definition _same_reverification_evidence (existing : option BitcoinVerification.t)
    (current : BitcoinVerification.t) : result bool :=
  match existing with
  | None => Ok false
  | Some existing =>
      match BitcoinVerification.verified_at existing, BitcoinVerification.verified_at current with
      | Some before, Some after =>
          if negb (BitcoinVerification.verified existing && BitcoinVerification.verified current) then Ok false
          else if (BitcoinVerification.method current == BitcoinVerification.method existing) &&
            (BitcoinVerification.block_height current == BitcoinVerification.block_height existing) &&
            (BitcoinVerification.block_hash current == BitcoinVerification.block_hash existing) &&
            (BitcoinVerification.block_time current == BitcoinVerification.block_time existing) &&
            (BitcoinVerification.confirmation_policy current == BitcoinVerification.confirmation_policy existing)
          then datetime_ge after before
          else Ok false
      | _, _ => Ok false
      end
  end.

Definition _observation_event_key (proof_version : Z) (v : BitcoinVerification.t) : result string :=
  match BitcoinVerification.verified_at v, BitcoinVerification.confirmations v with
  | Some verified_at, Some confirmations =>
      try! observed_micros := int_timestamp_times (dt_us verified_at) 1000000 in
      Ok ("bitcoin-observed-v" ++ str_int proof_version ++ "-" ++ str_int confirmations ++ "-" ++
          str_int observed_micros)
  | _, _ => Raise (ValueError "verified Bitcoin observation requires time and confirmations")
  end.

(** The check of the stored proof that the handlers start with. *)
Definition check_stored (digest : ManifestDigest.t) (latest : StoredProof.t) : result unit :=
  map_error (proof_error_to_review "stored_proof_invalid")
    (validate digest (StoredProof.proof_bytes latest) (Some (StoredProof.proof_sha256 latest))).

(** [try: append(p) except ValueError: if latest != p: raise ManualReviewError] *)
Definition append_or_replay (reference : string) (p : StoredProof.t) : M unit :=
  try_except (proofs_append proofs p) (λ e,
    if is_ValueError e then Some (
      let! replay := proofs_latest proofs reference in
      raise_if (replay != Some p) (ManualReviewError "proof_append_conflict"))
    else None).

Definition stamp_replay (order_id : string) (order : FulfillmentOrder.t) (snapshot : OrderSnapshot.t)
    (latest : StoredProof.t) : M unit :=
  do! lift (check_stored (OrderSnapshot.manifest_digest snapshot) latest) in
  do! raise_if (StoredProof.target_digest latest != OrderSnapshot.manifest_digest snapshot)
    (ManualReviewError "stored_proof_target_mismatch") in
  let submission_time := StoredProof.calendar_submitted_at latest in
  do! raise_if match FulfillmentOrder.calendar_submitted_at order with
               | None => false | Some c => c != submission_time
               end (ManualReviewError "proof_submission_time_conflict") in
  let version := str_int (StoredProof.version latest) in
  when (fulfillment_of order is_in [QUEUED; STAMPING]) (
    do! when (fulfillment_of order == QUEUED)
          (do! transition_fulfillment_once orders order_id STAMPING ("stamp-replay-start-v" ++ version)
                 (Some submission_time) in ret tt) in
    do! transition_fulfillment_once orders order_id CALENDAR_PENDING ("stamp-replay-v" ++ version)
          (Some submission_time) in
    ret tt).

Definition StampHandler (timestamper : Timestamper) (order_id : string) : M unit :=
  let! order := _load order_id in
  let! snapshot := snapshot_of order in
  let! latest := proofs_latest proofs (OrderSnapshot.order_reference snapshot) in
  match latest with
  | Some latest => stamp_replay order_id order snapshot latest
  | None =>
      do! raise_if (payment_of order != PAID) (ManualReviewError "initial_stamp_not_paid") in
      let! order :=
        if fulfillment_of order == QUEUED
        then transition_fulfillment_once orders order_id STAMPING "stamp-start-v1" None
        else ret order in
      do! raise_if (fulfillment_of order != STAMPING) (ManualReviewError "stamp_state_invalid") in
      let digest := OrderSnapshot.manifest_digest snapshot in
      let! pending := calendar_errors "calendar_proof_invalid" "calendar_submit_unavailable" (
        let! pending := stamp_exact_digest timestamper digest in
        do! lift (validate digest (PendingProof.proof_bytes pending) None) in
        ret pending) in
      let submitted := PendingProof.calendar_submitted_at pending in
      let! stored := lift (make_stored_proof (OrderSnapshot.order_reference snapshot) 1 digest
        (PendingProof.proof_bytes pending) PROOF_CALENDAR_PENDING submitted None) in
      do! append_or_replay (OrderSnapshot.order_reference snapshot) stored in
      do! transition_fulfillment_once orders order_id STAMPING "stamp-response-v1" (Some submitted) in
      do! transition_fulfillment_once orders order_id CALENDAR_PENDING "stamp-persisted-v1" (Some submitted) in
      ret tt
  end.

Section Upgrade.
Context (timestamper : Timestamper) (bitcoin : BitcoinVerifier).
Context (verifications : VerificationRepository) (observations : ConfirmationObservationRepository).

(** The branch of [UpgradeHandler] for an order that is verified already. *)
Definition reverify (order_id : string) (order : FulfillmentOrder.t) (snapshot : OrderSnapshot.t)
    (latest : StoredProof.t) : M unit :=
  let! verification := _verify_bitcoin bitcoin (OrderSnapshot.manifest_digest snapshot)
                         (StoredProof.proof_bytes latest) in
  do! raise_if (negb (BitcoinVerification.verified verification))
    (ManualReviewError "bitcoin_reverification_failed") in
  let! same := lift (_same_reverification_evidence (StoredProof.verification latest) verification) in
  do! raise_if (negb same) (ManualReviewError "bitcoin_reverification_metadata_conflict") in
  match BitcoinVerification.verified_at verification with
  | None => raise (Other "AssertionError")
  | Some verified_at =>
      let! event_key := lift (_observation_event_key (StoredProof.version latest) verification) in
      do! record_once observations order_id (StoredProof.version latest) event_key verification in
      let! micros := lift (int_timestamp_times (dt_us verified_at) 1000000) in
      do! transition_fulfillment_once orders order_id (fulfillment_of order)
            ("bitcoin-reverified-v" ++ str_int (StoredProof.version latest) ++ "-" ++ str_int micros) None in
      ret tt
  end.

(** The new version appended when the calendars returned other bytes. *)
Definition append_upgraded (snapshot : OrderSnapshot.t) (latest : StoredProof.t) (upgraded_bytes : bytes)
    : M StoredProof.t :=
  if upgraded_bytes == StoredProof.proof_bytes latest then ret latest
  else
    let! upgraded := lift (make_stored_proof (OrderSnapshot.order_reference snapshot)
      (StoredProof.version latest + 1) (OrderSnapshot.manifest_digest snapshot) upgraded_bytes
      PROOF_CALENDAR_PENDING (StoredProof.calendar_submitted_at latest) None) in
    do! append_or_replay (OrderSnapshot.order_reference snapshot) upgraded in
    ret upgraded.

Definition UpgradeHandler (order_id : string) : M unit :=
  let! order := _load order_id in
  let! snapshot := snapshot_of order in
  let! latest := proofs_latest proofs (OrderSnapshot.order_reference snapshot) in
  match latest with
  | None => raise (ManualReviewError "proof_missing")
  | Some latest =>
      do! lift (check_stored (OrderSnapshot.manifest_digest snapshot) latest) in
      do! raise_if (FulfillmentOrder.calendar_submitted_at order !=
                    Some (StoredProof.calendar_submitted_at latest))
        (ManualReviewError "proof_submission_time_conflict") in
      if fulfillment_of order is_in [BITCOIN_VERIFIED; DELIVERED]
      then reverify order_id order snapshot latest
      else
        do! raise_if (fulfillment_of order != CALENDAR_PENDING) (ManualReviewError "upgrade_state_invalid") in
        let digest := OrderSnapshot.manifest_digest snapshot in
        let! upgraded_bytes := calendar_errors "upgraded_proof_invalid" "calendar_upgrade_unavailable" (
          let! upgraded_bytes := upgrade_exact_digest timestamper digest (StoredProof.proof_bytes latest) in
          do! lift (validate digest upgraded_bytes None) in
          ret upgraded_bytes) in
        let! latest := append_upgraded snapshot latest upgraded_bytes in
        let! verification := _verify_bitcoin bitcoin digest (StoredProof.proof_bytes latest) in
        do! raise_if (negb (BitcoinVerification.verified verification))
          (ConfirmationPending "bitcoin_confirmation_pending") in
        do! put_verified_once verifications order_id (StoredProof.version latest) verification in
        let! event_key := lift (_observation_event_key (StoredProof.version latest) verification) in
        do! record_once observations order_id (StoredProof.version latest) event_key verification in
        do! transition_fulfillment_once orders order_id BITCOIN_VERIFIED
              ("bitcoin-verified-v" ++ str_int (StoredProof.version latest)) None in
        ret tt
  end.
End Upgrade.

Section Delivery.
Context (bundler : ProofBundler) (bundles : BundleRepository) (verifications : VerificationRepository).
Context (observations : ConfirmationObservationRepository) (outbox : OutboxPort).
Context (service_version : string).

Definition DeliveryHandler (order_id : string) : M unit :=
  let! order := _load order_id in
  do! raise_if (negb (fulfillment_of order is_in [BITCOIN_VERIFIED; DELIVERED]))
    (ManualReviewError "delivery_state_invalid") in
  do! raise_if (is_none (FulfillmentOrder.calendar_submitted_at order))
    (ManualReviewError "proof_submission_time_missing") in
  let! snapshot := snapshot_of order in
  let! proof := proofs_latest proofs (OrderSnapshot.order_reference snapshot) in
  match proof with
  | None => raise (ManualReviewError "proof_missing")
  | Some proof =>
      do! raise_if (Some (StoredProof.calendar_submitted_at proof) !=
                    FulfillmentOrder.calendar_submitted_at order)
        (ManualReviewError "proof_submission_time_conflict") in
      let! verification := get_verified verifications order_id (StoredProof.version proof) in
      do! raise_if match verification with
                   | None => true | Some v => negb (BitcoinVerification.verified v)
                   end (ManualReviewError "delivery_verification_metadata_missing") in
      do! raise_if ((StoredProof.proof_state proof != PROOF_BITCOIN_VERIFIED) ||
                    (StoredProof.verification proof != verification))
        (ManualReviewError "delivery_proof_metadata_mismatch") in
      let! observation := observations_latest observations order_id (StoredProof.version proof) in
      match observation with
      | None => raise (ManualReviewError "delivery_confirmation_observation_missing")
      | Some observation =>
          do! raise_if (ConfirmationObservation.confirmations observation <? 1)
            (ManualReviewError "delivery_confirmation_observation_missing") in
          let certificate_reference := OrderSnapshot.certificate_reference snapshot in
          let! receipt := lift (build_receipt (ReceiptInput.mk proof certificate_reference service_version)) in
          let! context := lift (ProofBundleContext.post_init
                                  (ProofBundleContext.mk certificate_reference service_version)) in
          let! bundle := build bundler proof receipt context in
          do! put_once bundles order_id (StoredProof.version proof) bundle in
          let! message := lift (notification_message INITIAL_CONFIRMATION
            (OrderSnapshot.order_reference snapshot) (OrderSnapshot.email snapshot)
            (StoredProof.version proof) (ConfirmationObservation.confirmations observation)) in
          enqueue outbox message
      end
  end.
End Delivery.

Section Confirmation.
Context (bitcoin : BitcoinVerifier) (verifications : VerificationRepository).
Context (observations : ConfirmationObservationRepository) (outbox : OutboxPort).

Definition ConfirmationHandler (order_id : string) : M unit :=
  let! order := _load order_id in
  do! raise_if (negb (fulfillment_of order is_in [BITCOIN_VERIFIED; DELIVERED]))
    (ManualReviewError "confirmation_monitor_state_invalid") in
  let! snapshot := snapshot_of order in
  let! proof := proofs_latest proofs (OrderSnapshot.order_reference snapshot) in
  match proof with
  | None => raise (ManualReviewError "proof_missing")
  | Some proof =>
      do! lift (check_stored (OrderSnapshot.manifest_digest snapshot) proof) in
      let! stored := get_verified verifications order_id (StoredProof.version proof) in
      let! previous := observations_latest observations order_id (StoredProof.version proof) in
      match stored, previous with
      | Some stored, Some previous =>
          let! current := _verify_bitcoin bitcoin (OrderSnapshot.manifest_digest snapshot)
                            (StoredProof.proof_bytes proof) in
          do! raise_if (negb (BitcoinVerification.verified current))
            (ManualReviewError "bitcoin_confirmation_lost") in
          let! same := lift (_same_reverification_evidence (Some stored) current) in
          do! raise_if (negb same) (ManualReviewError "bitcoin_reverification_metadata_conflict") in
          match BitcoinVerification.confirmations current with
          | None => raise (Other "AssertionError")
          | Some confirmations =>
              do! raise_if (confirmations <? ConfirmationObservation.confirmations previous)
                (ManualReviewError "bitcoin_confirmation_count_decreased") in
              let! event_key := lift (_observation_event_key (StoredProof.version proof) current) in
              let! observation := record_once observations order_id (StoredProof.version proof)
                                    event_key current in
              do! raise_if (ConfirmationObservation.confirmations observation <? 6)
                (ConfirmationPending "bitcoin_final_confirmation_pending") in
              let! message := lift (notification_message FINAL_CONFIRMATION
                (OrderSnapshot.order_reference snapshot) (OrderSnapshot.email snapshot)
                (StoredProof.version proof) (ConfirmationObservation.confirmations observation)) in
              enqueue outbox message
          end
      | _, _ => raise (ManualReviewError "confirmation_monitor_evidence_missing")
      end
  end.
End Confirmation.

(** [TerminalFailureHandler.__call__] *)
Definition TerminalFailureHandler (order_id safe_code : string) : M unit :=
  do! transition_fulfillment_once orders order_id MANUAL_REVIEW ("worker-terminal-" ++ safe_code) None in
  ret tt.
End Handlers.
