(* ===== verification/Worker.v ===== *)
(** * The worker

    [app/worker/runner.py] and the job handlers of [app/worker/composition.py].

    The event loop is a parameter: [supervise] runs a handler next to the heartbeat task and
    says how the race between the two ended.  The retry delay is the parameter [retry_delay]:
    [BackoffPolicy.delay] of [Jobs] with a random jitter.  The heartbeat task and the endless loop
    are modelled by their first rounds. *)
From S2P Require Import Prelude PyStr PyFloat Domain Ports Db Session Settings Tasks Jobs Proofs Outbox Ots Handlers.

Open Scope string_scope.
Open Scope Z_scope.
Import PaymentState FulfillmentState.

Definition STAMP_JOB : string := "stamp_manifest_digest".
Definition UPGRADE_JOB : string := "upgrade_timestamp".
Definition DELIVERY_JOB : string := "deliver_timestamp".
Definition CONFIRMATION_JOB : string := "monitor_bitcoin_confirmations".
Definition PENDING_POLL_INTERVAL : Z := hours 6.
Definition CONFIRMATION_POLL_INTERVAL : Z := minutes 15.

(** [JobSpec(job_key=..., kind=..., order_id=...)] with the default ten attempts. *)
Definition job_spec (job_key kind order_id : string) : result JobSpec.t :=
  JobSpec.post_init (JobSpec.mk job_key kind order_id 10).

(** ** Job handlers *)

Section JobHandlers.
Context (task_dispatch : option TaskCreator) (orders : FulfillmentRepository).
Context (handler : string → M unit).

Definition enqueue_job (job_key kind order_id : string) (available_at : Z) : M unit :=
  let! spec := lift (job_spec job_key kind order_id) in
  do! SqlJobClaimStore.enqueue_once task_dispatch spec (utc available_at) in ret tt.

(** A poll: the key carries the second it is due at. *)
Definition enqueue_poll (prefix kind order_id : string) (interval : Z) : M unit :=
  let! now := now_utc in
  let next_poll := now + interval in
  enqueue_job (prefix ++ order_id ++ ":" ++ str_int (int_timestamp next_poll)) kind order_id next_poll.

(** [try: await self.handler(order_id) except ConfirmationPending: ...]: whether the
    handler finished without the exception. *)
Definition unless_pending (m : M unit) (poll : M unit) : M bool :=
  try_except (do! m in ret true)
    (λ e, match e with ConfirmationPending _ => Some (do! poll in ret false) | _ => None end).

Definition StampJobHandler (order_id : string) : M unit :=
  do! handler order_id in
  let! now := now_utc in
  enqueue_job ("upgrade:" ++ order_id) UPGRADE_JOB order_id now.

Definition UpgradeJobHandler (order_id : string) : M unit :=
  let! finished := unless_pending (handler order_id)
    (enqueue_poll "upgrade-poll:" UPGRADE_JOB order_id PENDING_POLL_INTERVAL) in
  if negb finished then ret tt
  else
    let! order := get_for_fulfillment orders order_id in
    match order with
    | None => ret tt
    | Some order =>
        when (fulfillment_of order == BITCOIN_VERIFIED) (
          let! now := now_utc in
          enqueue_job ("delivery:" ++ order_id) DELIVERY_JOB order_id now)
    end.

Definition DeliveryJobHandler (order_id : string) : M unit :=
  do! handler order_id in
  enqueue_poll "confirmation-poll:" CONFIRMATION_JOB order_id CONFIRMATION_POLL_INTERVAL.

Definition ConfirmationJobHandler (order_id : string) : M unit :=
  do! unless_pending (handler order_id)
    (enqueue_poll "confirmation-poll:" CONFIRMATION_JOB order_id CONFIRMATION_POLL_INTERVAL) in
  ret tt.
End JobHandlers.

(** ** The runner *)

Definition _OPAQUE_WORKER_ID (s : string) : bool := fullmatch_head is_alnum_ascii opaque_char 127 s.

Definition _safe_log_value (value : string) : string := if _OPAQUE_WORKER_ID value then value else "invalid".

(** [class WorkerSettings]; the lease in microseconds, the interval as the float it is. *)
Module WorkerSettings.
Record t := mk { lease_for : Z; heartbeat_every_seconds : SpecFloat.spec_float }.
Definition total_seconds (us : Z) : SpecFloat.spec_float := timestamp us.
(** [__post_init__] *)
Definition post_init (s : t) : result t :=
  check! raise_when (lease_for s <=? seconds 10) (ValueError "worker_lease_too_short") in
  check! raise_when (negb (fleb (float_of_Z 1) (heartbeat_every_seconds s) &&
                           fltb (heartbeat_every_seconds s)
                                (SpecFloat.SFdiv 53 1024 (total_seconds (lease_for s)) (float_of_Z 2))))
    (ValueError "worker_heartbeat_interval_invalid") in
  Ok s.
Definition default : t := mk (minutes 2) (float_of_Z 30).
End WorkerSettings.
Example default_settings_accepted : WorkerSettings.post_init WorkerSettings.default = Ok WorkerSettings.default.
Proof. vm_compute. reflexivity. Qed.

(** How the race of the handler and the heartbeat ended: the lease was lost first and the
    handler was cancelled, or the handler finished ([error] is its exception) and the
    heartbeat had or had not found the lease lost by then. *)
Inductive Race := LeaseLost | HandlerDone (error : option exn) (lease_lost : bool).

Module Worker.
Section Runner.
Context (worker_id : string) (lease_for : Z).
Context (task_dispatch : option TaskCreator).
Context (handlers : string → option (string → M unit)).
Context (terminal_failure : string → string → M unit).
Context (supervise : ClaimedJob.t → M unit → M Race) (retry_delay : Z → M Z).

Definition _finish (job : ClaimedJob.t) (outcome : JobOutcome) (safe_code : option string) : M unit :=
  let! now := now_utc in
  SqlJobClaimStore.finish task_dispatch job outcome now None safe_code.

Definition _retry_or_exhaust (job : ClaimedJob.t) (safe_code : string) : M unit :=
  if JobSpec.max_attempts (ClaimedJob.spec job) <=? ClaimedJob.attempt job then
    do! terminal_failure (JobSpec.order_id (ClaimedJob.spec job)) safe_code in
    _finish job OUT_DEAD_LETTER (Some safe_code)
  else
    let! base := now_utc in
    let! delay := retry_delay (ClaimedJob.attempt job) in
    let! now := now_utc in
    SqlJobClaimStore.finish task_dispatch job OUT_RETRY now (Some (utc (base + delay))) (Some safe_code).

(** What follows a handler that ended while the lease was still held. *)
Definition settle (job : ClaimedJob.t) (error : option exn) : M unit :=
  match error with
  | None => _finish job OUT_COMPLETE None
  | Some (ManualReviewError code) =>
      do! terminal_failure (JobSpec.order_id (ClaimedJob.spec job)) code in
      _finish job OUT_MANUAL_REVIEW (Some code)
  | Some (RetryableFulfillmentError code) => _retry_or_exhaust job code
  | Some CancelledError => raise CancelledError
  | Some _ => _retry_or_exhaust job "job_unexpected_failure"
  end.

Definition _run_claimed (job : ClaimedJob.t) : M unit :=
  let order_id := JobSpec.order_id (ClaimedJob.spec job) in
  match handlers (JobSpec.kind (ClaimedJob.spec job)) with
  | None =>
      do! terminal_failure order_id "job_kind_unknown" in
      _finish job OUT_MANUAL_REVIEW (Some "job_kind_unknown")
  | Some handler =>
      let! race := supervise job (handler order_id) in
      match race with
      | LeaseLost => ret tt
      | HandlerDone error lease_lost =>
          if (lease_lost : bool) then ret tt
          else
            let! now := now_utc in
            let! held := SqlJobClaimStore.heartbeat (ClaimedJob.id job) worker_id (ClaimedJob.attempt job)
                           (now + lease_for) in
            if negb held then ret tt else settle job error
      end
  end.

Definition run_once : M bool :=
  let! now := now_utc in
  let! job := SqlJobClaimStore.claim worker_id now lease_for in
  match job with
  | None => ret false
  | Some job => do! _run_claimed job in ret true
  end.

Definition run_specific (job_id : string) (generation : Z) : M bool :=
  let! now := now_utc in
  let! job := SqlJobClaimStore.claim_specific job_id generation worker_id now lease_for in
  match job with
  | None => ret false
  | Some job => do! _run_claimed job in ret true
  end.

(** [_heartbeat]: the loop as far as it is known how its waits ended, [true] for the wait that the
    event [stop] ended.  The result is [None] while the loop is waiting still, otherwise whether it
    found the lease lost. *)
Fixpoint _heartbeat (job : ClaimedJob.t) (waits : list bool) : M (option bool) :=
  match waits with
  | [] => ret None
  | true :: _ => ret (Some false)
  | false :: waits =>
      let! now := now_utc in
      let! held := SqlJobClaimStore.heartbeat (ClaimedJob.id job) worker_id (ClaimedJob.attempt job) (now + lease_for) in
      if (held : bool) then _heartbeat job waits else ret (Some true)
  end.
(** A race in which the heartbeats precede what the handler does. *)
Definition beating (waits : list bool) (job : ClaimedJob.t) (handler : M unit) : M Race :=
  let! lost := _heartbeat job waits in
  if bool_decide (lost = Some true) then ret LeaseLost
  else try_except (do! handler in ret (HandlerDone None false)) (λ e, Some (ret (HandlerDone (Some e) false))).

(** [run_forever], its first rounds *)
Definition run_forever (idle_seconds : SpecFloat.spec_float) (n : nat) : M unit :=
  do! raise_if (negb (idle_interval idle_seconds)) (ValueError "worker_idle_interval_invalid") in
  rounds n run_once.
End Runner.
End Worker.

(** ** Composition: [build_worker] *)
Section Build.
Context (apply_op : Op → bytes → result bytes) (deserialize : bytes → option DetachedTimestampFile.t).
Context (task_dispatch : option TaskCreator).
Context (timestamper : Timestamper) (bitcoin : BitcoinVerifier) (bundler : ProofBundler).
Context (product_version : string).

Definition stamp : string → M unit :=
  StampHandler apply_op deserialize sql_orders sql_proofs timestamper.
Definition upgrade : string → M unit :=
  UpgradeHandler apply_op deserialize sql_orders sql_proofs timestamper bitcoin sql_verifications sql_observations.
Definition delivery : string → M unit :=
  DeliveryHandler sql_orders sql_proofs bundler sql_bundles sql_verifications sql_observations sql_outbox
    product_version.
Definition confirmation : string → M unit :=
  ConfirmationHandler apply_op deserialize sql_orders sql_proofs bitcoin sql_verifications sql_observations sql_outbox.

Definition worker_handlers (kind : string) : option (string → M unit) :=
  if kind == STAMP_JOB then Some (StampJobHandler task_dispatch stamp)
  else if kind == UPGRADE_JOB then Some (UpgradeJobHandler task_dispatch sql_orders upgrade)
  else if kind == DELIVERY_JOB then Some (DeliveryJobHandler task_dispatch delivery)
  else if kind == CONFIRMATION_JOB then Some (ConfirmationJobHandler task_dispatch confirmation)
  else None.

Definition worker_terminal : string → string → M unit := TerminalFailureHandler sql_orders.
End Build.
