(* ===== verification/Compose.v ===== *)
(** * How the parts are put together

    [app/main.py], [app/task_main.py], [app/tasks/composition.py], the builders of
    [app/worker/composition.py] and [app/notifications/worker.py], and [app/db/session.py]: which adapters,
    services and middlewares the settings lead to, and the errors with which a process refuses to start.

    A part is described by what distinguishes it; the session factory and the web framework are made in
    the same way whatever the settings.  The constructors of SQLAlchemy, Google Cloud Tasks and Stripe
    are parameters that may raise ([Libraries]).  [test_process] says whether
    the process is a test run ([require_test_process], and [pytest] among the modules); the snapshot of
    the catalogue is opened from a file, with the outcome [snapshot]. *)
From S2P Require Import Prelude PyStr Sha256 Tokens Settings Calendars BitcoinRpc Esplora Webhooks Sender Gateway Config Worker.
Import Settings.

Open Scope string_scope.
Open Scope Z_scope.

Definition normalize_database_url (url : string) : string :=
  if startswith "postgresql://" url then "postgresql+psycopg://" ++ removeprefix "postgresql://" url else url.

(** Constructors of the libraries: [create_engine] with the URL and whether connections may be shared by
    threads, the client of Cloud Tasks with the credentials of the process, and the Stripe client with its
    key.  Each returns an object that the model does not look into, or raises. *)
Module Libraries.
Record t := mk {
  create_engine : string → bool → result unit;
  CloudTasksClient : result unit;
  StripeClient : string → result unit }.
End Libraries.

Definition create_database_engine (libraries : Libraries.t) (url : string) : result unit :=
  let normalized := normalize_database_url url in
  Libraries.create_engine libraries normalized (startswith "sqlite" normalized).
(** [timedelta(seconds=count)] *)
Definition timedelta_seconds (count : Z) : result Z :=
  check! raise_when (negb (Z.abs (count / 86400) <=? 999999999))
    (OverflowError "days out of range; must have magnitude <= 999999999") in
  Ok (seconds count).

Inductive TimestamperAdapter := DisabledTimestamper | FixtureTimestamper | CalendarTimestamper (urls : list string).
Inductive VerifierAdapter :=
| DisabledVerifier
| FixtureBitcoinVerifier
| CoreVerifier (rpc_url username password : string)
| EsploraVerifier (urls : string * string).
Module CloudTasksConfiguration.
Record t := mk { project : string; location : string; queue : string; worker_url : string;
                 service_account_email : string; audience : string }.
End CloudTasksConfiguration.
Inductive PaymentAdapter :=
| FixturePayments (provider : FixturePaymentProvider.t)
| StripePayments (provider : StripePaymentProvider.t).
Inductive Middleware := SafeRequestLog | HttpSecurity | CORS (allow_origins : list string) | RateLimit (secret : bytes).
Inductive Router := ApiRouter | NotificationRouter.

(** The parts of a worker that depend on the settings. *)
Module WorkerParts.
Record t := mk {
  worker_id : string; timestamper : TimestamperAdapter; bitcoin : VerifierAdapter;
  task_dispatch : option CloudTasksConfiguration.t }.
End WorkerParts.
(** [class AppServices], and what is added to the application around it: the middlewares from the outermost
    to the innermost, and the routers. *)
Module AppServices.
Record t := mk {
  settings : Settings.t;
  store : option (TokenHasher.t * Z * Z);
  payment_provider : option PaymentAdapter;
  resend_webhooks : option ResendWebhookService.t;
  task_dispatch : option CloudTasksConfiguration.t;
  metbull_lookup : bool;
  middlewares : list Middleware;
  routers : list Router;
  docs_enabled : bool }.
End AppServices.

Section Compose.
Context (check_netloc inet_aton : string → bool) (idna_other : string → option string).
Context (test_process : bool) (libraries : Libraries.t).

(** ** Workers *)

Definition require_test_process : result unit :=
  raise_when (negb test_process) (RuntimeError "fixture_adapter_forbidden_outside_test").
Definition _timestamper (settings : t) : result TimestamperAdapter :=
  match calendar_mode settings with
  | CAL_FIXTURE =>
      check! raise_when (app_env settings != TEST) (RuntimeError "fixture_calendar_forbidden") in
      check! require_test_process in
      Ok FixtureTimestamper
  | CAL_PUBLIC =>
      check! raise_when (negb (timeout_in_bounds (calendar_timeout_seconds settings)))
        (ValueError "calendar_timeout_out_of_bounds") in
      try! urls := Calendars.validated_urls check_netloc (calendar_configuration settings) in
      Ok (CalendarTimestamper urls)
  | CAL_DISABLED => Ok DisabledTimestamper
  end.
Definition _bitcoin_verifier (settings : t) : result VerifierAdapter :=
  match bitcoin_verifier settings with
  | BTC_FIXTURE =>
      check! raise_when (app_env settings != TEST) (RuntimeError "fixture_bitcoin_verifier_forbidden") in
      check! require_test_process in
      Ok FixtureBitcoinVerifier
  | BITCOIN_CORE =>
      match bitcoin_rpc_url settings, bitcoin_rpc_username settings, bitcoin_rpc_password settings with
      | Some rpc_url, Some username, Some password =>
          check! BitcoinCoreRpcTransport.init_check check_netloc rpc_url username password (bitcoin_rpc_timeout_seconds settings) in
          check! BitcoinCoreRpcVerifier.init_check 1 in
          Ok (CoreVerifier rpc_url username password)
      | _, _, _ => Raise (RuntimeError "validated_bitcoin_rpc_configuration_unavailable")
      end
  | ESPLORA =>
      try! urls := Esplora.validated_urls check_netloc inet_aton idna_other (esplora_configuration settings 1) in
      Ok (EsploraVerifier urls)
  | BTC_DISABLED => Ok DisabledVerifier
  end.
Definition create_task_dispatch (settings : t) : result (option CloudTasksConfiguration.t) :=
  if task_dispatch_mode settings == TASKS_DISABLED then Ok None else
  match cloud_tasks_project settings, cloud_tasks_location settings, cloud_tasks_queue settings,
        cloud_tasks_worker_url settings, cloud_tasks_service_account_email settings, cloud_tasks_audience settings with
  | Some project, Some location, Some queue, Some worker_url, Some service_account_email, Some audience =>
      check! Libraries.CloudTasksClient libraries in
      Ok (Some (CloudTasksConfiguration.mk project location queue worker_url service_account_email audience))
  | _, _, _, _, _, _ => Raise (RuntimeError "validated_cloud_tasks_configuration_unavailable")
  end.

(** [build_worker]; an adapter or a task dispatch may be given instead of the configured one. *)
Definition build_worker (settings : t) (worker_id : string) (timestamper : option TimestamperAdapter)
    (bitcoin : option VerifierAdapter) (task_dispatch : option CloudTasksConfiguration.t) : result WorkerParts.t :=
  check! raise_when ((is_some timestamper || is_some bitcoin) && (app_env settings != TEST))
    (RuntimeError "worker_adapter_override_forbidden") in
  try! configured_task_dispatch := match task_dispatch with Some d => Ok (Some d) | None => create_task_dispatch settings end in
  try! configured_timestamper := match timestamper with Some t => Ok t | None => _timestamper settings end in
  try! configured_bitcoin := match bitcoin with Some b => Ok b | None => _bitcoin_verifier settings end in
  check! raise_when (negb (Worker._OPAQUE_WORKER_ID worker_id)) (ValueError "worker_id_must_be_opaque") in
  Ok (WorkerParts.mk worker_id configured_timestamper configured_bitcoin configured_task_dispatch).
(** The identifier from the environment, or one of eight random bytes. *)
Definition process_id (prefix : string) (configured : option string) (random : bytes) : string :=
  if truthy configured then or_empty configured else prefix ++ bytes_hex random.
Definition create_worker (settings : t) (TIMESTAMP_WORKER_ID : option string) (random : bytes) : result WorkerParts.t :=
  try! url := need (RuntimeError "worker_database_required") (database_url settings) in
  check! create_database_engine libraries url in
  build_worker settings (process_id "worker-" TIMESTAMP_WORKER_ID random) None None None.
(** [create_configured_task_app]: the worker, its task dispatch and the queue it accepts tasks of. *)
Definition create_configured_task_app (settings : t) (random : bytes) :
    result (WorkerParts.t * CloudTasksConfiguration.t * string) :=
  match database_url settings, cloud_tasks_queue settings with
  | Some url, Some queue =>
      check! create_database_engine libraries url in
      try! task_dispatch := create_task_dispatch settings in
      try! task_dispatch := need (RuntimeError "task_dispatch_configuration_required") task_dispatch in
      try! worker := build_worker settings ("task-" ++ bytes_hex random) None None (Some task_dispatch) in
      Ok (worker, task_dispatch, queue)
  | _, _ => Raise (RuntimeError "task_worker_configuration_required")
  end.

(** A sender may be given instead of the configured one. *)
Definition build_notification_worker (settings : t) (worker_id : string) (sender : option ResendEmailSender.t) :
    result (string * ResendEmailSender.t) :=
  check! raise_when (resend_sender_mode settings != RESEND_SENDER) (RuntimeError "notification_sender_disabled") in
  check! raise_when (is_some sender && (app_env settings != TEST)) (RuntimeError "notification_sender_override_forbidden") in
  try! sender :=
    match sender with
    | Some sender => Ok sender
    | None =>
        match resend_api_key settings, resend_sender settings with
        | Some api_key, Some address => ResendEmailSender.new api_key address (resend_api_timeout_seconds settings)
        | _, _ => Raise (RuntimeError "validated_resend_sender_configuration_unavailable")
        end
    end in
  check! NotificationWorker.post_init worker_id in
  Ok (worker_id, sender).
Definition create_notification_worker (settings : t) (NOTIFICATION_WORKER_ID : option string) (random : bytes) :
    result (string * ResendEmailSender.t) :=
  try! url := need (RuntimeError "notification_worker_database_required") (database_url settings) in
  check! create_database_engine libraries url in
  build_notification_worker settings (process_id "notification-" NOTIFICATION_WORKER_ID random) None.

(** ** The application *)

Context (snapshot : result unit).

(** The payment provider of a store. *)
Definition configured_provider (configured : t) : result (option PaymentAdapter) :=
  match payment_mode configured with
  | PAY_FIXTURE =>
      try! provider := FixturePaymentProvider.new test_process (app_env configured) (encode "phase0-fixture-webhook-secret-32") in
      Ok (Some (FixturePayments provider))
  | STRIPE_TEST | STRIPE_LIVE =>
      match stripe_secret_key configured, stripe_webhook_secret configured with
      | Some secret_key, Some webhook_secret =>
          try! provider := StripePaymentProvider.new secret_key webhook_secret (payment_mode configured) in
          check! Libraries.StripeClient libraries secret_key in
          Ok (Some (StripePayments provider))
      | _, _ => Raise (ValueError "validated Stripe secrets are unavailable")
      end
  | PAY_DISABLED => Ok None
  end.
Definition peppers (configured : t) : list (Z * bytes) := map (λ vp, (vp.1, encode vp.2)) (token_peppers configured).
(** The secret that the addresses of clients are hashed with, if requests are limited. *)
Definition rate_limit_secret (configured : t) : result (option bytes) :=
  match active_token_pepper_version configured with
  | Some version =>
      try! pepper := need (KeyError "") (TokenHasher.get (peppers configured) version) in Ok (Some pepper)
  | None =>
      if resend_webhook_mode configured == RESEND_WEBHOOK then
        Ok (Some (sha256 (encode (or_empty (resend_webhook_secret configured)))))
      else match metbull_lookup_enabled configured, database_url configured with
           | true, Some url => Ok (Some (sha256 (encode "metbull-rate-limit" ++ [x00] ++ encode url)%list))
           | _, _ => Ok None
           end
  end.
(** [create_app(settings)], without parts given from outside; there is a session factory when there is a
    database. *)
Definition create_app (configured : t) : result AppServices.t :=
  let database := is_some (database_url configured) in
  check! match database_url configured with Some url => create_database_engine libraries url | None => Ok tt end in
  try! task_dispatch := if database then create_task_dispatch configured else Ok None in
  check! if metbull_lookup_enabled configured then snapshot else Ok tt in
  try! (store, payment_provider) :=
    match database, active_token_pepper_version configured with
    | true, Some version =>
        try! token_hasher := TokenHasher.new (peppers configured) in
        try! token_ttl := timedelta_seconds (token_ttl_seconds configured) in
        try! provider := configured_provider configured in
        Ok (Some (token_hasher, version, token_ttl), provider)
    | _, _ => Ok (None, None)
    end in
  try! resend_webhooks :=
    if database && (resend_webhook_mode configured == RESEND_WEBHOOK) then
      try! resend_secret := need (ValueError "validated Resend webhook secret is unavailable") (resend_webhook_secret configured) in
      try! service := ResendWebhookService.new resend_secret (resend_webhook_tolerance_seconds configured) in
      Ok (Some service)
    else Ok None in
  try! limited := if database then rate_limit_secret configured else Ok None in
  Ok {|
    AppServices.settings := configured;
    AppServices.store := store;
    AppServices.payment_provider := payment_provider;
    AppServices.resend_webhooks := resend_webhooks;
    AppServices.task_dispatch := task_dispatch;
    AppServices.metbull_lookup := metbull_lookup_enabled configured;
    AppServices.middlewares :=
      [SafeRequestLog; HttpSecurity; CORS (allowed_origins configured)] ++
      match limited with Some secret => [RateLimit secret] | None => [] end;
    AppServices.routers := ApiRouter :: match resend_webhooks with Some _ => [NotificationRouter] | None => [] end;
    AppServices.docs_enabled := app_env configured is_in [LOCAL; TEST] |}.
End Compose.

(** ** Accepted settings start, and what they guarantee *)
From S2P Require Import Prelude PyStr Url CheckoutUrl Tokens Settings Calendars BitcoinRpc Esplora Webhooks Sender Gateway Config Worker.
Import Settings.

Open Scope string_scope.
Open Scope Z_scope.

(** Breaks a chain of checks that succeeded into the facts it checked. *)
Ltac open_checks H :=
  repeat (let r := fresh "r" in let C := fresh "C" in apply result_bind_Ok in H as (r & C & H); try (destruct r; apply raise_when_Ok in C)).
Lemma check_each_Ok {A} (check : A → result unit) l : check_each check l = Ok tt → Forall (λ a, check a = Ok tt) l.
Proof. induction l as [|a l IH]; [done|]. simpl. intros ([] & Ha & H)%result_bind_Ok. constructor; auto. Qed.
Lemma truthy_iff o : truthy o = true ↔ ∃ s, o = Some s ∧ s ≠ "".
Proof.
  destruct o as [s|]; simpl; [|naive_solver]. rewrite negb_true_iff, bool_decide_eq_false. naive_solver.
Qed.

(** What the libraries must grant the settings: SQLAlchemy makes an engine for the database URL, the client
    of Cloud Tasks finds its credentials if tasks are dispatched, and Stripe's client takes the key.  The
    lifetime of tokens must be one that Python represents: it is bounded only where payments are taken. *)
Record supported (libraries : Libraries.t) (s : t) : Prop := {
  engine_made : ∀ url, database_url s = Some url → create_database_engine libraries url = Ok tt;
  tasks_client_made : task_dispatch_mode s = CLOUD_TASKS → Libraries.CloudTasksClient libraries = Ok tt;
  stripe_client_made : ∀ key, stripe_secret_key s = Some key → Libraries.StripeClient libraries key = Ok tt;
  token_ttl_representable : payment_mode s = PAY_DISABLED → is_Ok (timedelta_seconds (token_ttl_seconds s)) }.

Section Accepted.
Context (check_netloc inet_aton : string → bool) (idna_other : string → option string).
Context (s : t) (accepted : validate check_netloc inet_aton idna_other s = Ok tt).

(** The gates that accepted settings passed. *)
Record gates : Prop := {
  g_fields : validate_fields check_netloc s = Ok tt;
  g_environment : environment_gates s = Ok tt;
  g_checkout : checkout_gates s = Ok tt;
  g_stripe : stripe_gates check_netloc s = Ok tt;
  g_calendar : calendar_gates check_netloc s = Ok tt;
  g_bitcoin : bitcoin_gates check_netloc inet_aton idna_other s = Ok tt;
  g_task : task_gates check_netloc s = Ok tt;
  g_sender : sender_gates s = Ok tt;
  g_webhook : webhook_gates s = Ok tt;
  g_limit : limit_gates s = Ok tt }.
Lemma passed : gates.
Proof.
  pose proof accepted as H. unfold validate, validate_runtime_gates in H.
  apply result_bind_Ok in H as ([] & H0 & H). apply result_bind_Ok in H as ([] & H1 & H).
  apply result_bind_Ok in H as ([] & H2 & H). apply result_bind_Ok in H as ([] & H3 & H).
  apply result_bind_Ok in H as ([] & H4 & H). apply result_bind_Ok in H as ([] & H5 & H).
  apply result_bind_Ok in H as ([] & H6 & H). apply result_bind_Ok in H as ([] & H7 & H).
  by apply result_bind_Ok in H as ([] & H8 & H).
Qed.

Lemma fixtures_in_tests : fixture_enabled s = true → app_env s = TEST.
Proof.
  intros Hf. pose proof (g_environment passed) as H. unfold environment_gates in H.
  apply result_bind_Ok in H as ([] & C%raise_when_Ok & _). rewrite Hf in C. by apply negb_false_iff, bool_decide_eq_true in C.
Qed.
Lemma peppers_strong : existsb (λ vp : Z * bytes, (vp.1 <? 1) || (blen vp.2 <? 32)) (peppers s) = false.
Proof.
  pose proof (g_checkout passed) as H. unfold checkout_gates in H.
  apply result_bind_Ok in H as ([] & _ & H). apply result_bind_Ok in H as ([] & C%check_each_Ok & _).
  unfold peppers. induction C as [|vp l Hv _ IH]; [done|]. simpl. apply raise_when_Ok in Hv. by rewrite Hv.
Qed.
Lemma active_pepper version : active_token_pepper_version s = Some version → pepper_known s version = true.
Proof.
  intros Hv. pose proof (g_checkout passed) as H. unfold checkout_gates in H.
  apply result_bind_Ok in H as ([] & _ & H). apply result_bind_Ok in H as ([] & _ & H).
  apply result_bind_Ok in H as ([] & _ & H). apply result_bind_Ok in H as ([] & C%raise_when_Ok & _).
  unfold active_pepper_known in C. rewrite Hv in C. by destruct (pepper_known s version).
Qed.
Lemma pepper_found version : pepper_known s version = true → ∃ p, TokenHasher.get (peppers s) version = Some p.
Proof.
  unfold pepper_known, peppers. induction (token_peppers s) as [|[v p] l IH]; [done|]. simpl.
  destruct (v =? version); [by eexists|]. apply IH.
Qed.
Lemma hasher_starts version : active_token_pepper_version s = Some version → TokenHasher.new (peppers s) = Ok (peppers s).
Proof.
  intros Hv. unfold TokenHasher.new. rewrite peppers_strong. apply active_pepper, pepper_found in Hv as [p Hp].
  case_bool_decide as E; [by rewrite E in Hp|done].
Qed.

(** What the gates on payments guarantee. *)
Lemma paid_settings : payment_mode s ≠ PAY_DISABLED →
  is_some (database_url s) = true ∧ (∃ version, active_token_pepper_version s = Some version ∧ pepper_known s version = true) ∧
  1 <= checkout_amount_minor s <= 100000000 ∧ checkout_currency s = "usd" ∧ 300 <= token_ttl_seconds s <= 90 * 24 * 60 * 60.
Proof.
  intros Hp. pose proof (g_checkout passed) as H. unfold checkout_gates in H.
  apply result_bind_Ok in H as ([] & _ & H). apply result_bind_Ok in H as ([] & _ & H).
  apply result_bind_Ok in H as ([] & C & _). rewrite (bool_decide_eq_false_2 _ Hp) in C. cbn [negb] in C.
  apply result_bind_Ok in C as ([] & C1%raise_when_Ok & C). apply result_bind_Ok in C as ([] & C2%raise_when_Ok & C).
  apply result_bind_Ok in C as ([] & C3%raise_when_Ok & C). apply result_bind_Ok in C as ([] & C4%raise_when_Ok & C).
  apply raise_when_Ok in C. unfold between in *. rewrite negb_false_iff in C2, C3, C.
  rewrite negb_false_iff, bool_decide_eq_true in C4. unfold active_pepper_known in C2.
  split_and!; [unfold is_some; by rewrite C1| |lia..|done|lia|lia].
  destruct (active_token_pepper_version s) as [version|]; [by exists version|done].
Qed.
Definition stripe_mode : bool := payment_mode s is_in [STRIPE_TEST; STRIPE_LIVE].
(** What the gates on Stripe guarantee. *)
Record stripe_settings : Prop := {
  st_live : payment_mode s = STRIPE_LIVE → app_env s = PRODUCTION ∧ stripe_live_enabled s = true ∧ stripe_test_enabled s = false;
  st_test : payment_mode s ≠ STRIPE_LIVE → (app_env s = TEST ∨ app_env s = STAGING) ∧ stripe_test_enabled s = true ∧ stripe_live_enabled s = false;
  st_keys : ∃ key webhook provider, stripe_secret_key s = Some key ∧ stripe_webhook_secret s = Some webhook ∧
    StripePaymentProvider.new key webhook (payment_mode s) = Ok provider;
  st_urls : ∃ success cancel, checkout_success_url s = Some success ∧ checkout_cancel_url s = Some cancel ∧
    return_url_gate check_netloc s success = Ok tt ∧ return_url_gate check_netloc s cancel = Ok tt;
  st_tasks : remote_environment s = true → task_dispatch_mode s = CLOUD_TASKS }.
Lemma stripe_accepted : stripe_mode = true → stripe_settings.
Proof.
  intros Hm. pose proof (g_stripe passed) as H. unfold stripe_gates in H. fold stripe_mode in H. rewrite Hm in H.
  apply result_bind_Ok in H as ([] & C1%raise_when_Ok & H). apply result_bind_Ok in H as ([] & C2%raise_when_Ok & H).
  apply result_bind_Ok in H as ([] & C3%raise_when_Ok & H). apply result_bind_Ok in H as ([] & C4%raise_when_Ok & H).
  apply result_bind_Ok in H as ([] & C5%check_each_Ok & H). apply result_bind_Ok in H as ([] & C6%raise_when_Ok & H).
  apply result_bind_Ok in H as ([] & C7%raise_when_Ok & C8%raise_when_Ok).
  unfold stripe_mode in Hm. apply bool_decide_eq_true in Hm.
  rewrite negb_false_iff, !andb_true_iff in C3. destruct C3 as [[C3 C3'] _].
  rewrite orb_false_iff, !negb_false_iff, !truthy_iff in C4. destruct C4 as [(success & Es & _) (cancel & Ec & _)].
  rewrite Es, Ec in C5. cbn [or_empty default] in C5. rewrite !Forall_cons in C5. destruct C5 as (C5 & C5' & _).
  split.
  - intros E. rewrite (bool_decide_eq_true_2 _ E) in C1, C6. cbn [andb] in C1, C6. rewrite orb_false_iff, !negb_false_iff, bool_decide_eq_true in C1. naive_solver.
  - intros E. rewrite (bool_decide_eq_false_2 _ E) in C2, C7. cbn [andb negb] in C2, C7. rewrite orb_false_iff, !negb_false_iff, bool_decide_eq_true in C2.
    destruct C2 as [C2 ?]. split_and!; [set_solver|done|done].
  - destruct (stripe_secret_key s) as [key|]; [|by destruct (payment_mode s == STRIPE_LIVE)].
    destruct (stripe_webhook_secret s) as [webhook|]; [|done]. exists key, webhook. eexists. split; [done|]. split; [done|].
    unfold StripePaymentProvider.new. rewrite bool_decide_eq_true_2 by done. cbn [negb raise_when result_bind].
    unfold or_empty in C3, C3'. cbn [default] in C3, C3'. unfold default, id in C3, C3'. rewrite C3, C3'. done.
  - exists success, cancel. done.
  - intros E. rewrite E in C8. by apply negb_false_iff, bool_decide_eq_true in C8.
Qed.

(** ** Every part starts *)

Context (test_process : bool) (fixtures_tested : fixture_enabled s = true → test_process = true).
Context (libraries : Libraries.t) (supplied : supported libraries s).

Lemma token_ttl_starts : is_Ok (timedelta_seconds (token_ttl_seconds s)).
Proof.
  destruct (decide (payment_mode s = PAY_DISABLED)) as [Hp|Hp]; [by apply supplied|].
  destruct (paid_settings Hp) as (_ & _ & _ & _ & Ht). unfold timedelta_seconds.
  assert (Z.abs (token_ttl_seconds s / 86400) <=? 999999999 = true) as ->; [|by eexists].
  apply Z.leb_le. rewrite Z.abs_eq; [|apply Z.div_pos; lia].
  transitivity (token_ttl_seconds s); [apply Z.div_le_upper_bound; lia|lia].
Qed.
Lemma provider_starts : is_Ok (configured_provider test_process libraries s).
Proof.
  unfold configured_provider. destruct (payment_mode s) eqn:E.
  - by eexists.
  - assert (fixture_enabled s = true) as Hf by (unfold fixture_enabled; by rewrite E).
    rewrite (fixtures_tested Hf), (fixtures_in_tests Hf). by eexists.
  - destruct (st_keys (stripe_accepted ltac:(unfold stripe_mode; by rewrite E))) as (key & webhook & provider & Hkey & -> & Hp). rewrite Hkey.
    rewrite E in Hp. rewrite Hp. simpl. rewrite (stripe_client_made _ _ supplied key Hkey). by eexists.
  - destruct (st_keys (stripe_accepted ltac:(unfold stripe_mode; by rewrite E))) as (key & webhook & provider & Hkey & -> & Hp). rewrite Hkey.
    rewrite E in Hp. rewrite Hp. simpl. rewrite (stripe_client_made _ _ supplied key Hkey). by eexists.
Qed.
Lemma task_dispatch_starts : is_Ok (create_task_dispatch libraries s) ∧
  (task_dispatch_mode s = CLOUD_TASKS → is_some (database_url s) = true ∧
    ∃ d queue, cloud_tasks_queue s = Some queue ∧ create_task_dispatch libraries s = Ok (Some d)).
Proof.
  unfold create_task_dispatch. destruct (task_dispatch_mode s) eqn:E; [by split; [eexists|]|].
  pose proof (g_task passed) as H. unfold task_gates in H. rewrite E, bool_decide_eq_true_2 in H by done.
  apply result_bind_Ok in H as ([] & C%raise_when_Ok & _). apply orb_false_iff in C as [C1 C2]. unfold task_values in C2.
  destruct (cloud_tasks_project s), (cloud_tasks_location s), (cloud_tasks_queue s), (cloud_tasks_worker_url s),
    (cloud_tasks_service_account_email s), (cloud_tasks_audience s); try done.
  rewrite (tasks_client_made _ _ supplied E).
  split; [by eexists|]. intros _. split; [unfold is_some; by rewrite C1|by eexists _, _].
Qed.
Lemma timestamper_starts : is_Ok (_timestamper check_netloc test_process s).
Proof.
  unfold _timestamper. destruct (calendar_mode s) eqn:E.
  - by eexists.
  - assert (fixture_enabled s = true) as Hf by (unfold fixture_enabled; rewrite E; by rewrite orb_true_r).
    unfold require_test_process. rewrite (fixtures_tested Hf), (fixtures_in_tests Hf). by eexists.
  - pose proof (g_calendar passed) as H. unfold calendar_gates in H. rewrite E, bool_decide_eq_true_2 in H by done.
    apply result_bind_Ok in H as ([] & _ & H). apply result_bind_Ok in H as (urls & Hu & _). rewrite Hu.
    assert (timeout_in_bounds (calendar_timeout_seconds s) = true) as ->; [|by eexists].
    unfold Calendars.validated_urls in Hu. apply result_bind_Ok in Hu as ([] & _ & Hu).
    apply result_bind_Ok in Hu as ([] & Ht%raise_when_Ok & _). by apply negb_false_iff in Ht.
Qed.
Lemma verifier_starts : is_Ok (_bitcoin_verifier check_netloc inet_aton idna_other test_process s).
Proof.
  pose proof (g_bitcoin passed) as H. unfold bitcoin_gates in H. apply result_bind_Ok in H as ([] & H & _).
  unfold _bitcoin_verifier. destruct (bitcoin_verifier s) eqn:E.
  - by eexists.
  - assert (fixture_enabled s = true) as Hf by (unfold fixture_enabled; rewrite E; by rewrite orb_true_r).
    unfold require_test_process. rewrite (fixtures_tested Hf), (fixtures_in_tests Hf). by eexists.
  - apply result_bind_Ok in H as ([] & _ & H). apply result_bind_Ok in H as ([] & C%raise_when_Ok & H).
    rewrite !orb_false_iff in C. destruct C as [[C1 C2] C3].
    destruct (bitcoin_rpc_url s) as [url|]; [|done]. destruct (bitcoin_rpc_username s) as [username|]; [|done].
    destruct (bitcoin_rpc_password s) as [password|]; [|done]. unfold or_empty, default, id in H. rewrite H. by eexists.
  - apply result_bind_Ok in H as ([] & _ & H). apply result_bind_Ok in H as (urls & Hu & C%raise_when_Ok).
    apply negb_false_iff, bool_decide_eq_true in C. rewrite C in Hu. rewrite Hu. by eexists.
Qed.
Lemma webhooks_start : resend_webhook_mode s = RESEND_WEBHOOK →
  ∃ secret service, resend_webhook_secret s = Some secret ∧
    ResendWebhookService.new secret (resend_webhook_tolerance_seconds s) = Ok service.
Proof.
  intros E. pose proof (g_webhook passed) as H. unfold webhook_gates in H. rewrite E, bool_decide_eq_true_2 in H by done.
  apply result_bind_Ok in H as ([] & C%raise_when_Ok & H). apply orb_false_iff in C as [_ C].
  apply result_bind_Ok in H as (decoded & Hd & H%raise_when_Ok). apply orb_false_iff in H as [H1 H2].
  destruct (resend_webhook_secret s) as [secret|]; [|done]. unfold or_empty, default, id in *.
  exists secret. eexists. split; [done|]. unfold ResendWebhookService.new. rewrite H1. cbn [raise_when result_bind].
  apply need_Ok in Hd. rewrite Hd. cbn [need result_bind]. rewrite H2.
  pose proof (g_limit passed) as L. unfold limit_gates in L. do 8 (apply result_bind_Ok in L as ([] & _ & L)).
  apply raise_when_Ok in L. unfold between in L. by rewrite L.
Qed.
Lemma rate_limit_secret_starts : is_Ok (rate_limit_secret s) ∧
  (active_token_pepper_version s ≠ None ∨ resend_webhook_mode s = RESEND_WEBHOOK → ∃ secret, rate_limit_secret s = Ok (Some secret)).
Proof.
  unfold rate_limit_secret. destruct (active_token_pepper_version s) as [version|] eqn:E.
  - destruct (pepper_found version (active_pepper version E)) as [p ->]. simpl. split; [by eexists|]. intros _. by eexists.
  - case_bool_decide as Er; [split; [by eexists|]; intros _; by eexists|].
    split; [by destruct (metbull_lookup_enabled s), (database_url s); eexists|]. naive_solver.
Qed.
Lemma sender_starts : resend_sender_mode s = RESEND_SENDER → is_some (database_url s) = true ∧
  ∃ api_key address sender, resend_api_key s = Some api_key ∧ resend_sender s = Some address ∧
    ResendEmailSender.new api_key address (resend_api_timeout_seconds s) = Ok sender.
Proof.
  intros E. pose proof (g_sender passed) as H. unfold sender_gates in H. rewrite E, bool_decide_eq_true_2 in H by done.
  apply result_bind_Ok in H as ([] & C%raise_when_Ok & H). rewrite !orb_false_iff in C. destruct C as [[C1 C2] C3].
  apply result_bind_Ok in H as (sender & Hs & _).
  destruct (resend_api_key s) as [key|]; [|done]. destruct (resend_sender s) as [address|]; [|done].
  split; [unfold is_some; by rewrite C1|]. by exists key, address, sender.
Qed.

(** Identifiers made of random bytes are opaque. *)
Lemma hex_opaque b : str_all is_alnum_ascii (bytes_hex b) = true.
Proof.
  eapply (CheckoutUrl.str_all_imp is_lower_hex); [|apply bytes_hex_lower].
  intros c. destruct c as [[] [] [] [] [] [] [] []]; vm_compute; congruence.
Qed.
Lemma generated_opaque prefix c rest p b : prefix = String c rest → is_alnum_ascii c = true → str_all p rest = true →
  (∀ c, is_alnum_ascii c = true → p c = true) → (String.length rest + 2 * List.length b ≤ 127)%nat →
  fullmatch_head is_alnum_ascii p 127 (prefix ++ bytes_hex b) = true.
Proof.
  intros -> Hc Hr Hp Hl. rewrite string_app_cons. cbn [fullmatch_head]. rewrite Hc. unfold fullmatch_class.
  rewrite str_all_app, Hr, (CheckoutUrl.str_all_imp _ _ _ Hp (hex_opaque b)), length_string_app, length_bytes_hex.
  cbn [andb]. rewrite andb_true_r. apply andb_true_intro. split; [done|]. by apply Nat.leb_le.
Qed.
End Accepted.

Lemma engine_starts libraries s : supported libraries s →
  match database_url s with Some url => create_database_engine libraries url | None => Ok tt end = Ok tt.
Proof. intros H. destruct (database_url s) as [url|] eqn:E; [by apply (engine_made _ _ H)|done]. Qed.
(** No process starts with a database URL that SQLAlchemy rejects; its exception is the one raised. *)
Lemma rejected_database_stops check_netloc inet_aton idna_other test_process libraries snapshot s url e id random :
  database_url s = Some url → create_database_engine libraries url = Raise e →
  create_app test_process libraries snapshot s = Raise e ∧
  create_worker check_netloc inet_aton idna_other test_process libraries s id random = Raise e ∧
  create_notification_worker libraries s id random = Raise e ∧
  (is_some (cloud_tasks_queue s) = true →
   create_configured_task_app check_netloc inet_aton idna_other test_process libraries s random = Raise e).
Proof.
  intros Hurl He. unfold create_app, create_worker, create_notification_worker, create_configured_task_app.
  rewrite Hurl. cbn [need result_bind]. rewrite He. split_and!; [done..|]. by destruct (cloud_tasks_queue s).
Qed.

(** An identifier from the environment is one that the code accepts. *)
Definition id_ok (opaque : string → bool) (configured : option string) : Prop :=
  truthy configured = true → opaque (or_empty configured) = true.

(** C14: Settings that are accepted are enough to start every process they are for: the application; the
    worker, if there is a database; the task application, if tasks are dispatched; and the notification
    worker, if mail is sent.  None of the checks that the constructors make again fails, and no value
    they need is missing.  The conditions are those that the validation of settings does not check: the
    adapters for tests want a test process, the catalogue a snapshot that can be read, an identifier that
    is configured must be opaque, SQLAlchemy must make an engine for the database URL ([rejected_database_stops]
    shows that nothing starts otherwise), the clients of Cloud Tasks and Stripe must be made where they are
    used, and the lifetime of tokens must be a [timedelta] where payments are disabled. *)
Theorem accepted_settings_start (check_netloc inet_aton : string → bool) (idna_other : string → option string)
    (test_process : bool) (libraries : Libraries.t) (snapshot : result unit) (s : t) (worker_id notification_id : option string) (random : bytes)
    (accepted : validate check_netloc inet_aton idna_other s = Ok tt)
    (fixtures_tested : fixture_enabled s = true → test_process = true)
    (supplied : supported libraries s)
    (snapshot_readable : metbull_lookup_enabled s = true → snapshot = Ok tt)
    (random_size : List.length random = 8%nat)
    (worker_id_ok : id_ok Worker._OPAQUE_WORKER_ID worker_id)
    (notification_id_ok : id_ok Sender._OPAQUE_WORKER_ID notification_id) :
  is_Ok (create_app test_process libraries snapshot s) ∧
  (is_some (database_url s) = true →
   is_Ok (create_worker check_netloc inet_aton idna_other test_process libraries s worker_id random)) ∧
  (task_dispatch_mode s = CLOUD_TASKS →
   is_Ok (create_configured_task_app check_netloc inet_aton idna_other test_process libraries s random)) ∧
  (resend_sender_mode s = RESEND_SENDER → is_Ok (create_notification_worker libraries s notification_id random)).
Proof.
  assert (Hopaque : ∀ p, (∀ c, is_alnum_ascii c = true → p c = true) → p "-"%char = true → ∀ prefix,
    prefix ∈ ["worker-"; "task-"; "notification-"] → fullmatch_head is_alnum_ascii p 127 (prefix ++ bytes_hex random) = true).
  { intros p Hp Hh prefix Hin.
    repeat (apply elem_of_cons in Hin as [-> |Hin]; [eapply generated_opaque; [done|done|simpl; by rewrite Hh, !Hp|exact Hp|rewrite random_size; simpl; lia]|]).
    by apply elem_of_nil in Hin. }
  destruct (timestamper_starts _ _ _ s accepted test_process fixtures_tested) as [ts Hts].
  destruct (verifier_starts _ _ _ s accepted test_process fixtures_tested) as [bv Hbv].
  destruct (task_dispatch_starts _ _ _ s accepted libraries supplied) as [[d Hd] Htasks].
  assert (Hbuild : ∀ id given, Worker._OPAQUE_WORKER_ID id = true →
    is_Ok (build_worker check_netloc inet_aton idna_other test_process libraries s id None None given)).
  { intros id given Hid. unfold build_worker. rewrite Hts, Hbv, Hid. destruct given; simpl; [by eexists|]. rewrite Hd. by eexists. }
  split_and!.
  - destruct (provider_starts _ _ _ s accepted test_process fixtures_tested libraries supplied) as [provider Hprovider].
    destruct (rate_limit_secret_starts _ _ _ s accepted) as [[limited Hlimited] _].
    destruct (token_ttl_starts _ _ _ s accepted libraries supplied) as [ttl Httl].
    unfold create_app. rewrite (engine_starts _ _ supplied), Hd, Hlimited, Hprovider. cbn [result_bind].
    assert ((if is_some (database_url s) then Ok d else Ok None) = Ok (if is_some (database_url s) then d else None)) as -> by by destruct (is_some _).
    assert ((if is_some (database_url s) then Ok limited else Ok None) = Ok (if is_some (database_url s) then limited else None)) as -> by by destruct (is_some _).
    assert ((if metbull_lookup_enabled s then snapshot else Ok tt) = Ok tt) as -> by (destruct (metbull_lookup_enabled s); auto).
    cbn [result_bind].
    match goal with |- is_Ok (result_bind ?m _) => assert (is_Ok m) as [[store p] ->] end.
    { destruct (is_some (database_url s)); [|by eexists]. destruct (active_token_pepper_version s) as [version|] eqn:Ev; [|by eexists].
      rewrite (hasher_starts _ _ _ s accepted version Ev). cbn [result_bind]. rewrite Httl. by eexists. }
    cbn [result_bind].
    match goal with |- is_Ok (result_bind ?m _) => assert (is_Ok m) as [webhooks ->]; [|by eexists] end.
    case_bool_decide as Ew; [|rewrite andb_false_r; by eexists].
    destruct (webhooks_start _ _ _ s accepted Ew) as (secret & service & -> & Hservice). simpl. rewrite Hservice.
    destruct (is_some (database_url s)); by eexists.
  - intros Hdb. unfold create_worker. destruct (database_url s) as [url|] eqn:Hurl; [|done]. cbn [need result_bind].
    rewrite (engine_made _ _ supplied url Hurl). apply Hbuild.
    unfold process_id. destruct (truthy worker_id) eqn:Et; [by apply worker_id_ok|].
    apply Hopaque; [|done|set_solver]. intros c Hc. unfold Domain.opaque_char. by rewrite Hc.
  - intros Hmode. destruct (Htasks Hmode) as (Hdb & d' & queue & Hq & Hd'). unfold create_configured_task_app.
    destruct (database_url s) as [url|] eqn:Hurl; [|done]. rewrite (engine_made _ _ supplied url Hurl), Hq, Hd'. simpl.
    destruct (Hbuild ("task-" ++ bytes_hex random) (Some d')) as [w ->]; [|by eexists].
    apply Hopaque; [|done|set_solver]. intros c Hc. unfold Domain.opaque_char. by rewrite Hc.
  - intros Hmode. destruct (sender_starts _ _ _ s accepted Hmode) as (Hdb & key & address & sender & Hk & Ha & Hs).
    unfold create_notification_worker. destruct (database_url s) as [url|] eqn:Hurl; [|done]. cbn [need result_bind].
    rewrite (engine_made _ _ supplied url Hurl). cbn [result_bind].
    unfold build_notification_worker. rewrite (bool_decide_eq_true_2 _ Hmode), Hk, Ha, Hs. simpl.
    unfold NotificationWorker.post_init.
    assert (Sender._OPAQUE_WORKER_ID (process_id "notification-" notification_id random) = true) as ->; [|by eexists].
    unfold process_id. destruct (truthy notification_id) eqn:Et; [by apply notification_id_ok|].
    apply Hopaque; [|done|set_solver]. intros c Hc. unfold Sender.worker_char. by rewrite Hc.
Qed.

(** A production configuration with live payments. *)
Definition production : t := defaults
  <| app_env := PRODUCTION |> <| payment_mode := STRIPE_LIVE |> <| checkout_enabled := true |>
  <| bitcoin_verifier := ESPLORA |> <| calendar_mode := CAL_PUBLIC |>
  <| resend_sender_mode := RESEND_SENDER |> <| resend_webhook_mode := RESEND_WEBHOOK |> <| task_dispatch_mode := CLOUD_TASKS |>
  <| allowed_origins := ["https://spacerocks.example"] |>
  <| database_url := Some "postgresql://timestamps@db/timestamps" |>
  <| token_peppers := [(1, "0123456789abcdef0123456789abcdef")] |> <| active_token_pepper_version := Some 1 |>
  <| stripe_live_enabled := true |> <| stripe_secret_key := Some "sk_live_0" |>
  <| stripe_webhook_secret := Some "whsec_0" |> <| stripe_price_id := Some "price_0" |>
  <| product_version := "1.0" |> <| expected_terms_version := "2026-01" |> <| expected_privacy_version := "2026-01" |>
  <| checkout_success_url := Some "https://spacerocks.example/done" |>
  <| checkout_cancel_url := Some "https://spacerocks.example/cancelled" |>
  <| calendar_allowlist := ["https://alice.btc.calendar.opentimestamps.org"; "https://finney.calendar.eternitywall.com"] |>
  <| esplora_provider_urls := ["https://blockstream.info/api"; "https://mempool.space/api"] |>
  <| cloud_tasks_project := Some "spacerocks" |> <| cloud_tasks_location := Some "europe-west1" |>
  <| cloud_tasks_queue := Some "timestamps" |>
  <| cloud_tasks_worker_url := Some "https://worker.spacerocks.example/internal/tasks/run" |>
  <| cloud_tasks_service_account_email := Some "tasks@spacerocks.iam.gserviceaccount.com" |>
  <| cloud_tasks_audience := Some "https://worker.spacerocks.example" |>
  <| resend_api_key := Some "re_0" |> <| resend_sender := Some "timestamps@spacerocks.example" |>
  <| resend_webhook_secret := Some "whsec_MDEyMzQ1Njc4OWFiY2RlZg==" |>.
Lemma production_accepted : validate (λ _, true) (λ _, false) (λ _, None) production = Ok tt.
Proof. vm_compute. reflexivity. Qed.

(** Libraries that grant what the configuration needs: an engine for PostgreSQL, and clients for any key. *)
Definition granting : Libraries.t :=
  Libraries.mk (λ url _, if startswith "postgresql+psycopg://" url then Ok tt else Raise (ValueError "Could not parse SQLAlchemy URL"))
    (Ok tt) (λ _, Ok tt).
Lemma production_supported : supported granting production.
Proof. split; [by intros url [= <-]|done|done|done]. Qed.

Lemma accepted_settings_start_witness :
  let random := replicate 8 x00 in
  is_Ok (create_app false granting (Ok tt) production) ∧
  is_Ok (create_worker (λ _, true) (λ _, false) (λ _, None) false granting production None random) ∧
  is_Ok (create_configured_task_app (λ _, true) (λ _, false) (λ _, None) false granting production random) ∧
  is_Ok (create_notification_worker granting production (Some "mailer-1") random).
Proof.
  intros random.
  destruct (accepted_settings_start (λ _, true) (λ _, false) (λ _, None) false granting (Ok tt) production None (Some "mailer-1") random
    production_accepted) as (H1 & H2 & H3 & H4);
    [vm_compute; discriminate|exact production_supported|intros _; reflexivity|reflexivity|intros H; discriminate H|intros _; reflexivity|].
  split; [exact H1|]. split; [exact (H2 eq_refl)|]. split; [exact (H3 eq_refl)|exact (H4 eq_refl)].
Defined.

(** The return URLs of a checkout belong to the origins that may use the service. *)
Definition returns_home (check_netloc : string → bool) (s : t) (url : string) : Prop :=
  startswith "https://" url = true ∧ ∃ parsed, urlsplit check_netloc url = Ok parsed ∧
    (SplitResult.scheme parsed ++ "://" ++ SplitResult.netloc parsed) ∈ allowed_origins s.
Lemma return_url_home check_netloc s url : return_url_gate check_netloc s url = Ok tt → returns_home check_netloc s url.
Proof.
  intros H. unfold return_url_gate in H. apply result_bind_Ok in H as ([] & C%raise_when_Ok & H).
  apply result_bind_Ok in H as (parsed & Hp & H%raise_when_Ok). rewrite negb_false_iff in C, H. apply bool_decide_eq_true in H.
  split; [done|]. by exists parsed.
Qed.

(** C15: An application that takes live payments runs in production with every gate closed behind it: the
    live gate is open and the test gate is not, no adapter for tests is in use, the database is PostgreSQL,
    every allowed origin is HTTPS, the versions of the product and the policies are not those of the
    pilot, customers return to an allowed origin, orders are dispatched as cloud tasks, the API is not
    documented to visitors, and requests are limited inside the security headers. *)
Theorem live_payments_are_gated (check_netloc inet_aton : string → bool) (idna_other : string → option string)
    (test_process : bool) (libraries : Libraries.t) (snapshot : result unit) (s : t) (services : AppServices.t) (provider : StripePaymentProvider.t)
    (accepted : validate check_netloc inet_aton idna_other s = Ok tt)
    (started : create_app test_process libraries snapshot s = Ok services)
    (stripe : AppServices.payment_provider services = Some (StripePayments provider))
    (live : StripePaymentProvider.livemode provider = true) :
  app_env s = PRODUCTION ∧ stripe_live_enabled s = true ∧ stripe_test_enabled s = false ∧ fixture_enabled s = false ∧
  (∃ url, database_url s = Some url ∧ (startswith "postgresql://" url || startswith "postgresql+psycopg://" url) = true) ∧
  Forall (λ origin, startswith "https://" origin = true) (allowed_origins s) ∧
  Forall (λ version, phase0_version version = false) [product_version s; expected_terms_version s; expected_privacy_version s] ∧
  (∃ success cancel, checkout_success_url s = Some success ∧ checkout_cancel_url s = Some cancel ∧
    returns_home check_netloc s success ∧ returns_home check_netloc s cancel) ∧
  (∃ d, AppServices.task_dispatch services = Some d) ∧ AppServices.docs_enabled services = false ∧
  ∃ secret, AppServices.middlewares services = [SafeRequestLog; HttpSecurity; CORS (allowed_origins s); RateLimit secret].
Proof.
  pose proof (passed _ _ _ _ accepted) as G. unfold create_app in started.
  apply result_bind_Ok in started as ([] & _ & started).
  apply result_bind_Ok in started as (dispatch & Hd & started). apply result_bind_Ok in started as ([] & _ & started).
  apply result_bind_Ok in started as ([store p] & Hstore & started). apply result_bind_Ok in started as (webhooks & _ & started).
  apply result_bind_Ok in started as (limited & Hlimited & started). injection started as <-.
  cbn [AppServices.payment_provider AppServices.task_dispatch AppServices.docs_enabled AppServices.middlewares] in *. subst p.
  destruct (is_some (database_url s)) eqn:Hdb; [|done]. destruct (active_token_pepper_version s) as [version|] eqn:Hv; [|done].
  apply result_bind_Ok in Hstore as (hasher & _ & Hstore). apply result_bind_Ok in Hstore as (ttl & _ & Hstore). apply result_bind_Ok in Hstore as (provider' & Hp & [= _ ->]).
  assert (payment_mode s = STRIPE_LIVE) as Hlive.
  { unfold configured_provider in Hp. destruct (payment_mode s) eqn:E; [done| | |done].
    - by apply result_bind_Ok in Hp as (? & _ & [=]).
    - destruct (stripe_secret_key s), (stripe_webhook_secret s); try done. apply result_bind_Ok in Hp as (pr & Hpr & Hp).
      apply result_bind_Ok in Hp as ([] & _ & [= ->]).
      unfold StripePaymentProvider.new in Hpr. apply result_bind_Ok in Hpr as ([] & _ & Hpr).
      apply result_bind_Ok in Hpr as ([] & _ & Hpr). apply result_bind_Ok in Hpr as ([] & _ & [= <-]). done. }
  destruct (stripe_accepted _ _ _ _ accepted ltac:(unfold stripe_mode; by rewrite Hlive)) as [Slive _ _ Surls Stasks].
  destruct (Slive Hlive) as (Hprod & Hl & Ht). split_and!; [done|done|done|..].
  - destruct (fixture_enabled s) eqn:Ef; [|done]. apply (fixtures_in_tests _ _ _ _ accepted) in Ef. congruence.
  - pose proof (g_environment _ _ _ _ G) as H. unfold environment_gates in H.
    apply result_bind_Ok in H as ([] & _ & H). apply result_bind_Ok in H as ([] & _ & H). apply result_bind_Ok in H as ([] & H & _).
    destruct (database_url s) as [url|]; [|done]. apply raise_when_Ok in H. unfold remote_environment in H. rewrite Hprod in H.
    rewrite bool_decide_eq_true_2 in H by set_solver. exists url. split; [done|]. by apply negb_false_iff in H.
  - pose proof (g_environment _ _ _ _ G) as H. unfold environment_gates in H.
    apply result_bind_Ok in H as ([] & _ & H). apply result_bind_Ok in H as ([] & H & _).
    unfold remote_environment in H. rewrite Hprod in H. rewrite bool_decide_eq_true_2 in H by set_solver.
    apply result_bind_Ok in H as ([] & H%check_each_Ok & _). eapply Forall_impl; [exact H|]. intros o Ho%raise_when_Ok.
    by apply negb_false_iff in Ho.
  - pose proof (g_environment _ _ _ _ G) as H. unfold environment_gates in H.
    apply result_bind_Ok in H as ([] & _ & H). apply result_bind_Ok in H as ([] & _ & H). apply result_bind_Ok in H as ([] & _ & H).
    apply raise_when_Ok in H. rewrite Hprod in H. cbn [existsb] in H. rewrite bool_decide_eq_true_2 in H by done.
    cbn [andb] in H. rewrite !orb_false_iff in H. repeat constructor; tauto.
  - destruct Surls as (success & cancel & ? & ? & ? & ?). exists success, cancel. split; [done|]. split; [done|]. split; by apply return_url_home.
  - unfold create_task_dispatch in Hd. rewrite Stasks in Hd.
    + rewrite bool_decide_eq_false_2 in Hd by done. repeat case_match; try done.
      apply result_bind_Ok in Hd as ([] & _ & [= <-]). by eexists.
    + unfold remote_environment. rewrite Hprod. apply bool_decide_eq_true_2. set_solver.
  - apply bool_decide_eq_false_2. rewrite Hprod. set_solver.
  - destruct (rate_limit_secret_starts _ _ _ s accepted) as [_ Hr]. destruct Hr as [secret Hr]; [left; by rewrite Hv|].
    rewrite Hr in Hlimited. injection Hlimited as <-. by exists secret.
Qed.

Lemma live_payments_are_gated_witness :
  ∃ services provider, create_app false granting (Ok tt) production = Ok services ∧
    AppServices.payment_provider services = Some (StripePayments provider) ∧
    ∃ secret, AppServices.middlewares services =
      [SafeRequestLog; HttpSecurity; CORS ["https://spacerocks.example"]; RateLimit secret].
Proof.
  assert (started : ∃ services, create_app false granting (Ok tt) production = Ok services ∧
    AppServices.payment_provider services = Some (StripePayments (StripePaymentProvider.mk STRIPE_LIVE true "whsec_0")))
    by (eexists; split; [reflexivity|reflexivity]).
  destruct started as (services & started & stripe). exists services. eexists. split; [exact started|]. split; [exact stripe|].
  destruct (live_payments_are_gated (λ _, true) (λ _, false) (λ _, None) false granting (Ok tt) production services _
    production_accepted started stripe eq_refl) as (_ & _ & _ & _ & _ & _ & _ & _ & _ & _ & H).
  exact H.
Defined.

(** The limit on requests for the price is not checked: with zero, or less, every request for it is refused. *)
Theorem price_limit_is_not_checked (limit : Z) :
  validate (λ _, true) (λ _, false) (λ _, None) (production <| checkout_price_rate_limit := limit |>) = Ok tt.
Proof. rewrite <- production_accepted. vm_compute. reflexivity. Qed.
(** Where payments are disabled the lifetime of tokens is not bounded, though a store that has a pepper uses
    it: settings with a lifetime that no [timedelta] can have are accepted, and the application raises. *)
Theorem token_ttl_is_not_checked :
  let s := defaults <| database_url := Some "postgresql://timestamps@db/timestamps" |>
    <| token_peppers := [(1, "0123456789abcdef0123456789abcdef")] |> <| active_token_pepper_version := Some 1 |>
    <| token_ttl_seconds := 10 ^ 14 |> in
  validate (λ _, true) (λ _, false) (λ _, None) s = Ok tt ∧
  create_app false granting (Ok tt) s = Raise (OverflowError "days out of range; must have magnitude <= 999999999").
Proof. by vm_compute. Qed.
