(* ===== verification/Operator.v ===== *)
(** * Operator commands

    [SqlOperatorCommands] of [app/worker/operator.py].  [purge_synthetic], which only a test
    environment with fixture payments allows, is no transaction of [System].  [Scripts] are the
    commands of [scripts/] after [argparse] has read the command line; the object that
    [load_commands] finds by its name in the environment is a parameter. *)
From S2P Require Import Prelude PyStr PyFloat Domain Ports Db Session Settings Tasks Jobs Proofs Outbox Ots Handlers Worker.

Open Scope string_scope.
Open Scope Z_scope.
Import PaymentState FulfillmentState.

Definition _REVERIFICATION_REQUEST_ID (s : string) : bool := fullmatch_head is_alnum_ascii opaque_char 31 s.

(** [_uuid(value)] of the module *)
Definition identifier_uuid (value : string) : result uuid :=
  match UUID value with Some u => Ok u | None => Raise (ValueError "identifier_must_be_uuid") end.

Module SqlOperatorCommands.
Section Operator.
Context (apply_op : Op → bytes → result bytes) (deserialize : bytes → option DetachedTimestampFile.t).
Context (task_dispatch : option TaskCreator).
Context (orders : FulfillmentRepository) (proofs : ProofStore).

(** What the transaction of [replay] decided: the order to recover, or the dispatch. *)
Inductive ReplayOutcome := TerminalOrder (order_id : string) | Replayed (job_id : uuid) (generation : Z).

Definition replay_tx (job_id : string) (now : Z) : M ReplayOutcome :=
  atomically (
    let! u := lift (identifier_uuid job_id) in
    let! job := scalar (λ j, DurableJob.id j == u) in
    match job with
    | None => raise (ValueError "job_not_found")
    | Some job =>
        if DurableJob.state job is_in [JOB_MANUAL_REVIEW; JOB_DEAD_LETTER]
        then ret (TerminalOrder (str_uuid (DurableJob.order_id job)))
        else
          do! raise_if (DurableJob.state job != JOB_RETRY) (ValueError "job_not_replayable") in
          let job := job
            <| DurableJob.state := JOB_AVAILABLE |>
            <| DurableJob.available_at := now |>
            <| DurableJob.lease_owner := None |>
            <| DurableJob.lease_until := None |>
            <| DurableJob.safe_error_code := None |>
            <| DurableJob.max_attempts := Z.max (DurableJob.max_attempts job) (DurableJob.attempt_count job + 10) |>
            <| DurableJob.generation := DurableJob.generation job + 1 |>
            <| DurableJob.updated_at := now |> in
          do! save job in
          do! add_task_dispatch job (utc now) now in
          ret (Replayed (DurableJob.id job) (DurableJob.generation job))
    end).

Definition _validate_terminal_recovery (order_id : string) : M unit :=
  let! order := get_for_fulfillment orders order_id in
  match order with
  | None => raise (ValueError "terminal_recovery_order_state_invalid")
  | Some order =>
      do! raise_if (fulfillment_of order != MANUAL_REVIEW) (ValueError "terminal_recovery_order_state_invalid") in
      let! snapshot := snapshot_of order in
      let! proof := proofs_latest proofs (OrderSnapshot.order_reference snapshot) in
      match proof with
      | None => raise (ValueError "terminal_recovery_proof_missing")
      | Some proof =>
          do! raise_if (StoredProof.target_digest proof != OrderSnapshot.manifest_digest snapshot)
            (ValueError "terminal_recovery_target_mismatch") in
          do! raise_if (FulfillmentOrder.calendar_submitted_at order !=
                        Some (StoredProof.calendar_submitted_at proof))
            (ValueError "terminal_recovery_calendar_time_mismatch") in
          lift (validate_exact_proof apply_op deserialize (OrderSnapshot.manifest_digest snapshot)
                  (StoredProof.proof_bytes proof) (Some (StoredProof.proof_sha256 proof)))
      end
  end.

Definition replay (job_id : string) : M unit :=
  let! now := now_utc in
  let! outcome := replay_tx job_id now in
  match outcome with
  | Replayed id generation => dispatch_if task_dispatch (Some (id, generation))
  | TerminalOrder order_id =>
      do! _validate_terminal_recovery order_id in
      raise (RuntimeError "terminal_recovery_requires_ws1_state_transition")
  end.

Definition _enqueue_proof_job (order_id prefix : string) (allowed : list FulfillmentState.t)
    (request_id : option string) : M unit :=
  let! order := get_for_fulfillment orders order_id in
  match order with
  | None => raise (ValueError "order_not_found")
  | Some order =>
      do! raise_if (negb (fulfillment_of order is_in allowed)) (ValueError "order_not_eligible") in
      let! snapshot := snapshot_of order in
      let! proof := proofs_latest proofs (OrderSnapshot.order_reference snapshot) in
      match proof with
      | None => raise (ValueError "proof_not_found")
      | Some proof =>
          let request_key := match request_id with
                             | Some r => if (r =? "")%string then "default" else r | None => "default" end in
          let! spec := lift (job_spec (prefix ++ ":" ++ order_id ++ ":v" ++ str_int (StoredProof.version proof) ++
                                       ":" ++ request_key) UPGRADE_JOB order_id) in
          let! now := now_utc in
          do! SqlJobClaimStore.enqueue_once task_dispatch spec (utc now) in ret tt
      end
  end.

Definition reverify (order_id : string) (request_id : option string) : M unit :=
  do! raise_if match request_id with Some r => negb (_REVERIFICATION_REQUEST_ID r) | None => false end
    (ValueError "reverification_request_id_invalid") in
  _enqueue_proof_job order_id "reverify" [BITCOIN_VERIFIED; DELIVERED] request_id.

Definition upgrade (order_id : string) : M unit :=
  _enqueue_proof_job order_id "upgrade-manual" [CALENDAR_PENDING] None.

Definition reconcile_tasks (limit : Z) : M (Z * Z) :=
  match task_dispatch with
  | None => raise (RuntimeError "task_dispatch_disabled")
  | Some creator =>
      let! r := TaskDispatchCoordinator.reconcile creator limit None in
      ret (ReconcileResult.selected r, ReconcileResult.dispatched r)
  end.

Definition recover_stale_tasks (limit stale_grace : Z) : M (Z * Z) :=
  match task_dispatch with
  | None => raise (RuntimeError "task_dispatch_disabled")
  | Some creator =>
      let! r := TaskDispatchCoordinator.recover_stale_dispatched creator stale_grace limit None in
      ret (ReconcileResult.selected r, ReconcileResult.dispatched r)
  end.
End Operator.

(** *** [purge_synthetic] *)

(** [delete(R).where(R.key in keys)]: the statement itself, or what [ON DELETE CASCADE] adds to the
    deletion of the rows that are referenced. *)
Definition delete_of {R} `{Table R} (key : R → uuid) (keys : list uuid) : M unit :=
  do! delete_where (λ r, key r is_in keys) in ret tt.
Definition delete_jobs (order : uuid) : M unit :=
  let! jobs := scalars (λ j, DurableJob.order_id j == order) in
  do! delete_of TaskDispatch.job_id (map DurableJob.id jobs) in
  do! delete_of JobAttempt.job_id (map DurableJob.id jobs) in
  delete_of DurableJob.order_id [order].
Definition delete_messages (order : uuid) : M unit :=
  let! messages := scalars (λ m, OutboxRecord.order_id m == order) in
  do! delete_of NotificationAttempt.outbox_id (map OutboxRecord.id messages) in
  delete_of OutboxRecord.order_id [order].
Definition purge_tx (order_uuid : uuid) : M unit :=
  atomically (
    let! order := get (R:=Order.row) order_uuid in
    match order with
    | None => raise (ValueError "synthetic_order_not_found")
    | Some order =>
        do! raise_if (Order.payment_mode order != PaymentMode_value PAY_FIXTURE)
          (ValueError "synthetic_order_not_found") in
        let! jobs := scalars (λ j, DurableJob.order_id j == order_uuid) in
        do! delete_of JobAttempt.job_id (map DurableJob.id jobs) in
        do! delete_jobs order_uuid in
        delete_messages order_uuid
    end).
Definition purge_synthetic (settings : Settings.t) (order_id : string) (preserve_proofs : bool) : M unit :=
  do! raise_if (negb preserve_proofs || negb (bool_decide (Settings.app_env settings = TEST)) ||
                negb (bool_decide (Settings.payment_mode settings = PAY_FIXTURE)))
    (RuntimeError "synthetic_purge_forbidden") in
  let! order_uuid := lift (identifier_uuid order_id) in
  purge_tx order_uuid.
End SqlOperatorCommands.

(** ** What a purge leaves *)
Section Purge.
Import SqlOperatorCommands.

Definition kept {R} (key : R → uuid) (gone : list uuid) (l : list R) : list R :=
  List.filter (λ r, negb (key r is_in gone)) l.
Lemma delete_of_Ok {R} `{Table R} (key : R → uuid) keys w u w' :
  delete_of key keys w = (Ok u, w') → w' = set_rows (kept key keys (tbl (World.db w))) w.
Proof. by intros [= _ <-]. Qed.
Lemma not_kept {R} (key : R → uuid) gone l r : r ∈ kept key gone l ↔ r ∈ l ∧ key r ∉ gone.
Proof.
  unfold kept. rewrite elem_of_filter_rows, negb_true_iff. rewrite bool_decide_eq_false. done.
Qed.
Lemma kept_kept {R} (key : R → uuid) gone l : kept key gone (kept key gone l) = kept key gone l.
Proof.
  unfold kept. induction l as [|r l IH]; [done|]. cbn. destruct (negb _) eqn:E; [cbn; by rewrite E, IH|done].
Qed.

(** A purge that is accepted is one of a test process without real payments, of an order that was paid
    in the fixture's money.  It deletes the jobs of the order with their attempts and dispatches, and its
    messages with theirs: of these tables every other row is kept.  The order, its credentials, its
    proofs with their verifications, bundles and observations, its history and the events of the
    providers are as they were. *)
Theorem purge_spec settings order_id preserve w w' :
  purge_synthetic settings order_id preserve w = (Ok tt, w') →
  preserve = true ∧ Settings.app_env settings = TEST ∧ Settings.payment_mode settings = PAY_FIXTURE ∧
  ∃ u order, UUID order_id = Some u ∧ order ∈ Db.orders (World.db w) ∧ Order.id order = u ∧
    Order.payment_mode order = "fixture" ∧
  let d := World.db w in
  let jobs := map DurableJob.id (List.filter (λ j, DurableJob.order_id j == u) (Db.durable_jobs d)) in
  let messages := map OutboxRecord.id (List.filter (λ m, OutboxRecord.order_id m == u) (Db.outbox d)) in
  World.db w' = d
    <| Db.durable_jobs := kept DurableJob.order_id [u] (Db.durable_jobs d) |>
    <| Db.task_dispatches := kept TaskDispatch.job_id jobs (Db.task_dispatches d) |>
    <| Db.job_attempts := kept JobAttempt.job_id jobs (Db.job_attempts d) |>
    <| Db.outbox := kept OutboxRecord.order_id [u] (Db.outbox d) |>
    <| Db.notification_attempts := kept NotificationAttempt.outbox_id messages (Db.notification_attempts d) |>.
Proof.
  intros H. unfold purge_synthetic in H. apply bind_Ok_inv in H as (? & w1 & [C ->]%raise_if_Ok & H).
  apply orb_false_iff in C as [[->%negb_false_iff C1]%orb_false_iff C2].
  apply negb_false_iff, bool_decide_eq_true in C1, C2.
  apply bind_Ok_inv in H as (u & w1 & [Eu ->]%lift_Ok & H).
  unfold identifier_uuid in Eu. destruct (UUID order_id) as [u'|] eqn:Eid; [|done]. injection Eu as ->.
  unfold purge_tx, atomically in H. destruct (bind _ _ w) as [[[]|] w1] eqn:H1; [|done]. injection H as ->.
  apply bind_Ok_inv in H1 as (order & w1 & [Eo ->]%scalar_Ok & H). destruct order as [order|]; [|done].
  apply find_row_Some in Eo as [Eo Ei%bool_decide_eq_true].
  apply bind_Ok_inv in H as (? & w1 & [Em ->]%raise_if_Ok & H). apply negb_false_iff, bool_decide_eq_true in Em.
  split; [done|]. split; [done|]. split; [done|]. exists u, order. split_and!; [done..|].
  apply bind_Ok_inv in H as (jobs & w1 & [<- ->]%scalars_Ok & H).
  apply bind_Ok_inv in H as (? & w1 & ->%delete_of_Ok & H).
  apply bind_Ok_inv in H as (? & w1 & E & H). apply bind_Ok_inv in E as (jobs & w2 & [<- ->]%scalars_Ok & E).
  apply bind_Ok_inv in E as (? & w2 & ->%delete_of_Ok & E). apply bind_Ok_inv in E as (? & w2 & ->%delete_of_Ok & E).
  apply delete_of_Ok in E as ->. apply bind_Ok_inv in H as (messages & w2 & [<- ->]%scalars_Ok & H).
  apply bind_Ok_inv in H as (? & w2 & ->%delete_of_Ok & H). apply delete_of_Ok in H as ->.
  destruct w as [[] ? ? ? ? ? ?]. cbn -[kept]. by rewrite kept_kept.
Qed.
(** Every CHECK and unique constraint that held still holds. *)
Lemma purge_wf settings order_id preserve : respects (on_db wf_step) (purge_synthetic settings order_id preserve).
Proof.
  unfold purge_synthetic, purge_tx, delete_jobs, delete_messages, delete_of. respects_solve.
  apply respects_atomically'; [apply _|]. respects_solve.
Qed.
End Purge.

(** ** [scripts/] *)
Module Scripts.
(** [class OperatorCommands(Protocol)] *)
Record Commands := {
  replay : string → M unit;
  reverify : string → string → M unit;
  upgrade : string → M unit;
  purge_synthetic : string → bool → M unit;
  reconcile_tasks : Z → M (Z * Z);
  recover_stale_tasks : Z → Z → M (Z * Z) }.

(** What [parser.error] does, also for a [ValueError] of the function that converts an argument. *)
Definition usage_error : exn := Other "SystemExit(2)".
Definition argument {A} (r : result A) : M A :=
  lift match r with Raise (ValueError _) => Raise usage_error | r => r end.
Definition opaque_id (value : string) : result string :=
  if negb (_OPAQUE_ID value) then Raise (ValueError "identifier_must_be_opaque") else Ok value.
Definition reverification_request_id (value : string) : result string :=
  try! parsed := opaque_id value in
  check! raise_when (32 <? strlen parsed) (ValueError "reverification_request_id_too_long") in
  Ok parsed.
Definition require_confirmation (actual expected : string) : M unit :=
  raise_if (negb (actual =? expected)%string) (RuntimeError "explicit_confirmation_required").

Section Main.
Context (commands : Commands).

(** The result of a command is the line it prints. *)
Definition replay_job (job_id confirm : string) : M string :=
  let! job_id := argument (opaque_id job_id) in
  do! require_confirmation confirm ("REPLAY:" ++ job_id) in
  do! replay commands job_id in
  ret ("event=replay_requested job_id=" ++ job_id).
Definition reverify_order (order_id request_id confirm : string) : M string :=
  let! order_id := argument (opaque_id order_id) in
  let! request_id := argument (reverification_request_id request_id) in
  do! require_confirmation confirm ("REVERIFY:" ++ order_id ++ ":" ++ request_id) in
  do! reverify commands order_id request_id in
  ret ("event=reverify_requested order_id=" ++ order_id ++ " request_id=" ++ request_id).
Definition upgrade_order (order_id confirm : string) : M string :=
  let! order_id := argument (opaque_id order_id) in
  do! require_confirmation confirm ("UPGRADE:" ++ order_id) in
  do! upgrade commands order_id in
  ret ("event=upgrade_requested order_id=" ++ order_id).
(** [synthetic_phase0]: the required flag was given. *)
Definition purge_phase0 (order_id : string) (synthetic_phase0 : bool) (confirm : string) : M string :=
  let! order_id := argument (opaque_id order_id) in
  do! raise_if (negb synthetic_phase0) usage_error in
  do! require_confirmation confirm ("PURGE-SYNTHETIC-KEEP-PROOFS:" ++ order_id) in
  do! purge_synthetic commands order_id true in
  ret ("event=synthetic_purge_requested order_id=" ++ order_id ++ " proofs=preserved").
Definition reconcile_main (limit : Z) (recover_stale_dispatched : bool) (stale_grace_seconds : Z) : M string :=
  do! raise_if (negb ((1 <=? limit) && (limit <=? 1000))) usage_error in
  let stale_grace := seconds stale_grace_seconds in
  do! raise_if ((stale_grace / days 1 <? - MAX_TIMEDELTA_DAYS) || (MAX_TIMEDELTA_DAYS <? stale_grace / days 1))
    (OverflowError "days out of range; must have magnitude <= 999999999") in
  do! raise_if (negb ((MIN_STALE_DISPATCH_GRACE <=? stale_grace) && (stale_grace <=? MAX_STALE_DISPATCH_GRACE)))
    usage_error in
  if recover_stale_dispatched then
    let! (selected, dispatched) := recover_stale_tasks commands limit stale_grace in
    ret ("event=stale_tasks_recovered selected=" ++ str_int selected ++ " dispatched=" ++ str_int dispatched ++
         " stale_grace_seconds=" ++ str_int stale_grace_seconds)
  else
    let! (selected, dispatched) := reconcile_tasks commands limit in
    ret ("event=tasks_reconciled selected=" ++ str_int selected ++ " dispatched=" ++ str_int dispatched).
End Main.

(** The request identifiers that the command line accepts are those that the operator's command does. *)
Lemma request_id_accepted value : is_Ok (reverification_request_id value) ↔ _REVERIFICATION_REQUEST_ID value = true.
Proof.
  unfold reverification_request_id, opaque_id, _OPAQUE_ID, _REVERIFICATION_REQUEST_ID.
  destruct value as [|c value]; [split; [by intros []|done]|]. cbn [fullmatch_head]. unfold fullmatch_class.
  destruct (is_alnum_ascii c); [|split; [by intros []|done]].
  destruct (str_all opaque_char value); [|rewrite !andb_false_r; split; [by intros []|done]].
  rewrite !andb_true_r, !andb_true_l.
  destruct (Nat.leb_spec (String.length value) 31) as [H|H].
  - rewrite (proj2 (Nat.leb_le _ 127)) by lia. cbn [negb result_bind].
    rewrite (proj2 (Z.ltb_ge _ _)) by (unfold strlen; cbn [String.length]; lia). split; [done|]. by eexists.
  - split; [|done]. destruct (_ <=? 127)%nat; cbn [negb result_bind]; [|by intros []].
    rewrite (proj2 (Z.ltb_lt _ _)) by (unfold strlen; cbn [String.length]; lia). by intros [].
Qed.
(** Without the confirmation that names the command and the identifier nothing happens. *)
Lemma unconfirmed commands order_id request_id confirm w :
  (confirm ≠ "REPLAY:" ++ order_id → (replay_job commands order_id confirm w).2 = w) ∧
  (confirm ≠ "REVERIFY:" ++ order_id ++ ":" ++ request_id →
     (reverify_order commands order_id request_id confirm w).2 = w) ∧
  (confirm ≠ "UPGRADE:" ++ order_id → (upgrade_order commands order_id confirm w).2 = w) ∧
  (confirm ≠ "PURGE-SYNTHETIC-KEEP-PROOFS:" ++ order_id →
     (purge_phase0 commands order_id true confirm w).2 = w).
Proof.
  assert (∀ s s', s ≠ s' → (s =? s')%string = false) as Hne by (intros; by apply String.eqb_neq).
  unfold replay_job, reverify_order, upgrade_order, purge_phase0, argument, reverification_request_id, opaque_id.
  destruct (_OPAQUE_ID order_id); [|done]. cbn. unfold require_confirmation.
  split_and!; intros H%Hne; try (by rewrite H).
  destruct (_OPAQUE_ID request_id); [|done]. cbn. destruct (32 <? _); [done|]. cbn. by rewrite H.
Qed.
End Scripts.
