(* ===== verification/JobLife.v ===== *)
(** * The life of a durable job

    The steps a job takes: a lease, a heartbeat, the end of an attempt, the recovery of a
    stale dispatch and the operator's replay; every operation of the job store and of the
    dispatcher is a sequence of such steps. *)
From S2P Require Import Prelude PyStr Domain Ports Db Session Exec Evolution Tasks Jobs Operator.

Open Scope Z_scope.

Definition active (s : JobState) : bool := s is_in [JOB_AVAILABLE; JOB_RETRY; JOB_LEASED].

Inductive job_step (j : DurableJob.row) : DurableJob.row → Prop :=
| js_lease owner until now :
    active (DurableJob.state j) = true → DurableJob.attempt_count j < DurableJob.max_attempts j →
    job_step j (j <| DurableJob.attempt_count := DurableJob.attempt_count j + 1 |>
                  <| DurableJob.state := JOB_LEASED |>
                  <| DurableJob.lease_owner := Some owner |>
                  <| DurableJob.lease_until := Some until |>
                  <| DurableJob.updated_at := now |>)
| js_heartbeat until now :
    DurableJob.state j = JOB_LEASED →
    job_step j (j <| DurableJob.lease_until := Some until |> <| DurableJob.updated_at := now |>)
| js_finish final available code now :
    DurableJob.state j = JOB_LEASED →
    (final = OUT_RETRY → DurableJob.attempt_count j < DurableJob.max_attempts j) →
    job_step j (j <| DurableJob.state := state_of_outcome final |>
                  <| DurableJob.available_at := available |>
                  <| DurableJob.lease_owner := None |>
                  <| DurableJob.lease_until := None |>
                  <| DurableJob.safe_error_code := code |>
                  <| DurableJob.updated_at := now |>
                  <| DurableJob.generation :=
                       DurableJob.generation j + (if final == OUT_RETRY then 1 else 0) |>)
| js_recover now :
    active (DurableJob.state j) = true →
    DurableJob.attempt_count j < DurableJob.max_attempts j →
    job_step j (recovered_job now j)
| js_replay now :
    DurableJob.state j = JOB_RETRY →
    job_step j (j <| DurableJob.state := JOB_AVAILABLE |>
                  <| DurableJob.available_at := now |>
                  <| DurableJob.lease_owner := None |>
                  <| DurableJob.lease_until := None |>
                  <| DurableJob.safe_error_code := None |>
                  <| DurableJob.max_attempts :=
                       Z.max (DurableJob.max_attempts j) (DurableJob.attempt_count j + 10) |>
                  <| DurableJob.generation := DurableJob.generation j + 1 |>
                  <| DurableJob.updated_at := now |>).

#[global] Instance Job_life : Lifecycle DurableJob.row := {
  init j := DurableJob.state j = JOB_AVAILABLE ∧ DurableJob.generation j = 1 ∧
            DurableJob.attempt_count j = 0 ∧ 0 < DurableJob.max_attempts j ∧
            DurableJob.lease_owner j = None ∧ DurableJob.lease_until j = None;
  step := job_step }.

(** What never changes, and what only grows. *)
Record job_fixed (j j' : DurableJob.row) : Prop := {
  jf_id : DurableJob.id j' = DurableJob.id j;
  jf_key : DurableJob.job_key j' = DurableJob.job_key j;
  jf_order : DurableJob.order_id j' = DurableJob.order_id j;
  jf_kind : DurableJob.kind j' = DurableJob.kind j;
  jf_created : DurableJob.created_at j' = DurableJob.created_at j;
  jf_generation : DurableJob.generation j <= DurableJob.generation j';
  jf_attempts : DurableJob.attempt_count j <= DurableJob.attempt_count j';
  jf_max : DurableJob.max_attempts j <= DurableJob.max_attempts j';
  jf_terminal : active (DurableJob.state j) = false → j' = j }.
#[global] Instance job_fixed_preorder : PreOrder job_fixed.
Proof.
  split; [intros j; by split|]. intros x y z [] []. split; try congruence; try lia.
  intros Hx. rewrite <-jf_terminal0 by done. apply jf_terminal1. by rewrite jf_terminal0.
Qed.
Lemma job_step_fixed j j' : job_step j j' → job_fixed j j'.
Proof.
  intros [| | |now|]; unfold recovered_job; [..|destruct (is_some (DurableJob.lease_owner j))|];
    split; simpl; try done; try lia; try (by case_bool_decide; lia);
    unfold active in *; try congruence; destruct (DurableJob.state j); simpl in *; try done; congruence.
Qed.
Lemma job_later_fixed (j j' : DurableJob.row) : later j j' → job_fixed j j'.
Proof. apply (later_ind job_fixed). apply job_step_fixed. Qed.

(** The invariant of a job: the attempts stay within the limit, and the lease columns are
    set exactly while the job is leased. *)
Record job_ok (j : DurableJob.row) : Prop := {
  jo_attempts : 0 <= DurableJob.attempt_count j <= DurableJob.max_attempts j;
  jo_generation : 1 <= DurableJob.generation j;
  jo_owner : is_some (DurableJob.lease_owner j) = true ↔ DurableJob.state j = JOB_LEASED;
  jo_until : is_some (DurableJob.lease_until j) = true ↔ DurableJob.state j = JOB_LEASED;
  jo_leased : DurableJob.state j = JOB_LEASED → 1 <= DurableJob.attempt_count j }.
Lemma reach_job_ok (j : DurableJob.row) : reach j → job_ok j.
Proof.
  apply reach_ind.
  - intros r (E1 & E2 & E3 & E4 & E5 & E6). split; rewrite ?E1, ?E2, ?E3, ?E5, ?E6; simpl; try lia; done.
  - intros r r' [Ha Hg Ho Hu Hl] Hs.
    destruct Hs as [| |final| |]; [..|unfold recovered_job; destruct (DurableJob.lease_owner r) eqn:E|];
      split; simpl in *; rewrite ?E; simpl; try lia; try done.
    + case_bool_decide; lia.
    + destruct final; simpl; naive_solver.
    + destruct final; simpl; naive_solver.
    + intros Hf. destruct final; done.
Qed.

(** ** The operations *)

Section JobOps.
Context (N : DurableJob.row → Prop).
#[local] Notation jobs_step := (table_step N).

Lemma respects_add_task_dispatch job at_ now : respects (on_db jobs_step) (add_task_dispatch job at_ now).
Proof. unfold add_task_dispatch. respects_solve. Qed.
#[local] Hint Resolve respects_add_task_dispatch : respects.

(** A job written back one step later. *)
Lemma job_saved d d' (j j' : DurableJob.row) :
  d' = set_tbl (replace_row j' (tbl d)) d → admissible d (others (row_id j') (tbl d)) j' = true →
  j ∈ Db.durable_jobs d → (job_ok j → job_step j j') → jobs_step d d'.
Proof.
  intros D A Hin Hs Hg. pose proof (Hs (reach_job_ok _ (proj2 Hg j Hin))) as Hs'.
  apply (table_step_save N _ _ j j' D A Hin); [|by intros _; apply rtc_once|done].
  symmetry. apply (jf_id _ _ (job_step_fixed _ _ Hs')).
Qed.

Lemma lease_step job worker_id now lease_for w :
  job ∈ Db.durable_jobs (World.db w) → active (DurableJob.state job) = true →
  DurableJob.attempt_count job < DurableJob.max_attempts job →
  commits (SqlJobClaimStore._lease job worker_id now lease_for)
    (λ _ w', jobs_step (World.db w) (World.db w')) w.
Proof.
  intros Hin Ha Hm. unfold SqlJobClaimStore._lease. do 2 exec_step. by_rest.
  apply (job_saved _ _ job _ D A Hin). intros _. by apply js_lease.
Qed.
Lemma respects_claim worker_id now lease_for :
  respects (on_db jobs_step) (SqlJobClaimStore.claim worker_id now lease_for).
Proof.
  apply respects_atomically_commits; [apply _|]. intros w. unfold SqlJobClaimStore.claim_query.
  exec_all; [|reflexivity].
  subst o. apply head_elem, elem_of_ordered in B as [Hin HP].
  unfold SqlJobClaimStore.claimable in HP. apply andb_prop in HP as [[[??]%andb_prop ?]%andb_prop ?].
  call lease_step; [done|done|lia|by exec].
Qed.
Lemma respects_claim_specific job_id generation worker_id now lease_for :
  respects (on_db jobs_step) (SqlJobClaimStore.claim_specific job_id generation worker_id now lease_for).
Proof.
  unfold SqlJobClaimStore.claim_specific. respects_step; [respects_solve|]. respects_step; [|respects_solve].
  apply respects_atomically_commits; [apply _|]. intros w. exec_all; try reflexivity.
  apply find_row_Some in F as [Hin _]. call lease_step; [done| |lia|by exec].
  by apply negb_false_iff.
Qed.
Lemma respects_heartbeat job_id worker_id attempt until :
  respects (on_db jobs_step) (SqlJobClaimStore.heartbeat job_id worker_id attempt until).
Proof.
  apply respects_atomically_commits; [apply _|]. intros w. exec_all; try reflexivity.
  apply find_row_Some in F as [Hin _]. rewrite D in *.
  apply (job_saved _ _ _ _ D0 A Hin). intros _. apply js_heartbeat.
  apply orb_false_iff in B0 as [_ B0]. by apply negb_false_iff, bool_decide_eq_true in B0.
Qed.
Lemma final_outcome_retry outcome j :
  SqlJobClaimStore.final_outcome outcome j = OUT_RETRY →
  DurableJob.attempt_count j < DurableJob.max_attempts j.
Proof.
  unfold SqlJobClaimStore.final_outcome. case_bool_decide; simpl; [|done].
  destruct (_ <=? _) eqn:E; [done|]. lia.
Qed.
Lemma respects_finish_tx job outcome now retry_at code :
  respects (on_db jobs_step) (SqlJobClaimStore.finish_tx job outcome now retry_at code).
Proof.
  apply respects_atomically_commits; [apply _|]. intros w.
  exec_all. apply find_row_Some in F as [Hin _].
  apply orb_false_iff in C as [C1 _]. apply negb_false_iff, bool_decide_eq_true in C1.
  unfold SqlJobClaimStore.close_attempt. do 2 exec_step. cbv zeta. do 2 exec_step. by_rest.
  transitivity (World.db w'); [apply table_step_same; by rewrite D|].
  apply (job_saved _ _ r _ D0 A0); [by rewrite D|].
  intros Hok. apply js_finish; [|apply final_outcome_retry].
  apply (jo_owner _ Hok). by rewrite C1.
Qed.
Lemma respects_replay_tx job_id now : respects (on_db jobs_step) (SqlOperatorCommands.replay_tx job_id now).
Proof.
  apply respects_atomically_commits; [apply _|]. intros w. exec_all; try reflexivity.
  apply find_row_Some in F as [Hin _]. apply negb_false_iff, bool_decide_eq_true in C.
  skip_by jobs_step. exec. etrans; [|done].
  apply (job_saved _ _ r _ D A Hin). intros _. by apply js_replay.
Qed.
Lemma respects_mark_failed job_id generation :
  respects (on_db jobs_step) (TaskDispatchCoordinator.mark_failed job_id generation).
Proof. apply respects_atomically'; [apply _|]. respects_solve. Qed.
Lemma respects_mark_dispatched job_id generation :
  respects (on_db jobs_step) (TaskDispatchCoordinator.mark_dispatched job_id generation).
Proof. apply respects_atomically'; [apply _|]. respects_solve. Qed.

(** Recovering a stale dispatch moves its job by one step and leaves the others alone. *)
Lemma recover_one_step recovered_at job t w :
  job ∈ Db.durable_jobs (World.db w) → active (DurableJob.state job) = true →
  DurableJob.attempt_count job < DurableJob.max_attempts job →
  commits (TaskDispatchCoordinator.recover_one recovered_at job t)
    (λ _ w', jobs_step (World.db w) (World.db w') ∧
             Db.durable_jobs (World.db w') =
               replace_row (recovered_job recovered_at job) (Db.durable_jobs (World.db w))) w.
Proof.
  intros Hin Ha Hm. unfold TaskDispatchCoordinator.recover_one.
  do 3 exec_step. eapply (commits_respects (on_db (same DurableJob.row)));
    [unfold TaskDispatchCoordinator.close_expired; respects_solve|intros _ w1 S1]. cbv zeta.
  do 2 exec_step. eapply (commits_respects (on_db (same DurableJob.row)));
    [unfold add_task_dispatch; respects_solve|intros _ w3 S2]. exec.
  unfold on_db, same in S1, S2. simpl in S1, S2. rewrite D in S1. simpl in S1.
  split.
  - transitivity (World.db w1); [by apply table_step_same|].
    transitivity (World.db w'0); [|by apply table_step_same].
    apply (job_saved _ _ job _ D0 A0); [by rewrite S1|]. intros _. by apply js_recover.
  - rewrite S2, D0. simpl. by rewrite S1.
Qed.

(** The pairs that [stale_query] selects. *)
Definition stale_pairs (d : Db.t) (pairs : list (DurableJob.row * TaskDispatch.row)) : Prop :=
  Forall (λ p, p.1 ∈ Db.durable_jobs d ∧ active (DurableJob.state p.1) = true ∧
               DurableJob.attempt_count p.1 < DurableJob.max_attempts p.1) pairs ∧
  NoDup (map (DurableJob.id ∘ fst) pairs).

Lemma recovered_job_id at_ j : DurableJob.id (recovered_job at_ j) = DurableJob.id j.
Proof. unfold recovered_job. by destruct (is_some _). Qed.

Lemma recover_loop recovered_at pairs acc w :
  stale_pairs (World.db w) pairs →
  commits (for_fold (λ acc '(job, old_dispatch),
      let! r := TaskDispatchCoordinator.recover_one recovered_at job old_dispatch in
      ret (acc ++ [r])%list) acc pairs)
    (λ _ w', jobs_step (World.db w) (World.db w')) w.
Proof.
  revert acc w. induction pairs as [|[j t] pairs IH]; intros acc w [Hf Hn]; simpl.
  { exec. reflexivity. }
  apply Forall_cons in Hf as [(Hin & Ha & Hm) Hf]. apply NoDup_cons in Hn as [Hni Hn].
  exec_step. exec_step. call recover_one_step; [done..|]. destruct H as [H1 H2]. exec.
  eapply commits_mono; [apply IH; split; [|done]|intros ? ? ?; by etrans].
  apply Forall_forall. intros [j' t'] Hp. pose proof (proj1 (Forall_forall _ _) Hf _ Hp) as (? & ? & ?).
  split_and!; [|done..]. rewrite H2. apply elem_of_replace. left. split; [done|].
  change (DurableJob.id j' ≠ DurableJob.id (recovered_job recovered_at j)).
  rewrite recovered_job_id. intros E. apply Hni. simpl. rewrite <-E.
  apply list_elem_of_fmap. by exists (j', t').
Qed.

Lemma stale_inv before recovered_at j t :
  TaskDispatchCoordinator.stale before recovered_at j t = true →
  TaskDispatch.job_id t = DurableJob.id j ∧ TaskDispatch.generation t = DurableJob.generation j ∧
  active (DurableJob.state j) = true ∧ DurableJob.attempt_count j < DurableJob.max_attempts j.
Proof.
  unfold TaskDispatchCoordinator.stale. rewrite !andb_true_iff, !bool_decide_eq_true, Z.ltb_lt.
  intros ((((((((? & ?) & _) & _) & _) & ?) & _) & ?) & _). split_and!; [done..| |done].
  by apply bool_decide_eq_true.
Qed.
(** A job is joined to at most one dispatch, the one of its current generation. *)
Lemma stale_dispatch_unique before recovered_at j t t' l :
  tbl_wf l → t ∈ l → t' ∈ l → TaskDispatchCoordinator.stale before recovered_at j t = true →
  TaskDispatchCoordinator.stale before recovered_at j t' = true → t = t'.
Proof.
  intros Hwf Ht Ht' (E1 & E2 & _)%stale_inv (E3 & E4 & _)%stale_inv.
  apply (tbl_wf_clash l); [done..|]. simpl. unfold TaskDispatch.clash.
  rewrite (bool_decide_true (TaskDispatch.job_id t = _)) by congruence.
  rewrite (bool_decide_true (TaskDispatch.generation t = _)) by congruence. simpl.
  by rewrite orb_true_r.
Qed.

Lemma joined_NoDup before recovered_at (js : list DurableJob.row) (ts : list TaskDispatch.row) :
  NoDup (map DurableJob.id js) → tbl_wf ts →
  NoDup (map (DurableJob.id ∘ fst) (List.filter (λ '(j, t), TaskDispatchCoordinator.stale before recovered_at j t)
    (flat_map (λ j, map (pair j) ts) js))).
Proof.
  intros Hj Ht. induction js as [|j js IH]; [constructor|]. simpl in Hj |- *.
  apply NoDup_cons in Hj as [Hni Hj]. rewrite List.filter_app, map_app. apply NoDup_app. split_and!; [| |by apply IH].
  - destruct (filter_at_most_one (λ '(j, t), TaskDispatchCoordinator.stale before recovered_at j t)
      (map (pair j) ts)) as [E|[x E]]; rewrite ?E; simpl.
    + apply (NoDup_fmap_2 _). by eapply NoDup_fmap_1, tbl_wf_NoDup.
    + intros [j1 t1] [j2 t2] (? & [= -> ->] & ?)%list_elem_of_fmap (? & [= -> ->] & ?)%list_elem_of_fmap ??.
      f_equal. by eapply stale_dispatch_unique.
    + constructor.
    + repeat constructor. by intros ?%not_elem_of_nil.
  - intros u ([j1 t1] & -> & [(? & [= -> ->] & ?)%list_elem_of_fmap _]%elem_of_filter_rows)%list_elem_of_fmap Hin.
    simpl in Hin. apply list_elem_of_fmap in Hin as ([j2 t2] & Hid & [Hin _]%elem_of_filter_rows).
    apply list_elem_of_In, in_flat_map in Hin as (j3 & Hj3%list_elem_of_In & Hin).
    apply list_elem_of_In, list_elem_of_fmap in Hin as (? & [= -> ->] & ?).
    apply Hni. simpl in Hid. rewrite Hid. apply list_elem_of_fmap. eauto.
Qed.

Lemma stale_query_pairs before recovered_at limit w :
  db_wf (World.db w) →
  commits (TaskDispatchCoordinator.stale_query before recovered_at limit)
    (λ pairs w', w' = w ∧ stale_pairs (World.db w) pairs) w.
Proof.
  intros Hwf. unfold TaskDispatchCoordinator.stale_query. exec. split; [done|]. split.
  - apply Forall_forall. intros [j t] Hjt. apply elem_of_ordered in Hjt. destruct Hjt as [Hin Hs]. simpl in *.
    apply list_elem_of_In, in_flat_map in Hin as (j' & ?%list_elem_of_In & Hin).
    apply list_elem_of_In, list_elem_of_fmap in Hin as (? & [= -> ->] & ?).
    by apply stale_inv in Hs as (_ & _ & ? & ?).
  - rewrite <-List.firstn_map. eapply sublist_NoDup; [|apply sublist_take].
    rewrite order_by_perm. apply joined_NoDup; [|apply Hwf].
    apply (tbl_wf_NoDup _ (wf_jobs _ Hwf)).
Qed.

(** The transaction of [recover_stale_dispatched]. *)
Lemma recover_tx_step before recovered_at limit w :
  db_wf (World.db w) →
  commits (TaskDispatchCoordinator.recover_tx before recovered_at limit)
    (λ _ w', jobs_step (World.db w) (World.db w')) w.
Proof.
  intros Hwf. unfold TaskDispatchCoordinator.recover_tx. exec. call stale_query_pairs; [done|]. destruct H as [-> Hp].
  exact (recover_loop recovered_at _ [] w Hp).
Qed.

(** *** New jobs *)
Lemma new_job_init id key order_id kind max_attempts available now d l :
  admissible d l (SqlJobClaimStore.new_job id key order_id kind max_attempts available now) = true →
  init (SqlJobClaimStore.new_job id key order_id kind max_attempts available now).
Proof.
  intros (Hc & _ & _)%admissible_inv. simpl in *. unfold DurableJob.check in Hc. simpl in Hc.
  split_and!; try done. lia.
Qed.
Lemma respects_enqueue_tx spec available now :
  (∀ j, uuid_UUID (JobSpec.order_id spec) = Ok (DurableJob.order_id j) → N j) →
  respects (on_db jobs_step) (SqlJobClaimStore.enqueue_tx spec available now).
Proof.
  intros HN. apply respects_atomically_commits; [apply _|]. intros w. exec.
  cbv zeta. exec. skip_by jobs_step. exec. etrans; [|done]. rewrite D in *.
  apply (table_step_add N _ _ _ D0 A); [by eapply new_job_init|]. by apply HN.
Qed.
Lemma respects_enqueue_fulfillment order now :
  (∀ j, DurableJob.order_id j = Order.id order → N j) →
  respects (on_db jobs_step) (enqueue_fulfillment_once order now).
Proof.
  intros HN. unfold enqueue_fulfillment_once. respects_step; [respects_solve|]. cbv zeta.
  respects_step; [|respects_solve]. apply respects_add; [apply _|]. intros d A.
  eapply (table_step_add N); [done|done|by eapply new_job_init|]. by apply HN.
Qed.
End JobOps.
#[export] Hint Resolve respects_add_task_dispatch respects_claim respects_claim_specific
  respects_heartbeat respects_finish_tx respects_replay_tx respects_mark_failed
  respects_mark_dispatched : respects.
