(* ===== verification/OutboxLife.v ===== *)
(** * The life of an outbox message

    The steps a message takes between its insertion and its delivery; every operation of
    the outbox and of the provider's webhook is a sequence of such steps. *)
From S2P Require Import Prelude PyStr Domain Ports Db Session Exec Evolution Store Proofs Outbox.

Open Scope Z_scope.

Definition waiting (s : OutboxState) : bool := s is_in [OB_AVAILABLE; OB_RETRY; OB_LEASED].

Inductive outbox_step (r : OutboxRecord.row) : OutboxRecord.row → Prop :=
(** [SqlNotificationOutbox.claim] *)
| obs_lease worker token until now :
    waiting (OutboxRecord.state r) = true → OutboxRecord.provider_message_id r = None →
    OutboxRecord.attempt_count r < OutboxRecord.max_attempts r →
    outbox_step r (r <| OutboxRecord.state := OB_LEASED |>
                     <| OutboxRecord.attempt_count := OutboxRecord.attempt_count r + 1 |>
                     <| OutboxRecord.lease_owner := Some worker |>
                     <| OutboxRecord.lease_until := Some until |>
                     <| OutboxRecord.lease_token := Some token |>
                     <| OutboxRecord.safe_error_code := None |>
                     <| OutboxRecord.updated_at := now |>)
(** [_expire_unclaimable] *)
| obs_expire code now :
    waiting (OutboxRecord.state r) = true → OutboxRecord.provider_message_id r = None →
    outbox_step r (released r OB_DEAD_LETTER code now)
(** the end of an attempt that the provider did not accept *)
| obs_retry (exhausted : bool) code now retry_at :
    OutboxRecord.state r = OB_LEASED → OutboxRecord.provider_message_id r = None →
    (exhausted = false → OutboxRecord.attempt_count r < OutboxRecord.max_attempts r) →
    outbox_step r ((released r (if exhausted then OB_DEAD_LETTER else OB_RETRY) code now)
                     <| OutboxRecord.available_at := retry_at |>)
| obs_fail code now :
    OutboxRecord.state r = OB_LEASED → OutboxRecord.provider_message_id r = None →
    outbox_step r (released r OB_FAILED code now)
(** the provider's acceptance *)
| obs_accept message_id now :
    OutboxRecord.state r = OB_LEASED → OutboxRecord.provider_message_id r = None →
    outbox_step r ((released r OB_ACCEPTED None now)
                     <| OutboxRecord.provider_message_id := Some message_id |>
                     <| OutboxRecord.accepted_at := Some now |>)
(** the provider's webhook *)
| obs_bounce code now :
    is_some (OutboxRecord.provider_message_id r) = true → OutboxRecord.state r ≠ OB_DELIVERED →
    outbox_step r (r <| OutboxRecord.state := OB_FAILED |>
                     <| OutboxRecord.safe_error_code := code |>
                     <| OutboxRecord.updated_at := now |>)
| obs_delivered at_ now :
    is_some (OutboxRecord.provider_message_id r) = true →
    (OutboxRecord.state r is_in [OB_ACCEPTED; OB_FAILED]) = true →
    outbox_step r (r <| OutboxRecord.state := OB_DELIVERED |>
                     <| OutboxRecord.delivered_at := Some at_ |>
                     <| OutboxRecord.safe_error_code := None |>
                     <| OutboxRecord.updated_at := now |>).

#[global] Instance Outbox_life : Lifecycle OutboxRecord.row := {
  init r := OutboxRecord.state r = OB_AVAILABLE ∧ OutboxRecord.attempt_count r = 0 ∧
            0 < OutboxRecord.max_attempts r ∧ OutboxRecord.lease_owner r = None ∧
            OutboxRecord.lease_until r = None ∧ OutboxRecord.lease_token r = None ∧
            OutboxRecord.provider_message_id r = None ∧ OutboxRecord.accepted_at r = None ∧
            OutboxRecord.delivered_at r = None;
  step := outbox_step }.

(** What never changes, and what is written once. *)
Record outbox_fixed (r r' : OutboxRecord.row) : Prop := {
  xf_id : OutboxRecord.id r' = OutboxRecord.id r;
  xf_key : OutboxRecord.message_key r' = OutboxRecord.message_key r;
  xf_order : OutboxRecord.order_id r' = OutboxRecord.order_id r;
  xf_kind : OutboxRecord.kind r' = OutboxRecord.kind r;
  xf_recipient : OutboxRecord.recipient r' = OutboxRecord.recipient r;
  xf_payload : OutboxRecord.payload r' = OutboxRecord.payload r;
  xf_version : OutboxRecord.proof_version r' = OutboxRecord.proof_version r;
  xf_count : OutboxRecord.confirmation_count r' = OutboxRecord.confirmation_count r;
  xf_observation : OutboxRecord.confirmation_observation_id r' = OutboxRecord.confirmation_observation_id r;
  xf_max : OutboxRecord.max_attempts r' = OutboxRecord.max_attempts r;
  xf_expires : OutboxRecord.idempotency_expires_at r' = OutboxRecord.idempotency_expires_at r;
  xf_attempts : OutboxRecord.attempt_count r <= OutboxRecord.attempt_count r';
  xf_provider : is_some (OutboxRecord.provider_message_id r) = true →
                OutboxRecord.provider_message_id r' = OutboxRecord.provider_message_id r ∧
                OutboxRecord.accepted_at r' = OutboxRecord.accepted_at r ∧
                OutboxRecord.attempt_count r' = OutboxRecord.attempt_count r;
  xf_delivered : OutboxRecord.state r = OB_DELIVERED → r' = r;
  xf_dead : OutboxRecord.state r = OB_DEAD_LETTER → OutboxRecord.provider_message_id r = None → r' = r }.
#[global] Instance outbox_fixed_preorder : PreOrder outbox_fixed.
Proof.
  split; [intros r; by split|]. intros x y z H1 H2. destruct H1, H2. split; try congruence; try lia.
  - intros Hx. destruct (xf_provider0 Hx) as (E1 & E2 & E3). rewrite <-E1, <-E2, <-E3.
    apply xf_provider1. by rewrite E1.
  - intros Hx. specialize (xf_delivered0 Hx). subst y. auto.
  - intros Hx Hp. specialize (xf_dead0 Hx Hp). subst y. auto.
Qed.
Lemma outbox_step_fixed r r' : outbox_step r r' → outbox_fixed r r'.
Proof.
  intros Hs. destruct Hs as [? ? ? ? Hw Hn|? ? Hw Hn|? ? ? ? Hw Hn|? ? Hw Hn|? ? Hw Hn|? ? Hn Hw|? ? Hn Hw];
    unfold waiting, released in *; split; simpl; try done; try lia; intros Hx;
    rewrite ?Hx, ?Hn in *; simpl in *; try done; try congruence; intros Hp; by rewrite Hp in Hn.
Qed.
Lemma outbox_later_fixed (r r' : OutboxRecord.row) : later r r' → outbox_fixed r r'.
Proof. apply (later_ind outbox_fixed). apply outbox_step_fixed. Qed.

(** The invariant of a message: attempts stay within the limit, the lease columns are set
    exactly while it is leased, an accepted message carries its provider identifier, and
    only such a message is ever delivered. *)
Record outbox_ok (r : OutboxRecord.row) : Prop := {
  xo_attempts : 0 <= OutboxRecord.attempt_count r <= OutboxRecord.max_attempts r;
  xo_owner : is_some (OutboxRecord.lease_owner r) = true ↔ OutboxRecord.state r = OB_LEASED;
  xo_until : is_some (OutboxRecord.lease_until r) = true ↔ OutboxRecord.state r = OB_LEASED;
  xo_token : is_some (OutboxRecord.lease_token r) = true ↔ OutboxRecord.state r = OB_LEASED;
  xo_provider : is_some (OutboxRecord.provider_message_id r) = is_some (OutboxRecord.accepted_at r);
  xo_accepted : is_some (OutboxRecord.provider_message_id r) = true →
                (OutboxRecord.state r is_in [OB_ACCEPTED; OB_FAILED; OB_DELIVERED]) = true;
  xo_reached : (OutboxRecord.state r is_in [OB_ACCEPTED; OB_DELIVERED]) = true →
               is_some (OutboxRecord.provider_message_id r) = true;
  xo_delivered : is_some (OutboxRecord.delivered_at r) = true ↔ OutboxRecord.state r = OB_DELIVERED }.
Lemma reach_outbox_ok (r : OutboxRecord.row) : reach r → outbox_ok r.
Proof.
  apply reach_ind.
  - intros x (E1 & E2 & E3 & E4 & E5 & E6 & E7 & E8 & E9).
    split; rewrite ?E1, ?E2, ?E4, ?E5, ?E6, ?E7, ?E8, ?E9; simpl; try lia; done.
  - intros x x' [Ha Ho Hu Ht Hp Hac Hre Hd] Hs. unfold released, waiting in *.
    destruct Hs as [? ? ? ? Hw Hn Hl|? ? Hw Hn|[] ? ? ? Hw Hn Hl|? ? Hw Hn|? ? Hw Hn|? ? Hn Hw|? ? Hn Hw];
      split; simpl in *; try done; try lia; rewrite ?Hn, ?Hw in *; simpl in *;
      try done; try (split; intros Hx); try (destruct (OutboxRecord.state x); naive_solver).
Qed.

(** ** The operations *)

Definition outbox_steps : relation Db.t := table_step (λ _ : OutboxRecord.row, True).
#[global] Instance outbox_steps_preorder : PreOrder outbox_steps.
Proof. apply table_step_preorder. Qed.
#[global] Instance outbox_steps_only : OnlyTable outbox_steps OutboxRecord.row.
Proof. apply table_step_only. Qed.
#[export] Hint Extern 2 (respects (on_db outbox_steps) _) => respects_other OutboxRecord.row : respects.

(** A message written back one step later. *)
Lemma outbox_saved d d' (r r' : OutboxRecord.row) :
  d' = set_tbl (replace_row r' (tbl d)) d → admissible d (others (row_id r') (tbl d)) r' = true →
  r ∈ Db.outbox d → (outbox_ok r → outbox_step r r') → outbox_steps d d'.
Proof.
  intros D A Hin Hs Hg. pose proof (Hs (reach_outbox_ok _ (proj2 Hg r Hin))) as Hs'.
  apply (table_step_save _ _ _ r r' D A Hin); [|by intros _; apply rtc_once|done].
  symmetry. apply (xf_id _ _ (outbox_step_fixed _ _ Hs')).
Qed.
Lemma respects_new_message (r : OutboxRecord.row) :
  (OutboxRecord.check r = true → init r) → respects (on_db outbox_steps) (add r).
Proof.
  intros Hi. apply respects_add; [apply _|]. intros d A.
  apply (table_step_add _ d _ r eq_refl A); [|done]. apply Hi. by apply admissible_inv in A as [].
Qed.

Lemma new_record_init self id order message kind payload v c o now :
  OutboxRecord.check (SqlNotificationOutbox.new_record self id order message kind payload v c o now) = true →
  init (SqlNotificationOutbox.new_record self id order message kind payload v c o now).
Proof. unfold OutboxRecord.check. simpl. intros H. split_and!; try done. lia. Qed.
Lemma respects_enqueue self message :
  respects (on_db outbox_steps) (SqlNotificationOutbox.enqueue self message).
Proof.
  unfold SqlNotificationOutbox.enqueue, _authoritative_observation_for_enqueue, _same_message,
    latest_version, latest_observation.
  respects_tx. apply respects_new_message, new_record_init.
Qed.
Lemma respects_enqueue_outbox_once order kind now :
  respects (on_db outbox_steps) (enqueue_outbox_once order kind now).
Proof.
  unfold enqueue_outbox_once. respects_solve. by apply respects_new_message.
Qed.

(** [claim]: the sweep of the messages that cannot be sent any more, then one lease. *)
Definition expirable (d : Db.t) (rs : list OutboxRecord.row) : Prop :=
  Forall (λ r, r ∈ Db.outbox d ∧ waiting (OutboxRecord.state r) = true ∧
               OutboxRecord.provider_message_id r = None) rs ∧ NoDup (map OutboxRecord.id rs).
Lemma expire_record_step now r w :
  r ∈ Db.outbox (World.db w) → waiting (OutboxRecord.state r) = true →
  OutboxRecord.provider_message_id r = None →
  commits (SqlNotificationOutbox.expire_record now r)
    (λ _ w', outbox_steps (World.db w) (World.db w') ∧
             Db.outbox (World.db w') =
               replace_row (released r OB_DEAD_LETTER SqlNotificationOutbox.horizon_code now)
                 (Db.outbox (World.db w))) w.
Proof.
  intros Hin Hw Hp. unfold SqlNotificationOutbox.expire_record. exec_step.
  eapply (commits_respects (on_db (same OutboxRecord.row))); [respects_solve|intros _ w1 S1].
  unfold on_db, same in S1. simpl in S1. exec. split; [|by rewrite D; simpl; rewrite S1].
  transitivity (World.db w1); [by apply table_step_same|].
  apply (outbox_saved _ _ r _ D A); [by rewrite S1|]. intros _. by apply obs_expire.
Qed.
Lemma expire_loop now rs w :
  expirable (World.db w) rs →
  commits (for_each (SqlNotificationOutbox.expire_record now) rs)
    (λ _ w', outbox_steps (World.db w) (World.db w')) w.
Proof.
  revert w. induction rs as [|r rs IH]; intros w [Hf Hn]; simpl; [by exec|].
  apply Forall_cons in Hf as [(Hin & Hw & Hp) Hf]. apply NoDup_cons in Hn as [Hni Hn].
  exec_step. call expire_record_step; [done..|]. destruct H as [H1 H2].
  eapply commits_mono; [apply IH; split; [|done]|intros ? ? ?; by etrans].
  apply Forall_forall. intros r' Hr'. pose proof (proj1 (Forall_forall _ _) Hf _ Hr') as (? & ? & ?).
  split_and!; [|done..]. rewrite H2. apply elem_of_replace. left. split; [done|].
  intros E. apply Hni. simpl in E. rewrite <-E. apply list_elem_of_fmap. by exists r'.
Qed.
Lemma terminal_candidate_waiting now r :
  SqlNotificationOutbox.terminal_candidate now r = true → waiting (OutboxRecord.state r) = true.
Proof.
  unfold SqlNotificationOutbox.terminal_candidate, SqlNotificationOutbox.lease_expired, waiting.
  by destruct (OutboxRecord.state r).
Qed.
Lemma expire_unclaimable_steps now w :
  commits (SqlNotificationOutbox._expire_unclaimable now)
    (λ _ w', outbox_steps (World.db w) (World.db w')) w.
Proof.
  unfold SqlNotificationOutbox._expire_unclaimable. do 2 exec_step. subst o.
  intros a w' Hr Hg. eapply (expire_loop now _ w); [|done..]. split.
  - apply Forall_forall. intros r [Hin Hp]%(subseteq_take 100)%elem_of_filter_rows.
    rewrite !andb_true_iff, is_none_true in Hp. destruct Hp as [[_ Ht] Hp].
    split_and!; [done| |done]. by eapply terminal_candidate_waiting.
  - apply NoDup_filtered, (tbl_wf_NoDup _ (proj1 Hg)).
Qed.
Lemma take_lease_step r worker_id token until now w :
  r ∈ Db.outbox (World.db w) → waiting (OutboxRecord.state r) = true →
  OutboxRecord.attempt_count r < OutboxRecord.max_attempts r →
  commits (SqlNotificationOutbox.take_lease r worker_id token until now)
    (λ _ w', outbox_steps (World.db w) (World.db w')) w.
Proof.
  intros Hin Hw Hm. unfold SqlNotificationOutbox.take_lease. exec_all; [|reflexivity].
  apply find_row_Some in F as [Hin' HP].
  rewrite !andb_true_iff, !bool_decide_eq_true, is_none_true in HP. destruct HP as [[[Hid Hst] _] Hp].
  intros Hg. assert (r0 = r) as -> by (eapply (tbl_wf_id _ _ _ (proj1 Hg)); done).
  apply (outbox_saved _ _ r _ D A Hin); [|done]. intros _. by apply obs_lease.
Qed.
Lemma respects_claim_message worker_id now lease_for :
  respects (on_db outbox_steps) (SqlNotificationOutbox.claim worker_id now lease_for).
Proof.
  unfold SqlNotificationOutbox.claim. respects_step; [respects_solve|]. cbv zeta.
  apply respects_atomically_commits; [apply _|]. intros w. exec_step.
  call expire_unclaimable_steps. destruct a. exec_all; [done|].
  assert (r ∈ take 1 (order_by (λ r, [OutboxRecord.available_at r; OutboxRecord.created_at r; OutboxRecord.id r])
    (List.filter (SqlNotificationOutbox.claimable (_aware now)) (tbl (World.db w'))))) as Hr.
  { rewrite F. by left. }
  apply elem_of_ordered in Hr as [Hin Hc]. unfold SqlNotificationOutbox.claimable in Hc.
  rewrite !andb_true_iff, orb_true_iff, Z.ltb_lt in Hc.
  destruct Hc as [[[[[[Hs _] Hn] _] _] _] Hm]. unfold SqlNotificationOutbox.lease_record.
  do 4 exec_step. cbv zeta. exec_step. call take_lease_step.
  - rewrite D. exact Hin.
  - unfold waiting, SqlNotificationOutbox.lease_expired in *. by destruct (OutboxRecord.state r), Hs.
  - done.
  - eapply commits_trans; [apply _| |respects_tx]. etrans; [done|]. by rewrite D in *.
Qed.

(** The provider's answers, under the lease. *)
Lemma active_lease_spec message now w :
  commits (_active_lease message now)
    (λ p w', w' = w ∧ p.1 ∈ Db.outbox (World.db w) ∧ OutboxRecord.state p.1 = OB_LEASED ∧
             OutboxRecord.provider_message_id p.1 = None ∧
             p.2 ∈ Db.notification_attempts (World.db w) ∧ stale_lease p.1 message now = false ∧
             lease_attempt p.1 message p.2 = true) w.
Proof.
  unfold _active_lease. exec_all. apply find_row_Some in F as [Hin _].
  apply find_row_Some in F0 as [Hin' Ha]. split_and!; try done; unfold stale_lease in C;
    rewrite !orb_false_iff in C; destruct_and!; simpl.
  - match goal with H : (_ != OB_LEASED) = false |- _ => by apply negb_false_iff, bool_decide_eq_true in H end.
  - match goal with H : is_some _ = false |- _ => by apply negb_false_iff, is_none_true in H end.
Qed.
Lemma respects_record_retry message now retry_at code status :
  respects (on_db outbox_steps) (SqlNotificationOutbox.record_retry message now retry_at code status).
Proof.
  unfold SqlNotificationOutbox.record_retry. do 3 (respects_step; [respects_solve|]).
  apply respects_atomically_commits; [apply _|]. intros w. exec_step.
  call active_lease_spec as [r att] (-> & Hin & Hs & Hn & _). simpl in Hin, Hs, Hn.
  do 2 exec_step. by_rest. apply (outbox_saved _ _ r _ D A Hin). intros _.
  apply obs_retry; [done..|]. intros [_ ?]%orb_false_iff. lia.
Qed.
Lemma respects_record_terminal_failure message now code status :
  respects (on_db outbox_steps) (SqlNotificationOutbox.record_terminal_failure message now code status).
Proof.
  unfold SqlNotificationOutbox.record_terminal_failure. do 2 (respects_step; [respects_solve|]).
  apply respects_atomically_commits; [apply _|]. intros w. exec_step.
  call active_lease_spec as [r att] (-> & Hin & Hs & Hn & _). simpl in Hin, Hs, Hn.
  do 2 exec_step. by_rest. apply (outbox_saved _ _ r _ D A Hin). intros _. by apply obs_fail.
Qed.

(** The delivery of a message; whatever else it writes is in other tables. *)
Lemma delivery_record_inv order r x :
  delivery_record order r = Some x →
  (OutboxRecord.state r is_in [OB_ACCEPTED; OB_FAILED]) = true ∧
  is_some (OutboxRecord.provider_message_id r) = true.
Proof.
  unfold delivery_record. destruct (OutboxRecord.proof_version r), (OutboxRecord.confirmation_count r),
    (OutboxRecord.confirmation_observation_id r), (NotificationKind_of (OutboxRecord.kind r)); try done.
  destruct (_ || _) eqn:C; [done|]. intros _. rewrite !orb_false_iff in C.
  destruct C as [[[[[C1 C2] _] _] _] _]. apply negb_false_iff in C1. split; [done|].
  unfold is_some. by rewrite C2.
Qed.
Lemma delivery_evidence_inv order r w :
  commits (_delivery_evidence_matches order r) (λ b w', w' = w ∧ (b = true → ∃ x, delivery_record order r = Some x)) w.
Proof.
  unfold _delivery_evidence_matches, _notification_observation_matches, latest_version, latest_observation.
  exec_all; split; eauto; done.
Qed.
Lemma apply_delivered_step r event now w :
  r ∈ Db.outbox (World.db w) →
  commits (_apply_delivered_event r event now) (λ _ w', outbox_steps (World.db w) (World.db w')) w.
Proof.
  intros Hin. unfold _apply_delivered_event. exec_case; [by exec|].
  do 2 exec_step. exec_case; [|by exec]. exec_step. call delivery_evidence_inv as b [-> Hx].
  destruct b; cbv beta iota delta [negb]; [|by exec].
  destruct (Hx eq_refl) as [x [Hd1 Hd2]%delivery_record_inv].
  exec_case; [|by exec]. exec_case; [by exec|]. do 2 exec_step.
  eapply commits_trans; [apply _| |respects_tx].
  apply (outbox_saved _ _ r _ D A Hin). intros _. by apply obs_delivered.
Qed.
Lemma respects_record_accepted message acceptance now :
  respects (on_db outbox_steps) (SqlNotificationOutbox.record_accepted message acceptance now).
Proof.
  unfold SqlNotificationOutbox.record_accepted. respects_step; [respects_solve|].
  apply respects_atomically_commits; [apply _|]. intros w. exec_step.
  call active_lease_spec as [r att] (-> & Hin & Hs & Hn & _). simpl in Hin, Hs, Hn.
  do 2 exec_step.
  set (r' := (released r OB_ACCEPTED None now) <| OutboxRecord.provider_message_id := _ |>
               <| OutboxRecord.accepted_at := _ |>) in *.
  assert (outbox_steps (World.db w) (World.db w')) as Hw.
  { apply (outbox_saved _ _ r _ D A Hin). intros _. by apply obs_accept. }
  do 4 exec_step. assert (r' ∈ Db.outbox (World.db w'0)) as Hr'.
  { rewrite D0. simpl. rewrite D. apply elem_of_replace. right. split; [done|].
    apply find_row_Some in F as [Hf Hid%bool_decide_eq_true]. by exists old. }
  assert (outbox_steps (World.db w) (World.db w'0)) as Hw0.
  { etrans; [exact Hw|]. apply table_step_same. by rewrite D0. }
  destruct o; [by exec|]. exec_step. call apply_delivered_step; [done|]. exec. by etrans.
Qed.

(** The provider's webhook. *)
Lemma replay_step existing event hash now w :
  commits (SqlResendWebhookStore.replay existing event hash now)
    (λ _ w', outbox_steps (World.db w) (World.db w')) w.
Proof.
  unfold SqlResendWebhookStore.replay, SqlResendWebhookStore._reconcile_replayed_event.
  exec_all; try done. apply find_row_Some in F as [Hin _]. call apply_delivered_step; [done|by exec].
Qed.
Lemma apply_new_event_step o event now w :
  (∀ r, o = Some r → r ∈ Db.outbox (World.db w)) →
  commits (SqlResendWebhookStore.apply_new_event o event now)
    (λ _ w', outbox_steps (World.db w) (World.db w')) w.
Proof.
  intros Ho. unfold SqlResendWebhookStore.apply_new_event. exec_case; [|by exec].
  specialize (Ho _ eq_refl). cbv zeta. exec_case; [by exec|].
  apply orb_false_iff in B0 as [_ E%negb_false_iff%bool_decide_eq_true].
  exec_case; [|exec_case; [by exec|]].
  - exec_step. apply commits_when; intros Hs; [|by exec]. exec. apply (outbox_saved _ _ r _ D A Ho).
    intros _. apply obs_bounce; [by rewrite E|]. by apply negb_true_iff, bool_decide_eq_false in Hs.
  - exec_all. call apply_delivered_step; [done|by exec].
Qed.
Lemma respects_resend_process event hash now :
  respects (on_db outbox_steps) (SqlResendWebhookStore.process event hash now).
Proof.
  unfold SqlResendWebhookStore.process. respects_step; [respects_solve|].
  apply respects_atomically_commits; [apply _|]. intros w.
  do 2 exec_step. exec_case; [apply replay_step|]. do 2 exec_step. exec_step. exec_step.
  exec_case; [apply replay_step|]. exec_step.
  unfold SqlResendWebhookStore._insert_webhook_event. do 3 exec_step. exec_step.
  exec_case.
  - exec_step. cbv beta iota delta [negb]. do 2 exec_step. exec_case; [|by exec].
    eapply commits_mono; [apply replay_step|]. intros ? ? ?. by rewrite D in *.
  - do 3 exec_step. cbv beta iota delta [negb].
    assert (Db.outbox (World.db w'0) = Db.outbox (World.db w)) as E by (rewrite D0, D; done).
    eapply commits_mono; [apply apply_new_event_step|].
    + intros r ->. apply find_row_Some in F0 as [Hin _]. by rewrite E.
    + intros ? ? Hs. etrans; [|exact Hs]. by apply table_step_same.
Qed.
#[export] Hint Resolve respects_enqueue respects_enqueue_outbox_once respects_claim_message
  respects_record_retry respects_record_terminal_failure respects_record_accepted
  respects_resend_process : respects.
