(* ===== verification/Growth.v ===== *)
(** * What only grows

    [grows d d']: the database stays well formed and the evidence tables (proof versions,
    verifications, bundles, confirmation observations, state events and the provider's
    webhook events) are only ever appended to. *)
From S2P Require Import Prelude PyStr Domain Ports Db Session Exec Evolution.

Open Scope Z_scope.

Record grows (d d' : Db.t) : Prop := {
  gr_wf : wf_step d d';
  gr_versions : appends ProofVersion.row d d';
  gr_verifications : appends ProofVerification.row d d';
  gr_bundles : appends ProofBundle.row d d';
  gr_observations : appends Observation.row d d';
  gr_events : appends StateEvent.row d d';
  gr_webhooks : appends ResendWebhookEvent.row d d' }.
#[global] Instance grows_preorder : PreOrder grows.
Proof.
  split; [intros d; split; reflexivity|]. intros x y z [] []. split; by etrans.
Qed.

Lemma respects_grows {A} (m : M A) :
  respects (on_db wf_step) m → respects (on_db (appends ProofVersion.row)) m →
  respects (on_db (appends ProofVerification.row)) m → respects (on_db (appends ProofBundle.row)) m →
  respects (on_db (appends Observation.row)) m → respects (on_db (appends StateEvent.row)) m →
  respects (on_db (appends ResendWebhookEvent.row)) m → respects (on_db grows) m.
Proof. intros H1 H2 H3 H4 H5 H6 H7 w. split; [apply H1|apply H2|apply H3|apply H4|apply H5|apply H6|apply H7]. Qed.
Ltac grow := intros ?; apply respects_grows; eauto with respects.

(** Tables whose rows may be inserted, and tables whose rows may be changed as well. *)
Class Addable (Rel : relation Db.t) (R : Type) `{Table R} :=
  respects_addable : ∀ r : R, respects (on_db Rel) (add r).
Class Savable (Rel : relation Db.t) (R : Type) `{Table R} := {
  respects_savable : ∀ r : R, respects (on_db Rel) (save r);
  respects_deletable : ∀ P : R → bool, respects (on_db Rel) (delete_where P) }.
#[export] Hint Extern 1 (respects (on_db _) (add _)) =>
  simple notypeclasses refine (respects_addable _); apply _ : respects.
#[export] Hint Extern 1 (respects (on_db _) (save _)) =>
  simple notypeclasses refine (respects_savable _); apply _ : respects.
#[export] Hint Extern 1 (respects (on_db _) (delete_where _)) =>
  simple notypeclasses refine (respects_deletable _); apply _ : respects.

#[export] Instance grows_add_Order : Addable grows Order.row.
Proof. grow. Qed.
#[export] Instance grows_add_OrderToken : Addable grows OrderToken.row.
Proof. grow. Qed.
#[export] Instance grows_add_IdempotencyRequest : Addable grows IdempotencyRequest.row.
Proof. grow. Qed.
#[export] Instance grows_add_RateCounter : Addable grows RateCounter.row.
Proof. grow. Qed.
#[export] Instance grows_add_StripeEvent : Addable grows StripeEvent.row.
Proof. grow. Qed.
#[export] Instance grows_add_DurableJob : Addable grows DurableJob.row.
Proof. grow. Qed.
#[export] Instance grows_add_TaskDispatch : Addable grows TaskDispatch.row.
Proof. grow. Qed.
#[export] Instance grows_add_JobAttempt : Addable grows JobAttempt.row.
Proof. grow. Qed.
#[export] Instance grows_add_ProofVersion : Addable grows ProofVersion.row.
Proof. grow. Qed.
#[export] Instance grows_add_ProofVerification : Addable grows ProofVerification.row.
Proof. grow. Qed.
#[export] Instance grows_add_ProofBundle : Addable grows ProofBundle.row.
Proof. grow. Qed.
#[export] Instance grows_add_Observation : Addable grows Observation.row.
Proof. grow. Qed.
#[export] Instance grows_add_StateEvent : Addable grows StateEvent.row.
Proof. grow. Qed.
#[export] Instance grows_add_OutboxRecord : Addable grows OutboxRecord.row.
Proof. grow. Qed.
#[export] Instance grows_add_NotificationAttempt : Addable grows NotificationAttempt.row.
Proof. grow. Qed.
#[export] Instance grows_add_ResendWebhookEvent : Addable grows ResendWebhookEvent.row.
Proof. grow. Qed.
#[export] Instance grows_save_Order : Savable grows Order.row.
Proof. split; grow. Qed.
#[export] Instance grows_save_OrderToken : Savable grows OrderToken.row.
Proof. split; grow. Qed.
#[export] Instance grows_save_IdempotencyRequest : Savable grows IdempotencyRequest.row.
Proof. split; grow. Qed.
#[export] Instance grows_save_RateCounter : Savable grows RateCounter.row.
Proof. split; grow. Qed.
#[export] Instance grows_save_StripeEvent : Savable grows StripeEvent.row.
Proof. split; grow. Qed.
#[export] Instance grows_save_DurableJob : Savable grows DurableJob.row.
Proof. split; grow. Qed.
#[export] Instance grows_save_TaskDispatch : Savable grows TaskDispatch.row.
Proof. split; grow. Qed.
#[export] Instance grows_save_JobAttempt : Savable grows JobAttempt.row.
Proof. split; grow. Qed.
#[export] Instance grows_save_OutboxRecord : Savable grows OutboxRecord.row.
Proof. split; grow. Qed.
#[export] Instance grows_save_NotificationAttempt : Savable grows NotificationAttempt.row.
Proof. split; grow. Qed.

Lemma grows_elem {T} `{Table T} d d' (r : T) : appends T d d' → r ∈ tbl d → r ∈ tbl d'.
Proof. intros [l E] Hr. rewrite E. apply elem_of_app. by left. Qed.
