(* ===== verification/OrderOps.v ===== *)
(** * What the transactions do to the orders

    Every operation that writes an order takes it along [order_step]; all the others leave
    the table of orders alone.  The worker's transitions need an order whose fulfillment
    has started, which is the one hypothesis here; the system discharges it. *)
From S2P Require Import Prelude PyStr Domain Ports Db Session Exec Evolution OrderLife Tasks Jobs Store Settings Payments Proofs Outbox OutboxLife.

Open Scope Z_scope.
Import PaymentState FulfillmentState.

Definition order_steps : relation Db.t := table_step (λ _ : Order.row, True).
#[global] Instance order_steps_preorder : PreOrder order_steps.
Proof. apply table_step_preorder. Qed.
#[global] Instance order_steps_only : OnlyTable order_steps Order.row.
Proof. apply table_step_only. Qed.
#[export] Hint Extern 2 (respects (on_db order_steps) _) => respects_other Order.row : respects.

(** An order written back one step later. *)
Lemma order_saved d d' (o o' : Order.row) :
  d' = set_tbl (replace_row o' (tbl d)) d → admissible d (others (row_id o') (tbl d)) o' = true →
  o ∈ Db.orders d → (reach o → order_step o o') → order_steps d d'.
Proof.
  intros D A Hin Hs Hg. specialize (Hs (proj2 Hg o Hin)).
  apply (table_step_save _ _ _ o o' D A Hin); [|by intros _; apply rtc_once|done].
  symmetry. apply (os_id _ _ Hs).
Qed.
(** A write that leaves the two states, the snapshot and the references as they are. *)
Lemma order_step_touch o o' :
  Order.id o' = Order.id o → Order.created_at o' = Order.created_at o → immutable_changed o o' = false →
  states o' = states o → set_once (Order.checkout_session_id o) (Order.checkout_session_id o') →
  set_once (Order.payment_intent_id o) (Order.payment_intent_id o') →
  set_once (Order.calendar_submitted_at o) (Order.calendar_submitted_at o') → order_step o o'.
Proof. intros ? ? ? E ? ? ?. split; try done. rewrite E. destruct (states o). apply ss_same. Qed.

Ltac untouched := match goal with |- immutable_changed ?o _ = false => exact (immutable_changed_refl o) end.
Ltac touch := apply order_step_touch; simpl; try done; try untouched.

(** ** Checkout *)

Lemma respects_new_order settings order_id reference request now :
  respects (on_db order_steps) (add (CheckoutService.new_order settings order_id reference request now)).
Proof. apply respects_add; [apply _|]. intros d A. by apply (table_step_add _ d _ _ eq_refl A). Qed.
#[export] Hint Resolve respects_new_order : respects.
Lemma respects_issue_token store order now revoke_existing :
  respects (on_db order_steps) (OrderStore.issue_token store order now revoke_existing).
Proof. unfold OrderStore.issue_token, OrderStore.revoke. respects_tx. Qed.
#[export] Hint Resolve respects_issue_token : respects.

Lemma respects_finalize settings store plan binding result now :
  respects (on_db order_steps) (CheckoutService._finalize settings store plan binding result now).
Proof.
  apply respects_atomically_commits; [apply _|]. intros w. do 2 exec_step. exec_case; [|by exec].
  do 8 exec_step. exec_case; [|by exec]. do 4 exec_step. cbv zeta. do 2 exec_step. by_rest.
  apply find_row_Some in F0 as [Hin _]. apply (order_saved _ _ r0 _ D A Hin).
  intros _. touch. apply negb_false_iff in C3. unfold set_once. destruct (Order.checkout_session_id r0); [|by left].
  right. apply bool_decide_eq_true in C3. apply elem_of_cons in C3 as [?|C3]; [done|].
  by apply list_elem_of_singleton in C3.
Qed.

(** ** Webhooks *)

Lemma transition_payment_step order target o' b :
  OrderStore.transition_payment order target = (o', b) →
  o' = order ∧ b = false ∨
  o' = order <| Order.payment_state := target |> ∧ b = true ∧ payment_step (Order.payment_state order) target.
Proof.
  unfold OrderStore.transition_payment. destruct (OrderState.transition_payment _ _) as [s|] eqn:E; [|naive_solver].
  apply transition_payment_Ok in E as [-> [->|Hs]]; simpl in *.
  - rewrite bool_decide_true by done. naive_solver.
  - case_bool_decide; [naive_solver|]. intros [= <- <-]. right. eauto.
Qed.
Lemma truthy_Some s x : OrderStore.truthy s = Some x → s = Some x.
Proof. unfold OrderStore.truthy. destruct s; [|done]. by destruct (_ =? _)%string. Qed.
(** The reference of the payment, written once. *)
Definition with_intent (intent : option string) (o : Order.row) : Order.row :=
  match OrderStore.truthy intent, Order.payment_intent_id o with
  | Some i, None => o <| Order.payment_intent_id := Some i |>
  | _, _ => o
  end.
Lemma with_intent_step intent o o' : order_step o o' → order_step o (with_intent intent o').
Proof.
  intros Hs. unfold with_intent. destruct (OrderStore.truthy _), (Order.payment_intent_id o') eqn:E; try done.
  destruct Hs as [H1 H2 H3 H4 H5 H6 H7]. split; try done. simpl. rewrite E in H5.
  destruct H5 as [H5|H5]; by left.
Qed.
Lemma applied_order_eq order event canonical now :
  WebhookService.applied_order order event canonical now =
    let '(o1, changed) := WebhookService._apply_event order event canonical in
    (with_intent (CanonicalCheckout.payment_intent_id canonical)
       (if changed && (Order.payment_state o1 == PAID)
        then o1 <| Order.updated_at := now |> <| Order.fulfillment_state := QUEUED |>
        else o1 <| Order.updated_at := now |>), changed).
Proof.
  unfold WebhookService.applied_order, with_intent. destruct (WebhookService._apply_event _ _ _) as [o1 b].
  simpl. destruct (OrderStore.truthy _), (Order.payment_intent_id o1) eqn:E; simpl;
    destruct (b && _); simpl; by rewrite ?E.
Qed.
(** An event leaves the order alone, or moves its payment state. *)
Lemma apply_event_step order event canonical o' b :
  WebhookService._apply_event order event canonical = (o', b) →
  o' = order ∧ b = false ∨
  ∃ target, o' = order <| Order.payment_state := target |> ∧ b = true ∧
    payment_step (Order.payment_state order) target.
Proof.
  unfold WebhookService._apply_event. destruct (WebhookService.event_target _ _); [|naive_solver].
  intros E%transition_payment_step. naive_solver.
Qed.
(** An order whose payment was not received is still waiting for it. *)
Lemma unpaid_awaiting o p : states_ok (states o) → Order.payment_state o = p → was_paid p = false →
  Order.fulfillment_state o = AWAITING_PAYMENT.
Proof.
  intros [H _] <- Hp. simpl in H. destruct (decide (Order.fulfillment_state o = AWAITING_PAYMENT)); [done|].
  rewrite H in Hp; done.
Qed.
Lemma applied_order_step order event canonical now o' b :
  reach order → WebhookService.applied_order order event canonical now = (o', b) → order_step order o'.
Proof.
  intros Hr%reach_states. rewrite applied_order_eq.
  destruct (WebhookService._apply_event _ _ _) as [o1 b1] eqn:E. intros [= <- <-].
  apply apply_event_step in E as [[-> ->]|(target & -> & -> & Hs)]; simpl.
  { apply with_intent_step. touch. }
  destruct (decide (target = PAID)) as [->|Hn].
  - rewrite bool_decide_true by done. apply with_intent_step.
    assert (Order.fulfillment_state order = AWAITING_PAYMENT) as Hf.
    { apply payment_step_paid in Hs as [Hp|Hp]; by apply (unpaid_awaiting _ _ Hr Hp). }
    split; simpl; try done; try untouched. unfold states. simpl. rewrite Hf. by apply ss_paid.
  - rewrite bool_decide_false by done. apply with_intent_step.
    split; simpl; try done; try untouched. by apply ss_payment.
Qed.
(** A payment that is applied queues the order. *)
Lemma applied_paid order event canonical now o' :
  WebhookService.applied_order order event canonical now = (o', true) →
  Order.payment_state o' = PAID → Order.fulfillment_state o' = QUEUED.
Proof.
  rewrite applied_order_eq. destruct (WebhookService._apply_event _ _ _) as [o1 c]. intros [= <- ->]. simpl.
  unfold with_intent. case_bool_decide as E.
  - intros _. by destruct (OrderStore.truthy _), (Order.payment_intent_id _).
  - intros Hp. exfalso. apply E. rewrite <-Hp. by destruct (OrderStore.truthy _), (Order.payment_intent_id _).
Qed.
Lemma find_order_spec order_id intent w :
  commits (OrderStore.find_order_for_event order_id intent)
    (λ o w', w' = w ∧ ∀ r, o = Some r → r ∈ Db.orders (World.db w)) w.
Proof.
  unfold OrderStore.find_order_for_event. exec_all; split; try done; intros r0 ->;
    by apply find_row_Some in F as [].
Qed.
Lemma respects_process_tx settings event hash canonical now :
  respects (on_db order_steps) (WebhookService.process_tx settings event hash canonical now).
Proof.
  unfold WebhookService.process_tx, WebhookService.reject, WebhookService.enqueue_paid, enqueue_outbox_once,
    enqueue_fulfillment_once, add_task_dispatch, record_stripe_event, OrderStore.record_state_event, OrderStore.event_sequence.
  apply respects_atomically_commits; [apply _|]. intros w. do 2 exec_step. exec_case; [by exec|].
  exec_step. skip_by order_steps. exec_step. call find_order_spec as found [-> Hf].
  exec_case; [|by by_rest]. exec_case; [|by by_rest]. do 2 (exec_case; [by by_rest|]). exec_case.
  do 2 exec_step. by_rest. etrans; [eassumption|]. apply (order_saved _ _ _ _ D A (Hf _ eq_refl)).
  intros Hr. by eapply applied_order_step.
Qed.

(** ** Fulfillment *)

Lemma merge_calendar_inv o supplied o' :
  _merge_calendar_time o supplied = Ok o' →
  o' = o ∨ Order.calendar_submitted_at o = None ∧
           ∃ c, o' = o <| Order.calendar_submitted_at := Some c |>.
Proof.
  unfold _merge_calendar_time. destruct supplied; [|intros [= ->]; by left].
  destruct (Order.calendar_submitted_at o) eqn:E; [destruct (_ != _); [done|]|];
    intros [= <-]; [by left|right]. eauto.
Qed.
Lemma merge_calendar_step o supplied o' : _merge_calendar_time o supplied = Ok o' → order_step o o'.
Proof. intros [->|(E & c & ->)]%merge_calendar_inv; touch. by left. Qed.

Lemma respects_insert_verification Rel `{!PreOrder Rel} order_id version v :
  (∀ r : ProofVerification.row, respects (on_db Rel) (add r)) →
  respects (on_db Rel) (_insert_verification order_id version v).
Proof. intros Ha. unfold _insert_verification. respects_tx. Qed.
Lemma respects_append proof : respects (on_db order_steps) (SqlProofStore.append proof).
Proof.
  unfold SqlProofStore.append. respects_step; [respects_solve|].
  unfold latest_version, _insert_verification.
  apply respects_atomically_commits; [apply _|]. intros w. do 2 exec_step. exec_case; [|by exec].
  do 6 exec_step. by_rest. apply find_row_Some in F as [Hin _].
  apply (order_saved _ _ _ _ D A Hin). intros _. by eapply merge_calendar_step.
Qed.

(** The order that an identifier names, with its fulfillment under way. *)
Definition order_started (d : Db.t) (order_id : string) : Prop :=
  ∃ o, o ∈ Db.orders d ∧ _uuid order_id = Ok (Order.id o) ∧ started o.

Lemma order_state_states o s :
  _order_state o = Ok s →
  OrderState.payment s = Order.payment_state o ∧ OrderState.fulfillment s = Order.fulfillment_state o.
Proof.
  unfold _order_state. destruct (OrderReference _); [simpl|done]. destruct (CertificateReference _); [simpl|done].
  destruct (ManifestDigest.from_bytes _); [simpl|done]. destruct (OrderSnapshot.post_init _); [simpl|done].
  by intros [= <-].
Qed.
Lemma advanced_inv o target calendar o' :
  SqlFulfillmentRepository.advanced o target calendar = Ok o' →
  ∃ o1, _merge_calendar_time o calendar = Ok o1 ∧ o' = o1 <| Order.fulfillment_state := target |> ∧
    (target = Order.fulfillment_state o ∨ fulfillment_step (Order.fulfillment_state o) target) ∧
    (target = CALENDAR_PENDING → is_some (Order.calendar_submitted_at o') = true).
Proof.
  unfold SqlFulfillmentRepository.advanced. destruct (_order_state o) as [s|] eqn:Es; [simpl|done].
  apply order_state_states in Es as [_ Ef].
  destruct (OrderState.transition_fulfillment _ _) as [s'|] eqn:Et; [simpl|done].
  apply transition_fulfillment_Ok in Et as [-> Ht]. rewrite Ef in Ht.
  destruct (_merge_calendar_time _ _) as [o1|]; [simpl|done]. destruct (_ && _) eqn:C; [done|].
  intros [= <-]. exists o1. split_and!; [done|done|naive_solver|].
  intros ->. rewrite bool_decide_true in C by done. simpl in *. unfold is_some. by rewrite C.
Qed.
Lemma advanced_step o target calendar o' :
  started o → SqlFulfillmentRepository.advanced o target calendar = Ok o' → order_step o o'.
Proof.
  intros Hs (o1 & Hm & -> & Ht & _)%advanced_inv.
  assert (order_step o o1) as [H1 H2 H3 H4 H5 H6 _] by (by eapply merge_calendar_step).
  assert (states o1 = states o) as E by (by apply merge_calendar_inv in Hm as [->|(_ & ? & ->)]).
  split; try done. unfold states in *. simpl in *. injection E as -> _.
  destruct Ht as [->|Ht]; [apply ss_same|by apply ss_fulfillment].
Qed.

Lemma started_unique d u o : tbl_wf (Db.orders d) → order_started d u → o ∈ Db.orders d →
  _uuid u = Ok (Order.id o) → started o.
Proof.
  intros Hwf (o1 & Hin1 & E1 & Hs) Hin E. rewrite E1 in E. injection E as E.
  by rewrite <-(tbl_wf_id _ o1 o Hwf Hin1 Hin E).
Qed.
Lemma transition_step order_id target key calendar w :
  order_started (World.db w) order_id →
  moves order_steps (SqlFulfillmentRepository.transition_fulfillment_once order_id target key calendar) w.
Proof.
  intros Hs. unfold SqlFulfillmentRepository.transition_fulfillment_once. do 3 moves_step.
  do 3 exec_step. exec_step. exec_case; [|by exec]. apply find_row_Some in F as [Hin Hid%bool_decide_eq_true].
  do 2 exec_step. exec_case.
  - do 6 exec_step. by_rest. apply (order_saved _ _ _ _ D A Hin). intros _. by eapply merge_calendar_step.
  - do 4 exec_step. cbv zeta. do 2 exec_step. by_rest. rewrite D in *. intros Hg. revert Hg.
    intros Hg. assert (started r) as Hr.
    { apply (started_unique _ _ _ (proj1 Hg) Hs Hin). by rewrite Hid. }
    revert Hg. apply (order_saved _ _ r _ D0 A Hin). intros _.
    assert (order_step r a1) as [? ? ? ? ? ? ?] by (by eapply advanced_step). by split.
Qed.

(** The provider's delivery events. *)
Lemma apply_delivered_order r event now w :
  commits (_apply_delivered_event r event now) (λ _ w', order_steps (World.db w) (World.db w')) w.
Proof.
  unfold _apply_delivered_event. exec_case; [by exec|]. do 2 exec_step. exec_case; [|by exec].
  apply find_row_Some in F as [Hin _]. exec_step. call delivery_evidence_inv as b [-> _].
  exec_case; [by exec|]. exec_case; [|by exec]. exec_case; [by exec|]. do 2 exec_step.
  exec_case; [exec; apply table_step_same; by rewrite D|]. cbv zeta. do 2 exec_step. by_rest.
  apply negb_false_iff, bool_decide_eq_true in B3. apply orb_false_iff in B5 as [_ Hd%bool_decide_eq_false].
  assert (Order.fulfillment_state r0 = BITCOIN_VERIFIED) as Hf by (by repeat (apply elem_of_cons in B3 as [?|B3]; [done|]); inversion B3).
  transitivity (World.db w'); [apply table_step_same; by rewrite D|].
  apply (order_saved _ _ r0 _ D0 A0); [by rewrite D|]. intros _. split; simpl; try done; try untouched.
  unfold states. simpl. rewrite Hf. apply ss_fulfillment; [|done]. unfold fulfillment_step. simpl. left.
Qed.
(** Everything else that the notification code writes is in other tables. *)
Ltac by_dbs := repeat match goal with D : World.db ?w = _ |- _ => rewrite D in *; clear D end.
Ltac notified :=
  exec_all;
  try (call apply_delivered_order; exec_all);
  try match goal with H : order_steps _ (World.db ?w) |- order_steps _ (World.db ?w) => etrans; [|exact H] end;
  apply table_step_same; by_dbs; done.
Lemma respects_record_accepted_order message acceptance now :
  respects (on_db order_steps) (SqlNotificationOutbox.record_accepted message acceptance now).
Proof.
  unfold SqlNotificationOutbox.record_accepted. respects_step; [respects_solve|].
  apply respects_atomically_commits; [apply _|]. intros w. exec_step.
  call active_lease_spec as [r att] [-> _]. notified.
Qed.
Lemma respects_resend_process_order event hash now :
  respects (on_db order_steps) (SqlResendWebhookStore.process event hash now).
Proof.
  unfold SqlResendWebhookStore.process. respects_step; [respects_solve|].
  apply respects_atomically_commits; [apply _|]. intros w.
  unfold SqlResendWebhookStore.replay, SqlResendWebhookStore._reconcile_replayed_event,
    SqlResendWebhookStore._insert_webhook_event, SqlResendWebhookStore.apply_new_event.
  notified.
Qed.
#[export] Hint Resolve respects_finalize respects_process_tx respects_append respects_record_accepted_order
  respects_resend_process_order : respects.
