(* ===== verification/Evidence.v ===== *)
(** * The evidence behind an order

    An order is shown as verified, or as delivered, only when the evidence for it is stored;
    the proofs of an order form a chain from version one, all of them for the digest the
    customer paid for.  [settles] is the relation every transaction respects; the systems
    theorems turn it into invariants. *)
From S2P Require Import Prelude PyStr Sha256 Domain Ports Db Session Exec Evolution Growth Tasks Jobs Store Settings Payments Proofs Outbox OutboxLife OrderLife OrderOps.

Open Scope Z_scope.
Import PaymentState FulfillmentState.

(** A stored proof version of the order, with the verification of the same version. *)
Record proved (d : Db.t) (o : Order.row) (p : ProofVersion.row) (v : ProofVerification.row) : Prop := {
  pv_proof : p ∈ Db.proof_versions d;
  pv_order : ProofVersion.order_id p = Order.id o;
  pv_target : ProofVersion.target_digest p = Order.manifest_digest o;
  pv_verification : v ∈ Db.proof_verifications d;
  pv_order' : ProofVerification.order_id v = Order.id o;
  pv_version : ProofVerification.proof_version v = ProofVersion.version p }.
Definition verified (d : Db.t) (o : Order.row) : Prop := ∃ p v, proved d o p v.

(** A stored proof version of the order, for its digest. *)
Definition stamped (d : Db.t) (o : Order.row) : Prop := ∃ p, p ∈ Db.proof_versions d ∧
  ProofVersion.order_id p = Order.id o ∧ ProofVersion.target_digest p = Order.manifest_digest o.

(** Besides, the bundle of that version and an observation of the same Bitcoin block. *)
Definition deliverable (d : Db.t) (o : Order.row) : Prop :=
  ∃ p v b ob, proved d o p v ∧
    b ∈ Db.proof_bundles d ∧ ProofBundle.order_id b = Order.id o ∧
    ProofBundle.proof_version b = ProofVersion.version p ∧
    sha256 (ProofBundle.bundle_bytes b) = ProofBundle.bundle_sha256 b ∧
    ob ∈ Db.observations d ∧ Observation.order_id ob = Order.id o ∧
    Observation.proof_version ob = ProofVersion.version p ∧
    1 <= Observation.observed_confirmations ob ∧ _observation_matches_verification ob v = true.
Definition supported (d : Db.t) (o : Order.row) : Prop :=
  match Order.fulfillment_state o with
  | CALENDAR_PENDING => stamped d o
  | BITCOIN_VERIFIED => verified d o
  | DELIVERED => deliverable d o
  | _ => True
  end.

(** A proof version: its hash and length, its predecessor and the order it is for. *)
Record chained (d : Db.t) (p : ProofVersion.row) : Prop := {
  ch_hash : sha256 (ProofVersion.proof_bytes p) = ProofVersion.proof_sha256 p;
  ch_length : ProofVersion.proof_byte_length p = blen (ProofVersion.proof_bytes p);
  ch_bounds : 1 <= ProofVersion.proof_byte_length p <= MAX_PROOF_BYTES;
  ch_previous : ProofVersion.version p = 1 ∨ ∃ q, q ∈ Db.proof_versions d ∧
    ProofVersion.order_id q = ProofVersion.order_id p ∧
    ProofVersion.version q + 1 = ProofVersion.version p ∧
    ProofVersion.target_digest q = ProofVersion.target_digest p;
  ch_target : ∃ o, o ∈ Db.orders d ∧ Order.id o = ProofVersion.order_id p ∧
    Order.manifest_digest o = ProofVersion.target_digest p }.

Definition same_order (o o' : Order.row) : Prop :=
  Order.id o' = Order.id o ∧ Order.manifest_digest o' = Order.manifest_digest o.

Record settled (d d' : Db.t) : Prop := {
  st_kept : ∀ o, o ∈ Db.orders d → ∃ o', o' ∈ Db.orders d' ∧ same_order o o';
  st_supported : ∀ o', o' ∈ Db.orders d' → supported d' o' ∨
    ∃ o, o ∈ Db.orders d ∧ same_order o o' ∧ Order.fulfillment_state o' = Order.fulfillment_state o;
  st_chained : ∀ p, p ∈ Db.proof_versions d' → chained d' p ∨ p ∈ Db.proof_versions d }.
Definition settles (d d' : Db.t) : Prop := grows d d' ∧ (db_wf d → settled d d').

(** ** Evidence is kept *)

Section Kept.
Context (d d' : Db.t) (o o' : Order.row) (G : grows d d') (S : same_order o o').
Lemma proved_grows p v : proved d o p v → proved d' o' p v.
Proof.
  destruct G as [_ Hp Hv _ _ _ _], S as [Hi Hm]. intros []. split; rewrite ?Hi, ?Hm; try done;
    [by apply (grows_elem _ _ _ Hp)|by apply (grows_elem _ _ _ Hv)].
Qed.
Lemma deliverable_grows : deliverable d o → deliverable d' o'.
Proof.
  destruct G as [_ _ _ Hb Ho _ _], S as [Hi _].
  intros (p & v & b & ob & ? & ? & ? & ? & ? & ? & ? & ? & ? & ?). exists p, v, b, ob. rewrite Hi.
  split_and!; auto using proved_grows; [by apply (grows_elem _ _ _ Hb)|by apply (grows_elem _ _ _ Ho)].
Qed.
Lemma stamped_grows : stamped d o → stamped d' o'.
Proof.
  destruct G as [_ Hp _ _ _ _ _], S as [Hi Hm]. intros (p & ? & ? & ?). exists p. rewrite Hi, Hm.
  split_and!; [by apply (grows_elem _ _ _ Hp)|done..].
Qed.
Lemma supported_grows :
  Order.fulfillment_state o' = Order.fulfillment_state o → supported d o → supported d' o'.
Proof.
  intros Hf. unfold supported. rewrite Hf.
  destruct (Order.fulfillment_state o); try done; [apply stamped_grows| |apply deliverable_grows].
  intros (p & v & ?). exists p, v. by apply proved_grows.
Qed.
End Kept.
Lemma chained_grows d d' p :
  grows d d' → (∀ o, o ∈ Db.orders d → ∃ o', o' ∈ Db.orders d' ∧ same_order o o') →
  chained d p → chained d' p.
Proof.
  intros [_ Hp _ _ _ _ _] Hk [H1 H2 H3 H4 (o & Ho & Hi & Hm)]. split; try done.
  - destruct H4 as [?|(q & Hq & ?)]; [by left|right]. exists q. split; [by apply (grows_elem _ _ _ Hp)|done].
  - destruct (Hk o Ho) as (o' & ? & E1 & E2). exists o'. split_and!; [done|congruence..].
Qed.
Lemma same_order_refl o : same_order o o.
Proof. done. Qed.
Lemma same_order_trans o1 o2 o3 : same_order o1 o2 → same_order o2 o3 → same_order o1 o3.
Proof. unfold same_order. intros [] []. split; congruence. Qed.
#[global] Instance settles_preorder : PreOrder settles.
Proof.
  split.
  - intros d. split; [reflexivity|]. intros _. split; eauto 6 using same_order_refl.
  - intros x y z [Gxy Sxy] [Gyz Syz]. split; [by etrans|]. intros Hx.
    destruct (Sxy Hx) as [K1 S1 C1], (Syz (gr_wf _ _ Gxy Hx)) as [K2 S2 C2]. split.
    + intros o (o' & H1 & ?)%K1. destruct (K2 _ H1) as (o'' & ? & ?). eauto using same_order_trans.
    + intros o'' [?|(o' & H1 & ? & E)]%S2; [by left|].
      destruct (S1 _ H1) as [?|(o & ? & ? & ?)]; [left; by eapply supported_grows|].
      right. exists o. split_and!; [done|by eapply same_order_trans|congruence].
    + intros p [?|[?|?]%C1]%C2; [by left|left; by eapply chained_grows|by right].
Qed.

(** ** Writes to other tables *)

Lemma settles_same d d' :
  grows d d' → tbl (R:=Order.row) d' = tbl d → tbl (R:=ProofVersion.row) d' = tbl d → settles d d'.
Proof.
  simpl. intros G Eo Ep. split; [done|]. intros _. split; rewrite ?Eo, ?Ep; eauto 6 using same_order_refl.
Qed.
Section Other.
Context {R : Type} `{Table R} `{!Keeps Order.row R} `{!Keeps ProofVersion.row R}.
Lemma respects_settles_op {A} (m : M A) :
  respects (on_db grows) m → respects (on_db (same Order.row)) m →
  respects (on_db (same ProofVersion.row)) m → respects (on_db settles) m.
Proof. intros G So Sp w. apply settles_same; [apply G|apply So|apply Sp]. Qed.
#[export] Instance settles_add `{!Addable grows R} : Addable settles R.
Proof.
  intros r. apply respects_settles_op; [apply respects_addable|respects_other Order.row|
    respects_other ProofVersion.row].
Qed.
#[export] Instance settles_save `{!Savable grows R} : Savable settles R.
Proof.
  split; intros r; apply respects_settles_op; try (apply respects_savable || apply respects_deletable);
    first [respects_other Order.row|respects_other ProofVersion.row].
Qed.
End Other.

(** ** Writes to the orders and to the proofs *)

Lemma grows_order_add d (r : Order.row) :
  admissible d (tbl d) r = true → grows d (set_tbl (tbl d ++ [r])%list d).
Proof.
  intros A. split; try (by apply only_table). intros Hwf. apply db_wf_set; [done|].
  eapply tbl_wf_app; [by apply db_wf_tbl|done].
Qed.
Lemma grows_order_save d (r : Order.row) :
  admissible d (others (row_id r) (tbl d)) r = true → grows d (set_tbl (replace_row r (tbl d)) d).
Proof.
  intros A. split; try (by apply only_table). intros Hwf. apply db_wf_set; [done|].
  eapply tbl_wf_replace; [by apply db_wf_tbl|done].
Qed.
Lemma grows_version_add d (r : ProofVersion.row) :
  admissible d (tbl d) r = true → grows d (set_tbl (tbl d ++ [r])%list d).
Proof.
  intros A. split; try (by apply only_table).
  - intros Hwf. apply db_wf_set; [done|]. eapply tbl_wf_app; [by apply db_wf_tbl|done].
  - by apply prefix_app_r.
Qed.

Lemma settles_new_order settings id reference request now :
  respects (on_db settles) (add (CheckoutService.new_order settings id reference request now)).
Proof.
  apply respects_add; [apply _|]. intros d A. set (r := CheckoutService.new_order _ _ _ _ _) in *.
  split; [by apply grows_order_add|]. intros _. split; simpl; [| |by right].
  - intros o Ho. exists o. split; [|done]. apply elem_of_app. by left.
  - intros o [?|Ho]%elem_of_app; [right; by exists o|left].
    by apply list_elem_of_singleton in Ho as ->.
Qed.

(** An order written back with the same state, or with the evidence for its new one. *)
Lemma settles_save_order d d' (o r : Order.row) :
  d' = set_tbl (replace_row r (tbl d)) d → admissible d (others (row_id r) (tbl d)) r = true →
  o ∈ Db.orders d → same_order o r →
  (db_wf d → supported d r ∨ Order.fulfillment_state r = Order.fulfillment_state o) → settles d d'.
Proof.
  intros -> A Ho Hs Hsup. split; [by apply grows_order_save|]. intros Hwf. specialize (Hsup Hwf).
  split; simpl; [| |by right].
  - intros o1 Ho1. destruct (decide (Order.id o1 = Order.id r)) as [E|E].
    + exists r. split; [apply elem_of_replace; right; split; [done|]; by exists o1|].
      assert (o1 = o) as ->; [|done]. apply (tbl_wf_id (tbl d)); [by apply db_wf_tbl|done..|].
      simpl. by rewrite E, (proj1 Hs).
    + exists o1. split; [|done]. apply elem_of_replace. by left.
  - intros o' [[? _]|[-> _]]%elem_of_replace; [right; by exists o'|].
    destruct Hsup as [Hr|E]; [left|right].
    { eapply supported_grows, Hr; [by apply grows_order_save|done|done]. } exists o. split; [done|]. by split.
Qed.
Lemma settles_add_version d d' (p : ProofVersion.row) :
  d' = set_tbl (tbl d ++ [p])%list d → admissible d (tbl d) p = true → chained d p → settles d d'.
Proof.
  intros -> A Hc. assert (grows d (set_tbl (tbl d ++ [p])%list d)) as G by (by apply grows_version_add).
  split; [done|]. intros Hwf. split; simpl.
  - eauto using same_order_refl.
  - eauto 6 using same_order_refl.
  - intros q [?|Hq]%elem_of_app; [by right|left]. apply list_elem_of_singleton in Hq as ->.
    apply (chained_grows d); [done|by eauto using same_order_refl|done].
Qed.

(** ** The transactions that write orders or proofs *)

#[export] Hint Resolve settles_new_order : respects.

Lemma settles_finalize settings store plan binding result now :
  respects (on_db settles) (CheckoutService._finalize settings store plan binding result now).
Proof.
  unfold CheckoutService._finalize, OrderStore.issue_token, OrderStore.revoke.
  apply respects_atomically_commits; [apply _|]. intros w. do 2 exec_step. exec_case; [|by exec].
  do 8 exec_step. exec_case; [|by exec]. do 4 exec_step. cbv zeta. do 2 exec_step.
  eapply commits_trans; [apply _| |respects_tx].
  apply find_row_Some in F0 as [Hin _]. apply (settles_save_order _ _ r0 _ D A Hin); [done|intros _; by right].
Qed.

Lemma with_intent_fields intent o :
  same_order o (with_intent intent o) ∧
  Order.fulfillment_state (with_intent intent o) = Order.fulfillment_state o.
Proof. unfold with_intent. by destruct (OrderStore.truthy _), (Order.payment_intent_id o). Qed.
Lemma applied_order_fields order event canonical now o' b :
  WebhookService.applied_order order event canonical now = (o', b) →
  same_order order o' ∧
  (Order.fulfillment_state o' = QUEUED ∨ Order.fulfillment_state o' = Order.fulfillment_state order).
Proof.
  rewrite applied_order_eq. destruct (WebhookService._apply_event _ _ _) as [o1 c] eqn:E. intros [= <- <-].
  assert (same_order order o1 ∧ Order.fulfillment_state o1 = Order.fulfillment_state order) as [H1 H2].
  { by apply apply_event_step in E as [[-> _]|(target & -> & _)]. }
  match goal with |- context [with_intent ?i ?o] => destruct (with_intent_fields i o) as [H3 H4]; rewrite H4 end.
  split; [eapply same_order_trans, same_order_trans; [exact H1| |exact H3]|]; destruct (c && _); auto; done.
Qed.
Lemma settles_process_tx settings event hash canonical now :
  respects (on_db settles) (WebhookService.process_tx settings event hash canonical now).
Proof.
  unfold WebhookService.process_tx, WebhookService.reject, WebhookService.enqueue_paid, enqueue_outbox_once,
    enqueue_fulfillment_once, add_task_dispatch, record_stripe_event, OrderStore.record_state_event, OrderStore.event_sequence.
  apply respects_atomically_commits; [apply _|]. intros w. do 2 exec_step. exec_case; [by exec|].
  exec_step. eapply (commits_respects (on_db settles)); [respects_tx|intros recorded w1 Hw1].
  exec_step. call find_order_spec as found [-> Hf].
  exec_case; [|eapply commits_trans; [apply _|exact Hw1|respects_tx]].
  exec_case; [|eapply commits_trans; [apply _|exact Hw1|respects_tx]].
  do 2 (exec_case; [eapply commits_trans; [apply _|exact Hw1|respects_tx]|]). exec_case.
  do 2 exec_step. eapply commits_trans; [apply _| |respects_tx]. etrans; [exact Hw1|].
  apply applied_order_fields in B4 as [H1 H2].
  apply (settles_save_order _ _ _ _ D A (Hf _ eq_refl)); [done|]. intros _.
  destruct H2 as [H2|H2]; [left|by right]. unfold supported. by rewrite H2.
Qed.

Lemma best_version_elem order_id (l : list ProofVersion.row) p :
  best (λ a b, ProofVersion.version b <? ProofVersion.version a)
    (List.filter (λ p, ProofVersion.order_id p == order_id) l) = Some p →
  p ∈ l ∧ ProofVersion.order_id p = order_id.
Proof. by intros [? ?%bool_decide_eq_true]%best_elem%elem_of_filter_rows. Qed.
Lemma append_check_inv order latest proof :
  SqlProofStore.append_check order latest proof = Ok false →
  match latest with
  | None => StoredProof.version proof = 1
  | Some l => StoredProof.version proof = ProofVersion.version l + 1 ∧
              ProofVersion.target_digest l = ManifestDigest.value (StoredProof.target_digest proof)
  end.
Proof.
  unfold SqlProofStore.append_check. destruct latest as [l|].
  - case_bool_decide as E; [destruct (_stored_proof _ _ _ _ _); simpl; [|done]; by destruct (_ == _)|].
    intros (? & H1%raise_when_Ok & (? & H2%raise_when_Ok & _)%result_bind_Ok)%result_bind_Ok.
    apply negb_false_iff, bool_decide_eq_true in H1, H2. done.
  - by intros (? & H1%raise_when_Ok%negb_false_iff%bool_decide_eq_true & _)%result_bind_Ok.
Qed.
Lemma settles_append proof :
  StoredProof.ok proof → respects (on_db settles) (SqlProofStore.append proof).
Proof.
  intros Hok%StoredProof.ok_facts. unfold SqlProofStore.append, latest_version, _insert_verification.
  respects_step; [respects_tx|].
  apply respects_atomically_commits; [apply _|]. intros w. do 2 exec_step. exec_case; [|by exec].
  apply find_row_Some in F as [Hin _]. do 6 exec_step.
  apply negb_false_iff, bool_decide_eq_true in C.
  assert (same_order r a0 ∧ Order.fulfillment_state a0 = Order.fulfillment_state r) as [Hs Hf].
  { by apply merge_calendar_inv in E as [->|(_ & ? & ->)]. }
  assert (settles (World.db w) (World.db w')) as Hw.
  { apply (settles_save_order _ _ _ _ D A Hin); [done|intros _; by right]. }
  do 2 exec_step. exec_step. exec_step. exec_case; [by exec|]. do 8 exec_step.
  eapply commits_trans; [apply _| |respects_tx]. etrans; [exact Hw|].
  rewrite D0, D1 in *. apply (settles_add_version _ _ _ D2 A0).
  destruct Hok as (Hv & Hb & Hh & _). apply append_check_inv in E0. split; simpl; try done.
  - destruct o0 as [l|]; [right|by left]. apply best_version_elem in F0 as [Hl Hlo]. destruct E0 as [E2 E3].
    exists l. split_and!; done.
  - exists a0. split_and!; [|done|by rewrite (proj2 Hs)]. rewrite D. apply elem_of_replace. right.
    split; [done|]. exists r. split; [done|]. symmetry. apply Hs.
Qed.

(** The orders that may enter a state: it is not past the one they are in, or the evidence
    for it is there. *)
Definition may_enter (d : Db.t) (order_id : string) (target : FulfillmentState.t) : Prop :=
  ∃ o, o ∈ Db.orders d ∧ _uuid order_id = Ok (Order.id o) ∧
    ((fulfillment_rank target <= fulfillment_rank (Order.fulfillment_state o))%nat ∨
     supported d (o <| Order.fulfillment_state := target |>)).
Lemma settles_transition order_id target key calendar w :
  may_enter (World.db w) order_id target →
  moves settles (SqlFulfillmentRepository.transition_fulfillment_once order_id target key calendar) w.
Proof.
  intros (o & Ho & Hu & Hm). unfold SqlFulfillmentRepository.transition_fulfillment_once. do 3 moves_step.
  do 3 exec_step. exec_step. exec_case; [|by exec]. apply find_row_Some in F as [Hin Hid%bool_decide_eq_true].
  do 2 exec_step. exec_case.
  - do 6 exec_step. eapply commits_trans; [apply _| |respects_tx].
    apply merge_calendar_inv in E1.
    apply (settles_save_order _ _ r _ D A Hin); [|intros _; right]; by destruct E1 as [->|(_ & ? & ->)].
  - do 4 exec_step. cbv zeta. do 2 exec_step. eapply commits_trans; [apply _| |respects_tx].
    rewrite D in *. apply advanced_inv in E1 as (oc & Hc%merge_calendar_inv & -> & Ht & _).
    assert (same_order r oc) as Hs by (by destruct Hc as [->|(_ & ? & ->)]).
    apply (settles_save_order _ _ r _ D0 A Hin); [done|]. intros Hwf.
    assert (o = r) as ->.
    { apply (tbl_wf_id (tbl (World.db w))); [by apply db_wf_tbl|done..|]. simpl. rewrite Hu in E0. congruence. }
    simpl. destruct Hm as [Hm|Hm]; [right|left].
    + destruct Ht as [?|Ht%fulfillment_step_rank]; [done|lia].
    + eapply supported_grows, Hm; done.
Qed.

(** The provider's delivery event: the evidence it checks is the one above. *)
Lemma observation_current order_id version (l : list Observation.row) o :
  best observation_newer
    (List.filter (λ o, (Observation.order_id o == order_id) && (Observation.proof_version o == version)) l) = Some o →
  o ∈ l ∧ Observation.order_id o = order_id ∧ Observation.proof_version o = version.
Proof.
  intros [? [?%bool_decide_eq_true ?%bool_decide_eq_true]%andb_prop]%best_elem%elem_of_filter_rows. done.
Qed.
Lemma threshold_positive kind : 1 <= _MINIMUM_CONFIRMATIONS kind.
Proof. by destruct kind. Qed.
Lemma delivery_record_threshold order r threshold version count observation :
  delivery_record order r = Some (threshold, version, count, observation) → 1 <= threshold.
Proof.
  unfold delivery_record. destruct (OutboxRecord.proof_version r), (OutboxRecord.confirmation_count r),
    (OutboxRecord.confirmation_observation_id r), (NotificationKind_of (OutboxRecord.kind r)) as [k|]; try done.
  destruct (_ || _); [done|]. intros [= <- _ _ _]. apply threshold_positive.
Qed.
Lemma delivery_evidence_deliverable order r w :
  commits (_delivery_evidence_matches order r)
    (λ b w', w' = w ∧ (b = true → deliverable (World.db w) order)) w.
Proof.
  unfold _delivery_evidence_matches, _notification_observation_matches, latest_version, latest_observation.
  exec_case; [|by exec]. destruct p as [[[threshold version] count] observation].
  apply delivery_record_threshold in B. do 2 exec_step. exec_case; [|by exec]. exec_case; [by exec|].
  do 2 exec_step. exec_step. exec_step. exec_case; [|by exec]. exec_case; [|by exec]. exec. split; [done|].
  rewrite !andb_true_iff. intros (((Hobs & _) & _) & Hsha).
  destruct o2 as [bound|]; [|done]. destruct o3 as [current|]; [|done].
  rewrite !andb_true_iff in Hobs. destruct Hobs as (((_ & Hc) & _) & Hm).
  apply negb_false_iff in B1. unfold delivery_proof in B1. rewrite !andb_true_iff, !bool_decide_eq_true in B1.
  destruct B1 as (((Ev & Et) & _) & _). apply best_version_elem in F as [Hp Hpo].
  apply find_row_Some in F0 as [Hv Hvv], F1 as [Hb Hbb].
  unfold this_verification, this_bundle in *. rewrite andb_true_iff, !bool_decide_eq_true in Hvv, Hbb.
  apply observation_current in F3 as (Ho & Hoo & Hov).
  exists r0, r1, r2, current. split_and!; try done; try apply Hbb; [split; try done; apply Hvv| |congruence|lia].
  by apply bool_decide_eq_true in Hsha.
Qed.

Lemma settles_outbox_save d (r : OutboxRecord.row) :
  admissible d (others (row_id r) (tbl d)) r = true → settles d (set_tbl (replace_row r (tbl d)) d).
Proof.
  intros A. apply settles_same; [|done..]. split; try (by apply only_table). intros Hwf.
  apply db_wf_set; [done|]. eapply tbl_wf_replace; [by apply db_wf_tbl|done].
Qed.
Lemma apply_delivered_settles r event now w :
  commits (_apply_delivered_event r event now) (λ _ w', settles (World.db w) (World.db w')) w.
Proof.
  unfold _apply_delivered_event. exec_case; [by exec|]. do 2 exec_step. exec_case; [|by exec].
  apply find_row_Some in F as [Hin _]. exec_step. call delivery_evidence_deliverable as b [-> Hd].
  destruct b; cbv beta iota delta [negb]; [|by exec]. specialize (Hd eq_refl).
  exec_case; [|by exec]. exec_case; [by exec|]. do 2 exec_step.
  assert (settles (World.db w) (World.db w')) as Hw by (rewrite D; by apply settles_outbox_save).
  exec_case; [by exec|]. cbv zeta. do 2 exec_step. eapply commits_trans; [apply _| |respects_tx].
  etrans; [exact Hw|]. apply (settles_save_order _ _ r0 _ D0 A0); [by rewrite D|done|].
  intros _. left. destruct Hw as [G _]. by eapply deliverable_grows, Hd.
Qed.
Lemma settles_record_accepted message acceptance now :
  respects (on_db settles) (SqlNotificationOutbox.record_accepted message acceptance now).
Proof.
  unfold SqlNotificationOutbox.record_accepted. respects_step; [respects_tx|].
  apply respects_atomically_commits; [apply _|]. intros w. exec_step.
  call active_lease_spec as [r att] [-> _]. cbv zeta. exec_step.
  eapply (commits_respects (on_db settles)); [respects_tx|intros ? w1 H1].
  exec_step. eapply (commits_respects (on_db settles)); [respects_tx|intros ? w2 H2].
  exec_all; [by etrans|]. call apply_delivered_settles. exec. etrans; [exact H1|]. by etrans.
Qed.
Lemma settles_replay existing event hash now w :
  commits (SqlResendWebhookStore.replay existing event hash now)
    (λ _ w', settles (World.db w) (World.db w')) w.
Proof.
  unfold SqlResendWebhookStore.replay, SqlResendWebhookStore._reconcile_replayed_event.
  exec_all; try done. call apply_delivered_settles. by exec.
Qed.
Lemma settles_apply_new_event o event now w :
  commits (SqlResendWebhookStore.apply_new_event o event now)
    (λ _ w', settles (World.db w) (World.db w')) w.
Proof.
  unfold SqlResendWebhookStore.apply_new_event. exec_case; [|by exec]. cbv zeta. exec_case; [by exec|].
  exec_case; [by eapply commits_trans; [apply _|reflexivity|respects_tx]|]. exec_case; [by exec|].
  exec_all. call apply_delivered_settles. by exec.
Qed.
Lemma settles_resend_process event hash now :
  respects (on_db settles) (SqlResendWebhookStore.process event hash now).
Proof.
  unfold SqlResendWebhookStore.process. respects_step; [respects_tx|].
  apply respects_atomically_commits; [apply _|]. intros w.
  do 2 exec_step. exec_case; [apply settles_replay|]. do 2 exec_step. exec_step. exec_step.
  exec_case; [apply settles_replay|]. exec_step.
  eapply (commits_respects (on_db settles));
    [unfold SqlResendWebhookStore._insert_webhook_event; respects_tx|intros inserted w1 H1].
  exec_case; [do 2 exec_step; exec_case; [|by exec]; eapply commits_mono; [apply settles_replay|]|
    eapply commits_mono; [apply settles_apply_new_event|]]; intros ? ? H2; by etrans.
Qed.
#[export] Hint Resolve settles_finalize settles_process_tx settles_append settles_record_accepted
  settles_resend_process : respects.
