(* ===== verification/Api.v ===== *)
(** * The HTTP routes

    The routes of [app/api/routes.py] that read or write the database, behind the parsing
    of the requests (pydantic) and the rendering of the responses (FastAPI): a route returns
    the fields of its response, or raises the [HTTPException] that becomes the response.  The
    constraints of the fields ([app/api/schemas.py]) are definitions; how pydantic converts the
    values of a request is not part of the repository, nor is the library that normalises an
    email address ([normalize]). *)
From S2P Require Import Prelude PyStr Json Sha256 Domain Tokens Ports Db Session Tasks Store Settings Payments Reference Proofs Handlers Receipt.

Open Scope string_scope.
Open Scope Z_scope.
Import PaymentState FulfillmentState.

(** ** Helpers *)

Definition _unauthorized : exn := HTTPException 401 "not authorized".

Fixpoint count_char (c : ascii) (s : string) : Z :=
  match s with
  | EmptyString => 0
  | String d s' => (if (d =? c)%char then 1 else 0) + count_char c s'
  end.
Definition _bearer_token (value : option string) : result string :=
  match value with
  | Some v => if startswith "Bearer " v && (count_char (chr 32) v == 1)
              then Ok (removeprefix "Bearer " v) else Raise _unauthorized
  | None => Raise _unauthorized
  end.

Definition _valid_bundle (record : ProofBundle.row) : bool :=
  (1 <=? ProofBundle.bundle_byte_length record) &&
  (ProofBundle.bundle_byte_length record <=? 12 * 1024 * 1024) &&
  (ProofBundle.bundle_byte_length record == blen (ProofBundle.bundle_bytes record)) &&
  (sha256 (ProofBundle.bundle_bytes record) == ProofBundle.bundle_sha256 record).

(** The checks of [_valid_delivery_sender] on the message itself. *)
Definition delivered_sender (record : OutboxRecord.row) (order_id : uuid) (proof_version : Z) : bool :=
  (OutboxRecord.kind record == "bitcoin-confirmed-initial") &&
  (OutboxRecord.state record == OB_DELIVERED) &&
  (OutboxRecord.order_id record == order_id) &&
  (OutboxRecord.proof_version record == Some proof_version) &&
  match OutboxRecord.confirmation_count record with None => false | Some c => 1 <=? c end &&
  is_some (OutboxRecord.provider_message_id record) &&
  is_some (OutboxRecord.accepted_at record) &&
  is_some (OutboxRecord.delivered_at record).
Definition _valid_delivery_sender (record : option OutboxRecord.row) (order_id : uuid) (proof_version : Z)
    : M bool :=
  match record with
  | None => ret false
  | Some record =>
      match OutboxRecord.confirmation_observation_id record with
      | None => ret false
      | Some observation_id =>
          if negb (delivered_sender record order_id proof_version) then ret false
          else
            let! observation := get (R:=Observation.row) observation_id in
            let! delivered_event := scalar (λ e,
              (Some (ResendWebhookEvent.provider_message_id e) == OutboxRecord.provider_message_id record) &&
              (ResendWebhookEvent.event_type e == "email.delivered")) in
            ret (match observation with
                 | None => false
                 | Some o =>
                     (Observation.order_id o == order_id) &&
                     (Observation.proof_version o == proof_version) &&
                     (Some (Observation.observed_confirmations o) == OutboxRecord.confirmation_count record)
                 end && is_some delivered_event)
      end
  end.

Definition _pending_selection_is_current (order : Order.row) (selected : ProofMetadata.t) (order_id : uuid)
    (order_reference certificate_reference : string) (manifest_digest : bytes) : bool :=
  (Order.id order == order_id) &&
  (Order.order_reference order == order_reference) &&
  (Order.certificate_reference order == certificate_reference) &&
  (Order.manifest_digest order == manifest_digest) &&
  (Order.fulfillment_state order == CALENDAR_PENDING) &&
  (ProofMetadata.target_digest selected == manifest_digest) &&
  (ProofMetadata.proof_state selected == PROOF_CALENDAR_PENDING).

Definition _message_code (s : FulfillmentState.t) : string :=
  match s with
  | AWAITING_PAYMENT => "payment_pending"
  | QUEUED => "timestamp_queued"
  | STAMPING => "timestamp_stamping"
  | CALENDAR_PENDING => "bitcoin_confirmation_pending"
  | BITCOIN_VERIFIED => "bitcoin_verified"
  | DELIVERED => "proof_delivered"
  | MANUAL_REVIEW => "manual_review"
  end.

(** [except ValueError as error: raise HTTPException(...)] *)
Definition value_error_to (status : Z) (detail : string) {A} (m : M A) : M A :=
  try_except m (λ e, if is_ValueError e then Some (raise (HTTPException status detail)) else None).

(** ** Routes *)

(** [_receipt]: the receipt of a proof that is handed out before its Bitcoin confirmation. *)
Definition _receipt (order_reference certificate : string) (digest : bytes) (proof : StoredProof.t)
    (service_version : string) : result (list (string * json)) :=
  let unavailable := HTTPException 409 "proof unavailable" in
  check! raise_when (ManifestDigest.value (StoredProof.target_digest proof) != digest) unavailable in
  let receipt := [
    ("schema_version", JStr "1.0.0");
    ("order_reference", JStr order_reference);
    ("certificate_reference", JStr certificate);
    ("manifest_sha256", JStr (bytes_hex digest));
    ("proof_sha256", JStr (bytes_hex (StoredProof.proof_sha256 proof)));
    ("proof_bytes", JInt (StoredProof.proof_byte_length proof));
    ("proof_state", JStr (ProofState_value (StoredProof.proof_state proof)));
    ("calendar_submitted_at", JStr (isoformat (dt_us (StoredProof.calendar_submitted_at proof))));
    ("service_version", JStr service_version)] in
  if StoredProof.proof_state proof == PROOF_BITCOIN_VERIFIED then
    match StoredProof.verification proof with
    | None => Raise unavailable
    | Some v =>
        match BitcoinVerification.block_height v, BitcoinVerification.block_hash v,
              BitcoinVerification.block_time v, BitcoinVerification.confirmation_policy v,
              BitcoinVerification.verified_at v with
        | Some height, Some hash, Some block_time, Some policy, Some verified_at =>
            Ok (receipt ++ [
              ("bitcoin", JObj (sort_fields [
                 ("block_height", JInt height); ("block_hash", JStr hash);
                 ("block_time", JStr (isoformat (dt_us block_time))); ("confirmation_policy", JStr policy)]));
              ("verification_method", JStr (BitcoinVerification.method v));
              ("verified_at", JStr (isoformat (dt_us verified_at)))])%list
        | _, _, _, _, _ => Raise unavailable
        end
    end
  else Ok receipt.

Module OrderStatusResponse.
Record t := mk {
  order_reference : string; certificate_reference : string; manifest_sha256 : string;
  payment_state : PaymentState.t; fulfillment_state : FulfillmentState.t;
  created_at : Z; updated_at : Z; calendar_submitted_at : option datetime;
  bitcoin_verified_at : option datetime; proof_available : bool; message_code : string }.
End OrderStatusResponse.
Module BundleResponse.
Record t := mk { body : bytes; order_reference : string }.
End BundleResponse.
Module CheckoutRequest.
Record t := mk {
  certificate_reference : string; manifest_sha256 : string; email : string;
  terms_version : string; privacy_version : string; accepted_at : Z }.

Definition length_within (lo hi : Z) (s : string) : bool := (lo <=? strlen s) && (strlen s <=? hi).
Definition LowerSha256 (s : string) : bool := fullmatch_class is_lower_hex 64 64 s.
Definition certificate_accepted (s : string) : bool :=
  length_within 1 128 s && fullmatch_head is_alnum_ascii certificate_char 127 s.
Definition version_char (c : ascii) : bool :=
  is_alnum_ascii c || (c =? ".")%char || (c =? "_")%char || (c =? "-")%char.
Definition version_accepted (s : string) : bool :=
  length_within 1 32 s && negb (s =? "")%string && str_all version_char s.
(** The body of a checkout with its consent, field by field; [None] is the answer 422. *)
Definition validate (normalize : string → option string) (certificate_reference manifest_sha256 email : string)
    (managed_timestamp : bool) (terms_version privacy_version : string) (accepted_at : datetime) : option t :=
  if certificate_accepted certificate_reference && LowerSha256 manifest_sha256 && length_within 3 254 email &&
     managed_timestamp && version_accepted terms_version && version_accepted privacy_version &&
     negb (is_naive accepted_at)
  then
    match normalize email with
    | Some email => Some (mk certificate_reference manifest_sha256 email terms_version privacy_version (dt_us accepted_at))
    | None => None
    end
  else None.
End CheckoutRequest.
Module CheckoutPriceResponse.
Record t := mk { amount_minor : Z; currency : string }.
(** The constraints of the fields; a violation is an error of the server. *)
Definition validate (r : t) : result t :=
  if (1 <=? amount_minor r) && (amount_minor r <=? 100000000) && (currency r =? "usd")%string then Ok r
  else Raise (ValueError "validation errors for CheckoutPriceResponse").
End CheckoutPriceResponse.

Section Routes.
Context (settings : Settings.t) (store : OrderStore.t).
(** [services.proof_store is not None] and [services.proof_bundler] *)
Context (proof_store : bool) (proof_bundler : option ProofBundler).

(** *** [GET /v1/checkout/price]; [checkout] is [services.checkout.get_checkout_price] *)

Definition checkout_price (checkout : option (M ProviderPrice.t)) : M CheckoutPriceResponse.t :=
  match checkout with
  | None => raise (HTTPException 503 "checkout unavailable")
  | Some get_checkout_price =>
      let! price := try_except get_checkout_price
        (λ e, match e with
              | CheckoutUnavailable _ | PaymentProviderError _ => Some (raise (HTTPException 503 "checkout unavailable"))
              | _ => None
              end) in
      lift (CheckoutPriceResponse.validate
              (CheckoutPriceResponse.mk (ProviderPrice.amount_minor price) (ProviderPrice.currency price)))
  end.

(** *** [GET /health/live] and [GET /health/ready]: the status code and the text

    [select_1] is the query [SELECT 1], when there is a store. *)
Definition health_live : string := "ok".
Definition health_ready (select_1 : option (M unit)) : M (Z * string) :=
  match select_1 with
  | None => ret (503, "unavailable")
  | Some select_1 => try_except (do! select_1 in ret (200, "ok")) 
                       (λ e, if is_Exception e then Some (ret (503, "unavailable")) else None)
  end.

(** *** [POST /v1/checkout] *)

Definition checkout_input (payload : CheckoutRequest.t) (digest : ManifestDigest.t) : CheckoutInput.t := {|
  CheckoutInput.certificate_reference := CheckoutRequest.certificate_reference payload;
  CheckoutInput.manifest_digest := ManifestDigest.value digest;
  CheckoutInput.email := CheckoutRequest.email payload;
  CheckoutInput.terms_version := CheckoutRequest.terms_version payload;
  CheckoutInput.privacy_version := CheckoutRequest.privacy_version payload;
  CheckoutInput.accepted_at := CheckoutRequest.accepted_at payload |}.

(** [checkout] is [services.checkout.create], and [model_dump] the JSON of the payload. *)
Definition create_checkout
    (checkout : option (CheckoutInput.t → IdempotencyBinding.t → Z → bytes → M CheckoutOutput.t))
    (payload : CheckoutRequest.t) (model_dump : json) (idempotency_key : option string) : M CheckoutOutput.t :=
  match checkout, idempotency_key with
  | None, _ => raise (HTTPException 503 "checkout unavailable")
  | Some _, None => raise (HTTPException 400 "invalid request")
  | Some create, Some key =>
      try_except
        (let! binding := lift (bind_idempotency_request key "POST" "/v1/checkout" model_dump) in
         let! digest := lift (ManifestDigest.from_hex (CheckoutRequest.manifest_sha256 payload)) in
         let! now := now_utc in
         let! random_bytes := token_bytes 10 in
         create (checkout_input payload digest) binding now random_bytes)
        (λ e,
          if is_ValueError e then Some (raise (HTTPException 400 "invalid request"))
          else match e with
               | IdempotencyConflict _ => Some (raise (HTTPException 409 "idempotency conflict"))
               | CheckoutInProgress _ => Some (raise (HTTPException 425 "checkout processing"))
               | CheckoutUnavailable _ | PaymentProviderError _ =>
                   Some (raise (HTTPException 503 "checkout unavailable"))
               | _ => None
               end)
  end.

(** *** [POST /v1/webhooks/stripe]; the result is the [duplicate] field of the response *)

Definition stripe_webhook (webhook : option (bytes → string → Z → M WebhookResult.t))
    (task_dispatch : option TaskCreator) (raw_body : bytes) (stripe_signature : option string) : M bool :=
  let invalid := HTTPException 400 "invalid webhook" in
  match webhook, stripe_signature with
  | Some process, Some signature =>
      let! result :=
        try_except
          (let! now := now_utc in process raw_body signature now)
          (λ e, if is_ValueError e then Some (raise invalid)
                else match e with PaymentProviderError _ => Some (raise invalid) | _ => None end) in
      do! raise_if (negb (WebhookResult.accepted result)) invalid in
      do! match task_dispatch with
          | Some creator =>
              try_except (do! TaskDispatchCoordinator.reconcile creator 100 None in ret tt)
                (λ e, match e with
                      | TaskDispatchUnavailable _ =>
                          Some (raise (HTTPException 503 "webhook temporarily unavailable"))
                      | _ => None
                      end)
          | None => ret tt
          end in
      ret (WebhookResult.duplicate result)
  | _, _ => raise invalid
  end.

(** *** [GET /v1/orders/status] *)

(** What the status of an order with a proof shows of it. *)
Definition status_proof (order : Order.row) : M (option datetime * option datetime * bool) :=
  let unavailable := HTTPException 503 "status unavailable" in
  do! raise_if (negb proof_store) unavailable in
  let! proof := value_error_to 503 "status unavailable" (SqlProofStore.latest_for_order order) in
  match proof with
  | None => raise unavailable
  | Some proof =>
      let submitted := StoredProof.calendar_submitted_at proof in
      if Order.fulfillment_state order == CALENDAR_PENDING then
        do! raise_if ((StoredProof.proof_state proof != PROOF_CALENDAR_PENDING) || is_none proof_bundler)
          unavailable in
        ret (Some submitted, None, true)
      else
        match StoredProof.proof_state proof, StoredProof.verification proof with
        | PROOF_BITCOIN_VERIFIED, Some verification =>
            let! bundle := scalar (this_bundle (Order.id order) (StoredProof.version proof)) in
            let proof_available := match bundle with Some b => _valid_bundle b | None => false end in
            do! when (Order.fulfillment_state order == DELIVERED) (
              let! sender := scalar (λ m,
                (OutboxRecord.order_id m == Order.id order) &&
                (OutboxRecord.message_key m ==
                   ("bitcoin-confirmed-initial-v" ++ str_int (StoredProof.version proof) ++ "-" ++
                    Order.order_reference order))) in
              let! sent := _valid_delivery_sender sender (Order.id order) (StoredProof.version proof) in
              raise_if (negb proof_available || negb sent) unavailable) in
            ret (Some submitted, BitcoinVerification.verified_at verification, proof_available)
        | _, _ => raise unavailable
        end
  end.

Definition order_status (authorization : option string) : M OrderStatusResponse.t :=
  let! raw_token := lift (_bearer_token authorization) in
  let! now := now_utc in
  let! authenticated := OrderStore.authenticate store raw_token now in
  match authenticated with
  | None => raise _unauthorized
  | Some authenticated =>
      let order := AuthenticatedOrder.order authenticated in
      let! (submitted, verified_at, proof_available) :=
        if Order.fulfillment_state order is_in [CALENDAR_PENDING; BITCOIN_VERIFIED; DELIVERED]
        then status_proof order else ret (None, None, false) in
      ret {|
        OrderStatusResponse.order_reference := Order.order_reference order;
        OrderStatusResponse.certificate_reference := Order.certificate_reference order;
        OrderStatusResponse.manifest_sha256 := bytes_hex (Order.manifest_digest order);
        OrderStatusResponse.payment_state := Order.payment_state order;
        OrderStatusResponse.fulfillment_state := Order.fulfillment_state order;
        OrderStatusResponse.created_at := Order.created_at order;
        OrderStatusResponse.updated_at := Order.updated_at order;
        OrderStatusResponse.calendar_submitted_at := submitted;
        OrderStatusResponse.bitcoin_verified_at := verified_at;
        OrderStatusResponse.proof_available := proof_available;
        OrderStatusResponse.message_code := _message_code (Order.fulfillment_state order) |}
  end.

(** *** [POST /v1/orders/rotate-token] *)

Definition rotate_tx (raw_token : string) (now : Z) : M string :=
  atomically (
    let! authenticated := OrderStore.authenticate store raw_token now in
    match authenticated with
    | None => raise _unauthorized
    | Some a => OrderStore.issue_token store (AuthenticatedOrder.order a) now true
    end).
Definition rotate_token (authorization : option string) : M string :=
  let! raw_token := lift (_bearer_token authorization) in
  let! now := now_utc in
  rotate_tx raw_token now.

(** *** [GET /v1/orders/proof] *)

(** The authenticated order, read again under its lock. *)
Definition locked_order (raw_token : string) : M (option Order.row) :=
  let! now := now_utc in
  let! authenticated := OrderStore.authenticate store raw_token now in
  match authenticated with
  | None => raise _unauthorized
  | Some a => scalar (λ o, Order.id o == Order.id (AuthenticatedOrder.order a))
  end.

(** What the first transaction selects: a bundle, or the proof to build one for. *)
Inductive Selection :=
| Persisted (bundle : bytes) (order_reference : string)
| Pending (order : Order.row) (stored : StoredProof.t) (selected : ProofMetadata.t).

Definition select_tx (raw_token : string) : M Selection :=
  let unavailable := HTTPException 409 "proof unavailable" in
  let pending := HTTPException 425 "proof pending" in
  atomically (
    let! order := locked_order raw_token in
    match order with
    | None => raise _unauthorized
    | Some order =>
        do! raise_if (Order.fulfillment_state order == MANUAL_REVIEW) unavailable in
        do! raise_if (negb (Order.fulfillment_state order is_in
                             [CALENDAR_PENDING; BITCOIN_VERIFIED; DELIVERED])) pending in
        let! stored := value_error_to 409 "proof unavailable" (SqlProofStore.latest_for_order order) in
        match stored with
        | None => raise pending
        | Some stored =>
            if Order.fulfillment_state order is_in [BITCOIN_VERIFIED; DELIVERED] then
              do! raise_if ((StoredProof.proof_state stored != PROOF_BITCOIN_VERIFIED) ||
                            is_none (StoredProof.verification stored)) unavailable in
              let! record := scalar (this_bundle (Order.id order) (StoredProof.version stored)) in
              match record with
              | None => raise unavailable
              | Some record =>
                  do! raise_if (negb (_valid_bundle record)) unavailable in
                  let! now := now_utc in
                  do! OrderStore.record_download_event (Order.id order) (StoredProof.version stored)
                        (ProofBundle.bundle_sha256 record) "persisted_verified" now in
                  ret (Persisted (ProofBundle.bundle_bytes record) (Order.order_reference order))
              end
            else
              do! raise_if (StoredProof.proof_state stored != PROOF_CALENDAR_PENDING) unavailable in
              let! selected := SqlProofStore.latest_metadata (Order.id order) in
              match selected with
              | None => raise pending
              | Some selected => ret (Pending order stored selected)
              end
        end
    end).

(** The second transaction: the proof is still the one that was bundled. *)
Definition download_tx (raw_token : string) (order : Order.row) (stored : StoredProof.t)
    (selected : ProofMetadata.t) (bundle : bytes) : M unit :=
  let unavailable := HTTPException 409 "proof unavailable" in
  atomically (
    let! current_order := locked_order raw_token in
    match current_order with
    | None => raise unavailable
    | Some current_order =>
        do! raise_if (negb (_pending_selection_is_current current_order selected (Order.id order)
                              (Order.order_reference order) (Order.certificate_reference order)
                              (Order.manifest_digest order))) unavailable in
        let! current := value_error_to 409 "proof unavailable"
                          (SqlProofStore.latest_metadata (Order.id current_order)) in
        do! raise_if match current with None => true | Some c => c != selected end unavailable in
        let! now := now_utc in
        OrderStore.record_download_event (Order.id current_order) (StoredProof.version stored)
          (sha256 bundle) "generated_pending" now
    end).

Definition proof_bundle (authorization : option string) : M BundleResponse.t :=
  let! raw_token := lift (_bearer_token authorization) in
  do! raise_if (negb proof_store) (HTTPException 503 "proof unavailable") in
  let! selection := select_tx raw_token in
  match selection with
  | Persisted bundle order_reference => ret (BundleResponse.mk bundle order_reference)
  | Pending order stored selected =>
      match proof_bundler with
      | None => raise (HTTPException 409 "proof unavailable")
      | Some bundler =>
          let! receipt := lift (_receipt (Order.order_reference order) (Order.certificate_reference order)
            (Order.manifest_digest order) stored (Settings.product_version settings)) in
          let! certificate := lift (CertificateReference (Order.certificate_reference order)) in
          let! context := lift (ProofBundleContext.post_init
                                  (ProofBundleContext.mk certificate (Settings.product_version settings))) in
          let! bundle := build bundler stored
                           (encode (dumps_compact true (JObj (sort_fields receipt)))) context in
          do! download_tx raw_token order stored selected bundle in
          ret (BundleResponse.mk bundle (Order.order_reference order))
      end
  end.
End Routes.

(** ** What a checkout accepts can be fulfilled *)

Lemma priced_as_configured settings provider w price w' :
  CheckoutService.get_checkout_price settings provider w = (Ok price, w') →
  ProviderPrice.amount_minor price = Settings.checkout_amount_minor settings ∧
  ProviderPrice.currency price = Settings.checkout_currency settings.
Proof.
  unfold CheckoutService.get_checkout_price. intros H.
  apply bind_Ok_inv in H as (? & ? & _ & H). apply bind_Ok_inv in H as (? & ? & _ & H).
  apply bind_Ok_inv in H as (p & ? & _ & H). apply bind_Ok_inv in H as (? & ? & [C _]%raise_if_Ok & H).
  apply ret_Ok in H as [<- _]. apply orb_false_iff in C as [[_ C1]%orb_false_iff C2].
  apply negb_false_iff, bool_decide_eq_true in C1, C2. done.
Qed.
(** With a price that the settings allow, the route answers with that price, answers 503, or fails as the
    provider's adapter failed; its response is never invalid. *)
Theorem price_route settings provider w :
  1 ≤ Settings.checkout_amount_minor settings ≤ 100000000 → Settings.checkout_currency settings = "usd" →
  match (checkout_price (Some (CheckoutService.get_checkout_price settings provider)) w).1 with
  | Ok price => price = CheckoutPriceResponse.mk (Settings.checkout_amount_minor settings) "usd"
  | Raise e => e = HTTPException 503 "checkout unavailable" ∨
               (CheckoutService.get_checkout_price settings provider w).1 = Raise e
  end.
Proof.
  intros Ha Hc. unfold checkout_price, bind, try_except.
  destruct (CheckoutService.get_checkout_price settings provider w) as [[price|e] w1] eqn:E.
  - apply priced_as_configured in E as [-> ->]. rewrite Hc. cbn. unfold CheckoutPriceResponse.validate. cbn.
    rewrite !(proj2 (Z.leb_le _ _)) by lia. done.
  - destruct e; cbn; first [by left|by right].
Qed.

(** The texts that the fields of a request allow are those that the domain constructs its values from. *)
Lemma certificate_allowed s : CheckoutRequest.certificate_accepted s = true → CertificateReference s = Ok s.
Proof. intros [_ H]%andb_true_iff. unfold CertificateReference, _CERTIFICATE. by rewrite H. Qed.
Lemma digest_allowed s : CheckoutRequest.LowerSha256 s = true →
  ∃ d, ManifestDigest.from_hex s = Ok d ∧ ManifestDigest.hex d = s ∧ ManifestDigest.ok d.
Proof.
  intros H. pose proof H as H'. unfold CheckoutRequest.LowerSha256, fullmatch_class in H.
  apply andb_prop in H as [[H1%Nat.leb_le H2%Nat.leb_le]%andb_prop Hs].
  destruct (bytes_fromhex_lower 32 s) as (b & Eb & Hb & Hl); [lia|done|].
  exists (ManifestDigest.mk b). unfold ManifestDigest.from_hex, ManifestDigest._LOWER_SHA256.
  unfold CheckoutRequest.LowerSha256 in H'. rewrite H', Eb.
  assert (ManifestDigest.ok (ManifestDigest.mk b)) as Hok by (unfold ManifestDigest.ok, blen; simpl; lia).
  split; [|done]. exact (proj2 (new_ok b (ManifestDigest.mk b)) (conj eq_refl Hok)).
Qed.
Lemma reference_allowed now random reference : _new_order_reference now random = Ok reference →
  OrderReference reference = Ok reference.
Proof.
  unfold _new_order_reference. intros H. apply result_bind_Ok in H as (? & _ & H).
  apply result_bind_Ok in H as (ms & _ & H). injection H as <-. unfold OrderReference. by rewrite encode_pattern.
Qed.
(** The body that the API accepts makes an order that the constraints of the database accept and that
    the workers can load: the digest, the certificate and the reference are what the domain allows, and
    the snapshot of the order is that of the request. *)
Theorem accepted_request_loads normalize certificate sha email managed terms privacy accepted_at payload
    settings id random now reference
    (normal : ∀ e e', normalize e = Some e' → 1 ≤ strlen e' ≤ 254)
    (priced : 0 ≤ Settings.checkout_amount_minor settings ∧ Settings.checkout_currency settings = "usd")
    (drawn : 0 ≤ id < 2 ^ 128)
    (accepted : CheckoutRequest.validate normalize certificate sha email managed terms privacy accepted_at = Some payload)
    (named : _new_order_reference now random = Ok reference) :
  ∃ digest snapshot,
  ManifestDigest.from_hex sha = Ok digest ∧
  let order := CheckoutService.new_order settings id reference (checkout_input payload digest) now in
  Order.check order = true ∧
  _order_state order = Ok (OrderState.mk (Some snapshot) CHECKOUT_OPEN AWAITING_PAYMENT) ∧
  OrderSnapshot.manifest_digest snapshot = digest ∧ OrderSnapshot.order_reference snapshot = reference ∧
  OrderSnapshot.certificate_reference snapshot = certificate ∧ ManifestDigest.hex digest = sha.
Proof.
  unfold CheckoutRequest.validate in accepted.
  destruct (_ && negb (is_naive accepted_at)) eqn:C in accepted; [|done].
  destruct (normalize email) as [address|] eqn:En; [|done]. injection accepted as <-.
  apply andb_prop in C as [C _]. apply andb_prop in C as [C _]. apply andb_prop in C as [C _].
  apply andb_prop in C as [C _]. apply andb_prop in C as [C _]. apply andb_prop in C as [Hcert Hsha].
  apply digest_allowed in Hsha as (digest & Ed & Hhex & Hlen). apply certificate_allowed in Hcert.
  apply reference_allowed in named. apply normal in En as [He1 He2]. destruct priced as [Ha Hcur].
  exists digest, (OrderSnapshot.mk reference certificate digest address (Settings.checkout_amount_minor settings) "usd"
    (Settings.product_version settings) (PaymentMode_value (Settings.payment_mode settings)) terms privacy (dt_us accepted_at)).
  split; [done|]. split; [|split; [|done]].
  - unfold Order.check. cbn. rewrite Hcur. unfold ManifestDigest.ok in Hlen. rewrite Hlen.
    rewrite !(proj2 (Z.leb_le _ _)), (proj2 (Z.ltb_lt _ _)) by lia. done.
  - unfold _order_state. cbn. rewrite named, Hcert. cbn.
    assert (ManifestDigest.from_bytes (ManifestDigest.value digest) = Ok digest) as -> by by apply new_ok.
    unfold OrderSnapshot.post_init. cbn. rewrite Hcur, !(proj2 (Z.leb_le _ _)), (proj2 (Z.ltb_ge _ _)) by lia. done.
Qed.
Lemma accepted_request_loads_witness :
  let normalize (e : string) := if (strlen e <=? 254) && (1 <=? strlen e) then Some e else None in
  let sha := bytes_hex (sha256 []) in
  ∃ payload digest,
  CheckoutRequest.validate normalize "cert-1" sha "a@example.test" true "2026-07" "2026-07" (utc 0) = Some payload ∧
  ManifestDigest.from_hex sha = Ok digest.
Proof.
  intros normalize sha.
  assert (∀ e e', normalize e = Some e' → 1 ≤ strlen e' ≤ 254) as normal.
  { intros e e'. unfold normalize. destruct (_ && _) eqn:C; [|done]. intros [= <-].
    apply andb_prop in C as [?%Z.leb_le ?%Z.leb_le]. lia. }
  destruct (CheckoutRequest.validate normalize "cert-1" sha "a@example.test" true "2026-07" "2026-07" (utc 0))
    as [payload|] eqn:E; [|exfalso; revert E; vm_compute; discriminate].
  destruct (_new_order_reference 1700000000123456 (encode "0123456789")) as [reference|] eqn:R;
    [|exfalso; revert R; vm_compute; discriminate].
  assert (0 ≤ Settings.checkout_amount_minor Settings.defaults ∧ Settings.checkout_currency Settings.defaults = "usd")
    as priced by (split; [vm_compute; discriminate|reflexivity]).
  assert (0 ≤ 7 < 2 ^ 128) as drawn by lia.
  destruct (accepted_request_loads _ _ _ _ _ _ _ _ _ _ 7 _ _ _ normal priced drawn E R) as (digest & _ & H & _).
  exists payload, digest. exact (conj eq_refl H).
Defined.
