(* ===== verification/System.v ===== *)
(** * The service as a transition system

    A step of the service is one transaction of one of its processes (the API, the webhook
    receiver, a worker, the outbox dispatcher, an operator), in any order and with any
    arguments; the processes share nothing but the database.  Three transactions are only
    ever run on arguments the callers have checked, and say so: a job is enqueued and a
    fulfillment transition is made for an order whose fulfillment has started, a state is
    entered with its evidence stored, and a proof that is appended was validated. *)
From S2P Require Import Prelude PyStr Domain Ports Db Session Exec Evolution OrderLife Tasks Jobs Store Settings Payments Proofs Outbox Handlers Worker Operator JobLife OutboxLife Growth OrderOps Evidence Api.

Open Scope Z_scope.
Import PaymentState FulfillmentState.

Inductive transaction (d : Db.t) : ∀ A : Type, M A → Prop :=
(** [CheckoutService] *)
| tx_reserve check_netloc settings store request binding now rand :
    transaction d _ (CheckoutService.reserve_tx check_netloc settings store request binding now rand)
| tx_resume check_netloc settings store binding now e :
    transaction d _ (CheckoutService.resume_tx check_netloc settings store binding now e)
| tx_finalize settings store plan binding result now :
    transaction d _ (CheckoutService._finalize settings store plan binding result now)
(** [WebhookService] *)
| tx_payment settings event hash canonical now :
    transaction d _ (WebhookService.process_tx settings event hash canonical now)
(** the routes *)
| tx_rotate store token now : transaction d _ (rotate_tx store token now)
| tx_select store token : transaction d _ (select_tx store token)
| tx_download store token order stored selected bundle :
    transaction d _ (download_tx store token order stored selected bundle)
| tx_hit pepper endpoint client now limit :
    transaction d _ (RateLimitStore.hit pepper endpoint client now limit)
| tx_cleanup a b c : transaction d _ (cleanup_ephemeral_records a b c)
(** [SqlJobClaimStore], [TaskDispatchCoordinator] and the operator *)
| tx_enqueue spec available now :
    order_started d (JobSpec.order_id spec) →
    transaction d _ (SqlJobClaimStore.enqueue_tx spec available now)
| tx_claim worker now lease : transaction d _ (SqlJobClaimStore.claim worker now lease)
| tx_claim_specific job generation worker now lease :
    transaction d _ (SqlJobClaimStore.claim_specific job generation worker now lease)
| tx_heartbeat job worker attempt until :
    transaction d _ (SqlJobClaimStore.heartbeat job worker attempt until)
| tx_finish job outcome now retry_at code :
    transaction d _ (SqlJobClaimStore.finish_tx job outcome now retry_at code)
| tx_failed job generation : transaction d _ (TaskDispatchCoordinator.mark_failed job generation)
| tx_dispatched job generation : transaction d _ (TaskDispatchCoordinator.mark_dispatched job generation)
| tx_recover before at_ limit : transaction d _ (TaskDispatchCoordinator.recover_tx before at_ limit)
| tx_replay job now : transaction d _ (SqlOperatorCommands.replay_tx job now)
(** the fulfillment adapters *)
| tx_append proof : StoredProof.ok proof → transaction d _ (SqlProofStore.append proof)
| tx_transition order target key calendar :
    order_started d order → may_enter d order target →
    transaction d _ (SqlFulfillmentRepository.transition_fulfillment_once order target key calendar)
| tx_verified order version v :
    transaction d _ (SqlVerificationRepository.put_verified_once order version v)
| tx_bundle order version bundle : transaction d _ (SqlBundleRepository.put_once order version bundle)
| tx_observe order version key v :
    transaction d _ (SqlBitcoinConfirmationObservations.record_once order version key v)
(** the outbox and the provider's webhook *)
| tx_outbox self message : transaction d _ (SqlNotificationOutbox.enqueue self message)
| tx_outbox_claim worker now lease : transaction d _ (SqlNotificationOutbox.claim worker now lease)
| tx_accepted message acceptance now :
    transaction d _ (SqlNotificationOutbox.record_accepted message acceptance now)
| tx_retry message now retry_at code status :
    transaction d _ (SqlNotificationOutbox.record_retry message now retry_at code status)
| tx_terminal message now code status :
    transaction d _ (SqlNotificationOutbox.record_terminal_failure message now code status)
| tx_resend event hash now : transaction d _ (SqlResendWebhookStore.process event hash now).
Arguments transaction d {A} m.

(** A transaction, committed or rolled back, or anything that leaves the database alone. *)
Inductive sys_step (w w' : World.t) : Prop :=
| sys_tx {A} (m : M A) : transaction (World.db w) m → w' = (m w).2 → sys_step w w'
| sys_env : World.db w' = World.db w → sys_step w w'.

(** ** Each transaction keeps each of the invariants *)

Ltac open_tx :=
  unfold rotate_tx, select_tx, download_tx, locked_order, SqlOperatorCommands.replay_tx,
    CheckoutService.reserve_tx, CheckoutService.resume_tx, CheckoutService.resume_existing,
    CheckoutService._resume, CheckoutService._replay, CheckoutService._plan, CheckoutService._finalize,
    OrderStore.find_idempotency, OrderStore.issue_token, OrderStore.revoke, OrderStore.authenticate,
    WebhookService.process_tx, WebhookService.reject, WebhookService.enqueue_paid, record_stripe_event,
    OrderStore.find_order_for_event, enqueue_outbox_once, enqueue_fulfillment_once,
    OrderStore.record_download_event,
    OrderStore.record_state_event, OrderStore.event_sequence, RateLimitStore.hit, cleanup_ephemeral_records,
    SqlJobClaimStore.enqueue_tx, SqlJobClaimStore.claim, SqlJobClaimStore.claim_query,
    SqlJobClaimStore.claim_specific, SqlJobClaimStore._lease, SqlJobClaimStore.heartbeat,
    SqlJobClaimStore.finish_tx, SqlJobClaimStore.close_attempt, TaskDispatchCoordinator.mark_failed,
    TaskDispatchCoordinator.mark_dispatched, TaskDispatchCoordinator.recover_tx,
    TaskDispatchCoordinator.stale_query, TaskDispatchCoordinator.recover_pairs,
    TaskDispatchCoordinator.recover_one, TaskDispatchCoordinator.close_expired, add_task_dispatch,
    SqlProofStore.append, SqlProofStore.latest_for_order,
    SqlProofStore.latest_metadata, _insert_verification,
    SqlFulfillmentRepository.transition_fulfillment_once, SqlVerificationRepository.put_verified_once,
    SqlBundleRepository.put_once, SqlBitcoinConfirmationObservations.record_once,
    SqlNotificationOutbox.enqueue, _authoritative_observation_for_enqueue, _same_message,
    SqlNotificationOutbox.claim, SqlNotificationOutbox._expire_unclaimable,
    SqlNotificationOutbox.expire_record, SqlNotificationOutbox.lease_record,
    SqlNotificationOutbox.take_lease, SqlNotificationOutbox.record_accepted, _active_lease,
    SqlNotificationOutbox.record_retry, SqlNotificationOutbox.record_terminal_failure,
    SqlResendWebhookStore.process, SqlResendWebhookStore.replay,
    SqlResendWebhookStore._reconcile_replayed_event, SqlResendWebhookStore._insert_webhook_event,
    SqlResendWebhookStore.apply_new_event, _apply_delivered_event, _delivery_evidence_matches,
    _notification_observation_matches, latest_version, latest_observation.

Lemma respects_value_error_to Rel `{!PreOrder Rel} status detail {A} (m : M A) :
  respects (on_db Rel) m → respects (on_db Rel) (value_error_to status detail m).
Proof.
  intros Hm. unfold value_error_to. respects_step; [done|]. destruct (is_ValueError e); [|done].
  simplify_eq. respects_solve.
Qed.
Ltac tx :=
  do 2 open_tx;
  repeat first [progress respects_tx | apply respects_value_error_to; [apply _|] ].

Lemma transaction_settles {A} (m : M A) w : transaction (World.db w) m → moves settles m w.
Proof.
  intros T. destruct T; try (by apply settles_transition);
    apply moves_respects; first [solve [eauto with respects] | tx].
Qed.
Lemma transaction_orders {A} (m : M A) w : transaction (World.db w) m → moves order_steps m w.
Proof.
  intros T. destruct T; try (by apply transition_step);
    apply moves_respects; first [solve [eauto with respects] | tx].
Qed.
Lemma transaction_outbox {A} (m : M A) w : transaction (World.db w) m → moves outbox_steps m w.
Proof.
  intros T. destruct T; apply moves_respects; first [solve [eauto with respects] | tx].
  by apply respects_new_message.
Qed.

(** The jobs that a transaction creates are for orders whose fulfillment has started. *)
Definition manned (d : Db.t) (j : DurableJob.row) : Prop :=
  ∃ o, o ∈ Db.orders d ∧ Order.id o = DurableJob.order_id j ∧ started o.
Definition job_steps (d d' : Db.t) : Prop := table_step (manned d') d d'.

Lemma table_step_weaken {T} `{TableLaws T, !Lifecycle T} (N N' : T → Prop) d d' :
  (∀ r, N r → N' r) → table_step N d d' → table_step N' d d'.
Proof.
  intros HN Hs Hg. destruct (Hs Hg) as (H1 & H2 & H3). split_and!; [done..|].
  intros r [?|(r0 & ? & ?)]%H3; [by left|right]. exists r0. auto.
Qed.
Lemma respects_both {A} (R S : relation World.t) (m : M A) :
  respects R m → respects S m → respects (λ w w', R w w' ∧ S w w') m.
Proof. intros H1 H2 w. split; [apply H1|apply H2]. Qed.

Lemma enqueue_paid_jobs order now w :
  order ∈ Db.orders (World.db w) → started order →
  commits (WebhookService.enqueue_paid order now)
    (λ _ w', job_steps (World.db w) (World.db w') ∧ same Order.row (World.db w) (World.db w')) w.
Proof.
  intros Ho Hs. eapply (commits_respects
    (λ w w', on_db (table_step (λ j, DurableJob.order_id j = Order.id order)) w w' ∧ on_db (same Order.row) w w')).
  - apply respects_both.
    + unfold WebhookService.enqueue_paid, enqueue_outbox_once. respects_tx.
      by apply respects_enqueue_fulfillment.
    + unfold WebhookService.enqueue_paid, enqueue_fulfillment_once, enqueue_outbox_once, add_task_dispatch.
      respects_tx.
  - intros _ w' [Hj Ho']. split; [|done]. unfold on_db, same in *. simpl in Ho'.
    eapply table_step_weaken, Hj. intros j Ej. exists order. by rewrite Ho'.
Qed.
Lemma job_steps_same d d' : same DurableJob.row d d' → job_steps d d'.
Proof. apply table_step_same. Qed.
Lemma job_steps_frame d0 d1 d2 d3 :
  same DurableJob.row d0 d1 → job_steps d1 d2 → same DurableJob.row d2 d3 → same Order.row d2 d3 →
  job_steps d0 d3.
Proof.
  unfold job_steps. intros H1 H2 H3 H4. etrans; [by apply table_step_same|].
  etrans; [|by apply (table_step_same _ d2)]. eapply table_step_weaken, H2. unfold manned.
  unfold same in H4. simpl in H4. by rewrite H4.
Qed.
Lemma payment_jobs settings event hash canonical now w :
  commits (WebhookService.process_tx settings event hash canonical now)
    (λ _ w', job_steps (World.db w) (World.db w')) w.
Proof.
  unfold WebhookService.process_tx, WebhookService.reject, record_stripe_event, OrderStore.record_state_event,
    OrderStore.event_sequence.
  do 3 exec_step. exec_case; [exec; by apply job_steps_same|]. exec_step.
  eapply (commits_respects (on_db (same DurableJob.row))); [respects_tx|intros recorded w1 H1].
  exec_step. call find_order_spec as found [-> Hf].
  exec_case; [exec_case; [exec_case; [|exec_case; [|exec_case]]|]|];
    try (eapply (commits_respects (on_db (same DurableJob.row))); [respects_tx|intros ? ? H2];
         apply job_steps_same; by etrans).
  specialize (Hf _ eq_refl) as Ho.
  do 2 exec_step. assert (same DurableJob.row (World.db w) (World.db w')) as H0 by (by rewrite D).
  exec_step. apply commits_when; intros Hb;
    [|exec; apply job_steps_same; unfold same in *; simpl in *; by_dbs; done].
  exec_step. apply commits_when; intros Hp;
    [|exec; apply job_steps_same; unfold same in *; simpl in *; by_dbs; done].
  rewrite Hb in *. apply bool_decide_eq_true in Hp. call enqueue_paid_jobs as u [Hj Hs].
  - rewrite D. apply elem_of_replace. right. split; [done|].
    apply find_row_Some in F0 as [Hold Hid%bool_decide_eq_true]. by exists old.
  - unfold started. by rewrite (applied_paid _ _ _ _ _ B4 Hp).
  - exec. eapply job_steps_frame; [exact H0|exact Hj|..]; unfold same in *; simpl in *; by_dbs; done.
Qed.

Lemma moves_commits (Rel : relation Db.t) {A} (m : M A) w :
  (∀ d, Rel d d) → commits (atomically m) (λ _ w', Rel (World.db w) (World.db w')) w →
  moves Rel (atomically m) w.
Proof.
  intros Hr H. unfold moves, on_db. unfold commits in H.
  destruct (atomically m w) as [[a|e] w'] eqn:E; simpl; [by eapply H|].
  by rewrite (atomically_Raise _ _ _ _ E).
Qed.
Lemma no_new_jobs {A} (m : M A) w : moves (table_step (λ _ : DurableJob.row, False)) m w → moves job_steps m w.
Proof. by apply table_step_weaken. Qed.
Lemma enqueue_manned spec d d' j :
  order_started d (JobSpec.order_id spec) → table_good Order.row d → order_steps d d' →
  uuid_UUID (JobSpec.order_id spec) = Ok (DurableJob.order_id j) → manned d' j.
Proof.
  intros (o & Hin & Hu & Hs) Hg Ho Hj. destruct (Ho Hg) as (_ & Hl & _).
  destruct (Hl o Hin) as (o' & Hin' & Hid & Hlater). exists o'. split_and!; [done| |by eapply started_later].
  simpl in Hid. rewrite Hid. unfold _uuid, uuid_UUID in *.
  destruct (UUID _); [|done]. by simplify_eq.
Qed.
Lemma transaction_jobs {A} (m : M A) w :
  transaction (World.db w) m → db_wf (World.db w) → table_good Order.row (World.db w) → moves job_steps m w.
Proof.
  intros T Hwf Hg. pose proof (transaction_orders _ _ T) as Ho.
  destruct T;
    try (apply no_new_jobs, moves_respects; first [solve [eauto with respects] | tx; fail]).
  - apply moves_commits; [by intros; apply table_step_same|apply payment_jobs].
  - unfold moves, on_db. eapply table_step_weaken; [|apply respects_enqueue_tx; intros j Hj; exact Hj].
    intros j Hj. by eapply enqueue_manned.
  - apply no_new_jobs, moves_commits; [done|]. by apply recover_tx_step.
Qed.

(** ** The invariant of the service *)

Record good (d : Db.t) : Prop := {
  gd_wf : db_wf d;
  gd_orders : table_good Order.row d;
  gd_jobs : table_good DurableJob.row d;
  gd_outbox : table_good OutboxRecord.row d;
  gd_supported : ∀ o, o ∈ Db.orders d → supported d o;
  gd_chained : ∀ p, p ∈ Db.proof_versions d → chained d p;
  gd_manned : ∀ j, j ∈ Db.durable_jobs d → manned d j }.

(** What one database keeps of an earlier one. *)
Record kept (d d' : Db.t) : Prop := {
  kp_grows : grows d d';
  kp_orders : rows_later Order.row d d';
  kp_jobs : rows_later DurableJob.row d d';
  kp_outbox : rows_later OutboxRecord.row d d' }.
#[global] Instance rows_later_preorder {T} `{Table T, !Lifecycle T} : PreOrder (rows_later T).
Proof.
  split; [intros d r Hr; exists r; by split_and!|].
  intros x y z Hxy Hyz r (r' & H1 & E & ?)%Hxy. apply Hyz in H1 as (r'' & ? & E' & ?). exists r''.
  split_and!; [done|congruence|by etrans].
Qed.
#[global] Instance kept_preorder : PreOrder kept.
Proof. split; [by split|]. intros x y z [] []. split; by etrans. Qed.

Lemma manned_later d d' j j' :
  rows_later Order.row d d' → DurableJob.order_id j' = DurableJob.order_id j → manned d j → manned d' j'.
Proof.
  intros Hl E (o & Ho & Hi & Hs). destruct (Hl o Ho) as (o' & ? & Hid & ?). exists o'.
  split_and!; [done|simpl in Hid; congruence|by eapply started_later].
Qed.
Definition evolves (d d' : Db.t) : Prop := good d → good d' ∧ kept d d'.
#[global] Instance evolves_preorder : PreOrder evolves.
Proof.
  split; [intros d Hd; by split|]. intros x y z Hxy Hyz (Hy & H1)%Hxy. destruct (Hyz Hy) as [Hz H2].
  split; [done|by etrans].
Qed.

Lemma transaction_evolves {A} (m : M A) w : transaction (World.db w) m → moves evolves m w.
Proof.
  intros T [Hwf Hord Hjob Hout Hsup Hch Hman].
  destruct (transaction_settles _ _ T) as [G St]. destruct (St Hwf) as [Hk Hs Hc].
  destruct (transaction_orders _ _ T Hord) as (Ho' & Lo & _).
  destruct (transaction_jobs _ _ T Hwf Hord Hjob) as (Hj' & Lj & Bj).
  destruct (transaction_outbox _ _ T Hout) as (Hx' & Lx & _).
  split; [|done]. split; [by apply G|done..| | |].
  - intros o' [?|(o & ? & ? & ?)]%Hs; [done|]. eapply supported_grows; eauto.
  - intros p [?|?]%Hc; [done|]. eapply chained_grows; eauto.
  - intros j' [(j & Hj & Hid & Hl)|(j & Hm & _ & Hl)]%Bj.
    + eapply manned_later; [exact Lo| |by apply Hman]. apply (jf_order _ _ (job_later_fixed _ _ Hl)).
    + destruct Hm as (o & ? & E & ?). exists o. split_and!; [done| |done].
      by rewrite E, (jf_order _ _ (job_later_fixed _ _ Hl)).
Qed.
Lemma sys_step_evolves w w' : sys_step w w' → evolves (World.db w) (World.db w').
Proof.
  intros [A m T ->|E]; [by apply transaction_evolves|]. rewrite E. reflexivity.
Qed.

(** A run of the service, and the environments it reaches from an empty database. *)
Definition service : World.t → World.t → Prop := rtc sys_step.
Definition reachable (w : World.t) : Prop := ∃ w0, World.db w0 = Db.empty ∧ service w0 w.

Lemma service_evolves w w' : service w w' → evolves (World.db w) (World.db w').
Proof. induction 1 as [|x y z H _ IH]; [reflexivity|]. etrans; [by apply sys_step_evolves|done]. Qed.
Lemma good_empty : good Db.empty.
Proof.
  split; try (by intros ? ?%not_elem_of_nil); [split; apply tbl_wf_nil|..];
    (split; [apply tbl_wf_nil|by intros ? ?%not_elem_of_nil]).
Qed.
Lemma reachable_good w : reachable w → good (World.db w).
Proof. intros (w0 & E & H). apply (service_evolves _ _ H). rewrite E. apply good_empty. Qed.
Lemma reachable_service w w' : reachable w → service w w' → reachable w'.
Proof. intros (w0 & ? & H1) H2. exists w0. split; [done|]. by etrans. Qed.
Lemma service_kept w w' : reachable w → service w w' → kept (World.db w) (World.db w').
Proof. intros Hr%reachable_good Hs. by apply (service_evolves _ _ Hs). Qed.
