(* ===== verification/Serves.v ===== *)
(** * Reasoning about the processes of the service

    A process is code that runs several transactions with calls to the outside between
    them.  [serves m Q w] says that what [m] does from [w] is a run of the service, and that
    [Q] holds of its result.  What a process has learnt from the database stays true while
    other processes work: such facts are [Stable].  The adapters the handlers are written
    against are classes of laws here, so that the handlers are verified against what the
    adapters promise. *)
From S2P Require Import Prelude PyStr Domain Ports Db Session Exec Evolution OrderLife Growth Proofs Outbox Handlers OrderOps Evidence System.

Open Scope Z_scope.
Import PaymentState FulfillmentState.

#[global] Instance service_preorder : PreOrder service.
Proof. unfold service. apply _. Qed.
#[export] Hint Resolve service_preorder : respects.

Definition serves {A} (m : M A) (Q : A → World.t → Prop) (w : World.t) : Prop :=
  reachable w → service w (m w).2 ∧
  ∀ a w', m w = (Ok a, w') → service w w' → reachable w' → Q a w'.

Lemma serves_reach {A} (m : M A) Q w : (reachable w → serves m Q w) → serves m Q w.
Proof. intros H Hr. by apply H. Qed.
Lemma serves_mono {A} (m : M A) (Q Q' : A → World.t → Prop) w :
  serves m Q w → (∀ a w', service w w' → reachable w' → Q a w' → Q' a w') → serves m Q' w.
Proof. intros H HQ Hr. destruct (H Hr) as [S HQ']. split; [done|]. intros a w' E S' R'. eauto. Qed.
Lemma serves_ret {A} (a : A) (Q : A → World.t → Prop) w : (reachable w → Q a w) → serves (ret a) Q w.
Proof. intros H Hr. split; [simpl; reflexivity|]. intros ? ? [= <- <-]. auto. Qed.
Lemma serves_raise {A} e (Q : A → World.t → Prop) w : serves (raise e) Q w.
Proof. intros Hr. split; [simpl; reflexivity|done]. Qed.
Lemma serves_lift {A} (r : result A) (Q : A → World.t → Prop) w :
  (∀ a, r = Ok a → reachable w → Q a w) → serves (lift r) Q w.
Proof. intros H Hr. split; [simpl; reflexivity|]. intros a ? [= -> <-]. auto. Qed.
Lemma serves_raise_if c e (Q : unit → World.t → Prop) w :
  (c = false → Q tt w) → serves (raise_if c e) Q w.
Proof. intros H. destruct c; [apply serves_raise|apply serves_ret; auto]. Qed.
Lemma serves_when c m (Q : unit → World.t → Prop) w :
  (c = true → serves m Q w) → (c = false → Q tt w) → serves (when c m) Q w.
Proof. intros H1 H2. destruct c; [by apply H1|apply serves_ret; auto]. Qed.
Lemma serves_bind {A B} (m : M A) (f : A → M B) (P : A → World.t → Prop) Q w :
  serves m P w →
  (∀ a w', service w w' → reachable w' → P a w' → serves (f a) Q w') → serves (bind m f) Q w.
Proof.
  intros Hm Hf Hr. destruct (Hm Hr) as [S HP]. unfold bind.
  destruct (m w) as [[a|e] w1] eqn:E; simpl in *; [|by split].
  pose proof (reachable_service _ _ Hr S) as Hr1.
  destruct (Hf a w1 S Hr1 (HP _ _ eq_refl S Hr1) Hr1) as [S1 HQ]. split; [by etrans|].
  intros b w2 E2 _ Hr2. apply HQ; [done| |done]. by rewrite E2 in S1.
Qed.
Lemma serves_try {A} (m : M A) h (Q : A → World.t → Prop) w :
  serves m Q w → (∀ e k w', service w w' → reachable w' → h e = Some k → serves k Q w') → serves (try_except m h) Q w.
Proof.
  intros Hm Hh Hr. destruct (Hm Hr) as [S HQ]. unfold try_except.
  destruct (m w) as [[a|e] w1] eqn:E; [split; [done|]; intros ? ? [= <- <-]; by apply HQ|].
  destruct (h e) as [k|] eqn:Ek; [|by split]. simpl in S.
  destruct (Hh _ _ _ S (reachable_service _ _ Hr S) Ek (reachable_service _ _ Hr S)) as [S1 HQ1]. split; [by etrans|].
  intros a w2 E2 _ Hr2. apply HQ1; [done| |done]. by rewrite E2 in S1.
Qed.

(** A transaction, code that leaves the database alone, and a call to the outside, during
    which the rest of the service goes on. *)
Lemma serves_tx {A} (m : M A) (Q : A → World.t → Prop) w :
  transaction (World.db w) m → (good (World.db w) → commits m Q w) → serves m Q w.
Proof.
  intros T H Hr. split; [apply rtc_once; by eapply sys_tx|]. intros a w' E _ _.
  by apply (H (reachable_good _ Hr)).
Qed.
Lemma serves_local {A} (m : M A) (Q : A → World.t → Prop) w :
  World.db (m w).2 = World.db w → (good (World.db w) → commits m Q w) → serves m Q w.
Proof.
  intros T H Hr. split; [apply rtc_once; by apply sys_env|]. intros a w' E _ _.
  by apply (H (reachable_good _ Hr)).
Qed.
Lemma serves_outside {A} (m : M A) w : respects service m → serves m (λ _ _, True) w.
Proof. intros H Hr. split; [apply H|done]. Qed.
(** Code that only reads. *)
Definition reads {A} (m : M A) : Prop := respects (on_db eq) m.
Lemma reads_local {A} (m : M A) Q w : reads m → (good (World.db w) → commits m Q w) → serves m Q w.
Proof. intros H. apply serves_local. symmetry. apply H. Qed.
Lemma serves_reads {A} (m : M A) w : reads m → serves m (λ _ _, True) w.
Proof. intros H. apply reads_local; [done|]. intros _ a w' _. done. Qed.
Lemma serves_now w : serves now_utc (λ _ _, True) w.
Proof. by apply serves_reads. Qed.

(** ** Facts that stay *)

Class Stable (P : World.t → Prop) : Prop :=
  stable : ∀ w w', reachable w → service w w' → P w → P w'.

(** What an order read earlier says of the order now. *)
Record ahead (o0 o : Order.row) : Prop := {
  ah_id : Order.id o = Order.id o0;
  ah_reference : Order.order_reference o = Order.order_reference o0;
  ah_digest : Order.manifest_digest o = Order.manifest_digest o0;
  ah_rank : (fulfillment_rank (Order.fulfillment_state o0) <= fulfillment_rank (Order.fulfillment_state o))%nat }.
#[global] Instance ahead_preorder : PreOrder ahead.
Proof. split; [by intros o; split|]. intros x y z [] []. split; [congruence..|lia]. Qed.

Definition seen (id : string) (f : FulfillmentOrder.t) (w : World.t) : Prop :=
  ∃ o0 o, _fulfillment_order o0 = Ok f ∧ ahead o0 o ∧ o ∈ Db.orders (World.db w) ∧ _uuid id = Ok (Order.id o).
Definition stored_for (p : StoredProof.t) (w : World.t) : Prop :=
  ∃ o q, o ∈ Db.orders (World.db w) ∧ Order.order_reference o = StoredProof.order_reference p ∧
    q ∈ Db.proof_versions (World.db w) ∧ ProofVersion.order_id q = Order.id o ∧
    ProofVersion.version q = StoredProof.version p ∧ ProofVersion.target_digest q = Order.manifest_digest o.
Definition checked (id : string) (w : World.t) : Prop :=
  ∃ o, o ∈ Db.orders (World.db w) ∧ _uuid id = Ok (Order.id o) ∧ verified (World.db w) o.
Definition under_way (id : string) (w : World.t) : Prop := order_started (World.db w) id.

Lemma order_ahead w w' o : reachable w → service w w' → o ∈ Db.orders (World.db w) →
  ∃ o', o' ∈ Db.orders (World.db w') ∧ ahead o o'.
Proof.
  intros Hr S Ho. destruct (kp_orders _ _ (service_kept _ _ Hr S) o Ho) as (o' & ? & _ & Hl).
  exists o'. split; [done|]. destruct (later_fixed _ _ Hl) as [? _ Hi _ _ _].
  apply immutable_changed_false in Hi as (? & ? & ? & _).
  apply states_later, states_rtc_fulfillment, fulfillment_rtc_rank in Hl as [E|E]; simpl in E;
    split; try done; [by rewrite E|lia].
Qed.
#[export] Instance seen_stable id f : Stable (seen id f).
Proof.
  intros w w' Hr S (o0 & o & ? & ? & Ho & Hu). destruct (order_ahead _ _ _ Hr S Ho) as (o' & ? & Ha).
  exists o0, o'. split_and!; [done|by etrans|done|by rewrite (ah_id _ _ Ha)].
Qed.
#[export] Instance stored_for_stable p : Stable (stored_for p).
Proof.
  intros w w' Hr S (o & q & Ho & E & Hq & Eq & Ev & Et). destruct (order_ahead _ _ _ Hr S Ho) as (o' & ? & Ha).
  destruct (kp_grows _ _ (service_kept _ _ Hr S)) as [_ Hp _ _ _ _ _].
  exists o', q. destruct Ha. split_and!; [done|congruence|by apply (grows_elem _ _ _ Hp)|congruence..].
Qed.
#[export] Instance checked_stable id : Stable (checked id).
Proof.
  intros w w' Hr S (o & Ho & Hu & p & v & Hv). destruct (order_ahead _ _ _ Hr S Ho) as (o' & ? & []).
  exists o'. split_and!; [done|congruence|]. exists p, v.
  by eapply proved_grows; [apply (kp_grows _ _ (service_kept _ _ Hr S))| |].
Qed.
#[export] Instance under_way_stable id : Stable (under_way id).
Proof.
  intros w w' Hr S (o & Ho & Hu & Hs). destruct (order_ahead _ _ _ Hr S Ho) as (o' & ? & [E _ _ Hk]).
  exists o'. split_and!; [done|by rewrite E|]. unfold started in *. intros E'. rewrite E' in Hk.
  by destruct (Order.fulfillment_state o) eqn:?; simpl in Hk; try lia.
Qed.

(** Brings what is known of an earlier environment to a later one. *)
Ltac carry :=
  repeat match goal with
  | R : reachable ?w, S : service ?w ?w', H : ?P ?w |- serves _ _ ?w' =>
      first [ apply (stable (P:=P) _ _ R S) in H ]
  end.
(** One statement of a process, by the law of what it calls. *)
Tactic Notation "serve" uconstr(L) "as" simple_intropattern(a) simple_intropattern(H) :=
  eapply serves_bind; [eapply L; try typeclasses eauto|intros a ? ? ? H; cbv beta in *; carry].
Tactic Notation "serve" uconstr(L) := serve L as ? ?.
(** A fact about the present environment. *)
Tactic Notation "here" constr(P) "as" simple_intropattern(H) :=
  lazymatch goal with |- serves _ _ ?w => assert (P w) as H end.
Ltac serves_case :=
  lazymatch goal with
  | |- serves (match ?x with _ => _ end) _ _ => let B := fresh "B" in destruct x eqn:B
  end.
Ltac serves_step :=
  lazymatch goal with
  | |- serves (ret _) _ _ => apply serves_ret; intros ?
  | |- serves (raise _) _ _ => apply serves_raise
  | |- serves (lift _) _ _ => let E := fresh "E" in apply serves_lift; intros ? E ?
  | |- serves (raise_if _ _) _ _ => let C := fresh "C" in apply serves_raise_if; intros C
  | |- serves (bind (lift _) _) _ _ =>
      let E := fresh "E" in
      eapply serves_bind; [apply serves_lift; intros ? E _; exact E|intros ? ? ? ? E; cbv beta in *; carry]
  | |- serves (bind (raise_if _ _) _) _ _ =>
      let C := fresh "C" in
      eapply (serves_bind _ _ (λ _ _, _)); [apply serves_raise_if; intros C; exact C|intros ? ? ? ? C; cbv beta in *; carry]
  | |- serves (bind now_utc _) _ _ => serve serves_now
  | |- serves (bind (ret _) _) _ _ =>
      eapply serves_bind; [apply serves_ret; intros _; reflexivity|intros ? ? ? ? <-; carry]
  end; cbv beta zeta.

(** *** What the facts give *)

Lemma seen_started id f w :
  seen id f w → fulfillment_of f ≠ AWAITING_PAYMENT → under_way id w.
Proof.
  intros (o0 & o & Hf & [_ _ _ Hk] & Ho & Hu) Hn. exists o. split_and!; [done..|].
  unfold _fulfillment_order in Hf. apply result_bind_Ok in Hf as (s & [_ Es]%order_state_states & [= <-]).
  unfold fulfillment_of in Hn. simpl in Hn. rewrite Es in Hn. unfold started. intros E. rewrite E in Hk.
  by destruct (Order.fulfillment_state o0); simpl in Hk; try lia.
Qed.
Lemma started_may_enter d id target :
  order_started d id → target ≠ CALENDAR_PENDING → target ≠ BITCOIN_VERIFIED → target ≠ DELIVERED →
  may_enter d id target.
Proof. intros (o & Ho & Hu & _) H1 H2 H3. exists o. split_and!; [done..|right]. by destruct target. Qed.
(** A state the order has reached already. *)
Lemma seen_may_enter id f w : seen id f w → may_enter (World.db w) id (fulfillment_of f).
Proof.
  intros (o0 & o & Hf & [_ _ _ Hk] & Ho & Hu). exists o. split_and!; [done..|left].
  unfold _fulfillment_order in Hf. apply result_bind_Ok in Hf as (s & [_ Es]%order_state_states & [= <-]).
  unfold fulfillment_of. simpl. by rewrite Es.
Qed.
Lemma checked_may_enter id w : checked id w → may_enter (World.db w) id BITCOIN_VERIFIED.
Proof.
  intros (o & Ho & Hu & p & v & Hv). exists o. split_and!; [done..|right]. exists p, v.
  destruct Hv. by split.
Qed.
Lemma OrderReference_Ok s r : OrderReference s = Ok r → r = s.
Proof. unfold OrderReference. by destruct (_ORDER_REFERENCE s); intros [= <-]. Qed.
Lemma snapshot_reference o f s :
  _fulfillment_order o = Ok f → OrderState.snapshot (FulfillmentOrder.state f) = Some s →
  OrderSnapshot.order_reference s = Order.order_reference o.
Proof.
  unfold _fulfillment_order, _order_state. intros (st & Hs & [= <-])%result_bind_Ok Es.
  repeat (apply result_bind_Ok in Hs as (? & ? & Hs)). injection Hs as <-. simpl in Es. simplify_eq.
  match goal with H : OrderReference _ = Ok _ |- _ => rename H into Hr end.
  match goal with H : OrderSnapshot.post_init _ = Ok _ |- _ => rename H into Hp end.
  apply OrderReference_Ok in Hr as ->.
  unfold OrderSnapshot.post_init in Hp. repeat (apply result_bind_Ok in Hp as (? & ? & Hp)).
  by repeat (destruct (_ : bool) in Hp; try done); simplify_eq.
Qed.
Lemma stored_may_enter id f s p w :
  reachable w → seen id f w → OrderState.snapshot (FulfillmentOrder.state f) = Some s →
  stored_for p w → StoredProof.order_reference p = OrderSnapshot.order_reference s →
  may_enter (World.db w) id CALENDAR_PENDING.
Proof.
  intros Hr (o0 & o & Hf & Ha & Ho & Hu) Hs (o1 & q & Ho1 & E & Hq & Eq & _ & Et) Ep.
  rewrite Ep, (snapshot_reference _ _ _ Hf Hs) in E. exists o. split_and!; [done..|right].
  assert (o1 = o) as ->.
  { eapply tbl_wf_clash; [apply (db_wf_tbl (R:=Order.row)), (gd_wf _ (reachable_good _ Hr))|done..|].
    simpl. unfold Order.clash. rewrite (bool_decide_true (Order.order_reference o1 = _)), !orb_true_r; [done|].
    destruct Ha. congruence. }
  exists q. by split_and!.
Qed.

(** ** What the adapters promise *)

Class OrdersLaws (orders : FulfillmentRepository) : Prop := {
  orders_get id w :
    serves (get_for_fulfillment orders id) (λ r w', ∀ f, r = Some f → seen id f w') w;
  orders_transition id target key calendar w :
    under_way id w → may_enter (World.db w) id target →
    serves (transition_fulfillment_once orders id target key calendar) (λ f w', seen id f w') w }.
Class ProofsLaws (proofs : ProofStore) : Prop := {
  proofs_append_law p w :
    StoredProof.ok p → serves (proofs_append proofs p) (λ _ w', stored_for p w') w;
  proofs_latest_law reference w :
    serves (proofs_latest proofs reference)
      (λ r w', ∀ p, r = Some p → stored_for p w' ∧ StoredProof.order_reference p = reference) w }.
Class VerificationsLaws (verifications : VerificationRepository) : Prop := {
  put_verified_law id version v w :
    serves (put_verified_once verifications id version v) (λ _ w', checked id w') w;
  get_verified_law id version w : serves (get_verified verifications id version) (λ _ _, True) w }.
Class ObservationsLaws (observations : ConfirmationObservationRepository) : Prop := {
  record_once_law id version key v w :
    serves (record_once observations id version key v) (λ _ _, True) w;
  observations_latest_law id version w :
    serves (observations_latest observations id version) (λ _ _, True) w }.
Class BundlesLaws (bundles : BundleRepository) : Prop :=
  put_once_law id version bundle w : serves (put_once bundles id version bundle) (λ _ _, True) w.
Class OutboxLaws (outbox : OutboxPort) : Prop :=
  enqueue_law message w : serves (enqueue outbox message) (λ _ _, True) w.

(** The code outside the program: the rest of the service goes on while it runs. *)
Class TimestamperOutside (t : Timestamper) : Prop := {
  stamp_outside digest : respects service (stamp_exact_digest t digest);
  upgrade_outside digest proof : respects service (upgrade_exact_digest t digest proof) }.
Class BitcoinOutside (b : BitcoinVerifier) : Prop :=
  verify_outside digest proof : respects service (verify_exact_digest b digest proof).
Class BundlerOutside (b : ProofBundler) : Prop :=
  build_outside proof receipt context : respects service (build b proof receipt context).
