(* ===== verification/Adapters.v ===== *)
(** * The SQL adapters keep the promises

    Each adapter of [Proofs] and [Outbox] satisfies the laws of its port, also when other
    processes run between the calls ([between]): every operation is one transaction and what
    it reports stays true. *)
From S2P Require Import Prelude PyStr Domain Ports Db Session Exec Evolution OrderLife Growth Proofs Outbox Handlers OrderOps Evidence System Serves.

Open Scope Z_scope.
Import PaymentState FulfillmentState.

(** ** Orders *)

Lemma get_for_fulfillment_seen id w :
  commits (SqlFulfillmentRepository.get_for_fulfillment id)
    (λ r w', w' = w ∧ ∀ f, r = Some f → seen id f w) w.
Proof.
  unfold SqlFulfillmentRepository.get_for_fulfillment. exec. exec_case; [|by exec].
  exec. split; [done|]. intros f [= <-]. apply find_row_Some in F as [Hin Hid%bool_decide_eq_true].
  exists r, r. split_and!; try done. by rewrite E, <-Hid.
Qed.
Lemma transition_seen id target key calendar w :
  commits (SqlFulfillmentRepository.transition_fulfillment_once id target key calendar)
    (λ f w', seen id f w') w.
Proof.
  unfold SqlFulfillmentRepository.transition_fulfillment_once. exec.
  exec_case; [|by exec]. apply find_row_Some in F as [Hin Hid%bool_decide_eq_true]. exec. exec_case.
  - exec. apply merge_calendar_step in E1 as [Hi _ _ _ _ _ _].
    exists a1, a1. split_and!; [done|done| |by rewrite Hi, Hid].
    rewrite D. apply elem_of_replace. right. split; [done|]. exists r. simpl. by rewrite Hi.
  - exec. cbv zeta. exec. subst.
    apply advanced_inv in E1 as (o1 & [Hi _ _ _ _ _ _]%merge_calendar_step & -> & _).
    eexists _, _. split_and!; [exact E2|reflexivity| |].
    + repeat match goal with D : World.db ?w = _ |- context [World.db ?w] => rewrite D; simpl end.
      apply elem_of_replace. right. split; [done|]. exists r. simpl. by rewrite Hi.
    + simpl. by rewrite Hi.
Qed.
#[export] Instance sql_orders_laws : OrdersLaws sql_orders.
Proof.
  split; intros.
  - apply reads_local; [|intros _; call get_for_fulfillment_seen; naive_solver].
    unfold reads. simpl. unfold SqlFulfillmentRepository.get_for_fulfillment. respects_tx.
  - apply serves_tx; [by apply tx_transition|]. intros _. apply transition_seen.
Qed.

(** ** Proofs *)

Lemma stored_proof_fields row reference v c b p :
  _stored_proof row reference v c b = Ok p →
  StoredProof.order_reference p = reference ∧ StoredProof.version p = ProofVersion.version row.
Proof.
  unfold _stored_proof. intros H. do 3 (apply result_bind_Ok in H as (? & ? & H); cbv zeta in H).
  apply result_bind_Ok in H as (ref & Hr & H). apply result_bind_Ok in H as (tg & _ & H).
  apply OrderReference_Ok in Hr as ->.
  by apply StoredProof.post_init_id in H as [-> _].
Qed.
Lemma stored_chained d o q : good d → o ∈ Db.orders d → q ∈ Db.proof_versions d →
  ProofVersion.order_id q = Order.id o → ProofVersion.target_digest q = Order.manifest_digest o.
Proof.
  intros G Ho Hq E. destruct (ch_target _ _ (gd_chained _ G q Hq)) as (o' & Ho' & Ei & Et).
  rewrite <-Et. f_equal. eapply tbl_wf_id; [apply (db_wf_tbl (R:=Order.row)), (gd_wf _ G)|done..|].
  simpl. congruence.
Qed.
Lemma latest_stored reference w :
  good (World.db w) →
  commits (SqlProofStore.latest reference)
    (λ r w', w' = w ∧ ∀ p, r = Some p → stored_for p w ∧ StoredProof.order_reference p = reference) w.
Proof.
  intros G. unfold SqlProofStore.latest, SqlProofStore.latest_for_order, latest_version, latest_observation.
  exec. exec_case; [|by exec]. apply find_row_Some in F as [Ho Href%bool_decide_eq_true].
  exec. exec_case; [|by exec]. exec. exec_case; [|by exec]. exec.
  assert (∀ v c b p, _stored_proof r1 (Order.order_reference r) v c b = Ok p →
    stored_for p w ∧ StoredProof.order_reference p = reference) as Hfin.
  { intros v c b p [Er Ev]%stored_proof_fields. apply find_row_Some in F0 as [Hq Hid%bool_decide_eq_true].
    apply best_version_elem in F as [Hr0 Ho0].
    assert (r1 = r0) as -> by (eapply tbl_wf_id; [apply (db_wf_tbl (R:=ProofVersion.row)), (gd_wf _ G)|done..]).
    split; [|congruence]. exists r, r0. split_and!; [done|congruence|done..|]. by eapply stored_chained. }
  exec_case; exec; (split; [done|]); intros p [= <-]; by eapply Hfin.
Qed.
Lemma append_check_true order latest p :
  SqlProofStore.append_check order latest p = Ok true →
  ∃ l, latest = Some l ∧ ProofVersion.version l = StoredProof.version p.
Proof.
  unfold SqlProofStore.append_check. destruct latest as [l|].
  - case_bool_decide; [by exists l|]. intros (? & _ & (? & _ & [=])%result_bind_Ok)%result_bind_Ok.
  - by intros (? & _ & [=])%result_bind_Ok.
Qed.
Lemma append_stored p w :
  good (World.db w) → commits (SqlProofStore.append p) (λ _ w', stored_for p w') w.
Proof.
  intros G. unfold SqlProofStore.append, latest_version, _insert_verification.
  exec. exec_case; [|by exec]. apply find_row_Some in F as [Ho Href%bool_decide_eq_true]. exec.
  apply negb_false_iff, bool_decide_eq_true in C0. apply merge_calendar_step in E as [Ei _ Ef _ _ _ _].
  apply immutable_changed_false in Ef as (Er & _ & Ed & _).
  assert (a ∈ Db.orders (World.db w')) as Ha.
  { rewrite D. apply elem_of_replace. right. split; [done|]. exists r. by split; [|simpl; congruence]. }
  assert (Db.proof_versions (World.db w') = Db.proof_versions (World.db w)) as Hpv by (by rewrite D).
  destruct a0; exec.
  - apply append_check_true in E0 as (l & -> & Ev). apply best_version_elem in F0 as [Hl Hlo].
    simpl in Hl. rewrite Hpv in Hl. exists a, l. split_and!; [done|congruence|by rewrite Hpv|done|done|].
    rewrite <-Ed. eapply stored_chained; [done..|congruence].
  - assert (∀ w2, tbl (R:=Order.row) (World.db w2) = tbl (World.db w') →
      tbl (World.db w2) = (tbl (World.db w') ++ [SqlProofStore.new_version u a p a0 t0])%list →
      stored_for p w2) as Hfin.
    { simpl. intros w2 Eo Ep. exists a, (SqlProofStore.new_version u a p a0 t0). rewrite Eo, Ep.
      split_and!; [done|congruence|apply elem_of_app; right; by left|done|done|simpl; congruence]. }
    exec_all; apply Hfin; by_dbs; reflexivity.
Qed.
#[export] Instance sql_proofs_laws : ProofsLaws sql_proofs.
Proof.
  split; intros.
  - apply serves_tx; [by apply tx_append|]. intros G. by apply append_stored.
  - apply reads_local; [|intros G; call latest_stored; [done|naive_solver]].
    unfold reads. simpl. unfold SqlProofStore.latest, SqlProofStore.latest_for_order, latest_version, latest_observation.
    respects_tx.
Qed.

(** ** Verifications, observations, bundles and messages *)

Lemma put_verified_checked id version v w :
  commits (SqlVerificationRepository.put_verified_once id version v) (λ _ w', checked id w') w.
Proof.
  unfold SqlVerificationRepository.put_verified_once, _insert_verification.
  exec. exec_case; [|by exec]. apply find_row_Some in F as [Ho Hid%bool_decide_eq_true].
  exec. exec_case; [|by exec]. exec. apply find_row_Some in F as [Hp Hpv].
  unfold this_version in Hpv. apply andb_prop in Hpv as [Hpo%bool_decide_eq_true Hpv%bool_decide_eq_true].
  apply negb_false_iff, bool_decide_eq_true in C.
  assert (∀ w2 q, tbl (R:=Order.row) (World.db w2) = tbl (World.db w) →
    tbl (R:=ProofVersion.row) (World.db w2) = tbl (World.db w) → q ∈ Db.proof_verifications (World.db w2) →
    ProofVerification.order_id q = a0 → ProofVerification.proof_version q = version → checked id w2) as Hfin.
  { simpl. intros w2 q Eo Ep Hq E1 E2. exists r. split_and!; [by rewrite Eo|congruence|].
    exists r0, q. split; [by rewrite Ep|congruence..]. }
  exec_case.
  - exec. apply find_row_Some in F0 as [Hv Hvv]. unfold this_verification in Hvv.
    apply andb_prop in Hvv as [?%bool_decide_eq_true ?%bool_decide_eq_true]. by eapply Hfin.
  - exec_all. eapply Hfin; [by_dbs; reflexivity|by_dbs; reflexivity|
      by_dbs; apply elem_of_app; right; apply list_elem_of_singleton; reflexivity|reflexivity|reflexivity].
Qed.
#[export] Instance sql_verifications_laws : VerificationsLaws sql_verifications.
Proof.
  split; intros.
  - apply serves_tx; [apply tx_verified|]. intros _. apply put_verified_checked.
  - apply serves_reads. unfold reads. simpl. unfold SqlVerificationRepository.get_verified, latest_observation.
    respects_tx.
Qed.
Lemma serves_tx_any {A} (m : M A) w : transaction (World.db w) m → serves m (λ _ _, True) w.
Proof. intros T. apply serves_tx; [done|]. intros _ a w' _. done. Qed.
#[export] Instance sql_observations_laws : ObservationsLaws sql_observations.
Proof.
  split; intros; [apply serves_tx_any, tx_observe|]. apply serves_reads. unfold reads. simpl.
  unfold SqlBitcoinConfirmationObservations.latest, latest_observation. respects_tx.
Qed.
#[export] Instance sql_bundles_laws : BundlesLaws sql_bundles.
Proof. intros id version bundle w. apply serves_tx_any, tx_bundle. Qed.
#[export] Instance sql_outbox_laws : OutboxLaws sql_outbox.
Proof. intros message w. apply serves_tx_any, tx_outbox. Qed.

(** ** Other processes between the calls

    [between other m]: anything the rest of the service does ([other]), then [m]. *)
Definition between {A} (other : M unit) (m : M A) : M A := do! other in m.

Section Between.
Context (other : M unit) (Hother : respects service other).
Lemma serves_between {A} (m : M A) (P : World.t → Prop) `{!Stable P} Q w :
  P w → (∀ w', P w' → serves m Q w') → serves (between other m) Q w.
Proof.
  intros HP Hm. apply serves_reach. intros Hr. unfold between.
  eapply serves_bind; [by apply serves_outside|]. intros ? w' S _ _. apply Hm.
  by apply (stable (P:=P) w w').
Qed.
#[export] Instance true_stable : Stable (λ _, True).
Proof. done. Qed.
#[export] Instance may_transition_stable id target :
  Stable (λ w, under_way id w ∧ may_enter (World.db w) id target).
Proof.
  intros w w' Hr S [Hu (o & Ho & Hi & Hm)]. split; [by eapply under_way_stable|].
  destruct (order_ahead _ _ _ Hr S Ho) as (o' & Ho' & [E Er Ed Hk]). exists o'. split_and!; [done|congruence|].
  destruct Hm as [Hm|Hm]; [left; lia|right].
  eapply supported_grows, Hm; [apply (kp_grows _ _ (service_kept _ _ Hr S))|by split|done].
Qed.

Definition orders_between (orders : FulfillmentRepository) : FulfillmentRepository := {|
  get_for_fulfillment id := between other (get_for_fulfillment orders id);
  transition_fulfillment_once id target key calendar :=
    between other (transition_fulfillment_once orders id target key calendar) |}.
Definition proofs_between (proofs : ProofStore) : ProofStore := {|
  proofs_append p := between other (proofs_append proofs p);
  proofs_latest reference := between other (proofs_latest proofs reference) |}.
Definition verifications_between (verifications : VerificationRepository) : VerificationRepository := {|
  put_verified_once id version v := between other (put_verified_once verifications id version v);
  get_verified id version := between other (get_verified verifications id version) |}.
Definition observations_between (observations : ConfirmationObservationRepository)
    : ConfirmationObservationRepository := {|
  record_once id version key v := between other (record_once observations id version key v);
  observations_latest id version := between other (observations_latest observations id version) |}.
Definition bundles_between (bundles : BundleRepository) : BundleRepository := {|
  put_once id version bundle := between other (put_once bundles id version bundle) |}.
Definition outbox_between (outbox : OutboxPort) : OutboxPort := {|
  enqueue message := between other (enqueue outbox message) |}.

Ltac between_law L := simpl; apply (serves_between _ (λ _, True)); [done|intros; apply L].
Lemma orders_between_laws `{!OrdersLaws orders} : OrdersLaws (orders_between orders).
Proof.
  split; intros; [between_law orders_get|].
  apply (serves_between _ (λ w, under_way id w ∧ may_enter (World.db w) id target)); [done|].
  intros w' []. by apply orders_transition.
Qed.
Lemma proofs_between_laws `{!ProofsLaws proofs} : ProofsLaws (proofs_between proofs).
Proof. split; intros; [|between_law proofs_latest_law]. between_law proofs_append_law; done. Qed.
Lemma verifications_between_laws `{!VerificationsLaws verifications} :
  VerificationsLaws (verifications_between verifications).
Proof. split; intros; [between_law put_verified_law|between_law get_verified_law]. Qed.
Lemma observations_between_laws `{!ObservationsLaws observations} :
  ObservationsLaws (observations_between observations).
Proof. split; intros; [between_law record_once_law|between_law observations_latest_law]. Qed.
Lemma bundles_between_laws `{!BundlesLaws bundles} : BundlesLaws (bundles_between bundles).
Proof. intros ? ? ? ?. between_law put_once_law. Qed.
Lemma outbox_between_laws `{!OutboxLaws outbox} : OutboxLaws (outbox_between outbox).
Proof. intros ? ?. between_law enqueue_law. Qed.
End Between.
