(* ===== verification/Refine.v ===== *)
(** * The processes are runs of the service

    The fulfillment handlers, the worker, the checkout and webhook services, the routes and
    the operator commands, verified against the laws of the adapters they use: whatever they
    do, raise or are cut short by, is a run of the transition system of [System], so that
    the theorems of [Service] hold of the databases they leave. *)
From S2P Require Import Prelude PyStr Uuid Domain Ports Db Session Exec Evolution OrderLife Tasks Jobs Store Settings Payments Proofs Outbox Ots Handlers Worker Operator JobLife OrderOps Evidence Api System Serves Adapters.

Open Scope Z_scope.
Import PaymentState FulfillmentState.

(** ** The fulfillment handlers *)

Section HandlersServe.
Context (apply_op : Op → bytes → result bytes) (deserialize : bytes → option DetachedTimestampFile.t).
Context (orders : FulfillmentRepository) `{!OrdersLaws orders}.
Context (proofs : ProofStore) `{!ProofsLaws proofs}.
#[local] Abbreviation stored := (Ots.make_stored_proof apply_op deserialize).

Lemma load_serves id w : serves (_load orders id) (λ f w', seen id f w') w.
Proof.
  unfold _load. serve orders_get as o Ho. destruct o as [f|]; serves_step. by apply Ho.
Qed.
Lemma snapshot_serves f w :
  serves (snapshot_of f) (λ s _, OrderState.snapshot (FulfillmentOrder.state f) = Some s) w.
Proof. unfold snapshot_of. destruct (OrderState.snapshot _); by serves_step. Qed.

Lemma stored_proof_made reference version digest b state submitted v p :
  stored reference version digest b state submitted v = Ok p →
  StoredProof.ok p ∧ StoredProof.order_reference p = reference.
Proof.
  unfold Ots.make_stored_proof. intros (? & _ & (? & _ & H)%result_bind_Ok)%result_bind_Ok.
  apply StoredProof.post_init_id in H as [-> ?]. done.
Qed.
Lemma append_or_replay_serves reference p w :
  StoredProof.ok p → serves (append_or_replay proofs reference p) (λ _ w', stored_for p w') w.
Proof.
  intros Hok. unfold append_or_replay. apply serves_try; [by apply proofs_append_law|].
  intros e k w' _ _ E. destruct (is_ValueError e); simplify_eq.
  serve proofs_latest_law as r Hr. serves_step.
  apply negb_false_iff, bool_decide_eq_true in C. by apply (Hr p).
Qed.
(** A transition to a state that any order under way may enter, and one the proof allows. *)
Lemma plain_transition id target key calendar w :
  under_way id w → target ≠ CALENDAR_PENDING → target ≠ BITCOIN_VERIFIED → target ≠ DELIVERED →
  serves (transition_fulfillment_once orders id target key calendar) (λ f w', seen id f w') w.
Proof. intros Hu ? ? ?. apply orders_transition; [done|by apply started_may_enter]. Qed.
Lemma pending_transition id f s p key calendar w :
  seen id f w → under_way id w → OrderState.snapshot (FulfillmentOrder.state f) = Some s →
  stored_for p w → StoredProof.order_reference p = OrderSnapshot.order_reference s →
  serves (transition_fulfillment_once orders id CALENDAR_PENDING key calendar) (λ f w', seen id f w') w.
Proof.
  intros Hf Hu Hs Hp E. apply serves_reach. intros Hr. apply orders_transition; [done|].
  by eapply stored_may_enter.
Qed.

Lemma stamp_replay_serves id f s p w :
  seen id f w → OrderState.snapshot (FulfillmentOrder.state f) = Some s →
  stored_for p w → StoredProof.order_reference p = OrderSnapshot.order_reference s →
  serves (stamp_replay apply_op deserialize orders id f s p) (λ _ _, True) w.
Proof.
  intros Hf Hs Hp E. apply serves_reach. intros Hr. unfold stamp_replay.
  do 3 serves_step. apply serves_when; [|done]. intros Hq.
  here (under_way id) as Hu; [eapply seen_started; [done|]; intros Ea; by rewrite Ea in Hq|].
  eapply (serves_bind _ _ (λ _ _, True)).
  { apply serves_when; [|done]. intros _. serve plain_transition; [done..|]. by serves_step. }
  intros ? w2 S2 ? _. carry. eapply serves_bind; [by eapply pending_transition|].
  intros. by serves_step.
Qed.
(** The calls to the calendars and to Bitcoin. *)
Lemma respects_calendar {A} a b (m : M A) (f : A → result unit) :
  respects service m → respects service (calendar_errors a b (let! x := m in do! lift (f x) in ret x)).
Proof.
  intros Hm. unfold calendar_errors. respects_step; [respects_step; [done|respects_solve]|].
  destruct e; try destruct (is_Exception _); simplify_eq; respects_solve.
Qed.
Lemma verify_serves bitcoin `{!BitcoinOutside bitcoin} digest b w :
  serves (_verify_bitcoin bitcoin digest b) (λ _ _, True) w.
Proof.
  apply serves_outside. unfold _verify_bitcoin. respects_step; [apply verify_outside|].
  destruct e; simplify_eq; respects_solve.
Qed.
Lemma stamp_handler_serves timestamper `{!TimestamperOutside timestamper} id w :
  serves (StampHandler apply_op deserialize orders proofs timestamper id) (λ _ _, True) w.
Proof.
  apply serves_reach. intros Hr. unfold StampHandler.
  serve load_serves as f Hf. serve snapshot_serves as s Hs. serve proofs_latest_law as latest Hl.
  destruct latest as [p|].
  { destruct (Hl p eq_refl). by eapply stamp_replay_serves. }
  clear Hl. serves_step.
  eapply (serves_bind _ _ (λ f' w', seen id f' w')).
  { serves_case; [|by apply serves_ret]. apply plain_transition; [|done..].
    eapply seen_started; [done|]. apply bool_decide_eq_true in B. by rewrite B. }
  intros f' w4 ? ? Hf'. carry. serves_step. apply negb_false_iff, bool_decide_eq_true in C0.
  here (under_way id) as Hu; [by eapply seen_started; [|rewrite C0]|].
  eapply serves_bind.
  { apply serves_outside. apply respects_calendar, stamp_outside. }
  intros pending w5 ? ? _. carry. serves_step. apply stored_proof_made in E as [Hok Eref].
  serve append_or_replay_serves as ? Hst; [done|].
  serve plain_transition as ? _; [done..|].
  eapply serves_bind; [by eapply (pending_transition _ f)|]. intros. by serves_step.
Qed.

Section Upgrade.
Context (timestamper : Timestamper) `{!TimestamperOutside timestamper}.
Context (bitcoin : BitcoinVerifier) `{!BitcoinOutside bitcoin}.
Context (verifications : VerificationRepository) `{!VerificationsLaws verifications}.
Context (observations : ConfirmationObservationRepository) `{!ObservationsLaws observations}.

Lemma reverify_serves id f s p w :
  seen id f w → fulfillment_of f ≠ AWAITING_PAYMENT →
  serves (reverify orders bitcoin observations id f s p) (λ _ _, True) w.
Proof.
  intros Hf Hn. apply serves_reach. intros Hr. unfold reverify. serve verify_serves as v _.
  repeat serves_step. serves_case; [|by serves_step]. repeat serves_step.
  serve record_once_law as ob _. serves_step.
  eapply serves_bind; [apply orders_transition; [by eapply seen_started|by apply seen_may_enter]|].
  intros. by serves_step.
Qed.
Lemma append_upgraded_serves s p b w :
  stored_for p w → StoredProof.order_reference p = OrderSnapshot.order_reference s →
  serves (append_upgraded apply_op deserialize proofs s p b) (λ _ _, True) w.
Proof.
  intros Hp E. apply serves_reach. intros Hr. unfold append_upgraded. serves_case; [by serves_step|].
  serves_step. apply stored_proof_made in E0 as [Hok Eref]. serve append_or_replay_serves; [done|].
  by serves_step.
Qed.
Lemma upgrade_handler_serves id w :
  serves (UpgradeHandler apply_op deserialize orders proofs timestamper bitcoin verifications observations id)
    (λ _ _, True) w.
Proof.
  apply serves_reach. intros Hr. unfold UpgradeHandler.
  serve load_serves as f Hf. serve snapshot_serves as s Hs. serve proofs_latest_law as latest Hl.
  serves_case; [|by serves_step]. destruct (Hl _ eq_refl) as [Hst Est]. clear Hl. do 2 serves_step. serves_case.
  { apply reverify_serves; [done|]. intros Ea. by rewrite Ea in B0. }
  serves_step. apply negb_false_iff, bool_decide_eq_true in C0.
  eapply serves_bind; [apply serves_outside, respects_calendar, upgrade_outside|].
  intros b ? ? ? _. carry. here (under_way id) as Hu; [by eapply seen_started; [|rewrite C0]|].
  serve append_upgraded_serves as p _; [done..|]. serve verify_serves as v _. serves_step.
  serve put_verified_law as ? Hc. serves_step. serve record_once_law as ob _.
  eapply serves_bind; [apply orders_transition; [done|by apply checked_may_enter]|].
  intros. by serves_step.
Qed.
End Upgrade.

Section Delivery.
Context (bitcoin : BitcoinVerifier) `{!BitcoinOutside bitcoin}.
Context (bundler : ProofBundler) `{!BundlerOutside bundler}.
Context (verifications : VerificationRepository) `{!VerificationsLaws verifications}.
Context (observations : ConfirmationObservationRepository) `{!ObservationsLaws observations}.
Context (bundles : BundleRepository) `{!BundlesLaws bundles} (outbox : OutboxPort) `{!OutboxLaws outbox}.

Lemma delivery_handler_serves service_version id w :
  serves (DeliveryHandler orders proofs bundler bundles verifications observations outbox service_version id)
    (λ _ _, True) w.
Proof.
  apply serves_reach. intros Hr. unfold DeliveryHandler.
  serve load_serves as f Hf. do 2 serves_step. serve snapshot_serves as s Hs.
  serve proofs_latest_law as latest Hl. serves_case; [|by serves_step]. clear Hl. serves_step.
  serve get_verified_law as v _. do 2 serves_step. serve observations_latest_law as ob _.
  serves_case; [|by serves_step]. repeat serves_step.
  eapply serves_bind; [apply serves_outside, build_outside|]. intros. carry.
  serve put_once_law. serves_step. apply enqueue_law.
Qed.
Lemma confirmation_handler_serves id w :
  serves (ConfirmationHandler apply_op deserialize orders proofs bitcoin verifications observations outbox id)
    (λ _ _, True) w.
Proof.
  apply serves_reach. intros Hr. unfold ConfirmationHandler.
  serve load_serves as f Hf. serves_step. serve snapshot_serves as s Hs.
  serve proofs_latest_law as latest Hl. serves_case; [|by serves_step]. clear Hl. serves_step.
  serve get_verified_law as v _. serve observations_latest_law as ob _.
  do 2 (serves_case; [|by serves_step]). serve verify_serves as current _. repeat serves_step.
  serves_case; [|by serves_step]. repeat serves_step.
  serve record_once_law as o _. repeat serves_step. apply enqueue_law.
Qed.
End Delivery.
Lemma terminal_serves id code w :
  under_way id w → serves (TerminalFailureHandler orders id code) (λ _ _, True) w.
Proof.
  intros Hu. unfold TerminalFailureHandler. apply serves_reach. intros Hr.
  serve plain_transition; [done..|]. by serves_step.
Qed.
End HandlersServe.

(** ** Code without a condition *)

Lemma respects_transaction {A} (m : M A) : (∀ d, transaction d m) → respects service m.
Proof. intros H w. apply rtc_once. by eapply sys_tx. Qed.
Lemma respects_reading {A} (m : M A) : reads m → respects service m.
Proof. intros H w. apply rtc_once, sys_env. symmetry. apply H. Qed.
Ltac is_tx L := apply respects_transaction; intros ?; apply L.
#[export] Hint Extern 3 (respects service _) =>
  solve [apply respects_reading; unfold reads; respects_tx] : respects.

Section TasksServe.
Context (creator : TaskCreator) (Hcreator : ∀ name payload at_, respects service (creator name payload at_)).

Lemma dispatch_respects job generation : respects service (TaskDispatchCoordinator.dispatch creator job generation).
Proof.
  unfold TaskDispatchCoordinator.dispatch. respects_step; [eauto with respects|].
  respects_step; [|respects_solve]. respects_step; [respects_solve|].
  respects_step; [|is_tx tx_dispatched].
  respects_step; [respects_solve; apply Hcreator|]. destruct (is_Exception e); simplify_eq.
  respects_step; [|respects_solve]. is_tx tx_failed.
Qed.
Lemma dispatch_all_respects l : respects service (TaskDispatchCoordinator.dispatch_all creator l).
Proof.
  unfold TaskDispatchCoordinator.dispatch_all. respects_step. respects_step. respects_step; [|respects_solve].
  apply dispatch_respects.
Qed.
Lemma reconcile_respects limit order_id :
  respects service (TaskDispatchCoordinator.reconcile creator limit order_id).
Proof.
  unfold TaskDispatchCoordinator.reconcile. respects_step; [respects_solve|].
  respects_step; [unfold TaskDispatchCoordinator.pending_query; eauto with respects|].
  cbv zeta. respects_step; [apply dispatch_all_respects|respects_solve].
Qed.
Lemma recover_stale_respects grace limit now :
  respects service (TaskDispatchCoordinator.recover_stale_dispatched creator grace limit now).
Proof.
  unfold TaskDispatchCoordinator.recover_stale_dispatched. respects_step; [respects_solve|].
  respects_step; [respects_solve|]. respects_step; [eauto with respects|]. respects_step; [respects_solve|].
  cbv zeta. respects_step; [is_tx tx_recover|].
  respects_step; [apply dispatch_all_respects|respects_solve].
Qed.
End TasksServe.

(** ** Jobs *)

Definition CreatorOutside (task_dispatch : option TaskCreator) : Prop :=
  ∀ creator, task_dispatch = Some creator → ∀ name payload at_, respects service (creator name payload at_).

Section JobsServe.
Context (task_dispatch : option TaskCreator) (Hcreator : CreatorOutside task_dispatch).

Lemma dispatch_if_respects target : respects service (dispatch_if task_dispatch target).
Proof.
  unfold dispatch_if. destruct target as [[job generation]|]; [|respects_solve].
  destruct task_dispatch as [creator|] eqn:E; [|respects_solve].
  respects_step; [by apply dispatch_respects, Hcreator|respects_solve].
Qed.
Lemma finish_respects job outcome now retry_at code :
  respects service (SqlJobClaimStore.finish task_dispatch job outcome now retry_at code).
Proof.
  unfold SqlJobClaimStore.finish. respects_step; [is_tx tx_finish|]. apply dispatch_if_respects.
Qed.
Lemma heartbeat_respects job worker attempt until :
  respects service (SqlJobClaimStore.heartbeat job worker attempt until).
Proof. is_tx tx_heartbeat. Qed.
Lemma enqueue_once_serves spec available w :
  under_way (JobSpec.order_id spec) w →
  serves (SqlJobClaimStore.enqueue_once task_dispatch spec available) (λ _ _, True) w.
Proof.
  intros Hu. apply serves_reach. intros Hr. unfold SqlJobClaimStore.enqueue_once. serves_step.
  eapply (serves_bind _ _ (λ _ _, True)).
  - apply serves_try.
    + eapply serves_bind; [apply serves_tx_any; by apply tx_enqueue|]. intros. by serves_step.
    + intros e k ? ? ? E. destruct (e == IntegrityError); simplify_eq.
      apply serves_outside. respects_step; [eauto with respects|respects_solve].
  - intros [created target] ? ? ? _. eapply serves_bind; [apply serves_outside, dispatch_if_respects|].
    intros. by serves_step.
Qed.
Lemma job_spec_order key kind order_id spec : job_spec key kind order_id = Ok spec → JobSpec.order_id spec = order_id.
Proof. unfold job_spec, JobSpec.post_init. destruct (_ || _); [done|]. by intros [= <-]. Qed.
Lemma enqueue_job_serves key kind order_id available w :
  under_way order_id w → serves (enqueue_job task_dispatch key kind order_id available) (λ _ _, True) w.
Proof.
  intros Hu. apply serves_reach. intros Hr. unfold enqueue_job. serves_step.
  apply job_spec_order in E. eapply serves_bind; [apply enqueue_once_serves; by rewrite E|].
  intros. by serves_step.
Qed.
Lemma enqueue_poll_serves prefix kind order_id interval w :
  under_way order_id w → serves (enqueue_poll task_dispatch prefix kind order_id interval) (λ _ _, True) w.
Proof.
  intros Hu. apply serves_reach. intros Hr. unfold enqueue_poll. serves_step. by apply enqueue_job_serves.
Qed.

(** The job handlers, around handlers that serve the order. *)
Context (orders : FulfillmentRepository) `{!OrdersLaws orders}.
Context (handler : string → M unit) (Hhandler : ∀ id w, serves (handler id) (λ _ _, True) w).

Lemma unless_pending_serves id poll w :
  under_way id w → (∀ w', under_way id w' → serves poll (λ _ _, True) w') →
  serves (unless_pending (handler id) poll) (λ _ _, True) w.
Proof.
  intros Hu Hp. apply serves_reach. intros Hr. unfold unless_pending. apply serves_try.
  - serve Hhandler. by serves_step.
  - intros e k w' ? ? E. destruct e; simplify_eq. carry. serve Hp; [done|]. by serves_step.
Qed.
Lemma stamp_job_serves id w :
  under_way id w → serves (StampJobHandler task_dispatch handler id) (λ _ _, True) w.
Proof.
  intros Hu. apply serves_reach. intros Hr. unfold StampJobHandler. serve Hhandler. serves_step.
  by apply enqueue_job_serves.
Qed.
Lemma upgrade_job_serves id w :
  under_way id w → serves (UpgradeJobHandler task_dispatch orders handler id) (λ _ _, True) w.
Proof.
  intros Hu. apply serves_reach. intros Hr. unfold UpgradeJobHandler.
  serve unless_pending_serves as finished _; [done|intros; by apply enqueue_poll_serves|].
  serves_case; [by serves_step|]. serve orders_get as o _. serves_case; [|by serves_step].
  apply serves_when; [|done]. intros _. serves_step. by apply enqueue_job_serves.
Qed.
Lemma delivery_job_serves id w :
  under_way id w → serves (DeliveryJobHandler task_dispatch handler id) (λ _ _, True) w.
Proof.
  intros Hu. apply serves_reach. intros Hr. unfold DeliveryJobHandler. serve Hhandler.
  by apply enqueue_poll_serves.
Qed.
Lemma confirmation_job_serves id w :
  under_way id w → serves (ConfirmationJobHandler task_dispatch handler id) (λ _ _, True) w.
Proof.
  intros Hu. apply serves_reach. intros Hr. unfold ConfirmationJobHandler.
  serve unless_pending_serves; [done|intros; by apply enqueue_poll_serves|]. by serves_step.
Qed.
End JobsServe.

(** *** Claims *)

Lemma lease_order job worker now lease_for w :
  commits (SqlJobClaimStore._lease job worker now lease_for)
    (λ c _, JobSpec.order_id (ClaimedJob.spec c) = str_uuid (DurableJob.order_id job)) w.
Proof.
  unfold SqlJobClaimStore._lease. exec. cbv zeta. exec. unfold JobSpec.post_init in *.
  destruct (_ || _) in *; simplify_eq. done.
Qed.
Lemma manned_under_way d j : good d → manned d j → order_started d (str_uuid (DurableJob.order_id j)).
Proof.
  intros G (o & Ho & Hi & Hs). exists o. split_and!; [done| |done].
  assert (row_check o = true) as Hc by (apply (tbl_wf_check (tbl d)); [apply db_wf_tbl, (gd_wf _ G)|done]).
  simpl in Hc. unfold Order.check in Hc. rewrite !andb_true_iff in Hc.
  unfold _uuid. rewrite <-Hi, UUID_str by lia. done.
Qed.
Lemma claim_serves worker now lease_for w :
  serves (SqlJobClaimStore.claim worker now lease_for)
    (λ r w', ∀ c, r = Some c → under_way (JobSpec.order_id (ClaimedJob.spec c)) w') w.
Proof.
  apply serves_reach. intros Hr. eapply serves_mono.
  - apply (serves_tx _ (λ r _, ∀ c, r = Some c → under_way (JobSpec.order_id (ClaimedJob.spec c)) w));
      [apply tx_claim|]. intros G. unfold SqlJobClaimStore.claim, SqlJobClaimStore.claim_query.
    exec. exec_case; [|by exec]. exec_step. call lease_order. exec. intros c [= <-]. unfold under_way.
    rewrite H. apply manned_under_way; [done|]. apply (gd_manned _ G).
    apply head_elem in B. subst. by apply elem_of_ordered in B as [].
  - intros r w' S ? H c E. by eapply under_way_stable, H.
Qed.
Lemma claim_specific_serves job generation worker now lease_for w :
  serves (SqlJobClaimStore.claim_specific job generation worker now lease_for)
    (λ r w', ∀ c, r = Some c → under_way (JobSpec.order_id (ClaimedJob.spec c)) w') w.
Proof.
  apply serves_reach. intros Hr. eapply serves_mono.
  - apply (serves_tx _ (λ r _, ∀ c, r = Some c → under_way (JobSpec.order_id (ClaimedJob.spec c)) w));
      [apply tx_claim_specific|]. intros G. unfold SqlJobClaimStore.claim_specific.
    exec. exec_case; [|by exec]. exec. exec_case; [|by exec]. apply find_row_Some in F as [Hj _].
    exec. do 2 (exec_case; [by exec|]). exec. exec_case; [by exec|]. exec_step. call lease_order. exec.
    intros c [= <-]. unfold under_way. rewrite H. by apply manned_under_way, (gd_manned _ G).
  - intros r w' S ? H c E. by eapply under_way_stable, H.
Qed.

(** ** The worker *)

(** The race of a handler with its heartbeat: as long as running the handler, from here or
    later, is a run of the service, so is the race. *)
Definition SuperviseOutside (supervise : ClaimedJob.t → M unit → M Race) : Prop :=
  ∀ job m w, reachable w →
    (∀ w', service w w' → reachable w' → service w' (m w').2) → service w (supervise job m w).2.

Section WorkerServes.
Context (worker_id : string) (lease_for : Z) (task_dispatch : option TaskCreator).
Context (Hcreator : CreatorOutside task_dispatch).
Context (handlers : string → option (string → M unit)).
Context (Hhandlers : ∀ kind h, handlers kind = Some h →
  ∀ id w, under_way id w → serves (h id) (λ _ _, True) w).
Context (terminal_failure : string → string → M unit).
Context (Hterminal : ∀ id code w, under_way id w → serves (terminal_failure id code) (λ _ _, True) w).
Context (supervise : ClaimedJob.t → M unit → M Race) (Hsupervise : SuperviseOutside supervise).
Context (retry_delay : Z → M Z) (Hdelay : ∀ n, respects service (retry_delay n)).

Lemma finish_serves job outcome code w :
  serves (Worker._finish task_dispatch job outcome code) (λ _ _, True) w.
Proof.
  apply serves_outside. unfold Worker._finish. respects_step; [respects_tx|]. by apply finish_respects.
Qed.
Lemma retry_or_exhaust_serves job code w :
  under_way (JobSpec.order_id (ClaimedJob.spec job)) w →
  serves (Worker._retry_or_exhaust task_dispatch terminal_failure retry_delay job code) (λ _ _, True) w.
Proof.
  intros Hu. unfold Worker._retry_or_exhaust. serves_case.
  - eapply serves_bind; [by apply Hterminal|]. intros. apply finish_serves.
  - apply serves_outside. respects_step; [eauto with respects|]. respects_step; [apply Hdelay|].
    respects_step; [eauto with respects|]. by apply finish_respects.
Qed.
Lemma settle_serves job error w :
  under_way (JobSpec.order_id (ClaimedJob.spec job)) w →
  serves (Worker.settle task_dispatch terminal_failure retry_delay job error) (λ _ _, True) w.
Proof.
  intros Hu. unfold Worker.settle. destruct error as [e|]; [|apply finish_serves].
  destruct e; first [by apply retry_or_exhaust_serves|apply serves_raise|
    eapply serves_bind; [by apply Hterminal|intros; apply finish_serves]].
Qed.
Lemma run_claimed_serves job w :
  under_way (JobSpec.order_id (ClaimedJob.spec job)) w →
  serves (Worker._run_claimed worker_id lease_for task_dispatch handlers terminal_failure supervise
            retry_delay job) (λ _ _, True) w.
Proof.
  intros Hu. apply serves_reach. intros Hr. unfold Worker._run_claimed. cbv zeta.
  destruct (handlers _) as [h|] eqn:Eh.
  - eapply (serves_bind _ _ (λ _ _, True)).
    { intros _. split; [|done]. apply Hsupervise; [done|]. intros w' S Hr'.
      by destruct (Hhandlers _ _ Eh _ w' (under_way_stable _ _ _ Hr S Hu) Hr'). }
    intros race ? ? ? _. carry. destruct race as [|error []]; [by serves_step..|]. serves_step.
    eapply serves_bind; [apply serves_outside, heartbeat_respects|]. intros held ? ? ? _. carry.
    serves_case; [by serves_step|]. by apply settle_serves.
  - eapply serves_bind; [by apply Hterminal|]. intros. apply finish_serves.
Qed.
Lemma run_specific_serves job generation w :
  serves (Worker.run_specific worker_id lease_for task_dispatch handlers terminal_failure supervise
            retry_delay job generation) (λ _ _, True) w.
Proof.
  apply serves_reach. intros Hr. unfold Worker.run_specific. serves_step.
  serve claim_specific_serves as r Hclaim. serves_case; [|by serves_step].
  eapply serves_bind; [by apply run_claimed_serves, Hclaim|]. intros. by serves_step.
Qed.
Lemma run_once_serves w :
  serves (Worker.run_once worker_id lease_for task_dispatch handlers terminal_failure supervise
            retry_delay) (λ _ _, True) w.
Proof.
  apply serves_reach. intros Hr. unfold Worker.run_once. serves_step.
  serve claim_serves as r Hclaim. serves_case; [|by serves_step].
  eapply serves_bind; [by apply run_claimed_serves, Hclaim|]. intros. by serves_step.
Qed.
Lemma run_forever_serves idle n w :
  serves (Worker.run_forever worker_id lease_for task_dispatch handlers terminal_failure supervise
            retry_delay idle n) (λ _ _, True) w.
Proof.
  unfold Worker.run_forever. eapply serves_bind; [by apply (serves_raise_if _ _ (λ _ _, True))|]. intros _ w1 _ _ _.
  revert w1. induction n as [|n IH]; intros w1; [by apply serves_ret|].
  eapply serves_bind; [apply run_once_serves|]. intros _ w2 _ _ _. apply IH.
Qed.
End WorkerServes.

(** The heartbeats of a race are steps of the service. *)
Lemma heartbeat_loop_respects worker_id lease_for job waits :
  respects service (Worker._heartbeat worker_id lease_for job waits).
Proof.
  induction waits as [|[] waits IH]; simpl; [respects_solve..|].
  respects_step; [respects_tx|]. respects_step; [apply heartbeat_respects|]. respects_step; [apply IH|respects_solve].
Qed.
Lemma beating_outside worker_id lease_for waits : SuperviseOutside (Worker.beating worker_id lease_for waits).
Proof.
  intros job m w Hr Hm.
  assert (serves (Worker.beating worker_id lease_for waits job m) (λ _ _, True) w) as [S _]; [|done..].
  unfold Worker.beating. eapply (serves_bind _ _ (λ _ _, True)); [apply serves_outside, heartbeat_loop_respects|].
  intros lost w1 S1 Hr1 _. case_bool_decide; [by apply serves_ret|]. apply serves_try.
  - eapply (serves_bind _ _ (λ _ _, True)); [by intros _; split; [apply Hm|]|]. intros. by apply serves_ret.
  - intros e k w2 _ _ [= <-]. by apply serves_ret.
Qed.

Lemma build_worker_serves apply_op deserialize task_dispatch timestamper bitcoin bundler version :
  CreatorOutside task_dispatch → TimestamperOutside timestamper → BitcoinOutside bitcoin →
  BundlerOutside bundler → ∀ kind h,
  worker_handlers apply_op deserialize task_dispatch timestamper bitcoin bundler version kind = Some h →
  ∀ id w, under_way id w → serves (h id) (λ _ _, True) w.
Proof.
  intros Hc Ht Hb Hbu kind h Hh id w Hu. unfold worker_handlers in Hh.
  repeat (destruct (kind == _) in Hh; [injection Hh as <-|]); [..|done].
  - apply stamp_job_serves; [done| |done]. intros. exact (stamp_handler_serves _ _ sql_orders sql_proofs _ _ _).
  - apply upgrade_job_serves; [done|apply _| |done]. intros.
    exact (upgrade_handler_serves _ _ sql_orders sql_proofs _ _ sql_verifications sql_observations _ _).
  - apply delivery_job_serves; [done| |done]. intros.
    exact (delivery_handler_serves sql_orders sql_proofs _ sql_verifications sql_observations sql_bundles
             sql_outbox _ _ _).
  - apply confirmation_job_serves; [done| |done]. intros.
    exact (confirmation_handler_serves _ _ sql_orders sql_proofs _ sql_verifications sql_observations
             sql_outbox _ _).
Qed.

(** ** Checkout *)

(** A payment provider, during whose calls the rest of the service goes on. *)
Class ProviderOutside (p : PaymentProvider) : Prop := {
  create_checkout_outside request key : respects service (Payments.create_checkout p request key);
  retrieve_price_outside id : respects service (retrieve_price p id);
  verify_event_outside body signature tolerance : respects service (verify_event p body signature tolerance);
  resolve_outside event : respects service (resolve_internal_order_id p event);
  retrieve_checkout_outside session : respects service (retrieve_checkout p session) }.
#[export] Hint Resolve create_checkout_outside retrieve_price_outside verify_event_outside resolve_outside
  retrieve_checkout_outside : respects.

Section PaymentsServe.
Context (check_netloc : string → bool) (settings : Settings.t) (store : OrderStore.t).
Context (provider : PaymentProvider) `{!ProviderOutside provider}.

Lemma checkout_price_respects : respects service (CheckoutService.get_checkout_price settings provider).
Proof. unfold CheckoutService.get_checkout_price. respects_solve. Qed.
Lemma create_respects request binding now random_bytes :
  respects service (CheckoutService.create check_netloc settings store provider request binding now random_bytes).
Proof.
  unfold CheckoutService.create. do 4 (respects_step; [respects_solve|]). respects_step.
  { unfold CheckoutService._reserve. respects_step; [is_tx tx_reserve|].
    destruct (e == IntegrityError); simplify_eq. is_tx tx_resume. }
  respects_step; [|respects_solve]. respects_step.
  { unfold CheckoutService._call_provider. respects_step; [apply checkout_price_respects|]. respects_solve. }
  respects_step; [respects_solve|]. respects_step; [eauto with respects|]. is_tx tx_finalize.
Qed.

(** ** Webhooks *)

Lemma process_respects raw_body signature now :
  respects service (WebhookService.process settings provider raw_body signature now).
Proof.
  unfold WebhookService.process, WebhookService.process_fresh.
  do 3 (respects_step; [respects_solve|]). cbv zeta. respects_step; [eauto with respects|].
  respects_step; [respects_solve|]. respects_step; [respects_solve|]. respects_step.
  { unfold OrderStore.find_order_for_event. apply respects_reading. unfold reads. respects_tx. }
  respects_step; [respects_solve|]. respects_step; [is_tx tx_payment|].
  unfold WebhookService.process_race in *. destruct (e == IntegrityError); simplify_eq.
  respects_step; [eauto with respects|respects_solve].
Qed.
End PaymentsServe.

(** ** The routes *)

Section RoutesServe.
Context (settings : Settings.t) (store : OrderStore.t) (proof_store : bool).
Context (proof_bundler : option ProofBundler).
Context (Hbundler : ∀ b, proof_bundler = Some b → BundlerOutside b).

Lemma create_checkout_respects checkout payload model_dump key :
  (∀ create, checkout = Some create → ∀ i b n r, respects service (create i b n r)) →
  respects service (create_checkout checkout payload model_dump key).
Proof.
  intros Hc. unfold create_checkout. destruct checkout as [create|]; [|respects_solve].
  destruct key; [|respects_solve]. respects_step.
  - do 4 (respects_step; [eauto with respects|]). by apply Hc.
  - destruct (is_ValueError e); [|destruct e]; simplify_eq; respects_solve.
Qed.
Lemma stripe_webhook_respects webhook task_dispatch raw_body signature :
  (∀ process, webhook = Some process → ∀ b s n, respects service (process b s n)) →
  CreatorOutside task_dispatch →
  respects service (stripe_webhook webhook task_dispatch raw_body signature).
Proof.
  intros Hp Hc. unfold stripe_webhook. destruct webhook as [process|]; [|respects_solve].
  destruct signature; [|respects_solve]. cbv zeta. respects_step.
  { respects_step; [respects_step; [eauto with respects|]; by apply Hp|].
    destruct (is_ValueError e); [|destruct e]; simplify_eq; respects_solve. }
  respects_step; [respects_solve|]. respects_step; [|respects_solve].
  destruct task_dispatch as [creator|] eqn:E; [|respects_solve]. respects_step.
  - respects_step; [by apply reconcile_respects, Hc|respects_solve].
  - destruct e; simplify_eq; respects_solve.
Qed.
Lemma authenticate_reads token now : reads (OrderStore.authenticate store token now).
Proof. unfold reads, OrderStore.authenticate. respects_tx. Qed.
Lemma status_proof_reads order : reads (status_proof proof_store proof_bundler order).
Proof.
  unfold reads, status_proof, SqlProofStore.latest_for_order, latest_version, latest_observation,
    _valid_delivery_sender.
  repeat first [progress respects_tx | apply respects_value_error_to; [apply _|] ].
Qed.
Lemma order_status_reads authorization :
  reads (order_status store proof_store proof_bundler authorization).
Proof.
  unfold reads, order_status. do 2 (respects_step; [respects_tx|]).
  respects_step; [apply authenticate_reads|]. respects_step; [|respects_tx].
  respects_step; [|respects_tx]. respects_step; [apply status_proof_reads|respects_tx].
Qed.
Lemma rotate_token_respects authorization : respects service (rotate_token store authorization).
Proof.
  unfold rotate_token. do 2 (respects_step; [eauto with respects|]). is_tx tx_rotate.
Qed.
Lemma proof_bundle_respects authorization :
  respects service (proof_bundle settings store proof_store proof_bundler authorization).
Proof.
  unfold proof_bundle. do 2 (respects_step; [respects_solve|]). respects_step; [is_tx tx_select|].
  respects_step; [respects_solve|]. destruct proof_bundler as [b|] eqn:E; [|respects_solve].
  do 3 (respects_step; [respects_solve|]). pose proof (Hbundler _ eq_refl).
  respects_step; [apply build_outside|].
  respects_step; [is_tx tx_download|respects_solve].
Qed.
End RoutesServe.

(** ** Operator commands *)

Section OperatorServe.
Context (apply_op : Op → bytes → result bytes) (deserialize : bytes → option DetachedTimestampFile.t).
Context (task_dispatch : option TaskCreator) (Hcreator : CreatorOutside task_dispatch).
Context (orders : FulfillmentRepository) `{!OrdersLaws orders}.
Context (proofs : ProofStore) `{!ProofsLaws proofs}.

Lemma replay_serves job w :
  serves (SqlOperatorCommands.replay apply_op deserialize task_dispatch orders proofs job) (λ _ _, True) w.
Proof.
  apply serves_reach. intros Hr. unfold SqlOperatorCommands.replay. serves_step.
  eapply serves_bind; [apply serves_tx_any, tx_replay|]. intros outcome ? ? ? _. serves_case.
  - eapply (serves_bind _ _ (λ _ _, True)); [|intros; apply serves_raise].
    unfold SqlOperatorCommands._validate_terminal_recovery.
    serve orders_get as o _. serves_case; [|apply serves_raise]. serves_step. serve snapshot_serves as s _.
    serve proofs_latest_law as p _. serves_case; [|apply serves_raise]. do 2 serves_step.
    by apply serves_lift; intros.
  - apply serves_outside. by apply dispatch_if_respects.
Qed.
Lemma enqueue_proof_job_serves id prefix allowed request w :
  AWAITING_PAYMENT ∉ allowed →
  serves (SqlOperatorCommands._enqueue_proof_job task_dispatch orders proofs id prefix allowed request)
    (λ _ _, True) w.
Proof.
  intros Ha. apply serves_reach. intros Hr. unfold SqlOperatorCommands._enqueue_proof_job.
  serve orders_get as o Ho. serves_case; [|apply serves_raise].
  specialize (Ho _ eq_refl) as Hs. clear Ho. serves_step. apply negb_false_iff, bool_decide_eq_true in C.
  here (under_way id) as Hu; [eapply seen_started; [done|]; by intros E; rewrite E in C|].
  serve snapshot_serves as s _. serve proofs_latest_law as p _. serves_case; [|apply serves_raise].
  cbv zeta. serves_step. apply job_spec_order in E. serves_step.
  eapply serves_bind; [apply enqueue_once_serves; [done|by rewrite E]|]. intros. by serves_step.
Qed.
Lemma operator_reverify_serves id request w :
  serves (SqlOperatorCommands.reverify task_dispatch orders proofs id request) (λ _ _, True) w.
Proof.
  unfold SqlOperatorCommands.reverify. serves_step. apply enqueue_proof_job_serves. set_solver.
Qed.
Lemma operator_upgrade_serves id w :
  serves (SqlOperatorCommands.upgrade task_dispatch orders proofs id) (λ _ _, True) w.
Proof. apply enqueue_proof_job_serves. set_solver. Qed.
Lemma reconcile_tasks_respects limit :
  respects service (SqlOperatorCommands.reconcile_tasks task_dispatch limit).
Proof.
  unfold SqlOperatorCommands.reconcile_tasks. destruct task_dispatch as [creator|]; [|respects_solve].
  respects_step; [by apply reconcile_respects, Hcreator|respects_solve].
Qed.
Lemma recover_stale_tasks_respects limit grace :
  respects service (SqlOperatorCommands.recover_stale_tasks task_dispatch limit grace).
Proof.
  unfold SqlOperatorCommands.recover_stale_tasks. destruct task_dispatch as [creator|]; [|respects_solve].
  respects_step; [by apply recover_stale_respects, Hcreator|respects_solve].
Qed.
End OperatorServe.
