(* ===== verification/Scenario.v ===== *)
(** * One order, from checkout to delivery

    A run of the transactions on concrete arguments, in the fixture payment mode: checkout,
    payment, the two jobs of the worker, the notification and its delivery event.  It is
    evaluated by the kernel; the theorems about reachable databases have their witnesses
    here. *)
From S2P Require Import Prelude PyStr Sha256 Domain Tokens Ports Db Session Exec Evolution OrderLife Tasks Jobs Store Settings Payments Proofs Outbox Handlers Worker Operator JobLife OutboxLife Growth OrderOps Evidence Api System.

Open Scope string_scope.
Open Scope Z_scope.
Import PaymentState FulfillmentState.

Definition settings : Settings.t := Settings.defaults
  <| Settings.app_env := TEST |> <| Settings.payment_mode := PAY_FIXTURE |> <| Settings.checkout_enabled := true |>
  <| Settings.database_url := Some "postgresql://localhost/spacerocks" |>
  <| Settings.token_peppers := [(1, "0123456789abcdef0123456789abcdef")] |>
  <| Settings.active_token_pepper_version := Some 1 |>
  <| Settings.checkout_amount_minor := 4900 |> <| Settings.product_version := "1.0.0" |>
  <| Settings.expected_terms_version := "2026-01" |> <| Settings.expected_privacy_version := "2026-01" |>
  <| Settings.checkout_credential_grace_seconds := 300 |>.
Definition store : OrderStore.t := {|
  OrderStore.token_hasher := [(1, repeat x41 32)];
  OrderStore.active_pepper_version := 1;
  OrderStore.token_ttl := days 365 |}.

Definition start : Z := 1700000000000000.
Definition world0 : World.t := {|
  World.db := Db.empty;
  World.clock := λ n, start + seconds (Z.of_nat n); World.ticks := 0;
  World.uuids := λ n, 1000 + Z.of_nat n; World.draws := 0;
  World.secrets := λ n k, (Z.of_nat n * 31 + Z.of_nat k * 7) mod 256; World.drawn := 0 |}.

Definition after {A} (m : M A) (w : World.t) : World.t := (m w).2.
Definition result_of {A} (m : M A) (w : World.t) : result A := (m w).1.

(** ** Checkout *)

Definition digest : bytes := sha256 (encode "manifest").
Definition request : CheckoutInput.t := {|
  CheckoutInput.certificate_reference := "SR-2026-000001";
  CheckoutInput.manifest_digest := digest;
  CheckoutInput.email := "customer@example.test";
  CheckoutInput.terms_version := "2026-01";
  CheckoutInput.privacy_version := "2026-01";
  CheckoutInput.accepted_at := start |}.
Definition binding : IdempotencyBinding.t :=
  IdempotencyBinding.mk (sha256 (encode "key")) (sha256 (encode "request")) [].

Definition reserve : M CheckoutService.reserved :=
  CheckoutService.reserve_tx (λ _, true) settings store request binding start (repeat x07 10).
Definition reserved : World.t := after reserve world0.
Definition order0 : option Order.row := head (Db.orders (World.db reserved)).
Definition order_text : string := str_uuid 1000.
Definition reference : string := match order0 with Some o => Order.order_reference o | None => "" end.

Definition plan : CheckoutPlan.t := {|
  CheckoutPlan.reservation_id := 1002; CheckoutPlan.order_id := 1000;
  CheckoutPlan.order_reference := reference; CheckoutPlan.customer_email := "customer@example.test";
  CheckoutPlan.price_id := "fixture_price"; CheckoutPlan.amount_minor := 4900;
  CheckoutPlan.currency := "usd"; CheckoutPlan.success_url := "https://example.test/timestamp/status";
  CheckoutPlan.cancel_url := "https://example.test/timestamp/cancelled";
  CheckoutPlan.provider_idempotency_key := bytes_hex (sha256 (encode "key"));
  CheckoutPlan.lease_id := str_uuid 1001 |}.
Example reserve_plan : result_of reserve world0 = Ok (inl plan).
Proof. vm_compute. reflexivity. Qed.

Definition session : string := "cs_fixture_1".
Definition finalize : M CheckoutOutput.t :=
  CheckoutService._finalize settings store plan binding
    (HostedCheckoutResult.mk session "https://example.test/checkout/cs_fixture_1") (start + seconds 5).
Definition open : World.t := after finalize reserved.

(** ** Payment *)

Definition event : ProviderEvent.t := {|
  ProviderEvent.event_id := "evt_1"; ProviderEvent.event_type := "checkout.session.completed";
  ProviderEvent.livemode := false; ProviderEvent.internal_order_id := Some order_text;
  ProviderEvent.session_id := Some session; ProviderEvent.payment_intent_id := Some "pi_1";
  ProviderEvent.refund_status := None; ProviderEvent.refunded_amount := None |}.
Definition canonical : CanonicalCheckout.t := {|
  CanonicalCheckout.session_id := session; CanonicalCheckout.payment_intent_id := Some "pi_1";
  CanonicalCheckout.livemode := false; CanonicalCheckout.mode := "payment";
  CanonicalCheckout.status := "complete"; CanonicalCheckout.payment_status := "paid";
  CanonicalCheckout.metadata := [("order_id", order_text)]; CanonicalCheckout.price_id := "fixture_price";
  CanonicalCheckout.amount_total := 4900; CanonicalCheckout.currency := "usd";
  CanonicalCheckout.quantity := 1; CanonicalCheckout.refund_status := None;
  CanonicalCheckout.refunded_amount_total := 0 |}.
Definition payment : M WebhookResult.t :=
  WebhookService.process_tx settings event (sha256 (encode "body")) (Some canonical) (start + seconds 60).
Definition paid : World.t := after payment open.

(** ** The stamp *)

Definition claim : M (option ClaimedJob.t) :=
  SqlJobClaimStore.claim "worker-1" (start + seconds 61) (minutes 5).
Definition claimed : World.t := after claim paid.

Definition submitted : datetime := utc (start + seconds 70).
Definition move (target : FulfillmentState.t) (key : string) (calendar : option datetime) : M FulfillmentOrder.t :=
  SqlFulfillmentRepository.transition_fulfillment_once order_text target key calendar.
Definition stamping : World.t := after (move STAMPING "stamp-start-v1" None) claimed.

Definition proof : StoredProof.t := {|
  StoredProof.order_reference := reference; StoredProof.version := 1;
  StoredProof.target_digest := ManifestDigest.mk digest; StoredProof.proof_bytes := encode "proof";
  StoredProof.proof_sha256 := sha256 (encode "proof"); StoredProof.proof_state := PROOF_CALENDAR_PENDING;
  StoredProof.calendar_submitted_at := submitted; StoredProof.verification := None |}.
Definition proven : World.t := after (SqlProofStore.append proof) stamping.
Definition pending : World.t := after (move CALENDAR_PENDING "stamp-persisted-v1" (Some submitted)) proven.

(** ** The confirmation *)

Definition verification : BitcoinVerification.t := {|
  BitcoinVerification.verified := true; BitcoinVerification.method := "bitcoin_core";
  BitcoinVerification.verified_at := Some (utc (start + hours 2));
  BitcoinVerification.block_height := Some 820000;
  BitcoinVerification.block_hash := Some (bytes_hex (sha256 (encode "block")));
  BitcoinVerification.block_time := Some (utc (start + hours 1));
  BitcoinVerification.confirmation_policy := Some "one_confirmation";
  BitcoinVerification.confirmations := Some 1 |}.
Definition verify : M unit := SqlVerificationRepository.put_verified_once order_text 1 verification.
Definition checked : World.t := after verify pending.
Definition observe : M ConfirmationObservation.t :=
  SqlBitcoinConfirmationObservations.record_once order_text 1 "bitcoin-observed-v1-1" verification.
Definition observed : World.t := after observe checked.
Definition confirmed : World.t := after (move BITCOIN_VERIFIED "bitcoin-verified-v1" None) observed.

(** ** The delivery *)

Definition store_bundle : M unit := SqlBundleRepository.put_once order_text 1 (encode "bundle").
Definition bundled : World.t := after store_bundle confirmed.
Definition outbox : SqlNotificationOutbox.t := SqlNotificationOutbox.mk (hours 24) 12.
Definition message : OutboxMessage.t := {|
  OutboxMessage.message_key := notification_key INITIAL_CONFIRMATION 1 reference;
  OutboxMessage.order_reference := reference;
  OutboxMessage.template := NotificationKind_value INITIAL_CONFIRMATION;
  OutboxMessage.recipient := "customer@example.test";
  OutboxMessage.variables := [("order_reference", reference)];
  OutboxMessage.proof_version := Some 1; OutboxMessage.confirmation_count := Some 1 |}.
Definition notify : M unit := SqlNotificationOutbox.enqueue outbox message.
Definition queued : World.t := after notify bundled.
Definition take : M (option ClaimedNotification.t) :=
  SqlNotificationOutbox.claim "sender-1" (utc (start + hours 3)) (minutes 5).
Definition leased : World.t := after take queued.
Definition claim_of (r : result (option ClaimedNotification.t)) : option ClaimedNotification.t :=
  match r with Ok m => m | Raise _ => None end.
Definition accept_claim (m : option ClaimedNotification.t) : M unit :=
  match m with
  | Some m => SqlNotificationOutbox.record_accepted m (ProviderAcceptance.mk "email_1" 200) (start + hours 3 + seconds 1)
  | None => raise (RuntimeError "nothing claimed")
  end.
Definition accept : M unit := accept_claim (claim_of (result_of take queued)).
Definition accepted : World.t := after accept leased.
Definition delivered_event : VerifiedResendEvent.t := {|
  VerifiedResendEvent.svix_event_id := "msg_1"; VerifiedResendEvent.event_type := "email.delivered";
  VerifiedResendEvent.provider_message_id := "email_1";
  VerifiedResendEvent.event_created_at := utc (start + hours 4) |}.
Definition deliver : M WebhookProcessResult.t :=
  SqlResendWebhookStore.process delivered_event (sha256 (encode "event")) (start + hours 4).
Definition delivered : World.t := after deliver accepted.

(** ** The run *)

Definition order_states (w : World.t) : list (PaymentState.t * FulfillmentState.t) :=
  map states (Db.orders (World.db w)).
Example delivered_order : order_states delivered = [(PAID, DELIVERED)].
Proof. vm_compute. reflexivity. Qed.

Lemma reachable_after {A} (m : M A) w :
  reachable w → transaction (World.db w) m → reachable (after m w).
Proof. intros Hr T. apply (reachable_service _ _ Hr), rtc_once. by eapply sys_tx. Qed.

(** The side conditions of the transitions, decided. *)
Definition started_check (d : Db.t) (order_id : string) : bool :=
  existsb (λ o, match _uuid order_id with Ok u => u == Order.id o | Raise _ => false end &&
                (Order.fulfillment_state o != AWAITING_PAYMENT)) (Db.orders d).
Lemma started_check_sound d order_id : started_check d order_id = true → order_started d order_id.
Proof.
  intros (o & Hin & [H1 H2]%andb_prop)%existsb_exists. exists o. rewrite list_elem_of_In.
  destruct (_uuid order_id); [|done]. apply bool_decide_eq_true in H1 as ->.
  apply negb_true_iff, bool_decide_eq_false in H2. done.
Qed.
Lemma may_enter_plain d order_id target :
  order_started d order_id → target ≠ CALENDAR_PENDING → target ≠ BITCOIN_VERIFIED → target ≠ DELIVERED →
  may_enter d order_id target.
Proof. intros (o & Ho & Hu & _) H1 H2 H3. exists o. split_and!; [done..|right]. by destruct target. Qed.
Definition stamped_check (d : Db.t) (order_id : string) : bool :=
  existsb (λ o, match _uuid order_id with Ok u => u == Order.id o | Raise _ => false end &&
    existsb (λ p, (ProofVersion.order_id p == Order.id o) &&
                  (ProofVersion.target_digest p == Order.manifest_digest o))
      (Db.proof_versions d)) (Db.orders d).
Lemma stamped_check_sound d order_id :
  stamped_check d order_id = true → may_enter d order_id CALENDAR_PENDING.
Proof.
  intros (o & Hin & [H1 (p & Hp & [H2 H3]%andb_prop)%existsb_exists]%andb_prop)%existsb_exists.
  exists o. rewrite list_elem_of_In. destruct (_uuid order_id); [|done].
  apply bool_decide_eq_true in H1 as ->, H2, H3. split_and!; [done..|right].
  exists p. split_and!; [by apply list_elem_of_In|done..].
Qed.
Definition verified_check (d : Db.t) (order_id : string) : bool :=
  existsb (λ o, match _uuid order_id with Ok u => u == Order.id o | Raise _ => false end &&
    existsb (λ p, (ProofVersion.order_id p == Order.id o) &&
                  (ProofVersion.target_digest p == Order.manifest_digest o) &&
      existsb (λ v, (ProofVerification.order_id v == Order.id o) &&
                    (ProofVerification.proof_version v == ProofVersion.version p))
        (Db.proof_verifications d)) (Db.proof_versions d)) (Db.orders d).
Lemma verified_check_sound d order_id :
  verified_check d order_id = true → may_enter d order_id BITCOIN_VERIFIED.
Proof.
  intros (o & Hin & [H1 (p & Hp & [[H2 H3]%andb_prop (v & Hv & [H4 H5]%andb_prop)%existsb_exists]%andb_prop)
    %existsb_exists]%andb_prop)%existsb_exists.
  exists o. rewrite list_elem_of_In. destruct (_uuid order_id); [|done].
  apply bool_decide_eq_true in H1 as ->, H2, H3, H4, H5. split_and!; [done..|right].
  exists p, v. split; try done; by apply list_elem_of_In.
Qed.
Ltac started_tx :=
  apply tx_transition; [apply started_check_sound; vm_compute; reflexivity|];
  first [ apply may_enter_plain; [apply started_check_sound; vm_compute; reflexivity|done|done|done]
        | apply stamped_check_sound; vm_compute; reflexivity
        | apply verified_check_sound; vm_compute; reflexivity ].

Lemma reachable_reserved : reachable reserved.
Proof.
  apply reachable_after; [exists world0; split; [done|apply rtc_refl]|apply tx_reserve].
Qed.
Lemma reachable_open : reachable open.
Proof. apply reachable_after, tx_finalize. apply reachable_reserved. Qed.
Lemma reachable_paid : reachable paid.
Proof. apply reachable_after, tx_payment. apply reachable_open. Qed.
Lemma reachable_claimed : reachable claimed.
Proof. apply reachable_after, tx_claim. apply reachable_paid. Qed.
Lemma reachable_pending : reachable pending.
Proof.
  apply reachable_after; [|started_tx]. apply reachable_after; [|apply tx_append; vm_compute; reflexivity].
  apply reachable_after; [|started_tx]. apply reachable_claimed.
Qed.
Lemma reachable_confirmed : reachable confirmed.
Proof.
  apply reachable_after; [|started_tx]. apply reachable_after, tx_observe. apply reachable_after, tx_verified.
  apply reachable_pending.
Qed.
Lemma reachable_leased : reachable leased.
Proof.
  apply reachable_after, tx_outbox_claim. apply reachable_after, tx_outbox. apply reachable_after, tx_bundle.
  apply reachable_confirmed.
Qed.
Lemma service_after {A} (m : M A) w : transaction (World.db w) m → service w (after m w).
Proof. intros T. apply rtc_once. by eapply sys_tx. Qed.
Lemma accept_transaction d c : is_some c = true → transaction d (accept_claim c).
Proof. destruct c; [|done]. intros _. apply tx_accepted. Qed.
Lemma service_delivered : service leased delivered.
Proof.
  transitivity accepted; [|apply service_after, tx_resend].
  apply service_after, accept_transaction. vm_compute. reflexivity.
Qed.
Lemma reachable_delivered : reachable delivered.
Proof. exact (reachable_service _ _ reachable_leased service_delivered). Qed.
