(* ===== verification/SqlSchema.v ===== *)
(** * Relational schemas and the statements that change them

    Tables with their columns and constraints, indexes, functions and triggers, and the schema
    operations of the migrations with the errors PostgreSQL gives: a name that is taken or
    missing, a column that does not exist, a foreign key to columns that are not unique, a table
    or a function that something else still refers to. *)
From S2P Require Import Prelude PyStr Json.

Open Scope string_scope.
Open Scope Z_scope.

(** ** Conditions *)

Inductive expr :=
| Num (n : Z) | Str (s : string) | Col (c : string)
| Length (e : expr) | OctetLength (e : expr) | Lower (e : expr).
#[global] Instance expr_eq_dec : EqDecision expr.
Proof. solve_decision. Defined.
Inductive cond :=
| Eq (a b : expr) | Ge (a b : expr) | Le (a b : expr) | Gt (a b : expr)
| Between (e : expr) (lo hi : Z)
| In (c : string) (values : list string) | NotIn (c : string) (values : list string)
| IsNull (c : string) | IsNotNull (c : string)
| And (a b : cond) | Or (a b : cond).
#[global] Instance cond_eq_dec : EqDecision cond.
Proof. solve_decision. Defined.

Declare Scope sql_scope.
Delimit Scope sql_scope with sql.
Notation "a ∧ₛ b" := (And a b) (at level 40, left associativity) : sql_scope.
Notation "a ∨ₛ b" := (Or a b) (at level 50, left associativity) : sql_scope.
Open Scope sql_scope.

Fixpoint expr_columns (e : expr) : list string :=
  match e with
  | Num _ | Str _ => []
  | Col c => [c]
  | Length e | OctetLength e | Lower e => expr_columns e
  end.
Fixpoint cond_columns (c : cond) : list string :=
  match c with
  | Eq a b | Ge a b | Le a b | Gt a b => expr_columns a ++ expr_columns b
  | Between e _ _ => expr_columns e
  | In c _ | NotIn c _ | IsNull c | IsNotNull c => [c]
  | a ∧ₛ b | a ∨ₛ b => cond_columns a ++ cond_columns b
  end.

(** ** Tables *)

Inductive sqltype := UUID | Varchar (n : Z) | Bytea | Integer | Boolean | Timestamptz | JSON.
#[global] Instance sqltype_eq_dec : EqDecision sqltype.
Proof. solve_decision. Defined.
Inductive nullability := nullable | not_null.
#[global] Instance nullability_eq_dec : EqDecision nullability.
Proof. solve_decision. Defined.
Inductive action := CASCADE | RESTRICT.
#[global] Instance action_eq_dec : EqDecision action.
Proof. solve_decision. Defined.

(** A column has a type, may be null, and may have a default; a constraint may have a name. *)
Inductive item :=
| Column (name : string) (type : sqltype) (null : nullability) (default : option string)
| Check (name : string) (condition : cond)
| PrimaryKey (columns : list string)
| Unique (name : option string) (columns : list string)
| ForeignKey (name : option string) (columns : list string) (table : string) (target : list string) (ondelete : action).
#[global] Instance item_eq_dec : EqDecision item.
Proof. solve_decision. Defined.

Definition column_of (i : item) : option string := match i with Column name _ _ _ => Some name | _ => None end.
Definition columns_of (items : list item) : list string := omap column_of items.
Definition constraint_of (i : item) : option string :=
  match i with Check name _ => Some name | Unique name _ | ForeignKey name _ _ _ _ => name | _ => None end.
(** The columns that a constraint mentions. *)
Definition mentions (i : item) : list string :=
  match i with
  | Column _ _ _ _ => []
  | Check _ c => cond_columns c
  | PrimaryKey columns | Unique _ columns | ForeignKey _ columns _ _ _ => columns
  end.
(** Columns that identify a row. *)
Definition is_key (columns : list string) (i : item) : bool :=
  match i with PrimaryKey c | Unique _ c => c == columns | _ => false end.
Definition is_primary (i : item) : bool := match i with PrimaryKey _ => true | _ => false end.
Definition refers_to (table : string) (i : item) : bool :=
  match i with ForeignKey _ _ t _ _ => t == table | _ => false end.
Definition no_duplicates (l : list string) : bool := bool_decide (NoDup l).

(** ** Schemas *)

Record index := mk_index { index_name : string; index_table : string; index_columns : list string }.
#[global] Instance index_eq_dec : EqDecision index.
Proof. solve_decision. Defined.
Record trigger := mk_trigger { trigger_name : string; trigger_table : string; trigger_function : string }.
#[global] Instance trigger_eq_dec : EqDecision trigger.
Proof. solve_decision. Defined.

(** Functions are named; the body is that of the migrations, which [Triggers] models. *)
Inductive body :=
| RejectAppendOnlyChange | RejectOrderSnapshotChange
| EnforceOrderStateTransition (signed_delivery : bool).
#[global] Instance body_eq_dec : EqDecision body.
Proof. solve_decision. Defined.

Module Schema.
Record t := mk {
  tables : list (string * list item); indexes : list index; functions : list (string * body); triggers : list trigger }.
#[global] Instance eta_t : Eta t := λ s, mk (tables s) (indexes s) (functions s) (triggers s).
#[global] Instance t_eq_dec : EqDecision t.
Proof. solve_decision. Defined.
Definition empty : t := mk [] [] [] [].
End Schema.

Fixpoint assoc {A} (key : string) (l : list (string * A)) : option A :=
  match l with [] => None | (k, v) :: rest => if k == key then Some v else assoc key rest end.
Definition set_assoc {A} (key : string) (v : A) (l : list (string * A)) : list (string * A) :=
  map (λ kv, if kv.1 == key then (key, v) else kv) l.
Definition without {A} (key : string) (l : list (string * A)) : list (string * A) :=
  filter (λ kv, kv.1 ≠ key) l.
Definition guard_ (b : bool) : option unit := if b then Some tt else None.

(** ** Operations *)

Inductive op :=
| create_table (name : string) (items : list item)
| drop_table (name : string)
| create_index (name table : string) (columns : list string)
| drop_index (name table : string)
| add_column (table : string) (column : item)
| drop_column (table column : string)
| alter_nullable (table column : string) (null : nullability)
| alter_default (table column : string) (default : option string)
| add_constraint (table : string) (constraint : item)
| drop_constraint (name table : string)
| create_function (name : string) (b : body)
| replace_function (name : string) (b : body)
| drop_function_if_exists (name : string)
| create_trigger (name table function : string)
| drop_trigger_if_exists (name table : string).

(** A constraint refers to columns of its table, and a foreign key to a key of another. *)
Definition constraint_fits (s : Schema.t) (items : list item) (i : item) : bool :=
  forallb (λ c, c is_in columns_of items) (mentions i) &&
  match i with
  | ForeignKey _ columns table target _ =>
      match assoc table (Schema.tables s) with
      | Some items' => existsb (is_key target) items' && (List.length columns =? List.length target)%nat
      | None => false
      end
  | _ => true
  end.
Definition table_fits (s : Schema.t) (items : list item) : bool :=
  no_duplicates (columns_of items) && no_duplicates (omap constraint_of items) &&
  (List.length (List.filter is_primary items) =? 1)%nat && forallb (constraint_fits s items) items.
(** A row that is there already can take the new column. *)
Definition fillable (i : item) : bool :=
  match i with Column _ _ not_null None => false | Column _ _ _ _ => true | _ => false end.
Definition alter_column (column : string) (f : sqltype → nullability → option string → item) (items : list item) : list item :=
  map (λ i, match i with Column name t n d => if name == column then f t n d else i | _ => i end) items.

Definition apply (s : Schema.t) (o : op) : option Schema.t :=
  match o with
  | create_table name items =>
      guard_ (is_none (assoc name (Schema.tables s)) && table_fits s items);;
      Some (s <| Schema.tables := (Schema.tables s ++ [(name, items)])%list |>)
  | drop_table name =>
      guard_ (is_some (assoc name (Schema.tables s)) &&
              negb (existsb (λ t, existsb (refers_to name) t.2) (without name (Schema.tables s))));;
      Some (s <| Schema.tables := without name (Schema.tables s) |>
              <| Schema.indexes := filter (λ i, index_table i ≠ name) (Schema.indexes s) |>
              <| Schema.triggers := filter (λ t, trigger_table t ≠ name) (Schema.triggers s) |>)
  | create_index name table columns =>
      items ← assoc table (Schema.tables s);
      guard_ (negb (existsb (λ i, index_name i == name) (Schema.indexes s)) &&
              forallb (λ c, c is_in columns_of items) columns);;
      Some (s <| Schema.indexes := (Schema.indexes s ++ [mk_index name table columns])%list |>)
  | drop_index name table =>
      guard_ (existsb (λ i, (index_name i == name) && (index_table i == table)) (Schema.indexes s));;
      Some (s <| Schema.indexes := filter (λ i, index_name i ≠ name) (Schema.indexes s) |>)
  | add_column table column =>
      items ← assoc table (Schema.tables s);
      name ← column_of column;
      guard_ (negb (name is_in columns_of items) && fillable column);;
      Some (s <| Schema.tables := set_assoc table (items ++ [column])%list (Schema.tables s) |>)
  | drop_column table column =>
      items ← assoc table (Schema.tables s);
      guard_ ((column is_in columns_of items) &&
              negb (existsb (λ t, existsb (λ i, match i with ForeignKey _ _ t' target _ => (t' == table) && (column is_in target)
                                                | _ => false end) t.2) (Schema.tables s)));;
      let keep i := negb (bool_decide (column_of i = Some column)) && negb (column is_in mentions i) in
      Some (s <| Schema.tables := set_assoc table (List.filter keep items) (Schema.tables s) |>
              <| Schema.indexes := List.filter (λ i, negb ((index_table i == table) && (column is_in index_columns i)))
                                     (Schema.indexes s) |>)
  | alter_nullable table column null =>
      items ← assoc table (Schema.tables s);
      guard_ (column is_in columns_of items);;
      Some (s <| Schema.tables := set_assoc table (alter_column column (λ t _ d, Column column t null d) items) (Schema.tables s) |>)
  | alter_default table column default =>
      items ← assoc table (Schema.tables s);
      guard_ (column is_in columns_of items);;
      Some (s <| Schema.tables := set_assoc table (alter_column column (λ t n _, Column column t n default) items) (Schema.tables s) |>)
  | add_constraint table constraint =>
      items ← assoc table (Schema.tables s);
      guard_ (constraint_fits s items constraint && is_none (column_of constraint) && negb (is_primary constraint) &&
              no_duplicates (omap constraint_of (items ++ [constraint])%list));;
      Some (s <| Schema.tables := set_assoc table (items ++ [constraint])%list (Schema.tables s) |>)
  | drop_constraint name table =>
      items ← assoc table (Schema.tables s);
      guard_ (name is_in omap constraint_of items);;
      Some (s <| Schema.tables := set_assoc table (filter (λ i, constraint_of i ≠ Some name) items) (Schema.tables s) |>)
  | create_function name b =>
      guard_ (is_none (assoc name (Schema.functions s)));;
      Some (s <| Schema.functions := (Schema.functions s ++ [(name, b)])%list |>)
  | replace_function name b =>
      Some (s <| Schema.functions :=
        if is_some (assoc name (Schema.functions s)) then set_assoc name b (Schema.functions s)
        else (Schema.functions s ++ [(name, b)])%list |>)
  | drop_function_if_exists name =>
      guard_ (negb (existsb (λ t, trigger_function t == name) (Schema.triggers s)));;
      Some (s <| Schema.functions := without name (Schema.functions s) |>)
  | create_trigger name table function =>
      guard_ (is_some (assoc table (Schema.tables s)) && is_some (assoc function (Schema.functions s)) &&
              negb (existsb (λ t, (trigger_name t == name) && (trigger_table t == table)) (Schema.triggers s)));;
      Some (s <| Schema.triggers := (Schema.triggers s ++ [mk_trigger name table function])%list |>)
  | drop_trigger_if_exists name table =>
      Some (s <| Schema.triggers := List.filter (λ t, negb ((trigger_name t == name) && (trigger_table t == table)))
                                      (Schema.triggers s) |>)
  end.
Fixpoint run (ops : list op) (s : Schema.t) : option Schema.t :=
  match ops with [] => Some s | o :: rest => s' ← apply s o; run rest s' end.

(** ** Schemas up to the order of declaration

    Two schemas are the same to the code when they differ in the order of their parts, in the
    defaults of columns (the code gives every value), and in [octet_length] for [length] of
    bytes. *)

Fixpoint plain_expr (e : expr) : expr :=
  match e with
  | OctetLength e | Length e => Length (plain_expr e)
  | Lower e => Lower (plain_expr e)
  | e => e
  end.
Fixpoint plain_cond (c : cond) : cond :=
  match c with
  | Eq a b => Eq (plain_expr a) (plain_expr b)
  | Ge a b => Ge (plain_expr a) (plain_expr b)
  | Le a b => Le (plain_expr a) (plain_expr b)
  | Gt a b => Gt (plain_expr a) (plain_expr b)
  | Between e lo hi => Between (plain_expr e) lo hi
  | a ∧ₛ b => plain_cond a ∧ₛ plain_cond b
  | a ∨ₛ b => plain_cond a ∨ₛ plain_cond b
  | c => c
  end.
Definition plain_item (i : item) : item :=
  match i with
  | Column name t n _ => Column name t n None
  | Check name c => Check name (plain_cond c)
  | i => i
  end.
(** A text to sort the parts of a table by. *)
Definition item_key (i : item) : string :=
  match i with
  | Column name _ _ _ => "column " ++ name
  | Check name _ => "check " ++ name
  | PrimaryKey _ => "primary"
  | Unique name columns => "unique " ++ join "," columns
  | ForeignKey name columns _ _ _ => "foreign " ++ join "," columns
  end.
Definition sort_by {A} (key : A → string) (l : list A) : list A := map snd (sort_fields (map (λ x, (key x, x)) l)).
(** The server defaults of the columns. *)
Definition server_defaults (tables : list (string * list item)) : list (string * string * string) :=
  flat_map (λ t, omap (λ i, match i with Column name _ _ (Some value) => Some (t.1, name, value) | _ => None end) t.2) (sort_fields tables).
(** The tables with their columns and constraints in the order of their names, without the server
    defaults of the columns. *)
Definition plain_tables (tables : list (string * list item)) : list (string * list item) :=
  sort_fields (map (λ t, (t.1, sort_by item_key (map plain_item t.2))) tables).
