(* ===== verification/Migrations.v ===== *)
(** * The migrations

    [migrations/versions/]: what each revision does to the schema, statement by statement.  The
    statements that move rows ([INSERT], [UPDATE] and the guard of the downgrade) do not change
    the schema; they are in [DataMigration]. *)
From S2P Require Import Prelude PyStr SqlSchema.

Open Scope string_scope.
Open Scope Z_scope.
Open Scope list_scope.

(** ** Revision 20260730_0001, the baseline. *)
Module Baseline.
Definition orders_table : list item := [
  Column "id" UUID not_null None;
  Column "order_reference" (Varchar 29) not_null None;
  Column "certificate_reference" (Varchar 128) not_null None;
  Column "manifest_digest" Bytea not_null None;
  Column "email" (Varchar 254) not_null None;
  Column "amount_minor" Integer not_null None;
  Column "currency" (Varchar 3) not_null None;
  Column "product_version" (Varchar 64) not_null None;
  Column "payment_mode" (Varchar 32) not_null None;
  Column "payment_state" (Varchar 32) not_null None;
  Column "fulfillment_state" (Varchar 32) not_null None;
  Column "consent_terms_version" (Varchar 32) not_null None;
  Column "consent_privacy_version" (Varchar 32) not_null None;
  Column "consent_accepted_at" Timestamptz not_null None;
  Column "checkout_session_id" (Varchar 128) nullable None;
  Column "payment_intent_id" (Varchar 128) nullable None;
  Column "fulfillment_key" (Varchar 160) not_null None;
  Column "calendar_submitted_at" Timestamptz nullable None;
  Column "created_at" Timestamptz not_null None;
  Column "updated_at" Timestamptz not_null None;
  Check "ck_orders_digest_32" (Eq (Length (Col "manifest_digest")) (Num 32));
  Check "ck_orders_amount_nonnegative" (Ge (Col "amount_minor") (Num 0));
  Check "ck_orders_currency" (Eq (Length (Col "currency")) (Num 3) ∧ₛ Eq (Col "currency") (Lower (Col "currency")));
  Check "ck_orders_email_length" (Between (Length (Col "email")) 1 254);
  Check "ck_orders_payment_state" (In "payment_state" ["checkout_open"; "processing"; "paid"; "failed"; "expired";
      "refunded"; "disputed"]);
  Check "ck_orders_fulfillment_state" (In "fulfillment_state" ["awaiting_payment"; "queued"; "stamping";
      "calendar_pending"; "bitcoin_verified"; "delivered"; "manual_review"]);
  Check "ck_orders_paid_before_work" (NotIn "fulfillment_state" ["queued"; "stamping"; "calendar_pending";
      "bitcoin_verified"; "delivered"] ∨ₛ In "payment_state" ["paid"; "refunded"; "disputed"]);
  PrimaryKey ["id"];
  Unique None ["checkout_session_id"];
  Unique None ["fulfillment_key"];
  Unique None ["order_reference"];
  Unique None ["payment_intent_id"]].
Definition idempotency_requests_table : list item := [
  Column "id" UUID not_null None;
  Column "endpoint" (Varchar 128) not_null None;
  Column "key_hash" Bytea not_null None;
  Column "request_hash" Bytea not_null None;
  Column "order_id" UUID not_null None;
  Column "provider_idempotency_key" (Varchar 64) not_null None;
  Column "provider_price_id" (Varchar 128) not_null None;
  Column "success_url" (Varchar 2048) not_null None;
  Column "cancel_url" (Varchar 2048) not_null None;
  Column "checkout_state" (Varchar 16) not_null None;
  Column "checkout_lease_id" (Varchar 36) nullable None;
  Column "checkout_lease_expires_at" Timestamptz nullable None;
  Column "response_status" Integer nullable None;
  Column "response_body" JSON nullable None;
  Column "completed_at" Timestamptz nullable None;
  Column "created_at" Timestamptz not_null None;
  Check "ck_idempotency_key_hash_32" (Eq (Length (Col "key_hash")) (Num 32));
  Check "ck_idempotency_request_hash_32" (Eq (Length (Col "request_hash")) (Num 32));
  Check "ck_idempotency_checkout_state" (In "checkout_state" ["reserved"; "processing"; "completed"]);
  Check "ck_idempotency_completion" (Eq (Col "checkout_state") (Str "reserved") ∧ₛ IsNull "checkout_lease_id"
      ∧ₛ IsNull "checkout_lease_expires_at" ∧ₛ IsNull "response_status" ∧ₛ IsNull "response_body"
      ∧ₛ IsNull "completed_at" ∨ₛ Eq (Col "checkout_state") (Str "processing") ∧ₛ IsNotNull "checkout_lease_id"
      ∧ₛ IsNotNull "checkout_lease_expires_at" ∧ₛ IsNull "response_status" ∧ₛ IsNull "response_body"
      ∧ₛ IsNull "completed_at" ∨ₛ Eq (Col "checkout_state") (Str "completed") ∧ₛ IsNotNull "checkout_lease_id"
      ∧ₛ IsNotNull "checkout_lease_expires_at" ∧ₛ IsNotNull "response_status" ∧ₛ IsNotNull "response_body"
      ∧ₛ IsNotNull "completed_at");
  ForeignKey None ["order_id"] "orders" ["id"] CASCADE;
  PrimaryKey ["id"];
  Unique (Some "uq_idempotency_endpoint_key") ["endpoint"; "key_hash"];
  Unique None ["order_id"];
  Unique None ["provider_idempotency_key"]].
Definition stripe_events_table : list item := [
  Column "id" UUID not_null None;
  Column "stripe_event_id" (Varchar 128) not_null None;
  Column "event_type" (Varchar 128) not_null None;
  Column "livemode" Boolean not_null None;
  Column "payload_sha256" Bytea not_null None;
  Column "processed_at" Timestamptz nullable None;
  Column "safe_error_code" (Varchar 64) nullable None;
  Column "created_at" Timestamptz not_null None;
  Check "ck_stripe_events_payload_hash_32" (Eq (Length (Col "payload_sha256")) (Num 32));
  PrimaryKey ["id"];
  Unique None ["stripe_event_id"]].
Definition order_tokens_table : list item := [
  Column "id" UUID not_null None;
  Column "order_id" UUID not_null None;
  Column "version" Integer not_null None;
  Column "pepper_version" Integer not_null None;
  Column "token_hash" Bytea not_null None;
  Column "revoked_at" Timestamptz nullable None;
  Column "expires_at" Timestamptz not_null None;
  Column "created_at" Timestamptz not_null None;
  Check "ck_order_tokens_hash_32" (Eq (Length (Col "token_hash")) (Num 32));
  Check "ck_order_tokens_version_positive" (Gt (Col "version") (Num 0));
  Check "ck_order_tokens_pepper_version_positive" (Gt (Col "pepper_version") (Num 0));
  ForeignKey None ["order_id"] "orders" ["id"] CASCADE;
  PrimaryKey ["id"];
  Unique (Some "uq_order_tokens_order_version") ["order_id"; "version"];
  Unique None ["token_hash"]].
Definition rate_counters_table : list item := [
  Column "id" UUID not_null None;
  Column "endpoint" (Varchar 64) not_null None;
  Column "key_hash" Bytea not_null None;
  Column "window_started_at" Timestamptz not_null None;
  Column "request_count" Integer not_null None;
  Check "ck_rate_counter_key_hash_32" (Eq (Length (Col "key_hash")) (Num 32));
  Check "ck_rate_counter_positive" (Gt (Col "request_count") (Num 0));
  PrimaryKey ["id"];
  Unique (Some "uq_rate_counter_window") ["endpoint"; "key_hash"; "window_started_at"]].
Definition durable_jobs_table : list item := [
  Column "id" UUID not_null None;
  Column "job_key" (Varchar 160) not_null None;
  Column "order_id" UUID not_null None;
  Column "kind" (Varchar 64) not_null None;
  Column "state" (Varchar 32) not_null None;
  Column "attempt_count" Integer not_null None;
  Column "max_attempts" Integer not_null None;
  Column "available_at" Timestamptz not_null None;
  Column "lease_owner" (Varchar 128) nullable None;
  Column "lease_until" Timestamptz nullable None;
  Column "safe_error_code" (Varchar 64) nullable None;
  Column "created_at" Timestamptz not_null None;
  Column "updated_at" Timestamptz not_null None;
  Check "ck_jobs_attempts" (Ge (Col "attempt_count") (Num 0) ∧ₛ Gt (Col "max_attempts") (Num 0));
  Check "ck_jobs_lease_owner" (IsNull "lease_until" ∨ₛ IsNotNull "lease_owner");
  ForeignKey None ["order_id"] "orders" ["id"] CASCADE;
  PrimaryKey ["id"];
  Unique None ["job_key"]].
Definition job_attempts_table : list item := [
  Column "id" UUID not_null None;
  Column "job_id" UUID not_null None;
  Column "attempt_number" Integer not_null None;
  Column "worker_id" (Varchar 128) not_null None;
  Column "started_at" Timestamptz not_null None;
  Column "finished_at" Timestamptz nullable None;
  Column "outcome" (Varchar 32) nullable None;
  Column "safe_error_code" (Varchar 64) nullable None;
  Column "created_at" Timestamptz not_null None;
  ForeignKey None ["job_id"] "durable_jobs" ["id"] CASCADE;
  PrimaryKey ["id"];
  Unique (Some "uq_job_attempt_number") ["job_id"; "attempt_number"]].
Definition proof_versions_table : list item := [
  Column "id" UUID not_null None;
  Column "order_id" UUID not_null None;
  Column "version" Integer not_null None;
  Column "target_digest" Bytea not_null None;
  Column "proof_bytes" Bytea not_null None;
  Column "proof_sha256" Bytea not_null None;
  Column "proof_byte_length" Integer not_null None;
  Column "proof_state" (Varchar 32) not_null None;
  Column "calendar_submitted_at" Timestamptz not_null None;
  Column "verification_metadata" JSON nullable None;
  Column "created_at" Timestamptz not_null None;
  Check "ck_proof_version_positive" (Gt (Col "version") (Num 0));
  Check "ck_proof_target_32" (Eq (Length (Col "target_digest")) (Num 32));
  Check "ck_proof_hash_32" (Eq (Length (Col "proof_sha256")) (Num 32));
  Check "ck_proof_length" (Between (Col "proof_byte_length") 1 262144
      ∧ₛ Eq (Col "proof_byte_length") (OctetLength (Col "proof_bytes")));
  Check "ck_proof_state_metadata" (Eq (Col "proof_state") (Str "calendar_pending") ∧ₛ IsNull "verification_metadata"
      ∨ₛ Eq (Col "proof_state") (Str "bitcoin_verified") ∧ₛ IsNotNull "verification_metadata");
  ForeignKey None ["order_id"] "orders" ["id"] CASCADE;
  PrimaryKey ["id"];
  Unique (Some "uq_proof_order_version") ["order_id"; "version"]].
Definition proof_verifications_table : list item := [
  Column "id" UUID not_null None;
  Column "order_id" UUID not_null None;
  Column "proof_version" Integer not_null None;
  Column "method" (Varchar 128) not_null None;
  Column "verified_at" Timestamptz not_null None;
  Column "block_height" Integer not_null None;
  Column "block_hash" (Varchar 64) not_null None;
  Column "block_time" Timestamptz not_null None;
  Column "confirmation_policy" (Varchar 128) not_null None;
  Column "created_at" Timestamptz not_null None;
  Check "ck_proof_verification_version_positive" (Gt (Col "proof_version") (Num 0));
  Check "ck_proof_verification_height" (Ge (Col "block_height") (Num 0));
  Check "ck_proof_verification_block_hash" (Eq (Length (Col "block_hash")) (Num 64)
      ∧ₛ Eq (Col "block_hash") (Lower (Col "block_hash")));
  ForeignKey (Some "fk_proof_verification_proof_version") ["order_id"; "proof_version"] "proof_versions" ["order_id";
      "version"] CASCADE;
  PrimaryKey ["id"];
  Unique (Some "uq_proof_verification_order_version") ["order_id"; "proof_version"]].
Definition proof_bundles_table : list item := [
  Column "id" UUID not_null None;
  Column "order_id" UUID not_null None;
  Column "proof_version" Integer not_null None;
  Column "bundle_bytes" Bytea not_null None;
  Column "bundle_sha256" Bytea not_null None;
  Column "bundle_byte_length" Integer not_null None;
  Column "created_at" Timestamptz not_null None;
  Check "ck_proof_bundle_version_positive" (Gt (Col "proof_version") (Num 0));
  Check "ck_proof_bundle_hash_32" (Eq (Length (Col "bundle_sha256")) (Num 32));
  Check "ck_proof_bundle_length" (Gt (Col "bundle_byte_length") (Num 0)
      ∧ₛ Eq (Col "bundle_byte_length") (Length (Col "bundle_bytes")) ∧ₛ Le (Col "bundle_byte_length") (Num 12582912));
  ForeignKey (Some "fk_proof_bundle_proof_version") ["order_id"; "proof_version"] "proof_versions" ["order_id";
      "version"] CASCADE;
  PrimaryKey ["id"];
  Unique (Some "uq_proof_bundle_order_version") ["order_id"; "proof_version"]].
Definition state_events_table : list item := [
  Column "id" UUID not_null None;
  Column "order_id" UUID not_null None;
  Column "sequence" Integer not_null None;
  Column "event_key" (Varchar 160) not_null None;
  Column "source" (Varchar 64) not_null None;
  Column "previous_payment_state" (Varchar 32) nullable None;
  Column "payment_state" (Varchar 32) not_null None;
  Column "previous_fulfillment_state" (Varchar 32) nullable None;
  Column "fulfillment_state" (Varchar 32) not_null None;
  Column "evidence" JSON not_null None;
  Column "created_at" Timestamptz not_null None;
  ForeignKey None ["order_id"] "orders" ["id"] CASCADE;
  PrimaryKey ["id"];
  Unique (Some "uq_state_event_key") ["order_id"; "event_key"];
  Unique (Some "uq_state_event_sequence") ["order_id"; "sequence"]].
Definition outbox_table : list item := [
  Column "id" UUID not_null None;
  Column "message_key" (Varchar 160) not_null None;
  Column "order_id" UUID not_null None;
  Column "kind" (Varchar 64) not_null None;
  Column "recipient" (Varchar 254) not_null None;
  Column "payload" JSON not_null None;
  Column "state" (Varchar 32) not_null None;
  Column "attempt_count" Integer not_null None;
  Column "available_at" Timestamptz not_null None;
  Column "lease_owner" (Varchar 128) nullable None;
  Column "lease_until" Timestamptz nullable None;
  Column "provider_message_id" (Varchar 128) nullable None;
  Column "delivered_at" Timestamptz nullable None;
  Column "safe_error_code" (Varchar 64) nullable None;
  Column "created_at" Timestamptz not_null None;
  Check "ck_outbox_attempts" (Ge (Col "attempt_count") (Num 0));
  ForeignKey None ["order_id"] "orders" ["id"] CASCADE;
  PrimaryKey ["id"];
  Unique None ["message_key"];
  Unique None ["provider_message_id"]].
Definition upgrade : list op := [
  create_table "orders" orders_table;
  create_table "idempotency_requests" idempotency_requests_table;
  create_table "stripe_events" stripe_events_table;
  create_table "order_tokens" order_tokens_table;
  create_index "ix_order_tokens_order_id" "order_tokens" ["order_id"];
  create_table "rate_counters" rate_counters_table;
  create_table "durable_jobs" durable_jobs_table;
  create_index "ix_durable_jobs_available_at" "durable_jobs" ["available_at"];
  create_index "ix_durable_jobs_lease_until" "durable_jobs" ["lease_until"];
  create_index "ix_durable_jobs_order_id" "durable_jobs" ["order_id"];
  create_table "job_attempts" job_attempts_table;
  create_index "ix_job_attempts_job_id" "job_attempts" ["job_id"];
  create_table "proof_versions" proof_versions_table;
  create_index "ix_proof_versions_order_id" "proof_versions" ["order_id"];
  create_table "proof_verifications" proof_verifications_table;
  create_index "ix_proof_verifications_order_id" "proof_verifications" ["order_id"];
  create_table "proof_bundles" proof_bundles_table;
  create_index "ix_proof_bundles_order_id" "proof_bundles" ["order_id"];
  create_table "state_events" state_events_table;
  create_index "ix_state_events_order_id" "state_events" ["order_id"];
  create_table "outbox" outbox_table;
  create_index "ix_outbox_available_at" "outbox" ["available_at"];
  create_index "ix_outbox_order_id" "outbox" ["order_id"];
  create_function "reject_append_only_change" RejectAppendOnlyChange;
  create_trigger "proof_versions_append_only" "proof_versions" "reject_append_only_change";
  create_trigger "proof_verifications_append_only" "proof_verifications" "reject_append_only_change";
  create_trigger "proof_bundles_append_only" "proof_bundles" "reject_append_only_change";
  create_trigger "state_events_append_only" "state_events" "reject_append_only_change";
  create_function "reject_order_snapshot_change" RejectOrderSnapshotChange;
  create_trigger "orders_immutable_snapshot" "orders" "reject_order_snapshot_change";
  create_function "enforce_order_state_transition" (EnforceOrderStateTransition false);
  create_trigger "orders_state_transition" "orders" "enforce_order_state_transition"].
Definition downgrade : list op := [
  drop_trigger_if_exists "orders_state_transition" "orders";
  drop_function_if_exists "enforce_order_state_transition";
  drop_trigger_if_exists "orders_immutable_snapshot" "orders";
  drop_function_if_exists "reject_order_snapshot_change";
  drop_trigger_if_exists "proof_versions_append_only" "proof_versions";
  drop_trigger_if_exists "proof_verifications_append_only" "proof_verifications";
  drop_trigger_if_exists "proof_bundles_append_only" "proof_bundles";
  drop_trigger_if_exists "state_events_append_only" "state_events";
  drop_function_if_exists "reject_append_only_change";
  drop_index "ix_outbox_order_id" "outbox";
  drop_index "ix_outbox_available_at" "outbox";
  drop_table "outbox";
  drop_index "ix_state_events_order_id" "state_events";
  drop_table "state_events";
  drop_index "ix_proof_versions_order_id" "proof_versions";
  drop_index "ix_proof_bundles_order_id" "proof_bundles";
  drop_table "proof_bundles";
  drop_index "ix_proof_verifications_order_id" "proof_verifications";
  drop_table "proof_verifications";
  drop_table "proof_versions";
  drop_index "ix_job_attempts_job_id" "job_attempts";
  drop_table "job_attempts";
  drop_index "ix_durable_jobs_order_id" "durable_jobs";
  drop_index "ix_durable_jobs_lease_until" "durable_jobs";
  drop_index "ix_durable_jobs_available_at" "durable_jobs";
  drop_table "durable_jobs";
  drop_index "ix_order_tokens_order_id" "order_tokens";
  drop_table "order_tokens";
  drop_table "rate_counters";
  drop_table "stripe_events";
  drop_table "idempotency_requests";
  drop_table "orders"].
End Baseline.

(** ** Revision 20260827_0002, delivery evidence of notifications. *)
Module ResendDelivery.
Definition bitcoin_confirmation_observations_table : list item := [
  Column "id" UUID not_null None;
  Column "order_id" UUID not_null None;
  Column "proof_version" Integer not_null None;
  Column "observed_confirmations" Integer not_null None;
  Column "block_height" Integer not_null None;
  Column "block_hash" (Varchar 64) not_null None;
  Column "method" (Varchar 128) not_null None;
  Column "confirmation_policy" (Varchar 128) not_null None;
  Column "observed_at" Timestamptz not_null None;
  Column "event_key" (Varchar 160) not_null None;
  Column "created_at" Timestamptz not_null None;
  Check "ck_bitcoin_confirmation_proof_version" (Gt (Col "proof_version") (Num 0));
  Check "ck_bitcoin_confirmation_count" (Gt (Col "observed_confirmations") (Num 0));
  Check "ck_bitcoin_confirmation_height" (Ge (Col "block_height") (Num 0));
  Check "ck_bitcoin_confirmation_block_hash" (Eq (Length (Col "block_hash")) (Num 64)
      ∧ₛ Eq (Col "block_hash") (Lower (Col "block_hash")));
  ForeignKey (Some "fk_bitcoin_confirmation_proof_version") ["order_id"; "proof_version"] "proof_versions"
      ["order_id"; "version"] CASCADE;
  PrimaryKey ["id"];
  Unique (Some "uq_bitcoin_confirmation_event_key") ["order_id"; "event_key"]].
Definition notification_attempts_table : list item := [
  Column "id" UUID not_null None;
  Column "outbox_id" UUID not_null None;
  Column "attempt_number" Integer not_null None;
  Column "worker_id" (Varchar 128) not_null None;
  Column "lease_token" (Varchar 36) not_null None;
  Column "started_at" Timestamptz not_null None;
  Column "finished_at" Timestamptz nullable None;
  Column "outcome" (Varchar 32) nullable None;
  Column "response_status" Integer nullable None;
  Column "provider_message_id" (Varchar 128) nullable None;
  Column "safe_error_code" (Varchar 64) nullable None;
  Column "created_at" Timestamptz not_null None;
  Check "ck_notification_attempt_positive" (Gt (Col "attempt_number") (Num 0));
  Check "ck_notification_attempt_response_status" (IsNull "response_status"
      ∨ₛ Between (Col "response_status") 100 599);
  ForeignKey None ["outbox_id"] "outbox" ["id"] CASCADE;
  PrimaryKey ["id"];
  Unique (Some "uq_notification_attempt_number") ["outbox_id"; "attempt_number"]].
Definition resend_webhook_events_table : list item := [
  Column "id" UUID not_null None;
  Column "svix_event_id" (Varchar 128) not_null None;
  Column "event_type" (Varchar 128) not_null None;
  Column "provider_message_id" (Varchar 128) not_null None;
  Column "payload_sha256" Bytea not_null None;
  Column "event_created_at" Timestamptz not_null None;
  Column "processed_at" Timestamptz not_null None;
  Column "created_at" Timestamptz not_null None;
  Check "ck_resend_webhook_payload_hash_32" (Eq (Length (Col "payload_sha256")) (Num 32));
  PrimaryKey ["id"];
  Unique None ["svix_event_id"]].
(** The observations, append-only. *)
Definition observations_schema : list op := [
create_table "bitcoin_confirmation_observations" bitcoin_confirmation_observations_table;
  create_index "ix_bitcoin_confirmation_observations_order_id" "bitcoin_confirmation_observations" ["order_id"];
  create_trigger "bitcoin_confirmation_observations_append_only" "bitcoin_confirmation_observations" "reject_append_only_change"].
(** The new columns of the outbox. *)
Definition outbox_columns : list op := [
  drop_constraint "ck_outbox_attempts" "outbox";
  add_column "outbox" (Column "max_attempts" Integer not_null (Some "12"));
  add_column "outbox" (Column "lease_token" (Varchar 36) nullable None);
  add_column "outbox" (Column "proof_version" Integer nullable None);
  add_column "outbox" (Column "confirmation_count" Integer nullable None);
  add_column "outbox" (Column "confirmation_observation_id" UUID nullable None);
  add_column "outbox" (Column "accepted_at" Timestamptz nullable None);
  add_column "outbox" (Column "idempotency_expires_at" Timestamptz nullable (Some "now() + INTERVAL '24 hours'"));
  add_column "outbox" (Column "updated_at" Timestamptz nullable (Some "now()"));
  add_constraint "outbox" (ForeignKey (Some "fk_outbox_confirmation_observation")
      ["confirmation_observation_id"] "bitcoin_confirmation_observations" ["id"] RESTRICT);
  create_index "ix_outbox_confirmation_observation_id" "outbox" ["confirmation_observation_id"]].
(** What the filled columns satisfy. *)
Definition outbox_constraints : list op := [
  alter_nullable "outbox" "idempotency_expires_at" not_null;
  alter_nullable "outbox" "updated_at" not_null;
  add_constraint "outbox" (Check "ck_outbox_attempts" (Ge (Col "attempt_count") (Num 0)
      ∧ₛ Gt (Col "max_attempts") (Num 0)));
  add_constraint "outbox" (Check "ck_outbox_lease_owner" (IsNull "lease_until" ∨ₛ IsNotNull "lease_owner"));
  add_constraint "outbox" (Check "ck_outbox_proof_version_positive" (IsNull "proof_version"
      ∨ₛ Gt (Col "proof_version") (Num 0)));
  add_constraint "outbox" (Check "ck_outbox_confirmation_count_positive" (IsNull "confirmation_count"
      ∨ₛ Gt (Col "confirmation_count") (Num 0)));
  create_index "ix_outbox_idempotency_expires_at" "outbox" ["idempotency_expires_at"]].
(** The attempts and the signed events, and the new body of the guard. *)
Definition notification_schema : list op := [
  create_table "notification_attempts" notification_attempts_table;
  create_index "ix_notification_attempts_outbox_id" "notification_attempts" ["outbox_id"];
  create_table "resend_webhook_events" resend_webhook_events_table;
  create_index "ix_resend_webhook_events_provider_message_id" "resend_webhook_events" ["provider_message_id"];
  create_trigger "resend_webhook_events_append_only" "resend_webhook_events" "reject_append_only_change";
  replace_function "enforce_order_state_transition" (EnforceOrderStateTransition true)].
Definition upgrade : list op := observations_schema ++ outbox_columns ++ outbox_constraints ++ notification_schema.
Definition downgrade : list op := [
  drop_trigger_if_exists "resend_webhook_events_append_only" "resend_webhook_events";
  replace_function "enforce_order_state_transition" (EnforceOrderStateTransition false);
  drop_index "ix_resend_webhook_events_provider_message_id" "resend_webhook_events";
  drop_table "resend_webhook_events";
  drop_index "ix_notification_attempts_outbox_id" "notification_attempts";
  drop_table "notification_attempts";
  drop_index "ix_outbox_confirmation_observation_id" "outbox";
  drop_constraint "fk_outbox_confirmation_observation" "outbox";
  drop_index "ix_outbox_idempotency_expires_at" "outbox";
  drop_constraint "ck_outbox_confirmation_count_positive" "outbox";
  drop_constraint "ck_outbox_proof_version_positive" "outbox";
  drop_constraint "ck_outbox_lease_owner" "outbox";
  drop_constraint "ck_outbox_attempts" "outbox";
  drop_column "outbox" "updated_at";
  drop_column "outbox" "idempotency_expires_at";
  drop_column "outbox" "accepted_at";
  drop_column "outbox" "confirmation_count";
  drop_column "outbox" "confirmation_observation_id";
  drop_column "outbox" "proof_version";
  drop_column "outbox" "lease_token";
  drop_column "outbox" "max_attempts";
  add_constraint "outbox" (Check "ck_outbox_attempts" (Ge (Col "attempt_count") (Num 0)));
  drop_trigger_if_exists "bitcoin_confirmation_observations_append_only" "bitcoin_confirmation_observations";
  drop_index "ix_bitcoin_confirmation_observations_order_id" "bitcoin_confirmation_observations";
  drop_table "bitcoin_confirmation_observations"].
End ResendDelivery.

(** ** Revision 20260831_0003, dispatches of tasks. *)
Module EventTasks.
Definition task_dispatches_table : list item := [
  Column "id" UUID not_null None;
  Column "job_id" UUID not_null None;
  Column "generation" Integer not_null None;
  Column "task_name" (Varchar 128) not_null None;
  Column "schedule_at" Timestamptz not_null None;
  Column "state" (Varchar 16) not_null None;
  Column "attempt_count" Integer not_null None;
  Column "dispatched_at" Timestamptz nullable None;
  Column "safe_error_code" (Varchar 64) nullable None;
  Column "created_at" Timestamptz not_null None;
  Column "updated_at" Timestamptz not_null None;
  Check "ck_task_dispatch_generation_positive" (Gt (Col "generation") (Num 0));
  Check "ck_task_dispatch_attempts_nonnegative" (Ge (Col "attempt_count") (Num 0));
  Check "ck_task_dispatch_state" (In "state" ["pending"; "dispatched"]);
  Check "ck_task_dispatch_completion" (Eq (Col "state") (Str "pending") ∧ₛ IsNull "dispatched_at"
      ∨ₛ Eq (Col "state") (Str "dispatched") ∧ₛ IsNotNull "dispatched_at");
  ForeignKey None ["job_id"] "durable_jobs" ["id"] CASCADE;
  PrimaryKey ["id"];
  Unique (Some "uq_task_dispatch_job_generation") ["job_id"; "generation"];
  Unique None ["task_name"]].
Definition generation_schema : list op := [
  add_column "durable_jobs" (Column "generation" Integer not_null (Some "1"));
  add_constraint "durable_jobs" (Check "ck_jobs_generation_positive" (Gt (Col "generation") (Num 0)));
  create_table "task_dispatches" task_dispatches_table;
  create_index "ix_task_dispatches_job_id" "task_dispatches" ["job_id"];
  create_index "ix_task_dispatches_schedule_at" "task_dispatches" ["schedule_at"]].
Definition generation_default : list op := [alter_default "durable_jobs" "generation" None].
Definition upgrade : list op := generation_schema ++ generation_default.
Definition downgrade : list op := [
  drop_index "ix_task_dispatches_schedule_at" "task_dispatches";
  drop_index "ix_task_dispatches_job_id" "task_dispatches";
  drop_table "task_dispatches";
  drop_constraint "ck_jobs_generation_positive" "durable_jobs";
  drop_column "durable_jobs" "generation"].
End EventTasks.

(** ** The chain of revisions *)

(** A revision, the one before it, and its two directions. *)
Module Revision.
Record t := mk { revision : string; down_revision : option string; up : list op; down : list op }.
End Revision.
Definition revisions : list Revision.t := [
  Revision.mk "20260730_0001" None Baseline.upgrade Baseline.downgrade;
  Revision.mk "20260827_0002" (Some "20260730_0001") ResendDelivery.upgrade ResendDelivery.downgrade;
  Revision.mk "20260831_0003" (Some "20260827_0002") EventTasks.upgrade EventTasks.downgrade].
(** [alembic upgrade head] *)
Definition upgrade_head (s : Schema.t) : option Schema.t :=
  foldl (λ s r, s ≫= run (Revision.up r)) (Some s) revisions.
