(* ===== verification/Rows.v ===== *)
(** * Rows as SQL values

    The columns of a row of the database with their SQL values, the conditions of a schema
    evaluated on them in the three-valued logic of SQL, and what a schema demands of a row: its
    CHECK constraints, its keys, its foreign keys, and values of the types of its columns. *)
From S2P Require Import Prelude PyStr Domain Ports Db SqlSchema Migrations Metadata.

Open Scope string_scope.
Open Scope Z_scope.

(** ** Enumerations as they are stored *)

Definition JobState_value (s : JobState) : string :=
  match s with
  | JOB_AVAILABLE => "available" | JOB_LEASED => "leased" | JOB_RETRY => "retry"
  | JOB_COMPLETE => "complete" | JOB_MANUAL_REVIEW => "manual_review"
  | JOB_DEAD_LETTER => "dead_letter"
  end.
Definition CheckoutState_value (s : CheckoutState) : string :=
  match s with RESERVED => "reserved" | CHECKOUT_PROCESSING => "processing" | CHECKOUT_COMPLETED => "completed" end.
Definition DispatchState_value (s : DispatchState) : string :=
  match s with PENDING => "pending" | DISPATCHED => "dispatched" end.
Definition OutboxState_value (s : OutboxState) : string :=
  match s with
  | OB_AVAILABLE => "available" | OB_RETRY => "retry" | OB_LEASED => "leased" | OB_ACCEPTED => "accepted"
  | OB_DELIVERED => "delivered" | OB_FAILED => "failed" | OB_DEAD_LETTER => "dead_letter"
  end.

(** ** Values *)

Inductive value :=
| Null | UuidV (u : Z) | IntV (z : Z) | TextV (s : string) | BytesV (b : bytes) | BoolV (b : bool)
| TimeV (us : Z) | JsonV.
Definition or_null {A} (f : A → value) (x : option A) : value := match x with Some x => f x | None => Null end.
Definition is_null (v : value) : bool := match v with Null => true | _ => false end.

(** The value of a column; a column that is not there has none. *)
Fixpoint column (row : list (string * value)) (name : string) : value :=
  match row with [] => Null | (k, v) :: rest => if String.eqb k name then v else column rest name end.

(** A text has at most as many characters as its column is wide, and an integer has 32 bits. *)
Definition within (v : value) (t : sqltype) : bool :=
  match v, t with
  | TextV s, Varchar n => strlen s <=? n
  | IntV z, Integer => (- 2 ^ 31 <=? z) && (z <? 2 ^ 31)
  | _, _ => true
  end.
Definition has_type (v : value) (t : sqltype) : bool :=
  match v, t with
  | UuidV _, UUID | BytesV _, Bytea | BoolV _, Boolean | TimeV _, Timestamptz | JsonV, JSON => true
  | IntV _, Integer | TextV _, Varchar _ => within v t
  | _, _ => false
  end.

(** ** Conditions in three-valued logic: [None] is unknown. *)

Definition sql_eq (a b : value) : option bool :=
  match a, b with
  | Null, _ | _, Null => None
  | UuidV x, UuidV y | IntV x, IntV y | TimeV x, TimeV y => Some (x == y)
  | TextV x, TextV y => Some (x == y)
  | BytesV x, BytesV y => Some (x == y)
  | BoolV x, BoolV y => Some (x == y)
  | _, _ => Some false
  end.
Definition sql_compare (f : Z → Z → bool) (a b : value) : option bool :=
  match a, b with
  | Null, _ | _, Null => None
  | IntV x, IntV y => Some (f x y)
  | _, _ => Some false
  end.
Definition sql_and (a b : option bool) : option bool :=
  match a, b with
  | Some x, Some y => Some (x && y)
  | Some false, None | None, Some false => Some false
  | _, _ => None
  end.
Definition sql_or (a b : option bool) : option bool :=
  match a, b with
  | Some x, Some y => Some (x || y)
  | Some true, None | None, Some true => Some true
  | _, _ => None
  end.
Definition sql_not (a : option bool) : option bool := negb <$> a.

Fixpoint eval_expr (row : list (string * value)) (e : expr) : value :=
  match e with
  | Num n => IntV n
  | Str s => TextV s
  | Col c => column row c
  | Length e | OctetLength e =>
      match eval_expr row e with TextV s => IntV (strlen s) | BytesV b => IntV (blen b) | _ => Null end
  | Lower e => match eval_expr row e with TextV s => TextV (lower s) | _ => Null end
  end.
Definition text_in (v : value) (values : list string) : option bool :=
  match v with Null => None | TextV s => Some (existsb (String.eqb s) values) | _ => Some false end.
Fixpoint eval_cond (row : list (string * value)) (c : cond) : option bool :=
  match c with
  | Eq a b => sql_eq (eval_expr row a) (eval_expr row b)
  | Ge a b => sql_compare (λ x y, y <=? x) (eval_expr row a) (eval_expr row b)
  | Le a b => sql_compare Z.leb (eval_expr row a) (eval_expr row b)
  | Gt a b => sql_compare (λ x y, y <? x) (eval_expr row a) (eval_expr row b)
  | Between e lo hi =>
      sql_and (sql_compare (λ x y, y <=? x) (eval_expr row e) (IntV lo)) (sql_compare Z.leb (eval_expr row e) (IntV hi))
  | In c values => text_in (column row c) values
  | NotIn c values => sql_not (text_in (column row c) values)
  | IsNull c => Some (is_null (column row c))
  | IsNotNull c => Some (negb (is_null (column row c)))
  | a ∧ₛ b => sql_and (eval_cond row a) (eval_cond row b)
  | a ∨ₛ b => sql_or (eval_cond row a) (eval_cond row b)
  end.

(** ** What a table demands *)

(** A CHECK constraint refuses a row for which it is false, and no other. *)
Definition check_holds (row : list (string * value)) (i : item) : bool :=
  match i with Check _ c => match eval_cond row c with Some b => b | None => true end | _ => true end.
(** Two rows agree on columns none of which is null. *)
Definition agree (columns columns' : list string) (row row' : list (string * value)) : bool :=
  forallb (λ c, match sql_eq (column row c.1) (column row' c.2) with Some b => b | None => false end) (zip columns columns').
Definition key_clash (row row' : list (string * value)) (i : item) : bool :=
  match i with PrimaryKey columns | Unique _ columns => agree columns columns row row' | _ => false end.
(** A foreign key refers to a row, unless one of its columns is null. *)
Definition reference_holds (rows_of : string → list (list (string * value))) (row : list (string * value)) (i : item) : bool :=
  match i with
  | ForeignKey _ columns table target _ =>
      existsb (λ c, is_null (column row c)) columns || existsb (agree columns target row) (rows_of table)
  | _ => true
  end.
Definition column_typed (row : list (string * value)) (i : item) : bool :=
  match i with
  | Column name t null _ =>
      match column row name with Null => match null with nullable => true | not_null => false end | v => has_type v t end
  | _ => true
  end.

Definition column_within (row : list (string * value)) (i : item) : bool :=
  match i with Column name t _ _ => within (column row name) t | _ => true end.

(** ** The rows of the model

    [row_typed] is what the type of a column demands and the type of the record's field does
    not: the range of a UUID, a value where the column is not null. *)

Class Mapped (R : Type) := {
  table_name : string;
  values : R → list (string * value);
  row_typed : R → bool }.

#[global] Instance Order_mapped : Mapped Order.row := {
  table_name := "orders";
  values r := [
    ("id", UuidV (Order.id r)); ("order_reference", TextV (Order.order_reference r));
    ("certificate_reference", TextV (Order.certificate_reference r));
    ("manifest_digest", BytesV (Order.manifest_digest r)); ("email", TextV (Order.email r));
    ("amount_minor", IntV (Order.amount_minor r)); ("currency", TextV (Order.currency r));
    ("product_version", TextV (Order.product_version r));
    ("payment_mode", TextV (Order.payment_mode r));
    ("payment_state", TextV (PaymentState.value (Order.payment_state r)));
    ("fulfillment_state", TextV (FulfillmentState.value (Order.fulfillment_state r)));
    ("consent_terms_version", TextV (Order.consent_terms_version r));
    ("consent_privacy_version", TextV (Order.consent_privacy_version r));
    ("consent_accepted_at", TimeV (Order.consent_accepted_at r));
    ("checkout_session_id", or_null TextV (Order.checkout_session_id r));
    ("payment_intent_id", or_null TextV (Order.payment_intent_id r));
    ("fulfillment_key", TextV (Order.fulfillment_key r));
    ("calendar_submitted_at", or_null TimeV (Order.calendar_submitted_at r));
    ("created_at", TimeV (Order.created_at r)); ("updated_at", TimeV (Order.updated_at r))];
  row_typed r := (0 <=? Order.id r) && (Order.id r <? 2 ^ 128) }.
#[global] Instance OrderToken_mapped : Mapped OrderToken.row := {
  table_name := "order_tokens";
  values r := [
    ("id", UuidV (OrderToken.id r)); ("order_id", UuidV (OrderToken.order_id r));
    ("version", IntV (OrderToken.version r)); ("pepper_version", IntV (OrderToken.pepper_version r));
    ("token_hash", BytesV (OrderToken.token_hash r));
    ("revoked_at", or_null TimeV (OrderToken.revoked_at r));
    ("expires_at", TimeV (OrderToken.expires_at r)); ("created_at", TimeV (OrderToken.created_at r))];
  row_typed r := true }.
#[global] Instance IdempotencyRequest_mapped : Mapped IdempotencyRequest.row := {
  table_name := "idempotency_requests";
  values r := [
    ("id", UuidV (IdempotencyRequest.id r)); ("endpoint", TextV (IdempotencyRequest.endpoint r));
    ("key_hash", BytesV (IdempotencyRequest.key_hash r));
    ("request_hash", BytesV (IdempotencyRequest.request_hash r));
    ("order_id", UuidV (IdempotencyRequest.order_id r));
    ("provider_idempotency_key", TextV (IdempotencyRequest.provider_idempotency_key r));
    ("provider_price_id", TextV (IdempotencyRequest.provider_price_id r));
    ("success_url", TextV (IdempotencyRequest.success_url r));
    ("cancel_url", TextV (IdempotencyRequest.cancel_url r));
    ("checkout_state", TextV (CheckoutState_value (IdempotencyRequest.checkout_state r)));
    ("checkout_lease_id", or_null TextV (IdempotencyRequest.checkout_lease_id r));
    ("checkout_lease_expires_at", or_null TimeV (IdempotencyRequest.checkout_lease_expires_at r));
    ("response_status", or_null IntV (IdempotencyRequest.response_status r));
    ("response_body", or_null (λ _, JsonV) (IdempotencyRequest.response_body r));
    ("completed_at", or_null TimeV (IdempotencyRequest.completed_at r));
    ("created_at", TimeV (IdempotencyRequest.created_at r))];
  row_typed r := true }.
#[global] Instance RateCounter_mapped : Mapped RateCounter.row := {
  table_name := "rate_counters";
  values r := [
    ("id", UuidV (RateCounter.id r)); ("endpoint", TextV (RateCounter.endpoint r));
    ("key_hash", BytesV (RateCounter.key_hash r));
    ("window_started_at", TimeV (RateCounter.window_started_at r));
    ("request_count", IntV (RateCounter.request_count r))];
  row_typed r := true }.
#[global] Instance StripeEvent_mapped : Mapped StripeEvent.row := {
  table_name := "stripe_events";
  values r := [
    ("id", UuidV (StripeEvent.id r)); ("stripe_event_id", TextV (StripeEvent.stripe_event_id r));
    ("event_type", TextV (StripeEvent.event_type r)); ("livemode", BoolV (StripeEvent.livemode r));
    ("payload_sha256", BytesV (StripeEvent.payload_sha256 r));
    ("processed_at", or_null TimeV (StripeEvent.processed_at r));
    ("safe_error_code", or_null TextV (StripeEvent.safe_error_code r));
    ("created_at", TimeV (StripeEvent.created_at r))];
  row_typed r := true }.
#[global] Instance DurableJob_mapped : Mapped DurableJob.row := {
  table_name := "durable_jobs";
  values r := [
    ("id", UuidV (DurableJob.id r)); ("job_key", TextV (DurableJob.job_key r));
    ("order_id", UuidV (DurableJob.order_id r)); ("kind", TextV (DurableJob.kind r));
    ("state", TextV (JobState_value (DurableJob.state r)));
    ("generation", IntV (DurableJob.generation r));
    ("attempt_count", IntV (DurableJob.attempt_count r));
    ("max_attempts", IntV (DurableJob.max_attempts r));
    ("available_at", TimeV (DurableJob.available_at r));
    ("lease_owner", or_null TextV (DurableJob.lease_owner r));
    ("lease_until", or_null TimeV (DurableJob.lease_until r));
    ("safe_error_code", or_null TextV (DurableJob.safe_error_code r));
    ("created_at", TimeV (DurableJob.created_at r)); ("updated_at", TimeV (DurableJob.updated_at r))];
  row_typed r := (0 <=? DurableJob.id r) && (DurableJob.id r <? 2 ^ 128) }.
#[global] Instance TaskDispatch_mapped : Mapped TaskDispatch.row := {
  table_name := "task_dispatches";
  values r := [
    ("id", UuidV (TaskDispatch.id r)); ("job_id", UuidV (TaskDispatch.job_id r));
    ("generation", IntV (TaskDispatch.generation r)); ("task_name", TextV (TaskDispatch.task_name r));
    ("schedule_at", TimeV (TaskDispatch.schedule_at r));
    ("state", TextV (DispatchState_value (TaskDispatch.state r)));
    ("attempt_count", IntV (TaskDispatch.attempt_count r));
    ("dispatched_at", or_null TimeV (TaskDispatch.dispatched_at r));
    ("safe_error_code", or_null TextV (TaskDispatch.safe_error_code r));
    ("created_at", TimeV (TaskDispatch.created_at r)); ("updated_at", TimeV (TaskDispatch.updated_at r))];
  row_typed r := true }.
#[global] Instance JobAttempt_mapped : Mapped JobAttempt.row := {
  table_name := "job_attempts";
  values r := [
    ("id", UuidV (JobAttempt.id r)); ("job_id", UuidV (JobAttempt.job_id r));
    ("attempt_number", IntV (JobAttempt.attempt_number r));
    ("worker_id", TextV (JobAttempt.worker_id r)); ("started_at", TimeV (JobAttempt.started_at r));
    ("finished_at", or_null TimeV (JobAttempt.finished_at r));
    ("outcome", or_null TextV (JobAttempt.outcome r));
    ("safe_error_code", or_null TextV (JobAttempt.safe_error_code r));
    ("created_at", TimeV (JobAttempt.created_at r))];
  row_typed r := true }.
#[global] Instance ProofVersion_mapped : Mapped ProofVersion.row := {
  table_name := "proof_versions";
  values r := [
    ("id", UuidV (ProofVersion.id r)); ("order_id", UuidV (ProofVersion.order_id r));
    ("version", IntV (ProofVersion.version r));
    ("target_digest", BytesV (ProofVersion.target_digest r));
    ("proof_bytes", BytesV (ProofVersion.proof_bytes r));
    ("proof_sha256", BytesV (ProofVersion.proof_sha256 r));
    ("proof_byte_length", IntV (ProofVersion.proof_byte_length r));
    ("proof_state", TextV (ProofState_value (ProofVersion.proof_state r)));
    ("calendar_submitted_at", TimeV (ProofVersion.calendar_submitted_at r));
    ("verification_metadata", or_null (λ _, JsonV) (ProofVersion.verification_metadata r));
    ("created_at", TimeV (ProofVersion.created_at r))];
  row_typed r := true }.
#[global] Instance ProofVerification_mapped : Mapped ProofVerification.row := {
  table_name := "proof_verifications";
  values r := [
    ("id", UuidV (ProofVerification.id r)); ("order_id", UuidV (ProofVerification.order_id r));
    ("proof_version", IntV (ProofVerification.proof_version r));
    ("method", TextV (ProofVerification.method r));
    ("verified_at", TimeV (ProofVerification.verified_at r));
    ("block_height", IntV (ProofVerification.block_height r));
    ("block_hash", TextV (ProofVerification.block_hash r));
    ("block_time", TimeV (ProofVerification.block_time r));
    ("confirmation_policy", TextV (ProofVerification.confirmation_policy r));
    ("created_at", TimeV (ProofVerification.created_at r))];
  row_typed r := true }.
#[global] Instance ProofBundle_mapped : Mapped ProofBundle.row := {
  table_name := "proof_bundles";
  values r := [
    ("id", UuidV (ProofBundle.id r)); ("order_id", UuidV (ProofBundle.order_id r));
    ("proof_version", IntV (ProofBundle.proof_version r));
    ("bundle_bytes", BytesV (ProofBundle.bundle_bytes r));
    ("bundle_sha256", BytesV (ProofBundle.bundle_sha256 r));
    ("bundle_byte_length", IntV (ProofBundle.bundle_byte_length r));
    ("created_at", TimeV (ProofBundle.created_at r))];
  row_typed r := true }.
#[global] Instance Observation_mapped : Mapped Observation.row := {
  table_name := "bitcoin_confirmation_observations";
  values r := [
    ("id", UuidV (Observation.id r)); ("order_id", UuidV (Observation.order_id r));
    ("proof_version", IntV (Observation.proof_version r));
    ("observed_confirmations", IntV (Observation.observed_confirmations r));
    ("block_height", IntV (Observation.block_height r));
    ("block_hash", TextV (Observation.block_hash r)); ("method", TextV (Observation.method r));
    ("confirmation_policy", TextV (Observation.confirmation_policy r));
    ("observed_at", TimeV (Observation.observed_at r)); ("event_key", TextV (Observation.event_key r));
    ("created_at", TimeV (Observation.created_at r))];
  row_typed r := true }.
#[global] Instance StateEvent_mapped : Mapped StateEvent.row := {
  table_name := "state_events";
  values r := [
    ("id", UuidV (StateEvent.id r)); ("order_id", UuidV (StateEvent.order_id r));
    ("sequence", IntV (StateEvent.sequence r)); ("event_key", TextV (StateEvent.event_key r));
    ("source", TextV (StateEvent.source r));
    ("previous_payment_state", TextV (PaymentState.value (StateEvent.previous_payment_state r)));
    ("payment_state", TextV (PaymentState.value (StateEvent.payment_state r)));
    ("previous_fulfillment_state", TextV (FulfillmentState.value (StateEvent.previous_fulfillment_state r)));
    ("fulfillment_state", TextV (FulfillmentState.value (StateEvent.fulfillment_state r)));
    ("evidence", JsonV); ("created_at", TimeV (StateEvent.created_at r))];
  row_typed r := true }.
#[global] Instance OutboxRecord_mapped : Mapped OutboxRecord.row := {
  table_name := "outbox";
  values r := [
    ("id", UuidV (OutboxRecord.id r)); ("message_key", TextV (OutboxRecord.message_key r));
    ("order_id", UuidV (OutboxRecord.order_id r)); ("kind", TextV (OutboxRecord.kind r));
    ("recipient", TextV (OutboxRecord.recipient r)); ("payload", JsonV);
    ("state", TextV (OutboxState_value (OutboxRecord.state r)));
    ("attempt_count", IntV (OutboxRecord.attempt_count r));
    ("max_attempts", IntV (OutboxRecord.max_attempts r));
    ("available_at", TimeV (OutboxRecord.available_at r));
    ("lease_owner", or_null TextV (OutboxRecord.lease_owner r));
    ("lease_until", or_null TimeV (OutboxRecord.lease_until r));
    ("lease_token", or_null TextV (OutboxRecord.lease_token r));
    ("proof_version", or_null IntV (OutboxRecord.proof_version r));
    ("confirmation_count", or_null IntV (OutboxRecord.confirmation_count r));
    ("confirmation_observation_id", or_null UuidV (OutboxRecord.confirmation_observation_id r));
    ("provider_message_id", or_null TextV (OutboxRecord.provider_message_id r));
    ("accepted_at", or_null TimeV (OutboxRecord.accepted_at r));
    ("delivered_at", or_null TimeV (OutboxRecord.delivered_at r));
    ("idempotency_expires_at", or_null TimeV (OutboxRecord.idempotency_expires_at r));
    ("safe_error_code", or_null TextV (OutboxRecord.safe_error_code r));
    ("created_at", TimeV (OutboxRecord.created_at r)); ("updated_at", TimeV (OutboxRecord.updated_at r))];
  row_typed r := is_some (OutboxRecord.idempotency_expires_at r) }.
#[global] Instance NotificationAttempt_mapped : Mapped NotificationAttempt.row := {
  table_name := "notification_attempts";
  values r := [
    ("id", UuidV (NotificationAttempt.id r)); ("outbox_id", UuidV (NotificationAttempt.outbox_id r));
    ("attempt_number", IntV (NotificationAttempt.attempt_number r));
    ("worker_id", TextV (NotificationAttempt.worker_id r));
    ("lease_token", TextV (NotificationAttempt.lease_token r));
    ("started_at", TimeV (NotificationAttempt.started_at r));
    ("finished_at", or_null TimeV (NotificationAttempt.finished_at r));
    ("outcome", or_null TextV (NotificationAttempt.outcome r));
    ("response_status", or_null IntV (NotificationAttempt.response_status r));
    ("provider_message_id", or_null TextV (NotificationAttempt.provider_message_id r));
    ("safe_error_code", or_null TextV (NotificationAttempt.safe_error_code r));
    ("created_at", TimeV (NotificationAttempt.created_at r))];
  row_typed r := true }.
#[global] Instance ResendWebhookEvent_mapped : Mapped ResendWebhookEvent.row := {
  table_name := "resend_webhook_events";
  values r := [
    ("id", UuidV (ResendWebhookEvent.id r));
    ("svix_event_id", TextV (ResendWebhookEvent.svix_event_id r));
    ("event_type", TextV (ResendWebhookEvent.event_type r));
    ("provider_message_id", TextV (ResendWebhookEvent.provider_message_id r));
    ("payload_sha256", BytesV (ResendWebhookEvent.payload_sha256 r));
    ("event_created_at", TimeV (ResendWebhookEvent.event_created_at r));
    ("processed_at", TimeV (ResendWebhookEvent.processed_at r));
    ("created_at", TimeV (ResendWebhookEvent.created_at r))];
  row_typed r := true }.

(** The rows of a table of the database, by the table's name. *)
Definition named_rows {R} `{Mapped R} (l : list R) : string * list (list (string * value)) :=
  (table_name (R := R), map values l).
Definition all_rows (d : Db.t) : list (string * list (list (string * value))) := [
  named_rows (Db.orders d);
  named_rows (Db.order_tokens d);
  named_rows (Db.idempotency_requests d);
  named_rows (Db.rate_counters d);
  named_rows (Db.stripe_events d);
  named_rows (Db.durable_jobs d);
  named_rows (Db.task_dispatches d);
  named_rows (Db.job_attempts d);
  named_rows (Db.proof_versions d);
  named_rows (Db.proof_verifications d);
  named_rows (Db.proof_bundles d);
  named_rows (Db.observations d);
  named_rows (Db.state_events d);
  named_rows (Db.outbox d);
  named_rows (Db.notification_attempts d);
  named_rows (Db.resend_webhook_events d)].
Fixpoint rows_named (name : string) (l : list (string * list (list (string * value)))) : list (list (string * value)) :=
  match l with [] => [] | (k, rows) :: rest => if String.eqb k name then rows else rows_named name rest end.
Definition rows_of (d : Db.t) (name : string) : list (list (string * value)) := rows_named name (all_rows d).

(** A table of the model enforces the table of a schema that has its name; what it leaves to the schema is
    that the texts and integers of a row fit their columns. *)
Definition enforces (R : Type) `{Mapped R, Table R} (s : Schema.t) : Prop :=
  ∃ items, assoc (table_name (R := R)) (Schema.tables s) = Some items ∧
    (∀ r : R, row_check r = row_typed r && forallb (check_holds (values r)) items) ∧
    (∀ r r' : R, row_clash r r' = existsb (key_clash (values r) (values r')) items) ∧
    (∀ d (r : R), row_fk d r = forallb (reference_holds (rows_of d) (values r)) items) ∧
    (∀ r : R, row_check r = true → forallb (column_typed (values r)) items = forallb (column_within (values r)) items).
