(* ===== verification/SchemaFacts.v ===== *)
(** * The schema of the migrations

    The migrations build the tables of the models, each downgrade undoes its upgrade, and the
    constraints of [Db] are those that the migrated schema puts on the rows, but for the width of
    texts and the size of integers. *)
From Stdlib Require Import Btauto.
From S2P Require Import Prelude PyStr Json Domain Ports Db SqlSchema Migrations Metadata Rows.

Open Scope string_scope.
Open Scope Z_scope.

(** ** The constraints *)

Section Lists.
Context {A : Type}.
Lemma existsb_map {B} (f : A → B) (p : B → bool) l : existsb p (map f l) = existsb (λ x, p (f x)) l.
Proof. induction l as [|x l IH]; [done|]. cbn. by rewrite IH. Qed.
Lemma existsb_ext (p q : A → bool) l : (∀ x, p x = q x) → existsb p l = existsb q l.
Proof. intros H. induction l as [|x l IH]; [done|]. cbn. by rewrite H, IH. Qed.
End Lists.

(** The head of the migrations. *)
Definition migrated : Schema.t := default Schema.empty (upgrade_head Schema.empty).

(** Known values take part in the logic of SQL as booleans. *)
Lemma sql_and_some a b : sql_and (Some a) (Some b) = Some (a && b).
Proof. by destruct a. Qed.
Lemma sql_or_some a b : sql_or (Some a) (Some b) = Some (a || b).
Proof. by destruct a. Qed.

(** A row is taken apart into its values; the enumerations and the values that may be null are
    analysed case by case, and what is left is propositional logic. *)
Ltac reduce_row :=
  cbn -[Z.leb Z.ltb bool_decide bool_decide_pack strlen blen lower Z.pow sql_and sql_or];
  repeat match goal with
  | |- context [bool_decide (?x ∈ ?l)] =>
      let b := eval vm_compute in (bool_decide (x ∈ l)) in
      lazymatch b with true => idtac | false => idtac end; change (bool_decide (x ∈ l)) with b
  | |- context [bool_decide (String ?a ?x = String ?b ?y)] =>
      let r := eval vm_compute in (bool_decide (String a x = String b y)) in
      change (bool_decide (String a x = String b y)) with r
  end.
Ltac unfold_left := lazymatch goal with |- ?a = _ => let h := head_of a in unfold h end.
Ltac unfold_premise := lazymatch goal with |- ?a = _ → _ => let h := head_of a in unfold h end; reduce_row.
Ltac split_enumerations :=
  repeat match goal with
  | |- context [PaymentState.value ?x] => is_var x; destruct x
  | |- context [FulfillmentState.value ?x] => is_var x; destruct x
  | |- context [CheckoutState_value ?x] => is_var x; destruct x
  | |- context [DispatchState_value ?x] => is_var x; destruct x
  | |- context [ProofState_value ?x] => is_var x; destruct x
  end.
Ltac split_nullable :=
  repeat match goal with
  | |- context [or_null _ ?x] => is_var x; destruct x
  | |- context [is_none ?x] => is_var x; destruct x
  | |- context [is_some ?x] => is_var x; destruct x
  end.
Ltac logic :=
  change uuid with Z; cbn [opt_clash];
  repeat (rewrite sql_and_some || rewrite sql_or_some || cbn [sql_and sql_or]);
  repeat match goal with |- context [lower ?c == ?c] => rewrite (eqb_sym (lower c) c) end; btauto.
Ltac checks_agree :=
  intros r; destruct r; reduce_row; unfold_left; reduce_row; split_enumerations; split_nullable; reduce_row; logic.
Ltac keys_agree := intros r r'; destruct r, r'; reduce_row; unfold_left; reduce_row; split_nullable; reduce_row; logic.
Ltac references_agree :=
  intros d r; destruct r; reduce_row; unfold exists_id, exists_version;
  repeat match goal with |- context [match ?x with Some _ => _ | None => true end] => is_var x; destruct x end; reduce_row;
  rewrite ?existsb_map, ?andb_true_r, ?orb_false_r;
  repeat match goal with
  | |- existsb _ ?l = existsb _ ?l => apply existsb_ext; intros r; reduce_row; change uuid with Z
  | |- true = true => reflexivity
  | |- _ && _ = _ && _ => f_equal
  end;
  apply Bool.eq_iff_eq_true; rewrite ?andb_true_r, ?andb_true_iff, ?bool_decide_eq_true; intuition congruence.
Ltac types_agree :=
  intros r; destruct r; reduce_row; unfold_premise; intros Hr; split_nullable; reflexivity || discriminate.
(** The four parts of [enforces], for a table of the migrated schema. *)
Ltac enforced :=
  eexists; split; [vm_compute; reflexivity|];
  split; [checks_agree|split; [keys_agree|split; [references_agree|types_agree]]].

Lemma Order_enforced : enforces Order.row migrated.
Proof. enforced. Qed.
Lemma OrderToken_enforced : enforces OrderToken.row migrated.
Proof. enforced. Qed.
Lemma IdempotencyRequest_enforced : enforces IdempotencyRequest.row migrated.
Proof. enforced. Qed.
Lemma RateCounter_enforced : enforces RateCounter.row migrated.
Proof. enforced. Qed.
Lemma StripeEvent_enforced : enforces StripeEvent.row migrated.
Proof. enforced. Qed.
Lemma DurableJob_enforced : enforces DurableJob.row migrated.
Proof. enforced. Qed.
Lemma TaskDispatch_enforced : enforces TaskDispatch.row migrated.
Proof. enforced. Qed.
Lemma JobAttempt_enforced : enforces JobAttempt.row migrated.
Proof. enforced. Qed.
Lemma ProofVersion_enforced : enforces ProofVersion.row migrated.
Proof. enforced. Qed.
Lemma ProofVerification_enforced : enforces ProofVerification.row migrated.
Proof. enforced. Qed.
Lemma ProofBundle_enforced : enforces ProofBundle.row migrated.
Proof. enforced. Qed.
Lemma Observation_enforced : enforces Observation.row migrated.
Proof. enforced. Qed.
Lemma StateEvent_enforced : enforces StateEvent.row migrated.
Proof. enforced. Qed.
Lemma OutboxRecord_enforced : enforces OutboxRecord.row migrated.
Proof. enforced. Qed.
Lemma NotificationAttempt_enforced : enforces NotificationAttempt.row migrated.
Proof. enforced. Qed.
Lemma ResendWebhookEvent_enforced : enforces ResendWebhookEvent.row migrated.
Proof. enforced. Qed.

Create HintDb enforced.
#[export] Hint Resolve Order_enforced OrderToken_enforced IdempotencyRequest_enforced RateCounter_enforced StripeEvent_enforced DurableJob_enforced
  TaskDispatch_enforced JobAttempt_enforced ProofVersion_enforced ProofVerification_enforced ProofBundle_enforced
  Observation_enforced StateEvent_enforced OutboxRecord_enforced NotificationAttempt_enforced ResendWebhookEvent_enforced : enforced.

(** ** The head of the migrations *)

(** A table of the model, with what the schema and the database know of it. *)
Record model := Model { model_row : Type; model_mapped : Mapped model_row; model_table : Table model_row }.
Definition models : list model := [
  Model Order.row _ _;
  Model OrderToken.row _ _;
  Model IdempotencyRequest.row _ _;
  Model RateCounter.row _ _;
  Model StripeEvent.row _ _;
  Model DurableJob.row _ _;
  Model TaskDispatch.row _ _;
  Model JobAttempt.row _ _;
  Model ProofVersion.row _ _;
  Model ProofVerification.row _ _;
  Model ProofBundle.row _ _;
  Model Observation.row _ _;
  Model StateEvent.row _ _;
  Model OutboxRecord.row _ _;
  Model NotificationAttempt.row _ _;
  Model ResendWebhookEvent.row _ _].

(** C21: [alembic upgrade head] on an empty database succeeds and builds the schema that the
    mapped classes declare: the same tables with the same indexes, the same constraints (length
    and octet_length of bytes being one) and, in any order, the same columns up to server
    defaults: the models have none, and the schema has three, for columns of the outbox.  The constraints of that schema on a row, read in the three-valued
    logic of SQL, are those that the database of this development enforces on it: its checks, its
    keys and its foreign keys.  And a row that it accepts has values of the types of all columns
    exactly if its texts are no longer than their varchar columns are wide and its integers have
    32 bits, which this development leaves to the schema. *)
Theorem migrations_build_the_models :
  ∃ s, upgrade_head Schema.empty = Some s ∧
    plain_tables (Schema.tables s) = plain_tables tables ∧
    server_defaults tables = [] ∧
    server_defaults (Schema.tables s) =
      [("outbox", "max_attempts", "12"); ("outbox", "idempotency_expires_at", "now() + INTERVAL '24 hours'");
       ("outbox", "updated_at", "now()")] ∧
    sort_by index_name (Schema.indexes s) = sort_by index_name indexes ∧
    map (λ m, table_name (Mapped := model_mapped m)) models = map fst tables ∧
    Forall (λ m, @enforces (model_row m) (model_mapped m) (model_table m) s) models.
Proof.
  exists migrated. repeat (split; [vm_compute; reflexivity|]).
  repeat constructor; eauto with enforced.
Qed.

(** ** The way back *)

(** The schema with its parts in the order of their names. *)
Definition sorted (s : Schema.t) : Schema.t :=
  Schema.mk (sort_fields (map (λ t, (t.1, sort_by item_key t.2)) (Schema.tables s)))
    (sort_by index_name (Schema.indexes s)) (sort_fields (Schema.functions s))
    (sort_by (λ t, trigger_table t ++ " " ++ trigger_name t) (Schema.triggers s)).
(** The revision follows those before it, and its downgrade undoes its upgrade. *)
Definition reversible (n : nat) : Prop :=
  ∃ r before after back, revisions !! n = Some r ∧
    Revision.down_revision r = (Revision.revision <$> last (take n revisions)) ∧
    foldl (λ s r, s ≫= run (Revision.up r)) (Some Schema.empty) (take n revisions) = Some before ∧
    run (Revision.up r) before = Some after ∧ run (Revision.down r) after = Some back ∧
    sorted back = sorted before.

(** The revisions are a chain, and downgrading a revision right after upgrading to it gives
    the schema before it: its tables with their columns, defaults and constraints, its indexes,
    its functions with their bodies and its triggers, whatever the order they are declared in. *)
Theorem downgrade_undoes_upgrade : Forall reversible (seq 0 (List.length revisions)).
Proof.
  repeat (apply Forall_cons; split); [..|apply Forall_nil; exact I];
    (do 4 eexists; repeat (split; [vm_compute; reflexivity|]); vm_compute; reflexivity).
Qed.
