(* ===== verification/Triggers.v ===== *)
(** * The triggers

    The functions in PL/pgSQL that the migrations install, as what they answer to an update:
    nothing, or the message of the exception they raise.  [enforce_order_state_transition] reads
    other tables; it is given the database at the time of the update. *)
From S2P Require Import Prelude PyStr Uuid Domain Ports Db Session Proofs SqlSchema Rows.

Open Scope string_scope.
Open Scope Z_scope.

Definition raise_exception_when (b : bool) (message : string) : option string := if b then Some message else None.
(** The statements of a body in turn: the first exception ends it. *)
Fixpoint first_exception (l : list (option string)) : option string :=
  match l with [] => None | Some message :: _ => Some message | None :: rest => first_exception rest end.

(** ** [reject_append_only_change], [reject_order_snapshot_change] *)

Definition reject_append_only_change (table : string) : option string := Some (table ++ " is append-only").

Definition snapshot_columns : list string := [
  "order_reference"; "certificate_reference"; "manifest_digest"; "email"; "amount_minor"; "currency";
  "product_version"; "payment_mode"; "consent_terms_version"; "consent_privacy_version";
  "consent_accepted_at"; "fulfillment_key"].
(** [IS DISTINCT FROM] holds of null and a value, and not of two nulls. *)
Definition is_distinct_from (a b : value) : bool :=
  match sql_eq a b with Some equal => negb equal | None => negb (is_null a && is_null b) end.
Definition reject_order_snapshot_change (old new : list (string * value)) : option string :=
  raise_exception_when (existsb (λ c, is_distinct_from (column new c) (column old c)) snapshot_columns)
    "immutable order snapshot cannot be changed".

(** ** [enforce_order_state_transition] *)

Definition one_of (s : string) (l : list string) : bool := existsb (String.eqb s) l.
Definition payment_transition (old new : string) : bool :=
  (String.eqb old "checkout_open" &&
     one_of new ["processing"; "paid"; "failed"; "expired"; "refunded"; "disputed"]) ||
  (String.eqb old "processing" && one_of new ["paid"; "failed"; "expired"; "refunded"; "disputed"]) ||
  (String.eqb old "paid" && one_of new ["refunded"; "disputed"]) ||
  (String.eqb old "disputed" && String.eqb new "refunded").
Definition fulfillment_transition (old new : string) : bool :=
  (String.eqb old "awaiting_payment" && one_of new ["queued"; "manual_review"]) ||
  (String.eqb old "queued" && one_of new ["stamping"; "manual_review"]) ||
  (String.eqb old "stamping" && one_of new ["calendar_pending"; "manual_review"]) ||
  (String.eqb old "calendar_pending" && one_of new ["bitcoin_verified"; "manual_review"]) ||
  (String.eqb old "bitcoin_verified" && one_of new ["delivered"; "manual_review"]) ||
  (String.eqb old "delivered" && String.eqb new "manual_review").

(** [latest.order_id = NEW.id AND latest.version = (SELECT MAX(candidate.version) ...)] *)
Definition is_latest (d : Db.t) (order_id : uuid) (latest : ProofVersion.row) : bool :=
  (ProofVersion.order_id latest == order_id) &&
  (Some (ProofVersion.version latest) ==
   max_of ProofVersion.version (List.filter (λ p, ProofVersion.order_id p == order_id) (Db.proof_versions d))).
(** The join of the latest version with its verification. *)
Definition latest_verified (d : Db.t) (order_id : uuid)
    (P : ProofVersion.row → ProofVerification.row → bool) : bool :=
  existsb (λ latest, is_latest d order_id latest &&
    existsb (λ verification,
        (ProofVerification.order_id verification == ProofVersion.order_id latest) &&
        (ProofVerification.proof_version verification == ProofVersion.version latest) && P latest verification)
      (Db.proof_verifications d)) (Db.proof_versions d).
(** The join of these with the bundle and the notification. *)
Definition latest_bundled (d : Db.t) (order_id : uuid)
    (P : ProofVersion.row → ProofVerification.row → OutboxRecord.row → bool) : bool :=
  latest_verified d order_id (λ latest verification,
    existsb (λ bundle,
        (ProofBundle.order_id bundle == ProofVersion.order_id latest) &&
        (ProofBundle.proof_version bundle == ProofVersion.version latest)) (Db.proof_bundles d) &&
    existsb (λ sender, (OutboxRecord.order_id sender == ProofVersion.order_id latest) && P latest verification sender)
      (Db.outbox d)).

(** The condition on the sender before the provider's signed events: [mode = legacy]. *)
Definition legacy_sender (new : Order.row) (latest : ProofVersion.row) (sender : OutboxRecord.row) : bool :=
  (OutboxRecord.message_key sender ==
     "timestamp-complete-v" ++ str_int (ProofVersion.version latest) ++ "-" ++ Order.order_reference new) &&
  (OutboxRecord.kind sender == "timestamp-complete") && (OutboxRecord.state sender == OB_DELIVERED) &&
  is_some (OutboxRecord.provider_message_id sender) && is_some (OutboxRecord.delivered_at sender).

(** The observation and the verification are of the same block. *)
Definition observes (observation : Observation.row) (verification : ProofVerification.row) : bool :=
  (1 <=? Observation.observed_confirmations observation) &&
  (Observation.block_height observation == ProofVerification.block_height verification) &&
  (Observation.block_hash observation == ProofVerification.block_hash verification) &&
  (Observation.method observation == ProofVerification.method verification) &&
  (Observation.confirmation_policy observation == ProofVerification.confirmation_policy verification).
(** [mode = resend] *)
Definition signed_sender (d : Db.t) (new : Order.row) (latest : ProofVersion.row)
    (verification : ProofVerification.row) (sender : OutboxRecord.row) : bool :=
  existsb (λ resend_event,
      (Some (ResendWebhookEvent.provider_message_id resend_event) == OutboxRecord.provider_message_id sender) &&
      (ResendWebhookEvent.event_type resend_event == "email.delivered")) (Db.resend_webhook_events d) &&
  existsb (λ observation,
      (Some (Observation.id observation) == OutboxRecord.confirmation_observation_id sender) &&
      (Observation.order_id observation == OutboxRecord.order_id sender) &&
      (Observation.proof_version observation == ProofVersion.version latest) &&
      (Some (Observation.observed_confirmations observation) == OutboxRecord.confirmation_count sender) &&
      observes observation verification) (Db.observations d) &&
  existsb (λ current_observation,
      (Observation.order_id current_observation == OutboxRecord.order_id sender) &&
      (Observation.proof_version current_observation == ProofVersion.version latest) &&
      (Some (Observation.id current_observation) ==
        (Observation.id <$> best observation_newer
          (List.filter (λ candidate, (Observation.order_id candidate == OutboxRecord.order_id sender) &&
             (Observation.proof_version candidate == ProofVersion.version latest)) (Db.observations d)))) &&
      observes current_observation verification) (Db.observations d) &&
  (OutboxRecord.message_key sender ==
     "bitcoin-confirmed-initial-v" ++ str_int (ProofVersion.version latest) ++ "-" ++ Order.order_reference new) &&
  (OutboxRecord.kind sender == "bitcoin-confirmed-initial") &&
  (OutboxRecord.proof_version sender == Some (ProofVersion.version latest)) &&
  match OutboxRecord.confirmation_count sender with Some count => 1 <=? count | None => false end &&
  (OutboxRecord.state sender == OB_DELIVERED) && is_some (OutboxRecord.provider_message_id sender) &&
  is_some (OutboxRecord.accepted_at sender) && is_some (OutboxRecord.delivered_at sender).

(** Whether the evidence for a delivery is stored, as the installed body demands it. *)
Definition delivery_stored (signed_delivery : bool) (d : Db.t) (new : Order.row) : bool :=
  latest_bundled d (Order.id new) (λ latest verification sender,
    if signed_delivery then signed_sender d new latest verification sender else legacy_sender new latest sender).
Definition verification_stored (d : Db.t) (order_id : uuid) : bool := latest_verified d order_id (λ _ _, true).

Definition enforce_order_state_transition (signed_delivery : bool) (d : Db.t) (old new : Order.row) : option string :=
  let old_payment := PaymentState.value (Order.payment_state old) in
  let new_payment := PaymentState.value (Order.payment_state new) in
  let old_fulfillment := FulfillmentState.value (Order.fulfillment_state old) in
  let new_fulfillment := FulfillmentState.value (Order.fulfillment_state new) in
  let enters s := negb (String.eqb old_fulfillment new_fulfillment) && String.eqb new_fulfillment s in
  first_exception [
    raise_exception_when (negb (String.eqb new_payment old_payment) && negb (payment_transition old_payment new_payment))
      ("illegal payment state transition: " ++ old_payment ++ " -> " ++ new_payment);
    raise_exception_when (negb (String.eqb new_fulfillment old_fulfillment) &&
                          negb (fulfillment_transition old_fulfillment new_fulfillment))
      ("illegal fulfillment state transition: " ++ old_fulfillment ++ " -> " ++ new_fulfillment);
    raise_exception_when (enters "queued" && negb (String.eqb new_payment "paid"))
      "fulfillment cannot be queued before payment";
    raise_exception_when (enters "bitcoin_verified" && negb (verification_stored d (Order.id new)))
      "bitcoin verification evidence is required";
    raise_exception_when (enters "delivered" && negb (delivery_stored signed_delivery d new))
      "proof bundle and sender evidence is required"].

(** ** The triggers of a schema, on an update of an order *)

Definition call (b : body) (table : string) (d : Db.t) (old new : Order.row) : option string :=
  match b with
  | RejectAppendOnlyChange => reject_append_only_change table
  | RejectOrderSnapshotChange => reject_order_snapshot_change (values old) (values new)
  | EnforceOrderStateTransition signed_delivery => enforce_order_state_transition signed_delivery d old new
  end.
(** The triggers of a table fire in the order of their names. *)
Definition fire_triggers (s : Schema.t) (d : Db.t) (old new : Order.row) : option string :=
  first_exception (map (λ t,
      match assoc (trigger_function t) (Schema.functions s) with
      | Some b => call b (trigger_table t) d old new
      | None => Some "function does not exist"
      end)
    (sort_by trigger_name (List.filter (λ t, String.eqb (trigger_table t) "orders") (Schema.triggers s)))).

(** ** What the triggers accept

    The triggers on the orders accept exactly the changes that [app/domain/order.py] allows, with
    the evidence that goes with them; and they never stand in the way of a transaction of the
    service, but for a verification that a newer proof version has overtaken. *)
From Stdlib Require Import Btauto.
From S2P Require Import Prelude PyStr Uuid Sha256 Domain Ports Db Session Exec Evolution OrderLife Proofs Outbox OutboxLife Evidence Scenario SqlSchema Migrations Metadata Rows SchemaFacts.

Open Scope string_scope.
Open Scope Z_scope.
Import PaymentState FulfillmentState.

(** ** The tables of transitions *)

Lemma payment_transition_spec p p' :
  payment_transition (PaymentState.value p) (PaymentState.value p') = bool_decide (payment_step p p').
Proof. by destruct p, p'. Qed.
Lemma fulfillment_transition_spec f f' :
  fulfillment_transition (FulfillmentState.value f) (FulfillmentState.value f') = bool_decide (fulfillment_step f f').
Proof. by destruct f, f'. Qed.
Lemma payment_value_eqb p p' : String.eqb (PaymentState.value p) (PaymentState.value p') = (p == p').
Proof. by destruct p, p'. Qed.
Lemma fulfillment_value_eqb f f' : String.eqb (FulfillmentState.value f) (FulfillmentState.value f') = (f == f').
Proof. by destruct f, f'. Qed.

Lemma snapshot_change_spec old new :
  reject_order_snapshot_change (values old) (values new) =
    if immutable_changed old new then Some "immutable order snapshot cannot be changed" else None.
Proof.
  unfold reject_order_snapshot_change, raise_exception_when.
  assert (existsb (λ c, is_distinct_from (column (values new) c) (column (values old) c)) snapshot_columns =
          immutable_changed old new) as ->; [|done].
  unfold immutable_changed. destruct old, new. cbn -[bool_decide].
  repeat match goal with |- context [bool_decide (?a = ?b)] => lazymatch goal with
    | |- context [bool_decide (b = a)] => rewrite (eqb_sym b a) end end.
  btauto.
Qed.

(** ** The triggers of the migrated schema *)

Lemma fire_head d old new :
  fire_triggers migrated d old new =
    first_exception [reject_order_snapshot_change (values old) (values new);
                     enforce_order_state_transition true d old new].
Proof.
  unfold fire_triggers.
  assert (sort_by trigger_name (List.filter (λ t, String.eqb (trigger_table t) "orders") (Schema.triggers migrated)) =
    [mk_trigger "orders_immutable_snapshot" "orders" "reject_order_snapshot_change";
     mk_trigger "orders_state_transition" "orders" "enforce_order_state_transition"]) as -> by (vm_compute; reflexivity).
  assert (assoc "reject_order_snapshot_change" (Schema.functions migrated) = Some RejectOrderSnapshotChange) as E1
    by (vm_compute; reflexivity).
  assert (assoc "enforce_order_state_transition" (Schema.functions migrated) = Some (EnforceOrderStateTransition true)) as E2
    by (vm_compute; reflexivity).
  cbn [map trigger_function trigger_table]. rewrite E1, E2. reflexivity.
Qed.

(** What entering a state takes, besides the transition itself. *)
Definition entry_evidence (d : Db.t) (new : Order.row) : Prop :=
  match Order.fulfillment_state new with
  | QUEUED => Order.payment_state new = PAID
  | BITCOIN_VERIFIED => verification_stored d (Order.id new) = true
  | DELIVERED => delivery_stored true d new = true
  | _ => True
  end.

Lemma first_exception_None l : first_exception l = None ↔ Forall (λ x, x = None) l.
Proof.
  induction l as [|[m|] l IH]; cbn; [by split|split; [done|by inversion 1]|].
  rewrite IH, Forall_cons. naive_solver.
Qed.
Lemma raise_exception_when_None b m : raise_exception_when b m = None ↔ b = false.
Proof. by destruct b. Qed.

Lemma enforce_accepts d old new :
  enforce_order_state_transition true d old new = None ↔
    (Order.payment_state new = Order.payment_state old ∨
     payment_step (Order.payment_state old) (Order.payment_state new)) ∧
    (Order.fulfillment_state new = Order.fulfillment_state old ∨
     fulfillment_step (Order.fulfillment_state old) (Order.fulfillment_state new) ∧ entry_evidence d new).
Proof.
  unfold enforce_order_state_transition, entry_evidence. cbv zeta.
  rewrite first_exception_None, !Forall_cons, Forall_nil, !raise_exception_when_None.
  rewrite payment_transition_spec, fulfillment_transition_spec.
  change "paid" with (PaymentState.value PAID). rewrite !payment_value_eqb, !fulfillment_value_eqb.
  generalize (verification_stored d (Order.id new)) (delivery_stored true d new). intros stored sent.
  generalize (Order.payment_state old) (Order.payment_state new) (Order.fulfillment_state old) (Order.fulfillment_state new).
  intros p p' f f'. rewrite andb_false_iff, !negb_false_iff, !bool_decide_eq_true.
  apply and_iff_compat_l.
  destruct (decide (f' = f)) as [->|N].
  - rewrite !(bool_decide_true (f = f)) by done. cbn. tauto.
  - rewrite (bool_decide_false (f' = f)), (bool_decide_false (f = f')) by congruence.
    destruct (decide (fulfillment_step f f')); [rewrite bool_decide_true by done|rewrite bool_decide_false by done; naive_solver].
    destruct f'; cbn; destruct stored, sent; rewrite ?negb_false_iff, ?bool_decide_eq_true; intuition congruence.
Qed.

(** C22: The triggers of the migrated schema accept an update of an order exactly when it leaves
    the snapshot alone, each of the two states stays or takes a transition of
    [app/domain/order.py], and a state is entered with what it takes: a payment for the queue,
    the verification of the latest proof version, or the bundle of that version with the signed
    delivery of its notification. *)
Theorem triggers_accept_legal_updates d old new :
  fire_triggers migrated d old new = None ↔
    immutable_changed old new = false ∧
    (Order.payment_state new = Order.payment_state old ∨
     payment_step (Order.payment_state old) (Order.payment_state new)) ∧
    (Order.fulfillment_state new = Order.fulfillment_state old ∨
     fulfillment_step (Order.fulfillment_state old) (Order.fulfillment_state new) ∧ entry_evidence d new).
Proof.
  rewrite fire_head, snapshot_change_spec, <-(enforce_accepts d), first_exception_None, !Forall_cons, Forall_nil.
  destruct (immutable_changed old new); naive_solver.
Qed.

(** ** The delivery of a notification *)

Lemma existsb_intro {A} (p : A → bool) l x : x ∈ l → p x = true → existsb p l = true.
Proof. intros Hx Hp. apply existsb_exists. exists x. split; [by apply list_elem_of_In|done]. Qed.
Lemma max_of_best {R} (f : R → Z) l : max_of f l = f <$> best (λ a b, f b <? f a) l.
Proof.
  unfold max_of, best. change (@None Z) with (f <$> @None R). generalize (@None R).
  induction l as [|x l IH]; intros acc; [done|]. cbn [fold_left]. rewrite <-IH. f_equal.
  destruct acc as [y|]; [|done]. cbn. destruct (f y <? f x) eqn:E; cbn; f_equal; lia.
Qed.

(** The record that the delivered event of its message leaves behind. *)
Definition delivered_record (record : OutboxRecord.row) (event : ResendWebhookEvent.row) (now : Z) : OutboxRecord.row :=
  record <| OutboxRecord.state := OB_DELIVERED |>
         <| OutboxRecord.delivered_at := Some (ResendWebhookEvent.event_created_at event) |>
         <| OutboxRecord.safe_error_code := None |> <| OutboxRecord.updated_at := now |>.
Definition delivered_order (order : Order.row) (now : Z) : Order.row :=
  order <| Order.fulfillment_state := DELIVERED |> <| Order.updated_at := now |>.
(** The event is the delivery of the message that the provider accepted. *)
Definition delivery_of (event : ResendWebhookEvent.row) (record : OutboxRecord.row) : Prop :=
  is_some (OutboxRecord.accepted_at record) = true ∧
  OutboxRecord.provider_message_id record = Some (ResendWebhookEvent.provider_message_id event) ∧
  ResendWebhookEvent.event_type event = "email.delivered".
Definition record_saved (d : Db.t) (record : OutboxRecord.row) : Db.t :=
  set_tbl (replace_row record (tbl d)) d.

Lemma observes_spec o v :
  1 <= Observation.observed_confirmations o → _observation_matches_verification o v = true → observes o v = true.
Proof.
  unfold observes, _observation_matches_verification. intros H. rewrite !andb_true_iff. intros [[[? ?] ?] ?].
  split_and!; try done. lia.
Qed.
Lemma delivery_record_initial order record x :
  delivery_record order record = Some x → OutboxRecord.kind record = "bitcoin-confirmed-initial" →
  ∃ version count observation, x = (1, version, count, observation) ∧
    OutboxRecord.proof_version record = Some version ∧ OutboxRecord.confirmation_count record = Some count ∧
    OutboxRecord.confirmation_observation_id record = Some observation ∧ 1 <= count ∧
    is_some (OutboxRecord.provider_message_id record) = true ∧
    OutboxRecord.message_key record = notification_key INITIAL_CONFIRMATION version (Order.order_reference order).
Proof.
  unfold delivery_record. intros H E. rewrite E in H. cbn in H.
  destruct (OutboxRecord.proof_version record) as [version|], (OutboxRecord.confirmation_count record) as [count|],
    (OutboxRecord.confirmation_observation_id record) as [observation|]; try done.
  destruct (_ || _) eqn:C in H; [done|]. injection H as <-. rewrite !orb_false_iff in C.
  destruct C as [[[[[_ C2] C3] C4] _] _]. apply negb_false_iff, bool_decide_eq_true in C4.
  exists version, count, observation. split_and!; try done; [lia|].
  unfold is_some. by rewrite C2.
Qed.

(** What the code finds, in the words of the trigger. *)
Lemma signed_sender_intro d order record event version count observation (p : ProofVersion.row) v bound current :
  event ∈ Db.resend_webhook_events d → delivery_of event record →
  OutboxRecord.kind record = "bitcoin-confirmed-initial" → OutboxRecord.order_id record = Order.id order →
  OutboxRecord.state record = OB_DELIVERED → is_some (OutboxRecord.delivered_at record) = true →
  OutboxRecord.proof_version record = Some version → OutboxRecord.confirmation_count record = Some count → 1 <= count →
  OutboxRecord.confirmation_observation_id record = Some observation →
  OutboxRecord.message_key record = notification_key INITIAL_CONFIRMATION version (Order.order_reference order) →
  ProofVersion.version p = version →
  find_row (λ r : Observation.row, row_id r == observation) (Db.observations d) = Some bound →
  Observation.order_id bound = Order.id order → Observation.proof_version bound = version →
  Observation.observed_confirmations bound = count → observes bound v = true →
  best observation_newer (List.filter (λ o : Observation.row,
    (Observation.order_id o == Order.id order) && (Observation.proof_version o == version)) (Db.observations d)) = Some current →
  observes current v = true →
  signed_sender d order p v record = true.
Proof.
  intros Hev (Hacc & Hpid & Htype) Hkind Horder Hst Hdel Hv Hc Hcount Ho Hkey <- Fb Hb1 Hb2 Hb3 Hb4 Fc Hc4.
  apply find_row_Some in Fb as [Hb Hbi%bool_decide_eq_true].
  pose proof (observation_current _ _ _ _ Fc) as (Hcin & Hc1 & Hc2).
  unfold signed_sender. rewrite !andb_true_iff, !bool_decide_eq_true, Hkind, Horder, Hst, Hdel, Hv, Hc, Ho, Hkey, Hpid, Hacc.
  split_and!; try done; [..|by apply Z.leb_le].
  - apply (existsb_intro _ _ event Hev). rewrite andb_true_iff, !bool_decide_eq_true. by split.
  - apply (existsb_intro _ _ bound Hb). rewrite !andb_true_iff, !bool_decide_eq_true. simpl in Hbi. split_and!; congruence.
  - apply (existsb_intro _ _ current Hcin). rewrite !andb_true_iff, !bool_decide_eq_true, Fc. by split_and!.
Qed.
(** The evidence that the code looks for is what the trigger demands, once the record is saved. *)
Lemma delivery_evidence_stored order record event now w :
  event ∈ Db.resend_webhook_events (World.db w) → delivery_of event record →
  OutboxRecord.order_id record = Order.id order →
  commits (_delivery_evidence_matches order record)
    (λ b w', w' = w ∧ (b = true → OutboxRecord.kind record = "bitcoin-confirmed-initial" →
       (∃ r, r ∈ Db.outbox (World.db w) ∧ OutboxRecord.id r = OutboxRecord.id record) →
       delivery_stored true (record_saved (World.db w) (delivered_record record event now)) (delivered_order order now) = true)) w.
Proof.
  intros Hev (Hacc & Hpid & Htype) Horder.
  destruct (decide (OutboxRecord.kind record = "bitcoin-confirmed-initial")) as [Hkind|];
    [|by call delivery_evidence_inv as b [-> _]].
  unfold _delivery_evidence_matches, _notification_observation_matches, latest_version, latest_observation.
  exec_case; [|by exec]. destruct p as [[[threshold version] count] observation].
  destruct (delivery_record_initial _ _ _ B Hkind) as (? & ? & ? & [= -> <- <- <-] & Hv & Hc & Ho & Hcount & Hsome & Hkey).
  do 2 exec_step. exec_case; [|by exec]. exec_case; [by exec|].
  do 2 exec_step. exec_step. exec_step. exec_case; [|by exec]. exec_case; [|by exec]. exec. split; [done|].
  rewrite !andb_true_iff. intros (((Hobs & _) & _) & _) _ Hin.
  destruct o2 as [bound|]; [|done]. destruct o3 as [current|]; [|done].
  rewrite !andb_true_iff, !bool_decide_eq_true in Hobs.
  destruct Hobs as ((((((Hb1 & Hb2) & Hb3) & Hb4) & Hc4) & Hb5) & Hc5).
  apply negb_false_iff in B1. unfold delivery_proof in B1. rewrite !andb_true_iff, !bool_decide_eq_true in B1.
  destruct B1 as (((Ev & _) & _) & _). pose proof (best_version_elem _ _ _ F) as [Hp Hpo].
  apply find_row_Some in F0 as [Hver Hvv], F1 as [Hbun Hbb].
  unfold this_verification, this_bundle in *. rewrite andb_true_iff, !bool_decide_eq_true in Hvv, Hbb.
  destruct Hvv as [Hvv1 Hvv2], Hbb as [Hbb1 Hbb2].
  unfold delivery_stored, latest_bundled, latest_verified.
  apply (existsb_intro _ _ r Hp). rewrite andb_true_iff. split.
  { unfold is_latest. rewrite max_of_best, andb_true_iff, !bool_decide_eq_true. simpl in F |- *. by rewrite F. }
  apply (existsb_intro _ _ r0 Hver). rewrite !andb_true_iff, !bool_decide_eq_true. split_and!; [congruence..| |].
  { apply (existsb_intro _ _ r1 Hbun). rewrite andb_true_iff, !bool_decide_eq_true. split; congruence. }
  apply (existsb_intro _ _ (delivered_record record event now)).
  { destruct Hin as (old & Hold & Hid). apply elem_of_replace. right. split; [done|]. by exists old. }
  rewrite andb_true_iff, bool_decide_eq_true. split; [simpl; congruence|].
  apply (signed_sender_intro _ _ _ event version count observation r r0 bound current); try done;
    apply observes_spec; try done; by apply Z.leb_le.
Qed.

(** The two writes of a delivery, when it delivers the order. *)
Definition guarded_delivery (record : OutboxRecord.row) (event : ResendWebhookEvent.row) (now : Z) (d d' : Db.t) : Prop :=
  ∃ order, order ∈ Db.orders d ∧ Order.id order = OutboxRecord.order_id record ∧
    Order.fulfillment_state order = BITCOIN_VERIFIED ∧
    fire_triggers migrated (record_saved d (delivered_record record event now)) order (delivered_order order now) = None ∧
    Db.orders d' = replace_row (delivered_order order now) (Db.orders d).

Lemma delivered_order_accepted d order now :
  Order.fulfillment_state order = BITCOIN_VERIFIED → delivery_stored true d (delivered_order order now) = true →
  fire_triggers migrated d order (delivered_order order now) = None.
Proof.
  intros Hf Hs. rewrite fire_head, snapshot_change_spec.
  replace (immutable_changed order (delivered_order order now)) with false by (symmetry; exact (immutable_changed_refl order)).
  cbn [first_exception]. assert (enforce_order_state_transition true d order (delivered_order order now) = None) as ->; [|done].
  apply enforce_accepts. split; [by left|right]. split; [|done]. unfold fulfillment_step. rewrite Hf. simpl. left.
Qed.

Lemma apply_delivered_guarded record event now w :
  event ∈ Db.resend_webhook_events (World.db w) →
  commits (_apply_delivered_event record event now)
    (λ r w', WebhookProcessResult.order_transitioned r = true →
             guarded_delivery record event now (World.db w) (World.db w')) w.
Proof.
  intros Hev. unfold _apply_delivered_event. exec_case; [by exec|].
  rewrite !orb_false_iff, !negb_false_iff, !bool_decide_eq_true in B. destruct B as [[[_ Hacc] Hpid] Htype].
  assert (delivery_of event record) as Hdel.
  { split_and!; [|done|done]. by destruct (OutboxRecord.accepted_at record). }
  do 2 exec_step. exec_case; [|by exec]. apply find_row_Some in F as [Hin Hid%bool_decide_eq_true].
  exec_step. call delivery_evidence_stored as b [-> Hs]; [exact Hev|exact Hdel|by symmetry|].
  destruct b; cbv beta iota delta [negb]; [|by exec].
  exec_case; [|by exec]. exec_case; [by exec|]. do 2 exec_step. exec_case; [by exec|]. cbv zeta.
  exec. intros _. apply orb_false_iff in B3 as [Hn%bool_decide_eq_false Hd%bool_decide_eq_false].
  apply negb_false_iff, bool_decide_eq_true in B1.
  assert (Order.fulfillment_state r = BITCOIN_VERIFIED) as Hf
    by (by repeat (apply elem_of_cons in B1 as [?|B1]; [done|]); inversion B1).
  apply NotificationKind_of_Some in B0. apply find_row_Some in F as [Hold Hoid%bool_decide_eq_true].
  exists r. split_and!; try done.
  - apply delivered_order_accepted; [done|]. apply Hs; [done|by destruct n|by exists old].
  - rewrite D2, D1, D0, D. done.
Qed.

(** C23: Whenever the provider's signed event delivers an order, the triggers of the migrated
    schema let it: at the moment of the update the database holds what
    [enforce_order_state_transition] looks for, which is stated on its own in SQL (the latest
    proof version with its verification and its bundle, the notification of that version with
    the key, the state and the times it must have, the signed event, and the bound and the
    current observation, both of the verified block). *)
Theorem delivery_passes_the_triggers record event now w r w' :
  event ∈ Db.resend_webhook_events (World.db w) →
  _apply_delivered_event record event now w = (Ok r, w') → WebhookProcessResult.order_transitioned r = true →
  guarded_delivery record event now (World.db w) (World.db w').
Proof. intros Hev E. exact (apply_delivered_guarded _ _ _ _ Hev _ _ E). Qed.

(** The delivered event of the scenario, stored and not yet applied. *)
Definition noticed : World.t :=
  after (SqlResendWebhookStore._insert_webhook_event delivered_event (sha256 (encode "event")) (start + hours 4)) accepted.
Definition delivers (record : OutboxRecord.row) (event : ResendWebhookEvent.row) : bool :=
  match result_of (_apply_delivered_event record event (start + hours 4)) noticed with
  | Ok r => WebhookProcessResult.order_transitioned r
  | Raise _ => false
  end.
Lemma delivery_passes_the_triggers_witness : ∃ record event w',
  guarded_delivery record event (start + hours 4) (World.db noticed) w'.
Proof.
  assert (existsb (λ record, existsb (delivers record) (Db.resend_webhook_events (World.db noticed)))
    (Db.outbox (World.db noticed)) = true) as E by (vm_compute; reflexivity).
  apply existsb_exists in E as (record & _ & E). apply existsb_exists in E as (event & He & E).
  unfold delivers, result_of in E.
  destruct (_apply_delivered_event record event (start + hours 4) noticed) as [[r|e] w'] eqn:Er; [|discriminate].
  exists record, event, (World.db w').
  exact (delivery_passes_the_triggers record event (start + hours 4) noticed r w' (proj2 (list_elem_of_In _ _) He) Er E).
Defined.
