(* ===== verification/Service.v ===== *)
(** * What the service guarantees

    The theorems about every database that the service reaches from an empty one, with any
    number of processes running any of the transactions in any order. *)
From S2P Require Import Prelude PyStr Sha256 Domain Ports Db Session Evolution OrderLife JobLife OutboxLife Growth OrderOps Evidence System Scenario.

Open Scope Z_scope.
Import PaymentState FulfillmentState.

(** ** Orders *)

(** C5: along any run, an order stays in the table under its identifier, its snapshot (the
    references, the digest, the email, the price, the consents and the fulfillment key) never
    changes, the provider's references and the calendar time are set at most once, and its
    payment and fulfillment states move along the two transition tables. *)
Theorem order_evolution w w' o :
  reachable w → service w w' → o ∈ Db.orders (World.db w) →
  ∃ o', o' ∈ Db.orders (World.db w') ∧ Order.id o' = Order.id o ∧
    Order.created_at o' = Order.created_at o ∧ immutable_changed o o' = false ∧
    set_once (Order.checkout_session_id o) (Order.checkout_session_id o') ∧
    set_once (Order.payment_intent_id o) (Order.payment_intent_id o') ∧
    set_once (Order.calendar_submitted_at o) (Order.calendar_submitted_at o') ∧
    rtc payment_step (Order.payment_state o) (Order.payment_state o') ∧
    rtc fulfillment_step (Order.fulfillment_state o) (Order.fulfillment_state o').
Proof.
  intros Hr Hs Ho. destruct (kp_orders _ _ (service_kept _ _ Hr Hs) o Ho) as (o' & Ho' & _ & Hl).
  exists o'. destruct (later_fixed _ _ Hl) as []. pose proof (states_later _ _ Hl) as Hst.
  split_and!; try done; [by apply (states_rtc_payment _ _ Hst)|by apply (states_rtc_fulfillment _ _ Hst)].
Qed.

(** C1: no order is ever queued, stamped, verified or delivered without a payment having been
    received, and an order that is paid is not waiting any more. *)
Theorem fulfillment_needs_payment w o :
  reachable w → o ∈ Db.orders (World.db w) →
  (Order.fulfillment_state o ≠ AWAITING_PAYMENT → was_paid (Order.payment_state o) = true) ∧
  (Order.payment_state o = PAID → Order.fulfillment_state o ≠ AWAITING_PAYMENT).
Proof. intros Hr%reachable_good Ho. apply (reach_states o), (proj2 (gd_orders _ Hr)), Ho. Qed.

(** C4: an order that the service shows as waiting for Bitcoin has a stored proof of its digest;
    one that it shows as verified has such a proof with a
    Bitcoin verification of the same version; and one that it shows as delivered has, besides,
    the bundle of that version and a confirmation observation of the verified block. *)
Theorem shown_states_have_evidence w o :
  reachable w → o ∈ Db.orders (World.db w) →
  (Order.fulfillment_state o = CALENDAR_PENDING → stamped (World.db w) o) ∧
  (Order.fulfillment_state o = BITCOIN_VERIFIED → verified (World.db w) o) ∧
  (Order.fulfillment_state o = DELIVERED → deliverable (World.db w) o).
Proof.
  intros Hr%reachable_good Ho. pose proof (gd_supported _ Hr o Ho) as Hs. unfold supported in Hs.
  split_and!; intros E; by rewrite E in Hs.
Qed.

(** ** Proofs *)

(** C24: the proofs of an order form a chain without gaps: below a stored version every version
    from one on is stored, all of them are for the digest of the order's snapshot, and the
    stored hash and length are those of the stored bytes. *)
Theorem proof_versions_chain w p :
  reachable w → p ∈ Db.proof_versions (World.db w) →
  1 <= ProofVersion.version p ∧
  sha256 (ProofVersion.proof_bytes p) = ProofVersion.proof_sha256 p ∧
  ProofVersion.proof_byte_length p = blen (ProofVersion.proof_bytes p) ∧
  (∃ o, o ∈ Db.orders (World.db w) ∧ Order.id o = ProofVersion.order_id p ∧
        Order.manifest_digest o = ProofVersion.target_digest p) ∧
  ∀ k, 1 <= k <= ProofVersion.version p → ∃ q, q ∈ Db.proof_versions (World.db w) ∧
    ProofVersion.order_id q = ProofVersion.order_id p ∧ ProofVersion.version q = k ∧
    ProofVersion.target_digest q = ProofVersion.target_digest p.
Proof.
  intros Hr%reachable_good Hp.
  assert (∀ q, q ∈ Db.proof_versions (World.db w) → 1 <= ProofVersion.version q) as Hpos.
  { intros q Hq. pose proof (proj1 (wf_proofs _ (gd_wf _ Hr)) q Hq) as Hc. simpl in Hc.
    unfold ProofVersion.check in Hc. lia. }
  pose proof (gd_chained _ Hr p Hp) as [Hh Hl _ _ Ht]. split_and!; try done; [by apply Hpos|].
  clear Hh Hl Ht. intros k Hk. remember (Z.to_nat (ProofVersion.version p - k)) as n eqn:En.
  revert p Hp Hk En. induction n as [|n IH]; intros p Hp Hk En.
  - exists p. split_and!; [done|done|lia|done].
  - destruct (ch_previous _ _ (gd_chained _ Hr p Hp)) as [?|(q & Hq & Eo & Ev & Et)]; [lia|].
    destruct (IH q Hq) as (q' & ? & ? & ? & ?); [lia..|]. exists q'. split_and!; [done|congruence|done|congruence].
Qed.

(** C25: evidence is never altered and never lost: in any run the tables of proof versions,
    verifications, bundles, confirmation observations, state events and provider events only
    grow at their end. *)
Theorem evidence_is_append_only w w' :
  reachable w → service w w' →
  Db.proof_versions (World.db w) `prefix_of` Db.proof_versions (World.db w') ∧
  Db.proof_verifications (World.db w) `prefix_of` Db.proof_verifications (World.db w') ∧
  Db.proof_bundles (World.db w) `prefix_of` Db.proof_bundles (World.db w') ∧
  Db.observations (World.db w) `prefix_of` Db.observations (World.db w') ∧
  Db.state_events (World.db w) `prefix_of` Db.state_events (World.db w') ∧
  Db.resend_webhook_events (World.db w) `prefix_of` Db.resend_webhook_events (World.db w').
Proof. intros Hr Hs. by destruct (kp_grows _ _ (service_kept _ _ Hr Hs)). Qed.

(** Two rows that agree on a key are the same row. *)
Ltac clash c :=
  eapply tbl_wf_clash; [eassumption..|]; simpl; unfold c;
  repeat match goal with |- context [bool_decide ?P] => rewrite (bool_decide_true P) by congruence end;
  simpl; rewrite ?orb_true_r; try done.

(** The keys that make the operations idempotent are unique in every reachable database:
    the payment provider's sessions and events, the job keys, the message keys, and one
    verification and one bundle per proof version. *)
Theorem keys_are_unique w :
  reachable w → let d := World.db w in
  (∀ o o', o ∈ Db.orders d → o' ∈ Db.orders d → is_some (Order.checkout_session_id o) = true →
     Order.checkout_session_id o = Order.checkout_session_id o' → o = o') ∧
  (∀ e e', e ∈ Db.stripe_events d → e' ∈ Db.stripe_events d →
     StripeEvent.stripe_event_id e = StripeEvent.stripe_event_id e' → e = e') ∧
  (∀ j j', j ∈ Db.durable_jobs d → j' ∈ Db.durable_jobs d →
     DurableJob.job_key j = DurableJob.job_key j' → j = j') ∧
  (∀ m m', m ∈ Db.outbox d → m' ∈ Db.outbox d →
     OutboxRecord.message_key m = OutboxRecord.message_key m' → m = m') ∧
  (∀ v v', v ∈ Db.proof_verifications d → v' ∈ Db.proof_verifications d →
     ProofVerification.order_id v = ProofVerification.order_id v' →
     ProofVerification.proof_version v = ProofVerification.proof_version v' → v = v') ∧
  (∀ b b', b ∈ Db.proof_bundles d → b' ∈ Db.proof_bundles d →
     ProofBundle.order_id b = ProofBundle.order_id b' →
     ProofBundle.proof_version b = ProofBundle.proof_version b' → b = b').
Proof.
  intros []%reachable_good%gd_wf. split_and!; intros x y Hx Hy.
  - intros Hs. destruct (Order.checkout_session_id x) as [s|] eqn:E; [|done]. intros E'. clash Order.clash.
    unfold opt_clash. rewrite E, <-E', (bool_decide_true (s = s)) by done. by rewrite !orb_true_r.
  - intros E. clash StripeEvent.clash.
  - intros E. clash DurableJob.clash.
  - intros E. clash OutboxRecord.clash.
  - intros E1 E2. clash ProofVerification.clash.
  - intros E1 E2. clash ProofBundle.clash.
Qed.

(** ** Jobs *)

(** C26: every stored job is for an order whose fulfillment has started (so that was paid for),
    has not used more attempts than it may, and has an owner and a deadline exactly while it
    is leased. *)
Theorem jobs_are_sound w j :
  reachable w → j ∈ Db.durable_jobs (World.db w) →
  job_ok j ∧ ∃ o, o ∈ Db.orders (World.db w) ∧ Order.id o = DurableJob.order_id j ∧
    Order.fulfillment_state o ≠ AWAITING_PAYMENT ∧ was_paid (Order.payment_state o) = true.
Proof.
  intros Hr%reachable_good Hj. split; [by apply reach_job_ok, (proj2 (gd_jobs _ Hr))|].
  destruct (gd_manned _ Hr j Hj) as (o & Ho & Hi & Hs). exists o. split_and!; [done..|].
  by apply (reach_states o (proj2 (gd_orders _ Hr) o Ho)).
Qed.

(** Along any run a job is never lost; its key, order and kind never change, its
    generation, attempts and attempt limit never decrease, and a job that is complete, in
    manual review or dead-lettered is never touched again. *)
Theorem job_evolution w w' j :
  reachable w → service w w' → j ∈ Db.durable_jobs (World.db w) →
  ∃ j', j' ∈ Db.durable_jobs (World.db w') ∧ job_fixed j j'.
Proof.
  intros Hr Hs Hj. destruct (kp_jobs _ _ (service_kept _ _ Hr Hs) j Hj) as (j' & Hj' & _ & Hl).
  exists j'. split; [done|by apply job_later_fixed].
Qed.

(** ** Notifications *)

(** C29: every outbox message has used at most its attempts, carries a lease exactly while it
    is leased, and is shown as accepted or delivered only with the identifier under which the
    provider accepted it. *)
Theorem messages_are_sound w m :
  reachable w → m ∈ Db.outbox (World.db w) → outbox_ok m.
Proof. intros Hr%reachable_good Hm. by apply reach_outbox_ok, (proj2 (gd_outbox _ Hr)). Qed.

(** Along any run a message is never lost or rewritten: its key, recipient, payload and
    evidence are fixed, the provider's identifier is never replaced and no attempt is made
    after it is set, and a delivered or dead message is never touched again. *)
Theorem message_evolution w w' m :
  reachable w → service w w' → m ∈ Db.outbox (World.db w) →
  ∃ m', m' ∈ Db.outbox (World.db w') ∧ outbox_fixed m m'.
Proof.
  intros Hr Hs Hm. destruct (kp_outbox _ _ (service_kept _ _ Hr Hs) m Hm) as (m' & Hm' & _ & Hl).
  exists m'. split; [done|by apply outbox_later_fixed].
Qed.

(** ** The delivered order of the scenario *)

(** The first row of a table that is not empty. *)
Lemma head_in {A} (l : list A) : (match l with [] => false | _ => true end) = true → ∃ x, x ∈ l.
Proof. destruct l as [|x l]; [done|]. intros _. exists x. by left. Qed.
(** The row of the scenario, by its position in a table it can be computed in. *)
Ltac first_row := apply head_in; vm_compute; reflexivity.

Lemma order_evolution_witness : ∃ o o' : Order.row,
  o ∈ Db.orders (World.db leased) ∧ o' ∈ Db.orders (World.db delivered) ∧
  rtc fulfillment_step (Order.fulfillment_state o) (Order.fulfillment_state o').
Proof.
  assert (∃ o, o ∈ Db.orders (World.db leased)) as [o Ho] by first_row.
  destruct (order_evolution leased delivered o reachable_leased service_delivered Ho) as (o' & Ho' & _ & _ & _ & _ & _ & _ & _ & Hf).
  exists o, o'. exact (conj Ho (conj Ho' Hf)).
Defined.
Lemma fulfillment_needs_payment_witness : ∃ o, o ∈ Db.orders (World.db delivered) ∧
  (Order.fulfillment_state o ≠ AWAITING_PAYMENT → was_paid (Order.payment_state o) = true).
Proof.
  assert (∃ o, o ∈ Db.orders (World.db delivered)) as [o Ho] by first_row.
  exists o. split; [exact Ho|]. apply (fulfillment_needs_payment delivered o reachable_delivered Ho).
Defined.
Lemma shown_states_have_evidence_witness : ∃ o, o ∈ Db.orders (World.db delivered) ∧
  Order.fulfillment_state o = DELIVERED ∧ deliverable (World.db delivered) o.
Proof.
  assert (∃ o, o ∈ Db.orders (World.db delivered) ∧ Order.fulfillment_state o = DELIVERED) as (o & Ho & Hs).
  { assert (order_states delivered = [(PAID, DELIVERED)]) as E by (vm_compute; reflexivity).
    unfold order_states in E. destruct (Db.orders (World.db delivered)) as [|o l]; [done|].
    exists o. split; [by left|]. by injection E. }
  exists o. split; [exact Ho|]. split; [exact Hs|].
  exact (proj2 (proj2 (shown_states_have_evidence delivered o reachable_delivered Ho)) Hs).
Defined.
Lemma proof_versions_chain_witness : ∃ p, p ∈ Db.proof_versions (World.db delivered) ∧
  sha256 (ProofVersion.proof_bytes p) = ProofVersion.proof_sha256 p.
Proof.
  assert (∃ p, p ∈ Db.proof_versions (World.db delivered)) as [p Hp] by first_row.
  exists p. split; [exact Hp|]. exact (proj1 (proj2 (proof_versions_chain delivered p reachable_delivered Hp))).
Defined.
Lemma evidence_is_append_only_witness :
  Db.state_events (World.db leased) `prefix_of` Db.state_events (World.db delivered).
Proof.
  destruct (evidence_is_append_only leased delivered reachable_leased service_delivered)
    as (_ & _ & _ & _ & H & _). exact H.
Defined.
Lemma keys_are_unique_witness : reachable paid ∧
  ∀ j j', j ∈ Db.durable_jobs (World.db paid) → j' ∈ Db.durable_jobs (World.db paid) →
  DurableJob.job_key j = DurableJob.job_key j' → j = j'.
Proof.
  split; [exact reachable_paid|].
  destruct (keys_are_unique paid reachable_paid) as (_ & _ & H & _). exact H.
Defined.
Lemma jobs_are_sound_witness : ∃ j, j ∈ Db.durable_jobs (World.db claimed) ∧ job_ok j.
Proof.
  assert (∃ j, j ∈ Db.durable_jobs (World.db claimed)) as [j Hj] by first_row.
  exists j. split; [exact Hj|]. exact (proj1 (jobs_are_sound claimed j reachable_claimed Hj)).
Defined.
Lemma job_evolution_witness : ∃ j j', j ∈ Db.durable_jobs (World.db leased) ∧
  j' ∈ Db.durable_jobs (World.db delivered) ∧ job_fixed j j'.
Proof.
  assert (∃ j, j ∈ Db.durable_jobs (World.db leased)) as [j Hj] by first_row.
  destruct (job_evolution leased delivered j reachable_leased service_delivered Hj) as (j' & Hj' & Hf).
  exists j, j'. exact (conj Hj (conj Hj' Hf)).
Defined.
Lemma messages_are_sound_witness : ∃ m, m ∈ Db.outbox (World.db delivered) ∧ outbox_ok m.
Proof.
  assert (∃ m, m ∈ Db.outbox (World.db delivered)) as [m Hm] by first_row.
  exists m. split; [exact Hm|]. exact (messages_are_sound delivered m reachable_delivered Hm).
Defined.
Lemma message_evolution_witness : ∃ m m', m ∈ Db.outbox (World.db leased) ∧
  m' ∈ Db.outbox (World.db delivered) ∧ outbox_fixed m m'.
Proof.
  assert (∃ m, m ∈ Db.outbox (World.db leased)) as [m Hm] by first_row.
  destruct (message_evolution leased delivered m reachable_leased service_delivered Hm) as (m' & Hm' & Hf).
  exists m, m'. exact (conj Hm (conj Hm' Hf)).
Defined.
