(* ===== verification/LeaseFacts.v ===== *)
(** * Leases

    A worker that lost its lease cannot act on the job any more: every claim of a job gets a
    fresh attempt number, and heartbeats and completions are fenced by it. *)
From S2P Require Import Prelude PyStr Uuid Domain Ports Db Session Exec Evolution OrderLife Tasks Jobs Store Settings Payments Proofs Outbox Handlers Worker Operator JobLife OutboxLife Growth OrderOps Evidence Api System Scenario.

Open Scope string_scope.
Open Scope Z_scope.

(** The two ways a worker takes a job: by a scan, and for a task of the queue. *)
Inductive claiming : Z → M (option ClaimedJob.t) → Prop :=
| by_scan worker now lease_for :
    claiming now (SqlJobClaimStore.claim worker now lease_for)
| by_task job_id generation worker now lease_for :
    claiming now (SqlJobClaimStore.claim_specific job_id generation worker now lease_for).

(** The lease is over at [now]. *)
Definition lease_over (now : Z) (j : DurableJob.row) : Prop :=
  ∀ deadline, DurableJob.lease_until j = Some deadline → deadline < now.

(** What a claim found and left. *)
Definition claimed_row (now : Z) (c : ClaimedJob.t) (w w' : World.t) : Prop :=
  ∃ j j', j ∈ Db.durable_jobs (World.db w) ∧ j' ∈ Db.durable_jobs (World.db w') ∧
    DurableJob.id j' = DurableJob.id j ∧ ClaimedJob.id c = str_uuid (DurableJob.id j) ∧
    active (DurableJob.state j) = true ∧ lease_over now j ∧
    DurableJob.attempt_count j < DurableJob.max_attempts j ∧
    ClaimedJob.attempt c = DurableJob.attempt_count j + 1 ∧
    DurableJob.attempt_count j' = ClaimedJob.attempt c ∧
    DurableJob.state j' = JOB_LEASED ∧
    DurableJob.lease_owner j' = Some (ClaimedJob.lease_owner c) ∧
    DurableJob.lease_until j' = Some (ClaimedJob.lease_until c).

Lemma lease_row job worker now lease_for w :
  job ∈ Db.durable_jobs (World.db w) → active (DurableJob.state job) = true → lease_over now job →
  DurableJob.attempt_count job < DurableJob.max_attempts job →
  commits (SqlJobClaimStore._lease job worker now lease_for) (λ c w', claimed_row now c w w') w.
Proof.
  intros Hin Ha Hl Hm. unfold SqlJobClaimStore._lease. cbv zeta. do 2 exec_step. do 7 exec_step.
  exists job. eexists. split; [exact Hin|]. split.
  { rewrite D1. simpl. rewrite D0, D. simpl. apply elem_of_replace. right. split; [reflexivity|]. by exists job. }
  by split_and!.
Qed.
Lemma claiming_row now m w :
  claiming now m → commits m (λ r w', ∀ c, r = Some c → claimed_row now c w w') w.
Proof.
  intros [worker at_ lease_for|job_id generation worker at_ lease_for].
  - unfold SqlJobClaimStore.claim, SqlJobClaimStore.claim_query. exec. exec_case; [|by exec].
    subst o. apply head_elem, elem_of_ordered in B as [Hin HP].
    unfold SqlJobClaimStore.claimable in HP. apply andb_prop in HP as [[[Ha _]%andb_prop Hl]%andb_prop Hm].
    exec_step. call lease_row as c Hc; [exact Hin|exact Ha| |lia|exec; by intros ? [= <-]].
    intros d Hd. rewrite Hd in Hl. lia.
  - unfold SqlJobClaimStore.claim_specific. exec. exec_case; [|by exec]. exec. exec_case; [|by exec].
    apply find_row_Some in F as [Hin _]. exec. exec_case; [by exec|]. exec_case; [by exec|]. exec.
    exec_case; [by exec|]. exec_step.
    call lease_row as c Hc; [exact Hin| | |lia|exec; by intros ? [= <-]].
    + by apply negb_false_iff in B2.
    + intros d Hd. rewrite Hd in C2. lia.
Qed.

Lemma job_key_range w j : reachable w → j ∈ Db.durable_jobs (World.db w) → 0 <= DurableJob.id j < 2 ^ 128.
Proof.
  intros [[] _ _ _ _ _ _]%reachable_good Hj. pose proof (proj1 wf_jobs j Hj) as Hc. simpl in Hc.
  unfold DurableJob.check in Hc. lia.
Qed.
Lemma uuid_UUID_str u : 0 <= u < 2 ^ 128 → uuid_UUID (str_uuid u) = Ok u.
Proof. intros. unfold uuid_UUID. by rewrite UUID_str. Qed.
Lemma str_uuid_eq u v : 0 <= u < 2 ^ 128 → 0 <= v < 2 ^ 128 → str_uuid u = str_uuid v → u = v.
Proof. intros Hu Hv E. apply (f_equal UUID) in E. rewrite !UUID_str in E by done. congruence. Qed.
Lemma reachable_claiming now m w : claiming now m → reachable w → reachable (m w).2.
Proof.
  intros [] Hr.
  - eapply reachable_service; [exact Hr|]. apply rtc_once. eapply sys_tx; [apply tx_claim|done].
  - eapply reachable_service; [exact Hr|]. apply rtc_once. eapply sys_tx; [apply tx_claim_specific|done].
Qed.
(** The row of a job later on. *)
Lemma job_row_later w w' j : reachable w → service w w' → j ∈ Db.durable_jobs (World.db w) →
  ∃ j', j' ∈ Db.durable_jobs (World.db w') ∧ job_fixed j j'.
Proof.
  intros Hr Hs Hj. destruct (kp_jobs _ _ (service_kept _ _ Hr Hs) j Hj) as (j' & ? & _ & Hl).
  exists j'. split; [done|by apply job_later_fixed].
Qed.
Lemma job_row_unique w j j' : reachable w → j ∈ Db.durable_jobs (World.db w) →
  j' ∈ Db.durable_jobs (World.db w) → DurableJob.id j = DurableJob.id j' → j = j'.
Proof.
  intros Hr Hj Hj' E. apply (tbl_wf_id (R:=DurableJob.row) (Db.durable_jobs (World.db w))); try done.
  apply (wf_jobs _ (gd_wf _ (reachable_good _ Hr))).
Qed.
Lemma job_found w j : reachable w → j ∈ Db.durable_jobs (World.db w) →
  find_row (λ k, DurableJob.id k == DurableJob.id j) (Db.durable_jobs (World.db w)) = Some j.
Proof.
  intros Hr Hj. apply find_row_unique; [done|by rewrite bool_decide_true|].
  intros k Hk E%bool_decide_eq_true. by apply (job_row_unique w).
Qed.

(** A job whose attempts have moved on refuses an earlier claim. *)
Lemma stale_claim_refused w j c outcome now retry_at code :
  reachable w → j ∈ Db.durable_jobs (World.db w) → ClaimedJob.id c = str_uuid (DurableJob.id j) →
  ClaimedJob.attempt c ≠ DurableJob.attempt_count j →
  (∃ w', SqlJobClaimStore.finish_tx c outcome now retry_at code w =
     (Raise (ValueError "job lease is no longer owned by this attempt"), w') ∧ World.db w' = World.db w) ∧
  ∀ worker until, SqlJobClaimStore.heartbeat (ClaimedJob.id c) worker (ClaimedJob.attempt c) until w = (Ok false, w).
Proof.
  intros Hr Hj Ei Hn. pose proof (job_key_range _ _ Hr Hj) as Hrange.
  pose proof (job_found _ _ Hr Hj) as Hfound. split.
  - unfold SqlJobClaimStore.finish_tx, atomically, bind, lift, scalar. simpl.
    rewrite Ei, uuid_UUID_str by done. simpl. rewrite Hfound, (bool_decide_false (_ = ClaimedJob.attempt c)) by auto.
    rewrite orb_true_r. simpl. eexists. split; [reflexivity|done].
  - intros worker until. unfold SqlJobClaimStore.heartbeat, atomically, bind, lift, scalar. simpl.
    rewrite Ei, uuid_UUID_str by done. simpl. rewrite Hfound, (bool_decide_false (_ = ClaimedJob.attempt c)) by auto.
    by rewrite orb_true_r.
Qed.

(** C28: Leases are exclusive and fenced.  When a job that was claimed is claimed again, by any
    worker and at any later time, its lease was released or had expired; the new claim has a
    higher attempt number; and from then on, whatever the service does in between, the earlier
    claim can neither finish the job, which raises and changes nothing, nor prolong its lease. *)
Theorem leases_are_fenced m m' now now' c c' w w1 w2 w3 w4
    (start : reachable w) (first : claiming now m) (second : claiming now' m')
    (claimed : m w = (Ok (Some c), w1)) (meanwhile : service w1 w2)
    (claimed_again : m' w2 = (Ok (Some c'), w3)) (same_job : ClaimedJob.id c = ClaimedJob.id c')
    (afterwards : service w3 w4) :
  (∃ j, j ∈ Db.durable_jobs (World.db w2) ∧ ClaimedJob.id c = str_uuid (DurableJob.id j) ∧ lease_over now' j) ∧
  ClaimedJob.attempt c < ClaimedJob.attempt c' ∧
  (∀ outcome at_ retry_at code, ∃ w5,
     SqlJobClaimStore.finish_tx c outcome at_ retry_at code w4 =
       (Raise (ValueError "job lease is no longer owned by this attempt"), w5) ∧ World.db w5 = World.db w4) ∧
  ∀ worker until,
    SqlJobClaimStore.heartbeat (ClaimedJob.id c) worker (ClaimedJob.attempt c) until w4 = (Ok false, w4).
Proof.
  pose proof (reachable_claiming _ _ _ first start) as Hr1. rewrite claimed in Hr1. simpl in Hr1.
  pose proof (reachable_service _ _ Hr1 meanwhile) as Hr2.
  pose proof (reachable_claiming _ _ _ second Hr2) as Hr3. rewrite claimed_again in Hr3. simpl in Hr3.
  pose proof (reachable_service _ _ Hr3 afterwards) as Hr4.
  destruct (claiming_row _ _ _ first _ _ claimed c eq_refl)
    as (j0 & j1 & H0 & H1 & E1 & Ec & _ & _ & _ & _ & Ha1 & _).
  destruct (claiming_row _ _ _ second _ _ claimed_again c' eq_refl)
    as (j2 & j3 & H2 & H3 & E3 & Ec' & _ & Hl & _ & Ha2 & Ha3 & _).
  destruct (job_row_later _ _ _ Hr1 meanwhile H1) as (k2 & Hk2 & F2).
  destruct (job_row_later _ _ _ Hr3 afterwards H3) as (j4 & H4 & F4).
  assert (DurableJob.id k2 = DurableJob.id j2) as Ek.
  { apply str_uuid_eq; [by apply (job_key_range w2)..|]. rewrite (jf_id _ _ F2), E1. congruence. }
  apply (job_row_unique w2) in Ek as ->; [|done..].
  assert (ClaimedJob.attempt c < ClaimedJob.attempt c') as Hlt.
  { pose proof (jf_attempts _ _ F2). lia. }
  assert (ClaimedJob.id c = str_uuid (DurableJob.id j4)) as E4.
  { rewrite (jf_id _ _ F4), E3, same_job. done. }
  assert (ClaimedJob.attempt c ≠ DurableJob.attempt_count j4) as Hne.
  { pose proof (jf_attempts _ _ F4). lia. }
  split; [|split; [exact Hlt|split]].
  - exists j2. split_and!; [done|congruence|done].
  - intros. by apply (stale_claim_refused w4 j4).
  - by apply (stale_claim_refused w4 j4 c OUT_COMPLETE 0 None None).
Qed.

(** ** A lease that expired *)

Definition second_claim : M (option ClaimedJob.t) :=
  SqlJobClaimStore.claim "worker-2" (start + hours 1) (minutes 5).
Definition reclaimed : World.t := after second_claim claimed.
Definition claim_result (m : M (option ClaimedJob.t)) (w : World.t) : option ClaimedJob.t :=
  match result_of m w with Ok c => c | Raise _ => None end.
Lemma claim_result_run m w c : claim_result m w = Some c → m w = (Ok (Some c), after m w).
Proof.
  unfold claim_result, result_of, after. destruct (m w) as [[r|e] w1]; simpl; [|done]. by intros ->.
Qed.

Lemma leases_are_fenced_witness : ∃ c c',
  claim paid = (Ok (Some c), claimed) ∧ second_claim claimed = (Ok (Some c'), reclaimed) ∧
  ClaimedJob.attempt c < ClaimedJob.attempt c'.
Proof.
  destruct (claim_result claim paid) as [c|] eqn:E;
    [|exfalso; revert E; vm_compute; discriminate].
  destruct (claim_result second_claim claimed) as [c'|] eqn:E';
    [|exfalso; revert E'; vm_compute; discriminate].
  assert (ClaimedJob.id c = ClaimedJob.id c') as same_job.
  { assert (option_map ClaimedJob.id (claim_result claim paid) =
      option_map ClaimedJob.id (claim_result second_claim claimed)) as H by (vm_compute; reflexivity).
    rewrite E, E' in H. by injection H. }
  apply claim_result_run in E, E'. exists c, c'. split; [exact E|]. split; [exact E'|].
  exact (proj1 (proj2 (leases_are_fenced claim second_claim _ _ c c' paid claimed claimed reclaimed reclaimed
    reachable_paid (by_scan _ _ _) (by_scan _ _ _) E (reflexivity _) E' same_job (reflexivity _)))).
Defined.
