(* ===== verification/AttemptLife.v ===== *)
(** * The attempts of a job

    Every attempt of a job is stored once, under a number that the job has counted; so the
    next attempt of a job never collides with an earlier one. *)
From S2P Require Import Prelude PyStr Uuid Domain Ports Db Session Exec Evolution OrderLife Tasks Jobs Store Settings Payments Proofs Outbox Handlers Worker Operator JobLife OutboxLife Growth OrderOps Evidence Api System Scenario LeaseFacts.

Open Scope Z_scope.

(** An attempt is opened once and closed at most; its job and its number stay. *)
#[global] Instance Attempt_life : Lifecycle JobAttempt.row := {
  init _ := True;
  step a a' := JobAttempt.id a' = JobAttempt.id a ∧ JobAttempt.job_id a' = JobAttempt.job_id a ∧
               JobAttempt.attempt_number a' = JobAttempt.attempt_number a }.
Definition same_attempt (a a' : JobAttempt.row) : Prop :=
  JobAttempt.job_id a' = JobAttempt.job_id a ∧ JobAttempt.attempt_number a' = JobAttempt.attempt_number a.
#[global] Instance same_attempt_preorder : PreOrder same_attempt.
Proof. split; [by intros a|]. intros a b c [? ?] [? ?]. split; congruence. Qed.
Lemma later_same_attempt (a a' : JobAttempt.row) : later a a' → same_attempt a a'.
Proof. apply (later_ind same_attempt). intros r r' (_ & ? & ?). by split. Qed.

Lemma commits_for_fold (Rel : relation Db.t) `{!PreOrder Rel} {X A} (f : A → X → M A) l :
  (∀ a x w, commits (f a x) (λ _ w', Rel (World.db w) (World.db w')) w) →
  ∀ a w, commits (for_fold f a l) (λ _ w', Rel (World.db w) (World.db w')) w.
Proof.
  intros Hf. induction l as [|x l IH]; intros a w; simpl; [exec; reflexivity|].
  exec_step. call Hf. eapply commits_mono; [apply IH|]. intros ? ? ?. cbv beta in *. by etrans.
Qed.

Section AttemptOps.
Context (N : JobAttempt.row → Prop).
#[local] Notation attempt_rows := (table_step N).

(** An attempt written back under its number. *)
Lemma attempt_saved d d' a b :
  d' = set_tbl (replace_row b (tbl d)) d → admissible d (others (row_id b) (tbl d)) b = true →
  a ∈ Db.job_attempts d → JobAttempt.id b = JobAttempt.id a → same_attempt a b → attempt_rows d d'.
Proof.
  intros D A Ha Hi [Hj Hn]. apply (table_step_save N _ _ a b D A Ha (eq_sym Hi)).
  intros _. apply rtc_once. by split_and!.
Qed.
Lemma close_expired_step at_ job w :
  commits (TaskDispatchCoordinator.close_expired at_ job) (λ _ w', attempt_rows (World.db w) (World.db w')) w.
Proof.
  unfold TaskDispatchCoordinator.close_expired. apply commits_when; intros _; [|reflexivity].
  exec_step. exec_step. exec_case; [|exec; reflexivity]. exec_step. apply find_row_Some in F as [Ha _].
  by apply (attempt_saved _ _ r _ D A).
Qed.
Lemma recover_one_attempts at_ job t w :
  commits (TaskDispatchCoordinator.recover_one at_ job t) (λ _ w', attempt_rows (World.db w) (World.db w')) w.
Proof.
  unfold TaskDispatchCoordinator.recover_one. exec_step. skip_by attempt_rows. exec_step.
  call close_expired_step as u Hc. unfold on_db in H. cbv zeta.
  eapply commits_trans; [apply _|etrans; [exact H|exact Hc]|]. unfold add_task_dispatch. respects_tx.
Qed.
Lemma respects_recover_attempts before at_ limit :
  respects (on_db attempt_rows) (TaskDispatchCoordinator.recover_tx before at_ limit).
Proof.
  apply respects_atomically_commits; [apply _|]. intros w.
  unfold TaskDispatchCoordinator.stale_query. do 6 exec_step. unfold TaskDispatchCoordinator.recover_pairs.
  apply (commits_for_fold attempt_rows). intros acc [job t] w1. exec_step. call recover_one_attempts. by exec.
Qed.
Lemma respects_finish_attempt job outcome now retry_at code :
  respects (on_db attempt_rows) (SqlJobClaimStore.finish_tx job outcome now retry_at code).
Proof.
  apply respects_atomically_commits; [apply _|]. intros w. exec_all. apply find_row_Some in F0 as [Ha _].
  unfold SqlJobClaimStore.close_attempt. do 2 exec_step. cbv zeta.
  eapply commits_trans; [apply _|by apply (attempt_saved _ _ r0 _ D A)|]. unfold add_task_dispatch. respects_tx.
Qed.
End AttemptOps.

(** The job of an attempt has counted it. *)
Definition numbered (d : Db.t) (a : JobAttempt.row) : Prop :=
  ∃ j, j ∈ Db.durable_jobs d ∧ DurableJob.id j = JobAttempt.job_id a ∧
    JobAttempt.attempt_number a <= DurableJob.attempt_count j.
Definition attempt_steps (d d' : Db.t) : Prop := table_step (numbered d') d d'.

Lemma lease_attempt job worker now lease_for w :
  job ∈ Db.durable_jobs (World.db w) →
  commits (SqlJobClaimStore._lease job worker now lease_for)
    (λ _ w', attempt_steps (World.db w) (World.db w')) w.
Proof.
  intros Hin. unfold SqlJobClaimStore._lease. cbv zeta. exec. unfold attempt_steps.
  transitivity (World.db w'0).
  - apply table_step_same. by rewrite D0, D.
  - apply (table_step_add _ _ _ _ D1 A0); [done|]. eexists. split.
    { rewrite D1. simpl. rewrite D0, D. simpl. apply elem_of_replace. right. split; [reflexivity|]. by exists job. }
    by split.
Qed.
Lemma moves_raise_if (Rel : relation Db.t) c e {A} (m : M A) w :
  Rel (World.db w) (World.db w) → moves Rel m w → moves Rel (bind (raise_if c e) (λ _, m)) w.
Proof. intros Hr Hm. by destruct c. Qed.
Lemma claiming_attempts now m w : claiming now m → moves attempt_steps m w.
Proof.
  intros [worker at_ lease_for|job_id generation worker at_ lease_for].
  - apply moves_commits; [by intros; apply table_step_same|]. unfold SqlJobClaimStore.claim_query.
    exec. exec_case; [|exec; by apply table_step_same].
    subst o. apply head_elem, elem_of_ordered in B as [Hin _]. exec_step. call lease_attempt; [done|by exec].
  - unfold SqlJobClaimStore.claim_specific. apply moves_raise_if; [by apply table_step_same|].
    destruct (UUID job_id); [|by apply table_step_same]. apply moves_commits; [by intros; apply table_step_same|]. exec_all; try by apply table_step_same.
    apply find_row_Some in F as [Hin _]. call lease_attempt; [done|by exec].
Qed.
Lemma transaction_attempts {A} (m : M A) w : transaction (World.db w) m → moves attempt_steps m w.
Proof.
  assert (∀ B (n : M B), moves (table_step (λ _ : JobAttempt.row, False)) n w → moves attempt_steps n w) as Hno
    by (intros B n; by apply table_step_weaken).
  intros T. destruct T;
    try (apply Hno, moves_respects; first [apply respects_finish_attempt | apply respects_recover_attempts
      | solve [eauto with respects] | tx; fail]).
  - apply (claiming_attempts now). constructor.
  - apply (claiming_attempts now). constructor.
Qed.

(** ** The numbers in reachable databases *)

Definition attempts_ok (d : Db.t) : Prop :=
  table_good JobAttempt.row d ∧ ∀ a, a ∈ Db.job_attempts d → numbered d a.
Lemma attempt_steps_ok d d' :
  rows_later DurableJob.row d d' → attempt_steps d d' → attempts_ok d → attempts_ok d'.
Proof.
  intros Hl Hs [Hg Hn]. destruct (Hs Hg) as (Hg' & _ & Hf). split; [done|].
  intros a' [(a & Ha & _ & [Ej En]%later_same_attempt)|(a & Hnum & _ & [Ej En]%later_same_attempt)]%Hf.
  - destruct (Hn a Ha) as (j & Hj & Ei & Hle). destruct (Hl j Hj) as (j' & Hj' & Ei' & Hlat).
    pose proof (jf_attempts _ _ (job_later_fixed _ _ Hlat)). simpl in Ei'. exists j'. split_and!; [done|congruence|lia].
  - unfold numbered in *. by rewrite Ej, En.
Qed.
Lemma reachable_attempts w : reachable w → attempts_ok (World.db w).
Proof.
  intros (w0 & E & Hs). assert (good (World.db w0)) as Hg by (rewrite E; apply good_empty).
  assert (attempts_ok (World.db w0)) as Ha.
  { rewrite E. split; [|by intros ? ?%not_elem_of_nil]. split; [apply tbl_wf_nil|by intros ? ?%not_elem_of_nil]. }
  clear E. induction Hs as [|x y z Hxy _ IH]; [done|].
  destruct (sys_step_evolves _ _ Hxy Hg) as [Hy Hk]. apply IH; [done|].
  destruct Hxy as [B m T ->|Ed]; [|by rewrite Ed].
  eapply attempt_steps_ok; [apply (kp_jobs _ _ Hk)|by apply transaction_attempts|done].
Qed.

(** ** A due job is claimed *)

Lemma order_by_head {R} (key : R → list Z) l : ∀ r, head (order_by key l) = Some r →
  ∀ s, s ∈ l → key_le (key r) (key s) = true.
Proof.
  assert (∀ k, key_le k k = true) as Hrefl.
  { induction k as [|x k IH]; [done|]. simpl. by rewrite Z.eqb_refl, IH, orb_true_r. }
  induction l as [|x l IH]; [done|]. cbn [order_by foldr]. fold (order_by key l). intros r Hr s Hs.
  destruct (order_by key l) as [|y m] eqn:E; simpl in Hr.
  - injection Hr as <-. apply elem_of_cons in Hs as [->|Hs]; [apply Hrefl|].
    apply (elem_of_order_by key) in Hs. rewrite E in Hs. by apply not_elem_of_nil in Hs.
  - destruct (key_le (key x) (key y)) eqn:Exy; simpl in Hr; injection Hr as <-;
      apply elem_of_cons in Hs as [->|Hs]; [apply Hrefl| |by apply key_le_total|by apply IH].
    eapply key_le_trans; [exact Exy|]. by apply IH.
Qed.

(** A write that the constraints allow. *)
Lemma admissible_intro {R} `{Table R} d l (r : R) :
  row_check r = true → row_fk d r = true → (∀ s, s ∈ l → row_clash r s = false) → admissible d l r = true.
Proof.
  intros Hc Hf Hs. unfold admissible. rewrite Hc, Hf. apply forallb_forall. intros s Hi%list_elem_of_In.
  by rewrite Hs.
Qed.
Lemma exists_id_intro {R} (key : R → uuid) u l r : r ∈ l → key r = u → exists_id key u l = true.
Proof. intros Hr <-. apply existsb_exists. exists r. split; [by apply list_elem_of_In|by apply bool_decide_eq_true]. Qed.

(** The identifier that [uuid4] returns next. *)
Definition next_uuid (w : World.t) : uuid := World.uuids w (World.draws w) mod UUID_BOUND.
(** A job as the width of its columns allows it. *)
Definition fits (j : DurableJob.row) : Prop := 1 <= strlen (DurableJob.job_key j) <= 160.

Lemma post_init_fits spec : 1 <= strlen (JobSpec.job_key spec) <= 160 → 1 <= JobSpec.max_attempts spec →
  JobSpec.post_init spec = Ok spec.
Proof.
  intros Hk Hm. unfold JobSpec.post_init. destruct (String.eqb_spec (JobSpec.job_key spec) "") as [E|_]; [rewrite E in Hk; unfold strlen in Hk; simpl in Hk; lia|].
  by rewrite (proj2 (Z.ltb_ge 160 _)), (proj2 (Z.ltb_ge _ 1)) by lia.
Qed.
(** What [_lease] writes back is admitted. *)
Definition leased_row (worker : string) (until now : Z) (job : DurableJob.row) : DurableJob.row :=
  job <| DurableJob.attempt_count := DurableJob.attempt_count job + 1 |>
      <| DurableJob.state := JOB_LEASED |>
      <| DurableJob.lease_owner := Some worker |>
      <| DurableJob.lease_until := Some until |>
      <| DurableJob.updated_at := now |>.
Lemma save_lease_succeeds w job worker until now :
  reachable w → job ∈ Db.durable_jobs (World.db w) →
  ∃ w1, save (leased_row worker until now job) w = (Ok tt, w1) ∧ next_uuid w1 = next_uuid w ∧
    World.db w1 = set_tbl (replace_row (leased_row worker until now job) (Db.durable_jobs (World.db w))) (World.db w).
Proof.
  intros Hr Hj. pose proof (reachable_good _ Hr) as Hg.
  pose proof (wf_jobs _ (gd_wf _ Hg)) as Hwf. pose proof (proj1 Hwf job Hj) as Hc.
  unfold save. change (find_row _ _) with (find_row (λ k, DurableJob.id k == DurableJob.id job) (Db.durable_jobs (World.db w))).
  rewrite (job_found _ _ Hr Hj). cbn [before_update DurableJob_table]. rewrite admissible_intro; [by eexists|..].
  - unfold leased_row. simpl in *. unfold DurableJob.check in *. simpl. change (is_some (Some worker)) with true. lia.
  - destruct (gd_manned _ Hg job Hj) as (o & Ho & Hi & _). simpl. by apply (exists_id_intro _ _ _ o).
  - intros s [Hs Hne]%elem_of_others. destruct (row_clash _ s) eqn:E; [|done]. destruct Hne.
    change (row_clash job s = true) in E. by rewrite (tbl_wf_clash _ job s Hwf Hj Hs E).
Qed.
Lemma lease_succeeds w job worker now lease_for :
  reachable w → job ∈ Db.durable_jobs (World.db w) → fits job →
  (∀ a, a ∈ Db.job_attempts (World.db w) → JobAttempt.id a ≠ next_uuid w) →
  ∃ c w', SqlJobClaimStore._lease job worker now lease_for w = (Ok c, w').
Proof.
  intros Hr Hj Hf Hu. destruct (save_lease_succeeds w job worker (now + lease_for) now Hr Hj) as (w1 & E1 & En & D1).
  destruct (reachable_attempts _ Hr) as [_ Hn].
  unfold SqlJobClaimStore._lease. cbv zeta. unfold bind. unfold leased_row in E1. rewrite E1. cbn [uuid4].
  fold (next_uuid w1). rewrite En. unfold add. rewrite admissible_intro.
  - rewrite post_init_fits; [by do 2 eexists|exact Hf|].
    pose proof (proj1 (wf_jobs _ (gd_wf _ (reachable_good _ Hr))) job Hj) as Hc. simpl in *. unfold DurableJob.check in Hc. lia.
  - done.
  - simpl. rewrite D1. apply (exists_id_intro _ _ _ (leased_row worker (now + lease_for) now job)); [|done].
    simpl. apply elem_of_replace. right. split; [done|]. by exists job.
  - intros a Ha. simpl in Ha. rewrite D1 in Ha. change (a ∈ Db.job_attempts (World.db w)) in Ha.
    simpl. unfold JobAttempt.clash. simpl. rewrite (bool_decide_eq_false_2 (next_uuid w = _)) by (intros E; by apply (Hu a Ha)).
    apply andb_false_iff. destruct (decide (DurableJob.id job = JobAttempt.job_id a)) as [E|E];
      [right|left]; apply bool_decide_eq_false; [|done]. intros E'.
    destruct (Hn a Ha) as (k & Hk & Ek & Hle).
    rewrite (job_row_unique w job k Hr Hj Hk) in E' by congruence. lia.
Qed.

Lemma lease_names job worker now lease_for w c w' :
  SqlJobClaimStore._lease job worker now lease_for w = (Ok c, w') → ClaimedJob.id c = str_uuid (DurableJob.id job).
Proof.
  revert c w'. change (commits (SqlJobClaimStore._lease job worker now lease_for)
    (λ c _, ClaimedJob.id c = str_uuid (DurableJob.id job)) w).
  unfold SqlJobClaimStore._lease. cbv zeta. by exec.
Qed.

(** C27: A due job does not wait for ever: whenever a job is due, a worker that asks gets one, and
    none is passed over for a later one.  If some job is claimable in a reachable database, the
    identifier drawn for the attempt is fresh and the keys have the width of their column, then
    [claim] returns a lease and commits it, of a job that is due and than which no due job has
    been available for longer. *)
Theorem due_job_is_claimed w worker now lease_for j
    (start : reachable w) (stored : j ∈ Db.durable_jobs (World.db w))
    (due : SqlJobClaimStore.claimable now j = true)
    (fresh : ∀ a, a ∈ Db.job_attempts (World.db w) → JobAttempt.id a ≠ next_uuid w)
    (widths : ∀ k, k ∈ Db.durable_jobs (World.db w) → fits k) :
  ∃ c w', SqlJobClaimStore.claim worker now lease_for w = (Ok (Some c), w') ∧ claimed_row now c w w' ∧
    ∃ k, k ∈ Db.durable_jobs (World.db w) ∧ ClaimedJob.id c = str_uuid (DurableJob.id k) ∧
      SqlJobClaimStore.claimable now k = true ∧
      ∀ l, l ∈ Db.durable_jobs (World.db w) → SqlJobClaimStore.claimable now l = true →
        DurableJob.available_at k < DurableJob.available_at l ∨
        (DurableJob.available_at k = DurableJob.available_at l ∧ DurableJob.created_at k <= DurableJob.created_at l).
Proof.
  set (key := λ j, [DurableJob.available_at j; DurableJob.created_at j]).
  set (sorted := order_by key (List.filter (SqlJobClaimStore.claimable now) (Db.durable_jobs (World.db w)))).
  destruct (head sorted) as [k|] eqn:Eh.
  2:{ exfalso. assert (j ∈ sorted) as H by by apply elem_of_order_by, elem_of_filter_rows.
      destruct sorted; [by apply not_elem_of_nil in H|done]. }
  assert (k ∈ Db.durable_jobs (World.db w) ∧ SqlJobClaimStore.claimable now k = true) as [Hk Hdue]
    by (apply (elem_of_filter_rows (R:=DurableJob.row)), (elem_of_order_by key), head_elem, Eh).
  destruct (lease_succeeds w k worker now lease_for start Hk (widths k Hk) fresh) as (c & w' & E).
  assert (SqlJobClaimStore.claim worker now lease_for w = (Ok (Some c), w')) as Hc.
  { unfold SqlJobClaimStore.claim, SqlJobClaimStore.claim_query. apply atomically_Ok. unfold bind, scalars_ordered, ret.
    change (tbl (World.db w)) with (Db.durable_jobs (World.db w)). fold key sorted.
    destruct sorted as [|x l]; [done|]. injection Eh as ->. cbn [firstn head]. by rewrite E. }
  exists c, w'. split; [done|]. split; [by apply (claiming_row now _ _ (by_scan worker now lease_for) _ _ Hc)|].
  exists k. split_and!; [done|by eapply lease_names|done|].
  intros l Hl Hd. assert (key_le (key k) (key l) = true) as H
    by (eapply order_by_head; [exact Eh|by apply elem_of_filter_rows]).
  simpl in H. lia.
Qed.
Lemma due_job_is_claimed_witness : ∃ c w',
  SqlJobClaimStore.claim "worker-1" (start + hours 1) (minutes 5) paid = (Ok (Some c), w') ∧
  DurableJob.state <$> Db.durable_jobs (World.db paid) = [JOB_AVAILABLE].
Proof.
  assert (map (λ j, (SqlJobClaimStore.claimable (start + hours 1) j, strlen (DurableJob.job_key j), DurableJob.state j))
    (Db.durable_jobs (World.db paid)) = [(true, 42, JOB_AVAILABLE)]) as H by (vm_compute; reflexivity).
  destruct (Db.durable_jobs (World.db paid)) as [|j [|]] eqn:Ej; [done| |done]. injection H as Hd Hw Hs.
  destruct (due_job_is_claimed paid "worker-1" (start + hours 1) (minutes 5) j reachable_paid) as (c & w' & H & _).
  - rewrite Ej. left.
  - exact Hd.
  - assert (Db.job_attempts (World.db paid) = []) as -> by (vm_compute; reflexivity).
    intros a Ha. exfalso. exact (not_elem_of_nil a Ha).
  - rewrite Ej. intros k ->%list_elem_of_singleton. unfold fits. rewrite Hw. lia.
  - exists c, w'. split; [exact H|]. simpl. by rewrite Hs.
Defined.
