(* ===== verification/RateFacts.v ===== *)
(** * The rate limit

    Within one minute no more requests of one client pass an endpoint than its limit, however
    the requests of other clients and endpoints are mixed in, and none below the limit is
    refused. *)
From S2P Require Import Prelude PyStr Sha256 Domain Ports Db Session Exec Evolution Store Growth OrderOps Evidence Api System Scenario.

Open Scope string_scope.
Open Scope Z_scope.

(** A counter: the endpoint, the keyed hash of the client and the minute. *)
Definition counter : Type := string * bytes * Z.
Definition in_counter (b : counter) : RateCounter.row → bool :=
  RateLimitStore.bucket b.1.1 b.1.2 b.2.
Definition hits_of (b : counter) (d : Db.t) : Z :=
  match find_row (in_counter b) (Db.rate_counters d) with Some c => RateCounter.request_count c | None => 0 end.

Module Request.
Record t := mk { endpoint : string; client_address : string; now : Z; limit : Z }.
End Request.
Definition counter_of (pepper : bytes) (r : Request.t) : counter :=
  (Request.endpoint r,
   hmac_sha256 pepper (encode "spacerocks-rate-limit" ++ [x00] ++ encode (Request.client_address r))%list,
   Request.now r - Request.now r mod minutes 1).
Definition hit (pepper : bytes) (r : Request.t) : M bool :=
  RateLimitStore.hit pepper (Request.endpoint r) (Request.client_address r) (Request.now r) (Request.limit r).

Lemma in_counter_true b c : in_counter b c = true ↔
  (RateCounter.endpoint c, RateCounter.key_hash c, RateCounter.window_started_at c) = b.
Proof.
  destruct b as [[e k] t]. unfold in_counter, RateLimitStore.bucket. simpl.
  rewrite !andb_true_iff, !bool_decide_eq_true. naive_solver.
Qed.
Lemma in_counter_same b0 b c : in_counter b0 c = true → in_counter b c = bool_decide (b = b0).
Proof.
  intros <-%in_counter_true. apply eq_bool_prop_intro. rewrite !Is_true_true, in_counter_true, bool_decide_eq_true. naive_solver.
Qed.
Lemma find_map {A} (P : A → bool) (f : A → A) l :
  (∀ x, x ∈ l → P (f x) = P x) → find_row P (map f l) = f <$> find_row P l.
Proof.
  unfold find_row. induction l as [|x l IH]; intros H; [done|]. simpl. rewrite H by left.
  destruct (P x); [done|]. apply IH. intros y Hy. apply H. by right.
Qed.
Lemma find_snoc {A} (P : A → bool) l x :
  find_row P (l ++ [x]) = match find_row P l with Some y => Some y | None => if P x then Some x else None end.
Proof. unfold find_row. induction l as [|y l IH]; simpl; [done|]. by destruct (P y). Qed.

(** One request counts once, in its own counter only. *)
Lemma hits_after_add b d c :
  hits_of b (set_tbl (tbl d ++ [c])%list d) =
    if in_counter b c then match find_row (in_counter b) (Db.rate_counters d) with
      | Some c' => RateCounter.request_count c' | None => RateCounter.request_count c end else hits_of b d.
Proof.
  unfold hits_of. simpl. rewrite find_snoc. destruct (find_row _ _); [by destruct (in_counter b c)|].
  by destruct (in_counter b c).
Qed.
Lemma hits_after_save b d c n : db_wf d → c ∈ Db.rate_counters d →
  hits_of b (set_tbl (replace_row (c <| RateCounter.request_count := n |>) (tbl d)) d) =
    if in_counter b c then n else hits_of b d.
Proof.
  intros Hwf%wf_rate Hc. unfold hits_of. simpl. unfold replace_row. set (c' := c <| RateCounter.request_count := n |>).
  assert (∀ s, s ∈ Db.rate_counters d → RateCounter.id s = RateCounter.id c → s = c) as Hid
    by (intros; by apply (tbl_wf_id (R:=RateCounter.row) (Db.rate_counters d))).
  rewrite find_map.
  2:{ intros s Hs. simpl. case_bool_decide as E; [|done]. by rewrite (Hid s Hs E). }
  destruct (find_row (in_counter b) (Db.rate_counters d)) as [s|] eqn:F; simpl.
  - apply find_row_Some in F as [Hs Hb]. case_bool_decide as E.
    + rewrite <- (Hid s Hs E), Hb. done.
    + destruct (in_counter b c) eqn:Ec; [|done]. exfalso. apply E. f_equal.
      apply (tbl_wf_clash (R:=RateCounter.row) (Db.rate_counters d)); [done..|].
      apply in_counter_true in Hb, Ec. rewrite <- Ec in Hb. injection Hb as E1 E2 E3.
      simpl. apply orb_true_iff. right. by rewrite E1, E2, E3, !bool_decide_eq_true_2 by done.
  - destruct (in_counter b c) eqn:Ec; [|done].
    pose proof (find_row_None _ _ c F Hc). congruence.
Qed.

Lemma hit_spec pepper r w : db_wf (World.db w) →
  db_wf (World.db (hit pepper r w).2) ∧
  (∀ b, hits_of b (World.db (hit pepper r w).2) = hits_of b (World.db w) +
     (if decide (b = counter_of pepper r) then match (hit pepper r w).1 with Ok _ => 1 | Raise _ => 0 end else 0)) ∧
  (∀ allowed, (hit pepper r w).1 = Ok allowed →
     allowed = (hits_of (counter_of pepper r) (World.db w) + 1 <=? Request.limit r)).
Proof.
  intros Hwf. set (b0 := counter_of pepper r).
  assert (commits (hit pepper r) (λ allowed w',
    (∀ b, hits_of b (World.db w') = hits_of b (World.db w) + if decide (b = b0) then 1 else 0) ∧
    allowed = (hits_of b0 (World.db w) + 1 <=? Request.limit r)) w) as Hc.
  { unfold hit, RateLimitStore.hit. cbv zeta.
    fold (counter_of pepper r). change (RateLimitStore.bucket _ _ _) with (in_counter b0).
    do 5 exec_step. rewrite D in F. change (tbl (World.db w)) with (Db.rate_counters (World.db w)) in F. exec_case.
    - pose proof (find_row_Some _ _ _ F) as [Hr Hb]. exec. rewrite D0, D.
      assert (hits_of b0 (World.db w) = RateCounter.request_count r0) as E0 by (unfold hits_of; by rewrite F).
      rewrite E0. split; [|done]. intros b. rewrite hits_after_save by done. rewrite (in_counter_same b0) by done.
      destruct (decide (b = b0)) as [->|]; [by rewrite E0, bool_decide_eq_true_2|].
      rewrite bool_decide_eq_false_2 by done. lia.
    - exec. rewrite D0, D.
      assert (hits_of b0 (World.db w) = 0) as E0 by (unfold hits_of; by rewrite F).
      rewrite E0. split; [|done]. intros b. rewrite hits_after_add, (in_counter_same b0) by by apply in_counter_true.
      destruct (decide (b = b0)) as [->|]; [by rewrite E0, bool_decide_eq_true_2, F|].
      rewrite bool_decide_eq_false_2 by done. lia. }
  split; [|split].
  - refine ((_ : respects (on_db wf_step) (hit pepper r)) w Hwf). unfold hit, RateLimitStore.hit. respects_tx.
  - intros b. destruct (hit pepper r w) as [[a|e] w'] eqn:E; simpl; [exact (proj1 (Hc _ _ E) b)|].
    rewrite (atomically_Raise _ _ _ _ E). destruct (decide _); lia.
  - intros a Ha. destruct (hit pepper r w) as [x w'] eqn:E. simpl in Ha. subst x. exact (proj2 (Hc _ _ E)).
Qed.

(** ** Sequences of requests *)

(** The requests are served one after the other; [None] for one that failed. *)
Fixpoint serve (pepper : bytes) (rs : list Request.t) (w : World.t) : list (option bool) * World.t :=
  match rs with
  | [] => ([], w)
  | r :: rs =>
      let '(answer, w1) := hit pepper r w in
      let '(answers, w2) := serve pepper rs w1 in
      (match answer with Ok b => Some b | Raise _ => None end :: answers, w2)
  end.
(** How many of the requests of a counter were answered so. *)
Fixpoint answered (pepper : bytes) (b : counter) (answer : bool) (rs : list Request.t) (answers : list (option bool)) : Z :=
  match rs, answers with
  | r :: rs, a :: answers =>
      (if decide (counter_of pepper r = b ∧ a = Some answer) then 1 else 0) + answered pepper b answer rs answers
  | _, _ => 0
  end.

Lemma answered_nonneg pepper b answer rs answers : 0 <= answered pepper b answer rs answers.
Proof. revert answers. induction rs as [|r rs IH]; intros [|a answers]; simpl; [lia..|]. specialize (IH answers). case_decide; lia. Qed.

(** C36: The limit of an endpoint is a bound: in any sequence of requests, of any clients to any
    endpoints, that starts in a reachable database, those of one client to one endpoint in one
    minute are allowed at most up to the limit, counting the ones before; and when one of them
    is refused, the limit had been used up.  Requests of other counters do not matter. *)
Theorem rate_limit_bound pepper b limit rs w
    (start : reachable w) (same_limit : ∀ r, r ∈ rs → counter_of pepper r = b → Request.limit r = limit) :
  let '(answers, w') := serve pepper rs w in
  let used := hits_of b (World.db w) in
  answered pepper b true rs answers <= Z.max 0 (limit - used) ∧
  (0 < answered pepper b false rs answers → limit < hits_of b (World.db w')) ∧
  hits_of b (World.db w') = used + answered pepper b true rs answers + answered pepper b false rs answers.
Proof.
  pose proof (gd_wf _ (reachable_good _ start)) as Hwf. clear start. revert w Hwf same_limit.
  induction rs as [|r rs IH]; intros w Hwf Hl; simpl; [lia|].
  destruct (hit_spec pepper r w Hwf) as (Hwf1 & Hh & Ha).
  destruct (hit pepper r w) as [answer w1] eqn:E. simpl in *.
  specialize (IH w1 Hwf1 ltac:(intros r' Hr'; apply Hl; by right)).
  destruct (serve pepper rs w1) as [answers w2] eqn:Es. specialize (Hh b). specialize (Hl r ltac:(left)).
  pose proof (answered_nonneg pepper b true rs answers). pose proof (answered_nonneg pepper b false rs answers).
  destruct (decide (b = counter_of pepper r)) as [->|Hne].
  - rewrite Hl in Ha by done. destruct answer as [allowed|e].
    + specialize (Ha _ eq_refl). destruct allowed.
      * rewrite decide_True, (decide_False (P := _ ∧ Some true = Some false)) by naive_solver. lia.
      * rewrite decide_False, (decide_True (P := _ ∧ Some false = Some false)) by naive_solver. lia.
    + rewrite !decide_False by naive_solver. lia.
  - rewrite !decide_False by naive_solver. lia.
Qed.
(** Three requests of one client under a limit of two, and one of another client. *)
Definition burst : list Request.t :=
  [Request.mk "checkout" "192.0.2.1" start 2; Request.mk "checkout" "192.0.2.2" start 2;
   Request.mk "checkout" "192.0.2.1" (start + 1) 2; Request.mk "checkout" "192.0.2.1" (start + 2) 2].
Lemma rate_limit_bound_witness :
  (serve [x41] burst world0).1 = [Some true; Some true; Some true; Some false] ∧
  answered [x41] (counter_of [x41] (Request.mk "checkout" "192.0.2.1" start 2)) true burst
    (serve [x41] burst world0).1 <= 2.
Proof.
  split; [vm_compute; reflexivity|].
  assert (reachable world0) as Hr by (exists world0; split; reflexivity).
  assert (∀ r, r ∈ burst → counter_of [x41] r = counter_of [x41] (Request.mk "checkout" "192.0.2.1" start 2) →
    Request.limit r = 2) as Hl.
  { intros r Hr' _. unfold burst in Hr'. repeat (apply elem_of_cons in Hr' as [->|Hr']; [reflexivity|]).
    exfalso. exact (not_elem_of_nil _ Hr'). }
  pose proof (rate_limit_bound [x41] _ 2 burst world0 Hr Hl) as H.
  destruct (serve [x41] burst world0) as [answers w']. exact (proj1 H).
Defined.
