(* ===== verification/Processes.v ===== *)
(** * What the processes of the service do

    The refinement theorems: every process of the service, with whatever happens outside
    and in the other processes while it waits, makes a run of the transition system of
    [System].  The code that is not in the repository's Python is a parameter of each. *)
From S2P Require Import Prelude PyStr Domain Ports Db Session Exec Tasks Jobs Store Settings Payments Proofs Outbox Ots Handlers Worker Operator OrderOps Evidence Api System Serves Adapters Refine Scenario.

Open Scope Z_scope.

(** C6: whatever job a worker claims, and however its handler ends (by returning, by any
    exception, cancelled because the lease was lost), what the worker does to the database
    is a run of the service, in one round, for one task and in its endless loop: the adapters
    are called only with the evidence they need. *)
Theorem worker_refines_service apply_op deserialize task_dispatch timestamper bitcoin bundler version
    worker_id lease_for supervise retry_delay w :
  CreatorOutside task_dispatch → TimestamperOutside timestamper → BitcoinOutside bitcoin →
  BundlerOutside bundler → SuperviseOutside supervise → (∀ n, respects service (retry_delay n)) →
  reachable w →
  let handlers := worker_handlers apply_op deserialize task_dispatch timestamper bitcoin bundler version in
  service w (Worker.run_once worker_id lease_for task_dispatch handlers worker_terminal supervise
               retry_delay w).2 ∧
  (∀ job generation,
    service w (Worker.run_specific worker_id lease_for task_dispatch handlers worker_terminal supervise
                 retry_delay job generation w).2) ∧
  ∀ idle_seconds rounds,
    service w (Worker.run_forever worker_id lease_for task_dispatch handlers worker_terminal supervise
                 retry_delay idle_seconds rounds w).2.
Proof.
  intros Hc Ht Hb Hbu Hs Hd Hr handlers.
  assert (∀ kind h, handlers kind = Some h → ∀ id w, under_way id w → serves (h id) (λ _ _, True) w) as Hh
    by (by apply build_worker_serves).
  assert (∀ id code w, under_way id w → serves (worker_terminal id code) (λ _ _, True) w) as Hterm
    by (intros; exact (terminal_serves sql_orders _ _ _ H)).
  split; [|split; intros].
  - exact (proj1 (run_once_serves worker_id lease_for _ Hc _ Hh _ Hterm _ Hs _ Hd w Hr)).
  - exact (proj1 (run_specific_serves worker_id lease_for _ Hc _ Hh _ Hterm _ Hs _ Hd _ _ w Hr)).
  - exact (proj1 (run_forever_serves worker_id lease_for _ Hc _ Hh _ Hterm _ Hs _ Hd _ _ w Hr)).
Qed.

(** The same holds of each handler when the other processes of the service run between
    any two of its calls to the adapters, for what it has read of an order, of its proofs
    and of their verification stays true. *)
Theorem handlers_refine_service apply_op deserialize other timestamper bitcoin bundler version order_id code w :
  respects service other → TimestamperOutside timestamper → BitcoinOutside bitcoin →
  BundlerOutside bundler → reachable w →
  let orders := orders_between other sql_orders in
  let proofs := proofs_between other sql_proofs in
  let verifications := verifications_between other sql_verifications in
  let observations := observations_between other sql_observations in
  let bundles := bundles_between other sql_bundles in
  let outbox := outbox_between other sql_outbox in
  service w (StampHandler apply_op deserialize orders proofs timestamper order_id w).2 ∧
  service w (UpgradeHandler apply_op deserialize orders proofs timestamper bitcoin verifications
               observations order_id w).2 ∧
  service w (DeliveryHandler orders proofs bundler bundles verifications observations outbox version
               order_id w).2 ∧
  service w (ConfirmationHandler apply_op deserialize orders proofs bitcoin verifications observations
               outbox order_id w).2 ∧
  (order_started (World.db w) order_id → service w (TerminalFailureHandler orders order_id code w).2).
Proof.
  intros Ho Ht Hb Hbu Hr orders proofs verifications observations bundles outbox.
  pose proof (orders_between_laws other Ho : OrdersLaws orders) as Lo.
  pose proof (proofs_between_laws other Ho : ProofsLaws proofs) as Lp.
  pose proof (verifications_between_laws other Ho : VerificationsLaws verifications) as Lv.
  pose proof (observations_between_laws other Ho : ObservationsLaws observations) as Lob.
  pose proof (bundles_between_laws other Ho : BundlesLaws bundles) as Lb.
  pose proof (outbox_between_laws other Ho : OutboxLaws outbox) as Lx.
  split_and!; [..|intros Hs].
  - exact (proj1 (stamp_handler_serves _ _ orders proofs _ _ _ Hr)).
  - exact (proj1 (upgrade_handler_serves _ _ orders proofs _ _ verifications observations _ _ Hr)).
  - exact (proj1 (delivery_handler_serves orders proofs _ verifications observations bundles outbox _ _ _ Hr)).
  - exact (proj1 (confirmation_handler_serves _ _ orders proofs _ verifications observations outbox _ _ Hr)).
  - exact (proj1 (terminal_serves orders _ _ _ Hs Hr)).
Qed.

(** C7: every request to the API is a run of the service, whatever it carries and whatever
    the payment provider, the task queue and the bundler do: checkout, the provider's
    webhook, token rotation and the proof download; and the status request only reads. *)
Theorem api_refines_service check_netloc settings store provider task_dispatch proof_store proof_bundler w :
  ProviderOutside provider → CreatorOutside task_dispatch →
  (∀ b, proof_bundler = Some b → BundlerOutside b) →
  (∀ payload model_dump key,
     service w (create_checkout (Some (CheckoutService.create check_netloc settings store provider))
                  payload model_dump key w).2) ∧
  (∀ raw_body signature,
     service w (stripe_webhook (Some (WebhookService.process settings provider)) task_dispatch
                  raw_body signature w).2) ∧
  (∀ authorization, service w (rotate_token store authorization w).2) ∧
  (∀ authorization, service w (proof_bundle settings store proof_store proof_bundler authorization w).2) ∧
  (∀ authorization,
     World.db (order_status store proof_store proof_bundler authorization w).2 = World.db w).
Proof.
  intros Hp Hc Hb. split_and!; intros.
  - apply create_checkout_respects. intros create [= <-] *. by apply create_respects.
  - apply stripe_webhook_respects; [|done]. intros process [= <-] *. by apply process_respects.
  - apply rotate_token_respects.
  - by apply proof_bundle_respects.
  - symmetry. apply order_status_reads.
Qed.

(** Every operator command is a run of the service, whether it is accepted or refused. *)
Theorem operator_refines_service apply_op deserialize task_dispatch w :
  CreatorOutside task_dispatch → reachable w →
  (∀ job, service w (SqlOperatorCommands.replay apply_op deserialize task_dispatch sql_orders sql_proofs job w).2) ∧
  (∀ order request,
     service w (SqlOperatorCommands.reverify task_dispatch sql_orders sql_proofs order request w).2) ∧
  (∀ order, service w (SqlOperatorCommands.upgrade task_dispatch sql_orders sql_proofs order w).2) ∧
  (∀ limit, service w (SqlOperatorCommands.reconcile_tasks task_dispatch limit w).2) ∧
  (∀ limit grace, service w (SqlOperatorCommands.recover_stale_tasks task_dispatch limit grace w).2).
Proof.
  intros Hc Hr. split_and!; intros.
  - exact (proj1 (replay_serves _ _ _ Hc sql_orders sql_proofs _ _ Hr)).
  - exact (proj1 (operator_reverify_serves _ Hc sql_orders sql_proofs _ _ _ Hr)).
  - exact (proj1 (operator_upgrade_serves _ Hc sql_orders sql_proofs _ _ Hr)).
  - by apply reconcile_tasks_respects.
  - by apply recover_stale_tasks_respects.
Qed.

(** ** The hypotheses hold of code that does not touch the database *)

Lemma silent {A} (a : A) : respects service (ret a).
Proof. respects_solve. Qed.
Definition quiet_timestamper : Timestamper := {|
  stamp_exact_digest _ := ret (PendingProof.mk [] (utc 0));
  upgrade_exact_digest _ proof := ret proof |}.
Definition quiet_bitcoin : BitcoinVerifier := {| verify_exact_digest _ _ := ret verification |}.
Definition quiet_bundler : ProofBundler := {| build proof _ _ := ret (StoredProof.proof_bytes proof) |}.
Definition quiet_creator : TaskCreator := λ _ _ _, ret tt.
Definition quiet_provider : PaymentProvider := {|
  provider_mode := PAY_FIXTURE;
  Payments.create_checkout _ _ := ret (HostedCheckoutResult.mk session "https://example.test");
  retrieve_price id := ret (ProviderPrice.mk id 0 "usd");
  verify_event _ _ _ := ret event;
  resolve_internal_order_id _ := ret None;
  retrieve_checkout _ := ret canonical |}.
(** The default policy, with the random number that gives no jitter. *)
Definition backed_off (attempt : Z) : M Z :=
  lift (BackoffPolicy.delay BackoffPolicy.default attempt (PyFloat.float_of_Z 0)).
#[local] Instance quiet_timestamper_outside : TimestamperOutside quiet_timestamper.
Proof. split; intros; apply silent. Qed.
#[local] Instance quiet_bitcoin_outside : BitcoinOutside quiet_bitcoin.
Proof. intros ? ?. apply silent. Qed.
#[local] Instance quiet_bundler_outside : BundlerOutside quiet_bundler.
Proof. intros ? ? ?. apply silent. Qed.
#[export] Instance quiet_provider_outside : ProviderOutside quiet_provider.
Proof. split; intros; apply silent. Qed.
Lemma quiet_creator_outside : CreatorOutside (Some quiet_creator).
Proof. intros c [= <-] ? ? ?. apply silent. Qed.

Lemma worker_refines_service_witness :
  service paid (Worker.run_once "worker-1" (minutes 2) (Some quiet_creator)
    (worker_handlers (λ _ b, Ok b) (λ _, None) (Some quiet_creator) quiet_timestamper quiet_bitcoin quiet_bundler "1")
    worker_terminal (Worker.beating "worker-1" (minutes 2) [false; false; true]) backed_off paid).2.
Proof.
  exact (proj1 (worker_refines_service (λ _ b, Ok b) (λ _, None) (Some quiet_creator) quiet_timestamper quiet_bitcoin
    quiet_bundler "1" "worker-1" (minutes 2) _ backed_off paid quiet_creator_outside
    quiet_timestamper_outside quiet_bitcoin_outside quiet_bundler_outside
    (beating_outside "worker-1" (minutes 2) [false; false; true]) silent reachable_paid)).
Defined.
Lemma handlers_refine_service_witness :
  service paid (StampHandler (λ _ b, Ok b) (λ _, None) (orders_between (ret tt) sql_orders)
    (proofs_between (ret tt) sql_proofs) quiet_timestamper "1" paid).2.
Proof.
  exact (proj1 (handlers_refine_service (λ _ b, Ok b) (λ _, None) (ret tt) quiet_timestamper quiet_bitcoin
    quiet_bundler "1" "1" "1" paid (silent tt) quiet_timestamper_outside quiet_bitcoin_outside
    quiet_bundler_outside reachable_paid)).
Defined.
Lemma api_refines_service_witness :
  World.db (order_status store true (Some quiet_bundler) None paid).2 = World.db paid.
Proof.
  destruct (api_refines_service (λ _, true) settings store quiet_provider (Some quiet_creator) true
    (Some quiet_bundler) paid quiet_provider_outside quiet_creator_outside) as (_ & _ & _ & _ & H).
  - intros b [= <-]. exact quiet_bundler_outside.
  - exact (H None).
Defined.
Lemma operator_refines_service_witness :
  service paid (SqlOperatorCommands.replay (λ _ b, Ok b) (λ _, None) (Some quiet_creator) sql_orders sql_proofs
    "1" paid).2.
Proof.
  exact (proj1 (operator_refines_service (λ _ b, Ok b) (λ _, None) (Some quiet_creator) paid quiet_creator_outside
    reachable_paid) "1"%string).
Defined.
