(* ===== verification/NotifyFacts.v ===== *)
(** * What the notification processes do

    Only a request that carries a signature of the secret reaches the store of the delivery
    webhooks, a signed request does, and both the webhook route and the notification worker
    make runs of the service. *)
From S2P Require Import Prelude PyStr Uuid PyObject Json Base64 Sha256 Domain Ports Db Session Url Tasks Settings Outbox Worker System Serves Refine Scenario Webhooks TaskHttp Sender Processes.

Open Scope string_scope.
Open Scope Z_scope.
Import ResendWebhookService.

(** ** Signatures *)

Lemma any_equal_Ok expected supplied b :
  any_equal expected supplied = Ok b → b = true → expected ∈ supplied.
Proof.
  induction supplied as [|value l IH]; simpl; [by intros [= <-]|].
  intros (u & _ & H)%result_bind_Ok Hb. destruct (String.eqb_spec expected value) as [->|]; [left|right; by apply IH].
Qed.
(** What a request must have to be accepted. *)
Record signed (self : t) (raw_body : bytes) (svix_id svix_timestamp svix_signature : string) (now : datetime) : Prop := {
  sg_size : 0 < blen raw_body <= _MAX_WEBHOOK_BYTES;
  sg_fresh : ∃ signed_at, parse_int svix_timestamp = Some signed_at ∧
    Z.abs (int_timestamp (dt_us now) - signed_at) <= _tolerance_seconds self;
  sg_signature : signature self svix_id svix_timestamp raw_body ∈ _v1_signatures svix_signature }.
Lemma verify_Ok self raw_body svix_id svix_timestamp svix_signature now event :
  verify self raw_body svix_id svix_timestamp svix_signature now = Ok event →
  signed self raw_body svix_id svix_timestamp svix_signature now ∧ _parse_event raw_body svix_id = Ok event.
Proof.
  unfold verify. intros (u1 & C1%raise_when_Ok & H)%result_bind_Ok.
  apply result_bind_Ok in H as (u2 & _ & H). apply result_bind_Ok in H as (signed_at & Ht%need_Ok & H).
  apply result_bind_Ok in H as (u3 & C3%raise_when_Ok & H). apply result_bind_Ok in H as (u4 & _ & H). cbv zeta in H.
  apply result_bind_Ok in H as (matches & Hm & H). apply result_bind_Ok in H as (u5 & C5%raise_when_Ok & H).
  apply negb_false_iff in C5. apply orb_false_iff in C1 as [[Cb Cs]%orb_false_iff _].
  split; [|done]. split; [|exists signed_at; split; [done|lia]|by eapply any_equal_Ok].
  apply bool_decide_eq_false in Cb. apply Z.ltb_ge in Cs. split; [|done]. unfold blen. destruct raw_body; [done|]. simpl. lia.
Qed.

(** C33: Nothing that an unsigned request carries reaches the database: a delivery webhook either
    is refused and changes nothing, or its body is within the size limit, one of its signatures
    is the HMAC of its identifier, its timestamp and its body under the secret, the timestamp is
    within the tolerance of the clock, and the store is called once with the event that the body
    states and the hash of the body. *)
Theorem only_signed_events_are_stored self store raw_body svix_id svix_timestamp svix_signature now w :
  let '(r, w') := process self store raw_body svix_id svix_timestamp svix_signature now w in
  (w' = w ∧ ∃ e, r = Raise e) ∨
  (signed self raw_body svix_id svix_timestamp svix_signature now ∧
   ∃ event, _parse_event raw_body svix_id = Ok event ∧ store event (sha256 raw_body) now w = (r, w')).
Proof.
  unfold process, lift, bind.
  destruct (verify self raw_body svix_id svix_timestamp svix_signature now) as [event|e] eqn:E; [|by left; eauto].
  apply verify_Ok in E as [Hs He]. destruct (store event (sha256 raw_body) now w) as [r w'] eqn:Es.
  right. split; [done|]. by exists event.
Qed.

(** The characters of a signature: no white space and no comma. *)
Definition signature_char (c : ascii) : bool := (code c <? 128) && negb (is_unicode_space c) && negb (is_char "," c).
Lemma b64_char_signature n : 0 <= n < 64 → signature_char (b64_std_char n) = true.
Proof. exact (forall_below (λ n, signature_char (b64_std_char n)) 64 ltac:(vm_compute; reflexivity) n). Qed.
Lemma b64encode_chars b : str_all signature_char (b64encode b) = true.
Proof.
  induction b as [|x|x y|x y z b IH] using bytes_ind3; [done|..];
    pose proof (Z_of_byte_range x); try pose proof (Z_of_byte_range y); try pose proof (Z_of_byte_range z);
    cbn [b64encode]; unfold b64_group; cbv zeta; cbn [str_all];
    rewrite !b64_char_signature by
      first [apply Z.mod_pos_bound; lia | split; [apply Z.div_pos|apply Z.div_lt_upper_bound]; lia];
    [done|done|by rewrite IH].
Qed.
Lemma split_words_one s : str_all (λ c, negb (is_unicode_space c)) s = true → ∀ word,
  (word ++ s)%string ≠ "" → split_words word s = [(word ++ s)%string].
Proof.
  induction s as [|c s IH]; intros Hs word Hw; cbn [split_words].
  - rewrite string_app_nil_r in *. by destruct (String.eqb_spec word "").
  - cbn [str_all] in Hs. apply andb_prop in Hs as [->%negb_true_iff Hs].
    assert ((word ++ String c s) = ((word ++ String c "") ++ s))%string as E by by rewrite string_app_assoc.
    rewrite E in *. by apply IH.
Qed.
Lemma v1_signatures_one s : s ≠ "" → str_all signature_char s = true → _v1_signatures ("v1," ++ s) = [s].
Proof.
  intros Hn Hs. unfold _v1_signatures. rewrite split_words_one; [|..|done].
  - rewrite string_app_nil. change ("v1," ++ s)%string with ("v1" ++ String "," s)%string. simpl omap.
    by destruct (String.eqb_spec s "").
  - rewrite str_all_app. apply andb_true_iff. split; [reflexivity|].
    eapply str_all_impl, Hs. unfold signature_char. intros c [[_ ?]%andb_prop _]%andb_prop. done.
Qed.

(** What the provider signs is accepted: a fresh request with a well-formed identifier whose
    header holds the signature of its content is handed to the store. *)
Theorem signed_events_are_accepted self store raw_body svix_id svix_timestamp signed_at now event w
    (size : 0 < blen raw_body <= _MAX_WEBHOOK_BYTES) (identifier : _SAFE_EVENT_ID svix_id = true)
    (aware : is_naive now = false) (text : isascii svix_timestamp = true)
    (stamp : parse_int svix_timestamp = Some signed_at)
    (fresh : Z.abs (int_timestamp (dt_us now) - signed_at) <= _tolerance_seconds self)
    (parsed : _parse_event raw_body svix_id = Ok event) :
  process self store raw_body svix_id svix_timestamp
    ("v1," ++ signature self svix_id svix_timestamp raw_body) now w = store event (sha256 raw_body) now w.
Proof.
  unfold process, verify. rewrite identifier, aware, stamp, text.
  rewrite (bool_decide_eq_false_2 (raw_body = [])) by (intros ->; unfold blen in size; simpl in size; lia).
  rewrite (proj2 (Z.ltb_ge _ _)) by lia. cbn [need result_bind raise_when orb negb].
  rewrite (proj2 (Z.ltb_ge _ _)) by lia. cbn [need result_bind raise_when orb negb].
  set (s := signature self svix_id svix_timestamp raw_body).
  assert (str_all signature_char s = true) as Hs by apply b64encode_chars.
  rewrite v1_signatures_one; [|by intros E; apply (f_equal b64decode_strict) in E; unfold s, signature in E;
    rewrite b64_roundtrip in E; injection E as E; pose proof (length_hmac_sha256 (_secret self)
      (signed_content svix_id svix_timestamp raw_body)) as Hl; rewrite E in Hl|done].
  cbn [any_equal]. assert (isascii s = true) as ->.
  { eapply str_all_impl, Hs. unfold signature_char. intros c [[? _]%andb_prop _]%andb_prop. done. }
  cbn [raise_when result_bind negb]. rewrite String.eqb_refl. cbn [result_bind raise_when negb].
  rewrite parsed. reflexivity.
Qed.
(** A store that keeps nothing, and a signed delivery event. *)
Definition quiet_store : ResendWebhookStore := λ _ _ _, ret (WebhookProcessResult.mk false false false).
Definition quoted (s : string) : string := char_str 34 ++ s ++ char_str 34.
Definition sample_body : bytes := encode
  ("{" ++ quoted "type" ++ ":" ++ quoted "email.delivered" ++ "," ++
   quoted "created_at" ++ ":" ++ quoted "2026-08-30T10:00:00.5Z" ++ "," ++
   quoted "data" ++ ":{" ++ quoted "email_id" ++ ":" ++ quoted "m_1" ++ "}}").
Lemma signed_events_are_accepted_witness :
  let self := mk (encode "0123456789abcdef") 300 in
  process self quiet_store sample_body "msg_1" "1788083000" ("v1," ++ signature self "msg_1" "1788083000" sample_body)
    (utc (seconds 1788083100)) paid = (Ok (WebhookProcessResult.mk false false false), paid).
Proof.
  intros self.
  assert (_parse_event sample_body "msg_1" = Ok (VerifiedResendEvent.mk "msg_1" "email.delivered" "m_1" (utc 1788084000500000)))
    as parsed by (vm_compute; reflexivity).
  assert (blen sample_body = 90) as size by (vm_compute; reflexivity).
  apply (signed_events_are_accepted self quiet_store sample_body "msg_1" "1788083000" 1788083000
    (utc (seconds 1788083100)) (VerifiedResendEvent.mk "msg_1" "email.delivered" "m_1" (utc 1788084000500000)) paid); [rewrite size; split; vm_compute; congruence|vm_compute; reflexivity..| |exact parsed].
  vm_compute. congruence.
Defined.

(** ** Processes *)

Section NotifyProcesses.
Context (post : string → EmailRequest.t → M Response.t).
Context (post_outside : ∀ url request, respects service (post url request)).

Lemma send_respects self message : respects service (ResendEmailSender.send post self message).
Proof.
  unfold ResendEmailSender.send. respects_step; [|respects_solve].
  respects_step; [apply post_outside|]. destruct e; simplify_eq; respects_solve.
Qed.
Lemma record_outcome_respects message now outcome :
  respects service (record_outcome sql_notification_outbox message now outcome).
Proof.
  destruct outcome as [acceptance|[]]; simpl; try apply respects_raise, _;
    [is_tx tx_accepted|is_tx tx_retry|is_tx tx_terminal].
Qed.
Lemma dispatch_once_respects self lease_for worker_id now :
  respects service (dispatch_once sql_notification_outbox (ResendEmailSender.send post self) lease_for worker_id now).
Proof.
  unfold dispatch_once. respects_step; [is_tx tx_outbox_claim|].
  match goal with |- context [match ?a with Some _ => _ | None => _ end] => destruct a as [message|] end;
    [|respects_solve].
  intros w. pose proof (send_respects self message w) as Hs. destruct (ResendEmailSender.send _ _ _ _) as [outcome w1].
  etrans; [exact Hs|]. apply (respects_bind service (record_outcome _ _ _ _)); [apply record_outcome_respects|].
  intros. respects_solve.
Qed.
Lemma run_once_respects self lease_for worker_id :
  respects service (NotificationWorker.run_once worker_id sql_notification_outbox (ResendEmailSender.send post self) lease_for).
Proof.
  unfold NotificationWorker.run_once. respects_step; [eauto with respects|]. intros. apply dispatch_once_respects.
Qed.
Lemma run_forever_respects self lease_for worker_id idle n :
  respects service (NotificationWorker.run_forever worker_id sql_notification_outbox (ResendEmailSender.send post self)
    lease_for idle n).
Proof.
  unfold NotificationWorker.run_forever. respects_step; [respects_solve|].
  induction n as [|n IH]; simpl; [respects_solve|]. respects_step; [apply run_once_respects|exact IH].
Qed.

(** The webhook service that composition builds. *)
Definition sql_resend_webhooks (self : t) : bytes → string → string → string → datetime → M WebhookProcessResult.t :=
  process self (λ event payload_sha256 now, SqlResendWebhookStore.process event payload_sha256 (_aware now)).
Lemma resend_webhook_respects self svix_id svix_timestamp svix_signature raw_body :
  respects service (resend_webhook (sql_resend_webhooks <$> self) svix_id svix_timestamp svix_signature raw_body).
Proof.
  unfold resend_webhook. destruct self as [self|]; simpl; [|respects_solve].
  destruct svix_id, svix_timestamp, svix_signature; try (apply respects_raise; apply _).
  respects_step; [eauto with respects|]. respects_step; [|respects_solve].
  respects_step; [|destruct (is_ValueError e); simplify_eq; respects_solve].
  unfold sql_resend_webhooks, process. respects_step; [respects_solve|]. is_tx tx_resend.
Qed.

(** C34: The processes around the outbox are runs of the service: the notification worker with the
    email provider behind it, in one round and in its endless loop, whatever the provider answers; the webhook route of the provider,
    whatever the request carries; and the task endpoint, around a worker that is one. *)
Theorem endpoints_refine_service self webhooks worker uuid_field creator queue w
    (creates : ∀ name payload at_, respects service (creator name payload at_))
    (works : ∀ job generation v, reachable v → service v (worker job generation v).2)
    (start : reachable w) :
  (∀ worker_id lease_for,
     service w (NotificationWorker.run_once worker_id sql_notification_outbox (ResendEmailSender.send post self)
                  lease_for w).2 ∧
     ∀ idle_seconds rounds,
     service w (NotificationWorker.run_forever worker_id sql_notification_outbox (ResendEmailSender.send post self)
                  lease_for idle_seconds rounds w).2) ∧
  (∀ svix_id svix_timestamp svix_signature raw_body, service w
     (resend_webhook (sql_resend_webhooks <$> webhooks) svix_id svix_timestamp svix_signature raw_body w).2) ∧
  (∀ request, service w (run_task uuid_field worker creator queue request w).2).
Proof.
  split; [|split]; intros.
  - split; [apply run_once_respects|]. intros. apply run_forever_respects.
  - apply resend_webhook_respects.
  - assert (serves (run_task uuid_field worker creator queue request) (λ _ _, True) w) as H; [|exact (proj1 (H start))].
    unfold run_task. serves_step. eapply (serves_bind _ _ (λ _ _, True)); [|by intros; serves_step].
    apply serves_try; [|intros e k ? ? ? Ek; destruct e; simplify_eq; apply serves_raise].
    eapply (serves_bind _ _ (λ _ _, True)); [intros Hr; split; [by apply works|done]|]. intros.
    eapply (serves_bind _ _ (λ _ _, True)); [apply serves_outside; by apply reconcile_respects|by intros; serves_step].
Qed.
End NotifyProcesses.

Lemma endpoints_refine_service_witness :
  service paid (NotificationWorker.run_once "worker" sql_notification_outbox
    (ResendEmailSender.send (λ _ _, ret (Response.mk 503 None [])) (ResendEmailSender.mk "re_1" "a@b.c")) 30 paid).2.
Proof.
  refine (proj1 (proj1 (endpoints_refine_service (λ _ _, ret (Response.mk 503 None [])) (λ _ _, silent _)
    (ResendEmailSender.mk "re_1" "a@b.c") None (λ _ _, ret true) (λ _, None) quiet_creator "work" paid
    (λ _ _ _, silent _) _ reachable_paid) "worker"%string 30)).
  intros job generation v _. exact (silent true v).
Defined.
