(* ===== verification/GatewayFacts.v ===== *)
(** * What the payment gateway guarantees

    What the adapter hands to the service is of the configured mode, and has the shape the
    service relies on; the fixture provider accepts what it signs.  A client of the SDK that
    leaves the database alone makes a provider of the service. *)
From S2P Require Import Prelude PyStr Uuid Digits PyFloat PyObject Sha256 Domain Ports Db Session Url Settings Payments Webhooks NotifyFacts System Refine Scenario Gateway.

Open Scope string_scope.
Open Scope Z_scope.

(** ** Objects of the provider *)

Lemma require_mode_Ok self value operation u :
  StripePaymentProvider._require_object_mode self value operation = Ok u →
  field "livemode" value = OBool (StripePaymentProvider.livemode self).
Proof.
  unfold StripePaymentProvider._require_object_mode. intros H%raise_when_Ok.
  destruct (field "livemode" value); try done. by apply negb_false_iff, bool_decide_eq_true in H as ->.
Qed.
Lemma run_or_Ok failure operation w value w' :
  StripePaymentProvider.run_or failure operation w = (Ok value, w') → operation w = (Ok (ODict value), w').
Proof.
  unfold StripePaymentProvider.run_or, StripePaymentProvider._run. intros (o & w1 & H & Hv)%bind_Ok_inv.
  apply lift_Ok in Hv as [Hm ->]. assert (o = ODict value) as -> by by destruct o; simplify_eq/=.
  revert H. unfold try_except. destruct (operation w) as [[v|e] w2]; [by intros [= -> ->]|].
  by destruct e.
Qed.

(** A price that the adapter reports is the price that was asked for, of the currency, the
    kind and the range of amounts the shop sells in: the provider's object has that identifier,
    is active and of the configured mode, and its amount, from one cent to a million dollars, is
    the amount reported. *)
Theorem retrieved_price_is_valid repr client self price_id w price w'
    (run : StripePaymentProvider.retrieve_price repr client self price_id w = (Ok price, w')) :
  ProviderPrice.price_id price = price_id ∧ ProviderPrice.currency price = "usd" ∧
  0 < ProviderPrice.amount_minor price <= 100000000 ∧
  ∃ fields, prices_retrieve client price_id w = (Ok (ODict fields), w') ∧
    field "unit_amount" fields = OInt (ProviderPrice.amount_minor price) ∧
    field "active" fields = OBool true ∧ field "livemode" fields = OBool (StripePaymentProvider.livemode self).
Proof.
  unfold StripePaymentProvider.retrieve_price in run.
  apply bind_Ok_inv in run as (fields & w1 & Hr%run_or_Ok & run).
  apply bind_Ok_inv in run as (u & w2 & [Hm%require_mode_Ok ->]%lift_Ok & [run ->]%lift_Ok).
  unfold StripePaymentProvider.price_of in run. cbv zeta in run.
  apply result_bind_Ok in run as (id & _ & run). apply result_bind_Ok in run as (u1 & _ & run).
  destruct (field "active" fields) as [|[]| | | | |] eqn:Ea; try done.
  destruct (field "unit_amount" fields) as [| |amount| | | |] eqn:Eu; try done.
  apply result_bind_Ok in run as (u2 & C%raise_when_Ok & [= <-]). simpl.
  apply orb_false_iff in C as [[[_ Cl]%orb_false_iff Ch]%orb_false_iff _].
  split_and!; [done|done|lia|lia|]. by exists fields.
Qed.

(** A client whose price is the one the shop sells at, and an adapter in the live mode. *)
Definition sample_price : obj := ODict [
  (wide "id", OStr (wide "price_1")); (wide "livemode", OBool true); (wide "active", OBool true);
  (wide "type", OStr (wide "one_time")); (wide "unit_amount", OInt 1500); (wide "currency", OStr (wide "usd"))].
Definition sample_client (answer : obj) : StripeClient := {|
  sessions_create _ _ := ret answer; prices_retrieve _ := ret answer; sessions_retrieve _ := ret answer;
  payment_intents_retrieve _ := ret answer; construct_event _ _ _ _ := ret answer |}.
Definition live_adapter : StripePaymentProvider.t := StripePaymentProvider.mk STRIPE_LIVE true "whsec_1".
Lemma retrieved_price_is_valid_witness : 0 < 1500 <= 100000000.
Proof.
  refine (proj1 (proj2 (proj2 (retrieved_price_is_valid (λ _, "") (sample_client sample_price) live_adapter "price_1"
    paid (ProviderPrice.mk "price_1" 1500 "usd") paid _)))).
  generalize paid. intros w. vm_compute. reflexivity.
Defined.

(** ** Modes *)

(** The fields of a canonical checkout, and what makes its refund. *)
Record canonical_of (repr : obj → string) (session : list (ustr * obj)) (c : CanonicalCheckout.t) : Prop := {
  co_livemode : field "livemode" session = OBool (CanonicalCheckout.livemode c);
  co_refund : charge_refund repr (field_of "latest_charge" (field "payment_intent" session))
    = Ok (CanonicalCheckout.refunded_amount_total c, CanonicalCheckout.refund_status c);
  co_item : ∃ item, field_of "data" (field "line_items" session) = OList [ODict item] ∧
    _reference_id repr (field "price" item) = Some (CanonicalCheckout.price_id c) }.
Lemma canonical_checkout_Ok repr session c :
  _canonical_checkout repr session = Ok c → canonical_of repr session c.
Proof.
  unfold _canonical_checkout.
  destruct (field_of "data" _) as [| | | | |[|[| | | | | |item] []]|] eqn:Ed; try done.
  destruct (field "metadata" session) as [| | | | | |metadata]; try done.
  destruct (_reference_id repr _) as [price_id|] eqn:Ep; [|done].
  destruct (field "livemode" session) as [|livemode| | | | |] eqn:El; try done.
  intros H%except_as_Ok. unfold canonical_fields in H.
  apply result_bind_Ok in H as ([total status] & Hr & H).
  repeat (apply result_bind_Ok in H as (? & _ & H)). injection H as <-.
  split; simpl; [done|done|]. by exists item.
Qed.

(** C35: Nothing of the other mode passes the adapter: an event that it verifies, a checkout that
    it retrieves and the object behind a checkout that it creates carry the live mode exactly when
    the adapter was made for [STRIPE_LIVE], and an event of the other mode is not resolved. *)
Theorem only_our_mode_passes repr client self secret_key webhook_secret mode
    (made : StripePaymentProvider.new secret_key webhook_secret mode = Ok self) :
  let live := bool_decide (mode = STRIPE_LIVE) in
  (∀ body signature tolerance w event w',
     StripePaymentProvider.verify_event repr client self body signature tolerance w = (Ok event, w') →
     ProviderEvent.livemode event = live) ∧
  (∀ session_id w checkout w',
     StripePaymentProvider.retrieve_checkout repr client self session_id w = (Ok checkout, w') →
     CanonicalCheckout.livemode checkout = live) ∧
  (∀ request key w output w',
     StripePaymentProvider.create_checkout repr client self request key w = (Ok output, w') →
     ∃ session, sessions_create client (StripePaymentProvider.create_params request) key w = (Ok (ODict session), w') ∧
       field "livemode" session = OBool live) ∧
  (∀ event w r w',
     StripePaymentProvider.resolve_internal_order_id repr client self event w = (Ok r, w') →
     ProviderEvent.livemode event = live).
Proof.
  assert (StripePaymentProvider.livemode self = bool_decide (mode = STRIPE_LIVE)) as Hl.
  { unfold StripePaymentProvider.new in made. cbv zeta in made.
    do 3 (apply result_bind_Ok in made as (? & _ & made)). by injection made as <-. }
  cbv zeta. rewrite <- Hl. split_and!.
  - intros * H. unfold StripePaymentProvider.verify_event in H.
    apply bind_Ok_inv in H as (? & ? & _ & H). apply bind_Ok_inv in H as (? & ? & _ & H).
    apply bind_Ok_inv in H as (? & ? & _ & H).
    apply bind_Ok_inv in H as (? & ? & [C _]%raise_if_Ok & [-> _]%ret_Ok).
    by apply negb_false_iff, bool_decide_eq_true in C.
  - intros * H. unfold StripePaymentProvider.retrieve_checkout in H.
    apply bind_Ok_inv in H as (s & ? & _ & H).
    apply bind_Ok_inv in H as (? & ? & [Hm%require_mode_Ok _]%lift_Ok & [Hc%canonical_checkout_Ok _]%lift_Ok).
    pose proof (co_livemode _ _ _ Hc) as E. rewrite Hm in E. by injection E.
  - intros * H. unfold StripePaymentProvider.create_checkout in H.
    apply bind_Ok_inv in H as (s & ? & Hr%run_or_Ok & H).
    apply bind_Ok_inv in H as (? & ? & [Hm%require_mode_Ok ->]%lift_Ok & H).
    apply bind_Ok_inv in H as (? & ? & [_ ->]%lift_Ok & H).
    apply bind_Ok_inv in H as (? & ? & [_ ->]%lift_Ok & [_ ->]%ret_Ok). by exists s.
  - intros * H. unfold StripePaymentProvider.resolve_internal_order_id in H.
    apply bind_Ok_inv in H as (? & ? & [C _]%raise_if_Ok & _).
    by apply negb_false_iff, bool_decide_eq_true in C.
Qed.

(** A mode for which the adapter can be made, and an event of it. *)
Definition sample_event : obj := ODict [
  (wide "id", OStr (wide "evt_1")); (wide "type", OStr (wide "charge.refunded")); (wide "livemode", OBool true);
  (wide "data", ODict [(wide "object", ODict [(wide "refunded", OBool true); (wide "amount_refunded", OInt 1500)])])].
Lemma only_our_mode_passes_witness :
  ∃ event, StripePaymentProvider.verify_event (λ _, "") (sample_client sample_event) live_adapter [] "" 300 paid
    = (Ok event, paid) ∧ ProviderEvent.livemode event = true.
Proof.
  assert (∃ event, StripePaymentProvider.verify_event (λ _, "") (sample_client sample_event) live_adapter [] "" 300 paid
    = (Ok event, paid)) as [event E].
  { eexists. generalize paid. intros w. vm_compute. reflexivity. }
  exists event. split; [exact E|].
  refine (proj1 (only_our_mode_passes (λ _, "") (sample_client sample_event) live_adapter "sk_live_1" "whsec_1"
    STRIPE_LIVE _) _ _ _ _ _ _ E).
  vm_compute. reflexivity.
Defined.

(** ** Refunds *)

(** The statuses of the refunds of a charge. *)
Definition refund_statuses (repr : obj → string) (refunds : list obj) : list string :=
  omap (λ refund, match refund with ODict r => Some (text_of repr (field "status" r)) | _ => None end) refunds.
Definition refunds_of (charge : obj) : obj := field_of "data" (field_of "refunds" charge).

(** A checkout is reported as refunded only when it is: the refund has a status exactly when
    the charge behind the payment has an amount refunded, that amount is the one reported, and
    the status is [succeeded] only if there is a refund and every one of them succeeded. *)
Theorem refund_reported_is_settled repr session checkout
    (read : _canonical_checkout repr session = Ok checkout) :
  let charge := field_of "latest_charge" (field "payment_intent" session) in
  let total := CanonicalCheckout.refunded_amount_total checkout in
  (CanonicalCheckout.refund_status checkout = None ↔ total <= 0) ∧
  (0 < total → field_of "amount_refunded" charge = OInt total) ∧
  (CanonicalCheckout.refund_status checkout = Some "succeeded" ↔
     0 < total ∧ ∃ refunds, elements (refunds_of charge) = Ok refunds ∧ refund_statuses repr refunds ≠ [] ∧
       ∀ status, status ∈ refund_statuses repr refunds → status = "succeeded").
Proof.
  cbv zeta. pose proof (co_refund _ _ _ (canonical_checkout_Ok _ _ _ read)) as H. clear read.
  destruct checkout as [? ? ? ? ? ? ? ? ? ? ? status total]. simpl in *.
  set (charge := field_of "latest_charge" (field "payment_intent" session)) in *.
  assert (total = 0 ∧ status = None ∨
    field_of "amount_refunded" charge = OInt total ∧
    ((total <= 0 ∧ status = None) ∨ 0 < total ∧ ∃ refunds, elements (refunds_of charge) = Ok refunds ∧
      status = Some (if negb (len (refund_statuses repr refunds) =? 0) &&
                        forallb (λ s, (s =? "succeeded")%string) (refund_statuses repr refunds)
                     then "succeeded" else "pending"))) as Hc.
  { destruct charge as [| | | | | |fields]; simpl in H; [by left; simplify_eq..|].
    unfold refunds_of. simpl. unfold exact_int in H.
    destruct (field "amount_refunded" fields) as [| |n| | | |] eqn:En; simpl in H;
      try (by left; simplify_eq).
    right. destruct (Z.ltb_spec 0 n) as [Hn|Hn].
    - apply result_bind_Ok in H as (refunds & He & [= <- <-]). split; [done|]. right. split; [done|]. by exists refunds.
    - injection H as <- <-. split; [done|]. by left. }
  destruct Hc as [[-> ->]|[Ha [[Ht ->]|(Ht & refunds & He & ->)]]].
  - split_and!; [done|lia|]. split; [done|lia].
  - split_and!; [done|done|]. split; [done|lia].
  - split_and!; [split; [done|lia]|done|].
    set (l := refund_statuses repr refunds). split.
    + destruct (negb (len l =? 0) && _) eqn:E; [|done]. intros _. split; [done|]. exists refunds. fold l.
      apply andb_prop in E as [El E]. split; [done|]. split; [by intros En; rewrite En in El|].
      intros s Hs. apply String.eqb_eq. rewrite forallb_forall in E. apply E. by apply list_elem_of_In.
    + intros (_ & refunds' & He' & Hn & Hall). rewrite He in He'. injection He' as <-. fold l in Hn, Hall.
      assert (len l =? 0 = false) as -> by (destruct l; [done|]; unfold len; simpl; lia).
      rewrite (proj2 (forallb_forall _ l)); [done|]. intros s Hs. apply String.eqb_eq, Hall, list_elem_of_In, Hs.
Qed.
(** A paid checkout, one refund of which failed. *)
Definition refunded_session : list (ustr * obj) := [
  (wide "id", OStr (wide "cs_1")); (wide "mode", OStr (wide "payment")); (wide "status", OStr (wide "complete"));
  (wide "payment_status", OStr (wide "paid")); (wide "amount_total", OInt 1500); (wide "currency", OStr (wide "usd"));
  (wide "livemode", OBool true); (wide "metadata", ODict []);
  (wide "line_items", ODict [(wide "data", OList [
     ODict [(wide "price", ODict [(wide "id", OStr (wide "price_1"))]); (wide "quantity", OInt 1)]])]);
  (wide "payment_intent", ODict [(wide "id", OStr (wide "pi_1")); (wide "latest_charge", ODict [
     (wide "amount_refunded", OInt 500);
     (wide "refunds", ODict [(wide "data", OList [
        ODict [(wide "status", OStr (wide "succeeded"))]; ODict [(wide "status", OStr (wide "failed"))]])])])])].
Lemma refund_reported_is_settled_witness :
  ∃ checkout, _canonical_checkout (λ _, "") refunded_session = Ok checkout ∧
    CanonicalCheckout.refund_status checkout = Some "pending" ∧
    field_of "amount_refunded" (field_of "latest_charge" (field "payment_intent" refunded_session)) = OInt 500.
Proof.
  eexists. assert (_canonical_checkout (λ _, "") refunded_session = Ok _) as read by (vm_compute; reflexivity).
  split; [exact read|]. split; [reflexivity|].
  exact (proj1 (proj2 (refund_reported_is_settled (λ _, "") refunded_session _ read)) eq_refl).
Defined.

(** ** The signatures of the fixture provider *)

Import FixturePaymentProvider.

Lemma partition_first p a c b :
  str_all (λ c, negb (p c)) a = true → p c = true → partition p (a ++ String c b) = (a, Some c, b).
Proof.
  intros Ha Hc. induction a as [|d a IH]; [simpl; by rewrite Hc|].
  cbn [str_all] in Ha. apply andb_prop in Ha as [Hd%negb_true_iff Ha]. simpl. rewrite Hd, IH by done. done.
Qed.
Lemma partition_absent p s : str_all (λ c, negb (p c)) s = true → partition p s = (s, None, "").
Proof.
  induction s as [|c s IH]; [done|]. cbn [str_all]. intros [Hc%negb_true_iff Hs]%andb_prop. simpl.
  by rewrite Hc, IH by done.
Qed.
Lemma digit_lower_hex s : str_all is_digit s = true → str_all is_lower_hex s = true.
Proof. apply str_all_impl. intros c. by destruct c as [[] [] [] [] [] [] [] []]. Qed.
Lemma digits_absent d n : 0 <= n → is_lower_hex d = false → str_all (λ c, negb (is_char d c)) (str_int n) = true.
Proof. intros Hn Hd. apply (lower_absent d); [done|]. by apply digit_lower_hex, str_int_digits. Qed.
Lemma digest_absent d b : is_lower_hex d = false → str_all (λ c, negb (is_char d c)) (bytes_hex b) = true.
Proof. intros Hd. apply (lower_absent d); [done|]. apply bytes_hex_lower. Qed.

Lemma signature_fields_sign self raw_body signed_at : 0 <= signed_at →
  signature_fields (sign self raw_body signed_at) = Some [("t", str_int signed_at); ("v1", digest_of self signed_at raw_body)].
Proof.
  intros Hs. unfold sign, digest_of. set (d := hmac_sha256 _ _).
  replace ("t=" ++ str_int signed_at ++ ",v1=" ++ bytes_hex d)%string
    with (("t=" ++ str_int signed_at) ++ String "," ("v1=" ++ bytes_hex d))%string by (rewrite string_app_assoc; reflexivity).
  unfold signature_fields. set (rest := ("v1=" ++ bytes_hex d)%string).
  change (String.length (("t=" ++ str_int signed_at) ++ String "," rest)) with
    (S (S (String.length (str_int signed_at ++ String "," rest)))).
  cbn [split_commas]. rewrite partition_first by (rewrite ?str_all_app, ?digits_absent; done). cbn [split_commas].
  unfold rest. rewrite partition_absent by (rewrite ?str_all_app, ?digest_absent; done).
  apply mapM_Some_2. constructor; [|constructor; [|constructor]].
  - change ("t=" ++ str_int signed_at)%string with ("t" ++ String "=" (str_int signed_at))%string.
    by rewrite partition_first.
  - change ("v1=" ++ bytes_hex d)%string with ("v1" ++ String "=" (bytes_hex d))%string. by rewrite partition_first.
Qed.

(** What the fixture provider signs it verifies, within the tolerance of the clock: the
    outcome is what the body says, and an event of the live mode is refused; any other signature
    that is accepted is made with the same secret, of the same body, at the time it states. *)
Theorem fixture_signature_roundtrip repr self raw_body signed_at tolerance now
    (range : 0 <= signed_at < 10 ^ 18) (fresh : Z.abs (now - signed_at) <= tolerance) :
  verify_event repr self raw_body (sign self raw_body signed_at) tolerance now =
    (try! payload := except_as is_decode_error (PaymentSignatureError "invalid webhook payload") (loads raw_body) in
     match payload with
     | ODict fields =>
         try! event := _provider_event repr fields in
         check! raise_when (ProviderEvent.livemode event)
           (PaymentSignatureError "webhook event mode does not match the configured payment mode") in
         Ok event
     | _ => Raise (PaymentSignatureError "invalid webhook payload")
     end) ∧
  ∀ signature event, verify_event repr self raw_body signature tolerance now = Ok event →
    ∃ fields t timestamp, signature_fields signature = Some fields ∧ last_value "t" fields = Some t ∧
      parse_int t = Some timestamp ∧ Z.abs (now - timestamp) <= tolerance ∧
      last_value "v1" fields = Some (digest_of self timestamp raw_body) ∧ ProviderEvent.livemode event = false.
Proof.
  split.
  - unfold verify_event at 1. rewrite signature_fields_sign by lia. cbv zeta. cbn [need result_bind].
    change (last_value "t" _) with (Some (str_int signed_at)). cbn [need result_bind].
    rewrite parse_int_small by lia. cbn [need result_bind].
    change (last_value "v1" _) with (Some (digest_of self signed_at raw_body)). cbn [need result_bind].
    rewrite (proj2 (Z.ltb_ge _ _)) by lia. cbn [raise_when result_bind any_equal].
    assert (isascii (digest_of self signed_at raw_body) = true) as ->.
    { eapply str_all_impl, bytes_hex_lower. intros c. by destruct c as [[] [] [] [] [] [] [] []]. }
    cbn [raise_when result_bind negb]. rewrite String.eqb_refl. reflexivity.
  - intros signature event H. unfold verify_event in H. cbv zeta in H.
    apply result_bind_Ok in H as (fields & Hf%need_Ok & H). apply result_bind_Ok in H as (t & Ht%need_Ok & H).
    apply result_bind_Ok in H as (timestamp & Hp%need_Ok & H). apply result_bind_Ok in H as (v1 & Hv%need_Ok & H).
    apply result_bind_Ok in H as (? & C%raise_when_Ok%Z.ltb_ge & H). apply result_bind_Ok in H as (m & Hm & H).
    apply result_bind_Ok in H as (? & C'%raise_when_Ok%negb_false_iff & H).
    apply any_equal_Ok in Hm; [|done]. apply list_elem_of_singleton in Hm as <-.
    apply result_bind_Ok in H as (payload & _ & H). destruct payload; try done.
    apply result_bind_Ok in H as (? & _ & H). apply result_bind_Ok in H as (? & Cl%raise_when_Ok & H).
    injection H as <-. by exists fields, t, timestamp.
Qed.
Definition fixture : t := mk (encode "phase0-fixture-webhook-secret-32") [] [].
Lemma fixture_signature_roundtrip_witness :
  verify_event (λ _, "") fixture (encode "[]") (sign fixture (encode "[]") 1788083000) 300 1788083100
    = Raise (PaymentSignatureError "invalid webhook payload").
Proof.
  rewrite (proj1 (fixture_signature_roundtrip (λ _, "") fixture (encode "[]") 1788083000 300 1788083100
    ltac:(lia) ltac:(lia))).
  vm_compute. reflexivity.
Defined.

(** ** The Stripe provider is a provider of the service *)

(** The calls of the SDK, during which the rest of the service goes on. *)
Class ClientOutside (client : StripeClient) : Prop := {
  sessions_create_outside params key : respects service (sessions_create client params key);
  prices_retrieve_outside id : respects service (prices_retrieve client id);
  sessions_retrieve_outside id : respects service (sessions_retrieve client id);
  payment_intents_retrieve_outside id : respects service (payment_intents_retrieve client id);
  construct_event_outside body signature secret tolerance :
    respects service (construct_event client body signature secret tolerance) }.
#[export] Hint Resolve sessions_create_outside prices_retrieve_outside sessions_retrieve_outside
  payment_intents_retrieve_outside construct_event_outside : respects.

Section Outside.
Context (repr : obj → string) (client : StripeClient) `{!ClientOutside client} (self : StripePaymentProvider.t).

Lemma run_or_respects failure operation :
  respects service operation → respects service (StripePaymentProvider.run_or failure operation).
Proof.
  intros H. unfold StripePaymentProvider.run_or, StripePaymentProvider._run.
  respects_step; [|respects_solve]. respects_step.
  - respects_step; [done|]. destruct e; simplify_eq. respects_solve.
  - destruct e; simplify_eq; respects_solve.
Qed.
#[local] Hint Resolve run_or_respects : respects.
#[export] Instance stripe_provider_outside : ProviderOutside (StripePaymentProvider.provider repr client self).
Proof.
  split; intros; simpl.
  - unfold StripePaymentProvider.create_checkout. respects_solve.
  - unfold StripePaymentProvider.retrieve_price. respects_solve.
  - unfold StripePaymentProvider.verify_event. respects_step; [|respects_solve].
    respects_step; [eauto with respects|].
    destruct e; simpl in *; simplify_eq; respects_solve.
  - unfold StripePaymentProvider.resolve_internal_order_id. respects_step; [respects_solve|].
    destruct (ProviderEvent.internal_order_id _); [respects_solve|].
    destruct (ProviderEvent.payment_intent_id _); respects_solve.
  - unfold StripePaymentProvider.retrieve_checkout. respects_solve.
Qed.
End Outside.
