(* ===== verification/PaidFacts.v ===== *)
(** * What it takes to be paid

    The one transaction that records a payment, and what it has checked when it does. *)
From S2P Require Import Prelude PyStr Sha256 Domain Ports Db Session Exec Evolution OrderLife Growth Tasks Jobs Store Settings Payments Proofs Outbox OutboxLife Handlers Worker Operator OrderOps Evidence Api System Scenario Serves Refine Processes.

Open Scope string_scope.
Open Scope Z_scope.
Import PaymentState FulfillmentState WebhookService.

(** ** Orders that are paid were paid before *)

Definition paid_from (d d' : Db.t) : Prop :=
  ∀ o', o' ∈ Db.orders d' → Order.payment_state o' = PAID →
    ∃ o, o ∈ Db.orders d ∧ Order.id o = Order.id o' ∧ Order.payment_state o = PAID.
#[global] Instance paid_from_preorder : PreOrder paid_from.
Proof.
  split; [intros d o Ho Hp; by exists o|]. intros x y z H1 H2 o Ho Hp.
  destruct (H2 o Ho Hp) as (o1 & Ho1 & <- & Hp1). by apply H1.
Qed.
#[global] Instance paid_from_only : OnlyTable paid_from Order.row.
Proof. intros d d' E o' Ho Hp. simpl in E. rewrite <- E in Ho. by exists o'. Qed.
#[export] Hint Extern 2 (respects (on_db paid_from) _) => respects_other Order.row : respects.

(** An order written back with the payment state it was read with. *)
Lemma paid_from_saved d d' (o o' : Order.row) :
  d' = set_tbl (replace_row o' (tbl d)) d → o ∈ Db.orders d → Order.id o = Order.id o' →
  Order.payment_state o = Order.payment_state o' → paid_from d d'.
Proof.
  intros -> Ho Hi Hp r Hr Hpaid. simpl in Hr. apply elem_of_replace in Hr as [[Hr _]|[-> _]].
  - by exists r.
  - exists o. by rewrite Hp.
Qed.
Lemma paid_from_new settings order_id reference request now :
  respects (on_db paid_from) (add (CheckoutService.new_order settings order_id reference request now)).
Proof.
  apply respects_add; [apply _|]. intros d _ o Ho Hp. simpl in Ho. apply elem_of_app in Ho as [Ho|Ho].
  - by exists o.
  - apply list_elem_of_singleton in Ho as ->. done.
Qed.
#[export] Hint Resolve paid_from_new : respects.

Lemma finalize_paid_from settings store plan binding result now :
  respects (on_db paid_from) (CheckoutService._finalize settings store plan binding result now).
Proof.
  apply respects_atomically_commits; [apply _|]. intros w. do 2 exec_step. exec_case; [|by exec].
  do 8 exec_step. exec_case; [|by exec]. do 4 exec_step. cbv zeta. do 2 exec_step.
  unfold OrderStore.issue_token, OrderStore.revoke. eapply commits_trans; [apply _| |respects_tx].
  apply find_row_Some in F0 as [Hin _]. by apply (paid_from_saved _ _ r0 _ D Hin).
Qed.
Lemma merge_calendar_payment o supplied o' : _merge_calendar_time o supplied = Ok o' →
  Order.id o = Order.id o' ∧ Order.payment_state o = Order.payment_state o'.
Proof. by intros [->|(_ & ? & ->)]%merge_calendar_inv. Qed.
Lemma append_paid_from proof : respects (on_db paid_from) (SqlProofStore.append proof).
Proof.
  unfold SqlProofStore.append. respects_step; [respects_solve|].
  unfold latest_version, _insert_verification.
  apply respects_atomically_commits; [apply _|]. intros w. do 2 exec_step. exec_case; [|by exec].
  do 6 exec_step. by_rest. apply find_row_Some in F as [Hin _].
  apply merge_calendar_payment in E as []. by apply (paid_from_saved _ _ r _ D Hin).
Qed.
Lemma transition_paid_from order_id target key calendar :
  respects (on_db paid_from) (SqlFulfillmentRepository.transition_fulfillment_once order_id target key calendar).
Proof.
  unfold SqlFulfillmentRepository.transition_fulfillment_once. do 2 (respects_step; [respects_solve|]).
  apply respects_atomically_commits; [apply _|]. intros w.
  do 4 exec_step. exec_case; [|by exec]. apply find_row_Some in F as [Hin Hid%bool_decide_eq_true].
  do 2 exec_step. exec_case.
  - do 6 exec_step. by_rest. apply merge_calendar_payment in E0 as []. by apply (paid_from_saved _ _ r _ D Hin).
  - do 4 exec_step. cbv zeta. do 2 exec_step. by_rest. rewrite D in *.
    apply advanced_inv in E0 as (o1 & [? ?]%merge_calendar_payment & -> & _). by apply (paid_from_saved _ _ r _ D0 Hin).
Qed.
Lemma apply_delivered_paid_from r event now w :
  commits (_apply_delivered_event r event now) (λ _ w', paid_from (World.db w) (World.db w')) w.
Proof.
  unfold _apply_delivered_event. exec_case; [by exec|]. do 2 exec_step. exec_case; [|by exec].
  apply find_row_Some in F as [Hin _]. exec_step. call delivery_evidence_inv as b [-> _].
  exec_case; [by exec|]. exec_case; [|by exec]. exec_case; [by exec|]. do 2 exec_step.
  exec_case; [exec; apply paid_from_only; by rewrite D|]. cbv zeta. do 2 exec_step. by_rest.
  transitivity (World.db w'); [apply paid_from_only; by rewrite D|].
  apply (paid_from_saved _ _ r0 _ D0); [by rewrite D|done..].
Qed.
Lemma accepted_paid_from message acceptance now :
  respects (on_db paid_from) (SqlNotificationOutbox.record_accepted message acceptance now).
Proof.
  unfold SqlNotificationOutbox.record_accepted. respects_step; [respects_solve|].
  apply respects_atomically_commits; [apply _|]. intros w. exec_step.
  call active_lease_spec as [r att] [-> _].
  exec_all; try (call apply_delivered_paid_from as ? Hpaid; exec_all);
  try (etrans; [|exact Hpaid]); apply paid_from_only; by_dbs; done.
Qed.
Lemma resend_paid_from event hash now :
  respects (on_db paid_from) (SqlResendWebhookStore.process event hash now).
Proof.
  unfold SqlResendWebhookStore.process. respects_step; [respects_solve|].
  apply respects_atomically_commits; [apply _|]. intros w.
  unfold SqlResendWebhookStore.replay, SqlResendWebhookStore._reconcile_replayed_event,
    SqlResendWebhookStore._insert_webhook_event, SqlResendWebhookStore.apply_new_event.
  exec_all; try (call apply_delivered_paid_from as ? Hpaid; exec_all);
  try (etrans; [|exact Hpaid]); apply paid_from_only; by_dbs; done.
Qed.
#[export] Hint Resolve finalize_paid_from append_paid_from transition_paid_from accepted_paid_from
  resend_paid_from : respects.

(** ** The payment that is recorded *)

(** What the provider and the order agree on when an order becomes paid. *)
Record paid_by (settings : Settings.t) (o : Order.row) (event : ProviderEvent.t) (c : CanonicalCheckout.t) : Prop := {
  pb_type : ProviderEvent.event_type event = "checkout.session.completed" ∨
            ProviderEvent.event_type event = "checkout.session.async_payment_succeeded";
  pb_status : CanonicalCheckout.status c = "complete" ∧ CanonicalCheckout.payment_status c = "paid";
  pb_order : CanonicalCheckout.metadata c = [("order_id", str_uuid (Order.id o))];
  pb_session : Order.checkout_session_id o = Some (CanonicalCheckout.session_id c);
  pb_amount : CanonicalCheckout.amount_total c = Order.amount_minor o;
  pb_currency : CanonicalCheckout.currency c = Order.currency o;
  pb_price : CanonicalCheckout.price_id c = or_str (Settings.stripe_price_id settings) "fixture_price" ∧
             CanonicalCheckout.quantity c = 1;
  pb_mode : ProviderEvent.livemode event = expected_livemode settings ∧
            CanonicalCheckout.livemode c = expected_livemode settings ∧
            Order.payment_mode o = PaymentMode_value (Settings.payment_mode settings);
  pb_intent : ∃ intent, CanonicalCheckout.payment_intent_id c = Some intent ∧
                ProviderEvent.payment_intent_id event = Some intent }.

Lemma applied_to_paid order event canonical now o' b :
  applied_order order event canonical now = (o', b) →
  Order.id o' = Order.id order ∧ Order.fulfillment_key o' = Order.fulfillment_key order ∧
  (Order.payment_state o' = Order.payment_state order ∨
   b = true ∧ event_target event canonical = Some (Order.payment_state o')).
Proof.
  rewrite applied_order_eq. unfold _apply_event.
  destruct (event_target event canonical) as [target|] eqn:E.
  - destruct (OrderStore.transition_payment order target) as [o1 c] eqn:Et. intros [= <- <-].
    apply transition_payment_step in Et as [[-> ->]|(-> & -> & Hs)]; simpl.
    + unfold with_intent. destruct (OrderStore.truthy _), (Order.payment_intent_id _); simpl; auto.
    + case_bool_decide; unfold with_intent;
        destruct (OrderStore.truthy _), (Order.payment_intent_id _); simpl; auto.
  - intros [= <- <-]. simpl. unfold with_intent.
    destruct (OrderStore.truthy _), (Order.payment_intent_id _); simpl; auto.
Qed.
(** The events that ask for [PAID]. *)
Lemma target_paid event c : event_target event c = Some PAID →
  CanonicalCheckout.payment_status c = "paid" ∧
  (ProviderEvent.event_type event = "checkout.session.completed" ∨
   ProviderEvent.event_type event = "checkout.session.async_payment_succeeded").
Proof.
  unfold event_target. cbv zeta.
  repeat (case_bool_decide; simpl; [try naive_solver|]); try done;
    try (destruct (_authoritative_full_refund _ _); done).
Qed.
Lemma valid_paid settings order event c :
  _valid_binding settings order event c = true → event_target event c = Some PAID →
  paid_by settings order event c.
Proof.
  intros Hv [Hp Ht]%target_paid. unfold _valid_binding in Hv.
  destruct (base_valid settings order event c) eqn:Hb; [simpl in Hv|done].
  unfold base_valid in Hb. rewrite !andb_true_iff, !bool_decide_eq_true in Hb.
  assert (ProviderEvent.event_type event ∈ complete_events) as Hc
    by (unfold complete_events; destruct Ht as [->| ->]; [left|right; left]).
  rewrite (bool_decide_true (_ ∈ complete_events)) in Hv by done. simpl in Hv.
  destruct (bool_decide (CanonicalCheckout.status c = "complete")) eqn:Es; simpl in Hv; [|done].
  apply bool_decide_eq_true in Es.
  assert (is_some (ProviderEvent.payment_intent_id event) = true ∧
          ProviderEvent.payment_intent_id event = CanonicalCheckout.payment_intent_id c) as [Hi Hi'].
  { destruct Ht as [Ht|Ht]; rewrite Ht in Hv; [rewrite Hp in Hv|];
      repeat (rewrite bool_decide_false in Hv by (intros E; by repeat apply elem_of_cons in E as [?|E]; try inversion E); simpl in Hv).
    all: by apply andb_prop in Hv as [[? _]%andb_prop ?%bool_decide_eq_true]. }
  destruct (ProviderEvent.payment_intent_id event) as [i|] eqn:Ei; [|done].
  split; try naive_solver.
Qed.

Lemma enqueue_paid_job order now w :
  commits (enqueue_paid order now) (λ _ w', same Order.row (World.db w) (World.db w') ∧
    ∃ j, j ∈ Db.durable_jobs (World.db w') ∧ DurableJob.job_key j = Order.fulfillment_key order) w.
Proof.
  unfold enqueue_paid, enqueue_fulfillment_once, enqueue_outbox_once, add_task_dispatch. do 2 exec_step.
  apply commits_when; intros Hn.
  - apply is_none_true in Hn as ->. exec_all; (split; [unfold same; by_dbs; done|]);
      by_dbs; simpl; eexists; (split; [apply elem_of_app; right; by left|done]).
  - destruct o as [j|]; [|done]. apply find_row_Some in F as [Hj Hk%bool_decide_eq_true].
    split; [done|]. by exists j.
Qed.

(** The rows of two tables that a statement leaves alone. *)
Definition same_orders_jobs (d d' : Db.t) : Prop := same Order.row d d' ∧ same DurableJob.row d d'.
#[local] Instance same_orders_jobs_preorder : PreOrder same_orders_jobs.
Proof. split; [by intros d|]. intros x y z [] []. split; by etrans. Qed.
Lemma same_both {A} (m : M A) :
  respects (on_db (same Order.row)) m → respects (on_db (same DurableJob.row)) m →
  respects (on_db same_orders_jobs) m.
Proof. intros H1 H2 w. split; [apply H1|apply H2]. Qed.

Definition has_job (o : Order.row) (w : World.t) : Prop :=
  ∃ j, j ∈ Db.durable_jobs (World.db w) ∧ DurableJob.job_key j = Order.fulfillment_key o.
Lemma record_change o b event_key source payment fulfillment now w :
  commits (when b (
      do! when (Order.payment_state o == PAID) (enqueue_paid o now) in
      OrderStore.record_state_event o event_key source payment fulfillment now))
    (λ _ w', same Order.row (World.db w) (World.db w') ∧
       (b = true → Order.payment_state o = PAID → has_job o w')) w.
Proof.
  apply commits_when; [intros Hb|by intros ->].
  exec_step. eapply (commits_mono _ (λ _ w', same Order.row (World.db w) (World.db w') ∧
    (Order.payment_state o = PAID → has_job o w'))).
  - apply commits_when; [intros _; call enqueue_paid_job as u [? ?]; by split|].
    intros Hn%bool_decide_eq_false. by split.
  - intros _ w1 [Ho Hj]. eapply (commits_respects (on_db same_orders_jobs)).
    + apply same_both; unfold OrderStore.record_state_event, OrderStore.event_sequence; respects_tx.
    + intros _ w2 [E1 E2]. split; [by etrans|]. intros _ Hp. destruct (Hj Hp) as (j & Hin & Hk).
      exists j. unfold same in E2. simpl in E2. by rewrite E2.
Qed.

(** What the payment transaction says of an order that it leaves paid. *)
Definition payment_of settings (event : ProviderEvent.t) (canonical : option CanonicalCheckout.t)
    (w w' : World.t) (o' : Order.row) : Prop :=
  ∃ o c, canonical = Some c ∧ o ∈ Db.orders (World.db w) ∧ Order.id o = Order.id o' ∧
    paid_by settings o event c ∧ Order.fulfillment_state o' = QUEUED ∧
    ∃ j, j ∈ Db.durable_jobs (World.db w') ∧ DurableJob.job_key j = Order.fulfillment_key o'.

Lemma payment_pays settings event hash canonical now w :
  commits (process_tx settings event hash canonical now) (λ _ w',
    ∀ o', o' ∈ Db.orders (World.db w') → Order.payment_state o' = PAID →
      (∃ o, o ∈ Db.orders (World.db w) ∧ Order.id o = Order.id o' ∧ Order.payment_state o = PAID) ∨
      payment_of settings event canonical w w' o') w.
Proof.
  assert (∀ d', same Order.row (World.db w) d' → ∀ o', o' ∈ Db.orders d' → Order.payment_state o' = PAID →
      (∃ o, o ∈ Db.orders (World.db w) ∧ Order.id o = Order.id o' ∧ Order.payment_state o = PAID)) as Hsame.
  { intros d' E o' Ho Hp. unfold same in E. simpl in E. rewrite E in Ho. by exists o'. }
  unfold process_tx, reject, record_stripe_event.
  do 3 exec_step. exec_case; [exec; left; by eapply Hsame|].
  exec_step. eapply (commits_respects (on_db (same Order.row))); [respects_tx|intros recorded w1 H1].
  exec_step. call find_order_spec as found [-> Hf].
  exec_case; [exec_case; [exec_case; [|exec_case; [|exec_case]]|]|];
    try (eapply (commits_respects (on_db (same Order.row))); [respects_tx|intros ? ? H2];
         intros; left; eapply Hsame; [|done..]; etrans; [exact H1|exact H2]).
  specialize (Hf _ eq_refl) as Ho. unfold on_db, same in H1. simpl in H1. rewrite H1 in Ho.
  apply negb_false_iff in B3. pose proof (applied_to_paid _ _ _ _ _ _ B4) as (Hi & Hk & Hpay).
  do 3 exec_step. call record_change as u [Eo Hj]. 
  exec_step. eapply (commits_respects (on_db same_orders_jobs)).
  { apply same_both; respects_tx. }
  intros _ w2 [E2 E2']. exec_step. intros o' Ho' Hp'. unfold same in Eo, E2, E2'. simpl in Eo, E2, E2'.
  rewrite E2, Eo, D in Ho'. simpl in Ho'.
  apply elem_of_replace in Ho' as [[Hin _]|[-> _]].
  { left. exists o'. by rewrite <- H1. }
  destruct Hpay as [Hpay|[-> Ht]]; [left; exists r; split_and!; congruence|right].
  rewrite Hp' in Ht. exists r, t0. split_and!; [done..|by apply valid_paid|by eapply applied_paid|].
  destruct (Hj eq_refl Hp') as (j & Hin & Hjk). exists j. by rewrite E2'.
Qed.

(** ** Where the payment transaction has its event and its checkout from *)

(** The states in which the provider's calls leave the service. *)
Inductive asked (provider : PaymentProvider) : World.t → World.t → Prop :=
| asked_nothing w : asked provider w w
| asked_verify w v v' raw_body signature tolerance r :
    asked provider w v → verify_event provider raw_body signature tolerance v = (r, v') → asked provider w v'
| asked_resolve w v v' event r :
    asked provider w v → resolve_internal_order_id provider event v = (r, v') → asked provider w v'
| asked_retrieve w v v' session r :
    asked provider w v → retrieve_checkout provider session v = (r, v') → asked provider w v'.
(** In the state [v] the provider has verified the event of the request, and has returned the
    checkout when it was asked for the session of an order; the event has its own order, or the one
    that the provider resolved. *)
Definition reported settings (provider : PaymentProvider) raw_body signature (w v : World.t)
    (event : ProviderEvent.t) (c : CanonicalCheckout.t) : Prop :=
  ∃ verified v0 v1 order_id session o,
    verify_event provider raw_body signature (Settings.stripe_signature_tolerance_seconds settings) w = (Ok verified, v0) ∧
    event = verified <| ProviderEvent.internal_order_id := order_id |> ∧
    ((order_id = ProviderEvent.internal_order_id verified ∧ v1 = v0) ∨
     resolve_internal_order_id provider verified v0 = (Ok order_id, v1)) ∧
    o ∈ Db.orders (World.db v1) ∧ Order.checkout_session_id o = Some session ∧
    retrieve_checkout provider session v1 = (Ok c, v).
Definition already_paid (w : World.t) (o' : Order.row) : Prop :=
  ∃ o, o ∈ Db.orders (World.db w) ∧ Order.id o = Order.id o' ∧ Order.payment_state o = PAID.

Lemma race_reads event hash e w k : process_race event hash e = Some k → (k w).2 = w.
Proof.
  unfold process_race. destruct (_ == _); [|done]. intros [= <-]. unfold bind, scalar.
  by destruct (find_row _ (tbl (World.db w))).
Qed.
Lemma raise_if_state (b : bool) e (w : World.t) r w' : raise_if b e w = (r, w') → r = (if b then Raise e else Ok tt) ∧ w' = w.
Proof. destruct b; by intros [= <- <-]. Qed.
Lemma find_order_reads id intent w : (OrderStore.find_order_for_event id intent w).2 = w.
Proof.
  unfold OrderStore.find_order_for_event. destruct (OrderStore.truthy id); [by destruct (UUID _)|].
  by destruct (OrderStore.truthy intent).
Qed.
Lemma found_order id intent w o w' : OrderStore.find_order_for_event id intent w = (Ok (Some o), w') →
  o ∈ Db.orders (World.db w).
Proof.
  unfold OrderStore.find_order_for_event. destruct (OrderStore.truthy id); [destruct (UUID _); [|done]|
    destruct (OrderStore.truthy intent); [|done]]; by intros [[? _]%find_row_Some _]%scalar_Ok.
Qed.
(** The transaction with what is reported, or nothing was paid. *)
Lemma process_tx_paid settings event hash canonical now v r w' o' :
  try_except (process_tx settings event hash canonical now) (process_race event hash) v = (r, w') →
  o' ∈ Db.orders (World.db w') → Order.payment_state o' = PAID →
  already_paid v o' ∨
  ∃ r', process_tx settings event hash canonical now v = (Ok r', w') ∧ payment_of settings event canonical v w' o'.
Proof.
  intros E Ho Hp. unfold try_except in E.
  destruct (process_tx settings event hash canonical now v) as [[r1|e] w1] eqn:Et.
  - injection E as <- <-. destruct (payment_pays _ _ _ _ _ _ _ _ Et o' Ho Hp) as [H|H]; [by left|right]. by exists r1.
  - assert (World.db w1 = World.db v) as Hdb by (unfold process_tx in Et; by apply atomically_Raise in Et).
    left. exists o'. split; [|done]. rewrite <- Hdb. destruct (process_race event hash e) as [k|] eqn:Er.
    + pose proof (race_reads _ _ _ w1 _ Er) as Hk. rewrite E in Hk. simpl in Hk. by rewrite <- Hk.
    + by injection E as <- <-.
Qed.
Lemma process_paid settings provider raw_body signature now w r w' o' :
  process settings provider raw_body signature now w = (r, w') →
  o' ∈ Db.orders (World.db w') → Order.payment_state o' = PAID →
  ∃ v, asked provider w v ∧
    (already_paid v o' ∨
     ∃ event c r', reported settings provider raw_body signature w v event c ∧
       process_tx settings event (sha256 raw_body) (Some c) now v = (Ok r', w') ∧
       payment_of settings event (Some c) v w' o').
Proof.
  intros E Ho Hp.
  assert (∀ v, asked provider w v → World.db v = World.db w' → ∃ v, asked provider w v ∧ (already_paid v o' ∨
     ∃ event c r', reported settings provider raw_body signature w v event c ∧
       process_tx settings event (sha256 raw_body) (Some c) now v = (Ok r', w') ∧
       payment_of settings event (Some c) v w' o')) as Hstop.
  { intros v Hv Hdb. exists v. split; [done|]. left. exists o'. by rewrite Hdb. }
  unfold process in E.
  apply bind_inv in E as [(e & [_ ->]%raise_if_state & ->)|(u & w1 & [_ ->]%raise_if_state & E)];
    [exact (Hstop w (asked_nothing _ _) eq_refl)|].
  apply bind_inv in E as [(e & E & ->)|(verified & v0 & Ev & E)];
    [exact (Hstop w' (asked_verify _ _ _ _ _ _ _ _ (asked_nothing _ _) E) eq_refl)|].
  pose proof (asked_verify _ _ _ _ _ _ _ _ (asked_nothing _ _) Ev) as A0.
  apply bind_inv in E as [(e & [_ ->]%raise_if_state & ->)|(u' & w1 & [_ ->]%raise_if_state & E)];
    [exact (Hstop v0 A0 eq_refl)|].
  apply bind_inv in E as [(e & [= ] & _)|(duplicate & w1 & [= <- <-] & E)].
  destruct (find_row _ _) as [duplicate|]; [injection E as _ <-; exact (Hstop v0 A0 eq_refl)|].
  unfold process_fresh in E.
  apply bind_inv in E as [(e & E & ->)|(event & v1 & Er & E)].
  { destruct (is_none _); [|done]. apply bind_inv in E as [(e' & E & _)|(id & w1 & _ & [= ])].
    exact (Hstop w' (asked_resolve _ _ _ _ _ _ A0 E) eq_refl). }
  assert (asked provider w v1 ∧ ∃ order_id, event = verified <| ProviderEvent.internal_order_id := order_id |> ∧
    ((order_id = ProviderEvent.internal_order_id verified ∧ v1 = v0) ∨
     resolve_internal_order_id provider verified v0 = (Ok order_id, v1))) as (A1 & order_id & Ee & Hr).
  { destruct (is_none _).
    - apply bind_inv in Er as [(e' & _ & [= ])|(id & w1 & Er & [= <- <-])].
      split; [exact (asked_resolve _ _ _ _ _ _ A0 Er)|]. exists id. by split; [|right].
    - injection Er as <- <-. split; [done|]. exists (ProviderEvent.internal_order_id verified).
      split; [by destruct verified|by left]. }
  apply bind_inv in E as [(e & E & ->)|(found & w1 & Ef & E)].
  { pose proof (find_order_reads (ProviderEvent.internal_order_id event) (ProviderEvent.payment_intent_id event) v1) as Hv.
    rewrite E in Hv. simpl in Hv. subst w'. exact (Hstop v1 A1 eq_refl). }
  pose proof (find_order_reads (ProviderEvent.internal_order_id event) (ProviderEvent.payment_intent_id event) v1) as Hv.
  rewrite Ef in Hv. simpl in Hv. subst w1.
  apply bind_inv in E as [(e & E & ->)|(canonical & v & Ec & E)].
  { destruct found as [o|]; [destruct (Order.checkout_session_id o) as [session|]|]; try done.
    apply bind_inv in E as [(e' & E & _)|(c & w1 & _ & [= ])].
    exact (Hstop w' (asked_retrieve _ _ _ _ _ _ A1 E) eq_refl). }
  destruct (process_tx_paid _ _ _ _ _ _ _ _ _ E Ho Hp) as [H|(r' & Et & H)].
  - exists v. split; [|by left].
    destruct found as [o|]; [destruct (Order.checkout_session_id o) as [session|]|]; try (by injection Ec as _ <-).
    apply bind_inv in Ec as [(e' & _ & [= ])|(c & w1 & Ec & [= _ <-])].
    exact (asked_retrieve _ _ _ _ _ _ A1 Ec).
  - pose proof H as (o & c & -> & _).
    destruct found as [o1|]; [destruct (Order.checkout_session_id o1) as [session|] eqn:Es|]; try done.
    apply bind_inv in Ec as [(e' & _ & [= ])|(c' & w1 & Ec & [= -> ->])].
    exists v. split; [exact (asked_retrieve _ _ _ _ _ _ A1 Ec)|]. right. exists event, c, r'. split; [|by split].
    exists verified, v0, v1, order_id, session, o1. split_and!; [done..| |done|done].
    by apply (found_order _ _ _ _ _ Ef).
Qed.

(** C2: An order becomes paid in one way only, and on the provider's own word.  In any step of the
    service, of any of its processes, an order that is paid afterwards was paid before, or the step is
    the webhook transaction for an event with a canonical checkout that is complete and paid, for this
    order, its session, its amount, its currency, the configured price and mode, and for the payment
    that the event names; and the same transaction queues the order and leaves a job for it.  The
    webhook service runs that transaction with what the provider reports and with nothing else:
    however its provider answers, an order that is paid when a request has been
    processed was paid already in a state in which the provider had answered, or the event of the
    transaction is the one that the provider verified for this request (its order, when the event
    names none, the one that the provider resolved), and the checkout is the one that the provider
    returned when it was asked for the session of a stored order. *)
Theorem only_the_provider_pays :
  (∀ w w' o', sys_step w w' → o' ∈ Db.orders (World.db w') → Order.payment_state o' = PAID →
     already_paid w o' ∨
     ∃ settings event hash canonical now r,
       process_tx settings event hash canonical now w = (Ok r, w') ∧
       payment_of settings event canonical w w' o') ∧
  (∀ settings provider raw_body signature now w r w' o',
     process settings provider raw_body signature now w = (r, w') →
     o' ∈ Db.orders (World.db w') → Order.payment_state o' = PAID →
     ∃ v, asked provider w v ∧
       (already_paid v o' ∨
        ∃ event c r', reported settings provider raw_body signature w v event c ∧
          process_tx settings event (sha256 raw_body) (Some c) now v = (Ok r', w') ∧
          payment_of settings event (Some c) v w' o')).
Proof.
  split; [|intros; by eapply process_paid]. intros w w' o' taken listed paid_now.
  destruct taken as [A m T ->|E]; [|left; exists o'; by rewrite <- E].
  assert (moves paid_from m w → already_paid w o') as Hm by (intros H; by apply H).
  destruct T; try (left; apply Hm, moves_respects; first [solve [eauto with respects] | tx; fail]).
  destruct (process_tx settings event hash canonical now w) as [[r|e] w'] eqn:E; simpl in *.
  - destruct (payment_pays _ _ _ _ _ _ _ _ E o' listed paid_now) as [H|H]; [by left|right].
    by exists settings, event, hash, canonical, now, r.
  - left. exists o'. unfold process_tx in E. apply atomically_Raise in E. by rewrite <- E.
Qed.

(** The order of [Scenario], paid by its transaction and by a request to the webhook service. *)
Lemma only_the_provider_pays_witness :
  let answer := process settings quiet_provider (encode "body") "signature" (start + seconds 60) open in
  ∃ o', o' ∈ Db.orders (World.db paid) ∧ o' ∈ Db.orders (World.db answer.2) ∧ Order.payment_state o' = PAID ∧
  (already_paid open o' ∨
   ∃ settings event hash canonical now r,
     process_tx settings event hash canonical now open = (Ok r, paid) ∧
     payment_of settings event canonical open paid o') ∧
  ∃ v, asked quiet_provider open v ∧
    (already_paid v o' ∨
     ∃ event c r', reported settings quiet_provider (encode "body") "signature" open v event c ∧
       process_tx settings event (sha256 (encode "body")) (Some c) (start + seconds 60) v = (Ok r', answer.2) ∧
       payment_of settings event (Some c) v answer.2 o').
Proof.
  intros answer.
  assert (existsb (λ o, Order.payment_state o == PAID) (Db.orders (World.db paid)) = true) as H
    by (vm_compute; reflexivity).
  assert (World.db answer.2 = World.db paid) as Hsame by (vm_compute; reflexivity).
  apply existsb_exists in H as (o' & Hin & Hp). exists o'.
  apply list_elem_of_In in Hin. apply bool_decide_eq_true in Hp.
  assert (o' ∈ Db.orders (World.db answer.2)) as Hin' by (rewrite Hsame; exact Hin).
  split; [exact Hin|]. split; [exact Hin'|]. split; [exact Hp|]. split.
  - refine (proj1 only_the_provider_pays open paid o' _ Hin Hp).
    eapply (sys_tx _ _ payment); [apply tx_payment|reflexivity].
  - refine (proj2 only_the_provider_pays settings quiet_provider (encode "body") "signature" (start + seconds 60)
      open answer.1 answer.2 o' _ Hin' Hp). exact (surjective_pairing answer).
Defined.
