(* ===== verification/WebhookFacts.v ===== *)
(** * Payment webhooks

    A provider event is applied once: the record of an event is written with its outcome in
    the transaction that applies it, is never touched again, and answers every later delivery. *)
From S2P Require Import Prelude PyStr Sha256 Domain Ports Db Session Exec Evolution OrderLife Growth Tasks Jobs Store Settings Payments Proofs Outbox Handlers Worker Operator OrderOps Evidence Api System Serves Refine Scenario Processes.

Open Scope Z_scope.
Import PaymentState FulfillmentState WebhookService.

(** ** The log of provider events *)

(** Events are only appended, and only with their outcome. *)
Definition logged (e : StripeEvent.row) : Prop := is_some (StripeEvent.processed_at e) = true.
Definition log_grows (d d' : Db.t) : Prop :=
  ∃ l, Db.stripe_events d' = (Db.stripe_events d ++ l)%list ∧ Forall logged l.
#[global] Instance log_grows_preorder : PreOrder log_grows.
Proof.
  split; [intros d; exists []; by rewrite app_nil_r|].
  intros x y z (l & E & Hl) (k & E' & Hk). exists (l ++ k)%list. rewrite E', E, app_assoc. split; [done|].
  by apply Forall_app.
Qed.
#[global] Instance log_grows_only : OnlyTable log_grows StripeEvent.row.
Proof. intros d d' E. exists []. simpl in E. by rewrite E, app_nil_r. Qed.
#[export] Hint Extern 2 (respects (on_db log_grows) _) => respects_other StripeEvent.row : respects.

(** Writing back the row added last. *)
Lemma replace_row_last {R} `{Table R} (r r' : R) (l : list R) :
  row_id r' = row_id r → (∀ s, s ∈ l → row_id s ≠ row_id r) → replace_row r' (l ++ [r])%list = (l ++ [r'])%list.
Proof.
  intros E Hn. unfold replace_row. rewrite map_app. simpl. rewrite E, bool_decide_true by done. f_equal.
  induction l as [|s l IH]; [done|]. simpl. rewrite bool_decide_false by (apply Hn; left).
  f_equal. apply IH. intros x Hx. apply Hn. by right.
Qed.
Lemma added_fresh {R} `{TableLaws R} d (r s : R) :
  admissible d (tbl d) r = true → s ∈ tbl d → row_id s ≠ row_id r.
Proof.
  intros A Hs E. apply admissible_inv in A as (_ & _ & Hc). specialize (Hc s Hs).
  by rewrite row_clash_id in Hc.
Qed.

(** The record of an applied event, as later deliveries compare it. *)
Record recorded_as (event : ProviderEvent.t) (hash : bytes) (accepted : bool) (e : StripeEvent.row) : Prop := {
  ra_id : StripeEvent.stripe_event_id e = ProviderEvent.event_id event;
  ra_type : StripeEvent.event_type e = ProviderEvent.event_type event;
  ra_mode : StripeEvent.livemode e = ProviderEvent.livemode event;
  ra_hash : StripeEvent.payload_sha256 e = hash;
  ra_logged : logged e;
  ra_accepted : is_none (StripeEvent.safe_error_code e) = accepted }.
Lemma recorded_duplicate event hash accepted e :
  recorded_as event hash accepted e → _duplicate_result e event hash = WebhookResult.mk true accepted.
Proof.
  intros [_ Et Em Eh El <-]. unfold _duplicate_result. by rewrite Et, Em, Eh, El, !bool_decide_true.
Qed.

(** The rows between which a transaction finds the log. *)
Definition with_record (w0 : World.t) (r : StripeEvent.row) (w : World.t) : Prop :=
  Db.stripe_events (World.db w) = (Db.stripe_events (World.db w0) ++ [r])%list ∧
  ∀ s, s ∈ Db.stripe_events (World.db w0) → StripeEvent.id s ≠ StripeEvent.id r.
Lemma with_record_same w0 r w w' :
  with_record w0 r w → same StripeEvent.row (World.db w) (World.db w') → with_record w0 r w'.
Proof. intros [E Hf] Hs. unfold same in Hs. simpl in Hs. split; [by rewrite Hs|done]. Qed.
Lemma save_record w0 r r' w :
  StripeEvent.id r' = StripeEvent.id r → with_record w0 r w →
  commits (save r') (λ _ w', with_record w0 r' w') w.
Proof.
  intros Ei [E Hf]. exec_step. split; [|by rewrite Ei]. rewrite D. simpl.
  rewrite E. by apply (replace_row_last r).
Qed.
Lemma reject_record w0 event hash r code now w :
  recorded_as event hash true (r <| StripeEvent.processed_at := Some now |>) → with_record w0 r w →
  commits (reject r code now) (λ res w', WebhookResult.duplicate res = false ∧
    ∃ e, with_record w0 e w' ∧ recorded_as event hash (WebhookResult.accepted res) e) w.
Proof.
  intros [] Hr. unfold reject. exec_step.
  call (save_record w0 r (r <| StripeEvent.safe_error_code := Some code |> <| StripeEvent.processed_at := Some now |>))
    as u Hw; [done|exact Hr|]. exec_step. split; [done|]. eexists.
    split; [exact Hw|]. split; simpl; done.
Qed.

Definition event_key (event : ProviderEvent.t) (e : StripeEvent.row) : bool :=
  StripeEvent.stripe_event_id e == ProviderEvent.event_id event.

(** The transaction answers from the log, or appends to it. *)
Lemma payment_recorded settings event hash canonical now w :
  commits (process_tx settings event hash canonical now) (λ r w',
    (∃ e, find_row (event_key event) (Db.stripe_events (World.db w)) = Some e ∧
       r = _duplicate_result e event hash ∧ World.db w' = World.db w) ∨
    WebhookResult.duplicate r = false ∧
    find_row (event_key event) (Db.stripe_events (World.db w)) = None ∧
    ∃ e, with_record w e w' ∧ recorded_as event hash (WebhookResult.accepted r) e) w.
Proof.
  unfold process_tx, record_stripe_event. do 2 exec_step. exec_step. exec_case.
  { exec. left. eauto. }
  do 6 exec_step. lazymatch type of A with admissible _ _ ?x = true => set (r := x) in * end.
  assert (with_record w r w'0) as Hw.
  { split; [by rewrite D0, D|]. intros s Hs. apply (added_fresh (World.db w') r s A). by rewrite D. }
  assert (recorded_as event hash true (r <| StripeEvent.processed_at := Some now |>)) as Hr by by split.
  exec_step. call find_order_spec as found [-> _].
  assert (∀ code, commits (reject r code now) (λ res w1, (∃ e, find_row (event_key event)
      (Db.stripe_events (World.db w)) = Some e ∧ res = _duplicate_result e event hash ∧ World.db w1 = World.db w) ∨
    WebhookResult.duplicate res = false ∧
    find_row (event_key event) (Db.stripe_events (World.db w)) = None ∧
    ∃ e, with_record w e w1 ∧ recorded_as event hash (WebhookResult.accepted res) e) w'0) as Hreject.
  { intros code. call reject_record as res [Hd He]; [exact Hr|exact Hw|]. right. by split_and!. }
  exec_case; [exec_case; [exec_case; [|exec_case; [|exec_case]]|]|]; try apply Hreject.
  do 3 exec_step.
  eapply (commits_respects (on_db (same StripeEvent.row))); [do 2 open_tx; respects_tx|intros ? ? Hs].
  exec_step. call (save_record w r) as u' Hw'; [done| |exec_step].
  { eapply with_record_same; [|exact Hs]. eapply with_record_same; [exact Hw|]. by rewrite D1. }
  right. split_and!; [done|done|]. eexists. split; [exact Hw'|done].
Qed.

(** ** The log along a run *)

Lemma payment_log settings event hash canonical now w :
  moves log_grows (process_tx settings event hash canonical now) w.
Proof.
  unfold process_tx. apply moves_commits; [reflexivity|]. fold (process_tx settings event hash canonical now).
  call payment_recorded as r H. destruct H as [(e & _ & _ & E)|(_ & _ & e & [E _] & Hr)].
  - apply (log_grows_only). simpl. by rewrite E.
  - exists [e]. split; [exact E|]. constructor; [apply (ra_logged _ _ _ _ Hr)|done].
Qed.
Lemma transaction_log {A} (m : M A) w : transaction (World.db w) m → moves log_grows m w.
Proof.
  intros T. destruct T; try (by apply payment_log);
    apply moves_respects; first [solve [eauto with respects] | tx].
Qed.
Lemma service_log w w' : service w w' → log_grows (World.db w) (World.db w').
Proof.
  induction 1 as [|w w1 w' Hs _ IH]; [reflexivity|]. etrans; [|exact IH].
  destruct Hs as [A m T ->|E]; [by apply transaction_log|]. rewrite E. reflexivity.
Qed.
(** The answer that the log holds for an event. *)
Definition answered (event : ProviderEvent.t) (hash : bytes) (accepted : bool) (w : World.t) : Prop :=
  ∃ e, find_row (event_key event) (Db.stripe_events (World.db w)) = Some e ∧
    WebhookResult.accepted (_duplicate_result e event hash) = accepted.
#[export] Instance answered_stable event hash accepted : Stable (answered event hash accepted).
Proof.
  intros w w' _ (l & E & _)%service_log (e & He & Ha). exists e. split; [|done].
  by rewrite E, find_row_app, He.
Qed.
Lemma duplicate_of_accepted e event hash :
  WebhookResult.accepted (_duplicate_result e event hash) = true →
  WebhookResult.duplicate (_duplicate_result e event hash) = true.
Proof. unfold _duplicate_result. simpl. by intros [? _]%andb_prop. Qed.
Lemma recorded_answer event hash r w w' e :
  find_row (event_key event) (Db.stripe_events (World.db w)) = None → with_record w e w' →
  recorded_as event hash (WebhookResult.accepted r) e → answered event hash (WebhookResult.accepted r) w'.
Proof.
  intros Hn [E _] Hr. exists e. rewrite (recorded_duplicate _ _ _ _ Hr), E, find_row_app, Hn.
  split; [|done]. unfold find_row. simpl. unfold event_key. by rewrite (ra_id _ _ _ _ Hr), bool_decide_true.
Qed.

(** Events that later deliveries do not tell apart. *)
Definition same_event (a b : ProviderEvent.t) : Prop :=
  ProviderEvent.event_id a = ProviderEvent.event_id b ∧
  ProviderEvent.event_type a = ProviderEvent.event_type b ∧
  ProviderEvent.livemode a = ProviderEvent.livemode b.
Lemma answered_same a b hash accepted w :
  same_event a b → answered a hash accepted w → answered b hash accepted w.
Proof.
  intros (Ei & Et & Em). unfold answered, event_key, _duplicate_result. by rewrite Ei, Et, Em.
Qed.

Section Deliveries.
Context (settings : Settings.t) (provider : PaymentProvider) `{!ProviderOutside provider}.

Lemma process_tx_answers event hash canonical now w :
  serves (process_tx settings event hash canonical now)
    (λ r w', answered event hash (WebhookResult.accepted r) w') w.
Proof.
  apply serves_tx; [constructor|]. intros _. call payment_recorded as r H.
  destruct H as [(e & He & -> & E)|(_ & Hn & e & Hw & Hr)].
  - exists e. by rewrite E.
  - by eapply recorded_answer.
Qed.
Lemma process_fresh_answers event hash now w :
  serves (process_fresh settings provider event hash now)
    (λ r w', answered event hash (WebhookResult.accepted r) w') w.
Proof.
  unfold process_fresh.
  eapply (serves_bind _ _ (λ event' _, same_event event' event)).
  { serves_case; [|by serves_step].
    eapply serves_bind; [apply serves_outside; eauto with respects|]. intros. by serves_step. }
  intros event' w1 _ _ Hs. cbv beta in Hs.
  eapply serves_bind; [apply serves_reads; unfold OrderStore.find_order_for_event; unfold reads; respects_tx|].
  intros lookup w2 _ _ _. cbv zeta.
  eapply serves_bind; [apply serves_outside; respects_solve|]. intros canonical w3 _ _ _.
  eapply serves_try.
  - eapply serves_mono; [apply process_tx_answers|]. intros. by eapply answered_same.
  - intros e k w4 _ _. unfold process_race. destruct (e == IntegrityError); [|done]. intros [= <-].
    apply reads_local; [unfold reads; respects_tx; respects_solve|]. intros _.
    do 2 exec_step. exec_case; [|by exec]. exec. apply (answered_same event'); [done|]. eexists. by split.
Qed.

(** What [process] does once the event is verified. *)
Definition known_or_fresh (event : ProviderEvent.t) (hash : bytes) (now : Z) : M WebhookResult.t :=
  let! duplicate := scalar (event_key event) in
  match duplicate with
  | Some duplicate => ret (_duplicate_result duplicate event hash)
  | None => process_fresh settings provider event hash now
  end.
Lemma known_or_fresh_answers event hash now w :
  serves (known_or_fresh event hash now)
    (λ r w', answered event hash (WebhookResult.accepted r) w') w.
Proof.
  unfold known_or_fresh. eapply (serves_bind _ _ (λ o w', o = find_row (event_key event) (Db.stripe_events (World.db w')))).
  { apply reads_local; [unfold reads; eauto with respects|]. intros _. by exec_step. }
  intros o w1 _ _ Ho. cbv beta in Ho. destruct o as [e|]; [|apply process_fresh_answers].
  serves_step. by exists e.
Qed.
Lemma process_run raw_body signature now w r w1 :
  process settings provider raw_body signature now w = (Ok r, w1) →
  ∃ event w0,
    verify_event provider raw_body signature (Settings.stripe_signature_tolerance_seconds settings) w = (Ok event, w0) ∧
    (provider_mode provider != Settings.payment_mode settings) = false ∧
    (ProviderEvent.livemode event != expected_livemode settings) = false ∧
    known_or_fresh event (sha256 raw_body) now w0 = (Ok r, w1).
Proof.
  unfold process. intros (u & w' & [Cm ->]%raise_if_Ok & H)%bind_Ok_inv.
  apply bind_Ok_inv in H as (event & w0 & Ev & (u' & w2 & [Cl ->]%raise_if_Ok & H)%bind_Ok_inv).
  by exists event, w0.
Qed.

(** C3: A provider event is applied once and answered the same way ever after: when a delivery
    was answered, a later delivery of the same event, at any later time and with the rest of the
    service at work in between, changes nothing and gets the same answer; an accepted event is
    reported as a duplicate. *)
Theorem webhook_is_idempotent raw_body signature signature' now now' event w w0 r w1 w2 w3
    (start : reachable w)
    (verified : verify_event provider raw_body signature
       (Settings.stripe_signature_tolerance_seconds settings) w = (Ok event, w0))
    (first : process settings provider raw_body signature now w = (Ok r, w1))
    (meanwhile : service w1 w2)
    (verified' : verify_event provider raw_body signature'
       (Settings.stripe_signature_tolerance_seconds settings) w2 = (Ok event, w3))
    (pure : World.db w3 = World.db w2) :
  ∃ duplicate, process settings provider raw_body signature' now' w2 =
      (Ok (WebhookResult.mk duplicate (WebhookResult.accepted r)), w3) ∧
    (WebhookResult.accepted r = true → duplicate = true).
Proof.
  assert (service w w0) as Hw0.
  { pose proof (verify_event_outside raw_body signature
      (Settings.stripe_signature_tolerance_seconds settings) w) as H. by rewrite verified in H. }
  assert (service w w1) as Hw1.
  { pose proof (process_respects settings provider raw_body signature now w) as H. by rewrite first in H. }
  apply process_run in first as (e0 & w' & E & Hmode & Hlive & first). rewrite E in verified.
  injection verified as -> ->.
  pose proof (known_or_fresh_answers event (sha256 raw_body) now w0 (reachable_service _ _ start Hw0)) as [Hs Ha].
  rewrite first in Hs, Ha. specialize (Ha _ _ eq_refl Hs (reachable_service _ _ start Hw1)).
  apply (stable _ _ (reachable_service _ _ start Hw1) meanwhile) in Ha as (e & He & Ha).
  exists (WebhookResult.duplicate (_duplicate_result e event (sha256 raw_body))).
  split; [|rewrite <- Ha; apply duplicate_of_accepted].
  unfold process. rewrite Hmode. rewrite (bind_Ok _ _ _ tt w2) by done.
  rewrite (bind_Ok _ _ _ _ _ verified'), Hlive. rewrite (bind_Ok _ _ _ tt w3) by done.
  unfold bind, scalar. simpl. change (λ e, _) with (event_key event). rewrite pure, He. 
  rewrite <- Ha. done.
Qed.
End Deliveries.

(** ** The payment of the scenario, delivered twice *)

Definition delivery : M WebhookResult.t :=
  process settings quiet_provider (encode "body") "signature" (start + seconds 60).
Lemma webhook_is_idempotent_witness :
  result_of delivery open = Ok (WebhookResult.mk false true) ∧
  ∃ duplicate, delivery (after delivery open) = (Ok (WebhookResult.mk duplicate true), after delivery open) ∧
    duplicate = true.
Proof.
  assert (result_of delivery open = Ok (WebhookResult.mk false true)) as first by (vm_compute; reflexivity).
  split; [exact first|].
  assert (delivery open = (Ok (WebhookResult.mk false true), after delivery open)) as first'.
  { unfold result_of in first. unfold after. destruct (delivery open) as [r w]. simpl in *. by rewrite first. }
  destruct (webhook_is_idempotent settings quiet_provider (encode "body") "signature" "signature"
    (start + seconds 60) (start + seconds 60) event open open (WebhookResult.mk false true)
    (after delivery open) (after delivery open) (after delivery open)
    reachable_open eq_refl first' (reflexivity _) eq_refl eq_refl) as (duplicate & again & H).
  exists duplicate. split; [exact again|exact (H eq_refl)].
Defined.
