(* ===== verification/DataMigration.v ===== *)
(** * The rows that the migrations move

    The [INSERT], [UPDATE] and [DO] statements of [migrations/versions/20260827_0002] and
    [20260831_0003], in both directions, on the rows of [Db].  A column that a revision does not
    have yet is not read: [ADD COLUMN] sets it in every row.  A statement computes its rows from
    the database it starts on, and writes them one after the other; a row that breaks a
    constraint, or that a trigger refuses, ends the migration, and the transaction it runs in
    undoes the rest.  [md5(text)::uuid] is the parameter [md5_uuid]. *)
From S2P Require Import Prelude PyStr Uuid Domain Ports Db Session Evolution OrderLife Tasks Url Proofs Outbox Evidence Gateway GatewayFacts SqlSchema Migrations Rows Triggers.

Open Scope string_scope.
Open Scope Z_scope.
Import PaymentState FulfillmentState.

(** ** Statements *)

Section Statements.
Context {R : Type} `{Table R}.

Definition fits (l : list R) (r : R) : bool := forallb (λ s, negb (row_clash r s)) l.
(** [INSERT INTO ... SELECT ... ON CONFLICT (...) DO NOTHING]: a row that meets [same] is left out. *)
Fixpoint insert_select (same : R → R → bool) (rows : list R) (d : Db.t) : result Db.t :=
  match rows with
  | [] => Ok d
  | r :: rest =>
      if existsb (same r) (tbl d) then insert_select same rest d
      else if admissible d (tbl d) r then insert_select same rest (set_tbl (tbl d ++ [r])%list d)
      else Raise IntegrityError
  end.
(** The rows of an [UPDATE], each with its new values: [refuse] is what else the database checks. *)
Fixpoint update_each (refuse : Db.t → R → R → option exn) (f : R → R) (rows : list R) (d : Db.t) : result Db.t :=
  match rows with
  | [] => Ok d
  | r :: rest =>
      match refuse d r (f r) with
      | Some e => Raise e
      | None =>
          if fits (others (row_id r) (tbl d)) (f r)
          then update_each refuse f rest (set_tbl (replace_row (f r) (tbl d)) d)
          else Raise IntegrityError
      end
  end.
Definition update_where (refuse : Db.t → R → R → option exn) (P : R → bool) (f : R → R) (d : Db.t) : result Db.t :=
  update_each refuse f (List.filter P (tbl d)) d.
End Statements.

(** No [ON CONFLICT] clause. *)
Definition no_conflict {R} (_ _ : R) : bool := false.
(** [ON CONFLICT (order_id, event_key)], [ON CONFLICT (job_id, generation)] *)
Definition same_event (e e' : StateEvent.row) : bool :=
  (StateEvent.order_id e == StateEvent.order_id e') && (StateEvent.event_key e == StateEvent.event_key e').
Definition same_generation (t t' : TaskDispatch.row) : bool :=
  (TaskDispatch.job_id t == TaskDispatch.job_id t') && (TaskDispatch.generation t == TaskDispatch.generation t').

(** An update of an order fires its triggers. *)
Definition order_refused (s : Schema.t) (d : Db.t) (old new : Order.row) : option exn :=
  match fire_triggers s d old new with
  | Some message => Some (DatabaseError message)
  | None => if Order.check new then None else Some IntegrityError
  end.
(** The CHECK constraints of the outbox are dropped first and made again last in the upgrade;
    they are dropped last in the downgrade. *)
Definition notice_refused (d : Db.t) (_ new : OutboxRecord.row) : option exn :=
  if row_fk d new then None else Some IntegrityError.
Definition checked_notice_refused (d : Db.t) (_ new : OutboxRecord.row) : option exn :=
  if row_fk d new && OutboxRecord.check new then None else Some IntegrityError.

(** The schema after the first [n] revisions. *)
Definition schema_after (n : nat) : Schema.t :=
  default Schema.empty (foldl (λ s r, s ≫= run (Revision.up r)) (Some Schema.empty) (take n revisions)).

Definition DAY : Z := 86400000000.

Section Migration.
Context (md5_uuid : string → uuid) (now : Z).

(** [COALESCE((SELECT MAX(existing.sequence) ... WHERE existing.order_id = u), 0)] *)
Definition last_sequence (d : Db.t) (u : uuid) : Z :=
  default 0 (max_of StateEvent.sequence (List.filter (λ e, StateEvent.order_id e == u) (Db.state_events d))).

(** ** Revision 20260827_0002: delivered orders go back to review *)

Definition is_delivered (o : Order.row) : bool := Order.fulfillment_state o == DELIVERED.
Definition reviewed (o : Order.row) : Order.row :=
  o <| Order.fulfillment_state := MANUAL_REVIEW |> <| Order.updated_at := now |>.
(** The event that records it: the key and the source name the migration and its direction. *)
Definition review_event (suffix key source reason : string) (d : Db.t) (o : Order.row) : StateEvent.row := {|
  StateEvent.id := md5_uuid (str_uuid (Order.id o) ++ suffix);
  StateEvent.order_id := Order.id o;
  StateEvent.sequence := last_sequence d (Order.id o) + 1;
  StateEvent.event_key := key;
  StateEvent.source := source;
  StateEvent.previous_payment_state := Order.payment_state o;
  StateEvent.payment_state := Order.payment_state o;
  StateEvent.previous_fulfillment_state := DELIVERED;
  StateEvent.fulfillment_state := MANUAL_REVIEW;
  StateEvent.evidence := [("reason", EvStr reason); ("migration_revision", EvStr "20260827_0002")];
  StateEvent.created_at := now |}.

Definition legacy_delivery_event : Db.t → Order.row → StateEvent.row :=
  review_event "-20260827-legacy-delivery-manual-review" "migration-20260827-legacy-delivery-manual-review"
    "delivery_migration" "legacy_delivery_without_signed_resend_evidence".
Definition record_legacy_deliveries (d : Db.t) : result Db.t :=
  insert_select same_event (map (legacy_delivery_event d) (List.filter is_delivered (Db.orders d))) d.
Definition review_legacy_deliveries (d : Db.t) : result Db.t :=
  update_where (order_refused (schema_after 1)) is_delivered reviewed d.

(** *** Every verification is observed once *)

Definition legacy_observation (v : ProofVerification.row) : Observation.row := {|
  Observation.id := md5_uuid (str_uuid (ProofVerification.order_id v) ++ "-" ++
                              str_int (ProofVerification.proof_version v));
  Observation.order_id := ProofVerification.order_id v;
  Observation.proof_version := ProofVerification.proof_version v;
  Observation.observed_confirmations := 1;
  Observation.block_height := ProofVerification.block_height v;
  Observation.block_hash := ProofVerification.block_hash v;
  Observation.method := ProofVerification.method v;
  Observation.confirmation_policy := ProofVerification.confirmation_policy v;
  Observation.observed_at := ProofVerification.verified_at v;
  Observation.event_key := "legacy-verification-v" ++ str_int (ProofVerification.proof_version v);
  Observation.created_at := ProofVerification.created_at v |}.
(** The table has just been created. *)
Definition observe_verifications (d : Db.t) : result Db.t :=
  insert_select no_conflict (map legacy_observation (Db.proof_verifications d)) (d <| Db.observations := [] |>).

(** *** The outbox *)

(** [ALTER TABLE outbox ADD COLUMN ...] *)
Definition add_columns (m : OutboxRecord.row) : OutboxRecord.row :=
  m <| OutboxRecord.max_attempts := 12 |> <| OutboxRecord.lease_token := None |>
    <| OutboxRecord.proof_version := None |> <| OutboxRecord.confirmation_count := None |>
    <| OutboxRecord.confirmation_observation_id := None |> <| OutboxRecord.accepted_at := None |>
    <| OutboxRecord.idempotency_expires_at := Some (now + DAY) |> <| OutboxRecord.updated_at := now |>.
Definition add_outbox_columns (d : Db.t) : result Db.t := Ok (d <| Db.outbox := map add_columns (Db.outbox d) |>).

(** The three statements that fill the times. *)
Definition was_accepted (m : OutboxRecord.row) : bool := is_some (OutboxRecord.provider_message_id m).
Definition accepted_when (m : OutboxRecord.row) : OutboxRecord.row :=
  m <| OutboxRecord.accepted_at := Some (default (OutboxRecord.created_at m) (OutboxRecord.delivered_at m)) |>.
Definition updated_when (m : OutboxRecord.row) : OutboxRecord.row :=
  m <| OutboxRecord.updated_at := OutboxRecord.created_at m |>.
Definition expires_when (m : OutboxRecord.row) : OutboxRecord.row :=
  m <| OutboxRecord.idempotency_expires_at := Some (OutboxRecord.created_at m + DAY) |>.
Definition fill_times (d : Db.t) : result Db.t :=
  try! d := update_where notice_refused was_accepted accepted_when d in
  try! d := update_where notice_refused (λ _, true) updated_when d in
  update_where notice_refused (λ _, true) expires_when d.

(** [FROM orders, proof_versions latest, bitcoin_confirmation_observations observation]: the
    order, its latest version and an observation of it. *)
Definition is_legacy (m : OutboxRecord.row) : bool := OutboxRecord.kind m == "timestamp-complete".
Definition notice_evidence (d : Db.t) (m : OutboxRecord.row)
    : option (Order.row * ProofVersion.row * Observation.row) :=
  order ← find_row (λ o, Order.id o == OutboxRecord.order_id m) (Db.orders d);
  latest ← find_row (is_latest d (Order.id order)) (Db.proof_versions d);
  observation ← find_row (λ ob,
    (Observation.order_id ob == Order.id order) &&
    (Observation.proof_version ob == ProofVersion.version latest) &&
    (1 <=? Observation.observed_confirmations ob)) (Db.observations d);
  Some (order, latest, observation).
(** [SET ...] of the statement that takes the notices over. *)
Definition taken_over (m : OutboxRecord.row) (evidence : Order.row * ProofVersion.row * Observation.row)
    : OutboxRecord.row :=
  let '(order, latest, observation) := evidence in
  let in_review := Order.fulfillment_state order == MANUAL_REVIEW in
  m <| OutboxRecord.kind := "bitcoin-confirmed-initial" |>
    <| OutboxRecord.message_key := "bitcoin-confirmed-initial-v" ++ str_int (ProofVersion.version latest) ++ "-" ++
         Order.order_reference order |>
    <| OutboxRecord.payload := [("template", "bitcoin-confirmed-initial");
                                ("order_reference", Order.order_reference order)] |>
    <| OutboxRecord.proof_version := Some (ProofVersion.version latest) |>
    <| OutboxRecord.confirmation_count := Some 1 |>
    <| OutboxRecord.confirmation_observation_id := Some (Observation.id observation) |>
    <| OutboxRecord.state :=
         if was_accepted m then OB_ACCEPTED else if in_review then OB_DEAD_LETTER else OB_AVAILABLE |>
    <| OutboxRecord.accepted_at :=
         if was_accepted m
         then Some (default (default (OutboxRecord.created_at m) (OutboxRecord.delivered_at m))
                      (OutboxRecord.accepted_at m))
         else None |>
    <| OutboxRecord.delivered_at := None |> <| OutboxRecord.lease_owner := None |>
    <| OutboxRecord.lease_until := None |> <| OutboxRecord.lease_token := None |>
    <| OutboxRecord.available_at := now |> <| OutboxRecord.idempotency_expires_at := Some (now + DAY) |>
    <| OutboxRecord.safe_error_code := if in_review then Some "legacy_delivery_manual_review" else None |>
    <| OutboxRecord.updated_at := now |>.
Definition take_over_with (d : Db.t) (m : OutboxRecord.row) : OutboxRecord.row :=
  match notice_evidence d m with Some evidence => taken_over m evidence | None => m end.
Definition take_over_notices (d : Db.t) : result Db.t :=
  update_where notice_refused (λ m, is_legacy m && is_some (notice_evidence d m)) (take_over_with d) d.

Definition without_evidence (m : OutboxRecord.row) : OutboxRecord.row :=
  m <| OutboxRecord.state := OB_DEAD_LETTER |> <| OutboxRecord.lease_owner := None |>
    <| OutboxRecord.lease_until := None |> <| OutboxRecord.lease_token := None |>
    <| OutboxRecord.safe_error_code := Some "legacy_evidence_missing" |> <| OutboxRecord.updated_at := now |>.
Definition bury_notices (d : Db.t) : result Db.t := update_where notice_refused is_legacy without_evidence d.

(** [SET NOT NULL] and [ADD CONSTRAINT ... CHECK], checked on every row. *)
Definition constrain_outbox (d : Db.t) : result Db.t :=
  if forallb OutboxRecord.check (Db.outbox d) then Ok d else Raise IntegrityError.

Definition resend_upgrade (d : Db.t) : result Db.t :=
  try! d := record_legacy_deliveries d in
  try! d := review_legacy_deliveries d in
  try! d := observe_verifications d in
  try! d := add_outbox_columns d in
  try! d := fill_times d in
  try! d := take_over_notices d in
  try! d := bury_notices d in
  try! d := constrain_outbox d in
  Ok (d <| Db.notification_attempts := [] |> <| Db.resend_webhook_events := [] |>).

(** ** Revision 20260827_0002, downgrade *)

(** The [DO] block: every event of the provider must be about a message of the outbox. *)
Definition unmatched (d : Db.t) (e : ResendWebhookEvent.row) : bool :=
  negb (existsb (SqlResendWebhookStore.by_provider_message (ResendWebhookEvent.provider_message_id e)) (Db.outbox d)).
Definition refuse_unmatched (d : Db.t) : result Db.t :=
  if existsb (unmatched d) (Db.resend_webhook_events d)
  then Raise (DatabaseError "unsafe delivery downgrade: unmatched Resend webhook evidence cannot be represented")
  else Ok d.

(** The delivery of the first notice, signed by the provider. *)
Definition signed_delivery_event (d : Db.t) (m : OutboxRecord.row) : bool :=
  existsb (λ e, (Some (ResendWebhookEvent.provider_message_id e) == OutboxRecord.provider_message_id m) &&
                (ResendWebhookEvent.event_type e == "email.delivered")) (Db.resend_webhook_events d).
Definition delivered_in_time (m : OutboxRecord.row) : bool :=
  (OutboxRecord.state m == OB_DELIVERED) && is_some (OutboxRecord.accepted_at m) &&
  is_some (OutboxRecord.delivered_at m).
Definition delivery_signed (d : Db.t) (u : uuid) : bool :=
  existsb (λ m, signed_delivery_event d m && (OutboxRecord.order_id m == u) &&
                (OutboxRecord.kind m == "bitcoin-confirmed-initial") && delivered_in_time m) (Db.outbox d).
Definition unsupported_delivery (d : Db.t) (o : Order.row) : bool :=
  is_delivered o && negb (delivery_signed d (Order.id o)).
Definition unsupported_event : Db.t → Order.row → StateEvent.row :=
  review_event "-delivery-downgrade-unsupported-delivered" "downgrade-delivery-unsupported-delivered"
    "delivery_downgrade" "delivered_order_missing_signed_initial_notice".
Definition record_unsupported (d : Db.t) : result Db.t :=
  insert_select same_event (map (unsupported_event d) (List.filter (unsupported_delivery d) (Db.orders d))) d.
Definition review_unsupported (d : Db.t) : result Db.t :=
  update_where (order_refused (schema_after 2)) (unsupported_delivery d) reviewed d.

(** *** [_downgrade_evidence_statements] *)

(** [ROW_NUMBER() OVER (PARTITION BY order_id ORDER BY created_at, id)]: the position among the
    rows of the partition, which no two rows share, as their identifiers differ. *)
Definition row_number {A} (partition : A → uuid) (key : A → list Z) (l : list A) (x : A) : Z :=
  Z.of_nat (List.length (List.filter (λ y, (partition y == partition x) && negb (key_le (key x) (key y))) l)) + 1.

(** A row that becomes an event: its identifier, the order it is joined with, when it was
    created, and the JSON object made of it. *)
Record Candidate := mk_candidate {
  candidate_id : uuid; candidate_order : Order.row; candidate_created_at : Z;
  candidate_evidence : list (string * evidence_value) }.
Definition candidate_event (prefix : string) (d : Db.t) (l : list Candidate) (c : Candidate) : StateEvent.row := {|
  StateEvent.id := md5_uuid (prefix ++ str_uuid (candidate_id c));
  StateEvent.order_id := Order.id (candidate_order c);
  StateEvent.sequence := last_sequence d (Order.id (candidate_order c)) +
    row_number (λ c, Order.id (candidate_order c)) (λ c, [candidate_created_at c; candidate_id c]) l c;
  StateEvent.event_key := prefix ++ str_uuid (candidate_id c);
  StateEvent.source := "delivery_downgrade";
  StateEvent.previous_payment_state := Order.payment_state (candidate_order c);
  StateEvent.payment_state := Order.payment_state (candidate_order c);
  StateEvent.previous_fulfillment_state := Order.fulfillment_state (candidate_order c);
  StateEvent.fulfillment_state := Order.fulfillment_state (candidate_order c);
  StateEvent.evidence := candidate_evidence c;
  StateEvent.created_at := candidate_created_at c |}.
Definition keep_evidence (prefix : string) (candidates : Db.t → list Candidate) (d : Db.t) : result Db.t :=
  insert_select same_event (map (candidate_event prefix d (candidates d)) (candidates d)) d.

(** [JOIN orders ON orders.id = ...], [JOIN outbox sender ON ...] *)
Definition joined_order (d : Db.t) (u : uuid) : option Order.row := find_row (λ o, Order.id o == u) (Db.orders d).
Definition joined_sender (d : Db.t) (P : OutboxRecord.row → bool) : option (OutboxRecord.row * Order.row) :=
  sender ← find_row P (Db.outbox d);
  order ← joined_order d (OutboxRecord.order_id sender);
  Some (sender, order).
(** [jsonb_strip_nulls] *)
Definition strip_nulls (l : list (string * option evidence_value)) : list (string * evidence_value) :=
  omap (λ '(k, v), v ← v; Some (k, v)) l.
Definition ev_int (n : Z) : evidence_value := EvInt (Some n).
Definition ev_uuid (u : uuid) : evidence_value := EvStr (str_uuid u).

Definition observation_evidence (ob : Observation.row) : list (string * evidence_value) := [
  ("evidence_kind", EvStr "bitcoin_confirmation_observation");
  ("observation_id", ev_uuid (Observation.id ob));
  ("proof_version", ev_int (Observation.proof_version ob));
  ("observed_confirmations", ev_int (Observation.observed_confirmations ob));
  ("block_height", ev_int (Observation.block_height ob));
  ("block_hash", EvStr (Observation.block_hash ob));
  ("method", EvStr (Observation.method ob));
  ("confirmation_policy", EvStr (Observation.confirmation_policy ob));
  ("observed_at", EvTime (Observation.observed_at ob));
  ("original_event_key", EvStr (Observation.event_key ob));
  ("migration_revision", EvStr "20260827_0002")].
Definition observation_candidates (d : Db.t) : list Candidate :=
  omap (λ ob,
    order ← joined_order d (Observation.order_id ob);
    Some (mk_candidate (Observation.id ob) order (Observation.created_at ob) (observation_evidence ob)))
    (Db.observations d).

Definition webhook_evidence (e : ResendWebhookEvent.row) : list (string * evidence_value) := [
  ("evidence_kind", EvStr "resend_webhook_event");
  ("webhook_event_id", ev_uuid (ResendWebhookEvent.id e));
  ("svix_event_id", EvStr (ResendWebhookEvent.svix_event_id e));
  ("event_type", EvStr (ResendWebhookEvent.event_type e));
  ("provider_message_id", EvStr (ResendWebhookEvent.provider_message_id e));
  ("payload_sha256", EvStr (bytes_hex (ResendWebhookEvent.payload_sha256 e)));
  ("event_created_at", EvTime (ResendWebhookEvent.event_created_at e));
  ("processed_at", EvTime (ResendWebhookEvent.processed_at e));
  ("migration_revision", EvStr "20260827_0002")].
Definition webhook_candidates (d : Db.t) : list Candidate :=
  omap (λ e,
    '(_, order) ← joined_sender d (SqlResendWebhookStore.by_provider_message (ResendWebhookEvent.provider_message_id e));
    Some (mk_candidate (ResendWebhookEvent.id e) order (ResendWebhookEvent.created_at e) (webhook_evidence e)))
    (Db.resend_webhook_events d).

Definition attempt_evidence (a : NotificationAttempt.row) : list (string * evidence_value) := strip_nulls [
  ("evidence_kind", Some (EvStr "notification_attempt"));
  ("attempt_id", Some (ev_uuid (NotificationAttempt.id a)));
  ("outbox_id", Some (ev_uuid (NotificationAttempt.outbox_id a)));
  ("attempt_number", Some (ev_int (NotificationAttempt.attempt_number a)));
  ("worker_id", Some (EvStr (NotificationAttempt.worker_id a)));
  ("started_at", Some (EvTime (NotificationAttempt.started_at a)));
  ("finished_at", EvTime <$> NotificationAttempt.finished_at a);
  ("outcome", EvStr <$> NotificationAttempt.outcome a);
  ("response_status", ev_int <$> NotificationAttempt.response_status a);
  ("provider_message_id", EvStr <$> NotificationAttempt.provider_message_id a);
  ("safe_error_code", EvStr <$> NotificationAttempt.safe_error_code a);
  ("migration_revision", Some (EvStr "20260827_0002"))].
Definition attempt_candidates (d : Db.t) : list Candidate :=
  omap (λ a,
    '(_, order) ← joined_sender d (λ m, OutboxRecord.id m == NotificationAttempt.outbox_id a);
    Some (mk_candidate (NotificationAttempt.id a) order (NotificationAttempt.created_at a) (attempt_evidence a)))
    (Db.notification_attempts d).

Definition notice_record (m : OutboxRecord.row) : list (string * evidence_value) := strip_nulls [
  ("evidence_kind", Some (EvStr "notification_outbox"));
  ("outbox_id", Some (ev_uuid (OutboxRecord.id m)));
  ("message_key", Some (EvStr (OutboxRecord.message_key m)));
  ("kind", Some (EvStr (OutboxRecord.kind m)));
  ("state", Some (EvStr (OutboxState_value (OutboxRecord.state m))));
  ("attempt_count", Some (ev_int (OutboxRecord.attempt_count m)));
  ("proof_version", ev_int <$> OutboxRecord.proof_version m);
  ("confirmation_count", ev_int <$> OutboxRecord.confirmation_count m);
  ("confirmation_observation_id", ev_uuid <$> OutboxRecord.confirmation_observation_id m);
  ("provider_message_id", EvStr <$> OutboxRecord.provider_message_id m);
  ("accepted_at", EvTime <$> OutboxRecord.accepted_at m);
  ("delivered_at", EvTime <$> OutboxRecord.delivered_at m);
  ("safe_error_code", EvStr <$> OutboxRecord.safe_error_code m);
  ("migration_revision", Some (EvStr "20260827_0002"))].
Definition notice_candidates (d : Db.t) : list Candidate :=
  omap (λ m,
    order ← joined_order d (OutboxRecord.order_id m);
    Some (mk_candidate (OutboxRecord.id m) order (OutboxRecord.created_at m) (notice_record m)))
    (Db.outbox d).

Definition _downgrade_evidence_statements : list (Db.t → result Db.t) := [
  keep_evidence "downgrade-confirmation-" observation_candidates;
  keep_evidence "downgrade-resend-" webhook_candidates;
  keep_evidence "downgrade-attempt-" attempt_candidates;
  keep_evidence "downgrade-notification-" notice_candidates].
Fixpoint run_statements (l : list (Db.t → result Db.t)) (d : Db.t) : result Db.t :=
  match l with [] => Ok d | s :: l' => try! d := s d in run_statements l' d end.

(** *** The notices in their old form *)

Definition legacy_notice (d : Db.t) (m : OutboxRecord.row) (version : Z) (order : Order.row) : OutboxRecord.row :=
  let delivered := OutboxRecord.state m == OB_DELIVERED in
  let signed := signed_delivery_event d m in
  m <| OutboxRecord.kind := "timestamp-complete" |>
    <| OutboxRecord.message_key := "timestamp-complete-v" ++ str_int version ++ "-" ++ Order.order_reference order |>
    <| OutboxRecord.payload := [("order_reference", Order.order_reference order)] |>
    <| OutboxRecord.state :=
         if delivered_in_time m && signed then OB_DELIVERED
         else if delivered then OB_DEAD_LETTER else OutboxRecord.state m |>
    <| OutboxRecord.delivered_at := if delivered_in_time m && signed then OutboxRecord.delivered_at m else None |>
    <| OutboxRecord.safe_error_code :=
         if delivered && negb signed then Some "downgrade_delivery_evidence_missing"
         else OutboxRecord.safe_error_code m |>.
Definition returned (d : Db.t) (m : OutboxRecord.row) : option OutboxRecord.row :=
  if OutboxRecord.kind m == "bitcoin-confirmed-initial" then
    version ← OutboxRecord.proof_version m;
    order ← joined_order d (OutboxRecord.order_id m);
    Some (legacy_notice d m version order)
  else None.
Definition return_notices (d : Db.t) : result Db.t :=
  update_where checked_notice_refused (λ m, is_some (returned d m)) (λ m, default m (returned d m)) d.
Definition is_final (m : OutboxRecord.row) : bool := OutboxRecord.kind m == "bitcoin-confirmed-final".
Definition unrepresentable (m : OutboxRecord.row) : OutboxRecord.row :=
  m <| OutboxRecord.state := OB_DEAD_LETTER |> <| OutboxRecord.delivered_at := None |>
    <| OutboxRecord.safe_error_code := Some "downgrade_final_notice_unrepresentable" |>.
Definition bury_final_notices (d : Db.t) : result Db.t := update_where checked_notice_refused is_final unrepresentable d.

(** The tables are dropped, and the columns are no longer read. *)
Definition resend_downgrade (d : Db.t) : result Db.t :=
  try! d := refuse_unmatched d in
  try! d := record_unsupported d in
  try! d := review_unsupported d in
  try! d := run_statements _downgrade_evidence_statements d in
  try! d := return_notices d in
  try! d := bury_final_notices d in
  Ok (d <| Db.notification_attempts := [] |> <| Db.resend_webhook_events := [] |> <| Db.observations := [] |>).

(** ** Revision 20260831_0003 *)

(** [ALTER TABLE durable_jobs ADD COLUMN generation ... DEFAULT 1] *)
Definition first_generation (j : DurableJob.row) : DurableJob.row := j <| DurableJob.generation := 1 |>.
Definition is_runnable (j : DurableJob.row) : bool := DurableJob.state j is_in [JOB_AVAILABLE; JOB_RETRY; JOB_LEASED].
Definition first_dispatch (j : DurableJob.row) : TaskDispatch.row := {|
  TaskDispatch.id := md5_uuid (str_uuid (DurableJob.id j) ++ "-task-generation-1");
  TaskDispatch.job_id := DurableJob.id j;
  TaskDispatch.generation := 1;
  TaskDispatch.task_name := "timestamp-" ++ replace "-" "" (str_uuid (DurableJob.id j)) ++ "-g1";
  TaskDispatch.schedule_at := DurableJob.available_at j;
  TaskDispatch.state := PENDING;
  TaskDispatch.attempt_count := 0;
  TaskDispatch.dispatched_at := None;
  TaskDispatch.safe_error_code := None;
  TaskDispatch.created_at := now;
  TaskDispatch.updated_at := now |}.
Definition tasks_upgrade (d : Db.t) : result Db.t :=
  let d := d <| Db.durable_jobs := map first_generation (Db.durable_jobs d) |> <| Db.task_dispatches := [] |> in
  insert_select same_generation (map first_dispatch (List.filter is_runnable (Db.durable_jobs d))) d.
Definition tasks_downgrade (d : Db.t) : Db.t := d <| Db.task_dispatches := [] |>.
End Migration.

(** ** What the statements do *)

(** The tables that the statements write, as components of the database. *)
Class Component (R : Type) `{Table R} := {
  set_set : ∀ t t' d, set_tbl t (set_tbl t' d) = set_tbl t d;
  set_get : ∀ d, set_tbl (tbl d) d = d }.
Ltac component := split; [reflexivity|by intros []].
#[global] Instance Order_component : Component Order.row. Proof. component. Qed.
#[global] Instance StateEvent_component : Component StateEvent.row. Proof. component. Qed.
#[global] Instance Observation_component : Component Observation.row. Proof. component. Qed.
#[global] Instance OutboxRecord_component : Component OutboxRecord.row. Proof. component. Qed.
#[global] Instance TaskDispatch_component : Component TaskDispatch.row. Proof. component. Qed.

Lemma same_id {R} `{Table R} (l : list R) r s :
  NoDup (map row_id l) → r ∈ l → s ∈ l → row_id r = row_id s → r = s.
Proof.
  intros Hn [i Hi]%list_elem_of_lookup [j Hj]%list_elem_of_lookup E. assert (i = j) as ->; [|congruence].
  eapply (NoDup_lookup (map row_id l)); [done| |]; rewrite list_lookup_fmap; [by rewrite Hi|by rewrite Hj; simpl; f_equal].
Qed.

Section StatementLemmas.
Context {R : Type} `{TableLaws R} `{!Component R}.
Implicit Types (l t rows : list R) (d : Db.t).

(** The unique constraints alone. *)
Definition unclashed l : Prop := ∀ i j r s, l !! i = Some r → l !! j = Some s → i ≠ j → row_clash r s = false.
Lemma tbl_wf_unclashed l : tbl_wf l ↔ (∀ r, r ∈ l → row_check r = true) ∧ unclashed l.
Proof. done. Qed.
Lemma fits_spec l r : fits l r = true ↔ ∀ s, s ∈ l → row_clash r s = false.
Proof.
  unfold fits. rewrite forallb_forall. split; intros Hf s Hs; apply negb_true_iff, Hf; by apply list_elem_of_In.
Qed.
Lemma unclashed_ids l : unclashed l → NoDup (map row_id l).
Proof.
  intros Hc. apply NoDup_alt. intros i j u Hi Hj. rewrite list_lookup_fmap in Hi, Hj.
  destruct (l !! i) as [r|] eqn:Ei, (l !! j) as [s|] eqn:Ej; simplify_eq/=.
  destruct (decide (i = j)) as [|Hne]; [done|].
  pose proof (Hc i j r s Ei Ej Hne) as Hf. by rewrite row_clash_id in Hf.
Qed.
Lemma unclashed_id l r s : unclashed l → r ∈ l → s ∈ l → row_id r = row_id s → r = s.
Proof.
  intros Hc [i Hi]%list_elem_of_lookup [j Hj]%list_elem_of_lookup E.
  destruct (decide (i = j)) as [->|Hne]; [by simplify_eq|].
  specialize (Hc i j r s Hi Hj Hne). by rewrite row_clash_id in Hc.
Qed.
Lemma unclashed_map f l : (∀ r s, row_clash (f r) (f s) = row_clash r s) → unclashed l → unclashed (map f l).
Proof.
  intros Hf Hc i j r s Hi Hj Hne. rewrite list_lookup_fmap in Hi, Hj.
  destruct (l !! i) eqn:Ei, (l !! j) eqn:Ej; simplify_eq/=. rewrite Hf. by eapply Hc.
Qed.
Lemma unclashed_replace l r : unclashed l → fits (others (row_id r) l) r = true → unclashed (replace_row r l).
Proof.
  intros Hc Hs i j a b Hi Hj Hne. rewrite fits_spec in Hs. unfold replace_row in Hi, Hj.
  rewrite list_lookup_fmap in Hi, Hj.
  destruct (l !! i) as [x|] eqn:Ei, (l !! j) as [y|] eqn:Ej; simplify_eq/=.
  pose proof (list_elem_of_lookup_2 _ _ _ Ei) as Hx. pose proof (list_elem_of_lookup_2 _ _ _ Ej) as Hy.
  assert (row_id x ≠ row_id y) as Hxy.
  { intros E. pose proof (Hc i j x y Ei Ej Hne) as Hf. by rewrite row_clash_id in Hf. }
  case_bool_decide; case_bool_decide.
  - congruence.
  - apply Hs, elem_of_others. split; congruence.
  - rewrite row_clash_sym. apply Hs, elem_of_others. split; congruence.
  - by apply (Hc i j).
Qed.

(** *** UPDATE *)

Definition written (f : R → R) rows (g : R → R) (s : R) : R :=
  if existsb (λ x, row_id x == row_id s) rows then f s else g s.
Lemma written_where f (P : R → bool) l :
  NoDup (map row_id l) → map (written f (List.filter P l) id) l = map (λ s, if P s then f s else s) l.
Proof.
  intros Hn. apply map_ext_in. intros s Hs%list_elem_of_In. unfold written, id.
  assert (existsb (λ x, row_id x == row_id s) (List.filter P l) = P s) as ->; [|done].
  destruct (P s) eqn:HP.
  - apply (existsb_intro _ _ s); [by apply elem_of_filter_rows|by apply bool_decide_true].
  - apply not_true_iff_false. intros (x & Hx & E)%existsb_exists. apply list_elem_of_In, elem_of_filter_rows in Hx as [Hx Hxp].
    apply bool_decide_eq_true in E. by rewrite <-(same_id l x s Hn Hx Hs E), Hxp in HP.
Qed.

Context (refuse : Db.t → R → R → option exn) (f : R → R) (f_id : ∀ r, row_id (f r) = row_id r).

(** One row of the statement, on a table whose earlier rows are written. *)
Lemma replace_written l g r :
  (∀ s, row_id (g s) = row_id s) → NoDup (map row_id l) → r ∈ l →
  replace_row (f r) (map g l) = map (written f [r] g) l.
Proof.
  intros Hg Hn Hr. unfold replace_row. rewrite map_map. apply map_ext_in. intros s Hs%list_elem_of_In.
  unfold written. cbn [existsb]. rewrite orb_false_r, Hg, f_id, (eqb_sym (row_id s)).
  case_bool_decide as E; [|done]. f_equal. by apply (same_id l).
Qed.
Lemma written_cons r rows g s : written f rows (written f [r] g) s = written f (r :: rows) g s.
Proof. unfold written. cbn [existsb]. destruct (existsb _ rows), (row_id r == row_id s); done. Qed.
Lemma written_id rows g s : (∀ s, row_id (g s) = row_id s) → row_id (written f rows g s) = row_id s.
Proof. intros Hg. unfold written. by destruct (existsb _ _). Qed.

Lemma update_each_result l rows : ∀ g d d',
  (∀ s, row_id (g s) = row_id s) → NoDup (map row_id l) → (∀ r, r ∈ rows → r ∈ l) → unclashed (map g l) →
  update_each refuse f rows (set_tbl (map g l) d) = Ok d' →
  d' = set_tbl (map (written f rows g) l) d ∧ unclashed (map (written f rows g) l).
Proof.
  induction rows as [|r rows IH]; intros g d d' Hg Hn Hin Hu; cbn [update_each].
  { intros [= <-]. split; [done|]. assert (map (written f [] g) l = map g l) as ->; [|done]. by apply map_ext. }
  destruct (refuse _ _ _); [done|]. rewrite tbl_set.
  assert (r ∈ l) as Hr by (apply Hin; left).
  destruct (fits _ _) eqn:Hf; [|done]. rewrite set_set.
  assert (unclashed (replace_row (f r) (map g l))) as Hu' by (apply unclashed_replace; [done|by rewrite f_id]).
  rewrite replace_written in Hu' |- * by done.
  intros [-> Hu'']%IH; try done; try (by intros; apply Hin; right); [|intros; by apply written_id].
  assert (map (written f rows (written f [r] g)) l = map (written f (r :: rows) g) l) as <-; [|done].
  apply map_ext. intros. apply written_cons.
Qed.
Lemma update_where_id (P : R → bool) d :
  update_where refuse P f d = update_each refuse f (List.filter P (tbl d)) (set_tbl (map id (tbl d)) d).
Proof. unfold update_where, id. by rewrite map_id, set_get. Qed.
Lemma update_where_result (P : R → bool) d d' :
  unclashed (tbl d) → update_where refuse P f d = Ok d' →
  d' = set_tbl (map (λ s, if P s then f s else s) (tbl d)) d ∧ unclashed (tbl d').
Proof.
  intros Hu. pose proof (unclashed_ids _ Hu) as Hn. rewrite update_where_id. intros E.
  apply update_each_result in E as [-> Hw]; try done.
  - rewrite (written_where f P (tbl d) Hn) in Hw |- *. split; [done|]. by rewrite tbl_set.
  - by intros r [? _]%elem_of_filter_rows.
  - unfold id. by rewrite map_id.
Qed.

(** It goes through when nothing is refused and the new rows clash with no row, old or new. *)
Lemma update_each_goes (P : R → bool) l rows : ∀ g d,
  (∀ s, row_id (g s) = row_id s) → NoDup (map row_id l) → (∀ r, r ∈ rows → r ∈ l) →
  (∀ r, r ∈ rows → P r = true) → (∀ s, s ∈ l → g s = s ∨ P s = true ∧ g s = f s) →
  (∀ t r, r ∈ rows → refuse (set_tbl t d) r (f r) = None) →
  (∀ r s, r ∈ rows → s ∈ l → row_id s ≠ row_id r →
     row_clash (f r) s = false ∧ (P s = true → row_clash (f r) (f s) = false)) →
  ∃ d', update_each refuse f rows (set_tbl (map g l) d) = Ok d'.
Proof.
  induction rows as [|r rows IH]; intros g d Hg Hn Hin HP Hgf Hr Hc; cbn [update_each]; [by eexists|].
  rewrite Hr by left. rewrite tbl_set.
  assert (fits (others (row_id r) (map g l)) (f r) = true) as ->.
  { apply fits_spec. intros s [Hs Hne]%elem_of_others. apply list_elem_of_fmap in Hs as (s0 & -> & Hs).
    rewrite Hg in Hne. destruct (Hc r s0) as [? ?]; [left|done..|]. destruct (Hgf s0 Hs) as [-> | [? ->]]; auto. }
  rewrite set_set, replace_written by (try done; apply Hin; left). apply IH; try done.
  - intros. by apply written_id.
  - intros. apply Hin. by right.
  - intros. apply HP. by right.
  - intros s Hs. unfold written. destruct (existsb _ _) eqn:E; [right|by apply Hgf]. split; [|done].
    cbn [existsb] in E. rewrite orb_false_r in E. apply bool_decide_eq_true in E.
    assert (r = s) as <-; [|apply HP; left]. apply (same_id l); try done. apply Hin. left.
  - intros. apply Hr. by right.
  - intros ????. apply Hc; [by right|done].
Qed.
Lemma update_where_goes (P : R → bool) d :
  unclashed (tbl d) →
  (∀ t r, r ∈ tbl d → P r = true → refuse (set_tbl t d) r (f r) = None) →
  (∀ r s, r ∈ tbl d → s ∈ tbl d → P r = true → row_id s ≠ row_id r →
     row_clash (f r) s = false ∧ (P s = true → row_clash (f r) (f s) = false)) →
  update_where refuse P f d = Ok (set_tbl (map (λ s, if P s then f s else s) (tbl d)) d).
Proof.
  intros Hu Hr Hc. assert (∃ d', update_where refuse P f d = Ok d') as [d' E].
  { rewrite update_where_id. apply (update_each_goes P); try done.
    - by apply unclashed_ids.
    - by intros r [? _]%elem_of_filter_rows.
    - by intros r [_ ?]%elem_of_filter_rows.
    - intros s _. by left.
    - intros t r [? ?]%elem_of_filter_rows. by apply Hr.
    - intros r s [? ?]%elem_of_filter_rows ??. by apply Hc. }
  rewrite E. f_equal. by apply update_where_result in E as [-> _].
Qed.
End StatementLemmas.

(** *** INSERT *)

Section InsertLemmas.
Context {R : Type} `{TableLaws R} `{!Component R}.
Implicit Types (l t rows : list R) (d : Db.t).

Lemma insert_select_result same rows : ∀ d d',
  tbl_wf (tbl d) → insert_select same rows d = Ok d' →
  ∃ new, new `sublist_of` rows ∧ d' = set_tbl (tbl d ++ new) d ∧ tbl_wf (tbl d') ∧
    ∀ r, r ∈ rows → r ∈ new ∨ ∃ s, s ∈ tbl d' ∧ same r s = true.
Proof.
  induction rows as [|r rows IH]; intros d d' Hwf; cbn [insert_select].
  { intros [= <-]. exists []. rewrite app_nil_r, set_get. split_and!; [done..|]. by intros r ?%not_elem_of_nil. }
  destruct (existsb (same r) (tbl d)) eqn:Hs.
  - intros E. pose proof (IH d d' Hwf E) as (new & Hnew & -> & Hw & Hall).
    exists new. split_and!; [by apply sublist_cons|done|done|]. intros x [->|Hx]%elem_of_cons; [|auto]. right.
    apply existsb_exists in Hs as (s & Hs & ?). exists s. rewrite tbl_set. split; [|done].
    apply elem_of_app. left. by apply list_elem_of_In.
  - destruct (admissible d (tbl d) r) eqn:Ha; [|done]. intros E.
    apply IH in E as (new & Hnew & -> & Hw & Hall); [|rewrite tbl_set; by eapply tbl_wf_app].
    rewrite !tbl_set, ?set_set, <-?app_assoc in *. exists (r :: new). rewrite ?tbl_set in *. split_and!; [by apply sublist_skip|done|done|].
    intros x [->|Hx]%elem_of_cons; [left; left|]. destruct (Hall x Hx) as [?|?]; [left; by right|by right].
Qed.
Lemma insert_select_goes same rows : ∀ d,
  (∀ r, r ∈ rows → row_check r = true) → (∀ t r, r ∈ rows → row_fk (set_tbl t d) r = true) →
  (∀ r s, r ∈ rows → s ∈ tbl d → row_clash r s = false ∧ same r s = false) →
  NoDup rows → (∀ r s, r ∈ rows → s ∈ rows → r ≠ s → row_clash r s = false ∧ same r s = false) →
  insert_select same rows d = Ok (set_tbl (tbl d ++ rows) d).
Proof.
  induction rows as [|r rows IH]; intros d Hc Hf Ho Hn Hp; cbn [insert_select]; [by rewrite app_nil_r, set_get|].
  apply NoDup_cons in Hn as [Hr Hn].
  assert (existsb (same r) (tbl d) = false) as ->.
  { apply not_true_iff_false. intros (s & Hs & E)%existsb_exists. apply list_elem_of_In in Hs.
    destruct (Ho r s) as [_ ?]; [left|done|congruence]. }
  assert (admissible d (tbl d) r = true) as ->.
  { apply admissible_inv. split_and!; [apply Hc; left|rewrite <-(set_get d); apply Hf; left|].
    intros s Hs. by apply Ho; [left|]. }
  rewrite IH; [by rewrite tbl_set, set_set, <-app_assoc|..].
  - intros x Hx. apply Hc. by right.
  - intros t x Hx. rewrite set_set. apply Hf. by right.
  - rewrite tbl_set. intros x s Hx [Hs|Hs]%elem_of_app; [apply Ho; [by right|done]|].
    apply list_elem_of_singleton in Hs as ->. apply Hp; [by right|left|congruence].
  - done.
  - intros x s Hx Hs. apply Hp; by right.
Qed.
End InsertLemmas.

(** ** The upgrade to 20260827_0002 *)

Section Upgrade.
Context (md5_uuid : string → uuid) (now : Z).

(** The database before the upgrade: its constraints, its foreign keys, and what the earlier
    code wrote: one notice at most for an order, under a key of its own, to its customer, and no
    lease without an owner. *)
Record legacy_database (d : Db.t) : Prop := {
  lg_wf : db_wf (d <| Db.outbox := [] |> <| Db.observations := [] |> <| Db.notification_attempts := [] |>
                   <| Db.resend_webhook_events := [] |>);
  lg_outbox : unclashed (Db.outbox d);
  lg_messages m : m ∈ Db.outbox d → 0 <= OutboxRecord.attempt_count m ∧
    (is_none (OutboxRecord.lease_until m) || is_some (OutboxRecord.lease_owner m)) = true ∧
    exists_id Order.id (OutboxRecord.order_id m) (Db.orders d) = true;
  lg_verifications v : v ∈ Db.proof_verifications d →
    exists_version (ProofVerification.order_id v) (ProofVerification.proof_version v) d = true;
  lg_supported o : o ∈ Db.orders d → Order.fulfillment_state o ≠ DELIVERED → supported d o;
  lg_notices m m' : m ∈ Db.outbox d → m' ∈ Db.outbox d → is_legacy m = true → is_legacy m' = true →
    OutboxRecord.order_id m = OutboxRecord.order_id m' → m = m';
  lg_keys m : m ∈ Db.outbox d → String.prefix "bitcoin-confirmed-initial-v" (OutboxRecord.message_key m) = false;
  lg_recipients m o : m ∈ Db.outbox d → is_legacy m = true → o ∈ Db.orders d →
    Order.id o = OutboxRecord.order_id m → OutboxRecord.recipient m = Order.email o;
  lg_events e : e ∈ Db.state_events d →
    StateEvent.event_key e ≠ "migration-20260827-legacy-delivery-manual-review" }.
(** The hash does not map two of the texts it is given to one identifier. *)
Record md5_fresh (d : Db.t) : Prop := {
  mf_old o e : o ∈ Db.orders d → e ∈ Db.state_events d → StateEvent.id (legacy_delivery_event md5_uuid now d o) ≠ StateEvent.id e;
  mf_events o o' : o ∈ Db.orders d → o' ∈ Db.orders d →
    StateEvent.id (legacy_delivery_event md5_uuid now d o) = StateEvent.id (legacy_delivery_event md5_uuid now d o') → o = o';
  mf_observations v v' : v ∈ Db.proof_verifications d → v' ∈ Db.proof_verifications d →
    Observation.id (legacy_observation md5_uuid v) = Observation.id (legacy_observation md5_uuid v') → v = v' }.

Lemma last_sequence_ge d e : e ∈ Db.state_events d → StateEvent.sequence e <= last_sequence d (StateEvent.order_id e).
Proof.
  intros He. unfold last_sequence.
  assert (e ∈ List.filter (λ x, StateEvent.order_id x == StateEvent.order_id e) (Db.state_events d)) as Hf
    by (apply elem_of_filter_rows; split; [done|by apply bool_decide_true]).
  destruct (max_of _ _) as [m|] eqn:E; [by eapply max_of_ge in E|].
  apply max_of_None in E. rewrite E in Hf. by apply not_elem_of_nil in Hf.
Qed.
(** A new event of an order, with a new identifier, a later number and a new key. *)
Lemma event_fits e s :
  StateEvent.id e ≠ StateEvent.id s →
  (StateEvent.order_id e = StateEvent.order_id s → StateEvent.sequence e ≠ StateEvent.sequence s ∧
     StateEvent.event_key e ≠ StateEvent.event_key s) →
  row_clash e s = false ∧ same_event e s = false.
Proof.
  intros Hid Ho. simpl. unfold StateEvent.clash, same_event. rewrite (bool_decide_false _ Hid). simpl.
  case_bool_decide as E; [|done]. destruct (Ho E) as [H1 H2].
  by rewrite (bool_decide_false _ H1), (bool_decide_false _ H2).
Qed.

(** *** Orders and their events *)

Lemma orders_unique d o o' : tbl_wf (Db.orders d) → o ∈ Db.orders d → o' ∈ Db.orders d → Order.id o = Order.id o' → o = o'.
Proof. intros Hwf Ho Ho' E. by apply (tbl_wf_id (Db.orders d)). Qed.

Lemma record_review_goes suffix key source reason (P : Order.row → bool) d :
  tbl_wf (Db.orders d) → (∀ e, e ∈ Db.state_events d → StateEvent.event_key e ≠ key) →
  (∀ o e, o ∈ Db.orders d → e ∈ Db.state_events d → md5_uuid (str_uuid (Order.id o) ++ suffix) ≠ StateEvent.id e) →
  (∀ o o', o ∈ Db.orders d → o' ∈ Db.orders d →
     md5_uuid (str_uuid (Order.id o) ++ suffix) = md5_uuid (str_uuid (Order.id o') ++ suffix) → o = o') →
  let event := review_event md5_uuid now suffix key source reason d in
  insert_select same_event (map event (List.filter P (Db.orders d))) d =
    Ok (d <| Db.state_events := (Db.state_events d ++ map event (List.filter P (Db.orders d)))%list |>).
Proof.
  intros Hwf Hkeys Hold Hinj event.
  assert (∀ o, o ∈ List.filter P (Db.orders d) → exists_id Order.id (Order.id o) (Db.orders d) = true) as Hex.
  { intros o [Ho _]%elem_of_filter_rows. apply (existsb_intro _ _ o Ho). by apply bool_decide_true. }
  rewrite insert_select_goes; [done|..].
  - intros r (o & -> & _)%list_elem_of_fmap. done.
  - intros t r (o & -> & Ho)%list_elem_of_fmap. by apply Hex.
  - intros r s (o & -> & [Ho _]%elem_of_filter_rows)%list_elem_of_fmap Hs. apply event_fits; [by apply Hold|].
    intros E. simpl in E |- *. split; [|by apply not_eq_sym, Hkeys].
    pose proof (last_sequence_ge d s Hs) as Hge. rewrite <-E in Hge. lia.
  - apply NoDup_fmap_2_strong; [|eapply sublist_NoDup; [|apply sublist_filter_rows]].
    + intros x y [? _]%elem_of_filter_rows [? _]%elem_of_filter_rows E. apply Hinj; [done..|].
      by apply (f_equal StateEvent.id) in E.
    + eapply NoDup_fmap_1. by apply (tbl_wf_NoDup (R:=Order.row)).
  - intros r s (o & -> & [Ho _]%elem_of_filter_rows)%list_elem_of_fmap (o' & -> & [Ho' _]%elem_of_filter_rows)%list_elem_of_fmap Hne.
    assert (o ≠ o') as Hoo by congruence. apply event_fits.
    + intros E. by apply Hoo, Hinj.
    + intros E. destruct Hoo. by apply (orders_unique d).
Qed.
Lemma record_legacy_deliveries_goes d (L : legacy_database d) (F : md5_fresh d) :
  record_legacy_deliveries md5_uuid now d =
    Ok (d <| Db.state_events := (Db.state_events d ++
               map (legacy_delivery_event md5_uuid now d) (List.filter is_delivered (Db.orders d)))%list |>).
Proof.
  apply record_review_goes; [exact (wf_orders _ (lg_wf _ L))|exact (lg_events _ L)|exact (mf_old _ F)|exact (mf_events _ F)].
Qed.

Lemma fire_review n d o :
  n = 1%nat ∨ n = 2%nat → Order.fulfillment_state o = DELIVERED → fire_triggers (schema_after n) d o (reviewed now o) = None.
Proof.
  intros Hn Ho.
  assert (∃ signed, fire_triggers (schema_after n) d o (reviewed now o) =
    first_exception [reject_order_snapshot_change (values o) (values (reviewed now o));
                     enforce_order_state_transition signed d o (reviewed now o)]) as [signed ->].
  { unfold fire_triggers. destruct Hn as [-> | ->]; [exists false|exists true].
    all: match goal with |- context [sort_by ?k ?l] => replace (sort_by k l) with
      [mk_trigger "orders_immutable_snapshot" "orders" "reject_order_snapshot_change";
       mk_trigger "orders_state_transition" "orders" "enforce_order_state_transition"] by (vm_compute; reflexivity) end.
    all: cbn [map trigger_function trigger_table].
    all: repeat match goal with |- context [assoc ?f (Schema.functions ?s)] =>
      let b := eval vm_compute in (assoc f (Schema.functions s)) in
      replace (assoc f (Schema.functions s)) with b by (vm_compute; reflexivity) end.
    all: reflexivity. }
  rewrite snapshot_change_spec, (immutable_changed_refl o : immutable_changed o (reviewed now o) = false).
  cbn [first_exception]. unfold enforce_order_state_transition. cbv zeta. cbn [Order.payment_state Order.fulfillment_state reviewed].
  rewrite Ho. cbn. by rewrite String.eqb_refl.
Qed.

Lemma unclashed_apart {R} `{TableLaws R} (l : list R) r s :
  unclashed l → r ∈ l → s ∈ l → row_id s ≠ row_id r → row_clash r s = false.
Proof.
  intros Hc [i Hi]%list_elem_of_lookup [j Hj]%list_elem_of_lookup Hne. apply (Hc i j); try done. congruence.
Qed.
Lemma review_goes n (P : Order.row → bool) d :
  n = 1%nat ∨ n = 2%nat → (∀ o, P o = true → Order.fulfillment_state o = DELIVERED) → tbl_wf (Db.orders d) →
  update_where (order_refused (schema_after n)) P (reviewed now) d =
    Ok (d <| Db.orders := map (λ o, if P o then reviewed now o else o) (Db.orders d) |>).
Proof.
  intros Hn HP [Hk Hu]. refine (update_where_goes (R:=Order.row) (order_refused (schema_after n)) (reviewed now) (λ _, eq_refl) P d Hu _ _).
  - intros t o Ho E. unfold order_refused. rewrite fire_review by auto.
    assert (Order.check (reviewed now o) = true) as ->; [|done].
    specialize (Hk o Ho). simpl in Hk |- *. unfold Order.check in *. rewrite !andb_true_iff in *. naive_solver.
  - intros r s Hr Hs _ Hne. pose proof (unclashed_apart (Db.orders d) r s Hu Hr Hs Hne). by split; [|intros _].
Qed.

(** *** Observations *)

Definition observed (d : Db.t) : Db.t :=
  d <| Db.observations := map (legacy_observation md5_uuid) (Db.proof_verifications d) |>.
Lemma observation_check v : ProofVerification.check v = true → Observation.check (legacy_observation md5_uuid v) = true.
Proof. unfold ProofVerification.check, Observation.check. simpl. rewrite !andb_true_iff. naive_solver. Qed.
Lemma observe_goes d :
  tbl_wf (Db.proof_verifications d) →
  (∀ v, v ∈ Db.proof_verifications d →
     exists_version (ProofVerification.order_id v) (ProofVerification.proof_version v) d = true) →
  (∀ v v', v ∈ Db.proof_verifications d → v' ∈ Db.proof_verifications d →
     Observation.id (legacy_observation md5_uuid v) = Observation.id (legacy_observation md5_uuid v') → v = v') →
  observe_verifications md5_uuid d = Ok (observed d) ∧ tbl_wf (Db.observations (observed d)).
Proof.
  intros Hwf Hfk Hid. assert (observe_verifications md5_uuid d = Ok (observed d)) as E.
  { unfold observe_verifications. rewrite insert_select_goes; [done|..].
    - intros r (v & -> & Hv)%list_elem_of_fmap. apply observation_check. exact (tbl_wf_check (R:=ProofVerification.row) _ _ Hwf Hv).
    - intros t r (v & -> & Hv)%list_elem_of_fmap. by apply Hfk.
    - by intros r s _ ?%not_elem_of_nil.
    - apply NoDup_fmap_2_strong; [|eapply NoDup_fmap_1; exact (tbl_wf_NoDup (R:=ProofVerification.row) _ Hwf)].
      intros v v' Hv Hv' E. apply Hid; [done..|by rewrite E].
    - intros r s (v & -> & Hv)%list_elem_of_fmap (v' & -> & Hv')%list_elem_of_fmap Hne. split; [|done].
      assert (v ≠ v') as Hvv by congruence.
      change (Observation.clash (legacy_observation md5_uuid v) (legacy_observation md5_uuid v') = false).
      unfold Observation.clash. rewrite bool_decide_false by (intros ?; apply Hvv, Hid; assumption). cbn [orb].
      case_bool_decide as Eo; [|reflexivity]. cbn [andb]. apply bool_decide_false. intros Ek.
      cbn [legacy_observation Observation.event_key Observation.order_id] in Eo, Ek.
      apply app_inj_length in Ek as [_ Ek]; [|done]. apply (inj str_int) in Ek.
      apply Hvv, (tbl_wf_clash (R:=ProofVerification.row) _ _ _ Hwf Hv Hv'). simpl. unfold ProofVerification.clash.
      rewrite (bool_decide_true _ Eo), (bool_decide_true _ Ek). by rewrite orb_true_r. }
  split; [done|]. unfold observe_verifications in E.
  apply insert_select_result in E as (new & _ & _ & Hw & _); [done|]. apply tbl_wf_nil.
Qed.

(** *** Notices *)

(** The row of the outbox as the three statements leave it. *)
Definition filled (m : OutboxRecord.row) : OutboxRecord.row :=
  let m' := add_columns now m in
  expires_when (updated_when (if was_accepted m' then accepted_when m' else m')).
Definition moved (d : Db.t) (m : OutboxRecord.row) : OutboxRecord.row :=
  if is_legacy m then
    match notice_evidence d m with Some evidence => taken_over now m evidence | None => without_evidence now m end
  else m.

Lemma fk_of_order d m :
  exists_id Order.id (OutboxRecord.order_id m) (Db.orders d) = true →
  (∀ u, OutboxRecord.confirmation_observation_id m = Some u → exists_id Observation.id u (Db.observations d) = true) →
  row_fk d m = true.
Proof.
  intros Ho Hob. simpl. rewrite Ho. simpl. destruct (OutboxRecord.confirmation_observation_id m) eqn:E; [by apply Hob|done].
Qed.
(** A statement that leaves the keys alone goes through. *)
Definition same_keys (f : OutboxRecord.row → OutboxRecord.row) : Prop := ∀ m,
  OutboxRecord.id (f m) = OutboxRecord.id m ∧ OutboxRecord.message_key (f m) = OutboxRecord.message_key m ∧
  OutboxRecord.provider_message_id (f m) = OutboxRecord.provider_message_id m ∧
  OutboxRecord.order_id (f m) = OutboxRecord.order_id m ∧
  OutboxRecord.confirmation_observation_id (f m) = OutboxRecord.confirmation_observation_id m.
Lemma same_keys_clash f r s : same_keys f → row_clash (f r) s = row_clash r s ∧ row_clash (f r) (f s) = row_clash r s.
Proof.
  intros Hf. destruct (Hf r) as (E1 & E2 & E3 & _), (Hf s) as (E4 & E5 & E6 & _).
  simpl. unfold OutboxRecord.clash. by rewrite E1, E2, E3, E4, E5, E6.
Qed.
Lemma same_keys_goes (P : OutboxRecord.row → bool) f d :
  same_keys f → unclashed (Db.outbox d) → (∀ m, m ∈ Db.outbox d → row_fk d m = true) →
  let l := map (λ m, if P m then f m else m) (Db.outbox d) in
  update_where notice_refused P f d = Ok (d <| Db.outbox := l |>) ∧ unclashed l ∧
  (∀ m, m ∈ l → row_fk (d <| Db.outbox := l |>) m = true).
Proof.
  intros Hf Hu Hfk l. assert (∀ m d', Db.orders d' = Db.orders d → Db.observations d' = Db.observations d →
    m ∈ Db.outbox d → row_fk d' (f m) = true) as Hf'.
  { intros m d' E1 E2 Hm. specialize (Hfk m Hm). simpl in Hfk |- *. rewrite E1, E2.
    by destruct (Hf m) as (_ & _ & _ & -> & ->). }
  assert (update_where notice_refused P f d = Ok (d <| Db.outbox := l |>)) as E.
  { refine (update_where_goes (R:=OutboxRecord.row) notice_refused f (λ m, proj1 (Hf m)) P d Hu _ _).
    - intros t m Hm _. unfold notice_refused. by rewrite Hf'.
    - intros r s Hr Hs _ Hne. rewrite (proj1 (same_keys_clash f r s Hf)), (proj2 (same_keys_clash f r s Hf)).
      by split; [|intros _]; apply (unclashed_apart (Db.outbox d)). }
  split; [done|]. split; [exact (proj2 (update_where_result (R:=OutboxRecord.row) notice_refused f (λ m, proj1 (Hf m)) P d _ Hu E))|].
  intros m (m0 & -> & Hm)%list_elem_of_fmap. destruct (P m0); [by apply Hf'|by apply (Hfk m0)].
Qed.

Lemma fill_times_goes d :
  unclashed (Db.outbox d) → (∀ m, m ∈ Db.outbox d → row_fk d m = true) →
  let l := map (λ m, expires_when (updated_when (if was_accepted m then accepted_when m else m))) (Db.outbox d) in
  fill_times d = Ok (d <| Db.outbox := l |>) ∧ unclashed l ∧ (∀ m, m ∈ l → row_fk (d <| Db.outbox := l |>) m = true).
Proof.
  intros Hu Hf l. unfold fill_times.
  destruct (same_keys_goes was_accepted accepted_when d (λ m, ltac:(done)) Hu Hf) as (-> & Hu1 & Hf1). cbn [result_bind].
  set (d1 := d <| Db.outbox := _ |>) in *.
  destruct (same_keys_goes (λ _, true) updated_when d1 (λ m, ltac:(done)) Hu1 Hf1) as (-> & Hu2 & Hf2). cbn [result_bind].
  set (d2 := d1 <| Db.outbox := _ |>) in *.
  destruct (same_keys_goes (λ _, true) expires_when d2 (λ m, ltac:(done)) Hu2 Hf2) as (-> & Hu3 & Hf3).
  unfold d2, d1, l in *. simpl in Hu3, Hf3 |- *. rewrite !map_map in *. done.
Qed.

(** What the joins find. *)
Lemma notice_evidence_inv d m o p ob :
  notice_evidence d m = Some (o, p, ob) →
  (o ∈ Db.orders d ∧ Order.id o = OutboxRecord.order_id m) ∧
  (p ∈ Db.proof_versions d ∧ is_latest d (Order.id o) p = true) ∧
  (ob ∈ Db.observations d ∧ Observation.order_id ob = Order.id o ∧ Observation.proof_version ob = ProofVersion.version p ∧
   1 <= Observation.observed_confirmations ob).
Proof.
  unfold notice_evidence. intros (o' & Ho & E)%bind_Some. apply bind_Some in E as (p' & Hp & E).
  apply bind_Some in E as (ob' & Hob & E). injection E as -> -> ->.
  apply find_row_Some in Ho as [Ho Hoi%bool_decide_eq_true], Hp as [Hp Hpl], Hob as [Hob Hobi].
  rewrite !andb_true_iff, !bool_decide_eq_true in Hobi. destruct Hobi as [[? ?] ?%Z.leb_le]. naive_solver.
Qed.
Lemma notice_key_inj v v' r r' : 0 <= v → 0 <= v' →
  ("bitcoin-confirmed-initial-v" ++ str_int v ++ "-" ++ r)%string =
  ("bitcoin-confirmed-initial-v" ++ str_int v' ++ "-" ++ r')%string → v = v' ∧ r = r'.
Proof.
  intros Hv Hv' E. apply app_inj_length in E as [_ E]; [|done].
  apply (f_equal (partition (is_char "-"))) in E. change ("-" ++ r)%string with (String "-" r) in E.
  change ("-" ++ r')%string with (String "-" r') in E.
  rewrite !partition_first in E by (done || by apply digits_absent). injection E as E ->. by apply (inj str_int) in E.
Qed.
Lemma notice_key_prefix s : String.prefix "bitcoin-confirmed-initial-v" ("bitcoin-confirmed-initial-v" ++ s) = true.
Proof. by destruct s. Qed.

Lemma taken_over_keys m e :
  OutboxRecord.id (taken_over now m e) = OutboxRecord.id m ∧
  OutboxRecord.provider_message_id (taken_over now m e) = OutboxRecord.provider_message_id m ∧
  OutboxRecord.order_id (taken_over now m e) = OutboxRecord.order_id m ∧
  OutboxRecord.kind (taken_over now m e) = "bitcoin-confirmed-initial".
Proof. by destruct e as [[o p] ob]. Qed.
Lemma take_over_id d m : OutboxRecord.id (take_over_with now d m) = OutboxRecord.id m.
Proof. unfold take_over_with. destruct (notice_evidence d m); [apply taken_over_keys|done]. Qed.

Lemma outbox_apart r s :
  row_clash r s = false ↔ OutboxRecord.id r ≠ OutboxRecord.id s ∧ OutboxRecord.message_key r ≠ OutboxRecord.message_key s ∧
    opt_clash (OutboxRecord.provider_message_id r) (OutboxRecord.provider_message_id s) = false.
Proof. simpl. unfold OutboxRecord.clash. rewrite !orb_false_iff, !bool_decide_eq_false. tauto. Qed.

(** Two notices that are taken over under one key are of the same order. *)
Lemma taken_over_apart d r s o p ob o' p' ob' :
  tbl_wf (Db.orders d) → tbl_wf (Db.proof_versions d) →
  notice_evidence d r = Some (o, p, ob) → notice_evidence d s = Some (o', p', ob') →
  OutboxRecord.message_key (taken_over now r (o, p, ob)) = OutboxRecord.message_key (taken_over now s (o', p', ob')) →
  OutboxRecord.order_id r = OutboxRecord.order_id s.
Proof.
  intros Ho Hp ((H1 & <-) & (H3 & _) & _)%notice_evidence_inv ((H1' & <-) & (H3' & _) & _)%notice_evidence_inv Ek.
  pose proof (tbl_wf_check (R:=ProofVersion.row) _ _ Hp H3) as V. pose proof (tbl_wf_check (R:=ProofVersion.row) _ _ Hp H3') as V'.
  simpl in V, V'. unfold ProofVersion.check in V, V'. rewrite !andb_true_iff in V, V'.
  apply notice_key_inj in Ek as [_ Er]; [|lia..].
  assert (o = o') as ->; [|done]. apply (tbl_wf_clash (R:=Order.row) _ _ _ Ho H1 H1'). simpl. unfold Order.clash.
  rewrite (bool_decide_true _ Er). by destruct (Order.id o == Order.id o').
Qed.
Lemma take_over_goes d :
  tbl_wf (Db.orders d) → tbl_wf (Db.proof_versions d) → unclashed (Db.outbox d) →
  (∀ m, m ∈ Db.outbox d → row_fk d m = true) →
  (∀ m m', m ∈ Db.outbox d → m' ∈ Db.outbox d → is_legacy m = true → is_legacy m' = true →
    OutboxRecord.order_id m = OutboxRecord.order_id m' → OutboxRecord.id m = OutboxRecord.id m') →
  (∀ m, m ∈ Db.outbox d → String.prefix "bitcoin-confirmed-initial-v" (OutboxRecord.message_key m) = false) →
  let takes m := is_legacy m && is_some (notice_evidence d m) in
  let l := map (λ m, if takes m then take_over_with now d m else m) (Db.outbox d) in
  take_over_notices now d = Ok (d <| Db.outbox := l |>) ∧ unclashed l ∧
  (∀ m, m ∈ l → row_fk (d <| Db.outbox := l |>) m = true).
Proof.
  intros Ho Hp Hu Hf Hone Hkeys takes l.
  assert (∀ m d', takes m = true → Db.orders d' = Db.orders d → Db.observations d' = Db.observations d →
    row_fk d' (take_over_with now d m) = true) as Hfk.
  { intros m d' [_ Hs]%andb_true_iff E1 E2. unfold take_over_with.
    destruct (notice_evidence d m) as [[[o p] ob]|] eqn:E; [|done].
    apply notice_evidence_inv in E as ((H1 & H2) & _ & H3 & _). apply fk_of_order.
    - rewrite E1. apply (existsb_intro _ _ o H1). by apply bool_decide_true.
    - intros u [= <-]. rewrite E2. apply (existsb_intro _ _ ob H3). by apply bool_decide_true. }
  assert (take_over_notices now d = Ok (d <| Db.outbox := l |>)) as E.
  { refine (update_where_goes (R:=OutboxRecord.row) notice_refused (take_over_with now d) (take_over_id d) takes d Hu _ _).
    - intros t m _ Ht. unfold notice_refused. by rewrite Hfk.
    - intros r s Hr Hs Ht Hne.
      destruct (proj1 (outbox_apart r s) (unclashed_apart (Db.outbox d) r s Hu Hr Hs Hne)) as (Hid & _ & Hpid).
      apply andb_true_iff in Ht as [Hl Ht]. unfold take_over_with.
      destruct (notice_evidence d r) as [[[o p] ob]|] eqn:Er; [clear Ht|done].
      destruct (taken_over_keys r (o, p, ob)) as (E1 & E2 & _).
      split; [apply outbox_apart; rewrite E1, E2; split_and!; try done|].
      + intros Ek. specialize (Hkeys s Hs). rewrite <-Ek in Hkeys.
        pose proof (notice_key_prefix (str_int (ProofVersion.version p) ++ "-" ++ Order.order_reference o)) as Hpre.
        exact (eq_true_false_abs _ Hpre Hkeys).
      + intros [Hl' Ht]%andb_true_iff. destruct (notice_evidence d s) as [[[o' p'] ob']|] eqn:Es; [clear Ht|done].
        destruct (taken_over_keys s (o', p', ob')) as (E1' & E2' & _). apply outbox_apart. rewrite E1, E2, E1', E2'.
        split_and!; [done| |done]. intros Ek. by eapply Hid, Hone, taken_over_apart. }
  split; [done|]. split.
  - exact (proj2 (update_where_result (R:=OutboxRecord.row) notice_refused _ (take_over_id d) takes d _ Hu E)).
  - intros m (m0 & -> & Hm)%list_elem_of_fmap. destruct (takes m0) eqn:Ht; [by apply Hfk|by apply (Hf m0)].
Qed.

(** *** The whole upgrade *)

(** The database after the statements on the orders and the verifications. *)
Definition reviewed_db (d : Db.t) : Db.t :=
  d <| Db.state_events := (Db.state_events d ++
         map (legacy_delivery_event md5_uuid now d) (List.filter is_delivered (Db.orders d)))%list |>
    <| Db.orders := map (λ o, if is_delivered o then reviewed now o else o) (Db.orders d) |>.
Definition upgraded (d : Db.t) : Db.t :=
  let d' := observed (reviewed_db d) in
  d' <| Db.outbox := map (λ m, moved d' (filled m)) (Db.outbox d) |>
     <| Db.notification_attempts := [] |> <| Db.resend_webhook_events := [] |>.

Lemma exists_id_map (f : Order.row → Order.row) u l : (∀ o, Order.id (f o) = Order.id o) →
  exists_id Order.id u (map f l) = exists_id Order.id u l.
Proof.
  intros Hf. unfold exists_id. induction l as [|o l IH]; [done|]. simpl. by rewrite Hf, IH.
Qed.
Lemma reviewed_where_wf (P : Order.row → bool) l :
  (∀ o, P o = true → Order.fulfillment_state o = DELIVERED) → tbl_wf (R:=Order.row) l →
  tbl_wf (R:=Order.row) (map (λ o, if P o then reviewed now o else o) l).
Proof.
  intros HP [Hk Hu]. split.
  - intros r (o & -> & Ho)%list_elem_of_fmap. specialize (Hk o Ho). destruct (P o) eqn:E; [|done].
    apply HP in E. simpl in Hk |- *. unfold Order.check in *. rewrite !andb_true_iff in *. naive_solver.
  - apply unclashed_map; [|done]. intros r s. by destruct (P r), (P s).
Qed.
Lemma reviewed_orders_wf d : tbl_wf (Db.orders d) → tbl_wf (Db.orders (reviewed_db d)).
Proof. apply reviewed_where_wf. intros o. apply bool_decide_eq_true. Qed.
Lemma moved_split d m :
  moved d m = let m' := if is_legacy m && is_some (notice_evidence d m) then take_over_with now d m else m in
              if is_legacy m' then without_evidence now m' else m'.
Proof.
  unfold moved, take_over_with. cbv zeta. destruct (is_legacy m) eqn:El; cbn [andb]; rewrite ?El; [|done].
  unfold is_some. destruct (notice_evidence d m) as [e|]; [|by simpl; rewrite ?El].
  assert (is_legacy (taken_over now m e) = false) as El'; [|cbn [is_none negb]; by rewrite El'].
  unfold is_legacy. by destruct (taken_over_keys m e) as (_ & _ & _ & ->).
Qed.
Lemma filled_fields m :
  OutboxRecord.id (filled m) = OutboxRecord.id m ∧ OutboxRecord.kind (filled m) = OutboxRecord.kind m ∧
  OutboxRecord.order_id (filled m) = OutboxRecord.order_id m ∧
  OutboxRecord.message_key (filled m) = OutboxRecord.message_key m ∧
  OutboxRecord.provider_message_id (filled m) = OutboxRecord.provider_message_id m ∧
  OutboxRecord.recipient (filled m) = OutboxRecord.recipient m ∧
  OutboxRecord.attempt_count (filled m) = OutboxRecord.attempt_count m ∧
  OutboxRecord.lease_until (filled m) = OutboxRecord.lease_until m ∧
  OutboxRecord.lease_owner (filled m) = OutboxRecord.lease_owner m ∧
  OutboxRecord.max_attempts (filled m) = 12 ∧ OutboxRecord.proof_version (filled m) = None ∧
  OutboxRecord.confirmation_count (filled m) = None ∧ OutboxRecord.confirmation_observation_id (filled m) = None ∧
  is_some (OutboxRecord.idempotency_expires_at (filled m)) = true.
Proof. unfold filled. cbv zeta. by destruct (was_accepted _). Qed.
Lemma moved_check d m :
  tbl_wf (Db.proof_versions d) → 0 <= OutboxRecord.attempt_count m →
  (is_none (OutboxRecord.lease_until m) || is_some (OutboxRecord.lease_owner m)) = true →
  OutboxRecord.check (moved d (filled m)) = true.
Proof.
  intros Hp Ha Hl. pose proof (filled_fields m) as (_ & _ & _ & _ & _ & _ & Ea & Eu & Eo & Em & Ev & Ec & _ & Ei).
  rewrite <-Ea in Ha. rewrite <-Eu, <-Eo in Hl. clear Ea Eu Eo. revert Ha Hl Em Ev Ec Ei. generalize (filled m).
  clear m. intros m Ha Hl Em Ev Ec Ei.
  assert (∀ lu lo version count, (is_none lu || is_some lo) = true →
    match version with None => true | Some v => 0 <? v end = true →
    match count with None => true | Some v => 0 <? v end = true → ∀ x,
    OutboxRecord.attempt_count x = OutboxRecord.attempt_count m → OutboxRecord.max_attempts x = OutboxRecord.max_attempts m →
    is_some (OutboxRecord.idempotency_expires_at x) = true → OutboxRecord.lease_until x = lu →
    OutboxRecord.lease_owner x = lo → OutboxRecord.proof_version x = version →
    OutboxRecord.confirmation_count x = count → OutboxRecord.check x = true) as Hx.
  { intros lu lo version count Hlu Hv Hc x E1 E2 E3 E4 E5 E6 E7. unfold OutboxRecord.check.
    rewrite E1, E2, Em, E3, E4, E5, E6, E7, Hlu, Hv, Hc, (proj2 (Z.leb_le _ _) Ha). reflexivity. }
  unfold moved. destruct (is_legacy m); [|by apply (Hx _ _ None None Hl)].
  destruct (notice_evidence d m) as [[[o p] ob]|] eqn:E; [|by apply (Hx None None None None)].
  apply notice_evidence_inv in E as (_ & (H3 & _) & _). apply (tbl_wf_check (R:=ProofVersion.row) _ _ Hp) in H3.
  simpl in H3. unfold ProofVersion.check in H3. rewrite !andb_true_iff in H3.
  destruct H3 as ((((? & _) & _) & _) & _). by apply (Hx None None (Some (ProofVersion.version p)) (Some 1)).
Qed.

Lemma resend_upgrade_goes d (L : legacy_database d) (F : md5_fresh d) :
  resend_upgrade md5_uuid now d = Ok (upgraded d) ∧ db_wf (upgraded d).
Proof.
  pose proof (lg_wf _ L) as W. unfold resend_upgrade.
  rewrite (record_legacy_deliveries_goes d L F). cbn [result_bind].
  set (d1 := d <| Db.state_events := _ |>).
  assert (review_legacy_deliveries now d1 = Ok (reviewed_db d)) as ->.
  { refine (review_goes 1 is_delivered d1 (or_introl eq_refl) _ (wf_orders _ W)). intros o. apply bool_decide_eq_true. }
  cbn [result_bind].
  destruct (observe_goes (reviewed_db d)) as [-> Hob]; [exact (wf_verifications _ W)|exact (lg_verifications _ L)|exact (mf_observations _ F)|].
  cbn [result_bind add_outbox_columns]. set (d3 := observed (reviewed_db d)) in *.
  set (d4 := d3 <| Db.outbox := map (add_columns now) (Db.outbox d3) |>).
  assert (∀ m, m ∈ Db.outbox d4 → row_fk d4 m = true) as Hf4.
  { intros m (m0 & -> & Hm)%list_elem_of_fmap. apply fk_of_order; [|done].
    destruct (lg_messages _ L m0 Hm) as (_ & _ & Hm'). simpl. rewrite exists_id_map; [done|]. intros o. by destruct (is_delivered o). }
  destruct (fill_times_goes d4) as (-> & Hu5 & Hf5); [by apply unclashed_map; [|exact (lg_outbox _ L)]|done|].
  cbn [result_bind]. set (d5 := d4 <| Db.outbox := _ |>) in *.
  assert (Db.outbox d5 = map filled (Db.outbox d)) as E5 by (unfold d5, d4; simpl; by rewrite map_map).
  destruct (take_over_goes d5) as (-> & Hu6 & Hf6); [by apply reviewed_orders_wf, W|exact (wf_proofs _ W)|exact Hu5|exact Hf5|..].
  { rewrite E5. intros m m' (x & -> & Hx)%list_elem_of_fmap (x' & -> & Hx')%list_elem_of_fmap. unfold is_legacy.
    destruct (filled_fields x) as (-> & -> & -> & _), (filled_fields x') as (-> & -> & -> & _). intros.
    by rewrite (lg_notices _ L x x'). }
  { rewrite E5. intros m (x & -> & Hx)%list_elem_of_fmap. destruct (filled_fields x) as (_ & _ & _ & -> & _). by apply (lg_keys _ L). }
  cbn [result_bind]. set (d6 := d5 <| Db.outbox := _ |>) in *.
  destruct (same_keys_goes is_legacy (without_evidence now) d6 (λ m, ltac:(done)) Hu6 Hf6) as (E7 & Hu7 & Hf7).
  unfold bury_notices. rewrite E7. cbn [result_bind]. clear E7. set (d7 := d6 <| Db.outbox := _ |>) in *.
  assert (d7 = d3 <| Db.outbox := map (λ m, moved d3 (filled m)) (Db.outbox d) |>) as E7.
  { transitivity (d3 <| Db.outbox := map (λ m, if is_legacy m then without_evidence now m else m)
      (map (λ m, if is_legacy m && is_some (notice_evidence d5 m) then take_over_with now d5 m else m) (Db.outbox d5)) |>);
      [reflexivity|]. rewrite E5, !map_map. apply (f_equal (λ l, d3 <| Db.outbox := l |>)), map_ext. intros m. symmetry. exact (moved_split d3 (filled m)). }
  assert (unclashed (Db.outbox d7)) as Hu8 by exact Hu7. rewrite E7 in Hu8 |- *. unfold constrain_outbox.
  assert (∀ m, m ∈ map (λ m, moved d3 (filled m)) (Db.outbox d) → OutboxRecord.check m = true) as Hcheck.
  { intros m (x & -> & Hx)%list_elem_of_fmap. destruct (lg_messages _ L x Hx) as (? & ? & _).
    apply moved_check; [exact (wf_proofs _ W)|done..]. }
  assert (forallb OutboxRecord.check (Db.outbox (d3 <| Db.outbox := map (λ m, moved d3 (filled m)) (Db.outbox d) |>)) = true) as ->.
  { apply forallb_forall. intros m Hm%list_elem_of_In. by apply Hcheck. }
  cbn [result_bind]. split; [reflexivity|].
  assert (tbl_wf (R:=OutboxRecord.row) (map (λ m, moved d3 (filled m)) (Db.outbox d))) as Hout by (split; [exact Hcheck|exact Hu8]).
  pose proof (record_legacy_deliveries_goes d L F) as E. apply insert_select_result in E as (_ & _ & _ & He & _);
    [|exact (wf_events _ W)].
  destruct W. split; try assumption. by apply reviewed_orders_wf.
Qed.

(** What a notice becomes: the notification of the first confirmation of the order's latest proof
    version, bound to an observation of the verified block, as the outbox would have enqueued it.
    One that the provider accepted is what a signed delivery event looks for; one that was not
    sent waits to be sent, unless the order is in review. *)
Record carried (d : Db.t) (m m' : OutboxRecord.row) (o : Order.row) (p : ProofVersion.row) (v : ProofVerification.row)
    (ob : Observation.row) : Prop := {
  cr_order : o ∈ Db.orders d ∧ Order.id o = OutboxRecord.order_id m';
  cr_latest : p ∈ Db.proof_versions d ∧ is_latest d (Order.id o) p = true;
  cr_verification : v ∈ Db.proof_verifications d ∧ ProofVerification.order_id v = Order.id o ∧
    ProofVerification.proof_version v = ProofVersion.version p;
  cr_observation : ob ∈ Db.observations d ∧ _observation_matches_verification ob v = true ∧
    OutboxRecord.confirmation_observation_id m' = Some (Observation.id ob);
  cr_message : OutboxRecord.message_key m' = notification_key INITIAL_CONFIRMATION (ProofVersion.version p) (Order.order_reference o) ∧
    OutboxRecord.payload m' = message_payload INITIAL_CONFIRMATION (Order.order_reference o);
  cr_accepted : was_accepted m = true →
    delivery_record o m' = Some (1, ProofVersion.version p, 1, Observation.id ob);
  cr_waiting : was_accepted m = false → OutboxRecord.state m' =
    if Order.fulfillment_state o == MANUAL_REVIEW then OB_DEAD_LETTER else OB_AVAILABLE }.

Lemma elem_reviewed d o : o ∈ Db.orders d →
  (if is_delivered o then reviewed now o else o) ∈ Db.orders (upgraded d).
Proof. intros Ho. apply (list_elem_of_fmap_2 (λ o, if is_delivered o then reviewed now o else o) _ _ Ho). Qed.
Lemma upgraded_supported d (L : legacy_database d) o' :
  o' ∈ Db.orders (upgraded d) → Order.fulfillment_state o' ≠ DELIVERED ∧ supported (upgraded d) o'.
Proof.
  intros (o & -> & Ho)%list_elem_of_fmap. destruct (is_delivered o) eqn:E; [by split|].
  apply bool_decide_eq_false in E. split; [done|]. pose proof (lg_supported _ L o Ho E) as Hs.
  revert E Hs. unfold supported. destruct (Order.fulfillment_state o); intros E Hs; first [exact I|exact Hs|by destruct E|idtac].
  destruct Hs as (p & v & []). exists p, v. by split.
Qed.
Lemma upgraded_history d o : o ∈ Db.orders d → is_delivered o = true →
  ∃ e, e ∈ Db.state_events (upgraded d) ∧ StateEvent.order_id e = Order.id o ∧
    StateEvent.previous_fulfillment_state e = DELIVERED ∧ StateEvent.fulfillment_state e = MANUAL_REVIEW ∧
    ∀ e', e' ∈ Db.state_events d → StateEvent.order_id e' = Order.id o → StateEvent.sequence e' < StateEvent.sequence e.
Proof.
  intros Ho Hd. exists (legacy_delivery_event md5_uuid now d o). split_and!; [|done..|].
  - apply elem_of_app. right. apply (list_elem_of_fmap_2 (legacy_delivery_event md5_uuid now d)), elem_of_filter_rows. by split.
  - intros e' He' E. pose proof (last_sequence_ge d e' He') as Hge. rewrite E in Hge. simpl. lia.
Qed.

(** A notice whose order has its latest proof version verified finds the evidence for it. *)
Lemma notice_evidence_found d m o p v :
  tbl_wf (Db.orders d) → tbl_wf (Db.proof_versions d) →
  o ∈ Db.orders d → Order.id o = OutboxRecord.order_id m → p ∈ Db.proof_versions d → is_latest d (Order.id o) p = true →
  v ∈ Db.proof_verifications d → ProofVerification.order_id v = Order.id o →
  ProofVerification.proof_version v = ProofVersion.version p →
  ∃ ob, notice_evidence (observed d) m = Some (o, p, ob).
Proof.
  intros Wo Wp Ho Hi Hp Hl Hv Hvo Hvp. unfold notice_evidence.
  rewrite (find_row_unique _ (Db.orders (observed d)) o); [|done|by apply bool_decide_true|].
  2: { intros o' Ho' E%bool_decide_eq_true. apply (orders_unique d); try done. congruence. }
  cbn [mbind option_bind].
  rewrite (find_row_unique _ (Db.proof_versions (observed d)) p); [|done|exact Hl|].
  2: { intros p' Hp' Hl'. unfold is_latest in Hl, Hl'. rewrite andb_true_iff, !bool_decide_eq_true in Hl, Hl'.
    destruct Hl as [E1 E2], Hl' as [E1' E2']. simpl in E2, E2'. apply (tbl_wf_clash (R:=ProofVersion.row) _ _ _ Wp Hp' Hp).
    simpl. unfold ProofVersion.clash. rewrite (bool_decide_true (ProofVersion.order_id p' = _)) by congruence.
    rewrite (bool_decide_true (ProofVersion.version p' = _)) by congruence. by rewrite orb_true_r. }
  cbn [mbind option_bind].
  destruct (find_row _ (Db.observations (observed d))) as [ob|] eqn:E; [by exists ob|].
  apply (find_row_None _ _ (legacy_observation md5_uuid v)) in E; [|exact (list_elem_of_fmap_2 (legacy_observation md5_uuid) _ _ Hv)].
  simpl in E. by rewrite !bool_decide_true in E by congruence.
Qed.
Lemma delivery_record_intro o m version ob :
  OutboxRecord.proof_version m = Some version → OutboxRecord.confirmation_count m = Some 1 →
  OutboxRecord.confirmation_observation_id m = Some ob → OutboxRecord.kind m = "bitcoin-confirmed-initial" →
  OutboxRecord.state m = OB_ACCEPTED → was_accepted m = true →
  OutboxRecord.message_key m = notification_key INITIAL_CONFIRMATION version (Order.order_reference o) →
  OutboxRecord.recipient m = Order.email o →
  OutboxRecord.payload m = message_payload INITIAL_CONFIRMATION (Order.order_reference o) →
  delivery_record o m = Some (1, version, 1, ob).
Proof.
  intros E1 E2 E3 E4 E5 E6 E7 E8 E9. unfold delivery_record. rewrite E1, E2, E3, E4, E5, E7, E8, E9.
  change (NotificationKind_of "bitcoin-confirmed-initial") with (Some INITIAL_CONFIRMATION). cbv beta iota zeta.
  unfold was_accepted, is_some in E6. apply negb_true_iff in E6. rewrite E6.
  change (OB_ACCEPTED is_in [OB_ACCEPTED; OB_FAILED]) with true. by rewrite !(bool_decide_true (_ = _)).
Qed.
Lemma carried_over d m o p ob :
  tbl_wf (Db.proof_versions d) → is_legacy m = true →
  notice_evidence (observed d) (filled m) = Some (o, p, ob) →
  (∀ o, o ∈ Db.orders d → Order.id o = OutboxRecord.order_id m → OutboxRecord.recipient m = Order.email o) →
  ∃ v, carried (observed d) m (moved (observed d) (filled m)) o p v ob.
Proof.
  intros Wp Hl E Hr. pose proof (filled_fields m) as (_ & Hk & Hoi & _ & Hpid & Hrec & _).
  assert (was_accepted (filled m) = was_accepted m) as Hacc by (unfold was_accepted; by rewrite Hpid).
  assert (moved (observed d) (filled m) = taken_over now (filled m) (o, p, ob)) as ->.
  { unfold moved, is_legacy in *. by rewrite Hk, Hl, E. }
  rewrite <-Hrec in Hr. rewrite <-Hoi in Hr. revert E Hr Hpid Hacc. generalize (filled m). clear Hk Hoi Hrec Hl. intros x E Hr Hpid Hacc.
  apply notice_evidence_inv in E as ((Ho & Hi) & (Hp & Hlat) & (Hob & Hob1 & Hob2 & _)).
  pose proof Hob as (v & Ev & Hv)%list_elem_of_fmap. exists v.
  split; [exact (conj Ho Hi)|exact (conj Hp Hlat)| | |exact (conj eq_refl eq_refl)| |].
  - subst ob. exact (conj Hv (conj Hob1 Hob2)).
  - split; [done|split; [|reflexivity]]. subst ob. unfold _observation_matches_verification. simpl. by rewrite !bool_decide_true.
  - intros Ha. rewrite <-Hacc in Ha. apply delivery_record_intro; try reflexivity; [cbn; by rewrite Ha|exact Ha|].
    exact (Hr o Ho Hi).
  - intros Ha. rewrite <-Hacc in Ha. cbn. by rewrite Ha.
Qed.
Lemma moved_keeps d m : is_legacy m = true →
  OutboxRecord.id (moved d (filled m)) = OutboxRecord.id m ∧
  OutboxRecord.provider_message_id (moved d (filled m)) = OutboxRecord.provider_message_id m ∧
  (notice_evidence d (filled m) = None →
   OutboxRecord.kind (moved d (filled m)) = "timestamp-complete" ∧ OutboxRecord.state (moved d (filled m)) = OB_DEAD_LETTER).
Proof.
  intros Hl. pose proof (filled_fields m) as (Hi & Hk & _ & _ & Hp & _). unfold moved, is_legacy in *.
  rewrite <-Hi, <-Hp, <-Hk in *. revert Hl. generalize (filled m). intros x Hl. rewrite Hl.
  destruct (notice_evidence d x) as [e|].
  - destruct (taken_over_keys x e) as (E1 & E2 & _). by split_and!.
  - split_and!; [done..|]. intros _. split; [by apply bool_decide_eq_true in Hl|done].
Qed.
Lemma carried_upgraded d m m' o p v ob :
  carried (observed (reviewed_db d)) m m' o p v ob → carried (upgraded d) m m' o p v ob.
Proof. intros []. by split. Qed.

(** C19: Let the database keep the constraints of the earlier revision, with one legacy notice at most
    for an order, sent to its customer; no lease without an owner, no key of a new notice, no
    event of this migration, and evidence for every order not shown as delivered; and let md5 not
    collide on the texts it is given.  Then the upgrade goes through, and leaves a database that
    satisfies every constraint and on which every order that is shown in a state has the evidence
    for it.  No order is shown as delivered any more: each is back in review, with a last event
    that says so.  And no notice is lost: one whose order has its latest proof version verified
    becomes the notification that the outbox would have enqueued, bound to an observation of the
    verified block, which a signed delivery event finds if the provider had accepted it; any other
    keeps its kind and is never sent.  (With two notices for an order the upgrade can break a
    unique key: two_notices_abort_the_upgrade.) *)
Theorem resend_upgrade_is_sound d (legacy : legacy_database d) (fresh : md5_fresh d) :
  ∃ d', resend_upgrade md5_uuid now d = Ok d' ∧ db_wf d' ∧
    (∀ o', o' ∈ Db.orders d' → Order.fulfillment_state o' ≠ DELIVERED ∧ supported d' o') ∧
    (∀ o, o ∈ Db.orders d → Order.fulfillment_state o = DELIVERED → reviewed now o ∈ Db.orders d' ∧
       ∃ e, e ∈ Db.state_events d' ∧ StateEvent.order_id e = Order.id o ∧
         StateEvent.previous_fulfillment_state e = DELIVERED ∧ StateEvent.fulfillment_state e = MANUAL_REVIEW ∧
         ∀ e', e' ∈ Db.state_events d → StateEvent.order_id e' = Order.id o → StateEvent.sequence e' < StateEvent.sequence e) ∧
    (∀ m, m ∈ Db.outbox d → OutboxRecord.kind m = "timestamp-complete" → ∃ m', m' ∈ Db.outbox d' ∧
       OutboxRecord.id m' = OutboxRecord.id m ∧
       OutboxRecord.provider_message_id m' = OutboxRecord.provider_message_id m ∧
       ((OutboxRecord.kind m' = "timestamp-complete" ∧ OutboxRecord.state m' = OB_DEAD_LETTER) ∨
        ∃ o p v ob, carried d' m m' o p v ob) ∧
       (∀ o p v, o ∈ Db.orders d → Order.id o = OutboxRecord.order_id m →
          p ∈ Db.proof_versions d → is_latest d (Order.id o) p = true → v ∈ Db.proof_verifications d →
          ProofVerification.order_id v = Order.id o → ProofVerification.proof_version v = ProofVersion.version p →
          ∃ o' v' ob, carried d' m m' o' p v' ob ∧ Order.id o' = Order.id o)).
Proof.
  pose proof (lg_wf _ legacy) as W. destruct (resend_upgrade_goes d legacy fresh) as [E Wf].
  exists (upgraded d). split_and!; [exact E|exact Wf|by apply upgraded_supported| |].
  - intros o Ho Hd. assert (is_delivered o = true) as Hd' by by apply bool_decide_true.
    split; [|by apply upgraded_history]. pose proof (elem_reviewed d o Ho) as Hr. by rewrite Hd' in Hr.
  - intros m Hm Hk. assert (is_legacy m = true) as Hl by by apply bool_decide_true.
    exists (moved (observed (reviewed_db d)) (filled m)).
    assert (∀ o, o ∈ Db.orders (reviewed_db d) → Order.id o = OutboxRecord.order_id m → OutboxRecord.recipient m = Order.email o) as Hr.
    { intros o (o0 & -> & Ho)%list_elem_of_fmap Hi. rewrite (lg_recipients _ legacy m o0) by (try done; by destruct (is_delivered o0)).
      by destruct (is_delivered o0). }
    destruct (moved_keeps (observed (reviewed_db d)) m Hl) as (Ei & Ep & Hnone).
    split_and!; [|exact Ei|exact Ep| |].
    + exact (list_elem_of_fmap_2 (λ m, moved (observed (reviewed_db d)) (filled m)) _ _ Hm).
    + destruct (notice_evidence (observed (reviewed_db d)) (filled m)) as [[[o p] ob]|] eqn:En; [right|left; by apply Hnone].
      destruct (carried_over (reviewed_db d) m o p ob) as [v Hc]; [exact (wf_proofs _ W)|done..|].
      exists o, p, v, ob. by apply carried_upgraded.
    + intros o p v Ho Hi Hp Hlat Hv Hvo Hvp.
      destruct (notice_evidence_found (reviewed_db d) (filled m) (if is_delivered o then reviewed now o else o) p v) as [ob En].
      * by apply reviewed_orders_wf, W.
      * exact (wf_proofs _ W).
      * exact (elem_reviewed d o Ho).
      * destruct (filled_fields m) as (_ & _ & -> & _). by destruct (is_delivered o).
      * done.
      * by destruct (is_delivered o).
      * done.
      * by destruct (is_delivered o).
      * done.
      * destruct (carried_over (reviewed_db d) m _ p ob (wf_proofs _ W) Hl En Hr) as [v' Hc].
        eexists _, v', ob. split; [by apply carried_upgraded|by destruct (is_delivered o)].
Qed.

Lemma first_generation_wf l : tbl_wf (R:=DurableJob.row) l → tbl_wf (R:=DurableJob.row) (map first_generation l).
Proof.
  intros [Hk Hu]. split; [|by apply unclashed_map].
  intros r (j & -> & Hj)%list_elem_of_fmap. specialize (Hk j Hj). simpl in Hk |- *. unfold DurableJob.check in *.
  rewrite !andb_true_iff in *. naive_solver.
Qed.
Lemma first_dispatch_name j :
  deterministic_task_name (DurableJob.id j) 1 = Ok (TaskDispatch.task_name (first_dispatch md5_uuid now j)).
Proof.
  rewrite deterministic_task_name_spec. unfold task_name. cbn [TaskDispatch.task_name first_dispatch]. by rewrite replace_dashes.
Qed.
Lemma job_id_range l j : tbl_wf (R:=DurableJob.row) l → j ∈ l → 0 <= DurableJob.id j < 2 ^ 128.
Proof.
  intros [Hk _] Hj. specialize (Hk j Hj). simpl in Hk. unfold DurableJob.check in Hk. rewrite !andb_true_iff in Hk. lia.
Qed.
Lemma dispatches_inserted d jobs :
  Db.task_dispatches d = [] → Db.durable_jobs d = jobs → tbl_wf (R:=DurableJob.row) jobs →
  (∀ j j', j ∈ jobs → j' ∈ jobs →
    TaskDispatch.id (first_dispatch md5_uuid now j) = TaskDispatch.id (first_dispatch md5_uuid now j') → j = j') →
  insert_select same_generation (map (first_dispatch md5_uuid now) (List.filter is_runnable jobs)) d =
    Ok (d <| Db.task_dispatches := map (first_dispatch md5_uuid now) (List.filter is_runnable jobs) |>).
Proof.
  intros E Ej Hj Hfresh. rewrite insert_select_goes; [by simpl; rewrite E|..].
  - by intros r (j & -> & _)%list_elem_of_fmap.
  - intros t r (j & -> & [Hin _]%elem_of_filter_rows)%list_elem_of_fmap.
    simpl. rewrite Ej. apply (existsb_intro _ _ j Hin). by apply bool_decide_true.
  - intros r s _. simpl. rewrite E. by intros ?%not_elem_of_nil.
  - apply NoDup_fmap_2_strong; [|eapply sublist_NoDup; [|apply sublist_filter_rows]].
    + intros x y [? _]%elem_of_filter_rows [? _]%elem_of_filter_rows Ex. apply Hfresh; [done..|by rewrite Ex].
    + eapply NoDup_fmap_1, (tbl_wf_NoDup (R:=DurableJob.row) _ Hj).
  - intros r s (j & -> & [Hin _]%elem_of_filter_rows)%list_elem_of_fmap
      (j' & -> & [Hin' _]%elem_of_filter_rows)%list_elem_of_fmap Hne.
    assert (j ≠ j') as Hjj by congruence.
    assert (DurableJob.id j ≠ DurableJob.id j') as Hid by (intros Ei; by apply Hjj, (tbl_wf_id (R:=DurableJob.row) _ _ _ Hj)).
    split; [|unfold same_generation; by rewrite (bool_decide_false (TaskDispatch.job_id _ = _))].
    change (TaskDispatch.clash (first_dispatch md5_uuid now j) (first_dispatch md5_uuid now j') = false).
    unfold TaskDispatch.clash. rewrite (bool_decide_false (TaskDispatch.id _ = _)) by (by intros ?%Hfresh).
    rewrite (bool_decide_false (TaskDispatch.job_id _ = _)) by exact Hid. apply bool_decide_false.
    intros En. apply Hid, (task_name_identifies _ _ 1 1 (TaskDispatch.task_name (first_dispatch md5_uuid now j)));
      [by apply first_dispatch_name|rewrite En; by apply first_dispatch_name|by apply (job_id_range jobs)..].
Qed.

(** ** The upgrade to 20260831_0003 *)

(** The upgrade gives every job that is to be run, and no other, its task: whatever the state
    of the queue was, each job starts at generation one, and there is exactly one pending
    dispatch for each job that is available, waits for another try or is leased, for that
    generation, due when the job is, and under the name that the dispatcher's own
    [deterministic_task_name] gives it. *)
Theorem tasks_upgrade_dispatches d
    (wf : tbl_wf (Db.durable_jobs d))
    (fresh : ∀ j j', j ∈ Db.durable_jobs d → j' ∈ Db.durable_jobs d →
       TaskDispatch.id (first_dispatch md5_uuid now j) = TaskDispatch.id (first_dispatch md5_uuid now j') → j = j') :
  ∃ d', tasks_upgrade md5_uuid now d = Ok d' ∧
    tbl_wf (Db.durable_jobs d') ∧ tbl_wf (Db.task_dispatches d') ∧
    Db.durable_jobs d' = map first_generation (Db.durable_jobs d) ∧
    (∀ j, j ∈ Db.durable_jobs d' → DurableJob.generation j = 1 ∧
       (is_runnable j = true → ∃ t, t ∈ Db.task_dispatches d' ∧ TaskDispatch.job_id t = DurableJob.id j ∧
          TaskDispatch.generation t = DurableJob.generation j ∧ TaskDispatch.state t = PENDING ∧
          TaskDispatch.schedule_at t = DurableJob.available_at j ∧
          deterministic_task_name (DurableJob.id j) (DurableJob.generation j) = Ok (TaskDispatch.task_name t))) ∧
    (∀ t, t ∈ Db.task_dispatches d' → ∃ j, j ∈ Db.durable_jobs d' ∧ is_runnable j = true ∧ TaskDispatch.job_id t = DurableJob.id j).
Proof.
  set (jobs := map first_generation (Db.durable_jobs d)).
  set (d1 := d <| Db.durable_jobs := jobs |> <| Db.task_dispatches := [] |>).
  set (new := map (first_dispatch md5_uuid now) (List.filter is_runnable jobs)).
  assert (tbl_wf (R:=DurableJob.row) jobs) as Hj by by apply first_generation_wf.
  assert (∀ j j', j ∈ jobs → j' ∈ jobs →
    TaskDispatch.id (first_dispatch md5_uuid now j) = TaskDispatch.id (first_dispatch md5_uuid now j') → j = j') as Hfresh.
  { intros j j' (x & -> & Hx)%list_elem_of_fmap (x' & -> & Hx')%list_elem_of_fmap E. by rewrite (fresh x x'). }
  assert (tasks_upgrade md5_uuid now d = Ok (d1 <| Db.task_dispatches := new |>)) as E.
  { exact (dispatches_inserted d1 jobs eq_refl eq_refl Hj Hfresh). }
  assert (tbl_wf (R:=TaskDispatch.row) new) as Hd.
  { apply (insert_select_result (R:=TaskDispatch.row)) in E as (_ & _ & _ & Hd & _); [exact Hd|apply tbl_wf_nil]. }
  eexists. split_and!; [exact E|exact Hj|exact Hd|done|..].
  - intros j Hin. assert (DurableJob.generation j = 1) as Hg by (by apply list_elem_of_fmap in Hin as (x & -> & _)).
    split; [done|]. intros Hr. exists (first_dispatch md5_uuid now j). split_and!; try done.
    + apply (list_elem_of_fmap_2 (first_dispatch md5_uuid now)), elem_of_filter_rows. by split.
    + rewrite Hg. apply first_dispatch_name.
  - intros t (j & -> & [Hin Hr]%elem_of_filter_rows)%list_elem_of_fmap. by exists j.
Qed.
End Upgrade.

(** ** The downgrade from 20260827_0002 *)

Section Numbers.
Context {A : Type} (part : A → uuid) (key : A → list Z).
Implicit Types l : list A.

Lemma filter_length_lt (P Q : A → bool) l y :
  (∀ z, P z = true → Q z = true) → y ∈ l → P y = false → Q y = true →
  (List.length (List.filter P l) < List.length (List.filter Q l))%nat.
Proof.
  intros HPQ Hy HP HQ. assert (∀ k, (List.length (List.filter P k) <= List.length (List.filter Q k))%nat) as Hle.
  { induction k as [|z k IH]; [done|]. simpl. destruct (P z) eqn:E; [rewrite (HPQ z E); simpl; lia|].
    destruct (Q z); simpl; lia. }
  induction l as [|z l IH]; [by apply not_elem_of_nil in Hy|]. simpl. apply elem_of_cons in Hy as [<-|Hy].
  - rewrite HP, HQ. simpl. specialize (Hle l). lia.
  - specialize (IH Hy). destruct (P z) eqn:E; [rewrite (HPQ z E); simpl; lia|]. destruct (Q z); simpl; lia.
Qed.
(** [ROW_NUMBER] numbers the rows of a partition from one on, without a repetition. *)
Lemma row_number_pos l x : 1 <= row_number part key l x.
Proof. unfold row_number. lia. Qed.
Lemma row_number_lt l x y :
  y ∈ l → part x = part y → key_le (key x) (key y) = false → row_number part key l y < row_number part key l x.
Proof.
  intros Hy Hp Hk. unfold row_number. rewrite Hp.
  pose proof (filter_length_lt (λ z, (part z == part y) && negb (key_le (key y) (key z)))
    (λ z, (part z == part y) && negb (key_le (key x) (key z))) l y) as Hlt.
  assert (key_le (key y) (key y) = true) as Hr by (destruct (key_le (key y) (key y)) eqn:E; [done|by rewrite (key_le_total _ _ E) in E]).
  enough (List.length (List.filter (λ z, (part z == part y) && negb (key_le (key y) (key z))) l) <
    List.length (List.filter (λ z, (part z == part y) && negb (key_le (key x) (key z))) l))%nat by lia.
  apply Hlt; [|done|by rewrite Hr, andb_false_r|by rewrite Hk, bool_decide_true].
  intros z. rewrite !andb_true_iff, !negb_true_iff. intros [? Hz]. split; [done|].
  apply not_true_iff_false. intros Hx. assert (key_le (key x) (key y) = true); [|congruence].
  eapply key_le_trans; [exact Hx|by apply key_le_total].
Qed.
Lemma row_number_inj l x y :
  x ∈ l → y ∈ l → part x = part y → row_number part key l x = row_number part key l y →
  key_le (key x) (key y) = true ∧ key_le (key y) (key x) = true.
Proof.
  intros Hx Hy Hp E. split; apply not_false_iff_true; intros Hk.
  - pose proof (row_number_lt l x y Hy Hp Hk). lia.
  - pose proof (row_number_lt l y x Hx (eq_sym Hp) Hk). lia.
Qed.
End Numbers.

Section Downgrade.
Context (md5_uuid : string → uuid) (now : Z).

(** The texts that the statements hash: for the orders that lose their support, and for the rows
    that become events. *)
Definition unsupported_text (o : Order.row) : string :=
  str_uuid (Order.id o) ++ "-delivery-downgrade-unsupported-delivered".
Definition prefixes : list string :=
  ["downgrade-confirmation-"; "downgrade-resend-"; "downgrade-attempt-"; "downgrade-notification-"].
Definition hashed (d : Db.t) (s : string) : Prop :=
  (∃ o, o ∈ Db.orders d ∧ s = unsupported_text o) ∨
  ∃ p u, p ∈ prefixes ∧ s = (p ++ str_uuid u)%string ∧
    (u ∈ map Observation.id (Db.observations d) ∨ u ∈ map ResendWebhookEvent.id (Db.resend_webhook_events d) ∨
     u ∈ map NotificationAttempt.id (Db.notification_attempts d) ∨ u ∈ map OutboxRecord.id (Db.outbox d)).

Lemma prefixes_apart p p' s s' : p ∈ prefixes → p' ∈ prefixes → p ≠ p' → (p ++ s)%string ≠ (p' ++ s')%string.
Proof.
  unfold prefixes. rewrite !elem_of_cons. intros [->|[->|[->|[->|[]%not_elem_of_nil]]]] [->|[->|[->|[->|[]%not_elem_of_nil]]]] Hne E;
    first [by destruct Hne|discriminate E].
Qed.
Lemma prefix_text_inj p u u' : 0 <= u < 2 ^ 128 → 0 <= u' < 2 ^ 128 →
  (p ++ str_uuid u)%string = (p ++ str_uuid u')%string → u = u'.
Proof. intros Hu Hu' [_ E]%app_inj_length; [|done]. apply (f_equal PyStr.UUID) in E. rewrite !UUID_str in E by done. congruence. Qed.
Lemma unsupported_apart o p s : p ∈ prefixes → unsupported_text o ≠ (p ++ s)%string.
Proof.
  unfold unsupported_text. pose proof (str_uuid_chars (Order.id o)) as Hc. revert Hc. generalize (str_uuid (Order.id o)).
  intros [|c [|c' t]] Hc; unfold prefixes; rewrite !elem_of_cons;
    intros [->|[->|[->|[->|[]%not_elem_of_nil]]]] E; try discriminate E;
    rewrite !string_app_cons in E; injection E as -> -> _; discriminate Hc.
Qed.

(** *** One statement *)

(** Where an event of the database comes from, when the statements [ps] have run. *)
Definition event_from (d : Db.t) (ps : list string) (e : StateEvent.row) : Prop :=
  e ∈ Db.state_events d ∨
  (∃ o, o ∈ Db.orders d ∧ StateEvent.id e = md5_uuid (unsupported_text o) ∧
     StateEvent.event_key e = "downgrade-delivery-unsupported-delivered") ∨
  ∃ p s, p ∈ ps ∧ hashed d (p ++ s) ∧ StateEvent.id e = md5_uuid (p ++ s) ∧ StateEvent.event_key e = (p ++ s)%string.

(** The database before the downgrade: its constraints, the types of its keys, no event of an
    earlier downgrade, no key of a notice in the old form, one initial notice for a proof version,
    and a hash without collisions on the texts. *)
Record downgradable (d : Db.t) : Prop := {
  dg_wf : db_wf d;
  dg_ids u : u ∈ map Observation.id (Db.observations d) ∨ u ∈ map ResendWebhookEvent.id (Db.resend_webhook_events d) ∨
    u ∈ map NotificationAttempt.id (Db.notification_attempts d) ∨ u ∈ map OutboxRecord.id (Db.outbox d) → 0 <= u < 2 ^ 128;
  dg_events e : e ∈ Db.state_events d → String.prefix "downgrade-" (StateEvent.event_key e) = false;
  dg_old s e : hashed d s → e ∈ Db.state_events d → md5_uuid s ≠ StateEvent.id e;
  dg_hash s s' : hashed d s → hashed d s' → md5_uuid s = md5_uuid s' → s = s';
  dg_orders : (∀ ob, ob ∈ Db.observations d → exists_id Order.id (Observation.order_id ob) (Db.orders d) = true) ∧
    (∀ m, m ∈ Db.outbox d → row_fk d m = true) ∧
    (∀ a, a ∈ Db.notification_attempts d → exists_id OutboxRecord.id (NotificationAttempt.outbox_id a) (Db.outbox d) = true);
  dg_keys m : m ∈ Db.outbox d → String.prefix "timestamp-complete-v" (OutboxRecord.message_key m) = false;
  dg_notices m m' version : m ∈ Db.outbox d → m' ∈ Db.outbox d →
    OutboxRecord.kind m = "bitcoin-confirmed-initial" → OutboxRecord.kind m' = "bitcoin-confirmed-initial" →
    OutboxRecord.proof_version m = Some version → OutboxRecord.proof_version m' = Some version →
    OutboxRecord.order_id m = OutboxRecord.order_id m' → m = m' }.

(** The rows a statement turns into events. *)
Record candidates_of (d : Db.t) (p : string) (l : list Candidate) : Prop := {
  ca_prefix : p ∈ prefixes;
  ca_ids : NoDup (map candidate_id l);
  ca_hashed c : c ∈ l → hashed d (p ++ str_uuid (candidate_id c)) ∧ 0 <= candidate_id c < 2 ^ 128 }.

Lemma candidate_id_inj l c c' : NoDup (map candidate_id l) → c ∈ l → c' ∈ l → candidate_id c = candidate_id c' → c = c'.
Proof.
  intros Hn [i Hi]%list_elem_of_lookup [j Hj]%list_elem_of_lookup E. assert (i = j) as ->; [|congruence].
  eapply (NoDup_lookup (map candidate_id l)); [done| |]; rewrite list_lookup_fmap; [by rewrite Hi|by rewrite Hj; simpl; f_equal].
Qed.
Lemma candidate_same d p l c c' : candidates_of d p l → c ∈ l → c' ∈ l →
  (p ++ str_uuid (candidate_id c))%string = (p ++ str_uuid (candidate_id c'))%string → c = c'.
Proof.
  intros C Hc Hc' E. apply (candidate_id_inj l); [apply C|done..|].
  eapply prefix_text_inj; [by apply (ca_hashed _ _ _ C)..|exact E].
Qed.

Lemma keep_evidence_goes d p ps candidates d0 :
  downgradable d → candidates_of d p (candidates d0) → p ∉ ps → (∀ p', p' ∈ ps → p' ∈ prefixes) →
  (∀ e, e ∈ Db.state_events d0 → event_from d ps e) →
  (∀ c, c ∈ candidates d0 → exists_id Order.id (Order.id (candidate_order c)) (Db.orders d0) = true) →
  let d1 := d0 <| Db.state_events := (Db.state_events d0 ++
              map (candidate_event md5_uuid p d0 (candidates d0)) (candidates d0))%list |> in
  keep_evidence md5_uuid p candidates d0 = Ok d1 ∧ (∀ e, e ∈ Db.state_events d1 → event_from d (p :: ps) e).
Proof.
  intros D C Hp Hps Hfrom Hex d1. pose proof (ca_prefix _ _ _ C) as Hpre.
  assert (∀ c e, c ∈ candidates d0 → e ∈ Db.state_events d0 →
    md5_uuid (p ++ str_uuid (candidate_id c)) ≠ StateEvent.id e ∧
    (p ++ str_uuid (candidate_id c))%string ≠ StateEvent.event_key e) as Hnew.
  { intros c e Hc He. destruct (ca_hashed _ _ _ C c Hc) as [Hh Hr].
    destruct (Hfrom e He) as [Ho|[(o & Ho & -> & ->)|(p' & s & Hp' & Hh' & -> & ->)]].
    - split; [by apply (dg_old _ D)|]. intros E. pose proof (dg_events _ D e Ho) as Hk. rewrite <-E in Hk.
      revert Hk. clear -Hpre. unfold prefixes in Hpre. rewrite !elem_of_cons in Hpre.
      destruct Hpre as [->|[->|[->|[->|[]%not_elem_of_nil]]]]; discriminate.
    - split.
      + intros E%(dg_hash _ D); [|done|left; by exists o]. by apply (unsupported_apart o p (str_uuid (candidate_id c)) Hpre).
      + clear -Hpre. unfold prefixes in Hpre. rewrite !elem_of_cons in Hpre.
        destruct Hpre as [->|[->|[->|[->|[]%not_elem_of_nil]]]]; discriminate.
    - assert (p ≠ p') as Hne by (intros ->; done).
      pose proof (prefixes_apart p p' (str_uuid (candidate_id c)) s Hpre (Hps p' Hp') Hne) as Ht.
      split; [|done]. by intros E%(dg_hash _ D). }
  split.
  - unfold keep_evidence. rewrite insert_select_goes; [done|..].
    + by intros r (c & -> & _)%list_elem_of_fmap.
    + intros t r (c & -> & Hc)%list_elem_of_fmap. by apply Hex.
    + intros r s (c & -> & Hc)%list_elem_of_fmap Hs. destruct (Hnew c s Hc Hs) as [H1 H2]. apply event_fits; [done|].
      intros E. split; [|done]. pose proof (last_sequence_ge d0 s Hs) as Hge. simpl in E |- *. rewrite <-E in Hge.
      pose proof (row_number_pos (λ c, Order.id (candidate_order c)) (λ c, [candidate_created_at c; candidate_id c]) (candidates d0) c). lia.
    + apply NoDup_fmap_2_strong; [|by eapply NoDup_fmap_1, (ca_ids _ _ _ C)].
      intros c c' Hc Hc' E. apply (f_equal StateEvent.event_key) in E. simpl in E.
      by eapply candidate_same.
    + intros r s (c & -> & Hc)%list_elem_of_fmap (c' & -> & Hc')%list_elem_of_fmap Hne.
      assert (c ≠ c') as Hcc by congruence.
      assert ((p ++ str_uuid (candidate_id c))%string ≠ (p ++ str_uuid (candidate_id c'))%string) as Ht
        by (intros E; by eapply Hcc, candidate_same).
      apply event_fits.
      * simpl. intros E%(dg_hash _ D); [done|by apply (ca_hashed _ _ _ C)..].
      * intros E. split; [|done]. simpl in E |- *. rewrite E. intros Hn. apply Hcc.
        assert (row_number (λ c, Order.id (candidate_order c)) (λ c, [candidate_created_at c; candidate_id c]) (candidates d0) c =
          row_number (λ c, Order.id (candidate_order c)) (λ c, [candidate_created_at c; candidate_id c]) (candidates d0) c') as Hr by lia.
        apply row_number_inj in Hr as [H1 H2]; [|done..]. simpl in H1, H2.
        apply (candidate_id_inj (candidates d0)); [by apply (ca_ids _ _ _ C)|done..|].
        rewrite orb_true_iff, andb_true_iff, orb_true_iff, andb_true_iff in H1, H2. lia.
  - intros e [He|(c & -> & Hc)%list_elem_of_fmap]%elem_of_app.
    + destruct (Hfrom e He) as [?|[?|(p' & s & ? & ?)]]; [by left|right; by left|right; right]. exists p', s. split; [by right|done].
    + right; right. exists p, (str_uuid (candidate_id c)). split_and!; [left|by apply (ca_hashed _ _ _ C)|done..].
Qed.

(** *** All four statements *)

(** The event that keeps a row: of its order, under a key that names it, with what it held. *)
Definition recorded (d : Db.t) (order : uuid) (key : string) (evidence : list (string * evidence_value)) : Prop :=
  ∃ e, e ∈ Db.state_events d ∧ StateEvent.order_id e = order ∧ StateEvent.event_key e = key ∧
    StateEvent.evidence e = evidence.
Definition with_events (d : Db.t) (l : list StateEvent.row) : Db.t := d <| Db.state_events := l |>.

Lemma run_evidence_goes d d0 : downgradable d → ∀ (l : list (string * (Db.t → list Candidate))) ps,
  (∀ p c, (p, c) ∈ l → (∀ k, c (with_events d0 k) = c d0) ∧ candidates_of d p (c d0) ∧
     ∀ x, x ∈ c d0 → exists_id Order.id (Order.id (candidate_order x)) (Db.orders d0) = true) →
  NoDup (map fst l ++ ps) → (∀ p, p ∈ ps → p ∈ prefixes) →
  (∀ e, e ∈ Db.state_events d0 → event_from d ps e) →
  ∃ more, run_statements (map (λ s, keep_evidence md5_uuid s.1 s.2) l) d0 = Ok (with_events d0 (Db.state_events d0 ++ more)) ∧
    ∀ p c x, (p, c) ∈ l → x ∈ c d0 →
      recorded (with_events d0 (Db.state_events d0 ++ more)) (Order.id (candidate_order x))
        (p ++ str_uuid (candidate_id x)) (candidate_evidence x).
Proof.
  intros D l. revert d0. induction l as [|[p c] l IH]; intros d0 ps Hl Hn Hps Hfrom.
  { exists []. split; [|by intros ? ? ? ?%not_elem_of_nil]. cbn. unfold with_events. rewrite app_nil_r. by destruct d0. }
  destruct (Hl p c) as (_ & Hc & Ho); [left|]. cbn [map fst app] in Hn. apply NoDup_cons in Hn as [Hp Hn].
  assert (p ∉ ps) as Hp' by (intros ?; apply Hp, elem_of_app; by right).
  destruct (keep_evidence_goes d p ps c d0 D Hc Hp' Hps Hfrom Ho) as [E Hfrom'].
  cbn [map run_statements fst snd]. rewrite E. cbn [result_bind].
  set (here := map (candidate_event md5_uuid p d0 (c d0)) (c d0)) in *.
  change (d0 <| Db.state_events := (Db.state_events d0 ++ here)%list |>) with (with_events d0 (Db.state_events d0 ++ here)) in *.
  destruct (IH (with_events d0 (Db.state_events d0 ++ here)) (p :: ps)) as (more & E' & Hrec).
  - intros p' c' Hin. destruct (Hl p' c') as (Hs & Hc' & Ho'); [by right|]. rewrite Hs. by split_and!.
  - rewrite <-Permutation_middle. apply NoDup_cons. by split.
  - intros p' [->|?]%elem_of_cons; [apply (ca_prefix _ _ _ Hc)|by apply Hps].
  - exact Hfrom'.
  - change (with_events (with_events d0 (Db.state_events d0 ++ here))
      (Db.state_events (with_events d0 (Db.state_events d0 ++ here)) ++ more)) with
      (with_events d0 ((Db.state_events d0 ++ here) ++ more)) in *. rewrite <-app_assoc in *.
    exists (here ++ more)%list. split; [exact E'|].
    intros p' c' x [[= -> ->]|Hin]%elem_of_cons Hx.
    + exists (candidate_event md5_uuid p d0 (c d0) x). split; [|done]. apply elem_of_app. right. apply elem_of_app. left.
      exact (list_elem_of_fmap_2 (candidate_event md5_uuid p d0 (c d0)) _ _ Hx).
    + destruct (Hl p' c') as (Hs & _); [by right|]. apply (Hrec p' c' x Hin). by rewrite Hs.
Qed.

(** *** What becomes a candidate *)

Lemma omap_ids {X} (f : X → option Candidate) (g : X → uuid) l :
  (∀ x c, f x = Some c → candidate_id c = g x) → map candidate_id (omap f l) `sublist_of` map g l.
Proof.
  intros Hf. induction l as [|x l IH]; [done|]. cbn. destruct (f x) as [c|] eqn:E; [|by apply sublist_cons].
  cbn. rewrite (Hf x c E). by apply sublist_skip.
Qed.
Lemma joined_order_Some d u o : joined_order d u = Some o → o ∈ Db.orders d ∧ Order.id o = u.
Proof. by intros [? ?%bool_decide_eq_true]%find_row_Some. Qed.
Lemma joined_order_exists d u : exists_id Order.id u (Db.orders d) = true → ∃ o, joined_order d u = Some o.
Proof.
  intros (o & Ho%list_elem_of_In & E)%existsb_exists. unfold joined_order.
  destruct (find_row _ _) as [o'|] eqn:F; [by exists o'|]. by rewrite (find_row_None _ _ o F Ho) in E.
Qed.
Lemma order_exists d o : o ∈ Db.orders d → exists_id Order.id (Order.id o) (Db.orders d) = true.
Proof. intros Ho. apply (existsb_intro _ _ o Ho). by apply bool_decide_true. Qed.

(** The rows that the statements read are those of the database before. *)
Record same_evidence (d d0 : Db.t) : Prop := {
  se_observations : Db.observations d0 = Db.observations d;
  se_webhooks : Db.resend_webhook_events d0 = Db.resend_webhook_events d;
  se_attempts : Db.notification_attempts d0 = Db.notification_attempts d;
  se_outbox : Db.outbox d0 = Db.outbox d;
  se_orders u : exists_id Order.id u (Db.orders d0) = exists_id Order.id u (Db.orders d) }.

Lemma candidates_of_omap {X} d p (f : X → option Candidate) (g : X → uuid) l :
  p ∈ prefixes → downgradable d → NoDup (map g l) → (∀ x c, f x = Some c → candidate_id c = g x) →
  (∀ u, u ∈ map g l → u ∈ map Observation.id (Db.observations d) ∨ u ∈ map ResendWebhookEvent.id (Db.resend_webhook_events d) ∨
     u ∈ map NotificationAttempt.id (Db.notification_attempts d) ∨ u ∈ map OutboxRecord.id (Db.outbox d)) →
  candidates_of d p (omap f l).
Proof.
  intros Hp D Hn Hf Hin. split; [done|eapply sublist_NoDup; [exact Hn|by apply omap_ids]|].
  intros c (x & Hx & E)%list_elem_of_omap. apply Hf in E as ->.
  assert (g x ∈ map g l) as Hg by exact (list_elem_of_fmap_2 g _ _ Hx).
  split; [|by apply (dg_ids _ D), Hin]. right. exists p, (g x). split_and!; [done..|by apply Hin].
Qed.

Definition evidence_sources : list (string * (Db.t → list Candidate)) := [
  ("downgrade-confirmation-", observation_candidates); ("downgrade-resend-", webhook_candidates);
  ("downgrade-attempt-", attempt_candidates); ("downgrade-notification-", notice_candidates)].

Lemma joined_sender_Some d P m o : joined_sender d P = Some (m, o) →
  m ∈ Db.outbox d ∧ P m = true ∧ o ∈ Db.orders d ∧ Order.id o = OutboxRecord.order_id m.
Proof.
  unfold joined_sender. intros (m' & Hm & E)%bind_Some. apply bind_Some in E as (o' & Ho & [= <- <-]).
  apply find_row_Some in Hm as [? ?]. apply joined_order_Some in Ho as [? ?]. done.
Qed.
Lemma source_candidates d d0 p c : downgradable d → same_evidence d d0 → (p, c) ∈ evidence_sources →
  (∀ k, c (with_events d0 k) = c d0) ∧ candidates_of d p (c d0) ∧
  ∀ x, x ∈ c d0 → exists_id Order.id (Order.id (candidate_order x)) (Db.orders d0) = true.
Proof.
  intros D S. pose proof (dg_wf _ D) as W. unfold evidence_sources. rewrite !elem_of_cons.
  intros [[= -> ->]|[[= -> ->]|[[= -> ->]|[[= -> ->]|[]%not_elem_of_nil]]]]; (split; [done|split]).
  - unfold observation_candidates. rewrite (se_observations _ _ S). apply (candidates_of_omap _ _ _ Observation.id); [left|done| | |auto].
    + exact (tbl_wf_NoDup (R:=Observation.row) _ (wf_observations _ W)).
    + intros x c (o & _ & [= <-])%bind_Some. done.
  - intros x (ob & _ & (o & [Ho _]%joined_order_Some & [= <-])%bind_Some)%list_elem_of_omap. by apply order_exists.
  - unfold webhook_candidates. rewrite (se_webhooks _ _ S).
    apply (candidates_of_omap _ _ _ ResendWebhookEvent.id); [right; left|done| | |auto].
    + exact (tbl_wf_NoDup (R:=ResendWebhookEvent.row) _ (wf_resend _ W)).
    + intros x c ([m o] & _ & [= <-])%bind_Some. done.
  - intros x (ob & _ & ([m o] & (_ & _ & Ho & _)%joined_sender_Some & [= <-])%bind_Some)%list_elem_of_omap. by apply order_exists.
  - unfold attempt_candidates. rewrite (se_attempts _ _ S).
    apply (candidates_of_omap _ _ _ NotificationAttempt.id); [right; right; left|done| | |auto].
    + exact (tbl_wf_NoDup (R:=NotificationAttempt.row) _ (wf_notification_attempts _ W)).
    + intros x c ([m o] & _ & [= <-])%bind_Some. done.
  - intros x (ob & _ & ([m o] & (_ & _ & Ho & _)%joined_sender_Some & [= <-])%bind_Some)%list_elem_of_omap. by apply order_exists.
  - unfold notice_candidates. rewrite (se_outbox _ _ S).
    apply (candidates_of_omap _ _ _ OutboxRecord.id); [right; right; right; left|done| | |auto].
    + exact (tbl_wf_NoDup (R:=OutboxRecord.row) _ (wf_outbox _ W)).
    + intros x c (o & _ & [= <-])%bind_Some. done.
  - intros x (ob & _ & (o & [Ho _]%joined_order_Some & [= <-])%bind_Some)%list_elem_of_omap. by apply order_exists.
Qed.

(** Everything that the tables to be dropped hold, and every notice, as events of the orders. *)
Record kept_as_events (d d' : Db.t) : Prop := {
  ke_observations ob : ob ∈ Db.observations d →
    recorded d' (Observation.order_id ob) ("downgrade-confirmation-" ++ str_uuid (Observation.id ob)) (observation_evidence ob);
  ke_webhooks e m : e ∈ Db.resend_webhook_events d → m ∈ Db.outbox d →
    OutboxRecord.provider_message_id m = Some (ResendWebhookEvent.provider_message_id e) →
    recorded d' (OutboxRecord.order_id m) ("downgrade-resend-" ++ str_uuid (ResendWebhookEvent.id e)) (webhook_evidence e);
  ke_attempts a m : a ∈ Db.notification_attempts d → m ∈ Db.outbox d → OutboxRecord.id m = NotificationAttempt.outbox_id a →
    recorded d' (OutboxRecord.order_id m) ("downgrade-attempt-" ++ str_uuid (NotificationAttempt.id a)) (attempt_evidence a);
  ke_notices m : m ∈ Db.outbox d →
    recorded d' (OutboxRecord.order_id m) ("downgrade-notification-" ++ str_uuid (OutboxRecord.id m)) (notice_record m) }.

Lemma joined_sender_of d0 (P : OutboxRecord.row → bool) m :
  m ∈ Db.outbox d0 → P m = true → (∀ m', m' ∈ Db.outbox d0 → P m' = true → m' = m) →
  exists_id Order.id (OutboxRecord.order_id m) (Db.orders d0) = true →
  ∃ o, joined_sender d0 P = Some (m, o) ∧ Order.id o = OutboxRecord.order_id m.
Proof.
  intros Hm HP Hu Ho. unfold joined_sender. rewrite (find_row_unique P (Db.outbox d0) m Hm HP Hu). cbn [mbind option_bind].
  destruct (joined_order_exists _ _ Ho) as [o Hj]. rewrite Hj. exists o. split; [done|]. by apply joined_order_Some in Hj as [_ ?].
Qed.
Lemma evidence_is_kept d d0 : downgradable d → same_evidence d d0 → (∀ e, e ∈ Db.state_events d0 → event_from d [] e) →
  ∃ more, run_statements (_downgrade_evidence_statements md5_uuid) d0 = Ok (with_events d0 (Db.state_events d0 ++ more)) ∧
    kept_as_events d (with_events d0 (Db.state_events d0 ++ more)).
Proof.
  intros D S Hfrom. pose proof (dg_wf _ D) as W. destruct (dg_orders _ D) as (Fo & Fm & Fa).
  assert (∀ m, m ∈ Db.outbox d → exists_id Order.id (OutboxRecord.order_id m) (Db.orders d0) = true) as Fm'.
  { intros m Hm. rewrite (se_orders _ _ S). specialize (Fm m Hm). simpl in Fm. by apply andb_true_iff in Fm as [? _]. }
  destruct (run_evidence_goes d d0 D evidence_sources []) as (more & E & Hrec); [by intros; apply (source_candidates d)|
    |by intros ? ?%not_elem_of_nil|done|].
  { rewrite app_nil_r. unfold evidence_sources. cbn [map fst]. apply (bool_decide_unpack _). vm_compute. exact I. }
  exists more. split; [exact E|]. split.
  - intros ob Hob. destruct (joined_order_exists d0 (Observation.order_id ob)) as [o Ho]; [by rewrite (se_orders _ _ S); apply Fo|].
    pose proof (joined_order_Some _ _ _ Ho) as [_ <-].
    refine (Hrec "downgrade-confirmation-" observation_candidates (mk_candidate _ o _ _) _ _); [left|].
    apply list_elem_of_omap. exists ob. rewrite (se_observations _ _ S), Ho. by split.
  - intros e m He Hm Ep. destruct (joined_sender_of d0 (SqlResendWebhookStore.by_provider_message (ResendWebhookEvent.provider_message_id e)) m)
      as (o & Ho & <-); [by rewrite (se_outbox _ _ S)|by apply bool_decide_true| |by apply Fm'|].
    { rewrite (se_outbox _ _ S). intros m' Hm' Ep'%bool_decide_eq_true. apply (tbl_wf_clash (R:=OutboxRecord.row) _ _ _ (wf_outbox _ W) Hm' Hm).
      simpl. unfold OutboxRecord.clash. rewrite Ep', Ep. simpl. by rewrite (bool_decide_true (_ = _) eq_refl), !orb_true_r. }
    refine (Hrec "downgrade-resend-" webhook_candidates (mk_candidate _ o _ _) _ _); [right; left|].
    apply list_elem_of_omap. exists e. rewrite (se_webhooks _ _ S), Ho. by split.
  - intros a m Ha Hm Ei. destruct (joined_sender_of d0 (λ m, OutboxRecord.id m == NotificationAttempt.outbox_id a) m)
      as (o & Ho & <-); [by rewrite (se_outbox _ _ S)|by apply bool_decide_true| |by apply Fm'|].
    { rewrite (se_outbox _ _ S). intros m' Hm' Ei'%bool_decide_eq_true. apply (tbl_wf_id (R:=OutboxRecord.row) _ _ _ (wf_outbox _ W) Hm' Hm).
      simpl. congruence. }
    refine (Hrec "downgrade-attempt-" attempt_candidates (mk_candidate _ o _ _) _ _); [right; right; left|].
    apply list_elem_of_omap. exists a. rewrite (se_attempts _ _ S), Ho. by split.
  - intros m Hm. destruct (joined_order_exists d0 (OutboxRecord.order_id m)) as [o Ho]; [by apply Fm'|].
    pose proof (joined_order_Some _ _ _ Ho) as [_ <-].
    refine (Hrec "downgrade-notification-" notice_candidates (mk_candidate _ o _ _) _ _); [right; right; right; left|].
    apply list_elem_of_omap. exists m. rewrite (se_outbox _ _ S), Ho. by split.
Qed.

Lemma str_uuid_inj u u' : 0 <= u < 2 ^ 128 → 0 <= u' < 2 ^ 128 → str_uuid u = str_uuid u' → u = u'.
Proof. intros Hu Hu' E. by apply (prefix_text_inj "" u u'). Qed.
Lemma order_id_range l o : tbl_wf (R:=Order.row) l → o ∈ l → 0 <= Order.id o < 2 ^ 128.
Proof. intros [Hk _] Ho. specialize (Hk o Ho). simpl in Hk. unfold Order.check in Hk. rewrite !andb_true_iff in Hk. lia. Qed.
Lemma order_of_reference d o o' : tbl_wf (Db.orders d) → o ∈ Db.orders d → o' ∈ Db.orders d →
  Order.order_reference o = Order.order_reference o' → o = o'.
Proof.
  intros W Ho Ho' E. apply (tbl_wf_clash (R:=Order.row) _ _ _ W Ho Ho'). simpl. unfold Order.clash.
  rewrite (bool_decide_true _ E). by destruct (Order.id o == Order.id o').
Qed.
Lemma notice_version d m version : downgradable d → m ∈ Db.outbox d → OutboxRecord.proof_version m = Some version → 0 <= version.
Proof.
  intros D Hm E. pose proof (proj1 (wf_outbox _ (dg_wf _ D)) m Hm) as Hc. simpl in Hc. unfold OutboxRecord.check in Hc.
  rewrite !andb_true_iff, E in Hc. lia.
Qed.
Lemma legacy_key_prefix s : String.prefix "timestamp-complete-v" ("timestamp-complete-v" ++ s) = true.
Proof. by destruct s. Qed.

(** *** The orders and the notices *)

Lemma record_unsupported_goes d : downgradable d →
  let event := unsupported_event md5_uuid now d in
  let d1 := d <| Db.state_events := (Db.state_events d ++
              map event (List.filter (unsupported_delivery d) (Db.orders d)))%list |> in
  record_unsupported md5_uuid now d = Ok d1 ∧ ∀ e, e ∈ Db.state_events d1 → event_from d [] e.
Proof.
  intros D event d1. pose proof (wf_orders _ (dg_wf _ D)) as Wo.
  assert (∀ o, o ∈ Db.orders d → hashed d (unsupported_text o)) as Hh by (intros o Ho; left; by exists o).
  split.
  - refine (record_review_goes md5_uuid now _ _ _ _ _ d Wo _ _ _).
    + intros e He E. pose proof (dg_events _ D e He) as Hk. by rewrite E in Hk.
    + intros o e Ho He. apply (dg_old _ D _ _ (Hh o Ho) He).
    + intros o o' Ho Ho' E. apply (dg_hash _ D _ _ (Hh o Ho) (Hh o' Ho')) in E.
      apply app_inj_length in E as [E _]; [|by rewrite !length_str_uuid]. apply (orders_unique d); [done..|].
      apply (str_uuid_inj); [by apply (order_id_range (Db.orders d))..|done].
  - intros e [He|(o & -> & [Ho _]%elem_of_filter_rows)%list_elem_of_fmap]%elem_of_app; [by left|right; left]. by exists o.
Qed.

(** The notices of the old form, and the final ones that it cannot represent. *)
Definition downgraded_notice (d : Db.t) (m : OutboxRecord.row) : OutboxRecord.row :=
  let m' := default m (returned d m) in if is_final m' then unrepresentable m' else m'.
Lemma returned_fields d m :
  let m' := default m (returned d m) in
  OutboxRecord.id m' = OutboxRecord.id m ∧ OutboxRecord.order_id m' = OutboxRecord.order_id m ∧
  OutboxRecord.provider_message_id m' = OutboxRecord.provider_message_id m ∧
  OutboxRecord.confirmation_observation_id m' = OutboxRecord.confirmation_observation_id m ∧
  OutboxRecord.check m' = OutboxRecord.check m.
Proof.
  unfold returned. destruct (_ == _); [|done]. destruct (OutboxRecord.proof_version m); [|done]. cbn [mbind option_bind].
  by destruct (joined_order d (OutboxRecord.order_id m)).
Qed.
Lemma returned_Some d m m' : returned d m = Some m' →
  OutboxRecord.kind m = "bitcoin-confirmed-initial" ∧ ∃ version order, OutboxRecord.proof_version m = Some version ∧
    order ∈ Db.orders d ∧ Order.id order = OutboxRecord.order_id m ∧ m' = legacy_notice d m version order.
Proof.
  unfold returned. destruct (bool_decide _) eqn:E; [|done]. apply bool_decide_eq_true in E.
  intros (v & Hv & H)%bind_Some. apply bind_Some in H as (o & [Ho Hi]%joined_order_Some & [= <-]). split; [done|]. by exists v, o.
Qed.
Lemma legacy_key_inj v v' r r' : 0 <= v → 0 <= v' →
  ("timestamp-complete-v" ++ str_int v ++ "-" ++ r)%string = ("timestamp-complete-v" ++ str_int v' ++ "-" ++ r')%string →
  v = v' ∧ r = r'.
Proof.
  intros Hv Hv' E. apply app_inj_length in E as [_ E]; [|done]. apply (notice_key_inj v v' r r' Hv Hv'). by rewrite E.
Qed.
Lemma return_notices_goes d d0 : downgradable d → same_evidence d d0 → tbl_wf (Db.orders d0) →
  let l := map (λ m, default m (returned d0 m)) (Db.outbox d0) in
  return_notices d0 = Ok (d0 <| Db.outbox := l |>) ∧ unclashed l.
Proof.
  intros D S Wo l. pose proof (wf_outbox _ (dg_wf _ D)) as W. destruct (dg_orders _ D) as (_ & Fm & _).
  assert (unclashed (Db.outbox d0)) as Hu by (rewrite (se_outbox _ _ S); exact (proj2 W)).
  assert (∀ m, OutboxRecord.id (default m (returned d0 m)) = OutboxRecord.id m) as Hid by (intros m; apply returned_fields).
  assert (return_notices d0 = Ok (d0 <| Db.outbox := map (λ m, if is_some (returned d0 m) then default m (returned d0 m) else m) (Db.outbox d0) |>)) as E.
  { refine (update_where_goes (R:=OutboxRecord.row) checked_notice_refused (λ m, default m (returned d0 m)) Hid (λ m, is_some (returned d0 m)) d0 Hu _ _).
    - intros t m Hm _. assert (m ∈ Db.outbox d) as Hm' by by rewrite <-(se_outbox _ _ S).
      destruct (returned_fields d0 m) as (_ & Eo & _ & Eob & Ec). unfold checked_notice_refused.
      assert (row_fk (set_tbl t d0) (default m (returned d0 m)) = true) as ->.
      { specialize (Fm m Hm'). simpl in Fm |- *. rewrite Eo, Eob, (se_orders _ _ S), (se_observations _ _ S). exact Fm. }
      rewrite Ec. pose proof (proj1 W m Hm') as Hc. simpl in Hc. by rewrite Hc.
    - intros r s Hr Hs Hret Hne.
      destruct (proj1 (outbox_apart r s) (unclashed_apart (Db.outbox d0) r s Hu Hr Hs Hne)) as (Hi & _ & Hp).
      destruct (returned_fields d0 r) as (E1 & _ & E2 & _), (returned_fields d0 s) as (E1' & _ & E2' & _).
      change (r ∈ Db.outbox d0) in Hr. change (s ∈ Db.outbox d0) in Hs. rewrite (se_outbox _ _ S) in Hr, Hs. destruct (returned d0 r) as [r'|] eqn:Er; [clear Hret|done].
      cbn [default] in *. pose proof (returned_Some _ _ _ Er) as (Kr & v & o & Vr & Ho & Hoi & ->).
      split; [|intros Hret; destruct (returned d0 s) as [s'|] eqn:Es; [clear Hret|done]; cbn [default] in *].
      + apply outbox_apart. rewrite E1, E2. split_and!; [done| |done]. intros Ek. pose proof (dg_keys _ D s Hs) as Hk.
        rewrite <-Ek in Hk. pose proof (legacy_key_prefix (str_int v ++ "-" ++ Order.order_reference o)) as Hpre.
        exact (eq_true_false_abs _ Hpre Hk).
      + pose proof (returned_Some _ _ _ Es) as (Ks & v' & o' & Vs & Ho' & Hoi' & ->).
        apply outbox_apart. rewrite E1, E2, E1', E2'. split_and!; [done| |done]. intros Ek.
        apply legacy_key_inj in Ek as [-> Eref]; [|by apply (notice_version d r)|by apply (notice_version d s)].
        apply Hi. f_equal. apply (dg_notices _ D r s v'); try done. rewrite <-Hoi, <-Hoi'. f_equal.
        by apply (order_of_reference d0). }
  assert (map (λ m, if is_some (returned d0 m) then default m (returned d0 m) else m) (Db.outbox d0) = l) as El.
  { apply map_ext. intros m. by destruct (returned d0 m). }
  rewrite El in E. split; [done|]. rewrite <-El.
  exact (proj2 (update_where_result (R:=OutboxRecord.row) checked_notice_refused _ Hid (λ m, is_some (returned d0 m)) d0 _ Hu (eq_trans E (f_equal _ (f_equal (λ l, d0 <| Db.outbox := l |>) (eq_sym El)))))).
Qed.
Lemma bury_final_goes d0 :
  unclashed (Db.outbox d0) → (∀ m, m ∈ Db.outbox d0 → row_fk d0 m = true ∧ OutboxRecord.check m = true) →
  bury_final_notices d0 = Ok (d0 <| Db.outbox := map (λ m, if is_final m then unrepresentable m else m) (Db.outbox d0) |>).
Proof.
  intros Hu Hok.
  refine (update_where_goes (R:=OutboxRecord.row) checked_notice_refused unrepresentable (λ m, eq_refl) is_final d0 Hu _ _).
  - intros t m Hm _. destruct (Hok m Hm) as [Hf Hc]. unfold checked_notice_refused.
    assert (row_fk (set_tbl t d0) (unrepresentable m) = true) as -> by exact Hf. by rewrite (Hc : OutboxRecord.check (unrepresentable m) = true).
  - intros r s Hr Hs _ Hne. pose proof (unclashed_apart (Db.outbox d0) r s Hu Hr Hs Hne) as Hc. split; [exact Hc|intros _; exact Hc].
Qed.

(** The notice in the old form that the trigger of the earlier schema accepts, for the version it is about. *)
Definition delivered_notice (d : Db.t) (o : Order.row) : Prop :=
  ∃ m, m ∈ Db.outbox d ∧ OutboxRecord.order_id m = Order.id o ∧ OutboxRecord.state m = OB_DELIVERED ∧
    is_some (OutboxRecord.provider_message_id m) = true ∧ is_some (OutboxRecord.delivered_at m) = true ∧
    ∀ p, OutboxRecord.proof_version m = Some (ProofVersion.version p) → legacy_sender o p m = true.

Lemma returned_ok d d0 m : downgradable d → same_evidence d d0 →
  let d1 := d0 <| Db.outbox := map (λ m, default m (returned d0 m)) (Db.outbox d0) |> in
  m ∈ Db.outbox d1 → row_fk d1 m = true ∧ OutboxRecord.check m = true.
Proof.
  intros D S d1 (x & -> & Hx)%list_elem_of_fmap. destruct (returned_fields d0 x) as (_ & Eo & _ & Eob & ->).
  rewrite (se_outbox _ _ S) in Hx. split; [|exact (proj1 (wf_outbox _ (dg_wf _ D)) x Hx)].
  pose proof (proj1 (proj2 (dg_orders _ D)) x Hx) as Hf. simpl in Hf |- *.
  rewrite Eo, Eob, (se_orders _ _ S), (se_observations _ _ S). exact Hf.
Qed.

Lemma delivered_downgraded d d0 o :
  downgradable d → tbl_wf (Db.orders d0) → Db.resend_webhook_events d0 = Db.resend_webhook_events d →
  o ∈ Db.orders d0 → delivery_signed d (Order.id o) = true →
  ∃ m, m ∈ Db.outbox d ∧ let m' := downgraded_notice d0 m in
    OutboxRecord.order_id m' = Order.id o ∧ OutboxRecord.state m' = OB_DELIVERED ∧
    is_some (OutboxRecord.provider_message_id m') = true ∧ is_some (OutboxRecord.delivered_at m') = true ∧
    ∀ p, OutboxRecord.proof_version m' = Some (ProofVersion.version p) → legacy_sender o p m' = true.
Proof.
  intros D W Ew Ho (m & Hm%list_elem_of_In & H)%existsb_exists. rewrite !andb_true_iff, !bool_decide_eq_true in H.
  destruct H as (((Hsig & Hoi) & Hk) & Hdel). exists m. split; [done|].
  pose proof Hdel as Hdel'. unfold delivered_in_time in Hdel'. rewrite !andb_true_iff, bool_decide_eq_true in Hdel'.
  destruct Hdel' as ((Hst & _) & Hdat).
  assert (is_some (OutboxRecord.provider_message_id m) = true) as Hp.
  { unfold signed_delivery_event in Hsig. apply existsb_exists in Hsig as (e & _ & He).
    rewrite andb_true_iff, bool_decide_eq_true in He. destruct He as [<- _]. done. }
  assert (signed_delivery_event d0 m = true) as Hsig' by (unfold signed_delivery_event in *; by rewrite Ew).
  unfold downgraded_notice. cbv zeta. destruct (returned d0 m) as [m'|] eqn:Er; cbn [default]; unfold id.
  - apply returned_Some in Er as (_ & v & o' & Hv & Ho' & Hoi' & ->).
    assert (o' = o) as -> by (apply (orders_unique d0); [done..|congruence]).
    assert (is_final (legacy_notice d0 m v o) = false) as -> by done.
    unfold legacy_notice. cbn [OutboxRecord.order_id OutboxRecord.state]. rewrite Hdel, Hsig', (bool_decide_true _ Hst). cbn.
    split_and!; [done..|]. intros p E. rewrite Hv in E. injection E as ->. unfold legacy_sender. cbn.
    by rewrite !bool_decide_true, Hp, Hdat.
  - assert (is_final m = false) as -> by (unfold is_final; by rewrite Hk).
    split_and!; [done..|]. intros p E. exfalso. unfold returned in Er. rewrite (bool_decide_true _ Hk), E in Er. cbn [mbind option_bind] in Er.
    destruct (joined_order_exists d0 (OutboxRecord.order_id m)) as [o' Hj]; [|by rewrite Hj in Er].
    rewrite Hoi. by apply order_exists.
Qed.

(** C20: Let the database keep its constraints and column types, with no event of an earlier downgrade, no key of an old
    notice, and one initial notice at most for a proof version; and let md5 not collide on the
    texts it is given.  Then the downgrade loses no evidence.  It is refused, and changes nothing,
    exactly when a signed event is about a message that is not there.  Otherwise it goes through;
    every event in the history of an order stays; what the tables to be dropped hold (each
    observation of a block, each signed event, each attempt to send), and every notice as it was,
    is kept as an event of the order it belongs to, under a key that names it; and an order that
    is still shown as delivered has a notice in the old form whose delivery the provider had
    signed; the others are back in review.  (A second downgrade finds the events of the first, and
    leaves a notice out that has changed since: second_downgrade_leaves_a_notice_out.) *)
Theorem resend_downgrade_keeps_evidence d (D : downgradable d) :
  if existsb (unmatched d) (Db.resend_webhook_events d)
  then resend_downgrade md5_uuid now d =
    Raise (DatabaseError "unsafe delivery downgrade: unmatched Resend webhook evidence cannot be represented")
  else ∃ d', resend_downgrade md5_uuid now d = Ok d' ∧
    (∃ more, Db.state_events d' = (Db.state_events d ++ more)%list) ∧ kept_as_events d d' ∧
    (∀ o, o ∈ Db.orders d → (if unsupported_delivery d o then reviewed now o else o) ∈ Db.orders d') ∧
    (∀ o', o' ∈ Db.orders d' → Order.fulfillment_state o' = DELIVERED → o' ∈ Db.orders d ∧ delivered_notice d' o').
Proof.
  unfold resend_downgrade, refuse_unmatched. destruct (existsb (unmatched d) _); [done|]. cbn [result_bind].
  pose proof (dg_wf _ D) as W. destruct (record_unsupported_goes d D) as [-> Hfrom]. cbn [result_bind].
  set (d1 := d <| Db.state_events := _ |>) in *.
  assert (review_unsupported now d1 = Ok (d1 <| Db.orders := map (λ o, if unsupported_delivery d o then reviewed now o else o) (Db.orders d) |>)) as ->.
  { refine (review_goes now 2 (unsupported_delivery d) d1 (or_intror eq_refl) _ (wf_orders _ W)).
    by intros o [?%bool_decide_eq_true _]%andb_true_iff. }
  cbn [result_bind]. set (d2 := d1 <| Db.orders := _ |>) in *.
  assert (same_evidence d d2) as S.
  { split; try done. intros u. simpl. apply exists_id_map. intros o. by destruct (unsupported_delivery d o). }
  destruct (evidence_is_kept d d2 D S Hfrom) as (more & -> & Hkept). cbn [result_bind].
  set (d3 := with_events d2 _) in *.
  assert (tbl_wf (Db.orders d3)) as Wo by by apply reviewed_where_wf, W; intros o [?%bool_decide_eq_true _]%andb_true_iff.
  assert (same_evidence d d3) as S3 by (destruct S; by split).
  destruct (return_notices_goes d d3 D S3 Wo) as [-> Hu]. cbn [result_bind].
  rewrite bury_final_goes; [|exact Hu|by intros m; apply (returned_ok d d3 m D S3)].
  cbn [result_bind]. eexists. split_and!; [reflexivity|..].
  - eexists. cbn. by rewrite <-app_assoc.
  - destruct Hkept as [H1 H2 H3 H4]. split; [exact H1|exact H2|exact H3|exact H4].
  - intros o Ho. exact (list_elem_of_fmap_2 (λ o, if unsupported_delivery d o then reviewed now o else o) _ _ Ho).
  - intros o' Hin Hd. pose proof Hin as (o & -> & Ho)%list_elem_of_fmap. destruct (unsupported_delivery d o) eqn:Eu; [discriminate Hd|].
    split; [exact Ho|]. unfold unsupported_delivery, is_delivered in Eu. rewrite (bool_decide_true _ Hd) in Eu.
    apply negb_false_iff in Eu. destruct (delivered_downgraded d d3 o D Wo eq_refl) as (m & Hm & Hall); [|exact Eu|].
    { pose proof (list_elem_of_fmap_2 (λ o, if unsupported_delivery d o then reviewed now o else o) _ _ Ho) as Hr.
      cbv beta in Hr. unfold unsupported_delivery at 1, is_delivered in Hr. by rewrite (bool_decide_true _ Hd), Eu in Hr. }
    exists (downgraded_notice d3 m). split; [|exact Hall].
    change (downgraded_notice d3 m ∈ map (λ m, if is_final m then unrepresentable m else m)
      (map (λ m, default m (returned d3 m)) (Db.outbox d))). rewrite map_map.
    exact (list_elem_of_fmap_2 (downgraded_notice d3) _ _ Hm).
Qed.
End Downgrade.

(** ** The migrations on a concrete database

    The order of [Scenario], delivered; then brought back to the earlier schema. *)
From S2P Require Import Scenario.

Fixpoint tbl_check {R} `{Table R} (l : list R) : bool :=
  match l with [] => true | r :: l' => row_check r && fits l' r && tbl_check l' end.
Lemma tbl_check_wf {R} `{TableLaws R} (l : list R) : tbl_check l = true → tbl_wf l.
Proof.
  induction l as [|r l IH]; [intros _; apply tbl_wf_nil|]. cbn [tbl_check]. rewrite !andb_true_iff, fits_spec.
  intros [[Hr Hf] [Hk Hu]%IH]. split; [by intros s [->|?]%elem_of_cons; [|apply Hk]|].
  intros [|i] [|j] a b Hi Hj Hne; simpl in Hi, Hj; simplify_eq.
  - apply Hf. by eapply list_elem_of_lookup_2.
  - rewrite row_clash_sym. apply Hf. by eapply list_elem_of_lookup_2.
  - apply (Hu i j); congruence.
Qed.
Definition db_check (d : Db.t) : bool :=
  tbl_check (Db.orders d) && tbl_check (Db.order_tokens d) && tbl_check (Db.idempotency_requests d) &&
  tbl_check (Db.rate_counters d) && tbl_check (Db.stripe_events d) && tbl_check (Db.durable_jobs d) &&
  tbl_check (Db.task_dispatches d) && tbl_check (Db.job_attempts d) && tbl_check (Db.proof_versions d) &&
  tbl_check (Db.proof_verifications d) && tbl_check (Db.proof_bundles d) && tbl_check (Db.observations d) &&
  tbl_check (Db.state_events d) && tbl_check (Db.outbox d) && tbl_check (Db.notification_attempts d) &&
  tbl_check (Db.resend_webhook_events d).
Lemma db_check_wf d : db_check d = true → db_wf d.
Proof.
  unfold db_check. rewrite !andb_true_iff. intros H. repeat match goal with H : _ ∧ _ |- _ => destruct H end.
  split; by apply tbl_check_wf.
Qed.
Lemma forallb_elem {A} (P : A → bool) l : forallb P l = true → ∀ x, x ∈ l → P x = true.
Proof. rewrite forallb_forall. intros Hf x Hx. by apply Hf, list_elem_of_In. Qed.
Definition pairs {A} (P : A → A → bool) (l : list A) : bool := forallb (λ x, forallb (P x) l) l.
Lemma pairs_elem {A} (P : A → A → bool) l : pairs P l = true → ∀ x y, x ∈ l → y ∈ l → P x y = true.
Proof. intros H x y Hx Hy. exact (forallb_elem _ _ (forallb_elem _ _ H x Hx) y Hy). Qed.

(** A stand-in for the hash: the text read as a number, modulo a number of 128 bits. *)
Definition stand_in (text : string) : uuid := int_from_bytes_big (encode text) mod (2 ^ 128 - 159).
Definition migrated_at : Z := start + hours 100.

(** *** The downgrade *)

Definition kept_ids (d : Db.t) : list uuid :=
  (map Observation.id (Db.observations d) ++ map ResendWebhookEvent.id (Db.resend_webhook_events d) ++
   map NotificationAttempt.id (Db.notification_attempts d) ++ map OutboxRecord.id (Db.outbox d))%list.
Lemma elem_of_kept_ids d u : u ∈ kept_ids d ↔
  u ∈ map Observation.id (Db.observations d) ∨ u ∈ map ResendWebhookEvent.id (Db.resend_webhook_events d) ∨
  u ∈ map NotificationAttempt.id (Db.notification_attempts d) ∨ u ∈ map OutboxRecord.id (Db.outbox d).
Proof. unfold kept_ids. by rewrite !elem_of_app. Qed.
Definition texts (d : Db.t) : list string :=
  (map unsupported_text (Db.orders d) ++ flat_map (λ p, map (λ u, (p ++ str_uuid u)%string) (kept_ids d)) prefixes)%list.
Lemma hashed_texts d s : hashed d s → s ∈ texts d.
Proof.
  intros [(o & Ho & ->)|(p & u & Hp & -> & Hu%elem_of_kept_ids)]; apply elem_of_app; [left|right].
  - exact (list_elem_of_fmap_2 unsupported_text _ _ Ho).
  - apply list_elem_of_In, in_flat_map. exists p. rewrite <-!list_elem_of_In. split; [done|].
    exact (list_elem_of_fmap_2 (λ u, (p ++ str_uuid u)%string) _ _ Hu).
Qed.
Definition downgrade_check (d : Db.t) : bool :=
  db_check d && forallb (λ u, (0 <=? u) && (u <? 2 ^ 128)) (kept_ids d) &&
  forallb (λ e, negb (String.prefix "downgrade-" (StateEvent.event_key e))) (Db.state_events d) &&
  forallb (λ s, forallb (λ e, stand_in s != StateEvent.id e) (Db.state_events d)) (texts d) &&
  pairs (λ s s', (stand_in s != stand_in s') || (s == s')) (texts d) &&
  forallb (λ ob, exists_id Order.id (Observation.order_id ob) (Db.orders d)) (Db.observations d) &&
  forallb (row_fk d) (Db.outbox d) &&
  forallb (λ a, exists_id OutboxRecord.id (NotificationAttempt.outbox_id a) (Db.outbox d)) (Db.notification_attempts d) &&
  forallb (λ m, negb (String.prefix "timestamp-complete-v" (OutboxRecord.message_key m))) (Db.outbox d) &&
  (List.length (List.filter (λ m, OutboxRecord.kind m == "bitcoin-confirmed-initial") (Db.outbox d)) <=? 1)%nat.
Lemma at_most_one {A} (P : A → bool) l x y : (List.length (List.filter P l) <=? 1)%nat = true →
  x ∈ l → y ∈ l → P x = true → P y = true → x = y.
Proof.
  intros Hl Hx Hy Px Py. assert (x ∈ List.filter P l ∧ y ∈ List.filter P l) as [Hx' Hy'] by (split; by apply elem_of_filter_rows).
  destruct (List.filter P l) as [|z [|]]; [by apply not_elem_of_nil in Hx'| |done].
  apply list_elem_of_singleton in Hx', Hy'. congruence.
Qed.
Lemma downgrade_check_ok d : downgrade_check d = true → downgradable stand_in d.
Proof.
  unfold downgrade_check. rewrite !andb_true_iff.
  intros [[[[[[[[[Hw Hi] He] Ho] Hp] F1] F2] F3] Hk] Hn]. split.
  - by apply db_check_wf.
  - intros u Hu%elem_of_kept_ids. pose proof (forallb_elem _ _ Hi u Hu) as H. simpl in H. lia.
  - intros e Hin. by apply negb_true_iff, (forallb_elem _ _ He).
  - intros s e Hs%hashed_texts Hin. pose proof (forallb_elem _ _ (forallb_elem _ _ Ho s Hs) e Hin) as H.
    by apply negb_true_iff, bool_decide_eq_false in H.
  - intros s s' Hs%hashed_texts Hs'%hashed_texts E. pose proof (pairs_elem _ _ Hp s s' Hs Hs') as H.
    apply orb_true_iff in H as [H|H]; [by apply negb_true_iff, bool_decide_eq_false in H|by apply bool_decide_eq_true in H].
  - split_and!; by apply forallb_elem.
  - intros m Hin. by apply negb_true_iff, (forallb_elem _ _ Hk).
  - intros m m' v Hm Hm' K K' _ _ _. apply (at_most_one _ _ m m' Hn Hm Hm'); by apply bool_decide_true.
Qed.
Lemma delivered_downgradable : downgradable stand_in (World.db delivered).
Proof. apply downgrade_check_ok. vm_compute. reflexivity. Qed.

Definition legacy_of (r : result Db.t) : Db.t := match r with Ok d => d | Raise _ => Db.empty end.
Definition legacy_db : Db.t := legacy_of (resend_downgrade stand_in migrated_at (World.db delivered)).

Lemma resend_downgrade_keeps_evidence_witness :
  ∃ d', resend_downgrade stand_in migrated_at (World.db delivered) = Ok d' ∧
    kept_as_events (World.db delivered) d' ∧
    ∃ o, o ∈ Db.orders d' ∧ Order.fulfillment_state o = DELIVERED ∧ delivered_notice d' o.
Proof.
  pose proof (resend_downgrade_keeps_evidence stand_in migrated_at (World.db delivered) delivered_downgradable) as H.
  assert (existsb (unmatched (World.db delivered)) (Db.resend_webhook_events (World.db delivered)) = false) as E
    by (vm_compute; reflexivity).
  rewrite E in H. destruct H as (d' & Hd & _ & Hk & _ & Ho). exists d'. split; [exact Hd|]. split; [exact Hk|].
  assert (map Order.fulfillment_state (Db.orders (legacy_of (Ok d'))) = [DELIVERED]) as Es
    by (rewrite <-Hd; vm_compute; reflexivity).
  cbn [legacy_of] in Es. destruct (Db.orders d') as [|o []] eqn:Eo; try discriminate Es.
  injection Es as Es. exists o. split; [left|]. split; [exact Es|]. apply Ho; [left|exact Es].
Defined.

(** *** The upgrade *)

Definition legacy_check (d : Db.t) : bool :=
  db_check (d <| Db.outbox := [] |> <| Db.observations := [] |> <| Db.notification_attempts := [] |>
              <| Db.resend_webhook_events := [] |>) &&
  tbl_check (Db.outbox d) &&
  forallb (λ m, (0 <=? OutboxRecord.attempt_count m) &&
    (is_none (OutboxRecord.lease_until m) || is_some (OutboxRecord.lease_owner m)) &&
    exists_id Order.id (OutboxRecord.order_id m) (Db.orders d)) (Db.outbox d) &&
  forallb (λ v, exists_version (ProofVerification.order_id v) (ProofVerification.proof_version v) d) (Db.proof_verifications d) &&
  forallb is_delivered (Db.orders d) &&
  (List.length (List.filter is_legacy (Db.outbox d)) <=? 1)%nat &&
  forallb (λ m, negb (String.prefix "bitcoin-confirmed-initial-v" (OutboxRecord.message_key m))) (Db.outbox d) &&
  forallb (λ m, forallb (λ o, OutboxRecord.recipient m == Order.email o) (Db.orders d)) (Db.outbox d) &&
  forallb (λ e, StateEvent.event_key e != "migration-20260827-legacy-delivery-manual-review") (Db.state_events d).
Lemma legacy_check_ok d : legacy_check d = true → legacy_database d.
Proof.
  unfold legacy_check. rewrite !andb_true_iff. intros [[[[[[[[Hw Hx] Hm] Hv] Hd] Hn] Hk] Hr] He]. split.
  - by apply db_check_wf.
  - by apply tbl_check_wf in Hx as [_ ?].
  - intros m Hin. pose proof (forallb_elem _ _ Hm m Hin) as H. simpl in H. rewrite !andb_true_iff in H.
    destruct H as [[? ?] ?]. split_and!; [lia|done|done].
  - by apply forallb_elem.
  - intros o Ho Hs. pose proof (forallb_elem _ _ Hd o Ho) as H. by apply bool_decide_eq_true in H.
  - intros m m' Hin Hin' L L' _. by apply (at_most_one _ _ m m' Hn).
  - intros m Hin. by apply negb_true_iff, (forallb_elem _ _ Hk).
  - intros m o Hin _ Ho _. pose proof (forallb_elem _ _ (forallb_elem _ _ Hr m Hin) o Ho) as H.
    by apply bool_decide_eq_true in H.
  - intros e Hin. pose proof (forallb_elem _ _ He e Hin) as H. by apply negb_true_iff, bool_decide_eq_false in H.
Qed.
Lemma legacy_db_ok : legacy_database legacy_db.
Proof. apply legacy_check_ok. vm_compute. reflexivity. Qed.
Lemma legacy_db_fresh : md5_fresh stand_in migrated_at legacy_db.
Proof.
  assert (forallb (λ o, forallb (λ e, StateEvent.id (legacy_delivery_event stand_in migrated_at legacy_db o) != StateEvent.id e)
    (Db.state_events legacy_db)) (Db.orders legacy_db) = true) as H1 by (vm_compute; reflexivity).
  assert ((List.length (List.filter (λ _, true) (Db.orders legacy_db)) <=? 1)%nat = true) as H2 by (vm_compute; reflexivity).
  assert ((List.length (List.filter (λ _, true) (Db.proof_verifications legacy_db)) <=? 1)%nat = true) as H3 by (vm_compute; reflexivity).
  split.
  - intros o e Ho He. pose proof (forallb_elem _ _ (forallb_elem _ _ H1 o Ho) e He) as H. by apply negb_true_iff, bool_decide_eq_false in H.
  - intros o o' Ho Ho' _. by apply (at_most_one _ _ o o' H2).
  - intros v v' Hv Hv' _. by apply (at_most_one _ _ v v' H3).
Qed.
Lemma resend_upgrade_is_sound_witness :
  ∃ d' m m' o p v ob, resend_upgrade stand_in migrated_at legacy_db = Ok d' ∧ db_wf d' ∧ m ∈ Db.outbox legacy_db ∧
    carried d' m m' o p v ob.
Proof.
  destruct (resend_upgrade_is_sound stand_in migrated_at legacy_db legacy_db_ok legacy_db_fresh) as (d' & E & W & _ & _ & Hm).
  assert (existsb (λ m, is_legacy m && existsb (λ o, (Order.id o == OutboxRecord.order_id m) &&
    existsb (λ p, is_latest legacy_db (Order.id o) p &&
      existsb (λ v, (ProofVerification.order_id v == Order.id o) && (ProofVerification.proof_version v == ProofVersion.version p))
        (Db.proof_verifications legacy_db)) (Db.proof_versions legacy_db)) (Db.orders legacy_db)) (Db.outbox legacy_db) = true) as H
    by (vm_compute; reflexivity).
  apply existsb_exists in H as (m & Hin%list_elem_of_In & H). apply andb_true_iff in H as [Hl H].
  apply existsb_exists in H as (o & Ho%list_elem_of_In & H). apply andb_true_iff in H as [Hi%bool_decide_eq_true H].
  apply existsb_exists in H as (p & Hp%list_elem_of_In & H). apply andb_true_iff in H as [Hlat H].
  apply existsb_exists in H as (v & Hv%list_elem_of_In & H). apply andb_true_iff in H as [H1%bool_decide_eq_true H2%bool_decide_eq_true].
  apply bool_decide_eq_true in Hl.
  destruct (Hm m Hin Hl) as (m' & _ & _ & _ & _ & Hc).
  destruct (Hc o p v Ho Hi Hp Hlat Hv H1 H2) as (o' & v' & ob & Hc' & _).
  exists d', m, m', o', p, v', ob. split; [exact E|]. split; [exact W|]. split; [exact Hin|exact Hc'].
Defined.

(** One notice for an order is needed: a second one, for an earlier proof version, would be given
    the key of the latest version too, and the upgrade does not go through. *)
Definition two_notices : Db.t :=
  legacy_db <| Db.outbox := (Db.outbox legacy_db ++ map (λ m, m <| OutboxRecord.id := OutboxRecord.id m + 1 |>
      <| OutboxRecord.message_key := "timestamp-complete-v0" |> <| OutboxRecord.provider_message_id := None |>)
    (List.filter is_legacy (Db.outbox legacy_db)))%list |>.
Lemma two_notices_abort_the_upgrade :
  db_check two_notices = true ∧ resend_upgrade stand_in migrated_at two_notices = Raise IntegrityError.
Proof. split; vm_compute; reflexivity. Qed.

(** One downgrade is recorded: after the upgrade is run again, the notice is no longer the one that the
    event of the first downgrade keeps, and the second leaves it out because the key is taken. *)
Lemma second_downgrade_leaves_a_notice_out :
  ∃ d d' m, resend_upgrade stand_in migrated_at legacy_db = Ok d ∧ resend_downgrade stand_in migrated_at d = Ok d' ∧
    m ∈ Db.outbox d ∧ ¬ recorded d' (OutboxRecord.order_id m) ("downgrade-notification-" ++ str_uuid (OutboxRecord.id m)) (notice_record m).
Proof.
  assert (∃ d d' m0 m rest, resend_upgrade stand_in migrated_at legacy_db = Ok d ∧ resend_downgrade stand_in migrated_at d = Ok d' ∧
    Db.outbox d = m0 :: m :: rest ∧
    forallb (λ e, (StateEvent.event_key e != ("downgrade-notification-" ++ str_uuid (OutboxRecord.id m))) ||
                  (StateEvent.evidence e != notice_record m)) (Db.state_events d') = true) as (d & d' & m0 & m & rest & E & E' & Em & H).
  { eexists _, _, _, _, _. split; [vm_compute; reflexivity|]. split; [vm_compute; reflexivity|].
    split; [vm_compute; reflexivity|vm_compute; reflexivity]. }
  exists d, d', m. split_and!; [exact E|exact E'|rewrite Em; right; left|]. intros (e & He & _ & Hk & Hv).
  pose proof (forallb_elem _ _ H e He) as Hb. simpl in Hb. rewrite Hk, Hv, !bool_decide_eq_true_2 in Hb by reflexivity. discriminate Hb.
Qed.

Lemma tasks_upgrade_dispatches_witness :
  ∃ d' j t, tasks_upgrade stand_in migrated_at (World.db paid) = Ok d' ∧ j ∈ Db.durable_jobs d' ∧ t ∈ Db.task_dispatches d' ∧
    deterministic_task_name (DurableJob.id j) (DurableJob.generation j) = Ok (TaskDispatch.task_name t).
Proof.
  assert (tbl_check (Db.durable_jobs (World.db paid)) = true) as W by (vm_compute; reflexivity).
  assert ((List.length (List.filter (λ _, true) (Db.durable_jobs (World.db paid))) <=? 1)%nat = true) as H2 by (vm_compute; reflexivity).
  destruct (tasks_upgrade_dispatches stand_in migrated_at (World.db paid) (tbl_check_wf _ W)
    (λ j j' Hj Hj' _, at_most_one _ _ j j' H2 Hj Hj' eq_refl eq_refl)) as (d' & E & _ & _ & Ej & Hj & _).
  assert (existsb is_runnable (map first_generation (Db.durable_jobs (World.db paid))) = true) as H by (vm_compute; reflexivity).
  apply existsb_exists in H as (j & Hin%list_elem_of_In & Hr). rewrite <-Ej in Hin.
  destruct (Hj j Hin) as (_ & Ht). destruct (Ht Hr) as (t & Hin' & _ & _ & _ & _ & En).
  exists d', j, t. split; [exact E|]. split; [exact Hin|]. split; [exact Hin'|exact En].
Defined.
