(* ===== verification/Findings.v ===== *)
(** * What modelling showed

    Inputs on which the code does not do what it means to, each evaluated on the definitions
    that translate it. *)
From S2P Require Import Prelude PyStr PyFloat PyObject Json Domain Ports Db Session Url Settings Payments BitcoinRpc Webhooks Scenario Ots Receipt Bundle Api.

Open Scope string_scope.
Open Scope Z_scope.

(** [bytes.fromhex] skips white space: a block hash of 62 digits and two blanks is taken for one
    of 64 digits, by the RPC client and in a stored verification. *)
Definition blank_hash : string := bytes_hex (repeat x41 31) ++ "  ".
Example rpc_accepts_blank_hash :
  _hash_hex (OStr (wide blank_hash)) "malformed" = Ok blank_hash ∧ List.length <$> bytes_fromhex blank_hash = Some 31%nat.
Proof. split; vm_compute; reflexivity. Qed.
Example verification_accepts_blank_hash :
  _validate_verification {|
    BitcoinVerification.verified := true; BitcoinVerification.method := "rpc";
    BitcoinVerification.verified_at := Some (utc 0); BitcoinVerification.block_height := Some 1;
    BitcoinVerification.block_hash := Some blank_hash; BitcoinVerification.block_time := Some (utc 0);
    BitcoinVerification.confirmation_policy := Some "policy"; BitcoinVerification.confirmations := Some 1 |} = Ok tt.
Proof. vm_compute. reflexivity. Qed.

(** The bundler does demand 64 digits: a proof that was stored with such a hash is not bundled, though
    its times are whole seconds. *)
Example blank_hash_is_not_bundled :
  let value := sample_input 1709210000000000 (Some (sample_verification <| BitcoinVerification.block_hash := Some blank_hash |>)) in
  StoredProof.ok (ReceiptInput.proof value) ∧ whole_times (ReceiptInput.proof value) = true ∧
  DeterministicProofBundler.build (λ _ m, Ok m) sample_deserialize (ReceiptInput.proof value) (sample_receipt value)
    (context_of value) = Raise (ValueError "bitcoin_receipt_metadata_invalid").
Proof. split_and!; vm_compute; reflexivity. Qed.

(** The two receipts differ in the precision of their times: the bundler refuses a pending proof with
    a fraction of a second when it comes with the receipt of the delivery, and takes it with the
    receipt of the download route. *)
Example download_shows_microseconds :
  let value := sample_input 1709210000000001 None in
  let build r := DeterministicProofBundler.build (λ _ m, Ok m) sample_deserialize (ReceiptInput.proof value) r (context_of value) in
  build (sample_receipt value) = Raise (ValueError "receipt_calendar_time_mismatch") ∧
  ∃ receipt, _receipt (StoredProof.order_reference (ReceiptInput.proof value)) (ReceiptInput.certificate_reference value)
      (ManifestDigest.value sample_digest) (ReceiptInput.proof value) (ReceiptInput.service_version value) = Ok receipt ∧
    is_Ok (build (encode (dumps_compact true (JObj (sort_fields receipt))))).
Proof. split; [vm_compute; reflexivity|]. eexists. split; [vm_compute; reflexivity|]. eexists. vm_compute. reflexivity. Qed.

(** No number is below the threshold of a comparison with [NaN], which [json.loads] reads: a node
    that reports a progress of [NaN] counts as synchronised. *)
Definition nan_chain_info : string :=
  let member name value := char_str 34 ++ name ++ char_str 34 ++ ":" ++ value in
  "{" ++ member "chain" (char_str 34 ++ "main" ++ char_str 34) ++ "," ++ member "blocks" "1" ++ "," ++
  member "headers" "1" ++ "," ++
  member "bestblockhash" (char_str 34 ++ bytes_hex (repeat x41 32) ++ char_str 34) ++ "," ++
  member "initialblockdownload" "false" ++ "," ++ member "verificationprogress" "NaN" ++ "}".
Example nan_progress_is_synchronised :
  (try! info := loads (encode nan_chain_info) in chain_snapshot info) =
    Ok (_ChainSnapshot.mk 1 (bytes_hex (repeat x41 32))).
Proof. vm_compute. reflexivity. Qed.

(** An integer of more than 4300 digits makes [json.loads] raise a [ValueError] that is no
    [JSONDecodeError], which the callers do not catch. *)
Example long_integer_is_no_decode_error :
  let body := encode (string_of_list_ascii (repeat "1"%char 4301)) in
  ∃ message, loads body = Raise (ValueError message) ∧
    except_as is_decode_error (ResendWebhookSignatureError "invalid_resend_webhook_payload") (loads body) =
      Raise (ValueError message).
Proof. eexists. split; vm_compute; reflexivity. Qed.

(** A signature that is not ASCII makes [hmac.compare_digest] raise a [TypeError], which the route
    does not turn into its answer of 400. *)
Definition service0 : ResendWebhookService.t := ResendWebhookService.mk (repeat x41 32) 300.
Example foreign_signature_is_no_bad_request w :
  World.clock w (World.ticks w) = 0 →
  (resend_webhook (Some (ResendWebhookService.process service0 (λ _ _ _, ret (WebhookProcessResult.mk false true true))))
     (Some "msg_1") (Some "0") (Some ("v1," ++ String "233" "")) (encode "{}") w).1 =
  Raise (TypeError "comparing strings with non-ASCII characters is not supported").
Proof.
  intros H. unfold resend_webhook, bind at 1, now_utc. rewrite H. generalize (w <| World.ticks := S (World.ticks w) |>).
  intros w'. vm_compute. reflexivity.
Qed.

(** An empty query is no query for [urlsplit]: a checkout URL that ends in a question mark
    passes. *)
Example empty_query_passes :
  _validate_checkout_url (λ _, true) "https://checkout.stripe.com/c/pay/cs_test_1?" "cs_test_1" PAY_FIXTURE = Ok tt.
Proof. vm_compute. reflexivity. Qed.
